(* ===== verification/_CoqProject ===== *)
-Q . S2P
Prelude.v
Text.v
CFloat.v
AdpfTypes.v
UClampVoter.v
SessionMetrics.v
SessionRecords.v
SessionTaskMap.v
BackgroundWorker.v
GpuNode.v
PowerSessionManager.v
PowerThreads.v
PowerHintSession.v
Channels.v
InteractionHandler.v
PowerService.v
PowerSystem.v
PowerBoost.v
SysFs.v
LightDevices.v
Lights.v
Health.v
FingerprintSession.v
FingerprintHal.v
FingerprintService.v
UsbTypec.v
UsbDualRole.v
UsbBasic.v
SensorsSubHal.v
SdmDisplay.v
SysfsModes.v
Peripherals.v
CameraTypes.v
CameraBatcher.v
CameraDelivery.v
CameraBatchSystem.v
CameraBatches.v
CameraSession.v
CameraBookkeeping.v
CameraRequests.v
CameraDevice.v
CameraProvider.v
RadioTypes.v
RadioHelpers.v
RadioInterface.v
RadioResponse.v
RadioIndication.v
Radio.v
RadioContent.v
RadioWrapper.v
RadioNetworks.v
RadioConfig.v
DisplayEvents.v
ThermalListener.v
PowerStart.v
