(* ===== verification/Prelude.v ===== *)
(** * Verification of the hardware interfaces

    The repository holds hardware abstraction layers (HALs) of a phone: small
    services that clients call through binder and that drive the kernel or a
    vendor library.  The largest one, and the one with most algorithms of its
    own, is the power HAL under [src/power-libperfmgr/aidl/]; the others
    are the camera, radio, light, health, fingerprint, USB, sensors,
    LiveDisplay, power share, infrared, fastboot and vibrator HALs.  The library
    models these as they are written, one file per component, and proves what
    makes each correct.

    ** The power HAL

    Clients (apps, the compositor) open _hint sessions_ at the power service.
    A session receives target and actual work durations and hints, runs a PID
    controller and a heuristic for janky frames, and turns the result into
    _votes_ with time windows at the _session manager_.  The manager keeps a
    two-way map between sessions and threads, combines the votes of all
    sessions of a thread into one utilisation clamp for the scheduler and of
    all sessions into one GPU capacity, and withdraws votes by timers of a
    _background worker_.  Clients may also send their messages through
    shared-memory _channels_, which threads of channel groups decode.  The
    _service_ forwards modes and boosts to a hint manager (libperfmgr, not part
    of the repository) and touch interactions to the _interaction handler_,
    whose thread waits for the display to become idle.

    ** The camera and radio HALs

    The _camera provider_ names the cameras of a vendor's module and follows
    its reports of cameras that come and go.  A _camera device_ opens
    _sessions_, one at a time.  A session imports the buffers of the client,
    passes its requests to the vendor's device and its results back, and keeps
    account of the buffers in flight; a _batcher_ collects the results of a
    batch of frames into single calls, while the vendor's threads deliver them.

    The _radio wrapper_ offers the telephony interface of version 1.4 over a
    radio of an older version: it passes requests on, or expresses them by
    older ones, and converts replies and indications.  The _radio
    configuration_ service wraps a vendor's service in the same way and
    chooses the modem for data.

    ** The other HALs

    The _light_ service finds LEDs and backlights under sysfs, and arbitrates
    the five lights that share the notification LED.  The _health_ service
    switches and limits charging through nodes it probes for.  The
    _fingerprint_ services wrap a vendor library: sessions count failed
    attempts and announce lockouts, with timer threads; an older interface
    translates the same messages.  The _USB_ services switch the roles of
    ports, waiting for a kernel event under a lock shared with a worker
    thread, and report the state of the ports to callbacks of several
    versions.  The _sensors_ sub-HAL forwards to a vendor library and posts
    the events its poll thread reads.  _LiveDisplay_ selects display modes and
    picture adjustments, through a vendor library or through nodes.  The
    _display service_ passes vsync and hotplug events to a client's callback.

    ** Files

    Shared:
    - [Prelude.v]: machine integers with their wrap-around, functional record
      update, hint databases and tactics, lemmas on sums, counts and lists.
    - [Text.v]: decimal text, [std::string] operations and what is used of
      android-base ([AndroidTrim], [AndroidStrings]), with the round trips.
    - [CFloat.v]: the C++ [float] and [double] operations, over the Standard
      Library's executable [SpecFloat], with the conversions to integers.
    - [SysFs.v]: the class [FileSystem] the services drive hardware through,
      the state monad [IO], statuses, [EchoNode]; [RamFs] is a file system in
      memory that the examples use.

    The power HAL (paths relative to [src/power-libperfmgr/aidl/]):
    - [AdpfTypes.v]: AdpfTypes.h, AppHintDesc.h, the quantities of
      PhysicalQuantityTypes.h; the enumerations, constants, the session
      descriptor, the profile of tunables.
    - [UClampVoter.v]: UClampVoter.{h,cpp}; [Votes] is a record of two finite
      maps, one function per method.
    - [SessionMetrics.v]: SessionMetrics.{h,cpp}; frame buckets and the game
      histograms.
    - [SessionRecords.v]: SessionRecords.{h,cpp}; the ring buffer of the last
      durations; [add_duration] is the loop body, [addReportedDurations] the
      loop.
    - [SessionTaskMap.v]: SessionTaskMap.{h,cpp}, SessionValueEntry.h.  The
      [shared_ptr]s to session values are locations in a heap, as both maps
      share and mutate the same values.
    - [BackgroundWorker.v]: BackgroundWorker.{h,cpp}; the pool's queue as a list
      ordered by deadline, the worker, and [shared_step], the interleavings of
      the two halves of [schedule] with the pool thread.
    - [GpuNode.v]: GpuCapacityNode.{h,cpp}, GpuCalculationHelpers.{h,cpp}; the
      class [FdInterface] is the source's interface of descriptor calls.
    - [PowerSessionManager.v]: PowerSessionManager.{h,cpp},
      TaskRampupMultNode.cpp; the manager's fields as a record, one function per
      method with the clock readings as arguments, the calls to the system as a
      log of effects, [psm_op]/[psm_run] for sequences of calls and timer turns.
    - [PowerThreads.v]: the same methods, and those of BackgroundWorker.{h,cpp}
      they use, cut into their critical sections ([Act]); [th_step] lets any of
      the calls in progress execute its next section.
    - [PowerHintSession.v]: PowerHintSession.{h,cpp}, a template over its
      manager: the class [PowerSessionManagerT], with the manager above as
      [psm_manager].  [World] is the manager, a stream of clock readings and the
      log of hints.
    - [Channels.v]: SessionChannel, ChannelGroup, ChannelManager; allocation and
      the decoding of one wake-up.
    - [InteractionHandler.v]: InteractionHandler.{h,cpp}; a function per critical
      section and [ih_step], the transition system of callers and thread.
    - [PowerService.v]: Power.cpp, PowerExt.cpp, SupportManager.cpp,
      PowerModeExtension.cpp, utils/TgidTypeChecker.cpp; the service over all
      the parts above.
    - [ThermalListener.v]: utils/ThermalStateListener.cpp, whose severity is a
      parameter of the manager.
    - [PowerSystem.v]: all of the above as one transition system, [hal_step] and
      [hal_run]: calls through binder, rounds of the channel threads, turns of
      the timers, the interaction thread, dropped sessions, new profiles.
    - [PowerBoost.v]: what hints and timeouts do to the clamps of the threads;
      the specification is [demand].
    - [PowerStart.v]: service.cpp, AppDescriptorTrace.h.

    The other HALs (paths relative to [src/]):
    - [LightDevices.v]: light/models, light/Utils, light/devices; a light device
      is a record of what its constructor probed.
    - [Lights.v]: light/Devices.cpp, light/Lights.cpp.
    - [Health.v]: health/aidl/default; the build configuration is the record
      [HealthConfig].
    - [FingerprintSession.v]: biometrics/fingerprint/aidl, the lockout tracker,
      the session and the part of the service that owns it; [fp_step] is one
      step of clients, vendor library and timers.
    - [FingerprintHal.v]: the rest of biometrics/fingerprint/aidl/Fingerprint.cpp
      and biometrics/fingerprint/2.0.
    - [FingerprintService.v]: the sensor properties, the forwarding calls and the
      life of the vendor's device.
    - [UsbTypec.v], [UsbDualRole.v], [UsbBasic.v]: usb/1.1-typec,
      usb/1.3-dual_role_usb, and usb/aidl-basic with usb/1.3-basic;
      [switch_step] interleaves a mode switch with the worker thread.
    - [SensorsSubHal.v]: sensors/SensorsSubHal.cpp.
    - [SdmDisplay.v]: livedisplay/aidl/sdm; the vendor library is the class
      [SdmLibrary].
    - [SysfsModes.v]: livedisplay/aidl/sysfs, powershare/aidl/default.
    - [Peripherals.v]: ir, fastboot/1.1-custom, vibrator/aidl-legacy.
    - [DisplayEvents.v]: _frameworks/displayservice; the looper is a class.

    The camera HAL (paths relative to [src/camera/aidl/]):
    - [CameraTypes.v]: device/convert.cpp and the data of the interfaces; the
      vendor's metadata library, the buffer mapper and the queues are classes.
    - [CameraBatcher.v], [CameraDelivery.v], [CameraBatchSystem.v],
      [CameraBatches.v]: the class [ResultBatcher] of
      device/CameraDeviceSession.cpp: its state and critical sections, the
      delivery of one result, the interleavings of client and vendor threads
      as a step relation, and whole batches.
    - [CameraSession.v], [CameraBookkeeping.v], [CameraRequests.v]: the rest of
      device/CameraDeviceSession.cpp over the state monad [Cam]: the calls, the
      invariant of every call, requests and results.
    - [CameraDevice.v]: device/CameraDevice.cpp and the system of device objects
      and sessions ([hal_op]).
    - [CameraProvider.v]: provider/CameraProvider.cpp; [provider_ops] is a
      sequence of reports and calls.

    The radio HALs (paths relative to [src/radio/]):
    - [RadioTypes.v]: the structures and enumerations of the interfaces, opaque
      where the code only passes them on.
    - [RadioHelpers.v]: 1.4/legacy/Helpers.cpp.
    - [RadioInterface.v]: a constructor for each method of the interfaces.
    - [RadioResponse.v], [RadioIndication.v], [Radio.v]: one function for each
      method of the three classes of 1.4/legacy.
    - [RadioContent.v]: what a message carries, independent of the version of
      the interface it is written in.
    - [RadioWrapper.v]: the service as a whole, with histories of messages;
      [RadioNetworks.v]: what a client reads back.
    - [RadioConfig.v]: config/1.1-wrapper and the start of both services.

    ** What is shown

    - Votes: the combined range is the tightest that respects the votes in
      range ([getUclampRange_spec]); the two hash maps implement one map
      ([votes_refinement]).
    - Records and metrics: the ring buffer implements the list of the last
      durations ([addReportedDurations_window]) and its running counters equal
      the statistics of that list ([records_getters]); no index leaves the vector
      ([record_indexes_in_range]); no histogram sample is lost.
    - Session-task map: every operation keeps the two directions consistent,
      the removal of a dead thread together with the erasure its only caller
      does ([stm_operations_wf]), and each has its exact effect.
    - Worker: no payload is lost or duplicated by calls that do not overlap, a
      due one is delivered in its turn, the earliest first
      ([worker_exactly_once]); overlapping calls can lose one.
    - Manager: in every interleaving of its critical sections every active vote
      has a stored timeout or a call that carries it, and if no two [schedule]
      calls overlap the timeout is in the queue ([psm_timers_armed]).  With its
      calls one after the other, votes expire ([psm_votes_expire]) and what is
      passed to the scheduler is in bounds ([psm_outputs_bounded]).
    - Session: status codes and the absence of effects on error, bounds of the
      controller, removal exactly once, for every manager; a client's call is
      at most seven operations of the real manager.
    - Channels: each client has its own slot, merging messages changes nothing.
    - Interaction handler: the hint follows the state in every interleaving,
      aborts are not lost, shutting down terminates.
    - Service: support words, sustained performance mode (which the extension
      interface does not follow, [extension_ignores_sustained]), session
      creation.
    - The power HAL as a whole, in every sequence of whole steps of its threads:
      the manager stays among the states its own operations reach, with no
      assertion hit and every timeout queued ([power_hal_refines_manager]); a
      vote is withdrawn once due ([power_hal_votes_expire]); the manager knows
      exactly the open sessions ([power_hal_sessions]); a channel thread makes
      exactly the calls its messages ask for ([group_thread_delivers]).
    - Boosts: with clamping on in the profile and the threads of the session
      alive, a hint raises the clamp of every thread of its session at once
      ([load_up_hint_boosts_threads]), and its timeout takes it back to what is
      still demanded ([timeout_withdraws_boost]).
    - Start: what is registered, in order ([power_main_order]); the counters of
      different sessions have different names ([trace_counters_unique]).
    - Lights: the service implements a specification over the history of calls
      ([lights_refine_history]); a mode of an LED excludes the others
      ([led_modes_exclusive]); brightness and blinking stay in range.
    - Health, LiveDisplay and power share: what was stored is read back
      ([charging_control_roundtrip], [fast_charge_roundtrip],
      [sysfs_modes_roundtrip]); the search for nodes ends exactly when a node
      appears ([charging_node_search]); what the mode calls of
      LiveDisplay answered and set, as a function of what the vendor library
      acknowledged ([sdm_mode_history]).
    - Fingerprint: the invariant of lockout, timers and closing over all
      sequences of calls, messages and timers, from an idle tracker
      ([fp_lockout_invariant]), what a failed attempt reports,
      tokens and locations survive translation, both services translate the
      vendor codes alike ([vendor_filters_agree]).
    - USB: outcome of a role switch ([switchRole_outcome]), no lost wake-up
      ([partner_wakeup_not_lost]), the life of the worker thread, every request
      answered in order ([usb_basic_transactions]).
    - Display events: the service implements the contract of its interface, and
      calls no callback after it is closed ([display_refines_contract]).
    - Sensors and infrared: exactly what is polled is posted
      ([poll_posts_events]); what reaches the infrared device
      ([ir_transmit_spec]).

    - Camera batches: in every interleaving what was handed to the batcher is
      accounted for: sent once, still pending, given up after the wait for the
      callback lock, or the physical metadata that batching leaves out
      ([batcher_conserves]); a complete batch, with none before it in flight, is
      delivered in three calls ([complete_batch_delivered]).
    - Camera sessions: imported buffers are those cached, and the device is
      closed once ([camera_handles_conserved]); a failed request without
      individual settings leaves nothing behind ([request_bookkeeping]) and a
      result on configured streams undoes its request
      ([request_result_roundtrip]); one open session a device
      ([camera_open_exclusive]).
    - Camera provider: every known camera can be opened by name, for every
      sequence of reports ([camera_provider_serves]); the messages to a client
      are exactly the changes ([provider_client_view]).
    - Radio wrapper: which requests reach the radio, as which method and with
      the same content ([radio_calls_wrapped]); replies are delivered once, to
      the client's own request, with the radio's content
      ([radio_replies_answer]); so are the messages of a whole history
      ([wrapper_history]); preferred networks, carriers and protocols are read
      back ([preferred_network_roundtrip], [allowed_carriers_roundtrip],
      [protocol_roundtrip]).
    - Radio configuration: data is moved between modems without two having it
      ([preferred_data_modem]).

    Where the code falls short of its purpose the theorem says so, e.g.
    [schedule_race_loses_package], [overlapping_votes_lose_timeout],
    [timer_flag_race], [extension_ignores_sustained],
    [refused_descriptor_reported], [paused_session_stays_active],
    [jitter_counter_excess], [getLatestFPS_undefined], [exit_leaves_hint_on],
    [lockout_not_enforced], [dr_switchRole_double_report],
    [enableUsbData_race], [set_active_mode_ignores_default],
    [late_registration_misattributes], [disconnect_leaks_buffers],
    [departure_reported_twice], [td_scdma_lost], [old_client_ends_process].

    ** Fuel

    Loops that are not over a list have fuel: reading the frequency file takes
    at most 15 reads, as each adds a byte to a buffer of 16 with its terminator
    ([read_loop 15]); walking the flags of a wake-up at most 33 steps for 32 bits
    ([flag_loop 33]); delivering a batch at most as many steps as messages; an
    [int] has at most 10 decimal digits and an [int64_t] at most 19
    ([dec_digits]).  The theorems about these loops are stated for the fuel
    used, so they show that it is enough.  The search for charging nodes loops
    until a node appears; its fuel is the number of rounds, and the theorem
    gives both the rounds that suffice and the case in which none do.  Loops
    that wait for events ([wait_partner], [scan_ports], [worker_loop],
    [pollForEvents]) run over the list of outcomes they meet.  The loop over
    the radio slots counts in a [uint8_t]: 257 rounds are enough below 256
    radios, and with 256 no number is ([modem_loop_never_ends]).

    ** Not modelled

    Locks and overlapping calls other than where interleavings are modelled:
    [PowerSystem.v] and [PowerBoost.v] run the calls of the power HAL one after
    the other (the manager's own overlaps are the subject of [PowerThreads.v]),
    and leave out the mutex of a channel group, so that there are more orders of
    whole steps than in the code; [fp_step] runs the handlers of a fingerprint
    session, which has no lock, one after the other ([timer_flag_race] is the
    overlap that matters).  Further not modelled are the values
    of trace counters, logging, dumps, the start of the processes other than
    the radio and power services, the shared-memory queue, the binder and the
    vendor libraries (classes of the model).  The hint manager is a record of
    its answers and a log of what it is asked.  The services written in Rust
    are left out.  Of the camera HAL the descriptors of the queues handed to
    the client and the closing of descriptors by the destructors of parcelled
    handles are not modelled. *)

From stdpp Require Export base tactics option list list_numbers numbers gmap strings sorting relations.
From Stdlib Require Export ZArith Lia.

(** ** Machine integers

    A C++ integer of width [w] is a [Z]; every arithmetic result that the
    source stores at a width is written with its wrap-around: [i32]/[i64] for
    the signed types (two's complement, as compiled), [u32]/[u64] for the
    unsigned ones. *)

Declare Scope cint_scope.
Delimit Scope cint_scope with cint.
Open Scope Z_scope.

Definition wrap_s (w z : Z) : Z := (z + 2 ^ (w - 1)) mod 2 ^ w - 2 ^ (w - 1).
Definition wrap_u (w z : Z) : Z := z mod 2 ^ w.

Definition i32 (z : Z) : Z := wrap_s 32 z.
Definition i64 (z : Z) : Z := wrap_s 64 z.
Definition u32 (z : Z) : Z := wrap_u 32 z.
Definition u64 (z : Z) : Z := wrap_u 64 z.
Definition u8 (z : Z) : Z := wrap_u 8 z.

Definition is_i32 (z : Z) : Prop := - 2 ^ 31 <= z < 2 ^ 31.
Definition is_i64 (z : Z) : Prop := - 2 ^ 63 <= z < 2 ^ 63.
Definition is_u32 (z : Z) : Prop := 0 <= z < 2 ^ 32.
Definition is_u64 (z : Z) : Prop := 0 <= z < 2 ^ 64.
Definition is_u8 (z : Z) : Prop := 0 <= z < 2 ^ 8.

Notation "a +₃₂ b" := (i32 (a + b)) (at level 50, left associativity) : cint_scope.
Notation "a -₃₂ b" := (i32 (a - b)) (at level 50, left associativity) : cint_scope.
Notation "a +₆₄ b" := (i64 (a + b)) (at level 50, left associativity) : cint_scope.
Notation "a -₆₄ b" := (i64 (a - b)) (at level 50, left associativity) : cint_scope.
Open Scope cint_scope.

(** ** Functional record update

    [r <| f := v |>] is the record [r] with the field [f] replaced by [v], the
    model of the assignment [r.f = v].  A record type declares its
    eta-expansion as an instance of [Record_eta]; the setter of any of its
    fields is then found by abstracting the projection in that expansion. *)

Class Record_eta (R : Type) := record_eta : R -> R.

Class Field_update {R T : Type} (f : R -> T) := field_update : (T -> T) -> R -> R.
Arguments field_update {R T} f {_} _ _ /.

Ltac derive_field_update :=
  lazymatch goal with
  | |- @Field_update ?R ?T ?f =>
      let inst := constr:(_ : Record_eta R) in
      let e := eval hnf in inst in
      let p := eval pattern f in e in
      lazymatch p with
      | ?h _ => exact (fun g => h (fun r => g (f r)))
      end
  end.

#[export] Hint Extern 1 (Field_update _) => derive_field_update : typeclass_instances.

Notation "r <| f := v |>" := (field_update f (fun _ => v) r)
  (at level 1, left associativity, format "r  <| f  :=  v |>").
Notation "r <| f ::= g |>" := (field_update f g r)
  (at level 1, left associativity, format "r  <| f  ::=  g |>").

(** ** Hint databases and tactics of the development *)

Create HintDb cint.
Create HintDb inv.

(** Case split on every boolean comparison of the goal and of the context that
    guards a branch, turning it into a proposition for [lia]. *)
Ltac bool_cases :=
  repeat match goal with
  | |- context [Z.ltb ?a ?b] => destruct (Z.ltb_spec a b)
  | |- context [Z.leb ?a ?b] => destruct (Z.leb_spec a b)
  | |- context [Z.eqb ?a ?b] => destruct (Z.eqb_spec a b)
  end.

Ltac bool_cases_in H :=
  repeat match type of H with
  | context [Z.ltb ?a ?b] => destruct (Z.ltb_spec a b)
  | context [Z.leb ?a ?b] => destruct (Z.leb_spec a b)
  | context [Z.eqb ?a ?b] => destruct (Z.eqb_spec a b)
  end.


(** ** Lemmas on machine integers *)

Lemma wrap_s_id (w z : Z) :
  0 < w -> - 2 ^ (w - 1) <= z < 2 ^ (w - 1) -> wrap_s w z = z.
Proof.
  intros Hw Hz. unfold wrap_s.
  assert (2 ^ w = 2 * 2 ^ (w - 1)) as E.
  { rewrite <- Z.pow_succ_r by lia. f_equal. lia. }
  rewrite Z.mod_small; lia.
Qed.

Lemma wrap_s_range (w z : Z) :
  0 < w -> - 2 ^ (w - 1) <= wrap_s w z < 2 ^ (w - 1).
Proof.
  intros Hw. unfold wrap_s.
  assert (2 ^ w = 2 * 2 ^ (w - 1)) as E.
  { rewrite <- Z.pow_succ_r by lia. f_equal. lia. }
  assert (0 < 2 ^ (w - 1)) by (apply Z.pow_pos_nonneg; lia).
  pose proof (Z.mod_pos_bound (z + 2 ^ (w - 1)) (2 ^ w)). lia.
Qed.

Lemma i32_id (z : Z) : is_i32 z -> i32 z = z.
Proof. intros H. apply (wrap_s_id 32); [lia | exact H]. Qed.

Lemma i64_id (z : Z) : is_i64 z -> i64 z = z.
Proof. intros H. apply (wrap_s_id 64); [lia | exact H]. Qed.

Lemma i32_range (z : Z) : is_i32 (i32 z).
Proof. apply (wrap_s_range 32). lia. Qed.

Lemma i64_range (z : Z) : is_i64 (i64 z).
Proof. apply (wrap_s_range 64). lia. Qed.

Lemma u32_range (z : Z) : is_u32 (u32 z).
Proof. apply Z.mod_pos_bound. lia. Qed.

Lemma u64_range (z : Z) : is_u64 (u64 z).
Proof. apply Z.mod_pos_bound. lia. Qed.

Lemma u8_range (z : Z) : is_u8 (u8 z).
Proof. apply Z.mod_pos_bound. lia. Qed.

Lemma u8_id (z : Z) : is_u8 z -> u8 z = z.
Proof. intros H. apply Z.mod_small. exact H. Qed.

Lemma u32_id (z : Z) : is_u32 z -> u32 z = z.
Proof. intros H. apply Z.mod_small. exact H. Qed.

Lemma u64_id (z : Z) : is_u64 z -> u64 z = z.
Proof. intros H. apply Z.mod_small. exact H. Qed.

Lemma u32_i32 (z : Z) : u32 (i32 z) = u32 z.
Proof.
  unfold u32, i32, wrap_u, wrap_s. rewrite <- (Z.mod_add (_ - _) (1) (2 ^ 32)) by lia.
  change (2 ^ (32 - 1)) with 2147483648. change (2 ^ 32) with 4294967296.
  Z.div_mod_to_equations. lia.
Qed.

Lemma i32_u32 (z : Z) : is_i32 z -> i32 (u32 z) = z.
Proof. intros Hz. unfold i32, u32, wrap_s, wrap_u. rewrite Zplus_mod_idemp_l. by apply i32_id. Qed.

#[export] Hint Resolve i32_range i64_range u32_range u64_range : cint.
#[export] Hint Rewrite i32_id i64_id u32_id u64_id using (unfold is_i32, is_i64, is_u32, is_u64; lia) : cint.

(** Decide a goal about machine integers: unfold the range predicates, remove
    the wrap-arounds that are the identity, finish with [lia]. *)
Ltac cint :=
  repeat match goal with
  | |- context [i32 ?z] =>
      lazymatch goal with
      | _ : is_i32 (i32 z) |- _ => fail
      | |- _ => pose proof (i32_range z)
      end
  end;
  unfold is_i32, is_i64, is_u32, is_u64 in *; autorewrite with cint; lia.

(** ** Sums over lists *)

Definition sumZ (l : list Z) : Z := foldr Z.add 0 l.
Arguments sumZ : simpl never.

Lemma sumZ_cons (x : Z) (l : list Z) : sumZ (x :: l) = x + sumZ l.
Proof. reflexivity. Qed.

Lemma sumZ_app (l k : list Z) : sumZ (l ++ k) = sumZ l + sumZ k.
Proof. induction l as [| x l IH]; [done | rewrite <- app_comm_cons, !sumZ_cons, IH; lia]. Qed.

Lemma sumZ_bound (b : Z) (l : list Z) :
  (forall x, x ∈ l -> - b <= x <= b) -> - b * Z.of_nat (length l) <= sumZ l <= b * Z.of_nat (length l).
Proof.
  induction l as [| x l IH]; intros H; [unfold sumZ; simpl; lia |]; rewrite sumZ_cons; simpl length.
  specialize (H x) as Hx. assert (- b <= x <= b) by (apply Hx; by constructor).
  assert (- b * Z.of_nat (length l) <= sumZ l <= b * Z.of_nat (length l)).
  { apply IH. intros y Hy. apply H. by constructor. }
  lia.
Qed.

Lemma sumZ_nonneg (l : list Z) : Forall (Z.le 0) l -> 0 <= sumZ l.
Proof. induction 1; [done | rewrite sumZ_cons; lia]. Qed.

Lemma sumZ_elem_le (l : list Z) (x : Z) : Forall (Z.le 0) l -> x ∈ l -> x <= sumZ l.
Proof.
  induction 1 as [| y l Hy Hl IH]; intros Hx; [by apply not_elem_of_nil in Hx |].
  apply elem_of_cons in Hx as [-> | Hx]; rewrite sumZ_cons.
  - pose proof (sumZ_nonneg l Hl). lia.
  - specialize (IH Hx). lia.
Qed.

Lemma sumZ_alter (f : Z -> Z) (i : nat) (l : list Z) (x : Z) :
  l !! i = Some x -> sumZ (alter f i l) = sumZ l - x + f x.
Proof.
  revert i. induction l as [| y l IH]; intros [| i] H; simplify_eq/=; [rewrite !sumZ_cons; lia |].
  rewrite !sumZ_cons. change (list_alter f i l) with (alter f i l). rewrite (IH _ H). lia.
Qed.

(** Number of elements of a list that satisfy a boolean test. *)
Definition countb {A} (f : A -> bool) (l : list A) : Z := Z.of_nat (length (List.filter f l)).

Lemma countb_app {A} (f : A -> bool) (l k : list A) : countb f (l ++ k) = countb f l + countb f k.
Proof. unfold countb. rewrite List.filter_app, length_app. lia. Qed.

Lemma countb_cons {A} (f : A -> bool) (x : A) (l : list A) :
  countb f (x :: l) = (if f x then 1 else 0) + countb f l.
Proof. unfold countb. simpl. destruct (f x); simpl; lia. Qed.

Lemma countb_range {A} (f : A -> bool) (l : list A) : 0 <= countb f l <= Z.of_nat (length l).
Proof. unfold countb. pose proof (List.filter_length_le f l). lia. Qed.

(** Two integers less than [k] apart have different residues. *)
Lemma mod_neq (a b k : Z) : 0 < k -> 0 < b - a < k -> a mod k <> b mod k.
Proof.
  intros Hk Hab He.
  assert ((b - a) mod k = 0) as H0 by (rewrite Zminus_mod, He, Z.sub_diag; apply Z.mod_0_l; lia).
  rewrite Z.mod_small in H0; lia.
Qed.

Lemma take_app_take {A} (n : nat) (l k : list A) : take n (l ++ take n k) = take n (l ++ k).
Proof. rewrite !take_app, take_take. f_equal. f_equal. lia. Qed.

(** ** Occurrences in a list *)

Section occurrences.
Context {A : Type} `{EqDecision A}.

Definition occ (x : A) (l : list A) : nat := length (filter (fun y => y = x) l).

Lemma occ_nil (x : A) : occ x [] = 0%nat.
Proof. done. Qed.

Lemma occ_cons (x y : A) (l : list A) : occ x (y :: l) = ((if decide (y = x) then 1 else 0) + occ x l)%nat.
Proof. unfold occ. rewrite filter_cons. by case_decide. Qed.

Lemma occ_app (x : A) (l k : list A) : occ x (l ++ k) = (occ x l + occ x k)%nat.
Proof. unfold occ. by rewrite filter_app, length_app. Qed.

Lemma occ_perm (x : A) (l k : list A) : l ≡ₚ k -> occ x l = occ x k.
Proof. intros E. unfold occ. by rewrite E. Qed.

Lemma occ_elem (x : A) (l : list A) : (0 < occ x l)%nat <-> x ∈ l.
Proof.
  unfold occ. split.
  - intros H. destruct (filter (fun y => y = x) l) as [| y k] eqn:E; [simpl in H; lia |].
    assert (y ∈ filter (fun y => y = x) l) as Hy by (rewrite E; by constructor).
    apply list_elem_of_filter in Hy as [-> ?]. done.
  - intros H. assert (x ∈ filter (fun y => y = x) l) as Hx by (by apply list_elem_of_filter).
    destruct (filter (fun y => y = x) l); [by apply not_elem_of_nil in Hx | simpl; lia].
Qed.

Lemma occ_not_elem (x : A) (l : list A) : x ∉ l <-> occ x l = 0%nat.
Proof. rewrite <- occ_elem. lia. Qed.

(** [std::find] followed by [erase]: drop the first occurrence; [None] when
    there is none. *)
Fixpoint list_remove (x : A) (l : list A) : option (list A) :=
  match l with
  | [] => None
  | y :: k => if decide (x = y) then Some k else cons y <$> list_remove x k
  end.

Lemma list_remove_occ (x y : A) (l k : list A) :
  list_remove x l = Some k -> occ y l = ((if decide (x = y) then 1 else 0) + occ y k)%nat.
Proof.
  revert k. induction l as [| z l IH]; intros k H; simpl in H; [done |].
  case_decide as E.
  - simplify_eq. by rewrite occ_cons.
  - destruct (list_remove x l) as [k' |] eqn:Ek; simplify_eq/=.
    rewrite !occ_cons, (IH _ eq_refl). lia.
Qed.

Lemma list_remove_None_occ (x : A) (l : list A) : list_remove x l = None -> occ x l = 0%nat.
Proof.
  induction l as [| z l IH]; intros H; simpl in H; [done |].
  case_decide as E; [done |]. destruct (list_remove x l) eqn:Ek; [done |].
  rewrite occ_cons, decide_False by congruence. by apply IH.
Qed.

End occurrences.
