(* ===== verification/Text.v ===== *)
(** * Text: decimal numbers and [std::string] operations

    The parts of the C++ standard library and of [android-base] that the
    services use on text: printing and parsing of integers, stream extraction,
    searching, trimming and splitting.  The round trips shown here (what is
    printed is parsed back) are shared by all the sysfs clients. *)

From S2P Require Import Prelude.
From Stdlib Require Import Ascii.

(** ** Decimal text *)

Definition digit (z : Z) : ascii := ascii_of_nat (Z.to_nat (48 + z)).

Definition digit_value (c : ascii) : option Z :=
  let n := Z.of_nat (nat_of_ascii c) in
  if (48 <=? n) && (n <=? 57) then Some (n - 48) else None.

(** [std::to_string(int)]; an [int] has at most ten digits. *)
Fixpoint dec_digits (fuel : nat) (z : Z) (acc : list ascii) : list ascii :=
  match fuel with
  | O => acc
  | S fuel => if z <? 10 then digit z :: acc else dec_digits fuel (z / 10) (digit (z mod 10) :: acc)
  end.

Definition std_to_string (z : Z) : list ascii :=
  if z <? 0 then "-"%char :: dec_digits 10 (- z) [] else dec_digits 10 z [].

(** [std::from_chars] at base ten on [int]: an optional minus sign, then the
    longest run of digits; [None] stands for [errc::invalid_argument] (no
    digit) and [errc::result_out_of_range]. *)
Fixpoint parse_digits (s : list ascii) (acc : Z) : Z :=
  match s with
  | [] => acc
  | c :: s => match digit_value c with Some d => parse_digits s (10 * acc + d) | None => acc end
  end.

Definition starts_with_digit (s : list ascii) : bool :=
  match s with c :: _ => bool_decide (is_Some (digit_value c)) | [] => false end.

Definition from_chars (s : list ascii) : option Z :=
  let '(neg, s) := match s with c :: s' => if Ascii.eqb c "-" then (true, s') else (false, s) | [] => (false, s) end in
  if starts_with_digit s then
    let v := parse_digits s 0 in
    let v := if neg : bool then - v else v in
    if (- 2 ^ 31 <=? v) && (v <? 2 ^ 31) then Some v else None
  else None.


(** [std::to_string] of a 64-bit number, which has at most nineteen digits. *)
Definition to_string_i64 (z : Z) : list ascii :=
  if z <? 0 then "-"%char :: dec_digits 19 (- z) [] else dec_digits 19 z [].


(** ** Decimal text: lemmas *)

Lemma digit_value_digit (z : Z) : 0 <= z < 10 -> digit_value (digit z) = Some z.
Proof.
  intros Hz. unfold digit_value, digit. rewrite nat_ascii_embedding by lia.
  rewrite Z2Nat.id by lia. destruct (_ && _) eqn:E; [f_equal; lia | lia].
Qed.

Lemma digit_not_minus (z : Z) : 0 <= z < 10 -> Ascii.eqb (digit z) "-" = false.
Proof.
  intros Hz. apply Ascii.eqb_neq. intros E. apply (f_equal digit_value) in E.
  by rewrite digit_value_digit in E.
Qed.

(** The digits of [z], most significant first: their Horner value is [z]. *)
Lemma dec_digits_spec (fuel : nat) (z : Z) (acc : list ascii) :
  0 <= z < 10 ^ Z.of_nat (S fuel) ->
  exists d ds, dec_digits (S fuel) z acc = map digit (d :: ds) ++ acc /\
    Forall (fun d => 0 <= d < 10) (d :: ds) /\ fold_left (fun a x => 10 * a + x) (d :: ds) 0 = z.
Proof.
  revert z acc. induction fuel as [| fuel IH]; intros z acc Hz.
  - exists z, []. cbn [dec_digits]. destruct (Z.ltb_spec z 10); [| change (10 ^ Z.of_nat 1) with 10 in Hz; lia].
    split_and!; [done | repeat constructor; lia | simpl; lia].
  - cbn [dec_digits]. destruct (Z.ltb_spec z 10).
    { exists z, []. split_and!; [done | repeat constructor; lia | simpl; lia]. }
    rewrite Nat2Z.inj_succ, Z.pow_succ_r in Hz by lia.
    destruct (IH (z / 10) (digit (z mod 10) :: acc)) as (d & ds & A & B & C).
    { split; [apply Z.div_pos; lia | apply Z.div_lt_upper_bound; lia]. }
    exists d, (ds ++ [z mod 10]). split_and!.
    + etransitivity; [exact A |]. by rewrite app_comm_cons, map_app, <- app_assoc.
    + rewrite app_comm_cons. apply Forall_app. split; [done |]. repeat constructor; apply Z.mod_pos_bound; lia.
    + rewrite app_comm_cons, fold_left_app, C. simpl. pose proof (Z.div_mod z 10). lia.
Qed.

Lemma parse_digits_app (ds : list Z) (rest : list ascii) (acc : Z) :
  Forall (fun d => 0 <= d < 10) ds -> starts_with_digit rest = false ->
  parse_digits (map digit ds ++ rest) acc = fold_left (fun a x => 10 * a + x) ds acc.
Proof.
  intros H Hr. revert acc. induction H as [| d ds Hd _ IH]; intros acc; simpl.
  - destruct rest as [| c rest]; [done |]. simpl in *. destruct (digit_value c); [| done].
    by rewrite bool_decide_true in Hr by eauto.
  - by rewrite digit_value_digit.
Qed.

(** Parsing what was printed gives the number back. *)
Lemma from_chars_to_string (z : Z) (rest : list ascii) :
  is_i32 z -> starts_with_digit rest = false -> from_chars (std_to_string z ++ rest) = Some z.
Proof.
  intros Hz Hr. unfold is_i32 in Hz. unfold std_to_string, from_chars.
  destruct (Z.ltb_spec z 0) as [Hn | Hn].
  - destruct (dec_digits_spec 9 (- z) []) as (d & ds & E & F & V); [simpl; lia |].
    rewrite E, app_nil_r. cbn -[Z.mul Z.add]. apply Forall_cons in F as [Fd Fds].
    rewrite digit_value_digit, bool_decide_true by eauto.
    rewrite parse_digits_app by done. cbn [fold_left] in V. rewrite V.
    destruct (_ && _) eqn:E2; [f_equal; lia | lia].
  - destruct (dec_digits_spec 9 z []) as (d & ds & E & F & V); [simpl; lia |].
    rewrite E, app_nil_r. cbn [map app]. apply Forall_cons in F as [Fd Fds].
    rewrite digit_not_minus by done. cbn -[Z.mul Z.add].
    rewrite digit_value_digit, bool_decide_true by eauto.
    rewrite parse_digits_app by done. cbn [fold_left] in V. rewrite V.
    destruct (_ && _) eqn:E2; [done | lia].
Qed.


Lemma std_to_string_length (z : Z) : (length (std_to_string z) <= 11)%nat.
Proof.
  assert (forall fuel z acc, (length (dec_digits fuel z acc) <= fuel + length acc)%nat) as L.
  { induction fuel as [| fuel IH]; intros z' acc; cbn [dec_digits]; [lia |].
    destruct (z' <? 10); [simpl; lia |]. rewrite IH. simpl. lia. }
  unfold std_to_string. destruct (z <? 0); simpl length.
  - pose proof (L 10%nat (- z) []). simpl in *. lia.
  - pose proof (L 10%nat z []). simpl in *. lia.
Qed.

(** [std::to_string] as a string. *)
Definition to_text (z : Z) : string := String.string_of_list_ascii (to_string_i64 z).

(** The characters [isspace] accepts in the C locale. *)
Definition is_space (c : ascii) : bool :=
  let n := nat_of_ascii c in
  (n =? 32)%nat || ((9 <=? n)%nat && (n <=? 13)%nat).

Fixpoint skip_space (s : list ascii) : list ascii :=
  match s with
  | [] => []
  | c :: s' => if is_space c then skip_space s' else s
  end.

(** Drop the white space at both ends. *)
Definition trim_space (s : string) : string :=
  String.string_of_list_ascii (rev (skip_space (rev (skip_space (String.list_ascii_of_string s))))).

(** An optional sign, as [strtoll] reads it. *)
Definition take_sign (s : list ascii) : bool * list ascii :=
  match s with
  | c :: s' => if Ascii.eqb c "-" then (true, s') else if Ascii.eqb c "+" then (false, s') else (false, s)
  | [] => (false, [])
  end.

(** [std::stoll] at base ten: leading white space, a sign and the longest run
    of digits; [None] is the exception ([invalid_argument] without a digit,
    [out_of_range]). *)
Definition stoll (s : string) : option Z :=
  let '(neg, ds) := take_sign (skip_space (String.list_ascii_of_string s)) in
  if starts_with_digit ds then
    let v := parse_digits ds 0 in
    let v := if neg : bool then - v else v in
    if (- 2 ^ 63 <=? v) && (v <? 2 ^ 63) then Some v else None
  else None.

(** [stream >> x] for a [uint32_t] variable holding [old]: only white space
    leaves it unchanged, no digit stores 0, a value out of range stores the
    maximum and a minus sign negates modulo the width. *)
Definition extract_u32 (s : string) (old : Z) : Z :=
  match skip_space (String.list_ascii_of_string s) with
  | [] => old
  | s' =>
      let '(neg, ds) := take_sign s' in
      if starts_with_digit ds then
        let v := parse_digits ds 0 in
        if 2 ^ 32 <=? v then 2 ^ 32 - 1 else if neg : bool then u32 (- v) else v
      else 0
  end.

(** [s.find(pat) != std::string::npos] *)
Definition contains (pat s : string) : bool :=
  match String.index 0 pat s with Some _ => true | None => false end.

(** The lines [std::getline] returns one after the other: the text between
    newlines, without an empty last one. *)
Fixpoint lines_acc (cur s : list ascii) : list (list ascii) :=
  match s with
  | [] => match cur with [] => [] | _ => [rev cur] end
  | c :: s => if Ascii.eqb c "010" then rev cur :: lines_acc [] s else lines_acc (c :: cur) s
  end.

Definition getlines (s : string) : list string :=
  String.string_of_list_ascii <$> lines_acc [] (String.list_ascii_of_string s).

(** ** Round trips *)

Lemma String_list_ascii_app (s t : string) :
  String.list_ascii_of_string (s +:+ t) = String.list_ascii_of_string s ++ String.list_ascii_of_string t.
Proof. induction s as [| c s IH]; [done |]. simpl. by rewrite <- IH. Qed.

Lemma to_string_i64_digits (z : Z) :
  is_i64 z ->
  exists ds, ds <> [] /\ Forall (fun d => 0 <= d < 10) ds /\ fold_left (fun a x => 10 * a + x) ds 0 = Z.abs z /\
    to_string_i64 z = (if z <? 0 then ["-"%char] else []) ++ map digit ds.
Proof.
  intros Hz. unfold is_i64 in Hz. unfold to_string_i64. destruct (Z.ltb_spec z 0) as [Hn | Hn].
  - destruct (dec_digits_spec 18 (- z) []) as (d & ds & E & F & V); [simpl; lia |].
    exists (d :: ds). rewrite E, app_nil_r, V. split_and!; [done | done | lia | done].
  - destruct (dec_digits_spec 18 z []) as (d & ds & E & F & V); [simpl; lia |].
    exists (d :: ds). rewrite E, app_nil_r, V. split_and!; [done | done | lia | done].
Qed.

Lemma digit_code (z : Z) : 0 <= z < 10 -> nat_of_ascii (digit z) = Z.to_nat (48 + z).
Proof. intros Hz. unfold digit. rewrite nat_ascii_embedding; lia. Qed.

Lemma digit_not_space (z : Z) : 0 <= z < 10 -> is_space (digit z) = false.
Proof. intros Hz. unfold is_space. cbv zeta. rewrite digit_code by done.
  apply orb_false_iff. split; [apply Nat.eqb_neq; lia | apply andb_false_iff; right; apply Nat.leb_gt; lia]. Qed.

Lemma digit_not_plus (z : Z) : 0 <= z < 10 -> Ascii.eqb (digit z) "+" = false.
Proof.
  intros Hz. apply Ascii.eqb_neq. intros E. apply (f_equal digit_value) in E.
  by rewrite digit_value_digit in E.
Qed.

Lemma String_app_nil_r (s : string) : s +:+ "" = s.
Proof. induction s as [| c s IH]; [done |]. change (String c (s +:+ "") = String c s). by rewrite IH. Qed.

(** [std::stoll] reads back what [std::to_string] printed, whatever white
    space surrounds it. *)
Lemma stoll_to_text (z : Z) (rest : string) :
  is_i64 z -> starts_with_digit (String.list_ascii_of_string rest) = false ->
  stoll (to_text z +:+ rest) = Some z.
Proof.
  intros Hz Hr. destruct (to_string_i64_digits z Hz) as (ds & Hne & F & V & E).
  unfold stoll, to_text. rewrite String_list_ascii_app, String.list_ascii_of_string_of_list_ascii, E.
  destruct ds as [| d ds]; [done |]. pose proof F as F'. apply Forall_cons in F' as [Fd Fds].
  unfold is_i64 in Hz.
  destruct (Z.ltb_spec z 0) as [Hn | Hn]; cbn [app map skip_space].
  - change (is_space "-") with false. cbn -[parse_digits digit].
    rewrite digit_value_digit, bool_decide_true by eauto.
    change (digit d :: (map digit ds ++ String.list_ascii_of_string rest)) with (map digit (d :: ds) ++ String.list_ascii_of_string rest).
    rewrite parse_digits_app, V by done. destruct (_ && _) eqn:E2; [f_equal; lia | lia].
  - rewrite digit_not_space by done. cbn [take_sign]. rewrite digit_not_minus, digit_not_plus by done.
    cbn [starts_with_digit]. rewrite digit_value_digit, bool_decide_true by eauto.
    change (digit d :: (map digit ds ++ String.list_ascii_of_string rest)) with (map digit (d :: ds) ++ String.list_ascii_of_string rest).
    rewrite parse_digits_app, V by done. destruct (_ && _) eqn:E2; [f_equal; lia | lia].
Qed.

(** ** Trimming *)

Definition all_space (s : string) : Prop := Forall (fun c => is_space c = true) (String.list_ascii_of_string s).

Lemma skip_space_all (l : list ascii) (k : list ascii) :
  Forall (fun c => is_space c = true) l -> skip_space (l ++ k) = skip_space k.
Proof. induction 1 as [| c l Hc _ IH]; simpl; [done |]. by rewrite Hc. Qed.

Lemma skip_space_none (l : list ascii) : Forall (fun c => is_space c = false) l -> skip_space l = l.
Proof. destruct 1 as [| c l Hc Hl]; simpl; [done |]. by rewrite Hc. Qed.

Lemma skip_space_app (l ws : list ascii) :
  skip_space (l ++ ws) = match skip_space l with [] => skip_space ws | s => s ++ ws end.
Proof. induction l as [| c l IH]; simpl; [done |]. destruct (is_space c); [apply IH | done]. Qed.

(** White space behind a text does not matter to trimming. *)
Lemma trim_space_app (s ws : string) : all_space ws -> trim_space (s +:+ ws) = trim_space s.
Proof.
  unfold trim_space, all_space. intros Hw. rewrite String_list_ascii_app, skip_space_app.
  destruct (skip_space (String.list_ascii_of_string s)) as [| c l] eqn:E.
  - replace (skip_space (String.list_ascii_of_string ws)) with (@nil ascii); [done |].
    rewrite <- (app_nil_r (String.list_ascii_of_string ws)). by rewrite skip_space_all.
  - do 2 f_equal. rewrite rev_app_distr. apply skip_space_all, List.Forall_rev, Hw.
Qed.

(** A text without white space at its ends. *)
Definition trimmed (s : string) : Prop :=
  let l := String.list_ascii_of_string s in skip_space l = l /\ skip_space (rev l) = rev l.

Lemma trim_space_trimmed (s : string) : trimmed s -> trim_space s = s.
Proof.
  intros [H1 H2]. unfold trim_space. rewrite H1, H2. by rewrite rev_involutive, String.string_of_list_ascii_of_string.
Qed.

Lemma no_space_trimmed (s : string) :
  Forall (fun c => is_space c = false) (String.list_ascii_of_string s) -> trimmed s.
Proof. intros Hs. split; apply skip_space_none; [done | by apply List.Forall_rev]. Qed.

(** What the services rely on of [android::base::Trim]: white space behind a
    text is dropped, and a text without white space at its ends is returned as
    it is. *)
Class AndroidTrim := {
  Trim : string -> string;
  Trim_app_space s ws : all_space ws -> Trim (s +:+ ws) = Trim s;
  Trim_trimmed s : trimmed s -> Trim s = s
}.

#[export] Instance trim_space_AndroidTrim : AndroidTrim :=
  {| Trim := trim_space; Trim_app_space := trim_space_app; Trim_trimmed := trim_space_trimmed |}.

Lemma Trim_no_space `{AndroidTrim} (s : string) :
  Forall (fun c => is_space c = false) (String.list_ascii_of_string s) -> Trim s = s.
Proof. intros Hs. by apply Trim_trimmed, no_space_trimmed. Qed.

Lemma to_text_no_space (z : Z) :
  is_i64 z -> Forall (fun c => is_space c = false) (String.list_ascii_of_string (to_text z)).
Proof.
  intros Hz. destruct (to_string_i64_digits z Hz) as (ds & _ & F & _ & E).
  unfold to_text. rewrite String.list_ascii_of_string_of_list_ascii, E.
  apply Forall_app. split; [destruct (z <? 0); by repeat constructor |].
  apply Forall_forall. intros c (d & -> & Hd)%list_elem_of_fmap. apply digit_not_space. by eapply Forall_forall in F.
Qed.

Lemma starts_with_digit_space (ws : string) : all_space ws -> starts_with_digit (String.list_ascii_of_string ws) = false.
Proof.
  unfold all_space, starts_with_digit. destruct 1 as [| c l Hc _]; [done |].
  apply bool_decide_eq_false. unfold digit_value, is_space in *. cbv zeta in *. intros [d Hd].
  rewrite orb_true_iff, andb_true_iff, Nat.eqb_eq, !Nat.leb_le in Hc.
  destruct (Z.leb_spec 48 (Z.of_nat (nat_of_ascii c))); [lia | done].
Qed.

(** ** Splitting *)

(** What is used of [android-base]: [Split] cuts a text at every delimiter
    and [ParseInt] reads a decimal number of 32 bits. *)
Fixpoint join (sep : string) (parts : list string) : string :=
  match parts with
  | [] => ""
  | [p] => p
  | p :: parts => p +:+ sep +:+ join sep parts
  end.

Definition free_of (c : ascii) (s : string) : Prop := c ∉ String.list_ascii_of_string s.

Class AndroidStrings := {
  Split : string -> ascii -> list string;
  Split_join c parts : parts <> [] -> Forall (free_of c) parts -> Split (join (String c "") parts) c = parts;
  ParseInt : string -> option Z;
  ParseInt_to_text z : is_i32 z -> ParseInt (to_text z) = Some z;
  ParseInt_range s z : ParseInt s = Some z -> is_i32 z
}.

Lemma to_text_free (c : ascii) (z : Z) : is_i64 z -> c <> "-"%char -> digit_value c = None -> free_of c (to_text z).
Proof.
  intros Hz Hm Hd. destruct (to_string_i64_digits z Hz) as (ds & _ & F & _ & E).
  unfold free_of, to_text. rewrite String.list_ascii_of_string_of_list_ascii, E, elem_of_app.
  intros [Hin | (d & -> & Hin)%list_elem_of_fmap].
  - destruct (z <? 0); [by apply list_elem_of_singleton in Hin | by apply elem_of_nil in Hin].
  - eapply Forall_forall in F; [| done]. by rewrite digit_value_digit in Hd.
Qed.

Lemma free_of_app (c : ascii) (s t : string) : free_of c s -> free_of c t -> free_of c (s +:+ t).
Proof. unfold free_of. rewrite String_list_ascii_app, elem_of_app. tauto. Qed.

Lemma free_of_join (c : ascii) (sep : string) (parts : list string) :
  free_of c sep -> Forall (free_of c) parts -> free_of c (join sep parts).
Proof.
  intros Hs. induction 1 as [| p parts Hp Hps IH]; simpl; [by apply not_elem_of_nil |].
  destruct parts; [done |]. auto using free_of_app.
Qed.

(** ** A concrete string library *)

Fixpoint split_acc (c : ascii) (cur s : list ascii) : list string :=
  match s with
  | [] => [String.string_of_list_ascii (rev cur)]
  | x :: s => if Ascii.eqb x c then String.string_of_list_ascii (rev cur) :: split_acc c [] s else split_acc c (x :: cur) s
  end.

Lemma split_acc_free (c : ascii) (p cur rest : list ascii) :
  c ∉ p -> split_acc c cur (p ++ rest) = split_acc c (rev p ++ cur) rest.
Proof.
  revert cur. induction p as [| x p IH]; intros cur Hp; [done |]. apply not_elem_of_cons in Hp as [Hx Hp]. simpl.
  destruct (Ascii.eqb_spec x c); [congruence |]. rewrite IH by done. by rewrite <- app_assoc.
Qed.

Lemma split_acc_join (c : ascii) (parts : list string) :
  parts <> [] -> Forall (free_of c) parts ->
  split_acc c [] (String.list_ascii_of_string (join (String c "") parts)) = parts.
Proof.
  intros Hne. induction 1 as [| p parts Hp Hps IH]; [done |]. destruct parts as [| q parts].
  - simpl. rewrite <- (app_nil_r (String.list_ascii_of_string p)), split_acc_free, app_nil_r by done. simpl.
    by rewrite rev_involutive, String.string_of_list_ascii_of_string.
  - cbn [join]. rewrite !String_list_ascii_app, split_acc_free, app_nil_r by done. simpl.
    rewrite Ascii.eqb_refl, rev_involutive, String.string_of_list_ascii_of_string. f_equal. by apply IH.
Qed.

(** [std::stoi]: [None] is the exception. *)
Definition stoi (s : string) : option Z :=
  match stoll s with
  | Some z => if (- 2 ^ 31 <=? z) && (z <? 2 ^ 31) then Some z else None
  | None => None
  end.

Lemma stoi_to_text_space (z : Z) (ws : string) : is_i32 z -> all_space ws -> stoi (to_text z +:+ ws) = Some z.
Proof.
  intros Hz Hw. unfold stoi. rewrite stoll_to_text; [| unfold is_i32, is_i64 in *; lia | by apply starts_with_digit_space].
  unfold is_i32 in Hz. destruct (_ && _) eqn:E; [done | lia].
Qed.

Lemma stoi_to_text (z : Z) : is_i32 z -> stoi (to_text z) = Some z.
Proof. intros Hz. rewrite <- (String_app_nil_r (to_text z)). apply stoi_to_text_space; [done | constructor]. Qed.

Lemma stoi_range (s : string) (z : Z) : stoi s = Some z -> is_i32 z.
Proof. unfold stoi, is_i32. destruct (stoll s); [| done]. destruct (_ && _) eqn:E; [intros [= <-]; lia | done]. Qed.

#[export] Instance split_AndroidStrings : AndroidStrings := {|
  Split s c := split_acc c [] (String.list_ascii_of_string s);
  Split_join := split_acc_join;
  ParseInt := stoi;
  ParseInt_to_text := stoi_to_text;
  ParseInt_range := stoi_range
|}.
