(* ===== verification/CFloat.v ===== *)
(** * IEEE-754 arithmetic as the C++ code uses it

    [double] and [float] values are the [spec_float] of the Standard Library at
    the precisions of binary64 and binary32; the operations are its
    round-to-nearest-even operations.  Conversions from integers round;
    conversions to integers truncate toward zero and, out of the range of the
    target type, saturate (C++ leaves that case undefined; AArch64's [fcvtzs]
    and [fcvtzu] saturate). *)

From S2P Require Import Prelude.
From Stdlib Require Export SpecFloat.

Declare Scope cfloat_scope.
Delimit Scope cfloat_scope with cfloat.

Definition double : Type := spec_float.
Definition float : Type := spec_float.

Definition f64_of_Z (z : Z) : double := binary_normalize 53 1024 z 0 false.
Definition f64_mul : double -> double -> double := SFmul 53 1024.
Definition f64_div : double -> double -> double := SFdiv 53 1024.
Definition f64_add : double -> double -> double := SFadd 53 1024.
Definition f64_sub : double -> double -> double := SFsub 53 1024.
Definition f64_ltb : double -> double -> bool := SFltb.
Definition f64_leb : double -> double -> bool := SFleb.

Definition f32_of_Z (z : Z) : float := binary_normalize 24 128 z 0 false.
Definition f32_mul : float -> float -> float := SFmul 24 128.
Definition f32_div : float -> float -> float := SFdiv 24 128.
Definition f32_add : float -> float -> float := SFadd 24 128.
Definition f32_sub : float -> float -> float := SFsub 24 128.
Definition f32_ltb : float -> float -> bool := SFltb.

(** [float] to [double] is exact; [double] to [float] rounds. *)
Definition f64_to_f32 (x : double) : float :=
  match x with
  | S754_finite s m e => binary_normalize 24 128 (if s then Zneg m else Zpos m) e s
  | _ => x
  end.
Definition f32_to_f64 (x : float) : double :=
  match x with
  | S754_finite s m e => binary_normalize 53 1024 (if s then Zneg m else Zpos m) e s
  | _ => x
  end.

(** Integer part of a finite value, toward zero. *)
Definition sf_trunc (s : bool) (m : positive) (e : Z) : Z :=
  let a := if 0 <=? e then Zpos m * 2 ^ e else Zpos m / 2 ^ (- e) in
  if s then - a else a.

Definition clampZ (lo hi z : Z) : Z := Z.max lo (Z.min hi z).

(** Conversion of a floating-point value to an integer type of range
    [lo..hi]. *)
Definition sf_to_int (lo hi : Z) (x : spec_float) : Z :=
  match x with
  | S754_zero _ | S754_nan => 0
  | S754_infinity s => if s then lo else hi
  | S754_finite s m e => clampZ lo hi (sf_trunc s m e)
  end.

Definition f64_to_i64 : double -> Z := sf_to_int (- 2 ^ 63) (2 ^ 63 - 1).
Definition f64_to_i32 : double -> Z := sf_to_int (- 2 ^ 31) (2 ^ 31 - 1).
Definition f64_to_u32 : double -> Z := sf_to_int 0 (2 ^ 32 - 1).
Definition f32_to_i64 : float -> Z := sf_to_int (- 2 ^ 63) (2 ^ 63 - 1).
Definition f32_to_i32 : float -> Z := sf_to_int (- 2 ^ 31) (2 ^ 31 - 1).

(** The literal [1.4]. *)
Definition f64_1_4 : double := S754_finite false 6305039478318694 (-52).

Example f64_1_4_spec : f64_div (f64_of_Z 14) (f64_of_Z 10) = f64_1_4.
Proof. vm_compute. reflexivity. Qed.

Example f64_to_i64_ex : f64_to_i64 (f64_mul f64_1_4 (f64_of_Z (-1000))) = -1400.
Proof. vm_compute. reflexivity. Qed.

Lemma clampZ_range (lo hi z : Z) : lo <= hi -> lo <= clampZ lo hi z <= hi.
Proof. unfold clampZ. lia. Qed.

Lemma sf_to_int_range (lo hi : Z) (x : spec_float) :
  lo <= 0 <= hi -> lo <= sf_to_int lo hi x <= hi.
Proof.
  intros H. destruct x as [s | s | | s m e]; simpl; try lia.
  - destruct s; lia.
  - apply clampZ_range. lia.
Qed.

Lemma f64_to_i64_range (x : double) : is_i64 (f64_to_i64 x).
Proof. pose proof (sf_to_int_range (- 2 ^ 63) (2 ^ 63 - 1) x). unfold is_i64, f64_to_i64. lia. Qed.

Lemma f64_to_u32_range (x : double) : is_u32 (f64_to_u32 x).
Proof. pose proof (sf_to_int_range 0 (2 ^ 32 - 1) x). unfold is_u32, f64_to_u32. lia. Qed.

#[export] Hint Resolve f64_to_i64_range f64_to_u32_range : cint.
