(* ===== verification/AdpfTypes.v ===== *)
(** * ADPF types (src/power-libperfmgr/aidl/AdpfTypes.h, AppHintDesc.h)

    The enumerations shared by the power HAL, the constants of the uclamp range
    and of the message-queue bit layout, the per-session descriptor and the
    profile record that the sessions read their tunables from. *)

From S2P Require Import Prelude CFloat.

(** ** Enumerations *)

Inductive AdpfErrorCode := ERR_OK | ERR_BAD_STATE | ERR_BAD_ARG.

Inductive SessionJankyLevel := JANK_LIGHT | JANK_MODERATE | JANK_SEVERE.

Inductive AdpfVoteType :=
| CPU_VOTE_DEFAULT | CPU_LOAD_UP | CPU_LOAD_RESET | CPU_LOAD_RESUME
| VOTE_POWER_EFFICIENCY | GPU_LOAD_UP | GPU_LOAD_DOWN | GPU_LOAD_RESET
| GPU_CAPACITY | VOTE_TYPE_SIZE.

(** [static_cast<int>] of a vote type. *)
Definition vote_int (v : AdpfVoteType) : Z :=
  match v with
  | CPU_VOTE_DEFAULT => 0 | CPU_LOAD_UP => 1 | CPU_LOAD_RESET => 2
  | CPU_LOAD_RESUME => 3 | VOTE_POWER_EFFICIENCY => 4 | GPU_LOAD_UP => 5
  | GPU_LOAD_DOWN => 6 | GPU_LOAD_RESET => 7 | GPU_CAPACITY => 8
  | VOTE_TYPE_SIZE => 9
  end.

Definition AdpfVoteTypeToStr (v : AdpfVoteType) : string :=
  match v with
  | CPU_VOTE_DEFAULT => "CPU_VOTE_DEFAULT"
  | CPU_LOAD_UP => "CPU_LOAD_UP"
  | CPU_LOAD_RESET => "CPU_LOAD_RESET"
  | CPU_LOAD_RESUME => "CPU_LOAD_RESUME"
  | VOTE_POWER_EFFICIENCY => "VOTE_POWER_EFFICIENCY"
  | GPU_LOAD_UP => "GPU_LOAD_UP"
  | GPU_LOAD_DOWN => "GPU_LOAD_DOWN"
  | GPU_LOAD_RESET => "GPU_LOAD_RESET"
  | GPU_CAPACITY => "GPU_CAPACITY"
  | VOTE_TYPE_SIZE => "INVALID_VOTE"
  end.

Inductive ProcessTag := PROC_DEFAULT | PROC_SYSTEM_UI | PROC_CHROME.

Definition ProcessTag_toString (t : ProcessTag) : string :=
  match t with
  | PROC_DEFAULT => "DEFAULT"
  | PROC_SYSTEM_UI => "SYSTEM_UI"
  | PROC_CHROME => "CHROME"
  end.

(** The enumerations of the [android.hardware.power] interface, with the
    enumerators that the sources name; [_raw] stands for any other value that
    a client may send over the wire. *)
Inductive SessionTag :=
| TAG_OTHER | TAG_SURFACEFLINGER | TAG_HWUI | TAG_GAME | TAG_APP | TAG_SYSUI.

Inductive SessionHint :=
| HINT_CPU_LOAD_UP | HINT_CPU_LOAD_DOWN | HINT_CPU_LOAD_RESET
| HINT_CPU_LOAD_RESUME | HINT_POWER_EFFICIENCY | HINT_GPU_LOAD_UP
| HINT_GPU_LOAD_DOWN | HINT_GPU_LOAD_RESET | HINT_CPU_LOAD_SPIKE
| HINT_GPU_LOAD_SPIKE | HINT_raw (n : Z).

Inductive SessionMode :=
| MODE_POWER_EFFICIENCY | MODE_GRAPHICS_PIPELINE | MODE_AUTO_CPU
| MODE_AUTO_GPU | MODE_AUDIO_PERFORMANCE | MODE_raw (n : Z).

#[export] Instance AdpfErrorCode_eq_dec : EqDecision AdpfErrorCode.
Proof. solve_decision. Defined.
#[export] Instance SessionJankyLevel_eq_dec : EqDecision SessionJankyLevel.
Proof. solve_decision. Defined.
#[export] Instance AdpfVoteType_eq_dec : EqDecision AdpfVoteType.
Proof. solve_decision. Defined.
#[export] Instance ProcessTag_eq_dec : EqDecision ProcessTag.
Proof. solve_decision. Defined.
#[export] Instance SessionTag_eq_dec : EqDecision SessionTag.
Proof. solve_decision. Defined.
#[export] Instance SessionHint_eq_dec : EqDecision SessionHint.
Proof. solve_decision. Defined.
#[export] Instance SessionMode_eq_dec : EqDecision SessionMode.
Proof. solve_decision. Defined.

(** ** Constants *)

Definition kUclampMin : Z := 0.
Definition kUclampMax : Z := 1024.
Definition kWriteBits : Z := 0x0000ffff.
Definition kReadBits : Z := 0xffff0000.
Definition kFMQQueueSize : Z := 32.
Definition kMaxChannels : Z := 16.

(** [supportFromBitset]: bit [type] of the 64-bit support word.  The shift is
    arithmetic and [%] truncates, so a negative word yields [-1] for an odd
    quotient, which converts to [true] like [1]. *)
Definition supportFromBitset (supportInt type : Z) : bool :=
  negb (Z.rem (Z.shiftr supportInt type) 2 =? 0).

(** ** Physical quantities: strong typedefs of [int] *)

Definition Cycles : Type := Z.
Definition Frequency : Type := Z.

(** ** Work durations, as reported by the clients *)

Record WorkDuration := mkWorkDuration {
  timeStampNanos : Z;
  durationNanos : Z;
  cpuDurationNanos : Z;
  gpuDurationNanos : Z;
  workPeriodStartTimestampNanos : Z
}.

(** ** The profile of tunables ([AdpfConfig] of libperfmgr), the fields the
    sources read *)

Record AdpfConfig := mkAdpfConfig {
  mPidOn : bool;
  mPidPo : double; mPidPu : double; mPidI : double; mPidDo : double; mPidDu : double;
  getPidIHighDivI : Z; getPidILowDivI : Z;
  mUclampMinOn : bool;
  mUclampMinInit : Z; mUclampMinLoadUp : Z; mUclampMinLoadReset : Z;
  mUclampMinHigh : Z; mUclampMinLow : Z;
  mSamplingWindowP : Z; mSamplingWindowI : Z; mSamplingWindowD : Z;
  mReportingRateLimitNs : Z;
  mTargetTimeFactor : double;
  mStaleTimeFactor : double;
  mHeuristicBoostOn : option bool;
  mHBoostModerateJankThreshold : option Z;
  mHBoostSevereJankThreshold : option Z;
  mHBoostOffMaxAvgDurRatio : option double;
  mHBoostSevereJankPidPu : option double;
  mHBoostUclampMinCeilingRange : option (Z * Z);
  mHBoostUclampMinFloorRange : option (Z * Z);
  mJankCheckTimeFactor : option double;
  mLowFrameRateThreshold : option Z;
  mMaxRecordsNum : option Z;
  mUclampMaxEfficientBase : option Z;
  mUclampMaxEfficientOffset : option Z;
  mGpuBoostOn : option bool;
  mGpuBoostCapacityMax : option Z;
  mGpuCapacityLoadUpHeadroom : Z;
  mHeuristicRampup : option bool;
  mDefaultRampupMult : option Z;
  mHighRampupMult : option Z
}.

(** [std::optional]: [value()] of an empty one ends the process.  The
    definitions that read one record this as an effect of its own, and go on
    with an arbitrary value. *)
Definition has_value {A : Type} (o : option A) : bool := match o with Some _ => true | None => false end.
Definition value {A : Type} `{Inhabited A} (o : option A) : A := default inhabitant o.

#[export] Instance double_inhabited : Inhabited double := populate (f64_of_Z 0).

(** ** AppHintDesc *)

Record AppHintDesc := mkAppHintDesc {
  d_sessionId : Z;
  d_tgid : Z;
  d_uid : Z;
  targetNs : Z;
  thread_ids : list Z;
  d_tag : SessionTag;
  d_procTag : ProcessTag;
  pidControlVariable : Z;
  is_active : bool;
  update_count : Z;
  integral_error : Z;
  previous_error : Z
}.

#[export] Instance eta_AppHintDesc : Record_eta AppHintDesc := fun r =>
  mkAppHintDesc (d_sessionId r) (d_tgid r) (d_uid r) (targetNs r) (thread_ids r)
    (d_tag r) (d_procTag r) (pidControlVariable r) (is_active r) (update_count r)
    (integral_error r) (previous_error r).

(** The constructor: active, with the PID state at zero. *)
Definition new_AppHintDesc (sessionId tgid uid : Z) (threadIds : list Z)
    (tag : SessionTag) (procTag : ProcessTag) (pTargetNs : Z) : AppHintDesc :=
  mkAppHintDesc sessionId tgid uid pTargetNs threadIds tag procTag 0 true 0 0 0.

(** ** Facts *)

Lemma vote_int_inj (v w : AdpfVoteType) : vote_int v = vote_int w -> v = w.
Proof. destruct v, w; simpl; congruence. Qed.

Lemma supportFromBitset_testbit (w n : Z) :
  0 <= n -> supportFromBitset w n = Z.testbit w n.
Proof.
  intros Hn. unfold supportFromBitset.
  rewrite <- (Z.add_0_l n) at 2. rewrite <- Z.shiftr_spec by lia.
  rewrite Z.bit0_odd. pose proof (Zmod_odd (Z.shiftr w n)) as Hodd.
  pose proof (Z.quot_rem' (Z.shiftr w n) 2).
  pose proof (Z.rem_bound_abs (Z.shiftr w n) 2).
  destruct (Z.eqb_spec (Z.rem (Z.shiftr w n) 2) 0), (Z.odd (Z.shiftr w n));
    simpl; try reflexivity; Z.div_mod_to_equations; lia.
Qed.
