(* ===== verification/UClampVoter.v ===== *)
(** * Votes on the uclamp range and on the GPU capacity
      (src/power-libperfmgr/aidl/UClampVoter.h, UClampVoter.cpp)

    A session holds a collection of votes, each with an active flag and a time
    window.  CPU votes narrow the utilisation clamp of a task; GPU votes request
    capacity.  [Votes] is the class of that name: two hash maps keyed by the
    integer vote id, the GPU ids in one, all others in the other.

    Shown here: the clamp that a collection of votes yields is the least upper
    bound of the minima and the greatest lower bound of the maxima of the votes
    that are in range, whatever order the hash map is walked in; and the two
    maps with their dispatch on the id implement one finite map from vote ids
    to time windows ([abs_votes]). *)

From S2P Require Import Prelude CFloat AdpfTypes.

(** ** Data *)

Record UclampRange := mkUclampRange { uclampMin : Z; uclampMax : Z }.

#[export] Instance UclampRange_eq_dec : EqDecision UclampRange.
Proof. solve_decision. Defined.

Definition default_UclampRange : UclampRange := mkUclampRange kUclampMin kUclampMax.

Record VoteRange := mkVoteRange { mActive : bool; mStartTime : Z; mDurationNs : Z }.

#[export] Instance eta_VoteRange : Record_eta VoteRange := fun r =>
  mkVoteRange (mActive r) (mStartTime r) (mDurationNs r).

Definition vr_setActive (active : bool) (v : VoteRange) : VoteRange := v <| mActive := active |>.
Definition vr_updateDuration (d : Z) (v : VoteRange) : VoteRange := v <| mDurationNs := d |>.

(** End of the window, a [steady_clock::time_point] in 64-bit nanoseconds. *)
Definition vr_timeout (v : VoteRange) : Z := mStartTime v +₆₄ mDurationNs v.

Definition isTimeInRange (v : VoteRange) (t : Z) : bool :=
  mActive v && ((mStartTime v <=? t) && (t <=? vr_timeout v)).

Record CpuVote := mkCpuVote { cpu_range : VoteRange; mUclampRange : UclampRange }.
Record GpuVote := mkGpuVote { gpu_range : VoteRange; mCapacity : Cycles }.

#[export] Instance eta_CpuVote : Record_eta CpuVote := fun r =>
  mkCpuVote (cpu_range r) (mUclampRange r).
#[export] Instance eta_GpuVote : Record_eta GpuVote := fun r =>
  mkGpuVote (gpu_range r) (mCapacity r).

(** The constructors with arguments. *)
Definition new_CpuVote (active : bool) (startTime durationNs uclamp_min uclamp_max : Z) : CpuVote :=
  mkCpuVote (mkVoteRange active startTime durationNs) (mkUclampRange uclamp_min uclamp_max).
Definition new_GpuVote (active : bool) (startTime durationNs : Z) (capacity : Cycles) : GpuVote :=
  mkGpuVote (mkVoteRange active startTime durationNs) capacity.

Record Votes := mkVotes { mCpuVotes : gmap Z CpuVote; mGpuVotes : gmap Z GpuVote }.

#[export] Instance eta_Votes : Record_eta Votes := fun r => mkVotes (mCpuVotes r) (mGpuVotes r).

Definition empty_Votes : Votes := mkVotes ∅ ∅.

(** ** Operations *)

Definition confine (t : Z) (r : UclampRange) (v : CpuVote) : UclampRange :=
  if negb (isTimeInRange (cpu_range v) t) then r
  else mkUclampRange (Z.max (uclampMin r) (uclampMin (mUclampRange v)))
                     (Z.min (uclampMax r) (uclampMax (mUclampRange v))).

Definition isGpuVote (type_raw : Z) : bool :=
  (type_raw =? vote_int GPU_CAPACITY) || (type_raw =? vote_int GPU_LOAD_UP) ||
  (type_raw =? vote_int GPU_LOAD_DOWN) || (type_raw =? vote_int GPU_LOAD_RESET).

Definition Votes_add_cpu (id : Z) (vote : CpuVote) (v : Votes) : Votes :=
  if negb (isGpuVote id) then v <| mCpuVotes := <[id := vote]> (mCpuVotes v) |> else v.

Definition Votes_add_gpu (id : Z) (vote : GpuVote) (v : Votes) : Votes :=
  if isGpuVote id then v <| mGpuVotes := <[id := vote]> (mGpuVotes v) |> else v.

(** The loop over [gpu_capacity_hints]: one iteration. *)
Definition gpu_request_step (v : Votes) (t : Z) (res : option Cycles) (hint : AdpfVoteType)
    : option Cycles :=
  match mGpuVotes v !! vote_int hint with
  | Some g => if isTimeInRange (gpu_range g) t
              then Some (default 0 res +₃₂ mCapacity g) else res
  | None => res
  end.

Definition Votes_getGpuCapacityRequest (v : Votes) (t : Z) : option Cycles :=
  foldl (gpu_request_step v t) None [GPU_CAPACITY; GPU_LOAD_UP].

Definition Votes_updateDuration (voteId durationNs : Z) (v : Votes) : Votes :=
  if isGpuVote voteId then
    match mGpuVotes v !! voteId with
    | Some g => v <| mGpuVotes := <[voteId := g <| gpu_range ::= vr_updateDuration durationNs |>]> (mGpuVotes v) |>
    | None => v
    end
  else
    match mCpuVotes v !! voteId with
    | Some c => v <| mCpuVotes := <[voteId := c <| cpu_range ::= vr_updateDuration durationNs |>]> (mCpuVotes v) |>
    | None => v
    end.

(** The votes in the order the hash map yields them; [map_to_list] fixes one. *)
Definition cpu_vote_list (v : Votes) : list CpuVote := (map_to_list (mCpuVotes v)).*2.
Definition gpu_vote_list (v : Votes) : list GpuVote := (map_to_list (mGpuVotes v)).*2.

Definition Votes_getUclampRange (v : Votes) (r : UclampRange) (t : Z) : UclampRange :=
  foldl (confine t) r (cpu_vote_list v).

Definition Votes_anyTimedOut (v : Votes) (t : Z) : bool :=
  existsb (fun g => negb (isTimeInRange (gpu_range g) t)) (gpu_vote_list v) ||
  existsb (fun c => negb (isTimeInRange (cpu_range c) t)) (cpu_vote_list v).

Definition Votes_allTimedOut (v : Votes) (t : Z) : bool :=
  negb (existsb (fun g => isTimeInRange (gpu_range g) t) (gpu_vote_list v)) &&
  negb (existsb (fun c => isTimeInRange (cpu_range c) t) (cpu_vote_list v)).

Definition Votes_remove (voteId : Z) (v : Votes) : bool * Votes :=
  if isGpuVote voteId then
    match mGpuVotes v !! voteId with
    | Some _ => (true, v <| mGpuVotes := delete voteId (mGpuVotes v) |>)
    | None => (false, v)
    end
  else
    match mCpuVotes v !! voteId with
    | Some _ => (true, v <| mCpuVotes := delete voteId (mCpuVotes v) |>)
    | None => (false, v)
    end.

Definition Votes_setUseVote (voteId : Z) (active : bool) (v : Votes) : bool * Votes :=
  if isGpuVote voteId then
    match mGpuVotes v !! voteId with
    | None => (false, v)
    | Some g => (true, v <| mGpuVotes := <[voteId := g <| gpu_range ::= vr_setActive active |>]> (mGpuVotes v) |>)
    end
  else
    match mCpuVotes v !! voteId with
    | None => (false, v)
    | Some c => (true, v <| mCpuVotes := <[voteId := c <| cpu_range ::= vr_setActive active |>]> (mCpuVotes v) |>)
    end.

Definition Votes_size (v : Votes) : Z := Z.of_nat (size (mCpuVotes v) + size (mGpuVotes v)).

Definition Votes_voteIsActive (v : Votes) (voteId : Z) : bool :=
  if isGpuVote voteId then
    match mGpuVotes v !! voteId with None => false | Some g => mActive (gpu_range g) end
  else
    match mCpuVotes v !! voteId with None => false | Some c => mActive (cpu_range c) end.

Definition Votes_voteTimeout (v : Votes) (voteId : Z) : Z :=
  if isGpuVote voteId then
    match mGpuVotes v !! voteId with None => 0 | Some g => vr_timeout (gpu_range g) end
  else
    match mCpuVotes v !! voteId with None => 0 | Some c => vr_timeout (cpu_range c) end.

(** ** Abstraction: one map from vote ids to time windows *)

Definition votes_wf (v : Votes) : Prop :=
  (forall id c, mCpuVotes v !! id = Some c -> isGpuVote id = false) /\
  (forall id g, mGpuVotes v !! id = Some g -> isGpuVote id = true).

Definition abs_votes (v : Votes) : gmap Z VoteRange :=
  (cpu_range <$> mCpuVotes v) ∪ (gpu_range <$> mGpuVotes v).

(** ** The clamp computation *)

Section confine_fold.
Context (t : Z).

Definition in_range_cpu (c : CpuVote) : Prop := isTimeInRange (cpu_range c) t = true.

(** [r'] is what the votes of [l] make of [r]. *)
Definition narrowed (l : list CpuVote) (r r' : UclampRange) : Prop :=
  uclampMin r <= uclampMin r' /\ uclampMax r' <= uclampMax r /\
  (forall c, c ∈ l -> in_range_cpu c ->
     uclampMin (mUclampRange c) <= uclampMin r' /\ uclampMax r' <= uclampMax (mUclampRange c)) /\
  (uclampMin r' = uclampMin r \/
     exists c, c ∈ l /\ in_range_cpu c /\ uclampMin r' = uclampMin (mUclampRange c)) /\
  (uclampMax r' = uclampMax r \/
     exists c, c ∈ l /\ in_range_cpu c /\ uclampMax r' = uclampMax (mUclampRange c)).

Lemma narrowed_unique (l1 l2 : list CpuVote) (r r1 r2 : UclampRange) :
  (forall c, c ∈ l1 <-> c ∈ l2) -> narrowed l1 r r1 -> narrowed l2 r r2 -> r1 = r2.
Proof.
  intros Hl (A1 & A2 & A3 & A4 & A5) (B1 & B2 & B3 & B4 & B5).
  destruct r1 as [m1 M1], r2 as [m2 M2]; simpl in *. f_equal.
  - assert (m2 <= m1). { destruct B4 as [-> | (c & Hc & Hr & ->)]; [lia|]. apply A3; [by apply Hl | done]. }
    assert (m1 <= m2). { destruct A4 as [-> | (c & Hc & Hr & ->)]; [lia|]. apply B3; [by apply Hl | done]. }
    lia.
  - assert (M1 <= M2). { destruct B5 as [-> | (c & Hc & Hr & ->)]; [lia|]. apply A3; [by apply Hl | done]. }
    assert (M2 <= M1). { destruct A5 as [-> | (c & Hc & Hr & ->)]; [lia|]. apply B3; [by apply Hl | done]. }
    lia.
Qed.

Lemma foldl_confine_narrowed (l : list CpuVote) (r : UclampRange) :
  narrowed l r (foldl (confine t) r l).
Proof.
  induction l as [| c l IH] using rev_ind.
  - unfold narrowed; simpl. repeat split; try lia; set_solver.
  - rewrite foldl_app; simpl. set (r' := foldl (confine t) r l) in *.
    destruct IH as (A1 & A2 & A3 & A4 & A5). unfold confine, narrowed.
    setoid_rewrite elem_of_app. setoid_rewrite list_elem_of_singleton.
    destruct (isTimeInRange (cpu_range c) t) eqn:E; simpl.
    + split_and!; try lia.
      * intros d [Hd | ->] Hr; [specialize (A3 d Hd Hr) |]; lia.
      * destruct (Z.max_spec (uclampMin r') (uclampMin (mUclampRange c))) as [[_ ->] | [_ ->]].
        -- right. exists c. repeat split; auto.
        -- destruct A4 as [A4 | (d & ? & ? & ?)]; [by left | right; exists d; auto].
      * destruct (Z.min_spec (uclampMax r') (uclampMax (mUclampRange c))) as [[_ ->] | [_ ->]].
        -- destruct A5 as [A5 | (d & ? & ? & ?)]; [by left | right; exists d; auto].
        -- right. exists c. repeat split; auto.
    + split_and!; try lia.
      * intros d [Hd | ->] Hr; [by apply A3 |]. unfold in_range_cpu in Hr. congruence.
      * destruct A4 as [A4 | (d & ? & ? & ?)]; [by left | right; exists d; auto].
      * destruct A5 as [A5 | (d & ? & ? & ?)]; [by left | right; exists d; auto].
Qed.

Lemma foldl_confine_perm (l1 l2 : list CpuVote) (r : UclampRange) :
  l1 ≡ₚ l2 -> foldl (confine t) r l1 = foldl (confine t) r l2.
Proof.
  intros Hp. eapply (narrowed_unique l1 l2 r).
  - intros c. by rewrite Hp.
  - apply foldl_confine_narrowed.
  - apply foldl_confine_narrowed.
Qed.

End confine_fold.

Lemma elem_of_cpu_vote_list (v : Votes) (c : CpuVote) :
  c ∈ cpu_vote_list v <-> exists id, mCpuVotes v !! id = Some c.
Proof.
  unfold cpu_vote_list. rewrite list_elem_of_fmap. split.
  - intros ([id c'] & -> & H). exists id. by apply elem_of_map_to_list.
  - intros [id H]. exists (id, c). split; [done | by apply elem_of_map_to_list].
Qed.

Lemma elem_of_gpu_vote_list (v : Votes) (g : GpuVote) :
  g ∈ gpu_vote_list v <-> exists id, mGpuVotes v !! id = Some g.
Proof.
  unfold gpu_vote_list. rewrite list_elem_of_fmap. split.
  - intros ([id g'] & -> & H). exists id. by apply elem_of_map_to_list.
  - intros [id H]. exists (id, g). split; [done | by apply elem_of_map_to_list].
Qed.

(** ** The two maps as one *)

Lemma lookup_abs_votes (v : Votes) (id : Z) :
  votes_wf v ->
  abs_votes v !! id =
    if isGpuVote id then gpu_range <$> mGpuVotes v !! id else cpu_range <$> mCpuVotes v !! id.
Proof.
  intros [Hc Hg]. unfold abs_votes. rewrite lookup_union, !lookup_fmap.
  destruct (mCpuVotes v !! id) as [c|] eqn:Ec; simpl.
  - rewrite (Hc _ _ Ec). by destruct (gpu_range <$> _).
  - destruct (mGpuVotes v !! id) as [g|] eqn:Eg; simpl.
    + by rewrite (Hg _ _ Eg).
    + by destruct (isGpuVote id).
Qed.

Lemma empty_Votes_wf : votes_wf empty_Votes.
Proof. split; intros id x H; simpl in H; by rewrite lookup_empty in H. Qed.

(** Solve a goal on a lookup in an updated map by cases on the key. *)
Ltac map_cases :=
  repeat match goal with
  | H : context [<[?i := _]> _ !! ?j] |- _ => rewrite (lookup_insert _ i j) in H; case_decide; simplify_eq
  | H : context [delete ?i _ !! ?j] |- _ => rewrite (lookup_delete _ i j) in H; case_decide; simplify_eq
  | |- context [<[?i := _]> _ !! ?j] => rewrite (lookup_insert _ i j); case_decide; simplify_eq
  | |- context [delete ?i _ !! ?j] => rewrite (lookup_delete _ i j); case_decide; simplify_eq
  end.

Ltac votes_wf_tac :=
  match goal with H : votes_wf _ |- _ => destruct H as [?Hc ?Hg] end;
  split; intros ?id ?x ?H; simpl in *; map_cases; eauto; try congruence.

Lemma Votes_add_cpu_wf (id : Z) (c : CpuVote) (v : Votes) :
  votes_wf v -> votes_wf (Votes_add_cpu id c v).
Proof. intros H. unfold Votes_add_cpu. destruct (isGpuVote id) eqn:E; [done |]. votes_wf_tac. Qed.

Lemma Votes_add_gpu_wf (id : Z) (g : GpuVote) (v : Votes) :
  votes_wf v -> votes_wf (Votes_add_gpu id g v).
Proof. intros H. unfold Votes_add_gpu. destruct (isGpuVote id) eqn:E; [| done]. votes_wf_tac. Qed.

Lemma Votes_updateDuration_wf (id d : Z) (v : Votes) :
  votes_wf v -> votes_wf (Votes_updateDuration id d v).
Proof.
  intros H. unfold Votes_updateDuration.
  destruct (isGpuVote id) eqn:E; case_match; try done; votes_wf_tac.
Qed.

Lemma Votes_remove_wf (id : Z) (v : Votes) : votes_wf v -> votes_wf (Votes_remove id v).2.
Proof.
  intros H. unfold Votes_remove.
  destruct (isGpuVote id) eqn:E; case_match; try done; votes_wf_tac.
Qed.

Lemma Votes_setUseVote_wf (id : Z) (b : bool) (v : Votes) :
  votes_wf v -> votes_wf (Votes_setUseVote id b v).2.
Proof.
  intros H. unfold Votes_setUseVote.
  destruct (isGpuVote id) eqn:E; case_match; try done; votes_wf_tac.
Qed.

#[export] Hint Resolve empty_Votes_wf Votes_add_cpu_wf Votes_add_gpu_wf Votes_updateDuration_wf
  Votes_remove_wf Votes_setUseVote_wf : inv.

Lemma Votes_add_cpu_abs (id : Z) (c : CpuVote) (v : Votes) :
  votes_wf v -> isGpuVote id = false ->
  abs_votes (Votes_add_cpu id c v) = <[id := cpu_range c]> (abs_votes v).
Proof.
  intros H E. apply map_eq; intros j.
  rewrite lookup_insert, !lookup_abs_votes by eauto with inv.
  unfold Votes_add_cpu. rewrite E. simpl. rewrite lookup_insert.
  repeat case_decide; subst; rewrite ?E; done.
Qed.

Lemma Votes_add_gpu_abs (id : Z) (g : GpuVote) (v : Votes) :
  votes_wf v -> isGpuVote id = true ->
  abs_votes (Votes_add_gpu id g v) = <[id := gpu_range g]> (abs_votes v).
Proof.
  intros H E. apply map_eq; intros j.
  rewrite lookup_insert, !lookup_abs_votes by eauto with inv.
  unfold Votes_add_gpu. rewrite E. simpl. rewrite lookup_insert.
  repeat case_decide; subst; rewrite ?E; done.
Qed.

Lemma Votes_updateDuration_abs (id d : Z) (v : Votes) :
  votes_wf v ->
  abs_votes (Votes_updateDuration id d v) = alter (vr_updateDuration d) id (abs_votes v).
Proof.
  intros H. apply map_eq; intros j.
  rewrite lookup_alter, !lookup_abs_votes by eauto with inv.
  unfold Votes_updateDuration.
  destruct (isGpuVote id) eqn:E, (isGpuVote j) eqn:Ej; case_match eqn:El; simpl;
    rewrite ?lookup_insert; repeat case_decide; subst; simplify_eq; rewrite ?El; simpl; congruence.
Qed.

Lemma Votes_remove_abs (id : Z) (v : Votes) :
  votes_wf v ->
  abs_votes (Votes_remove id v).2 = delete id (abs_votes v) /\
  (Votes_remove id v).1 = bool_decide (is_Some (abs_votes v !! id)).
Proof.
  intros H. split.
  - apply map_eq; intros j.
    rewrite lookup_delete, !lookup_abs_votes by eauto with inv.
    unfold Votes_remove.
    destruct (isGpuVote id) eqn:E, (isGpuVote j) eqn:Ej; case_match eqn:El; simpl;
      rewrite ?lookup_delete; repeat case_decide; subst; simplify_eq; rewrite ?El; simpl; congruence.
  - rewrite lookup_abs_votes by done. unfold Votes_remove.
    destruct (isGpuVote id); by case_match.
Qed.

Lemma Votes_setUseVote_abs (id : Z) (b : bool) (v : Votes) :
  votes_wf v ->
  abs_votes (Votes_setUseVote id b v).2 = alter (vr_setActive b) id (abs_votes v) /\
  (Votes_setUseVote id b v).1 = bool_decide (is_Some (abs_votes v !! id)).
Proof.
  intros H. split.
  - apply map_eq; intros j.
    rewrite lookup_alter, !lookup_abs_votes by eauto with inv.
    unfold Votes_setUseVote.
    destruct (isGpuVote id) eqn:E, (isGpuVote j) eqn:Ej; case_match eqn:El; simpl;
      rewrite ?lookup_insert; repeat case_decide; subst; simplify_eq; rewrite ?El; simpl; congruence.
  - rewrite lookup_abs_votes by done. unfold Votes_setUseVote.
    destruct (isGpuVote id); by case_match.
Qed.

Lemma Votes_voteIsActive_abs (v : Votes) (id : Z) :
  votes_wf v -> Votes_voteIsActive v id = default false (mActive <$> abs_votes v !! id).
Proof.
  intros H. rewrite lookup_abs_votes by done. unfold Votes_voteIsActive.
  destruct (isGpuVote id); by case_match.
Qed.

Lemma Votes_voteTimeout_abs (v : Votes) (id : Z) :
  votes_wf v -> Votes_voteTimeout v id = default 0 (vr_timeout <$> abs_votes v !! id).
Proof.
  intros H. rewrite lookup_abs_votes by done. unfold Votes_voteTimeout.
  destruct (isGpuVote id); by case_match.
Qed.

Lemma abs_votes_disjoint (v : Votes) :
  votes_wf v -> (cpu_range <$> mCpuVotes v) ##ₘ (gpu_range <$> mGpuVotes v).
Proof.
  intros [Hc Hg]. apply map_disjoint_spec. intros id a b Ha Hb.
  rewrite lookup_fmap in Ha. rewrite lookup_fmap in Hb.
  destruct (mCpuVotes v !! id) eqn:E1, (mGpuVotes v !! id) eqn:E2; simplify_eq/=.
  apply Hc in E1. apply Hg in E2. congruence.
Qed.

Lemma Votes_size_abs (v : Votes) : votes_wf v -> Votes_size v = Z.of_nat (size (abs_votes v)).
Proof.
  intros H. unfold Votes_size, abs_votes.
  rewrite map_size_disj_union by by apply abs_votes_disjoint. by rewrite !map_size_fmap.
Qed.

Lemma abs_votes_lists (v : Votes) (w : VoteRange) :
  votes_wf v ->
  (exists id, abs_votes v !! id = Some w) <->
  (exists g, g ∈ gpu_vote_list v /\ gpu_range g = w) \/
  (exists c, c ∈ cpu_vote_list v /\ cpu_range c = w).
Proof.
  intros H. setoid_rewrite elem_of_gpu_vote_list. setoid_rewrite elem_of_cpu_vote_list.
  destruct H as [Hc Hg]. split.
  - intros [id Hid]. rewrite lookup_abs_votes in Hid by done.
    destruct (isGpuVote id);
      [destruct (mGpuVotes v !! id) as [x|] eqn:E | destruct (mCpuVotes v !! id) as [x|] eqn:E];
      simplify_eq/=; [left | right]; exists x; eauto.
  - intros [(g & [id E] & <-) | (c & [id E] & <-)]; exists id; rewrite lookup_abs_votes by done.
    + by rewrite (Hg _ _ E), E.
    + by rewrite (Hc _ _ E), E.
Qed.

Lemma existsb_elem {A} (f : A -> bool) (l : list A) :
  existsb f l = true <-> exists x, x ∈ l /\ f x = true.
Proof. rewrite existsb_exists. by setoid_rewrite list_elem_of_In. Qed.

Lemma Votes_anyTimedOut_abs (v : Votes) (t : Z) :
  votes_wf v ->
  Votes_anyTimedOut v t = true <->
  exists id w, abs_votes v !! id = Some w /\ isTimeInRange w t = false.
Proof.
  intros H. unfold Votes_anyTimedOut. rewrite orb_true_iff, !existsb_elem.
  setoid_rewrite negb_true_iff. split.
  - intros [(x & Hx & Hr) | (x & Hx & Hr)].
    + destruct (proj2 (abs_votes_lists v (gpu_range x) H)) as [id Hid]; eauto.
    + destruct (proj2 (abs_votes_lists v (cpu_range x) H)) as [id Hid]; eauto.
  - intros (id & w & Hid & Hr).
    destruct (proj1 (abs_votes_lists v w H)) as [(x & Hx & <-) | (x & Hx & <-)]; eauto.
Qed.

Lemma Votes_allTimedOut_abs (v : Votes) (t : Z) :
  votes_wf v ->
  Votes_allTimedOut v t = true <->
  forall id w, abs_votes v !! id = Some w -> isTimeInRange w t = false.
Proof.
  intros H. unfold Votes_allTimedOut. rewrite andb_true_iff, !negb_true_iff.
  rewrite <- !not_true_iff_false, !existsb_elem. split.
  - intros [Hg Hc] id w Hid. apply not_true_iff_false. intros Hr.
    destruct (proj1 (abs_votes_lists v w H)) as [(x & Hx & <-) | (x & Hx & <-)]; eauto.
  - intros Hall. split; intros (x & Hx & Hr).
    + destruct (proj2 (abs_votes_lists v (gpu_range x) H)) as [id Hid]; [eauto |].
      rewrite (Hall _ _ Hid) in Hr. done.
    + destruct (proj2 (abs_votes_lists v (cpu_range x) H)) as [id Hid]; [eauto |].
      rewrite (Hall _ _ Hid) in Hr. done.
Qed.

(** ** Main results *)

(** C5. The uclamp range that a collection of votes yields from an initial range
    is the tightest one that respects every vote in range at that time: its
    minimum is the largest of the minima and its maximum the smallest of the
    maxima (each attained by the initial range or by a vote in range), votes out
    of range have no influence, and the result does not depend on the order in
    which the hash map is walked. *)
Theorem getUclampRange_spec (v : Votes) (r : UclampRange) (t : Z) :
  narrowed t (cpu_vote_list v) r (Votes_getUclampRange v r t) /\
  (forall l, l ≡ₚ cpu_vote_list v -> foldl (confine t) r l = Votes_getUclampRange v r t).
Proof.
  split; [apply foldl_confine_narrowed | intros l Hl; by apply foldl_confine_perm].
Qed.

Lemma getUclampRange_spec_witness :
  let v := Votes_add_cpu 0 (new_CpuVote true 100 50 300 900)
             (Votes_add_cpu 1 (new_CpuVote true 0 10 800 1000) empty_Votes) in
  Votes_getUclampRange v default_UclampRange 120 = mkUclampRange 300 900 /\
  narrowed 120 (cpu_vote_list v) default_UclampRange (mkUclampRange 300 900).
Proof.
  split; [vm_compute; reflexivity |].
  exact (proj1 (getUclampRange_spec
    (Votes_add_cpu 0 (new_CpuVote true 100 50 300 900)
       (Votes_add_cpu 1 (new_CpuVote true 0 10 800 1000) empty_Votes)) default_UclampRange 120)).
Defined.

(** C6. The pair of hash maps of [Votes], with its dispatch on GPU vote ids,
    implements a single finite map from vote ids to time windows: [add] of a
    vote of the right kind inserts (and a vote of the wrong kind is ignored),
    [updateDuration] and [setUseVote] alter one entry, [remove] deletes it, the
    boolean results say whether the id was present, the queries read the map,
    and every operation keeps the two key spaces apart. *)
Theorem votes_refinement (v : Votes) (H : votes_wf v) :
  (forall id c, abs_votes (Votes_add_cpu id c v) =
     if isGpuVote id then abs_votes v else <[id := cpu_range c]> (abs_votes v)) /\
  (forall id g, abs_votes (Votes_add_gpu id g v) =
     if isGpuVote id then <[id := gpu_range g]> (abs_votes v) else abs_votes v) /\
  (forall id d, abs_votes (Votes_updateDuration id d v) = alter (vr_updateDuration d) id (abs_votes v)) /\
  (forall id b, abs_votes (Votes_setUseVote id b v).2 = alter (vr_setActive b) id (abs_votes v) /\
     (Votes_setUseVote id b v).1 = bool_decide (is_Some (abs_votes v !! id))) /\
  (forall id, abs_votes (Votes_remove id v).2 = delete id (abs_votes v) /\
     (Votes_remove id v).1 = bool_decide (is_Some (abs_votes v !! id))) /\
  (forall id, Votes_voteIsActive v id = default false (mActive <$> abs_votes v !! id)) /\
  (forall id, Votes_voteTimeout v id = default 0 (vr_timeout <$> abs_votes v !! id)) /\
  Votes_size v = Z.of_nat (size (abs_votes v)) /\
  (forall t, Votes_allTimedOut v t = true <->
     forall id w, abs_votes v !! id = Some w -> isTimeInRange w t = false) /\
  (forall t, Votes_anyTimedOut v t = true <->
     exists id w, abs_votes v !! id = Some w /\ isTimeInRange w t = false) /\
  (forall id c, votes_wf (Votes_add_cpu id c v)) /\
  (forall id g, votes_wf (Votes_add_gpu id g v)) /\
  (forall id d, votes_wf (Votes_updateDuration id d v)) /\
  (forall id b, votes_wf (Votes_setUseVote id b v).2) /\
  (forall id, votes_wf (Votes_remove id v).2).
Proof.
  split_and!; intros; eauto with inv;
    auto using Votes_updateDuration_abs, Votes_setUseVote_abs, Votes_remove_abs,
      Votes_voteIsActive_abs, Votes_voteTimeout_abs, Votes_size_abs,
      Votes_allTimedOut_abs, Votes_anyTimedOut_abs.
  - destruct (isGpuVote id) eqn:E; [unfold Votes_add_cpu; by rewrite E | by apply Votes_add_cpu_abs].
  - destruct (isGpuVote id) eqn:E; [by apply Votes_add_gpu_abs | unfold Votes_add_gpu; by rewrite E].
Qed.

Lemma votes_refinement_witness :
  Votes_size empty_Votes = Z.of_nat (size (abs_votes empty_Votes)) /\
  Votes_allTimedOut empty_Votes 5 = true.
Proof.
  destruct (votes_refinement empty_Votes empty_Votes_wf) as (_ & _ & _ & _ & _ & _ & _ & Hs & Ha & _).
  split; [exact Hs |]. apply (proj2 (Ha 5)).
  intros id w Hw. vm_compute in Hw. discriminate Hw.
Defined.

(** The GPU capacity that a session requests is the sum (in 32-bit
    arithmetic) of its capacity vote and of its load-up vote, counting only the
    votes that are in range; there is no request when neither is. *)
Theorem getGpuCapacityRequest_spec (v : Votes) (t : Z) :
  let inr (h : AdpfVoteType) :=
    match mGpuVotes v !! vote_int h with
    | Some g => if isTimeInRange (gpu_range g) t then Some (mCapacity g) else None
    | None => None
    end in
  Votes_getGpuCapacityRequest v t =
    match inr GPU_CAPACITY, inr GPU_LOAD_UP with
    | None, None => None
    | Some a, None => Some (i32 a)
    | None, Some b => Some (i32 b)
    | Some a, Some b => Some (i32 (i32 a + b))
    end.
Proof.
  unfold Votes_getGpuCapacityRequest, gpu_request_step. simpl.
  repeat case_match; simplify_eq/=; done.
Qed.
