(* ===== verification/SessionMetrics.v ===== *)
(** * Frame metrics of a session
      (src/power-libperfmgr/aidl/SessionMetrics.h, SessionMetrics.cpp)

    Counters of janky frames by duration bucket for applications, histograms
    of frame times for games, and the record that accumulates either of them
    over a metric session.  Shown here: merging a report into the game
    histograms keeps their fixed size, loses no frame, and accumulates the
    total frame time with outliers capped at the last bucket. *)

From S2P Require Import Prelude CFloat AdpfTypes.

Record FrameBuckets := mkFrameBuckets {
  totalNumOfFrames : Z;
  numOfFrames17to25ms : Z;
  numOfFrames25to34ms : Z;
  numOfFrames34to67ms : Z;
  numOfFrames67to100ms : Z;
  numOfFramesOver100ms : Z
}.

#[export] Instance eta_FrameBuckets : Record_eta FrameBuckets := fun r =>
  mkFrameBuckets (totalNumOfFrames r) (numOfFrames17to25ms r) (numOfFrames25to34ms r)
    (numOfFrames34to67ms r) (numOfFrames67to100ms r) (numOfFramesOver100ms r).

Definition empty_FrameBuckets : FrameBuckets := mkFrameBuckets 0 0 0 0 0 0.

Definition addUpNewFrames (b newFrames : FrameBuckets) : FrameBuckets :=
  mkFrameBuckets
    (totalNumOfFrames b +₆₄ totalNumOfFrames newFrames)
    (numOfFrames17to25ms b +₆₄ numOfFrames17to25ms newFrames)
    (numOfFrames25to34ms b +₆₄ numOfFrames25to34ms newFrames)
    (numOfFrames34to67ms b +₆₄ numOfFrames34to67ms newFrames)
    (numOfFrames67to100ms b +₆₄ numOfFrames67to100ms newFrames)
    (numOfFramesOver100ms b +₆₄ numOfFramesOver100ms newFrames).

Record GameFrameMetrics := mkGameFrameMetrics {
  frameTimingMs : list Z;
  frameTimingDeltaMs : list Z;
  totalFrameTimeMs : Z;
  gm_numOfFrames : Z
}.

#[export] Instance eta_GameFrameMetrics : Record_eta GameFrameMetrics := fun r =>
  mkGameFrameMetrics (frameTimingMs r) (frameTimingDeltaMs r) (totalFrameTimeMs r) (gm_numOfFrames r).

Definition empty_GameFrameMetrics : GameFrameMetrics := mkGameFrameMetrics [] [] 0 0.

Record FrameTimingMetrics := mkFrameTimingMetrics {
  framesInBuckets : FrameBuckets;
  ft_gameFrameMetrics : GameFrameMetrics
}.

#[export] Instance eta_FrameTimingMetrics : Record_eta FrameTimingMetrics := fun r =>
  mkFrameTimingMetrics (framesInBuckets r) (ft_gameFrameMetrics r).

Definition empty_FrameTimingMetrics : FrameTimingMetrics :=
  mkFrameTimingMetrics empty_FrameBuckets empty_GameFrameMetrics.

Inductive ScenarioType := SCENARIO_DEFAULT | SCENARIO_GAME.
Inductive FrameTimelineType := TIMELINE_SURFACEFLINGER | TIMELINE_APP.

#[export] Instance ScenarioType_eq_dec : EqDecision ScenarioType.
Proof. solve_decision. Defined.

(** [ThrottlingSeverity] of the thermal HAL, by its integer value. *)
Definition ThrottlingSeverity : Type := Z.
Definition THROTTLING_NONE : ThrottlingSeverity := 0.

Record SessionMetrics := mkSessionMetrics {
  sm_uid : option Z;
  scenarioType : ScenarioType;
  frameTimelineType : FrameTimelineType;
  metricStartTime : Z;
  metricEndTime : Z;
  metricSessionCompleted : bool;
  thermalThrotStat : ThrottlingSeverity;
  totalFrameNumber : Z;
  appFrameMetrics : option FrameBuckets;
  sm_gameFrameMetrics : option GameFrameMetrics
}.

#[export] Instance eta_SessionMetrics : Record_eta SessionMetrics := fun r =>
  mkSessionMetrics (sm_uid r) (scenarioType r) (frameTimelineType r) (metricStartTime r)
    (metricEndTime r) (metricSessionCompleted r) (thermalThrotStat r) (totalFrameNumber r)
    (appFrameMetrics r) (sm_gameFrameMetrics r).

Definition empty_SessionMetrics : SessionMetrics :=
  mkSessionMetrics None SCENARIO_DEFAULT TIMELINE_APP 0 0 false THROTTLING_NONE 0 None None.

(** ** Operations *)

Definition TIME_BUCKETS_SIZE : Z := 100.

Definition resetMetric (newThermalState : ThrottlingSeverity) (newScenario : ScenarioType)
    (now : Z) (m : SessionMetrics) : SessionMetrics :=
  m <| scenarioType := newScenario |>
    <| thermalThrotStat := newThermalState |>
    <| metricSessionCompleted := false |>
    <| totalFrameNumber := 0 |>
    <| metricStartTime := now |>
    <| appFrameMetrics := None |>
    <| sm_gameFrameMetrics := None |>.

(** [vec[i]++] on a vector of [uint32_t]. *)
Definition bump (i : Z) (l : list Z) : list Z := alter (fun x => u32 (x + 1)) (Z.to_nat i) l.

(** One iteration of the loop over the reported frame times. *)
Definition add_frame_time (g : GameFrameMetrics) (frameDur : Z) : GameFrameMetrics :=
  if TIME_BUCKETS_SIZE <=? frameDur then
    g <| frameTimingMs ::= bump (TIME_BUCKETS_SIZE - 1) |>
      <| totalFrameTimeMs ::= fun x => u64 (x - u32 (frameDur - TIME_BUCKETS_SIZE)) |>
  else if 0 <=? frameDur then g <| frameTimingMs ::= bump frameDur |>
  else g.

(** One iteration of the loop over the reported frame-time deltas. *)
Definition add_frame_delta (g : GameFrameMetrics) (frameDurDelta : Z) : GameFrameMetrics :=
  if TIME_BUCKETS_SIZE <=? frameDurDelta then
    g <| frameTimingDeltaMs ::= bump (TIME_BUCKETS_SIZE - 1) |>
  else if 0 <=? frameDurDelta then g <| frameTimingDeltaMs ::= bump frameDurDelta |>
  else g.

(** The lazily created histograms of [addNewFrames]. *)
Definition game_metrics_or_new (o : option GameFrameMetrics) : GameFrameMetrics :=
  match o with
  | Some g => g
  | None => mkGameFrameMetrics (replicate (Z.to_nat TIME_BUCKETS_SIZE) 0)
              (replicate (Z.to_nat TIME_BUCKETS_SIZE) 0) 0 0
  end.

Definition addNewFrames_game (n : GameFrameMetrics) (m : SessionMetrics) : SessionMetrics :=
  let g0 := game_metrics_or_new (sm_gameFrameMetrics m) in
  let g1 := g0 <| totalFrameTimeMs ::= fun x => u64 (x + totalFrameTimeMs n) |>
               <| gm_numOfFrames ::= fun x => u32 (x + gm_numOfFrames n) |> in
  let g2 := foldl add_frame_time g1 (frameTimingMs n) in
  let g3 := foldl add_frame_delta g2 (frameTimingDeltaMs n) in
  m <| totalFrameNumber ::= fun x => u32 (x + gm_numOfFrames n) |>
    <| sm_gameFrameMetrics := Some g3 |>.

Definition addNewFrames_app (n : FrameBuckets) (m : SessionMetrics) : SessionMetrics :=
  match appFrameMetrics m with
  | None =>
      m <| appFrameMetrics := Some n |>
        <| totalFrameNumber ::= fun x => u32 (x + totalNumOfFrames n) |>
  | Some b =>
      m <| appFrameMetrics := Some (addUpNewFrames b n) |>
        <| totalFrameNumber ::= fun x => u32 (x + totalNumOfFrames n) |>
  end.

(** ** Lemmas *)

(** A histogram: [TIME_BUCKETS_SIZE] non-negative cells that count [n] samples. *)
Definition histogram (n : Z) (l : list Z) : Prop :=
  length l = Z.to_nat TIME_BUCKETS_SIZE /\ Forall (Z.le 0) l /\ sumZ l = n.

Lemma histogram_bump (n i : Z) (l : list Z) :
  histogram n l -> 0 <= i < TIME_BUCKETS_SIZE -> n + 1 < 2 ^ 32 -> histogram (n + 1) (bump i l).
Proof.
  intros (Hlen & Hnn & Hs) Hi Hn. unfold bump, TIME_BUCKETS_SIZE in *.
  destruct (lookup_lt_is_Some_2 l (Z.to_nat i)) as [x Hx]; [lia |].
  assert (0 <= x <= n) as Hxr.
  { split; [by eapply (Forall_lookup_1 _ _ _ _ Hnn) |].
    rewrite <- Hs. apply sumZ_elem_le; [done | by eapply list_elem_of_lookup_2]. }
  assert (u32 (x + 1) = x + 1) as Hu by (apply u32_id; unfold is_u32; lia).
  split; [by rewrite length_alter |]. split.
  - apply Forall_alter; [done |]. intros y Hy _. simplify_eq. rewrite Hu. lia.
  - rewrite (sumZ_alter _ _ _ _ Hx), Hu. lia.
Qed.

(** Total of the frame times with every frame capped at the last bucket. *)
Definition capped_total (l : list Z) : Z := sumZ (Z.min TIME_BUCKETS_SIZE <$> l).

Lemma add_frame_time_fold (l : list Z) (g : GameFrameMetrics) (n : Z) :
  Forall (fun d => is_u32 d) l -> histogram n (frameTimingMs g) ->
  n + Z.of_nat (length l) < 2 ^ 32 ->
  let g' := foldl add_frame_time g l in
  histogram (n + Z.of_nat (length l)) (frameTimingMs g') /\
  frameTimingDeltaMs g' = frameTimingDeltaMs g /\
  gm_numOfFrames g' = gm_numOfFrames g /\
  u64 (totalFrameTimeMs g') = u64 (totalFrameTimeMs g - sumZ l + capped_total l).
Proof.
  intros Hl. revert g n. induction Hl as [| d l Hd Hl IH]; intros g n Hh Hn; simpl in *.
  - split_and!; try done; [by rewrite Z.add_0_r | unfold capped_total; simpl; f_equal; lia].
  - assert (histogram (n + 1) (frameTimingMs (add_frame_time g d)) /\
      frameTimingDeltaMs (add_frame_time g d) = frameTimingDeltaMs g /\
      gm_numOfFrames (add_frame_time g d) = gm_numOfFrames g /\
      u64 (totalFrameTimeMs (add_frame_time g d)) =
        u64 (totalFrameTimeMs g - d + Z.min TIME_BUCKETS_SIZE d)) as (A1 & A2 & A3 & A4).
    { unfold add_frame_time, TIME_BUCKETS_SIZE, is_u32 in *. bool_cases; simpl; try lia.
      - split_and!; try done; [apply histogram_bump; unfold TIME_BUCKETS_SIZE; [done | lia | lia] |].
        unfold u64, wrap_u. rewrite Zmod_mod, (u32_id (d - 100)) by (unfold is_u32; lia).
        f_equal. lia.
      - split_and!; try done; [apply histogram_bump; unfold TIME_BUCKETS_SIZE; [done | lia | lia] |].
        f_equal. lia. }
    destruct (IH _ _ A1 ltac:(lia)) as (B1 & B2 & B3 & B4).
    split_and!; [by replace (n + Z.of_nat (S (length l))) with (n + 1 + Z.of_nat (length l)) by lia
                | congruence | congruence |].
    rewrite B4. unfold capped_total in *. rewrite fmap_cons, !sumZ_cons. unfold u64, wrap_u in *.
    rewrite <- Zplus_mod_idemp_l, <- Zminus_mod_idemp_l, A4, Zminus_mod_idemp_l, Zplus_mod_idemp_l.
    f_equal. lia.
Qed.

Lemma add_frame_delta_fold (l : list Z) (g : GameFrameMetrics) (n : Z) :
  Forall (fun d => is_u32 d) l -> histogram n (frameTimingDeltaMs g) ->
  n + Z.of_nat (length l) < 2 ^ 32 ->
  let g' := foldl add_frame_delta g l in
  histogram (n + Z.of_nat (length l)) (frameTimingDeltaMs g') /\
  frameTimingMs g' = frameTimingMs g /\
  gm_numOfFrames g' = gm_numOfFrames g /\ totalFrameTimeMs g' = totalFrameTimeMs g.
Proof.
  intros Hl. revert g n. induction Hl as [| d l Hd Hl IH]; intros g n Hh Hn; simpl in *.
  - split_and!; try done. by rewrite Z.add_0_r.
  - assert (histogram (n + 1) (frameTimingDeltaMs (add_frame_delta g d)) /\
      frameTimingMs (add_frame_delta g d) = frameTimingMs g /\
      gm_numOfFrames (add_frame_delta g d) = gm_numOfFrames g /\
      totalFrameTimeMs (add_frame_delta g d) = totalFrameTimeMs g) as (A1 & A2 & A3 & A4).
    { unfold add_frame_delta, TIME_BUCKETS_SIZE, is_u32 in *. bool_cases; simpl; try lia;
        split_and!; try done; apply histogram_bump; unfold TIME_BUCKETS_SIZE; done || lia. }
    destruct (IH _ _ A1 ltac:(lia)) as (B1 & B2 & B3 & B4).
    split_and!; [by replace (n + Z.of_nat (S (length l))) with (n + 1 + Z.of_nat (length l)) by lia
                | congruence | congruence | congruence].
Qed.

(** ** Main result *)

(** Merging a report of game frames keeps both histograms at
    [TIME_BUCKETS_SIZE] cells and loses no sample: each histogram counts
    exactly as many more samples as were reported, and the accumulated total
    time grows by the reported frame times with every outlier capped at
    [TIME_BUCKETS_SIZE] milliseconds, provided the report's total is the sum of
    its frame times and the counters do not overflow. *)
Theorem addNewFrames_game_histograms (m : SessionMetrics) (n : GameFrameMetrics) (a b : Z)
    (Ha : histogram a (frameTimingMs (game_metrics_or_new (sm_gameFrameMetrics m))))
    (Hb : histogram b (frameTimingDeltaMs (game_metrics_or_new (sm_gameFrameMetrics m))))
    (Hd : Forall is_u32 (frameTimingMs n)) (Hdd : Forall is_u32 (frameTimingDeltaMs n))
    (Htot : totalFrameTimeMs n = sumZ (frameTimingMs n))
    (Hra : a + Z.of_nat (length (frameTimingMs n)) < 2 ^ 32)
    (Hrb : b + Z.of_nat (length (frameTimingDeltaMs n)) < 2 ^ 32) :
  exists g, sm_gameFrameMetrics (addNewFrames_game n m) = Some g /\
    histogram (a + Z.of_nat (length (frameTimingMs n))) (frameTimingMs g) /\
    histogram (b + Z.of_nat (length (frameTimingDeltaMs n))) (frameTimingDeltaMs g) /\
    u64 (totalFrameTimeMs g) =
      u64 (totalFrameTimeMs (game_metrics_or_new (sm_gameFrameMetrics m)) + capped_total (frameTimingMs n)) /\
    totalFrameNumber (addNewFrames_game n m) = u32 (totalFrameNumber m + gm_numOfFrames n).
Proof.
  eexists; split; [reflexivity |].
  set (g0 := game_metrics_or_new (sm_gameFrameMetrics m)) in *.
  set (g1 := g0 <| totalFrameTimeMs ::= _ |> <| gm_numOfFrames ::= _ |>).
  destruct (add_frame_time_fold (frameTimingMs n) g1 a) as (A1 & A2 & A3 & A4); [done .. |].
  destruct (add_frame_delta_fold (frameTimingDeltaMs n) (foldl add_frame_time g1 (frameTimingMs n)) b)
    as (B1 & B2 & B3 & B4); [done | by rewrite A2 | done |].
  split_and!; [by rewrite B2 | done | | done].
  rewrite B4, A4. simpl. unfold u64, wrap_u.
  rewrite <- Zplus_mod_idemp_l, Zminus_mod_idemp_l, Zplus_mod_idemp_l. f_equal. lia.
Qed.

Lemma addNewFrames_game_histograms_witness :
  exists g, sm_gameFrameMetrics (addNewFrames_game
      (mkGameFrameMetrics [16; 250] [234] 266 2) empty_SessionMetrics) = Some g /\
    histogram 2 (frameTimingMs g) /\ totalFrameTimeMs g = 116.
Proof.
  destruct (addNewFrames_game_histograms empty_SessionMetrics
    (mkGameFrameMetrics [16; 250] [234] 266 2) 0 0) as (g & Hg & H1 & H2 & H3 & H4).
  1, 2: split; [reflexivity | split; [| reflexivity]]; repeat constructor; lia.
  1, 2: repeat constructor; lia.
  1: reflexivity.
  1, 2: simpl; lia.
  exists g. split; [exact Hg | split; [exact H1 |]].
  vm_compute in Hg. injection Hg as <-. reflexivity.
Defined.
