(* ===== verification/SessionRecords.v ===== *)
(** * Records of the reported work cycles
      (src/power-libperfmgr/aidl/SessionRecords.h, SessionRecords.cpp)

    The last [kMaxNumOfRecords] reported durations live in a ring buffer, with
    running sums and counters and a queue of record indexes, kept in descending
    order of duration, whose front is the longest cycle of the window.

    Shown here: the ring buffer, the counters and the index queue implement a
    plain list of the most recent records ([window]): a report appends to the
    list and drops its oldest element, the maximum, the average and the number
    of missed cycles that the getters return are those of the list, no index
    leaves the buffer and no counter or sum overflows its width. *)

From S2P Require Import Prelude CFloat AdpfTypes SessionMetrics.

(** ** State *)

Record CycleRecord := mkCycleRecord {
  startIntervalUs : Z;
  totalDurationUs : Z;
  isMissedCycle : bool;
  isFPSJitter : bool
}.

Definition empty_CycleRecord : CycleRecord := mkCycleRecord 0 0 false false.

Definition kTotalFramesForFPSCheck : Z := 3.

Record SessionRecords := mkSessionRecords {
  kMaxNumOfRecords : Z;
  kJankCheckTimeFactor : double;
  mRecords : list CycleRecord;
  mRecordsIndQueue : list Z;
  mAvgDurationUs : Z;
  mLastStartTimeNs : Z;
  mLatestRecordIndex : Z;
  mPreLastRecordIndex : Z;
  mNumOfMissedCycles : Z;
  mNumOfFrames : Z;
  mSumOfDurationsUs : Z;
  mLatestStartIntervalSumUs : Z;
  mNumOfFrameFPSJitters : Z;
  mAddedFramesForFPSCheck : Z
}.

#[export] Instance eta_SessionRecords : Record_eta SessionRecords := fun r =>
  mkSessionRecords (kMaxNumOfRecords r) (kJankCheckTimeFactor r) (mRecords r)
    (mRecordsIndQueue r) (mAvgDurationUs r) (mLastStartTimeNs r) (mLatestRecordIndex r)
    (mPreLastRecordIndex r) (mNumOfMissedCycles r) (mNumOfFrames r) (mSumOfDurationsUs r)
    (mLatestStartIntervalSumUs r) (mNumOfFrameFPSJitters r) (mAddedFramesForFPSCheck r).

Definition new_SessionRecords (maxNumOfRecords : Z) (jankCheckTimeFactor : double) : SessionRecords :=
  mkSessionRecords maxNumOfRecords jankCheckTimeFactor
    (replicate (Z.to_nat maxNumOfRecords) empty_CycleRecord) [] 0 0 (-1) (-1) 0 0 0 0 0 0.

(** [mRecords[i]]; an index outside the vector has no defined value in C++,
    [window_indexes_in_range] below shows that none is used. *)
Definition rec_at (rs : list CycleRecord) (i : Z) : CycleRecord :=
  if 0 <=? i then default empty_CycleRecord (rs !! Z.to_nat i) else empty_CycleRecord.

(** [(mLatestRecordIndex + 1) % kMaxNumOfRecords] *)
Definition next_index (s : SessionRecords) : Z :=
  Z.rem (mLatestRecordIndex s +₃₂ 1) (kMaxNumOfRecords s).

(** ** addReportedDurations, by the parts of its loop body *)

(** Removal of the oldest record once the buffer is full. *)
Definition evict_oldest (s : SessionRecords) : SessionRecords :=
  if kMaxNumOfRecords s <=? mNumOfFrames s then
    let ind := next_index s in
    let r := rec_at (mRecords s) ind in
    s <| mSumOfDurationsUs ::= fun x => x -₆₄ totalDurationUs r |>
      <| mNumOfMissedCycles ::= fun x => if isMissedCycle r then x -₃₂ 1 else x |>
      <| mNumOfFrameFPSJitters ::= fun x => if isFPSJitter r then x -₃₂ 1 else x |>
      <| mNumOfFrames ::= fun x => x -₃₂ 1 |>
      <| mRecordsIndQueue ::= fun q =>
           match q with
           | front :: rest => if front =? ind then rest else q
           | [] => []
           end |>
  else s.

(** The start delay of the frame, relative to the previous frame. *)
Definition start_interval (s : SessionRecords) (d : WorkDuration) : Z :=
  let startTimeNs := timeStampNanos d -₆₄ durationNanos d in
  if 0 <? mNumOfFrames s then i32 (Z.quot (startTimeNs -₆₄ mLastStartTimeNs s) 1000) else 0.

Definition old_record_index (s : SessionRecords) : Z :=
  let o := mLatestRecordIndex s -₃₂ kTotalFramesForFPSCheck in
  if o <? 0 then o +₃₂ kMaxNumOfRecords s else o.

(** [startIntervalUs > (1.4 * mLatestStartIntervalSumUs / kTotalFramesForFPSCheck)] *)
Definition is_jitter (s : SessionRecords) (startInt : Z) : bool :=
  f64_ltb (f64_div (f64_mul f64_1_4 (f64_of_Z (mLatestStartIntervalSumUs s)))
                   (f64_of_Z kTotalFramesForFPSCheck))
          (f64_of_Z startInt).

(** Tracking of the FPS jitters; returns whether the frame is one. *)
Definition track_jitter (computeGameMetrics : bool) (startInt : Z) (s : SessionRecords)
    : bool * SessionRecords :=
  if computeGameMetrics then
    if mAddedFramesForFPSCheck s <? kTotalFramesForFPSCheck then
      (false,
       if 0 <? startInt then
         s <| mLatestStartIntervalSumUs ::= fun x => x +₃₂ startInt |>
           <| mAddedFramesForFPSCheck ::= fun x => x +₃₂ 1 |>
       else s)
    else
      let j := is_jitter s startInt in
      (j,
       s <| mNumOfFrameFPSJitters ::= fun x => if j then x +₃₂ 1 else x |>
         <| mLatestStartIntervalSumUs ::= fun x =>
              x +₃₂ (startInt -₃₂ startIntervalUs (rec_at (mRecords s) (old_record_index s))) |>)
  else (false, s <| mLatestStartIntervalSumUs := 0 |> <| mAddedFramesForFPSCheck := 0 |>).

(** [totalDurationUs > (targetDurationNs / 1000) * kJankCheckTimeFactor] *)
Definition cycle_missed (s : SessionRecords) (targetDurationNs total : Z) : bool :=
  f64_ltb (f64_mul (f64_of_Z (Z.quot targetDurationNs 1000)) (kJankCheckTimeFactor s)) (f64_of_Z total).

Definition updateFrameBuckets (frameDurationUs : Z) (isJankFrame : bool) (b : FrameBuckets) : FrameBuckets :=
  let b := b <| totalNumOfFrames ::= fun x => x +₆₄ 1 |> in
  if negb isJankFrame || (frameDurationUs <? 17000) then b
  else if frameDurationUs <? 25000 then b <| numOfFrames17to25ms ::= fun x => x +₆₄ 1 |>
  else if frameDurationUs <? 34000 then b <| numOfFrames25to34ms ::= fun x => x +₆₄ 1 |>
  else if frameDurationUs <? 67000 then b <| numOfFrames34to67ms ::= fun x => x +₆₄ 1 |>
  else if frameDurationUs <? 100000 then b <| numOfFrames67to100ms ::= fun x => x +₆₄ 1 |>
  else if 100000 <=? frameDurationUs then b <| numOfFramesOver100ms ::= fun x => x +₆₄ 1 |>
  else b.

Definition updateGameMetrics (s : SessionRecords) (frameIntervalUs : Z) (g : GameFrameMetrics) : GameFrameMetrics :=
  if frameIntervalUs <=? 0 then g
  else
    let frameIntervalMs := Z.quot frameIntervalUs 1000 in
    let g := g <| frameTimingMs ::= fun l => l ++ [u32 frameIntervalMs] |> in
    let g :=
      if 2 <? mNumOfFrames s then
        let delta := frameIntervalUs -₃₂ startIntervalUs (rec_at (mRecords s) (mPreLastRecordIndex s)) in
        g <| frameTimingDeltaMs ::= fun l => l ++ [u32 (Z.quot (i32 (Z.abs delta)) 1000)] |>
      else g in
    g <| totalFrameTimeMs ::= fun x => u64 (x + frameIntervalMs) |>
      <| gm_numOfFrames ::= fun x => u32 (x + 1) |>.

(** The loop that pops from the back of the queue the indexes whose durations
    are not greater than the new one, on the reversed queue. *)
Fixpoint drop_not_greater (rs : list CycleRecord) (total : Z) (rev_queue : list Z) : list Z :=
  match rev_queue with
  | [] => []
  | back :: rest =>
      if totalDurationUs (rec_at rs back) <=? total then drop_not_greater rs total rest
      else rev_queue
  end.

Definition pop_not_greater (rs : list CycleRecord) (total : Z) (q : list Z) : list Z :=
  reverse (drop_not_greater rs total (reverse q)).

(** One iteration of the loop over the reported durations. *)
Definition add_duration (targetDurationNs : Z) (computeGameMetrics : bool)
    (sm : SessionRecords * FrameTimingMetrics) (d : WorkDuration) : SessionRecords * FrameTimingMetrics :=
  let '(s, m) := sm in
  let total := i32 (Z.quot (durationNanos d) 1000) in
  let s := evict_oldest s in
  let s := s <| mPreLastRecordIndex := mLatestRecordIndex s |> <| mLatestRecordIndex := next_index s |> in
  let startInt := start_interval s d in
  let s := s <| mLastStartTimeNs := timeStampNanos d -₆₄ durationNanos d |> in
  let '(FPSJitter, s) := track_jitter computeGameMetrics startInt s in
  let cycleMissed := cycle_missed s targetDurationNs total in
  let s :=
    s <| mRecords ::= fun rs => <[Z.to_nat (mLatestRecordIndex s) :=
                                 mkCycleRecord startInt total cycleMissed FPSJitter]> rs |>
      <| mNumOfFrames ::= fun x => x +₃₂ 1 |>
      <| mNumOfMissedCycles ::= fun x => if cycleMissed then x +₃₂ 1 else x |> in
  let m := m <| framesInBuckets ::= updateFrameBuckets total cycleMissed |> in
  let m := if computeGameMetrics then m <| ft_gameFrameMetrics ::= updateGameMetrics s startInt |> else m in
  let s := s <| mRecordsIndQueue ::= fun q => pop_not_greater (mRecords s) total q ++ [mLatestRecordIndex s] |> in
  let s := s <| mSumOfDurationsUs ::= fun x => x +₆₄ total |> in
  let s := s <| mAvgDurationUs := i32 (Z.quot (mSumOfDurationsUs s) (mNumOfFrames s)) |> in
  (s, m).

Arguments add_duration : simpl never.

Definition addReportedDurations (actualDurationsNs : list WorkDuration) (targetDurationNs : Z)
    (computeGameMetrics : bool) (sm : SessionRecords * FrameTimingMetrics)
    : SessionRecords * FrameTimingMetrics :=
  foldl (add_duration targetDurationNs computeGameMetrics) sm actualDurationsNs.

(** ** The other operations *)

Definition getMaxDuration (s : SessionRecords) : option Z :=
  match mRecordsIndQueue s with
  | [] => None
  | front :: _ => Some (totalDurationUs (rec_at (mRecords s) front))
  end.

Definition getAvgDuration (s : SessionRecords) : option Z :=
  if mNumOfFrames s <=? 0 then None else Some (mAvgDurationUs s).

Definition getNumOfRecords (s : SessionRecords) : Z := mNumOfFrames s.
Definition getNumOfMissedCycles (s : SessionRecords) : Z := mNumOfMissedCycles s.

(** [record.startIntervalUs >= 1000000.0 / fpsLowRateThreshold] *)
Definition over_cycle_threshold (fpsLowRateThreshold : Z) (r : CycleRecord) : bool :=
  f64_leb (f64_div (f64_of_Z 1000000) (f64_of_Z fpsLowRateThreshold)) (f64_of_Z (startIntervalUs r)).

Definition isLowFrameRate (s : SessionRecords) (fpsLowRateThreshold : Z) : bool :=
  if 3 <=? mNumOfFrames s then
    let ind1 := mLatestRecordIndex s in
    let ind2 := if ind1 =? 0 then kMaxNumOfRecords s -₃₂ 1 else ind1 -₃₂ 1 in
    let ind3 := if ind2 =? 0 then kMaxNumOfRecords s -₃₂ 1 else ind2 -₃₂ 1 in
    over_cycle_threshold fpsLowRateThreshold (rec_at (mRecords s) ind1) &&
    over_cycle_threshold fpsLowRateThreshold (rec_at (mRecords s) ind2) &&
    over_cycle_threshold fpsLowRateThreshold (rec_at (mRecords s) ind3)
  else false.

Definition resetRecords (s : SessionRecords) : SessionRecords :=
  s <| mAvgDurationUs := 0 |> <| mLastStartTimeNs := 0 |> <| mLatestRecordIndex := -1 |>
    <| mNumOfMissedCycles := 0 |> <| mNumOfFrames := 0 |> <| mSumOfDurationsUs := 0 |>
    <| mRecordsIndQueue := [] |>.

(** The quotient is undefined behaviour when the sum of intervals is zero:
    [None]. *)
Definition getLatestFPS (s : SessionRecords) : option Z :=
  if mLatestStartIntervalSumUs s =? 0 then None
  else Some (Z.quot (1000000 * kTotalFramesForFPSCheck) (mLatestStartIntervalSumUs s)).

Definition getNumOfFPSJitters (s : SessionRecords) : Z := mNumOfFrameFPSJitters s.

Definition areAllRecordsInitialized (s : SessionRecords) : bool :=
  kMaxNumOfRecords s <=? mNumOfFrames s.

(** ** The descending queue, on ages

    An age counts back from the newest record.  The queue, from front to back,
    holds strictly decreasing ages with strictly decreasing durations, and
    every age of the window is dominated by one in the queue that is not
    older. *)

Section deque.

Definition deque_order (dur : nat -> Z) (a b : nat) : Prop := (b < a)%nat /\ dur b < dur a.

Definition deque_ok (dur : nat -> Z) (n : nat) (ages : list nat) : Prop :=
  StronglySorted (deque_order dur) ages /\
  Forall (fun a => (a < n)%nat) ages /\
  (forall j, (j < n)%nat -> exists a, a ∈ ages /\ (a <= j)%nat /\ dur j <= dur a).

Lemma deque_ok_empty (dur : nat -> Z) : deque_ok dur 0 [].
Proof. split_and!; [constructor | constructor | lia]. Qed.

Lemma deque_ok_ext (dur dur' : nat -> Z) (n : nat) (ages : list nat) :
  (forall j, (j < n)%nat -> dur j = dur' j) -> deque_ok dur n ages -> deque_ok dur' n ages.
Proof.
  intros He (Hs & Hf & Hd). split_and!; [| done |].
  - clear Hd. induction Hs as [| a l Hs IH Hall]; [constructor |].
    apply Forall_cons in Hf as [Ha Hf]. constructor; [by apply IH |].
    rewrite Forall_forall in Hall, Hf |- *. intros b Hb.
    destruct (Hall b Hb). split; [done |]. by rewrite <- !He by auto.
  - intros j Hj. destruct (Hd j Hj) as (a & Ha & Hle & Hdur). exists a. split_and!; [done .. |].
    rewrite Forall_forall in Hf. by rewrite <- !He by auto.
Qed.

(** Dropping the oldest age [n]. *)
Lemma deque_ok_evict (dur : nat -> Z) (n : nat) (ages : list nat) :
  deque_ok dur (S n) ages ->
  deque_ok dur n (match ages with a :: rest => if decide (a = n) then rest else ages | [] => [] end).
Proof.
  intros (Hs & Hf & Hd). destruct ages as [| a rest].
  { destruct (Hd 0%nat) as (a & Ha & _); [lia |]. by apply not_elem_of_nil in Ha. }
  inversion Hs as [| ? ? Hs' Hall]; subst. inversion Hf as [| ? ? Ha Hf']; subst.
  destruct (decide (a = n)) as [-> | Hne].
  - split_and!; [done | |].
    + rewrite Forall_forall in Hall |- *. intros b Hb. apply Hall in Hb as [? _]. lia.
    + intros j Hj. destruct (Hd j) as (b & Hb & Hle & Hdur); [lia |].
      apply elem_of_cons in Hb as [-> | Hb]; [lia | eauto].
  - split_and!; [done | |].
    + constructor; [lia |]. rewrite Forall_forall in Hall |- *. intros b Hb. apply Hall in Hb as [? _]. lia.
    + intros j Hj. destruct (Hd j) as (b & Hb & Hle & Hdur); [lia |]. eauto.
Qed.

(** The ages kept when a cycle of duration [x] arrives. *)
Definition kept (dur : nat -> Z) (x : Z) (ages : list nat) : list nat :=
  filter (fun a => x < dur a) ages.

Lemma kept_sorted (dur : nat -> Z) (x : Z) (ages : list nat) :
  StronglySorted (deque_order dur) ages -> StronglySorted (deque_order dur) (kept dur x ages).
Proof.
  intros H. induction H as [| a l Hl IH Hall]; [constructor |].
  unfold kept in *. rewrite filter_cons. case_decide; [| done].
  constructor; [done |]. rewrite Forall_forall in Hall |- *.
  intros b Hb. apply list_elem_of_filter in Hb as [_ Hb]. eauto.
Qed.

Definition push_dur (x : Z) (dur : nat -> Z) (j : nat) : Z :=
  match j with O => x | S j => dur j end.

Lemma deque_ok_push (dur : nat -> Z) (n : nat) (ages : list nat) (x : Z) :
  deque_ok dur n ages -> deque_ok (push_dur x dur) (S n) ((S <$> kept dur x ages) ++ [O]).
Proof.
  intros (Hs & Hf & Hd). split_and!.
  - pose proof (kept_sorted dur x ages Hs) as Hk.
    assert (Forall (fun a => x < dur a) (kept dur x ages)) as Hx.
    { apply Forall_forall. intros a Ha. by apply list_elem_of_filter in Ha as [? _]. }
    induction Hk as [| a l Hl IH Hall]; simpl; [repeat constructor |].
    inversion Hx as [| ? ? Hax Hx']; subst. constructor; [by apply IH |].
    apply Forall_app. split.
    + apply Forall_fmap. eapply Forall_impl; [exact Hall |].
      intros b [? ?]. split; simpl; [lia | done].
    + constructor; [split; simpl; [lia | done] | constructor].
  - apply Forall_app. split; [| apply Forall_singleton; lia].
    apply Forall_fmap. apply Forall_forall. intros a Ha.
    apply list_elem_of_filter in Ha as [_ Ha]. rewrite Forall_forall in Hf. apply Hf in Ha. simpl. lia.
  - intros [| j] Hj.
    + exists 0%nat. rewrite elem_of_app, list_elem_of_singleton. split_and!; [by right | lia | lia].
    + destruct (Hd j) as (a & Ha & Hle & Hdur); [lia |].
      destruct (decide (x < dur a)).
      * exists (S a). rewrite elem_of_app. split_and!; [left | lia | done].
        apply list_elem_of_fmap. exists a. split; [done |]. by apply list_elem_of_filter.
      * exists 0%nat. rewrite elem_of_app, list_elem_of_singleton. simpl. split_and!; [by right | lia | lia].
Qed.

Lemma deque_front_max (dur : nat -> Z) (n a : nat) (rest : list nat) :
  deque_ok dur n (a :: rest) ->
  (a < n)%nat /\ forall j, (j < n)%nat -> dur j <= dur a.
Proof.
  intros (Hs & Hf & Hd). inversion Hs as [| ? ? Hs' Hall]; inversion Hf; subst. split; [done |].
  intros j Hj. destruct (Hd j Hj) as (b & Hb & _ & Hle).
  apply elem_of_cons in Hb as [-> | Hb]; [done |].
  rewrite Forall_forall in Hall. apply Hall in Hb as [_ ?]. lia.
Qed.

Lemma deque_nonempty (dur : nat -> Z) (n : nat) (ages : list nat) :
  deque_ok dur n ages -> (0 < n)%nat -> ages <> [].
Proof.
  intros (_ & _ & Hd) Hn ->. destruct (Hd 0%nat Hn) as (a & Ha & _). by apply not_elem_of_nil in Ha.
Qed.

End deque.

(** Popping from the back while the duration is not greater keeps exactly the
    greater ones, because the durations descend toward the back. *)
Lemma pop_not_greater_kept (rs : list CycleRecord) (x : Z) (idx : nat -> Z) (ages : list nat) :
  let dur a := totalDurationUs (rec_at rs (idx a)) in
  StronglySorted (deque_order dur) ages ->
  pop_not_greater rs x (idx <$> ages) = idx <$> kept dur x ages.
Proof.
  intros dur. unfold pop_not_greater, kept.
  induction ages as [| a l IH] using rev_ind; intros Hs; [done |].
  rewrite fmap_app, reverse_app, filter_app. simpl.
  apply StronglySorted_app in Hs as (Hall & Hl & _).
  rewrite filter_cons, filter_nil. fold (dur a). destruct (Z.leb_spec (dur a) x) as [Hle | Hgt].
  - rewrite decide_False by lia. rewrite app_nil_r. by apply IH.
  - rewrite decide_True by lia. rewrite reverse_cons, reverse_involutive, fmap_app. simpl. f_equal. f_equal.
    symmetry. clear IH Hl. induction l as [| b l IHl]; [done |].
    rewrite filter_cons, decide_True; [rewrite IHl; [done |] |].
    + intros c d Hc Hd. apply Hall; [by constructor | done].
    + destruct (Hall b a); [by constructor | by apply list_elem_of_singleton | lia].
Qed.

(** ** The window of a state *)

Definition idx_of_age (s : SessionRecords) (j : nat) : Z :=
  (mLatestRecordIndex s - Z.of_nat j) mod kMaxNumOfRecords s.

Definition rec_of_age (s : SessionRecords) (j : nat) : CycleRecord :=
  rec_at (mRecords s) (idx_of_age s j).

Definition dur_of_age (s : SessionRecords) (j : nat) : Z := totalDurationUs (rec_of_age s j).

Definition frames (s : SessionRecords) : nat := Z.to_nat (mNumOfFrames s).

(** The records of the window, the newest first. *)
Definition window (s : SessionRecords) : list CycleRecord := rec_of_age s <$> seq 0 (frames s).

Record records_core (s : SessionRecords) : Prop := {
  rc_max : 0 < kMaxNumOfRecords s < 2 ^ 31;
  rc_len : length (mRecords s) = Z.to_nat (kMaxNumOfRecords s);
  rc_frames : 0 <= mNumOfFrames s <= kMaxNumOfRecords s;
  rc_latest : -1 <= mLatestRecordIndex s < kMaxNumOfRecords s;
  rc_nonempty : 0 < mNumOfFrames s -> 0 <= mLatestRecordIndex s;
  rc_durs : Forall (fun r => is_i32 (totalDurationUs r)) (mRecords s);
  rc_sum : mSumOfDurationsUs s = sumZ (totalDurationUs <$> window s);
  rc_missed : mNumOfMissedCycles s = countb isMissedCycle (window s);
  rc_queue : exists ages, mRecordsIndQueue s = idx_of_age s <$> ages /\
               deque_ok (dur_of_age s) (frames s) ages
}.

(** The average is the one of the window as soon as the window is not empty. *)
Definition records_ok (s : SessionRecords) : Prop :=
  records_core s /\
  (0 < mNumOfFrames s -> mAvgDurationUs s = Z.quot (mSumOfDurationsUs s) (mNumOfFrames s)).

Lemma rec_at_insert (rs : list CycleRecord) (i j : Z) (r : CycleRecord) :
  0 <= i < Z.of_nat (length rs) -> 0 <= j ->
  rec_at (<[Z.to_nat i := r]> rs) j = if decide (i = j) then r else rec_at rs j.
Proof.
  intros Hi Hj. unfold rec_at. destruct (Z.leb_spec 0 j); [| lia].
  case_decide as E.
  - subst. rewrite list_lookup_insert_eq; [done | lia].
  - rewrite list_lookup_insert_ne; [done | lia].
Qed.

Lemma rec_at_i32 (rs : list CycleRecord) (i : Z) :
  Forall (fun r => is_i32 (totalDurationUs r)) rs -> is_i32 (totalDurationUs (rec_at rs i)).
Proof.
  intros H. unfold rec_at. destruct (0 <=? i); [| by unfold is_i32; simpl; lia].
  destruct (rs !! Z.to_nat i) eqn:E; simpl; [by eapply (Forall_lookup_1 _ _ _ _ H) | unfold is_i32; lia].
Qed.

Lemma next_index_spec (s : SessionRecords) :
  0 < kMaxNumOfRecords s < 2 ^ 31 -> -1 <= mLatestRecordIndex s < kMaxNumOfRecords s ->
  next_index s = (mLatestRecordIndex s + 1) mod kMaxNumOfRecords s /\
  0 <= next_index s < kMaxNumOfRecords s.
Proof.
  intros HK HL. unfold next_index. rewrite i32_id by (unfold is_i32; lia).
  rewrite Z.rem_mod_nonneg by lia. split; [done |]. apply Z.mod_pos_bound. lia.
Qed.

Lemma length_window (s : SessionRecords) : length (window s) = frames s.
Proof. unfold window. by rewrite length_fmap, length_seq. Qed.

Lemma window_durs (s : SessionRecords) :
  records_core s -> Forall (fun r => is_i32 (totalDurationUs r)) (window s).
Proof.
  intros H. unfold window. apply Forall_fmap, Forall_true. intros j.
  apply rec_at_i32, H.
Qed.

Lemma window_sum_bound (s : SessionRecords) (n : nat) :
  records_core s ->
  - 2 ^ 31 * Z.of_nat (length (take n (window s))) <= sumZ (totalDurationUs <$> take n (window s))
  <= 2 ^ 31 * Z.of_nat (length (take n (window s))).
Proof.
  intros H. rewrite <- (length_fmap totalDurationUs). apply sumZ_bound.
  intros x Hx. apply list_elem_of_fmap in Hx as (r & -> & Hr).
  pose proof (window_durs s H) as Hd. rewrite Forall_forall in Hd.
  assert (r ∈ window s) as Hw.
  { rewrite <- (take_drop n (window s)). apply elem_of_app. by left. }
  apply Hd in Hw. unfold is_i32 in Hw. lia.
Qed.

(** *** Eviction *)

Lemma evict_fields (s : SessionRecords) :
  kMaxNumOfRecords (evict_oldest s) = kMaxNumOfRecords s /\
  mRecords (evict_oldest s) = mRecords s /\
  mLatestRecordIndex (evict_oldest s) = mLatestRecordIndex s.
Proof. unfold evict_oldest. by destruct (_ <=? _). Qed.

Lemma rec_of_age_evict (s : SessionRecords) (j : nat) :
  rec_of_age (evict_oldest s) j = rec_of_age s j.
Proof.
  unfold rec_of_age, idx_of_age. by destruct (evict_fields s) as (-> & -> & ->).
Qed.

(** The index removed is the one of the oldest age of a full window. *)
Lemma next_index_oldest (s : SessionRecords) (a n : nat) :
  0 < kMaxNumOfRecords s < 2 ^ 31 -> -1 <= mLatestRecordIndex s < kMaxNumOfRecords s ->
  kMaxNumOfRecords s = Z.of_nat (S n) -> (a < S n)%nat ->
  idx_of_age s a = next_index s <-> a = n.
Proof.
  intros HK HL HS Ha. destruct (next_index_spec s HK HL) as [-> _]. unfold idx_of_age. split.
  - intros He. destruct (decide (a = n)) as [| Hne]; [done | exfalso].
    eapply (mod_neq (mLatestRecordIndex s - Z.of_nat a) (mLatestRecordIndex s + 1)); [| | exact He]; lia.
  - intros ->. rewrite <- (Z_mod_plus_full (mLatestRecordIndex s - Z.of_nat n) 1). f_equal. lia.
Qed.

Lemma evict_full (s : SessionRecords) (n : nat) :
  records_core s -> mNumOfFrames s = kMaxNumOfRecords s -> kMaxNumOfRecords s = Z.of_nat (S n) ->
  frames (evict_oldest s) = n /\ window s = window (evict_oldest s) ++ [rec_of_age s n].
Proof.
  intros H Hfull HS. pose proof (rc_max _ H).
  assert (frames (evict_oldest s) = n) as Hn.
  { unfold frames, evict_oldest. rewrite Hfull, Z.leb_refl. simpl. rewrite Hfull, i32_id; unfold is_i32; lia. }
  split; [done |]. unfold window. rewrite Hn. unfold frames. rewrite Hfull, HS, Nat2Z.id, seq_S, fmap_app.
  simpl. f_equal. apply list_fmap_ext. intros i j _. by rewrite rec_of_age_evict.
Qed.

(** The index queue after the eviction from a full window of [S n] records. *)
Lemma evict_queue (s : SessionRecords) (n : nat) :
  records_core s -> mNumOfFrames s = kMaxNumOfRecords s -> kMaxNumOfRecords s = Z.of_nat (S n) ->
  exists ages, mRecordsIndQueue (evict_oldest s) = idx_of_age (evict_oldest s) <$> ages /\
    deque_ok (dur_of_age (evict_oldest s)) (frames (evict_oldest s)) ages.
Proof.
  intros H Hf HS. destruct (evict_full s n H Hf HS) as [Hfr Hw]. destruct (evict_fields s) as (EK & ER & EL).
  destruct (H) as [HK _ _ HL _ _ _ _ (ages & Hq & Hok)].
  exists (match ages with a :: rest => if decide (a = n) then rest else ages | [] => [] end). split.
  - assert (forall l, idx_of_age (evict_oldest s) <$> l = idx_of_age s <$> l) as ->.
    { intros l. apply list_fmap_ext. intros i j _. unfold idx_of_age. by rewrite EK, EL. }
    unfold evict_oldest. rewrite Hf, Z.leb_refl. simpl. rewrite Hq.
    destruct Hok as (_ & Hall & _). destruct ages as [| a rest]; [done |]. simpl.
    apply Forall_cons in Hall as [Ha _].
    pose proof (next_index_oldest s a n HK HL HS) as Hiff. unfold frames in Ha. rewrite Hf in Ha.
    specialize (Hiff ltac:(lia)). case_decide as E.
    + by rewrite (proj2 Hiff E), Z.eqb_refl.
    + destruct (Z.eqb_spec (idx_of_age s a) (next_index s)); [by apply Hiff in e | done].
  - rewrite Hfr. apply deque_ok_evict.
    assert (frames s = S n) as <- by (unfold frames; lia).
    eapply deque_ok_ext; [| exact Hok]. intros j _. unfold dur_of_age. by rewrite rec_of_age_evict.
Qed.

Lemma evict_core (s : SessionRecords) :
  records_core s ->
  records_core (evict_oldest s) /\ mNumOfFrames (evict_oldest s) < kMaxNumOfRecords s /\
  window (evict_oldest s) = take (Z.to_nat (kMaxNumOfRecords s) - 1) (window s).
Proof.
  intros H. destruct (H) as [HK Hlen Hn HL HL0 Hd Hsum Hmiss _].
  destruct (Z.leb_spec (kMaxNumOfRecords s) (mNumOfFrames s)) as [Hfull | Hlt].
  2:{ assert (evict_oldest s = s) as -> by (unfold evict_oldest; destruct (Z.leb_spec (kMaxNumOfRecords s) (mNumOfFrames s)); [lia | done]).
      split_and!; [done | done |]. rewrite take_ge; [done |].
      rewrite length_window. unfold frames. lia. }
  assert (mNumOfFrames s = kMaxNumOfRecords s) as Hf by lia.
  destruct (Z_of_nat_complete (kMaxNumOfRecords s - 1)) as [n Hn']; [lia |].
  assert (kMaxNumOfRecords s = Z.of_nat (S n)) as HS by lia.
  destruct (evict_full s n H Hf HS) as [Hfr Hw].
  destruct (evict_fields s) as (EK & ER & EL).
  assert (rec_at (mRecords s) (next_index s) = rec_of_age s n) as Hold.
  { unfold rec_of_age. by rewrite (proj2 (next_index_oldest s n n HK HL HS (Nat.lt_succ_diag_r n)) eq_refl). }
  pose proof (countb_range isMissedCycle (window (evict_oldest s))) as Hcr.
  rewrite length_window, Hfr in Hcr.
  assert (mNumOfFrames (evict_oldest s) = Z.of_nat n) as Hnf.
  { unfold evict_oldest. rewrite Hf, Z.leb_refl. simpl. rewrite Hf, i32_id; unfold is_i32; lia. }
  split_and!; [| lia |].
  2:{ rewrite Hw, take_app_le, take_ge by (rewrite length_window, Hfr; lia). done. }
  split; rewrite ?EK, ?ER, ?EL; try done; [lia | intros _; apply HL0; lia | | | by apply (evict_queue s n)].
  - pose proof (window_sum_bound s n H) as Hb.
    rewrite Hw, take_app_le, (take_ge (window (evict_oldest s)) n), length_window, Hfr in Hb
      by (rewrite length_window, Hfr; lia).
    rewrite Hw, fmap_app, sumZ_app in Hsum. simpl in Hsum. unfold sumZ at 2 in Hsum. simpl in Hsum.
    unfold evict_oldest at 1. rewrite Hf, Z.leb_refl. simpl. rewrite Hold, Hsum, i64_id; [lia |].
    unfold is_i64. lia.
  - rewrite Hw, countb_app, countb_cons in Hmiss. unfold countb at 2 in Hmiss. simpl in Hmiss.
    unfold evict_oldest at 1. rewrite Hf, Z.leb_refl. simpl. rewrite Hold.
    destruct (isMissedCycle (rec_of_age s n)); [| lia]. rewrite Hmiss, i32_id; [lia | unfold is_i32; lia].
Qed.

(** *** Appending a record *)

(** The part of an iteration after the eviction that touches the window. *)
Definition append_record (r : CycleRecord) (s : SessionRecords) : SessionRecords :=
  let i := next_index s in
  let rs := <[Z.to_nat i := r]> (mRecords s) in
  s <| mLatestRecordIndex := i |>
    <| mRecords := rs |>
    <| mNumOfFrames ::= fun x => x +₃₂ 1 |>
    <| mNumOfMissedCycles ::= fun x => if isMissedCycle r then x +₃₂ 1 else x |>
    <| mRecordsIndQueue ::= fun q => pop_not_greater rs (totalDurationUs r) q ++ [i] |>
    <| mSumOfDurationsUs ::= fun x => x +₆₄ totalDurationUs r |>.

Section append.
Context (s : SessionRecords) (r : CycleRecord).
Context (H : records_core s) (Hlt : mNumOfFrames s < kMaxNumOfRecords s).
Context (Hr : is_i32 (totalDurationUs r)).

Lemma append_idx (j : nat) : idx_of_age (append_record r s) (S j) = idx_of_age s j.
Proof.
  destruct (next_index_spec s (rc_max _ H) (rc_latest _ H)) as [Hi _].
  unfold idx_of_age, append_record. simpl. rewrite Hi, Zminus_mod_idemp_l. f_equal. lia.
Qed.

Lemma append_idx_0 : idx_of_age (append_record r s) 0 = next_index s.
Proof.
  destruct (next_index_spec s (rc_max _ H) (rc_latest _ H)) as [_ Hi].
  unfold idx_of_age, append_record. simpl. rewrite Z.sub_0_r. by apply Z.mod_small.
Qed.

Lemma idx_of_age_range (j : nat) : 0 <= idx_of_age s j < kMaxNumOfRecords s.
Proof. apply Z.mod_pos_bound. pose proof (rc_max _ H). lia. Qed.

Lemma append_rec_0 : rec_of_age (append_record r s) 0 = r.
Proof.
  unfold rec_of_age. rewrite append_idx_0. simpl.
  destruct (next_index_spec s (rc_max _ H) (rc_latest _ H)) as [_ Hi].
  rewrite rec_at_insert by (rewrite ?(rc_len _ H); lia). by rewrite decide_True.
Qed.

Lemma append_rec_S (j : nat) : (j < frames s)%nat -> rec_of_age (append_record r s) (S j) = rec_of_age s j.
Proof.
  intros Hj. unfold rec_of_age. rewrite append_idx. simpl.
  destruct (next_index_spec s (rc_max _ H) (rc_latest _ H)) as [He Hi].
  pose proof (idx_of_age_range j). pose proof (rc_frames _ H). pose proof (rc_max _ H).
  rewrite rec_at_insert by (rewrite ?(rc_len _ H); lia).
  rewrite decide_False; [done |]. rewrite He. unfold idx_of_age. intros E. symmetry in E. revert E.
  apply mod_neq; [lia |]. unfold frames in Hj. lia.
Qed.

Lemma append_frames : frames (append_record r s) = S (frames s).
Proof.
  pose proof (rc_frames _ H). pose proof (rc_max _ H). unfold frames, append_record. simpl.
  rewrite i32_id; unfold is_i32; lia.
Qed.

Lemma append_window : window (append_record r s) = r :: window s.
Proof.
  unfold window. rewrite append_frames. simpl. rewrite append_rec_0. f_equal.
  rewrite <- fmap_S_seq, <- list_fmap_compose. apply list_fmap_ext. intros i j Hj.
  apply lookup_seq in Hj. simpl. apply append_rec_S. lia.
Qed.

Lemma append_queue : exists ages, mRecordsIndQueue (append_record r s) = idx_of_age (append_record r s) <$> ages /\
  deque_ok (dur_of_age (append_record r s)) (frames (append_record r s)) ages.
Proof.
  destruct (rc_queue _ H) as (ages & Hq & Hok).
  set (dur := fun a => totalDurationUs (rec_at (mRecords (append_record r s)) (idx_of_age s a))).
  assert (forall j, dur_of_age (append_record r s) (S j) = dur j) as HS.
  { intros j. unfold dur_of_age, rec_of_age. by rewrite append_idx. }
  assert (deque_ok dur (frames s) ages) as Hok'.
  { eapply deque_ok_ext; [| exact Hok]. intros j Hj. rewrite <- HS. unfold dur_of_age. by rewrite append_rec_S. }
  exists ((S <$> kept dur (totalDurationUs r) ages) ++ [O]). split.
  - simpl. rewrite Hq, fmap_app, <- list_fmap_compose. simpl. rewrite append_idx_0. f_equal.
    rewrite (pop_not_greater_kept _ _ (idx_of_age s) ages) by apply Hok'.
    apply list_fmap_ext. intros i j _. simpl. by rewrite append_idx.
  - rewrite append_frames. eapply deque_ok_ext; [| apply deque_ok_push, Hok'].
    intros [| j] Hj; simpl; [unfold dur_of_age; by rewrite append_rec_0 | by rewrite HS].
Qed.

Lemma append_core : records_core (append_record r s).
Proof.
  destruct (H) as [HK Hlen Hn HL HL0 Hd Hsum Hmiss _].
  destruct (next_index_spec s HK HL) as [_ Hi].
  pose proof (countb_range isMissedCycle (window s)) as Hc. rewrite length_window in Hc. unfold frames in Hc.
  pose proof (window_sum_bound s (frames s) H) as Hb.
  rewrite take_ge, length_window in Hb by (rewrite length_window; lia). unfold frames in Hb.
  split; [done | | | | | | | | exact append_queue].
  - simpl. by rewrite length_insert.
  - simpl. rewrite i32_id; unfold is_i32; lia.
  - simpl. lia.
  - simpl. lia.
  - simpl. by apply Forall_insert.
  - rewrite append_window, fmap_cons, sumZ_cons. simpl. rewrite Hsum, i64_id; [lia |].
    unfold is_i64, is_i32 in *. lia.
  - rewrite append_window, countb_cons. simpl. rewrite Hmiss.
    destruct (isMissedCycle r); [rewrite i32_id; unfold is_i32; lia | lia].
Qed.

End append.

(** *** An iteration as eviction followed by appending *)

Definition core_eq (s t : SessionRecords) : Prop :=
  kMaxNumOfRecords s = kMaxNumOfRecords t /\ mRecords s = mRecords t /\
  mRecordsIndQueue s = mRecordsIndQueue t /\ mLatestRecordIndex s = mLatestRecordIndex t /\
  mNumOfMissedCycles s = mNumOfMissedCycles t /\ mNumOfFrames s = mNumOfFrames t /\
  mSumOfDurationsUs s = mSumOfDurationsUs t.

Lemma core_eq_window (s t : SessionRecords) : core_eq s t -> window s = window t.
Proof.
  intros (E1 & E2 & E3 & E4 & E5 & E6 & E7).
  unfold window, frames. rewrite E6. apply list_fmap_ext. intros i j _.
  unfold rec_of_age, idx_of_age. by rewrite E1, E2, E4.
Qed.

Lemma core_eq_core (s t : SessionRecords) : core_eq s t -> records_core t -> records_core s.
Proof.
  intros E [HK Hlen Hn HL HL0 Hd Hsum Hmiss (ages & Hq & Hok)].
  pose proof (core_eq_window s t E) as Hw.
  destruct E as (E1 & E2 & E3 & E4 & E5 & E6 & E7).
  split; rewrite ?Hw, ?E1, ?E2, ?E4, ?E5, ?E6, ?E7; try done.
  exists ages. rewrite E3, Hq. unfold frames, idx_of_age, dur_of_age, rec_of_age, idx_of_age in *.
  by rewrite E1, E2, E4, E6.
Qed.

Lemma track_jitter_core (g : bool) (si : Z) (s : SessionRecords) :
  core_eq (track_jitter g si s).2 s /\ mAvgDurationUs (track_jitter g si s).2 = mAvgDurationUs s /\
  kJankCheckTimeFactor (track_jitter g si s).2 = kJankCheckTimeFactor s.
Proof.
  unfold track_jitter, core_eq. destruct g; [| done].
  destruct (_ <? _); [| done]. by destruct (0 <? si).
Qed.

(** The record that an iteration stores. *)
Definition new_record (target : Z) (g : bool) (s : SessionRecords) (d : WorkDuration) : CycleRecord :=
  let e := evict_oldest s in
  let e := e <| mPreLastRecordIndex := mLatestRecordIndex e |> <| mLatestRecordIndex := next_index e |> in
  let si := start_interval e d in
  mkCycleRecord si (i32 (Z.quot (durationNanos d) 1000))
    (cycle_missed s target (i32 (Z.quot (durationNanos d) 1000)))
    (track_jitter g si (e <| mLastStartTimeNs := timeStampNanos d -₆₄ durationNanos d |>)).1.

Lemma evict_factor (s : SessionRecords) : kJankCheckTimeFactor (evict_oldest s) = kJankCheckTimeFactor s.
Proof. unfold evict_oldest. by destruct (_ <=? _). Qed.

Lemma add_duration_append (target : Z) (g : bool) (s : SessionRecords) (m : FrameTimingMetrics) (d : WorkDuration) :
  let s' := (add_duration target g (s, m) d).1 in
  core_eq s' (append_record (new_record target g s d) (evict_oldest s)) /\
  mAvgDurationUs s' = i32 (Z.quot (mSumOfDurationsUs s') (mNumOfFrames s')).
Proof.
  unfold add_duration, new_record.
  set (e := evict_oldest s).
  set (e1 := e <| mPreLastRecordIndex := _ |> <| mLatestRecordIndex := _ |>).
  set (si := start_interval e1 d).
  set (e2 := e1 <| mLastStartTimeNs := _ |>).
  pose proof (track_jitter_core g si e2) as (Hc & Ha & Hj).
  destruct (track_jitter g si e2) as [j t]; simpl in *.
  destruct Hc as (E1 & E2 & E3 & E4 & E5 & E6 & E7). split; [| done].
  assert (kJankCheckTimeFactor t = kJankCheckTimeFactor s) as Hj'.
  { rewrite Hj. apply evict_factor. }
  unfold core_eq, append_record, cycle_missed. simpl. rewrite Hj', E1, E2, E3, E4, E5, E6, E7. done.
Qed.

(** *** One report *)

Lemma quot_avg_range (x n : Z) : 0 < n -> - 2 ^ 31 * n <= x <= (2 ^ 31 - 1) * n -> is_i32 (Z.quot x n).
Proof.
  intros Hn Hx. unfold is_i32. split.
  - destruct (Z.le_gt_cases 0 x); [pose proof (Z.quot_pos x n ltac:(lia) ltac:(lia)); lia |].
    replace x with (- (- x)) by lia. rewrite Z.quot_opp_l by lia.
    assert (Z.quot (- x) n <= 2 ^ 31); [| lia]. apply Z.quot_le_upper_bound; lia.
  - destruct (Z.le_gt_cases 0 x).
    + assert (Z.quot x n <= 2 ^ 31 - 1); [| lia]. apply Z.quot_le_upper_bound; lia.
    + replace x with (- (- x)) by lia. rewrite Z.quot_opp_l by lia.
      pose proof (Z.quot_pos (- x) n ltac:(lia) ltac:(lia)). lia.
Qed.

Lemma window_sum_range (s : SessionRecords) :
  records_core s -> - 2 ^ 31 * mNumOfFrames s <= mSumOfDurationsUs s <= (2 ^ 31 - 1) * mNumOfFrames s.
Proof.
  intros H. rewrite (rc_sum _ H). pose proof (window_durs s H) as Hd. pose proof (rc_frames _ H).
  pose proof (length_window s) as Hlen. unfold frames in Hlen.
  replace (mNumOfFrames s) with (Z.of_nat (length (window s))) by lia.
  clear Hlen. induction Hd as [| r l Hr Hd IH]; [done |].
  rewrite fmap_cons, sumZ_cons. unfold is_i32 in Hr. simpl length. lia.
Qed.

Lemma add_duration_ok (target : Z) (g : bool) (s : SessionRecords) (m : FrameTimingMetrics) (d : WorkDuration) :
  records_ok s ->
  let s' := (add_duration target g (s, m) d).1 in
  records_ok s' /\ kMaxNumOfRecords s' = kMaxNumOfRecords s /\
  window s' = take (Z.to_nat (kMaxNumOfRecords s)) (new_record target g s d :: window s).
Proof.
  intros [H _] s'. destruct (add_duration_append target g s m d) as [E Ea].
  destruct (evict_core s H) as (He & Hlt & Hw). pose proof (evict_fields s) as (EK & _ & _).
  pose proof (rc_max _ H) as HK.
  assert (is_i32 (totalDurationUs (new_record target g s d))) as Hr by apply i32_range.
  rewrite <- EK in Hlt.
  pose proof (append_core _ _ He Hlt Hr) as Hc.
  pose proof (core_eq_core _ _ E Hc) as Hs'. fold s' in Hs'.
  split_and!.
  - split; [done |]. intros Hn. fold s' in Ea. rewrite Ea. apply i32_id.
    apply quot_avg_range; [done | by apply window_sum_range].
  - unfold s'. destruct E as [-> _]. exact EK.
  - unfold s'. rewrite (core_eq_window _ _ E), append_window, Hw by done.
    destruct (Z.to_nat (kMaxNumOfRecords s)) eqn:EZ; [lia |]. simpl. f_equal. f_equal. lia.
Qed.

Lemma resetRecords_ok (s : SessionRecords) : records_ok s -> records_ok (resetRecords s) /\ window (resetRecords s) = [].
Proof.
  intros [[HK Hlen Hn HL HL0 Hd Hsum Hmiss Hq] _]. split; [| done]. split; [| simpl; lia].
  split; try done; simpl; try lia. exists []. split; [done | apply deque_ok_empty].
Qed.

Lemma new_SessionRecords_ok (k : Z) (f : double) :
  0 < k < 2 ^ 31 -> records_ok (new_SessionRecords k f) /\ window (new_SessionRecords k f) = [].
Proof.
  intros Hk. split; [| done]. split; [| simpl; lia].
  split; try done; simpl; try lia.
  - by rewrite length_replicate.
  - apply Forall_replicate. unfold is_i32; simpl; lia.
  - exists []. split; [done | apply deque_ok_empty].
Qed.

#[export] Hint Resolve resetRecords_ok new_SessionRecords_ok : inv.

(** *** Jitter counter *)

(** How far the jitter counter is above the number of jitters in the window. *)
Definition jitter_excess (s : SessionRecords) : Z :=
  mNumOfFrameFPSJitters s - countb isFPSJitter (window s).

Lemma add_duration_jitters (target : Z) (g : bool) (s : SessionRecords) (m : FrameTimingMetrics) (d : WorkDuration) :
  let s' := (add_duration target g (s, m) d).1 in
  let r := new_record target g s d in
  mNumOfFrameFPSJitters s' =
    if isFPSJitter r then mNumOfFrameFPSJitters (evict_oldest s) +₃₂ 1
    else mNumOfFrameFPSJitters (evict_oldest s).
Proof.
  unfold add_duration, new_record.
  set (e := evict_oldest s).
  set (e1 := e <| mPreLastRecordIndex := _ |> <| mLatestRecordIndex := _ |>).
  set (si := start_interval e1 d).
  set (e2 := e1 <| mLastStartTimeNs := _ |>).
  assert (mNumOfFrameFPSJitters (track_jitter g si e2).2 =
    if (track_jitter g si e2).1 then mNumOfFrameFPSJitters e +₃₂ 1 else mNumOfFrameFPSJitters e) as Hj.
  { unfold track_jitter. destruct g; [| done].
    destruct (_ <? _); [by destruct (0 <? si) |]. simpl. by destruct (is_jitter e2 si). }
  destruct (track_jitter g si e2) as [j t]; simpl in *. exact Hj.
Qed.

Lemma evict_jitters (s : SessionRecords) :
  records_core s -> 0 <= jitter_excess s -> jitter_excess s + kMaxNumOfRecords s < 2 ^ 31 ->
  jitter_excess (evict_oldest s) = jitter_excess s.
Proof.
  intros H Hx HK. pose proof (rc_max _ H) as Hm. pose proof (rc_frames _ H) as Hfr.
  destruct (Z.leb_spec (kMaxNumOfRecords s) (mNumOfFrames s)) as [Hfull | Hlt].
  2:{ unfold evict_oldest. destruct (Z.leb_spec (kMaxNumOfRecords s) (mNumOfFrames s)); [lia | done]. }
  assert (mNumOfFrames s = kMaxNumOfRecords s) as Hf by lia.
  destruct (Z_of_nat_complete (kMaxNumOfRecords s - 1)) as [n Hn']; [lia |].
  assert (kMaxNumOfRecords s = Z.of_nat (S n)) as HS by lia.
  destruct (evict_full s n H Hf HS) as [Hfn Hw].
  assert (rec_at (mRecords s) (next_index s) = rec_of_age s n) as Hold.
  { unfold rec_of_age.
    by rewrite (proj2 (next_index_oldest s n n Hm (rc_latest _ H) HS (Nat.lt_succ_diag_r n)) eq_refl). }
  pose proof (countb_range isFPSJitter (window (evict_oldest s))) as Hc. rewrite length_window, Hfn in Hc.
  unfold jitter_excess in *. rewrite Hw, countb_app, countb_cons in *.
  unfold countb at 2 in Hx. unfold countb at 2 in HK. unfold countb at 3. simpl in *.
  unfold evict_oldest at 1. rewrite Hf, Z.leb_refl. simpl. rewrite Hold.
  destruct (isFPSJitter (rec_of_age s n)); [rewrite i32_id; unfold is_i32; lia | lia].
Qed.

Lemma add_duration_jitter_excess (target : Z) (g : bool) (s : SessionRecords) (m : FrameTimingMetrics) (d : WorkDuration) :
  records_ok s -> 0 <= jitter_excess s -> jitter_excess s + kMaxNumOfRecords s < 2 ^ 31 ->
  jitter_excess (add_duration target g (s, m) d).1 = jitter_excess s.
Proof.
  intros [H Ha] Hx HK. pose proof (evict_jitters s H Hx HK) as He.
  destruct (evict_core s H) as (Hec & Hlt & _). pose proof (evict_fields s) as (EK & _ & _).
  pose proof (rc_max _ H) as Hm.
  destruct (add_duration_append target g s m d) as [E _].
  assert (is_i32 (totalDurationUs (new_record target g s d))) as Hr by apply i32_range.
  rewrite <- EK in Hlt.
  pose proof (countb_range isFPSJitter (window (evict_oldest s))) as Hc.
  rewrite length_window in Hc. unfold frames in Hc. pose proof (rc_frames _ Hec).
  unfold jitter_excess in He |- *.
  rewrite add_duration_jitters, (core_eq_window _ _ E), append_window, countb_cons by done.
  unfold jitter_excess in Hx, HK.
  destruct (isFPSJitter (new_record target g s d)); [rewrite i32_id; unfold is_i32; lia | lia].
Qed.

(** ** Getters over the window *)

Definition is_max (l : list Z) (x : Z) : Prop := x ∈ l /\ forall y, y ∈ l -> y <= x.

Lemma elem_of_window_durs (s : SessionRecords) (x : Z) :
  x ∈ totalDurationUs <$> window s <-> exists j, (j < frames s)%nat /\ x = dur_of_age s j.
Proof.
  unfold window. rewrite <- list_fmap_compose, list_elem_of_fmap. split.
  - intros (j & -> & Hj). apply elem_of_seq in Hj. exists j. split; [lia | done].
  - intros (j & Hj & ->). exists j. split; [done |]. apply elem_of_seq. lia.
Qed.

Lemma getMaxDuration_window (s : SessionRecords) :
  records_core s ->
  match getMaxDuration s with
  | None => window s = []
  | Some x => is_max (totalDurationUs <$> window s) x
  end.
Proof.
  intros H. destruct (rc_queue _ H) as (ages & Hq & Hok). unfold getMaxDuration. rewrite Hq.
  destruct ages as [| a rest]; simpl.
  - apply length_zero_iff_nil. rewrite length_window.
    destruct (frames s) eqn:E; [done |]. exfalso. by eapply (deque_nonempty _ _ _ Hok); [lia |].
  - destruct (deque_front_max _ _ _ _ Hok) as [Ha Hmax]. split.
    + apply elem_of_window_durs. exists a. done.
    + intros y Hy. apply elem_of_window_durs in Hy as (j & Hj & ->). by apply Hmax.
Qed.

Lemma dec_index_spec (s : SessionRecords) (j : nat) :
  0 < kMaxNumOfRecords s < 2 ^ 31 ->
  (if idx_of_age s j =? 0 then kMaxNumOfRecords s -₃₂ 1 else idx_of_age s j -₃₂ 1) = idx_of_age s (S j).
Proof.
  intros HK. pose proof (Z.mod_pos_bound (mLatestRecordIndex s - Z.of_nat j) (kMaxNumOfRecords s)) as Hb.
  replace (idx_of_age s (S j)) with ((idx_of_age s j - 1) mod kMaxNumOfRecords s).
  2:{ unfold idx_of_age. rewrite Zminus_mod_idemp_l. f_equal. lia. }
  unfold idx_of_age in *. set (x := _ mod _) in *.
  destruct (Z.eqb_spec x 0) as [-> | Hne]; rewrite i32_id by (unfold is_i32; lia).
  - apply (Z.mod_unique_pos _ _ (-1)); lia.
  - symmetry. apply Z.mod_small. lia.
Qed.

Lemma isLowFrameRate_window (s : SessionRecords) (thr : Z) :
  records_core s ->
  isLowFrameRate s thr =
    (3 <=? mNumOfFrames s) && forallb (over_cycle_threshold thr) (take 3 (window s)).
Proof.
  intros H. unfold isLowFrameRate. destruct (Z.leb_spec 3 (mNumOfFrames s)) as [Hn | Hn]; [| done].
  pose proof (rc_nonempty _ H ltac:(lia)) as HL.
  pose proof (rc_max _ H) as HK. pose proof (rc_latest _ H).
  assert (mLatestRecordIndex s = idx_of_age s 0) as E0.
  { unfold idx_of_age. rewrite Z.sub_0_r, Z.mod_small; lia. }
  assert (take 3 (window s) = rec_of_age s <$> [0; 1; 2]%nat) as ->.
  { unfold window, frames. replace (Z.to_nat (mNumOfFrames s)) with (3 + (Z.to_nat (mNumOfFrames s) - 3))%nat by lia.
    by rewrite seq_app, fmap_app, take_app_le. }
  rewrite E0, dec_index_spec, dec_index_spec by done. unfold rec_of_age. simpl.
  by rewrite andb_true_r, andb_assoc.
Qed.

(** ** A whole report *)

Lemma addReportedDurations_ok (ds : list WorkDuration) (target : Z) (g : bool) (s : SessionRecords) (m : FrameTimingMetrics) :
  records_ok s ->
  let s' := (addReportedDurations ds target g (s, m)).1 in
  records_ok s' /\ kMaxNumOfRecords s' = kMaxNumOfRecords s /\
  totalDurationUs <$> window s' =
    take (Z.to_nat (kMaxNumOfRecords s))
      (reverse ((fun d => i32 (Z.quot (durationNanos d) 1000)) <$> ds) ++ (totalDurationUs <$> window s)).
Proof.
  revert s m. unfold addReportedDurations.
  induction ds as [| d ds IH]; intros s m H; simpl.
  - split_and!; [done | done |]. rewrite take_ge; [done |].
    rewrite length_fmap, length_window. destruct H as [H _]. pose proof (rc_frames _ H). unfold frames. lia.
  - destruct (add_duration_ok target g s m d H) as (A1 & A2 & A3).
    destruct (add_duration target g (s, m) d) as [s1 m1] eqn:E. simpl in A1, A2, A3.
    destruct (IH s1 m1 A1) as (B1 & B2 & B3). split_and!; [done | congruence |].
    rewrite B3, A2, A3, reverse_cons, fmap_take, fmap_cons, <- app_assoc.
    set (K := Z.to_nat (kMaxNumOfRecords s)). simpl.
    apply take_app_take.
Qed.

Lemma window_queue_range (s : SessionRecords) :
  records_core s -> Forall (fun i => 0 <= i < Z.of_nat (length (mRecords s))) (mRecordsIndQueue s).
Proof.
  intros H. destruct (rc_queue _ H) as (ages & -> & _). apply Forall_fmap, Forall_true.
  intros j. rewrite (rc_len _ H). pose proof (idx_of_age_range s H j). simpl. lia.
Qed.

Lemma addReportedDurations_app (ds es : list WorkDuration) (target : Z) (g : bool) sm :
  addReportedDurations (ds ++ es) target g sm =
  addReportedDurations es target g (addReportedDurations ds target g sm).
Proof. apply foldl_app. Qed.

Lemma addReportedDurations_jitter_excess (ds : list WorkDuration) (target : Z) (g : bool) (s : SessionRecords) (m : FrameTimingMetrics) :
  records_ok s -> 0 <= jitter_excess s -> jitter_excess s + kMaxNumOfRecords s < 2 ^ 31 ->
  jitter_excess (addReportedDurations ds target g (s, m)).1 = jitter_excess s.
Proof.
  revert s m. induction ds as [| d ds IH]; intros s m H Hx HK; [done |].
  unfold addReportedDurations in *. simpl.
  destruct (add_duration_ok target g s m d H) as (A1 & A2 & _).
  pose proof (add_duration_jitter_excess target g s m d H Hx HK) as A3.
  destruct (add_duration target g (s, m) d) as [s1 m1]. simpl in *.
  rewrite IH; [done | done | lia | lia].
Qed.

(** ** Main results *)

(** C7. The ring buffer with its counters and its descending index queue
    implements the list of the last [kMaxNumOfRecords] reported durations: a
    report of any number of durations yields a consistent state whose window is
    the reported durations (in microseconds, narrowed to 32 bits), newest first,
    followed by the previous window, cut to the capacity; creating and resetting
    the records yield the empty window. *)
Theorem addReportedDurations_window (ds : list WorkDuration) (target : Z) (g : bool)
    (s : SessionRecords) (m : FrameTimingMetrics) (H : records_ok s) :
  let s' := (addReportedDurations ds target g (s, m)).1 in
  records_ok s' /\
  totalDurationUs <$> window s' =
    take (Z.to_nat (kMaxNumOfRecords s))
      (reverse ((fun d => i32 (Z.quot (durationNanos d) 1000)) <$> ds) ++ (totalDurationUs <$> window s)) /\
  records_ok (resetRecords s) /\ window (resetRecords s) = [] /\
  (forall k f, 0 < k < 2 ^ 31 -> records_ok (new_SessionRecords k f) /\ window (new_SessionRecords k f) = []).
Proof.
  destruct (addReportedDurations_ok ds target g s m H) as (A & _ & B).
  destruct (resetRecords_ok s H) as [C D].
  split_and!; auto using new_SessionRecords_ok.
Qed.

Definition demo_durations : list WorkDuration :=
  (fun x => mkWorkDuration (x * 3) x 0 0 0) <$> [5000000; 9000000; 7000000; 8000000].

Lemma addReportedDurations_window_witness :
  totalDurationUs <$> window (addReportedDurations demo_durations 6000000 false
    (new_SessionRecords 3 (f64_of_Z 1), empty_FrameTimingMetrics)).1 = [8000; 7000; 9000].
Proof.
  destruct (addReportedDurations_window demo_durations 6000000 false (new_SessionRecords 3 (f64_of_Z 1))
    empty_FrameTimingMetrics) as (_ & Hw & _).
  - apply new_SessionRecords_ok. lia.
  - rewrite Hw. vm_compute. reflexivity.
Defined.

(** What the getters return is computed from running counters and from the
    front of the index queue, and equals the same statistic of the window:
    the number of records, the number of missed cycles, the longest duration
    ([nullopt] exactly when the window is empty), the truncated mean duration,
    and, for the low frame rate test, whether the three newest records all
    exceed the threshold. *)
Theorem records_getters (s : SessionRecords) (H : records_ok s) :
  getNumOfRecords s = Z.of_nat (length (window s)) /\
  getNumOfMissedCycles s = countb isMissedCycle (window s) /\
  match getMaxDuration s with
  | None => window s = []
  | Some x => is_max (totalDurationUs <$> window s) x
  end /\
  getAvgDuration s =
    (if decide (window s = []) then None
     else Some (Z.quot (sumZ (totalDurationUs <$> window s)) (Z.of_nat (length (window s))))) /\
  (forall thr,
     isLowFrameRate s thr =
       (3 <=? Z.of_nat (length (window s))) && forallb (over_cycle_threshold thr) (take 3 (window s))) /\
  areAllRecordsInitialized s = (kMaxNumOfRecords s =? Z.of_nat (length (window s))).
Proof.
  destruct H as [H Ha]. pose proof (rc_frames _ H) as Hf.
  assert (Z.of_nat (length (window s)) = mNumOfFrames s) as Hlen
    by (rewrite length_window; unfold frames; lia).
  rewrite !Hlen. split_and!; [done | apply H | by apply getMaxDuration_window | | |].
  - unfold getAvgDuration. destruct (Z.leb_spec (mNumOfFrames s) 0) as [Hz | Hz].
    + rewrite decide_True; [done |]. apply length_zero_iff_nil. lia.
    + rewrite decide_False; [| intros Hw; rewrite Hw in Hlen; simpl in Hlen; lia].
      rewrite Ha, (rc_sum _ H) by done. done.
  - intros thr. by apply isLowFrameRate_window.
  - unfold areAllRecordsInitialized. bool_cases; lia || done.
Qed.

Lemma records_getters_witness :
  let s := (addReportedDurations demo_durations 6000000 false
    (new_SessionRecords 3 (f64_of_Z 1), empty_FrameTimingMetrics)).1 in
  getMaxDuration s = Some 9000 /\ is_max (totalDurationUs <$> window s) 9000 /\
  getNumOfMissedCycles s = 3 /\ getAvgDuration s = Some 8000.
Proof.
  intros s.
  assert (records_ok s) as H.
  { apply addReportedDurations_ok, new_SessionRecords_ok. lia. }
  split; [vm_compute; reflexivity |]. split; [| split; vm_compute; reflexivity].
  exact (proj1 (proj2 (proj2 (records_getters s H)))).
Defined.

(** Every index that an iteration uses on the record vector is inside it:
    the indexes of the queue, the slot of the oldest and of the new record, the
    slot of the previous record when there is one, and the slot three frames
    back when the capacity is at least three. *)
Theorem record_indexes_in_range (s : SessionRecords) (H : records_ok s) :
  let len := Z.of_nat (length (mRecords s)) in
  Forall (fun i => 0 <= i < len) (mRecordsIndQueue s) /\
  0 <= next_index s < len /\
  (forall target g m d,
     let s' := (add_duration target g (s, m) d).1 in
     0 <= mLatestRecordIndex s' < len /\
     (0 < mNumOfFrames s -> 0 <= mPreLastRecordIndex s' < len) /\
     (3 <= kMaxNumOfRecords s -> 0 <= old_record_index s' < len)).
Proof.
  destruct H as [H Ha]. intros len. pose proof (rc_max _ H) as HK. pose proof (rc_latest _ H) as HL.
  destruct (next_index_spec s HK HL) as [Hni Hi].
  assert (len = kMaxNumOfRecords s) as El by (unfold len; rewrite (rc_len _ H); lia).
  split_and!; try lia.
  - unfold len. by apply window_queue_range.
  - intros target g m d s'. destruct (add_duration_append target g s m d) as [E _]. fold s' in E.
    destruct (evict_fields s) as (EK & ER & EL). destruct E as (E1 & _ & _ & E2 & _).
    assert (0 <= mLatestRecordIndex s' < len) as Hl'.
    { rewrite E2. simpl. unfold next_index. rewrite EK, EL. fold (next_index s). lia. }
    split_and!; [lia | lia | |].
    + intros Hpos. pose proof (rc_nonempty _ H Hpos).
      enough (mPreLastRecordIndex s' = mLatestRecordIndex s) by lia.
      unfold s', add_duration. destruct (track_jitter _ _ _) as [j t] eqn:Et. simpl.
      match type of Et with track_jitter ?a ?b ?c = _ =>
        assert (mPreLastRecordIndex (track_jitter a b c).2 = mPreLastRecordIndex c) as Hp end.
      { unfold track_jitter. destruct g; [| done]. destruct (_ <? _); [by case_match | done]. }
      rewrite Et in Hp. simpl in Hp. by rewrite Hp, EL.
    + intros H3. unfold old_record_index, kTotalFramesForFPSCheck. rewrite E1. simpl. rewrite EK.
      rewrite (i32_id (mLatestRecordIndex s' - 3)) by (unfold is_i32; lia).
      destruct (Z.ltb_spec (mLatestRecordIndex s' - 3) 0); [rewrite i32_id by (unfold is_i32; lia) |]; lia.
Qed.

Lemma record_indexes_in_range_witness :
  0 <= next_index (new_SessionRecords 3 (f64_of_Z 1)) < 3.
Proof.
  apply (record_indexes_in_range (new_SessionRecords 3 (f64_of_Z 1))).
  apply new_SessionRecords_ok. lia.
Defined.

(** The jitter counter is exact only until the first reset: reports change
    it by the jitters that enter and leave the window, so its excess over the
    jitters in the window is constant, but [resetRecords] empties the window
    and leaves the counter, so the whole count becomes a permanent excess. *)
Theorem jitter_counter_excess (s : SessionRecords) (H : records_ok s)
    (Hx : 0 <= jitter_excess s) (HK : jitter_excess s + kMaxNumOfRecords s < 2 ^ 31) :
  (forall ds target g m, jitter_excess (addReportedDurations ds target g (s, m)).1 = jitter_excess s) /\
  jitter_excess (resetRecords s) = getNumOfFPSJitters s.
Proof.
  split; [intros; by apply addReportedDurations_jitter_excess |].
  unfold jitter_excess, getNumOfFPSJitters. simpl. unfold window, frames, countb. simpl. lia.
Qed.

(** Frames at a steady interval with one late frame, in game mode. *)
Definition demo_late_frame : list WorkDuration :=
  (fun t => mkWorkDuration t 1000000 0 0 0) <$> [10000000; 20000000; 30000000; 40000000; 90000000].

Lemma jitter_counter_excess_witness :
  let s := (addReportedDurations demo_late_frame 16000000 true
    (new_SessionRecords 8 (f64_of_Z 1), empty_FrameTimingMetrics)).1 in
  getNumOfFPSJitters s = 1 /\ jitter_excess s = 0 /\ jitter_excess (resetRecords s) = 1.
Proof.
  intros s.
  assert (records_ok s) as H by (apply addReportedDurations_ok, new_SessionRecords_ok; lia).
  assert (getNumOfFPSJitters s = 1) as H1 by (vm_compute; reflexivity).
  assert (jitter_excess s = 0) as H0 by (vm_compute; reflexivity).
  split; [exact H1 | split; [exact H0 |]].
  rewrite <- H1. apply (proj2 (jitter_counter_excess s H ltac:(lia) ltac:(rewrite H0; vm_compute; reflexivity))).
Defined.

(** After any report outside game mode the sum of start intervals is zero,
    so [getLatestFPS] divides by zero; a surface-flinger session calls it after
    every such report. *)
Theorem getLatestFPS_undefined (ds : list WorkDuration) (d : WorkDuration) (target : Z) (s : SessionRecords)
    (m : FrameTimingMetrics) :
  getLatestFPS (addReportedDurations (ds ++ [d]) target false (s, m)).1 = None.
Proof.
  rewrite addReportedDurations_app.
  destruct (addReportedDurations ds target false (s, m)) as [s1 m1]. done.
Qed.
