(* ===== verification/SessionTaskMap.v ===== *)
(** * Sessions and the tasks they boost
      (src/power-libperfmgr/aidl/SessionValueEntry.h, SessionTaskMap.h, SessionTaskMap.cpp)

    [SessionTaskMap] keeps, for every session, a shared value object and the
    tasks linked to it, and for every task the value objects of the sessions
    that it is linked to.  The value objects are shared between the two maps
    and mutated in place, so the model has a heap: a [shared_ptr] is a location
    and [std::find] on a vector of pointers compares locations.

    Shown here: the two maps stay consistent with each other under every
    operation (each task lists each session exactly as often as the session
    lists the task), removal leaves no trace of a session, and [replace] reports
    exactly the tasks that came under and that left the control of all
    sessions. *)

From S2P Require Import Prelude CFloat AdpfTypes UClampVoter SessionMetrics.

(** ** State *)

Record HeurBoostStatistics := mkHeurBoostStatistics {
  lightModeFrames : Z; moderateModeFrames : Z; severeModeFrames : Z
}.

#[export] Instance eta_HeurBoostStatistics : Record_eta HeurBoostStatistics := fun r =>
  mkHeurBoostStatistics (lightModeFrames r) (moderateModeFrames r) (severeModeFrames r).

(** The [votes] object of an entry is never shared between two live entries
    ([replace] copies the pointer and drops the old entry), so it is held by
    value; the trace names of an entry are not modelled. *)
Record SessionValueEntry := mkSessionValueEntry {
  sve_sessionId : Z;
  sve_tgid : Z;
  sve_uid : Z;
  sve_idString : string;
  isActive : bool;
  sve_isAppSession : bool;
  sve_tag : SessionTag;
  sve_procTag : ProcessTag;
  lastUpdatedTime : Z;
  votes : Votes;
  sessFrameBuckets : FrameBuckets;
  isPowerEfficient : bool;
  hBoostModeDist : HeurBoostStatistics;
  rampupBoostActive : bool;
  sessFrameMetrics : option SessionMetrics
}.

#[export] Instance eta_SessionValueEntry : Record_eta SessionValueEntry := fun r =>
  mkSessionValueEntry (sve_sessionId r) (sve_tgid r) (sve_uid r) (sve_idString r) (isActive r)
    (sve_isAppSession r) (sve_tag r) (sve_procTag r) (lastUpdatedTime r) (votes r)
    (sessFrameBuckets r) (isPowerEfficient r) (hBoostModeDist r) (rampupBoostActive r)
    (sessFrameMetrics r).

(** The default member initialisers. *)
Definition empty_SessionValueEntry : SessionValueEntry :=
  mkSessionValueEntry 0 0 0 "" true false TAG_OTHER PROC_DEFAULT 0 empty_Votes
    empty_FrameBuckets false (mkHeurBoostStatistics 0 0 0) false None.

(** Locations of value objects. *)
Definition loc : Type := positive.

Record ValEntry := mkValEntry { val : loc; linkedTasks : list Z }.

#[export] Instance eta_ValEntry : Record_eta ValEntry := fun r => mkValEntry (val r) (linkedTasks r).

Record SessionTaskMap := mkSessionTaskMap {
  heap : gmap loc SessionValueEntry;
  next_loc : loc;
  mSessions : gmap Z ValEntry;
  mTasks : gmap Z (list loc)
}.

#[export] Instance eta_SessionTaskMap : Record_eta SessionTaskMap := fun r =>
  mkSessionTaskMap (heap r) (next_loc r) (mSessions r) (mTasks r).

Definition empty_SessionTaskMap : SessionTaskMap := mkSessionTaskMap ∅ 1%positive ∅ ∅.

(** Reading through a pointer, and mutating the object it points to. *)
Definition deref (m : SessionTaskMap) (p : loc) : SessionValueEntry :=
  default empty_SessionValueEntry (heap m !! p).

Definition stm_modify (p : loc) (f : SessionValueEntry -> SessionValueEntry) (m : SessionTaskMap) : SessionTaskMap :=
  m <| heap ::= alter f p |>.

(** ** Operations *)

(** [mTasks[taskId].push_back(p)] *)
Definition link_task (p : loc) (ts : gmap Z (list loc)) (taskId : Z) : gmap Z (list loc) :=
  <[taskId := default [] (ts !! taskId) ++ [p]]> ts.

Definition stm_add (sessionId : Z) (sv : SessionValueEntry) (taskIds : list Z) (m : SessionTaskMap)
    : bool * SessionTaskMap :=
  match mSessions m !! sessionId with
  | Some _ => (false, m)
  | None =>
      let p := next_loc m in
      (true,
       m <| heap ::= <[p := sv <| sve_sessionId := sessionId |>]> |>
         <| next_loc ::= Pos.succ |>
         <| mSessions ::= <[sessionId := mkValEntry p taskIds]> |>
         <| mTasks ::= fun ts => foldl (link_task p) ts taskIds |>)
  end.

Definition stm_findSession (m : SessionTaskMap) (sessionId : Z) : option loc :=
  val <$> mSessions m !! sessionId.

Definition stm_addVote (sessionId voteId uclampMin uclampMax startTime durationNs : Z)
    (m : SessionTaskMap) : SessionTaskMap :=
  match mSessions m !! sessionId with
  | None => m
  | Some e =>
      stm_modify (val e) (fun v => v <| votes ::=
        Votes_add_cpu voteId (new_CpuVote true startTime durationNs uclampMin uclampMax) |>) m
  end.

Definition stm_addGpuVote (sessionId voteId : Z) (capacity : Cycles) (startTime durationNs : Z)
    (m : SessionTaskMap) : SessionTaskMap :=
  match mSessions m !! sessionId with
  | None => m
  | Some e =>
      stm_modify (val e) (fun v => v <| votes ::=
        Votes_add_gpu voteId (new_GpuVote true startTime durationNs capacity) |>) m
  end.

(** One session of the loop of [getTaskVoteRange].  The offset is read through
    the optional without a check: [session_vote_range_defined] says whether it
    is there when it is read. *)
Definition session_vote_range (timeNow : Z) (base offset : option Z) (r : UclampRange)
    (v : SessionValueEntry) : UclampRange :=
  if negb (isActive v) then r
  else
    let r := Votes_getUclampRange (votes v) r timeNow in
    match isPowerEfficient v, base with
    | true, Some b =>
        mkUclampRange (uclampMin r)
          (Z.min (uclampMax r)
             (if Votes_allTimedOut (votes v) timeNow then b
              else uclampMin r +₃₂ value offset))
    | _, _ => r
    end.

Definition stm_getTaskVoteRange (m : SessionTaskMap) (taskId timeNow : Z) (range : UclampRange)
    (base offset : option Z) : UclampRange :=
  match mTasks m !! taskId with
  | None => default_UclampRange
  | Some ps => foldl (session_vote_range timeNow base offset) range (deref m <$> ps)
  end.

Definition session_vote_range_defined (timeNow : Z) (base offset : option Z) (v : SessionValueEntry) : bool :=
  negb (isActive v) || negb (isPowerEfficient v) || negb (has_value base) ||
  Votes_allTimedOut (votes v) timeNow || has_value offset.

Definition stm_getTaskVoteRange_defined (m : SessionTaskMap) (taskId timeNow : Z) (base offset : option Z) : bool :=
  match mTasks m !! taskId with
  | None => true
  | Some ps => forallb (session_vote_range_defined timeNow base offset) (deref m <$> ps)
  end.

(** The values of all sessions, in the order [map_to_list] walks the map. *)
Definition session_values (m : SessionTaskMap) : list SessionValueEntry :=
  (fun e => deref m (val e)) <$> (map_to_list (mSessions m)).*2.

Definition stm_getSessionsGpuCapacity (m : SessionTaskMap) (t : Z) : Cycles :=
  foldl (fun mx v => Z.max mx (default 0 (Votes_getGpuCapacityRequest (votes v) t))) 0 (session_values m).

Definition stm_getSessionIds (m : SessionTaskMap) (taskId : Z) : list Z :=
  match mTasks m !! taskId with
  | None => []
  | Some ps => (fun p => sve_sessionId (deref m p)) <$> ps
  end.

Definition stm_getTaskIds (m : SessionTaskMap) (sessionId : Z) : list Z :=
  match mSessions m !! sessionId with
  | None => []
  | Some e => linkedTasks e
  end.

Definition stm_isAnyAppSessionActive (m : SessionTaskMap) (t : Z) : bool :=
  existsb (fun v => sve_isAppSession v && isActive v && negb (Votes_allTimedOut (votes v) t)) (session_values m).

Definition stm_areAllSessionsTimeout (m : SessionTaskMap) (t : Z) : bool :=
  forallb (fun v => Votes_allTimedOut (votes v) t) (session_values m).

(** Removal of one pointer from a task's vector, and of the vector when it
    becomes empty; [None] when the task or the pointer is not there. *)
Definition unlink_task (p : loc) (taskId : Z) (ts : gmap Z (list loc)) : option (gmap Z (list loc)) :=
  match ts !! taskId with
  | None => None
  | Some ps =>
      match list_remove p ps with
      | None => None
      | Some [] => Some (delete taskId ts)
      | Some ps' => Some (<[taskId := ps']> ts)
      end
  end.

(** One iteration of the loop of [remove]: an inconsistent entry is skipped. *)
Definition unlink_or_skip (p : loc) (ts : gmap Z (list loc)) (taskId : Z) : gmap Z (list loc) :=
  default ts (unlink_task p taskId ts).

Definition stm_remove (sessionId : Z) (m : SessionTaskMap) : bool * SessionTaskMap :=
  match mSessions m !! sessionId with
  | None => (false, m)
  | Some e =>
      (true,
       m <| mTasks ::= fun ts => foldl (unlink_or_skip (val e)) ts (linkedTasks e) |>
         <| mSessions ::= delete sessionId |>)
  end.

Definition stm_removeDeadTaskSessionMap (sessionId taskId : Z) (m : SessionTaskMap) : bool * SessionTaskMap :=
  match mSessions m !! sessionId with
  | None => (false, m)
  | Some e =>
      match unlink_task (val e) taskId (mTasks m) with
      | None => (false, m)
      | Some ts => (true, m <| mTasks := ts |>)
      end
  end.

Record ReplaceResult := mkReplaceResult {
  replaced : bool; addedThreads : list Z; removedThreads : list Z
}.

(** The threads of a list that no session is linked to. *)
Definition unmapped_tasks (m : SessionTaskMap) (tids : list Z) : list Z :=
  filter (fun tid => mTasks m !! tid = None) tids.

Definition stm_replace (sessionId : Z) (taskIds : list Z) (m : SessionTaskMap)
    : ReplaceResult * SessionTaskMap :=
  match mSessions m !! sessionId with
  | None => (mkReplaceResult false [] [], m)
  | Some e =>
      let svTmp := deref m (val e) in
      let previousTaskIds := linkedTasks e in
      let added := unmapped_tasks m taskIds in
      let m1 := (stm_remove sessionId m).2 in
      let m2 := (stm_add sessionId svTmp taskIds m1).2 in
      (mkReplaceResult true added (unmapped_tasks m2 previousTaskIds), m2)
  end.

Definition stm_sizeSessions (m : SessionTaskMap) : Z := Z.of_nat (size (mSessions m)).
Definition stm_sizeTasks (m : SessionTaskMap) : Z := Z.of_nat (size (mTasks m)).

Definition stm_idString (m : SessionTaskMap) (sessionId : Z) : string :=
  match mSessions m !! sessionId with
  | None => ""
  | Some e => sve_idString (deref m (val e))
  end.

Definition stm_isAppSession (m : SessionTaskMap) (sessionId : Z) : bool :=
  match mSessions m !! sessionId with
  | None => false
  | Some e => sve_isAppSession (deref m (val e))
  end.

(** The sessions that [forEachSessionInTask] passes to its callback. *)
Definition stm_sessionsInTask (m : SessionTaskMap) (taskId : Z) : list (Z * SessionValueEntry) :=
  match mTasks m !! taskId with
  | None => []
  | Some ps =>
      omap (fun p => let sid := sve_sessionId (deref m p) in
                     e ← mSessions m !! sid; Some (sid, deref m (val e))) ps
  end.

(** The entries that [forEachSessionValTasks] passes to its callback. *)
Definition stm_allSessions (m : SessionTaskMap) : list (Z * SessionValueEntry * list Z) :=
  (fun '(sid, e) => (sid, deref m (val e), linkedTasks e)) <$> map_to_list (mSessions m).

(** ** Consistency of the two maps *)

Definition at_task (ts : gmap Z (list loc)) (tid : Z) : list loc := default [] (ts !! tid).

(** No task has an empty vector. *)
Definition no_empty (ts : gmap Z (list loc)) : Prop := forall tid, ts !! tid <> Some [].

Record stm_wf (m : SessionTaskMap) : Prop := {
  wf_val : forall sid e, mSessions m !! sid = Some e ->
    exists v, heap m !! val e = Some v /\ sve_sessionId v = sid;
  wf_fresh : forall p, is_Some (heap m !! p) -> (p < next_loc m)%positive;
  wf_no_empty : no_empty (mTasks m);
  wf_count : forall tid sid e, mSessions m !! sid = Some e ->
    occ (val e) (at_task (mTasks m) tid) = occ tid (linkedTasks e);
  wf_owner : forall tid p, p ∈ at_task (mTasks m) tid ->
    exists sid e, mSessions m !! sid = Some e /\ val e = p;
  wf_votes : forall p v, heap m !! p = Some v -> votes_wf (votes v)
}.

Lemma empty_stm_wf : stm_wf empty_SessionTaskMap.
Proof.
  split; simpl.
  - intros sid e. by rewrite lookup_empty.
  - intros p [v Hv]. by rewrite lookup_empty in Hv.
  - intros tid. by rewrite lookup_empty.
  - intros tid sid e. by rewrite lookup_empty.
  - intros tid p. unfold at_task. rewrite lookup_empty. simpl. intros E. by apply not_elem_of_nil in E.
  - intros p v. by rewrite lookup_empty.
Qed.

(** *** Linking and unlinking *)

Lemma at_task_link (p q : loc) (ts : gmap Z (list loc)) (tid t : Z) :
  occ q (at_task (link_task p ts tid) t) =
    (occ q (at_task ts t) + if decide (tid = t /\ p = q) then 1 else 0)%nat.
Proof.
  unfold at_task, link_task. rewrite lookup_insert. case_decide as E; subst; simpl.
  - rewrite occ_app, occ_cons, occ_nil. repeat case_decide; intuition congruence || lia.
  - rewrite decide_False by tauto. lia.
Qed.

Lemma at_task_links (p q : loc) (ts : gmap Z (list loc)) (tids : list Z) (t : Z) :
  occ q (at_task (foldl (link_task p) ts tids) t) =
    (occ q (at_task ts t) + if decide (p = q) then occ t tids else 0)%nat.
Proof.
  revert ts. induction tids as [| tid tids IH]; intros ts; simpl.
  - rewrite occ_nil. case_decide; lia.
  - rewrite IH, at_task_link, occ_cons. repeat case_decide; intuition congruence || lia.
Qed.

Lemma no_empty_links (p : loc) (ts : gmap Z (list loc)) (tids : list Z) :
  no_empty ts -> no_empty (foldl (link_task p) ts tids).
Proof.
  revert ts. induction tids as [| tid tids IH]; intros ts H; simpl; [done |].
  apply IH. intros t. unfold link_task. rewrite lookup_insert. case_decide; [| apply H].
  intros [= E]. symmetry in E; by apply app_cons_not_nil in E.
Qed.

Lemma unlink_task_spec (p : loc) (tid : Z) (ts : gmap Z (list loc)) :
  no_empty ts ->
  match unlink_task p tid ts with
  | None => occ p (at_task ts tid) = 0%nat
  | Some ts' => no_empty ts' /\ forall q t,
      occ q (at_task ts t) = (occ q (at_task ts' t) + if decide (tid = t /\ p = q) then 1 else 0)%nat
  end.
Proof.
  intros Hne. unfold unlink_task, at_task.
  destruct (ts !! tid) as [ps |] eqn:E; [| done]. simpl.
  destruct (list_remove p ps) as [[| a ps'] |] eqn:Er.
  - split.
    + intros t. rewrite lookup_delete. by case_decide.
    + intros q t. rewrite lookup_delete. case_decide as Et; [subst t | rewrite decide_False by tauto; lia].
      rewrite E. simpl. rewrite (list_remove_occ _ q _ _ Er). repeat case_decide; intuition congruence || lia.
  - split.
    + intros t. rewrite lookup_insert. by case_decide.
    + intros q t. rewrite lookup_insert. case_decide as Et; [subst t | rewrite decide_False by tauto; lia].
      rewrite E. simpl. rewrite (list_remove_occ _ q _ _ Er). repeat case_decide; intuition congruence || lia.
  - by apply list_remove_None_occ.
Qed.

Lemma unlink_or_skip_spec (p : loc) (tid : Z) (ts : gmap Z (list loc)) :
  no_empty ts ->
  no_empty (unlink_or_skip p ts tid) /\ forall q t,
    occ q (at_task (unlink_or_skip p ts tid) t) =
      (occ q (at_task ts t) - if decide (tid = t /\ p = q) then 1 else 0)%nat.
Proof.
  intros H. pose proof (unlink_task_spec p tid ts H) as Hs. unfold unlink_or_skip.
  destruct (unlink_task p tid ts) as [ts' |]; simpl.
  - destruct Hs as [Hn Hs]. split; [done |]. intros q t. rewrite Hs. case_decide; lia.
  - split; [done |]. intros q t. case_decide as E; [destruct E as [-> ->] |]; lia.
Qed.

Lemma unlinks_spec (p : loc) (tids : list Z) (ts : gmap Z (list loc)) :
  no_empty ts ->
  no_empty (foldl (unlink_or_skip p) ts tids) /\ forall q t,
    occ q (at_task (foldl (unlink_or_skip p) ts tids) t) =
      (occ q (at_task ts t) - if decide (p = q) then occ t tids else 0)%nat.
Proof.
  revert ts. induction tids as [| tid tids IH]; intros ts H; simpl.
  - split; [done |]. intros q t. rewrite occ_nil. case_decide; lia.
  - destruct (unlink_or_skip_spec p tid ts H) as [H1 H2]. destruct (IH _ H1) as [H3 H4].
    split; [done |]. intros q t. rewrite H4, H2, occ_cons. repeat case_decide; intuition congruence || lia.
Qed.

(** *** Every operation keeps the maps consistent *)

Lemma val_inj (m : SessionTaskMap) (s1 s2 : Z) (e1 e2 : ValEntry) :
  stm_wf m -> mSessions m !! s1 = Some e1 -> mSessions m !! s2 = Some e2 -> val e1 = val e2 -> s1 = s2.
Proof.
  intros H H1 H2 He. destruct (wf_val _ H _ _ H1) as (v1 & Hv1 & <-).
  destruct (wf_val _ H _ _ H2) as (v2 & Hv2 & <-). congruence.
Qed.

(** Mutating an entry without renaming it. *)
Lemma stm_modify_wf (p : loc) (f : SessionValueEntry -> SessionValueEntry) (m : SessionTaskMap) :
  (forall v, sve_sessionId (f v) = sve_sessionId v) ->
  (forall v, votes_wf (votes v) -> votes_wf (votes (f v))) ->
  stm_wf m -> stm_wf (stm_modify p f m).
Proof.
  intros Hf Hv [H1 H2 H3 H4 H5 H6]. split; simpl; try done.
  - intros sid e He. destruct (H1 _ _ He) as (v & Hh & Hid). rewrite lookup_alter.
    case_decide; subst; rewrite Hh; [exists (f v); split; [done | by rewrite Hf] | by exists v].
  - intros q Hq. apply H2. rewrite lookup_alter in Hq. case_decide; [subst | done].
    by rewrite fmap_is_Some in Hq.
  - intros q v. rewrite lookup_alter. case_decide; [| apply H6].
    subst q. destruct (heap m !! p) as [w |] eqn:E; intros [= <-]. apply Hv. by eapply H6.
Qed.

Lemma fresh_not_val (m : SessionTaskMap) (sid : Z) (e : ValEntry) :
  stm_wf m -> mSessions m !! sid = Some e -> val e <> next_loc m.
Proof.
  intros H He Hv. destruct (wf_val _ H _ _ He) as (v & Hh & _).
  assert (val e < next_loc m)%positive by (apply (wf_fresh _ H); eauto). lia.
Qed.

Lemma stm_add_wf (sid : Z) (sv : SessionValueEntry) (tids : list Z) (m : SessionTaskMap) :
  votes_wf (votes sv) -> stm_wf m -> stm_wf (stm_add sid sv tids m).2.
Proof.
  intros Hsv H. unfold stm_add. destruct (mSessions m !! sid) eqn:E; [done |].
  assert (forall t, occ (next_loc m) (at_task (mTasks m) t) = 0%nat) as Hfresh.
  { intros t. apply occ_not_elem. intros Hin. destruct (wf_owner _ H _ _ Hin) as (s & e & He & Hv).
    by eapply fresh_not_val. }
  split; simpl.
  - intros s e. rewrite lookup_insert. case_decide as Es.
    + intros [= <-]. subst. simpl. rewrite lookup_insert_eq. eauto.
    + intros He. destruct (wf_val _ H _ _ He) as (v & Hh & Hid). exists v. split; [| done].
      rewrite lookup_insert_ne; [done |]. symmetry. by eapply fresh_not_val.
  - intros p. rewrite lookup_insert. case_decide; [subst; lia |].
    intros Hp%(wf_fresh _ H). lia.
  - apply no_empty_links, H.
  - intros t s e. rewrite lookup_insert, at_task_links. case_decide as Es.
    + intros [= <-]. simpl. rewrite decide_True, Hfresh by done. done.
    + intros He. rewrite decide_False by (symmetry; by eapply fresh_not_val).
      rewrite (wf_count _ H _ _ _ He). lia.
  - intros t p Hp. apply occ_elem in Hp. rewrite at_task_links in Hp. case_decide as Ep.
    + exists sid, (mkValEntry (next_loc m) tids). rewrite lookup_insert_eq. done.
    + destruct (wf_owner _ H t p) as (s & e & He & Hv); [apply occ_elem; lia |].
      exists s, e. rewrite lookup_insert_ne by congruence. done.
  - intros p v. rewrite lookup_insert. case_decide; [intros [= <-]; done | apply (wf_votes _ H)].
Qed.

Lemma stm_remove_wf (sid : Z) (m : SessionTaskMap) : stm_wf m -> stm_wf (stm_remove sid m).2.
Proof.
  intros H. unfold stm_remove. destruct (mSessions m !! sid) as [e |] eqn:E; [| done].
  destruct (unlinks_spec (val e) (linkedTasks e) (mTasks m) (wf_no_empty _ H)) as [Hn Hu].
  split; simpl; try apply H.
  - intros s e'. rewrite lookup_delete. case_decide; [done | apply (wf_val _ H)].
  - done.
  - intros t s e'. rewrite lookup_delete. case_decide as Es; [done |]. intros He'.
    rewrite Hu, decide_False, (wf_count _ H _ _ _ He'); [lia |].
    intros Hv. apply Es. by eapply val_inj.
  - intros t p Hp. apply occ_elem in Hp. rewrite Hu in Hp.
    destruct (wf_owner _ H t p) as (s & e' & He' & Hv); [apply occ_elem; lia |].
    exists s, e'. rewrite lookup_delete. destruct (decide (sid = s)) as [Es | Es]; [| by split].
    subst. simplify_eq. rewrite decide_True, (wf_count _ H _ _ _ E) in Hp by done. lia.
Qed.

Lemma stm_remove_lookup (sid s : Z) (m : SessionTaskMap) :
  mSessions (stm_remove sid m).2 !! s = if decide (sid = s) then None else mSessions m !! s.
Proof.
  unfold stm_remove. destruct (mSessions m !! sid) eqn:E; simpl.
  - apply lookup_delete.
  - case_decide; congruence.
Qed.

Lemma stm_remove_heap (sid : Z) (m : SessionTaskMap) :
  heap (stm_remove sid m).2 = heap m /\ next_loc (stm_remove sid m).2 = next_loc m.
Proof. unfold stm_remove. by destruct (mSessions m !! sid). Qed.

Lemma deref_votes_wf (m : SessionTaskMap) (p : loc) : stm_wf m -> votes_wf (votes (deref m p)).
Proof.
  intros H. unfold deref. destruct (heap m !! p) eqn:E; simpl; [by eapply wf_votes | apply empty_Votes_wf].
Qed.

Lemma stm_replace_wf (sid : Z) (tids : list Z) (m : SessionTaskMap) :
  stm_wf m -> stm_wf (stm_replace sid tids m).2.
Proof.
  intros H. unfold stm_replace. destruct (mSessions m !! sid) as [e |] eqn:E; [| done]. simpl.
  apply stm_add_wf; [by apply deref_votes_wf | by apply stm_remove_wf].
Qed.

Lemma stm_addVote_wf (sid vid mn mx st du : Z) (m : SessionTaskMap) :
  stm_wf m -> stm_wf (stm_addVote sid vid mn mx st du m).
Proof.
  intros H. unfold stm_addVote. destruct (mSessions m !! sid) as [e |]; [| done].
  apply stm_modify_wf; [done | | done]. intros v Hv. simpl. auto with inv.
Qed.

Lemma stm_addGpuVote_wf (sid vid c st du : Z) (m : SessionTaskMap) :
  stm_wf m -> stm_wf (stm_addGpuVote sid vid c st du m).
Proof.
  intros H. unfold stm_addGpuVote. destruct (mSessions m !! sid) as [e |]; [| done].
  apply stm_modify_wf; [done | | done]. intros v Hv. simpl. auto with inv.
Qed.

#[export] Hint Resolve empty_stm_wf stm_add_wf stm_remove_wf stm_replace_wf stm_addVote_wf
  stm_addGpuVote_wf deref_votes_wf : inv.

(** Dropping a dead task from a session: [removeDeadTaskSessionMap] unlinks one
    pointer and the caller erases the task at its position in the session's
    thread list; together they keep the maps consistent. *)
Definition stm_set_linked (sid : Z) (tids : list Z) (m : SessionTaskMap) : SessionTaskMap :=
  m <| mSessions ::= alter (fun e => e <| linkedTasks := tids |>) sid |>.

Lemma drop_dead_wf (sid tid : Z) (l1 l2 : list Z) (m : SessionTaskMap) :
  stm_wf m -> stm_getTaskIds m sid = l1 ++ tid :: l2 ->
  stm_wf (stm_set_linked sid (l1 ++ l2) (stm_removeDeadTaskSessionMap sid tid m).2).
Proof.
  intros H Hl. unfold stm_getTaskIds, stm_removeDeadTaskSessionMap in *.
  destruct (mSessions m !! sid) as [e |] eqn:E; [| by apply app_cons_not_nil in Hl].
  pose proof (unlink_task_spec (val e) tid (mTasks m) (wf_no_empty _ H)) as Hu.
  assert (occ (val e) (at_task (mTasks m) tid) <> 0)%nat as Hpos.
  { rewrite (wf_count _ H _ _ _ E), Hl, occ_app, occ_cons, decide_True by done. lia. }
  destruct (unlink_task (val e) tid (mTasks m)) as [ts |]; [| done].
  destruct Hu as [Hn Hu].
  assert (forall s e', alter (fun e => e <| linkedTasks := l1 ++ l2 |>) sid (mSessions m) !! s = Some e' ->
    exists e0, mSessions m !! s = Some e0 /\ val e' = val e0 /\
      linkedTasks e' = if decide (sid = s) then l1 ++ l2 else linkedTasks e0) as Halt.
  { intros s e'. rewrite lookup_alter. case_decide as Es; [subst s; rewrite E; intros [= <-]; eauto | eauto]. }
  split; simpl; try apply H.
  - intros s e' He'. destruct (Halt _ _ He') as (e0 & He0 & -> & _). by apply (wf_val _ H).
  - done.
  - intros t s e' He'. destruct (Halt _ _ He') as (e0 & He0 & -> & ->).
    pose proof (wf_count _ H t _ _ He0) as Hc. rewrite Hu in Hc.
    destruct (decide (sid = s)) as [Es | Es].
    + subst s. simplify_eq. rewrite Hl, occ_app, occ_cons in Hc. rewrite occ_app.
      repeat case_decide; intuition congruence || lia.
    + rewrite decide_False in Hc; [lia |]. intros [_ Hv]. apply Es. by eapply val_inj.
  - intros t p Hp. destruct (wf_owner _ H t p) as (s & e0 & He0 & Hv).
    { apply occ_elem. rewrite Hu. apply occ_elem in Hp. lia. }
    destruct (decide (sid = s)) as [-> |].
    + eexists s, _. rewrite lookup_alter_eq, He0. split; [reflexivity | done].
    + exists s, e0. by rewrite lookup_alter_ne.
Qed.

(** *** What the maps say *)

Lemma deref_val (m : SessionTaskMap) (sid : Z) (e : ValEntry) :
  stm_wf m -> mSessions m !! sid = Some e -> sve_sessionId (deref m (val e)) = sid.
Proof. intros H He. destruct (wf_val _ H _ _ He) as (v & Hv & Hid). unfold deref. by rewrite Hv. Qed.

(** The cross-reference: a task lists a session as often as the session lists
    the task. *)
Lemma getSessionIds_occ (m : SessionTaskMap) (tid sid : Z) :
  stm_wf m -> occ sid (stm_getSessionIds m tid) = occ tid (stm_getTaskIds m sid).
Proof.
  intros H.
  assert (forall ps, (forall p, p ∈ ps -> p ∈ at_task (mTasks m) tid) ->
    occ sid ((fun p => sve_sessionId (deref m p)) <$> ps) =
    match mSessions m !! sid with Some e => occ (val e) ps | None => 0%nat end) as Hmap.
  { induction ps as [| p ps IH]; intros Hin; [by destruct (mSessions m !! sid) |].
    rewrite fmap_cons, occ_cons, IH by (intros q Hq; apply Hin; by constructor). clear IH.
    destruct (wf_owner _ H tid p) as (s & e & He & Hv); [apply Hin; by constructor |].
    subst p. rewrite (deref_val _ _ _ H He).
    destruct (mSessions m !! sid) as [e' |] eqn:E'.
    - rewrite occ_cons. repeat case_decide; try lia.
      + subst. congruence.
      + exfalso. match goal with Hx : s <> sid |- _ => apply Hx end. by eapply val_inj.
    - rewrite decide_False by congruence. lia. }
  unfold stm_getSessionIds, stm_getTaskIds.
  destruct (mTasks m !! tid) as [ps |] eqn:Et.
  - rewrite Hmap by (intros p Hp; unfold at_task; by rewrite Et).
    destruct (mSessions m !! sid) as [e |] eqn:E; [| done].
    rewrite <- (wf_count _ H _ _ _ E). unfold at_task. by rewrite Et.
  - destruct (mSessions m !! sid) as [e |] eqn:E; [| done].
    rewrite <- (wf_count _ H _ _ _ E). unfold at_task. by rewrite Et.
Qed.

Lemma mTasks_None (m : SessionTaskMap) (tid : Z) :
  stm_wf m -> mTasks m !! tid = None <-> forall sid, tid ∉ stm_getTaskIds m sid.
Proof.
  intros H. split.
  - intros Hn sid. apply occ_not_elem. rewrite <- getSessionIds_occ by done.
    unfold stm_getSessionIds. by rewrite Hn.
  - intros Hall. destruct (mTasks m !! tid) as [[| p ps] |] eqn:E; [by destruct (wf_no_empty _ H tid) | | done].
    exfalso. destruct (wf_owner _ H tid p) as (s & e & He & Hv).
    { unfold at_task. rewrite E. by constructor. }
    apply (Hall s). apply occ_elem. unfold stm_getTaskIds. rewrite He, <- (wf_count _ H _ _ _ He).
    apply occ_elem. unfold at_task. rewrite E, Hv. by constructor.
Qed.

Lemma elem_of_unmapped (m : SessionTaskMap) (tids : list Z) (tid : Z) :
  stm_wf m -> tid ∈ unmapped_tasks m tids <-> tid ∈ tids /\ forall sid, tid ∉ stm_getTaskIds m sid.
Proof.
  intros H. unfold unmapped_tasks. rewrite list_elem_of_filter, mTasks_None by done. tauto.
Qed.

Lemma stm_add_lookup (sid s : Z) (sv : SessionValueEntry) (tids : list Z) (m : SessionTaskMap) :
  mSessions m !! sid = None ->
  mSessions (stm_add sid sv tids m).2 !! s =
    if decide (sid = s) then Some (mkValEntry (next_loc m) tids) else mSessions m !! s.
Proof. intros E. unfold stm_add. rewrite E. simpl. apply lookup_insert. Qed.

Lemma stm_replace_spec (sid : Z) (tids : list Z) (m : SessionTaskMap) (e : ValEntry) :
  stm_wf m -> mSessions m !! sid = Some e ->
  let m' := (stm_replace sid tids m).2 in
  mSessions m' = <[sid := mkValEntry (next_loc m) tids]> (mSessions m) /\
  heap m' = <[next_loc m := deref m (val e)]> (heap m).
Proof.
  intros H E m'. unfold m', stm_replace. rewrite E. simpl.
  assert (mSessions (stm_remove sid m).2 !! sid = None) as En by (rewrite stm_remove_lookup; by rewrite decide_True).
  destruct (stm_remove_heap sid m) as [Eh El].
  unfold stm_add. rewrite En. simpl. rewrite Eh, El. split.
  - unfold stm_remove. rewrite E. simpl. apply insert_delete_eq.
  - f_equal. rewrite <- (deref_val _ _ _ H E) at 1. by destruct (deref m (val e)).
Qed.

(** Pointers other than the new one read the same after a replacement. *)
Lemma replace_deref (sid : Z) (tids : list Z) (m : SessionTaskMap) (e : ValEntry) (s : Z) (e' : ValEntry) :
  stm_wf m -> mSessions m !! sid = Some e ->
  mSessions (stm_replace sid tids m).2 !! s = Some e' ->
  exists e0, mSessions m !! s = Some e0 /\
    deref (stm_replace sid tids m).2 (val e') = deref m (val e0).
Proof.
  intros H E. destruct (stm_replace_spec sid tids m e H E) as [-> Hh]. rewrite lookup_insert.
  unfold deref. rewrite Hh. case_decide as Es.
  - intros [= <-]. subst. exists e. split; [done |]. simpl. by rewrite lookup_insert_eq.
  - intros He'. exists e'. split; [done |]. rewrite lookup_insert_ne; [done |].
    symmetry. by eapply fresh_not_val.
Qed.

(** *** The range of a task *)

Lemma session_vote_range_spec (t : Z) (base offset : option Z) (r : UclampRange) (v : SessionValueEntry) :
  let r' := session_vote_range t base offset r v in
  uclampMin r <= uclampMin r' /\ uclampMax r' <= uclampMax r /\
  (isActive v = false -> r' = r) /\
  (isActive v = true -> forall c, c ∈ cpu_vote_list (votes v) -> isTimeInRange (cpu_range c) t = true ->
     uclampMin (mUclampRange c) <= uclampMin r' /\ uclampMax r' <= uclampMax (mUclampRange c)).
Proof.
  unfold session_vote_range.
  destruct (foldl_confine_narrowed t (cpu_vote_list (votes v)) r) as (A1 & A2 & A3 & _).
  fold (Votes_getUclampRange (votes v) r t) in A1, A2, A3.
  destruct (isActive v); simpl; [| by split_and!; try lia].
  destruct (isPowerEfficient v), base; simpl; split_and!; try lia; try done;
    intros _ c Hc Hr; destruct (A3 c Hc Hr); lia.
Qed.

Lemma fold_session_range (t : Z) (base offset : option Z) (l : list SessionValueEntry) (r : UclampRange) :
  let r' := foldl (session_vote_range t base offset) r l in
  uclampMin r <= uclampMin r' /\ uclampMax r' <= uclampMax r /\
  (forall v, v ∈ l -> isActive v = true -> forall c, c ∈ cpu_vote_list (votes v) -> isTimeInRange (cpu_range c) t = true ->
     uclampMin (mUclampRange c) <= uclampMin r' /\ uclampMax r' <= uclampMax (mUclampRange c)).
Proof.
  revert r. induction l as [| v l IH]; intros r; simpl.
  - split_and!; try lia. intros v Hv. by apply not_elem_of_nil in Hv.
  - destruct (session_vote_range_spec t base offset r v) as (A1 & A2 & _ & A4).
    destruct (IH (session_vote_range t base offset r v)) as (B1 & B2 & B3).
    split_and!; try lia. intros w Hw Ha c Hc Hr.
    apply elem_of_cons in Hw as [-> | Hw]; [destruct (A4 Ha c Hc Hr); lia | by apply (B3 w)].
Qed.

Lemma fold_session_range_filter (t : Z) (base offset : option Z) (l : list SessionValueEntry) (r : UclampRange) :
  foldl (session_vote_range t base offset) r l =
  foldl (session_vote_range t base offset) r (filter (fun v => isActive v = true) l).
Proof.
  revert r. induction l as [| v l IH]; intros r; simpl; [done |]. rewrite filter_cons.
  destruct (isActive v) eqn:E; simpl; [apply IH |].
  destruct (session_vote_range_spec t base offset r v) as (_ & _ & Hi & _). rewrite Hi by done. apply IH.
Qed.

Lemma fold_max_spec {A} (f : A -> Z) (l : list A) (a : Z) :
  let r := foldl (fun mx v => Z.max mx (f v)) a l in
  a <= r /\ (forall v, v ∈ l -> f v <= r) /\ (r = a \/ exists v, v ∈ l /\ r = f v).
Proof.
  revert a. induction l as [| x l IH]; intros a; simpl.
  - split_and!; [lia | intros v Hv; by apply not_elem_of_nil in Hv | by left].
  - destruct (IH (Z.max a (f x))) as (A1 & A2 & A3). split_and!; [lia | |].
    + intros v Hv. apply elem_of_cons in Hv as [-> | Hv]; [lia | by apply A2].
    + destruct A3 as [A3 | (v & Hv & Hr)]; [| right; exists v; split; [by constructor | done]].
      destruct (Z.max_spec a (f x)) as [[_ E] | [_ E]];
        [right; exists x; split; [by constructor | by rewrite A3] | left; by rewrite A3].
Qed.

Lemma elem_of_session_values (m : SessionTaskMap) (v : SessionValueEntry) :
  v ∈ session_values m <-> exists sid e, mSessions m !! sid = Some e /\ v = deref m (val e).
Proof.
  unfold session_values. rewrite list_elem_of_fmap. split.
  - intros (e & -> & He). apply list_elem_of_fmap in He as ([sid e'] & -> & He).
    apply elem_of_map_to_list in He. eauto.
  - intros (sid & e & He & ->). exists e. split; [done |]. apply list_elem_of_fmap.
    exists (sid, e). split; [done |]. by apply elem_of_map_to_list.
Qed.

(** ** Main results *)

(** C4. The operations of the session-task map keep it consistent: each
    session's pointer refers to a live value that carries the session's id, no
    task keeps an empty vector, every pointer in a task's vector belongs to a
    session, and a task holds a session's pointer as often as the session lists
    the task.  This holds for adding a session with well-formed votes, removing
    one, replacing its tasks and adding votes.  The removal of a dead task takes
    one occurrence out of the task's side only and so does not keep the map
    consistent by itself; it does together with what its caller does next,
    which is to take the task out of the session's list. *)
Theorem stm_operations_wf (m : SessionTaskMap) (H : stm_wf m) :
  (forall sid sv tids, votes_wf (votes sv) -> stm_wf (stm_add sid sv tids m).2) /\
  (forall sid, stm_wf (stm_remove sid m).2) /\
  (forall sid tids, stm_wf (stm_replace sid tids m).2) /\
  (forall sid vid mn mx st du, stm_wf (stm_addVote sid vid mn mx st du m)) /\
  (forall sid vid c st du, stm_wf (stm_addGpuVote sid vid c st du m)) /\
  (forall sid tid l1 l2, stm_getTaskIds m sid = l1 ++ tid :: l2 ->
     stm_wf (stm_set_linked sid (l1 ++ l2) (stm_removeDeadTaskSessionMap sid tid m).2)) /\
  stm_wf empty_SessionTaskMap.
Proof. split_and!; intros; eauto using drop_dead_wf with inv. Qed.

Lemma stm_operations_wf_witness :
  stm_wf (stm_add 7 empty_SessionValueEntry [100; 101; 100] empty_SessionTaskMap).2.
Proof. apply (stm_operations_wf empty_SessionTaskMap empty_stm_wf). exact empty_Votes_wf. Defined.

(** The two directions agree: the sessions that [getSessionIds] returns for
    a task are, with multiplicity, the sessions whose [getTaskIds] contains the
    task; in particular a task is unknown to the map exactly when no session
    lists it. *)
Theorem session_task_cross_reference (m : SessionTaskMap) (H : stm_wf m) (tid : Z) :
  (forall sid, occ sid (stm_getSessionIds m tid) = occ tid (stm_getTaskIds m sid)) /\
  (mTasks m !! tid = None <-> forall sid, tid ∉ stm_getTaskIds m sid).
Proof. split; [intros sid; by apply getSessionIds_occ | by apply mTasks_None]. Qed.

Lemma session_task_cross_reference_witness :
  let m := (stm_add 8 empty_SessionValueEntry [101]
             (stm_add 7 empty_SessionValueEntry [100; 101; 100] empty_SessionTaskMap).2).2 in
  stm_getSessionIds m 100 = [7; 7] /\ occ 7 (stm_getSessionIds m 101) = occ 101 (stm_getTaskIds m 7).
Proof.
  intros m. split; [vm_compute; reflexivity |].
  apply (proj1 (session_task_cross_reference m
    ltac:(repeat apply stm_add_wf; try exact empty_Votes_wf; exact empty_stm_wf) 101)).
Defined.

(** Replacing the tasks of a session keeps its value object and leaves the
    other sessions alone; the session then lists the new tasks, the reported
    added threads are the new tasks that no session listed before, and the
    reported removed threads are the session's former tasks that no session
    lists any more.  An unknown session changes nothing. *)
Theorem stm_replace_functional (m : SessionTaskMap) (H : stm_wf m) (sid : Z) (tids : list Z) :
  let '(res, m') := stm_replace sid tids m in
  match mSessions m !! sid with
  | None => res = mkReplaceResult false [] [] /\ m' = m
  | Some e =>
      replaced res = true /\
      stm_getTaskIds m' sid = tids /\
      (exists e', mSessions m' !! sid = Some e' /\ deref m' (val e') = deref m (val e)) /\
      (forall s e0, s <> sid -> mSessions m !! s = Some e0 ->
         mSessions m' !! s = Some e0 /\ deref m' (val e0) = deref m (val e0)) /\
      (forall tid, tid ∈ addedThreads res <-> tid ∈ tids /\ forall s, tid ∉ stm_getTaskIds m s) /\
      (forall tid, tid ∈ removedThreads res <-> tid ∈ linkedTasks e /\ forall s, tid ∉ stm_getTaskIds m' s)
  end.
Proof.
  pose proof (stm_replace_wf sid tids m H) as Hwf.
  destruct (stm_replace sid tids m) as [res m'] eqn:Er. simpl in Hwf.
  destruct (mSessions m !! sid) as [e |] eqn:E.
  2:{ unfold stm_replace in Er. rewrite E in Er. by simplify_eq. }
  destruct (stm_replace_spec sid tids m e H E) as [HS HH]. rewrite Er in HS, HH. simpl in HS, HH.
  assert (replaced res = true /\ addedThreads res = unmapped_tasks m tids /\
          removedThreads res = unmapped_tasks m' (linkedTasks e)) as (R1 & R2 & R3).
  { unfold stm_replace in Er. rewrite E in Er. by simplify_eq/=. }
  split_and!; [done | | | | |].
  - unfold stm_getTaskIds. by rewrite HS, lookup_insert_eq.
  - eexists. rewrite HS, lookup_insert_eq. split; [reflexivity |].
    unfold deref at 1. simpl. by rewrite HH, lookup_insert_eq.
  - intros s e0 Hs He0. rewrite HS, lookup_insert_ne by congruence. split; [done |].
    unfold deref. rewrite HH, lookup_insert_ne; [done |]. symmetry. by eapply fresh_not_val.
  - intros tid. rewrite R2. by apply elem_of_unmapped.
  - intros tid. rewrite R3. by apply elem_of_unmapped.
Qed.

Lemma stm_replace_functional_witness :
  let m := (stm_add 8 empty_SessionValueEntry [101]
             (stm_add 7 empty_SessionValueEntry [100; 101] empty_SessionTaskMap).2).2 in
  (stm_replace 7 [102; 101] m).1 = mkReplaceResult true [102] [100] /\
  stm_getTaskIds (stm_replace 7 [102; 101] m).2 7 = [102; 101].
Proof.
  intros m. split; [vm_compute; reflexivity |].
  pose proof (stm_replace_functional m
    ltac:(repeat apply stm_add_wf; try exact empty_Votes_wf; exact empty_stm_wf) 7 [102; 101]) as Hr.
  assert (mSessions m !! 7 = Some (mkValEntry 1%positive [100; 101])) as Em by (vm_compute; reflexivity).
  rewrite Em in Hr. destruct (stm_replace 7 [102; 101] m) as [res m'].
  exact (proj1 (proj2 Hr)).
Defined.

(** Removing a session leaves no trace of it and nothing else changes: it
    has no entry, no task refers to it, and every other session keeps its entry
    and its tasks; the result says whether the session existed. *)
Theorem stm_remove_functional (m : SessionTaskMap) (H : stm_wf m) (sid : Z) :
  let '(b, m') := stm_remove sid m in
  b = bool_decide (is_Some (mSessions m !! sid)) /\
  stm_findSession m' sid = None /\
  (forall tid, sid ∉ stm_getSessionIds m' tid) /\
  (forall s, s <> sid -> mSessions m' !! s = mSessions m !! s) /\
  (forall s tid, s <> sid -> occ s (stm_getSessionIds m' tid) = occ s (stm_getSessionIds m tid)) /\
  (forall p, deref m' p = deref m p).
Proof.
  pose proof (stm_remove_wf sid m H) as Hwf. pose proof (stm_remove_lookup sid) as Hl.
  pose proof (stm_remove_heap sid m) as [Hh _].
  assert ((stm_remove sid m).1 = bool_decide (is_Some (mSessions m !! sid))) as Hb
    by (unfold stm_remove; by destruct (mSessions m !! sid)).
  destruct (stm_remove sid m) as [b m'] eqn:Er. simpl in *.
  assert (forall s, mSessions m' !! s = if decide (sid = s) then None else mSessions m !! s) as Hl'.
  { intros s. specialize (Hl s m). by rewrite Er in Hl. }
  assert (forall s, s <> sid -> mSessions m' !! s = mSessions m !! s) as Hs.
  { intros s Hne. by rewrite Hl', decide_False by congruence. }
  split_and!; [done | | | done | |].
  - unfold stm_findSession. by rewrite Hl', decide_True.
  - intros tid. apply occ_not_elem. rewrite getSessionIds_occ by done.
    unfold stm_getTaskIds. by rewrite Hl', decide_True.
  - intros s tid Hne. rewrite !getSessionIds_occ by done. unfold stm_getTaskIds. by rewrite Hs.
  - intros p. unfold deref. by rewrite Hh.
Qed.

Lemma stm_remove_functional_witness :
  let m := (stm_add 7 empty_SessionValueEntry [100; 101] empty_SessionTaskMap).2 in
  stm_findSession (stm_remove 7 m).2 7 = None.
Proof.
  intros m.
  pose proof (stm_remove_functional m
    ltac:(apply stm_add_wf; [exact empty_Votes_wf | exact empty_stm_wf]) 7) as Hr.
  destruct (stm_remove 7 m) as [b m']. exact (proj1 (proj2 Hr)).
Defined.

(** The uclamp range of a task honours every session that is linked to it:
    the range only narrows the one it starts from, every vote in range of every
    active linked session is respected, inactive sessions have no influence,
    and a task that no session lists gets the default range. *)
Theorem getTaskVoteRange_respects (m : SessionTaskMap) (tid t : Z) (r : UclampRange) (base offset : option Z) :
  let r' := stm_getTaskVoteRange m tid t r base offset in
  match mTasks m !! tid with
  | None => r' = default_UclampRange
  | Some ps =>
      uclampMin r <= uclampMin r' /\ uclampMax r' <= uclampMax r /\
      (forall p c, p ∈ ps -> isActive (deref m p) = true -> c ∈ cpu_vote_list (votes (deref m p)) ->
         isTimeInRange (cpu_range c) t = true ->
         uclampMin (mUclampRange c) <= uclampMin r' /\ uclampMax r' <= uclampMax (mUclampRange c)) /\
      r' = foldl (session_vote_range t base offset) r (filter (fun v => isActive v = true) (deref m <$> ps))
  end.
Proof.
  unfold stm_getTaskVoteRange. destruct (mTasks m !! tid) as [ps |] eqn:E; [| done].
  destruct (fold_session_range t base offset (deref m <$> ps) r) as (A1 & A2 & A3).
  split_and!; [done | done | | apply fold_session_range_filter].
  intros p c Hp Ha Hc Hr. apply (A3 (deref m p)); try done. apply list_elem_of_fmap. eauto.
Qed.

(** The GPU capacity applied for all sessions is the largest request of any
    session, and zero when there is none or all are negative. *)
Theorem getSessionsGpuCapacity_max (m : SessionTaskMap) (t : Z) :
  let c := stm_getSessionsGpuCapacity m t in
  let request e := default 0 (Votes_getGpuCapacityRequest (votes (deref m (val e))) t) in
  0 <= c /\ (forall sid e, mSessions m !! sid = Some e -> request e <= c) /\
  (c = 0 \/ exists sid e, mSessions m !! sid = Some e /\ c = request e).
Proof.
  unfold stm_getSessionsGpuCapacity.
  destruct (fold_max_spec (fun v => default 0 (Votes_getGpuCapacityRequest (votes v) t)) (session_values m) 0)
    as (A1 & A2 & A3).
  split_and!; [done | |].
  - intros sid e He. apply A2. apply elem_of_session_values. eauto.
  - destruct A3 as [A3 | (v & Hv & A3)]; [by left | right].
    apply elem_of_session_values in Hv as (sid & e & He & ->). eauto.
Qed.
