(* ===== verification/BackgroundWorker.v ===== *)
(** * Deferred work ordered by deadline
      (src/power-libperfmgr/aidl/BackgroundWorker.h, BackgroundWorker.cpp)

    A pool of threads takes packages from a priority queue, the earliest
    deadline first, and hands each to the callback registered for its worker
    id.  A [TemplatePriorityQueueWorker] keeps the payload of its packages in a
    map keyed by a counter; the pool only sees the key.

    The operations are modelled at the granularity of their critical sections.
    Shown here: when the calls to [schedule] do not overlap, every payload is
    delivered exactly once, never before its deadline, and the earliest
    deadline first; and when two calls overlap, a payload can be lost, because
    [schedule] reads the counter again after it has released the lock. *)

From S2P Require Import Prelude.

(** ** PriorityQueueWorkerPool *)

Record Package := mkPackage { deadline : Z; templateQueueWorkerId : Z; packageId : Z }.

#[export] Instance Package_eq_dec : EqDecision Package.
Proof. solve_decision. Defined.

(** [operator<] of [Package]: the greatest element is the earliest. *)
Definition Package_lt (p q : Package) : bool := deadline q <? deadline p.

(** The queue is kept as a list whose head is the top of the heap; among equal
    deadlines it is first in, first out ([std::priority_queue] does not specify
    an order among equals). *)
Record PriorityQueueWorkerPool := mkPool {
  mRunning : bool;
  mPackageQueue : list Package;
  mCallbackMap : gset Z
}.

#[export] Instance eta_Pool : Record_eta PriorityQueueWorkerPool := fun r =>
  mkPool (mRunning r) (mPackageQueue r) (mCallbackMap r).

Definition new_Pool : PriorityQueueWorkerPool := mkPool true [] ∅.

(** The destructor's critical section; the threads leave their loop after it. *)
Definition pool_stop (p : PriorityQueueWorkerPool) : PriorityQueueWorkerPool := p <| mRunning := false |>.

(** Registering a callable; the map keeps an existing entry. *)
Definition pool_addCallback (id : Z) (p : PriorityQueueWorkerPool) : PriorityQueueWorkerPool :=
  if decide (id ∈ mCallbackMap p) then p else p <| mCallbackMap ::= union {[id]} |>.

Definition pool_removeCallback (id : Z) (p : PriorityQueueWorkerPool) : PriorityQueueWorkerPool :=
  if decide (id ∈ mCallbackMap p) then p <| mCallbackMap ::= fun s => s ∖ {[id]} |> else p.

(** [mPackageQueue.emplace] *)
Fixpoint pq_insert (x : Package) (q : list Package) : list Package :=
  match q with
  | [] => [x]
  | y :: q' => if Package_lt y x then x :: q else y :: pq_insert x q'
  end.

Definition pool_schedule (workerId pkgId dl : Z) (p : PriorityQueueWorkerPool) : PriorityQueueWorkerPool :=
  p <| mPackageQueue ::= pq_insert (mkPackage dl workerId pkgId) |>.

(** The predicate that [loop] waits for. *)
Definition pool_wait_done (p : PriorityQueueWorkerPool) (now : Z) : bool :=
  if negb (mRunning p) then true
  else match mPackageQueue p with
       | [] => false
       | top :: _ => negb (now <? deadline top)
       end.

Inductive LoopResult := Loop_exit | Loop_continue | Loop_call (workerId pkgId : Z).

(** One iteration of [loop] from the moment the wait ends, up to the call. *)
Definition pool_loop_body (p : PriorityQueueWorkerPool) : LoopResult * PriorityQueueWorkerPool :=
  if negb (mRunning p) then (Loop_exit, p)
  else match mPackageQueue p with
       | [] => (Loop_continue, p)
       | package :: rest =>
           let p' := p <| mPackageQueue := rest |> in
           if decide (templateQueueWorkerId package ∈ mCallbackMap p)
           then (Loop_call (templateQueueWorkerId package) (packageId package), p')
           else (Loop_continue, p')
       end.

(** ** TemplatePriorityQueueWorker *)

Section worker.
Context {PACKAGE : Type}.

Record Worker := mkWorker {
  mCallbackId : Z;
  mPackageIdCounter : Z;
  mPackages : gmap Z PACKAGE;
  mWorker : PriorityQueueWorkerPool
}.

#[global] Instance eta_Worker : Record_eta Worker := fun r =>
  mkWorker (mCallbackId r) (mPackageIdCounter r) (mPackages r) (mWorker r).

(** The constructor registers the callback with the pool. *)
Definition new_Worker (id : Z) (pool : PriorityQueueWorkerPool) : Worker :=
  mkWorker id 0 ∅ (pool_addCallback id pool).

Definition delete_Worker (w : Worker) : PriorityQueueWorkerPool :=
  pool_removeCallback (mCallbackId w) (mWorker w).

(** [schedule], first the locked part, then the call into the pool, which
    reads the counter without the lock.  [unordered_map::emplace] does not
    replace an existing entry. *)
Definition schedule_locked (package : PACKAGE) (w : Worker) : Worker :=
  let c := mPackageIdCounter w +₆₄ 1 in
  w <| mPackageIdCounter := c |>
    <| mPackages ::= fun m => match m !! c with Some _ => m | None => <[c := package]> m end |>.

Definition schedule_push (t : Z) (w : Worker) : Worker :=
  w <| mWorker ::= pool_schedule (mCallbackId w) (mPackageIdCounter w) t |>.

Definition worker_schedule (package : PACKAGE) (t : Z) (w : Worker) : Worker :=
  schedule_push t (schedule_locked package w).

(** [process], up to the call of the callback with the payload. *)
Definition worker_process (pkgId : Z) (w : Worker) : option PACKAGE * Worker :=
  match mPackages w !! pkgId with
  | None => (None, w)
  | Some package => (Some package, w <| mPackages ::= delete pkgId |>)
  end.

(** What a pool thread does at time [now]: nothing while the wait goes on,
    otherwise one iteration of its loop with the callback of this worker. *)
Definition worker_fire (now : Z) (w : Worker) : option PACKAGE * Worker :=
  if pool_wait_done (mWorker w) now then
    let '(r, p) := pool_loop_body (mWorker w) in
    let w := w <| mWorker := p |> in
    match r with
    | Loop_call wid pid => if wid =? mCallbackId w then worker_process pid w else (None, w)
    | _ => (None, w)
    end
  else (None, w).

(** ** Runs in which the calls do not overlap *)

Inductive WorkerOp := Op_schedule (package : PACKAGE) (t : Z) | Op_fire (now : Z).

Definition worker_op (w : Worker) (o : WorkerOp) : option PACKAGE * Worker :=
  match o with
  | Op_schedule package t => (None, worker_schedule package t w)
  | Op_fire now => worker_fire now w
  end.

Fixpoint worker_run (ops : list WorkerOp) (w : Worker) : list PACKAGE * Worker :=
  match ops with
  | [] => ([], w)
  | o :: ops =>
      let '(d, w) := worker_op w o in
      let '(ds, w) := worker_run ops w in
      (option_list d ++ ds, w)
  end.

Definition op_payload (o : WorkerOp) : list PACKAGE :=
  match o with Op_schedule package _ => [package] | Op_fire _ => [] end.

(** ** Overlapping calls: steps of the critical sections *)

(** A state with the deadlines of the calls of [schedule] that are between
    their two halves, and the payloads delivered so far. *)
Record Shared := mkShared { sh_worker : Worker; sh_inflight : list Z; sh_delivered : list PACKAGE }.

Inductive shared_step : Shared -> Shared -> Prop :=
| step_enter s package t :
    shared_step s (mkShared (schedule_locked package (sh_worker s)) (t :: sh_inflight s) (sh_delivered s))
| step_push w t l1 l2 d :
    shared_step (mkShared w (l1 ++ t :: l2) d) (mkShared (schedule_push t w) (l1 ++ l2) d)
| step_fire s now :
    shared_step s (mkShared (worker_fire now (sh_worker s)).2 (sh_inflight s)
                     (sh_delivered s ++ option_list (worker_fire now (sh_worker s)).1)).

End worker.
Arguments Worker : clear implicits.
Arguments WorkerOp : clear implicits.
Arguments Shared : clear implicits.

(** ** The queue *)

Lemma pq_insert_perm (x : Package) (q : list Package) : pq_insert x q ≡ₚ x :: q.
Proof.
  induction q as [| y q IH]; simpl; [done |]. destruct (Package_lt y x); [done |].
  rewrite IH. apply perm_swap.
Qed.

Definition pq_sorted (q : list Package) : Prop := StronglySorted (fun a b => deadline a <= deadline b) q.

Lemma pq_insert_sorted (x : Package) (q : list Package) : pq_sorted q -> pq_sorted (pq_insert x q).
Proof.
  induction 1 as [| y q Hq IH Hall]; simpl; [repeat constructor |].
  unfold Package_lt. destruct (Z.ltb_spec (deadline x) (deadline y)) as [Hlt | Hle].
  - constructor; [by constructor |]. constructor; [lia |].
    eapply Forall_impl; [exact Hall |]. intros z Hz. simpl in Hz. lia.
  - constructor; [done |]. rewrite pq_insert_perm. by constructor.
Qed.

(** ** Sequential runs deliver everything once *)

Section sequential.
Context {PACKAGE : Type}.
Implicit Types (w : Worker PACKAGE).

(** The keys queued in the pool are exactly the keys with a payload. *)
Record worker_inv w : Prop := {
  wi_running : mRunning (mWorker w) = true;
  wi_callback : mCallbackId w ∈ mCallbackMap (mWorker w);
  wi_sorted : pq_sorted (mPackageQueue (mWorker w));
  wi_ids : (map_to_list (mPackages w)).*1 ≡ₚ packageId <$> mPackageQueue (mWorker w);
  wi_worker : Forall (fun p => templateQueueWorkerId p = mCallbackId w) (mPackageQueue (mWorker w));
  wi_counter : 0 <= mPackageIdCounter w;
  wi_bound : Forall (fun p => packageId p <= mPackageIdCounter w) (mPackageQueue (mWorker w))
}.

Definition pending w : list PACKAGE := (map_to_list (mPackages w)).*2.

Lemma new_Worker_inv (id : Z) : worker_inv (new_Worker id new_Pool : Worker PACKAGE).
Proof.
  unfold new_Worker.
  assert (pool_addCallback id new_Pool = mkPool true [] ({[id]} ∪ ∅)) as ->.
  { unfold pool_addCallback. destruct (decide _) as [Hin |]; [| done]. simpl in Hin. set_solver. }
  split; simpl; try done; [set_solver | constructor].
Qed.

Lemma key_queued w (k : Z) : worker_inv w -> is_Some (mPackages w !! k) <-> k ∈ packageId <$> mPackageQueue (mWorker w).
Proof.
  intros H. rewrite <- (wi_ids _ H), list_elem_of_fmap. split.
  - intros [x Hx]. exists (k, x). by rewrite elem_of_map_to_list.
  - intros ([k' x] & -> & Hx). apply elem_of_map_to_list in Hx. eauto.
Qed.

Lemma counter_fresh w : worker_inv w -> mPackages w !! (mPackageIdCounter w + 1) = None.
Proof.
  intros H. apply eq_None_not_Some. rewrite key_queued by done.
  intros (p & Hp & Hin)%list_elem_of_fmap. pose proof (wi_bound _ H) as Hb.
  rewrite Forall_forall in Hb. specialize (Hb _ Hin). lia.
Qed.

Lemma schedule_inv w (x : PACKAGE) (t : Z) :
  worker_inv w -> mPackageIdCounter w + 1 < 2 ^ 63 ->
  worker_inv (worker_schedule x t w) /\ pending (worker_schedule x t w) ≡ₚ x :: pending w /\
  mPackageIdCounter (worker_schedule x t w) = mPackageIdCounter w + 1.
Proof.
  intros H Hc. pose proof (wi_counter _ H). pose proof (counter_fresh w H) as Hf.
  unfold worker_schedule, schedule_push, schedule_locked. simpl.
  rewrite i64_id by (unfold is_i64; lia). rewrite Hf.
  assert (map_to_list (<[mPackageIdCounter w + 1 := x]> (mPackages w)) ≡ₚ
    (mPackageIdCounter w + 1, x) :: map_to_list (mPackages w)) as Hl by by apply map_to_list_insert.
  split_and!; [| unfold pending; simpl; by rewrite Hl | done].
  split; simpl; try apply (wi_running _ H); try apply (wi_callback _ H); try lia.
  - apply pq_insert_sorted, H.
  - rewrite Hl, pq_insert_perm. simpl. by rewrite (wi_ids _ H).
  - rewrite pq_insert_perm. constructor; [done | apply (wi_worker _ H)].
  - rewrite pq_insert_perm. constructor; [simpl; lia |].
    eapply Forall_impl; [apply (wi_bound _ H) |]. intros p Hp. simpl in Hp. lia.
Qed.

Lemma fire_inv w (now : Z) :
  worker_inv w ->
  worker_inv (worker_fire now w).2 /\
  pending w ≡ₚ option_list (worker_fire now w).1 ++ pending (worker_fire now w).2 /\
  mPackageIdCounter (worker_fire now w).2 = mPackageIdCounter w /\
  match mPackageQueue (mWorker w) with
  | top :: rest => if deadline top <=? now then is_Some (worker_fire now w).1 else worker_fire now w = (None, w)
  | [] => worker_fire now w = (None, w)
  end.
Proof.
  intros H. unfold worker_fire, pool_wait_done, pool_loop_body. rewrite (wi_running _ H). simpl.
  destruct (mPackageQueue (mWorker w)) as [| top rest] eqn:Eq; [by split_and! |].
  destruct (Z.leb_spec (deadline top) now) as [Hle | Hgt];
    destruct (Z.ltb_spec now (deadline top)); try lia; [| by split_and!]. simpl.
  pose proof (wi_worker _ H) as Hw. rewrite Eq in Hw. apply Forall_cons in Hw as [Ht Hw].
  rewrite Ht, decide_True by apply H. simpl. rewrite Z.eqb_refl. unfold worker_process. simpl.
  destruct (key_queued w (packageId top) H) as [_ Hk].
  destruct Hk as [x Hx]; [rewrite Eq; by constructor |]. rewrite Hx. simpl.
  assert (map_to_list (mPackages w) ≡ₚ (packageId top, x) :: map_to_list (delete (packageId top) (mPackages w))) as Hl.
  { rewrite <- map_to_list_insert by apply lookup_delete_eq. by rewrite insert_delete_id. }
  pose proof (wi_sorted _ H) as Hs. rewrite Eq in Hs. inversion Hs as [| ? ? Hs' _]; subst.
  pose proof (wi_ids _ H) as Hi. rewrite Eq, Hl in Hi. simpl in Hi. apply (inj (cons _)) in Hi.
  pose proof (wi_bound _ H) as Hb. rewrite Eq in Hb. apply Forall_cons in Hb as [_ Hb].
  split_and!; [| unfold pending; simpl; by rewrite Hl | done | eauto].
  split; simpl; try apply H; done.
Qed.

(** The payload that fires leaves the map. *)
Lemma fire_packages w (now : Z) (x : PACKAGE) :
  worker_inv w -> (worker_fire now w).1 = Some x ->
  forall top rest, mPackageQueue (mWorker w) = top :: rest ->
  mPackages (worker_fire now w).2 = delete (packageId top) (mPackages w).
Proof.
  intros H Hf top rest Hq. revert Hf. unfold worker_fire, pool_wait_done, pool_loop_body. rewrite (wi_running _ H). simpl. rewrite Hq.
  destruct (Z.ltb_spec now (deadline top)); [done |]. simpl. destruct (decide _); simpl; [| done].
  destruct (_ =? _); [| done]. unfold worker_process. simpl. by destruct (mPackages w !! packageId top).
Qed.

(** What fires is the head, and everything left is not earlier. *)
Lemma fire_earliest w (now : Z) (x : PACKAGE) :
  worker_inv w -> (worker_fire now w).1 = Some x ->
  exists top rest, mPackageQueue (mWorker w) = top :: rest /\
    mPackageQueue (mWorker (worker_fire now w).2) = rest /\
    deadline top <= now /\ mPackages w !! packageId top = Some x /\
    Forall (fun p => deadline top <= deadline p) rest.
Proof.
  intros H. unfold worker_fire, pool_wait_done, pool_loop_body. rewrite (wi_running _ H). simpl.
  pose proof (wi_sorted _ H) as Hs. pose proof (wi_worker _ H) as Hw.
  destruct (mPackageQueue (mWorker w)) as [| top rest]; [done |].
  inversion Hs as [| ? ? _ Hall]; subst. apply Forall_cons in Hw as [Ht _].
  destruct (Z.ltb_spec now (deadline top)); [done |]. simpl.
  rewrite Ht, decide_True by apply H. simpl. rewrite Z.eqb_refl. unfold worker_process. simpl.
  destruct (mPackages w !! packageId top) as [y |] eqn:E; [| done]. simpl. intros [= ->].
  exists top, rest. by split_and!.
Qed.

(** A due package is delivered once those queued before it are, which are due
    as well. *)
Lemma fire_until w (now : Z) (l1 l2 : list Package) (p : Package) (x : PACKAGE) :
  worker_inv w -> mPackageQueue (mWorker w) = l1 ++ p :: l2 -> mPackages w !! packageId p = Some x -> deadline p <= now ->
  last (worker_run (replicate (S (length l1)) (Op_fire now)) w).1 = Some x.
Proof.
  revert w. induction l1 as [| q l1 IH]; intros w H Hq Hx Hd; cbn [replicate length worker_run worker_op].
  - destruct (fire_inv w now H) as (_ & _ & _ & Hf). rewrite Hq in Hf. cbn [app] in Hf.
    destruct (Z.leb_spec (deadline p) now); [| lia]. destruct Hf as [y Hy].
    destruct (fire_earliest w now y H Hy) as (top & rest & A & _ & _ & B & _). rewrite Hq in A. cbn [app] in A. simplify_eq.
    destruct (worker_fire now w) as [d w']. cbn [fst] in Hy. by subst d.
  - destruct (fire_inv w now H) as (H' & _ & _ & Hf). rewrite Hq in Hf. cbn [app] in Hf.
    pose proof (wi_sorted _ H) as Hs. rewrite Hq in Hs. inversion Hs as [| ? ? _ Hall]; subst.
    rewrite Forall_app, Forall_cons in Hall. destruct Hall as (_ & Hqp & _). cbn beta in Hqp.
    destruct (Z.leb_spec (deadline q) now); [| lia]. destruct Hf as [y Hy].
    destruct (fire_earliest w now y H Hy) as (top & rest & A & B & _ & C & _). rewrite Hq in A. cbn [app] in A. injection A as <- <-.
    assert (mPackages (worker_fire now w).2 !! packageId p = Some x) as Hx'.
    { rewrite (fire_packages w now y H Hy q _ Hq). rewrite lookup_delete_ne; [done |]. intros E.
      pose proof (wi_ids _ H) as Hi. rewrite Hq in Hi. pose proof (NoDup_fst_map_to_list (mPackages w)) as Hn. rewrite Hi in Hn.
      cbn in Hn. rewrite E in Hn. apply NoDup_cons in Hn as [Hn _]. apply Hn. rewrite fmap_app. apply elem_of_app. right. constructor. }
    specialize (IH (worker_fire now w).2 H' B Hx' Hd). cbn [replicate worker_run worker_op] in IH.
    destruct (worker_fire now w) as [d w']. cbn [fst snd] in *. subst d.
    destruct (worker_fire now w') as [d2 w2]. destruct (worker_run (replicate (length l1) (Op_fire now)) w2) as [ds w3]. cbn [fst] in *.
    change (last (y :: (option_list d2 ++ ds)) = Some x). destruct (option_list d2 ++ ds); [done | exact IH].
Qed.

Lemma run_inv (ops : list (WorkerOp PACKAGE)) w :
  worker_inv w -> mPackageIdCounter w + Z.of_nat (length ops) < 2 ^ 63 ->
  worker_inv (worker_run ops w).2 /\
  pending w ++ concat (op_payload <$> ops) ≡ₚ (worker_run ops w).1 ++ pending (worker_run ops w).2.
Proof.
  revert w. induction ops as [| o ops IH]; intros w H Hc; simpl.
  - split; [done |]. by rewrite app_nil_r.
  - destruct o as [x t | now]; simpl.
    + destruct (schedule_inv w x t H) as (A1 & A2 & A3); [simpl in Hc; lia |].
      destruct (IH _ A1) as [B1 B2]; [rewrite A3; simpl in Hc; lia |].
      destruct (worker_run ops (worker_schedule x t w)) as [ds w']. simpl in *.
      split; [done |]. rewrite <- B2, A2. simpl. by rewrite Permutation_middle.
    + destruct (fire_inv w now H) as (A1 & A2 & A3 & _).
      destruct (worker_fire now w) as [d w1]. simpl in *.
      destruct (IH _ A1) as [B1 B2]; [rewrite A3; lia |].
      destruct (worker_run ops w1) as [ds w']. simpl in *. split; [done |].
      by rewrite A2, <- !app_assoc, <- B2.
Qed.

End sequential.

#[export] Hint Resolve new_Worker_inv : inv.

(** ** Main results *)

(** C38. When the calls do not overlap, no payload is lost or duplicated: after
    any sequence of [schedule] calls and of turns of the pool thread, the
    payloads scheduled are, as a multiset, those delivered together with those
    still pending, each of them with its key in the queue.  What a turn delivers
    was due.  And a queued payload whose deadline has passed is delivered by the
    turn that follows those for the packages queued before it, all of which are
    due as well. *)
Theorem worker_exactly_once {PACKAGE : Type} (id : Z) (ops : list (WorkerOp PACKAGE))
    (Hlen : Z.of_nat (length ops) < 2 ^ 63) :
  let '(delivered, w) := worker_run ops (new_Worker id new_Pool) in
  concat (op_payload <$> ops) ≡ₚ delivered ++ pending w /\
  (map_to_list (mPackages w)).*1 ≡ₚ packageId <$> mPackageQueue (mWorker w) /\
  (forall now x, (worker_fire now w).1 = Some x ->
     exists p, p ∈ mPackageQueue (mWorker w) /\ mPackages w !! packageId p = Some x /\ deadline p <= now) /\
  (forall now l1 p l2 x, mPackageQueue (mWorker w) = l1 ++ p :: l2 -> mPackages w !! packageId p = Some x -> deadline p <= now ->
     last (worker_run (replicate (S (length l1)) (Op_fire now)) w).1 = Some x).
Proof.
  pose proof (run_inv ops (new_Worker id new_Pool) (new_Worker_inv id)) as [H1 H2]; [simpl; lia |].
  destruct (worker_run ops (new_Worker id new_Pool)) as [ds w]. simpl in *.
  split_and!; [done | apply H1 | |].
  - intros now x Hf. destruct (fire_earliest w now x H1 Hf) as (top & rest & A & _ & B & C & _).
    exists top. rewrite A. split_and!; [constructor | done | done].
  - intros now l1 p l2 x. by apply fire_until.
Qed.

Lemma worker_exactly_once_witness :
  worker_run [Op_schedule 11 30; Op_schedule 12 20; Op_fire 10; Op_fire 25; Op_fire 40]
    (new_Worker 1 new_Pool) = ([12; 11], (worker_run [Op_schedule 11 30; Op_schedule 12 20; Op_fire 10; Op_fire 25; Op_fire 40]
    (new_Worker 1 new_Pool)).2) /\
  [11; 12] ≡ₚ [12; 11] ++ pending (worker_run [Op_schedule 11 30; Op_schedule 12 20; Op_fire 10; Op_fire 25; Op_fire 40]
    (new_Worker 1 new_Pool)).2.
Proof.
  split; [vm_compute; reflexivity |].
  pose proof (worker_exactly_once 1 [Op_schedule 11 30; Op_schedule 12 20; Op_fire 10; Op_fire 25; Op_fire 40]
    ltac:(simpl; lia)) as H.
  destruct (worker_run [Op_schedule 11 30; Op_schedule 12 20; Op_fire 10; Op_fire 25; Op_fire 40] (new_Worker 1 new_Pool))
    as [ds w] eqn:E.
  assert (ds = [12; 11]) as -> by (apply (f_equal fst) in E; vm_compute in E; symmetry; exact E).
  exact (proj1 H).
Defined.

(** A payload is delivered only at or after its deadline, and the earliest
    one first: what the thread delivers at time [now] was scheduled for a time
    not after [now], and nothing left in the queue has an earlier deadline. *)
Theorem worker_earliest_first {PACKAGE : Type} (id : Z) (ops : list (WorkerOp PACKAGE)) (now : Z) (x : PACKAGE)
    (Hlen : Z.of_nat (length ops) < 2 ^ 63) :
  let w := (worker_run ops (new_Worker id new_Pool)).2 in
  (worker_fire now w).1 = Some x ->
  exists top rest, mPackageQueue (mWorker w) = top :: rest /\
    mPackageQueue (mWorker (worker_fire now w).2) = rest /\
    mPackages w !! packageId top = Some x /\ deadline top <= now /\
    Forall (fun p => deadline top <= deadline p) rest.
Proof.
  intros w Hf. pose proof (run_inv ops (new_Worker id new_Pool) (new_Worker_inv id)) as [H1 _]; [simpl; lia |].
  destruct (fire_earliest w now x H1 Hf) as (top & rest & A & B & C & D & E). exists top, rest. by split_and!.
Qed.

Lemma worker_earliest_first_witness :
  exists top rest,
    mPackageQueue (mWorker (worker_run [Op_schedule 11 30; Op_schedule 12 20] (new_Worker 1 new_Pool)).2) = top :: rest /\
    deadline top <= 25 /\ Forall (fun p => deadline top <= deadline p) rest.
Proof.
  destruct (worker_earliest_first 1 [Op_schedule 11 30; Op_schedule 12 20] 25 12) as (top & rest & A & _ & _ & B & C).
  - simpl; lia.
  - vm_compute; reflexivity.
  - exists top, rest. split; [exact A | split; [exact B | exact C]].
Defined.

(** Two overlapping calls of [schedule] can lose a payload: both enter
    before either reaches the pool, so both push the second key.  There is an
    interleaving after which no call is in progress, the queue is empty, the
    second payload has been delivered, and the first one is still in the map
    with no queue entry left that could ever deliver it. *)
Theorem schedule_race_loses_package :
  exists s : Shared Z,
    rtc shared_step (mkShared (new_Worker 1 new_Pool) [] []) s /\
    sh_inflight s = [] /\ mPackageQueue (mWorker (sh_worker s)) = [] /\
    sh_delivered s = [12] /\ pending (sh_worker s) = [11].
Proof.
  eexists. split.
  - eapply rtc_l; [apply (step_enter _ 11 30) |].
    eapply rtc_l; [apply (step_enter _ 12 20) |].
    eapply rtc_l; [apply (step_push _ 20 [] [30]) |].
    eapply rtc_l; [apply (step_push _ 30 [] []) |].
    eapply rtc_l; [apply (step_fire _ 25) |].
    eapply rtc_l; [apply (step_fire _ 40) |].
    apply rtc_refl.
  - vm_compute. repeat split; reflexivity.
Qed.
