(* ===== verification/GpuNode.v ===== *)
(** * GPU capacity: computation and sysfs node
      (src/power-libperfmgr/aidl/PhysicalQuantityTypes.h,
       GpuCalculationHelpers.{h,cpp}, GpuCapacityNode.{h,cpp})

    [calculate_capacity] turns the overrun of a frame into the number of GPU
    cycles that were missing, in the mixture of [float] and [double] arithmetic
    that the [std::chrono] conversions of the source select.  The capacity node
    is a pair of file descriptors behind the abstract class [FdInterface],
    which is here a type class over the state of the file system; the theorems
    about the node are proved against the laws of that interface.

    Shown: the capacity is zero for frames on time or inconsistent and never
    negative when the two parts account for the frame; the frequency file is
    parsed back to the number the kernel printed, however the reads are cut
    into pieces; the node never leaks a descriptor. *)

From S2P Require Import Prelude Text CFloat AdpfTypes.
From Stdlib Require Import Ascii.

(** ** PhysicalQuantityTypes

    [Cycles] and [Frequency] wrap an [int]; multiplying a frequency by a
    duration goes through [duration<float>] in seconds. *)

(** The conversion of a [duration<double, nano>] to [duration<float>]: divide
    in [double] by the period, then narrow. *)
Definition seconds_of_f64_ns (t : double) : float := f64_to_f32 (f64_div t (f64_of_Z 1000000000)).

Definition Frequency_mul_time (freq : Frequency) (t : double) : Cycles :=
  f32_to_i32 (f32_mul (f32_of_Z freq) (seconds_of_f64_ns t)).

Definition Cycles_div_time (cycles : Cycles) (t : double) : Frequency :=
  f32_to_i32 (f32_div (f32_of_Z cycles) (seconds_of_f64_ns t)).

(** ** GpuCalculationHelpers *)

Definition lerp (a b : Z) (t : float) : Z :=
  let fa := f32_of_Z a in
  let fb := f32_of_Z b in
  f32_to_i64 (f32_add fa (f32_mul (f32_sub fb fa) t)).

(** [1.0 - cpu_portion] is computed in [double] and narrowed by the call. *)
Definition sanitize_timings (total cpu gpu : Z) : Z :=
  let accounted_portion := cpu +₆₄ gpu in
  let unaccounted_portion := total -₆₄ accounted_portion in
  if 0 <? unaccounted_portion then
    let cpu_portion := f32_div (f32_of_Z cpu) (f32_of_Z accounted_portion) in
    lerp gpu (gpu +₆₄ unaccounted_portion)
      (f64_to_f32 (f64_sub (f64_of_Z 1) (f32_to_f64 cpu_portion)))
  else gpu.

Definition subtotal_timings_invalid (observation : WorkDuration) : bool :=
  (durationNanos observation <? gpuDurationNanos observation) ||
  (durationNanos observation <? cpuDurationNanos observation).

Definition gpu_time_attribution (total gpu : Z) : double :=
  if total =? 0 then f64_of_Z 0 else f64_div (f64_of_Z gpu) (f64_of_Z total).

Definition calculate_capacity (observation : WorkDuration) (target : Z) (gpu_frequency : Frequency) : Cycles :=
  let total := durationNanos observation in
  let overrun := f32_of_Z (total -₆₄ target) in
  if f32_ltb overrun (f32_of_Z 0) || subtotal_timings_invalid observation then 0
  else
    let gpu := sanitize_timings total (cpuDurationNanos observation) (gpuDurationNanos observation) in
    let gpu_time_attribution_pct := gpu_time_attribution total gpu in
    let gpu_delta := f64_mul (f32_to_f64 overrun) gpu_time_attribution_pct in
    Frequency_mul_time gpu_frequency gpu_delta.

(** ** FdInterface

    The abstract class of the source, over the state [W] of the file system.
    [fd_read] returns the number of bytes (negative on error) and the bytes
    stored into the buffer. *)

Class FdInterface (W : Type) := {
  fd_open : string -> Z -> W -> Z * W;
  fd_write : Z -> list ascii -> W -> Z * W;
  fd_read : Z -> Z -> W -> (Z * list ascii) * W;
  fd_lseek : Z -> Z -> Z -> W -> Z * W;
  fd_close : Z -> W -> Z * W
}.

(** The descriptor table of POSIX: a successful [open] returns a descriptor
    that was not open, [close] of an open descriptor removes it, the other
    calls leave the table alone. *)
Class FdTable (W : Type) `{FdInterface W} := {
  open_fds : W -> gset Z;
  fd_open_fail path fl w : (fd_open path fl w).1 < 0 -> open_fds (fd_open path fl w).2 = open_fds w;
  fd_open_fresh path fl w : 0 <= (fd_open path fl w).1 ->
    (fd_open path fl w).1 ∉ open_fds w /\ open_fds (fd_open path fl w).2 = {[(fd_open path fl w).1]} ∪ open_fds w;
  fd_close_fds fd w : open_fds (fd_close fd w).2 = open_fds w ∖ {[fd]}
}.

(** ** GpuCapacityNode *)

Definition O_RDWR : Z := 2.
Definition O_RDONLY : Z := 0.
Definition fd_flags_common : Z := Z.lor 0x80000 0x800.
Definition SEEK_SET : Z := 0.

Record GpuCapacityNode := mkGpuCapacityNode {
  capacity_node_path_ : string;
  capacity_headroom_fd_ : Z;
  frequency_fd_ : Z
}.

Section node.
Context {W : Type} `{FdInterface W}.

Definition init_gpu_capacity_node (gpu_node_dir : string) (w : W) : option GpuCapacityNode * W :=
  let '(capacity_headroom_fd, w) :=
    fd_open (gpu_node_dir +:+ "/capacity_headroom") (Z.lor O_RDWR fd_flags_common) w in
  if capacity_headroom_fd <? 0 then (None, w)
  else
    let '(frequency_fd, w) := fd_open (gpu_node_dir +:+ "/cur_freq") (Z.lor O_RDONLY fd_flags_common) w in
    if frequency_fd <? 0 then
      let '(_, w) := fd_close capacity_headroom_fd w in (None, w)
    else (Some (mkGpuCapacityNode gpu_node_dir capacity_headroom_fd frequency_fd), w).

(** The destructor. *)
Definition delete_GpuCapacityNode (n : GpuCapacityNode) (w : W) : W :=
  (fd_close (capacity_headroom_fd_ n) (fd_close (frequency_fd_ n) w).2).2.

Definition set_gpu_capacity (n : GpuCapacityNode) (capacity : Cycles) (w : W) : bool * W :=
  let '(rc, w) := fd_write (capacity_headroom_fd_ n) (std_to_string capacity) w in
  (rc =? 0, w).

Definition kFreqBufferSize : Z := 16.

(** Storing [data] at offset [off] of the buffer. *)
Definition buffer_store (buffer : list ascii) (off : Z) (data : list ascii) : list ascii :=
  take (Z.to_nat off) buffer ++ data ++ drop (Z.to_nat off + length data) buffer.

(** The do-while loop; each round that goes on has stored at least one byte, so
    [effective_size] rounds are enough. *)
Fixpoint read_loop (fuel : nat) (fd : Z) (buffer : list ascii) (bytes_read_total : Z) (w : W)
    : option (list ascii) * W :=
  match fuel with
  | O => (None, w)
  | S fuel =>
      let effective_size := kFreqBufferSize - 1 in
      let '(bytes_read, data, w) := fd_read fd (effective_size - bytes_read_total) w in
      if bytes_read =? 0 then (Some buffer, w)
      else if bytes_read <? 0 then (None, w)
      else
        let buffer := buffer_store buffer bytes_read_total data in
        let bytes_read_total := bytes_read_total + bytes_read in
        if bytes_read_total <? effective_size then read_loop fuel fd buffer bytes_read_total w
        else (Some buffer, w)
  end.

Definition gpu_frequency (n : GpuCapacityNode) (w : W) : option Frequency * W :=
  let buffer := replicate (Z.to_nat kFreqBufferSize) "000"%char in
  match read_loop 15 (frequency_fd_ n) buffer 0 w with
  | (None, w) => (None, w)
  | (Some buffer, w) =>
      let '(rc, w) := fd_lseek (frequency_fd_ n) 0 SEEK_SET w in
      if rc <? 0 then (None, w)
      else match from_chars buffer with
           | None => (None, w)
           | Some frequency_raw =>
               if frequency_raw <=? 0 then (None, w)
               else (Some (i32 (frequency_raw * 1000)), w)
           end
  end.

(** [createGpuCapacityNode]: the path comes from the hint manager's
    configuration; the inner option is the [unique_ptr], null when the node
    could not be opened. *)
Definition createGpuCapacityNode (gpu_sysfs_config_path : option string) (w : W)
    : option (option GpuCapacityNode) * W :=
  match gpu_sysfs_config_path with
  | None => (None, w)
  | Some path => let '(n, w) := init_gpu_capacity_node path w in (Some n, w)
  end.

End node.

(** ** The frequency file *)

(** A readable file as POSIX describes it: [remaining] is the content from the
    file position to the end; a read of [n] bytes returns a prefix of it, which
    may be shorter than asked for but is empty only at the end; seeking to the
    start of an open file succeeds. *)
Class ReadableFile (W : Type) `{FdInterface W} (fd : Z) := {
  remaining : W -> list ascii;
  fd_read_prefix n w : 0 < n ->
    let '(r, d, w') := fd_read fd n w in
    r = Z.of_nat (length d) /\ r <= n /\ remaining w = d ++ remaining w' /\ (d = [] -> remaining w = []);
  fd_lseek_start w : 0 <= (fd_lseek fd 0 SEEK_SET w).1
}.

Definition zeros (n : nat) : list ascii := replicate n "000"%char.

Lemma buffer_store_zeros (got d : list ascii) (n : nat) :
  (length d <= n)%nat ->
  buffer_store (got ++ zeros n) (Z.of_nat (length got)) d = (got ++ d) ++ zeros (n - length d).
Proof.
  intros Hd. unfold buffer_store. rewrite Nat2Z.id, take_app_length, <- app_assoc. do 2 f_equal.
  rewrite drop_app_add. unfold zeros. by rewrite drop_replicate.
Qed.

Lemma read_loop_all {W : Type} `{ReadableFile W fd} (fuel : nat) (got : list ascii) (w : W) :
  (length got + length (remaining w) < 15)%nat -> (length (remaining w) < fuel)%nat ->
  (read_loop fuel fd (got ++ zeros (16 - length got)) (Z.of_nat (length got)) w).1 =
    Some ((got ++ remaining w) ++ zeros (16 - length (got ++ remaining w))).
Proof.
  revert got w. induction fuel as [| fuel IH]; intros got w Hlen Hfuel; [lia |].
  cbn [read_loop]. unfold kFreqBufferSize.
  pose proof (fd_read_prefix (16 - 1 - Z.of_nat (length got)) w ltac:(lia)) as Hr.
  destruct (fd_read fd _ w) as [[r d] w']. destruct Hr as (-> & Hn & Hrem & Hend).
  destruct d as [| c d].
  - rewrite Hend by done. simpl. by rewrite !app_nil_r.
  - rewrite Hrem, length_app in Hlen, Hfuel. simpl in Hlen, Hfuel, Hn.
    destruct (Z.eqb_spec (Z.of_nat (length (c :: d))) 0) as [E | _]; [simpl in E; lia |].
    destruct (Z.ltb_spec (Z.of_nat (length (c :: d))) 0); [lia |].
    destruct (Z.ltb_spec (Z.of_nat (length got) + Z.of_nat (length (c :: d))) (16 - 1)); [| simpl in *; lia].
    rewrite buffer_store_zeros by (simpl; lia).
    rewrite <- Nat2Z.inj_add, <- length_app.
    replace (16 - length got - length (c :: d))%nat with (16 - length (got ++ c :: d))%nat
      by (rewrite length_app; lia).
    rewrite IH by (rewrite ?length_app; simpl; lia). by rewrite Hrem, (assoc_L (++) got (c :: d)).
Qed.

(** ** The sign of floating-point results *)

(** Not a negative number: a positive one, a zero of either sign, or NaN. *)
Definition sf_nonneg (x : spec_float) : Prop :=
  match x with S754_infinity s | S754_finite s _ _ => s = false | _ => True end.

Lemma binary_round_aux_nonneg (p emax mx ex : Z) lx :
  sf_nonneg (binary_round_aux p emax false mx ex lx) /\ binary_round_aux p emax false mx ex lx <> S754_zero true.
Proof.
  unfold binary_round_aux. destruct (shr_fexp _ _ _ _ _) as [mrs e]. destruct (shr_fexp _ _ _ _ _) as [mrs' e'].
  destruct (shr_m mrs'); [done | | done]. by destruct (_ <=? _).
Qed.

Lemma binary_normalize_nonneg (p emax m e : Z) : 0 <= m ->
  sf_nonneg (binary_normalize p emax m e false) /\ binary_normalize p emax m e false <> S754_zero true.
Proof.
  intros Hm. unfold binary_normalize. destruct m; [done | | lia].
  unfold binary_round. destruct (shl_align _ _ _). apply binary_round_aux_nonneg.
Qed.

Lemma SFmul_nonneg (p emax : Z) (x y : spec_float) : sf_nonneg x -> sf_nonneg y -> sf_nonneg (SFmul p emax x y).
Proof. destruct x, y; simpl; intros; subst; try done. apply binary_round_aux_nonneg. Qed.

Lemma SFdiv_nonneg (p emax : Z) (x y : spec_float) : sf_nonneg x -> sf_nonneg y ->
  y <> S754_zero true -> sf_nonneg (SFdiv p emax x y).
Proof.
  destruct x, y as [[] | | |]; simpl; intros; subst; try done.
  destruct (SFdiv_core_binary _ _ _ _ _ _) as [[? ?] ?]. apply binary_round_aux_nonneg.
Qed.

Lemma f64_to_f32_nonneg (x : double) : sf_nonneg x -> sf_nonneg (f64_to_f32 x).
Proof. destruct x; simpl; intros; subst; try done. by apply binary_normalize_nonneg. Qed.

Lemma f32_to_f64_nonneg (x : double) : sf_nonneg x -> sf_nonneg (f32_to_f64 x).
Proof. destruct x; simpl; intros; subst; try done. by apply binary_normalize_nonneg. Qed.

Lemma sf_to_int_nonneg (lo hi : Z) (x : spec_float) : lo <= 0 <= hi -> sf_nonneg x -> 0 <= sf_to_int lo hi x.
Proof.
  intros Hr Hx. destruct x as [| | | s m e]; simpl in *; subst; try lia.
  assert (0 <= sf_trunc false m e); [| unfold clampZ; lia].
  unfold sf_trunc. destruct (Z.leb_spec 0 e).
  - apply Z.mul_nonneg_nonneg; [lia | apply Z.pow_nonneg; lia].
  - apply Z.div_pos; [lia | apply Z.pow_pos_nonneg; lia].
Qed.

(** Not below zero means not negative. *)
Lemma ltb_false_nonneg (x : spec_float) : SFltb x (f32_of_Z 0) = false -> sf_nonneg x.
Proof. by destruct x as [| [] | | [] ? ?]. Qed.

(** ** Main results *)

(** A frame that met its target, or one whose reported parts exceed the
    whole, asks for no capacity; and when the parts account for the whole frame
    the capacity asked for is never negative. *)
Theorem calculate_capacity_sign (o : WorkDuration) (target freq : Z)
    (Ho : is_i64 (durationNanos o)) (Ht : is_i64 (durationNanos o - target)) :
  (subtotal_timings_invalid o = true -> calculate_capacity o target freq = 0) /\
  (f32_ltb (f32_of_Z (durationNanos o - target)) (f32_of_Z 0) = true -> calculate_capacity o target freq = 0) /\
  (0 <= freq -> 0 <= gpuDurationNanos o -> is_i64 (cpuDurationNanos o + gpuDurationNanos o) ->
   is_i64 (durationNanos o - (cpuDurationNanos o + gpuDurationNanos o)) ->
   durationNanos o <= cpuDurationNanos o + gpuDurationNanos o ->
   0 <= calculate_capacity o target freq).
Proof.
  unfold calculate_capacity. rewrite (i64_id (durationNanos o - target)) by done.
  split_and!.
  - intros ->. by rewrite orb_true_r.
  - intros ->. done.
  - intros Hf Hg Hc Hd Hle. destruct (f32_ltb _ _) eqn:Eo; [done |].
    destruct (subtotal_timings_invalid o) eqn:Es; [done |]. simpl.
    unfold sanitize_timings. rewrite (i64_id (_ + _)), (i64_id (_ - _)) by done.
    destruct (Z.ltb_spec 0 (durationNanos o - (cpuDurationNanos o + gpuDurationNanos o))); [lia |].
    unfold Frequency_mul_time. apply sf_to_int_nonneg; [lia |]. apply SFmul_nonneg.
    { apply binary_normalize_nonneg. lia. }
    apply f64_to_f32_nonneg, SFdiv_nonneg; [| by apply binary_normalize_nonneg ..].
    apply SFmul_nonneg; [apply f32_to_f64_nonneg, ltb_false_nonneg, Eo |].
    unfold gpu_time_attribution. destruct (durationNanos o =? 0); [done |].
    unfold subtotal_timings_invalid in Es. apply orb_false_iff in Es as [Es _]. apply Z.ltb_ge in Es.
    apply SFdiv_nonneg; apply binary_normalize_nonneg; lia.
Qed.

Lemma calculate_capacity_sign_witness :
  calculate_capacity (mkWorkDuration 0 20000000 12000000 8000000 0) 10000000 500000000 = 2000000 /\
  0 <= calculate_capacity (mkWorkDuration 0 20000000 12000000 8000000 0) 10000000 500000000.
Proof.
  split; [vm_compute; reflexivity |].
  apply (calculate_capacity_sign (mkWorkDuration 0 20000000 12000000 8000000 0) 10000000 500000000);
    unfold is_i64; simpl; lia.
Defined.

(** Round trip through the frequency file: when the kernel shows the
    frequency [f] in kHz as a line of decimal text, [gpu_frequency] returns
    [f * 1000] Hz, in however many pieces the reads deliver the line, as long
    as that number of Hz fits an [int]. *)
Theorem gpu_frequency_roundtrip {W : Type} (n : GpuCapacityNode) `{ReadableFile W (frequency_fd_ n)}
    (w : W) (f : Z)
    (Hf : 0 < f <= 2147483) (Hfile : remaining w = std_to_string f ++ ["010"%char]) :
  (gpu_frequency n w).1 = Some (f * 1000).
Proof.
  pose proof (std_to_string_length f) as Hlen.
  assert ((read_loop 15 (frequency_fd_ n) (zeros 16) 0 w).1 =
    Some ((std_to_string f ++ ["010"%char]) ++ zeros (16 - length (std_to_string f ++ ["010"%char])))) as Hl.
  { rewrite <- Hfile. apply (read_loop_all 15 [] w); rewrite Hfile, length_app; simpl; lia. }
  unfold gpu_frequency. change (replicate _ _) with (zeros 16).
  destruct (read_loop _ _ _ _ w) as [b w1]. simpl in Hl. subst b.
  pose proof (fd_lseek_start w1) as Hs. destruct (fd_lseek _ 0 SEEK_SET w1) as [rc w2]. simpl in Hs.
  destruct (Z.ltb_spec rc 0); [lia |].
  rewrite <- app_assoc, from_chars_to_string by (done || (unfold is_i32; lia)).
  destruct (Z.leb_spec f 0); [lia |]. simpl. f_equal. apply i32_id. unfold is_i32. lia.
Qed.

(** A file that delivers at most three bytes per read, for the witness: the
    state is the unread rest. *)
#[export] Instance slow_file : FdInterface (list ascii) := {|
  fd_open _ _ w := (3, w);
  fd_write _ s w := (Z.of_nat (length s), w);
  fd_read _ n w := let d := take (Z.to_nat (Z.min 3 n)) w in (Z.of_nat (length d), d, drop (Z.to_nat (Z.min 3 n)) w);
  fd_lseek _ _ _ w := (0, w);
  fd_close _ w := (0, w)
|}.

#[export] Instance slow_file_readable (fd : Z) : ReadableFile (list ascii) fd.
Proof.
  refine {| remaining w := w |}; [| done].
  intros k w Hk. simpl. split_and!.
  - done.
  - rewrite length_take. lia.
  - by rewrite take_drop.
  - intros E. destruct w; [done |]. apply (f_equal length) in E. rewrite length_take in E. simpl in E. lia.
Defined.

Lemma gpu_frequency_roundtrip_witness :
  (gpu_frequency (mkGpuCapacityNode "/sys/gpu" 4 5) (std_to_string 1197000 ++ ["010"%char])).1 = Some (1197000 * 1000).
Proof. apply (gpu_frequency_roundtrip (mkGpuCapacityNode "/sys/gpu" 4 5)); [lia | reflexivity]. Defined.

(** Descriptors are never leaked: when initialisation fails, the table of
    open descriptors is as before; when it succeeds, exactly the node's two
    distinct descriptors were added, and destroying the node restores the
    table. *)
Theorem gpu_node_descriptors {W : Type} `{FdTable W} (dir : string) (w : W) :
  let '(r, w') := init_gpu_capacity_node dir w in
  match r with
  | None => open_fds w' = open_fds w
  | Some n =>
      capacity_headroom_fd_ n <> frequency_fd_ n /\ 0 <= capacity_headroom_fd_ n /\ 0 <= frequency_fd_ n /\
      open_fds w' = {[capacity_headroom_fd_ n; frequency_fd_ n]} ∪ open_fds w /\
      open_fds (delete_GpuCapacityNode n w') = open_fds w
  end.
Proof.
  unfold init_gpu_capacity_node.
  pose proof (fd_open_fail (dir +:+ "/capacity_headroom") (Z.lor O_RDWR fd_flags_common) w) as F1.
  pose proof (fd_open_fresh (dir +:+ "/capacity_headroom") (Z.lor O_RDWR fd_flags_common) w) as G1.
  destruct (fd_open _ _ w) as [fd1 w1]. simpl in F1, G1.
  destruct (Z.ltb_spec fd1 0) as [Hn1 | Hp1]; [auto |]. specialize (G1 Hp1) as [G1 G1'].
  pose proof (fd_open_fail (dir +:+ "/cur_freq") (Z.lor O_RDONLY fd_flags_common) w1) as F2.
  pose proof (fd_open_fresh (dir +:+ "/cur_freq") (Z.lor O_RDONLY fd_flags_common) w1) as G2.
  destruct (fd_open _ _ w1) as [fd2 w2]. simpl in F2, G2.
  destruct (Z.ltb_spec fd2 0) as [Hn2 | Hp2].
  - pose proof (fd_close_fds fd1 w2) as C. destruct (fd_close fd1 w2) as [? w3]. simpl in C.
    rewrite C, F2, G1' by done. set_solver.
  - specialize (G2 Hp2) as [G2 G2']. simpl. unfold delete_GpuCapacityNode. simpl.
    rewrite !fd_close_fds, G2', G1'. split_and!; [set_solver | done | done | set_solver | set_solver].
Qed.

(** A descriptor table that hands out unused numbers, for the witness. *)
Definition unused_fd (w : gset Z) : Z := Z.of_nat (fresh (set_map Z.to_nat w : gset nat)).

#[export] Instance table_fds : FdInterface (gset Z) := {|
  fd_open _ _ w := (unused_fd w, {[unused_fd w]} ∪ w);
  fd_write _ s w := (Z.of_nat (length s), w);
  fd_read _ _ w := (0, [], w);
  fd_lseek _ _ _ w := (0, w);
  fd_close fd w := (0, w ∖ {[fd]})
|}.

#[export] Instance table_fds_laws : FdTable (gset Z).
Proof.
  refine {| open_fds w := w |}; [| | done]; intros path fl w; simpl; unfold unused_fd; [lia |].
  intros _. split; [| done]. intros Hin. apply (is_fresh (set_map Z.to_nat w : gset nat)).
  apply elem_of_map. eexists. split; [| exact Hin]. lia.
Defined.

Lemma gpu_node_descriptors_witness :
  exists n w', init_gpu_capacity_node "/sys/gpu" ({[7]} : gset Z) = (Some n, w') /\
    open_fds (delete_GpuCapacityNode n w') = {[7]}.
Proof.
  pose proof (gpu_node_descriptors "/sys/gpu" ({[7]} : gset Z)) as H.
  destruct (init_gpu_capacity_node "/sys/gpu" ({[7]} : gset Z)) as [[n |] w'] eqn:E.
  - exists n, w'. split; [reflexivity | exact (proj2 (proj2 (proj2 (proj2 H))))].
  - vm_compute in E. discriminate E.
Defined.

(** The error values of the node: a descriptor error while reading gives no
    frequency, and [set_gpu_capacity] reports [true] exactly when nothing was
    written, so a write that succeeds is reported as [false]. *)
Theorem gpu_node_errors {W : Type} `{FdInterface W} (n : GpuCapacityNode) (w : W) (capacity : Z) :
  ((fd_read (frequency_fd_ n) 15 w).1.1 < 0 -> (gpu_frequency n w).1 = None) /\
  ((set_gpu_capacity n capacity w).1 = true <->
     (fd_write (capacity_headroom_fd_ n) (std_to_string capacity) w).1 = 0).
Proof.
  split.
  - intros Hr. unfold gpu_frequency. cbn [read_loop]. change (kFreqBufferSize - 1 - 0) with 15.
    destruct (fd_read _ 15 w) as [[r d] w1]. simpl in Hr.
    destruct (Z.eqb_spec r 0); [lia |]. destruct (Z.ltb_spec r 0); [done | lia].
  - unfold set_gpu_capacity. destruct (fd_write _ _ w) as [rc w1]. simpl. lia.
Qed.

Lemma gpu_node_errors_witness :
  (set_gpu_capacity (mkGpuCapacityNode "/sys/gpu" 4 5) 300 ([] : list ascii)).1 <> true.
Proof.
  rewrite (proj2 (gpu_node_errors (mkGpuCapacityNode "/sys/gpu" 4 5) ([] : list ascii) 300)).
  vm_compute. discriminate.
Defined.
