(* ===== verification/PowerSessionManager.v ===== *)
(** * The power session manager
      (src/power-libperfmgr/aidl/PowerSessionManager.h, PowerSessionManager.cpp,
       TaskRampupMultNode.h, TaskRampupMultNode.cpp)

    The manager owns the [SessionTaskMap], the worker that delivers vote
    timeouts, the game-mode flag, the registry of session objects and the
    metrics collected from finished sessions.  Every operation of the class is
    a function on that state.  What the operations do to the system (scheduler
    attributes, task profiles, the GPU and ramp-up nodes) is a trace of
    effects, newest first; what they ask of the system is the record [Env].
    Each reading of a clock is an argument of the operation that reads it.

    Shown here, over arbitrary sequences of operations: the two maps stay
    consistent; every clamp handed to the scheduler is a non-empty range within
    0..1024; every active vote has a timeout event pending; the collected
    metrics stay within their bound.  And for single operations: what removing
    a session, replacing its threads, pausing it and a timeout leave behind. *)

From S2P Require Import Prelude Text CFloat AdpfTypes UClampVoter SessionMetrics SessionTaskMap BackgroundWorker GpuNode.
From Stdlib Require Import Ascii.

(** ** State, effects and environment *)

Record EventSessionTimeout := mkEventSessionTimeout {
  ev_timeStamp : Z; ev_sessionId : Z; ev_voteId : Z
}.

Inductive Effect :=
| Eff_sched_setattr (tid util_min util_max : Z)
| Eff_SetTaskProfiles (tid : Z) (profiles : list string)
| Eff_gpu_capacity (capacity : Cycles)
| Eff_rampup_write (text : list ascii)
| Eff_SetAdpfProfileFromDoHint (mode : string)
| Eff_null_dereference
| Eff_empty_optional.

Record PowerSessionManager := mkPSM {
  mSessionTaskMap : SessionTaskMap;
  mEventSessionTimeoutWorker : Worker EventSessionTimeout;
  mGpuCapacityNode : option (option GpuCapacityNode);
  mSessionMap : gmap Z Z;
  mGameModeEnabled : bool;
  mTaskRampupFd : Z;
  mCollectedSessionMetrics : list SessionMetrics;
  kMaxNumOfCachedSessionMetrics : Z;
  effects : list Effect
}.

#[export] Instance eta_PSM : Record_eta PowerSessionManager := fun r =>
  mkPSM (mSessionTaskMap r) (mEventSessionTimeoutWorker r) (mGpuCapacityNode r) (mSessionMap r)
    (mGameModeEnabled r) (mTaskRampupFd r) (mCollectedSessionMetrics r)
    (kMaxNumOfCachedSessionMetrics r) (effects r).

(** The constructor: the pool has one thread and serves this worker only; the
    GPU node and the ramp-up node are what their constructors returned. *)
Definition new_PSM (gpuNode : option (option GpuCapacityNode)) (rampupFd : Z)
    (maxNumOfCachedSessionMetrics : option Z) : PowerSessionManager :=
  mkPSM empty_SessionTaskMap (new_Worker 1 new_Pool) gpuNode ∅ false rampupFd []
    (default 100 maxNumOfCachedSessionMetrics) [].

(** What the operations read from outside: the ADPF profile and the other
    configuration of the hint manager, a feature flag, the thermal severity,
    and the error number that [sched_setattr] yields for a thread (0 for
    success), which may depend on everything done so far. *)
Record Env := mkEnv {
  GetAdpfProfile : AdpfConfig;
  enableSFPreferHighCap : bool;
  ramp_down_sf_prefer_high_cap : bool;
  GetAdpfProfileFromDoHint : bool;
  getThermalThrotSev : ThrottlingSeverity;
  sched_setattr_errno : list Effect -> Z -> Z
}.

Definition AID_APP_START : Z := 10000.
Definition ESRCH : Z := 3.
Definition kGameModeName : string := "GAME".
Definition kBGRampupVal : Z := 1.
Definition kNumOfFramesThreshold : Z := 20.

Definition emit (e : Effect) (s : PowerSessionManager) : PowerSessionManager := s <| effects ::= cons e |>.

(** An [optional] read without a check was set, or the process may end. *)
Definition optional_read (defined : bool) (s : PowerSessionManager) : PowerSessionManager :=
  s <| effects ::= fun l => if defined then l else Eff_empty_optional :: l |>.

(** [sessValPtr->f(...)] through the pointer that [findSession] returned. *)
Definition psm_modify (p : loc) (f : SessionValueEntry -> SessionValueEntry) (s : PowerSessionManager)
    : PowerSessionManager := s <| mSessionTaskMap ::= stm_modify p f |>.

Definition psm_findSession (s : PowerSessionManager) (sessionId : Z) : option loc :=
  stm_findSession (mSessionTaskMap s) sessionId.

Definition psm_deref (s : PowerSessionManager) (p : loc) : SessionValueEntry := deref (mSessionTaskMap s) p.

Definition psm_schedule (e : EventSessionTimeout) (t : Z) (s : PowerSessionManager) : PowerSessionManager :=
  s <| mEventSessionTimeoutWorker ::= worker_schedule e t |>.

(** ** TaskRampupMultNode *)

Definition rampup_text (tid v : Z) : list ascii := std_to_string tid ++ ":"%char :: std_to_string v.

Definition updateTaskRampupMult (tid v : Z) (s : PowerSessionManager) : PowerSessionManager :=
  if mTaskRampupFd s <? 0 then s else emit (Eff_rampup_write (rampup_text tid v)) s.

Definition hasValidTaskRampupMultNode (s : PowerSessionManager) : bool := 0 <=? mTaskRampupFd s.

(** ** Applying the votes *)

Definition set_uclamp (env : Env) (tid : Z) (range : UclampRange) (s : PowerSessionManager)
    : Z * PowerSessionManager :=
  let mn := Z.min (Z.max kUclampMin (uclampMin range)) kUclampMax in
  let mx := Z.min (Z.max (uclampMax range) mn) kUclampMax in
  (sched_setattr_errno env (effects s) tid, emit (Eff_sched_setattr tid mn mx) s).

(** The while loop of [applyUclampLocked] over the session's thread list, which
    is [l1] (already visited) followed by [todo]. *)
Fixpoint uclamp_loop (env : Env) (sessionId timePoint : Z) (l1 todo : list Z) (s : PowerSessionManager)
    : PowerSessionManager :=
  match todo with
  | [] => s
  | tid :: l2 =>
      let config := GetAdpfProfile env in
      let uclampRange := stm_getTaskVoteRange (mSessionTaskMap s) tid timePoint default_UclampRange
        (mUclampMaxEfficientBase config) (mUclampMaxEfficientOffset config) in
      let s := optional_read (stm_getTaskVoteRange_defined (mSessionTaskMap s) tid timePoint
                                (mUclampMaxEfficientBase config) (mUclampMaxEfficientOffset config)) s in
      let '(stat, s) := set_uclamp env tid uclampRange s in
      if stat =? ESRCH then
        let m := (stm_removeDeadTaskSessionMap sessionId tid (mSessionTaskMap s)).2 in
        uclamp_loop env sessionId timePoint l1 l2
          (s <| mSessionTaskMap := stm_set_linked sessionId (l1 ++ l2) m |>)
      else uclamp_loop env sessionId timePoint (l1 ++ [tid]) l2 s
  end.

Definition applyUclampLocked (env : Env) (sessionId timePoint : Z) (s : PowerSessionManager) : PowerSessionManager :=
  match psm_findSession s sessionId with
  | None => s
  | Some p =>
      let s := if negb (mUclampMinOn (GetAdpfProfile env)) then s
               else uclamp_loop env sessionId timePoint [] (stm_getTaskIds (mSessionTaskMap s) sessionId) s in
      psm_modify p (fun v => v <| lastUpdatedTime := timePoint |>) s
  end.

(** [gpuVotingOn] is an [optional<bool>] in a boolean context. *)
Definition applyGpuVotesLocked (env : Env) (sessionId timePoint : Z) (s : PowerSessionManager) : PowerSessionManager :=
  match psm_findSession s sessionId with
  | None => s
  | Some p =>
      let s := match mGpuCapacityNode s, mGpuBoostOn (GetAdpfProfile env) with
               | Some node, Some _ =>
                   match node with
                   | Some _ => emit (Eff_gpu_capacity (stm_getSessionsGpuCapacity (mSessionTaskMap s) timePoint)) s
                   | None => emit Eff_null_dereference s
                   end
               | _, _ => s
               end in
      psm_modify p (fun v => v <| lastUpdatedTime := timePoint |>) s
  end.

Definition applyCpuAndGpuVotes (env : Env) (sessionId timePoint : Z) (s : PowerSessionManager) : PowerSessionManager :=
  applyGpuVotesLocked env sessionId timePoint (applyUclampLocked env sessionId timePoint s).

(** A null node is dereferenced by the source as well; that undefined case
    yields no frequency here. *)
Definition gpuFrequency {W} `{FdInterface W} (s : PowerSessionManager) (w : W) : option Frequency * W :=
  match mGpuCapacityNode s with
  | Some (Some n) => gpu_frequency n w
  | _ => (None, w)
  end.

Definition forceSessionActive (env : Env) (sessionId : Z) (active : bool) (now : Z) (s : PowerSessionManager)
    : PowerSessionManager :=
  match psm_findSession s sessionId with
  | None => s
  | Some p => applyCpuAndGpuVotes env sessionId now (psm_modify p (fun v => v <| isActive := active |>) s)
  end.

Definition setPreferPowerEfficiency (env : Env) (sessionId : Z) (enabled : bool) (now : Z) (s : PowerSessionManager)
    : PowerSessionManager :=
  match psm_findSession s sessionId with
  | None => s
  | Some p =>
      if Bool.eqb enabled (isPowerEfficient (psm_deref s p)) then s
      else applyUclampLocked env sessionId now (psm_modify p (fun v => v <| isPowerEfficient := enabled |>) s)
  end.

(** ** Registry of session objects, keyed by [int]

    A [weak_ptr<void>] is an object identity; [alive] says which objects still
    exist. *)

Definition registerSession (session sessionId : Z) (s : PowerSessionManager) : PowerSessionManager :=
  s <| mSessionMap ::= <[i32 sessionId := session]> |>.

Definition unregisterSession (sessionId : Z) (s : PowerSessionManager) : PowerSessionManager :=
  s <| mSessionMap ::= delete (i32 sessionId) |>.

Definition getSession (alive : Z -> bool) (sessionId : Z) (s : PowerSessionManager) : option Z * PowerSessionManager :=
  match mSessionMap s !! i32 sessionId with
  | None => (None, s)
  | Some o => if alive o then (Some o, s) else (None, s <| mSessionMap ::= delete (i32 sessionId) |>)
  end.

Definition psm_clear (s : PowerSessionManager) : PowerSessionManager := s <| mSessionMap := ∅ |>.

(** ** Task profiles *)

Definition getSessionTaskProfiles (env : Env) (s : PowerSessionManager) (sessionId : Z) (isSetProfile : bool)
    : list string :=
  if isSetProfile then
    match psm_findSession s sessionId with
    | None => ["SCHED_QOS_SENSITIVE_STANDARD"]
    | Some p =>
        match sve_procTag (psm_deref s p) with
        | PROC_SYSTEM_UI => ["SCHED_QOS_SENSITIVE_EXTREME"]
        | _ =>
            match sve_tag (psm_deref s p) with
            | TAG_SURFACEFLINGER =>
                if enableSFPreferHighCap env && negb (ramp_down_sf_prefer_high_cap env)
                then ["SCHED_QOS_SENSITIVE_EXTREME"; "PreferHighCapSet"]
                else ["SCHED_QOS_SENSITIVE_EXTREME"]
            | TAG_HWUI => ["SCHED_QOS_SENSITIVE_EXTREME"]
            | _ => ["SCHED_QOS_SENSITIVE_STANDARD"]
            end
        end
    end
  else ["SCHED_QOS_NONE"].

Definition set_task_profiles (profiles : list string) (tids : list Z) (s : PowerSessionManager) : PowerSessionManager :=
  foldl (fun s tid => emit (Eff_SetTaskProfiles tid profiles) s) s tids.

(** ** Metrics *)

Definition psm_scenario (s : PowerSessionManager) : ScenarioType :=
  if mGameModeEnabled s then SCENARIO_GAME else SCENARIO_DEFAULT.

(** Ending the metric session of an entry: stamp it, and keep it when it has
    enough frames and there is room.  The [int32_t] bound is converted to
    [size_t] by the comparison. *)
Definition end_metric_session (p : loc) (m : SessionMetrics) (sysNow : Z) (s : PowerSessionManager)
    : PowerSessionManager :=
  let m := m <| metricEndTime := sysNow |> <| metricSessionCompleted := true |> in
  let s := psm_modify p (fun v => v <| sessFrameMetrics := Some m |>) s in
  if (kNumOfFramesThreshold <=? totalFrameNumber m) &&
     (Z.of_nat (length (mCollectedSessionMetrics s)) <? u64 (kMaxNumOfCachedSessionMetrics s))
  then s <| mCollectedSessionMetrics ::= fun l => l ++ [m] |>
  else s.

Definition reset_metric_session (p : loc) (severity : ThrottlingSeverity) (scenario : ScenarioType) (sysNow : Z)
    (s : PowerSessionManager) : PowerSessionManager :=
  psm_modify p (fun v => v <| sessFrameMetrics ::= option_map (resetMetric severity scenario sysNow) |>) s.

Definition updateFrameMetrics (sessionId : Z) (lastReportedFrames : FrameTimingMetrics) (s : PowerSessionManager)
    : PowerSessionManager :=
  match psm_findSession s sessionId with
  | None => s
  | Some p =>
      psm_modify p (fun v =>
        v <| sessFrameBuckets ::= fun b => addUpNewFrames b (framesInBuckets lastReportedFrames) |>
          <| sessFrameMetrics ::= option_map (fun m =>
               match scenarioType m with
               | SCENARIO_GAME => addNewFrames_game (ft_gameFrameMetrics lastReportedFrames) m
               | SCENARIO_DEFAULT => addNewFrames_app (framesInBuckets lastReportedFrames) m
               end) |>) s
  end.

Definition add_hboost_frames (jankyLevel : SessionJankyLevel) (numOfFrames : Z) (h : HeurBoostStatistics)
    : HeurBoostStatistics :=
  match jankyLevel with
  | JANK_LIGHT => h <| lightModeFrames ::= fun x => x +₆₄ numOfFrames |>
  | JANK_MODERATE => h <| moderateModeFrames ::= fun x => x +₆₄ numOfFrames |>
  | JANK_SEVERE => h <| severeModeFrames ::= fun x => x +₆₄ numOfFrames |>
  end.

Definition updateHboostStatistics (sessionId : Z) (jankyLevel : SessionJankyLevel) (numOfFrames : Z)
    (s : PowerSessionManager) : PowerSessionManager :=
  match psm_findSession s sessionId with
  | None => s
  | Some p => psm_modify p (fun v => v <| hBoostModeDist ::= add_hboost_frames jankyLevel numOfFrames |>) s
  end.

Definition updateCollectedSessionMetrics (env : Env) (sessionId sysEnd sysReset : Z) (s : PowerSessionManager)
    : bool * PowerSessionManager :=
  match psm_findSession s sessionId with
  | None => (false, s)
  | Some p =>
      let v := psm_deref s p in
      match sessFrameMetrics v with
      | None => (false, s)
      | Some m =>
          let newScenarioType := psm_scenario s in
          let newThermalThrotSev := getThermalThrotSev env in
          let needNewMetricSession :=
            (bool_decide (sve_tag v = TAG_SURFACEFLINGER) && bool_decide (scenarioType m <> newScenarioType)) ||
            negb (thermalThrotStat m =? newThermalThrotSev) in
          if needNewMetricSession then
            (true, reset_metric_session p newThermalThrotSev newScenarioType sysReset (end_metric_session p m sysEnd s))
          else (false, s)
      end
  end.

(** ** Ramp-up boost *)

(** Whether another session of the thread has the boost on. *)
Definition other_sessions_boost (s : PowerSessionManager) (sessionId tid : Z) : bool :=
  existsb (fun sess => negb (sess =? sessionId) &&
             match psm_findSession s sess with
             | Some p => rampupBoostActive (psm_deref s p)
             | None => false
             end) (stm_getSessionIds (mSessionTaskMap s) tid).

Definition voteRampupBoostLocked (sessionId : Z) (rampupBoostVote : bool) (defaultRampupVal highRampupVal : Z)
    (s : PowerSessionManager) : PowerSessionManager :=
  foldl (fun s tid =>
    if other_sessions_boost s sessionId tid then s
    else updateTaskRampupMult tid (if rampupBoostVote then highRampupVal else defaultRampupVal) s)
    s (stm_getTaskIds (mSessionTaskMap s) sessionId).

Definition updateRampupBoostMode (sessionId : Z) (jankyLevel : SessionJankyLevel)
    (defaultRampupVal highRampupVal : Z) (s : PowerSessionManager) : PowerSessionManager :=
  match psm_findSession s sessionId with
  | None => s
  | Some p =>
      let v := psm_deref s p in
      let boost := if negb (isActive v) then false
                   else match jankyLevel with JANK_LIGHT => false | JANK_MODERATE | JANK_SEVERE => true end in
      let s := psm_modify p (fun v => v <| rampupBoostActive := boost |>) s in
      if Bool.eqb boost (rampupBoostActive v) then s
      else voteRampupBoostLocked sessionId boost defaultRampupVal highRampupVal s
  end.

(** ** Sessions *)

Definition updateHintMode (env : Env) (mode : string) (enabled : bool) (s : PowerSessionManager) : PowerSessionManager :=
  let s := if String.eqb mode kGameModeName then s <| mGameModeEnabled := enabled |> else s in
  if enabled && GetAdpfProfileFromDoHint env then emit (Eff_SetAdpfProfileFromDoHint mode) s else s.

Definition getGameModeEnableState (s : PowerSessionManager) : bool := mGameModeEnabled s.

Definition setThreadsFromPowerSession (env : Env) (sessionId : Z) (threadIds : list Z) (now1 now2 : Z)
    (s : PowerSessionManager) : PowerSessionManager :=
  let s := forceSessionActive env sessionId false now1 s in
  let '(r, m) := stm_replace sessionId threadIds (mSessionTaskMap s) in
  let s := s <| mSessionTaskMap := m |> in
  let s := set_task_profiles (getSessionTaskProfiles env s sessionId true) (addedThreads r) s in
  let s := set_task_profiles (getSessionTaskProfiles env s sessionId false) (removedThreads r) s in
  forceSessionActive env sessionId true now2 s.

(** The entry that [addPowerSession] builds from the descriptor. *)
Definition new_session_metrics (env : Env) (s : PowerSessionManager) (d : AppHintDesc) (sysNow : Z) : SessionMetrics :=
  let m := empty_SessionMetrics <| sm_uid := Some (d_uid d) |> <| metricStartTime := sysNow |>
             <| thermalThrotStat := getThermalThrotSev env |> in
  if bool_decide (d_tag d = TAG_SURFACEFLINGER)
  then m <| frameTimelineType := TIMELINE_SURFACEFLINGER |> <| scenarioType := psm_scenario s |>
  else m.

Definition new_session_entry (env : Env) (s : PowerSessionManager) (idString : string) (d : AppHintDesc)
    (enableMetricCollection : bool) (timeNow sysNow : Z) : SessionValueEntry :=
  empty_SessionValueEntry
    <| sve_tgid := d_tgid d |>
    <| sve_uid := d_uid d |>
    <| sve_idString := idString |>
    <| isActive := is_active d |>
    <| sve_isAppSession := AID_APP_START <=? d_uid d |>
    <| sve_tag := d_tag d |>
    <| sve_procTag := d_procTag d |>
    <| lastUpdatedTime := timeNow |>
    <| votes := Votes_add_cpu (vote_int CPU_VOTE_DEFAULT)
                  (new_CpuVote false timeNow (targetNs d) kUclampMin kUclampMax) empty_Votes |>
    <| sessFrameMetrics := if enableMetricCollection then Some (new_session_metrics env s d sysNow) else None |>.

(** A failing [add] is logged only; the threads are set either way. *)
Definition addPowerSession (env : Env) (idString : string) (sessionDescriptor : option AppHintDesc)
    (enableMetricCollection : bool) (threadIds : list Z) (timeNow sysNow now1 now2 : Z)
    (s : PowerSessionManager) : PowerSessionManager :=
  match sessionDescriptor with
  | None => s
  | Some d =>
      let sve := new_session_entry env s idString d enableMetricCollection timeNow sysNow in
      let s := s <| mSessionTaskMap ::= fun m => (stm_add (d_sessionId d) sve [] m).2 |> in
      setThreadsFromPowerSession env (d_sessionId d) threadIds now1 now2 s
  end.

Definition removePowerSession (env : Env) (sessionId now sysNow : Z) (s : PowerSessionManager) : PowerSessionManager :=
  let s := forceSessionActive env sessionId false now s in
  let profiles := getSessionTaskProfiles env s sessionId false in
  let s := match psm_findSession s sessionId with
           | None => emit Eff_null_dereference s
           | Some p => match sessFrameMetrics (psm_deref s p) with
                       | Some m => end_metric_session p m sysNow s
                       | None => s
                       end
           end in
  let '(r, m) := stm_replace sessionId [] (mSessionTaskMap s) in
  let s := s <| mSessionTaskMap := (stm_remove sessionId m).2 |> in
  let s := set_task_profiles profiles (removedThreads r) s in
  unregisterSession sessionId s.

Definition psm_isAnyAppSessionActive (s : PowerSessionManager) (now : Z) : bool :=
  stm_isAnyAppSessionActive (mSessionTaskMap s) now.

Definition psm_areAllSessionsTimeout (s : PowerSessionManager) (now : Z) : bool :=
  stm_areAllSessionsTimeout (mSessionTaskMap s) now.

Definition psm_pause (env : Env) (sessionId sysEnd sysReset now : Z) (s : PowerSessionManager) : PowerSessionManager :=
  match psm_findSession s sessionId with
  | None => s
  | Some p =>
      let v := psm_deref s p in
      if negb (isActive v) then s
      else
        let s := psm_modify p (fun v => v <| isActive := false |>) s in
        let s := if rampupBoostActive v then
                   voteRampupBoostLocked sessionId false kBGRampupVal kBGRampupVal
                     (psm_modify p (fun v => v <| rampupBoostActive := false |>) s)
                 else s in
        let s := match sessFrameMetrics v with
                 | None => s
                 | Some m => reset_metric_session p (getThermalThrotSev env) (psm_scenario s) sysReset
                               (end_metric_session p m sysEnd s)
                 end in
        applyCpuAndGpuVotes env sessionId now s
  end.

Definition psm_resume (env : Env) (sessionId sysReset now : Z) (s : PowerSessionManager) : PowerSessionManager :=
  match psm_findSession s sessionId with
  | None => s
  | Some p =>
      if isActive (psm_deref s p) then s
      else
        let s := psm_modify p (fun v => v <| isActive := true |>) s in
        let s := reset_metric_session p (getThermalThrotSev env) (psm_scenario s) sysReset s in
        applyCpuAndGpuVotes env sessionId now s
  end.

(** ** Votes *)

Definition psm_updateTargetWorkDuration (sessionId : Z) (voteId : AdpfVoteType) (durationNs : Z)
    (s : PowerSessionManager) : PowerSessionManager :=
  match psm_findSession s sessionId with
  | None => s
  | Some p => psm_modify p (fun v => v <| votes ::= Votes_updateDuration (vote_int voteId) durationNs |>) s
  end.

Definition shouldScheduleTimeout (v : Votes) (vote_id deadline : Z) : bool :=
  negb (Votes_voteIsActive v vote_id) || (deadline <? Votes_voteTimeout v vote_id).

(** [voteSet] sets the vote under the lock of the map ([voteSet_cpu_locked],
    [voteSet_gpu_locked]) and schedules the timeout after it has released it.
    Here the two follow each other; [PowerThreads.v] takes them apart. *)
Definition schedule_timeout_if (b : bool) (sessionId voteId startTime deadline : Z) (s : PowerSessionManager)
    : PowerSessionManager :=
  if b then psm_schedule (mkEventSessionTimeout startTime sessionId voteId) deadline s else s.

Definition voteSet_cpu_locked (env : Env) (sessionId : Z) (voteId : AdpfVoteType) (mn mx startTime durationNs : Z)
    (s : PowerSessionManager) : bool * PowerSessionManager :=
  let voteIdInt := vote_int voteId in
  let timeoutDeadline := startTime +₆₄ durationNs in
  match psm_findSession s sessionId with
  | None => (false, s)
  | Some p =>
      let scheduleTimeout := shouldScheduleTimeout (votes (psm_deref s p)) voteIdInt timeoutDeadline in
      let s := s <| mSessionTaskMap ::= stm_addVote sessionId voteIdInt mn mx startTime durationNs |> in
      let s := psm_modify p (fun v => v <| lastUpdatedTime := startTime |>) s in
      (scheduleTimeout, applyUclampLocked env sessionId startTime s)
  end.

Definition voteSet_cpu (env : Env) (sessionId : Z) (voteId : AdpfVoteType) (mn mx startTime durationNs : Z)
    (s : PowerSessionManager) : PowerSessionManager :=
  let '(scheduleTimeout, s) := voteSet_cpu_locked env sessionId voteId mn mx startTime durationNs s in
  schedule_timeout_if scheduleTimeout sessionId (vote_int voteId) startTime (startTime +₆₄ durationNs) s.

Definition voteSet_gpu_locked (env : Env) (sessionId : Z) (voteId : AdpfVoteType) (capacity : Cycles)
    (startTime durationNs : Z) (s : PowerSessionManager) : bool * PowerSessionManager :=
  let voteIdInt := vote_int voteId in
  let timeoutDeadline := startTime +₆₄ durationNs in
  match psm_findSession s sessionId with
  | None => (false, s)
  | Some p =>
      let scheduleTimeout := shouldScheduleTimeout (votes (psm_deref s p)) voteIdInt timeoutDeadline in
      let s := s <| mSessionTaskMap ::= stm_addGpuVote sessionId voteIdInt capacity startTime durationNs |> in
      let s := psm_modify p (fun v => v <| lastUpdatedTime := startTime |>) s in
      (scheduleTimeout, applyGpuVotesLocked env sessionId startTime s)
  end.

Definition voteSet_gpu (env : Env) (sessionId : Z) (voteId : AdpfVoteType) (capacity : Cycles)
    (startTime durationNs : Z) (s : PowerSessionManager) : PowerSessionManager :=
  let '(scheduleTimeout, s) := voteSet_gpu_locked env sessionId voteId capacity startTime durationNs s in
  schedule_timeout_if scheduleTimeout sessionId (vote_int voteId) startTime (startTime +₆₄ durationNs) s.

Definition disabled_boosts : list AdpfVoteType :=
  [CPU_LOAD_UP; CPU_LOAD_RESET; CPU_LOAD_RESUME; VOTE_POWER_EFFICIENCY; GPU_LOAD_UP; GPU_LOAD_RESET].

Definition disableBoosts (sessionId : Z) (s : PowerSessionManager) : PowerSessionManager :=
  match psm_findSession s sessionId with
  | None => s
  | Some p =>
      foldl (fun s vid => psm_modify p (fun v => v <| votes ::= fun vs => (Votes_setUseVote (vote_int vid) false vs).2 |>) s)
        s disabled_boosts
  end.

(** [handleEvent] first decides, under the lock, what becomes of the vote; it
    then schedules the event again (still under that lock), or applies the
    votes of the session under the lock taken a second time. *)
Inductive TimeoutOutcome := Timeout_ignored | Timeout_recalcUclamp | Timeout_requeue (voteTimeout : Z).

Definition handleEvent_locked (e : EventSessionTimeout) (tNow : Z) (s : PowerSessionManager)
    : TimeoutOutcome * PowerSessionManager :=
  match psm_findSession s (ev_sessionId e) with
  | None => (Timeout_ignored, s)
  | Some p =>
      let vs := votes (psm_deref s p) in
      if Votes_voteIsActive vs (ev_voteId e) then
        if Votes_voteTimeout vs (ev_voteId e) <=? tNow then
          (Timeout_recalcUclamp,
           psm_modify p (fun v => v <| votes ::= fun vs => (Votes_setUseVote (ev_voteId e) false vs).2 |>) s)
        else (Timeout_requeue (Votes_voteTimeout vs (ev_voteId e)), s)
      else (Timeout_ignored, s)
  end.

Definition handleEvent (env : Env) (e : EventSessionTimeout) (tNow : Z) (s : PowerSessionManager) : PowerSessionManager :=
  let '(outcome, s) := handleEvent_locked e tNow s in
  match outcome with
  | Timeout_ignored => s
  | Timeout_recalcUclamp => applyCpuAndGpuVotes env (ev_sessionId e) tNow s
  | Timeout_requeue voteTimeout => psm_schedule e voteTimeout s
  end.

(** One turn of the pool's thread: at time [fireNow] it may take an event from
    the queue, which it then handles, reading the clock again. *)
Definition timer_turn (env : Env) (fireNow tNow : Z) (s : PowerSessionManager) : PowerSessionManager :=
  let '(d, w) := worker_fire fireNow (mEventSessionTimeoutWorker s) in
  let s := s <| mEventSessionTimeoutWorker := w |> in
  match d with
  | Some e => handleEvent env e tNow s
  | None => s
  end.

(** ** Sequences of operations *)

Inductive PsmOp :=
| Op_updateHintMode (mode : string) (enabled : bool)
| Op_addPowerSession (idString : string) (d : option AppHintDesc) (metrics : bool) (tids : list Z) (t sys n1 n2 : Z)
| Op_removePowerSession (sid now sys : Z)
| Op_setThreads (sid : Z) (tids : list Z) (n1 n2 : Z)
| Op_pause (sid sysEnd sysReset now : Z)
| Op_resume (sid sysReset now : Z)
| Op_updateTargetWorkDuration (sid : Z) (voteId : AdpfVoteType) (durationNs : Z)
| Op_voteSet_cpu (sid : Z) (voteId : AdpfVoteType) (mn mx start dur : Z)
| Op_voteSet_gpu (sid : Z) (voteId : AdpfVoteType) (capacity : Cycles) (start dur : Z)
| Op_disableBoosts (sid : Z)
| Op_setPreferPowerEfficiency (sid : Z) (enabled : bool) (now : Z)
| Op_registerSession (session sid : Z)
| Op_unregisterSession (sid : Z)
| Op_getSession (alive : Z -> bool) (sid : Z)
| Op_clear
| Op_updateFrameMetrics (sid : Z) (frames : FrameTimingMetrics)
| Op_updateHboostStatistics (sid : Z) (level : SessionJankyLevel) (n : Z)
| Op_updateRampupBoostMode (sid : Z) (level : SessionJankyLevel) (dflt high : Z)
| Op_updateCollectedSessionMetrics (sid sysEnd sysReset : Z)
| Op_timer (fireNow tNow : Z).

Definition psm_op (s : PowerSessionManager) (eo : Env * PsmOp) : PowerSessionManager :=
  let '(env, o) := eo in
  match o with
  | Op_updateHintMode mode enabled => updateHintMode env mode enabled s
  | Op_addPowerSession idString d metrics tids t sys n1 n2 => addPowerSession env idString d metrics tids t sys n1 n2 s
  | Op_removePowerSession sid now sys => removePowerSession env sid now sys s
  | Op_setThreads sid tids n1 n2 => setThreadsFromPowerSession env sid tids n1 n2 s
  | Op_pause sid sysEnd sysReset now => psm_pause env sid sysEnd sysReset now s
  | Op_resume sid sysReset now => psm_resume env sid sysReset now s
  | Op_updateTargetWorkDuration sid voteId dur => psm_updateTargetWorkDuration sid voteId dur s
  | Op_voteSet_cpu sid voteId mn mx start dur => voteSet_cpu env sid voteId mn mx start dur s
  | Op_voteSet_gpu sid voteId capacity start dur => voteSet_gpu env sid voteId capacity start dur s
  | Op_disableBoosts sid => disableBoosts sid s
  | Op_setPreferPowerEfficiency sid enabled now => setPreferPowerEfficiency env sid enabled now s
  | Op_registerSession session sid => registerSession session sid s
  | Op_unregisterSession sid => unregisterSession sid s
  | Op_getSession alive sid => (getSession alive sid s).2
  | Op_clear => psm_clear s
  | Op_updateFrameMetrics sid frames => updateFrameMetrics sid frames s
  | Op_updateHboostStatistics sid level n => updateHboostStatistics sid level n s
  | Op_updateRampupBoostMode sid level dflt high => updateRampupBoostMode sid level dflt high s
  | Op_updateCollectedSessionMetrics sid sysEnd sysReset => (updateCollectedSessionMetrics env sid sysEnd sysReset s).2
  | Op_timer fireNow tNow => timer_turn env fireNow tNow s
  end.

Definition psm_run (ops : list (Env * PsmOp)) (s : PowerSessionManager) : PowerSessionManager := foldl psm_op s ops.

(** ** The invariant *)

(** The vote [vid] of the session [sid] is switched on. *)
Definition active_vote (m : SessionTaskMap) (sid vid : Z) : Prop :=
  exists e, mSessions m !! sid = Some e /\ Votes_voteIsActive (votes (deref m (val e))) vid = true.

(** A clamp handed to the scheduler is a range within 0..1024; a null pointer
    is dereferenced only if [allow] says so. *)
Definition good_effect (allow : bool) (e : Effect) : Prop :=
  match e with
  | Eff_sched_setattr _ mn mx => 0 <= mn <= mx /\ mx <= 1024
  | Eff_null_dereference => allow = true
  | _ => True
  end.

Definition good_metrics (m : SessionMetrics) : Prop :=
  kNumOfFramesThreshold <= totalFrameNumber m /\ metricSessionCompleted m = true.

Record psm_inv (allow : bool) (s : PowerSessionManager) : Prop := {
  pi_wf : stm_wf (mSessionTaskMap s);
  pi_effects : Forall (good_effect allow) (effects s);
  pi_node : mGpuCapacityNode s = Some None -> allow = true;
  pi_metrics : Forall good_metrics (mCollectedSessionMetrics s);
  pi_bound : Z.of_nat (length (mCollectedSessionMetrics s)) <= u64 (kMaxNumOfCachedSessionMetrics s)
}.

(** Every active vote has a timeout event pending. *)
Definition armed (s : PowerSessionManager) : Prop :=
  forall sid vid, active_vote (mSessionTaskMap s) sid vid ->
    exists e, e ∈ pending (mEventSessionTimeoutWorker s) /\ ev_sessionId e = sid /\ ev_voteId e = vid.

(** [s'] follows from [s] without touching the timers and without switching a
    vote on. *)
Definition quiet (allow : bool) (s s' : PowerSessionManager) : Prop :=
  psm_inv allow s ->
  psm_inv allow s' /\ mEventSessionTimeoutWorker s' = mEventSessionTimeoutWorker s /\
  forall sid vid, active_vote (mSessionTaskMap s') sid vid -> active_vote (mSessionTaskMap s) sid vid.

#[export] Instance quiet_preorder (allow : bool) : PreOrder (quiet allow).
Proof.
  split.
  - intros s H. auto.
  - intros s1 s2 s3 H12 H23 H. destruct (H12 H) as (A1 & A2 & A3). destruct (H23 A1) as (B1 & B2 & B3).
    split_and!; [done | by rewrite B2, A2 | auto].
Qed.

Lemma deref_modify (p q : loc) (f : SessionValueEntry -> SessionValueEntry) (m : SessionTaskMap) :
  deref (stm_modify p f m) q = if decide (p = q /\ is_Some (heap m !! q)) then f (deref m q) else deref m q.
Proof.
  unfold deref, stm_modify. simpl. rewrite lookup_alter. destruct (decide (p = q)) as [-> | E].
  - destruct (heap m !! q); simpl; [by rewrite decide_True by eauto | by rewrite decide_False by (intros [_ [? ?]]; done)].
  - by rewrite decide_False by tauto.
Qed.

(** Changes of an entry that keep its identity and switch no vote on. *)
Definition benign (f : SessionValueEntry -> SessionValueEntry) : Prop :=
  (forall v, sve_sessionId (f v) = sve_sessionId v) /\
  (forall v, votes_wf (votes v) -> votes_wf (votes (f v))) /\
  (forall v vid, votes_wf (votes v) ->
     Votes_voteIsActive (votes (f v)) vid = true -> Votes_voteIsActive (votes v) vid = true).

Lemma benign_same_votes (f : SessionValueEntry -> SessionValueEntry) :
  (forall v, sve_sessionId (f v) = sve_sessionId v) -> (forall v, votes (f v) = votes v) -> benign f.
Proof. intros H1 H2. split_and!; intros *; rewrite ?H1, ?H2; done. Qed.

Lemma active_modify (p : loc) f (m : SessionTaskMap) (sid vid : Z) :
  stm_wf m -> benign f -> active_vote (stm_modify p f m) sid vid -> active_vote m sid vid.
Proof.
  intros H (_ & _ & Hf) (e & He & Ha). exists e. split; [done |]. rewrite deref_modify in Ha.
  destruct (decide _); auto with inv.
Qed.

(** Dropping a dead thread changes no value. *)
Lemma removeDead_sessions (sid tid : Z) (m : SessionTaskMap) :
  mSessions (stm_removeDeadTaskSessionMap sid tid m).2 = mSessions m /\
  heap (stm_removeDeadTaskSessionMap sid tid m).2 = heap m.
Proof.
  unfold stm_removeDeadTaskSessionMap. destruct (mSessions m !! sid); [| done].
  by destruct (unlink_task _ _ _).
Qed.

Lemma active_drop_dead (sid tid : Z) (l : list Z) (m : SessionTaskMap) (s vid : Z) :
  active_vote (stm_set_linked sid l (stm_removeDeadTaskSessionMap sid tid m).2) s vid -> active_vote m s vid.
Proof.
  intros (e & He & Ha). destruct (removeDead_sessions sid tid m) as [E1 E2].
  unfold stm_set_linked in He. simpl in He. rewrite E1, lookup_alter in He.
  unfold deref in Ha. simpl in Ha. rewrite E2 in Ha.
  destruct (decide (sid = s)) as [-> |]; [| by exists e].
  destruct (mSessions m !! s) as [e0 |] eqn:E0; [| done]. simplify_eq/=. by exists e0.
Qed.

Lemma active_replace (sid : Z) (tids : list Z) (m : SessionTaskMap) (s vid : Z) :
  stm_wf m -> active_vote (stm_replace sid tids m).2 s vid -> active_vote m s vid.
Proof.
  intros H (e' & He' & Ha). destruct (mSessions m !! sid) as [e |] eqn:E.
  - destruct (replace_deref sid tids m e s e' H E He') as (e0 & He0 & Hd). exists e0. by rewrite <- Hd.
  - unfold stm_replace in He', Ha. rewrite E in He', Ha. by exists e'.
Qed.

Lemma active_remove (sid : Z) (m : SessionTaskMap) (s vid : Z) :
  active_vote (stm_remove sid m).2 s vid -> active_vote m s vid.
Proof.
  intros (e & He & Ha). rewrite stm_remove_lookup in He. unfold deref in Ha.
  rewrite (proj1 (stm_remove_heap sid m)) in Ha. destruct (decide (sid = s)); [done |]. by exists e.
Qed.

(** A session is added with no vote on. *)
Lemma active_add (sid : Z) (sv : SessionValueEntry) (tids : list Z) (m : SessionTaskMap) (s vid : Z) :
  stm_wf m -> (forall vid, Votes_voteIsActive (votes sv) vid = false) ->
  active_vote (stm_add sid sv tids m).2 s vid -> active_vote m s vid.
Proof.
  intros H Hsv (e & He & Ha). unfold stm_add in *. destruct (mSessions m !! sid) as [e0 |] eqn:E; [by exists e |].
  simpl in He. rewrite lookup_insert in He. unfold deref in Ha. simpl in Ha.
  destruct (decide (sid = s)) as [-> | Hne].
  - simplify_eq/=. rewrite lookup_insert_eq in Ha. simpl in Ha. by rewrite Hsv in Ha.
  - rewrite lookup_insert_ne in Ha by (symmetry; by eapply fresh_not_val). by exists e.
Qed.

Lemma setUse_off_benign (vid : Z) : benign (fun v => v <| votes ::= fun vs => (Votes_setUseVote vid false vs).2 |>).
Proof.
  split_and!; [done | simpl; auto with inv |]. intros v vid' Hv. simpl.
  rewrite !Votes_voteIsActive_abs by auto with inv. rewrite (proj1 (Votes_setUseVote_abs vid false (votes v) Hv)).
  rewrite lookup_alter. destruct (decide (vid = vid')) as [-> |]; [| done]. by destruct (abs_votes (votes v) !! vid').
Qed.

Lemma updateDuration_benign (vid d : Z) : benign (fun v => v <| votes ::= Votes_updateDuration vid d |>).
Proof.
  split_and!; [done | simpl; auto with inv |]. intros v vid' Hv. simpl.
  rewrite !Votes_voteIsActive_abs by auto with inv. rewrite (Votes_updateDuration_abs vid d (votes v) Hv).
  rewrite lookup_alter. destruct (decide (vid = vid')) as [-> |]; [| done]. by destruct (abs_votes (votes v) !! vid').
Qed.

Section quiet_steps.
Context (allow : bool).
Implicit Types s : PowerSessionManager.

Lemma quiet_modify (p : loc) f s : benign f -> quiet allow s (psm_modify p f s).
Proof.
  intros Hf H. split_and!; [| done |].
  - split; try apply H. destruct Hf as (F1 & F2 & _). apply stm_modify_wf; auto. apply H.
  - intros sid vid. apply active_modify; [apply H | done].
Qed.

Lemma quiet_emit (e : Effect) s : good_effect allow e -> quiet allow s (emit e s).
Proof.
  intros He H. split_and!; [| done | done]. split; try apply H. simpl. constructor; [done | apply H].
Qed.

Lemma quiet_optional_read (d : bool) s : quiet allow s (optional_read d s).
Proof.
  intros H. split_and!; [| done | done]. split; try apply H. simpl.
  destruct d; [apply H | constructor; [done | apply H]].
Qed.

(** A new map with no new active vote; the fields that the invariant does not
    mention may change as well. *)
Lemma quiet_map s s' :
  mEventSessionTimeoutWorker s' = mEventSessionTimeoutWorker s ->
  mGpuCapacityNode s' = mGpuCapacityNode s -> mCollectedSessionMetrics s' = mCollectedSessionMetrics s ->
  kMaxNumOfCachedSessionMetrics s' = kMaxNumOfCachedSessionMetrics s -> effects s' = effects s ->
  (stm_wf (mSessionTaskMap s) -> stm_wf (mSessionTaskMap s') /\
     forall sid vid, active_vote (mSessionTaskMap s') sid vid -> active_vote (mSessionTaskMap s) sid vid) ->
  quiet allow s s'.
Proof.
  intros E2 E3 E4 E5 E6 Hg H. destruct (Hg (pi_wf _ _ H)) as [G1 G2]. split_and!; [| done | done].
  split; rewrite ?E3, ?E4, ?E5, ?E6; first [done | apply H].
Qed.

Lemma quiet_other s s' :
  mSessionTaskMap s' = mSessionTaskMap s -> mEventSessionTimeoutWorker s' = mEventSessionTimeoutWorker s ->
  mGpuCapacityNode s' = mGpuCapacityNode s -> mCollectedSessionMetrics s' = mCollectedSessionMetrics s ->
  kMaxNumOfCachedSessionMetrics s' = kMaxNumOfCachedSessionMetrics s -> effects s' = effects s ->
  quiet allow s s'.
Proof. intros E1. intros. apply quiet_map; try done. intros Hwf. by rewrite E1. Qed.

Lemma quiet_uclamp_loop (env : Env) (sid t : Z) (l1 todo : list Z) s :
  stm_getTaskIds (mSessionTaskMap s) sid = l1 ++ todo -> quiet allow s (uclamp_loop env sid t l1 todo s).
Proof.
  revert l1 s. induction todo as [| tid l2 IH]; intros l1 s Hl; simpl; [reflexivity |].
  set (r := stm_getTaskVoteRange _ _ _ _ _ _).
  set (eff := Eff_sched_setattr _ _ _).
  match goal with |- context [optional_read ?d s] => set (s0 := optional_read d s) end.
  assert (quiet allow s (emit eff s0)) as Hq.
  { etrans; [apply quiet_optional_read |]. apply quiet_emit. simpl. unfold kUclampMin, kUclampMax. lia. }
  destruct (_ =? ESRCH).
  - etrans; [exact Hq |]. etrans; [| apply IH].
    + apply quiet_map; try done. simpl. intros Hwf.
      split; [by apply drop_dead_wf |]. intros s' vid. apply active_drop_dead.
    + simpl. unfold stm_getTaskIds, stm_set_linked. simpl. rewrite lookup_alter_eq, (proj1 (removeDead_sessions sid tid _)).
      unfold stm_getTaskIds in Hl. destruct (mSessions (mSessionTaskMap s) !! sid); [done |].
      by apply app_cons_not_nil in Hl.
  - etrans; [exact Hq |]. apply IH. simpl. by rewrite <- app_assoc.
Qed.

Lemma quiet_applyUclampLocked (env : Env) (sid t : Z) s : quiet allow s (applyUclampLocked env sid t s).
Proof.
  unfold applyUclampLocked. destruct (psm_findSession s sid); [| reflexivity].
  destruct (mUclampMinOn _); cbn [negb]; [| by apply quiet_modify, benign_same_votes].
  etrans; [apply (quiet_uclamp_loop env sid t [] _ s eq_refl) | by apply quiet_modify, benign_same_votes].
Qed.

Lemma quiet_applyGpuVotesLocked (env : Env) (sid t : Z) s : quiet allow s (applyGpuVotesLocked env sid t s).
Proof.
  intros H. pose proof (pi_node _ _ H) as Hn. revert H. change (quiet allow s (applyGpuVotesLocked env sid t s)).
  unfold applyGpuVotesLocked. destruct (psm_findSession s sid); [| reflexivity].
  destruct (mGpuCapacityNode s) as [[n |] |], (mGpuBoostOn (GetAdpfProfile env)); try (by apply quiet_modify, benign_same_votes).
  - etrans; [| by apply quiet_modify, benign_same_votes]. by apply quiet_emit.
  - etrans; [| by apply quiet_modify, benign_same_votes]. apply quiet_emit. by apply Hn.
Qed.

Lemma quiet_applyCpuAndGpuVotes (env : Env) (sid t : Z) s : quiet allow s (applyCpuAndGpuVotes env sid t s).
Proof. etrans; [apply quiet_applyUclampLocked | apply quiet_applyGpuVotesLocked]. Qed.

Lemma quiet_forceSessionActive (env : Env) (sid : Z) (b : bool) (t : Z) s : quiet allow s (forceSessionActive env sid b t s).
Proof.
  unfold forceSessionActive. destruct (psm_findSession s sid); [| reflexivity].
  etrans; [| apply quiet_applyCpuAndGpuVotes]. by apply quiet_modify, benign_same_votes.
Qed.

(** The passes over the votes keep the set of sessions. *)
Lemma uclamp_loop_sessions (env : Env) (sid t : Z) (l1 todo : list Z) s (k : Z) :
  (val <$> mSessions (mSessionTaskMap (uclamp_loop env sid t l1 todo s)) !! k) = (val <$> mSessions (mSessionTaskMap s) !! k).
Proof.
  revert l1 s. induction todo as [| tid l2 IH]; intros l1 s; simpl; [done |].
  destruct (_ =? ESRCH); rewrite IH; simpl; [| done].
  rewrite lookup_alter, (proj1 (removeDead_sessions sid tid _)).
  destruct (decide (sid = k)) as [-> |]; [| done]. by destruct (_ !! k).
Qed.

Lemma applyUclampLocked_find (env : Env) (sid t : Z) s (k : Z) :
  psm_findSession (applyUclampLocked env sid t s) k = psm_findSession s k.
Proof.
  unfold applyUclampLocked. destruct (psm_findSession s sid); [| done].
  unfold psm_findSession, stm_findSession. simpl. destruct (mUclampMinOn _); simpl; [| done]. apply uclamp_loop_sessions.
Qed.

Lemma voteSet_cpu_find (env : Env) (sid : Z) v (mn mx t d : Z) s (k : Z) :
  psm_findSession (voteSet_cpu env sid v mn mx t d s) k = psm_findSession s k.
Proof.
  unfold voteSet_cpu, voteSet_cpu_locked. destruct (psm_findSession s sid) as [p |]; [| done].
  assert (forall b e vid st dl s, psm_findSession (schedule_timeout_if b e vid st dl s) k = psm_findSession s k) as ->
    by (intros [] ? ? ? ? ?; reflexivity).
  rewrite applyUclampLocked_find. unfold psm_findSession, stm_findSession, stm_addVote. simpl.
  by destruct (mSessions (mSessionTaskMap s) !! sid).
Qed.

Lemma applyCpuAndGpuVotes_find (env : Env) (sid t : Z) s (k : Z) :
  psm_findSession (applyCpuAndGpuVotes env sid t s) k = psm_findSession s k.
Proof.
  assert (forall s, psm_findSession (applyGpuVotesLocked env sid t s) k = psm_findSession s k) as H2.
  { intros s0. unfold applyGpuVotesLocked. destruct (psm_findSession s0 sid); [| done].
    unfold psm_findSession, stm_findSession. simpl.
    by destruct (mGpuCapacityNode s0) as [[n |] |], (mGpuBoostOn (GetAdpfProfile env)). }
  unfold applyCpuAndGpuVotes. by rewrite H2, applyUclampLocked_find.
Qed.

Lemma applyCpuAndGpuVotes_worker (env : Env) (sid t : Z) s :
  mEventSessionTimeoutWorker (applyCpuAndGpuVotes env sid t s) = mEventSessionTimeoutWorker s.
Proof.
  assert (forall l1 todo s, mEventSessionTimeoutWorker (uclamp_loop env sid t l1 todo s) = mEventSessionTimeoutWorker s) as H0.
  { intros l1 todo. revert l1. induction todo as [| tid l2 IH]; intros l1 s0; simpl; [done |].
    destruct (_ =? ESRCH); by rewrite IH. }
  unfold applyCpuAndGpuVotes. trans (mEventSessionTimeoutWorker (applyUclampLocked env sid t s)).
  - unfold applyGpuVotesLocked. destruct (psm_findSession _ sid); [| done].
    by destruct (mGpuCapacityNode _) as [[n |] |], (mGpuBoostOn (GetAdpfProfile env)).
  - unfold applyUclampLocked. destruct (psm_findSession s sid); [| done].
    destruct (mUclampMinOn _); simpl; [apply H0 | done].
Qed.

Lemma forceSessionActive_find (env : Env) (sid : Z) (b : bool) (t : Z) s (k : Z) :
  psm_findSession (forceSessionActive env sid b t s) k = psm_findSession s k.
Proof. unfold forceSessionActive. destruct (psm_findSession s sid); [by rewrite applyCpuAndGpuVotes_find | done]. Qed.

Lemma quiet_set_task_profiles (ps : list string) (tids : list Z) s : quiet allow s (set_task_profiles ps tids s).
Proof.
  unfold set_task_profiles. revert s. induction tids as [| tid tids IH]; intros s; simpl; [reflexivity |].
  etrans; [| apply IH]. by apply quiet_emit.
Qed.

Lemma quiet_voteRampup (sid : Z) (b : bool) (d h : Z) s : quiet allow s (voteRampupBoostLocked sid b d h s).
Proof.
  unfold voteRampupBoostLocked. generalize (stm_getTaskIds (mSessionTaskMap s) sid) as tids.
  intros tids. revert s. induction tids as [| tid tids IH]; intros s; simpl; [reflexivity |].
  etrans; [| apply IH]. destruct (other_sessions_boost s sid tid); [reflexivity |].
  unfold updateTaskRampupMult. destruct (mTaskRampupFd s <? 0); [reflexivity | by apply quiet_emit].
Qed.

Lemma quiet_end_metric_session (p : loc) (m : SessionMetrics) (t : Z) s : quiet allow s (end_metric_session p m t s).
Proof.
  unfold end_metric_session. set (m' := m <| metricEndTime := t |> <| metricSessionCompleted := true |>).
  set (s1 := psm_modify p _ s). trans s1; [by apply quiet_modify, benign_same_votes |].
  destruct (Z.leb_spec kNumOfFramesThreshold (totalFrameNumber m')) as [Hn |]; [| reflexivity].
  destruct (Z.ltb_spec (Z.of_nat (length (mCollectedSessionMetrics s1))) (u64 (kMaxNumOfCachedSessionMetrics s1)))
    as [Hroom |]; [| reflexivity].
  intros H. split_and!; [| done | done]. split; try apply H; simpl.
  - apply Forall_app. split; [apply H |]. constructor; [by split | constructor].
  - change (Z.of_nat (length (mCollectedSessionMetrics s1 ++ [m'])) <= u64 (kMaxNumOfCachedSessionMetrics s1)).
    rewrite length_app, Nat2Z.inj_add. change (Z.of_nat (length [m'])) with 1. lia.
Qed.

Lemma quiet_reset_metric (p : loc) sev sc (t : Z) s : quiet allow s (reset_metric_session p sev sc t s).
Proof. by apply quiet_modify, benign_same_votes. Qed.

Lemma quiet_setThreads (env : Env) (sid : Z) (tids : list Z) (n1 n2 : Z) s :
  quiet allow s (setThreadsFromPowerSession env sid tids n1 n2 s).
Proof.
  unfold setThreadsFromPowerSession. etrans; [apply (quiet_forceSessionActive env sid false n1) |].
  set (s1 := forceSessionActive env sid false n1 s).
  destruct (stm_replace sid tids (mSessionTaskMap s1)) as [r m] eqn:E.
  assert (quiet allow s1 (s1 <| mSessionTaskMap := m |>)) as Hq.
  { apply quiet_map; try done. simpl. intros Hwf. split.
    - pose proof (stm_replace_wf sid tids _ Hwf) as W. by rewrite E in W.
    - intros s' vid A. apply (active_replace sid tids); [done |]. by rewrite E. }
  etrans; [exact Hq |]. etrans; [apply quiet_set_task_profiles |].
  etrans; [apply quiet_set_task_profiles | apply quiet_forceSessionActive].
Qed.

Lemma quiet_addPowerSession (env : Env) (ids : string) d (b : bool) (tids : list Z) (t sys n1 n2 : Z) s :
  quiet allow s (addPowerSession env ids d b tids t sys n1 n2 s).
Proof.
  unfold addPowerSession. destruct d as [d |]; [| reflexivity]. etrans; [| apply quiet_setThreads].
  apply quiet_map; try done. cbn [mSessionTaskMap]. intros Hwf. split.
  - apply stm_add_wf; [| done]. simpl. auto with inv.
  - intros s' vid. apply active_add; [done |]. intros v. simpl. unfold Votes_voteIsActive, Votes_add_cpu.
    destruct (isGpuVote v) eqn:Ev; simpl; [by rewrite lookup_empty |].
    rewrite lookup_insert. destruct (decide _); simpl; [done | by rewrite lookup_empty].
Qed.

Lemma quiet_removePowerSession (env : Env) (sid now sys : Z) s :
  is_Some (psm_findSession s sid) \/ allow = true -> quiet allow s (removePowerSession env sid now sys s).
Proof.
  intros Hok. unfold removePowerSession. etrans; [apply (quiet_forceSessionActive env sid false now) |].
  set (s1 := forceSessionActive env sid false now s).
  match goal with |- context [stm_replace sid [] (mSessionTaskMap ?x)] => set (s2 := x) end.
  assert (quiet allow s1 s2) as H12.
  { subst s2. destruct (psm_findSession s1 sid) as [p |] eqn:Ep.
    - destruct (sessFrameMetrics _); [apply quiet_end_metric_session | reflexivity].
    - apply quiet_emit. simpl. destruct Hok as [[? Hs] | ->]; [| done]. unfold s1 in Ep.
      by rewrite forceSessionActive_find, Hs in Ep. }
  etrans; [exact H12 |]. clearbody s2.
  destruct (stm_replace sid [] (mSessionTaskMap s2)) as [r m] eqn:E.
  etrans; [| etrans; [apply quiet_set_task_profiles | by apply quiet_other]].
  apply quiet_map; try done. simpl. intros Hwf. pose proof (stm_replace_wf sid [] _ Hwf) as W. rewrite E in W.
  split; [auto with inv |]. intros s' vid A%active_remove. apply (active_replace sid []); [done | by rewrite E].
Qed.

End quiet_steps.

(** ** Every operation keeps the invariant *)

(** Operations that never switch a vote on nor use the timers. *)
Definition op_quiet (o : PsmOp) : bool :=
  match o with Op_voteSet_cpu _ _ _ _ _ _ | Op_voteSet_gpu _ _ _ _ _ | Op_timer _ _ => false | _ => true end.

(** [removePowerSession] dereferences the session without a check. *)
Definition op_ok (allow : bool) (s : PowerSessionManager) (o : PsmOp) : Prop :=
  match o with Op_removePowerSession sid _ _ => is_Some (psm_findSession s sid) \/ allow = true | _ => True end.

Lemma disableBoosts_quiet (allow : bool) (sid : Z) (s : PowerSessionManager) : quiet allow s (disableBoosts sid s).
Proof.
  unfold disableBoosts. destruct (psm_findSession s sid); [| reflexivity].
  generalize disabled_boosts as vids. intros vids. revert s.
  induction vids as [| vid vids IH]; intros s; simpl; [reflexivity |].
  etrans; [| apply IH]. apply quiet_modify, setUse_off_benign.
Qed.

Lemma updateRampup_quiet (allow : bool) (sid : Z) level (d h : Z) (s : PowerSessionManager) :
  quiet allow s (updateRampupBoostMode sid level d h s).
Proof.
  unfold updateRampupBoostMode. destruct (psm_findSession s sid) as [p |]; [| reflexivity].
  destruct (Bool.eqb _ _); [by apply quiet_modify, benign_same_votes |].
  etrans; [| apply quiet_voteRampup]. by apply quiet_modify, benign_same_votes.
Qed.

Lemma pause_quiet (allow : bool) (env : Env) (sid a b c : Z) (s : PowerSessionManager) :
  quiet allow s (psm_pause env sid a b c s).
Proof.
  unfold psm_pause. destruct (psm_findSession s sid) as [p |]; [| reflexivity].
  destruct (isActive _); cbn [negb]; [| reflexivity]. etrans; [| apply quiet_applyCpuAndGpuVotes].
  trans (psm_modify p (fun v => v <| isActive := false |>) s); [by apply quiet_modify, benign_same_votes |].
  match goal with |- quiet _ ?x _ => generalize x as s1 end. intros s1.
  match goal with |- quiet _ s1 (match _ with Some m => reset_metric_session _ _ _ _ (end_metric_session _ _ _ ?y) | None => _ end) =>
    trans y end.
  - destruct (rampupBoostActive _); [| reflexivity].
    etrans; [| apply quiet_voteRampup]. by apply quiet_modify, benign_same_votes.
  - destruct (sessFrameMetrics _); [| reflexivity]. etrans; [apply quiet_end_metric_session | apply quiet_reset_metric].
Qed.

Lemma resume_quiet (allow : bool) (env : Env) (sid a b : Z) (s : PowerSessionManager) :
  quiet allow s (psm_resume env sid a b s).
Proof.
  unfold psm_resume. destruct (psm_findSession s sid) as [p |]; [| reflexivity].
  destruct (isActive _); [reflexivity |]. etrans; [| apply quiet_applyCpuAndGpuVotes].
  etrans; [| apply quiet_reset_metric]. by apply quiet_modify, benign_same_votes.
Qed.

Lemma psm_op_quiet (allow : bool) (s : PowerSessionManager) (env : Env) (o : PsmOp) :
  op_quiet o = true -> op_ok allow s o -> quiet allow s (psm_op s (env, o)).
Proof.
  intros Hq Hok.
  destruct o; try discriminate Hq; simpl; auto using quiet_addPowerSession, quiet_removePowerSession, quiet_setThreads,
    disableBoosts_quiet, updateRampup_quiet, pause_quiet, resume_quiet; try by apply quiet_other.
  - unfold updateHintMode. destruct (String.eqb _ _), (_ && _); try by apply quiet_other.
    + etrans; [| by apply quiet_emit]. by apply quiet_other.
    + by apply quiet_emit.
  - unfold psm_updateTargetWorkDuration. destruct (psm_findSession s sid); [| reflexivity].
    apply quiet_modify, updateDuration_benign.
  - unfold setPreferPowerEfficiency. destruct (psm_findSession s sid); [| reflexivity].
    destruct (Bool.eqb _ _); [reflexivity |].
    etrans; [| apply quiet_applyUclampLocked]. by apply quiet_modify, benign_same_votes.
  - unfold getSession. repeat case_match; by apply quiet_other.
  - unfold updateFrameMetrics. destruct (psm_findSession s sid); [| reflexivity].
    by apply quiet_modify, benign_same_votes.
  - unfold updateHboostStatistics. destruct (psm_findSession s sid); [| reflexivity].
    by apply quiet_modify, benign_same_votes.
  - unfold updateCollectedSessionMetrics. destruct (psm_findSession s sid); [| reflexivity].
    destruct (sessFrameMetrics _); [| reflexivity]. destruct (_ || _); [| reflexivity].
    etrans; [apply quiet_end_metric_session | apply quiet_reset_metric].
Qed.

(** *** Setting a vote *)

Record psm_full (allow : bool) (s : PowerSessionManager) : Prop := {
  pf_inv : psm_inv allow s;
  pf_worker : worker_inv (mEventSessionTimeoutWorker s);
  pf_armed : armed s
}.

Definition timer_count (s : PowerSessionManager) : Z := mPackageIdCounter (mEventSessionTimeoutWorker s).

Lemma quiet_full (allow : bool) (s s' : PowerSessionManager) :
  quiet allow s s' -> psm_full allow s -> psm_full allow s' /\ timer_count s' = timer_count s.
Proof.
  intros Hq [H1 H2 H3]. destruct (Hq H1) as (A & B & C). split; [| by unfold timer_count; rewrite B].
  split; [done | by rewrite B |]. intros sid vid Ha. rewrite B. auto.
Qed.

(** Adding one vote switches at most that vote on. *)
Definition adds_vote (vid : Z) (f : SessionValueEntry -> SessionValueEntry) : Prop :=
  (forall v, sve_sessionId (f v) = sve_sessionId v) /\
  (forall v, votes_wf (votes v) -> votes_wf (votes (f v))) /\
  (forall v k, votes_wf (votes v) -> Votes_voteIsActive (votes (f v)) k = true ->
     Votes_voteIsActive (votes v) k = true \/ k = vid).

Lemma adds_vote_cpu (vid : Z) (c : CpuVote) : adds_vote vid (fun v => v <| votes ::= Votes_add_cpu vid c |>).
Proof.
  split_and!; [done | simpl; auto with inv |]. intros v k Hv. simpl.
  destruct (isGpuVote vid) eqn:E.
  - unfold Votes_add_cpu. rewrite E. simpl. auto.
  - rewrite !Votes_voteIsActive_abs by auto with inv. rewrite Votes_add_cpu_abs by done.
    rewrite lookup_insert. destruct (decide (vid = k)); auto.
Qed.

Lemma adds_vote_gpu (vid : Z) (g : GpuVote) : adds_vote vid (fun v => v <| votes ::= Votes_add_gpu vid g |>).
Proof.
  split_and!; [done | simpl; auto with inv |]. intros v k Hv. simpl.
  destruct (isGpuVote vid) eqn:E.
  - rewrite !Votes_voteIsActive_abs by auto with inv. rewrite Votes_add_gpu_abs by done.
    rewrite lookup_insert. destruct (decide (vid = k)); auto.
  - unfold Votes_add_gpu. rewrite E. simpl. auto.
Qed.

Lemma pending_schedule (w : Worker EventSessionTimeout) (e : EventSessionTimeout) (t : Z) :
  worker_inv w -> mPackageIdCounter w + 1 < 2 ^ 63 ->
  worker_inv (worker_schedule e t w) /\ mPackageIdCounter (worker_schedule e t w) = mPackageIdCounter w + 1 /\
  (forall x, x ∈ pending (worker_schedule e t w) <-> x = e \/ x ∈ pending w).
Proof.
  intros H Hc. destruct (schedule_inv w e t H Hc) as (A & B & C). split_and!; [done | done |].
  intros x. by rewrite B, elem_of_cons.
Qed.

(** Scheduling keeps everything armed and arms its own vote. *)
Lemma schedule_full (allow : bool) (s : PowerSessionManager) (e : EventSessionTimeout) (t : Z) :
  psm_inv allow s -> worker_inv (mEventSessionTimeoutWorker s) -> timer_count s + 1 < 2 ^ 63 ->
  (forall sid vid, active_vote (mSessionTaskMap s) sid vid ->
     (exists e, e ∈ pending (mEventSessionTimeoutWorker s) /\ ev_sessionId e = sid /\ ev_voteId e = vid) \/
     (sid = ev_sessionId e /\ vid = ev_voteId e)) ->
  psm_full allow (psm_schedule e t s) /\ timer_count (psm_schedule e t s) = timer_count s + 1.
Proof.
  intros H1 H2 Hc H3. destruct (pending_schedule _ e t H2 Hc) as (A & B & C). split; [| done].
  split; [split; apply H1 | done |]. intros sid vid Ha. simpl.
  destruct (H3 sid vid Ha) as [(x & Hx & ? & ?) | [-> ->]].
  - exists x. rewrite C. auto.
  - exists e. rewrite C. auto.
Qed.

(** The common shape of both [voteSet]s. *)
Lemma voteSet_full (allow : bool) (s s' : PowerSessionManager) (sid vid start deadline : Z) (p : loc)
    (f : SessionValueEntry -> SessionValueEntry) :
  psm_full allow s -> timer_count s + 1 < 2 ^ 63 -> psm_findSession s sid = Some p -> adds_vote vid f ->
  quiet allow (psm_modify p f s) s' ->
  let s'' := schedule_timeout_if (shouldScheduleTimeout (votes (psm_deref s p)) vid deadline) sid vid start deadline s' in
  psm_full allow s'' /\ timer_count s'' <= timer_count s + 1.
Proof.
  intros [H1 H2 H3] Hc Hp (F1 & F2 & F3) Hq.
  assert (psm_inv allow (psm_modify p f s)) as Hi.
  { split; try apply H1. apply stm_modify_wf; auto. apply H1. }
  destruct (Hq Hi) as (A & B & C). simpl in B.
  unfold psm_findSession, stm_findSession in Hp.
  destruct (mSessions (mSessionTaskMap s) !! sid) as [e |] eqn:E; [| done]. injection Hp as <-.
  assert (forall k v, active_vote (mSessionTaskMap s') k v ->
    active_vote (mSessionTaskMap s) k v \/ (k = sid /\ v = vid)) as Hact.
  { intros k v Ha. destruct (C _ _ Ha) as (e' & He' & Ha'). simpl in He', Ha'. rewrite deref_modify in Ha'.
    destruct (decide _) as [[Hv _] |]; [| left; by exists e'].
    destruct (F3 (deref (mSessionTaskMap s) (val e')) v) as [| ->]; [apply deref_votes_wf, H1 | done | left; by exists e' |].
    right. split; [| done]. eapply val_inj; [apply (pi_wf _ _ H1) | exact He' | exact E | done]. }
  unfold schedule_timeout_if. destruct (shouldScheduleTimeout _ _ _) eqn:Es; simpl.
  - destruct (schedule_full allow s' (mkEventSessionTimeout start sid vid) deadline) as [G1 G2].
    + done.
    + by rewrite B.
    + unfold timer_count. by rewrite B.
    + rewrite B. simpl. intros k v Ha. destruct (Hact k v Ha) as [Hk | Hk]; [left; by apply H3 | by right].
    + split; [done |]. rewrite G2. unfold timer_count. rewrite B. lia.
  - split; [| unfold timer_count; rewrite B; lia].
    split; [done | by rewrite B |]. intros k v Ha. rewrite B. apply H3.
    destruct (Hact k v Ha) as [| [-> ->]]; [done |]. exists e. split; [done |].
    unfold shouldScheduleTimeout in Es. by destruct (Votes_voteIsActive _ vid).
Qed.

(** *** A timeout event *)

Lemma setUse_off_inactive (p : loc) (vid : Z) (m : SessionTaskMap) (sid : Z) (e : ValEntry) :
  stm_wf m -> mSessions m !! sid = Some e -> val e = p ->
  ~ active_vote (stm_modify p (fun v => v <| votes ::= fun vs => (Votes_setUseVote vid false vs).2 |>) m) sid vid.
Proof.
  intros H He Hp (e' & He' & Ha). simpl in He'. assert (e' = e) as -> by congruence. subst p.
  destruct (wf_val _ H _ _ He) as (v & Hv & _).
  rewrite deref_modify, decide_True in Ha by eauto. simpl in Ha.
  pose proof (deref_votes_wf m (val e) H) as Hw.
  rewrite Votes_voteIsActive_abs, (proj1 (Votes_setUseVote_abs vid false _ Hw)), lookup_alter_eq in Ha by auto with inv.
  by destruct (abs_votes _ !! vid).
Qed.

Lemma handleEvent_full (allow : bool) (env : Env) (s : PowerSessionManager) (e : EventSessionTimeout) (tNow : Z) :
  psm_inv allow s -> worker_inv (mEventSessionTimeoutWorker s) -> timer_count s + 1 < 2 ^ 63 ->
  (forall sid vid, active_vote (mSessionTaskMap s) sid vid ->
     (exists e, e ∈ pending (mEventSessionTimeoutWorker s) /\ ev_sessionId e = sid /\ ev_voteId e = vid) \/
     (sid = ev_sessionId e /\ vid = ev_voteId e)) ->
  psm_full allow (handleEvent env e tNow s) /\ timer_count (handleEvent env e tNow s) <= timer_count s + 1.
Proof.
  intros H1 H2 Hc H3. unfold handleEvent, handleEvent_locked, psm_findSession, stm_findSession.
  destruct (mSessions (mSessionTaskMap s) !! ev_sessionId e) as [ve |] eqn:E; simpl.
  2: { split; [| lia]. split; [done | done |]. intros sid vid Ha.
       destruct (H3 sid vid Ha) as [| [-> ->]]; [done |]. destruct Ha as (x & Hx & _). congruence. }
  unfold psm_deref. destruct (Votes_voteIsActive (votes (deref (mSessionTaskMap s) (val ve))) (ev_voteId e)) eqn:Eact.
  - destruct (_ <=? tNow).
    + match goal with |- psm_full _ (applyCpuAndGpuVotes _ _ _ ?x) /\ _ => set (s1 := x) end.
      assert (quiet allow s s1) as Hq1 by apply quiet_modify, setUse_off_benign.
      destruct (Hq1 H1) as (A1 & A2 & A3).
      assert (psm_full allow s1) as Hf.
      { split; [done | by rewrite A2 |]. intros sid vid Ha. rewrite A2.
        destruct (H3 sid vid (A3 _ _ Ha)) as [| [-> ->]]; [done |]. exfalso. revert Ha.
        by eapply setUse_off_inactive; [apply (pi_wf _ _ H1) | exact E | reflexivity]. }
      destruct (quiet_full allow s1 _ (quiet_applyCpuAndGpuVotes allow env (ev_sessionId e) tNow s1) Hf) as [F1 F2].
      split; [done |]. rewrite F2. unfold timer_count. rewrite A2. lia.
    + destruct (schedule_full allow s e (Votes_voteTimeout (votes (deref (mSessionTaskMap s) (val ve))) (ev_voteId e))
        H1 H2 Hc H3) as [F1 F2]. split; [done | lia].
  - split; [| lia]. split; [done | done |]. intros sid vid Ha.
    destruct (H3 sid vid Ha) as [| [-> ->]]; [done |]. destruct Ha as (x & Hx & Hax). congruence.
Qed.

Lemma timer_turn_full (allow : bool) (env : Env) (f t : Z) (s : PowerSessionManager) :
  psm_full allow s -> timer_count s + 1 < 2 ^ 63 ->
  psm_full allow (timer_turn env f t s) /\ timer_count (timer_turn env f t s) <= timer_count s + 1.
Proof.
  intros [H1 H2 H3] Hc. unfold timer_turn.
  destruct (fire_inv (mEventSessionTimeoutWorker s) f H2) as (A & B & C & _).
  destruct (worker_fire f (mEventSessionTimeoutWorker s)) as [d w]. simpl in A, B, C.
  set (s1 := s <| mEventSessionTimeoutWorker := w |>).
  assert (psm_inv allow s1) as Hi by (split; apply H1).
  assert (timer_count s1 = timer_count s) as Ht by done.
  destruct d as [e |]; simpl in B.
  - rewrite <- Ht in *. apply handleEvent_full; try done. intros sid vid Ha.
    destruct (H3 sid vid Ha) as (x & Hx & <- & <-). rewrite B, elem_of_cons in Hx.
    destruct Hx as [-> | Hx]; [by right | left; by exists x].
  - split; [| lia]. split; [done | done |]. intros sid vid Ha.
    destruct (H3 sid vid Ha) as (x & Hx & ?). exists x. by rewrite B in Hx.
Qed.

Lemma psm_op_full (allow : bool) (s : PowerSessionManager) (env : Env) (o : PsmOp) :
  op_ok allow s o -> psm_full allow s -> timer_count s + 1 < 2 ^ 63 ->
  psm_full allow (psm_op s (env, o)) /\ timer_count (psm_op s (env, o)) <= timer_count s + 1.
Proof.
  intros Hok Hf Hc. destruct (op_quiet o) eqn:Eq.
  { destruct (quiet_full allow s _ (psm_op_quiet allow s env o Eq Hok) Hf) as [A ->]. split; [done | lia]. }
  destruct o; try discriminate Eq; simpl.
  - unfold voteSet_cpu, voteSet_cpu_locked. destruct (psm_findSession s sid) as [p |] eqn:Ep; [| cbv beta iota delta [schedule_timeout_if]; split; [done | lia]].
    eapply (voteSet_full allow s); [done | done | exact Ep | apply adds_vote_cpu |].
    etrans; [| apply quiet_applyUclampLocked]. etrans; [| by apply quiet_modify, benign_same_votes].
    apply quiet_other; try done. simpl. unfold stm_addVote.
    unfold psm_findSession, stm_findSession in Ep. destruct (mSessions (mSessionTaskMap s) !! sid); [| done].
    by injection Ep as ->.
  - unfold voteSet_gpu, voteSet_gpu_locked. destruct (psm_findSession s sid) as [p |] eqn:Ep; [| cbv beta iota delta [schedule_timeout_if]; split; [done | lia]].
    eapply (voteSet_full allow s); [done | done | exact Ep | apply adds_vote_gpu |].
    etrans; [| apply quiet_applyGpuVotesLocked]. etrans; [| by apply quiet_modify, benign_same_votes].
    apply quiet_other; try done. simpl. unfold stm_addGpuVote.
    unfold psm_findSession, stm_findSession in Ep. destruct (mSessions (mSessionTaskMap s) !! sid); [| done].
    by injection Ep as ->.
  - by apply timer_turn_full.
Qed.

(** *** Runs *)

(** Each operation of the run is called within its precondition. *)
Fixpoint run_ok (allow : bool) (ops : list (Env * PsmOp)) (s : PowerSessionManager) : Prop :=
  match ops with
  | [] => True
  | eo :: ops => op_ok allow s eo.2 /\ run_ok allow ops (psm_op s eo)
  end.

Lemma run_ok_true (ops : list (Env * PsmOp)) (s : PowerSessionManager) : run_ok true ops s.
Proof.
  revert s. induction ops as [| [env o] ops IH]; intros s; simpl; [done |]. split; [| apply IH].
  destruct o; simpl; auto.
Qed.

Lemma new_PSM_full (allow : bool) node fd mx :
  (node = Some None -> allow = true) -> psm_full allow (new_PSM node fd mx) /\ timer_count (new_PSM node fd mx) = 0.
Proof.
  intros Hn. split; [| done]. split; simpl.
  - split; simpl; auto using empty_stm_wf. unfold u64, wrap_u. apply Z.mod_pos_bound. lia.
  - apply new_Worker_inv.
  - intros sid vid (e & He & _). simpl in He. by rewrite lookup_empty in He.
Qed.

Lemma psm_run_full (allow : bool) (ops : list (Env * PsmOp)) (s : PowerSessionManager) :
  run_ok allow ops s -> psm_full allow s -> timer_count s + Z.of_nat (length ops) < 2 ^ 63 ->
  psm_full allow (psm_run ops s) /\ timer_count (psm_run ops s) <= timer_count s + Z.of_nat (length ops).
Proof.
  revert s. induction ops as [| [env o] ops IH]; intros s Hok Hf Hc; [split; [done | simpl; lia] |].
  rewrite length_cons, Nat2Z.inj_succ in Hc. change (length ((env, o) :: ops)) with (S (length ops)).
  destruct Hok as [Ho Hok]. destruct (psm_op_full allow s env o Ho Hf) as [A B]; [lia |].
  destruct (IH _ Hok A) as [C D]; [lia |]. split; [exact C |]. etrans; [exact D | lia].
Qed.

Lemma psm_reachable (ops : list (Env * PsmOp)) node fd mx :
  Z.of_nat (length ops) < 2 ^ 62 ->
  psm_full true (psm_run ops (new_PSM node fd mx)) /\ timer_count (psm_run ops (new_PSM node fd mx)) < 2 ^ 62.
Proof.
  intros Hl. destruct (new_PSM_full true node fd mx) as [A B]; [done |].
  destruct (psm_run_full true ops _ (run_ok_true ops _) A) as [C D]; [lia |]. split; [done | lia].
Qed.

(** *** Draining the timers *)

Definition session_votes (m : SessionTaskMap) (k : Z) : option Votes :=
  (fun e => votes (deref m (val e))) <$> mSessions m !! k.

Lemma session_votes_ext (m m' : SessionTaskMap) (k : Z) :
  (val <$> mSessions m' !! k) = (val <$> mSessions m !! k) -> (forall p, votes (deref m' p) = votes (deref m p)) ->
  session_votes m' k = session_votes m k.
Proof.
  intros H1 H2. unfold session_votes. destruct (mSessions m' !! k), (mSessions m !! k); simplify_eq/=; [| done].
  rewrite H2. congruence.
Qed.

Lemma uclamp_loop_heap (env : Env) (sid t : Z) (l1 todo : list Z) (s : PowerSessionManager) :
  heap (mSessionTaskMap (uclamp_loop env sid t l1 todo s)) = heap (mSessionTaskMap s).
Proof.
  revert l1 s. induction todo as [| tid l2 IH]; intros l1 s; simpl; [done |].
  destruct (_ =? ESRCH); rewrite IH; simpl; [| done]. apply removeDead_sessions.
Qed.

(** An entry without its time stamp: all that applying the votes changes. *)
Definition unstamped (v : SessionValueEntry) : SessionValueEntry := v <| lastUpdatedTime := 0 |>.

Lemma stamp_unstamped (m : SessionTaskMap) (p q : loc) (t : Z) :
  unstamped (deref (stm_modify p (fun v => v <| lastUpdatedTime := t |>) m) q) = unstamped (deref m q).
Proof. rewrite deref_modify. by destruct (decide _). Qed.

Lemma applyCpuAndGpuVotes_unstamped (env : Env) (sid t : Z) (s : PowerSessionManager) (q : loc) :
  unstamped (deref (mSessionTaskMap (applyCpuAndGpuVotes env sid t s)) q) = unstamped (deref (mSessionTaskMap s) q).
Proof.
  unfold applyCpuAndGpuVotes.
  trans (unstamped (deref (mSessionTaskMap (applyUclampLocked env sid t s)) q)).
  - unfold applyGpuVotesLocked. destruct (psm_findSession _ sid); [| done].
    destruct (mGpuCapacityNode _) as [[n |] |], (mGpuBoostOn (GetAdpfProfile env)); apply stamp_unstamped.
  - unfold applyUclampLocked. destruct (psm_findSession s sid); [| done].
    destruct (mUclampMinOn _); cbn [negb]; (etrans; [apply stamp_unstamped |]); [| done].
    unfold deref. by rewrite uclamp_loop_heap.
Qed.

Lemma applyCpuAndGpuVotes_votes (env : Env) (sid t : Z) (s : PowerSessionManager) (k : Z) :
  session_votes (mSessionTaskMap (applyCpuAndGpuVotes env sid t s)) k = session_votes (mSessionTaskMap s) k.
Proof.
  apply session_votes_ext; [apply applyCpuAndGpuVotes_find |]. intros q.
  exact (f_equal votes (applyCpuAndGpuVotes_unstamped env sid t s q)).
Qed.

(** All that is queued, and all that is active, is over at [t]. *)
Definition all_due (t : Z) (s : PowerSessionManager) : Prop :=
  Forall (fun p => deadline p <= t) (mPackageQueue (mWorker (mEventSessionTimeoutWorker s))) /\
  forall sid vs vid, session_votes (mSessionTaskMap s) sid = Some vs -> Votes_voteIsActive vs vid = true ->
    Votes_voteTimeout vs vid <= t.

Definition queue_length (s : PowerSessionManager) : nat :=
  length (mPackageQueue (mWorker (mEventSessionTimeoutWorker s))).

Lemma handleEvent_due (env : Env) (e : EventSessionTimeout) (t : Z) (s : PowerSessionManager) :
  stm_wf (mSessionTaskMap s) -> all_due t s ->
  mEventSessionTimeoutWorker (handleEvent env e t s) = mEventSessionTimeoutWorker s /\ all_due t (handleEvent env e t s).
Proof.
  intros Hwf [D1 D2]. unfold handleEvent, handleEvent_locked, psm_findSession, stm_findSession.
  destruct (mSessions (mSessionTaskMap s) !! ev_sessionId e) as [ve |] eqn:E; simpl; [| done].
  unfold psm_deref. destruct (Votes_voteIsActive (votes (deref _ (val ve))) (ev_voteId e)) eqn:Ea; [| done].
  assert (Votes_voteTimeout (votes (deref (mSessionTaskMap s) (val ve))) (ev_voteId e) <= t) as Hd.
  { apply (D2 (ev_sessionId e)); [unfold session_votes; by rewrite E | done]. }
  destruct (Z.leb_spec (Votes_voteTimeout (votes (deref (mSessionTaskMap s) (val ve))) (ev_voteId e)) t); [| lia].
  set (s1 := psm_modify (val ve) _ s).
  rewrite applyCpuAndGpuVotes_worker. split; [done |]. split; [by rewrite applyCpuAndGpuVotes_worker |].
  intros sid vs vid. rewrite applyCpuAndGpuVotes_votes. unfold session_votes, s1. simpl.
  destruct (mSessions (mSessionTaskMap s) !! sid) as [e2 |] eqn:E2; [| done]. simpl. intros [= <-].
  rewrite deref_modify. destruct (decide _) as [_ |].
  - simpl. pose proof (deref_votes_wf (mSessionTaskMap s) (val e2) Hwf) as Hv.
    rewrite Votes_voteIsActive_abs, Votes_voteTimeout_abs, (proj1 (Votes_setUseVote_abs _ false _ Hv)), lookup_alter by auto with inv.
    destruct (decide (ev_voteId e = vid)) as [-> |]; [by destruct (abs_votes _ !! vid) |].
    rewrite <- Votes_voteIsActive_abs, <- Votes_voteTimeout_abs by done. apply (D2 sid). unfold session_votes. by rewrite E2.
  - apply (D2 sid). unfold session_votes. by rewrite E2.
Qed.

Lemma timer_turn_due (env : Env) (t : Z) (s : PowerSessionManager) :
  psm_full true s -> timer_count s + 1 < 2 ^ 63 -> all_due t s ->
  psm_full true (timer_turn env t t s) /\ timer_count (timer_turn env t t s) = timer_count s /\
  all_due t (timer_turn env t t s) /\ queue_length (timer_turn env t t s) = pred (queue_length s).
Proof.
  intros Hf Hc [D1 D2]. destruct (timer_turn_full true env t t s Hf Hc) as [Hf' _]. split; [done |]. clear Hf'.
  destruct Hf as [H1 H2 H3]. unfold timer_turn, queue_length.
  destruct (fire_inv (mEventSessionTimeoutWorker s) t H2) as (_ & _ & C & Dq).
  pose proof (fire_earliest (mEventSessionTimeoutWorker s) t) as He.
  destruct (mPackageQueue (mWorker (mEventSessionTimeoutWorker s))) as [| top rest] eqn:Eq.
  - rewrite Dq. replace (s <| mEventSessionTimeoutWorker := mEventSessionTimeoutWorker s |>) with s by by destruct s.
    split_and!; [done | split; [by rewrite Eq | done] | by rewrite Eq].
  - apply Forall_cons in D1 as [Ht D1]. destruct (Z.leb_spec (deadline top) t); [| lia].
    destruct (worker_fire t (mEventSessionTimeoutWorker s)) as [d w]. destruct Dq as [e Hd]. simpl in Hd, C. subst d.
    destruct (He e H2 eq_refl) as (top' & rest' & E1 & E2 & _). simpl in E2. simplify_eq.
    set (s1 := s <| mEventSessionTimeoutWorker := w |>).
    destruct (handleEvent_due env e t s1) as [F1 F2]; [apply H1 | split; [done | exact D2] |].
    unfold timer_count. rewrite F1. by split_and!.
Qed.

Lemma drain_timers (env : Env) (t : Z) (n : nat) (s : PowerSessionManager) :
  psm_full true s -> timer_count s + 1 < 2 ^ 63 -> all_due t s -> (queue_length s <= n)%nat ->
  forall sid vid, ~ active_vote (mSessionTaskMap (Nat.iter n (timer_turn env t t) s)) sid vid.
Proof.
  revert s. induction n as [| n IH]; intros s Hf Hc Hd Hn.
  - intros sid vid Ha. destruct (pf_armed _ _ Hf sid vid Ha) as (e & He & _).
    unfold queue_length in Hn. unfold pending in He. apply list_elem_of_fmap in He as ([k x] & _ & Hk).
    apply elem_of_map_to_list in Hk.
    pose proof (proj1 (key_queued _ k (pf_worker _ _ Hf)) (mk_is_Some _ _ Hk)) as Hq.
    destruct (mPackageQueue (mWorker (mEventSessionTimeoutWorker s))); [by apply not_elem_of_nil in Hq | simpl in Hn; lia].
  - rewrite Nat.iter_succ_r. destruct (timer_turn_due env t s Hf Hc Hd) as (A & B & C & D).
    apply IH; [done | by rewrite B | done | lia].
Qed.

(** *** What an operation on one session leaves alone *)

Definition session_value (m : SessionTaskMap) (k : Z) : option SessionValueEntry :=
  (fun e => deref m (val e)) <$> mSessions m !! k.

(** Sessions other than [sid] keep their threads and their values. *)
Definition frame (sid : Z) (s s' : PowerSessionManager) : Prop :=
  stm_wf (mSessionTaskMap s) ->
  stm_wf (mSessionTaskMap s') /\
  forall k, k <> sid ->
    stm_getTaskIds (mSessionTaskMap s') k = stm_getTaskIds (mSessionTaskMap s) k /\
    session_value (mSessionTaskMap s') k = session_value (mSessionTaskMap s) k.

#[export] Instance frame_preorder (sid : Z) : PreOrder (frame sid).
Proof.
  split.
  - intros s H. auto.
  - intros s1 s2 s3 A B H. destruct (A H) as [A1 A2]. destruct (B A1) as [B1 B2]. split; [done |].
    intros k Hk. destruct (A2 k Hk) as [<- <-]. auto.
Qed.

Lemma frame_modify (sid : Z) (p : loc) f (s : PowerSessionManager) :
  psm_findSession s sid = Some p -> benign f -> frame sid s (psm_modify p f s).
Proof.
  intros Hp (F1 & F2 & _) H. split; [apply stm_modify_wf; auto |]. intros k Hk. split; [done |].
  unfold session_value. simpl. destruct (mSessions (mSessionTaskMap s) !! k) as [e |] eqn:E; [| done]. simpl. f_equal.
  rewrite deref_modify. destruct (decide _) as [[Hv _] |]; [| done]. exfalso.
  unfold psm_findSession, stm_findSession in Hp.
  destruct (mSessions (mSessionTaskMap s) !! sid) as [e0 |] eqn:E0; [| done]. simplify_eq/=.
  apply Hk. by eapply val_inj.
Qed.

Lemma frame_same (sid : Z) (s s' : PowerSessionManager) :
  mSessionTaskMap s' = mSessionTaskMap s -> frame sid s s'.
Proof. intros E H. by rewrite E. Qed.

Lemma frame_uclamp_loop (env : Env) (sid t : Z) (l1 todo : list Z) (s : PowerSessionManager) :
  stm_getTaskIds (mSessionTaskMap s) sid = l1 ++ todo -> frame sid s (uclamp_loop env sid t l1 todo s).
Proof.
  revert l1 s. induction todo as [| tid l2 IH]; intros l1 s Hl; simpl; [reflexivity |].
  destruct (_ =? ESRCH).
  - etrans; [| apply IH].
    + intros Hwf. split; [by apply drop_dead_wf |]. intros k Hk. simpl.
      destruct (removeDead_sessions sid tid (mSessionTaskMap s)) as [E1 E2].
      unfold stm_getTaskIds, session_value, stm_set_linked, deref. simpl.
      rewrite lookup_alter_ne, E1, E2 by done. done.
    + simpl. unfold stm_getTaskIds, stm_set_linked. simpl.
      rewrite lookup_alter_eq, (proj1 (removeDead_sessions sid tid _)).
      unfold stm_getTaskIds in Hl. destruct (mSessions (mSessionTaskMap s) !! sid); [done |].
      by apply app_cons_not_nil in Hl.
  - etrans; [| apply IH]; [by apply frame_same |]. simpl. by rewrite <- app_assoc.
Qed.

Lemma frame_applyUclampLocked (env : Env) (sid t : Z) (s : PowerSessionManager) :
  frame sid s (applyUclampLocked env sid t s).
Proof.
  unfold applyUclampLocked. destruct (psm_findSession s sid) as [p |] eqn:Ep; [| reflexivity].
  destruct (mUclampMinOn _); cbn [negb]; [| by apply frame_modify, benign_same_votes].
  etrans; [apply (frame_uclamp_loop env sid t [] _ s eq_refl) | apply frame_modify, benign_same_votes; try done].
  unfold psm_findSession, stm_findSession. by rewrite uclamp_loop_sessions.
Qed.

Lemma frame_applyCpuAndGpuVotes (env : Env) (sid t : Z) (s : PowerSessionManager) :
  frame sid s (applyCpuAndGpuVotes env sid t s).
Proof.
  unfold applyCpuAndGpuVotes. trans (applyUclampLocked env sid t s); [apply frame_applyUclampLocked |].
  generalize (applyUclampLocked env sid t s) as s0. intros s0.
  unfold applyGpuVotesLocked. destruct (psm_findSession s0 sid) as [p |] eqn:Ep; [| reflexivity].
  destruct (mGpuCapacityNode s0) as [[n |] |], (mGpuBoostOn (GetAdpfProfile env));
    try (by apply frame_modify, benign_same_votes);
    (etrans; [| by apply frame_modify, benign_same_votes]; by apply frame_same).
Qed.

Lemma frame_forceSessionActive (env : Env) (sid : Z) (b : bool) (t : Z) (s : PowerSessionManager) :
  frame sid s (forceSessionActive env sid b t s).
Proof.
  unfold forceSessionActive. destruct (psm_findSession s sid) as [p |] eqn:Ep; [| reflexivity].
  etrans; [| apply frame_applyCpuAndGpuVotes]. by apply frame_modify, benign_same_votes.
Qed.

Lemma set_task_profiles_map (ps : list string) (tids : list Z) (s : PowerSessionManager) :
  mSessionTaskMap (set_task_profiles ps tids s) = mSessionTaskMap s.
Proof. unfold set_task_profiles. revert s. induction tids as [| tid tids IH]; intros s; simpl; [done | by rewrite IH]. Qed.

Lemma set_task_profiles_effects (ps : list string) (tids : list Z) (s : PowerSessionManager) :
  effects (set_task_profiles ps tids s) = rev ((fun tid => Eff_SetTaskProfiles tid ps) <$> tids) ++ effects s.
Proof.
  unfold set_task_profiles. revert s. induction tids as [| tid tids IH]; intros s; simpl; [done |].
  by rewrite IH, <- app_assoc.
Qed.

Lemma replace_frame (sid : Z) (tids : list Z) (m : SessionTaskMap) (k : Z) :
  stm_wf m -> k <> sid ->
  stm_getTaskIds (stm_replace sid tids m).2 k = stm_getTaskIds m k /\
  session_value (stm_replace sid tids m).2 k = session_value m k.
Proof.
  intros H Hk. unfold stm_getTaskIds, session_value. destruct (mSessions m !! sid) as [e |] eqn:E.
  - destruct (stm_replace_spec sid tids m e H E) as [S1 S2]. rewrite S1, lookup_insert_ne by done. split; [done |].
    destruct (mSessions m !! k) as [e' |] eqn:E'; [| done]. simpl. f_equal. unfold deref. rewrite S2.
    rewrite lookup_insert_ne; [done |]. symmetry. by eapply fresh_not_val.
  - unfold stm_replace. by rewrite E.
Qed.

Lemma remove_frame (sid : Z) (m : SessionTaskMap) (k : Z) :
  k <> sid -> stm_getTaskIds (stm_remove sid m).2 k = stm_getTaskIds m k /\
  session_value (stm_remove sid m).2 k = session_value m k.
Proof.
  intros Hk. unfold stm_getTaskIds, session_value. rewrite stm_remove_lookup, decide_False by done. split; [done |].
  unfold deref. by rewrite (proj1 (stm_remove_heap sid m)).
Qed.

Lemma frame_end_metric (sid : Z) (p : loc) (m : SessionMetrics) (t : Z) (s : PowerSessionManager) :
  psm_findSession s sid = Some p -> frame sid s (end_metric_session p m t s).
Proof.
  intros Hp. unfold end_metric_session. set (s1 := psm_modify p _ s).
  trans s1; [by apply frame_modify, benign_same_votes |].
  destruct (_ && _); [by apply frame_same | reflexivity].
Qed.

Lemma end_metric_sessions (p : loc) (m : SessionMetrics) (t : Z) (s : PowerSessionManager) :
  mSessions (mSessionTaskMap (end_metric_session p m t s)) = mSessions (mSessionTaskMap s).
Proof. unfold end_metric_session. by destruct (_ && _). Qed.

Lemma getTaskIds_not_in (m : SessionTaskMap) (sid : Z) :
  stm_wf m -> stm_getTaskIds m sid = [] -> forall tid, sid ∉ stm_getSessionIds m tid.
Proof. intros H E tid. apply occ_not_elem. rewrite getSessionIds_occ, E by done. apply occ_nil. Qed.

Lemma removedThreads_elem (sid : Z) (m : SessionTaskMap) (tid : Z) :
  stm_wf m -> tid ∈ stm_getTaskIds m sid -> (forall k, k <> sid -> tid ∉ stm_getTaskIds m k) ->
  tid ∈ removedThreads (stm_replace sid [] m).1.
Proof.
  intros H Hin Hother. pose proof (stm_replace_wf sid [] m H) as Hwf.
  pose proof (fun k => replace_frame sid [] m k H) as Hfr. pose proof (stm_replace_spec sid [] m) as Hsp.
  unfold stm_getTaskIds in Hin. unfold stm_replace in *. destruct (mSessions m !! sid) as [e |] eqn:E.
  2: { by apply not_elem_of_nil in Hin. }
  simpl in *. apply elem_of_unmapped; [done |]. split; [done |]. intros k.
  destruct (decide (k = sid)) as [-> | Hne].
  - unfold stm_getTaskIds. rewrite (proj1 (Hsp e H eq_refl)), lookup_insert_eq. apply not_elem_of_nil.
  - rewrite (proj1 (Hfr k Hne)). by apply Hother.
Qed.

(** The state of [removePowerSession] just before the session is taken out. *)
Lemma remove_prefix (env : Env) (sid now sys : Z) (s : PowerSessionManager) :
  stm_wf (mSessionTaskMap s) -> is_Some (psm_findSession s sid) ->
  exists s2, frame sid s s2 /\
    mSessions (mSessionTaskMap s2) = mSessions (mSessionTaskMap (forceSessionActive env sid false now s)) /\
    removePowerSession env sid now sys s =
      unregisterSession sid (set_task_profiles ["SCHED_QOS_NONE"] (removedThreads (stm_replace sid [] (mSessionTaskMap s2)).1)
        (s2 <| mSessionTaskMap := (stm_remove sid (stm_replace sid [] (mSessionTaskMap s2)).2).2 |>)).
Proof.
  intros Hwf [p Hp]. unfold removePowerSession.
  assert (psm_findSession (forceSessionActive env sid false now s) sid = Some p) as Hp1 by by rewrite forceSessionActive_find.
  pose proof (frame_forceSessionActive env sid false now s) as Hf.
  set (s1 := forceSessionActive env sid false now s) in *. rewrite Hp1.
  destruct (sessFrameMetrics (psm_deref s1 p)) as [m |].
  - exists (end_metric_session p m sys s1). split_and!.
    + etrans; [exact Hf | by apply frame_end_metric].
    + apply end_metric_sessions.
    + by destruct (stm_replace _ _ _).
  - exists s1. split_and!; [done | done |]. by destruct (stm_replace _ _ _).
Qed.

(** *** The threads of a session after its votes were applied *)

Lemma uclamp_loop_tasks (env : Env) (sid t : Z) (l1 todo : list Z) (s : PowerSessionManager) :
  stm_getTaskIds (mSessionTaskMap s) sid = l1 ++ todo ->
  exists l, stm_getTaskIds (mSessionTaskMap (uclamp_loop env sid t l1 todo s)) sid = l1 ++ l /\ sublist l todo /\
    ((forall tr tid, tid ∈ todo -> sched_setattr_errno env tr tid <> ESRCH) -> l = todo).
Proof.
  revert l1 s. induction todo as [| tid l2 IH]; intros l1 s Hl; simpl; [by exists [] |].
  match goal with |- context [sched_setattr_errno env ?tr tid =? ESRCH] =>
    destruct (Z.eqb_spec (sched_setattr_errno env tr tid) ESRCH) as [Ee | Ee] end.
  - match goal with |- context [uclamp_loop env sid t l1 l2 ?x] => destruct (IH l1 x) as (l & A & B & _) end;
      [| exists l; split_and!; [exact A | by constructor |]].
    + simpl. unfold stm_getTaskIds, stm_set_linked. simpl. rewrite lookup_alter_eq, (proj1 (removeDead_sessions sid tid _)).
      unfold stm_getTaskIds in Hl. destruct (mSessions (mSessionTaskMap s) !! sid); [done |].
      by apply app_cons_not_nil in Hl.
    + intros Hno. match type of Ee with sched_setattr_errno _ ?tr _ = _ => destruct (Hno tr tid); [by constructor | done] end.
  - match goal with |- context [uclamp_loop env sid t _ l2 ?x] => destruct (IH (l1 ++ [tid]) x) as (l & A & B & C) end;
      [| exists (tid :: l); split_and!; [| by constructor |]].
    + simpl. by rewrite <- app_assoc.
    + rewrite A. by rewrite <- app_assoc.
    + intros Hno. rewrite C; [done |]. intros tr t' Ht. apply Hno. by constructor.
Qed.

Lemma forceSessionActive_spec (env : Env) (sid : Z) (b : bool) (t : Z) (s : PowerSessionManager) :
  stm_wf (mSessionTaskMap s) -> is_Some (psm_findSession s sid) ->
  let m' := mSessionTaskMap (forceSessionActive env sid b t s) in
  (exists v, session_value m' sid = Some v /\ isActive v = b) /\
  sublist (stm_getTaskIds m' sid) (stm_getTaskIds (mSessionTaskMap s) sid) /\
  ((forall tr tid, sched_setattr_errno env tr tid <> ESRCH) ->
     stm_getTaskIds m' sid = stm_getTaskIds (mSessionTaskMap s) sid).
Proof.
  intros Hwf [p Hp] m'. pose proof (forceSessionActive_find env sid b t s sid) as Hfind.
  unfold m', forceSessionActive in *. rewrite Hp in *. clear m'. set (s1 := psm_modify p _ s) in *.
  assert (exists e, mSessions (mSessionTaskMap s) !! sid = Some e /\ val e = p) as (e & He & Hv).
  { unfold psm_findSession, stm_findSession in Hp.
    destruct (mSessions (mSessionTaskMap s) !! sid) as [e |]; [| done]. exists e. by simplify_eq/=. }
  split.
  - unfold psm_findSession, stm_findSession in Hfind. unfold session_value.
    destruct (mSessions (mSessionTaskMap (applyCpuAndGpuVotes env sid t s1)) !! sid) as [e' |]; [| done].
    simplify_eq/=. eexists. split; [reflexivity |]. rewrite Hfind.
    etrans; [exact (f_equal isActive (applyCpuAndGpuVotes_unstamped env sid t s1 (val e))) |].
    destruct (wf_val _ Hwf _ _ He) as (v & Hh & _). unfold s1. simpl. by rewrite deref_modify, decide_True by eauto.
  - assert (stm_getTaskIds (mSessionTaskMap (applyCpuAndGpuVotes env sid t s1)) sid =
      stm_getTaskIds (mSessionTaskMap (applyUclampLocked env sid t s1)) sid) as ->.
    { unfold applyCpuAndGpuVotes, applyGpuVotesLocked. generalize (applyUclampLocked env sid t s1) as s2. intros s2.
      destruct (psm_findSession s2 sid), (mGpuCapacityNode s2) as [[n |] |], (mGpuBoostOn (GetAdpfProfile env)); done. }
    unfold applyUclampLocked. change (psm_findSession s1 sid) with (psm_findSession s sid). rewrite Hp.
    change (stm_getTaskIds (mSessionTaskMap s1) sid) with (stm_getTaskIds (mSessionTaskMap s) sid).
    destruct (mUclampMinOn _); cbn [negb]; [| done].
    destruct (uclamp_loop_tasks env sid t [] (stm_getTaskIds (mSessionTaskMap s) sid) s1 eq_refl) as (l & A & B & C).
    change (stm_getTaskIds (mSessionTaskMap (psm_modify p ?f ?x)) sid) with (stm_getTaskIds (mSessionTaskMap x) sid).
    rewrite A. split; [done |]. intros Hno. by rewrite C by auto.
Qed.

Lemma setThreads_spec (env : Env) (s : PowerSessionManager) (sid : Z) (tids : list Z) (n1 n2 : Z)
    (Hwf : stm_wf (mSessionTaskMap s)) (Hs : is_Some (psm_findSession s sid)) :
  let s' := setThreadsFromPowerSession env sid tids n1 n2 s in
  (exists v, session_value (mSessionTaskMap s') sid = Some v /\ isActive v = true) /\
  sublist (stm_getTaskIds (mSessionTaskMap s') sid) tids /\
  ((forall tr tid, sched_setattr_errno env tr tid <> ESRCH) -> stm_getTaskIds (mSessionTaskMap s') sid = tids) /\
  (forall k, k <> sid -> stm_getTaskIds (mSessionTaskMap s') k = stm_getTaskIds (mSessionTaskMap s) k /\
     session_value (mSessionTaskMap s') k = session_value (mSessionTaskMap s) k).
Proof.
  intros s'. subst s'. unfold setThreadsFromPowerSession.
  destruct (frame_forceSessionActive env sid false n1 s Hwf) as [Hwf1 Hf1].
  rewrite <- (forceSessionActive_find env sid false n1 s) in Hs.
  set (s1 := forceSessionActive env sid false n1 s) in *.
  pose proof (fun k => replace_frame sid tids (mSessionTaskMap s1) k Hwf1) as Hf2.
  pose proof (stm_replace_wf sid tids _ Hwf1) as Hwf2.
  destruct Hs as [p Hp]. unfold psm_findSession, stm_findSession in Hp.
  destruct (mSessions (mSessionTaskMap s1) !! sid) as [e |] eqn:E; [| done].
  destruct (stm_replace_spec sid tids _ e Hwf1 E) as [Hses _].
  destruct (stm_replace sid tids (mSessionTaskMap s1)) as [r m]. simpl in Hses, Hwf2, Hf2.
  set (s3 := set_task_profiles _ (removedThreads r) _).
  assert (mSessionTaskMap s3 = m) as Hm by (unfold s3; by rewrite !set_task_profiles_map).
  clearbody s3. subst m.
  destruct (forceSessionActive_spec env sid true n2 s3) as (A & B & C); [done | |].
  { unfold psm_findSession, stm_findSession. rewrite Hses, lookup_insert_eq. by eexists. }
  assert (stm_getTaskIds (mSessionTaskMap s3) sid = tids) as Ht.
  { unfold stm_getTaskIds. by rewrite Hses, lookup_insert_eq. }
  rewrite Ht in B, C. split_and!; [done | done | done |].
  intros k Hne. destruct (frame_forceSessionActive env sid true n2 s3 Hwf2) as [_ Hf3].
  destruct (Hf3 k Hne) as [-> ->]. destruct (Hf2 k Hne) as [-> ->]. by apply Hf1.
Qed.

(** ** Main results *)


(** C3. What leaves the manager is bounded: in any run, every clamp passed to
    [sched_setattr] satisfies 0 <= min <= max <= 1024, the cache of finished
    metrics never exceeds its configured size, and every metric in it is
    completed and has at least 20 frames. *)
Theorem psm_outputs_bounded (ops : list (Env * PsmOp)) (node : option (option GpuCapacityNode)) (fd : Z) (mx : option Z)
    (Hlen : Z.of_nat (length ops) < 2 ^ 62) :
  let s := psm_run ops (new_PSM node fd mx) in
  (forall tid mn mx', Eff_sched_setattr tid mn mx' ∈ effects s -> 0 <= mn <= mx' /\ mx' <= 1024) /\
  Z.of_nat (length (mCollectedSessionMetrics s)) <= u64 (kMaxNumOfCachedSessionMetrics s) /\
  Forall (fun m => 20 <= totalFrameNumber m /\ metricSessionCompleted m = true) (mCollectedSessionMetrics s).
Proof.
  intros s. destruct (psm_reachable ops node fd mx Hlen) as [[H1 _ _] _]. split_and!; [| apply H1 | apply H1].
  intros tid mn mx' Hin. pose proof (pi_effects _ _ H1) as He. rewrite Forall_forall in He. apply (He _ Hin).
Qed.

(** No null pointer is dereferenced in a run that only removes sessions
    that exist, unless the GPU node was configured but could not be opened:
    then the manager holds a null node and dereferences it. *)
Theorem psm_no_null_dereference (ops : list (Env * PsmOp)) (node : option (option GpuCapacityNode)) (fd : Z) (mx : option Z)
    (Hlen : Z.of_nat (length ops) < 2 ^ 62) (Hok : run_ok false ops (new_PSM node fd mx)) (Hnode : node <> Some None) :
  Eff_null_dereference ∉ effects (psm_run ops (new_PSM node fd mx)).
Proof.
  destruct (new_PSM_full false node fd mx) as [A B]; [done |].
  destruct (psm_run_full false ops _ Hok A) as [[C _ _] _]; [lia |].
  intros Hin. pose proof (pi_effects _ _ C) as He. rewrite Forall_forall in He. by specialize (He _ Hin).
Qed.

(** Removing a session: it is gone from the map and from every thread, its
    object is unregistered, the other sessions keep their values and threads,
    and every thread that no other session controls gets its task profile
    reset. *)
Theorem removePowerSession_functional (env : Env) (s : PowerSessionManager) (sid now sys : Z)
    (Hwf : stm_wf (mSessionTaskMap s)) (Hs : is_Some (psm_findSession s sid)) :
  let s' := removePowerSession env sid now sys s in
  psm_findSession s' sid = None /\ mSessionMap s' !! i32 sid = None /\
  (forall tid, sid ∉ stm_getSessionIds (mSessionTaskMap s') tid) /\
  (forall k, k <> sid -> stm_getTaskIds (mSessionTaskMap s') k = stm_getTaskIds (mSessionTaskMap s) k /\
     session_value (mSessionTaskMap s') k = session_value (mSessionTaskMap s) k) /\
  (forall tid, tid ∈ stm_getTaskIds (mSessionTaskMap (forceSessionActive env sid false now s)) sid ->
     (forall k, k <> sid -> tid ∉ stm_getTaskIds (mSessionTaskMap s) k) ->
     Eff_SetTaskProfiles tid ["SCHED_QOS_NONE"] ∈ effects s').
Proof.
  intros s'. destruct (remove_prefix env sid now sys s Hwf Hs) as (s2 & Hf & Hm & E). subst s'. rewrite E. clear E.
  destruct (Hf Hwf) as [Hwf2 Hk]. set (m2 := (stm_replace sid [] (mSessionTaskMap s2)).2).
  assert (stm_wf m2) as Hwfm by by apply stm_replace_wf.
  assert (stm_getTaskIds (stm_remove sid m2).2 sid = []) as Hnil.
  { unfold stm_getTaskIds. rewrite stm_remove_lookup. by rewrite decide_True. }
  split_and!; simpl.
  - unfold psm_findSession, stm_findSession. simpl. rewrite set_task_profiles_map. simpl.
    rewrite stm_remove_lookup. by rewrite decide_True.
  - apply lookup_delete_eq.
  - rewrite set_task_profiles_map. simpl. apply getTaskIds_not_in; [by apply stm_remove_wf | done].
  - intros k Hne. rewrite set_task_profiles_map. simpl. destruct (Hk k Hne) as [<- <-].
    destruct (remove_frame sid m2 k Hne) as [-> ->]. by apply replace_frame.
  - intros tid Hin Hother. rewrite set_task_profiles_effects. apply elem_of_app. left.
    rewrite list_elem_of_In, <- in_rev, <- list_elem_of_In.
    apply (list_elem_of_fmap_2 (fun tid => Eff_SetTaskProfiles tid ["SCHED_QOS_NONE"])).
    apply removedThreads_elem; [done | |].
    + unfold stm_getTaskIds in *. by rewrite Hm.
    + intros k Hne. rewrite (proj1 (Hk k Hne)). by apply Hother.
Qed.

(** Replacing the threads of a session: afterwards the session is active,
    even if it was paused before, its threads are the given ones without those
    that the scheduler reported dead, and the other sessions keep their values
    and threads. *)
Theorem setThreads_functional (env : Env) (s : PowerSessionManager) (sid : Z) (tids : list Z) (n1 n2 : Z)
    (Hwf : stm_wf (mSessionTaskMap s)) (Hs : is_Some (psm_findSession s sid)) :
  let s' := setThreadsFromPowerSession env sid tids n1 n2 s in
  (exists v, session_value (mSessionTaskMap s') sid = Some v /\ isActive v = true) /\
  sublist (stm_getTaskIds (mSessionTaskMap s') sid) tids /\
  ((forall tr tid, sched_setattr_errno env tr tid <> ESRCH) -> stm_getTaskIds (mSessionTaskMap s') sid = tids) /\
  (forall k, k <> sid -> stm_getTaskIds (mSessionTaskMap s') k = stm_getTaskIds (mSessionTaskMap s) k /\
     session_value (mSessionTaskMap s') k = session_value (mSessionTaskMap s) k).
Proof. by apply setThreads_spec. Qed.

(** ** Witnesses *)

Definition example_config : AdpfConfig :=
  let d := f64_of_Z 1 in
  mkAdpfConfig true d d d d d 100 (-100) true 100 300 400 500 2 1 0 1 166666660 d d
    (Some true) (Some 10) (Some 20) (Some d) (Some d) (Some (400, 600)) (Some (100, 200)) (Some d) (Some 40) (Some 50)
    (Some 300) (Some 50) (Some true) (Some 1000) 100 (Some true) (Some 1) (Some 4).

Definition example_env : Env := mkEnv example_config true false false 0 (fun _ _ => 0).

Definition example_desc : AppHintDesc := new_AppHintDesc 7 1000 10100 [100; 101] TAG_OTHER PROC_DEFAULT 16666666.

Definition example_run : list (Env * PsmOp) :=
  [ (example_env, Op_addPowerSession "1000-10100-7" (Some example_desc) true [100; 101] 0 0 0 0);
    (example_env, Op_voteSet_cpu 7 CPU_LOAD_UP 300 1024 1000 500);
    (example_env, Op_voteSet_gpu 7 GPU_LOAD_UP 200 1000 700) ].

Definition example_state : PowerSessionManager := psm_run example_run (new_PSM None 5 (Some 10)).

Lemma example_all_due : all_due 2000 example_state.
Proof.
  split; [vm_compute; repeat constructor; discriminate |].
  intros sid vs vid Hs. unfold session_votes in Hs. apply fmap_Some in Hs as (e & He & ->).
  assert (mSessions (mSessionTaskMap example_state) = {[7 := mkValEntry 2%positive [100; 101]]}) as E
    by (vm_compute; reflexivity).
  rewrite E in He. apply lookup_singleton_Some in He as [_ <-]. clear E.
  assert (votes (deref (mSessionTaskMap example_state) 2%positive) =
    mkVotes {[0 := new_CpuVote false 0 16666666 0 1024; 1 := new_CpuVote true 1000 500 300 1024]}
            {[5 := new_GpuVote true 1000 700 200]}) as E by (vm_compute; reflexivity).
  cbn [val]. rewrite E. clear E. unfold Votes_voteIsActive, Votes_voteTimeout. cbn [mCpuVotes mGpuVotes].
  destruct (isGpuVote vid).
  - rewrite lookup_singleton. destruct (decide _); [vm_compute; discriminate | discriminate].
  - rewrite lookup_insert. destruct (decide (0 = vid)); [discriminate |].
    rewrite lookup_singleton. destruct (decide (1 = vid)); [vm_compute; discriminate | discriminate].
Qed.


Lemma psm_outputs_bounded_witness :
  Eff_sched_setattr 100 300 1024 ∈ effects example_state /\ 0 <= 300 <= 1024 /\ 1024 <= 1024.
Proof.
  assert (Eff_sched_setattr 100 300 1024 ∈ effects example_state) as Hin.
  { apply list_elem_of_In. vm_compute. tauto. }
  split; [exact Hin |].
  exact (proj1 (psm_outputs_bounded example_run None 5 (Some 10) ltac:(simpl; lia)) 100 300 1024 Hin).
Defined.

Lemma psm_no_null_dereference_witness :
  Eff_null_dereference ∉ effects
    (psm_run (example_run ++ [(example_env, Op_removePowerSession 7 3000 3000)]) (new_PSM None 5 (Some 10))).
Proof.
  apply (psm_no_null_dereference (example_run ++ [(example_env, Op_removePowerSession 7 3000 3000)]) None 5 (Some 10)).
  - simpl; lia.
  - vm_compute. repeat split. left. eexists. reflexivity.
  - discriminate.
Defined.

Lemma removePowerSession_functional_witness :
  psm_findSession (removePowerSession example_env 7 3000 3000 example_state) 7 = None /\
  Eff_SetTaskProfiles 101 ["SCHED_QOS_NONE"] ∈ effects (removePowerSession example_env 7 3000 3000 example_state).
Proof.
  assert (stm_wf (mSessionTaskMap example_state)) as Hwf.
  { exact (pi_wf _ _ (pf_inv _ _ (proj1 (psm_reachable example_run None 5 (Some 10) ltac:(simpl; lia))))). }
  destruct (removePowerSession_functional example_env example_state 7 3000 3000 Hwf) as (A & _ & _ & _ & B).
  - vm_compute. eexists. reflexivity.
  - split; [exact A |]. apply B.
    + apply list_elem_of_In. vm_compute. tauto.
    + intros k Hk. unfold stm_getTaskIds.
      assert (mSessions (mSessionTaskMap example_state) = {[7 := mkValEntry 2%positive [100; 101]]}) as -> by (vm_compute; reflexivity).
      rewrite lookup_singleton_ne by congruence. apply not_elem_of_nil.
Defined.

Lemma setThreads_functional_witness :
  stm_getTaskIds (mSessionTaskMap (setThreadsFromPowerSession example_env 7 [102; 103] 50 60 example_state)) 7 = [102; 103].
Proof.
  apply (setThreads_functional example_env example_state 7 [102; 103] 50 60).
  - exact (pi_wf _ _ (pf_inv _ _ (proj1 (psm_reachable example_run None 5 (Some 10) ltac:(simpl; lia))))).
  - vm_compute. eexists. reflexivity.
  - intros tr tid. discriminate.
Defined.
