(* ===== verification/PowerThreads.v ===== *)
(** * The session manager under overlapping calls
      (src/power-libperfmgr/aidl/PowerSessionManager.cpp, BackgroundWorker.h,
       BackgroundWorker.cpp)

    [PowerSessionManager.v] has every method of the manager as one function.
    In the process several threads call it at once, and a method holds the lock
    of the session map only for parts of its work: [voteSet] schedules the
    timeout of its vote after it has released the lock, [schedule] itself puts
    the payload into its map under one lock and the key into the queue under
    another, [pause], [resume] and the methods that replace threads take the
    lock several times, and the pool's thread takes a key from the queue, the
    payload from the map and the lock of the session map one after the other.
    Here a call is a sequence of such sections, an [Act]; the calls in progress
    are a list of them, and a step lets one of them execute its next section.
    The locks themselves are left out, [handleEvent] schedules again under the
    lock of the session map in the source: there are more schedules here than in
    the code.

    Shown here: a call alone has the effect of the function of
    [PowerSessionManager.v]; in every interleaving the map stays consistent and
    no vote is on without a stored timeout or a call that carries it; if no call
    enters [schedule] while another is between its two halves, that timeout is
    in the queue or carried; and if two do overlap, a vote can stay on with an
    empty queue for good. *)

From S2P Require Import Prelude Text CFloat AdpfTypes UClampVoter SessionMetrics SessionTaskMap BackgroundWorker GpuNode PowerSessionManager.
From Stdlib Require Import Ascii.

(** ** Calls as sequences of critical sections *)

Inductive Act :=
| Act_return
| Act_section (f : Env -> PowerSessionManager -> PowerSessionManager) (next : Env -> PowerSessionManager -> Act)
    (** a section, and what follows, from the state it started in *)
| Act_schedule (e : EventSessionTimeout) (t : Z) (** about to enter [schedule] *)
| Act_push (t : Z) (** in [schedule], before the call into the pool *)
| Act_pop (now tNow : Z) (** the pool's thread at its wait; the clock when it wakes and in the handler *)
| Act_process (pkgId tNow : Z) (** in [process], before the lock *)
| Act_handle (e : EventSessionTimeout) (tNow : Z). (** in [handleEvent], before the lock *)

(** A section followed by the rest of the call. *)
Definition section (f : Env -> PowerSessionManager -> PowerSessionManager) (k : Act) : Act := Act_section f (fun _ _ => k).

Definition applyVotes_act (sessionId t : Z) (k : Act) : Act := section (fun env => applyCpuAndGpuVotes env sessionId t) k.

Definition forceSessionActive_act (sessionId : Z) (active : bool) (now : Z) (k : Act) : Act :=
  Act_section
    (fun _ s => match psm_findSession s sessionId with
                | None => s
                | Some p => psm_modify p (fun v => v <| isActive := active |>) s
                end)
    (fun _ s => match psm_findSession s sessionId with None => k | Some _ => applyVotes_act sessionId now k end).

(** Task profiles are read and set without the lock. *)
Definition profiles_act (sessionId : Z) (isSetProfile : bool) (tids : list Z) (k : Act) : Act :=
  section (fun env s => set_task_profiles (getSessionTaskProfiles env s sessionId isSetProfile) tids s) k.

Definition setThreads_act (sessionId : Z) (threadIds : list Z) (now1 now2 : Z) : Act :=
  forceSessionActive_act sessionId false now1
    (Act_section (fun _ s => s <| mSessionTaskMap := (stm_replace sessionId threadIds (mSessionTaskMap s)).2 |>)
       (fun _ s => let r := (stm_replace sessionId threadIds (mSessionTaskMap s)).1 in
          profiles_act sessionId true (addedThreads r)
            (profiles_act sessionId false (removedThreads r)
               (forceSessionActive_act sessionId true now2 Act_return)))).

(** The descriptor is read and the entry built before the lock is taken. *)
Definition addPowerSession_act (idString : string) (d : option AppHintDesc) (metrics : bool) (tids : list Z)
    (timeNow sysNow now1 now2 : Z) : Act :=
  match d with
  | None => Act_return
  | Some d =>
      Act_section (fun _ s => s)
        (fun env s => let sve := new_session_entry env s idString d metrics timeNow sysNow in
           section (fun _ s => s <| mSessionTaskMap ::= fun m => (stm_add (d_sessionId d) sve [] m).2 |>)
             (setThreads_act (d_sessionId d) tids now1 now2))
  end.

(** The locked part of [removePowerSession]. *)
Definition removePowerSession_locked (sessionId sysNow : Z) (s : PowerSessionManager) : ReplaceResult * PowerSessionManager :=
  let s := match psm_findSession s sessionId with
           | None => emit Eff_null_dereference s
           | Some p => match sessFrameMetrics (psm_deref s p) with
                       | Some m => end_metric_session p m sysNow s
                       | None => s
                       end
           end in
  let '(r, m) := stm_replace sessionId [] (mSessionTaskMap s) in
  (r, s <| mSessionTaskMap := (stm_remove sessionId m).2 |>).

Definition removePowerSession_act (sessionId now sysNow : Z) : Act :=
  forceSessionActive_act sessionId false now
    (Act_section (fun _ s => (removePowerSession_locked sessionId sysNow s).2)
       (fun _ s => profiles_act sessionId false (removedThreads (removePowerSession_locked sessionId sysNow s).1)
                   (section (fun _ => unregisterSession sessionId) Act_return))).

(** The locked parts of [pause] and [resume]; the votes are applied after them
    unless they returned early. *)
Definition pause_locked (env : Env) (sessionId sysEnd sysReset : Z) (s : PowerSessionManager) : PowerSessionManager :=
  match psm_findSession s sessionId with
  | None => s
  | Some p =>
      let v := psm_deref s p in
      if negb (isActive v) then s
      else
        let s := psm_modify p (fun v => v <| isActive := false |>) s in
        let s := if rampupBoostActive v then
                   voteRampupBoostLocked sessionId false kBGRampupVal kBGRampupVal
                     (psm_modify p (fun v => v <| rampupBoostActive := false |>) s)
                 else s in
        match sessFrameMetrics v with
        | None => s
        | Some m => reset_metric_session p (getThermalThrotSev env) (psm_scenario s) sysReset
                      (end_metric_session p m sysEnd s)
        end
  end.

Definition resume_locked (env : Env) (sessionId sysReset : Z) (s : PowerSessionManager) : PowerSessionManager :=
  match psm_findSession s sessionId with
  | None => s
  | Some p =>
      if isActive (psm_deref s p) then s
      else reset_metric_session p (getThermalThrotSev env) (psm_scenario s) sysReset
             (psm_modify p (fun v => v <| isActive := true |>) s)
  end.

(** The session exists and has the activity [active]. *)
Definition session_is (active : bool) (s : PowerSessionManager) (sessionId : Z) : bool :=
  match psm_findSession s sessionId with
  | None => false
  | Some p => Bool.eqb (isActive (psm_deref s p)) active
  end.

Definition voteSet_cpu_act (sessionId : Z) (voteId : AdpfVoteType) (mn mx startTime durationNs : Z) : Act :=
  Act_section (fun env s => (voteSet_cpu_locked env sessionId voteId mn mx startTime durationNs s).2)
    (fun _ s => match psm_findSession s sessionId with
              | Some p => if shouldScheduleTimeout (votes (psm_deref s p)) (vote_int voteId) (startTime +₆₄ durationNs)
                          then Act_schedule (mkEventSessionTimeout startTime sessionId (vote_int voteId)) (startTime +₆₄ durationNs)
                          else Act_return
              | None => Act_return
              end).

Definition voteSet_gpu_act (sessionId : Z) (voteId : AdpfVoteType) (capacity : Cycles) (startTime durationNs : Z) : Act :=
  Act_section (fun env s => (voteSet_gpu_locked env sessionId voteId capacity startTime durationNs s).2)
    (fun _ s => match psm_findSession s sessionId with
              | Some p => if shouldScheduleTimeout (votes (psm_deref s p)) (vote_int voteId) (startTime +₆₄ durationNs)
                          then Act_schedule (mkEventSessionTimeout startTime sessionId (vote_int voteId)) (startTime +₆₄ durationNs)
                          else Act_return
              | None => Act_return
              end).

(** A call of the manager, or a turn of the pool's thread.  The methods not
    listed hold one lock from beginning to end. *)
Definition op_act (o : PsmOp) : Act :=
  match o with
  | Op_addPowerSession ids d metrics tids t sys n1 n2 => addPowerSession_act ids d metrics tids t sys n1 n2
  | Op_removePowerSession sid now sys => removePowerSession_act sid now sys
  | Op_setThreads sid tids n1 n2 => setThreads_act sid tids n1 n2
  | Op_pause sid sysEnd sysReset now =>
      Act_section (fun env => pause_locked env sid sysEnd sysReset)
        (fun _ s => if session_is true s sid then applyVotes_act sid now Act_return else Act_return)
  | Op_resume sid sysReset now =>
      Act_section (fun env => resume_locked env sid sysReset)
        (fun _ s => if session_is false s sid then applyVotes_act sid now Act_return else Act_return)
  | Op_voteSet_cpu sid voteId mn mx start dur => voteSet_cpu_act sid voteId mn mx start dur
  | Op_voteSet_gpu sid voteId capacity start dur => voteSet_gpu_act sid voteId capacity start dur
  | Op_timer fireNow tNow => Act_pop fireNow tNow
  | _ => section (fun env s => psm_op s (env, o)) Act_return
  end.

(** What the pool's thread finds when its wait ends. *)
Definition pool_pop (now : Z) (w : Worker EventSessionTimeout) : option Z * Worker EventSessionTimeout :=
  if pool_wait_done (mWorker w) now then
    let '(r, p) := pool_loop_body (mWorker w) in
    (match r with Loop_call wid pid => if wid =? mCallbackId w then Some pid else None | _ => None end,
     w <| mWorker := p |>)
  else (None, w).

(** The next section of a call. *)
Definition act_step (env : Env) (a : Act) (s : PowerSessionManager) : Act * PowerSessionManager :=
  match a with
  | Act_return => (Act_return, s)
  | Act_section f next => (next env s, f env s)
  | Act_schedule e t => (Act_push t, s <| mEventSessionTimeoutWorker ::= schedule_locked e |>)
  | Act_push t => (Act_return, s <| mEventSessionTimeoutWorker ::= schedule_push t |>)
  | Act_pop now tNow =>
      let '(pkg, w) := pool_pop now (mEventSessionTimeoutWorker s) in
      (match pkg with Some pkgId => Act_process pkgId tNow | None => Act_return end,
       s <| mEventSessionTimeoutWorker := w |>)
  | Act_process pkgId tNow =>
      let '(d, w) := worker_process pkgId (mEventSessionTimeoutWorker s) in
      (match d with Some e => Act_handle e tNow | None => Act_return end, s <| mEventSessionTimeoutWorker := w |>)
  | Act_handle e tNow =>
      let '(outcome, s) := handleEvent_locked e tNow s in
      (match outcome with
       | Timeout_ignored => Act_return
       | Timeout_recalcUclamp => applyVotes_act (ev_sessionId e) tNow Act_return
       | Timeout_requeue voteTimeout => Act_schedule e voteTimeout
       end, s)
  end.

(** ** The manager and the calls in progress *)

Record Threads := mkThreads { th_manager : PowerSessionManager; th_calls : list Act }.

Inductive ThStep := Th_call (o : PsmOp) | Th_section (i : nat).

Definition th_step (st : Threads) (eo : Env * ThStep) : Threads :=
  let '(env, o) := eo in
  match o with
  | Th_call o => mkThreads (th_manager st) (th_calls st ++ [op_act o])
  | Th_section i =>
      match th_calls st !! i with
      | None => st
      | Some a => let '(a, s) := act_step env a (th_manager st) in mkThreads s (<[i := a]> (th_calls st))
      end
  end.

Definition th_run (steps : list (Env * ThStep)) (st : Threads) : Threads := foldl th_step st steps.

(** No call enters [schedule] while another is between its two halves. *)
Definition is_push (a : Act) : bool := match a with Act_push _ => true | _ => false end.
Definition is_schedule (a : Act) : bool := match a with Act_schedule _ _ => true | _ => false end.

Definition step_disjoint (st : Threads) (o : ThStep) : bool :=
  match o with
  | Th_section i => negb (default false (is_schedule <$> th_calls st !! i) && existsb is_push (th_calls st))
  | Th_call _ => true
  end.

Fixpoint disjoint_schedules (steps : list (Env * ThStep)) (st : Threads) : bool :=
  match steps with
  | [] => true
  | eo :: steps => step_disjoint st eo.2 && disjoint_schedules steps (th_step st eo)
  end.

(** ** Where the timeout of a vote is *)

Definition times_out (e : EventSessionTimeout) (sid vid : Z) : Prop := ev_sessionId e = sid /\ ev_voteId e = vid.

(** In the queue, with its payload. *)
Definition timeout_queued (w : Worker EventSessionTimeout) (sid vid : Z) : Prop :=
  exists p e, p ∈ mPackageQueue (mWorker w) /\ mPackages w !! packageId p = Some e /\ times_out e sid vid.

(** In the hands of a call: about to be scheduled, stored but not yet queued,
    taken from the queue, or being handled. *)
Definition carries (w : Worker EventSessionTimeout) (a : Act) : option EventSessionTimeout :=
  match a with
  | Act_schedule e _ | Act_handle e _ => Some e
  | Act_push _ => mPackages w !! mPackageIdCounter w
  | Act_process k _ => mPackages w !! k
  | _ => None
  end.

Definition timeout_carried (st : Threads) (sid vid : Z) : Prop :=
  exists a e, a ∈ th_calls st /\ carries (mEventSessionTimeoutWorker (th_manager st)) a = Some e /\ times_out e sid vid.

(** In the map of payloads, whether or not its key is in the queue. *)
Definition timeout_stored (w : Worker EventSessionTimeout) (sid vid : Z) : Prop :=
  exists k e, mPackages w !! k = Some e /\ times_out e sid vid.

(** ** A call alone *)

Definition act_next (env : Env) (x : Act * PowerSessionManager) : Act * PowerSessionManager := act_step env x.1 x.2.

(** Executed without interference, the call [a] returns and leaves [s']. *)
Definition alone (env : Env) (a : Act) (s s' : PowerSessionManager) : Prop :=
  exists n, Nat.iter n (act_next env) (a, s) = (Act_return, s').

Lemma alone_return (env : Env) (s : PowerSessionManager) : alone env Act_return s s.
Proof. by exists 0%nat. Qed.

Lemma alone_step (env : Env) (a a' : Act) (s s1 s' : PowerSessionManager) :
  act_step env a s = (a', s1) -> alone env a' s1 s' -> alone env a s s'.
Proof.
  intros Ha [n Hn]. exists (S n). rewrite Nat.iter_succ_r. unfold act_next at 2. cbn [fst snd]. by rewrite Ha.
Qed.

Lemma alone_section (env : Env) f next (s s' : PowerSessionManager) :
  alone env (next env s) (f env s) s' -> alone env (Act_section f next) s s'.
Proof. by apply alone_step. Qed.

Lemma alone_force (env : Env) (sid : Z) (b : bool) (t : Z) (k : Act) (s s' : PowerSessionManager) :
  alone env k (forceSessionActive env sid b t s) s' -> alone env (forceSessionActive_act sid b t k) s s'.
Proof.
  intros Hk. apply alone_section. unfold forceSessionActive in Hk. destruct (psm_findSession s sid); [by apply alone_section | done].
Qed.

Lemma alone_setThreads (env : Env) (sid : Z) (tids : list Z) (n1 n2 : Z) (s : PowerSessionManager) :
  alone env (setThreads_act sid tids n1 n2) s (setThreadsFromPowerSession env sid tids n1 n2 s).
Proof.
  apply alone_force, alone_section. unfold setThreadsFromPowerSession.
  destruct (stm_replace sid tids (mSessionTaskMap (forceSessionActive env sid false n1 s))) as [r m].
  apply alone_section, alone_section, alone_force, alone_return.
Qed.

Lemma alone_schedule (env : Env) (e : EventSessionTimeout) (t : Z) (s : PowerSessionManager) :
  alone env (Act_schedule e t) s (psm_schedule e t s).
Proof. eapply alone_step; [reflexivity |]. eapply alone_step; [reflexivity |]. apply alone_return. Qed.

(** The pool's thread takes a key, then the payload. *)
Lemma worker_fire_pop (now : Z) (w : Worker EventSessionTimeout) :
  worker_fire now w = match pool_pop now w with (Some pid, w) => worker_process pid w | (None, w) => (None, w) end.
Proof.
  unfold worker_fire, pool_pop. destruct (pool_wait_done _ _); [| done]. destruct (pool_loop_body _) as [r p].
  destruct r; try done. cbn. by destruct (_ =? _).
Qed.

(** A call that meets no other has the effect of the function of
    [PowerSessionManager.v]. *)
Theorem op_act_alone (env : Env) (o : PsmOp) (s : PowerSessionManager) : alone env (op_act o) s (psm_op s (env, o)).
Proof.
  destruct o; cbn [op_act]; try (apply alone_section, alone_return).
  - unfold addPowerSession_act. cbn [psm_op]. unfold addPowerSession. destruct d as [d |]; [| apply alone_return].
    apply alone_section, alone_section, alone_setThreads.
  - apply alone_force, alone_section. cbn [psm_op]. unfold removePowerSession, removePowerSession_locked.
    set (s1 := forceSessionActive env sid false now s).
    match goal with |- context [stm_replace sid [] (mSessionTaskMap ?x)] => set (s2 := x) end.
    destruct (stm_replace sid [] (mSessionTaskMap s2)) as [r m]. apply alone_section, alone_section, alone_return.
  - apply alone_setThreads.
  - apply alone_section. cbn [psm_op]. unfold session_is, pause_locked, psm_pause.
    destruct (psm_findSession s sid) as [p |]; [| apply alone_return].
    destruct (isActive (psm_deref s p)); cbn [negb Bool.eqb]; [apply alone_section, alone_return | apply alone_return].
  - apply alone_section. cbn [psm_op]. unfold session_is, resume_locked, psm_resume.
    destruct (psm_findSession s sid) as [p |]; [| apply alone_return].
    destruct (isActive (psm_deref s p)); cbn [Bool.eqb]; [apply alone_return | apply alone_section, alone_return].
  - apply alone_section. cbn [psm_op]. unfold voteSet_cpu, voteSet_cpu_locked. destruct (psm_findSession s sid) as [p |]; [| apply alone_return].
    destruct (shouldScheduleTimeout _ _ _); [apply alone_schedule | apply alone_return].
  - apply alone_section. cbn [psm_op]. unfold voteSet_gpu, voteSet_gpu_locked. destruct (psm_findSession s sid) as [p |]; [| apply alone_return].
    destruct (shouldScheduleTimeout _ _ _); [apply alone_schedule | apply alone_return].
  - cbn [psm_op]. unfold timer_turn. rewrite worker_fire_pop.
    destruct (pool_pop fireNow (mEventSessionTimeoutWorker s)) as [[pkg |] w] eqn:Ep.
    + eapply alone_step; [cbn; by rewrite Ep |].
      destruct (worker_process pkg w) as [d w'] eqn:Ew. eapply alone_step; [cbn; by rewrite Ew |].
      destruct d as [e |]; [| apply alone_return]. unfold handleEvent.
      match goal with |- alone _ _ ?x _ => set (s1 := x) end.
      change (s <| mEventSessionTimeoutWorker := w' |>) with s1.
      destruct (handleEvent_locked e tNow s1) as [o s2] eqn:Eh. eapply alone_step; [cbn; by rewrite Eh |].
      destruct o; [apply alone_return | apply alone_section, alone_return | apply alone_schedule].
    + eapply alone_step; [cbn; by rewrite Ep |]. apply alone_return.
Qed.

(** ** The sections of a call *)

(** A section keeps the maps consistent and leaves the timers alone; a vote it
    switches on is one whose timeout the call schedules next. *)
Definition section_ok (s s' : PowerSessionManager) (a' : Act) : Prop :=
  psm_inv true s ->
  psm_inv true s' /\ mEventSessionTimeoutWorker s' = mEventSessionTimeoutWorker s /\
  forall sid vid, active_vote (mSessionTaskMap s') sid vid ->
    active_vote (mSessionTaskMap s) sid vid \/ exists e t, a' = Act_schedule e t /\ times_out e sid vid.

Fixpoint caller_act (a : Act) : Prop :=
  match a with
  | Act_return | Act_schedule _ _ => True
  | Act_section f next => (forall env s, section_ok s (f env s) (next env s)) /\ forall env s, caller_act (next env s)
  | _ => False
  end.

Lemma quiet_section f next :
  (forall env s, quiet true s (f env s)) -> (forall env s, caller_act (next env s)) -> caller_act (Act_section f next).
Proof. intros Hq Hn. split; [| done]. intros env s H. destruct (Hq env s H) as (A & B & C). split_and!; auto. Qed.

Lemma caller_apply (sid t : Z) (k : Act) : caller_act k -> caller_act (applyVotes_act sid t k).
Proof. intros Hk. apply quiet_section; [| done]. intros env s. apply quiet_applyCpuAndGpuVotes. Qed.

Lemma caller_force (sid : Z) (b : bool) (t : Z) (k : Act) : caller_act k -> caller_act (forceSessionActive_act sid b t k).
Proof.
  intros Hk. apply quiet_section; intros env s; (destruct (psm_findSession s sid); [| done]).
  - by apply quiet_modify, benign_same_votes.
  - by apply caller_apply.
Qed.

Lemma caller_profiles (sid : Z) (b : bool) (tids : list Z) (k : Act) : caller_act k -> caller_act (profiles_act sid b tids k).
Proof. intros Hk. apply quiet_section; [| done]. intros env s. apply quiet_set_task_profiles. Qed.

Lemma quiet_replace (sid : Z) (tids : list Z) (s : PowerSessionManager) :
  quiet true s (s <| mSessionTaskMap := (stm_replace sid tids (mSessionTaskMap s)).2 |>).
Proof.
  apply quiet_map; try done. simpl. intros Hwf. split; [by apply stm_replace_wf |]. intros s' vid. by apply active_replace.
Qed.

Lemma caller_setThreads (sid : Z) (tids : list Z) (n1 n2 : Z) : caller_act (setThreads_act sid tids n1 n2).
Proof.
  apply caller_force, quiet_section; intros env s; [apply quiet_replace |].
  by apply caller_profiles, caller_profiles, caller_force.
Qed.

Lemma quiet_remove_locked (sid sys : Z) (s : PowerSessionManager) : quiet true s (removePowerSession_locked sid sys s).2.
Proof.
  unfold removePowerSession_locked. match goal with |- context [stm_replace sid [] (mSessionTaskMap ?x)] => set (s2 := x) end.
  assert (quiet true s s2) as H2.
  { subst s2. destruct (psm_findSession s sid); [| by apply quiet_emit].
    destruct (sessFrameMetrics _); [apply quiet_end_metric_session | reflexivity]. }
  etrans; [exact H2 |]. clearbody s2. destruct (stm_replace sid [] (mSessionTaskMap s2)) as [r m] eqn:E.
  apply quiet_map; try done. simpl. intros Hwf. pose proof (stm_replace_wf sid [] _ Hwf) as W. rewrite E in W.
  split; [auto with inv |]. intros s' vid A%active_remove. apply (active_replace sid []); [done | by rewrite E].
Qed.

Lemma quiet_pause_locked (env : Env) (sid a b : Z) (s : PowerSessionManager) : quiet true s (pause_locked env sid a b s).
Proof.
  unfold pause_locked. destruct (psm_findSession s sid) as [p |]; [| reflexivity].
  destruct (isActive _); cbn [negb]; [| reflexivity].
  trans (psm_modify p (fun v => v <| isActive := false |>) s); [by apply quiet_modify, benign_same_votes |].
  match goal with |- quiet _ ?x _ => generalize x as s1 end. intros s1.
  match goal with |- quiet _ s1 (match _ with Some m => reset_metric_session _ _ _ _ (end_metric_session _ _ _ ?y) | None => _ end) =>
    trans y end.
  - destruct (rampupBoostActive _); [| reflexivity]. etrans; [| apply quiet_voteRampup]. by apply quiet_modify, benign_same_votes.
  - destruct (sessFrameMetrics _); [| reflexivity]. etrans; [apply quiet_end_metric_session | apply quiet_reset_metric].
Qed.

Lemma quiet_resume_locked (env : Env) (sid a : Z) (s : PowerSessionManager) : quiet true s (resume_locked env sid a s).
Proof.
  unfold resume_locked. destruct (psm_findSession s sid) as [p |]; [| reflexivity].
  destruct (isActive _); [reflexivity |]. etrans; [| apply quiet_reset_metric]. by apply quiet_modify, benign_same_votes.
Qed.

(** The common shape of the sections of both [voteSet]s. *)
Lemma vote_section_ok (s s' : PowerSessionManager) (sid vid start deadline : Z) (p : loc) f :
  psm_findSession s sid = Some p -> adds_vote vid f -> quiet true (psm_modify p f s) s' ->
  section_ok s s'
    (if shouldScheduleTimeout (votes (psm_deref s p)) vid deadline
     then Act_schedule (mkEventSessionTimeout start sid vid) deadline else Act_return).
Proof.
  intros Hp (F1 & F2 & F3) Hq H1.
  assert (psm_inv true (psm_modify p f s)) as Hi.
  { split; try apply H1. apply stm_modify_wf; auto. apply H1. }
  destruct (Hq Hi) as (A & B & C). split_and!; [done | done |]. intros k v Ha.
  unfold psm_findSession, stm_findSession in Hp.
  destruct (mSessions (mSessionTaskMap s) !! sid) as [e |] eqn:E; [| done]. injection Hp as <-.
  destruct (C _ _ Ha) as (e' & He' & Ha'). simpl in He', Ha'. rewrite deref_modify in Ha'.
  destruct (decide _) as [[Hv _] |]; [| left; by exists e'].
  destruct (F3 (deref (mSessionTaskMap s) (val e')) v) as [Hb | ->]; [apply deref_votes_wf, H1 | done | left; by exists e' |].
  assert (k = sid) as -> by (eapply val_inj; [apply (pi_wf _ _ H1) | exact He' | exact E | done]).
  unfold shouldScheduleTimeout. destruct (Votes_voteIsActive (votes (psm_deref s (val e))) vid) eqn:Eact.
  - left. by exists e.
  - right. eexists _, _. split; [reflexivity | done].
Qed.

(** Every call of the manager is made of such sections. *)
Lemma op_act_caller (o : PsmOp) : match o with Op_timer _ _ => True | _ => caller_act (op_act o) end.
Proof.
  destruct o; cbn [op_act]; try done;
    try (apply quiet_section; [| done]; intros env s; apply (psm_op_quiet true s env); [done | simpl; auto]).
  - unfold addPowerSession_act. destruct d as [d |]; [| done]. apply quiet_section; intros env s; [reflexivity |].
    apply quiet_section; [| intros; apply caller_setThreads]. intros env' s'.
    apply quiet_map; try done. cbn [mSessionTaskMap]. intros Hwf. split.
    + apply stm_add_wf; [| done]. simpl. auto with inv.
    + intros s'' vid. apply active_add; [done |]. intros v. simpl. unfold Votes_voteIsActive, Votes_add_cpu.
      destruct (isGpuVote v) eqn:Ev; simpl; [by rewrite lookup_empty |].
      rewrite lookup_insert. destruct (decide _); simpl; [done | by rewrite lookup_empty].
  - apply caller_force, quiet_section; intros env s; [apply quiet_remove_locked |].
    apply caller_profiles, quiet_section; [| done]. intros env' s'. by apply quiet_other.
  - apply caller_setThreads.
  - apply quiet_section; intros env s; [apply quiet_pause_locked |]. destruct (session_is _ _ _); [by apply caller_apply | done].
  - apply quiet_section; intros env s; [apply quiet_resume_locked |]. destruct (session_is _ _ _); [by apply caller_apply | done].
  - split; [| intros env s; by repeat case_match]. intros env s. unfold voteSet_cpu_locked.
    destruct (psm_findSession s sid) as [p |] eqn:Ep; [| by intros H; split_and!; auto].
    eapply vote_section_ok; [exact Ep | apply adds_vote_cpu |].
    etrans; [| apply quiet_applyUclampLocked]. etrans; [| by apply quiet_modify, benign_same_votes].
    apply quiet_other; try done. simpl. unfold stm_addVote.
    unfold psm_findSession, stm_findSession in Ep. destruct (mSessions (mSessionTaskMap s) !! sid); [| done]. by injection Ep as ->.
  - split; [| intros env s; by repeat case_match]. intros env s. unfold voteSet_gpu_locked.
    destruct (psm_findSession s sid) as [p |] eqn:Ep; [| by intros H; split_and!; auto].
    eapply vote_section_ok; [exact Ep | apply adds_vote_gpu |].
    etrans; [| apply quiet_applyGpuVotesLocked]. etrans; [| by apply quiet_modify, benign_same_votes].
    apply quiet_other; try done. simpl. unfold stm_addGpuVote.
    unfold psm_findSession, stm_findSession in Ep. destruct (mSessions (mSessionTaskMap s) !! sid); [| done]. by injection Ep as ->.
Qed.

(** ** The invariant of all interleavings *)

Definition thread_ok (a : Act) : Prop :=
  match a with Act_push _ | Act_pop _ _ | Act_process _ _ | Act_handle _ _ => True | _ => caller_act a end.

Record timers_ok (n : Z) (w : Worker EventSessionTimeout) : Prop := {
  to_running : mRunning (mWorker w) = true;
  to_callback : mCallbackId w ∈ mCallbackMap (mWorker w);
  to_worker : Forall (fun p => templateQueueWorkerId p = mCallbackId w) (mPackageQueue (mWorker w));
  to_keys : forall k, is_Some (mPackages w !! k) -> k <= mPackageIdCounter w;
  to_counter : 0 <= mPackageIdCounter w <= n
}.

(** The timeout of a call that has it outside the map of payloads. *)
Definition holds (a : Act) : option EventSessionTimeout :=
  match a with Act_schedule e _ | Act_handle e _ => Some e | _ => None end.

Definition covered (st : Threads) (sid vid : Z) : Prop :=
  timeout_stored (mEventSessionTimeoutWorker (th_manager st)) sid vid \/
  exists a e, a ∈ th_calls st /\ holds a = Some e /\ times_out e sid vid.

Record th_inv (n : Z) (st : Threads) : Prop := {
  ti_psm : psm_inv true (th_manager st);
  ti_timers : timers_ok n (mEventSessionTimeoutWorker (th_manager st));
  ti_calls : Forall thread_ok (th_calls st);
  ti_cover : forall sid vid, active_vote (mSessionTaskMap (th_manager st)) sid vid -> covered st sid vid
}.

(** While [schedule]s do not overlap: every payload has its key in the queue,
    or is the last one stored and its call is about to queue it, or its key has
    just been taken out; and at most one call is between the halves. *)
Record th_queued (st : Threads) : Prop := {
  tq_keys : forall k, is_Some (mPackages (mEventSessionTimeoutWorker (th_manager st)) !! k) ->
    k ∈ packageId <$> mPackageQueue (mWorker (mEventSessionTimeoutWorker (th_manager st))) \/
    (k = mPackageIdCounter (mEventSessionTimeoutWorker (th_manager st)) /\ exists t, Act_push t ∈ th_calls st) \/
    exists t, Act_process k t ∈ th_calls st;
  tq_one : forall i j t t', th_calls st !! i = Some (Act_push t) -> th_calls st !! j = Some (Act_push t') -> i = j
}.

Lemma elem_insert_other {A} (l : list A) (i : nat) (a a' b : A) : l !! i = Some a -> b ∈ l -> b ∈ <[i := a']> l \/ b = a.
Proof.
  intros Ha [j Hj]%list_elem_of_lookup. destruct (decide (i = j)) as [-> | Hne]; [right; congruence | left].
  apply list_elem_of_lookup. exists j. by rewrite list_lookup_insert_ne.
Qed.

Lemma elem_insert_this {A} (l : list A) (i : nat) (a a' : A) : l !! i = Some a -> a' ∈ <[i := a']> l.
Proof. intros Ha. apply list_elem_of_lookup. exists i. apply list_lookup_insert_eq. by eapply lookup_lt_Some. Qed.

Lemma schedule_locked_fresh (n : Z) (e : EventSessionTimeout) (w : Worker EventSessionTimeout) :
  timers_ok n w -> n + 1 < 2 ^ 63 ->
  mPackageIdCounter (schedule_locked e w) = mPackageIdCounter w + 1 /\
  mPackages (schedule_locked e w) = <[mPackageIdCounter w + 1 := e]> (mPackages w) /\
  mPackages w !! (mPackageIdCounter w + 1) = None /\
  timers_ok (n + 1) (schedule_locked e w).
Proof.
  intros H Hn. pose proof (to_counter _ _ H).
  assert (mPackages w !! (mPackageIdCounter w + 1) = None) as Hf.
  { apply eq_None_not_Some. intros Hk%(to_keys _ _ H). lia. }
  unfold schedule_locked. simpl. rewrite i64_id by (unfold is_i64; lia). rewrite Hf. split_and!; try done.
  split; simpl; try apply H; [| lia]. intros k. rewrite lookup_insert. destruct (decide _); [lia |].
  intros Hk%(to_keys _ _ H). lia.
Qed.

Lemma pool_pop_ok (n now : Z) (w : Worker EventSessionTimeout) :
  timers_ok n w ->
  timers_ok n (pool_pop now w).2 /\ mPackages (pool_pop now w).2 = mPackages w /\
  mPackageIdCounter (pool_pop now w).2 = mPackageIdCounter w /\
  match (pool_pop now w).1 with
  | Some k => exists top rest, mPackageQueue (mWorker w) = top :: rest /\ packageId top = k /\
      mPackageQueue (mWorker (pool_pop now w).2) = rest
  | None => (pool_pop now w).2 = w
  end.
Proof.
  intros H. unfold pool_pop, pool_wait_done, pool_loop_body. rewrite (to_running _ _ H). simpl.
  pose proof (to_worker _ _ H) as Hw. destruct (mPackageQueue (mWorker w)) as [| top rest] eqn:Eq; [by split_and! |].
  apply Forall_cons in Hw as [Ht Hw]. destruct (now <? deadline top); simpl; [by split_and! |].
  rewrite Ht, decide_True by apply H. simpl. rewrite Z.eqb_refl. split_and!; try done; [| by exists top, rest].
  split; simpl; try apply H. done.
Qed.

(** What the handler leaves of the vote of its event. *)
Lemma handle_section (e : EventSessionTimeout) (tNow : Z) (s : PowerSessionManager) :
  psm_inv true s ->
  quiet true s (handleEvent_locked e tNow s).2 /\
  match (handleEvent_locked e tNow s).1 with
  | Timeout_requeue _ => True
  | _ => ~ active_vote (mSessionTaskMap (handleEvent_locked e tNow s).2) (ev_sessionId e) (ev_voteId e)
  end.
Proof.
  intros H. unfold handleEvent_locked, psm_findSession, stm_findSession.
  destruct (mSessions (mSessionTaskMap s) !! ev_sessionId e) as [ve |] eqn:E; simpl.
  2: { split; [reflexivity |]. intros (x & Hx & _). congruence. }
  unfold psm_deref. destruct (Votes_voteIsActive (votes (deref (mSessionTaskMap s) (val ve))) (ev_voteId e)) eqn:Eact; simpl.
  - destruct (_ <=? tNow); simpl; [| split; [reflexivity | done]].
    split; [apply quiet_modify, setUse_off_benign |].
    by eapply setUse_off_inactive; [apply (pi_wf _ _ H) | exact E | reflexivity].
  - split; [reflexivity |]. intros (x & Hx & Hax). congruence.
Qed.

Lemma covered_step (st : Threads) (i : nat) (a a' : Act) (s' : PowerSessionManager) (sid vid : Z) :
  th_calls st !! i = Some a -> covered st sid vid ->
  let st' := mkThreads s' (<[i := a']> (th_calls st)) in
  (timeout_stored (mEventSessionTimeoutWorker (th_manager st)) sid vid -> covered st' sid vid) ->
  (forall e, holds a = Some e -> times_out e sid vid -> covered st' sid vid) -> covered st' sid vid.
Proof.
  intros Hi [Hs | (b & e & Hb & He & Ht)] st' H1 H2; [auto |].
  destruct (elem_insert_other _ i a a' b Hi Hb) as [Hb' | ->]; [| by apply (H2 e)].
  right. by exists b, e.
Qed.

Lemma covered_this (st : Threads) (i : nat) (a a' : Act) (s' : PowerSessionManager) (e : EventSessionTimeout) (sid vid : Z) :
  th_calls st !! i = Some a -> holds a' = Some e -> times_out e sid vid ->
  covered (mkThreads s' (<[i := a']> (th_calls st))) sid vid.
Proof. intros Hi He Ht. right. exists a', e. split_and!; [by eapply elem_insert_this | done | done]. Qed.

(** One section of one call keeps the invariant. *)
Lemma section_inv (n : Z) (st : Threads) (env : Env) (i : nat) (a a' : Act) (s' : PowerSessionManager) :
  th_inv n st -> n + 1 < 2 ^ 63 -> th_calls st !! i = Some a -> act_step env a (th_manager st) = (a', s') ->
  th_inv (n + 1) (mkThreads s' (<[i := a']> (th_calls st))).
Proof.
  intros [H1 H2 H3 H4] Hn Hi Hstep.
  assert (thread_ok a) as Ha by by eapply (Forall_lookup_1 _ _ _ _ H3).
  assert (forall w, timers_ok n w -> timers_ok (n + 1) w) as Hmono.
  { intros w H. split; try apply H. pose proof (to_counter _ _ H). lia. }
  set (w := mEventSessionTimeoutWorker (th_manager st)) in *.
  assert (forall w', psm_inv true ((th_manager st) <| mEventSessionTimeoutWorker := w' |>)) as Hw by (intros w'; split; apply H1).
  destruct a as [| f next | e t | t | now tNow | k tNow | e tNow]; cbn in Hstep.
  - injection Hstep as <- <-. rewrite list_insert_id by done. destruct st. split; auto.
  - injection Hstep as <- <-. destruct Ha as [Ha Hnext]. destruct (Ha env _ H1) as (A & B & C).
    split; cbn [th_manager th_calls]; [done | rewrite B; auto | |].
    + apply Forall_insert; [done |]. specialize (Hnext env (th_manager st)). by destruct (next env (th_manager st)).
    + intros sid vid Hact. destruct (C sid vid Hact) as [Hold | (e & t & Enext & Ht)].
      * eapply covered_step; [exact Hi | by apply H4 | | done]. intros Hst. left. cbn [th_manager]. by rewrite B.
      * rewrite Enext. by eapply covered_this.
  - injection Hstep as <- <-. destruct (schedule_locked_fresh n e w H2 Hn) as (A & B & C & D).
    split; cbn [th_manager th_calls]; [apply Hw | done | by apply Forall_insert |].
    intros sid vid Hact. eapply covered_step; [exact Hi | by apply H4 | |].
    + intros (k & e' & Hk & Ht). left. exists k, e'. split; [| done]. cbn -[schedule_locked]. fold w. rewrite B.
      rewrite lookup_insert_ne; [done |]. intros <-. fold w in Hk. congruence.
    + intros e' [= <-] Ht. left. exists (mPackageIdCounter w + 1), e. split; [| done]. cbn -[schedule_locked]. fold w. by rewrite B, lookup_insert_eq.
  - injection Hstep as <- <-. split; cbn [th_manager th_calls]; [apply Hw | | by apply Forall_insert |].
    + apply Hmono. split; cbn; try apply H2. rewrite pq_insert_perm. constructor; [done | apply H2].
    + intros sid vid Hact. eapply covered_step; [exact Hi | by apply H4 | by left | done].
  - destruct (pool_pop_ok n now w H2) as (A & B & C & _). fold w in Hstep. destruct (pool_pop now w) as [pkg w'].
    injection Hstep as <- <-. cbn [fst snd] in *.
    split; cbn [th_manager th_calls]; [apply Hw | cbn; auto | apply Forall_insert; [done | by destruct pkg] |].
    intros sid vid Hact. eapply covered_step; [exact Hi | by apply H4 | | done].
    intros Hs. left. unfold timeout_stored in *. cbn. fold w in Hs. by rewrite B.
  - unfold worker_process in Hstep. fold w in Hstep.
    destruct (mPackages w !! k) as [e |] eqn:Ek; injection Hstep as <- <-.
    + split; cbn [th_manager th_calls]; [apply Hw | | by apply Forall_insert |].
      * apply Hmono. split; cbn; try apply H2. intros k'. rewrite lookup_delete_is_Some. intros [_ Hk]. by apply H2.
      * intros sid vid Hact. eapply covered_step; [exact Hi | by apply H4 | | done].
        intros (k' & e' & Hk' & Ht). fold w in Hk'. destruct (decide (k = k')) as [<- | Hne].
        -- assert (e' = e) as -> by congruence. by eapply covered_this.
        -- left. exists k', e'. split; [| done]. cbn. fold w. by rewrite lookup_delete_ne.
    + split; cbn [th_manager th_calls]; [apply Hw | cbn; auto | by apply Forall_insert |].
      intros sid vid Hact. eapply covered_step; [exact Hi | by apply H4 | by left | done].
  - destruct (handle_section e tNow (th_manager st) H1) as [Hq Hoff]. destruct (Hq H1) as (A & B & C).
    destruct (handleEvent_locked e tNow (th_manager st)) as [o s1]. injection Hstep as <- <-. cbn [fst snd] in *.
    split; cbn [th_manager th_calls]; [done | rewrite B; auto | |].
    + apply Forall_insert; [done |]. destruct o; cbn; [done | | done]. by apply caller_apply.
    + intros sid vid Hact. eapply covered_step; [exact Hi | by apply H4, C | |].
      * intros Hs. left. cbn [th_manager]. by rewrite B.
      * intros e' [= <-] [<- <-]. destruct o; [by destruct Hoff | by destruct Hoff |]. by eapply covered_this.
Qed.

Lemma call_inv (n : Z) (st : Threads) (o : PsmOp) :
  th_inv n st -> th_inv (n + 1) (mkThreads (th_manager st) (th_calls st ++ [op_act o])).
Proof.
  intros [H1 H2 H3 H4]. split; cbn [th_manager th_calls]; [done | | |].
  - split; try apply H2. pose proof (to_counter _ _ H2). lia.
  - apply Forall_app. split; [done |]. apply Forall_singleton. pose proof (op_act_caller o) as Ho.
    destruct (op_act o) eqn:E; try done; destruct o; done.
  - intros sid vid Ha. destruct (H4 sid vid Ha) as [Hs | (a & e & Hin & ?)]; [by left | right].
    exists a, e. cbn [th_calls]. rewrite elem_of_app. auto.
Qed.

(** Only entering [schedule] puts a call between its halves. *)
Lemma step_push (env : Env) (a a' : Act) (s s' : PowerSessionManager) :
  thread_ok a -> act_step env a s = (a', s') -> is_push a' = true -> is_schedule a = true.
Proof.
  intros Ha Hstep Hp. destruct a as [| f next | e t | t | now tNow | k tNow | e tNow]; cbn in Hstep; try done;
    try (by injection Hstep as <- _).
  - injection Hstep as <- _. destruct Ha as [_ Ha]. specialize (Ha env s). by destruct (next env s).
  - destruct (pool_pop _ _) as [[] ?]; by injection Hstep as <- _.
  - destruct (worker_process _ _) as [[] ?]; by injection Hstep as <- _.
  - destruct (handleEvent_locked _ _ _) as [[] ?]; by injection Hstep as <- _.
Qed.

Lemma push_elem (l : list Act) (t : Z) : Act_push t ∈ l -> existsb is_push l = true.
Proof. intros Hin. apply existsb_exists. exists (Act_push t). split; [by apply list_elem_of_In | done]. Qed.

(** Keys that stay covered when only the call [i] changes, and it was neither
    between the halves of [schedule] nor taking a payload out. *)
Lemma keys_step (st : Threads) (i : nat) (a a' : Act) (k : Z) (c : Z) :
  th_calls st !! i = Some a -> is_push a = false -> (forall t, a <> Act_process k t) ->
  (k = c /\ exists t, Act_push t ∈ th_calls st) \/ (exists t, Act_process k t ∈ th_calls st) ->
  (k = c /\ exists t, Act_push t ∈ <[i := a']> (th_calls st)) \/ (exists t, Act_process k t ∈ <[i := a']> (th_calls st)).
Proof.
  intros Hi Hp Hk [[-> [t Ht]] | [t Ht]].
  - left. split; [done |]. exists t. destruct (elem_insert_other _ i a a' _ Hi Ht) as [| <-]; done.
  - right. exists t. destruct (elem_insert_other _ i a a' _ Hi Ht) as [| <-]; [done | by destruct (Hk t)].
Qed.

Lemma section_queued (n : Z) (st : Threads) (env : Env) (i : nat) (a a' : Act) (s' : PowerSessionManager) :
  th_inv n st -> n + 1 < 2 ^ 63 -> th_queued st -> is_schedule a && existsb is_push (th_calls st) = false ->
  th_calls st !! i = Some a -> act_step env a (th_manager st) = (a', s') ->
  th_queued (mkThreads s' (<[i := a']> (th_calls st))).
Proof.
  intros [H1 H2 H3 _] Hn [Q1 Q2] Hdis Hi Hstep.
  assert (thread_ok a) as Ha by by eapply (Forall_lookup_1 _ _ _ _ H3).
  split; cbn [th_manager th_calls].
  2: { assert (forall j t, is_push a' = true -> th_calls st !! j = Some (Act_push t) -> False) as Hno.
       { intros j t Hp Hj. rewrite (step_push env a _ _ _ Ha Hstep Hp) in Hdis.
         by rewrite (push_elem _ t) in Hdis by (apply list_elem_of_lookup; eauto). }
       intros j1 j2 t1 t2 [(<- & E1 & _) | [N1 L1]]%list_lookup_insert_Some [(<- & E2 & _) | [N2 L2]]%list_lookup_insert_Some;
         [done | | | by eapply Q2].
       - destruct (Hno j2 t2); [by rewrite E1 | done].
       - destruct (Hno j1 t1); [by rewrite E2 | done]. }
  set (w := mEventSessionTimeoutWorker (th_manager st)) in *.
  destruct a as [| f next | e t | t | now tNow | k0 tNow | e tNow]; cbn in Hstep.
  - injection Hstep as <- <-. rewrite list_insert_id by done. exact Q1.
  - injection Hstep as <- <-. destruct Ha as [Ha _]. destruct (Ha env _ H1) as (_ & -> & _).
    intros k Hk. destruct (Q1 k Hk) as [Hq | Hq]; [by left | right]. by eapply keys_step.
  - injection Hstep as <- <-. destruct (schedule_locked_fresh n e w H2 Hn) as (A & B & _).
    change (mEventSessionTimeoutWorker _) with (schedule_locked e w). rewrite A, B.
    intros k. rewrite lookup_insert. destruct (decide _) as [<- |]; intros Hk.
    { right; left. split; [done |]. exists t. by eapply elem_insert_this. }
    destruct (Q1 k Hk) as [Hq | [[_ [t' Ht]] | [t' Ht]]]; [by left | | right; right].
    + cbn in Hdis. by rewrite (push_elem _ _ Ht) in Hdis.
    + exists t'. by destruct (elem_insert_other _ i _ (Act_push t) _ Hi Ht).
  - injection Hstep as <- <-. change (mEventSessionTimeoutWorker _) with (schedule_push t w). cbn -[pq_insert].
    intros k Hk. rewrite pq_insert_perm. cbn. destruct (Q1 k Hk) as [Hq | [[-> _] | [t' Ht]]].
    + left. by constructor.
    + left. fold w. constructor.
    + right; right. exists t'. by destruct (elem_insert_other _ i _ Act_return _ Hi Ht).
  - destruct (pool_pop_ok n now w H2) as (_ & B & C & D). fold w in Hstep. destruct (pool_pop now w) as [pkg w'].
    injection Hstep as <- <-. cbn [fst snd] in *. 
    match goal with |- context [mEventSessionTimeoutWorker ?x] => change (mEventSessionTimeoutWorker x) with w' end.
    rewrite B, C. intros k Hk. specialize (Q1 k Hk). destruct pkg as [k1 |].
    + destruct D as (top & rest & Eq & <- & ->). rewrite Eq in Q1. destruct Q1 as [Hq | Hq].
      * cbn in Hq. apply elem_of_cons in Hq as [-> | Hq]; [| by left]. right; right. exists tNow. by eapply elem_insert_this.
      * right. by eapply keys_step.
    + subst w'. destruct Q1 as [Hq | Hq]; [by left | right]. by eapply keys_step.
  - unfold worker_process in Hstep. fold w in Hstep. destruct (mPackages w !! k0) as [e |] eqn:Ek; injection Hstep as <- <-; cbn; fold w.
    + intros k [Hne Hk]%lookup_delete_is_Some. destruct (Q1 k Hk) as [Hq | Hq]; [by left | right].
      eapply keys_step; [exact Hi | done | congruence | done].
    + intros k Hk. destruct (Q1 k Hk) as [Hq | Hq]; [by left | right].
      eapply keys_step; [exact Hi | done | | done]. intros t [= -> _]. rewrite Ek in Hk. by destruct Hk.
  - destruct (handle_section e tNow (th_manager st) H1) as [Hq0 _]. destruct (Hq0 H1) as (_ & B & _).
    destruct (handleEvent_locked e tNow (th_manager st)) as [o s1]. injection Hstep as <- <-. cbn [fst snd] in *.
    rewrite B. intros k Hk. destruct (Q1 k Hk) as [Hq | Hq]; [by left | right]. by eapply keys_step.
Qed.

(** ** Runs *)

Definition start_threads (node : option (option GpuCapacityNode)) (fd : Z) (mx : option Z) : Threads :=
  mkThreads (new_PSM node fd mx) [].

Lemma start_inv node fd mx : th_inv 0 (start_threads node fd mx) /\ th_queued (start_threads node fd mx).
Proof.
  destruct (new_PSM_full true node fd mx) as [[A B C] _]; [done |]. split; split; cbn [start_threads th_manager th_calls].
  - done.
  - split; try apply B; [| done]. intros k [x Hx]. cbn in Hx. by rewrite lookup_empty in Hx.
  - done.
  - intros sid vid Ha. destruct (C sid vid Ha) as (e & He & ?). cbn in He. by apply not_elem_of_nil in He.
  - intros k [x Hx]. cbn in Hx. by rewrite lookup_empty in Hx.
  - intros i j t t' Hi. cbn in Hi. by rewrite lookup_nil in Hi.
Qed.

Lemma th_step_inv (n : Z) (st : Threads) (eo : Env * ThStep) : th_inv n st -> n + 1 < 2 ^ 63 -> th_inv (n + 1) (th_step st eo).
Proof.
  intros H Hn. destruct eo as [env [o | i]]; cbn [th_step]; [by apply call_inv |].
  destruct (th_calls st !! i) as [a |] eqn:Ei.
  - destruct (act_step env a (th_manager st)) as [a' s'] eqn:Es. by eapply section_inv.
  - destruct H as [H1 H2 H3 H4]. split; try done. split; try apply H2. pose proof (to_counter _ _ H2). lia.
Qed.

Lemma th_step_queued (n : Z) (st : Threads) (eo : Env * ThStep) :
  th_inv n st -> n + 1 < 2 ^ 63 -> th_queued st -> step_disjoint st eo.2 = true -> th_queued (th_step st eo).
Proof.
  intros H Hn Q Hd. destruct eo as [env [o | i]]; cbn [th_step snd step_disjoint] in *.
  - destruct Q as [Q1 Q2]. pose proof (op_act_caller o) as Ho.
    assert (is_push (op_act o) = false) as Hp by (destruct (op_act o) eqn:E; try done; by destruct o).
    split; cbn [th_manager th_calls].
    + intros k Hk. destruct (Q1 k Hk) as [? | [[? [t ?]] | [t ?]]]; [by left | right; left | right; right].
      * split; [done |]. exists t. rewrite elem_of_app. by left.
      * exists t. rewrite elem_of_app. by left.
    + intros i j t t' Hi Hj.
      apply lookup_app_Some in Hi as [Hi | [_ Hi]]; [| apply list_lookup_singleton_Some in Hi as [_ Hi]; by rewrite Hi in Hp].
      apply lookup_app_Some in Hj as [Hj | [_ Hj]]; [| apply list_lookup_singleton_Some in Hj as [_ Hj]; by rewrite Hj in Hp].
      by eapply Q2.
  - destruct (th_calls st !! i) as [a |] eqn:Ei; [| done]. cbn in Hd. apply negb_true_iff in Hd.
    destruct (act_step env a (th_manager st)) as [a' s'] eqn:Es. by eapply section_queued.
Qed.

Lemma th_run_inv (steps : list (Env * ThStep)) (n : Z) (st : Threads) :
  th_inv n st -> n + Z.of_nat (length steps) < 2 ^ 63 -> th_inv (n + Z.of_nat (length steps)) (th_run steps st).
Proof.
  revert n st. induction steps as [| eo steps IH]; intros n st H Hn; [by rewrite Z.add_0_r |].
  rewrite length_cons, Nat2Z.inj_succ in *. replace (n + Z.succ (Z.of_nat (length steps))) with (n + 1 + Z.of_nat (length steps)) by lia.
  apply IH; [apply th_step_inv; [done | lia] | lia].
Qed.

Lemma th_run_queued (steps : list (Env * ThStep)) (n : Z) (st : Threads) :
  th_inv n st -> n + Z.of_nat (length steps) < 2 ^ 63 -> th_queued st -> disjoint_schedules steps st = true ->
  th_queued (th_run steps st).
Proof.
  revert n st. induction steps as [| eo steps IH]; intros n st H Hn Q Hd; [done |].
  rewrite length_cons, Nat2Z.inj_succ in Hn. cbn in Hd. apply andb_true_iff in Hd as [Hd1 Hd2].
  apply (IH (n + 1)); [apply th_step_inv; [done | lia] | lia | apply (th_step_queued n); [done | lia | done | done] | done].
Qed.

(** C1. Calls of the manager and turns of the pool's thread interleaved section
    by section: in every state the two maps are consistent, and every vote that
    is switched on has its timeout stored with the worker or in the hands of a
    call in progress.  If no call entered [schedule] while another was between
    its two halves, the timeout is in the queue with its payload, or in the
    hands of a call; so with no call in progress it is in the queue. *)
Theorem psm_timers_armed (steps : list (Env * ThStep)) (node : option (option GpuCapacityNode)) (fd : Z) (mx : option Z)
    (Hlen : Z.of_nat (length steps) < 2 ^ 62) :
  let st := th_run steps (start_threads node fd mx) in
  stm_wf (mSessionTaskMap (th_manager st)) /\
  (forall sid vid, active_vote (mSessionTaskMap (th_manager st)) sid vid ->
     timeout_stored (mEventSessionTimeoutWorker (th_manager st)) sid vid \/ timeout_carried st sid vid) /\
  (disjoint_schedules steps (start_threads node fd mx) = true ->
   forall sid vid, active_vote (mSessionTaskMap (th_manager st)) sid vid ->
     timeout_queued (mEventSessionTimeoutWorker (th_manager st)) sid vid \/ timeout_carried st sid vid).
Proof.
  intros st. destruct (start_inv node fd mx) as [H0 Q0].
  pose proof (th_run_inv steps 0 _ H0 ltac:(lia)) as [H1 _ _ H4]. fold st in H1, H4.
  assert (forall a e sid vid, a ∈ th_calls st -> holds a = Some e -> times_out e sid vid -> timeout_carried st sid vid) as Hhold.
  { intros a e sid vid Hin He Ht. exists a, e. split_and!; [done | by destruct a | done]. }
  split_and!; [apply H1 | |].
  - intros sid vid Ha. destruct (H4 sid vid Ha) as [| (a & e & ? & ? & ?)]; [by left | right; eauto].
  - intros Hd sid vid Ha. pose proof (th_run_queued steps 0 _ H0 ltac:(lia) Q0 Hd) as [Q _]. fold st in Q.
    destruct (H4 sid vid Ha) as [(k & e & Hk & Ht) | (a & e & ? & ? & ?)]; [| right; eauto].
    destruct (Q k (mk_is_Some _ _ Hk)) as [(p & -> & Hp)%list_elem_of_fmap | [[-> [t Hin]] | [t Hin]]].
    + left. by exists p, e.
    + right. by exists (Act_push t), e.
    + right. by exists (Act_process k t), e.
Qed.

(** Two overlapping votes can lose a timeout: both [schedule]s have stored
    their payload before either reaches the queue, so the key of the second is
    queued twice.  After the pool's thread has taken both, no call is in
    progress, the queue is empty, and the first vote is still on. *)
Definition race_steps : list (Env * ThStep) :=
  let add := Th_call (Op_addPowerSession "1000-10100-7" (Some example_desc) true [100; 101] 0 0 0 0) in
  let run n i := repeat (example_env, Th_section i) n in
  [(example_env, add)] ++ run 9%nat 0%nat ++
  [(example_env, Th_call (Op_voteSet_cpu 7 CPU_LOAD_UP 300 1024 1000 500));
   (example_env, Th_call (Op_voteSet_cpu 7 CPU_LOAD_RESET 200 1024 1000 700))] ++
  run 2%nat 1%nat ++ run 3%nat 2%nat ++ run 1%nat 1%nat ++
  [(example_env, Th_call (Op_timer 2000 2000)); (example_env, Th_call (Op_timer 2000 2000))] ++ run 4%nat 3%nat ++ run 4%nat 4%nat.

Theorem overlapping_votes_lose_timeout :
  let st := th_run race_steps (start_threads None 5 (Some 10)) in
  Forall (fun a => a = Act_return) (th_calls st) /\
  mPackageQueue (mWorker (mEventSessionTimeoutWorker (th_manager st))) = [] /\
  active_vote (mSessionTaskMap (th_manager st)) 7 (vote_int CPU_LOAD_UP).
Proof.
  split_and!; [vm_compute; repeat constructor | vm_compute; reflexivity |].
  eexists. split; vm_compute; reflexivity.
Qed.

(** ** Witness *)

Definition example_thread_steps : list (Env * ThStep) :=
  [(example_env, Th_call (Op_addPowerSession "1000-10100-7" (Some example_desc) true [100; 101] 0 0 0 0))] ++
  repeat (example_env, Th_section 0%nat) 9 ++
  [(example_env, Th_call (Op_voteSet_cpu 7 CPU_LOAD_UP 300 1024 1000 500));
   (example_env, Th_call (Op_voteSet_gpu 7 GPU_LOAD_UP 200 1000 700));
   (example_env, Th_section 1%nat); (example_env, Th_section 2%nat); (example_env, Th_section 1%nat);
   (example_env, Th_section 1%nat); (example_env, Th_section 2%nat)].

Lemma psm_timers_armed_witness :
  let st := th_run example_thread_steps (start_threads None 5 (Some 10)) in
  active_vote (mSessionTaskMap (th_manager st)) 7 (vote_int CPU_LOAD_UP) /\
  (timeout_queued (mEventSessionTimeoutWorker (th_manager st)) 7 (vote_int CPU_LOAD_UP) \/
   timeout_carried st 7 (vote_int CPU_LOAD_UP)).
Proof.
  intros st. assert (active_vote (mSessionTaskMap (th_manager st)) 7 (vote_int CPU_LOAD_UP)) as Ha.
  { eexists. split; vm_compute; reflexivity. }
  split; [exact Ha |].
  exact (proj2 (proj2 (psm_timers_armed example_thread_steps None 5 (Some 10) ltac:(vm_compute; reflexivity)))
           ltac:(vm_compute; reflexivity) 7 _ Ha).
Defined.
