(* ===== verification/PowerHintSession.v ===== *)
(** * Hint sessions
      (src/power-libperfmgr/aidl/PowerHintSession.h, PowerHintSession.cpp)

    A hint session receives target and actual work durations and hints from a
    client and turns them into votes at the session manager.  The source is a
    template over the manager, [PowerSessionManagerT]; here that interface is
    the type class of the same name, and the theorems about a session hold for
    every manager.  [PowerSessionManager.v] provides the instance.

    Shown here: a closed session rejects every call and leaves the manager
    alone; every status code has exactly its documented cause; the PID
    controller's integral term and its output stay within the configured
    bounds; a session is removed from its manager exactly once.  With the real
    manager: every call of a client is a short sequence of the manager's own
    operations, and a session paused by its client stays active at the manager,
    so that resuming it never reaches the manager's [resume]. *)

From S2P Require Import Prelude Text CFloat AdpfTypes UClampVoter SessionMetrics SessionRecords SessionTaskMap BackgroundWorker GpuNode PowerSessionManager.
From Stdlib Require Import Ascii.

(** ** The manager, as the session sees it

    Readings of the clock inside a manager operation come from a stream. *)

Definition Readings : Type := nat -> Z.

Class PowerSessionManagerT (M : Type) := {
  pm_addPowerSession : string -> AppHintDesc -> bool -> list Z -> Readings -> M -> M;
  pm_removePowerSession : Z -> Readings -> M -> M;
  pm_setThreadsFromPowerSession : Z -> list Z -> Readings -> M -> M;
  pm_pause : Z -> Readings -> M -> M;
  pm_resume : Z -> Readings -> M -> M;
  pm_updateTargetWorkDuration : Z -> AdpfVoteType -> Z -> M -> M;
  pm_voteSet_cpu : Z -> AdpfVoteType -> Z -> Z -> Z -> Z -> M -> M;
  pm_voteSet_gpu : Z -> AdpfVoteType -> Cycles -> Z -> Z -> M -> M;
  pm_disableBoosts : Z -> M -> M;
  pm_setPreferPowerEfficiency : Z -> bool -> Readings -> M -> M;
  pm_updateHboostStatistics : Z -> SessionJankyLevel -> Z -> M -> M;
  pm_updateFrameMetrics : Z -> FrameTimingMetrics -> M -> M;
  pm_updateCollectedSessionMetrics : Z -> Readings -> M -> M;
  pm_hasValidTaskRampupMultNode : M -> bool;
  pm_updateRampupBoostMode : Z -> SessionJankyLevel -> Z -> Z -> M -> M;
  pm_gpuFrequency : M -> option Frequency * M;
  pm_getGameModeEnableState : M -> bool;
  pm_areAllSessionsTimeout : Readings -> M -> bool
}.

(** The manager of this repository, with the file system its GPU node lives
    in. *)
#[export] Instance psm_manager {W : Type} `{FdInterface W} (env : Env) : PowerSessionManagerT (PowerSessionManager * W) := {|
  pm_addPowerSession ids d b tids r := prod_map (addPowerSession env ids (Some d) b tids (r 0%nat) (r 1%nat) (r 2%nat) (r 3%nat)) id;
  pm_removePowerSession sid r := prod_map (removePowerSession env sid (r 0%nat) (r 1%nat)) id;
  pm_setThreadsFromPowerSession sid tids r := prod_map (setThreadsFromPowerSession env sid tids (r 0%nat) (r 1%nat)) id;
  pm_pause sid r := prod_map (psm_pause env sid (r 0%nat) (r 1%nat) (r 2%nat)) id;
  pm_resume sid r := prod_map (psm_resume env sid (r 0%nat) (r 1%nat)) id;
  pm_updateTargetWorkDuration sid v d := prod_map (psm_updateTargetWorkDuration sid v d) id;
  pm_voteSet_cpu sid v mn mx t d := prod_map (voteSet_cpu env sid v mn mx t d) id;
  pm_voteSet_gpu sid v c t d := prod_map (voteSet_gpu env sid v c t d) id;
  pm_disableBoosts sid := prod_map (disableBoosts sid) id;
  pm_setPreferPowerEfficiency sid b r := prod_map (setPreferPowerEfficiency env sid b (r 0%nat)) id;
  pm_updateHboostStatistics sid l n := prod_map (updateHboostStatistics sid l n) id;
  pm_updateFrameMetrics sid f := prod_map (updateFrameMetrics sid f) id;
  pm_updateCollectedSessionMetrics sid r := prod_map (fun s => (updateCollectedSessionMetrics env sid (r 0%nat) (r 1%nat) s).2) id;
  pm_hasValidTaskRampupMultNode m := hasValidTaskRampupMultNode m.1;
  pm_updateRampupBoostMode sid l d h := prod_map (updateRampupBoostMode sid l d h) id;
  pm_gpuFrequency m := let '(f, w) := gpuFrequency m.1 m.2 in (f, (m.1, w));
  pm_getGameModeEnableState m := getGameModeEnableState m.1;
  pm_areAllSessionsTimeout r m := psm_areAllSessionsTimeout m.1 (r 0%nat)
|}.

(** ** State *)

(** What a session asks of the hint manager. *)
Record HintManager := mkHintManager {
  IsHintSupported : string -> bool;
  hm_GetAdpfProfile : string -> AdpfConfig
}.

Inductive HintEffect :=
| Hint_DoHint (hint : string) (durationMs : option Z)
| Hint_RegisterAdpfUpdateEvent (tag : string)
| Hint_UnregisterAdpfUpdateEvent (tag : string)
| Hint_null_records
| Hint_bad_optional_access.

Record PowerHintSession := mkPowerHintSession {
  mSessionId : Z;
  mSessTag : SessionTag;
  mProcTag : ProcessTag;
  mIdString : string;
  mDescriptor : AppHintDesc;
  mLastUpdatedTime : Z;
  mSessionClosed : bool;
  mSupportedHints : gmap string bool;
  mModes : gmap Z bool;
  mAdpfProfile : option AdpfConfig;
  mEnableMetricCollection : bool;
  mSessionRecords : option SessionRecords;
  mJankyLevel : SessionJankyLevel;
  mJankyFrameNum : Z
}.

#[export] Instance eta_PowerHintSession : Record_eta PowerHintSession := fun r =>
  mkPowerHintSession (mSessionId r) (mSessTag r) (mProcTag r) (mIdString r) (mDescriptor r)
    (mLastUpdatedTime r) (mSessionClosed r) (mSupportedHints r) (mModes r) (mAdpfProfile r)
    (mEnableMetricCollection r) (mSessionRecords r) (mJankyLevel r) (mJankyFrameNum r).

(** The status a binder call returns. *)
Inductive Status := STATUS_OK | EX_ILLEGAL_STATE | EX_ILLEGAL_ARGUMENT | EX_UNSUPPORTED_OPERATION.

#[export] Instance Status_eq_dec : EqDecision Status.
Proof. solve_decision. Defined.

Definition SessionTag_toString (t : SessionTag) : string :=
  match t with
  | TAG_OTHER => "OTHER" | TAG_SURFACEFLINGER => "SURFACEFLINGER" | TAG_HWUI => "HWUI"
  | TAG_GAME => "GAME" | TAG_APP => "APP" | TAG_SYSUI => "SYSUI"
  end.

Definition SessionHint_toString (h : SessionHint) : string :=
  match h with
  | HINT_CPU_LOAD_UP => "CPU_LOAD_UP" | HINT_CPU_LOAD_DOWN => "CPU_LOAD_DOWN"
  | HINT_CPU_LOAD_RESET => "CPU_LOAD_RESET" | HINT_CPU_LOAD_RESUME => "CPU_LOAD_RESUME"
  | HINT_POWER_EFFICIENCY => "POWER_EFFICIENCY" | HINT_GPU_LOAD_UP => "GPU_LOAD_UP"
  | HINT_GPU_LOAD_DOWN => "GPU_LOAD_DOWN" | HINT_GPU_LOAD_RESET => "GPU_LOAD_RESET"
  | HINT_CPU_LOAD_SPIKE => "CPU_LOAD_SPIKE" | HINT_GPU_LOAD_SPIKE => "GPU_LOAD_SPIKE"
  | HINT_raw n => String.string_of_list_ascii (std_to_string n)
  end.

Definition kTargetDurationChangeThreshold : Z := 30.
Definition kHINTNAME_APP_FIRST_FRAME : string := "PER_ADPF_SESSION_FIRST_FRAME".
Definition kHINTNAME_SYS_FIRST_FRAME : string := "ALL_ADPF_SESSIONS_FIRST_FRAME".

(** Integer division truncates. *)
Definition ns_to_100us (ns : Z) : Z := Z.quot ns 100000.

(** ** The PID controller *)

Definition window_start (samplingWindow length : Z) : Z :=
  if (samplingWindow =? 0) || (length <? samplingWindow) then 0 else length - samplingWindow.

Record PidAcc := mkPidAcc { acc_integral : Z; acc_previous : Z; acc_err_sum : Z; acc_derivative_sum : Z }.

#[export] Instance eta_PidAcc : Record_eta PidAcc := fun r =>
  mkPidAcc (acc_integral r) (acc_previous r) (acc_err_sum r) (acc_derivative_sum r).

(** The anti-windup limits. *)
Definition limit_integral (c : AdpfConfig) (x : Z) : Z :=
  Z.max (getPidILowDivI c) (Z.min (getPidIHighDivI c) x).

(** One iteration of the loop, at index [i]. *)
Definition pid_step (c : AdpfConfig) (target dt p_start i_start d_start : Z) (a : PidAcc) (id : Z * WorkDuration)
    : PidAcc :=
  let '(i, d) := id in
  let error := ns_to_100us (durationNanos d -₆₄ target) in
  let a := if d_start <=? i then a <| acc_derivative_sum ::= fun x => x +₆₄ (error -₆₄ acc_previous a) |> else a in
  let a := if p_start <=? i then a <| acc_err_sum ::= fun x => x +₆₄ error |> else a in
  let a := if i_start <=? i then a <| acc_integral ::= fun x => limit_integral c (x +₆₄ i64 (error * dt)) |> else a in
  a <| acc_previous := error |>.

(** [actualDurations] with the indices of the vector. *)
Definition indexed (l : list WorkDuration) : list (Z * WorkDuration) := zip (Z.of_nat <$> seq 0 (length l)) l.

Definition pid_loop (c : AdpfConfig) (target : Z) (integral previous : Z) (ds : list WorkDuration) : PidAcc :=
  let len := Z.of_nat (length ds) in
  let p_start := window_start (mSamplingWindowP c) len in
  let i_start := window_start (mSamplingWindowI c) len in
  let d_start := window_start (mSamplingWindowD c) len in
  let first := Z.min p_start (Z.min i_start d_start) in
  foldl (pid_step c target (ns_to_100us target) p_start i_start d_start)
    (mkPidAcc integral previous 0 0) (drop (Z.to_nat first) (indexed ds)).

(** [std::min] and the like on [double]. *)
Definition f64_min (a b : double) : double := if f64_ltb b a then b else a.

(** The share of the way from the moderate to the severe threshold. *)
Definition jankyFactor (c : AdpfConfig) (jankyFrameNum : Z) : double :=
  if jankyFrameNum <? value (mHBoostModerateJankThreshold c) then f64_of_Z 0
  else f64_div (f64_mul (f64_of_Z (u32 (jankyFrameNum - value (mHBoostModerateJankThreshold c)))) (f64_of_Z 1))
         (f64_of_Z (u32 (value (mHBoostSevereJankThreshold c) - value (mHBoostModerateJankThreshold c)))).

Definition jankyFactor_defined (c : AdpfConfig) (jankyFrameNum : Z) : bool :=
  has_value (mHBoostModerateJankThreshold c) &&
  ((jankyFrameNum <? value (mHBoostModerateJankThreshold c)) || has_value (mHBoostSevereJankThreshold c)).

Definition hboostEnabled (c : AdpfConfig) : bool := default false (mHeuristicBoostOn c).

Definition pid_pu_active (c : AdpfConfig) (level : SessionJankyLevel) (jankyFrameNum : Z) : double :=
  if hboostEnabled c then
    let hboostPidPu := f64_min (value (mHBoostSevereJankPidPu c)) (mPidPu c) in
    match level with
    | JANK_MODERATE => f64_add (mPidPu c) (f64_mul (jankyFactor c jankyFrameNum) (f64_sub hboostPidPu (mPidPu c)))
    | JANK_SEVERE => hboostPidPu
    | JANK_LIGHT => mPidPu c
    end
  else mPidPu c.

(** Whether the optional fields read there are set; likewise below. *)
Definition pid_pu_defined (c : AdpfConfig) (level : SessionJankyLevel) (jankyFrameNum : Z) : bool :=
  negb (hboostEnabled c) ||
  (has_value (mHBoostSevereJankPidPu c) &&
   match level with JANK_MODERATE => jankyFactor_defined c jankyFrameNum | _ => true end).

Definition convertWorkDurationToBoostByPid (c : AdpfConfig) (ds : list WorkDuration) (h : PowerHintSession)
    : Z * PowerHintSession :=
  let target := targetNs (mDescriptor h) in
  let len := Z.of_nat (length ds) in
  let dt := ns_to_100us target in
  let a := pid_loop c target (integral_error (mDescriptor h)) (previous_error (mDescriptor h)) ds in
  let pn := f64_of_Z (len - window_start (mSamplingWindowP c) len) in
  let dn := f64_of_Z (len - window_start (mSamplingWindowD c) len) in
  let kp := if 0 <? acc_err_sum a then mPidPo c else pid_pu_active c (mJankyLevel h) (mJankyFrameNum h) in
  let kd := if 0 <? acc_derivative_sum a then mPidDo c else mPidDu c in
  let pOut := f64_to_i64 (f64_div (f64_mul kp (f64_of_Z (acc_err_sum a))) pn) in
  let iOut := f64_to_i64 (f64_mul (mPidI c) (f64_of_Z (acc_integral a))) in
  let dOut := f64_to_i64 (f64_div (f64_div (f64_mul kd (f64_of_Z (acc_derivative_sum a))) (f64_of_Z dt)) dn) in
  (pOut +₆₄ iOut +₆₄ dOut,
   h <| mDescriptor ::= fun d => d <| integral_error := acc_integral a |> <| previous_error := acc_previous a |> |>).

(** The integer division of the trace call, evaluated whether or not tracing is
    on: undefined when the target is below 100 microseconds. *)
Definition trace_derivative (c : AdpfConfig) (ds : list WorkDuration) (h : PowerHintSession) : option Z :=
  let target := targetNs (mDescriptor h) in
  let len := Z.of_nat (length ds) in
  let dt := ns_to_100us target in
  let a := pid_loop c target (integral_error (mDescriptor h)) (previous_error (mDescriptor h)) ds in
  if dt =? 0 then None
  else Some (Z.quot (Z.quot (acc_derivative_sum a) dt) (len - window_start (mSamplingWindowD c) len)).

(** ** The jank level *)

Definition updateSessionJankState (c : AdpfConfig) (oldState : SessionJankyLevel) (numOfJankFrames : Z)
    (durationVariance : double) (isLowFPS : bool) : SessionJankyLevel :=
  if isLowFPS then JANK_LIGHT
  else if u32 numOfJankFrames <? value (mHBoostModerateJankThreshold c) then
    if bool_decide (oldState = JANK_LIGHT) || f64_ltb durationVariance (value (mHBoostOffMaxAvgDurRatio c))
    then JANK_LIGHT else JANK_MODERATE
  else if u32 numOfJankFrames <? value (mHBoostSevereJankThreshold c) then JANK_MODERATE
  else JANK_SEVERE.

Definition updateHeuristicBoost (c : AdpfConfig) (rs : SessionRecords) (h : PowerHintSession) : PowerHintSession :=
  match getMaxDuration rs, getAvgDuration rs with
  | Some mx, Some avg =>
      if avg <=? 0 then h
      else
        let maxToAvgRatio := f64_div (f64_mul (f64_of_Z mx) (f64_of_Z 1)) (f64_of_Z avg) in
        let isLowFPS := isLowFrameRate rs (value (mLowFrameRateThreshold c)) in
        h <| mJankyLevel := updateSessionJankState c (mJankyLevel h) (getNumOfMissedCycles rs) maxToAvgRatio isLowFPS |>
          <| mJankyFrameNum := u32 (getNumOfMissedCycles rs) |>
  | _, _ => h
  end.

Definition jank_state_defined (c : AdpfConfig) (oldState : SessionJankyLevel) (numOfJankFrames : Z) (isLowFPS : bool) : bool :=
  isLowFPS ||
  (has_value (mHBoostModerateJankThreshold c) &&
   (if u32 numOfJankFrames <? value (mHBoostModerateJankThreshold c)
    then bool_decide (oldState = JANK_LIGHT) || has_value (mHBoostOffMaxAvgDurRatio c)
    else has_value (mHBoostSevereJankThreshold c))).

Definition heuristic_boost_defined (c : AdpfConfig) (rs : SessionRecords) (h : PowerHintSession) : bool :=
  match getMaxDuration rs, getAvgDuration rs with
  | Some _, Some avg =>
      (avg <=? 0) ||
      (has_value (mLowFrameRateThreshold c) &&
       jank_state_defined c (mJankyLevel h) (getNumOfMissedCycles rs) (isLowFrameRate rs (value (mLowFrameRateThreshold c))))
  | _, _ => true
  end.

Definition resetSessionHeuristicStates (h : PowerHintSession) : PowerHintSession :=
  h <| mSessionRecords ::= option_map resetRecords |> <| mJankyLevel := JANK_LIGHT |> <| mJankyFrameNum := 0 |>.

(** The floor and the ceiling of the next vote. *)
Definition u32_lerp (lo hi : Z) (t : double) : Z :=
  f64_to_u32 (f64_add (f64_of_Z lo) (f64_mul (f64_of_Z (u32 (hi - lo))) t)).

Definition uclamp_floor_ceiling (c : AdpfConfig) (level : SessionJankyLevel) (jankyFrameNum : Z) : Z * Z :=
  if hboostEnabled c then
    let minFloor := Z.max (mUclampMinLow c) (value (mHBoostUclampMinFloorRange c)).1 in
    let maxFloor := Z.max (mUclampMinLow c) (value (mHBoostUclampMinFloorRange c)).2 in
    let minCeiling := Z.max (mUclampMinHigh c) (value (mHBoostUclampMinCeilingRange c)).1 in
    let maxCeiling := Z.max (mUclampMinHigh c) (value (mHBoostUclampMinCeilingRange c)).2 in
    match level with
    | JANK_MODERATE =>
        let f := jankyFactor c jankyFrameNum in (u32_lerp minFloor maxFloor f, u32_lerp minCeiling maxCeiling f)
    | JANK_SEVERE => (maxFloor, maxCeiling)
    | JANK_LIGHT => (mUclampMinLow c, mUclampMinHigh c)
    end
  else (mUclampMinLow c, mUclampMinHigh c).

Definition floor_ceiling_defined (c : AdpfConfig) (level : SessionJankyLevel) (jankyFrameNum : Z) : bool :=
  negb (hboostEnabled c) ||
  (has_value (mHBoostUclampMinFloorRange c) && has_value (mHBoostUclampMinCeilingRange c) &&
   match level with JANK_MODERATE => jankyFactor_defined c jankyFrameNum | _ => true end).

Definition next_min (floor_ceiling : Z * Z) (pidControlVariable output : Z) : Z :=
  Z.max (i32 floor_ceiling.1) (Z.min (i32 floor_ceiling.2) (pidControlVariable +₃₂ i32 output)).

(** ** The session's operations, over any manager *)

(** The world around a session: the manager, the readings of the clock still
    to come, and what was asked of the hint manager, newest first. *)
Record World (M : Type) := mkWorld { w_mgr : M; w_clock : Readings; w_hints : list HintEffect }.
Arguments mkWorld {M} _ _ _.
Arguments w_mgr {M} _.
Arguments w_clock {M} _ _.
Arguments w_hints {M} _.

#[export] Instance eta_World (M : Type) : Record_eta (World M) := fun r => mkWorld (w_mgr r) (w_clock r) (w_hints r).

Section session.
Context {M : Type} `{PowerSessionManagerT M} (hm : HintManager).
Implicit Types (h : PowerHintSession) (w : World M).

Definition steady_now w : Z * World M := (w_clock w 0%nat, w <| w_clock ::= fun r n => r (S n) |>).

(** A call of the manager; no operation of it reads a clock more than eight
    times. *)
Definition call (f : Readings -> M -> M) w : World M :=
  w <| w_mgr ::= f (w_clock w) |> <| w_clock ::= fun r n => r (8 + n)%nat |>.

Definition hint_effect (e : HintEffect) w : World M := w <| w_hints ::= cons e |>.

(** The optional fields read at this point are all set, or the process ends. *)
Definition optionals_read (defined : bool) w : World M :=
  w <| w_hints ::= fun l => if defined then l else Hint_bad_optional_access :: l |>.

Definition profile_tag h : string :=
  match mProcTag h with PROC_DEFAULT => SessionTag_toString (mSessTag h) | t => ProcessTag_toString t end.

Definition getAdpfProfile h : AdpfConfig := default (hm_GetAdpfProfile hm (profile_tag h)) (mAdpfProfile h).

Definition setAdpfProfile (profile : option AdpfConfig) h : PowerHintSession := h <| mAdpfProfile := profile |>.

(** [duration_cast<nanoseconds>(targetNs * mStaleTimeFactor)], and half of it. *)
Definition stale_time (c : AdpfConfig) h : Z := f64_to_i64 (f64_mul (f64_of_Z (targetNs (mDescriptor h))) (mStaleTimeFactor c)).
Definition half_stale_time (c : AdpfConfig) h : Z :=
  f64_to_i64 (f64_div (f64_mul (f64_of_Z (targetNs (mDescriptor h))) (mStaleTimeFactor c)) (f64_of_Z 2)).

Definition isTimeout h w : bool * World M :=
  let '(now, w) := steady_now w in
  (mLastUpdatedTime h +₆₄ stale_time (getAdpfProfile h) h <=? now, w).

Definition phs_isAppSession h : bool := AID_APP_START <=? d_uid (mDescriptor h).

(** A vote with the current time as its start. *)
Definition vote_cpu_now (voteId : AdpfVoteType) (mn durationNs : Z) h w : World M :=
  let '(now, w) := steady_now w in
  call (fun _ => pm_voteSet_cpu (mSessionId h) voteId mn kUclampMax now durationNs) w.

Definition vote_gpu_now (voteId : AdpfVoteType) (capacity : Cycles) (durationNs : Z) h w : World M :=
  let '(now, w) := steady_now w in
  call (fun _ => pm_voteSet_gpu (mSessionId h) voteId capacity now durationNs) w.

Definition updatePidControlVariable (v : Z) (updateVote : bool) h w : PowerHintSession * World M :=
  let h := h <| mDescriptor ::= fun d => d <| pidControlVariable := v |> |> in
  let c := getAdpfProfile h in
  (h, if updateVote then
        vote_cpu_now CPU_VOTE_DEFAULT v (Z.max (stale_time c h) (i64 (mReportingRateLimitNs c * 2))) h w
      else w).

Definition hintSupported (hint : string) h : bool * PowerHintSession :=
  match mSupportedHints h !! hint with
  | Some b => (b, h)
  | None => (IsHintSupported hm hint, h <| mSupportedHints ::= <[hint := IsHintSupported hm hint]> |>)
  end.

Definition tryToSendPowerHint (hint : string) (durationMs : option Z) h w : PowerHintSession * World M :=
  let '(b, h) := hintSupported hint h in
  (h, if b then hint_effect (Hint_DoHint hint durationMs) w else w).

(** [mIdString] *)
Definition id_string (tgid uid sid : Z) (tag : SessionTag) (procTag : ProcessTag) : string :=
  let num z := String.string_of_list_ascii (std_to_string z) in
  let p := match procTag with PROC_DEFAULT => 0 | PROC_SYSTEM_UI => 1 | PROC_CHROME => 2 end in
  num tgid +:+ "-" +:+ num uid +:+ "-" +:+ String.string_of_list_ascii (to_string_i64 sid) +:+ "-" +:+ SessionTag_toString tag +:+ "-" +:+ num p.

(** The constructor.  The session id is the next value of a global counter; the
    process tag comes from the type checker of the process. *)
Definition new_PowerHintSession (sid : Z) (procTag : ProcessTag) (enableMetricCollection : option bool)
    (tgid uid : Z) (threadIds : list Z) (durationNs : Z) (tag : SessionTag) w : PowerHintSession * World M :=
  let d := new_AppHintDesc sid tgid uid threadIds tag procTag durationNs in
  let h0 := mkPowerHintSession sid tag procTag (id_string tgid uid sid tag procTag) d 0 false ∅ ∅ None
              (bool_decide (procTag <> PROC_SYSTEM_UI) && default false enableMetricCollection) None JANK_LIGHT 0 in
  let h := h0 <| mAdpfProfile := Some (hm_GetAdpfProfile hm (profile_tag h0)) |> in
  let c := getAdpfProfile h in
  let h := h <| mSessionRecords := if hboostEnabled c then Some (new_SessionRecords (value (mMaxRecordsNum c)) (value (mJankCheckTimeFactor c)))
                                   else None |> in
  let w := optionals_read (negb (hboostEnabled c) || (has_value (mMaxRecordsNum c) && has_value (mJankCheckTimeFactor c))) w in
  let w := hint_effect (Hint_RegisterAdpfUpdateEvent (profile_tag h)) w in
  let '(now, w) := steady_now w in
  let h := h <| mLastUpdatedTime := now |> in
  let w := call (pm_addPowerSession (mIdString h) (mDescriptor h) (mEnableMetricCollection h) threadIds) w in
  let w := vote_cpu_now CPU_LOAD_RESET (mUclampMinLoadReset c) (half_stale_time c h) h w in
  let w := vote_cpu_now CPU_VOTE_DEFAULT (mUclampMinInit c) (targetNs (mDescriptor h)) h w in
  (h, w).

Definition phs_pause h w : Status * (PowerHintSession * World M) :=
  if mSessionClosed h then (EX_ILLEGAL_STATE, (h, w))
  else if negb (is_active (mDescriptor h)) then (EX_ILLEGAL_STATE, (h, w))
  else
    let h := h <| mDescriptor ::= fun d => d <| is_active := false |> |> in
    let w := call (pm_pause (mSessionId h)) w in
    let w := call (pm_setThreadsFromPowerSession (mSessionId h) []) w in
    (STATUS_OK, (h, w)).

Definition phs_resume h w : Status * (PowerHintSession * World M) :=
  if mSessionClosed h then (EX_ILLEGAL_STATE, (h, w))
  else if is_active (mDescriptor h) then (EX_ILLEGAL_STATE, (h, w))
  else
    let w := call (pm_setThreadsFromPowerSession (mSessionId h) (thread_ids (mDescriptor h))) w in
    let h := h <| mDescriptor ::= fun d => d <| is_active := true |> |> in
    let w := call (pm_resume (mSessionId h)) w in
    (STATUS_OK, (h, w)).

Definition phs_close h w : Status * (PowerHintSession * World M) :=
  if mSessionClosed h then (EX_ILLEGAL_STATE, (h, w))
  else
    let h := h <| mSessionClosed := true |> in
    let w := call (pm_removePowerSession (mSessionId h)) w in
    let h := h <| mDescriptor ::= fun d => d <| is_active := false |> |> in
    let w := hint_effect (Hint_UnregisterAdpfUpdateEvent (profile_tag h)) w in
    (STATUS_OK, (h, w)).

(** The destructor closes the session if its client did not. *)
Definition delete_PowerHintSession h w : World M := (phs_close h w).2.2.

Definition phs_updateTargetWorkDuration (targetDurationNanos : Z) h w : Status * (PowerHintSession * World M) :=
  if mSessionClosed h then (EX_ILLEGAL_STATE, (h, w))
  else if targetDurationNanos <=? 0 then (EX_ILLEGAL_ARGUMENT, (h, w))
  else
    let c := getAdpfProfile h in
    let target := f64_to_i64 (f64_mul (f64_of_Z targetDurationNanos) (mTargetTimeFactor c)) in
    let last := targetNs (mDescriptor h) in
    let reset := negb (target =? last) && hboostEnabled c &&
                 (i64 (Z.quot last 100 * kTargetDurationChangeThreshold) <? Z.abs (target -₆₄ last)) in
    let w := if reset && bool_decide (mSessionRecords h = None) then hint_effect Hint_null_records w else w in
    let h := if reset then resetSessionHeuristicStates h else h in
    let h := h <| mDescriptor ::= fun d => d <| targetNs := target |> |> in
    let w := call (fun _ => pm_updateTargetWorkDuration (mSessionId h) CPU_VOTE_DEFAULT target) w in
    (STATUS_OK, (h, w)).

Definition set_mode_index (mode : SessionMode) : Z :=
  match mode with
  | MODE_POWER_EFFICIENCY => 0 | MODE_GRAPHICS_PIPELINE => 1 | MODE_AUTO_CPU => 2
  | MODE_AUTO_GPU => 3 | MODE_AUDIO_PERFORMANCE => 4 | MODE_raw n => n
  end.

Definition setModeLocked (mode : SessionMode) (enabled : bool) h w : Status * (PowerHintSession * World M) :=
  if mSessionClosed h then (EX_ILLEGAL_STATE, (h, w))
  else
    match mode with
    | MODE_POWER_EFFICIENCY =>
        let w := call (pm_setPreferPowerEfficiency (mSessionId h) enabled) w in
        let h := h <| mModes ::= <[set_mode_index mode := enabled]> |> in
        let '(now, w) := steady_now w in
        (STATUS_OK, (h <| mLastUpdatedTime := now |>, w))
    | _ => (EX_ILLEGAL_ARGUMENT, (h, w))
    end.

Definition setMode (mode : SessionMode) (enabled : bool) h w : Status * (PowerHintSession * World M) :=
  setModeLocked mode enabled h w.

Definition setThreads (threadIds : list Z) h w : Status * (PowerHintSession * World M) :=
  if mSessionClosed h then (EX_ILLEGAL_STATE, (h, w))
  else match threadIds with
       | [] => (EX_ILLEGAL_ARGUMENT, (h, w))
       | _ =>
           let h := h <| mDescriptor ::= fun d => d <| thread_ids := threadIds |> |> in
           let w := call (pm_setThreadsFromPowerSession (mSessionId h) threadIds) w in
           (STATUS_OK, updatePidControlVariable (mUclampMinInit (getAdpfProfile h)) true h w)
       end.

Definition getSessionConfig h : Z := mSessionId h.
Definition getSessionTag h : SessionTag := mSessTag h.

(** The part of [reportActualWorkDuration] under [hboostEnabled]. *)
Definition report_heuristics (c : AdpfConfig) (ds : list WorkDuration) h w : PowerHintSession * World M :=
  match mSessionRecords h with
  | None => (h, hint_effect Hint_null_records w)
  | Some rs =>
      let game := bool_decide (mSessTag h = TAG_SURFACEFLINGER) && pm_getGameModeEnableState (w_mgr w) in
      let '(rs, newFrameMetrics) :=
        addReportedDurations ds (targetNs (mDescriptor h)) game (rs, empty_FrameTimingMetrics) in
      let h := h <| mSessionRecords := Some rs |> in
      let w := call (fun _ => pm_updateHboostStatistics (mSessionId h) (mJankyLevel h) (i32 (Z.of_nat (length ds)))) w in
      let w := call (fun _ => pm_updateFrameMetrics (mSessionId h) newFrameMetrics) w in
      let w := call (pm_updateCollectedSessionMetrics (mSessionId h)) w in
      let w := optionals_read (heuristic_boost_defined c rs h) w in
      let h := updateHeuristicBoost c rs h in
      let heurRampupEnabled := default false (mHeuristicRampup c) && bool_decide (mProcTag h <> PROC_CHROME) in
      (h, if heurRampupEnabled && pm_hasValidTaskRampupMultNode (w_mgr w) then
            let w := optionals_read (has_value (mDefaultRampupMult c) && has_value (mHighRampupMult c)) w in
            call (fun _ => pm_updateRampupBoostMode (mSessionId h) (mJankyLevel h) (value (mDefaultRampupMult c))
                             (value (mHighRampupMult c))) w
          else w)
  end.

(** The last part: a vote for more GPU capacity. *)
Definition report_gpu (c : AdpfConfig) (ds : list WorkDuration) h w : World M :=
  match last ds, default false (mGpuBoostOn c), mGpuBoostCapacityMax c with
  | Some d, true, Some capacityMax =>
      if gpuDurationNanos d =? 0 then w
      else
        let '(gpu_freq, m) := pm_gpuFrequency (w_mgr w) in
        let w := w <| w_mgr := m |> in
        match gpu_freq with
        | None => w
        | Some freq =>
            let additional_gpu_capacity := calculate_capacity d (targetNs (mDescriptor h)) freq in
            vote_gpu_now GPU_CAPACITY (clampZ 0 capacityMax additional_gpu_capacity) (stale_time c h) h w
        end
  | _, _, _ => w
  end.

Definition reportActualWorkDuration (ds : list WorkDuration) h w : Status * (PowerHintSession * World M) :=
  if mSessionClosed h then (EX_ILLEGAL_STATE, (h, w))
  else if targetNs (mDescriptor h) =? 0 then (EX_ILLEGAL_STATE, (h, w))
  else if bool_decide (ds = []) then (EX_ILLEGAL_ARGUMENT, (h, w))
  else if negb (is_active (mDescriptor h)) then (EX_ILLEGAL_STATE, (h, w))
  else
    let c := getAdpfProfile h in
    let h := h <| mDescriptor ::= fun d => d <| update_count ::= fun n => u64 (n + 1) |> |> in
    let '(_, w) := isTimeout h w in
    let '(now, w) := steady_now w in
    let h := h <| mLastUpdatedTime := now |> in
    let w := call (fun _ => pm_disableBoosts (mSessionId h)) w in
    if negb (mPidOn c) then (STATUS_OK, updatePidControlVariable (mUclampMinHigh c) true h w)
    else
      let '(h, w) := if hboostEnabled c then report_heuristics c ds h w else (h, w) in
      let w := optionals_read (pid_pu_defined c (mJankyLevel h) (mJankyFrameNum h)) w in
      let '(output, h) := convertWorkDurationToBoostByPid c ds h in
      let w := optionals_read (floor_ceiling_defined c (mJankyLevel h) (mJankyFrameNum h)) w in
      let fc := uclamp_floor_ceiling c (mJankyLevel h) (mJankyFrameNum h) in
      let '(h, w) := updatePidControlVariable (next_min fc (pidControlVariable (mDescriptor h)) output) true h w in
      (STATUS_OK, (h, report_gpu c ds h w)).

(** The switch of [sendHint] for the valid hints: the new state, and the name
    of the hint to forward. *)
Definition send_hint_locked (c : AdpfConfig) (hint : SessionHint) h w : string * (PowerHintSession * World M) :=
  let hint_name := SessionHint_toString hint in
  match hint with
  | HINT_CPU_LOAD_UP =>
      let '(h, w) := updatePidControlVariable (pidControlVariable (mDescriptor h)) true h w in
      (hint_name, (h, vote_cpu_now CPU_LOAD_UP (mUclampMinLoadUp c) (i64 (targetNs (mDescriptor h) * 2)) h w))
  | HINT_CPU_LOAD_DOWN => (hint_name, updatePidControlVariable (mUclampMinLow c) true h w)
  | HINT_CPU_LOAD_RESET =>
      let '(t, w) := isTimeout h w in
      let '(app, h) := if t then hintSupported kHINTNAME_APP_FIRST_FRAME h else (false, h) in
      let '(sys, h) := if t && app then hintSupported kHINTNAME_SYS_FIRST_FRAME h else (false, h) in
      let all_timeout := sys && pm_areAllSessionsTimeout (w_clock w) (w_mgr w) in
      let w := if sys then w <| w_clock ::= fun r n => r (8 + n)%nat |> else w in
      let hint_name := if t && app then (if all_timeout then kHINTNAME_SYS_FIRST_FRAME else kHINTNAME_APP_FIRST_FRAME)
                       else hint_name in
      let '(h, w) := updatePidControlVariable
        (i32 (Z.max (mUclampMinInit c) (u32 (pidControlVariable (mDescriptor h))))) false h w in
      (hint_name, (h, vote_cpu_now CPU_LOAD_RESET (mUclampMinLoadReset c) (half_stale_time c h) h w))
  | HINT_CPU_LOAD_RESUME =>
      (hint_name, (h, vote_cpu_now CPU_LOAD_RESUME (pidControlVariable (mDescriptor h)) (half_stale_time c h) h w))
  | HINT_POWER_EFFICIENCY => (hint_name, (setModeLocked MODE_POWER_EFFICIENCY true h w).2)
  | HINT_GPU_LOAD_UP =>
      (hint_name, (h, vote_gpu_now GPU_LOAD_UP (mGpuCapacityLoadUpHeadroom c) (targetNs (mDescriptor h)) h w))
  | _ => (hint_name, (h, w))
  end.

Definition sendHint (hint : SessionHint) h w : Status * (PowerHintSession * World M) :=
  if mSessionClosed h then (EX_ILLEGAL_STATE, (h, w))
  else if targetNs (mDescriptor h) =? 0 then (EX_ILLEGAL_STATE, (h, w))
  else match hint with
       | HINT_raw _ => (EX_ILLEGAL_ARGUMENT, (h, w))
       | _ =>
           let '(hint_name, (h, w)) := send_hint_locked (getAdpfProfile h) hint h w in
           let '(now, w) := steady_now w in
           let h := h <| mLastUpdatedTime := now |> in
           let '(h, w) := tryToSendPowerHint hint_name None h w in
           (STATUS_OK,
            if bool_decide (hint = HINT_GPU_LOAD_UP) &&
               (bool_decide (mSessTag h = TAG_SURFACEFLINGER) || bool_decide (mSessTag h = TAG_SYSUI) ||
                bool_decide (mProcTag h = PROC_SYSTEM_UI))
            then tryToSendPowerHint "EXPENSIVE_RENDERING" (Some 175) h w else (h, w))
       end.

(** ** Calls of a client *)

Inductive PhsOp :=
| Phs_pause | Phs_resume | Phs_close
| Phs_updateTargetWorkDuration (target : Z)
| Phs_reportActualWorkDuration (ds : list WorkDuration)
| Phs_sendHint (hint : SessionHint)
| Phs_setMode (mode : SessionMode) (enabled : bool)
| Phs_setThreads (tids : list Z).

Definition phs_op (o : PhsOp) h w : Status * (PowerHintSession * World M) :=
  match o with
  | Phs_pause => phs_pause h w
  | Phs_resume => phs_resume h w
  | Phs_close => phs_close h w
  | Phs_updateTargetWorkDuration t => phs_updateTargetWorkDuration t h w
  | Phs_reportActualWorkDuration ds => reportActualWorkDuration ds h w
  | Phs_sendHint hint => sendHint hint h w
  | Phs_setMode mode enabled => setMode mode enabled h w
  | Phs_setThreads tids => setThreads tids h w
  end.

End session.

(** ** Invariants of the manager

    A predicate on managers that their operations preserve is preserved by the
    calls of a session's client; [lifecycle] says whether adding and removing
    sessions preserve it as well.  The predicate may mention a bound on the
    number of operations the manager has executed: a call of a client makes at
    most seven. *)

Record mgr_inv {M : Type} `{PowerSessionManagerT M} (lifecycle : bool) (P : nat -> M -> Prop) : Prop := {
  mi_mono : forall n m, P n m -> P (S n) m;
  mi_add : forall ids d b tids r n m, lifecycle = true -> P n m -> P (S n) (pm_addPowerSession ids d b tids r m);
  mi_remove : forall sid r n m, lifecycle = true -> P n m -> P (S n) (pm_removePowerSession sid r m);
  mi_setThreads : forall sid tids r n m, P n m -> P (S n) (pm_setThreadsFromPowerSession sid tids r m);
  mi_pause : forall sid r n m, P n m -> P (S n) (pm_pause sid r m);
  mi_resume : forall sid r n m, P n m -> P (S n) (pm_resume sid r m);
  mi_target : forall sid v d n m, P n m -> P (S n) (pm_updateTargetWorkDuration sid v d m);
  mi_vote_cpu : forall sid v mn mx t d n m, P n m -> P (S n) (pm_voteSet_cpu sid v mn mx t d m);
  mi_vote_gpu : forall sid v c t d n m, P n m -> P (S n) (pm_voteSet_gpu sid v c t d m);
  mi_disable : forall sid n m, P n m -> P (S n) (pm_disableBoosts sid m);
  mi_efficiency : forall sid b r n m, P n m -> P (S n) (pm_setPreferPowerEfficiency sid b r m);
  mi_hboost : forall sid l k n m, P n m -> P (S n) (pm_updateHboostStatistics sid l k m);
  mi_frames : forall sid f n m, P n m -> P (S n) (pm_updateFrameMetrics sid f m);
  mi_collected : forall sid r n m, P n m -> P (S n) (pm_updateCollectedSessionMetrics sid r m);
  mi_rampup : forall sid l d k n m, P n m -> P (S n) (pm_updateRampupBoostMode sid l d k m);
  mi_freq : forall n m, P n m -> P n (pm_gpuFrequency m).2
}.

Section preservation.
Context {M : Type} `{PowerSessionManagerT M} (hm : HintManager) (lifecycle : bool) (P : nat -> M -> Prop).
Context (HP : mgr_inv lifecycle P).
Implicit Types (h : PowerHintSession) (w : World M) (n : nat).

Lemma mgr_inv_le n n' m : P n m -> (n <= n')%nat -> P n' m.
Proof. intros Hm Hle. induction Hle; [done | by apply (mi_mono _ _ HP)]. Qed.

Lemma updatePid_inv v b h w n : P n (w_mgr w) -> P (S n) (w_mgr (updatePidControlVariable hm v b h w).2).
Proof.
  intros Hw. unfold updatePidControlVariable. destruct b; simpl; [by apply (mi_vote_cpu _ _ HP) | by apply (mi_mono _ _ HP)].
Qed.

Lemma tryToSend_inv s d h w n : P n (w_mgr w) -> P n (w_mgr (tryToSendPowerHint hm s d h w).2).
Proof. intros Hw. unfold tryToSendPowerHint. destruct (hintSupported hm s h) as [[] ?]; done. Qed.

Lemma setModeLocked_inv m b h w n : P n (w_mgr w) -> P (S n) (w_mgr (setModeLocked m b h w).2.2).
Proof.
  intros Hw. unfold setModeLocked. pose proof (mi_mono _ _ HP n _ Hw). destruct (mSessionClosed h); [done |].
  destruct m; try done. simpl. by apply (mi_efficiency _ _ HP).
Qed.

Lemma report_heuristics_inv c ds h w n : P n (w_mgr w) -> P (4 + n) (w_mgr (report_heuristics c ds h w).2).
Proof.
  intros Hw. unfold report_heuristics. destruct (mSessionRecords h) as [rs |]; [| eapply mgr_inv_le; [done | lia]].
  destruct (addReportedDurations _ _ _ _) as [rs' fm]. simpl.
  assert (P (3 + n) (pm_updateCollectedSessionMetrics (mSessionId h) (fun n => w_clock w (8 + (8 + n)))%nat
    (pm_updateFrameMetrics (mSessionId h) fm (pm_updateHboostStatistics (mSessionId h) (mJankyLevel h) (i32 (Z.of_nat (length ds))) (w_mgr w))))) as Hc.
  { by apply (mi_collected _ _ HP), (mi_frames _ _ HP), (mi_hboost _ _ HP). }
  destruct (_ && _); simpl; [by apply (mi_rampup _ _ HP) | by apply (mi_mono _ _ HP)].
Qed.

Lemma report_gpu_inv c ds h w n : P n (w_mgr w) -> P (S n) (w_mgr (report_gpu c ds h w)).
Proof.
  intros Hw. unfold report_gpu. pose proof (mi_mono _ _ HP n _ Hw). destruct (last ds) as [d |]; [| done].
  destruct (default false (mGpuBoostOn c)), (mGpuBoostCapacityMax c); try done.
  destruct (gpuDurationNanos d =? 0); [done |].
  pose proof (mi_freq _ _ HP n (w_mgr w) Hw) as Hf.
  destruct (pm_gpuFrequency (w_mgr w)) as [[f |] m]; simpl in *; [by apply (mi_vote_gpu _ _ HP) | by apply (mi_mono _ _ HP)].
Qed.

Lemma report_inv ds h w n : P n (w_mgr w) -> P (7 + n) (w_mgr (reportActualWorkDuration hm ds h w).2.2).
Proof.
  intros Hw. unfold reportActualWorkDuration.
  assert (P (7 + n) (w_mgr w)) as H0 by (eapply mgr_inv_le; [done | lia]).
  destruct (mSessionClosed h); [done |]. destruct (_ =? 0); [done |]. destruct (bool_decide _); [done |].
  destruct (negb _); [done |]. simpl isTimeout. cbn -[updatePidControlVariable report_heuristics convertWorkDurationToBoostByPid report_gpu call Nat.add].
  match goal with |- context [call (fun _ => pm_disableBoosts ?i) ?x] => set (w1 := call (fun _ => pm_disableBoosts i) x) end.
  assert (P (1 + n) (w_mgr w1)) as H1 by by apply (mi_disable _ _ HP).
  destruct (mPidOn _); cbn [negb]; [| eapply mgr_inv_le; [by eapply updatePid_inv | lia]].
  match goal with |- context [report_heuristics ?c ds ?x w1] => set (h1 := x); set (c1 := c) end.
  assert (exists h2 w2, (if hboostEnabled c1 then report_heuristics c1 ds h1 w1 else (h1, w1)) = (h2, w2) /\ P (5 + n) (w_mgr w2)) as (h2 & w2 & -> & H2).
  { destruct (hboostEnabled c1); [| eexists _, _; split; [done | eapply mgr_inv_le; [done | lia]]].
    pose proof (report_heuristics_inv c1 ds h1 w1 _ H1). destruct (report_heuristics c1 ds h1 w1); eauto. }
  destruct (convertWorkDurationToBoostByPid c1 ds h2) as [out h3].
  match goal with |- context [updatePidControlVariable hm ?v true h3 ?w3] => pose proof (updatePid_inv v true h3 w3 _ H2) as H3;
    destruct (updatePidControlVariable hm v true h3 w3) as [h4 w4] end.
  by apply (report_gpu_inv _ _ _ _ (6 + n)).
Qed.

Lemma send_hint_locked_inv c hint h w n : P n (w_mgr w) -> P (2 + n) (w_mgr (send_hint_locked hm c hint h w).2.2).
Proof.
  intros Hw. pose proof (mi_mono _ _ HP n _ Hw) as Hw'.
  pose proof (mi_mono _ _ HP) as H1. pose proof (mi_vote_cpu _ _ HP) as H2. pose proof (mi_vote_gpu _ _ HP) as H3.
  destruct hint; simpl; auto using setModeLocked_inv.
  destruct (if _ : bool then hintSupported hm kHINTNAME_APP_FIRST_FRAME h else _) as [app h1].
  destruct (if _ : bool then hintSupported hm kHINTNAME_SYS_FIRST_FRAME h1 else _) as [sys h2].
  simpl. apply (mi_vote_cpu _ _ HP). by destruct sys.
Qed.

Lemma sendHint_inv hint h w n : P n (w_mgr w) -> P (2 + n) (w_mgr (sendHint hm hint h w).2.2).
Proof.
  intros Hw. unfold sendHint. assert (P (2 + n) (w_mgr w)) as H0 by (eapply mgr_inv_le; [done | lia]).
  destruct (mSessionClosed h); [done |]. destruct (_ =? 0); [done |].
  pose proof (send_hint_locked_inv (getAdpfProfile hm h) hint h w n Hw) as H1.
  destruct (send_hint_locked hm (getAdpfProfile hm h) hint h w) as [nm [h1 w1]]. cbn [snd] in H1.
  destruct hint; try done; unfold steady_now; cbn beta iota zeta;
    match goal with |- context [tryToSendPowerHint hm nm None ?x ?y] =>
      pose proof (tryToSend_inv nm None x y _ H1) as H2; destruct (tryToSendPowerHint hm nm None x y) as [h2 w2] end;
    cbn [snd] in H2; try done; destruct (_ && _); cbn [snd]; auto using tryToSend_inv.
Qed.

Lemma phs_op_inv (o : PhsOp) h w n :
  (o = Phs_close -> lifecycle = true) -> P n (w_mgr w) -> P (7 + n) (w_mgr (phs_op hm o h w).2.2).
Proof.
  intros Ho Hw. assert (forall k m, P (k + n) m -> (k <= 7)%nat -> P (7 + n) m) as Hle.
  { intros k m Hm Hk. eapply mgr_inv_le; [done | lia]. }
  pose proof (Hle 0%nat _ Hw ltac:(lia)) as H0. destruct o; cbn [phs_op].
  - unfold phs_pause. destruct (mSessionClosed h); [done |]. destruct (negb _); [done |].
    apply (Hle 2%nat); [| lia]. by apply (mi_setThreads _ _ HP), (mi_pause _ _ HP).
  - unfold phs_resume. destruct (mSessionClosed h); [done |]. destruct (is_active _); [done |].
    apply (Hle 2%nat); [| lia]. by apply (mi_resume _ _ HP), (mi_setThreads _ _ HP).
  - unfold phs_close. destruct (mSessionClosed h); [done |]. apply (Hle 1%nat); [| lia]. apply (mi_remove _ _ HP); auto.
  - unfold phs_updateTargetWorkDuration. destruct (mSessionClosed h); [done |]. destruct (_ <=? 0); [done |].
    apply (Hle 1%nat); [| lia]. apply (mi_target _ _ HP). by destruct (_ && _).
  - by apply report_inv.
  - apply (Hle 2%nat); [by apply sendHint_inv | lia].
  - apply (Hle 1%nat); [by apply setModeLocked_inv | lia].
  - unfold setThreads. destruct (mSessionClosed h); [done |]. destruct tids; [done |].
    apply (Hle 2%nat); [| lia]. apply updatePid_inv. by apply (mi_setThreads _ _ HP).
Qed.

(** The constructor of a session makes three calls. *)
Lemma new_PowerHintSession_inv (sid : Z) (procTag : ProcessTag) (emc : option bool) (tgid uid : Z) (tids : list Z) (dur : Z)
    (tag : SessionTag) w n :
  lifecycle = true -> P n (w_mgr w) ->
  P (3 + n) (w_mgr (new_PowerHintSession hm sid procTag emc tgid uid tids dur tag w).2).
Proof.
  intros Hl Hw. unfold new_PowerHintSession, vote_cpu_now, steady_now. cbn -[Nat.add].
  apply (mi_vote_cpu _ _ HP _ _ _ _ _ _ (2 + n)), (mi_vote_cpu _ _ HP _ _ _ _ _ _ (1 + n)). by apply (mi_add _ _ HP).
Qed.

End preservation.

(** The manager of this repository keeps the invariant of its maps and
    outputs. *)
Lemma psm_inv_schedule (allow b : bool) (sid vid t d : Z) (s : PowerSessionManager) :
  psm_inv allow s -> psm_inv allow (schedule_timeout_if b sid vid t d s).
Proof. intros Hs. destruct b; [split; apply Hs | done]. Qed.

Lemma psm_inv_adds (allow : bool) (vid : Z) f (p : loc) (s : PowerSessionManager) :
  adds_vote vid f -> psm_inv allow s -> psm_inv allow (psm_modify p f s).
Proof. intros (F1 & F2 & _) Hs. split; try apply Hs. apply stm_modify_wf; auto. apply Hs. Qed.

Lemma voteSet_cpu_inv (env : Env) (sid : Z) v mn mx t d (s : PowerSessionManager) :
  psm_inv true s -> psm_inv true (voteSet_cpu env sid v mn mx t d s).
Proof.
  intros Hs. unfold voteSet_cpu, voteSet_cpu_locked. destruct (psm_findSession s sid) as [p |] eqn:Ep; [| done].
  apply psm_inv_schedule, quiet_applyUclampLocked, quiet_modify; [by apply benign_same_votes |].
  unfold psm_findSession, stm_findSession in Ep. destruct (mSessions (mSessionTaskMap s) !! sid) as [e |] eqn:E; [| done].
  pose proof (psm_inv_adds true (vote_int v) _ (val e) s (adds_vote_cpu _ (new_CpuVote true t d mn mx)) Hs) as Hm.
  unfold psm_modify in Hm. unfold stm_addVote. simpl. by rewrite E.
Qed.

(** Every operation of the interface is one operation of the manager: whatever
    its callers do, the manager stays among the states that sequences of its
    own operations reach. *)
Definition psm_steps (m0 : PowerSessionManager) (n : nat) (m : PowerSessionManager) : Prop :=
  exists ops, m = psm_run ops m0 /\ (length ops <= n)%nat.

Lemma psm_steps_refl (m : PowerSessionManager) (n : nat) : psm_steps m n m.
Proof. exists []. split; [done | simpl; lia]. Qed.

Lemma psm_steps_le (m0 m : PowerSessionManager) (n n' : nat) : psm_steps m0 n m -> (n <= n')%nat -> psm_steps m0 n' m.
Proof. intros (ops & -> & Hl) Hn. exists ops. split; [done | lia]. Qed.

Lemma psm_steps_op (m0 : PowerSessionManager) (env : Env) (o : PsmOp) (n : nat) (m : PowerSessionManager) :
  psm_steps m0 n m -> psm_steps m0 (S n) (psm_op m (env, o)).
Proof.
  intros (ops & -> & Hl). exists (ops ++ [(env, o)]). split; [| rewrite length_app; simpl; lia].
  unfold psm_run. by rewrite foldl_app.
Qed.

Lemma psm_steps_mgr {W : Type} `{FdInterface W} (env : Env) (m0 : PowerSessionManager) :
  mgr_inv (M := PowerSessionManager * W) (H := psm_manager env) true (fun n m => psm_steps m0 n m.1).
Proof.
  split; simpl.
  - intros n m Hm. eapply psm_steps_le; [done | lia].
  - intros ids d b tids r n m _. exact (psm_steps_op m0 env (Op_addPowerSession ids (Some d) b tids _ _ _ _) n m.1).
  - intros sid r n m _. exact (psm_steps_op m0 env (Op_removePowerSession sid _ _) n m.1).
  - intros sid tids r n m. exact (psm_steps_op m0 env (Op_setThreads sid tids _ _) n m.1).
  - intros sid r n m. exact (psm_steps_op m0 env (Op_pause sid _ _ _) n m.1).
  - intros sid r n m. exact (psm_steps_op m0 env (Op_resume sid _ _) n m.1).
  - intros sid v d n m. exact (psm_steps_op m0 env (Op_updateTargetWorkDuration sid v d) n m.1).
  - intros sid v mn mx t d n m. exact (psm_steps_op m0 env (Op_voteSet_cpu sid v mn mx t d) n m.1).
  - intros sid v c t d n m. exact (psm_steps_op m0 env (Op_voteSet_gpu sid v c t d) n m.1).
  - intros sid n m. exact (psm_steps_op m0 env (Op_disableBoosts sid) n m.1).
  - intros sid b r n m. exact (psm_steps_op m0 env (Op_setPreferPowerEfficiency sid b _) n m.1).
  - intros sid l k n m. exact (psm_steps_op m0 env (Op_updateHboostStatistics sid l k) n m.1).
  - intros sid f n m. exact (psm_steps_op m0 env (Op_updateFrameMetrics sid f) n m.1).
  - intros sid r n m. exact (psm_steps_op m0 env (Op_updateCollectedSessionMetrics sid _ _) n m.1).
  - intros sid l d k n m. exact (psm_steps_op m0 env (Op_updateRampupBoostMode sid l d k) n m.1).
  - intros n m Hm. by destruct (gpuFrequency m.1 m.2).
Qed.

(** ** What the operations keep of the session *)

Section closing.
Context {M : Type} `{PowerSessionManagerT M} (hm : HintManager).
Implicit Types (h : PowerHintSession) (w : World M).

(** The identity of a session and whether it is closed. *)
Definition phs_life h : Z * bool := (mSessionId h, mSessionClosed h).

Lemma hintSupported_life s h : phs_life (hintSupported hm s h).2 = phs_life h.
Proof. unfold hintSupported. by destruct (mSupportedHints h !! s). Qed.

Lemma tryToSend_life s d h w : phs_life (tryToSendPowerHint hm s d h w).1 = phs_life h.
Proof.
  unfold tryToSendPowerHint. pose proof (hintSupported_life s h) as E. by destruct (hintSupported hm s h).
Qed.

Lemma setModeLocked_life m b h w : phs_life (setModeLocked m b h w).2.1 = phs_life h.
Proof. unfold setModeLocked. destruct (mSessionClosed h) eqn:E; [done |]. by destruct m. Qed.

Lemma report_heuristics_life c ds h w : phs_life (report_heuristics c ds h w).1 = phs_life h.
Proof.
  unfold report_heuristics. destruct (mSessionRecords h); [| done].
  destruct (addReportedDurations _ _ _ _) as [rs fm]. simpl. unfold updateHeuristicBoost.
  destruct (getMaxDuration rs), (getAvgDuration rs) as [avg |]; try done. by destruct (avg <=? 0).
Qed.

Lemma report_heuristics_desc c ds h w : mDescriptor (report_heuristics c ds h w).1 = mDescriptor h.
Proof.
  unfold report_heuristics. destruct (mSessionRecords h); [| done].
  destruct (addReportedDurations _ _ _ _) as [rs fm]. simpl. unfold updateHeuristicBoost.
  destruct (getMaxDuration rs), (getAvgDuration rs) as [avg |]; try done. by destruct (avg <=? 0).
Qed.

(** What a successful report leaves in the session: everything after the
    heuristics is the controller and its vote. *)
Lemma report_shape ds h w :
  (reportActualWorkDuration hm ds h w).1 = STATUS_OK ->
  exists h1, phs_life h1 = phs_life h /\
    integral_error (mDescriptor h1) = integral_error (mDescriptor h) /\
    let c := getAdpfProfile hm h in
    let h2 := (convertWorkDurationToBoostByPid c ds h1).2 in
    (reportActualWorkDuration hm ds h w).2.1 =
      if mPidOn c then
        h2 <| mDescriptor ::= fun d => d <| pidControlVariable :=
          next_min (uclamp_floor_ceiling c (mJankyLevel h2) (mJankyFrameNum h2)) (pidControlVariable (mDescriptor h2))
            (convertWorkDurationToBoostByPid c ds h1).1 |> |>
      else h1 <| mDescriptor ::= fun d => d <| pidControlVariable := mUclampMinHigh c |> |>.
Proof.
  unfold reportActualWorkDuration. destruct (mSessionClosed h) eqn:Ec; [done |]. destruct (_ =? 0); [done |].
  destruct (bool_decide _); [done |]. destruct (negb (is_active _)); [done |]. intros _.
  unfold isTimeout, steady_now. cbn beta iota zeta.
  set (c := getAdpfProfile hm h).
  match goal with |- context [updatePidControlVariable hm (mUclampMinHigh c) true ?x _] => set (h1 := x) end.
  match goal with |- context [updatePidControlVariable hm (mUclampMinHigh c) true h1 ?y] => set (w1 := y) end.
  assert (phs_life h1 = phs_life h) as L1 by (unfold phs_life, h1; simpl; congruence).
  destruct (mPidOn c); cbn [negb]; [| by exists h1].
  assert (exists h2 w2, (if hboostEnabled c then report_heuristics c ds h1 w1 else (h1, w1)) = (h2, w2) /\
    phs_life h2 = phs_life h1 /\ integral_error (mDescriptor h2) = integral_error (mDescriptor h1)) as (h2 & w2 & -> & L2 & I2).
  { destruct (hboostEnabled c); [| by eauto].
    pose proof (report_heuristics_life c ds h1 w1) as L. pose proof (report_heuristics_desc c ds h1 w1) as D.
    destruct (report_heuristics c ds h1 w1) as [h2 w2]. simpl in L, D. exists h2, w2. by rewrite D. }
  exists h2. split_and!; [congruence | by rewrite I2 |]. cbn zeta.
  by destruct (convertWorkDurationToBoostByPid c ds h2) as [out h3].
Qed.

Lemma send_hint_locked_life c hint h w : phs_life (send_hint_locked hm c hint h w).2.1 = phs_life h.
Proof.
  destruct hint; try done; [| apply setModeLocked_life]. unfold send_hint_locked.
  destruct (isTimeout hm h w) as [t w1].
  assert (phs_life (if t then hintSupported hm kHINTNAME_APP_FIRST_FRAME h else (false, h)).2 = phs_life h) as L1.
  { destruct t; [apply hintSupported_life | done]. }
  destruct (if t then hintSupported hm kHINTNAME_APP_FIRST_FRAME h else (false, h)) as [app h1]. simpl in L1.
  assert (phs_life (if t && app then hintSupported hm kHINTNAME_SYS_FIRST_FRAME h1 else (false, h1)).2 = phs_life h1) as L2.
  { destruct (t && app); [apply hintSupported_life | done]. }
  destruct (if t && app then hintSupported hm kHINTNAME_SYS_FIRST_FRAME h1 else (false, h1)) as [sys h2]. simpl in L2.
  simpl. unfold phs_life in *. simpl. congruence.
Qed.

Lemma sendHint_life hint h w : phs_life (sendHint hm hint h w).2.1 = phs_life h.
Proof.
  unfold sendHint. destruct (mSessionClosed h) eqn:Ec; [done |]. destruct (_ =? 0); [done |].
  pose proof (send_hint_locked_life (getAdpfProfile hm h) hint h w) as L1.
  destruct (send_hint_locked hm (getAdpfProfile hm h) hint h w) as [nm [h1 w1]]. cbn [fst snd] in L1.
  destruct hint; try done; unfold steady_now; cbn beta iota zeta;
    match goal with |- context [tryToSendPowerHint hm nm None ?x ?y] =>
      pose proof (tryToSend_life nm None x y) as L2; destruct (tryToSendPowerHint hm nm None x y) as [h2 w2] end;
    cbn [fst] in L2; change (phs_life (_ <| mLastUpdatedTime := _ |>)) with (phs_life h1) in L2;
    destruct (_ && _); cbn [fst snd]; rewrite ?tryToSend_life; congruence.
Qed.

Lemma phs_op_life (o : PhsOp) h w :
  o <> Phs_close -> phs_life (phs_op hm o h w).2.1 = phs_life h.
Proof.
  intros Ho. destruct o; try done; simpl; auto using sendHint_life, setModeLocked_life.
  - unfold phs_pause. destruct (mSessionClosed h) eqn:E; [done |]. by destruct (negb _).
  - unfold phs_resume. destruct (mSessionClosed h) eqn:E; [done |]. by destruct (is_active _).
  - unfold phs_updateTargetWorkDuration. destruct (mSessionClosed h) eqn:E; [done |]. destruct (_ <=? 0); [done |].
    cbn zeta. by destruct (_ && _ && _).
  - destruct (decide ((reportActualWorkDuration hm ds h w).1 = STATUS_OK)) as [E | E].
    + destruct (report_shape ds h w E) as (h1 & L & _ & S). rewrite S.
      by destruct (mPidOn _).
    + revert E. unfold reportActualWorkDuration. destruct (mSessionClosed h); [done |]. destruct (_ =? 0); [done |].
      destruct (bool_decide _); [done |]. destruct (negb (is_active _)); [done |].
      unfold isTimeout, steady_now. cbn beta iota zeta. destruct (negb _); [done |].
      repeat case_match; done.
  - unfold setThreads. destruct (mSessionClosed h) eqn:E; [done |]. by destruct tids.
Qed.

End closing.

(** ** A manager that records the calls it gets *)

Inductive MgrCall := Call_add (sid : Z) | Call_remove (sid : Z) | Call_setThreads (sid : Z) (tids : list Z)
| Call_pause (sid : Z) | Call_resume (sid : Z) | Call_target (sid d : Z)
| Call_vote_cpu (sid : Z) (v : AdpfVoteType) (mn mx : Z) | Call_vote_gpu (sid : Z) (v : AdpfVoteType) (c : Cycles)
| Call_disableBoosts (sid : Z) | Call_efficiency (sid : Z) (b : bool) | Call_statistics (sid : Z).

#[export] Instance recording_manager : PowerSessionManagerT (list MgrCall) := {|
  pm_addPowerSession _ d _ _ _ := cons (Call_add (d_sessionId d));
  pm_removePowerSession sid _ := cons (Call_remove sid);
  pm_setThreadsFromPowerSession sid tids _ := cons (Call_setThreads sid tids);
  pm_pause sid _ := cons (Call_pause sid);
  pm_resume sid _ := cons (Call_resume sid);
  pm_updateTargetWorkDuration sid _ d := cons (Call_target sid d);
  pm_voteSet_cpu sid v mn mx _ _ := cons (Call_vote_cpu sid v mn mx);
  pm_voteSet_gpu sid v c _ _ := cons (Call_vote_gpu sid v c);
  pm_disableBoosts sid := cons (Call_disableBoosts sid);
  pm_setPreferPowerEfficiency sid b _ := cons (Call_efficiency sid b);
  pm_updateHboostStatistics sid _ _ := cons (Call_statistics sid);
  pm_updateFrameMetrics sid _ := cons (Call_statistics sid);
  pm_updateCollectedSessionMetrics sid _ := cons (Call_statistics sid);
  pm_hasValidTaskRampupMultNode _ := true;
  pm_updateRampupBoostMode sid _ _ _ := cons (Call_statistics sid);
  pm_gpuFrequency m := (Some 500000000, m);
  pm_getGameModeEnableState _ := false;
  pm_areAllSessionsTimeout _ _ := true
|}.

Definition is_remove (c : MgrCall) : bool := match c with Call_remove _ => true | _ => false end.

(** The number of removals stays at [n]. *)
Lemma recording_inv (n : Z) : mgr_inv (M := list MgrCall) false (fun _ tr => countb is_remove tr = n).
Proof. split; simpl; intros; rewrite ?countb_cons; simpl; done. Qed.

Definition phs_run {M} `{PowerSessionManagerT M} (hm : HintManager) (ops : list PhsOp) (st : PowerHintSession * World M)
    : PowerHintSession * World M := foldl (fun st o => (phs_op hm o st.1 st.2).2) st ops.

(** The status each call is documented to return. *)
Definition expected_status (o : PhsOp) (h : PowerHintSession) : Status :=
  if mSessionClosed h then EX_ILLEGAL_STATE
  else match o with
  | Phs_pause => if is_active (mDescriptor h) then STATUS_OK else EX_ILLEGAL_STATE
  | Phs_resume => if is_active (mDescriptor h) then EX_ILLEGAL_STATE else STATUS_OK
  | Phs_close => STATUS_OK
  | Phs_updateTargetWorkDuration t => if 0 <? t then STATUS_OK else EX_ILLEGAL_ARGUMENT
  | Phs_reportActualWorkDuration ds =>
      if targetNs (mDescriptor h) =? 0 then EX_ILLEGAL_STATE
      else if bool_decide (ds = []) then EX_ILLEGAL_ARGUMENT
      else if is_active (mDescriptor h) then STATUS_OK else EX_ILLEGAL_STATE
  | Phs_sendHint hint =>
      if targetNs (mDescriptor h) =? 0 then EX_ILLEGAL_STATE
      else match hint with HINT_raw _ => EX_ILLEGAL_ARGUMENT | _ => STATUS_OK end
  | Phs_setMode mode _ => match mode with MODE_POWER_EFFICIENCY => STATUS_OK | _ => EX_ILLEGAL_ARGUMENT end
  | Phs_setThreads tids => match tids with [] => EX_ILLEGAL_ARGUMENT | _ => STATUS_OK end
  end.

(** *** The controller *)

(** The last iteration limits the integral, whatever it was before. *)
Lemma pid_loop_integral (c : AdpfConfig) (t integral prev : Z) (ds : list WorkDuration) :
  0 <= mSamplingWindowI c -> ds <> [] ->
  getPidILowDivI c <= acc_integral (pid_loop c t integral prev ds) <= Z.max (getPidILowDivI c) (getPidIHighDivI c).
Proof.
  intros Hw Hne. unfold pid_loop. set (len := Z.of_nat (length ds)).
  assert (0 < len) as Hlen by (destruct ds; [done | subst len; simpl; lia]).
  assert (window_start (mSamplingWindowI c) len < len) as Hi.
  { unfold window_start. destruct (Z.eqb_spec (mSamplingWindowI c) 0), (len <? mSamplingWindowI c); simpl; lia. }
  set (first := Z.min _ _). assert (first < len) as Hf by lia. clearbody first.
  assert (exists l d, drop (Z.to_nat first) (indexed ds) = l ++ [(len - 1, d)]) as (l & d & ->).
  { destruct (exists_last Hne) as (ds' & d & ->). unfold indexed, len in *. rewrite length_app in *. simpl in *.
    rewrite seq_app, fmap_app. simpl. rewrite zip_with_app by by rewrite length_fmap, length_seq.
    exists (drop (Z.to_nat first) (zip (Z.of_nat <$> seq 0 (length ds')) ds')), d.
    rewrite drop_app_le by (rewrite length_zip_with, length_fmap, length_seq; lia). simpl. do 3 f_equal. lia. }
  rewrite foldl_app. cbn [foldl]. generalize (foldl (pid_step c t (ns_to_100us t) (window_start (mSamplingWindowP c) len)
    (window_start (mSamplingWindowI c) len) (window_start (mSamplingWindowD c) len)) (mkPidAcc integral prev 0 0) l) as a.
  intros a. unfold pid_step. destruct (Z.leb_spec (window_start (mSamplingWindowI c) len) (len - 1)); [| lia].
  destruct (_ <=? _), (_ <=? _); simpl; unfold limit_integral; lia.
Qed.

Lemma next_min_range (fc : Z * Z) (pid out : Z) :
  i32 fc.1 <= next_min fc pid out <= Z.max (i32 fc.1) (i32 fc.2).
Proof. unfold next_min. lia. Qed.

(** *** Lifecycle *)

(** An open session has not been removed yet; a closed one exactly once. *)
Definition removed_once (n : Z) (st : PowerHintSession * World (list MgrCall)) : Prop :=
  countb is_remove (w_mgr st.2) = n + (if mSessionClosed st.1 then 1 else 0).

Lemma close_counts (n : Z) (h : PowerHintSession) (w : World (list MgrCall)) :
  removed_once n (h, w) ->
  removed_once n (phs_close h w).2 /\ mSessionClosed (phs_close h w).2.1 = true.
Proof.
  unfold removed_once, phs_close. simpl. destruct (mSessionClosed h) eqn:E; simpl; [by rewrite E |].
  rewrite countb_cons. simpl. lia.
Qed.

Lemma phs_run_counts (hm : HintManager) (n : Z) (ops : list PhsOp) (st : PowerHintSession * World (list MgrCall)) :
  removed_once n st -> removed_once n (phs_run hm ops st).
Proof.
  revert st. induction ops as [| o ops IH]; intros [h w] Hst; simpl; [done |]. apply IH.
  assert (o = Phs_close \/ o <> Phs_close) as [-> | Ho] by (destruct o; auto); [by apply close_counts |].
  unfold removed_once in *. simpl in *.
  pose proof (phs_op_life hm o h w Ho) as L. unfold phs_life in L. injection L as _ ->.
  by apply (phs_op_inv hm false _ (recording_inv _) o h w 0).
Qed.

(** *** With the manager of this repository *)

Section real_manager.
Context {W : Type} `{FdInterface W} (hm : HintManager) (env : Env).
#[local] Existing Instance psm_manager.
Let M : Type := PowerSessionManager * W.

(** The session as the manager sees it. *)
Definition at_manager (w : World M) (sid : Z) : option SessionValueEntry :=
  session_value (mSessionTaskMap (w_mgr w).1) sid.

Lemma pause_find (sid a b c : Z) (s : PowerSessionManager) (k : Z) :
  psm_findSession (psm_pause env sid a b c s) k = psm_findSession s k.
Proof.
  unfold psm_pause. destruct (psm_findSession s sid) as [p |] eqn:Ep; [| done].
  destruct (isActive _); cbn [negb]; [| done]. rewrite applyCpuAndGpuVotes_find.
  assert (forall sid b d e s, psm_findSession (voteRampupBoostLocked sid b d e s) k = psm_findSession s k) as Hr.
  { intros sid0 b0 d e s0. unfold voteRampupBoostLocked. generalize (stm_getTaskIds (mSessionTaskMap s0) sid0) as l.
    intros l. revert s0. induction l as [| t l IH]; intros s0; simpl; [done |]. rewrite IH.
    unfold updateTaskRampupMult. by destruct (other_sessions_boost s0 sid0 t), (mTaskRampupFd s0 <? 0). }
  assert (forall p m t s, psm_findSession (end_metric_session p m t s) k = psm_findSession s k) as He.
  { intros. unfold end_metric_session. by destruct (_ && _). }
  destruct (sessFrameMetrics _); destruct (rampupBoostActive _);
    unfold reset_metric_session; change (psm_findSession (psm_modify ?q ?f ?x) k) with (psm_findSession x k);
    rewrite ?He, ?Hr; done.
Qed.

Lemma resume_active_noop (sid a b : Z) (s : PowerSessionManager) (v : SessionValueEntry) :
  session_value (mSessionTaskMap s) sid = Some v -> isActive v = true -> psm_resume env sid a b s = s.
Proof.
  unfold session_value, psm_resume, psm_findSession, stm_findSession, psm_deref. intros Hv Ha.
  destruct (mSessions (mSessionTaskMap s) !! sid) as [e |]; [| done]. simplify_eq/=. by rewrite Ha.
Qed.

End real_manager.

(** ** Main results *)

(** C8. Every call returns its documented status, and a call that does not
    return OK changes neither the session nor the manager nor sends a hint; in
    particular a closed session rejects everything.  This holds for every
    manager. *)
Theorem phs_status_and_errors {M : Type} `{PowerSessionManagerT M} (hm : HintManager) (o : PhsOp)
    (h : PowerHintSession) (w : World M) :
  (phs_op hm o h w).1 = expected_status o h /\
  ((phs_op hm o h w).1 <> STATUS_OK -> (phs_op hm o h w).2 = (h, w)).
Proof.
  unfold expected_status. destruct o; simpl.
  - unfold phs_pause. destruct (mSessionClosed h); [done |]. by destruct (is_active _).
  - unfold phs_resume. destruct (mSessionClosed h); [done |]. by destruct (is_active _).
  - unfold phs_close. by destruct (mSessionClosed h).
  - unfold phs_updateTargetWorkDuration. destruct (mSessionClosed h); [done |].
    destruct (Z.leb_spec target 0), (Z.ltb_spec 0 target); try lia; done.
  - unfold reportActualWorkDuration. destruct (mSessionClosed h); [done |]. destruct (_ =? 0); [done |].
    destruct (bool_decide _); [done |]. destruct (is_active _); [| done]. cbn [negb].
    unfold isTimeout, steady_now. cbn beta iota zeta. destruct (negb _); [done |]. repeat case_match; done.
  - unfold sendHint. destruct (mSessionClosed h); [done |]. destruct (_ =? 0); [done |].
    destruct (send_hint_locked _ _ _ _ _) as [nm [h1 w1]].
    destruct hint; try done; unfold steady_now; cbn beta iota zeta; by destruct (tryToSendPowerHint _ _ _ _ _).
  - unfold setMode, setModeLocked. destruct (mSessionClosed h); [done |]. by destruct mode.
  - unfold setThreads. destruct (mSessionClosed h); [done |]. by destruct tids.
Qed.

(** Sample values for the witnesses. *)
Definition example_hm : HintManager := mkHintManager (fun _ => true) (fun _ => example_config).
Definition example_world : World (list MgrCall) := mkWorld [] (fun n => Z.of_nat n * 1000) [].
Definition example_new : PowerHintSession * World (list MgrCall) :=
  new_PowerHintSession example_hm 7 PROC_DEFAULT (Some true) 1000 10100 [100; 101] 16666666 TAG_APP example_world.
Definition example_session : PowerHintSession := example_new.1.
Definition example_closed : PowerHintSession := example_session <| mSessionClosed := true |>.

Lemma phs_status_and_errors_witness :
  (phs_op example_hm (Phs_sendHint HINT_CPU_LOAD_UP) example_closed example_world).2 = (example_closed, example_world).
Proof. apply (phs_status_and_errors example_hm (Phs_sendHint HINT_CPU_LOAD_UP)). vm_compute. discriminate. Defined.

(** C9. The controller stays within its bounds, whatever its state before: a
    successful report with the controller on leaves the utilisation minimum at
    or above the floor and at or below the ceiling that belong to the jank level
    it computed (at the floor, if the profile has the ceiling below it), and the
    integral term at or above its lower anti-windup limit and at or below the
    upper one (at the lower, if they are in the wrong order). *)
Theorem report_pid_bounds {M : Type} `{PowerSessionManagerT M} (hm : HintManager) (ds : list WorkDuration)
    (h : PowerHintSession) (w : World M)
    (Hok : (reportActualWorkDuration hm ds h w).1 = STATUS_OK) (Hon : mPidOn (getAdpfProfile hm h) = true)
    (Hwin : 0 <= mSamplingWindowI (getAdpfProfile hm h)) :
  let c := getAdpfProfile hm h in
  let h' := (reportActualWorkDuration hm ds h w).2.1 in
  let fc := uclamp_floor_ceiling c (mJankyLevel h') (mJankyFrameNum h') in
  i32 fc.1 <= pidControlVariable (mDescriptor h') <= Z.max (i32 fc.1) (i32 fc.2) /\
  getPidILowDivI c <= integral_error (mDescriptor h') <= Z.max (getPidILowDivI c) (getPidIHighDivI c).
Proof.
  intros c h'. assert (ds <> []) as Hne.
  { intros ->. revert Hok. unfold reportActualWorkDuration. destruct (mSessionClosed h); [done |]. by destruct (_ =? 0). } destruct (report_shape hm ds h w Hok) as (h1 & _ & _ & S). change (mPidOn c = true) in Hon.
  cbn zeta in S. fold c in S. fold h' in S. rewrite Hon in S.
  rewrite S. cbn zeta. split.
  - simpl. apply next_min_range.
  - simpl. by apply pid_loop_integral.
Qed.

Definition example_durations : list WorkDuration :=
  [mkWorkDuration 20000000 15000000 8000000 7000000 0; mkWorkDuration 40000000 18000000 9000000 8000000 0].

Lemma report_pid_bounds_witness :
  let h' := (reportActualWorkDuration example_hm example_durations example_session example_world).2.1 in
  2 <= pidControlVariable (mDescriptor h') <= 500.
Proof.
  intros h'.
  destruct (report_pid_bounds example_hm example_durations example_session example_world) as [A _];
    [vm_compute; reflexivity | vm_compute; reflexivity | vm_compute; discriminate |].
  vm_compute in A |- *. exact A.
Defined.

(** C12. A session is removed from the manager exactly once in its life: from an
    open session that the manager was not told to remove, whatever calls its
    client makes one after the other, closing any number of times included,
    after the destructor the manager has got exactly one [removePowerSession]. *)
Theorem phs_removed_exactly_once (hm : HintManager) (ops : list PhsOp) (h : PowerHintSession) (w : World (list MgrCall))
    (Hopen : mSessionClosed h = false) (H0 : countb is_remove (w_mgr w) = 0) :
  let '(h', w') := phs_run hm ops (h, w) in
  countb is_remove (w_mgr (delete_PowerHintSession h' w')) = 1.
Proof.
  assert (removed_once 0 (phs_run hm ops (h, w))) as Hr.
  { apply phs_run_counts. unfold removed_once. simpl. by rewrite Hopen, H0. }
  destruct (phs_run hm ops (h, w)) as [h' w']. unfold delete_PowerHintSession.
  destruct (close_counts 0 h' w' Hr) as [A B]. destruct (phs_close h' w') as [st [h2 w2]].
  unfold removed_once in A. simpl in *. rewrite B in A. lia.
Qed.

Lemma phs_removed_exactly_once_witness :
  let '(h', w') := phs_run example_hm [Phs_pause; Phs_close; Phs_resume; Phs_close] (example_session, example_world) in
  countb is_remove (w_mgr (delete_PowerHintSession h' w')) = 1.
Proof. apply (phs_removed_exactly_once example_hm); vm_compute; reflexivity. Defined.

Definition example_real_world : World (PowerSessionManager * list ascii) :=
  mkWorld (example_state, std_to_string 500000 ++ ["010"%char]) (fun n => Z.of_nat n * 1000) [].

Lemma example_state_inv : psm_inv true example_state.
Proof. exact (pf_inv _ _ (proj1 (psm_reachable example_run None 5 (Some 10) ltac:(simpl; lia)))). Qed.

(** Pausing a session pauses it at the manager and then replaces its
    threads by none, which makes the manager count it as active again, with no
    threads.  When the session is resumed the manager therefore finds it active
    and its [resume] does nothing: in particular it never restarts the metric
    session. *)
Theorem paused_session_stays_active {W : Type} `{FdInterface W} (hm : HintManager) (env : Env)
    (h : PowerHintSession) (w : World (PowerSessionManager * W))
    (Hinv : psm_inv true (w_mgr w).1) (Hs : is_Some (psm_findSession (w_mgr w).1 (mSessionId h)))
    (Hok : (phs_pause (H := psm_manager env) h w).1 = STATUS_OK) :
  let '(h', w') := (phs_pause (H := psm_manager env) h w).2 in
  (exists v, at_manager w' (mSessionId h) = Some v /\ isActive v = true) /\
  stm_getTaskIds (mSessionTaskMap (w_mgr w').1) (mSessionId h) = [] /\
  (phs_resume (H := psm_manager env) h' w').1 = STATUS_OK /\
  (w_mgr (phs_resume (H := psm_manager env) h' w').2.2).1 =
    setThreadsFromPowerSession env (mSessionId h) (thread_ids (mDescriptor h)) (w_clock w' 0%nat) (w_clock w' 1%nat) (w_mgr w').1.
Proof.
  unfold phs_pause in *. destruct (mSessionClosed h) eqn:Ec; [done |].
  destruct (is_active (mDescriptor h)) eqn:Ea; [| done]. cbn [negb] in *. clear Hok.
  unfold phs_resume, at_manager, call. destruct w as [[s fs] clk hints].
  cbn -[psm_pause setThreadsFromPowerSession psm_resume Nat.add] in *. rewrite Ec.
  cbn -[psm_pause setThreadsFromPowerSession psm_resume Nat.add] in *.
  set (s1 := psm_pause env (mSessionId h) _ _ _ s).
  assert (psm_inv true s1) as H1 by by apply pause_quiet.
  assert (is_Some (psm_findSession s1 (mSessionId h))) as Hs1 by (unfold s1; by rewrite pause_find).
  set (s2 := setThreadsFromPowerSession env (mSessionId h) [] _ _ s1).
  assert (psm_inv true s2) as H2 by by apply quiet_setThreads.
  destruct (setThreads_spec env s1 (mSessionId h) [] (clk 8%nat) (clk 9%nat) (pi_wf _ _ H1) Hs1)
    as ((v & Hv & Hav) & Hsub & _ & _).
  split_and!; [by exists v | by apply sublist_nil_r in Hsub | done |].
  assert (is_Some (psm_findSession s2 (mSessionId h))) as Hs2.
  { change (session_value (mSessionTaskMap s2) (mSessionId h) = Some v) in Hv.
    unfold session_value in Hv. unfold psm_findSession, stm_findSession.
    destruct (mSessions (mSessionTaskMap s2) !! mSessionId h); [by eexists | done]. }
  match goal with |- psm_resume env _ _ _ ?x = ?y => change y with x; set (s3 := x) end.
  destruct (setThreads_spec env s2 (mSessionId h) (thread_ids (mDescriptor h)) (clk 16%nat) (clk 17%nat) (pi_wf _ _ H2) Hs2)
    as ((v3 & Hv3 & Hav3) & _). by eapply resume_active_noop.
Qed.

Lemma paused_session_stays_active_witness :
  let '(h', w') := (phs_pause (H := psm_manager example_env) example_session example_real_world).2 in
  is_active (mDescriptor h') = false /\ exists v, at_manager w' 7 = Some v /\ isActive v = true.
Proof.
  pose proof (paused_session_stays_active (W := list ascii) example_hm example_env example_session example_real_world
    example_state_inv) as H.
  assert (is_Some (psm_findSession (w_mgr example_real_world).1 (mSessionId example_session))) as Hs.
  { vm_compute. eexists. reflexivity. }
  specialize (H Hs ltac:(vm_compute; reflexivity)).
  destruct (phs_pause (H := psm_manager example_env) example_session example_real_world) as [st [h' w']] eqn:E.
  cbn [snd] in *. split; [| exact (proj1 H)].
  change (is_active (mDescriptor (st, (h', w')).2.1) = false). rewrite <- E. vm_compute. reflexivity.
Defined.

Lemma optionals_read_hints {M : Type} (b : bool) (w : World M) (e : HintEffect) :
  e ∈ w_hints w -> e ∈ w_hints (optionals_read b w).
Proof. destruct b; [done | by constructor]. Qed.

(** A session whose profile had the heuristic boost off when it was created
    has no records.  If a later profile switches the boost on, the next report
    dereferences the missing records, whatever the manager. *)
Theorem late_heuristic_boost_null_records {M : Type} `{PowerSessionManagerT M} (hm : HintManager) (ds : list WorkDuration)
    (h : PowerHintSession) (w : World M)
    (Hrec : mSessionRecords h = None) (Hon : mPidOn (getAdpfProfile hm h) = true)
    (Hb : hboostEnabled (getAdpfProfile hm h) = true)
    (Hok : (reportActualWorkDuration hm ds h w).1 = STATUS_OK) :
  Hint_null_records ∈ w_hints (reportActualWorkDuration hm ds h w).2.2.
Proof.
  revert Hok. unfold reportActualWorkDuration. destruct (mSessionClosed h); [done |]. destruct (_ =? 0); [done |].
  destruct (bool_decide _); [done |]. destruct (negb (is_active _)); [done |]. intros _.
  unfold isTimeout, steady_now. cbn beta iota zeta. rewrite Hon, Hb. cbn [negb].
  unfold report_heuristics. cbn [mSessionRecords]. simpl mSessionRecords. rewrite Hrec. cbn beta iota.
  destruct (convertWorkDurationToBoostByPid _ _ _) as [out h3].
  match goal with |- context [updatePidControlVariable hm ?v true h3 ?w3] =>
    assert (Hint_null_records ∈ w_hints w3) as Hin by (apply optionals_read_hints, optionals_read_hints; by constructor);
    generalize w3, v, Hin end. clear. intros w3 v Hin.
  unfold updatePidControlVariable, vote_cpu_now, steady_now. cbn beta iota zeta. cbn [snd].
  unfold report_gpu. repeat case_match; exact Hin.
Qed.

Lemma late_heuristic_boost_null_records_witness :
  Hint_null_records ∈ w_hints (reportActualWorkDuration example_hm example_durations
    (setAdpfProfile (Some example_config) (example_session <| mSessionRecords := None |>)) example_world).2.2.
Proof.
  apply (late_heuristic_boost_null_records example_hm example_durations
    (setAdpfProfile (Some example_config) (example_session <| mSessionRecords := None |>)) example_world);
    vm_compute; reflexivity.
Defined.

(** With a target below 100 microseconds the unit of the derivative term is
    zero, and the trace of that term divides by it. *)
Lemma short_target_divides_by_zero (c : AdpfConfig) (ds : list WorkDuration) (h : PowerHintSession) :
  0 < targetNs (mDescriptor h) < 100000 -> trace_derivative c ds h = None.
Proof.
  intros Ht. unfold trace_derivative, ns_to_100us. rewrite (Z.quot_small _ 100000) by lia. done.
Qed.
