(* ===== verification/Channels.v ===== *)
(** * Message channels between clients and sessions
      (src/power-libperfmgr/aidl/SessionChannel.{h,cpp}, ChannelGroup.{h,cpp},
       ChannelManager.{h,cpp})

    A client may send its hints through a shared-memory queue instead of binder
    calls.  The manager hands each client, identified by process and user, a
    channel: a slot of one of the groups of sixteen that share an event flag
    and a thread.  The thread wakes up with a set of write bits, serves the
    channels of those bits, and turns the messages into calls of the sessions,
    merging consecutive work durations of one session into one report.

    Shown here: a client always gets the same channel until it is closed, and
    no two clients share a slot; the group never runs out of slots; the packed
    keys are unambiguous; the served channels are exactly those whose bit is
    set; merging neither loses, duplicates nor reorders a message. *)

From S2P Require Import Prelude Text CFloat AdpfTypes UClampVoter SessionMetrics SessionRecords SessionTaskMap BackgroundWorker GpuNode PowerSessionManager PowerHintSession.

(** ** Data *)

(** The union of two [int32_t] with an [int64_t]: the first field is the low
    half. *)
Definition pack32 (lo hi : Z) : Z := i64 (u32 lo + 2 ^ 32 * u32 hi).
Definition unpack_lo (v : Z) : Z := i32 v.
Definition unpack_hi (v : Z) : Z := i32 (Z.shiftr v 32).

Inductive ChannelContents :=
| Msg_targetDuration (target : Z)
| Msg_hint (hint : SessionHint)
| Msg_mode (mode : SessionMode) (enabled : bool)
| Msg_workDuration (duration cpu gpu start : Z)
| Msg_other.

Record ChannelMessage := mkChannelMessage { msg_sessionID : Z; msg_timeStampNanos : Z; msg_data : ChannelContents }.

(** A channel, with the unread content of its queue; [queue_sane] says whether
    a read of the queue succeeds (it fails when the client corrupted the shared
    memory). *)
Record SessionChannel := mkSessionChannel {
  mTgid : Z;
  mUid : Z;
  mId : Z;
  mReadMask : Z;
  mWriteMask : Z;
  queue_valid : bool;
  queue_sane : bool;
  queue : list ChannelMessage
}.

#[export] Instance eta_SessionChannel : Record_eta SessionChannel := fun r =>
  mkSessionChannel (mTgid r) (mUid r) (mId r) (mReadMask r) (mWriteMask r) (queue_valid r) (queue_sane r) (queue r).

Definition new_SessionChannel (tgid uid id offset : Z) : SessionChannel :=
  mkSessionChannel tgid uid id (u32 (Z.shiftl 1 (offset + 16))) (u32 (Z.shiftl 1 offset)) true true [].

Record ChannelGroup := mkChannelGroup {
  mLiveChannels : Z;
  mGroupId : Z;
  mChannels : list (option SessionChannel)
}.

#[export] Instance eta_ChannelGroup : Record_eta ChannelGroup := fun r =>
  mkChannelGroup (mLiveChannels r) (mGroupId r) (mChannels r).

Definition new_ChannelGroup (id : Z) : ChannelGroup :=
  mkChannelGroup 0 id (replicate (Z.to_nat kMaxChannels) None).

Record ChannelManager := mkChannelManager {
  mChannelGroups : gmap Z ChannelGroup;
  mChannelMap : gmap Z Z
}.

#[export] Instance eta_ChannelManager : Record_eta ChannelManager := fun r =>
  mkChannelManager (mChannelGroups r) (mChannelMap r).

Definition new_ChannelManager : ChannelManager := mkChannelManager ∅ ∅.

(** ** ChannelGroup *)

Definition channel_at (g : ChannelGroup) (slot : Z) : option SessionChannel :=
  if 0 <=? slot then mjoin (mChannels g !! Z.to_nat slot) else None.

Definition group_removeChannel (slot : Z) (g : ChannelGroup) : bool * ChannelGroup :=
  match channel_at g slot with
  | None => (false, g)
  | Some _ => (true, g <| mChannels ::= <[Z.to_nat slot := None]> |> <| mLiveChannels ::= fun n => n -₃₂ 1 |>)
  end.

(** The loop that looks for a free slot; the length when there is none. *)
Fixpoint first_free (l : list (option SessionChannel)) : nat :=
  match l with
  | [] => O
  | None :: _ => O
  | Some _ :: l => S (first_free l)
  end.

(** [None] is the fatal assertion. *)
Definition group_createChannel (tgid uid : Z) (g : ChannelGroup) : option (SessionChannel * ChannelGroup) :=
  let slot := Z.of_nat (first_free (mChannels g)) in
  if slot =? kMaxChannels then None
  else
    let c := new_SessionChannel tgid uid (pack32 (mGroupId g) slot) slot in
    Some (c, g <| mLiveChannels ::= fun n => n +₃₂ 1 |> <| mChannels ::= <[Z.to_nat slot := Some c]> |>).

(** [None] is the fatal assertion. *)
Definition group_getChannel (slot : Z) (g : ChannelGroup) : option SessionChannel := channel_at g slot.

(** ** ChannelManager *)

(** The keys of the ordered map. *)
Definition group_ids (m : ChannelManager) : list Z := merge_sort Z.le (elements (dom (mChannelGroups m))).

(** The loop over the groups in key order. *)
Definition free_group (m : ChannelManager) : option Z :=
  List.find (fun id => match mChannelGroups m !! id with Some g => mLiveChannels g <? kMaxChannels | None => false end)
    (group_ids m).

Definition next_group_id (m : ChannelManager) : Z :=
  match last (group_ids m) with None => 0 | Some id => id +₃₂ 1 end.

(** [None]: a fatal assertion or [at] on a missing key. *)
Definition getOrCreateChannel (tgid uid : Z) (m : ChannelManager) : option (SessionChannel * ChannelManager) :=
  let key := pack32 tgid uid in
  match mChannelMap m !! key with
  | Some v =>
      g ← mChannelGroups m !! unpack_lo v;
      c ← group_getChannel (unpack_hi v) g;
      Some (c, m)
  | None =>
      let '(groupId, m) :=
        match free_group m with
        | Some id => (id, m)
        | None => let id := next_group_id m in (id, m <| mChannelGroups ::= <[id := new_ChannelGroup id]> |>)
        end in
      g ← mChannelGroups m !! groupId;
      '(c, g') ← group_createChannel tgid uid g;
      Some (c, m <| mChannelGroups ::= <[groupId := g']> |> <| mChannelMap ::= <[key := mId c]> |>)
  end.

Definition closeChannel (tgid uid : Z) (m : ChannelManager) : bool * ChannelManager :=
  let key := pack32 tgid uid in
  match mChannelMap m !! key with
  | None => (false, m)
  | Some v =>
      match mChannelGroups m !! unpack_lo v with
      | None => (false, m)
      | Some g =>
          let '(removed, g') := group_removeChannel (unpack_hi v) g in
          if removed then
            let m := if mLiveChannels g' =? 0 then m <| mChannelGroups ::= delete (unpack_lo v) |>
                     else m <| mChannelGroups ::= <[unpack_lo v := g']> |> in
            (true, m <| mChannelMap ::= delete key |>)
          else (false, m)
      end
  end.

Record ChannelConfig := mkChannelConfig { readFlagBitmask : Z; writeFlagBitmask : Z; config_group : Z }.

(** [None] as for [getOrCreateChannel]; the inner option is the boolean
    result with the configuration it fills in. *)
Definition getChannelConfig (tgid uid : Z) (m : ChannelManager) : option (option ChannelConfig * ChannelManager) :=
  '(c, m) ← getOrCreateChannel tgid uid m;
  if queue_valid c then
    _ ← mChannelGroups m !! unpack_lo (mId c);
    Some (Some (mkChannelConfig (mReadMask c) (mWriteMask c) (unpack_lo (mId c))), m)
  else Some (None, m).

Definition getGroupCount (m : ChannelManager) : Z := Z.of_nat (size (mChannelGroups m)).

Definition cm_getChannelCount (m : ChannelManager) : Z :=
  sumZ ((fun id => match mChannelGroups m !! id with Some g => mLiveChannels g | None => 0 end) <$> group_ids m).

(** ** The thread of a group *)

(** [std::countr_zero] on 32 bits. *)
Fixpoint ctz_pos (p : positive) : Z :=
  match p with
  | xO p => 1 + ctz_pos p
  | _ => 0
  end.

Definition countr_zero (w : Z) : Z := match w with Zpos p => ctz_pos p | _ => 32 end.

(** The channel numbers that the loop over the flag visits, in order; a 32-bit
    word has at most 32 bits to drop. *)
Fixpoint flag_loop (fuel : nat) (flagState : Z) : list Z :=
  match fuel with
  | O => []
  | S fuel =>
      let channelNum := countr_zero flagState in
      if channelNum <? kMaxChannels then channelNum :: flag_loop fuel (Z.land flagState (flagState - 1)) else []
  end.

Definition visited_channels (flagState : Z) : list Z := flag_loop 33 flagState.

(** The work durations at the front that belong to the session. *)
Fixpoint take_durations (sid : Z) (msgs : list ChannelMessage) : list WorkDuration * list ChannelMessage :=
  match msgs with
  | mkChannelMessage s t (Msg_workDuration d c g st) :: rest =>
      if s =? sid then let '(ds, rest) := take_durations sid rest in (mkWorkDuration t d c g st :: ds, rest)
      else ([], msgs)
  | _ => ([], msgs)
  end.

(** The loop over the messages of one read, as the calls it makes; [alive] says
    which sessions the manager still finds.  Every round consumes a message. *)
Fixpoint deliver (fuel : nat) (alive : Z -> bool) (msgs : list ChannelMessage) : list (Z * PhsOp) :=
  match fuel with
  | O => []
  | S fuel =>
      match msgs with
      | [] => []
      | message :: rest =>
          let sid := msg_sessionID message in
          if negb (alive sid) then deliver fuel alive rest
          else match msg_data message with
               | Msg_hint hint => (sid, Phs_sendHint hint) :: deliver fuel alive rest
               | Msg_targetDuration t => (sid, Phs_updateTargetWorkDuration t) :: deliver fuel alive rest
               | Msg_workDuration _ _ _ _ =>
                   let '(ds, rest) := take_durations sid msgs in
                   (sid, Phs_reportActualWorkDuration ds) :: deliver fuel alive rest
               | Msg_mode mode enabled => (sid, Phs_setMode mode enabled) :: deliver fuel alive rest
               | Msg_other => deliver fuel alive rest
               end
      end
  end.

(** What one wake-up does: the calls made, the read bits woken, and the new
    state of the group and of the blocklist of users. *)
Record Served := mkServed {
  sv_calls : list (Z * PhsOp); sv_woken : list Z; sv_group : ChannelGroup; sv_blocklist : gset Z
}.

#[export] Instance eta_Served : Record_eta Served := fun r =>
  mkServed (sv_calls r) (sv_woken r) (sv_group r) (sv_blocklist r).

Definition serve_channel (alive : Z -> bool) (s : Served) (channelNum : Z) : Served :=
  match channel_at (sv_group s) channelNum with
  | None => s
  | Some c =>
      if negb (queue_valid c) then s
      else if decide (mUid c ∈ sv_blocklist s) then s
      else
        match queue c with
        | [] => s
        | messages =>
            if negb (queue_sane c) then s <| sv_blocklist ::= union {[mUid c]} |>
            else
              s <| sv_group ::= fun g => g <| mChannels ::= <[Z.to_nat channelNum := Some (c <| queue := [] |>)]> |> |>
                <| sv_woken ::= fun l => l ++ [mReadMask c] |>
                <| sv_calls ::= fun l => l ++ deliver (length messages) alive messages |>
        end
  end.

Definition runChannelGroup_wake (alive : Z -> bool) (flagState : Z) (g : ChannelGroup) (blocklist : gset Z) : Served :=
  foldl (serve_channel alive) (mkServed [] [] g blocklist) (visited_channels (Z.land flagState kWriteBits)).

(** ** Packing *)

Lemma unpack_lo_pack (lo hi : Z) : is_i32 lo -> unpack_lo (pack32 lo hi) = lo.
Proof.
  unfold is_i32, unpack_lo, pack32, i32, i64, u32, wrap_s, wrap_u. intros H.
  change (2 ^ (64 - 1)) with (2 ^ 63). change (2 ^ (32 - 1)) with (2 ^ 31). Z.div_mod_to_equations. lia.
Qed.

Lemma unpack_hi_pack (lo hi : Z) : is_i32 hi -> unpack_hi (pack32 lo hi) = hi.
Proof.
  unfold is_i32, unpack_hi, pack32, i32, i64, u32, wrap_s, wrap_u. intros H. rewrite Z.shiftr_div_pow2 by lia.
  change (2 ^ (64 - 1)) with (2 ^ 63). change (2 ^ (32 - 1)) with (2 ^ 31). Z.div_mod_to_equations. lia.
Qed.

Lemma pack32_inj (a b c d : Z) :
  is_i32 a -> is_i32 b -> is_i32 c -> is_i32 d -> pack32 a b = pack32 c d -> a = c /\ b = d.
Proof.
  intros Ha Hb Hc Hd E. split.
  - by rewrite <- (unpack_lo_pack a b), E, unpack_lo_pack.
  - by rewrite <- (unpack_hi_pack a b), E, unpack_hi_pack.
Qed.

(** ** The flag *)

Lemma ctz_pos_nonneg (p : positive) : 0 <= ctz_pos p.
Proof. induction p; simpl; lia. Qed.

Lemma ctz_pos_bit (p : positive) : Z.testbit (Zpos p) (ctz_pos p) = true.
Proof.
  induction p as [p _ | p IH |]; [done | | done]. cbn [ctz_pos]. pose proof (ctz_pos_nonneg p).
  rewrite Pos2Z.inj_xO, Z.add_comm, Z.add_1_r, Z.testbit_even_succ by lia. done.
Qed.

(** Clearing the lowest set bit. *)
Lemma drop_low_bit (p : positive) (i : Z) : 0 <= i ->
  Z.testbit (Z.land (Zpos p) (Zpos p - 1)) i = Z.testbit (Zpos p) i && negb (i =? ctz_pos p).
Proof.
  revert i. induction p as [p _ | p IH |]; intros i Hi; rewrite Z.land_spec.
  - cbn [ctz_pos]. change (Z.pos p~1 - 1) with (Z.pos p~0). rewrite (Pos2Z.inj_xI p), (Pos2Z.inj_xO p).
    destruct (Z.eqb_spec i 0) as [-> | Hne].
    + rewrite Z.testbit_odd_0, Z.testbit_even_0. done.
    + replace i with (Z.succ (i - 1)) by lia. rewrite Z.testbit_odd_succ, Z.testbit_even_succ by lia. simpl.
      by rewrite andb_diag, andb_true_r.
  - cbn [ctz_pos]. replace (Z.pos p~0 - 1) with (2 * (Z.pos p - 1) + 1) by lia. rewrite (Pos2Z.inj_xO p).
    pose proof (ctz_pos_nonneg p). destruct (Z.eqb_spec i 0) as [-> | Hne].
    + rewrite Z.testbit_even_0. done.
    + replace i with (Z.succ (i - 1)) by lia. rewrite Z.testbit_odd_succ, Z.testbit_even_succ by lia.
      rewrite <- Z.land_spec, IH by lia. f_equal. f_equal.
      destruct (Z.eqb_spec (i - 1) (ctz_pos p)), (Z.eqb_spec (Z.succ (i - 1)) (1 + ctz_pos p)); lia.
  - change (1 - 1) with 0. rewrite Z.bits_0, andb_false_r. destruct (Z.eqb_spec i (ctz_pos 1)); [by rewrite andb_false_r |].
    simpl in *. destruct i as [| q | q]; [lia | | lia]. by destruct q.
Qed.

Lemma ctz_pos_lowest (p : positive) (i : Z) : 0 <= i < ctz_pos p -> Z.testbit (Zpos p) i = false.
Proof.
  revert i. induction p as [p _ | p IH |]; intros i Hi; simpl in Hi; try lia.
  rewrite (Pos2Z.inj_xO p). destruct (Z.eq_dec i 0) as [-> | Hne]; [apply Z.testbit_even_0 |].
  replace i with (Z.succ (i - 1)) by lia. rewrite Z.testbit_even_succ by lia. apply IH. lia.
Qed.

Lemma filter_none {A} (f : A -> bool) (l : list A) : (forall x, x ∈ l -> f x = false) -> List.filter f l = [].
Proof.
  induction l as [| x l IH]; intros Hf; simpl; [done |]. rewrite Hf by constructor. apply IH. intros y Hy.
  apply Hf. by constructor.
Qed.

Lemma filter_ext_in {A} (f g : A -> bool) (l : list A) : (forall x, x ∈ l -> f x = g x) -> List.filter f l = List.filter g l.
Proof.
  induction l as [| x l IH]; intros Hf; simpl; [done |]. rewrite Hf by constructor.
  rewrite IH; [done |]. intros y Hy. apply Hf. by constructor.
Qed.

Lemma flag_loop_spec (fuel : nat) (w k : Z) :
  0 <= w -> 0 <= k <= 16 -> (forall i, 0 <= i < k -> Z.testbit w i = false) -> 16 - k < Z.of_nat fuel ->
  flag_loop fuel w = List.filter (Z.testbit w) (seqZ k (16 - k)).
Proof.
  revert w k. induction fuel as [| fuel IH]; intros w k Hw Hk Hlow Hf; [lia |].
  cbn [flag_loop]. destruct w as [| p | p]; [| | lia].
  - simpl. symmetry. apply filter_none. intros x _. apply Z.bits_0.
  - cbn [countr_zero]. unfold kMaxChannels.
    pose proof (ctz_pos_nonneg p) as Hc. pose proof (ctz_pos_bit p) as Hb. pose proof (ctz_pos_lowest p) as Hl.
    assert (k <= ctz_pos p) as Hkc.
    { destruct (Z.le_gt_cases k (ctz_pos p)); [done |]. rewrite Hlow in Hb by lia. done. }
    destruct (Z.ltb_spec (ctz_pos p) 16) as [Hlt | Hge].
    + replace (seqZ k (16 - k)) with (seqZ k (ctz_pos p - k) ++ ctz_pos p :: seqZ (ctz_pos p + 1) (16 - (ctz_pos p + 1))).
      2: { replace (16 - k) with ((ctz_pos p - k) + (16 - ctz_pos p)) by lia. rewrite seqZ_app by lia.
           f_equal. rewrite (seqZ_cons (k + (ctz_pos p - k))) by lia. f_equal; [lia |]. f_equal; lia. }
      rewrite List.filter_app. rewrite (filter_none _ (seqZ k _)).
      2: { intros x Hx. apply elem_of_seqZ in Hx. apply Hl. lia. }
      simpl. rewrite Hb. f_equal. rewrite (IH _ (ctz_pos p + 1)).
      * apply filter_ext_in. intros x Hx. apply elem_of_seqZ in Hx. rewrite drop_low_bit by lia.
        destruct (Z.eqb_spec x (ctz_pos p)); [lia | by rewrite andb_true_r].
      * apply Z.land_nonneg. lia.
      * lia.
      * intros i Hi. rewrite drop_low_bit by lia. destruct (Z.eqb_spec i (ctz_pos p)); [by rewrite andb_false_r |].
        rewrite Hl by lia. done.
      * lia.
    + symmetry. apply filter_none. intros x Hx. apply elem_of_seqZ in Hx. apply Hl. lia.
Qed.

(** ** Merging *)

(** The call a message asks for by itself. *)
Definition message_call (m : ChannelMessage) : option (Z * PhsOp) :=
  match msg_data m with
  | Msg_hint hint => Some (msg_sessionID m, Phs_sendHint hint)
  | Msg_targetDuration t => Some (msg_sessionID m, Phs_updateTargetWorkDuration t)
  | Msg_mode mode enabled => Some (msg_sessionID m, Phs_setMode mode enabled)
  | Msg_workDuration d c g st =>
      Some (msg_sessionID m, Phs_reportActualWorkDuration [mkWorkDuration (msg_timeStampNanos m) d c g st])
  | Msg_other => None
  end.

(** A merged report, taken apart again. *)
Definition split_call (c : Z * PhsOp) : list (Z * PhsOp) :=
  match c with
  | (sid, Phs_reportActualWorkDuration ds) => (fun d => (sid, Phs_reportActualWorkDuration [d])) <$> ds
  | _ => [c]
  end.

Definition live_calls (alive : Z -> bool) (msgs : list ChannelMessage) : list (Z * PhsOp) :=
  omap (fun m => if alive (msg_sessionID m) then message_call m else None) msgs.

Lemma live_calls_cons (alive : Z -> bool) (m : ChannelMessage) (msgs : list ChannelMessage) :
  live_calls alive (m :: msgs) =
    option_list (if alive (msg_sessionID m) then message_call m else None) ++ live_calls alive msgs.
Proof. unfold live_calls. simpl. by destruct (if alive _ then _ else _). Qed.

#[local] Arguments live_calls : simpl never.

Lemma take_durations_spec (alive : Z -> bool) (sid : Z) (msgs : list ChannelMessage) :
  alive sid = true ->
  let '(ds, rest) := take_durations sid msgs in
  live_calls alive msgs = ((fun d => (sid, Phs_reportActualWorkDuration [d])) <$> ds) ++ live_calls alive rest /\
  (length ds + length rest = length msgs)%nat.
Proof.
  intros Ha. induction msgs as [| [s t d] msgs IH]; simpl; [done |].
  destruct d; try done. destruct (Z.eqb_spec s sid) as [-> |]; [| done].
  destruct (take_durations sid msgs) as [ds rest]. destruct IH as [IH1 IH2]. rewrite live_calls_cons, IH1. simpl. rewrite Ha.
  split; [done | simpl; lia].
Qed.

Lemma deliver_spec (fuel : nat) (alive : Z -> bool) (msgs : list ChannelMessage) :
  (length msgs <= fuel)%nat -> (deliver fuel alive msgs) ≫= split_call = live_calls alive msgs.
Proof.
  revert msgs. induction fuel as [| fuel IH]; intros msgs Hf; [by destruct msgs; simpl in Hf; [| lia] |].
  destruct msgs as [| m msgs]; [done |]. simpl in Hf. cbn [deliver].
  assert (deliver fuel alive msgs ≫= split_call = live_calls alive msgs) as Hr by (apply IH; lia).
  destruct (alive (msg_sessionID m)) eqn:Ea; cbn [negb].
  - destruct m as [sid t d]. cbn [msg_sessionID msg_data] in *.
    destruct d; try (rewrite live_calls_cons; simpl; rewrite Ea, <- Hr; done).
    pose proof (take_durations_spec alive sid (mkChannelMessage sid t (Msg_workDuration duration cpu gpu start) :: msgs) Ea) as Ht.
    destruct (take_durations sid _) as [ds rest] eqn:Et. destruct Ht as [H1 H2].
    assert (0 < length ds)%nat as Hds.
    { simpl in Et. rewrite Z.eqb_refl in Et. destruct (take_durations sid msgs) as [ds' rest']. injection Et as <- <-. simpl. lia. }
    rewrite H1. cbn [mbind list_bind split_call]. f_equal. apply IH. simpl in H2. lia.
  - rewrite Hr, live_calls_cons. simpl. by rewrite Ea.
Qed.

(** ** What a wake-up has to do

    The channels to be read, in the order of their numbers: those with a valid
    queue, something in it and a user who is not blocked; a user whose queue
    cannot be read is blocked from there on. *)

Definition readable (bl : gset Z) (c : SessionChannel) : bool :=
  queue_valid c && negb (bool_decide (mUid c ∈ bl)) && negb (bool_decide (queue c = [])).

Fixpoint to_read (g : ChannelGroup) (bl : gset Z) (ks : list Z) : list (Z * SessionChannel) * gset Z :=
  match ks with
  | [] => ([], bl)
  | k :: ks =>
      match channel_at g k with
      | Some c =>
          if readable bl c then
            if queue_sane c then let '(l, bl) := to_read g bl ks in ((k, c) :: l, bl)
            else to_read g ({[mUid c]} ∪ bl) ks
          else to_read g bl ks
      | None => to_read g bl ks
      end
  end.

Lemma to_read_ext (g g' : ChannelGroup) (bl : gset Z) (ks : list Z) :
  (forall k, k ∈ ks -> channel_at g' k = channel_at g k) -> to_read g' bl ks = to_read g bl ks.
Proof.
  revert bl. induction ks as [| k ks IH]; intros bl Hk; [done |]. simpl. rewrite (Hk k) by constructor.
  assert (forall bl, to_read g' bl ks = to_read g bl ks) as E by (intros bl'; apply IH; intros j Hj; apply Hk; by constructor).
  destruct (channel_at g k) as [c |]; [| done]. destruct (readable bl c), (queue_sane c); by rewrite ?E.
Qed.

Lemma to_read_keys (g : ChannelGroup) (bl : gset Z) (ks : list Z) (k : Z) : k ∈ (to_read g bl ks).1.*1 -> k ∈ ks.
Proof.
  revert bl. induction ks as [| j ks IH]; intros bl; simpl; [done |]. rewrite elem_of_cons.
  destruct (channel_at g j) as [c |]; [| intros; right; by eauto].
  destruct (readable bl c), (queue_sane c); try (intros; right; by eauto).
  pose proof (IH bl) as Hl. destruct (to_read g bl ks) as [l bl']. cbn [fst] in *.
  intros Hin. cbn in Hin. apply elem_of_cons in Hin as [-> | Hin]; auto.
Qed.

(** [serve_channel], with the conditions of the specification. *)
Lemma serve_channel_eq (alive : Z -> bool) (s : Served) (k : Z) :
  serve_channel alive s k =
    match channel_at (sv_group s) k with
    | Some c =>
        if readable (sv_blocklist s) c then
          if queue_sane c then
            s <| sv_group ::= fun g => g <| mChannels ::= <[Z.to_nat k := Some (c <| queue := [] |>)]> |> |>
              <| sv_woken ::= fun l => l ++ [mReadMask c] |>
              <| sv_calls ::= fun l => l ++ deliver (length (queue c)) alive (queue c) |>
          else s <| sv_blocklist ::= union {[mUid c]} |>
        else s
    | None => s
    end.
Proof.
  unfold serve_channel, readable. destruct (channel_at _ k) as [c |]; [| done].
  destruct (queue_valid c); simpl; [| done]. destruct (decide (mUid c ∈ sv_blocklist s)) as [Hb | Hb].
  - by rewrite bool_decide_true.
  - rewrite bool_decide_false by done. simpl. destruct (queue c); [by rewrite bool_decide_true |].
    rewrite bool_decide_false by done. simpl. by destruct (queue_sane c).
Qed.

Lemma channel_at_clear (g : ChannelGroup) (k j : Z) (c : SessionChannel) :
  0 <= k -> 0 <= j -> channel_at g k = Some c ->
  channel_at (g <| mChannels ::= <[Z.to_nat k := Some (c <| queue := [] |>)]> |>) j =
    if decide (j = k) then Some (c <| queue := [] |>) else channel_at g j.
Proof.
  intros Hk Hj Hc. unfold channel_at in *. simpl. rewrite (proj2 (Z.leb_le 0 k) Hk) in Hc. rewrite (proj2 (Z.leb_le 0 j) Hj).
  destruct (decide (j = k)) as [-> | Hne].
  - rewrite list_lookup_insert_eq; [done |]. apply lookup_lt_is_Some. destruct (mChannels g !! Z.to_nat k); [eauto | done].
  - rewrite list_lookup_insert_ne by lia. done.
Qed.

(** A wake-up makes the calls of the messages in those channels and of no
    others, in order; tells their clients; empties them and leaves the others
    alone. *)
Lemma serve_spec (alive : Z -> bool) (ks : list Z) (s : Served) :
  NoDup ks -> Forall (fun k => 0 <= k) ks ->
  let r := foldl (serve_channel alive) s ks in
  let '(cs, bl) := to_read (sv_group s) (sv_blocklist s) ks in
  sv_calls r ≫= split_call = (sv_calls s ≫= split_call) ++ live_calls alive (cs ≫= fun kc => queue kc.2) /\
  sv_woken r = sv_woken s ++ ((fun kc => mReadMask kc.2) <$> cs) /\ sv_blocklist r = bl /\
  forall j, 0 <= j -> channel_at (sv_group r) j =
    if decide (j ∈ cs.*1) then (fun c => c <| queue := [] |>) <$> channel_at (sv_group s) j else channel_at (sv_group s) j.
Proof.
  revert s. induction ks as [| k ks IH]; intros s Hnd Hpos; cbn zeta.
  { simpl. rewrite !app_nil_r. split_and!; try done. }
  apply NoDup_cons in Hnd as [Hk Hnd]. apply Forall_cons in Hpos as [Hpk Hpos].
  cbn [foldl]. rewrite serve_channel_eq. cbn [to_read]. destruct (channel_at (sv_group s) k) as [c |] eqn:Ec; [| by apply IH].
  destruct (readable (sv_blocklist s) c); [| by apply IH]. 
  destruct (queue_sane c); [| exact (IH (s <| sv_blocklist ::= union {[mUid c]} |>) Hnd Hpos)].
  match goal with |- context [foldl _ ?x ks] => set (s1 := x) end. specialize (IH s1 Hnd Hpos). cbn zeta in IH.
  assert (forall j, 0 <= j -> channel_at (sv_group s1) j = if decide (j = k) then Some (c <| queue := [] |>) else channel_at (sv_group s) j) as Hg.
  { intros j Hj. by apply channel_at_clear. }
  assert (to_read (sv_group s1) (sv_blocklist s1) ks = to_read (sv_group s) (sv_blocklist s) ks) as E.
  { apply to_read_ext. intros j Hj. rewrite Forall_forall in Hpos. rewrite Hg by by apply Hpos. rewrite decide_False; [done |]. congruence. }
  rewrite E in IH. clear E. pose proof (to_read_keys (sv_group s) (sv_blocklist s) ks) as Hkeys.
  destruct (to_read (sv_group s) (sv_blocklist s) ks) as [cs bl]. cbn [fst] in Hkeys. destruct IH as (A & B & C & D).
  split_and!.
  - rewrite A. unfold s1. simpl. rewrite bind_app, <- app_assoc, deliver_spec by done. f_equal.
    unfold live_calls. by rewrite omap_app.
  - rewrite B. unfold s1. simpl. by rewrite <- app_assoc.
  - done.
  - intros j Hj. rewrite D by done. rewrite Hg by done. cbn [fmap list_fmap fst].
    destruct (decide (j = k)) as [-> | Hne].
    + rewrite (decide_False (P := k ∈ cs.*1)), decide_True by (constructor || (intros Hin; by apply Hk, Hkeys)). by rewrite Ec.
    + destruct (decide (j ∈ cs.*1)); [rewrite decide_True by by constructor | rewrite decide_False]; try done.
      rewrite elem_of_cons. by intros [|].
Qed.

(** ** The invariant of the manager *)

Definition is_live (o : option SessionChannel) : bool := match o with Some _ => true | None => false end.

Record group_ok (gid : Z) (g : ChannelGroup) : Prop := {
  go_id : mGroupId g = gid;
  go_len : length (mChannels g) = 16%nat;
  go_live : mLiveChannels g = countb is_live (mChannels g)
}.

(** Where a channel lives. *)
Definition channel_in (m : ChannelManager) (gid : Z) (slot : nat) (c : SessionChannel) : Prop :=
  exists g, mChannelGroups m !! gid = Some g /\ mChannels g !! slot = Some (Some c).

Record channel_ok (m : ChannelManager) (gid : Z) (slot : nat) (c : SessionChannel) : Prop := {
  co_id : mId c = pack32 gid (Z.of_nat slot);
  co_tgid : is_i32 (mTgid c);
  co_uid : is_i32 (mUid c);
  co_masks : mReadMask c = 2 ^ (Z.of_nat slot + 16) /\ mWriteMask c = 2 ^ Z.of_nat slot;
  co_map : mChannelMap m !! pack32 (mTgid c) (mUid c) = Some (pack32 gid (Z.of_nat slot))
}.

Record cm_wf (n : Z) (m : ChannelManager) : Prop := {
  cw_group : forall gid g, mChannelGroups m !! gid = Some g -> group_ok gid g /\ 0 <= gid < n;
  cw_channel : forall gid slot c, channel_in m gid slot c -> channel_ok m gid slot c;
  cw_map : forall key v, mChannelMap m !! key = Some v ->
    exists gid slot c, channel_in m gid slot c /\ v = pack32 gid (Z.of_nat slot) /\ key = pack32 (mTgid c) (mUid c)
}.

Lemma new_ChannelManager_wf : cm_wf 0 new_ChannelManager.
Proof.
  split; simpl.
  - intros gid g. by rewrite lookup_empty.
  - intros gid slot c (g & Hg & _). simpl in Hg. by rewrite lookup_empty in Hg.
  - intros key v. by rewrite lookup_empty.
Qed.

Lemma cm_wf_mono (n n' : Z) (m : ChannelManager) : n <= n' -> cm_wf n m -> cm_wf n' m.
Proof.
  intros Hn [H1 H2 H3]. split; [| done | done]. intros gid g Hg. destruct (H1 gid g Hg). split; [done | lia].
Qed.

Lemma channel_slot (n : Z) (m : ChannelManager) (gid : Z) (slot : nat) (c : SessionChannel) :
  cm_wf n m -> channel_in m gid slot c -> (slot < 16)%nat /\ 0 <= gid < n.
Proof.
  intros H (g & Hg & Hs). destruct (cw_group _ _ H gid g Hg) as [Ho Hb]. split; [| done].
  apply lookup_lt_Some in Hs. by rewrite (go_len _ _ Ho) in Hs.
Qed.

(** *** Slots *)

Lemma first_free_spec (l : list (option SessionChannel)) :
  (first_free l < length l)%nat -> l !! first_free l = Some None.
Proof. induction l as [| [c |] l IH]; simpl; intros H; [lia | apply IH; lia | done]. Qed.

Lemma first_free_full (l : list (option SessionChannel)) :
  (length l <= first_free l)%nat -> countb is_live l = Z.of_nat (length l).
Proof.
  induction l as [| [c |] l IH]; cbn [first_free length]; intros H; [done | | lia].
  rewrite countb_cons, IH by lia. simpl. lia.
Qed.

Lemma countb_insert (l : list (option SessionChannel)) (i : nat) (old new : option SessionChannel) :
  l !! i = Some old ->
  countb is_live (<[i := new]> l) =
    countb is_live l - (if is_live old then 1 else 0) + (if is_live new then 1 else 0).
Proof.
  revert i. induction l as [| x l IH]; intros [| i] Hi; simplify_eq/=; rewrite !countb_cons; [lia |].
  rewrite (IH i) by done. lia.
Qed.

Lemma group_createChannel_spec (gid tgid uid : Z) (g : ChannelGroup) :
  group_ok gid g -> mLiveChannels g < kMaxChannels ->
  exists slot, (slot < 16)%nat /\ mChannels g !! slot = Some None /\
    let c := new_SessionChannel tgid uid (pack32 gid (Z.of_nat slot)) (Z.of_nat slot) in
    group_createChannel tgid uid g =
      Some (c, g <| mLiveChannels ::= fun n => n +₃₂ 1 |> <| mChannels ::= <[slot := Some c]> |>) /\
    group_ok gid (g <| mLiveChannels ::= fun n => n +₃₂ 1 |> <| mChannels ::= <[slot := Some c]> |>).
Proof.
  intros [H1 H2 H3] Hl. unfold kMaxChannels in Hl. pose proof (first_free_full (mChannels g)) as Hfull.
  assert (first_free (mChannels g) < 16)%nat as Hs.
  { destruct (Nat.lt_ge_cases (first_free (mChannels g)) 16); [done |]. rewrite H2 in Hfull. lia. }
  pose proof (first_free_spec (mChannels g)) as Hfree. rewrite H2 in Hfree. specialize (Hfree Hs).
  exists (first_free (mChannels g)). split_and!; [done | done |]. unfold group_createChannel.
  destruct (Z.eqb_spec (Z.of_nat (first_free (mChannels g))) kMaxChannels) as [E | _]; [unfold kMaxChannels in E; lia |].
  rewrite Nat2Z.id, H1. split; [done |]. split; simpl; [done | by rewrite length_insert |].
  pose proof (countb_range is_live (mChannels g)) as Hr. rewrite H2 in Hr. change (Z.of_nat 16) with 16 in Hr.
  rewrite (countb_insert _ _ None) by done. simpl. rewrite H3, i32_id by (unfold is_i32; lia). lia.
Qed.

(** The free group of the manager, or a new one: either way a group with room,
    and the rest of the manager as it was. *)
Lemma elem_of_group_ids (m : ChannelManager) (id : Z) : id ∈ group_ids m <-> is_Some (mChannelGroups m !! id).
Proof. unfold group_ids. rewrite merge_sort_Permutation, elem_of_elements, elem_of_dom. done. Qed.

Lemma next_group_id_fresh (n : Z) (m : ChannelManager) :
  cm_wf n m -> 0 <= n < 2 ^ 31 -> mChannelGroups m !! next_group_id m = None /\ 0 <= next_group_id m <= n.
Proof.
  intros H Hn. unfold next_group_id.
  assert (StronglySorted Z.le (group_ids m)) as Hs.
  { apply StronglySorted_merge_sort; [intros ? ? ?; lia | intros x y; lia]. }
  destruct (last (group_ids m)) as [id |] eqn:El.
  - assert (id ∈ group_ids m) as Hin by by apply last_Some_elem_of.
    pose proof Hin as Hin'. apply elem_of_group_ids in Hin' as [g Hg]. destruct (cw_group _ _ H id g Hg) as [_ Hb].
    rewrite i32_id by (unfold is_i32; lia). split; [| lia].
    apply eq_None_not_Some. rewrite <- elem_of_group_ids. intros Hx.
    apply last_Some in El as [l' El]. rewrite El in Hs, Hx.
    apply elem_of_app in Hx as [Hx | Hx%list_elem_of_singleton]; [| lia].
    assert (id + 1 <= id); [| lia].
    clear -Hs Hx. induction l' as [| y l' IH]; [by apply not_elem_of_nil in Hx |]. simpl in Hs.
    inversion Hs as [| ? ? Hs' Hall]; subst. apply elem_of_cons in Hx as [<- | Hx]; [| by apply IH].
    rewrite Forall_forall in Hall. apply Hall. apply elem_of_app. right. by constructor.
  - apply last_None in El. split; [| lia]. apply eq_None_not_Some. rewrite <- elem_of_group_ids, El. apply not_elem_of_nil.
Qed.

Definition pick_group (m : ChannelManager) : Z * ChannelManager :=
  match free_group m with
  | Some id => (id, m)
  | None => let id := next_group_id m in (id, m <| mChannelGroups ::= <[id := new_ChannelGroup id]> |>)
  end.

Lemma new_ChannelGroup_ok (id : Z) : group_ok id (new_ChannelGroup id).
Proof. split; [done | done |]. vm_compute. reflexivity. Qed.

Lemma pick_group_spec (n : Z) (m : ChannelManager) :
  cm_wf n m -> 0 <= n < 2 ^ 31 - 1 ->
  let '(gid, m1) := pick_group m in
  (exists g, mChannelGroups m1 !! gid = Some g /\ group_ok gid g /\ mLiveChannels g < kMaxChannels) /\
  0 <= gid <= n /\ cm_wf (n + 1) m1 /\ mChannelMap m1 = mChannelMap m /\
  (forall k s c, channel_in m1 k s c <-> channel_in m k s c).
Proof.
  intros H Hn. unfold pick_group. destruct (free_group m) as [id |] eqn:Ef.
  - apply List.find_some in Ef as [_ Ef]. destruct (mChannelGroups m !! id) as [g |] eqn:Eg; [| done].
    destruct (cw_group _ _ H id g Eg) as [Ho Hb]. apply Z.ltb_lt in Ef.
    split_and!; [by exists g | lia | lia | eapply cm_wf_mono; [| done]; lia | done | done].
  - destruct (next_group_id_fresh n m H) as [Hfr Hb]; [lia |]. set (id := next_group_id m) in *.
    assert (forall k s c, channel_in (m <| mChannelGroups ::= <[id := new_ChannelGroup id]> |>) k s c <-> channel_in m k s c) as Hch.
    { intros k s c. unfold channel_in. simpl. setoid_rewrite lookup_insert. destruct (decide (id = k)) as [<- |]; [| done].
      split; [| intros (g & Hg & _); congruence]. intros (g & [= <-] & Hs).
      unfold new_ChannelGroup, mChannels in Hs. by apply lookup_replicate in Hs as [? _]. }
    split_and!; [| lia | lia | | done | done].
    + exists (new_ChannelGroup id). simpl. rewrite lookup_insert_eq. split_and!; [done | apply new_ChannelGroup_ok | done].
    + split; simpl.
      * intros k g. rewrite lookup_insert. destruct (decide (id = k)) as [<- |]; [intros [= <-]; split; [apply new_ChannelGroup_ok | lia] |].
        intros Hg. destruct (cw_group _ _ H k g Hg). split; [done | lia].
      * intros k s c Hc%Hch. destruct (cw_channel _ _ H k s c Hc). by split.
      * intros key v Hv. destruct (cw_map _ _ H key v Hv) as (k & s & c & Hc & ?). exists k, s, c. by rewrite Hch.
Qed.

(** The channel that the manager finds for a client. *)
Definition client_channel (m : ChannelManager) (tgid uid : Z) : option SessionChannel :=
  v ← mChannelMap m !! pack32 tgid uid;
  g ← mChannelGroups m !! unpack_lo v;
  group_getChannel (unpack_hi v) g.

Lemma channel_at_lookup (g : ChannelGroup) (slot : nat) : channel_at g (Z.of_nat slot) = mjoin (mChannels g !! slot).
Proof. unfold channel_at. destruct (Z.leb_spec 0 (Z.of_nat slot)); [by rewrite Nat2Z.id | lia]. Qed.

Lemma mjoin_lookup_Some (g : ChannelGroup) (slot : nat) (c : SessionChannel) :
  mjoin (mChannels g !! slot) = Some c <-> mChannels g !! slot = Some (Some c).
Proof. destruct (mChannels g !! slot) as [[c' |] |]; simpl; split; intros; simplify_eq; done. Qed.

(** It is the channel of that client in its slot. *)
Lemma client_channel_spec (n : Z) (m : ChannelManager) (tgid uid : Z) (c : SessionChannel) :
  cm_wf n m -> n <= 2 ^ 31 -> is_i32 tgid -> is_i32 uid ->
  client_channel m tgid uid = Some c <->
  mTgid c = tgid /\ mUid c = uid /\ exists gid slot, channel_in m gid slot c.
Proof.
  intros H Hn Ht Hu. unfold client_channel. split.
  - intros Hc. destruct (mChannelMap m !! pack32 tgid uid) as [v |] eqn:Ev; [| done].
    destruct (cw_map _ _ H _ _ Ev) as (gid & slot & c' & Hin & -> & Hk).
    destruct (channel_slot _ _ _ _ _ H Hin) as [Hs Hb]. pose proof (cw_channel _ _ H _ _ _ Hin) as Hok.
    destruct (pack32_inj tgid uid (mTgid c') (mUid c')) as [-> ->]; [done | done | apply Hok | apply Hok | done |].
    destruct Hin as (g & Hg & Hc'). simpl in Hc.
    rewrite unpack_lo_pack, unpack_hi_pack in Hc by (unfold is_i32; lia). rewrite Hg in Hc. simpl in Hc.
    unfold group_getChannel in Hc. rewrite channel_at_lookup, Hc' in Hc. simpl in Hc. simplify_eq.
    split_and!; [done | done |]. exists gid, slot, g. done.
  - intros (<- & <- & gid & slot & Hin). pose proof (cw_channel _ _ H _ _ _ Hin) as Hok.
    rewrite (co_map _ _ _ _ Hok). simpl. destruct (channel_slot _ _ _ _ _ H Hin) as [Hs Hb].
    rewrite unpack_lo_pack, unpack_hi_pack by (unfold is_i32; lia).
    destruct Hin as (g & Hg & Hc). rewrite Hg. simpl. unfold group_getChannel. rewrite channel_at_lookup, Hc. done.
Qed.

(** No channel of the manager belongs to a client without an entry. *)
Lemma client_None (n : Z) (m : ChannelManager) (tgid uid : Z) (gid : Z) (slot : nat) (c : SessionChannel) :
  cm_wf n m -> mChannelMap m !! pack32 tgid uid = None -> channel_in m gid slot c -> ~ (mTgid c = tgid /\ mUid c = uid).
Proof. intros H Hn Hin [<- <-]. pose proof (co_map _ _ _ _ (cw_channel _ _ H _ _ _ Hin)). congruence. Qed.

Lemma new_masks (slot : nat) : (slot < 16)%nat ->
  u32 (Z.shiftl 1 (Z.of_nat slot + 16)) = 2 ^ (Z.of_nat slot + 16) /\ u32 (Z.shiftl 1 (Z.of_nat slot)) = 2 ^ Z.of_nat slot.
Proof.
  intros Hs. rewrite !Z.shiftl_1_l. split; apply u32_id; unfold is_u32; split; try (apply Z.pow_nonneg; lia);
    apply Z.pow_lt_mono_r; lia.
Qed.

Lemma cm_add_channel (n gid tgid uid : Z) (slot : nat) (m : ChannelManager) (g g' : ChannelGroup) :
  let c := new_SessionChannel tgid uid (pack32 gid (Z.of_nat slot)) (Z.of_nat slot) in
  let m' := m <| mChannelGroups ::= <[gid := g']> |> <| mChannelMap ::= <[pack32 tgid uid := mId c]> |> in
  cm_wf n m -> n <= 2 ^ 31 -> is_i32 tgid -> is_i32 uid -> (slot < 16)%nat -> mChannelMap m !! pack32 tgid uid = None ->
  mChannelGroups m !! gid = Some g -> mChannels g !! slot = Some None ->
  mChannels g' = <[slot := Some c]> (mChannels g) -> group_ok gid g' ->
  cm_wf n m' /\ forall k s c', channel_in m' k s c' <-> (k = gid /\ s = slot /\ c' = c) \/ channel_in m k s c'.
Proof.
  intros c m' H Hn Ht Hu Hs Hnone Hg Hfree Hg' Hok.
  assert (forall k s c', channel_in m' k s c' <-> (k = gid /\ s = slot /\ c' = c) \/ channel_in m k s c') as Hch.
  { intros k s c'. unfold channel_in, m'. simpl. setoid_rewrite lookup_insert. destruct (decide (gid = k)) as [<- | Hne].
    - split.
      + intros (x & [= <-] & Hx). rewrite Hg' in Hx. apply list_lookup_insert_Some in Hx as [(-> & [= ->] & _) | [? Hx]]; [by left |].
        right. by exists g.
      + intros [(_ & -> & ->) | (x & Hx & Hc')].
        * exists g'. split; [done |]. rewrite Hg'. apply list_lookup_insert_eq. by apply lookup_lt_Some in Hfree.
        * simplify_eq. exists g'. split; [done |]. rewrite Hg'. rewrite list_lookup_insert_ne; [done |]. congruence.
    - split; [intros (x & Hx & Hc'); right; by exists x |]. intros [(-> & _) | Hx]; [done | done]. }
  split; [| done]. destruct (cw_group _ _ H gid g Hg) as [_ Hb].
  split.
  - intros k x. unfold m'. simpl. rewrite lookup_insert. destruct (decide (gid = k)) as [<- |]; [intros [= <-]; done | apply (cw_group _ _ H)].
  - intros k s c' [(-> & -> & ->) | Hin]%Hch.
    + split; simpl; [done | done | done | by apply new_masks |]. unfold m'. simpl. by rewrite lookup_insert_eq.
    + pose proof (cw_channel _ _ H _ _ _ Hin) as [A1 A2 A3 A4 A5]. split; try done. unfold m'. simpl.
      rewrite lookup_insert_ne; [done |]. intros E. rewrite E in Hnone. congruence.
  - intros key v. unfold m'. simpl. rewrite lookup_insert. destruct (decide (pack32 tgid uid = key)) as [<- |].
    + intros [= <-]. exists gid, slot, c. split_and!; [apply Hch; by left | done | done].
    + intros Hv. destruct (cw_map _ _ H _ _ Hv) as (k & s & c' & Hin & ? & ?). exists k, s, c'. split_and!; [apply Hch; by right | done | done].
Qed.

Lemma getOrCreate_spec (n : Z) (m : ChannelManager) (tgid uid : Z) :
  cm_wf n m -> 0 <= n < 2 ^ 31 - 1 -> is_i32 tgid -> is_i32 uid ->
  exists c m', getOrCreateChannel tgid uid m = Some (c, m') /\ cm_wf (n + 1) m' /\
    client_channel m' tgid uid = Some c /\
    (forall c0, client_channel m tgid uid = Some c0 -> c = c0 /\ m' = m) /\
    (forall t u, is_i32 t -> is_i32 u -> (t, u) <> (tgid, uid) -> client_channel m' t u = client_channel m t u).
Proof.
  intros H Hn Ht Hu. unfold getOrCreateChannel.
  destruct (mChannelMap m !! pack32 tgid uid) as [v |] eqn:Ev.
  - destruct (cw_map _ _ H _ _ Ev) as (gid & slot & c & Hin & -> & Hk).
    destruct (channel_slot _ _ _ _ _ H Hin) as [Hs Hb]. pose proof (cw_channel _ _ H _ _ _ Hin) as Hok.
    destruct (pack32_inj tgid uid (mTgid c) (mUid c)) as [-> ->]; [done | done | apply Hok | apply Hok | done |].
    assert (client_channel m (mTgid c) (mUid c) = Some c) as Hcc.
    { apply (client_channel_spec n); [done | lia | apply Hok | apply Hok |]. eauto. }
    exists c, m. rewrite unpack_lo_pack, unpack_hi_pack by (unfold is_i32; lia).
    destruct Hin as (g & Hg & Hc). rewrite Hg. simpl. unfold group_getChannel. rewrite channel_at_lookup, Hc. simpl.
    split_and!; [done | eapply cm_wf_mono; [| done]; lia | done | | done]. intros c0. rewrite Hcc. by intros [= <-].
  - change (match free_group m with Some id => (id, m) | None => _ end) with (pick_group m).
    pose proof (pick_group_spec n m H Hn) as Hp. destruct (pick_group m) as [gid m1].
    destruct Hp as ((g & Hg & Hok & Hlive) & Hb & Hwf1 & Hmap & Hch).
    destruct (group_createChannel_spec gid tgid uid g Hok Hlive) as (slot & Hs & Hfree & Hc & Hok').
    rewrite Hg. simpl. rewrite Hc. simpl. rewrite <- Hmap in Ev.
    set (c := new_SessionChannel tgid uid (pack32 gid (Z.of_nat slot)) (Z.of_nat slot)) in *.
    set (g' := g <| mLiveChannels ::= _ |> <| mChannels ::= _ |>) in *.
    destruct (cm_add_channel (n + 1) gid tgid uid slot m1 g g' Hwf1 ltac:(lia) Ht Hu Hs Ev Hg Hfree eq_refl Hok') as [Hwf' Hch'].
    fold c in Hwf', Hch'. set (m' := m1 <| mChannelGroups ::= _ |> <| mChannelMap ::= _ |>) in *.
    exists c, m'. split_and!; [done | done | | |].
    + apply (client_channel_spec (n + 1)); [done | lia | done | done |]. split_and!; [done | done |].
      exists gid, slot. apply Hch'. by left.
    + intros c0 (<- & <- & k & s & Hin)%(client_channel_spec n); [| done | lia | done | done].
      exfalso. apply Hch in Hin. by eapply (client_None (n + 1) m1).
    + intros t u Ht' Hu' Hne. apply option_eq. intros c0.
      rewrite (client_channel_spec (n + 1) m'), (client_channel_spec n m) by (done || lia).
      split; intros (A & B & k & s & Hin); (split_and!; [done | done |]); exists k, s.
      * apply Hch' in Hin as [(-> & -> & ->) | Hin]; [exfalso; apply Hne; by rewrite <- A, <- B |]. by apply Hch.
      * apply Hch'. right. by apply Hch.
Qed.

Lemma group_removeChannel_spec (gid : Z) (slot : nat) (g : ChannelGroup) (c : SessionChannel) :
  group_ok gid g -> mChannels g !! slot = Some (Some c) ->
  exists g', group_removeChannel (Z.of_nat slot) g = (true, g') /\ group_ok gid g' /\
    mChannels g' = <[slot := None]> (mChannels g).
Proof.
  intros [H1 H2 H3] Hc. unfold group_removeChannel. rewrite channel_at_lookup, Hc. simpl. rewrite Nat2Z.id.
  eexists. split_and!; [reflexivity | | done]. split; simpl; [done | by rewrite length_insert |].
  pose proof (countb_range is_live (mChannels g)) as Hr. rewrite H2 in Hr. change (Z.of_nat 16) with 16 in Hr.
  rewrite (countb_insert _ _ (Some c)) by done. simpl. rewrite H3, i32_id by (unfold is_i32; lia). lia.
Qed.

Lemma countb_zero (l : list (option SessionChannel)) (i : nat) (c : SessionChannel) :
  countb is_live l = 0 -> l !! i <> Some (Some c).
Proof.
  revert i. induction l as [| x l IH]; intros [| i] E; simpl; try done; rewrite countb_cons in E;
    pose proof (countb_range is_live l); [destruct x; simpl in E; [lia | done] |]. apply IH. destruct x; simpl in E; lia.
Qed.

(** The state after the channel in [slot] of group [gid] is closed, [g'] being
    the group without it. *)
Definition cm_drop (m : ChannelManager) (gid : Z) (g' : ChannelGroup) (key : Z) : ChannelManager :=
  (if mLiveChannels g' =? 0 then m <| mChannelGroups ::= delete gid |>
   else m <| mChannelGroups ::= <[gid := g']> |>) <| mChannelMap ::= delete key |>.

Lemma cm_drop_map (m : ChannelManager) (gid : Z) (g' : ChannelGroup) (key : Z) :
  mChannelMap (cm_drop m gid g' key) = delete key (mChannelMap m).
Proof. unfold cm_drop. by destruct (_ =? 0). Qed.

Lemma cm_drop_groups (m : ChannelManager) (gid key : Z) (g' : ChannelGroup) (k : Z) (s : nat) (c : SessionChannel) :
  group_ok gid g' ->
  channel_in (cm_drop m gid g' key) k s c <->
  exists x, (if decide (gid = k) then Some g' else mChannelGroups m !! k) = Some x /\ mChannels x !! s = Some (Some c).
Proof.
  intros Hgo. unfold channel_in, cm_drop. destruct (Z.eqb_spec (mLiveChannels g') 0) as [E |]; simpl.
  - rewrite lookup_delete. destruct (decide (gid = k)) as [<- |]; [| done]. split; [by intros (? & ? & _) |].
    intros (x & [= <-] & Hx). exfalso. rewrite (go_live _ _ Hgo) in E. by eapply countb_zero in E.
  - by rewrite lookup_insert.
Qed.

(** Exactly the closed channel is gone. *)
Lemma cm_drop_channels (m : ChannelManager) (gid key : Z) (slot : nat) (g g' : ChannelGroup) (k : Z) (s : nat)
    (c : SessionChannel) :
  mChannelGroups m !! gid = Some g -> group_ok gid g' -> mChannels g' = <[slot := None]> (mChannels g) ->
  channel_in (cm_drop m gid g' key) k s c <-> channel_in m k s c /\ ~ (k = gid /\ s = slot).
Proof.
  intros Hg Hgo Hg'. rewrite cm_drop_groups by done. unfold channel_in. destruct (decide (gid = k)) as [<- | Hne].
  - split.
    + intros (x & [= <-] & Hx). rewrite Hg' in Hx. apply list_lookup_insert_Some in Hx as [(-> & [=] & _) | [Hne Hx]].
      split; [by exists g | naive_solver].
    + intros [(x & Hx & Hc') Hne]. simplify_eq. exists g'. split; [done |].
      rewrite Hg', list_lookup_insert_ne; [done | naive_solver].
  - split; [intros (x & Hx & Hc'); split; [by exists x | naive_solver] |]. by intros [(x & Hx & Hc') _]; exists x.
Qed.

Lemma cm_drop_wf (n : Z) (m : ChannelManager) (gid : Z) (slot : nat) (g g' : ChannelGroup) (c : SessionChannel) :
  cm_wf n m -> 0 <= n <= 2 ^ 31 -> mChannelGroups m !! gid = Some g -> mChannels g !! slot = Some (Some c) ->
  group_ok gid g' -> mChannels g' = <[slot := None]> (mChannels g) ->
  cm_wf n (cm_drop m gid g' (pack32 (mTgid c) (mUid c))).
Proof.
  intros H Hn Hg Hc Hgo Hg'. assert (channel_in m gid slot c) as Hin by (by exists g).
  pose proof (co_map _ _ _ _ (cw_channel _ _ H _ _ _ Hin)) as Ev. destruct (channel_slot _ _ _ _ _ H Hin) as [Hs Hb].
  split.
  - intros k x Hx. unfold cm_drop in Hx. destruct (mLiveChannels g' =? 0); simpl in Hx.
    + rewrite lookup_delete in Hx. destruct (decide (gid = k)); [done | by apply (cw_group _ _ H)].
    + rewrite lookup_insert in Hx. destruct (decide (gid = k)) as [<- |]; [by simplify_eq | by apply (cw_group _ _ H)].
  - intros k s c' [Hin' Hne]%(cm_drop_channels _ _ _ slot g) ; [| done ..].
    pose proof (cw_channel _ _ H _ _ _ Hin') as [A1 A2 A3 A4 A5]. split; try done.
    rewrite cm_drop_map, lookup_delete_ne; [done |]. intros E. rewrite <- E, Ev in A5. injection A5 as A5.
    destruct (channel_slot _ _ _ _ _ H Hin'). apply Hne.
    destruct (pack32_inj gid (Z.of_nat slot) k (Z.of_nat s)) as [-> ?]; unfold is_i32; lia.
  - intros key v. rewrite cm_drop_map, lookup_delete. destruct (decide _) as [| Hne]; [done |]. intros Hv.
    destruct (cw_map _ _ H _ _ Hv) as (k & s & c' & Hin' & -> & ->). exists k, s, c'.
    rewrite (cm_drop_channels _ _ _ slot g) by done. split_and!; try done.
    intros [-> ->]. apply Hne. destruct Hin' as (x & Hx & Hc'). simplify_eq.
Qed.

(** A client that has a channel: what its map entry leads to. *)
Lemma client_entry (n : Z) (m : ChannelManager) (tgid uid v : Z) :
  cm_wf n m -> 0 <= n <= 2 ^ 31 -> is_i32 tgid -> is_i32 uid -> mChannelMap m !! pack32 tgid uid = Some v ->
  exists gid slot g c, mTgid c = tgid /\ mUid c = uid /\ client_channel m tgid uid = Some c /\
    unpack_lo v = gid /\ unpack_hi v = Z.of_nat slot /\
    mChannelGroups m !! gid = Some g /\ mChannels g !! slot = Some (Some c).
Proof.
  intros H Hn Ht Hu Ev. destruct (cw_map _ _ H _ _ Ev) as (gid & slot & c & Hin & -> & Hk).
  destruct (channel_slot _ _ _ _ _ H Hin) as [Hs Hb]. pose proof (cw_channel _ _ H _ _ _ Hin) as Hok.
  destruct (pack32_inj tgid uid (mTgid c) (mUid c)) as [-> ->]; [done | done | apply Hok | apply Hok | done |].
  rewrite unpack_lo_pack, unpack_hi_pack by (unfold is_i32; lia). pose proof Hin as (g & Hg & Hc).
  exists gid, slot, g, c. split_and!; try done.
  apply (client_channel_spec n); [done | lia | apply Hok | apply Hok |]. eauto.
Qed.

Lemma closeChannel_spec (n : Z) (m : ChannelManager) (tgid uid : Z) :
  cm_wf n m -> 0 <= n <= 2 ^ 31 -> is_i32 tgid -> is_i32 uid ->
  let '(b, m') := closeChannel tgid uid m in
  cm_wf n m' /\ client_channel m' tgid uid = None /\ (b = true <-> is_Some (client_channel m tgid uid)) /\
  (forall t u, is_i32 t -> is_i32 u -> (t, u) <> (tgid, uid) -> client_channel m' t u = client_channel m t u).
Proof.
  intros H Hn Ht Hu. unfold closeChannel. destruct (mChannelMap m !! pack32 tgid uid) as [v |] eqn:Ev.
  2: { assert (client_channel m tgid uid = None) as Hcc by (unfold client_channel; by rewrite Ev).
       split_and!; [done | done | | done]. rewrite Hcc. split; [done | by intros [? ?]]. }
  destruct (client_entry n m tgid uid v) as (gid & slot & g & c & Et & Eu & Hcc & -> & -> & Hg & Hc); try done.
  rewrite Hg. destruct (cw_group _ _ H _ _ Hg) as [Hgo _].
  destruct (group_removeChannel_spec gid slot g c Hgo Hc) as (g' & -> & Hgo' & Hg'). cbn beta iota zeta.
  change (_ <| mChannelMap ::= _ |>) with (cm_drop m gid g' (pack32 tgid uid)).
  pose proof (cm_drop_wf n m gid slot g g' c H Hn Hg Hc Hgo' Hg') as Hwf'. rewrite Et, Eu in Hwf'.
  split_and!; [done | unfold client_channel; by rewrite cm_drop_map, lookup_delete_eq | rewrite Hcc; by split |].
  intros t u Ht' Hu' Hne. apply option_eq. intros c0.
  rewrite (client_channel_spec n (cm_drop _ _ _ _)), (client_channel_spec n m) by (done || lia).
  split; intros (A & B & k & s & Hin); (split_and!; [done | done |]); exists k, s.
  - by apply (cm_drop_channels _ _ _ slot g) in Hin as [Hin _].
  - apply (cm_drop_channels _ _ _ slot g); try done. split; [done |]. intros [-> ->].
    destruct Hin as (x & Hx & Hc'). simplify_eq.
Qed.

Lemma land_pow2_ne (a b : Z) : 0 <= a -> 0 <= b -> a <> b -> Z.land (2 ^ a) (2 ^ b) = 0.
Proof.
  intros Ha Hb Hne. apply Z.bits_inj'. intros i Hi. rewrite Z.land_spec, Z.bits_0.
  rewrite !Z.pow2_bits_eqb by lia. destruct (Z.eqb_spec a i), (Z.eqb_spec b i); try done. lia.
Qed.

(** ** Sequences of requests *)

Inductive ChannelOp := Ch_get (tgid uid : Z) | Ch_close (tgid uid : Z).

Definition ch_valid (o : ChannelOp) : Prop :=
  match o with Ch_get t u | Ch_close t u => is_i32 t /\ is_i32 u end.

Definition cm_op (m : ChannelManager) (o : ChannelOp) : option ChannelManager :=
  match o with
  | Ch_get t u => snd <$> getOrCreateChannel t u m
  | Ch_close t u => Some (closeChannel t u m).2
  end.

Fixpoint cm_run (ops : list ChannelOp) (m : ChannelManager) : option ChannelManager :=
  match ops with
  | [] => Some m
  | o :: ops => m' ← cm_op m o; cm_run ops m'
  end.

Lemma cm_run_wf (ops : list ChannelOp) (n : Z) (m : ChannelManager) :
  cm_wf n m -> 0 <= n -> n + Z.of_nat (length ops) < 2 ^ 31 - 1 -> Forall ch_valid ops ->
  exists m', cm_run ops m = Some m' /\ cm_wf (n + Z.of_nat (length ops)) m'.
Proof.
  intros H Hn Hlen Hops. revert n m H Hn Hlen.
  induction Hops as [| o ops Ho _ IH]; intros n m H Hn Hlen; simpl.
  - exists m. split; [done |]. by rewrite Z.add_0_r.
  - rewrite length_cons, Nat2Z.inj_succ in Hlen.
    replace (Z.of_nat (S (length ops))) with (1 + Z.of_nat (length ops)) by lia. rewrite Z.add_assoc.
    destruct o as [t u | t u]; destruct Ho as [Ht Hu]; simpl.
    + destruct (getOrCreate_spec n m t u H) as (c & m1 & -> & H1 & _); [lia | done | done |]. simpl. apply IH; [done | lia | lia].
    + pose proof (closeChannel_spec n m t u H) as Hc. destruct (closeChannel t u m) as [b m1]. simpl.
      apply IH; [| lia | lia]. eapply cm_wf_mono; [| apply Hc; try done]; lia.
Qed.

(** ** Main results *)

(** C36. After any sequence of requests, asking for a client's channel succeeds
    (no fatal assertion, no missing group), gives the client its own channel,
    gives the same one when asked again, and closing it removes it; other
    clients keep their channels throughout. *)
Theorem channel_manager_functional (ops : list ChannelOp) (tgid uid : Z)
    (Hlen : Z.of_nat (length ops) < 2 ^ 31 - 2) (Hops : Forall ch_valid ops) (Ht : is_i32 tgid) (Hu : is_i32 uid) :
  exists m c m1, cm_run ops new_ChannelManager = Some m /\
    getOrCreateChannel tgid uid m = Some (c, m1) /\ mTgid c = tgid /\ mUid c = uid /\
    getOrCreateChannel tgid uid m1 = Some (c, m1) /\
    (closeChannel tgid uid m1).1 = true /\ client_channel (closeChannel tgid uid m1).2 tgid uid = None /\
    forall t u, is_i32 t -> is_i32 u -> (t, u) <> (tgid, uid) ->
      client_channel m1 t u = client_channel m t u /\
      client_channel (closeChannel tgid uid m1).2 t u = client_channel m t u.
Proof.
  destruct (cm_run_wf ops 0 new_ChannelManager new_ChannelManager_wf) as (m & Hm & Hwf); [lia | lia | done |].
  rewrite Z.add_0_l in Hwf. set (n := Z.of_nat (length ops)) in *.
  destruct (getOrCreate_spec n m tgid uid Hwf) as (c & m1 & Hg & Hwf1 & Hc & _ & Ho); [lia | done | done |].
  destruct (getOrCreate_spec (n + 1) m1 tgid uid Hwf1) as (c2 & m2 & Hg2 & _ & _ & Hs & _); [lia | done | done |].
  destruct (Hs c Hc) as [-> ->].
  pose proof (closeChannel_spec (n + 1) m1 tgid uid Hwf1) as Hcl. destruct (closeChannel tgid uid m1) as [b m3] eqn:Ecl.
  destruct Hcl as (_ & Hnone & Hb & Hother); [lia | done | done |].
  apply (client_channel_spec (n + 1)) in Hc as Hc'; [| done | lia | done | done]. destruct Hc' as (A & B & _).
  exists m, c, m1. rewrite Ecl. split_and!; [done | done | done | done | done | apply Hb; eauto | done |].
  intros t u Ht' Hu' Hne. simpl. rewrite Hother, Ho by done. done.
Qed.

Lemma channel_manager_functional_witness :
  exists m c m1, cm_run [Ch_get 100 10001; Ch_get 200 10002; Ch_close 100 10001] new_ChannelManager = Some m /\
    getOrCreateChannel 300 10003 m = Some (c, m1) /\ mTgid c = 300.
Proof.
  destruct (channel_manager_functional [Ch_get 100 10001; Ch_get 200 10002; Ch_close 100 10001] 300 10003)
    as (m & c & m1 & A & B & C & _).
  - vm_compute; reflexivity.
  - repeat constructor; unfold is_i32; lia.
  - unfold is_i32; lia.
  - unfold is_i32; lia.
  - exists m, c, m1. split; [exact A | split; [exact B | exact C]].
Defined.



(** One wake-up serves exactly the channels whose write bit is set, each
    once and in increasing order. *)
Theorem wake_serves_set_bits (flagState : Z) :
  visited_channels (Z.land flagState kWriteBits) = List.filter (Z.testbit flagState) (seqZ 0 16).
Proof.
  unfold visited_channels. rewrite (flag_loop_spec 33 _ 0).
  - apply filter_ext_in. intros x Hx. apply elem_of_seqZ in Hx. rewrite Z.land_spec.
    replace (Z.testbit kWriteBits x) with true; [by rewrite andb_true_r |].
    symmetry. change kWriteBits with (Z.ones 16). apply Z.ones_spec_low. lia.
  - apply Z.land_nonneg. right. unfold kWriteBits. lia.
  - lia.
  - lia.
  - simpl. lia.
Qed.

(** Merging loses nothing: taking the merged reports of a batch apart gives
    exactly the calls that the batch's messages for living sessions ask for, in
    order; no message is lost, duplicated or reordered. *)
Theorem deliver_preserves_messages (alive : Z -> bool) (msgs : list ChannelMessage) :
  deliver (length msgs) alive msgs ≫= split_call = live_calls alive msgs.
Proof. by apply deliver_spec. Qed.
