(* ===== verification/InteractionHandler.v ===== *)
(** * The interaction handler (src/power-libperfmgr/aidl/InteractionHandler.cpp)

    A touch interaction switches the "INTERACTION" hint on and a thread of the
    handler switches it off when the display has become idle.  The callers
    ([Init], [Acquire], [Exit]) and the thread ([Routine]) share the fields under
    a mutex and an event descriptor that aborts the thread's wait.

    Every critical section is one function; [ih_step] is the transition system
    of the callers and the thread, a label for each critical section and for
    each system call of the wait, with the answers of the system as part of the
    label. *)

From Stdlib Require Import Ascii.
From S2P Require Import Prelude AdpfTypes.

(** ** Configuration: the values of the system properties *)

Record IhConfig := mkIhConfig {
  kDisplayIdleSupport : bool;
  kWaitMs : Z;
  kMinDurationMs : Z;
  kMaxDurationMs : Z;
  kDurationOffsetMs : Z
}.

(** The defaults of the properties. *)
Definition default_IhConfig : IhConfig := mkIhConfig true 100 1400 5650 650.

Definition kDispIdlePath : list string :=
  ["/sys/class/drm/card0/device/idle_state"; "/sys/class/graphics/fb0/idle_state";
   "/sys/class/graphics/fb0/device/idle_state"].

(** ** State *)

Inductive InteractionState :=
| INTERACTION_STATE_UNINITIALIZED | INTERACTION_STATE_IDLE
| INTERACTION_STATE_INTERACTION | INTERACTION_STATE_WAITING.

#[export] Instance InteractionState_eq_dec : EqDecision InteractionState.
Proof. solve_decision. Defined.

Record timespec := mkTimespec { tv_sec : Z; tv_nsec : Z }.

(** The fields; [mEventCount] is the counter of the event descriptor. *)
Record InteractionHandler := mkInteractionHandler {
  mState : InteractionState;
  mIdleFd : Z;
  mEventFd : Z;
  mEventCount : Z;
  mDurationMs : Z;
  mLastTimespec : timespec
}.

#[export] Instance eta_InteractionHandler : Record_eta InteractionHandler := fun r =>
  mkInteractionHandler (mState r) (mIdleFd r) (mEventFd r) (mEventCount r) (mDurationMs r) (mLastTimespec r).

Definition new_InteractionHandler : InteractionHandler :=
  mkInteractionHandler INTERACTION_STATE_UNINITIALIZED 0 0 0 0 (mkTimespec 0 0).

(** What the handler asks of the hint manager and of the system. *)
Inductive IhEffect :=
| Ih_DoHint                       (** [DoHint("INTERACTION")], by [PerfLock] *)
| Ih_EndHint                      (** [EndHint("INTERACTION")], by [PerfRel] *)
| Ih_DoHintFor (durationMs : Z)   (** [DoHint("INTERACTION", ms)] *)
| Ih_close (fd : Z).

(** ** Operations *)

(** [size_t] arithmetic over [long] differences. *)
Definition CalcTimespecDiffMs (st en : timespec) : Z :=
  let d := u64 (0 + i64 (i64 (tv_sec en - tv_sec st) * 1000)) in
  u64 (d + Z.quot (i64 (tv_nsec en - tv_nsec st)) 1000000).

(** The first of the paths that opens, or [-1]. *)
Definition FbIdleOpen (open : string -> Z) : Z :=
  foldr (fun path r => let fd := open path in if 0 <=? fd then fd else r) (-1) kDispIdlePath.

(** [Init], with the results of [open] and of [eventfd].  A [true] third
    component says that the thread was started. *)
Definition Init (open : string -> Z) (evfd : Z) (h : InteractionHandler)
    : bool * InteractionHandler * bool * list IhEffect :=
  if bool_decide (mState h <> INTERACTION_STATE_UNINITIALIZED) then (true, h, false, [])
  else
    let fd := FbIdleOpen open in
    if fd <? 0 then (false, h, false, [])
    else
      let h := h <| mIdleFd := fd |> <| mEventFd := evfd |> in
      if evfd <? 0 then (false, h, false, [Ih_close (mIdleFd h)])
      else (true, h <| mEventCount := 0 |> <| mState := INTERACTION_STATE_IDLE |>, true, []).

(** A write of 1 to the (non-blocking) event descriptor; it fails when the
    counter would exceed [2^64 - 2]. *)
Definition AbortWaitLocked (h : InteractionHandler) : InteractionHandler :=
  h <| mEventCount ::= fun n => if n + 1 <=? 2 ^ 64 - 2 then n + 1 else n |>.

Definition PerfLock : list IhEffect := [Ih_DoHint].
Definition PerfRel : list IhEffect := [Ih_EndHint].

(** The clamped duration.  [duration + kDurationOffsetMs] is unsigned, stored
    in an [int]; the comparisons with the bounds are unsigned. *)
Definition final_duration (c : IhConfig) (duration : Z) : Z :=
  let inputDuration := i32 (u32 (u32 duration + kDurationOffsetMs c)) in
  if kMaxDurationMs c <? u32 inputDuration then i32 (kMaxDurationMs c)
  else if kMinDurationMs c <? u32 inputDuration then inputDuration
  else i32 (kMinDurationMs c).

(** The previous hint lasts at least as long as the new one would. *)
Definition already_covered (h : InteractionHandler) (finalDuration : Z) (now : timespec) : bool :=
  bool_decide (mState h <> INTERACTION_STATE_IDLE) && (finalDuration <=? mDurationMs h) &&
  (CalcTimespecDiffMs (mLastTimespec h) now <=? u64 (i32 (mDurationMs h - finalDuration))).

Definition Acquire (c : IhConfig) (duration : Z) (now : timespec) (h : InteractionHandler)
    : InteractionHandler * list IhEffect :=
  let finalDuration := final_duration c duration in
  if negb (kDisplayIdleSupport c) || bool_decide (mState h = INTERACTION_STATE_UNINITIALIZED) then
    (h, [Ih_DoHintFor finalDuration])
  else if already_covered h finalDuration now then (h, [])
  else
    let h := h <| mLastTimespec := now |> <| mDurationMs := finalDuration |> in
    let '(h, e) :=
      if bool_decide (mState h = INTERACTION_STATE_WAITING) then (AbortWaitLocked h, [])
      else if bool_decide (mState h = INTERACTION_STATE_IDLE) then (h, PerfLock)
      else (h, []) in
    (h <| mState := INTERACTION_STATE_INTERACTION |>, e).

Definition Release (h : InteractionHandler) : InteractionHandler * list IhEffect :=
  if bool_decide (mState h = INTERACTION_STATE_WAITING) then
    (h <| mState := INTERACTION_STATE_IDLE |>, PerfRel)
  else (h <| mEventCount := 0 |>, []).

(** The critical section of [Exit]; the result says whether the caller goes on
    to join the thread and to close the descriptors. *)
Definition Exit_locked (h : InteractionHandler) : bool * InteractionHandler :=
  if bool_decide (mState h = INTERACTION_STATE_UNINITIALIZED) then (false, h)
  else (true, AbortWaitLocked h <| mState := INTERACTION_STATE_UNINITIALIZED |>).

Definition Exit_close (h : InteractionHandler) : list IhEffect := [Ih_close (mEventFd h); Ih_close (mIdleFd h)].

(** The critical section of [Routine] once the condition holds: [None] when
    the thread returns. *)
Definition Routine_locked (h : InteractionHandler) : option InteractionHandler :=
  if bool_decide (mState h = INTERACTION_STATE_UNINITIALIZED) then None
  else Some (h <| mState := INTERACTION_STATE_WAITING |>).

(** *** The wait

    Why [WaitForIdle] returns. *)
Inductive WaitResult := W_aborted | W_error | W_eof | W_already_idle | W_timeout (ms : Z) | W_idle.

#[export] Instance WaitResult_eq_dec : EqDecision WaitResult.
Proof. solve_decision. Defined.

(** After the first [poll], which only watches the event descriptor: [None]
    goes on. *)
Definition WaitForIdle_first (ret : Z) : option WaitResult :=
  if 0 <? ret then Some W_aborted else if ret <? 0 then Some W_error else None.

(** [strncmp(data, "idle", 4) == 0] on the buffer after [pread]. *)
Definition starts_idle (data : list ascii) : bool :=
  bool_decide (take 4 data = ["i"; "d"; "l"; "e"]%char).

(** After [pread]; a negative result is not looked at, the buffer is. *)
Definition WaitForIdle_read (ret : Z) (data : list ascii) : option WaitResult :=
  if ret =? 0 then Some W_eof else if starts_idle data then Some W_already_idle else None.

(** After the second [poll], with the [revents] of the two descriptors. *)
Definition WaitForIdle_second (timeout ret : Z) (ev0 ev1 : bool) : WaitResult :=
  if ret <? 0 then W_error else if ret =? 0 then W_timeout timeout else if ev0 then W_aborted else W_idle.

(** What [poll] may answer when the event descriptor has the count [n]: it is
    readable exactly when the count is positive, and an error is always
    possible. *)
Definition poll1_answer (n ret : Z) : bool :=
  (ret <? 0) || ((ret =? 1) && (0 <? n)) || ((ret =? 0) && (n =? 0)).

Definition poll2_answer (n ret : Z) (ev0 ev1 : bool) : bool :=
  (ret <? 0) || ((ret =? 0) && (n =? 0)) || ((0 <? ret) && Bool.eqb ev0 (0 <? n) && (ev0 || ev1)).

(** ** The transition system *)

(** Where the thread is. *)
Inductive RoutinePc :=
| R_none                      (** not started, or joined *)
| R_cond                      (** at [mCond.wait] *)
| R_args                      (** unlocked, about to read [mDurationMs] *)
| R_poll1 (timeout : Z)
| R_pread (timeout : Z)
| R_poll2 (timeout : Z)
| R_release (why : WaitResult)
| R_done.                     (** returned *)

#[export] Instance RoutinePc_eq_dec : EqDecision RoutinePc.
Proof. solve_decision. Defined.

Record IhSys := mkIhSys {
  ih : InteractionHandler;
  pc : RoutinePc;
  exiting : bool;            (** a caller is between unlock and join *)
  ih_log : list IhEffect     (** newest first *)
}.

Definition new_IhSys : IhSys := mkIhSys new_InteractionHandler R_none false [].

Inductive IhLabel :=
| L_init (open : string -> Z) (evfd : Z)
| L_acquire (duration : Z) (now : timespec)
| L_exit
| L_join
| L_wake
| L_args
| L_poll1 (ret : Z)
| L_pread (ret : Z) (data : list ascii)
| L_poll2 (ret : Z) (ev0 ev1 : bool)
| L_release.

(** The labels of the handler's own thread. *)
Definition thread_label (l : IhLabel) : bool :=
  match l with L_init _ _ | L_acquire _ _ | L_exit | L_join => false | _ => true end.

Definition leave_wait (s : IhSys) (next : RoutinePc) (r : option WaitResult) : IhSys :=
  mkIhSys (ih s) (match r with Some why => R_release why | None => next end) (exiting s) (ih_log s).

(** [None]: the label is not enabled.  [Init] and [Exit] are not called while
    another [Exit] is in progress. *)
Definition ih_step (c : IhConfig) (l : IhLabel) (s : IhSys) : option IhSys :=
  match l, pc s with
  | L_init open evfd, _ =>
      if exiting s then None
      else let '(_, h, started, e) := Init open evfd (ih s) in
           Some (mkIhSys h (if started then R_cond else pc s) false (e ++ ih_log s))
  | L_acquire duration now, _ =>
      let '(h, e) := Acquire c duration now (ih s) in Some (mkIhSys h (pc s) (exiting s) (e ++ ih_log s))
  | L_exit, _ =>
      if exiting s then None
      else let '(go, h) := Exit_locked (ih s) in Some (mkIhSys h (pc s) go (ih_log s))
  | L_join, R_done =>
      if exiting s then Some (mkIhSys (ih s) R_none false (Exit_close (ih s) ++ ih_log s)) else None
  | L_wake, R_cond =>
      if bool_decide (mState (ih s) = INTERACTION_STATE_IDLE) then None
      else match Routine_locked (ih s) with
      | None => Some (mkIhSys (ih s) R_done (exiting s) (ih_log s))
      | Some h => Some (mkIhSys h R_args (exiting s) (ih_log s))
      end
  | L_args, R_args => Some (mkIhSys (ih s) (R_poll1 (mDurationMs (ih s))) (exiting s) (ih_log s))
  | L_poll1 ret, R_poll1 t =>
      if poll1_answer (mEventCount (ih s)) ret then Some (leave_wait s (R_pread t) (WaitForIdle_first ret)) else None
  | L_pread ret data, R_pread t => Some (leave_wait s (R_poll2 t) (WaitForIdle_read ret data))
  | L_poll2 ret ev0 ev1, R_poll2 t =>
      if poll2_answer (mEventCount (ih s)) ret ev0 ev1
      then Some (leave_wait s (R_poll2 t) (Some (WaitForIdle_second t ret ev0 ev1))) else None
  | L_release, R_release _ =>
      let '(h, e) := Release (ih s) in Some (mkIhSys h R_cond (exiting s) (e ++ ih_log s))
  | _, _ => None
  end.

Fixpoint ih_run (c : IhConfig) (ls : list IhLabel) (s : IhSys) : option IhSys :=
  match ls with
  | [] => Some s
  | l :: ls => match ih_step c l s with Some s => ih_run c ls s | None => None end
  end.

(** ** Invariant of the transition system *)

(** The timeout that the thread's wait works with, once it has read it. *)
Definition pc_timeout (p : RoutinePc) : option Z :=
  match p with
  | R_poll1 t | R_pread t | R_poll2 t | R_release (W_timeout t) => Some t
  | _ => None
  end.

(** The thread is between its two critical sections. *)
Definition in_wait (p : RoutinePc) : bool :=
  match p with R_none | R_cond | R_done => false | _ => true end.

(** How the shared state, the event counter and the thread belong together.  A
    pending abort exists exactly while the thread has to notice an [Acquire] or
    an [Exit] that came during its wait. *)
Definition ih_inv (s : IhSys) : Prop :=
  let h := ih s in
  0 <= mEventCount h <= 2 /\
  match mState h with
  | INTERACTION_STATE_UNINITIALIZED =>
      exiting s = negb (bool_decide (pc s = R_none)) /\ (in_wait (pc s) = true -> 1 <= mEventCount h)
  | INTERACTION_STATE_IDLE => exiting s = false /\ pc s = R_cond /\ mEventCount h = 0
  | INTERACTION_STATE_INTERACTION =>
      exiting s = false /\
      (pc s = R_cond /\ mEventCount h = 0 \/ in_wait (pc s) = true /\ mEventCount h = 1)
  | INTERACTION_STATE_WAITING =>
      exiting s = false /\ in_wait (pc s) = true /\ mEventCount h = 0 /\
      pc s <> R_release W_aborted /\ (forall t, pc_timeout (pc s) = Some t -> t = mDurationMs h)
  end.

(** The protocol of the hint, from the log (newest first): [Some b] when it has
    been switched on and off alternately and is now on ([b]) or off; [None]
    after a double switch. *)
Fixpoint hint_state (log : list IhEffect) : option bool :=
  match log with
  | [] => Some false
  | Ih_DoHint :: l => match hint_state l with Some false => Some true | _ => None end
  | Ih_EndHint :: l => match hint_state l with Some true => Some false | _ => None end
  | _ :: l => hint_state l
  end.

Definition boosting (st : InteractionState) : bool :=
  match st with INTERACTION_STATE_INTERACTION | INTERACTION_STATE_WAITING => true | _ => false end.

Ltac ih_cases :=
  repeat match goal with
  | |- context [bool_decide ?P] => destruct (bool_decide_reflect P); simplify_eq/=
  | H : context [bool_decide ?P] |- _ => destruct (bool_decide_reflect P); simplify_eq/=
  end.

Lemma new_IhSys_inv : ih_inv new_IhSys.
Proof. unfold ih_inv. simpl. split; [lia |]. done. Qed.

Lemma acquire_inv c duration now s s' :
  ih_inv s -> ih_step c (L_acquire duration now) s = Some s' -> ih_inv s'.
Proof.
  destruct s as [[st fi fe n d lt] p ex log]. unfold ih_inv. cbn [ih_step ih pc exiting ih_log mState mEventCount mDurationMs].
  intros (Hn & Hinv). unfold Acquire. cbn [mState].
  destruct (negb _ || _) eqn:Ef; [intros [= <-]; by split |].
  destruct (already_covered _ _ _); [intros [= <-]; by split |].
  apply orb_false_elim in Ef as [_ Ef]. apply bool_decide_eq_false in Ef.
  destruct st; [done | | |]; simpl; intros [= <-]; simpl.
  - destruct Hinv as (A & -> & C). auto.
  - auto.
  - destruct Hinv as (A & B & -> & C & D). simpl. split; [lia |]. auto.
Qed.

Lemma exit_inv c s s' : ih_inv s -> ih_step c L_exit s = Some s' -> ih_inv s'.
Proof.
  destruct s as [[st fi fe n d lt] p ex log]. unfold ih_inv. simpl.
  intros (Hn & Hinv). destruct ex; [done |]. unfold Exit_locked. simpl.
  destruct st; simpl; intros [= <-]; simpl.
  - by split.
  - destruct Hinv as (_ & -> & ->). simpl. split; [lia |]. done.
  - destruct Hinv as (_ & [[-> ->] | [Hw ->]]); simpl; (split; [lia |]).
    + done.
    + split; [| lia]. by destruct p.
  - destruct Hinv as (_ & Hw & -> & _). simpl. split; [lia |]. split; [by destruct p | lia].
Qed.

Lemma init_inv c open evfd s s' : ih_inv s -> ih_step c (L_init open evfd) s = Some s' -> ih_inv s'.
Proof.
  destruct s as [[st fi fe n d lt] p ex log]. unfold ih_inv. cbn [ih_step ih pc exiting ih_log].
  intros (Hn & Hinv). destruct ex; [done |]. unfold Init. cbn [mState].
  destruct st; simpl bool_decide; cbn match beta.
  - destruct (FbIdleOpen open <? 0); [intros [= <-]; by split |].
    destruct (evfd <? 0); simpl; intros [= <-]; simpl; split; try done; lia.
  - intros [= <-]. by split.
  - intros [= <-]. by split.
  - intros [= <-]. by split.
Qed.

Lemma wake_inv c s s' : ih_inv s -> ih_step c L_wake s = Some s' -> ih_inv s'.
Proof.
  destruct s as [[st fi fe n d lt] p ex log]. unfold ih_inv. simpl. intros (Hn & Hinv).
  destruct p; try done. unfold Routine_locked. simpl.
  destruct st; simpl; intros E; simplify_eq/=; (split; [lia |]).
  - by destruct Hinv as [-> _].
  - destruct Hinv as (-> & [[_ ->] | [? _]]); [| done]. by split_and!.
  - by destruct Hinv as (_ & ? & _).
Qed.

(** A step of the wait itself: the shared state does not change, and the thread
    goes on waiting or leaves for a reason that fits the event counter. *)
Lemma wait_step_inv s p' :
  ih_inv s -> in_wait (pc s) = true -> in_wait p' = true ->
  (mState (ih s) = INTERACTION_STATE_WAITING -> mEventCount (ih s) = 0 ->
   p' <> R_release W_aborted /\
   forall t, pc_timeout p' = Some t -> pc_timeout (pc s) = Some t \/ t = mDurationMs (ih s)) ->
  ih_inv (mkIhSys (ih s) p' (exiting s) (ih_log s)).
Proof.
  destruct s as [[st fi fe n d lt] p ex log]. unfold ih_inv. simpl. intros (Hn & Hinv) Hp Hp' Hw.
  split; [done |]. destruct st.
  - destruct Hinv as [-> Hc]. split; [by destruct p, p' | auto].
  - by destruct Hinv as (_ & -> & _).
  - destruct Hinv as (-> & [[-> _] | [_ ->]]); [done | auto].
  - destruct Hinv as (-> & _ & -> & _ & Ht). destruct (Hw eq_refl eq_refl) as [W1 W2]. split_and!; auto.
    intros t E. destruct (W2 t E) as [E' | ->]; auto.
Qed.

Lemma wait_inv c l s s' :
  in_wait (pc s) = true -> l <> L_release -> thread_label l = true ->
  ih_inv s -> ih_step c l s = Some s' -> ih_inv s'.
Proof.
  intros Hp Hr Hl Hinv. destruct l; simpl; try done; destruct (pc s) eqn:Ep; try done.
  - intros [= <-]. apply wait_step_inv; rewrite ?Ep; auto. intros _ _. split; [done |]. intros t [= <-]. auto.
  - unfold poll1_answer, WaitForIdle_first, leave_wait. destruct (_ || _) eqn:Ea; [| done]. intros [= <-].
    apply wait_step_inv; rewrite ?Ep; auto; [by repeat case_match |]. intros _ E0. rewrite E0 in Ea.
    destruct (Z.ltb_spec 0 ret); [| destruct (ret <? 0); (split; [done |]); intros t E; simplify_eq/=; auto].
    destruct (Z.ltb_spec ret 0), (Z.eqb_spec ret 1), (Z.eqb_spec ret 0); try lia; done.
  - unfold WaitForIdle_read, leave_wait. intros [= <-].
    apply wait_step_inv; rewrite ?Ep; auto; [by repeat case_match |]. intros _ E0.
    destruct (ret =? 0); [| destruct (starts_idle data)]; (split; [done |]); intros t E; simplify_eq/=; auto.
  - unfold poll2_answer, WaitForIdle_second, leave_wait. destruct (_ || _) eqn:Ea; [| done]. intros [= <-].
    apply wait_step_inv; rewrite ?Ep; auto. intros _ E0. rewrite E0 in Ea.
    destruct (Z.ltb_spec ret 0); [split; [done |]; intros t E; simplify_eq/= |].
    destruct (Z.eqb_spec ret 0); [split; [done |]; intros t E; simplify_eq/=; auto |].
    destruct ev0; [by destruct (0 <? ret) | split; [done |]; intros t E; simplify_eq/=].
Qed.

Lemma release_inv c s s' : ih_inv s -> ih_step c L_release s = Some s' -> ih_inv s'.
Proof.
  destruct s as [[st fi fe n d lt] p ex log]. unfold ih_inv. simpl. intros (Hn & Hinv).
  destruct p; try done. unfold Release. simpl.
  destruct st; simpl; intros E; simplify_eq/=; (split; [lia |]).
  - split; [by destruct Hinv as [-> _] | done].
  - by destruct Hinv as (_ & ? & _).
  - destruct Hinv as [-> _]. auto.
  - destruct Hinv as (-> & _ & -> & _). auto.
Qed.

Lemma join_inv c s s' : ih_inv s -> ih_step c L_join s = Some s' -> ih_inv s'.
Proof.
  destruct s as [[st fi fe n d lt] p ex log]. unfold ih_inv. simpl. intros (Hn & Hinv).
  destruct p; try done. destruct ex; [| done]. intros E; simplify_eq/=. split; [lia |].
  destruct st; [done | | |]; by destruct Hinv.
Qed.

Lemma ih_step_inv c l s s' : ih_inv s -> ih_step c l s = Some s' -> ih_inv s'.
Proof.
  intros Hinv E. destruct l.
  - by eapply init_inv.
  - by eapply acquire_inv.
  - by eapply exit_inv.
  - by eapply join_inv.
  - by eapply wake_inv.
  - eapply wait_inv; [| | | done | exact E]; try done. simpl in E. by destruct (pc s).
  - eapply wait_inv; [| | | done | exact E]; try done. simpl in E. by destruct (pc s).
  - eapply wait_inv; [| | | done | exact E]; try done. simpl in E. by destruct (pc s).
  - eapply wait_inv; [| | | done | exact E]; try done. simpl in E. by destruct (pc s).
  - by eapply release_inv.
Qed.

Lemma ih_run_inv c ls s s' : ih_inv s -> ih_run c ls s = Some s' -> ih_inv s'.
Proof.
  revert s. induction ls as [| l ls IH]; simpl; intros s Hs E; [by simplify_eq |].
  destruct (ih_step c l s) as [s1 |] eqn:El; [| done]. eapply IH; [| exact E]. by eapply ih_step_inv.
Qed.

Lemma ih_reachable_inv c ls s : ih_run c ls new_IhSys = Some s -> ih_inv s.
Proof. apply ih_run_inv, new_IhSys_inv. Qed.

(** ** The hint follows the state *)

Definition is_exit (l : IhLabel) : bool := match l with L_exit => true | _ => false end.
Definition is_init (l : IhLabel) : bool := match l with L_init _ _ => true | _ => false end.

(** The hint is on exactly in the boosting states. *)
Definition hint_follows (s : IhSys) : Prop := hint_state (ih_log s) = Some (boosting (mState (ih s))).

Lemma hint_follows_step c l s s' :
  is_exit l = false -> ih_inv s -> hint_follows s -> ih_step c l s = Some s' -> hint_follows s'.
Proof.
  intros Hl Hinv Hf. unfold hint_follows in *.
  destruct s as [[st fi fe n d lt] p ex log]. unfold ih_inv in Hinv. simpl in *. destruct Hinv as [Hn Hinv].
  destruct l; simpl in *; try done.
  - destruct ex; [done |]. unfold Init. simpl. destruct st; simpl; try (by intros [= <-]).
    destruct (_ <? 0); [by intros [= <-] |]. destruct (evfd <? 0); by intros [= <-].
  - unfold Acquire. cbn [mState]. destruct (negb _ || _) eqn:Ef; [by intros [= <-] |].
    apply orb_false_elim in Ef as [_ Ef]. apply bool_decide_eq_false in Ef.
    destruct (already_covered _ _ _); [by intros [= <-] |].
    destruct st; simpl; intros [= <-]; simpl; rewrite ?Hf; done.
  - destruct p; try done. destruct ex; [| done]. by intros [= <-].
  - destruct p; try done. unfold Routine_locked. simpl. destruct st; simpl; intros E; by simplify_eq/=.
  - destruct p; try done. by intros [= <-].
  - destruct p; try done. destruct (poll1_answer _ _); [| done]. by intros [= <-].
  - destruct p; try done. by intros [= <-].
  - destruct p; try done. destruct (poll2_answer _ _ _ _); [| done]. by intros [= <-].
  - destruct p; try done. unfold Release. simpl. destruct st; simpl; intros [= <-]; simpl; rewrite ?Hf; done.
Qed.

Lemma hint_follows_run c ls s s' :
  forallb (fun l => negb (is_exit l)) ls = true -> ih_inv s -> hint_follows s -> ih_run c ls s = Some s' ->
  hint_follows s'.
Proof.
  revert s. induction ls as [| l ls IH]; simpl; intros s Hl Hinv Hf E; [by simplify_eq |].
  apply andb_prop in Hl as [Hl Hls]. apply negb_true_iff in Hl.
  destruct (ih_step c l s) as [s1 |] eqn:El; [| done].
  eapply IH; [done | by eapply ih_step_inv | by eapply hint_follows_step | exact E].
Qed.

(** After [Exit] and without a new [Init] the hint stays as it is. *)
Definition frozen (b : bool) (s : IhSys) : Prop :=
  mState (ih s) = INTERACTION_STATE_UNINITIALIZED /\ hint_state (ih_log s) = Some b.

Lemma frozen_step c b l s s' : is_init l = false -> frozen b s -> ih_step c l s = Some s' -> frozen b s'.
Proof.
  destruct s as [[st fi fe n d lt] p ex log]. unfold frozen. simpl. intros Hl [-> Hf].
  destruct l; simpl; try done.
  - unfold Acquire. simpl. rewrite orb_true_r. by intros [= <-].
  - destruct ex; [done |]. by intros [= <-].
  - destruct p; try done. destruct ex; [| done]. by intros [= <-].
  - destruct p; try done. by intros [= <-].
  - destruct p; try done. by intros [= <-].
  - destruct p; try done. destruct (poll1_answer _ _); [| done]. by intros [= <-].
  - destruct p; try done. by intros [= <-].
  - destruct p; try done. destruct (poll2_answer _ _ _ _); [| done]. by intros [= <-].
  - destruct p; try done. by intros [= <-].
Qed.

Lemma frozen_run c b ls s s' :
  forallb (fun l => negb (is_init l)) ls = true -> frozen b s -> ih_run c ls s = Some s' -> frozen b s'.
Proof.
  revert s. induction ls as [| l ls IH]; simpl; intros s Hl Hf E; [by simplify_eq |].
  apply andb_prop in Hl as [Hl Hls]. apply negb_true_iff in Hl.
  destruct (ih_step c l s) as [s1 |] eqn:El; [| done].
  eapply IH; [done | by eapply frozen_step | exact E].
Qed.

(** ** Termination of the thread *)

(** The number of steps the thread can still take once [Exit] has been called. *)
Definition steps_to_done (p : RoutinePc) : nat :=
  match p with
  | R_none | R_done => 0
  | R_cond => 1
  | R_release _ => 2
  | R_poll2 _ => 3
  | R_pread _ => 4
  | R_poll1 _ => 5
  | R_args => 6
  end.

(** An answer of the system for which the thread can move. *)
Definition next_label (s : IhSys) : option IhLabel :=
  match pc s with
  | R_cond => Some L_wake
  | R_args => Some L_args
  | R_poll1 _ => Some (L_poll1 (if 0 <? mEventCount (ih s) then 1 else 0))
  | R_pread _ => Some (L_pread 0 [])
  | R_poll2 _ => Some (L_poll2 (if 0 <? mEventCount (ih s) then 1 else 0) (0 <? mEventCount (ih s)) false)
  | R_release _ => Some L_release
  | R_none | R_done => None
  end.

Lemma thread_decreases c l s s' :
  thread_label l = true -> mState (ih s) = INTERACTION_STATE_UNINITIALIZED -> ih_step c l s = Some s' ->
  (steps_to_done (pc s') < steps_to_done (pc s))%nat /\ exiting s' = exiting s.
Proof.
  destruct s as [[st fi fe n d lt] p ex log]. simpl. intros Hl ->.
  destruct l; simpl; try done; destruct p; try done.
  - intros [= <-]. simpl. auto.
  - intros [= <-]. simpl. auto.
  - destruct (poll1_answer _ _); [| done]. intros [= <-]. simpl. split; [| done]. case_match; simpl; lia.
  - intros [= <-]. simpl. split; [| done]. case_match; simpl; lia.
  - destruct (poll2_answer _ _ _ _); [| done]. intros [= <-]. simpl. auto.
  - intros [= <-]. simpl. auto.
Qed.

Lemma caller_keeps_pc c l s s' :
  ih_inv s -> exiting s = true -> thread_label l = false -> l <> L_join -> ih_step c l s = Some s' -> pc s' = pc s.
Proof.
  intros _ Hx Hl Hj. destruct l; simpl; try done; rewrite ?Hx; [done | | done].
  destruct (Acquire c duration now (ih s)). by intros [= <-].
Qed.

(** ** Durations *)

Definition valid_IhConfig (c : IhConfig) : Prop :=
  0 <= kMinDurationMs c <= kMaxDurationMs c /\ kMaxDurationMs c < 2 ^ 31 /\ 0 <= kDurationOffsetMs c < 2 ^ 31.

Definition ts_ns (t : timespec) : Z := tv_sec t * 1000000000 + tv_nsec t.

Definition valid_timespec (t : timespec) : Prop := 0 <= tv_sec t < 2 ^ 40 /\ 0 <= tv_nsec t < 1000000000.

Lemma final_duration_clamp c duration :
  valid_IhConfig c -> is_i32 duration ->
  final_duration c duration = Z.max (kMinDurationMs c) (Z.min (kMaxDurationMs c) (u32 (duration + kDurationOffsetMs c))).
Proof.
  intros ((V0 & V1) & V2 & V3) Hd. unfold final_duration.
  assert (u32 (u32 duration + kDurationOffsetMs c) = u32 (duration + kDurationOffsetMs c)) as ->.
  { unfold u32, wrap_u. by rewrite Z.add_mod_idemp_l. }
  rewrite u32_i32. set (x := u32 (duration + _)). assert (is_u32 x) as Hx by apply u32_range.
  assert (u32 x = x) as -> by by apply u32_id. 
  rewrite (i32_id (kMaxDurationMs c)), (i32_id (kMinDurationMs c)) by (unfold is_i32; lia).
  destruct (Z.ltb_spec (kMaxDurationMs c) x); [lia |].
  rewrite i32_id by (unfold is_i32, is_u32 in *; lia).
  destruct (Z.ltb_spec (kMinDurationMs c) x); lia.
Qed.

(** The difference in milliseconds is exact to less than one. *)
Lemma CalcTimespecDiffMs_spec a b :
  valid_timespec a -> valid_timespec b -> ts_ns a <= ts_ns b ->
  - 1000000 < ts_ns b - ts_ns a - CalcTimespecDiffMs a b * 1000000 < 1000000.
Proof.
  unfold valid_timespec, ts_ns, CalcTimespecDiffMs. intros (A1 & A2) (B1 & B2) Hle. rewrite Z.add_0_l.
  assert (tv_sec a <= tv_sec b) by lia.
  rewrite (i64_id (tv_sec b - tv_sec a)), (i64_id (tv_nsec b - tv_nsec a)) by (unfold is_i64; lia).
  rewrite (i64_id (_ * 1000)) by (unfold is_i64; lia). rewrite (u64_id (_ * 1000)) by (unfold is_u64; lia).
  set (x := tv_nsec b - tv_nsec a) in *. pose proof (Z.quot_rem' x 1000000). pose proof (Z.rem_bound_abs x 1000000 ltac:(lia)).
  assert (0 <= (tv_sec b - tv_sec a) * 1000 + Z.quot x 1000000).
  { destruct (Z.eq_dec (tv_sec a) (tv_sec b)) as [E | E].
    - rewrite E, Z.sub_diag. assert (0 <= x) by lia. pose proof (Z.quot_pos x 1000000). lia.
    - lia. }
  rewrite u64_id by (unfold is_u64; lia). lia.
Qed.

(** ** Properties *)

(** A run for the witnesses: the handler starts, a touch switches the hint on,
    a second, longer touch arrives while the thread is waiting and aborts the
    wait, and the second wait times out. *)
Definition example_open (path : string) : Z := if String.eqb path "/sys/class/graphics/fb0/idle_state" then 7 else -1.

Definition example_labels : list IhLabel :=
  [L_init example_open 8; L_acquire 1000 (mkTimespec 10 0); L_wake; L_args;
   L_acquire 3000 (mkTimespec 10 500000000); L_poll1 1; L_release; L_wake; L_args;
   L_poll1 0; L_pread 6 ["a"; "c"; "t"; "i"; "v"; "e"]%char; L_poll2 0 false false].

Definition example_before_release : IhSys :=
  mkIhSys (mkInteractionHandler INTERACTION_STATE_WAITING 7 8 0 3650 (mkTimespec 10 500000000))
    (R_release (W_timeout 3650)) false [Ih_DoHint].

(** The handler after the first touch, when the thread is about to poll; and
    the same handler after [Exit] and the end of the thread. *)
Definition example_waiting : IhSys :=
  mkIhSys (mkInteractionHandler INTERACTION_STATE_WAITING 7 8 0 1650 (mkTimespec 10 0)) (R_poll1 1650) false [Ih_DoHint].

Definition example_exiting : IhSys :=
  mkIhSys (mkInteractionHandler INTERACTION_STATE_UNINITIALIZED 7 8 1 1650 (mkTimespec 10 0)) (R_poll1 1650) true
    [Ih_DoHint].

Definition example_exited : IhSys :=
  mkIhSys (mkInteractionHandler INTERACTION_STATE_UNINITIALIZED 7 8 0 1650 (mkTimespec 10 0)) R_none false
    [Ih_close 8; Ih_close 7; Ih_DoHint].



(** The wait and its aborts are sound in every interleaving: a wait starts
    with no abort pending; an [Acquire] during the wait is never slept through,
    as neither poll can time out until the thread has seen it; and the hint is
    switched off only by a wait that was not aborted, and if that wait timed
    out, after the duration of the latest [Acquire] that took effect. *)
Theorem interaction_wait_sound (c : IhConfig) (ls : list IhLabel) (s s' : IhSys)
    (Hrun : ih_run c ls new_IhSys = Some s) :
  (ih_step c L_wake s = Some s' -> pc s' = R_args -> mEventCount (ih s') = 0) /\
  (in_wait (pc s) = true -> mState (ih s) <> INTERACTION_STATE_WAITING ->
   poll1_answer (mEventCount (ih s)) 0 = false /\ forall a b, poll2_answer (mEventCount (ih s)) 0 a b = false) /\
  (ih_step c L_release s = Some s' -> ih_log s' = Ih_EndHint :: ih_log s ->
   exists why, pc s = R_release why /\ why <> W_aborted /\ forall t, why = W_timeout t -> t = mDurationMs (ih s)).
Proof.
  pose proof (ih_reachable_inv c ls s Hrun) as Hinv. split_and!.
  - intros Hs Hp. pose proof (wake_inv c s s' Hinv Hs) as [_ Hs']. revert Hs Hs'. rewrite Hp. simpl.
    destruct (pc s); try done. unfold Routine_locked. ih_cases; intros; simplify_eq/=; tauto.
  - intros Hw Hn. destruct Hinv as [_ Hinv]. unfold poll1_answer, poll2_answer.
    assert (1 <= mEventCount (ih s)) as Hc.
    { destruct (mState (ih s)); [tauto | destruct Hinv as (_ & E & _); by rewrite E in Hw | | done].
      destruct Hinv as (_ & [[E _] | [_ E]]); [by rewrite E in Hw | lia]. }
    destruct (Z.eqb_spec (mEventCount (ih s)) 0); [lia |]. done.
  - intros Hs Hlog. destruct Hinv as [_ Hinv]. simpl in Hs. destruct (pc s) as [| | | | | | why |] eqn:Ep; try done.
    exists why. split; [done |]. unfold Release in Hs. revert Hs.
    destruct (bool_decide_reflect (mState (ih s) = INTERACTION_STATE_WAITING)) as [E |]; simpl; intros [= <-].
    + rewrite E in Hinv. destruct Hinv as (_ & _ & _ & Ha & Ht). split; [congruence |]. intros t ->. by apply Ht.
    + simpl in Hlog. apply (f_equal length) in Hlog. simpl in Hlog. lia.
Qed.

Lemma interaction_wait_sound_witness :
  exists s', ih_step default_IhConfig L_release example_before_release = Some s' /\
    (ih_log s' = Ih_EndHint :: ih_log example_before_release ->
     exists why, pc example_before_release = R_release why /\ why <> W_aborted /\
       forall t, why = W_timeout t -> t = mDurationMs (ih example_before_release)).
Proof.
  eexists. split; [reflexivity |].
  refine (proj2 (proj2 (interaction_wait_sound default_IhConfig example_labels example_before_release _ _)) _);
    [vm_compute; reflexivity | reflexivity].
Defined.

(** C35. [Exit] terminates: once it has asked the thread to stop, the thread can
    always take a step until it has returned, each of its steps brings it
    closer whatever the system answers, at most six are left, the other callers
    do not delay it, and when it has returned the join goes through. *)
Theorem exit_terminates (c : IhConfig) (ls : list IhLabel) (s : IhSys)
    (Hrun : ih_run c ls new_IhSys = Some s) (Hex : exiting s = true) :
  (steps_to_done (pc s) <= 6)%nat /\
  (if decide (pc s = R_done) then is_Some (ih_step c L_join s)
   else exists l, next_label s = Some l /\ thread_label l = true /\ is_Some (ih_step c l s)) /\
  (forall l s', ih_step c l s = Some s' -> l <> L_join ->
     exiting s' = true /\
     if thread_label l then (steps_to_done (pc s') < steps_to_done (pc s))%nat else pc s' = pc s).
Proof.
  pose proof (ih_reachable_inv c ls s Hrun) as Hinv. pose proof Hinv as [Hn Hst].
  assert (mState (ih s) = INTERACTION_STATE_UNINITIALIZED) as Hu.
  { destruct (mState (ih s)); [done | | |]; destruct Hst as [E _]; congruence. }
  split_and!.
  - destruct (pc s); simpl; lia.
  - rewrite Hu, Hex in Hst. destruct Hst as [Hpc Hc]. destruct (pc s) eqn:Ep; simpl in *; try done;
      unfold next_label; rewrite Ep; simpl; rewrite ?Hex; try (eexists; (split; [reflexivity |])); simpl; rewrite ?Ep; (try by eauto).
    + split; [done |]. rewrite Hu. simpl. unfold Routine_locked. rewrite Hu. simpl. eauto.
    + split; [done |]. destruct (Z.ltb_spec 0 (mEventCount (ih s))); [| specialize (Hc eq_refl); lia].
      unfold poll1_answer. destruct (Z.ltb_spec 0 (mEventCount (ih s))); [| lia]. simpl. eauto.
    + split; [done |]. destruct (Z.ltb_spec 0 (mEventCount (ih s))); [| specialize (Hc eq_refl); lia].
      unfold poll2_answer. destruct (Z.ltb_spec 0 (mEventCount (ih s))); [| lia]. simpl. eauto.
    + split; [done |]. destruct (Release (ih s)). eauto.
  - intros l s' Hs Hj. destruct (thread_label l) eqn:El.
    + destruct (thread_decreases c l s s' El Hu Hs). split; congruence.
    + split; [| by eapply caller_keeps_pc]. destruct l; try done; simpl in Hs; rewrite ?Hex in Hs; try done.
      destruct (Acquire _ _ _ _). by simplify_eq/=.
Qed.

Lemma exit_terminates_witness :
  ih_run default_IhConfig (take 4 example_labels ++ [L_exit]) new_IhSys = Some example_exiting /\
  (steps_to_done (pc example_exiting) <= 6)%nat.
Proof.
  assert (ih_run default_IhConfig (take 4 example_labels ++ [L_exit]) new_IhSys = Some example_exiting) as H
    by (vm_compute; reflexivity).
  split; [exact H |]. exact (proj1 (exit_terminates default_IhConfig _ _ H eq_refl)).
Defined.

(** [Exit] during an interaction leaves the hint on: it stops the thread
    without releasing the hint, and nothing that can happen afterwards short of
    a new [Init] switches it off. *)
Theorem exit_leaves_hint_on (c : IhConfig) (ls ls' : list IhLabel) (s s' : IhSys)
    (Hrun : ih_run c ls new_IhSys = Some s) (Hex : forallb (fun l => negb (is_exit l)) ls = true)
    (Hb : boosting (mState (ih s)) = true)
    (Hrun' : ih_run c (L_exit :: ls') s = Some s') (Hin : forallb (fun l => negb (is_init l)) ls' = true) :
  hint_state (ih_log s') = Some true.
Proof.
  assert (hint_follows s) as Hf by (eapply hint_follows_run; [exact Hex | apply new_IhSys_inv | reflexivity | exact Hrun]).
  unfold hint_follows in Hf. rewrite Hb in Hf.
  pose proof (ih_reachable_inv c ls s Hrun) as [_ Hinv]. simpl in Hrun'.
  assert (exiting s = false) as Hx by (destruct (mState (ih s)); try done; by destruct Hinv). rewrite Hx in Hrun'.
  unfold Exit_locked in Hrun'. destruct (bool_decide_reflect (mState (ih s) = INTERACTION_STATE_UNINITIALIZED)) as [E |].
  { by rewrite E in Hb. }
  eapply frozen_run; [exact Hin | | exact Hrun']. by split.
Qed.

Lemma exit_leaves_hint_on_witness :
  ih_run default_IhConfig (take 4 example_labels) new_IhSys = Some example_waiting /\
  ih_run default_IhConfig [L_exit; L_poll1 1; L_release; L_wake; L_join] example_waiting = Some example_exited /\
  hint_state (ih_log example_exited) = Some true.
Proof.
  assert (ih_run default_IhConfig (take 4 example_labels) new_IhSys = Some example_waiting) as H1
    by (vm_compute; reflexivity).
  assert (ih_run default_IhConfig [L_exit; L_poll1 1; L_release; L_wake; L_join] example_waiting = Some example_exited)
    as H2 by (vm_compute; reflexivity).
  split; [exact H1 | split; [exact H2 |]].
  exact (exit_leaves_hint_on default_IhConfig _ _ _ _ H1 eq_refl eq_refl H2 eq_refl).
Defined.

(** The duration of a boost is the requested one plus the offset, taken
    modulo 2^32 and clamped to the configured bounds (so a request more
    negative than the offset gets the longest boost), and an [Acquire] that is
    ignored would have ended less than a millisecond after the boost that is
    already running. *)
Theorem acquire_duration_spec (c : IhConfig) (h : InteractionHandler) (duration : Z) (now : timespec)
    (Hc : valid_IhConfig c) (Hd : is_i32 duration) (Hm : is_i32 (mDurationMs h))
    (Hl : valid_timespec (mLastTimespec h)) (Hn : valid_timespec now) (Hle : ts_ns (mLastTimespec h) <= ts_ns now) :
  let final := final_duration c duration in
  final = Z.max (kMinDurationMs c) (Z.min (kMaxDurationMs c) ((duration + kDurationOffsetMs c) mod 2 ^ 32)) /\
  (duration + kDurationOffsetMs c < 0 -> final = kMaxDurationMs c) /\
  (kDisplayIdleSupport c = true -> mState h <> INTERACTION_STATE_UNINITIALIZED -> already_covered h final now = true ->
   Acquire c duration now h = (h, []) /\
   ts_ns now + final * 1000000 < ts_ns (mLastTimespec h) + mDurationMs h * 1000000 + 1000000).
Proof.
  pose proof (final_duration_clamp c duration Hc Hd) as Hf. destruct Hc as ((V0 & V1) & V2 & V3).
  split_and!; [done | |].
  - intros Hneg. rewrite Hf. unfold u32, wrap_u. unfold is_i32 in Hd.
    rewrite <- (Z.mod_add _ 1) by lia. rewrite Z.mod_small by lia. lia.
  - intros Hd0 Hu Hcov. split.
    { unfold Acquire. by rewrite Hd0, Hcov, bool_decide_eq_false_2 by done. }
    set (final := final_duration c duration) in *.
    assert (0 <= final) by lia. unfold already_covered in Hcov.
    apply andb_prop in Hcov as [Hcov He]. apply andb_prop in Hcov as [_ Hcov].
    pose proof (CalcTimespecDiffMs_spec _ _ Hl Hn Hle). unfold is_i32 in Hm.
    rewrite i32_id in He by (unfold is_i32; lia). rewrite u64_id in He by (unfold is_u64; lia). lia.
Qed.

Lemma acquire_duration_spec_witness :
  let h := ih example_before_release in
  let now := mkTimespec 11 200000000 in
  valid_IhConfig default_IhConfig /\ already_covered h (final_duration default_IhConfig 1000) now = true /\
  ts_ns now + final_duration default_IhConfig 1000 * 1000000 <
    ts_ns (mLastTimespec h) + mDurationMs h * 1000000 + 1000000.
Proof.
  intros h now. assert (valid_IhConfig default_IhConfig) as Hc by (unfold valid_IhConfig; simpl; lia).
  split; [exact Hc |]. split; [vm_compute; reflexivity |].
  refine (proj2 (proj2 (proj2 (acquire_duration_spec default_IhConfig h 1000 now Hc _ _ _ _ _)) _ _ _));
    first [reflexivity | discriminate | unfold valid_timespec, is_i32, ts_ns; simpl; lia].
Defined.
