(* ===== verification/PowerService.v ===== *)
(** * The power service
      (src/power-libperfmgr/aidl/Power.cpp, PowerExt.cpp, SupportManager.cpp,
       PowerModeExtension.cpp)

    The binder service puts the parts together: it forwards modes and boosts to
    the hint manager and to the interaction handler, creates hint sessions at
    the session manager, hands out session channels, and answers which of its
    features are supported from bit words that [SupportManager] computes once.

    The enumerations [Mode] and [Boost] have the enumerators the sources name;
    their integer values and their ranges belong to the interface definition,
    which is not part of the repository, and are the class [AidlEnum].

    The extension interface of PowerExt.cpp reaches the same hint manager; it is
    part of the sequences of calls ([PwOp]), and shown not to follow the flag of
    sustained performance mode. *)

From Stdlib Require Import Ascii.
From S2P Require Import Prelude Text CFloat AdpfTypes UClampVoter SessionMetrics GpuNode SessionTaskMap PowerSessionManager PowerHintSession Channels InteractionHandler.

(** ** The enumerations of the interface *)

Inductive Mode :=
| M_DOUBLE_TAP_TO_WAKE | M_LOW_POWER | M_SUSTAINED_PERFORMANCE | M_FIXED_PERFORMANCE | M_VR | M_LAUNCH
| M_EXPENSIVE_RENDERING | M_INTERACTIVE | M_DEVICE_IDLE | M_DISPLAY_INACTIVE | M_AUDIO_STREAMING_LOW_LATENCY
| M_CAMERA_STREAMING_SECURE | M_CAMERA_STREAMING_LOW | M_CAMERA_STREAMING_MID | M_CAMERA_STREAMING_HIGH
| M_GAME | M_GAME_LOADING | M_DISPLAY_CHANGE | M_AUTOMOTIVE_PROJECTION | M_raw (n : Z).

Inductive Boost :=
| B_INTERACTION | B_DISPLAY_UPDATE_IMMINENT | B_ML_ACC | B_AUDIO_LAUNCH | B_CAMERA_LAUNCH | B_CAMERA_SHOT
| B_raw (n : Z).

#[export] Instance Mode_eq_dec : EqDecision Mode.
Proof. solve_decision. Defined.
#[export] Instance Boost_eq_dec : EqDecision Boost.
Proof. solve_decision. Defined.

(** The generated [toString]: the enumerator's name, or the number. *)
Definition Mode_toString (m : Mode) : string :=
  match m with
  | M_DOUBLE_TAP_TO_WAKE => "DOUBLE_TAP_TO_WAKE" | M_LOW_POWER => "LOW_POWER"
  | M_SUSTAINED_PERFORMANCE => "SUSTAINED_PERFORMANCE" | M_FIXED_PERFORMANCE => "FIXED_PERFORMANCE"
  | M_VR => "VR" | M_LAUNCH => "LAUNCH" | M_EXPENSIVE_RENDERING => "EXPENSIVE_RENDERING"
  | M_INTERACTIVE => "INTERACTIVE" | M_DEVICE_IDLE => "DEVICE_IDLE" | M_DISPLAY_INACTIVE => "DISPLAY_INACTIVE"
  | M_AUDIO_STREAMING_LOW_LATENCY => "AUDIO_STREAMING_LOW_LATENCY"
  | M_CAMERA_STREAMING_SECURE => "CAMERA_STREAMING_SECURE" | M_CAMERA_STREAMING_LOW => "CAMERA_STREAMING_LOW"
  | M_CAMERA_STREAMING_MID => "CAMERA_STREAMING_MID" | M_CAMERA_STREAMING_HIGH => "CAMERA_STREAMING_HIGH"
  | M_GAME => "GAME" | M_GAME_LOADING => "GAME_LOADING" | M_DISPLAY_CHANGE => "DISPLAY_CHANGE"
  | M_AUTOMOTIVE_PROJECTION => "AUTOMOTIVE_PROJECTION"
  | M_raw n => String.string_of_list_ascii (std_to_string n)
  end.

Definition Boost_toString (b : Boost) : string :=
  match b with
  | B_INTERACTION => "INTERACTION" | B_DISPLAY_UPDATE_IMMINENT => "DISPLAY_UPDATE_IMMINENT"
  | B_ML_ACC => "ML_ACC" | B_AUDIO_LAUNCH => "AUDIO_LAUNCH" | B_CAMERA_LAUNCH => "CAMERA_LAUNCH"
  | B_CAMERA_SHOT => "CAMERA_SHOT"
  | B_raw n => String.string_of_list_ascii (std_to_string n)
  end.

(** [ndk::enum_range] and [static_cast<int>]; the interface gives its
    enumerators distinct values, small enough for the 64-bit support words. *)
Class AidlEnum (E : Type) := {
  enum_range : list E;
  enum_int : E -> Z;
  enum_int_inj : forall a b, a ∈ enum_range -> b ∈ enum_range -> enum_int a = enum_int b -> a = b;
  enum_int_bound : forall a, a ∈ enum_range -> 0 <= enum_int a < 63
}.

(** ** What the service asks of the hint manager *)

Record HintManagerInfo := mkHintManagerInfo {
  hmi : HintManager;
  IsAdpfSupported : bool;
  IsAdpfProfileSupported : string -> bool;
  hmi_reportingRateLimitNs : Z
}.

(** ** SupportManager *)

Section support.
Context `{EqDecision E}.

(** [std::map::find] in a map built from an initializer list. *)
Fixpoint earliest_version (l : list (E * Z)) (e : E) : option Z :=
  match l with
  | [] => None
  | (k, v) :: l => if decide (k = e) then Some v else earliest_version l e
  end.

(** The enumerator is listed and not newer than the interface. *)
Definition version_ok (version : Z) (l : list (E * Z)) (e : E) : bool :=
  match earliest_version l e with None => false | Some v => negb (version <? v) end.

End support.

Definition kModeEarliestVersion : list (Mode * Z) :=
  [(M_DOUBLE_TAP_TO_WAKE, 1); (M_LOW_POWER, 1); (M_SUSTAINED_PERFORMANCE, 1); (M_FIXED_PERFORMANCE, 1);
   (M_VR, 1); (M_LAUNCH, 1); (M_EXPENSIVE_RENDERING, 1); (M_INTERACTIVE, 1); (M_DEVICE_IDLE, 1);
   (M_DISPLAY_INACTIVE, 1); (M_AUDIO_STREAMING_LOW_LATENCY, 1); (M_CAMERA_STREAMING_SECURE, 1);
   (M_CAMERA_STREAMING_LOW, 1); (M_CAMERA_STREAMING_MID, 1); (M_CAMERA_STREAMING_HIGH, 1);
   (M_GAME, 3); (M_GAME_LOADING, 3); (M_DISPLAY_CHANGE, 5); (M_AUTOMOTIVE_PROJECTION, 5)].

Definition kBoostEarliestVersion : list (Boost * Z) :=
  [(B_INTERACTION, 1); (B_DISPLAY_UPDATE_IMMINENT, 1); (B_ML_ACC, 1); (B_AUDIO_LAUNCH, 1);
   (B_CAMERA_LAUNCH, 1); (B_CAMERA_SHOT, 1)].

Definition kSessionHintEarliestVersion : list (SessionHint * Z) :=
  [(HINT_CPU_LOAD_UP, 4); (HINT_CPU_LOAD_DOWN, 4); (HINT_CPU_LOAD_RESET, 4); (HINT_CPU_LOAD_RESUME, 4);
   (HINT_POWER_EFFICIENCY, 4); (HINT_GPU_LOAD_UP, 5); (HINT_GPU_LOAD_DOWN, 5); (HINT_GPU_LOAD_RESET, 5);
   (HINT_CPU_LOAD_SPIKE, 6); (HINT_GPU_LOAD_SPIKE, 6)].

Definition kSessionModeEarliestVersion : list (SessionMode * Z) :=
  [(MODE_POWER_EFFICIENCY, 5); (MODE_GRAPHICS_PIPELINE, 6); (MODE_AUTO_CPU, 6); (MODE_AUTO_GPU, 6);
   (MODE_AUDIO_PERFORMANCE, 7)].

Definition kSessionTagEarliestVersion : list (SessionTag * Z) :=
  [(TAG_OTHER, 5); (TAG_SURFACEFLINGER, 5); (TAG_HWUI, 5); (TAG_GAME, 5); (TAG_APP, 5); (TAG_SYSUI, 6)].

Definition modeSupported (version : Z) (hm : HintManagerInfo) (type : Mode) : bool :=
  if negb (version_ok version kModeEarliestVersion type) then false
  else
    let supported := IsHintSupported (hmi hm) (Mode_toString type) in
    if bool_decide (type = M_LOW_POWER) then true
    else if negb supported && IsAdpfProfileSupported hm (Mode_toString type) then true
    else supported.

Definition boostSupported (version : Z) (hm : HintManagerInfo) (type : Boost) : bool :=
  if negb (version_ok version kBoostEarliestVersion type) then false
  else
    let supported := IsHintSupported (hmi hm) (Boost_toString type) in
    if negb supported && IsAdpfProfileSupported hm (Boost_toString type) then true else supported.

Definition sessionHintSupported (version : Z) (type : SessionHint) : bool :=
  if negb (version_ok version kSessionHintEarliestVersion type) then false
  else match type with HINT_POWER_EFFICIENCY => false | _ => true end.

Definition sessionModeSupported (version : Z) (type : SessionMode) : bool :=
  if negb (version_ok version kSessionModeEarliestVersion type) then false
  else match type with
  | MODE_POWER_EFFICIENCY | MODE_GRAPHICS_PIPELINE | MODE_AUDIO_PERFORMANCE => false
  | _ => true
  end.

Definition sessionTagSupported (version : Z) (type : SessionTag) : bool :=
  version_ok version kSessionTagEarliestVersion type.

Record CompositionDataSupportInfo := mkCompositionData {
  cd_isSupported : bool; disableGpuFences : bool; maxBatchSize : Z; alwaysBatch : bool
}.

Record HeadroomSupportInfo := mkHeadroom {
  isCpuSupported : bool; isGpuSupported : bool; cpuMinIntervalMillis : Z; gpuMinIntervalMillis : Z
}.

Record SupportInfo := mkSupportInfo {
  usesSessions : bool;
  modes : Z;
  boosts : Z;
  sessionHints : Z;
  sessionModes : Z;
  sessionTags : Z;
  compositionData : CompositionDataSupportInfo;
  headroom : HeadroomSupportInfo
}.

#[export] Instance eta_SupportInfo : Record_eta SupportInfo := fun r =>
  mkSupportInfo (usesSessions r) (modes r) (boosts r) (sessionHints r) (sessionModes r) (sessionTags r)
    (compositionData r) (headroom r).

(** [bits[i] = b] on a [std::bitset<64>]. *)
Definition bit_assign (bits i : Z) (b : bool) : Z := if b then Z.setbit bits i else Z.clearbit bits i.

(** The loop over an enumeration, and [static_cast<int64_t>(to_ullong())]. *)
Definition support_bits {E} `{AidlEnum E} (supported : E -> bool) : Z :=
  i64 (foldl (fun bits e => bit_assign bits (enum_int e) (supported e)) 0 enum_range).

Section make_support_info.
Context `{AidlEnum Mode, AidlEnum Boost, AidlEnum SessionHint, AidlEnum SessionMode, AidlEnum SessionTag}.

(** [out] starts as a default-constructed [SupportInfo]. *)
Definition makeSupportInfo (out : SupportInfo) (version : Z) (hm : HintManagerInfo) : SupportInfo :=
  let out := out <| usesSessions := IsAdpfSupported hm |> in
  let out := out <| modes := support_bits (modeSupported version hm) |>
                 <| boosts := support_bits (boostSupported version hm) |> in
  if negb (usesSessions out) then out
  else
    out <| sessionHints := support_bits (sessionHintSupported version) |>
        <| sessionModes := support_bits (sessionModeSupported version) |>
        <| sessionTags := support_bits (sessionTagSupported version) |>
        <| compositionData := mkCompositionData false false 1 false |>
        <| headroom := mkHeadroom false false 0 0 |>.

End make_support_info.

(** ** TgidTypeChecker (utils/TgidTypeChecker.cpp)

    The kernel node that tells what kind of process a thread group is, through
    the result of a write. *)

Record TgidTypeChecker := mkTgidTypeChecker { mTypeCheckerFd : Z }.

(** The constructor, with the result of [access] and of [open]. *)
Definition new_TgidTypeChecker (access_rc open_rc : Z) : TgidTypeChecker :=
  mkTgidTypeChecker (if negb (access_rc =? 0) then -1 else open_rc).

Definition checker_isValid (c : TgidTypeChecker) : bool := 0 <=? mTypeCheckerFd c.

(** [write fd text] is the result of the write. *)
Definition getProcessTag (write : Z -> list ascii -> Z) (c : TgidTypeChecker) (tgid : Z) : ProcessTag :=
  if mTypeCheckerFd c <? 0 then PROC_DEFAULT
  else
    let ret := write (mTypeCheckerFd c) (std_to_string tgid) in
    if ret =? 1 then PROC_SYSTEM_UI else if ret =? 2 then PROC_CHROME else PROC_DEFAULT.

(** The tag that the constructor of a session computes. *)
Definition session_procTag (write : Z -> list ascii -> Z) (c : TgidTypeChecker) (tgid : Z) : ProcessTag :=
  if checker_isValid c then getProcessTag write c tgid else PROC_DEFAULT.

(** ** Power *)

Record Power := mkPower {
  mInteractionHandler : InteractionHandler;
  mSustainedPerfModeOn : bool;
  mSupportInfo : SupportInfo
}.

#[export] Instance eta_Power : Record_eta Power := fun r =>
  mkPower (mInteractionHandler r) (mSustainedPerfModeOn r) (mSupportInfo r).

(** What the service asks of the hint manager, and the descriptors its handler
    closes. *)
Inductive PwEffect :=
| Pw_DoHint (hint : string)
| Pw_DoHintFor (hint : string) (ms : Z)
| Pw_EndHint (hint : string)
| Pw_close (fd : Z).

(** ** The vendor nodes

    TaskRampupMultNode.cpp: the constructor with the results of [access] and of
    [open] gives the descriptor the manager writes to; the destructors of both
    nodes close what was opened. *)
Definition new_TaskRampupMultNode (access_rc open_rc : Z) : Z := if negb (access_rc =? 0) then -1 else open_rc.

Definition destroy_TaskRampupMultNode (mTaskRampupFd : Z) : list PwEffect := if 0 <=? mTaskRampupFd then [Pw_close mTaskRampupFd] else [].

Definition destroy_TgidTypeChecker (c : TgidTypeChecker) : list PwEffect := if 0 <=? mTypeCheckerFd c then [Pw_close (mTypeCheckerFd c)] else [].

(** A node that could be opened is used and its descriptor closed once; without
    one the manager does not write and nothing is closed. *)
Lemma vendor_nodes_closed (access_rc open_rc : Z) (s : PowerSessionManager) :
  let opened := (access_rc =? 0) && (0 <=? open_rc) in
  mTaskRampupFd s = new_TaskRampupMultNode access_rc open_rc ->
  hasValidTaskRampupMultNode s = opened /\
  destroy_TaskRampupMultNode (mTaskRampupFd s) = (if opened then [Pw_close open_rc] else []) /\
  checker_isValid (new_TgidTypeChecker access_rc open_rc) = opened /\
  destroy_TgidTypeChecker (new_TgidTypeChecker access_rc open_rc) = (if opened then [Pw_close open_rc] else []).
Proof.
  intros opened Hfd. unfold hasValidTaskRampupMultNode, destroy_TaskRampupMultNode, checker_isValid, destroy_TgidTypeChecker. rewrite Hfd.
  subst opened. unfold new_TaskRampupMultNode, new_TgidTypeChecker. cbn. by destruct (access_rc =? 0).
Qed.

Definition of_IhEffect (e : IhEffect) : PwEffect :=
  match e with
  | Ih_DoHint => Pw_DoHint "INTERACTION"
  | Ih_EndHint => Pw_EndHint "INTERACTION"
  | Ih_DoHintFor ms => Pw_DoHintFor "INTERACTION" ms
  | Ih_close fd => Pw_close fd
  end.

(** The service with the components it calls: the session manager (in the
    [World] that the sessions share), the channels, the session objects by
    handle, and the log of hints, newest first. *)
Record Service (W : Type) := mkService {
  sv_power : Power;
  sv_world : World (PowerSessionManager * W);
  sv_channels : ChannelManager;
  sv_sessions : gmap Z PowerHintSession;
  sSessionIDCounter : Z;
  sv_log : list PwEffect
}.
Arguments mkService {W} _ _ _ _ _ _.
Arguments sv_power {W} _.
Arguments sv_world {W} _.
Arguments sv_channels {W} _.
Arguments sv_sessions {W} _.
Arguments sSessionIDCounter {W} _.
Arguments sv_log {W} _.

#[export] Instance eta_Service (W : Type) : Record_eta (Service W) := fun r =>
  mkService (sv_power r) (sv_world r) (sv_channels r) (sv_sessions r) (sSessionIDCounter r) (sv_log r).

(** PowerModeExtension.cpp: a device may handle modes of its own; this one has
    none. *)
Definition isDeviceSpecificModeSupported (type : Mode) (ret : bool) : bool * bool := (false, ret).
Definition setDeviceSpecificMode (type : Mode) (enabled : bool) : bool := false.

Section power.
Context {W : Type} `{FdInterface W} (hm : HintManagerInfo) (env : Env) (c : IhConfig).
Implicit Types (sv : Service W).

Definition pw_emit (e : PwEffect) sv : Service W := sv <| sv_log ::= cons e |>.

Definition on_psm (f : PowerSessionManager -> PowerSessionManager) sv : Service W :=
  sv <| sv_world ::= fun w => w <| w_mgr ::= prod_map f id |> |>.

(** The constructor: the handler is initialised, three properties restore the
    hints of a service that was restarted, and the support words are computed. *)
Definition new_Power (info : SupportInfo) (open : string -> Z) (evfd : Z) (prop_state prop_audio prop_rendering : string)
    : Power * list PwEffect :=
  let '(_, h, _, e) := Init open evfd new_InteractionHandler in
  let on := String.eqb prop_state "SUSTAINED_PERFORMANCE" in
  (mkPower h on info,
   (if String.eqb prop_rendering "EXPENSIVE_RENDERING" then [Pw_DoHint "EXPENSIVE_RENDERING"] else []) ++
   (if String.eqb prop_audio "AUDIO_STREAMING_LOW_LATENCY" then [Pw_DoHint prop_audio] else []) ++
   (if on then [Pw_DoHint "SUSTAINED_PERFORMANCE"] else []) ++ (of_IhEffect <$> e)).

(** The [default] branch of [setMode]. *)
Definition hint_for_mode (type : Mode) (enabled : bool) sv : Service W :=
  if enabled then pw_emit (Pw_DoHint (Mode_toString type)) sv else pw_emit (Pw_EndHint (Mode_toString type)) sv.

Definition pw_setMode (type : Mode) (enabled : bool) sv : Status * Service W :=
  let sv := if IsAdpfSupported hm then on_psm (updateHintMode env (Mode_toString type) enabled) sv else sv in
  if setDeviceSpecificMode type enabled then (STATUS_OK, sv)
  else
    let on := mSustainedPerfModeOn (sv_power sv) in
    let sv :=
      match type with
      | M_SUSTAINED_PERFORMANCE =>
          if enabled && negb on then
            pw_emit (Pw_DoHint "SUSTAINED_PERFORMANCE") sv
              <| sv_power ::= fun p => p <| mSustainedPerfModeOn := true |> |>
          else if negb enabled && on then
            pw_emit (Pw_EndHint "SUSTAINED_PERFORMANCE") sv
              <| sv_power ::= fun p => p <| mSustainedPerfModeOn := false |> |>
          else sv
      | M_LAUNCH => if on then sv else hint_for_mode type enabled sv
      | _ => hint_for_mode type enabled sv
      end in
    (STATUS_OK, sv).

Definition pw_isModeSupported `{AidlEnum Mode} (type : Mode) (ret : bool) sv : Status * bool :=
  let '(b, ret) := isDeviceSpecificModeSupported type ret in
  if b then (STATUS_OK, ret)
  else (STATUS_OK, supportFromBitset (modes (mSupportInfo (sv_power sv))) (enum_int type)).

Definition pw_isBoostSupported `{AidlEnum Boost} (type : Boost) sv : Status * bool :=
  (STATUS_OK, supportFromBitset (boosts (mSupportInfo (sv_power sv))) (enum_int type)).

(** The [default] branch of [setBoost], also the whole of [PowerExt::setBoost]. *)
Definition hint_for_boost (name : string) (durationMs : Z) sv : Service W :=
  if 0 <? durationMs then pw_emit (Pw_DoHintFor name durationMs) sv
  else if durationMs =? 0 then pw_emit (Pw_DoHint name) sv
  else pw_emit (Pw_EndHint name) sv.

Definition pw_setBoost (type : Boost) (durationMs : Z) (now : timespec) sv : Status * Service W :=
  let on := mSustainedPerfModeOn (sv_power sv) in
  let sv :=
    match type with
    | B_INTERACTION =>
        if on then sv
        else let '(h, e) := Acquire c durationMs now (mInteractionHandler (sv_power sv)) in
             sv <| sv_power ::= fun p => p <| mInteractionHandler := h |> |> <| sv_log ::= app (of_IhEffect <$> e) |>
    | _ => if on then sv else hint_for_boost (Boost_toString type) durationMs sv
    end in
  (STATUS_OK, sv).

Definition getCpuHeadroom : Status := EX_UNSUPPORTED_OPERATION.
Definition getGpuHeadroom : Status := EX_UNSUPPORTED_OPERATION.

(** [*outNanoseconds] and the status. *)
Definition getHintSessionPreferredRate : Status * Z :=
  let out := if IsAdpfSupported hm then hmi_reportingRateLimitNs hm else 0 in
  (if out <=? 0 then EX_UNSUPPORTED_OPERATION else STATUS_OK, out).

(** [createHintSessionWithConfig]: the new session's handle and its id in the
    configuration, [None] for [nullptr]. *)
Definition createHintSessionWithConfig (write : Z -> list ascii -> Z) (checker : TgidTypeChecker)
    (enableMetricCollection : option bool) (tgid uid : Z) (threadIds : list Z) (durationNs : Z) (tag : SessionTag) sv
    : Status * option Z * Service W :=
  if negb (IsAdpfSupported hm) then (EX_UNSUPPORTED_OPERATION, None, sv)
  else if Z.of_nat (length threadIds) =? 0 then (EX_ILLEGAL_ARGUMENT, None, sv)
  else
    let sid := sSessionIDCounter sv +₆₄ 1 in
    let '(h, w) := new_PowerHintSession (H := psm_manager env) (hmi hm) sid (session_procTag write checker tgid) enableMetricCollection
                     tgid uid threadIds durationNs tag (sv_world sv) in
    let config_id := getSessionConfig h in
    let sv := sv <| sv_world := w |> <| sSessionIDCounter := sid |> <| sv_sessions ::= <[sid := h]> |> in
    (STATUS_OK, Some config_id, on_psm (registerSession sid config_id) sv).

Definition createHintSession (write : Z -> list ascii -> Z) (checker : TgidTypeChecker)
    (enableMetricCollection : option bool) (tgid uid : Z) (threadIds : list Z) (durationNs : Z) sv
    : Status * option Z * Service W :=
  createHintSessionWithConfig write checker enableMetricCollection tgid uid threadIds durationNs TAG_OTHER sv.

(** The outer option is [None] when the channel manager fails an assertion. *)
Definition getSessionChannel (tgid uid : Z) sv : option (Status * option ChannelConfig * Service W) :=
  '(r, m) ← getChannelConfig tgid uid (sv_channels sv);
  let sv := sv <| sv_channels := m |> in
  Some (match r with Some cfg => (STATUS_OK, Some cfg, sv) | None => (EX_ILLEGAL_STATE, None, sv) end).

Definition closeSessionChannel (tgid uid : Z) sv : Status * Service W :=
  (STATUS_OK, sv <| sv_channels := (closeChannel tgid uid (sv_channels sv)).2 |>).

Definition getSupportInfo sv : Status * SupportInfo := (STATUS_OK, mSupportInfo (sv_power sv)).

(** *** PowerExt: the same for hints given by name *)

Definition ext_setMode (mode : string) (enabled : bool) sv : Status * Service W :=
  let sv := if enabled then pw_emit (Pw_DoHint mode) sv else pw_emit (Pw_EndHint mode) sv in
  (STATUS_OK, if IsAdpfSupported hm then on_psm (updateHintMode env mode enabled) sv else sv).

Definition ext_isSupported (name : string) : Status * bool :=
  let supported := IsHintSupported (hmi hm) name in
  (STATUS_OK, if negb supported && IsAdpfProfileSupported hm name then true else supported).

Definition ext_setBoost (boost : string) (durationMs : Z) sv : Status * Service W :=
  (STATUS_OK, hint_for_boost boost durationMs sv).

End power.

(** ** The support words *)

Lemma bit_assign_testbit (bits i j : Z) (b : bool) :
  0 <= i -> 0 <= j -> Z.testbit (bit_assign bits i b) j = if i =? j then b else Z.testbit bits j.
Proof.
  intros Hi Hj. unfold bit_assign. destruct b.
  - rewrite Z.setbit_eqb by lia. by destruct (i =? j).
  - rewrite Z.clearbit_eqb. destruct (i =? j); simpl; [apply andb_false_r | apply andb_true_r].
Qed.

(** The conversion to [int64_t] keeps the low 63 bits. *)
Lemma i64_testbit (z i : Z) : 0 <= i < 63 -> Z.testbit (i64 z) i = Z.testbit z i.
Proof.
  intros Hi. rewrite <- (Z.mod_pow2_bits_low (i64 z) 63 i), <- (Z.mod_pow2_bits_low z 63 i) by lia. f_equal.
  unfold i64, wrap_s. change (2 ^ (64 - 1)) with (2 ^ 63).
  change (2 ^ 64) with 18446744073709551616. change (2 ^ 63) with 9223372036854775808.
  Z.div_mod_to_equations. lia.
Qed.

Lemma support_bits_fold {E} `{AidlEnum E} (supported : E -> bool) (l : list E) (bits : Z) (e : E) :
  e ∈ enum_range -> (forall x, x ∈ l -> x ∈ enum_range) ->
  e ∈ l \/ Z.testbit bits (enum_int e) = supported e ->
  Z.testbit (foldl (fun bits e => bit_assign bits (enum_int e) (supported e)) bits l) (enum_int e) = supported e.
Proof.
  intros He. revert bits. induction l as [| x l IH]; intros bits Hl Hin; simpl.
  { destruct Hin as [Hin | Hin]; [by apply not_elem_of_nil in Hin | done]. }
  assert (x ∈ enum_range) as Hx by (apply Hl; by constructor).
  apply IH; [intros y Hy; apply Hl; by constructor |].
  pose proof (enum_int_bound e He). pose proof (enum_int_bound x Hx).
  rewrite bit_assign_testbit by lia. destruct (Z.eqb_spec (enum_int x) (enum_int e)) as [E1 | E1].
  - right. by rewrite (enum_int_inj x e Hx He E1).
  - destruct Hin as [Hin | Hin]; [| by right]. apply elem_of_cons in Hin as [-> | Hin]; [done | by left].
Qed.

(** Reading the word back gives the predicate it was built from. *)
Lemma support_bits_roundtrip {E} `{AidlEnum E} (supported : E -> bool) (e : E) :
  e ∈ enum_range -> supportFromBitset (support_bits supported) (enum_int e) = supported e.
Proof.
  intros He. pose proof (enum_int_bound e He). rewrite supportFromBitset_testbit by lia.
  unfold support_bits. rewrite i64_testbit by lia. apply support_bits_fold; auto.
Qed.

(** ** The log of hints *)

(** As [hint_state], for one hint by name. *)
Fixpoint named_hint_state (name : string) (log : list PwEffect) : option bool :=
  match log with
  | [] => Some false
  | Pw_DoHint s :: l =>
      if String.eqb s name then match named_hint_state name l with Some false => Some true | _ => None end
      else named_hint_state name l
  | Pw_EndHint s :: l =>
      if String.eqb s name then match named_hint_state name l with Some true => Some false | _ => None end
      else named_hint_state name l
  | _ :: l => named_hint_state name l
  end.

Definition sustained (log : list PwEffect) : option bool := named_hint_state "SUSTAINED_PERFORMANCE" log.

Lemma string_of_list_ascii_length (l : list ascii) : String.length (String.string_of_list_ascii l) = length l.
Proof. induction l as [| a l IH]; simpl; [done | by rewrite IH]. Qed.

(** A number is not the name of the hint. *)
Lemma number_not_sustained (n : Z) :
  String.eqb (String.string_of_list_ascii (std_to_string n)) "SUSTAINED_PERFORMANCE" = false.
Proof.
  apply String.eqb_neq. intros E. apply (f_equal String.length) in E.
  rewrite string_of_list_ascii_length in E. pose proof (std_to_string_length n). simpl in E. lia.
Qed.

Lemma Mode_not_sustained (m : Mode) :
  m <> M_SUSTAINED_PERFORMANCE -> String.eqb (Mode_toString m) "SUSTAINED_PERFORMANCE" = false.
Proof. intros Hm. destruct m; try done. apply number_not_sustained. Qed.

Lemma Boost_not_sustained (b : Boost) : String.eqb (Boost_toString b) "SUSTAINED_PERFORMANCE" = false.
Proof. destruct b; try done. apply number_not_sustained. Qed.

Lemma sustained_ih (e : list IhEffect) (log : list PwEffect) : sustained ((of_IhEffect <$> e) ++ log) = sustained log.
Proof. induction e as [| x e IH]; simpl; [done |]. destruct x; simpl; apply IH. Qed.

(** ** Sequences of calls *)

(** Calls of both interfaces, [IPower] and the extension. *)
Inductive PwOp :=
| Pw_setMode (type : Mode) (enabled : bool)
| Pw_setBoost (type : Boost) (durationMs : Z) (now : timespec)
| Pw_ext_setMode (mode : string) (enabled : bool)
| Pw_ext_setBoost (boost : string) (durationMs : Z).

(** A call of the extension that names the hint; [Power] has no such boost. *)
Definition names_sustained (o : PwOp) : bool :=
  match o with
  | Pw_ext_setMode name _ | Pw_ext_setBoost name _ => String.eqb name "SUSTAINED_PERFORMANCE"
  | _ => false
  end.

Section runs.
Context {W : Type} (hm : HintManagerInfo) (env : Env) (c : IhConfig).
Implicit Types (sv : Service W).

Definition pw_op sv (o : PwOp) : Service W :=
  match o with
  | Pw_setMode type enabled => (pw_setMode hm env type enabled sv).2
  | Pw_setBoost type d now => (pw_setBoost c type d now sv).2
  | Pw_ext_setMode mode enabled => (ext_setMode hm env mode enabled sv).2
  | Pw_ext_setBoost boost d => (ext_setBoost boost d sv).2
  end.

Definition pw_run (ops : list PwOp) sv : Service W := foldl pw_op sv ops.

(** The sustained-performance hint is on exactly when the flag says so. *)
Definition sustained_ok sv : Prop := sustained (sv_log sv) = Some (mSustainedPerfModeOn (sv_power sv)).

Lemma on_psm_if_log (b : bool) f sv :
  sv_log (if b then on_psm f sv else sv) = sv_log sv /\ sv_power (if b then on_psm f sv else sv) = sv_power sv.
Proof. by destruct b. Qed.

Lemma hint_for_mode_ok type enabled sv :
  type <> M_SUSTAINED_PERFORMANCE -> sustained_ok sv -> sustained_ok (hint_for_mode type enabled sv).
Proof.
  intros Ht Hs. unfold sustained_ok, hint_for_mode in *. pose proof (Mode_not_sustained type Ht) as E.
  unfold sustained in *. destruct enabled; simpl; by rewrite E.
Qed.

Lemma setMode_ok type enabled sv : sustained_ok sv -> sustained_ok (pw_setMode hm env type enabled sv).2.
Proof.
  intros Hs. unfold pw_setMode. cbn [setDeviceSpecificMode].
  destruct (on_psm_if_log (IsAdpfSupported hm) (updateHintMode env (Mode_toString type) enabled) sv) as [El Ep].
  set (sv1 := if IsAdpfSupported hm then _ else sv) in *.
  assert (sustained_ok sv1) as Hs1 by (unfold sustained_ok; by rewrite El, Ep). clearbody sv1. clear El Ep Hs.
  assert (type <> M_SUSTAINED_PERFORMANCE -> sustained_ok (hint_for_mode type enabled sv1)) as Hd
    by (intros; by apply hint_for_mode_ok).
  destruct type; simpl; try (by apply Hd).
  - unfold sustained_ok in *. destruct enabled, (mSustainedPerfModeOn (sv_power sv1)) eqn:Eon; simpl; rewrite ?Eon; try done.
    + unfold sustained in *. simpl. by rewrite Hs1.
    + unfold sustained in *. simpl. by rewrite Hs1.
  - destruct (mSustainedPerfModeOn _); [done | by apply Hd].
Qed.

Lemma hint_for_boost_ok name d sv : String.eqb name "SUSTAINED_PERFORMANCE" = false -> sustained_ok sv -> sustained_ok (hint_for_boost name d sv).
Proof.
  intros E Hs. unfold sustained_ok, hint_for_boost, sustained in *.
  destruct (0 <? d); [done |]. destruct (d =? 0); simpl; by rewrite E.
Qed.

Lemma setBoost_ok type d now sv : sustained_ok sv -> sustained_ok (pw_setBoost c type d now sv).2.
Proof.
  intros Hs. unfold pw_setBoost. destruct (mSustainedPerfModeOn (sv_power sv)) eqn:Eon.
  - by destruct type.
  - destruct (decide (type = B_INTERACTION)) as [-> | Ht].
    + destruct (Acquire c d now _) as [h e]. unfold sustained_ok in *. simpl. by rewrite sustained_ih, Hs, Eon.
    + pose proof (hint_for_boost_ok _ d sv (Boost_not_sustained type) Hs) as Hb. by destruct type.
Qed.

Lemma ext_setMode_ok mode enabled sv :
  String.eqb mode "SUSTAINED_PERFORMANCE" = false -> sustained_ok sv -> sustained_ok (ext_setMode hm env mode enabled sv).2.
Proof.
  intros E Hs. unfold ext_setMode. cbn [snd]. set (sv1 := if enabled then _ else _).
  destruct (on_psm_if_log (IsAdpfSupported hm) (updateHintMode env mode enabled) sv1) as [El Ep].
  unfold sustained_ok. rewrite El, Ep. subst sv1. unfold sustained_ok, sustained in *. by destruct enabled; cbn; rewrite E.
Qed.

Lemma pw_run_ok ops sv : Forall (fun o => names_sustained o = false) ops -> sustained_ok sv -> sustained_ok (pw_run ops sv).
Proof.
  intros Hops. revert sv. induction Hops as [| o ops Ho Hops IH]; intros sv Hs; [done |]. apply IH.
  destruct o; cbn in Ho; [by apply setMode_ok | by apply setBoost_ok | by apply ext_setMode_ok | by apply hint_for_boost_ok].
Qed.

End runs.

Lemma new_Power_ok info open evfd st au re :
  sustained (new_Power info open evfd st au re).2 =
    Some (mSustainedPerfModeOn (new_Power info open evfd st au re).1).
Proof.
  unfold new_Power. destruct (Init open evfd new_InteractionHandler) as [[[b h] started] e]. simpl.
  assert (forall l, sustained ((if String.eqb re "EXPENSIVE_RENDERING" then [Pw_DoHint "EXPENSIVE_RENDERING"] else []) ++ l)
            = sustained l) as -> by (intros l; by destruct (String.eqb re _)).
  assert (forall l, sustained ((if String.eqb au "AUDIO_STREAMING_LOW_LATENCY" then [Pw_DoHint au] else []) ++ l)
            = sustained l) as ->.
  { intros l. destruct (String.eqb_spec au "AUDIO_STREAMING_LOW_LATENCY") as [-> |]; done. }
  destruct (String.eqb st _); simpl; pose proof (sustained_ih e []) as Hs; rewrite app_nil_r in Hs.
  - unfold sustained in *. simpl. by rewrite Hs.
  - by rewrite Hs.
Qed.

(** ** Properties *)

Definition example_modes : AidlEnum Mode.
Proof.
  refine {| enum_range := [M_LOW_POWER; M_LAUNCH; M_GAME];
            enum_int m := match m with M_LOW_POWER => 1 | M_LAUNCH => 5 | M_GAME => 15 | M_raw n => n | _ => 0 end |}.
  - intros a b Ha Hb. set_unfold. destruct_or?; by subst.
  - intros a Ha. set_unfold. destruct_or?; subst; lia.
Defined.

Definition example_boosts : AidlEnum Boost.
Proof.
  refine {| enum_range := [B_INTERACTION; B_ML_ACC];
            enum_int b := match b with B_INTERACTION => 0 | B_ML_ACC => 2 | B_raw n => n | _ => 5 end |}.
  - intros a b Ha Hb. set_unfold. destruct_or?; by subst.
  - intros a Ha. set_unfold. destruct_or?; subst; lia.
Defined.

Definition example_hints : AidlEnum SessionHint.
Proof.
  refine {| enum_range := [HINT_CPU_LOAD_UP; HINT_POWER_EFFICIENCY];
            enum_int h := match h with HINT_CPU_LOAD_UP => 0 | HINT_POWER_EFFICIENCY => 4 | HINT_raw n => n | _ => 9 end |}.
  - intros a b Ha Hb. set_unfold. destruct_or?; by subst.
  - intros a Ha. set_unfold. destruct_or?; subst; lia.
Defined.

Definition example_session_modes : AidlEnum SessionMode.
Proof.
  refine {| enum_range := [MODE_AUTO_CPU; MODE_AUDIO_PERFORMANCE];
            enum_int m := match m with MODE_AUTO_CPU => 2 | MODE_AUDIO_PERFORMANCE => 4 | MODE_raw n => n | _ => 7 end |}.
  - intros a b Ha Hb. set_unfold. destruct_or?; by subst.
  - intros a Ha. set_unfold. destruct_or?; subst; lia.
Defined.

Definition example_tags : AidlEnum SessionTag.
Proof.
  refine {| enum_range := [TAG_OTHER; TAG_SYSUI];
            enum_int t := match t with TAG_OTHER => 0 | TAG_SYSUI => 5 | _ => 9 end |}.
  - intros a b Ha Hb. set_unfold. destruct_or?; by subst.
  - intros a Ha. set_unfold. destruct_or?; subst; lia.
Defined.

Definition example_hmi : HintManagerInfo := mkHintManagerInfo example_hm true (fun s => String.eqb s "GAME") 16000000.
Definition example_info : SupportInfo := mkSupportInfo false 0 0 0 0 0 (mkCompositionData false false 0 false) (mkHeadroom false false 0 0).

(** The support words encode exactly the predicates they are computed
    from: what the service answers for a mode or a boost is what
    [SupportManager] decided for it, and the same holds for the session hints,
    session modes and session tags when sessions are supported; otherwise the
    session words keep their defaults. *)
Theorem support_info_roundtrip
    `{AidlEnum Mode, AidlEnum Boost, AidlEnum SessionHint, AidlEnum SessionMode, AidlEnum SessionTag}
    {W : Type} (hm : HintManagerInfo) (version : Z) (out : SupportInfo) (sv : Service W)
    (Hsv : mSupportInfo (sv_power sv) = makeSupportInfo out version hm) :
  let info := (getSupportInfo sv).2 in
  (forall t b, t ∈ enum_range -> pw_isModeSupported t b sv = (STATUS_OK, modeSupported version hm t)) /\
  (forall t, t ∈ enum_range -> pw_isBoostSupported t sv = (STATUS_OK, boostSupported version hm t)) /\
  usesSessions info = IsAdpfSupported hm /\
  (if IsAdpfSupported hm then
     (forall t, t ∈ enum_range -> supportFromBitset (sessionHints info) (enum_int t) = sessionHintSupported version t) /\
     (forall t, t ∈ enum_range -> supportFromBitset (sessionModes info) (enum_int t) = sessionModeSupported version t) /\
     (forall t, t ∈ enum_range -> supportFromBitset (sessionTags info) (enum_int t) = sessionTagSupported version t)
   else sessionHints info = sessionHints out /\ sessionModes info = sessionModes out /\ sessionTags info = sessionTags out).
Proof.
  cbn zeta. unfold getSupportInfo, pw_isModeSupported, pw_isBoostSupported. cbn [snd isDeviceSpecificModeSupported].
  rewrite Hsv. unfold makeSupportInfo. cbn [usesSessions].
  destruct (IsAdpfSupported hm) eqn:Ea; simpl; split_and!;
    try done; intros; try f_equal; by apply support_bits_roundtrip.
Qed.

Definition example_service : Service (list ascii) :=
  mkService
    (new_Power (@makeSupportInfo example_modes example_boosts example_hints example_session_modes example_tags
                  example_info 6 example_hmi) example_open 8 "" "" "").1
    example_real_world new_ChannelManager ∅ 6 [].

Lemma support_info_roundtrip_witness :
  @pw_isModeSupported (list ascii) example_modes M_GAME false example_service = (STATUS_OK, true) /\
  modeSupported 6 example_hmi M_GAME = true.
Proof.
  split; [| vm_compute; reflexivity].
  exact (proj1 (@support_info_roundtrip example_modes example_boosts example_hints example_session_modes example_tags
    (list ascii) example_hmi 6 example_info example_service eq_refl) M_GAME false
    ltac:(simpl; set_solver)).
Defined.

(** C39. Sustained performance mode: from the construction of the service on,
    whatever modes and boosts are set one after the other, through the power
    interface and through the extension, the SUSTAINED_PERFORMANCE hint is
    switched on and off alternately and is on exactly when the flag is set, as
    long as no call of the extension names this hint itself.  While the flag is
    set, no boost of the power interface changes anything, and a launch mode
    asks the hint manager for no hint: all that it leaves behind is the profile
    that the session manager sets from the name of an enabled mode, where the
    configuration asks for that.  The extension knows nothing of the flag, see
    [extension_ignores_sustained]. *)
Theorem sustained_performance_protocol {W : Type} (hm : HintManagerInfo) (env : Env) (c : IhConfig) (ops : list PwOp)
    (info : SupportInfo) (open : string -> Z) (evfd : Z) (st au re : string)
    (w : World (PowerSessionManager * W)) (cm : ChannelManager) (ss : gmap Z PowerHintSession) (n : Z)
    (Hext : Forall (fun o => names_sustained o = false) ops) :
  let p := new_Power info open evfd st au re in
  let sv := pw_run hm env c ops (mkService p.1 w cm ss n p.2) in
  let on := mSustainedPerfModeOn (sv_power sv) in
  sustained (sv_log sv) = Some on /\
  (on = true -> forall type d now, (pw_setBoost c type d now sv).2 = sv) /\
  (on = true -> forall b,
     let sv' := (pw_setMode hm env M_LAUNCH b sv).2 in
     sv_log sv' = sv_log sv /\ sv_power sv' = sv_power sv /\
     effects (w_mgr (sv_world sv')).1 =
       (if IsAdpfSupported hm && b && GetAdpfProfileFromDoHint env then [Eff_SetAdpfProfileFromDoHint "LAUNCH"] else []) ++
       effects (w_mgr (sv_world sv)).1).
Proof.
  intros p sv on. split_and!.
  - apply pw_run_ok; [done |]. apply new_Power_ok.
  - intros Hon type d now. unfold pw_setBoost. fold on. rewrite Hon. by destruct type.
  - intros Hon b. unfold pw_setMode. cbn [setDeviceSpecificMode].
    destruct (on_psm_if_log (IsAdpfSupported hm) (updateHintMode env (Mode_toString M_LAUNCH) b) sv) as [El Ep].
    set (sv1 := if IsAdpfSupported hm then _ else sv) in *. rewrite Ep. fold on. rewrite Hon. cbn [snd]. cbv zeta. split_and!; [done | done |].
    subst sv1. destruct (IsAdpfSupported hm); [| done]. unfold on_psm, updateHintMode. cbn.
    destruct (w_mgr (sv_world sv)) as [mgr w']. cbn. by destruct b, (GetAdpfProfileFromDoHint env).
Qed.

(** The extension ignores the flag: while sustained performance is on, its
    boosts and modes still reach the hint manager, and it can end the hint
    without clearing the flag. *)
Theorem extension_ignores_sustained {W : Type} (hm : HintManagerInfo) (env : Env) (sv : Service W) :
  mSustainedPerfModeOn (sv_power sv) = true -> sustained_ok sv ->
  sv_log (ext_setBoost "LAUNCH" 0 sv).2 = Pw_DoHint "LAUNCH" :: sv_log sv /\
  let sv' := (ext_setMode hm env "SUSTAINED_PERFORMANCE" false sv).2 in
  sustained (sv_log sv') = Some false /\ mSustainedPerfModeOn (sv_power sv') = true.
Proof.
  intros Hon Hs. split; [done |]. cbv zeta. unfold ext_setMode. cbn [snd].
  destruct (on_psm_if_log (IsAdpfSupported hm) (updateHintMode env "SUSTAINED_PERFORMANCE" false) (pw_emit (Pw_EndHint "SUSTAINED_PERFORMANCE") sv)) as [-> ->].
  split; [| done]. unfold sustained_ok, sustained in *. cbn. by rewrite Hs, Hon.
Qed.

Definition example_ops : list PwOp :=
  [Pw_setMode M_SUSTAINED_PERFORMANCE true; Pw_setMode M_SUSTAINED_PERFORMANCE true;
   Pw_setBoost B_INTERACTION 100 (mkTimespec 1 0); Pw_ext_setMode "CAMERA" true].

Lemma sustained_performance_protocol_witness :
  sustained (sv_log (pw_run example_hmi example_env default_IhConfig example_ops example_service)) = Some true /\
  (pw_setBoost default_IhConfig B_ML_ACC 50 (mkTimespec 2 0)
     (pw_run example_hmi example_env default_IhConfig example_ops example_service)).2 =
   pw_run example_hmi example_env default_IhConfig example_ops example_service.
Proof.
  pose proof (sustained_performance_protocol example_hmi example_env default_IhConfig example_ops
    (mSupportInfo (sv_power example_service)) example_open 8 "" "" "" example_real_world new_ChannelManager ∅ 6
    ltac:(by repeat constructor)) as (A & B & _).
  split; [exact A | exact (B eq_refl B_ML_ACC 50 (mkTimespec 2 0))].
Defined.

Lemma prod_map_fst {A B C D : Type} (f : A -> C) (g : B -> D) (x : A * B) : (prod_map f g x).1 = f x.1.
Proof. by destruct x. Qed.

(** A new session is known to the manager. *)
Lemma addPowerSession_find (env : Env) (ids : string) (d : AppHintDesc) (b : bool) (tids : list Z) (t sys n1 n2 : Z)
    (s : PowerSessionManager) :
  stm_wf (mSessionTaskMap s) ->
  is_Some (psm_findSession (addPowerSession env ids (Some d) b tids t sys n1 n2 s) (d_sessionId d)).
Proof.
  intros Hwf. unfold addPowerSession. set (s1 := s <| mSessionTaskMap ::= _ |>).
  assert (stm_wf (mSessionTaskMap s1)) as Hwf1 by (apply stm_add_wf; [simpl; auto with inv | done]).
  assert (is_Some (psm_findSession s1 (d_sessionId d))) as Hs1.
  { unfold psm_findSession, stm_findSession. simpl.
    destruct (mSessions (mSessionTaskMap s) !! d_sessionId d) as [e |] eqn:E.
    - unfold stm_add. rewrite E. simpl. rewrite E. by eexists.
    - rewrite stm_add_lookup, decide_True by done. by eexists. }
  destruct (setThreads_spec env s1 (d_sessionId d) tids n1 n2 Hwf1 Hs1) as [(v & Hv & _) _].
  unfold session_value in Hv. apply fmap_Some in Hv as (e & He & _).
  unfold psm_findSession, stm_findSession. rewrite He. by eexists.
Qed.

(** What the constructor of a session does to the manager. *)
Lemma new_session_manager {W : Type} `{FdInterface W} (hm : HintManager) (env : Env) (sid : Z) (pt : ProcessTag)
    (emc : option bool) (tgid uid : Z) (tids : list Z) (dur : Z) (tag : SessionTag) (w : World (PowerSessionManager * W)) :
  psm_inv true (w_mgr w).1 ->
  let r := new_PowerHintSession (H := psm_manager env) hm sid pt emc tgid uid tids dur tag w in
  psm_inv true (w_mgr r.2).1 /\ is_Some (psm_findSession (w_mgr r.2).1 sid) /\
  thread_ids (mDescriptor r.1) = tids /\ mSessionId r.1 = sid /\ mSessionClosed r.1 = false.
Proof.
  intros Hw r. pose proof (pi_wf _ _ Hw) as Hwf.
  split_and!; [| | reflexivity | reflexivity | reflexivity].
  - subst r. unfold new_PowerHintSession, vote_cpu_now, steady_now, call. cbn -[voteSet_cpu addPowerSession psm_findSession].
    apply voteSet_cpu_inv, voteSet_cpu_inv.
    apply quiet_addPowerSession. exact Hw.
  - subst r. unfold new_PowerHintSession, vote_cpu_now, steady_now, call. cbn -[voteSet_cpu addPowerSession psm_findSession].
    rewrite !prod_map_fst, !voteSet_cpu_find. apply (addPowerSession_find env _ (new_AppHintDesc sid tgid uid tids tag pt dur)). exact Hwf.
Qed.

(** Creating a hint session: unsupported or without threads it returns the
    documented error and changes nothing; otherwise it returns the next id, the
    session exists at the manager and is registered there under that id, its
    object holds the requested threads and is open.  In every case the
    manager's invariant is kept. *)
Theorem createHintSession_functional {W : Type} `{FdInterface W} (hm : HintManagerInfo) (env : Env)
    (write : Z -> list ascii -> Z) (checker : TgidTypeChecker) (emc : option bool) (tgid uid : Z) (tids : list Z)
    (dur : Z) (tag : SessionTag) (sv : Service W) (Hinv : psm_inv true (w_mgr (sv_world sv)).1) :
  let '(st, id, sv') := createHintSessionWithConfig hm env write checker emc tgid uid tids dur tag sv in
  let mgr := (w_mgr (sv_world sv')).1 in
  let sid := i64 (sSessionIDCounter sv + 1) in
  psm_inv true mgr /\
  st = (if negb (IsAdpfSupported hm) then EX_UNSUPPORTED_OPERATION
        else if decide (tids = []) then EX_ILLEGAL_ARGUMENT else STATUS_OK) /\
  (st <> STATUS_OK -> id = None /\ sv' = sv) /\
  (st = STATUS_OK ->
     id = Some sid /\ is_Some (psm_findSession mgr sid) /\ mSessionMap mgr !! i32 sid = Some sid /\
     exists h, sv_sessions sv' !! sid = Some h /\ thread_ids (mDescriptor h) = tids /\ mSessionId h = sid /\
       mSessionClosed h = false).
Proof.
  unfold createHintSessionWithConfig. destruct (IsAdpfSupported hm); cbn [negb]; [| by split_and!].
  destruct (Z.eqb_spec (Z.of_nat (length tids)) 0) as [E | E].
  { destruct tids; [| simpl in E; lia]. simpl. by split_and!. }
  destruct (decide (tids = [])) as [-> | _]; [done |].
  pose proof (new_session_manager (hmi hm) env (i64 (sSessionIDCounter sv + 1)) (session_procTag write checker tgid) emc
    tgid uid tids dur tag (sv_world sv) Hinv) as (A & B & C & D & F).
  destruct (new_PowerHintSession _ _ _ _ _ _ _ _ _ _) as [h [[mgr w0] clk hints]].
  cbn [fst snd w_mgr] in A, B, C, D, F. cbn beta iota zeta. unfold getSessionConfig. rewrite D.
  split_and!.
  - destruct A. by constructor.
  - done.
  - done.
  - intros _. split_and!; [done | exact B | apply lookup_insert_eq |].
    exists h. split; [apply lookup_insert_eq | done].
Qed.

Lemma createHintSession_functional_witness :
  exists id sv', createHintSessionWithConfig example_hmi example_env (fun _ _ => 2) (new_TgidTypeChecker 0 9) (Some true)
      1000 10100 [200; 201] 16666666 TAG_APP example_service = (STATUS_OK, Some id, sv') /\
    is_Some (psm_findSession (w_mgr (sv_world sv')).1 id).
Proof.
  pose proof (createHintSession_functional example_hmi example_env (fun _ _ => 2) (new_TgidTypeChecker 0 9) (Some true)
      1000 10100 [200; 201] 16666666 TAG_APP example_service example_state_inv) as Hf.
  destruct (createHintSessionWithConfig _ _ _ _ _ _ _ _ _ _ _) as [[st id] sv'].
  destruct Hf as (_ & Hst & _ & Hok). assert (st = STATUS_OK) as E by exact Hst.
  destruct (Hok E) as (Hid & Hfind & _). eexists _, sv'. rewrite E, Hid. split; [reflexivity | exact Hfind].
Defined.
