(* ===== verification/PowerSystem.v ===== *)
(** * The power HAL as one system
      (src/power-libperfmgr/aidl/Power.cpp, PowerHintSession.cpp,
       PowerSessionManager.cpp, ChannelGroup.cpp, ChannelManager.cpp)

    The components of the other files share one process: binder threads call
    the service and the sessions, every channel group has a thread that reads
    messages and calls the sessions they name, the thread pool of the session
    manager fires timeouts, the interaction handler has its own thread, clients
    drop their session objects, the hint manager changes profiles.  Here all of
    that is one transition system; a run is a list of steps in any order.

    The granularity is a call of the service or of a session, one round of a
    group's loop over its messages, one turn of a pool's thread, each
    executed as a whole.  Calls that overlap inside the manager are the subject
    of [PowerThreads.v], which also shows what two overlapping [schedule] calls
    can lose.  The mutex of a channel group is not modelled; the schedules it excludes are
    included here.

    Shown here: a group's thread taken step by step makes exactly the calls of
    [runChannelGroup_wake]; in every run the manager goes through states that
    its own operations reach, no fatal assertion is hit, all timeouts stay
    queued and, once due, fire; and the manager knows exactly the sessions whose
    objects are open, each under its own id. *)

From Stdlib Require Import Ascii.
From S2P Require Import Prelude Text CFloat AdpfTypes UClampVoter SessionMetrics SessionRecords SessionTaskMap BackgroundWorker GpuNode PowerSessionManager PowerThreads PowerHintSession Channels InteractionHandler PowerService.

(** ** The thread of a channel group, step by step *)

(** What [runChannelGroup] is in the middle of: the channels of the flag it has
    not visited yet, and the messages read from the current one. *)
Record GroupThread := mkGroupThread { th_channels : list Z; th_messages : list ChannelMessage }.

Definition idle_thread : GroupThread := mkGroupThread [] [].

(** One round of the loop over the messages: the call it makes, and the
    messages left.  [alive] is the answer of [getSession] for the first. *)
Definition deliver_round (alive : bool) (msgs : list ChannelMessage) : option (Z * PhsOp) * list ChannelMessage :=
  match msgs with
  | [] => (None, [])
  | message :: rest =>
      let sid := msg_sessionID message in
      if negb alive then (None, rest)
      else match msg_data message with
           | Msg_hint hint => (Some (sid, Phs_sendHint hint), rest)
           | Msg_targetDuration t => (Some (sid, Phs_updateTargetWorkDuration t), rest)
           | Msg_workDuration _ _ _ _ =>
               let '(ds, rest) := take_durations sid msgs in (Some (sid, Phs_reportActualWorkDuration ds), rest)
           | Msg_mode mode enabled => (Some (sid, Phs_setMode mode enabled), rest)
           | Msg_other => (None, rest)
           end
  end.

(** The visit of one channel up to the loop over its messages: what was read,
    the bits woken, the group and the blocklist. *)
Definition read_channel (channelNum : Z) (g : ChannelGroup) (blocklist : gset Z)
    : list ChannelMessage * list Z * ChannelGroup * gset Z :=
  match channel_at g channelNum with
  | None => ([], [], g, blocklist)
  | Some c =>
      if negb (queue_valid c) then ([], [], g, blocklist)
      else if decide (mUid c ∈ blocklist) then ([], [], g, blocklist)
      else
        match queue c with
        | [] => ([], [], g, blocklist)
        | messages =>
            if negb (queue_sane c) then ([], [], g, {[mUid c]} ∪ blocklist)
            else (messages, [mReadMask c], g <| mChannels ::= <[Z.to_nat channelNum := Some (c <| queue := [] |>)]> |>, blocklist)
        end
  end.

(** Both pieces put together are the definitions of [Channels.v]. *)
Lemma deliver_rounds (fuel : nat) (alive : Z -> bool) (message : ChannelMessage) (rest : list ChannelMessage) :
  deliver (S fuel) alive (message :: rest) =
    let '(c, rest') := deliver_round (alive (msg_sessionID message)) (message :: rest) in
    option_list c ++ deliver fuel alive rest'.
Proof.
  cbn [deliver deliver_round]. destruct (alive (msg_sessionID message)); [| done]. cbn [negb].
  destruct (msg_data message); try done. by destruct (take_durations _ _).
Qed.

Lemma serve_channel_read (alive : Z -> bool) (s : Served) (k : Z) :
  serve_channel alive s k =
    let '(msgs, woken, g, bl) := read_channel k (sv_group s) (sv_blocklist s) in
    mkServed (sv_calls s ++ deliver (length msgs) alive msgs) (sv_woken s ++ woken) g bl.
Proof.
  assert (s = mkServed (sv_calls s ++ []) (sv_woken s ++ []) (sv_group s) (sv_blocklist s)) as E0
    by (rewrite !app_nil_r; by destruct s).
  unfold serve_channel, read_channel. destruct (channel_at (sv_group s) k) as [c |]; [| exact E0].
  destruct (negb (queue_valid c)); [exact E0 |]. destruct (decide _); [exact E0 |].
  destruct (queue c) as [| m ms]; [exact E0 |]. destruct (negb (queue_sane c)); [| done].
  rewrite E0 at 1. done.
Qed.

(** A round takes at least one message. *)
Lemma deliver_round_shorter (alive : bool) (message : ChannelMessage) (rest : list ChannelMessage) :
  (length (deliver_round alive (message :: rest)).2 <= length rest)%nat.
Proof.
  cbn [deliver_round]. destruct alive; [| done]. cbn [negb]. destruct message as [sid t d]. cbn [msg_data msg_sessionID].
  destruct d; try done. pose proof (take_durations_spec (fun _ => true) sid rest eq_refl) as Ht.
  cbn [take_durations]. rewrite Z.eqb_refl. destruct (take_durations sid rest) as [ds rest']. simpl. lia.
Qed.

(** ** The system *)

Record PowerHal (W : Type) := mkPowerHal {
  hal_service : Service W;
  hal_blocklist : gset Z;               (** static, shared by all groups *)
  hal_threads : gmap Z GroupThread;     (** by group; absent is idle *)
  hal_ih_pc : RoutinePc;
  hal_wakes : list (Z * Z)              (** group and read bits of every [flag->wake], in order *)
}.
Arguments mkPowerHal {W} _ _ _ _ _.
Arguments hal_service {W} _.
Arguments hal_blocklist {W} _.
Arguments hal_threads {W} _.
Arguments hal_ih_pc {W} _.
Arguments hal_wakes {W} _.

#[export] Instance eta_PowerHal (W : Type) : Record_eta (PowerHal W) := fun r =>
  mkPowerHal (hal_service r) (hal_blocklist r) (hal_threads r) (hal_ih_pc r) (hal_wakes r).

Inductive HalStep :=
| St_setMode (type : Mode) (enabled : bool)
| St_setBoost (type : Boost) (durationMs : Z) (now : timespec)
| St_ext_setMode (mode : string) (enabled : bool)
| St_ext_setBoost (boost : string) (durationMs : Z)
| St_createHintSession (write : Z -> list ascii -> Z) (checker : TgidTypeChecker) (metrics : option bool)
    (tgid uid : Z) (tids : list Z) (durationNs : Z) (tag : SessionTag)
| St_session (handle : Z) (o : PhsOp)                  (** a binder call on a session *)
| St_setAdpfProfile (handle : Z) (p : option AdpfConfig) (** the hint manager's callback *)
| St_dropSession (handle : Z)                          (** the last reference goes *)
| St_getSessionChannel (tgid uid : Z)
| St_closeSessionChannel (tgid uid : Z)
| St_client (gid : Z) (slot : nat) (sane : bool) (q : list ChannelMessage) (** a client writes its shared memory *)
| St_wake (gid flagState : Z)
| St_thread (gid : Z)                                  (** a group's thread goes on *)
| St_timer (fireNow tNow : Z)
| St_interaction (l : IhLabel).

Section system.
Context {W : Type} `{FdInterface W} (hm : HintManagerInfo) (c : IhConfig).
Implicit Types (s : PowerHal W) (sv : Service W).

Definition hal_manager s : PowerSessionManager := (w_mgr (sv_world (hal_service s))).1.

(** The service after start-up, with no session and no channel yet. *)
Definition new_PowerHal (info : SupportInfo) (open : string -> Z) (evfd : Z) (st au re : string)
    (node : option (option GpuCapacityNode)) (fd : Z) (mx : option Z) (fs : W) (clock : Readings) : PowerHal W :=
  let '(p, log) := new_Power info open evfd st au re in
  let '(_, _, started, _) := Init open evfd new_InteractionHandler in
  mkPowerHal (mkService p (mkWorld (new_PSM node fd mx, fs) clock []) new_ChannelManager ∅ 0 log) ∅ ∅
    (if started then R_cond else R_none) [].

(** A call on the session object behind a handle. *)
Definition call_session (env : Env) (handle : Z) (o : PhsOp) sv : Service W :=
  match sv_sessions sv !! handle with
  | None => sv
  | Some h =>
      let '(_, (h, w)) := phs_op (H := psm_manager env) (hmi hm) o h (sv_world sv) in
      sv <| sv_world := w |> <| sv_sessions ::= <[handle := h]> |>
  end.

(** The destructor, and the memory given back. *)
Definition drop_session (env : Env) (handle : Z) sv : Service W :=
  match sv_sessions sv !! handle with
  | None => sv
  | Some h => sv <| sv_world ::= delete_PowerHintSession (H := psm_manager env) h |> <| sv_sessions ::= delete handle |>
  end.

(** [alive] for the weak pointers of the manager's registry. *)
Definition object_exists sv (o : Z) : bool := bool_decide (is_Some (sv_sessions sv !! o)).

(** One step of a group's thread. *)
Definition thread_step (env : Env) (gid : Z) s : PowerHal W :=
  let th := default idle_thread (hal_threads s !! gid) in
  let sv := hal_service s in
  match th_messages th, th_channels th with
  | message :: rest, chans =>
      let '(o, m) := getSession (object_exists sv) (msg_sessionID message) (hal_manager s) in
      let sv := on_psm (fun _ => m) sv in
      let '(call, rest) := deliver_round (bool_decide (is_Some o)) (message :: rest) in
      let sv := match o, call with Some h, Some (_, op) => call_session env h op sv | _, _ => sv end in
      s <| hal_service := sv |> <| hal_threads ::= <[gid := mkGroupThread chans rest]> |>
  | [], k :: chans =>
      match mChannelGroups (sv_channels sv) !! gid with
      | None => s
      | Some g =>
          let '(msgs, woken, g, bl) := read_channel k g (hal_blocklist s) in
          s <| hal_service := sv <| sv_channels ::= fun cm => cm <| mChannelGroups ::= <[gid := g]> |> |> |>
            <| hal_blocklist := bl |> <| hal_threads ::= <[gid := mkGroupThread chans msgs]> |>
            <| hal_wakes ::= fun l => l ++ (pair gid <$> woken) |>
      end
  | [], [] => s
  end.

(** The flag is only read by a thread that waits. *)
Definition wake_group (gid flagState : Z) s : PowerHal W :=
  match mChannelGroups (sv_channels (hal_service s)) !! gid, default idle_thread (hal_threads s !! gid) with
  | Some _, mkGroupThread [] [] =>
      s <| hal_threads ::= <[gid := mkGroupThread (visited_channels (Z.land flagState kWriteBits)) []]> |>
  | _, _ => s
  end.

(** What a client can do to its queue. *)
Definition client_write (slot : nat) (sane : bool) (q : list ChannelMessage) (g : ChannelGroup) : ChannelGroup :=
  match mjoin (mChannels g !! slot) with
  | None => g
  | Some ch => g <| mChannels ::= <[slot := Some (ch <| queue_sane := sane |> <| queue := q |>)]> |>
  end.

Definition interaction_step (l : IhLabel) s : PowerHal W :=
  let sv := hal_service s in
  if negb (thread_label l) then s
  else match ih_step c l (mkIhSys (mInteractionHandler (sv_power sv)) (hal_ih_pc s) false []) with
       | None => s
       | Some x => s <| hal_service := sv <| sv_power ::= fun p => p <| mInteractionHandler := ih x |> |>
                                          <| sv_log ::= app (of_IhEffect <$> ih_log x) |> |>
                     <| hal_ih_pc := pc x |>
       end.

(** [None] is a fatal assertion.  A step whose subject does not exist does
    nothing. *)
Definition hal_step (env : Env) (l : HalStep) s : option (PowerHal W) :=
  let sv := hal_service s in
  match l with
  | St_setMode type enabled => Some (s <| hal_service := (pw_setMode hm env type enabled sv).2 |>)
  | St_setBoost type d now => Some (s <| hal_service := (pw_setBoost c type d now sv).2 |>)
  | St_ext_setMode mode enabled => Some (s <| hal_service := (ext_setMode hm env mode enabled sv).2 |>)
  | St_ext_setBoost boost d => Some (s <| hal_service := (ext_setBoost boost d sv).2 |>)
  | St_createHintSession write checker emc tgid uid tids dur tag =>
      Some (s <| hal_service := (createHintSessionWithConfig hm env write checker emc tgid uid tids dur tag sv).2 |>)
  | St_session handle o => Some (s <| hal_service := call_session env handle o sv |>)
  | St_setAdpfProfile handle p => Some (s <| hal_service := sv <| sv_sessions ::= alter (setAdpfProfile p) handle |> |>)
  | St_dropSession handle => Some (s <| hal_service := drop_session env handle sv |>)
  | St_getSessionChannel tgid uid =>
      '(_, sv) ← getSessionChannel tgid uid sv; Some (s <| hal_service := sv |>)
  | St_closeSessionChannel tgid uid =>
      let sv := (closeSessionChannel tgid uid sv).2 in
      Some (s <| hal_service := sv |>
              <| hal_threads ::= filter (fun gt => is_Some (mChannelGroups (sv_channels sv) !! gt.1)) |>)
  | St_client gid slot sane q =>
      Some (s <| hal_service := sv <| sv_channels ::= fun cm => cm <| mChannelGroups ::= alter (client_write slot sane q) gid |> |> |>)
  | St_wake gid flagState => Some (wake_group gid flagState s)
  | St_thread gid => Some (thread_step env gid s)
  | St_timer f t => Some (s <| hal_service := on_psm (timer_turn env f t) sv |>)
  | St_interaction l => Some (interaction_step l s)
  end.

Fixpoint hal_run (steps : list (Env * HalStep)) s : option (PowerHal W) :=
  match steps with
  | [] => Some s
  | (env, l) :: steps => s ← hal_step env l s; hal_run steps s
  end.

End system.

(** ** The manager, through the whole system *)

Section refinement.
Context {W : Type} `{FdInterface W} (hm : HintManagerInfo) (c : IhConfig) (m0 : PowerSessionManager).
Implicit Types (s : PowerHal W) (sv : Service W).

Definition service_manager sv : PowerSessionManager := (w_mgr (sv_world sv)).1.

Lemma hal_manager_set (sv : Service W) s : hal_manager (s <| hal_service := sv |>) = service_manager sv.
Proof. reflexivity. Qed.

Lemma on_psm_manager f sv : service_manager (on_psm f sv) = f (service_manager sv).
Proof. unfold service_manager, on_psm. cbn. by destruct (w_mgr (sv_world sv)). Qed.

Lemma setMode_manager env type b sv :
  service_manager (pw_setMode hm env type b sv).2 =
    if IsAdpfSupported hm then updateHintMode env (Mode_toString type) b (service_manager sv) else service_manager sv.
Proof.
  unfold pw_setMode. cbn [setDeviceSpecificMode].
  assert (service_manager (if IsAdpfSupported hm then on_psm (updateHintMode env (Mode_toString type) b) sv else sv) =
    if IsAdpfSupported hm then updateHintMode env (Mode_toString type) b (service_manager sv) else service_manager sv) as <-
    by (destruct (IsAdpfSupported hm); [apply on_psm_manager | done]).
  set (sv1 := if IsAdpfSupported hm then _ else sv). unfold hint_for_mode.
  destruct type, b, (mSustainedPerfModeOn (sv_power sv1)); reflexivity.
Qed.

Lemma setBoost_world type d now sv : sv_world (pw_setBoost c type d now sv).2 = sv_world sv.
Proof.
  unfold pw_setBoost, hint_for_boost. destruct (mSustainedPerfModeOn (sv_power sv)); [by destruct type |].
  destruct type; try (destruct (0 <? d); [done |]; by destruct (d =? 0)).
  by destruct (Acquire _ _ _ _).
Qed.

Lemma call_session_steps env handle o sv n :
  psm_steps m0 n (service_manager sv) -> psm_steps m0 (7 + n) (service_manager (call_session hm env handle o sv)).
Proof.
  intros Hs. unfold call_session. destruct (sv_sessions sv !! handle) as [h |]; [| eapply psm_steps_le; [done | lia]].
  pose proof (phs_op_inv (H := psm_manager env) (hmi hm) true _ (psm_steps_mgr env m0) o h (sv_world sv) n ltac:(done) Hs) as Hp.
  by destruct (phs_op _ _ _ _) as [st [h' w]].
Qed.

Lemma drop_session_steps env handle sv n :
  psm_steps m0 n (service_manager sv) -> psm_steps m0 (7 + n) (service_manager (drop_session env handle sv)).
Proof.
  intros Hs. unfold drop_session. destruct (sv_sessions sv !! handle) as [h |]; [| eapply psm_steps_le; [done | lia]].
  exact (phs_op_inv (H := psm_manager env) (hmi hm) true _ (psm_steps_mgr env m0) Phs_close h (sv_world sv) n ltac:(done) Hs).
Qed.

Lemma create_steps env write checker emc tgid uid tids dur tag sv n :
  psm_steps m0 n (service_manager sv) ->
  psm_steps m0 (4 + n) (service_manager (createHintSessionWithConfig hm env write checker emc tgid uid tids dur tag sv).2).
Proof.
  intros Hs. unfold createHintSessionWithConfig.
  destruct (negb (IsAdpfSupported hm)); [eapply psm_steps_le; [done | lia] |].
  destruct (_ =? 0); [eapply psm_steps_le; [done | lia] |].
  pose proof (new_PowerHintSession_inv (H := psm_manager env) (hmi hm) true _ (psm_steps_mgr env m0) (sSessionIDCounter sv +₆₄ 1)
    (session_procTag write checker tgid) emc tgid uid tids dur tag (sv_world sv) n eq_refl Hs) as Hp.
  destruct (new_PowerHintSession _ _ _ _ _ _ _ _ _ _) as [h w]. cbn [snd].
  rewrite on_psm_manager. exact (psm_steps_op m0 env (Op_registerSession _ _) (3 + n) _ Hp).
Qed.

Lemma thread_steps env gid s n :
  psm_steps m0 n (hal_manager s) -> psm_steps m0 (8 + n) (hal_manager (thread_step hm env gid s)).
Proof.
  intros Hs. unfold thread_step. destruct (default idle_thread (hal_threads s !! gid)) as [chans [| message rest]]; cbn [th_messages th_channels].
  - assert (psm_steps m0 (8 + n) (hal_manager s)) as Hs' by (eapply psm_steps_le; [done | lia]).
    destruct chans as [| k chans]; [done |]. destruct (mChannelGroups _ !! gid); [| done].
    by destruct (read_channel _ _ _) as [[[msgs wk] g'] bl].
  - pose proof (psm_steps_op m0 env (Op_getSession (object_exists (hal_service s)) (msg_sessionID message)) n _ Hs) as Hg.
    cbn [psm_op] in Hg. destruct (getSession _ _ _) as [o m].
    destruct (deliver_round _ _) as [call rest']. unfold hal_manager. cbn [snd] in Hg.
    assert (service_manager (on_psm (fun _ => m) (hal_service s)) = m) as Em by apply on_psm_manager.
    assert (psm_steps m0 (8 + n) m) as Hm by (eapply psm_steps_le; [done | lia]).
    destruct o as [h |]; [| cbn; by rewrite <- Em in Hm].
    destruct call as [[sid op] |]; [| cbn; by rewrite <- Em in Hm].
    change (psm_steps m0 (7 + S n) (service_manager (call_session hm env h op (on_psm (fun _ => m) (hal_service s))))).
    apply call_session_steps. by rewrite Em.
Qed.

Lemma hal_step_steps env l s s' n :
  psm_steps m0 n (hal_manager s) -> hal_step hm c env l s = Some s' -> psm_steps m0 (8 + n) (hal_manager s').
Proof.
  intros Hs Hl. assert (forall k m, psm_steps m0 (k + n) m -> (k <= 8)%nat -> psm_steps m0 (8 + n) m) as Hle.
  { intros k m Hm Hk. eapply psm_steps_le; [done | lia]. }
  pose proof (Hle 0%nat _ Hs ltac:(lia)) as H0. change (hal_manager s) with (service_manager (hal_service s)) in *.
  assert (forall env mode b, psm_steps m0 (8 + n) (updateHintMode env mode b (service_manager (hal_service s)))) as Hmode.
  { intros env' mode b. apply (Hle 1%nat); [| lia]. exact (psm_steps_op m0 env' (Op_updateHintMode mode b) n _ Hs). }
  destruct l; cbn [hal_step] in Hl; try (apply (inj Some) in Hl; subst s'); rewrite ?hal_manager_set.
  - rewrite setMode_manager. destruct (IsAdpfSupported hm); [apply Hmode | done].
  - unfold service_manager. by rewrite setBoost_world.
  - unfold ext_setMode. cbn [snd].
    assert (service_manager (if enabled then pw_emit (Pw_DoHint mode) (hal_service s) else pw_emit (Pw_EndHint mode) (hal_service s)) =
      service_manager (hal_service s)) as E by by destruct enabled.
    destruct (IsAdpfSupported hm); [rewrite on_psm_manager, E; apply Hmode | by rewrite E].
  - unfold ext_setBoost, hint_for_boost. destruct (0 <? durationMs); [done |]. by destruct (durationMs =? 0).
  - apply (Hle 4%nat); [by apply create_steps | lia].
  - apply (Hle 7%nat); [by apply call_session_steps | lia].
  - done.
  - apply (Hle 7%nat); [by apply drop_session_steps | lia].
  - apply bind_Some in Hl as ([[st cfg] sv'] & Hg & Hl). apply (inj Some) in Hl. subst s'. rewrite hal_manager_set. unfold getSessionChannel in Hg.
    apply bind_Some in Hg as ([r cm] & _ & Hg). by destruct r; simplify_eq.
  - done.
  - done.
  - unfold wake_group. destruct (mChannelGroups _ !! gid); [| done].
    by destruct (default idle_thread _) as [[| ? ?] [| ? ?]].
  - by apply thread_steps.
  - apply (Hle 1%nat); [| lia]. rewrite on_psm_manager. exact (psm_steps_op m0 env (Op_timer fireNow tNow) n _ Hs).
  - unfold interaction_step. destruct (negb _); [done |]. by destruct (ih_step _ _ _).
Qed.

Lemma hal_run_steps steps s s' n :
  psm_steps m0 n (hal_manager s) -> hal_run hm c steps s = Some s' -> psm_steps m0 (8 * length steps + n) (hal_manager s').
Proof.
  revert s n. induction steps as [| [env l] steps IH]; intros s n Hs Hr; simpl in Hr; [by simplify_eq |].
  apply bind_Some in Hr as (s1 & H1 & Hr). pose proof (hal_step_steps env l s s1 n Hs H1) as Hs1.
  eapply psm_steps_le; [by eapply IH | simpl; lia].
Qed.

End refinement.

(** ** The channels, through the whole system *)

(** The parts of a channel that its client cannot write. *)
Definition same_channel (a b : SessionChannel) : Prop :=
  mTgid b = mTgid a /\ mUid b = mUid a /\ mId b = mId a /\ mReadMask b = mReadMask a /\ mWriteMask b = mWriteMask a.

Definition put_channel (gid : Z) (g : ChannelGroup) (slot : nat) (ch : SessionChannel) (m : ChannelManager) : ChannelManager :=
  m <| mChannelGroups ::= <[gid := g <| mChannels ::= <[slot := Some ch]> |>]> |>.

Lemma put_channel_in (gid : Z) (g : ChannelGroup) (slot : nat) (ch ch' : SessionChannel) (m : ChannelManager) (k : Z) (i : nat)
    (x : SessionChannel) :
  mChannelGroups m !! gid = Some g -> mChannels g !! slot = Some (Some ch) ->
  channel_in (put_channel gid g slot ch' m) k i x <->
    if decide (k = gid /\ i = slot) then x = ch' else channel_in m k i x.
Proof.
  intros Hg Hc. unfold channel_in, put_channel. cbn. pose proof (lookup_lt_Some _ _ _ Hc) as Hlt.
  destruct (decide (k = gid)) as [-> | Hk].
  - rewrite lookup_insert_eq. destruct (decide (i = slot)) as [-> | Hi].
    + rewrite decide_True by done. split.
      * intros (g' & [= <-] & Hx). cbn in Hx. rewrite list_lookup_insert_eq in Hx by done. congruence.
      * intros ->. eexists. split; [done |]. cbn. by rewrite list_lookup_insert_eq.
    + rewrite decide_False by tauto. split.
      * intros (g' & [= <-] & Hx). cbn in Hx. rewrite list_lookup_insert_ne in Hx by done. eauto.
      * intros (g' & Hg' & Hx). simplify_eq. eexists. split; [done |]. cbn. by rewrite list_lookup_insert_ne.
  - rewrite lookup_insert_ne, decide_False by naive_solver. done.
Qed.

(** Writing a queue keeps the manager well formed. *)
Lemma put_channel_wf (n gid : Z) (g : ChannelGroup) (slot : nat) (ch ch' : SessionChannel) (m : ChannelManager) :
  cm_wf n m -> mChannelGroups m !! gid = Some g -> mChannels g !! slot = Some (Some ch) -> same_channel ch ch' ->
  cm_wf n (put_channel gid g slot ch' m).
Proof.
  intros Hwf Hg Hc (E1 & E2 & E3 & E4 & E5).
  pose proof (fun k i x => put_channel_in gid g slot ch ch' m k i x Hg Hc) as Hin. split.
  - intros k g'. cbn. rewrite lookup_insert. destruct (decide (gid = k)) as [<- |]; [| apply Hwf].
    intros [= <-]. destruct (cw_group _ _ Hwf gid g Hg) as [[G1 G2 G3] Hb]. split; [| done].
    split; cbn; [done | by rewrite length_insert |]. rewrite (countb_insert _ _ (Some ch)) by done. cbn. lia.
  - intros k i x. rewrite Hin. destruct (decide _) as [[-> ->] |].
    + intros ->. destruct (cw_channel _ _ Hwf gid slot ch) as [C1 C2 C3 C4 C5]; [by eexists |].
      split; rewrite ?E1, ?E2, ?E3, ?E4, ?E5; done.
    + intros Hx. by destruct (cw_channel _ _ Hwf k i x Hx).
  - intros key v Hv. destruct (cw_map _ _ Hwf key v Hv) as (k & i & x & Hx & -> & ->).
    destruct (decide (k = gid /\ i = slot)) as [[-> ->] | Hne].
    + exists gid, slot, ch'. rewrite Hin, decide_True by done. destruct Hx as (g' & Hg' & Hx). simplify_eq.
      by rewrite E1, E2.
    + exists k, i, x. by rewrite Hin, decide_False.
Qed.

Lemma put_group_same (gid : Z) (g : ChannelGroup) (m : ChannelManager) :
  mChannelGroups m !! gid = Some g -> m <| mChannelGroups ::= <[gid := g]> |> = m.
Proof. intros Hg. destruct m. cbn in *. by rewrite insert_id. Qed.

Lemma read_channel_wf (n gid k : Z) (g : ChannelGroup) (bl : gset Z) (m : ChannelManager) :
  cm_wf n m -> mChannelGroups m !! gid = Some g ->
  let '(_, _, g', _) := read_channel k g bl in cm_wf n (m <| mChannelGroups ::= <[gid := g']> |>).
Proof.
  intros Hwf Hg. assert (cm_wf n (m <| mChannelGroups ::= <[gid := g]> |>)) as Hsame by by rewrite put_group_same.
  unfold read_channel. destruct (channel_at g k) as [ch |] eqn:Ec; [| done].
  destruct (negb (queue_valid ch)); [done |]. destruct (decide _); [done |].
  destruct (queue ch); [done |]. destruct (negb (queue_sane ch)); [done |].
  unfold channel_at in Ec. destruct (0 <=? k); [| done]. apply mjoin_lookup_Some in Ec.
  by apply (put_channel_wf n gid g (Z.to_nat k) ch).
Qed.

Lemma client_write_wf (n gid : Z) (slot : nat) (sane : bool) (q : list ChannelMessage) (m : ChannelManager) :
  cm_wf n m -> cm_wf n (m <| mChannelGroups ::= alter (client_write slot sane q) gid |>).
Proof.
  intros Hwf. destruct (mChannelGroups m !! gid) as [g |] eqn:Eg.
  - assert (m <| mChannelGroups ::= alter (client_write slot sane q) gid |> =
      m <| mChannelGroups ::= <[gid := client_write slot sane q g]> |>) as ->.
    { destruct m. cbn in *. f_equal. apply map_eq. intros k. rewrite lookup_alter, lookup_insert.
      destruct (decide (gid = k)) as [<- |]; [by rewrite Eg | done]. }
    unfold client_write. destruct (mjoin (mChannels g !! slot)) as [ch |] eqn:Ec; [| by rewrite put_group_same].
    apply mjoin_lookup_Some in Ec. by apply (put_channel_wf n gid g slot ch).
  - assert (m <| mChannelGroups ::= alter (client_write slot sane q) gid |> = m) as ->; [| done].
    destruct m. cbn in *. f_equal. apply map_eq. intros k. rewrite lookup_alter.
    destruct (decide (gid = k)) as [<- |]; [by rewrite Eg | done].
Qed.

(** Callers are identified by the kernel's process and user ids. *)
Definition step_valid (l : HalStep) : Prop :=
  match l with St_getSessionChannel t u | St_closeSessionChannel t u => is_i32 t /\ is_i32 u | _ => True end.

Section channel_steps.
Context {W : Type} `{FdInterface W} (hm : HintManagerInfo) (c : IhConfig).
Implicit Types (s : PowerHal W) (sv : Service W).

(** What setting modes and boosts leaves alone. *)
Definition sv_rest sv : ChannelManager * gmap Z PowerHintSession * Z := (sv_channels sv, sv_sessions sv, sSessionIDCounter sv).

Lemma setMode_rest env type b sv : sv_rest (pw_setMode hm env type b sv).2 = sv_rest sv.
Proof.
  unfold pw_setMode. cbn [setDeviceSpecificMode].
  assert (sv_rest (if IsAdpfSupported hm then on_psm (updateHintMode env (Mode_toString type) b) sv else sv) = sv_rest sv) as <-
    by by destruct (IsAdpfSupported hm).
  set (sv1 := if IsAdpfSupported hm then _ else sv). unfold hint_for_mode.
  destruct type, b, (mSustainedPerfModeOn (sv_power sv1)); reflexivity.
Qed.

Lemma hint_for_boost_rest name d sv : sv_rest (hint_for_boost name d sv) = sv_rest sv.
Proof. unfold hint_for_boost. destruct (0 <? d); [done |]. by destruct (d =? 0). Qed.

Lemma setBoost_rest type d now sv : sv_rest (pw_setBoost c type d now sv).2 = sv_rest sv.
Proof.
  unfold pw_setBoost. destruct (mSustainedPerfModeOn (sv_power sv)); [by destruct type |].
  destruct type; cbn [snd]; try apply hint_for_boost_rest. by destruct (Acquire _ _ _ _).
Qed.

Lemma ext_setMode_rest env mode b sv : sv_rest (ext_setMode hm env mode b sv).2 = sv_rest sv.
Proof. unfold ext_setMode. by destruct b, (IsAdpfSupported hm). Qed.

Lemma call_session_channels env h o sv : sv_channels (call_session hm env h o sv) = sv_channels sv.
Proof. unfold call_session. destruct (sv_sessions sv !! h); [| done]. by destruct (phs_op _ _ _ _) as [? [? ?]]. Qed.

Lemma create_channels env write checker emc tgid uid tids dur tag sv :
  sv_channels (createHintSessionWithConfig hm env write checker emc tgid uid tids dur tag sv).2 = sv_channels sv.
Proof.
  unfold createHintSessionWithConfig. destruct (negb _); [done |]. destruct (_ =? 0); [done |].
  by destruct (new_PowerHintSession _ _ _ _ _ _ _ _ _ _).
Qed.

Lemma thread_step_wf n env gid s :
  cm_wf n (sv_channels (hal_service s)) -> cm_wf n (sv_channels (hal_service (thread_step hm env gid s))).
Proof.
  intros Hwf. unfold thread_step. destruct (default idle_thread (hal_threads s !! gid)) as [chans [| message rest]];
    cbn [th_messages th_channels].
  - destruct chans as [| k chans]; [done |].
    destruct (mChannelGroups (sv_channels (hal_service s)) !! gid) as [g |] eqn:Eg; [| done].
    pose proof (read_channel_wf n gid k g (hal_blocklist s) _ Hwf Eg) as Hr.
    by destruct (read_channel k g (hal_blocklist s)) as [[[msgs wk] g'] bl].
  - destruct (getSession _ _ _) as [o m]. destruct (deliver_round _ _) as [call rest']. cbn.
    destruct o, call as [[? ?] |]; cbn; [by rewrite call_session_channels | done | done | done].
Qed.

(** No step fails, and the channels stay well formed. *)
Lemma hal_step_channels n env l s :
  cm_wf n (sv_channels (hal_service s)) -> 0 <= n < 2 ^ 31 - 1 -> step_valid l ->
  exists s', hal_step hm c env l s = Some s' /\ cm_wf (n + 1) (sv_channels (hal_service s')).
Proof.
  intros Hwf Hn Hv. pose proof (cm_wf_mono n (n + 1) _ ltac:(lia) Hwf) as Hwf1.
  assert (forall sv, sv_rest sv = sv_rest (hal_service s) -> cm_wf (n + 1) (sv_channels sv)) as Hrest.
  { intros sv E. unfold sv_rest in E. injection E as -> _ _. done. }
  destruct l; cbn [hal_step step_valid] in *; try (eexists; split; [reflexivity |]).
  - apply Hrest, setMode_rest.
  - apply Hrest, setBoost_rest.
  - apply Hrest, ext_setMode_rest.
  - apply Hrest, hint_for_boost_rest.
  - cbn. by rewrite create_channels.
  - cbn. by rewrite call_session_channels.
  - done.
  - cbn. unfold drop_session. by destruct (sv_sessions _ !! handle).
  - destruct Hv as [Ht Hu]. destruct (getOrCreate_spec n _ tgid uid Hwf Hn Ht Hu) as (ch & m' & Hg & Hwf' & Hc & _).
    unfold getSessionChannel, getChannelConfig. rewrite Hg. cbn.
    destruct (queue_valid ch); [| eexists; split; [reflexivity | done]].
    apply (client_channel_spec (n + 1)) in Hc as (_ & _ & k & i & Hin); [| done | lia | done | done].
    destruct (channel_slot _ _ _ _ _ Hwf' Hin) as [Hi Hk]. rewrite (co_id _ _ _ _ (cw_channel _ _ Hwf' _ _ _ Hin)).
    rewrite unpack_lo_pack by (unfold is_i32; lia). destruct Hin as (g & -> & _). cbn. eexists. split; [reflexivity | done].
  - destruct Hv as [Ht Hu]. cbn. pose proof (closeChannel_spec n _ tgid uid Hwf ltac:(lia) Ht Hu) as Hc.
    destruct (closeChannel tgid uid _) as [b m']. eapply cm_wf_mono; [| apply Hc]. lia.
  - by apply client_write_wf.
  - unfold wake_group. destruct (mChannelGroups _ !! gid); [| done].
    by destruct (default idle_thread _) as [[| ? ?] [| ? ?]].
  - by apply thread_step_wf.
  - done.
  - unfold interaction_step. destruct (negb _); [done |]. by destruct (ih_step _ _ _).
Qed.

Lemma hal_run_channels steps n s :
  cm_wf n (sv_channels (hal_service s)) -> 0 <= n -> n + Z.of_nat (length steps) < 2 ^ 31 - 1 ->
  Forall (fun el => step_valid el.2) steps ->
  exists s', hal_run hm c steps s = Some s' /\ cm_wf (n + Z.of_nat (length steps)) (sv_channels (hal_service s')).
Proof.
  intros Hwf Hn Hlen Hv. revert n s Hwf Hn Hlen. induction Hv as [| [env l] steps Hl _ IH]; intros n s Hwf Hn Hlen; simpl.
  - exists s. split; [done |]. by rewrite Z.add_0_r.
  - rewrite length_cons, Nat2Z.inj_succ in Hlen.
    destruct (hal_step_channels n env l s Hwf ltac:(lia) Hl) as (s1 & -> & Hwf1). simpl.
    destruct (IH (n + 1) s1 Hwf1 ltac:(lia) ltac:(lia)) as (s' & -> & Hwf'). exists s'. split; [done |].
    eapply cm_wf_mono; [| done]. lia.
Qed.

End channel_steps.

(** ** The sessions the manager knows

    What identifies sessions at the manager: the keys of its session map and
    the registry of session objects. *)

Definition registry (s : PowerSessionManager) : gset Z * gmap Z Z := (dom (mSessions (mSessionTaskMap s)), mSessionMap s).

Section registry_steps.
Context (env : Env).
Implicit Types s : PowerSessionManager.

Lemma registry_uclamp_loop sid t l1 todo s : registry (uclamp_loop env sid t l1 todo s) = registry s.
Proof.
  revert l1 s. induction todo as [| tid l2 IH]; intros l1 s; simpl; [done |].
  destruct (_ =? ESRCH); rewrite IH; unfold registry; simpl; [| done].
  by rewrite dom_alter_L, (proj1 (removeDead_sessions sid tid _)).
Qed.

Lemma registry_applyUclamp sid t s : registry (applyUclampLocked env sid t s) = registry s.
Proof.
  unfold applyUclampLocked. destruct (psm_findSession s sid); [| done].
  destruct (mUclampMinOn _); cbn [negb]; [| done]. exact (registry_uclamp_loop sid t [] _ s).
Qed.

Lemma registry_applyGpu sid t s : registry (applyGpuVotesLocked env sid t s) = registry s.
Proof.
  unfold applyGpuVotesLocked. destruct (psm_findSession s sid); [| done].
  by destruct (mGpuCapacityNode s) as [[n |] |], (mGpuBoostOn (GetAdpfProfile env)).
Qed.

Lemma registry_applyVotes sid t s : registry (applyCpuAndGpuVotes env sid t s) = registry s.
Proof. unfold applyCpuAndGpuVotes. by rewrite registry_applyGpu, registry_applyUclamp. Qed.

Lemma registry_forceActive sid b t s : registry (forceSessionActive env sid b t s) = registry s.
Proof. unfold forceSessionActive. destruct (psm_findSession s sid); [by rewrite registry_applyVotes | done]. Qed.

Lemma registry_task_profiles ps tids s : registry (set_task_profiles ps tids s) = registry s.
Proof. unfold set_task_profiles. revert s. induction tids as [| t tids IH]; intros s; simpl; [done | by rewrite IH]. Qed.

Lemma registry_voteRampup sid b d h s : registry (voteRampupBoostLocked sid b d h s) = registry s.
Proof.
  unfold voteRampupBoostLocked. generalize (stm_getTaskIds (mSessionTaskMap s) sid) as l. intros l. revert s.
  induction l as [| t l IH]; intros s; simpl; [done |]. rewrite IH.
  unfold updateTaskRampupMult. by destruct (other_sessions_boost s sid t), (mTaskRampupFd s <? 0).
Qed.

Lemma registry_end_metric p m t s : registry (end_metric_session p m t s) = registry s.
Proof. unfold end_metric_session. by destruct (_ && _). Qed.

Lemma stm_add_dom sid v tids (m : SessionTaskMap) : dom (mSessions (stm_add sid v tids m).2) = {[sid]} ∪ dom (mSessions m).
Proof.
  unfold stm_add. destruct (mSessions m !! sid) as [e |] eqn:E; simpl; [| by rewrite dom_insert_L].
  apply elem_of_dom_2 in E. set_solver.
Qed.

Lemma stm_remove_dom sid (m : SessionTaskMap) : dom (mSessions (stm_remove sid m).2) = dom (mSessions m) ∖ {[sid]}.
Proof.
  apply set_eq. intros k. rewrite elem_of_difference, !elem_of_dom, stm_remove_lookup, elem_of_singleton.
  destruct (decide (sid = k)) as [-> |]; [| naive_solver]. split; [by intros [? ?] | naive_solver].
Qed.

Lemma stm_replace_dom sid tids (m : SessionTaskMap) : dom (mSessions (stm_replace sid tids m).2) = dom (mSessions m).
Proof.
  unfold stm_replace. destruct (mSessions m !! sid) as [e |] eqn:E; [| done]. cbn [snd].
  rewrite stm_add_dom, stm_remove_dom. apply elem_of_dom_2 in E. apply set_eq. intros k.
  destruct (decide (k = sid)); set_solver.
Qed.

Lemma registry_setThreads sid tids a b s : registry (setThreadsFromPowerSession env sid tids a b s) = registry s.
Proof.
  unfold setThreadsFromPowerSession. rewrite <- (registry_forceActive sid false a s).
  set (s1 := forceSessionActive env sid false a s). pose proof (stm_replace_dom sid tids (mSessionTaskMap s1)) as Hd.
  destruct (stm_replace sid tids (mSessionTaskMap s1)) as [r m]. cbn [snd] in Hd.
  rewrite registry_forceActive, !registry_task_profiles. unfold registry. simpl. by rewrite Hd.
Qed.

Lemma registry_voteSet_cpu sid v mn mx t d s : registry (voteSet_cpu env sid v mn mx t d s) = registry s.
Proof.
  unfold voteSet_cpu, voteSet_cpu_locked. destruct (psm_findSession s sid); [| done].
  assert (forall b e vid st dl s, registry (schedule_timeout_if b e vid st dl s) = registry s) as ->
    by (intros [] ? ? ? ? ?; reflexivity).
  rewrite registry_applyUclamp. unfold registry, stm_addVote. simpl. by destruct (mSessions (mSessionTaskMap s) !! sid).
Qed.

Lemma registry_voteSet_gpu sid v cy t d s : registry (voteSet_gpu env sid v cy t d s) = registry s.
Proof.
  unfold voteSet_gpu, voteSet_gpu_locked. destruct (psm_findSession s sid); [| done].
  assert (forall b e vid st dl s, registry (schedule_timeout_if b e vid st dl s) = registry s) as ->
    by (intros [] ? ? ? ? ?; reflexivity).
  rewrite registry_applyGpu. unfold registry, stm_addGpuVote. simpl. by destruct (mSessions (mSessionTaskMap s) !! sid).
Qed.

Lemma registry_pause sid a b t s : registry (psm_pause env sid a b t s) = registry s.
Proof.
  unfold psm_pause. destruct (psm_findSession s sid) as [p |]; [| done]. destruct (negb _); [done |].
  rewrite registry_applyVotes. set (s1 := psm_modify p _ s).
  assert (registry s1 = registry s) as <- by done.
  set (s2 := if rampupBoostActive (psm_deref s p) then _ else s1).
  assert (registry s2 = registry s1) as <- by (unfold s2; destruct (rampupBoostActive _); [by rewrite registry_voteRampup | done]).
  destruct (sessFrameMetrics _); [| done]. exact (registry_end_metric p _ a s2).
Qed.

Lemma registry_resume sid a b s : registry (psm_resume env sid a b s) = registry s.
Proof.
  unfold psm_resume. destruct (psm_findSession s sid); [| done]. destruct (isActive _); [done |]. by rewrite registry_applyVotes.
Qed.

Lemma registry_add ids d b tids t sys n1 n2 s :
  registry (addPowerSession env ids (Some d) b tids t sys n1 n2 s) = ({[d_sessionId d]} ∪ (registry s).1, (registry s).2).
Proof. unfold addPowerSession. rewrite registry_setThreads. unfold registry. simpl. by rewrite stm_add_dom. Qed.

Lemma registry_remove sid now sys s :
  registry (removePowerSession env sid now sys s) = ((registry s).1 ∖ {[sid]}, delete (i32 sid) (registry s).2).
Proof.
  unfold removePowerSession. rewrite <- (registry_forceActive sid false now s). set (s1 := forceSessionActive env sid false now s).
  match goal with |- context [stm_replace sid [] (mSessionTaskMap ?x)] => set (s2 := x) end.
  assert (registry s2 = registry s1) as <-.
  { unfold s2. destruct (psm_findSession s1 sid); [| done]. destruct (sessFrameMetrics _); [apply registry_end_metric | done]. }
  pose proof (stm_replace_dom sid [] (mSessionTaskMap s2)) as Hd.
  destruct (stm_replace sid [] (mSessionTaskMap s2)) as [r m]. cbn [snd] in Hd.
  match goal with |- registry (unregisterSession sid ?x) = _ => set (s3 := x) end.
  assert (registry s3 = ((registry s2).1 ∖ {[sid]}, (registry s2).2)) as E3.
  { unfold s3. rewrite registry_task_profiles. unfold registry. simpl. by rewrite stm_remove_dom, Hd. }
  unfold registry in *. simpl in *. injection E3 as E1 E2. by rewrite E1, E2.
Qed.

Lemma registry_timer f t s : registry (timer_turn env f t s) = registry s.
Proof.
  unfold timer_turn. destruct (worker_fire f (mEventSessionTimeoutWorker s)) as [[e |] w]; [| done].
  set (s1 := s <| mEventSessionTimeoutWorker := w |>). assert (registry s1 = registry s) as <- by done.
  unfold handleEvent, handleEvent_locked. destruct (psm_findSession s1 _); [| done]. destruct (Votes_voteIsActive _ _); [| done].
  destruct (_ <=? t); [by rewrite registry_applyVotes | done].
Qed.

Lemma registry_updateHintMode mode b s : registry (updateHintMode env mode b s) = registry s.
Proof. unfold updateHintMode. by destruct (String.eqb _ _), (_ && _). Qed.

(** No call of a session changes the registry, except its closing. *)
Lemma registry_mgr_inv {W : Type} `{FdInterface W} (r : gset Z * gmap Z Z) :
  mgr_inv (M := PowerSessionManager * W) (H := psm_manager env) false (fun _ m => registry m.1 = r).
Proof.
  split; cbn -[registry]; try done; intros; rewrite ?prod_map_fst.
  - by rewrite registry_setThreads.
  - by rewrite registry_pause.
  - by rewrite registry_resume.
  - unfold psm_updateTargetWorkDuration. by destruct (psm_findSession _ _).
  - by rewrite registry_voteSet_cpu.
  - by rewrite registry_voteSet_gpu.
  - unfold disableBoosts. by destruct (psm_findSession _ _).
  - unfold setPreferPowerEfficiency. destruct (psm_findSession _ _); [| done].
    destruct (Bool.eqb _ _); [done | by rewrite registry_applyUclamp].
  - unfold updateHboostStatistics. by destruct (psm_findSession _ _).
  - unfold updateFrameMetrics. by destruct (psm_findSession _ _).
  - unfold updateCollectedSessionMetrics. destruct (psm_findSession _ _); [| done].
    destruct (sessFrameMetrics _); [| done]. destruct (_ || _); [| done].
    by etrans; [apply registry_end_metric |].
  - unfold updateRampupBoostMode. destruct (psm_findSession _ _); [| done].
    destruct (Bool.eqb _ _); [done | by rewrite registry_voteRampup].
  - by destruct (gpuFrequency m.1 m.2).
Qed.

End registry_steps.

(** A session object that exists and was not closed. *)
Definition open_in (ss : gmap Z PowerHintSession) (k : Z) : Prop := exists h, ss !! k = Some h /\ mSessionClosed h = false.

(** The registry [r] of the manager against the session objects [ss]; [n] is
    the last session id given out. *)
Record sessions_inv (r : gset Z * gmap Z Z) (ss : gmap Z PowerHintSession) (n : Z) : Prop := {
  si_ids : forall k h, ss !! k = Some h -> mSessionId h = k /\ 0 < k <= n;
  si_known : forall k, k ∈ r.1 <-> open_in ss k;
  si_registered : forall j o, r.2 !! j = Some o <-> j = o /\ open_in ss o
}.

Section sessions.
Implicit Types (r : gset Z * gmap Z Z) (ss : gmap Z PowerHintSession) (n k : Z) (h : PowerHintSession).

Lemma open_insert ss k h j :
  open_in (<[k := h]> ss) j <-> (if decide (k = j) then mSessionClosed h = false else open_in ss j).
Proof.
  unfold open_in. rewrite lookup_insert. destruct (decide (k = j)); [| done].
  split; [by intros (x & [= <-] & Hx) | eauto].
Qed.

Lemma open_delete ss k j : open_in (delete k ss) j <-> j <> k /\ open_in ss j.
Proof.
  unfold open_in. rewrite lookup_delete. destruct (decide (k = j)) as [-> | Hne].
  - split; [by intros (h & ? & _) | by intros [? _]].
  - split; [intros Hx; by split | by intros [_ Hx]].
Qed.

Lemma si_lookup_None r ss n k : sessions_inv r ss n -> n < k -> ss !! k = None.
Proof. intros Hi Hk. destruct (ss !! k) as [h |] eqn:E; [| done]. destruct (si_ids _ _ _ Hi k h E). lia. Qed.

Lemma si_ids_insert r ss n k h :
  sessions_inv r ss n -> mSessionId h = k -> 0 < k <= n ->
  forall j x, <[k := h]> ss !! j = Some x -> mSessionId x = j /\ 0 < j <= n.
Proof.
  intros Hi Hh Hk j x. rewrite lookup_insert. destruct (decide (k = j)) as [<- |]; [by intros [= <-] | apply Hi].
Qed.

(** A call that leaves the life of a session alone. *)
Lemma si_update r ss n k h h' :
  sessions_inv r ss n -> ss !! k = Some h -> phs_life h' = phs_life h -> sessions_inv r (<[k := h']> ss) n.
Proof.
  intros Hi Hk [= E1 E2]. destruct (si_ids _ _ _ Hi k h Hk) as [Hid Hb].
  assert (forall j, open_in (<[k := h']> ss) j <-> open_in ss j) as Ho.
  { intros j. rewrite open_insert. destruct (decide (k = j)) as [<- |]; [| done]. rewrite E2. unfold open_in. rewrite Hk. naive_solver. }
  split; [apply (si_ids_insert r); [done | congruence | done] | |]; intros; rewrite Ho; apply Hi.
Qed.

(** Closing a session, with what [removePowerSession] does to the registry. *)
Lemma si_close r ss n k h' :
  sessions_inv r ss n -> is_Some (ss !! k) -> mSessionId h' = k -> mSessionClosed h' = true ->
  sessions_inv (r.1 ∖ {[k]}, delete k r.2) (<[k := h']> ss) n.
Proof.
  intros Hi [h Hk] Hid Hc. destruct (si_ids _ _ _ Hi k h Hk) as [_ Hb].
  assert (forall j, open_in (<[k := h']> ss) j <-> j <> k /\ open_in ss j) as Ho.
  { intros j. rewrite open_insert. destruct (decide (k = j)) as [<- |]; [rewrite Hc; naive_solver | naive_solver]. }
  split; cbn [fst snd].
  - by apply (si_ids_insert r).
  - intros j. rewrite Ho, elem_of_difference, elem_of_singleton, (si_known _ _ _ Hi). naive_solver.
  - intros j o. rewrite Ho, lookup_delete. pose proof (si_registered _ _ _ Hi j o).
    destruct (decide (k = j)) as [<- |]; naive_solver.
Qed.

Lemma si_delete r ss n k h :
  sessions_inv r ss n -> ss !! k = Some h -> mSessionClosed h = true -> sessions_inv r (delete k ss) n.
Proof.
  intros Hi Hk Hc.
  assert (forall j, open_in (delete k ss) j <-> open_in ss j) as Ho.
  { intros j. rewrite open_delete. split; [naive_solver |]. intros (x & Hx & Hx'). split; [| by exists x]. intros ->. congruence. }
  split; [| intros; rewrite Ho; apply Hi | intros; rewrite Ho; apply Hi].
  intros j x Hx. apply lookup_delete_Some in Hx as [_ Hx]. by apply Hi.
Qed.

(** A new session takes the next id, at the manager and in its registry. *)
Lemma si_new r ss n h :
  sessions_inv r ss n -> 0 <= n -> mSessionId h = n + 1 -> mSessionClosed h = false ->
  sessions_inv ({[n + 1]} ∪ r.1, <[n + 1 := n + 1]> r.2) (<[n + 1 := h]> ss) (n + 1).
Proof.
  intros Hi Hn Hid Hc. pose proof (si_lookup_None r ss n (n + 1) Hi ltac:(lia)) as Hfresh.
  assert (forall j, open_in (<[n + 1 := h]> ss) j <-> j = n + 1 \/ open_in ss j) as Ho.
  { intros j. rewrite open_insert. destruct (decide (n + 1 = j)) as [<- |]; [rewrite Hc; naive_solver | naive_solver]. }
  split; cbn [fst snd].
  - intros j x. rewrite lookup_insert. destruct (decide (n + 1 = j)) as [<- |]; [intros [= <-]; split; [done | lia] |].
    intros Hx. destruct (si_ids _ _ _ Hi j x Hx). split; [done | lia].
  - intros j. rewrite Ho, elem_of_union, elem_of_singleton, (si_known _ _ _ Hi). done.
  - intros j o. rewrite Ho, lookup_insert. pose proof (si_registered _ _ _ Hi j o) as Hr.
    assert (~ open_in ss (n + 1)) by (intros (x & Hx & _); congruence).
    destruct (decide (n + 1 = j)) as [<- |]; naive_solver.
Qed.

Lemma si_empty : sessions_inv (∅, ∅) ∅ 0.
Proof.
  assert (forall k, ~ open_in ∅ k) as Ho by (intros k (h & Hh & _); by rewrite lookup_empty in Hh).
  split; cbn.
  - intros k h. by rewrite lookup_empty.
  - intros k. pose proof (Ho k). set_solver.
  - intros j o. rewrite lookup_empty. pose proof (Ho o). naive_solver.
Qed.

End sessions.

Section session_steps.
Context {W : Type} `{FdInterface W} (hm : HintManagerInfo) (c : IhConfig).
Implicit Types (s : PowerHal W) (sv : Service W).

(** The invariant of a service that has given out at most [n] ids. *)
Definition svc_inv (n : Z) sv : Prop :=
  sessions_inv (registry (service_manager sv)) (sv_sessions sv) (sSessionIDCounter sv) /\ 0 <= sSessionIDCounter sv <= n.

Lemma svc_inv_le n n' sv : svc_inv n sv -> n <= n' -> svc_inv n' sv.
Proof. intros [A B] Hn. split; [done | lia]. Qed.

Lemma svc_inv_same n sv sv' :
  svc_inv n sv -> registry (service_manager sv') = registry (service_manager sv) -> sv_rest sv' = sv_rest sv -> svc_inv n sv'.
Proof. intros Hi Hr E. unfold sv_rest in E. injection E as _ E2 E3. unfold svc_inv. by rewrite Hr, E2, E3. Qed.

(** A close that is not refused removes the session from the registry. *)
Lemma close_registry env h (w : World (PowerSessionManager * W)) :
  mSessionClosed h = false ->
  registry (w_mgr (phs_close (H := psm_manager env) h w).2.2).1 =
    ((registry (w_mgr w).1).1 ∖ {[mSessionId h]}, delete (i32 (mSessionId h)) (registry (w_mgr w).1).2) /\
  mSessionId (phs_close (H := psm_manager env) h w).2.1 = mSessionId h /\
  mSessionClosed (phs_close (H := psm_manager env) h w).2.1 = true.
Proof.
  intros Hc. unfold phs_close. rewrite Hc. split; [| done]. cbn -[registry removePowerSession].
  by rewrite prod_map_fst, registry_remove.
Qed.

Lemma i32_session (n k : Z) : 0 < k <= n -> n < 2 ^ 31 -> i32 k = k.
Proof. intros. apply i32_id. unfold is_i32. lia. Qed.

Lemma call_session_inv n env handle o sv : n < 2 ^ 31 -> svc_inv n sv -> svc_inv n (call_session hm env handle o sv).
Proof.
  intros Hn [Hi Hb]. unfold call_session. destruct (sv_sessions sv !! handle) as [h |] eqn:Eh; [| done].
  destruct (si_ids _ _ _ Hi handle h Eh) as [Hid Hk].
  assert (o = Phs_close \/ o <> Phs_close) as [-> | Ho] by (destruct o; auto).
  - cbn [phs_op]. destruct (mSessionClosed h) eqn:Ec.
    + unfold phs_close. rewrite Ec. split; [| done]. by apply (si_update _ _ _ handle h).
    + destruct (close_registry env h (sv_world sv) Ec) as (E1 & E2 & E3).
      destruct (phs_close h (sv_world sv)) as [st [h' w]]. cbn [fst snd] in E1, E2, E3.
      unfold svc_inv, service_manager. cbn -[registry]. rewrite E1, Hid, (i32_session n handle) by lia. split; [| done].
      apply si_close; [done | by rewrite Eh | congruence | done].
  - pose proof (phs_op_inv (H := psm_manager env) (hmi hm) false _ (registry_mgr_inv env _) o h (sv_world sv) 0 ltac:(done) eq_refl) as Hr.
    pose proof (phs_op_life (H := psm_manager env) (hmi hm) o h (sv_world sv) Ho) as Hl.
    destruct (phs_op (hmi hm) o h (sv_world sv)) as [st [h' w]]. cbn [fst snd] in Hr, Hl.
    unfold svc_inv, service_manager. cbn -[registry]. rewrite Hr. split; [by apply (si_update _ _ _ handle h) | done].
Qed.

Lemma drop_session_inv n env handle sv : n < 2 ^ 31 -> svc_inv n sv -> svc_inv n (drop_session env handle sv).
Proof.
  intros Hn [Hi Hb]. unfold drop_session, delete_PowerHintSession.
  destruct (sv_sessions sv !! handle) as [h |] eqn:Eh; [| done]. destruct (si_ids _ _ _ Hi handle h Eh) as [Hid Hk].
  unfold svc_inv, service_manager. cbn -[registry phs_close]. split; [| done]. destruct (mSessionClosed h) eqn:Ec.
  - unfold phs_close. rewrite Ec. by apply (si_delete _ _ _ handle h).
  - destruct (close_registry env h (sv_world sv) Ec) as (E1 & E2 & E3). rewrite E1, Hid, (i32_session n handle) by lia.
    set (h' := (phs_close h (sv_world sv)).2.1) in *.
    rewrite <- (delete_insert_eq (sv_sessions sv) handle h'). apply (si_delete _ _ _ handle h'); [| apply lookup_insert_eq | done].
    apply si_close; [done | by rewrite Eh | congruence | done].
Qed.

Lemma new_session_registry env sid pt emc tgid uid tids dur tag (w : World (PowerSessionManager * W)) :
  registry (w_mgr (new_PowerHintSession (H := psm_manager env) (hmi hm) sid pt emc tgid uid tids dur tag w).2).1 =
    ({[sid]} ∪ (registry (w_mgr w).1).1, (registry (w_mgr w).1).2).
Proof.
  unfold new_PowerHintSession, vote_cpu_now, steady_now, call. cbn -[registry voteSet_cpu addPowerSession].
  by rewrite !prod_map_fst, !registry_voteSet_cpu, registry_add.
Qed.

Lemma create_inv n env write checker emc tgid uid tids dur tag sv :
  n + 1 < 2 ^ 31 -> svc_inv n sv ->
  svc_inv (n + 1) (createHintSessionWithConfig hm env write checker emc tgid uid tids dur tag sv).2.
Proof.
  intros Hn Hsv. pose proof (svc_inv_le n (n + 1) sv Hsv ltac:(lia)) as Hsv1. destruct Hsv as [Hi Hb].
  unfold createHintSessionWithConfig. destruct (negb _); [done |]. destruct (_ =? 0); [done |].
  set (sid := sSessionIDCounter sv +₆₄ 1). assert (sid = sSessionIDCounter sv + 1) as Esid.
  { apply i64_id. unfold is_i64. lia. }
  pose proof (new_session_registry env sid (session_procTag write checker tgid) emc tgid uid tids dur tag (sv_world sv)) as Hr.
  assert (phs_life (new_PowerHintSession (H := psm_manager env) (hmi hm) sid (session_procTag write checker tgid) emc tgid uid
    tids dur tag (sv_world sv)).1 = (sid, false)) as Hl by reflexivity.
  destruct (new_PowerHintSession _ _ _ _ _ _ _ _ _ _) as [h w]. cbn [fst snd] in Hr, Hl. cbn [snd].
  unfold phs_life in Hl. injection Hl as Hid Hc. unfold svc_inv. rewrite on_psm_manager.
  unfold getSessionConfig. rewrite Hid. unfold registerSession, registry, service_manager in *. cbn in *.
  injection Hr as Hr1 Hr2. rewrite Hr1, Hr2, (i32_session (n + 1) sid) by lia. clear Hr1 Hr2. clearbody sid. subst sid.
  split; [| lia]. apply (si_new (registry (w_mgr (sv_world sv)).1)); [done | lia | done | done].
Qed.

(** In such a state [getSession] only reads: it finds the open sessions. *)
Lemma getSession_inv n sv k :
  n < 2 ^ 31 -> svc_inv n sv ->
  (getSession (object_exists sv) k (service_manager sv)).2 = service_manager sv /\
  forall o, (getSession (object_exists sv) k (service_manager sv)).1 = Some o <-> o = i32 k /\ open_in (sv_sessions sv) o.
Proof.
  intros Hn [Hi Hb]. unfold getSession. pose proof (si_registered _ _ _ Hi (i32 k)) as Hr. cbn [registry snd] in Hr.
  destruct (mSessionMap (service_manager sv) !! i32 k) as [o |].
  - destruct (proj1 (Hr o) eq_refl) as [E Ho]. unfold object_exists.
    rewrite bool_decide_true by (destruct Ho as (h & -> & _); eauto). split; [done |]. cbn [fst]. intros o'.
    split; [intros [= <-]; done | intros [-> _]; by f_equal].
  - split; [done |]. cbn [fst]. intros o. split; [done |]. intros [-> Ho]. by apply Hr.
Qed.

Lemma thread_step_inv n env gid s :
  n < 2 ^ 31 -> svc_inv n (hal_service s) -> svc_inv n (hal_service (thread_step hm env gid s)).
Proof.
  intros Hn Hi. unfold thread_step. destruct (default idle_thread (hal_threads s !! gid)) as [chans [| message rest]];
    cbn [th_messages th_channels].
  - destruct chans as [| k chans]; [done |]. destruct (mChannelGroups _ !! gid); [| done].
    by destruct (read_channel _ _ _) as [[[msgs wk] g'] bl].
  - destruct (getSession_inv n (hal_service s) (msg_sessionID message) Hn Hi) as [Hm _].
    change (service_manager (hal_service s)) with (hal_manager s) in Hm.
    destruct (getSession _ _ _) as [o m]. cbn [snd] in Hm. subst m.
    assert (svc_inv n (on_psm (fun _ => hal_manager s) (hal_service s))) as Hi'.
    { by eapply svc_inv_same; [done | rewrite on_psm_manager |]. }
    destruct (deliver_round _ _) as [call rest']. cbn. destruct o, call as [[? ?] |]; cbn; [by apply call_session_inv | done | done | done].
Qed.

Lemma hal_step_sessions n env l s s' :
  n + 1 < 2 ^ 31 -> svc_inv n (hal_service s) -> hal_step hm c env l s = Some s' -> svc_inv (n + 1) (hal_service s').
Proof.
  intros Hn Hi Hl. pose proof (svc_inv_le n (n + 1) _ Hi ltac:(lia)) as Hi1.
  destruct l; cbn [hal_step] in Hl; try (apply (inj Some) in Hl; subst s');
    try change (hal_service (s <| hal_service := ?x |>)) with x.
  - eapply svc_inv_same; [done | | apply setMode_rest]. cbn -[registry pw_setMode]. rewrite setMode_manager.
    destruct (IsAdpfSupported hm); [apply registry_updateHintMode | done].
  - eapply svc_inv_same; [done | | apply setBoost_rest]. unfold service_manager. cbn -[registry pw_setBoost]. by rewrite setBoost_world.
  - eapply svc_inv_same; [done | | apply ext_setMode_rest]. cbn -[registry ext_setMode]. unfold ext_setMode. cbn [snd].
    destruct enabled, (IsAdpfSupported hm); rewrite ?on_psm_manager, ?registry_updateHintMode; done.
  - eapply svc_inv_same; [done | | apply hint_for_boost_rest]. cbn -[registry]. unfold hint_for_boost.
    destruct (0 <? durationMs); [done |]. by destruct (durationMs =? 0).
  - by apply create_inv.
  - eapply svc_inv_le; [apply (call_session_inv n); [lia | done] | lia].
  - destruct Hi1 as [Hs Hb]. split; [| done]. cbn -[registry].
    destruct (sv_sessions (hal_service s) !! handle) as [h |] eqn:Eh.
    + assert (alter (setAdpfProfile p) handle (sv_sessions (hal_service s)) = <[handle := setAdpfProfile p h]> (sv_sessions (hal_service s))) as ->.
      { apply map_eq. intros k. rewrite lookup_alter, lookup_insert. destruct (decide (handle = k)) as [<- |]; [by rewrite Eh | done]. }
      by apply (si_update _ _ _ handle h).
    + assert (alter (setAdpfProfile p) handle (sv_sessions (hal_service s)) = sv_sessions (hal_service s)) as ->; [| done].
      apply map_eq. intros k. rewrite lookup_alter. destruct (decide (handle = k)) as [<- |]; [by rewrite Eh | done].
  - eapply svc_inv_le; [apply (drop_session_inv n); [lia | done] | lia].
  - apply bind_Some in Hl as ([[st cfg] sv'] & Hg & Hl). apply (inj Some) in Hl. subst s'. unfold getSessionChannel in Hg.
    apply bind_Some in Hg as ([r cm] & _ & Hg). by destruct r; simplify_eq.
  - done.
  - done.
  - unfold wake_group. destruct (mChannelGroups _ !! gid); [| done]. by destruct (default idle_thread _) as [[| ? ?] [| ? ?]].
  - eapply svc_inv_le; [apply (thread_step_inv n); [lia | done] | lia].
  - eapply svc_inv_same; [done | | done]. cbn -[registry on_psm]. by rewrite on_psm_manager, registry_timer.
  - unfold interaction_step. destruct (negb _); [done |]. by destruct (ih_step _ _ _).
Qed.

Lemma hal_run_sessions steps n s s' :
  svc_inv n (hal_service s) -> n + Z.of_nat (length steps) < 2 ^ 31 -> hal_run hm c steps s = Some s' ->
  svc_inv (n + Z.of_nat (length steps)) (hal_service s').
Proof.
  revert n s. induction steps as [| [env l] steps IH]; intros n s Hi Hn Hr; simpl in Hr.
  { simplify_eq. by rewrite Z.add_0_r. }
  rewrite length_cons, Nat2Z.inj_succ in Hn |- *. apply bind_Some in Hr as (s1 & H1 & Hr).
  eapply svc_inv_le; [eapply (IH (n + 1)); [| lia | done] | lia].
  eapply hal_step_sessions; [lia | done | done].
Qed.

End session_steps.

(** ** A group's thread that runs without interruption *)

Section group_thread.
Context {W : Type} `{FdInterface W} (hm : HintManagerInfo) (env : Env) (gid : Z).
Implicit Types (s : PowerHal W) (sv : Service W).

(** [getSession] answers for this session id. *)
Definition session_alive sv (k : Z) : bool := bool_decide (is_Some (getSession (object_exists sv) k (service_manager sv)).1).

(** The calls of a batch, in order. *)
Definition make_calls (calls : list (Z * PhsOp)) sv : Service W :=
  foldl (fun sv c => call_session hm env (i32 c.1) c.2 sv) sv calls.

Definition with_group (g : ChannelGroup) sv : Service W :=
  sv <| sv_channels ::= fun cm => cm <| mChannelGroups ::= <[gid := g]> |> |>.

Lemma call_with_group g h o sv : call_session hm env h o (with_group g sv) = with_group g (call_session hm env h o sv).
Proof.
  unfold call_session. change (sv_sessions (with_group g sv)) with (sv_sessions sv).
  change (sv_world (with_group g sv)) with (sv_world sv).
  destruct (sv_sessions sv !! h); [| done]. by destruct (phs_op _ _ _ _) as [st [h' w]].
Qed.

Lemma calls_with_group g calls sv : make_calls calls (with_group g sv) = with_group g (make_calls calls sv).
Proof. revert sv. induction calls as [| x calls IH]; intros sv; simpl; [done |]. by rewrite call_with_group, IH. Qed.

Lemma with_group_twice g g' sv : with_group g' (with_group g sv) = with_group g' sv.
Proof. unfold with_group. destruct sv as [? ? [groups map] ? ? ?]. cbn. by rewrite insert_insert_eq. Qed.

Lemma make_calls_app c1 c2 sv : make_calls (c1 ++ c2) sv = make_calls c2 (make_calls c1 sv).
Proof. apply foldl_app. Qed.

Lemma make_calls_inv n calls sv : n < 2 ^ 31 -> svc_inv n sv -> svc_inv n (make_calls calls sv).
Proof.
  intros Hn. revert sv. induction calls as [| x calls IH]; intros sv Hi; simpl; [done |]. by apply IH, call_session_inv.
Qed.

Lemma deliver_round_call (alive : bool) (message : ChannelMessage) (rest : list ChannelMessage) (sid : Z) (o : PhsOp) :
  (deliver_round alive (message :: rest)).1 = Some (sid, o) -> sid = msg_sessionID message /\ o <> Phs_close.
Proof.
  cbn [deliver_round]. destruct (negb alive); [done |]. destruct (msg_data message); try done; try (intros [= <- <-]; done).
  destruct (take_durations _ _). intros [= <- <-]. done.
Qed.

(** A call other than a close leaves the open sessions alone. *)
Lemma call_session_open handle o sv j :
  o <> Phs_close -> open_in (sv_sessions (call_session hm env handle o sv)) j <-> open_in (sv_sessions sv) j.
Proof.
  intros Ho. unfold call_session. destruct (sv_sessions sv !! handle) as [h |] eqn:Eh; [| done].
  pose proof (phs_op_life (H := psm_manager env) (hmi hm) o h (sv_world sv) Ho) as Hl.
  destruct (phs_op (hmi hm) o h (sv_world sv)) as [st [h' w]]. cbn [fst snd] in Hl. injection Hl as _ Hc.
  cbn. rewrite open_insert. destruct (decide (handle = j)) as [<- |]; [| done]. rewrite Hc. unfold open_in. rewrite Eh. naive_solver.
Qed.

Lemma session_alive_open n sv k :
  n < 2 ^ 31 -> svc_inv n sv -> session_alive sv k = true <-> open_in (sv_sessions sv) (i32 k).
Proof.
  intros Hn Hi. destruct (getSession_inv n sv k Hn Hi) as [_ Hg]. unfold session_alive. rewrite bool_decide_eq_true. split.
  - intros [o Ho]. by apply Hg in Ho as [-> Ho].
  - intros Ho. exists (i32 k). by apply Hg.
Qed.

Lemma call_session_alive n handle o sv k :
  n < 2 ^ 31 -> svc_inv n sv -> o <> Phs_close -> session_alive (call_session hm env handle o sv) k = session_alive sv k.
Proof.
  intros Hn Hi Ho. apply Bool.eq_iff_eq_true.
  rewrite !(session_alive_open n) by auto using call_session_inv. by apply call_session_open.
Qed.

Lemma make_calls_alive n calls sv k :
  n < 2 ^ 31 -> svc_inv n sv -> Forall (fun x => x.2 <> Phs_close) calls ->
  session_alive (make_calls calls sv) k = session_alive sv k.
Proof.
  intros Hn Hi Hc. revert sv Hi. induction Hc as [| x calls Hx _ IH]; intros sv Hi; [done |].
  change (make_calls (x :: calls) sv) with (make_calls calls (call_session hm env (i32 x.1) x.2 sv)).
  rewrite IH by by apply call_session_inv. by apply (call_session_alive n).
Qed.

(** No message closes a session. *)
Lemma deliver_no_close alive fuel msgs : Forall (fun x => x.2 <> Phs_close) (deliver fuel alive msgs).
Proof.
  revert msgs. induction fuel as [| fuel IH]; intros msgs; [constructor |].
  destruct msgs as [| m ms]; [constructor |]. rewrite deliver_rounds.
  pose proof (deliver_round_call (alive (msg_sessionID m)) m ms) as Hc.
  destruct (deliver_round _ _) as [[[sid o] |] rest]; cbn; [| apply IH]. constructor; [| apply IH]. by apply (Hc sid o).
Qed.

(** The state of a thread that has made some calls. *)
Definition after_calls (calls : list (Z * PhsOp)) (th : GroupThread) s : PowerHal W :=
  s <| hal_service ::= make_calls calls |> <| hal_threads ::= <[gid := th]> |>.

Lemma after_calls_nil th s : hal_threads s !! gid = Some th -> after_calls [] th s = s.
Proof. intros Ht. destruct s. unfold after_calls. cbn in *. by rewrite insert_id. Qed.

Lemma after_calls_twice c1 c2 t1 t2 s : after_calls c2 t2 (after_calls c1 t1 s) = after_calls (c1 ++ c2) t2 s.
Proof. destruct s. unfold after_calls. cbn. by rewrite insert_insert_eq, make_calls_app. Qed.

Lemma on_psm_same sv : on_psm (fun _ => service_manager sv) sv = sv.
Proof. destruct sv as [? [[m w] ? ?] ? ? ? ?]. reflexivity. Qed.

(** One round of the thread is one round of the loop. *)
Lemma thread_round n alive chans message rest s :
  n < 2 ^ 31 -> svc_inv n (hal_service s) -> session_alive (hal_service s) (msg_sessionID message) = alive ->
  hal_threads s !! gid = Some (mkGroupThread chans (message :: rest)) ->
  thread_step hm env gid s =
    let '(call, rest) := deliver_round alive (message :: rest) in
    after_calls (option_list call) (mkGroupThread chans rest) s.
Proof.
  intros Hn Hi Ha Ht. unfold thread_step. rewrite Ht. cbn [from_option id th_messages th_channels].
  destruct (getSession_inv n (hal_service s) (msg_sessionID message) Hn Hi) as [Hm Ho].
  unfold session_alive in Ha. change (hal_manager s) with (service_manager (hal_service s)) in *.
  destruct (getSession _ _ _) as [o m]. cbn [fst snd] in *. subst m. rewrite on_psm_same, Ha.
  pose proof (deliver_round_call alive message rest) as Hc.
  destruct (deliver_round alive (message :: rest)) as [call rest'] eqn:Ed. cbn [fst] in Hc.
  destruct o as [h |].
  - destruct (proj1 (Ho h) eq_refl) as [-> _]. destruct call as [[sid op] |]; [| by destruct s].
    destruct (Hc sid op eq_refl) as [-> _]. by destruct s.
  - rewrite bool_decide_false in Ha by (intros [? ?]; done). subst alive. cbn in Ed. injection Ed as <- <-. by destruct s.
Qed.

(** The loop over the messages that were read. *)
Lemma thread_delivers n alive chans fuel msgs s :
  n < 2 ^ 31 -> svc_inv n (hal_service s) -> (forall k, session_alive (hal_service s) k = alive k) ->
  hal_threads s !! gid = Some (mkGroupThread chans msgs) -> (length msgs <= fuel)%nat ->
  exists i, Nat.iter i (thread_step hm env gid) s = after_calls (deliver fuel alive msgs) (mkGroupThread chans []) s.
Proof.
  intros Hn. revert msgs s. induction fuel as [| fuel IH]; intros msgs s Hi Ha Ht Hl.
  { destruct msgs; [| simpl in Hl; lia]. exists 0%nat. by rewrite after_calls_nil. }
  destruct msgs as [| message rest]; [exists 0%nat; by rewrite after_calls_nil |]. simpl in Hl.
  pose proof (thread_round n (alive (msg_sessionID message)) chans message rest s Hn Hi (Ha _) Ht) as Hr.
  pose proof (deliver_round_call (alive (msg_sessionID message)) message rest) as Hc.
  pose proof (deliver_round_shorter (alive (msg_sessionID message)) message rest) as Hs.
  rewrite deliver_rounds. destruct (deliver_round _ (message :: rest)) as [call rest']. cbn [fst snd] in Hc, Hs.
  set (s1 := after_calls (option_list call) (mkGroupThread chans rest') s) in *.
  destruct (IH rest' s1) as [i Hiter].
  - by apply make_calls_inv.
  - intros k. rewrite <- Ha. destruct call as [[sid op] |]; [| done].
    destruct (Hc sid op eq_refl) as [_ Hop]. by apply (call_session_alive n).
  - apply lookup_insert_eq.
  - lia.
  - exists (S i). rewrite Nat.iter_succ_r, Hr, Hiter. unfold s1. by rewrite after_calls_twice.
Qed.

(** Visiting channels with results to add to. *)
Lemma serve_fold alive ks calls woken g bl :
  foldl (serve_channel alive) (mkServed calls woken g bl) ks =
    let r := foldl (serve_channel alive) (mkServed [] [] g bl) ks in
    mkServed (calls ++ sv_calls r) (woken ++ sv_woken r) (sv_group r) (sv_blocklist r).
Proof.
  revert calls woken g bl. induction ks as [| k ks IH]; intros calls woken g bl; [cbn; by rewrite !app_nil_r |].
  cbn [foldl]. rewrite !serve_channel_read. cbn [sv_calls sv_woken sv_group sv_blocklist].
  destruct (read_channel k g bl) as [[[msgs wk] g1] bl1]. cbn zeta. rewrite (IH (calls ++ _)), (IH ([] ++ _)). cbn.
  by rewrite !app_assoc.
Qed.

Lemma thread_visits n alive chans g s :
  n < 2 ^ 31 -> svc_inv n (hal_service s) -> (forall k, session_alive (hal_service s) k = alive k) ->
  hal_threads s !! gid = Some (mkGroupThread chans []) -> mChannelGroups (sv_channels (hal_service s)) !! gid = Some g ->
  let r := foldl (serve_channel alive) (mkServed [] [] g (hal_blocklist s)) chans in
  exists i, Nat.iter i (thread_step hm env gid) s =
    s <| hal_service ::= fun sv => with_group (sv_group r) (make_calls (sv_calls r) sv) |>
      <| hal_blocklist := sv_blocklist r |> <| hal_threads ::= <[gid := idle_thread]> |>
      <| hal_wakes ::= fun l => l ++ (pair gid <$> sv_woken r) |>.
Proof.
  intros Hn. revert g s. induction chans as [| k chans IH]; intros g s Hi Ha Ht Hg; cbn zeta.
  { exists 0%nat. destruct s as [[? ? [groups map] ? ? ?] ? ? ? ?]. unfold with_group. cbn in *.
    by rewrite app_nil_r, (insert_id groups gid g Hg), (insert_id _ gid idle_thread Ht). }
  cbn [foldl]. rewrite serve_channel_read. cbn [sv_calls sv_woken sv_group sv_blocklist].
  assert (thread_step hm env gid s =
    let '(msgs, woken, g, bl) := read_channel k g (hal_blocklist s) in
    s <| hal_service ::= with_group g |> <| hal_blocklist := bl |> <| hal_threads ::= <[gid := mkGroupThread chans msgs]> |>
      <| hal_wakes ::= fun l => l ++ (pair gid <$> woken) |>) as Hst.
  { unfold thread_step. rewrite Ht. cbn [from_option id th_messages th_channels]. rewrite Hg. by destruct (read_channel k g (hal_blocklist s)) as [[[? ?] ?] ?]. }
  destruct (read_channel k g (hal_blocklist s)) as [[[msgs wk] g1] bl1]. rewrite !app_nil_l, serve_fold. cbn zeta.
  set (s1 := s <| hal_service ::= with_group g1 |> <| hal_blocklist := bl1 |> <| hal_threads ::= _ |> <| hal_wakes ::= _ |>) in *.
  assert (svc_inv n (hal_service s1)) as Hi1 by done.
  destruct (thread_delivers n alive chans (length msgs) msgs s1 Hn Hi1) as [i1 E1];
    [exact Ha | apply lookup_insert_eq | done |].
  set (calls1 := deliver (length msgs) alive msgs) in *. set (s2 := after_calls calls1 (mkGroupThread chans []) s1) in *.
  assert (hal_service s2 = with_group g1 (make_calls calls1 (hal_service s))) as E2 by apply calls_with_group.
  destruct (IH g1 s2) as [i2 E3].
  - by apply make_calls_inv.
  - intros j. rewrite <- Ha, E2. change (session_alive (with_group g1 ?x) j) with (session_alive x j).
    apply (make_calls_alive n); [done | done | apply deliver_no_close].
  - apply lookup_insert_eq.
  - rewrite E2. apply lookup_insert_eq.
  - exists (i2 + (i1 + 1))%nat. rewrite !Nat.iter_add. cbn [Nat.iter nat_rect]. rewrite Hst, E1, E3.
    change (hal_blocklist s2) with bl1. set (r := foldl _ _ chans). unfold s2, after_calls, s1. destruct s as [sv bl th p wakes]. cbn -[make_calls].
    by rewrite !insert_insert_eq, !calls_with_group, with_group_twice, make_calls_app, fmap_app, app_assoc.
Qed.

End group_thread.

(** ** Main results *)

Section main.
Context {W : Type} `{FdInterface W} (hm : HintManagerInfo) (c : IhConfig) (info : SupportInfo) (open : string -> Z)
  (evfd : Z) (st au re : string) (node : option (option GpuCapacityNode)) (fd : Z) (mx : option Z) (fs : W) (clock : Readings).

(** The system of this configuration, before the first step. *)
Definition start_hal : PowerHal W := new_PowerHal info open evfd st au re node fd mx fs clock.

Lemma start_hal_facts :
  hal_manager start_hal = new_PSM node fd mx /\ sv_channels (hal_service start_hal) = new_ChannelManager /\
  svc_inv 0 (hal_service start_hal).
Proof.
  unfold start_hal, new_PowerHal. destruct (new_Power info open evfd st au re) as [p log].
  destruct (Init open evfd new_InteractionHandler) as [[[b h] started] e]. cbn.
  split_and!; [done | done |]. split; [apply si_empty | cbn; lia].
Qed.

Lemma hal_manager_reachable steps s :
  Z.of_nat (length steps) < 2 ^ 58 -> hal_run hm c steps start_hal = Some s ->
  psm_full true (hal_manager s) /\ timer_count (hal_manager s) < 2 ^ 62.
Proof.
  intros Hlen Hr. destruct start_hal_facts as (Em & _ & _).
  pose proof (psm_steps_refl (new_PSM node fd mx) 0) as H0. rewrite <- Em in H0 at 2.
  destruct (hal_run_steps hm c (new_PSM node fd mx) steps _ s 0 H0 Hr) as (ops & -> & Hl). apply psm_reachable. lia.
Qed.

Lemma hal_run_timers env t i s :
  exists s', hal_run hm c (replicate i (env, St_timer t t)) s = Some s' /\
    hal_manager s' = Nat.iter i (timer_turn env t t) (hal_manager s).
Proof.
  revert s. induction i as [| i IH]; intros s; [by exists s |]. cbn [replicate hal_run hal_step].
  rewrite Nat.iter_succ_r. destruct (IH (s <| hal_service := on_psm (timer_turn env t t) (hal_service s) |>)) as (s' & E & Hm).
  exists s'. split; [exact E |]. by rewrite Hm, hal_manager_set, on_psm_manager.
Qed.

End main.

(** With whole operations nothing is in the hands of a call. *)
Lemma full_queued (m : PowerSessionManager) (sid vid : Z) :
  psm_full true m -> active_vote (mSessionTaskMap m) sid vid -> timeout_queued (mEventSessionTimeoutWorker m) sid vid.
Proof.
  intros [_ Hw Ha] Hact. destruct (Ha sid vid Hact) as (e & He & ? & ?).
  unfold pending in He. apply list_elem_of_fmap in He as ([k x] & -> & Hk). apply elem_of_map_to_list in Hk.
  destruct (proj1 (list_elem_of_fmap _ _ _) (proj1 (key_queued _ k Hw) (mk_is_Some _ _ Hk))) as (p & -> & Hp).
  by exists p, x.
Qed.

(** C11. The whole HAL as one system, its steps taken one after the other (a
    call through binder, a round of a channel thread, a turn of a timer, a
    dropped session; [PowerThreads.v] is about calls that overlap): in every run
    no fatal assertion is hit, and the session manager only goes through states
    that sequences of its own operations reach, at most eight for a step.  So
    what holds in all states of the manager holds in the running HAL: its maps
    are consistent and every vote that is on has its timeout in the queue, with
    its payload. *)
Theorem power_hal_refines_manager {W : Type} `{FdInterface W} (hm : HintManagerInfo) (c : IhConfig) (info : SupportInfo)
    (open : string -> Z) (evfd : Z) (st au re : string) (node : option (option GpuCapacityNode)) (fd : Z) (mx : option Z)
    (fs : W) (clock : Readings) (steps : list (Env * HalStep))
    (Hlen : Z.of_nat (length steps) < 2 ^ 31 - 1) (Hv : Forall (fun el => step_valid el.2) steps) :
  exists s mops, hal_run hm c steps (start_hal info open evfd st au re node fd mx fs clock) = Some s /\
    hal_manager s = psm_run mops (new_PSM node fd mx) /\ (length mops <= 8 * length steps)%nat /\
    stm_wf (mSessionTaskMap (hal_manager s)) /\
    forall sid vid, active_vote (mSessionTaskMap (hal_manager s)) sid vid ->
      timeout_queued (mEventSessionTimeoutWorker (hal_manager s)) sid vid.
Proof.
  destruct (start_hal_facts info open evfd st au re node fd mx fs clock) as (Em & Ec & _).
  pose proof new_ChannelManager_wf as Hcm. rewrite <- Ec in Hcm.
  destruct (hal_run_channels hm c steps 0 _ Hcm ltac:(lia) ltac:(lia) Hv) as (s & Hr & _).
  pose proof (psm_steps_refl (new_PSM node fd mx) 0) as H0. rewrite <- Em in H0 at 2.
  destruct (hal_run_steps hm c (new_PSM node fd mx) steps _ s 0 H0 Hr) as (mops & E & Hl).
  destruct (hal_manager_reachable hm c info open evfd st au re node fd mx fs clock steps s ltac:(lia) Hr) as [Hf _].
  exists s, mops. split_and!; [done | done | lia | apply Hf | intros sid vid; by apply full_queued].
Qed.

(** Boosts end in the running HAL: in any state that a run of such steps reaches, once the
    deadlines of the queued events and of the active votes have passed, as many
    turns of the pool's thread as there are queued events leave no vote on, for
    any session. *)
Theorem power_hal_votes_expire {W : Type} `{FdInterface W} (hm : HintManagerInfo) (c : IhConfig) (info : SupportInfo)
    (open : string -> Z) (evfd : Z) (st au re : string) (node : option (option GpuCapacityNode)) (fd : Z) (mx : option Z)
    (fs : W) (clock : Readings) (steps : list (Env * HalStep)) (s : PowerHal W) (env : Env) (t : Z)
    (Hlen : Z.of_nat (length steps) < 2 ^ 58)
    (Hrun : hal_run hm c steps (start_hal info open evfd st au re node fd mx fs clock) = Some s)
    (Hdue : all_due t (hal_manager s)) :
  exists s', hal_run hm c (replicate (queue_length (hal_manager s)) (env, St_timer t t)) s = Some s' /\
    forall sid vid, ~ active_vote (mSessionTaskMap (hal_manager s')) sid vid.
Proof.
  destruct (hal_manager_reachable hm c info open evfd st au re node fd mx fs clock steps s Hlen Hrun) as [Hf Ht].
  destruct (hal_run_timers hm c env t (queue_length (hal_manager s)) s) as (s' & Hr & Hm).
  exists s'. split; [done |]. rewrite Hm. apply drain_timers; [done | lia | done | done].
Qed.

(** C13. Sessions are neither lost nor leaked: in every state of a run the
    manager knows exactly the sessions whose objects exist and are not closed,
    [getSession], which the channels use, finds exactly those, under their own
    id, and every object carries the id it was handed out with. *)
Theorem power_hal_sessions {W : Type} `{FdInterface W} (hm : HintManagerInfo) (c : IhConfig) (info : SupportInfo)
    (open : string -> Z) (evfd : Z) (st au re : string) (node : option (option GpuCapacityNode)) (fd : Z) (mx : option Z)
    (fs : W) (clock : Readings) (steps : list (Env * HalStep)) (s : PowerHal W)
    (Hlen : Z.of_nat (length steps) < 2 ^ 31)
    (Hrun : hal_run hm c steps (start_hal info open evfd st au re node fd mx fs clock) = Some s) :
  let ss := sv_sessions (hal_service s) in
  (forall k, is_Some (psm_findSession (hal_manager s) k) <-> open_in ss k) /\
  (forall k o, is_i32 k ->
     (getSession (object_exists (hal_service s)) k (hal_manager s)).1 = Some o <-> o = k /\ open_in ss k) /\
  (forall k h, ss !! k = Some h -> mSessionId h = k /\ 0 < k <= sSessionIDCounter (hal_service s)).
Proof.
  intros ss. destruct (start_hal_facts info open evfd st au re node fd mx fs clock) as (_ & _ & H0).
  pose proof (hal_run_sessions hm c steps 0 _ s H0 ltac:(lia) Hrun) as Hi. rewrite Z.add_0_l in Hi.
  unfold ss. split_and!.
  - intros k. rewrite <- (si_known _ _ _ (proj1 Hi) k). cbn [registry fst]. rewrite elem_of_dom.
    unfold psm_findSession, stm_findSession. by rewrite fmap_is_Some.
  - intros k o Hk. destruct (getSession_inv _ _ k Hlen Hi) as [_ Hg].
    change (hal_manager s) with (service_manager (hal_service s)). rewrite Hg, (i32_id k Hk). naive_solver.
  - apply (proj1 Hi).
Qed.

(** C14. A wake-up of a channel group, from its flag to the sessions: woken in
    any state of a run and left alone until it waits again, the group's thread
    has read exactly the channels that are to be read ([to_read]), among those
    whose bit of the flag is set, in the order of their numbers; the calls it
    has made on the sessions, with merged reports taken apart, are the calls
    that the messages in those channels ask for, in order, those for sessions
    that no longer exist left out; it has emptied these queues and no other,
    told exactly these clients, and blocked exactly the users whose queue could
    not be read. *)
Theorem group_thread_delivers {W : Type} `{FdInterface W} (hm : HintManagerInfo) (c : IhConfig) (info : SupportInfo)
    (open : string -> Z) (evfd : Z) (st au re : string) (node : option (option GpuCapacityNode)) (fd : Z) (mx : option Z)
    (fs : W) (clock : Readings) (steps : list (Env * HalStep)) (s : PowerHal W) (env : Env) (gid flagState : Z) (g : ChannelGroup)
    (Hlen : Z.of_nat (length steps) < 2 ^ 31)
    (Hrun : hal_run hm c steps (start_hal info open evfd st au re node fd mx fs clock) = Some s)
    (Hidle : default idle_thread (hal_threads s !! gid) = idle_thread)
    (Hg : mChannelGroups (sv_channels (hal_service s)) !! gid = Some g) :
  let '(cs, bl) := to_read g (hal_blocklist s) (List.filter (Z.testbit flagState) (seqZ 0 16)) in
  exists i calls g',
    Nat.iter i (thread_step hm env gid) (wake_group gid flagState s) =
      s <| hal_service ::= fun sv => with_group gid g' (make_calls hm env calls sv) |>
        <| hal_blocklist := bl |> <| hal_threads ::= <[gid := idle_thread]> |>
        <| hal_wakes ::= fun l => l ++ ((fun kc => (gid, mReadMask kc.2)) <$> cs) |> /\
    calls ≫= split_call = live_calls (session_alive (hal_service s)) (cs ≫= fun kc => queue kc.2) /\
    forall k, 0 <= k -> channel_at g' k =
      if decide (k ∈ cs.*1) then (fun ch => ch <| queue := [] |>) <$> channel_at g k else channel_at g k.
Proof.
  destruct (start_hal_facts info open evfd st au re node fd mx fs clock) as (_ & _ & H0).
  pose proof (hal_run_sessions hm c steps 0 _ s H0 ltac:(lia) Hrun) as Hi. rewrite Z.add_0_l in Hi.
  unfold wake_group. rewrite wake_serves_set_bits, Hg, Hidle. cbn [idle_thread].
  assert (NoDup (List.filter (Z.testbit flagState) (seqZ 0 16)) /\
    Forall (fun k => 0 <= k) (List.filter (Z.testbit flagState) (seqZ 0 16))) as [Hnd Hpos].
  { split; [apply NoDup_ListNoDup, List.NoDup_filter, NoDup_ListNoDup, NoDup_seqZ |]. apply Forall_forall. intros k Hk.
    apply list_elem_of_In, filter_In in Hk as [Hk _]. apply list_elem_of_In, elem_of_seqZ in Hk. lia. }
  revert Hnd Hpos. generalize (List.filter (Z.testbit flagState) (seqZ 0 16)) as ks. intros ks Hnd Hpos.
  set (s1 := s <| hal_threads ::= _ |>).
  pose proof (serve_spec (session_alive (hal_service s)) ks (mkServed [] [] g (hal_blocklist s)) Hnd Hpos) as Hspec.
  cbn zeta in Hspec. cbn [sv_group sv_blocklist sv_calls sv_woken] in Hspec.
  destruct (to_read g (hal_blocklist s) ks) as [cs bl].
  destruct (thread_visits hm env gid _ (session_alive (hal_service s)) ks g s1 Hlen) as [i E];
    [exact Hi | done | apply lookup_insert_eq | exact Hg |].
  change (hal_blocklist s1) with (hal_blocklist s) in E. set (x := foldl _ _ ks) in *. destruct Hspec as (A & B & C & D).
  exists i, (sv_calls x), (sv_group x). split_and!; [| exact A | exact D].
  rewrite E, B, C, app_nil_l. unfold s1. destruct s as [sv bl0 th p wakes]. cbn -[make_calls].
  by rewrite insert_insert_eq, <- list_fmap_compose.
Qed.

(** ** Witnesses *)

Definition example_messages : list ChannelMessage :=
  [mkChannelMessage 1 10 (Msg_targetDuration 20000000);
   mkChannelMessage 1 20 (Msg_workDuration 20000000 15000000 8000000 7000000);
   mkChannelMessage 1 30 (Msg_workDuration 40000000 18000000 9000000 8000000);
   mkChannelMessage 2 40 (Msg_hint HINT_CPU_LOAD_UP); mkChannelMessage 1 50 (Msg_hint HINT_CPU_LOAD_UP)].

(** Two sessions, one of them closed again; the other has a channel with
    messages for both. *)
Definition example_steps : list (Env * HalStep) :=
  (fun l => (example_env, l)) <$>
  [St_createHintSession (fun _ _ => 2) (new_TgidTypeChecker 0 9) (Some true) 1000 10100 [200; 201] 16666666 TAG_APP;
   St_createHintSession (fun _ _ => 0) (new_TgidTypeChecker 0 9) None 1001 10101 [300] 8333333 TAG_APP;
   St_getSessionChannel 1000 10100; St_client 0 0 true example_messages; St_session 2 Phs_close].

Definition example_hal : PowerHal (list ascii) :=
  start_hal (mSupportInfo (sv_power example_service)) example_open 8 "" "" "" None 5 (Some 10)
    (std_to_string 500000) (fun n => Z.of_nat n * 1000).

Definition example_hal_after : PowerHal (list ascii) :=
  default example_hal (hal_run example_hmi default_IhConfig example_steps example_hal).

Lemma example_hal_run : hal_run example_hmi default_IhConfig example_steps example_hal = Some example_hal_after.
Proof.
  unfold example_hal_after. destruct (hal_run _ _ _ _) eqn:E; [done |]. exfalso. vm_compute in E. discriminate.
Qed.

Lemma power_hal_refines_manager_witness :
  exists s mops, hal_run example_hmi default_IhConfig example_steps example_hal = Some s /\
    hal_manager s = psm_run mops (new_PSM None 5 (Some 10)) /\ (length mops <= 40)%nat.
Proof.
  destruct (power_hal_refines_manager example_hmi default_IhConfig (mSupportInfo (sv_power example_service)) example_open 8 "" "" ""
    None 5 (Some 10) (std_to_string 500000) (fun n => Z.of_nat n * 1000) example_steps) as (s & mops & A & B & C & _).
  - vm_compute; reflexivity.
  - repeat constructor; cbn; unfold is_i32; lia.
  - exists s, mops. split; [exact A | split; [exact B | exact C]].
Defined.

(** One session with two votes on. *)
Lemma two_votes_due (m : PowerSessionManager) (t k : Z) (e : ValEntry) (a b : Z) (va vb : CpuVote) :
  Forall (fun d => d <= t) (map deadline (mPackageQueue (mWorker (mEventSessionTimeoutWorker m)))) ->
  mSessions (mSessionTaskMap m) = {[k := e]} ->
  votes (deref (mSessionTaskMap m) (val e)) = mkVotes {[a := va; b := vb]} ∅ ->
  vr_timeout (cpu_range va) <= t -> vr_timeout (cpu_range vb) <= t -> all_due t m.
Proof.
  intros H1 H2 H3 Ha Hb. split; [by apply (Forall_map deadline (fun d => d <= t)) |].
  intros sid vs vid Hs. unfold session_votes in Hs. rewrite H2 in Hs.
  apply fmap_Some in Hs as (x & [_ <-]%lookup_singleton_Some & ->). rewrite H3.
  unfold Votes_voteIsActive, Votes_voteTimeout. cbn [mCpuVotes mGpuVotes].
  destruct (isGpuVote vid); [rewrite lookup_empty; discriminate |].
  rewrite lookup_insert. destruct (decide (a = vid)); [done |].
  rewrite lookup_singleton. by destruct (decide (b = vid)).
Qed.

Lemma example_hal_due : all_due 100000000 (hal_manager example_hal_after).
Proof.
  apply (two_votes_due _ 100000000 1 (mkValEntry 2%positive [200; 201]) 2 0 (new_CpuVote true 9000 8333333 400 1024)
    (new_CpuVote true 18000 16666666 100 1024)).
  - assert (map deadline (mPackageQueue (mWorker (mEventSessionTimeoutWorker (hal_manager example_hal_after)))) =
      [4202666; 8342333; 8378333; 16684666]) as -> by (vm_compute; reflexivity).
    repeat constructor; lia.
  - vm_compute; reflexivity.
  - vm_compute; reflexivity.
  - vm_compute; discriminate.
  - vm_compute; discriminate.
Qed.

Lemma power_hal_votes_expire_witness :
  active_vote (mSessionTaskMap (hal_manager example_hal_after)) 1 (vote_int CPU_LOAD_RESET) /\
  exists s', hal_run example_hmi default_IhConfig
    (replicate (queue_length (hal_manager example_hal_after)) (example_env, St_timer 100000000 100000000)) example_hal_after = Some s' /\
    forall sid vid, ~ active_vote (mSessionTaskMap (hal_manager s')) sid vid.
Proof.
  split.
  { unfold active_vote. exists (mkValEntry 2%positive [200; 201]). split; vm_compute; reflexivity. }
  exact (power_hal_votes_expire example_hmi default_IhConfig (mSupportInfo (sv_power example_service)) example_open 8 "" "" ""
    None 5 (Some 10) (std_to_string 500000) (fun n => Z.of_nat n * 1000) example_steps example_hal_after example_env 100000000
    ltac:(vm_compute; reflexivity) example_hal_run example_hal_due).
Defined.

Lemma power_hal_sessions_witness :
  is_Some (psm_findSession (hal_manager example_hal_after) 1) /\ psm_findSession (hal_manager example_hal_after) 2 = None /\
  is_Some (sv_sessions (hal_service example_hal_after) !! 2).
Proof.
  destruct (power_hal_sessions example_hmi default_IhConfig (mSupportInfo (sv_power example_service)) example_open 8 "" "" ""
    None 5 (Some 10) (std_to_string 500000) (fun n => Z.of_nat n * 1000) example_steps example_hal_after
    ltac:(vm_compute; reflexivity) example_hal_run) as (A & _ & _).
  assert (exists h, sv_sessions (hal_service example_hal_after) !! 2 = Some h /\ mSessionClosed h = true) as (h & Hh & Hc).
  { eexists. split; vm_compute; reflexivity. }
  split; [| split].
  - apply A. eexists. split; vm_compute; reflexivity.
  - apply eq_None_not_Some. intros Hs. apply A in Hs as (h' & Hh' & Hc'). congruence.
  - rewrite Hh. eexists. reflexivity.
Defined.

Lemma group_thread_delivers_witness :
  exists g i, mChannelGroups (sv_channels (hal_service example_hal_after)) !! 0 = Some g /\
    length (to_read g (hal_blocklist example_hal_after) (List.filter (Z.testbit 1) (seqZ 0 16))).1 = 1%nat /\
    hal_threads (Nat.iter i (thread_step example_hmi example_env 0) (wake_group 0 1 example_hal_after)) !! 0 = Some idle_thread /\
    hal_wakes (Nat.iter i (thread_step example_hmi example_env 0) (wake_group 0 1 example_hal_after)) = [(0, 65536)].
Proof.
  destruct (mChannelGroups (sv_channels (hal_service example_hal_after)) !! 0) as [g |] eqn:Eg.
  2: { exfalso. vm_compute in Eg. discriminate. }
  pose proof (group_thread_delivers example_hmi default_IhConfig (mSupportInfo (sv_power example_service)) example_open 8 "" "" ""
    None 5 (Some 10) (std_to_string 500000) (fun n => Z.of_nat n * 1000) example_steps example_hal_after example_env 0 1 g
    ltac:(vm_compute; reflexivity) example_hal_run ltac:(vm_compute; reflexivity) Eg) as H.
  assert (exists ch, (to_read g (hal_blocklist example_hal_after) (List.filter (Z.testbit 1) (seqZ 0 16))).1 = [(0, ch)] /\
    mReadMask ch = 65536) as (ch & Ech & Em).
  { assert (Some g = mChannelGroups (sv_channels (hal_service example_hal_after)) !! 0) as Eg' by (symmetry; exact Eg).
    vm_compute in Eg'. injection Eg' as ->. eexists. split; vm_compute; reflexivity. }
  destruct (to_read g (hal_blocklist example_hal_after) (List.filter (Z.testbit 1) (seqZ 0 16))) as [cs bl] eqn:Et. cbn [fst] in Ech. subst cs.
  destruct H as (i & calls & g' & E & _). exists g, i. split; [reflexivity |].
  split; [rewrite Et; reflexivity |]. rewrite E. split; [reflexivity |].
  assert (hal_wakes example_hal_after = []) as Ew by (vm_compute; reflexivity).
  change (hal_wakes example_hal_after ++ [(0, mReadMask ch)] = [(0, 65536)]). rewrite Ew, Em. reflexivity.
Defined.
