(* ===== verification/PowerBoost.v ===== *)
(** * What a boost does to the threads
      (src/power-libperfmgr/aidl/PowerSessionManager.cpp applyUclampLocked,
       voteSet, EventSessionTimeoutWorker; PowerHintSession.cpp sendHint)

    The purpose of the HAL, from a client's hint to the scheduler: a vote of a
    session reaches the minimum utilisation of the session's threads at once,
    combined with what the other sessions of each thread demand, and a vote
    that times out is withdrawn from it.

    The specification is [demand]: the largest minimum of all votes that are in
    range, over the active sessions of a thread. *)

From Stdlib Require Import Ascii.
From S2P Require Import Prelude Text CFloat AdpfTypes UClampVoter SessionMetrics SessionRecords SessionTaskMap BackgroundWorker GpuNode PowerSessionManager PowerHintSession Channels InteractionHandler PowerService PowerSystem.

(** ** The specification *)

(** The clamp last handed to the scheduler for a thread, from the effects,
    newest first. *)
Fixpoint last_clamp (tid : Z) (effs : list Effect) : option (Z * Z) :=
  match effs with
  | [] => None
  | Eff_sched_setattr t mn mx :: effs => if t =? tid then Some (mn, mx) else last_clamp tid effs
  | _ :: effs => last_clamp tid effs
  end.

(** The minima demanded at time [t] by the votes of one session. *)
Definition session_demands (t : Z) (v : SessionValueEntry) : list Z :=
  if isActive v then
    uclampMin ∘ mUclampRange <$> List.filter (fun c => isTimeInRange (cpu_range c) t) (cpu_vote_list (votes v))
  else [].

Definition demand (m : SessionTaskMap) (tid t : Z) : Z :=
  foldl Z.max 0 ((deref m <$> at_task (mTasks m) tid) ≫= session_demands t).

(** ** The range of a thread *)

Lemma foldl_max_le (l : list Z) (a : Z) : a <= foldl Z.max a l.
Proof. revert a. induction l as [| x l IH]; intros a; simpl; [lia |]. pose proof (IH (Z.max a x)). lia. Qed.

Lemma foldl_max_elem (l : list Z) (a x : Z) : x ∈ l -> x <= foldl Z.max a l.
Proof.
  revert a. induction l as [| y l IH]; intros a Hx; [by apply not_elem_of_nil in Hx |]. simpl.
  apply elem_of_cons in Hx as [-> | Hx]; [| by apply IH]. pose proof (foldl_max_le l (Z.max a y)). lia.
Qed.

Lemma getUclampRange_min (t : Z) (l : list CpuVote) (r : UclampRange) :
  uclampMin (foldl (confine t) r l) =
    foldl Z.max (uclampMin r) (uclampMin ∘ mUclampRange <$> List.filter (fun c => isTimeInRange (cpu_range c) t) l).
Proof.
  revert r. induction l as [| c l IH]; intros r; simpl; [done |]. rewrite IH. unfold confine.
  by destruct (isTimeInRange (cpu_range c) t).
Qed.

Lemma session_range_min (t : Z) (base offset : option Z) (vs : list SessionValueEntry) (r : UclampRange) :
  uclampMin (foldl (session_vote_range t base offset) r vs) = foldl Z.max (uclampMin r) (vs ≫= session_demands t).
Proof.
  revert r. induction vs as [| v vs IH]; intros r; simpl; [done |]. rewrite foldl_app, IH. f_equal.
  unfold session_vote_range, session_demands. destruct (isActive v); [| done]. cbn [negb].
  rewrite <- getUclampRange_min. unfold Votes_getUclampRange. by destruct (isPowerEfficient v), base.
Qed.

Lemma task_range_min (m : SessionTaskMap) (tid t : Z) (base offset : option Z) :
  uclampMin (stm_getTaskVoteRange m tid t default_UclampRange base offset) = demand m tid t.
Proof.
  unfold stm_getTaskVoteRange, demand, at_task. destruct (mTasks m !! tid); [apply session_range_min | done].
Qed.

Lemma demand_nonneg (m : SessionTaskMap) (tid t : Z) : 0 <= demand m tid t.
Proof. apply foldl_max_le. Qed.

(** Only the votes and the activity of the sessions matter. *)
Lemma demand_ext (m m' : SessionTaskMap) (tid t : Z) :
  mTasks m' = mTasks m ->
  (forall p, isActive (deref m' p) = isActive (deref m p) /\ votes (deref m' p) = votes (deref m p)) ->
  demand m' tid t = demand m tid t.
Proof.
  intros Ht Hd. unfold demand. rewrite Ht. f_equal. induction (at_task (mTasks m) tid) as [| p ps IH]; [done |].
  cbn. rewrite IH. f_equal. unfold session_demands. destruct (Hd p) as [-> ->]. done.
Qed.

(** A vote in range of an active session of the thread is in the demand. *)
Lemma demand_vote (m : SessionTaskMap) (sid tid t : Z) (e : ValEntry) (c : CpuVote) :
  stm_wf m -> mSessions m !! sid = Some e -> tid ∈ linkedTasks e -> isActive (deref m (val e)) = true ->
  c ∈ cpu_vote_list (votes (deref m (val e))) -> isTimeInRange (cpu_range c) t = true ->
  uclampMin (mUclampRange c) <= demand m tid t.
Proof.
  intros Hwf He Ht Ha Hc Hr. apply foldl_max_elem, list_elem_of_bind. exists (deref m (val e)). split.
  - unfold session_demands. rewrite Ha. apply list_elem_of_fmap. exists c. split; [done |].
    apply list_elem_of_In, filter_In. split; [by apply list_elem_of_In | done].
  - apply list_elem_of_fmap. exists (val e). split; [done |]. apply occ_elem. rewrite (wf_count _ Hwf tid sid e He). by apply occ_elem.
Qed.

(** ** Applying the votes *)

(** The lower end of a clamp that serves a demand. *)
Definition served (m : SessionTaskMap) (tid t : Z) (clamp : option (Z * Z)) : Prop :=
  exists hi, clamp = Some (Z.min kUclampMax (demand m tid t), hi) /\ Z.min kUclampMax (demand m tid t) <= hi <= kUclampMax.

Section applied.
Context (env : Env) (sid t : Z).
Implicit Types s : PowerSessionManager.

(** Without dead threads the loop only writes, and serves every thread. *)
Lemma uclamp_loop_applied (l1 todo : list Z) s :
  (forall tr tid, tid ∈ todo -> sched_setattr_errno env tr tid <> ESRCH) ->
  mSessionTaskMap (uclamp_loop env sid t l1 todo s) = mSessionTaskMap s /\
  forall tid, tid ∈ todo \/ served (mSessionTaskMap s) tid t (last_clamp tid (effects s)) ->
    served (mSessionTaskMap s) tid t (last_clamp tid (effects (uclamp_loop env sid t l1 todo s))).
Proof.
  revert l1 s. induction todo as [| x todo IH]; intros l1 s Hno; cbn [uclamp_loop].
  - split; [done |]. intros tid [Hx | Hs]; [by apply not_elem_of_nil in Hx | done].
  - unfold set_uclamp. cbn [fst snd].
    match goal with |- context [optional_read ?d s] => set (s0 := optional_read d s) end.
    assert (forall tid, last_clamp tid (effects s0) = last_clamp tid (effects s)) as Hlast.
    { unfold s0, optional_read. cbn. by destruct (stm_getTaskVoteRange_defined _ _ _ _ _). }
    destruct (Z.eqb_spec (sched_setattr_errno env (effects s0) x) ESRCH) as [E | E].
    { destruct (Hno (effects s0) x); [by constructor | done]. }
    match goal with |- context [emit ?e s0] => set (s1 := emit e s0) end.
    destruct (IH (l1 ++ [x]) s1) as [A B]; [intros tr tid Ht; apply Hno; by constructor |].
    split; [by rewrite A |]. intros tid Htid. apply B. change (mSessionTaskMap s1) with (mSessionTaskMap s).
    destruct (decide (tid = x)) as [-> | Hne].
    + right. unfold s1. cbn. rewrite Z.eqb_refl, task_range_min. pose proof (demand_nonneg (mSessionTaskMap s) x t).
      unfold kUclampMin. replace (Z.max 0 (demand (mSessionTaskMap s) x t)) with (demand (mSessionTaskMap s) x t) by lia.
      eexists. split; [by rewrite (Z.min_comm (demand _ _ _)) | lia].
    + destruct Htid as [Htid | Hs]; [left; by apply elem_of_cons in Htid as [|] |]. right. unfold s1. cbn.
      destruct (Z.eqb_spec x tid); [congruence | by rewrite Hlast].
Qed.

Lemma applyUclamp_applied (p : loc) s :
  psm_findSession s sid = Some p -> mUclampMinOn (GetAdpfProfile env) = true ->
  (forall tr tid, tid ∈ stm_getTaskIds (mSessionTaskMap s) sid -> sched_setattr_errno env tr tid <> ESRCH) ->
  let s' := applyUclampLocked env sid t s in
  mSessionTaskMap s' = stm_modify p (fun v => v <| lastUpdatedTime := t |>) (mSessionTaskMap s) /\
  forall tid, tid ∈ stm_getTaskIds (mSessionTaskMap s) sid -> served (mSessionTaskMap s') tid t (last_clamp tid (effects s')).
Proof.
  intros Hp Hon Hno s'. unfold s', applyUclampLocked. rewrite Hp, Hon. cbn [negb].
  destruct (uclamp_loop_applied [] (stm_getTaskIds (mSessionTaskMap s) sid) s Hno) as [A B].
  cbn. rewrite A. split; [done |]. intros tid Htid. specialize (B tid (or_introl Htid)).
  unfold served in *. rewrite (demand_ext (mSessionTaskMap s)); [done | done |]. intros q. rewrite deref_modify.
  by destruct (decide _).
Qed.

End applied.

(** ** Votes *)

Lemma schedule_if_same (b : bool) (sid vid st dl : Z) (s : PowerSessionManager) :
  mSessionTaskMap (schedule_timeout_if b sid vid st dl s) = mSessionTaskMap s /\
  effects (schedule_timeout_if b sid vid st dl s) = effects s.
Proof. by destruct b. Qed.

(** The entry of a session that gets a vote. *)
Definition voted (vid : Z) (c : CpuVote) (t : Z) (v : SessionValueEntry) : SessionValueEntry :=
  v <| votes ::= Votes_add_cpu vid c |> <| lastUpdatedTime := t |>.

Lemma modify_twice (p : loc) f g (m : SessionTaskMap) : stm_modify p g (stm_modify p f m) = stm_modify p (g ∘ f) m.
Proof.
  unfold stm_modify. destruct m as [heap n ss ts]. cbn. f_equal. apply map_eq. intros k. rewrite !lookup_alter.
  rewrite (decide_True (P := p = p)) by done. destruct (decide (p = k)) as [<- |]; [by destruct (heap !! p) | done].
Qed.

Lemma voted_wf (p : loc) (vid t : Z) (c : CpuVote) (m : SessionTaskMap) : stm_wf m -> stm_wf (stm_modify p (voted vid c t) m).
Proof. intros Hwf. apply stm_modify_wf; [done | | done]. cbn. auto with inv. Qed.

(** The threads of a session can be clamped and are alive. *)
Definition threads_alive (env : Env) (s : PowerSessionManager) (sid : Z) : Prop :=
  mUclampMinOn (GetAdpfProfile env) = true /\
  forall tr tid, tid ∈ stm_getTaskIds (mSessionTaskMap s) sid -> sched_setattr_errno env tr tid <> ESRCH.

Section votes.
Context (env : Env) (s : PowerSessionManager) (sid : Z) (e : ValEntry).
Context (Hwf : stm_wf (mSessionTaskMap s)) (He : mSessions (mSessionTaskMap s) !! sid = Some e) (Hal : threads_alive env s sid).

Lemma found : psm_findSession s sid = Some (val e).
Proof. unfold psm_findSession, stm_findSession. by rewrite He. Qed.

Lemma voteSet_cpu_applied (v : AdpfVoteType) (mn mx t d : Z) :
  let s' := voteSet_cpu env sid v mn mx t d s in
  mSessionTaskMap s' = stm_modify (val e) (voted (vote_int v) (new_CpuVote true t d mn mx) t) (mSessionTaskMap s) /\
  forall tid, tid ∈ linkedTasks e -> served (mSessionTaskMap s') tid t (last_clamp tid (effects s')).
Proof.
  intros s'. unfold s', voteSet_cpu, voteSet_cpu_locked. rewrite found.
  set (s1 := psm_modify (val e) _ _). set (b := shouldScheduleTimeout _ _ _).
  destruct (schedule_if_same b sid (vote_int v) t (t +₆₄ d) (applyUclampLocked env sid t s1)) as [-> ->].
  assert (mSessionTaskMap s1 = stm_modify (val e) (voted (vote_int v) (new_CpuVote true t d mn mx) t) (mSessionTaskMap s)) as Hm.
  { unfold s1, stm_addVote. cbn -[stm_modify]. rewrite He, modify_twice. done. }
  assert (stm_getTaskIds (mSessionTaskMap s1) sid = linkedTasks e) as Ht.
  { rewrite Hm. unfold stm_getTaskIds. cbn. by rewrite He. }
  destruct (applyUclamp_applied env sid t (val e) s1) as [A B].
  - unfold psm_findSession, stm_findSession. rewrite Hm. cbn. by rewrite He.
  - apply Hal.
  - intros tr tid. rewrite Ht. intros Htid. apply Hal. unfold stm_getTaskIds. by rewrite He.
  - rewrite Ht in B. split; [| exact B]. rewrite A, Hm, modify_twice. unfold stm_modify. f_equal.
Qed.

(** The vote itself is part of what is served. *)
Lemma voteSet_cpu_demand (v : AdpfVoteType) (mn mx t d tid : Z) :
  isGpuVote (vote_int v) = false -> 0 <= d -> is_i64 (t + d) ->
  isActive (deref (mSessionTaskMap s) (val e)) = true -> tid ∈ linkedTasks e ->
  mn <= demand (mSessionTaskMap (voteSet_cpu env sid v mn mx t d s)) tid t.
Proof.
  intros Hv Hd Hi Ha Ht. destruct (voteSet_cpu_applied v mn mx t d) as [-> _].
  set (c := new_CpuVote true t d mn mx). set (m' := stm_modify _ _ _).
  assert (stm_wf m') as Hwf' by by apply voted_wf.
  assert (deref m' (val e) = voted (vote_int v) c t (deref (mSessionTaskMap s) (val e))) as Hd'.
  { unfold m'. rewrite deref_modify, decide_True; [done |]. destruct (wf_val _ Hwf _ _ He) as (x & Hx & _). eauto. }
  change mn with (uclampMin (mUclampRange c)).
  apply (demand_vote m' sid tid t e c); [done | done | done | by rewrite Hd' | |].
  - rewrite Hd'. cbn. unfold Votes_add_cpu. rewrite Hv. unfold cpu_vote_list. cbn. apply list_elem_of_fmap.
    exists (vote_int v, c). split; [done |]. apply elem_of_map_to_list, lookup_insert_eq.
  - unfold isTimeInRange, vr_timeout. cbn. rewrite (i64_id (t + d)) by done. lia.
Qed.

(** The handler of a timeout that finds its vote over. *)
Lemma handleEvent_applied (ev : EventSessionTimeout) (t : Z) :
  ev_sessionId ev = sid ->
  Votes_voteIsActive (votes (deref (mSessionTaskMap s) (val e))) (ev_voteId ev) = true ->
  Votes_voteTimeout (votes (deref (mSessionTaskMap s) (val e))) (ev_voteId ev) <= t ->
  let s' := handleEvent env ev t s in
  (forall k, session_votes (mSessionTaskMap s') k =
     if decide (k = sid) then Some ((Votes_setUseVote (ev_voteId ev) false (votes (deref (mSessionTaskMap s) (val e)))).2)
     else session_votes (mSessionTaskMap s) k) /\
  forall tid, tid ∈ linkedTasks e -> served (mSessionTaskMap s') tid t (last_clamp tid (effects s')).
Proof.
  intros Hev Hact Hover s'. unfold s', handleEvent, handleEvent_locked. rewrite Hev, found. unfold psm_deref. rewrite Hact.
  destruct (Z.leb_spec (Votes_voteTimeout (votes (deref (mSessionTaskMap s) (val e))) (ev_voteId ev)) t); [| lia].
  set (s1 := psm_modify (val e) _ s). split.
  - intros k. rewrite applyCpuAndGpuVotes_votes. unfold session_votes. cbn.
    destruct (decide (k = sid)) as [-> | Hne].
    + rewrite He. cbn. rewrite deref_modify, decide_True; [done |]. destruct (wf_val _ Hwf _ _ He) as (x & Hx & _). eauto.
    + destruct (mSessions (mSessionTaskMap s) !! k) as [e2 |] eqn:E2; [| done]. cbn. rewrite deref_modify, decide_False; [done |].
      intros [Hval _]. apply Hne. eapply val_inj; [exact Hwf | exact E2 | exact He | done].
  - intros tid Htid. destruct (applyUclamp_applied env sid t (val e) s1) as [A B].
    + exact found.
    + apply Hal.
    + exact (proj2 Hal).
    + assert (tid ∈ stm_getTaskIds (mSessionTaskMap s1) sid) as Hin by (unfold stm_getTaskIds; cbn; by rewrite He).
      specialize (B tid Hin). unfold applyCpuAndGpuVotes. set (s2 := applyUclampLocked env sid t s1) in *.
      unfold applyGpuVotesLocked. destruct (psm_findSession s2 sid) as [p2 |]; [| done].
      assert (forall p m, demand (stm_modify p (fun v => v <| lastUpdatedTime := t |>) m) tid t = demand m tid t) as Hdm.
      { intros p m. apply demand_ext; [done |]. intros q. rewrite deref_modify. by destruct (decide _). }
      destruct (mGpuCapacityNode s2) as [[nd |] |], (mGpuBoostOn (GetAdpfProfile env)); cbn -[stm_modify];
        unfold served in *; by rewrite Hdm.
Qed.

End votes.

(** ** A hint, from the client to the scheduler *)

(** The two votes behind a CPU_LOAD_UP hint: the session's own value is voted
    for again, then the boost. *)
Lemma load_up_manager {W : Type} `{FdInterface W} (hm : HintManager) (env : Env) (h : PowerHintSession)
    (w : World (PowerSessionManager * W)) :
  mSessionClosed h = false -> targetNs (mDescriptor h) <> 0 ->
  exists d, let c := getAdpfProfile hm h in
    (w_mgr (phs_op (H := psm_manager env) hm (Phs_sendHint HINT_CPU_LOAD_UP) h w).2.2).1 =
      voteSet_cpu env (mSessionId h) CPU_LOAD_UP (mUclampMinLoadUp c) kUclampMax (w_clock w 9%nat) (i64 (targetNs (mDescriptor h) * 2))
        (voteSet_cpu env (mSessionId h) CPU_VOTE_DEFAULT (pidControlVariable (mDescriptor h)) kUclampMax (w_clock w 0%nat) d (w_mgr w).1).
Proof.
  intros Hc Ht. eexists. cbn zeta. cbn [phs_op]. unfold sendHint. rewrite Hc. destruct (Z.eqb_spec (targetNs (mDescriptor h)) 0); [done |].
  unfold send_hint_locked, updatePidControlVariable, vote_cpu_now, steady_now, call. cbn -[voteSet_cpu tryToSendPowerHint Nat.add].
  match goal with |- context [tryToSendPowerHint hm ?nm None ?x ?y] =>
    assert (w_mgr (tryToSendPowerHint hm nm None x y).2 = w_mgr y) as Hm by
      (unfold tryToSendPowerHint; by destruct (hintSupported hm nm x) as [[] ?]);
    destruct (tryToSendPowerHint hm nm None x y) as [h2 w2] end.
  rewrite bool_decide_false by done. cbn [andb snd] in Hm |- *. rewrite Hm. cbn -[voteSet_cpu]. by rewrite !prod_map_fst.
Qed.

(** C15. A boost reaches the scheduler at once: after any run of whole steps of
    the HAL, with a profile that has clamping on, a CPU_LOAD_UP hint on an open
    session with a positive target, active at the manager and all of whose
    threads are alive, leaves every thread of the session with a minimum
    utilisation that is the largest minimum any vote in range demands at the
    time of the boost's vote (the tenth reading of the clock), over all active
    sessions of the thread, capped at 1024; and the value configured for the
    hint is part of that demand. *)
Theorem load_up_hint_boosts_threads {W : Type} `{FdInterface W} (hm : HintManagerInfo) (c : IhConfig) (info : SupportInfo)
    (open : string -> Z) (evfd : Z) (st au re : string) (node : option (option GpuCapacityNode)) (fd : Z) (mx : option Z)
    (fs : W) (clock : Readings) (steps : list (Env * HalStep)) (s : PowerHal W) (env : Env) (k : Z) (h : PowerHintSession)
    (v : SessionValueEntry)
    (Hlen : Z.of_nat (length steps) < 2 ^ 31)
    (Hrun : hal_run hm c steps (start_hal info open evfd st au re node fd mx fs clock) = Some s)
    (Hk : sv_sessions (hal_service s) !! k = Some h) (Hopen : mSessionClosed h = false)
    (Ht : 0 < targetNs (mDescriptor h) < 2 ^ 60) (Hclk : 0 <= w_clock (sv_world (hal_service s)) 9%nat < 2 ^ 62)
    (Hv : session_value (mSessionTaskMap (hal_manager s)) k = Some v) (Hactive : isActive v = true)
    (Hal : threads_alive env (hal_manager s) k) :
  let t := w_clock (sv_world (hal_service s)) 9%nat in
  exists s', hal_step hm c env (St_session k (Phs_sendHint HINT_CPU_LOAD_UP)) s = Some s' /\
    forall tid, tid ∈ stm_getTaskIds (mSessionTaskMap (hal_manager s)) k ->
      served (mSessionTaskMap (hal_manager s')) tid t (last_clamp tid (effects (hal_manager s'))) /\
      mUclampMinLoadUp (getAdpfProfile (hmi hm) h) <= demand (mSessionTaskMap (hal_manager s')) tid t.
Proof.
  intros t. destruct (start_hal_facts info open evfd st au re node fd mx fs clock) as (_ & _ & H0).
  pose proof (hal_run_sessions hm c steps 0 _ s H0 ltac:(lia) Hrun) as [Hi _].
  destruct (si_ids _ _ _ Hi k h Hk) as [Hid _]. clear Hi H0.
  destruct (hal_manager_reachable hm c info open evfd st au re node fd mx fs clock steps s ltac:(lia) Hrun) as [[Hinv _ _] _].
  pose proof (pi_wf _ _ Hinv) as Hwf. clear Hinv.
  unfold session_value in Hv. apply fmap_Some in Hv as (e & He & ->).
  unfold stm_getTaskIds. rewrite He.
  exists (s <| hal_service := call_session hm env k (Phs_sendHint HINT_CPU_LOAD_UP) (hal_service s) |>). split; [reflexivity |].
  rewrite hal_manager_set. unfold call_session. rewrite Hk.
  destruct (load_up_manager (hmi hm) env h (sv_world (hal_service s)) Hopen ltac:(lia)) as [d Hm]. cbn zeta in Hm.
  destruct (phs_op (hmi hm) _ h (sv_world (hal_service s))) as [st' [h' w']]. cbn [snd] in Hm.
  unfold service_manager. cbn -[voteSet_cpu]. rewrite Hm, Hid. clear Hm. change (w_mgr (sv_world (hal_service s))).1 with (hal_manager s).
  destruct (voteSet_cpu_applied env (hal_manager s) k e He Hal CPU_VOTE_DEFAULT (pidControlVariable (mDescriptor h)) kUclampMax
    (w_clock (sv_world (hal_service s)) 0%nat) d) as [Hm1 _].
  set (s1 := voteSet_cpu env k CPU_VOTE_DEFAULT _ _ _ _ _) in *.
  assert (stm_wf (mSessionTaskMap s1)) as Hwf1 by (rewrite Hm1; by apply voted_wf).
  assert (mSessions (mSessionTaskMap s1) !! k = Some e) as He1 by by rewrite Hm1.
  assert (threads_alive env s1 k) as Hal1.
  { destruct Hal as [A B]. split; [done |]. intros tr tid. unfold stm_getTaskIds in *. rewrite He1. rewrite He in B. apply B. }
  intros tid Htid. split.
  - by apply (voteSet_cpu_applied env s1 k e He1 Hal1).
  - apply (voteSet_cpu_demand env s1 k e Hwf1 He1 Hal1); [done | | | | done].
    + rewrite i64_id by (unfold is_i64; lia). lia.
    + rewrite i64_id by (unfold is_i64; lia). unfold is_i64; lia.
    + rewrite Hm1, deref_modify, decide_True; [done |]. destruct (wf_val _ Hwf _ _ He) as (x & Hx & _). eauto.
Qed.

(** C16. A boost is withdrawn when it times out: after any run of whole steps of
    the HAL, with a profile that has clamping on, the turn of the pool's thread
    that takes the timeout of a vote whose deadline has passed switches exactly
    that vote off and, if all threads of its session are alive, leaves each with
    a minimum utilisation that is the largest minimum the votes still in range
    demand, over all active sessions of the thread. *)
Theorem timeout_withdraws_boost {W : Type} `{FdInterface W} (hm : HintManagerInfo) (c : IhConfig) (info : SupportInfo)
    (open : string -> Z) (evfd : Z) (st au re : string) (node : option (option GpuCapacityNode)) (fd : Z) (mx : option Z)
    (fs : W) (clock : Readings) (steps : list (Env * HalStep)) (s : PowerHal W) (env : Env) (f t : Z) (ev : EventSessionTimeout)
    (vs : Votes)
    (Hlen : Z.of_nat (length steps) < 2 ^ 31)
    (Hrun : hal_run hm c steps (start_hal info open evfd st au re node fd mx fs clock) = Some s)
    (Hev : (worker_fire f (mEventSessionTimeoutWorker (hal_manager s))).1 = Some ev)
    (Hvs : session_votes (mSessionTaskMap (hal_manager s)) (ev_sessionId ev) = Some vs)
    (Hact : Votes_voteIsActive vs (ev_voteId ev) = true) (Hover : Votes_voteTimeout vs (ev_voteId ev) <= t)
    (Hal : threads_alive env (hal_manager s) (ev_sessionId ev)) :
  exists s', hal_step hm c env (St_timer f t) s = Some s' /\
    session_votes (mSessionTaskMap (hal_manager s')) (ev_sessionId ev) = Some (Votes_setUseVote (ev_voteId ev) false vs).2 /\
    (forall k, k <> ev_sessionId ev ->
       session_votes (mSessionTaskMap (hal_manager s')) k = session_votes (mSessionTaskMap (hal_manager s)) k) /\
    forall tid, tid ∈ stm_getTaskIds (mSessionTaskMap (hal_manager s)) (ev_sessionId ev) ->
      served (mSessionTaskMap (hal_manager s')) tid t (last_clamp tid (effects (hal_manager s'))).
Proof.
  destruct (hal_manager_reachable hm c info open evfd st au re node fd mx fs clock steps s ltac:(lia) Hrun) as [[Hinv _ _] _].
  pose proof (pi_wf _ _ Hinv) as Hwf. clear Hinv. unfold session_votes in Hvs. apply fmap_Some in Hvs as (e & He & ->).
  exists (s <| hal_service := on_psm (timer_turn env f t) (hal_service s) |>). split; [reflexivity |].
  rewrite hal_manager_set, on_psm_manager. unfold timer_turn.
  change (service_manager (hal_service s)) with (hal_manager s).
  destruct (worker_fire f (mEventSessionTimeoutWorker (hal_manager s))) as [o w]. cbn [fst] in Hev. subst o.
  set (s1 := (hal_manager s) <| mEventSessionTimeoutWorker := w |>).
  destruct (handleEvent_applied env s1 (ev_sessionId ev) e Hwf He Hal ev t eq_refl Hact Hover) as [A B].
  split_and!.
  - by rewrite A, decide_True.
  - intros k Hk. by rewrite A, decide_False.
  - intros tid. unfold stm_getTaskIds. rewrite He. apply B.
Qed.

(** ** Witnesses *)

Definition example_open_session : PowerHintSession :=
  default example_session (sv_sessions (hal_service example_hal_after) !! 1).

Lemma example_open_lookup : sv_sessions (hal_service example_hal_after) !! 1 = Some example_open_session.
Proof.
  unfold example_open_session. destruct (sv_sessions (hal_service example_hal_after) !! 1) eqn:E; [done |].
  exfalso. vm_compute in E. discriminate.
Qed.

Definition example_value : SessionValueEntry :=
  default empty_SessionValueEntry (session_value (mSessionTaskMap (hal_manager example_hal_after)) 1).

Lemma example_value_lookup : session_value (mSessionTaskMap (hal_manager example_hal_after)) 1 = Some example_value.
Proof.
  unfold example_value. destruct (session_value _ 1) eqn:E; [done |]. exfalso. vm_compute in E. discriminate.
Qed.

Lemma example_alive (k : Z) : threads_alive example_env (hal_manager example_hal_after) k.
Proof. split; [reflexivity | intros tr tid _; discriminate]. Qed.

Lemma load_up_hint_boosts_threads_witness :
  let t := w_clock (sv_world (hal_service example_hal_after)) 9%nat in
  exists s' hi, hal_step example_hmi default_IhConfig example_env (St_session 1 (Phs_sendHint HINT_CPU_LOAD_UP)) example_hal_after = Some s' /\
    300 <= demand (mSessionTaskMap (hal_manager s')) 200 t /\
    last_clamp 200 (effects (hal_manager s')) = Some (Z.min kUclampMax (demand (mSessionTaskMap (hal_manager s')) 200 t), hi).
Proof.
  intros t. destruct (load_up_hint_boosts_threads example_hmi default_IhConfig (mSupportInfo (sv_power example_service)) example_open 8 "" "" ""
    None 5 (Some 10) (std_to_string 500000) (fun n => Z.of_nat n * 1000) example_steps example_hal_after example_env 1
    example_open_session example_value) as (s' & Hs & Hall).
  - vm_compute; reflexivity.
  - exact example_hal_run.
  - exact example_open_lookup.
  - vm_compute; reflexivity.
  - split; vm_compute; reflexivity.
  - split; [vm_compute; discriminate | vm_compute; reflexivity].
  - exact example_value_lookup.
  - vm_compute; reflexivity.
  - apply example_alive.
  - destruct (Hall 200) as [(hi & Hc & _) Hd].
    + apply list_elem_of_In. vm_compute. tauto.
    + exists s', hi. split; [exact Hs | split; [| exact Hc]].
      assert (mUclampMinLoadUp (getAdpfProfile (hmi example_hmi) example_open_session) = 300) as E by (vm_compute; reflexivity).
      rewrite E in Hd. exact Hd.
Defined.

(** One session, just created, with its two votes on. *)
Definition example_one_step : list (Env * HalStep) := take 1 example_steps.

Definition example_hal_one : PowerHal (list ascii) :=
  default example_hal (hal_run example_hmi default_IhConfig example_one_step example_hal).

Lemma example_one_run : hal_run example_hmi default_IhConfig example_one_step example_hal = Some example_hal_one.
Proof.
  unfold example_hal_one. destruct (hal_run _ _ _ _) eqn:E; [done |]. exfalso. vm_compute in E. discriminate.
Qed.

Definition example_event : EventSessionTimeout :=
  default (mkEventSessionTimeout 0 0 0) (worker_fire 20000000 (mEventSessionTimeoutWorker (hal_manager example_hal_one))).1.

Lemma example_event_fires : (worker_fire 20000000 (mEventSessionTimeoutWorker (hal_manager example_hal_one))).1 = Some example_event.
Proof.
  unfold example_event. destruct (worker_fire 20000000 _).1 eqn:E; [done |]. exfalso. vm_compute in E. discriminate.
Qed.

Definition example_votes : Votes :=
  default empty_Votes (session_votes (mSessionTaskMap (hal_manager example_hal_one)) (ev_sessionId example_event)).

Lemma example_votes_lookup :
  session_votes (mSessionTaskMap (hal_manager example_hal_one)) (ev_sessionId example_event) = Some example_votes.
Proof.
  unfold example_votes. destruct (session_votes _ _) eqn:E; [done |]. exfalso. vm_compute in E. discriminate.
Qed.

Lemma timeout_withdraws_boost_witness :
  exists s', hal_step example_hmi default_IhConfig example_env (St_timer 20000000 20000000) example_hal_one = Some s' /\
    session_votes (mSessionTaskMap (hal_manager s')) 1 = Some (Votes_setUseVote (vote_int CPU_LOAD_RESET) false example_votes).2 /\
    served (mSessionTaskMap (hal_manager s')) 201 20000000 (last_clamp 201 (effects (hal_manager s'))).
Proof.
  destruct (timeout_withdraws_boost example_hmi default_IhConfig (mSupportInfo (sv_power example_service)) example_open 8 "" "" ""
    None 5 (Some 10) (std_to_string 500000) (fun n => Z.of_nat n * 1000) example_one_step example_hal_one example_env
    20000000 20000000 example_event example_votes) as (s' & Hs & Hv & _ & Hall).
  - vm_compute; reflexivity.
  - exact example_one_run.
  - exact example_event_fires.
  - exact example_votes_lookup.
  - vm_compute; reflexivity.
  - vm_compute; discriminate.
  - split; [reflexivity | intros tr tid _; discriminate].
  - assert (ev_sessionId example_event = 1) as E1 by (vm_compute; reflexivity).
    assert (ev_voteId example_event = vote_int CPU_LOAD_RESET) as E2 by (vm_compute; reflexivity).
    rewrite E1, E2 in Hv. exists s'. split; [exact Hs | split; [exact Hv |]].
    apply Hall. apply list_elem_of_In. vm_compute. tauto.
Defined.
