(* ===== verification/SysFs.v ===== *)
(** * The file system the services drive hardware through

    The light, health, USB, vibrator and display services talk to the kernel
    by reading and writing small text files.  What they rely on of the file
    system is the type class [FileSystem]; their operations are computations
    of the state monad [IO F] over its state.  [WriteHistory] adds the one law
    the theorems about effects need: every write that finds its file is
    recorded, in order.  [RamFs] is a concrete file system that satisfies it,
    in which the examples run. *)

From S2P Require Import Prelude Text.

(** The outcome of opening a file for writing and writing a text to it: the
    file could not be opened, the write failed, or all of it was written. *)
Inductive WriteResult := NotOpened | WriteFailed | Written.

#[export] Instance WriteResult_eq_dec : EqDecision WriteResult.
Proof. solve_decision. Defined.

(** An entry: its name, whether it is a symbolic link ([d_type == DT_LNK]) and
    whether it is a directory once links are followed. *)
Record DirEntry := mkDirEntry { de_name : string; de_is_link : bool; de_is_dir : bool }.

Class FileSystem (F : Type) := {
  (** content of a file that can be opened for reading *)
  fs_read : string -> F -> option string;
  fs_write : string -> string -> F -> WriteResult * F;
  (** whether a file can be opened for writing *)
  fs_open_write : string -> F -> bool;
  (** the entries of a directory that can be opened, in [readdir] order *)
  fs_list : string -> F -> option (list DirEntry)
}.

(** ** The state monad of file operations *)

Definition IO (F A : Type) : Type := F -> A * F.

#[export] Instance IO_ret {F} : MRet (IO F) := fun A x f => (x, f).
#[export] Instance IO_bind {F} : MBind (IO F) := fun A B k m f => let '(x, f) := m f in k x f.

Lemma IO_then_ret {F A B} (m : IO F A) (x : B) (f : F) : (m;; mret x) f = (x, (m f).2).
Proof. unfold mbind, IO_bind. by destruct (m f). Qed.

(** ** Results of a HAL call

    A call returns a value, a status with an exception code, or ends the
    process: an uncaught C++ exception, a failed [CHECK] or the dereference of
    an empty optional or a null pointer. *)

Inductive ExceptionCode := EX_UNSUPPORTED_OPERATION | EX_ILLEGAL_STATE | EX_ILLEGAL_ARGUMENT | EX_SERVICE_SPECIFIC (n : Z).

Inductive HalResult (A : Type) := HalOk (x : A) | HalErr (e : ExceptionCode) | HalAbort.
Arguments HalOk {A} _.
Arguments HalErr {A} _.
Arguments HalAbort {A}.

Section operations.
Context {F : Type} `{FileSystem F}.

Definition io_get {A} (g : F -> A) : IO F A := fun f => (g f, f).

(** [std::ifstream(path).good()] *)
Definition fs_good (path : string) (f : F) : bool := bool_decide (is_Some (fs_read path f)).

(** [android::base::ReadFileToString]: [None] is the result [false]. *)
Definition ReadFileToString (path : string) : IO F (option string) := io_get (fs_read path).

(** [android::base::WriteStringToFile(content, path)] *)
Definition WriteStringToFile (content path : string) : IO F bool := fun f =>
  let '(r, f) := fs_write path content f in (bool_decide (r = Written), f).

(** [a && b] where [b] has effects: it is evaluated only when [a] holds. *)
Definition andM (a b : IO F bool) : IO F bool :=
  x ← a; if (x : bool) then b else mret false.

(** A loop over a list whose body has effects. *)
Fixpoint forM {A} (l : list A) (body : A -> IO F unit) : IO F unit :=
  match l with
  | [] => mret tt
  | x :: l => body x;; forM l body
  end.

End operations.

Declare Scope io_scope.
Delimit Scope io_scope with io.
Infix "&&&" := andM (at level 40, left associativity) : io_scope.
Open Scope io_scope.

(** ** The history of writes *)

Class WriteHistory (F : Type) `{FileSystem F} := {
  writes : F -> list (string * string);
  writes_write path s f :
    writes (fs_write path s f).2 =
      writes f ++ if decide ((fs_write path s f).1 = NotOpened) then [] else [(path, s)]
}.

(** ** A file system in memory

    Files keep the last text written; a write to a path without a file fails
    to open it, as for a sysfs node the driver does not have. *)

Record RamFs := mkRamFs {
  ram_files : gmap string string;
  ram_dirs : gmap string (list DirEntry);
  ram_log : list (string * string)
}.

#[export] Instance RamFs_FileSystem : FileSystem RamFs := {
  fs_read p f := ram_files f !! p;
  fs_write p s f :=
    match ram_files f !! p with
    | Some _ => (Written, mkRamFs (<[p := s]> (ram_files f)) (ram_dirs f) (ram_log f ++ [(p, s)]))
    | None => (NotOpened, f)
    end;
  fs_open_write p f := bool_decide (is_Some (ram_files f !! p));
  fs_list p f := ram_dirs f !! p
}.

#[export] Program Instance RamFs_WriteHistory : WriteHistory RamFs := { writes := ram_log }.
Next Obligation.
  intros path s f. simpl. destruct (ram_files f !! path); simpl; [done | by rewrite app_nil_r].
Qed.

Definition ram_init (files : list (string * string)) : RamFs :=
  mkRamFs (list_to_map files) ∅ [].

(** Storing a text in a file that exists. *)
Definition ram_put (f : RamFs) (w : string * string) : RamFs :=
  mkRamFs (<[w.1 := w.2]> (ram_files f)) (ram_dirs f) (ram_log f ++ [w]).

Definition ram_has (f : RamFs) (p : string) : Prop := is_Some (ram_files f !! p).

Lemma ram_put_has (f : RamFs) (w : string * string) (p : string) : ram_has f p -> ram_has (ram_put f w) p.
Proof. unfold ram_has. simpl. rewrite lookup_insert_is_Some'. auto. Qed.

Lemma ram_write_has (f : RamFs) (p s : string) : ram_has f p -> fs_write p s f = (Written, ram_put f (p, s)).
Proof. unfold ram_has. intros [x E]. simpl. by rewrite E. Qed.

Lemma ram_good_has (f : RamFs) (p : string) : fs_good p f = true <-> ram_has f p.
Proof. unfold fs_good, ram_has. by rewrite bool_decide_eq_true. Qed.

(** The content of the nodes of a directory after a sequence of writes to
    them: the last text written to a node, or what it had before. *)
Definition last_content (n : string) (ws : list (string * string)) : option string :=
  foldl (fun acc w => if String.eqb w.1 n then Some w.2 else acc) None ws.

Definition ram_puts (base : string) (f : RamFs) (ws : list (string * string)) : RamFs :=
  foldl (fun f w => ram_put f (base +:+ w.1, w.2)) f ws.

Lemma ram_puts_content (base n : string) (f : RamFs) (ws : list (string * string)) :
  ram_files (ram_puts base f ws) !! (base +:+ n) =
    match last_content n ws with Some c => Some c | None => ram_files f !! (base +:+ n) end.
Proof.
  induction ws as [| [n' c] ws IH] using rev_ind; [done |].
  unfold ram_puts, last_content in *. rewrite !foldl_app. simpl.
  destruct (String.eqb_spec n' n) as [-> | Hne]; [by rewrite lookup_insert_eq |].
  rewrite lookup_insert_ne; [done | intros E; by apply (inj (String.append base)) in E].
Qed.

(** ** Nodes that read back what was written

    A file echoes when reading it after a complete write returns the text,
    possibly followed by white space (drivers print a newline); two files are
    separate when writing one leaves the other as it was. *)

Class EchoNode (F : Type) `{FileSystem F} (p : string) :=
  echo_read : forall s f f', fs_write p s f = (Written, f') -> exists ws, all_space ws /\ fs_read p f' = Some (s +:+ ws).

Class SeparateNodes (F : Type) `{FileSystem F} (p q : string) :=
  separate_read : forall s f r f', fs_write p s f = (r, f') -> fs_read q f' = fs_read q f.

#[export] Instance RamFs_EchoNode (p : string) : EchoNode RamFs p.
Proof.
  intros s f f' Hw. exists "". simpl in *. destruct (ram_files f !! p); [| done]. simplify_eq/=.
  split; [constructor |]. by rewrite lookup_insert_eq, String_app_nil_r.
Qed.

Lemma RamFs_SeparateNodes (p q : string) : p <> q -> SeparateNodes RamFs p q.
Proof.
  intros Hne s f r f' Hw. simpl in *. destruct (ram_files f !! p); simplify_eq/=; [| done].
  by rewrite lookup_insert_ne.
Qed.

Lemma WriteStringToFile_true {F} `{FileSystem F} (content path : string) (f f' : F) :
  WriteStringToFile content path f = (true, f') -> fs_write path content f = (Written, f').
Proof. unfold WriteStringToFile. destruct (fs_write path content f) as [[] g]; by intros [= ->]. Qed.

(** A write adds at most itself to the history. *)
Lemma WriteStringToFile_history {F} `{WriteHistory F} (content path : string) (f : F) :
  exists l, l `sublist_of` [(path, content)] /\ writes (WriteStringToFile content path f).2 = writes f ++ l.
Proof.
  unfold WriteStringToFile. pose proof (writes_write path content f) as Hw.
  destruct (fs_write path content f) as [r f'] eqn:E. simpl in *.
  destruct (decide (r = NotOpened)); [exists [] | exists [(path, content)]]; (split; [| done]).
  - apply sublist_nil_l.
  - done.
Qed.
