(* ===== verification/LightDevices.v ===== *)
(** * Lights: colours, states and devices
      (src/light/models, src/light/Utils.{h,cpp}, src/light/devices)

    A light state is a colour and an effect.  Three kinds of device show it:
    an LED of the LED class, a group of up to three LEDs that mix a colour,
    and a backlight.  Each device is a directory of sysfs nodes.

    Shown: the brightness of a colour is a weighted mean of its components and
    its scaling respects the device's maximum; a device only uses a mode it
    supports, and a mode that is replaced is switched off before the new one
    is started; the timings written for the Qualcomm blinker are never
    negative and stay within the requested on-time. *)

From S2P Require Import Prelude Text SysFs.

(** ** Color (models/Color.cpp) *)

Record Color := mkColor { red : Z; green : Z; blue : Z }.

#[export] Instance Color_eta : Record_eta Color := fun c => mkColor (red c) (green c) (blue c).

#[export] Instance Color_eq_dec : EqDecision Color.
Proof. solve_decision. Defined.

Definition Color_default : Color := mkColor 0 0 0.

(** [Color(uint32_t)]: 0xAARRGGBB; the products are [int]s. *)
Definition Color_of_u32 (color : Z) : Color :=
  let alpha := Z.land (Z.shiftr color 24) 255 in
  let r := Z.land (Z.shiftr color 16) 255 in
  let g := Z.land (Z.shiftr color 8) 255 in
  let b := Z.land color 255 in
  if (0 <? alpha) && (alpha <? 255) then
    mkColor (u8 (r * alpha / 255)) (u8 (g * alpha / 255)) (u8 (b * alpha / 255))
  else mkColor r g b.

Definition Color_isLit (c : Color) : bool := negb (red c =? 0) || negb (green c =? 0) || negb (blue c =? 0).

Definition kRedWeight : Z := 77.
Definition kGreenWeight : Z := 150.
Definition kBlueWeight : Z := 29.

Definition toBrightness (c : Color) : Z :=
  u8 (Z.shiftr (kRedWeight * red c + kGreenWeight * green c + kBlueWeight * blue c) 8).

(** ** Effect and State (models/Effect.h, models/State.cpp)

    The timed parameters are valid only with the type [TIMED], which carries
    them here. *)

Inductive Effect := FIXED | TIMED (onMs offMs : Z) | HARDWARE.

Record State := mkState { st_color : Color; st_effect : Effect }.

(** [State()] *)
Definition State_default : State := mkState Color_default FIXED.

Definition State_isLit (s : State) : bool := Color_isLit (st_color s).

(** ** Utils (Utils.cpp, Utils.h) *)

(** The AIDL flash mode; a number outside the enumeration is [FLASH_raw]. *)
Inductive FlashMode := FLASH_NONE | FLASH_TIMED | FLASH_HARDWARE | FLASH_raw (n : Z).

Record HwLightState := mkHwLightState {
  hw_color : Z;
  hw_flashMode : FlashMode;
  hw_flashOnMs : Z;
  hw_flashOffMs : Z
}.

Definition fromAidl (value : HwLightState) : State :=
  let effect := match hw_flashMode value with
    | FLASH_NONE => FIXED
    | FLASH_TIMED => TIMED (u32 (hw_flashOnMs value)) (u32 (hw_flashOffMs value))
    | FLASH_HARDWARE => HARDWARE
    | FLASH_raw _ => FIXED
    end in
  mkState (Color_of_u32 (u32 (hw_color value))) effect.

(** The product is a [uint32_t]. *)
Definition scaleBrightness (brightness maxBrightness : Z) : Z := u32 (brightness * maxBrightness) / 255.

Section devices.
Context {F : Type} `{FileSystem F}.

(** [readFromFile] into a [uint32_t] that holds [old]; [None] is [false]. *)
Definition readFromFile_u32 (file : string) (old : Z) (f : F) : option Z :=
  match fs_read file f with
  | Some s => Some (extract_u32 s old)
  | None => None
  end.

(** [writeToFile]: it reports whether the stream was opened. *)
Definition writeToFile (file content : string) : IO F bool := fun f =>
  let '(r, f) := fs_write file content f in (bool_decide (r <> NotOpened), f).

(** ** LedDevice (devices/LedDevice.cpp) *)

Inductive LightMode := STATIC | BREATH | TIMED_UPSTREAM | TIMED_QCOM.

#[export] Instance LightMode_eq_dec : EqDecision LightMode.
Proof. solve_decision. Defined.

Definition kDefaultMaxBrightness : Z := 255.
Definition kBaseLedsPath : string := "/sys/class/leds/".
Definition kBrightnessNode : string := "brightness".
Definition kMaxBrightnessNode : string := "max_brightness".
Definition kBreathNodes : list string := ["breath"; "blink"].
Definition kBlinkNode : string := "blink".
Definition kStartIdxNode : string := "start_idx".
Definition kDutyPctsNode : string := "duty_pcts".
Definition kPauseLoNode : string := "pause_lo".
Definition kPauseHiNode : string := "pause_hi".
Definition kRampStepMsNode : string := "ramp_step_ms".
Definition kTriggerNode : string := "trigger".
Definition kDelayOffNode : string := "delay_off".
Definition kDelayOnNode : string := "delay_on".
Definition kRampSteps : Z := 8.
Definition kRampMaxStepDurationMs : Z := 50.

Record LedDevice := mkLedDevice {
  led_mName : string;
  led_mIdx : Z;
  led_mBasePath : string;
  led_mMaxBrightness : Z;
  led_mBreathNode : string;
  led_mSupportsTimedUpstream : bool;
  led_mSupportsTimedQcom : bool
}.

#[export] Instance LedDevice_eta : Record_eta LedDevice := fun d =>
  mkLedDevice (led_mName d) (led_mIdx d) (led_mBasePath d) (led_mMaxBrightness d) (led_mBreathNode d)
    (led_mSupportsTimedUpstream d) (led_mSupportsTimedQcom d).

(** The first breath node that can be opened; the empty string without one. *)
Fixpoint find_breath_node (base : string) (nodes : list string) (f : F) : string :=
  match nodes with
  | [] => ""
  | node :: nodes => if fs_good (base +:+ node) f then node else find_breath_node base nodes f
  end.

(** The constructor; [uninit] is the indeterminate value of [mMaxBrightness]
    before the file is read. *)
Definition LedDevice_new (uninit : Z) (name : string) (f : F) : LedDevice :=
  let base := kBaseLedsPath +:+ name +:+ "/" in
  mkLedDevice name 0 base
    (default kDefaultMaxBrightness (readFromFile_u32 (base +:+ kMaxBrightnessNode) uninit f))
    (find_breath_node base kBreathNodes f)
    match fs_read (base +:+ kTriggerNode) f with
    | Some s => existsb (contains "timer") (getlines s)
    | None => false
    end
    (fs_good (base +:+ kBlinkNode) f && fs_good (base +:+ kStartIdxNode) f &&
     fs_good (base +:+ kDutyPctsNode) f && fs_good (base +:+ kPauseLoNode) f &&
     fs_good (base +:+ kPauseHiNode) f && fs_good (base +:+ kRampStepMsNode) f).

Definition LedDevice_isOk (d : LedDevice) (f : F) : bool := fs_good (led_mBasePath d +:+ kBrightnessNode) f.

Definition supportsMode (d : LedDevice) (mode : LightMode) : bool :=
  match mode with
  | STATIC => true
  | BREATH => negb (String.eqb (led_mBreathNode d) "")
  | TIMED_UPSTREAM => led_mSupportsTimedUpstream d
  | TIMED_QCOM => led_mSupportsTimedQcom d
  end.

Definition setIdx (idx : Z) (d : LedDevice) : LedDevice := d <| led_mIdx := idx |>.

Definition ramp_duty (brightness i : Z) : Z := i * 100 * brightness / (255 * kRampSteps).

Definition getScaledDutyPercent (brightness : Z) : string :=
  foldl (fun output i =>
    let output := if i =? 0 then output else output +:+ "," in
    output +:+ to_text (ramp_duty brightness i)) "" (seqZ 0 kRampSteps).

(** The duration of a ramp step, the pause at the low and at the high end. *)
Definition qcom_timings (flashOnMs flashOffMs : Z) : Z * Z * Z :=
  let stepDuration := kRampMaxStepDurationMs in
  let pauseLo := i32 flashOffMs in
  let pauseHi := i32 (u32 (flashOnMs - stepDuration * kRampSteps * 2)) in
  if pauseHi <? 0 then (i32 (flashOnMs / (kRampSteps * 2)), pauseLo, 0)
  else (stepDuration, pauseLo, pauseHi).

(** The loop that waits for the nodes the timer trigger creates. *)
Fixpoint write_delays (d : LedDevice) (flashOnMs flashOffMs : Z) (retries : nat) (ok : bool) : IO F bool :=
  match retries with
  | O => mret ok
  | S retries =>
      ok ← writeToFile (led_mBasePath d +:+ kDelayOffNode) (to_text flashOffMs);
      if negb ok then write_delays d flashOnMs flashOffMs retries ok
      else
        ok ← writeToFile (led_mBasePath d +:+ kDelayOnNode) (to_text flashOnMs);
        if (ok : bool) then mret ok else write_delays d flashOnMs flashOffMs retries ok
  end.

Definition whenM (b : bool) (m : IO F unit) : IO F unit := if b then m else mret tt.

(** Switch off the modes other than [mode]. *)
Definition disable_blinking (d : LedDevice) (mode : LightMode) : IO F unit :=
  let base := led_mBasePath d in
  whenM (bool_decide (mode <> TIMED_QCOM) && supportsMode d TIMED_QCOM)
    (writeToFile (base +:+ kBlinkNode) "0";; mret tt);;
  whenM (bool_decide (mode <> TIMED_UPSTREAM) && supportsMode d TIMED_UPSTREAM)
    (writeToFile (base +:+ kTriggerNode) "none";; mret tt);;
  whenM (bool_decide (mode <> BREATH) && supportsMode d BREATH)
    (writeToFile (base +:+ kBrightnessNode) "0";;
     writeToFile (base +:+ led_mBreathNode d) "0";; mret tt);;
  whenM (bool_decide (mode <> STATIC) && supportsMode d STATIC)
    (writeToFile (base +:+ kBrightnessNode) "0";; mret tt).

Definition LedDevice_setBrightness (d : LedDevice) (value : Z) (mode : LightMode) (flashOnMs flashOffMs : Z)
    : IO F bool :=
  let base := led_mBasePath d in
  disable_blinking d mode;;
  match mode with
  | TIMED_QCOM =>
      let '(stepDuration, pauseLo, pauseHi) := qcom_timings flashOnMs flashOffMs in
      writeToFile (base +:+ kStartIdxNode) (to_text (led_mIdx d * kRampSteps)) &&&
      writeToFile (base +:+ kDutyPctsNode) (getScaledDutyPercent value) &&&
      writeToFile (base +:+ kPauseLoNode) (to_text pauseLo) &&&
      writeToFile (base +:+ kPauseHiNode) (to_text pauseHi) &&&
      writeToFile (base +:+ kRampStepMsNode) (to_text stepDuration) &&&
      writeToFile (base +:+ kBlinkNode) (if 0 <? value then "1" else "0")
  | TIMED_UPSTREAM =>
      ok ← writeToFile (base +:+ kTriggerNode) (if 0 <? value then "timer" else "none");
      if ok && (0 <? value) then write_delays d flashOnMs flashOffMs 20 ok else mret ok
  | BREATH =>
      writeToFile (base +:+ kBrightnessNode) (to_text (scaleBrightness value (led_mMaxBrightness d))) &&&
      writeToFile (base +:+ led_mBreathNode d) (if 0 <? value then "1" else "0")
  | STATIC => writeToFile (base +:+ kBrightnessNode) (to_text (scaleBrightness value (led_mMaxBrightness d)))
  end.

(** The mode an effect asks for and its times. *)
Definition effect_mode (e : Effect) : LightMode :=
  match e with FIXED => STATIC | HARDWARE => BREATH | TIMED _ _ => TIMED_QCOM end.

Definition effect_times (e : Effect) : Z * Z :=
  match e with TIMED onMs offMs => (onMs, offMs) | _ => (0, 0) end.

(** The switch with its intended fall-through, over the test of support. *)
Definition fallback_breath (supports : LightMode -> bool) : LightMode :=
  if supports BREATH then BREATH else STATIC.
Definition fallback_upstream (supports : LightMode -> bool) : LightMode :=
  if supports TIMED_UPSTREAM then TIMED_UPSTREAM else fallback_breath supports.
Definition fallback_qcom (supports : LightMode -> bool) : LightMode :=
  if supports TIMED_QCOM then TIMED_QCOM else fallback_upstream supports.

Definition fallback_mode (supports : LightMode -> bool) (mode : LightMode) : LightMode :=
  match mode with
  | TIMED_QCOM => fallback_qcom supports
  | TIMED_UPSTREAM => fallback_upstream supports
  | BREATH => fallback_breath supports
  | STATIC => STATIC
  end.

Definition LedDevice_setState (d : LedDevice) (state : State) : IO F bool :=
  let mode := effect_mode (st_effect state) in
  let '(flashOnMs, flashOffMs) := effect_times (st_effect state) in
  let mode := fallback_mode (supportsMode d) mode in
  LedDevice_setBrightness d (toBrightness (st_color state)) mode flashOnMs flashOffMs.

(** ** BacklightDevice (devices/BacklightDevice.cpp) *)

Definition kBacklightBasePath : string := "/sys/class/backlight/".

Record BacklightDevice := mkBacklightDevice {
  bl_mName : string;
  bl_mBasePath : string;
  bl_mMaxBrightness : Z
}.

Definition BacklightDevice_new (uninit : Z) (name : string) (f : F) : BacklightDevice :=
  let base := kBacklightBasePath +:+ name +:+ "/" in
  mkBacklightDevice name base
    (default kDefaultMaxBrightness (readFromFile_u32 (base +:+ kMaxBrightnessNode) uninit f)).

Definition BacklightDevice_isOk (d : BacklightDevice) (f : F) : bool := fs_good (bl_mBasePath d +:+ kBrightnessNode) f.

Definition BacklightDevice_setBrightness (d : BacklightDevice) (value : Z) : IO F bool :=
  writeToFile (bl_mBasePath d +:+ kBrightnessNode) (to_text (scaleBrightness value (bl_mMaxBrightness d))).

Definition BacklightDevice_setState (d : BacklightDevice) (state : State) : IO F bool :=
  BacklightDevice_setBrightness d (toBrightness (st_color state)).

(** ** RgbLedDevice (devices/RgbLedDevice.cpp) *)

Definition ROLE_NONE : Z := 0.
Definition ROLE_RED : Z := 1.
Definition ROLE_GREEN : Z := 2.
Definition ROLE_BLUE : Z := 4.
Definition ROLE_ALL : Z := Z.lor (Z.lor ROLE_RED ROLE_GREEN) ROLE_BLUE.

Record RgbLedDevice := mkRgbLedDevice {
  mRed : LedDevice;
  mGreen : LedDevice;
  mBlue : LedDevice;
  mRgbSyncNode : string;
  mRoles : Z
}.

Definition RgbLedDevice_new (r g b : LedDevice) (rgbSyncNode : string) (f : F) : RgbLedDevice :=
  let roles := ROLE_NONE in
  let roles := if LedDevice_isOk r f then Z.lor roles ROLE_RED else roles in
  let roles := if LedDevice_isOk g f then Z.lor roles ROLE_GREEN else roles in
  let roles := if LedDevice_isOk b f then Z.lor roles ROLE_BLUE else roles in
  mkRgbLedDevice (setIdx 0 r) (setIdx 1 g) (setIdx 2 b) rgbSyncNode roles.

Definition RgbLedDevice_isOk (d : RgbLedDevice) : bool := negb (mRoles d =? ROLE_NONE).

Definition Rgb_supportsMode (d : RgbLedDevice) (f : F) (mode : LightMode) : bool :=
  (negb (LedDevice_isOk (mRed d) f) || supportsMode (mRed d) mode) &&
  (negb (LedDevice_isOk (mGreen d) f) || supportsMode (mGreen d) mode) &&
  (negb (LedDevice_isOk (mBlue d) f) || supportsMode (mBlue d) mode).

Definition supportsRgbSync (d : RgbLedDevice) (f : F) : bool := fs_good (mRgbSyncNode d) f.

(** The colour snapped to the pure colours, compiled under
    [SNAP_RGB_TO_PURE]. *)
Definition snap_to_pure (c : Color) : Color :=
  let mx := Z.max (Z.max (red c) (green c)) (blue c) in
  if mx =? 0 then c
  else
    let snap x := if mx <=? x * 2 then 255 else 0 in
    mkColor (snap (red c)) (snap (green c)) (snap (blue c)).

(** [rc &= m] *)
Definition and_assign (rc : bool) (m : IO F bool) : IO F bool := x ← m; mret (rc && x).

Section rgb_state.
Context (SNAP_RGB_TO_PURE : bool).

(** The part of [setState] that sets the brightness of the LEDs: all three get
    their component; a single one the brightness of the colour; with two, the
    component of the missing one is blended into them. *)
Definition rgb_set_leds (d : RgbLedDevice) (color : Color) (mode : LightMode) (flashOnMs flashOffMs : Z) (rc : bool)
    : IO F bool :=
  let set led v := LedDevice_setBrightness led v mode flashOnMs flashOffMs in
  if mRoles d =? ROLE_ALL then
    let c := if SNAP_RGB_TO_PURE then snap_to_pure color else color in
    rc ← and_assign rc (set (mRed d) (red c));
    rc ← and_assign rc (set (mGreen d) (green c));
    and_assign rc (set (mBlue d) (blue c))
  else if mRoles d =? ROLE_RED then and_assign rc (set (mRed d) (toBrightness color))
  else if mRoles d =? ROLE_GREEN then and_assign rc (set (mGreen d) (toBrightness color))
  else if mRoles d =? ROLE_BLUE then and_assign rc (set (mBlue d) (toBrightness color))
  else if Z.land (mRoles d) ROLE_RED =? ROLE_NONE then
    rc ← and_assign rc (set (mBlue d) (u8 ((blue color + red color) / 2)));
    and_assign rc (set (mGreen d) (u8 ((green color + red color) / 2)))
  else if Z.land (mRoles d) ROLE_GREEN =? ROLE_NONE then
    rc ← and_assign rc (set (mRed d) (u8 ((red color + green color) / 2)));
    and_assign rc (set (mBlue d) (u8 ((blue color + green color) / 2)))
  else if Z.land (mRoles d) ROLE_BLUE =? ROLE_NONE then
    rc ← and_assign rc (set (mRed d) (u8 ((red color + blue color) / 2)));
    and_assign rc (set (mGreen d) (u8 ((green color + blue color) / 2)))
  else mret rc.

(** The write to the node that starts the blinking of the three LEDs together. *)
Definition rgb_sync (d : RgbLedDevice) (mode : LightMode) (value : string) (rc : bool) : IO F bool :=
  sync ← io_get (supportsRgbSync d);
  if bool_decide (mode = TIMED_QCOM) && sync then and_assign rc (writeToFile (mRgbSyncNode d) value)
  else mret rc.

Definition RgbLedDevice_setState (d : RgbLedDevice) (state : State) : IO F bool :=
  if mRoles d =? ROLE_NONE then mret false
  else
    let mode := effect_mode (st_effect state) in
    let '(flashOnMs, flashOffMs) := effect_times (st_effect state) in
    supports ← io_get (Rgb_supportsMode d);
    let mode := fallback_mode supports mode in
    rc ← rgb_sync d mode "0" true;
    rc ← rgb_set_leds d (st_color state) mode flashOnMs flashOffMs rc;
    rgb_sync d mode "1" rc.

End rgb_state.

End devices.

(** ** Colours and brightness: lemmas *)

Definition Color_ok (c : Color) : Prop := is_u8 (red c) /\ is_u8 (green c) /\ is_u8 (blue c).

Lemma land_255 (z : Z) : is_u8 (Z.land z 255).
Proof. change 255 with (Z.ones 8). rewrite Z.land_ones by lia. apply Z.mod_pos_bound. lia. Qed.

Lemma scaled_component (x a : Z) : is_u8 x -> 0 < a < 255 -> u8 (x * a / 255) = x * a / 255 /\ 0 <= x * a / 255 <= x.
Proof.
  unfold is_u8. intros Hx Ha.
  assert (0 <= x * a / 255 <= x) as Hb.
  { split; [apply Z.div_pos; nia |]. apply Z.div_le_upper_bound; nia. }
  split; [apply u8_id; unfold is_u8; lia | done].
Qed.

Lemma Color_of_u32_ok (color : Z) : Color_ok (Color_of_u32 color).
Proof.
  unfold Color_of_u32, Color_ok. destruct (_ && _); simpl; auto using u8_range, land_255.
Qed.

(** The alpha channel only darkens. *)
Lemma Color_of_u32_darker (word : Z) :
  let c := Color_of_u32 word in
  (0 <= red c <= Z.land (Z.shiftr word 16) 255) /\
  (0 <= green c <= Z.land (Z.shiftr word 8) 255) /\ (0 <= blue c <= Z.land word 255).
Proof.
  assert (forall x, 0 <= Z.land x 255 <= Z.land x 255) as Hpos by (intros x; split; [apply (land_255 x) | lia]).
  unfold Color_of_u32. destruct (_ && _) eqn:E; simpl; [| auto].
  apply andb_true_iff in E as [?%Z.ltb_lt ?%Z.ltb_lt].
  repeat match goal with |- context [u8 (?x * ?a / 255)] =>
    destruct (scaled_component x a (land_255 _)) as [-> ?]; [lia |] end. auto.
Qed.

Lemma toBrightness_exact (c : Color) :
  Color_ok c -> toBrightness c = (77 * red c + 150 * green c + 29 * blue c) / 256.
Proof.
  unfold Color_ok, is_u8, toBrightness, kRedWeight, kGreenWeight, kBlueWeight. intros (Hr & Hg & Hb).
  rewrite Z.shiftr_div_pow2 by lia. change (2 ^ 8) with 256 in *. apply u8_id. unfold is_u8.
  split; [apply Z.div_pos; lia | apply Z.div_lt_upper_bound; lia].
Qed.

Lemma toBrightness_between (c : Color) (lo hi : Z) :
  Color_ok c -> lo <= red c <= hi -> lo <= green c <= hi -> lo <= blue c <= hi -> lo <= toBrightness c <= hi.
Proof.
  intros Hok Hr Hg Hb. rewrite toBrightness_exact by done.
  split; [apply Z.div_le_lower_bound; lia | apply Z.lt_succ_r, Z.div_lt_upper_bound; lia].
Qed.

Lemma scaleBrightness_exact (v m : Z) :
  0 <= v <= 255 -> 0 <= m <= 16843009 -> scaleBrightness v m = v * m / 255.
Proof. intros Hv Hm. unfold scaleBrightness. rewrite u32_id; [done | unfold is_u32; nia]. Qed.

Lemma scaleBrightness_mono (v v' m : Z) :
  0 <= v <= v' -> v' <= 255 -> 0 <= m <= 16843009 -> 0 <= scaleBrightness v m <= scaleBrightness v' m /\ scaleBrightness v' m <= m.
Proof.
  intros Hv Hv' Hm. rewrite !scaleBrightness_exact by lia.
  split; [split; [apply Z.div_pos; nia | apply Z.div_le_mono; nia] | apply Z.div_le_upper_bound; nia].
Qed.

(** The brightness chain of a light, from the 0xAARRGGBB word of the client
    to the number written to the node: the components of the colour are bytes
    no greater than those of the word (the alpha channel only darkens), the
    brightness is a weighted mean of them (between their least and their
    greatest), and scaling it to a device whose maximum is at most 16843009
    (where [255 * max] still fits the unsigned word) is monotone, never exceeds
    the maximum, maps 0 to 0 and 255 to the maximum itself. *)
Theorem light_brightness_bounds (word v v' m : Z)
    (Hv : 0 <= v <= v') (Hv' : v' <= 255) (Hm : 0 <= m <= 16843009) :
  let c := Color_of_u32 word in
  let lo := Z.min (red c) (Z.min (green c) (blue c)) in
  let hi := Z.max (red c) (Z.max (green c) (blue c)) in
  (0 <= red c <= Z.land (Z.shiftr word 16) 255) /\
  (0 <= green c <= Z.land (Z.shiftr word 8) 255) /\
  (0 <= blue c <= Z.land word 255) /\
  (lo <= toBrightness c <= hi) /\
  (0 <= scaleBrightness v m <= scaleBrightness v' m /\ scaleBrightness v' m <= m) /\
  scaleBrightness 0 m = 0 /\ scaleBrightness 255 m = m.
Proof.
  intros c lo hi. pose proof (Color_of_u32_ok word) as Hok.
  destruct (Color_of_u32_darker word) as (Hr & Hg & Hb).
  repeat (split; [first [assumption | apply toBrightness_between; [done | unfold lo, hi; lia..]
    | by apply scaleBrightness_mono | by rewrite scaleBrightness_exact by lia] |]).
  rewrite scaleBrightness_exact by lia. rewrite Z.mul_comm. by apply Z.div_mul.
Qed.

Lemma light_brightness_bounds_witness :
  toBrightness (Color_of_u32 2164228096) = 76 /\ 0 <= scaleBrightness 76 4095 <= scaleBrightness 255 4095.
Proof.
  pose proof (light_brightness_bounds 2164228096 76 255 4095 ltac:(lia) ltac:(lia) ltac:(lia)) as (_ & _ & _ & _ & H & _).
  split; [reflexivity | exact (proj1 H)].
Defined.

(** ** The modes of an LED: lemmas *)

(** The mode that is finally used is supported, whatever was asked for, as
    static light always is. *)
Lemma fallback_mode_supported (supports : LightMode -> bool) (mode : LightMode) :
  supports STATIC = true -> supports (fallback_mode supports mode) = true.
Proof.
  intros Hs. destruct mode; simpl; unfold fallback_qcom, fallback_upstream, fallback_breath;
    repeat match goal with |- context [if ?b then _ else _] => destruct b eqn:? end; congruence.
Qed.

Lemma qcom_timings_cases (on off : Z) :
  is_u32 on ->
  qcom_timings on off =
    if (800 <=? on) && (on <? 2 ^ 31 + 800) then (50, i32 off, on - 800) else (on / 16, i32 off, 0).
Proof.
  unfold is_u32, qcom_timings, kRampMaxStepDurationMs, kRampSteps. intros Hon.
  change (50 * 8 * 2) with 800. change (8 * 2) with 16.
  assert (i32 (on / 16) = on / 16) as ->.
  { apply i32_id. unfold is_i32. split; [| apply Z.div_lt_upper_bound; lia].
    transitivity 0; [lia | apply Z.div_pos; lia]. }
  assert (i32 (u32 (on - 800)) = i32 (on - 800)) as ->.
  { unfold i32, u32, wrap_s, wrap_u. by rewrite Zplus_mod_idemp_l. }
  destruct (Z.leb_spec 800 on) as [H1 | H1]; cbn [andb].
  - destruct (Z.ltb_spec on (2 ^ 31 + 800)) as [H2 | H2].
    + rewrite i32_id by (unfold is_i32; lia). destruct (Z.ltb_spec (on - 800) 0); [lia | done].
    + assert (i32 (on - 800) = on - 800 - 2 ^ 32) as ->.
      { replace (on - 800) with ((on - 800 - 2 ^ 32) + 1 * 2 ^ 32) at 1 by lia.
        unfold i32, wrap_s. replace (on - 800 - 2 ^ 32 + 1 * 2 ^ 32 + 2 ^ (32 - 1))
          with (on - 800 - 2 ^ 32 + 2 ^ (32 - 1) + 1 * 2 ^ 32) by lia.
        rewrite Z.mod_add, Z.mod_small by lia. lia. }
      destruct (Z.ltb_spec (on - 800 - 2 ^ 32) 0); [done | lia].
  - rewrite i32_id by (unfold is_i32; lia). destruct (Z.ltb_spec (on - 800) 0); [done | lia].
Qed.

(** The blinking parameters written for the Qualcomm driver, for every
    unsigned 32-bit on-time: the step duration is between 0 and 50 ms unless
    the on-time is beyond 2^31 + 800 ms, the pause at full brightness is not
    negative although it is computed by a subtraction that wraps, and the two
    ramps of eight steps together with the pause last no longer than the
    on-time and fall short of it by less than one millisecond per step.  The
    off-time is passed on unchanged when it is a non-negative [int]. *)
Theorem qcom_timings_bounds (on off : Z) (Hon : is_u32 on) (Hoff : 0 <= off < 2 ^ 31) :
  let '(step, lo, hi) := qcom_timings on off in
  0 <= step /\ (on < 2 ^ 31 + 800 -> step <= 50) /\ 0 <= hi /\ lo = off /\
  hi + 2 * kRampSteps * step <= on < hi + 2 * kRampSteps * (step + 1).
Proof.
  rewrite qcom_timings_cases by done. unfold is_u32, kRampSteps in *.
  rewrite (i32_id off) by (unfold is_i32; lia).
  pose proof (Z.div_mod on 16 ltac:(lia)). pose proof (Z.mod_pos_bound on 16 ltac:(lia)).
  destruct (Z.leb_spec 800 on); destruct (Z.ltb_spec on (2 ^ 31 + 800)); simpl; lia.
Qed.

Lemma qcom_timings_bounds_witness : qcom_timings 1000 2000 = (50, 2000, 200) /\ 200 + 16 * 50 <= 1000.
Proof.
  pose proof (qcom_timings_bounds 1000 2000 ltac:(unfold is_u32; lia) ltac:(lia)) as H.
  change (qcom_timings 1000 2000) with (50, 2000, 200) in *. split; [reflexivity |].
  destruct H as (_ & _ & _ & _ & H & _). unfold kRampSteps in H. lia.
Defined.

(** ** The nodes of an LED in the reference file system *)

Lemma ram_writeToFile (f : RamFs) (p s : string) : ram_has f p -> writeToFile p s f = (true, ram_put f (p, s)).
Proof. intros Hp. unfold writeToFile. by rewrite ram_write_has. Qed.

(** What an LED writes, node by node, when its nodes exist. *)
Definition led_off_writes (d : LedDevice) (mode : LightMode) : list (string * string) :=
  (if bool_decide (mode <> TIMED_QCOM) && supportsMode d TIMED_QCOM then [(kBlinkNode, "0")] else []) ++
  (if bool_decide (mode <> TIMED_UPSTREAM) && supportsMode d TIMED_UPSTREAM then [(kTriggerNode, "none")] else []) ++
  (if bool_decide (mode <> BREATH) && supportsMode d BREATH then
     [(kBrightnessNode, "0"); (led_mBreathNode d, "0")] else []) ++
  (if bool_decide (mode <> STATIC) then [(kBrightnessNode, "0")] else []).

Definition led_on_writes (d : LedDevice) (value : Z) (mode : LightMode) (on off : Z) : list (string * string) :=
  let level := to_text (scaleBrightness value (led_mMaxBrightness d)) in
  match mode with
  | TIMED_QCOM =>
      let '(step, lo, hi) := qcom_timings on off in
      [(kStartIdxNode, to_text (led_mIdx d * kRampSteps)); (kDutyPctsNode, getScaledDutyPercent value);
       (kPauseLoNode, to_text lo); (kPauseHiNode, to_text hi); (kRampStepMsNode, to_text step);
       (kBlinkNode, if 0 <? value then "1" else "0")]
  | TIMED_UPSTREAM =>
      if 0 <? value then [(kTriggerNode, "timer"); (kDelayOffNode, to_text off); (kDelayOnNode, to_text on)]
      else [(kTriggerNode, "none")]
  | BREATH => [(kBrightnessNode, level); (led_mBreathNode d, if 0 <? value then "1" else "0")]
  | STATIC => [(kBrightnessNode, level)]
  end.

(** The nodes a device needs: those whose presence the constructor tested,
    and the two delay nodes of the timer trigger. *)
Definition led_nodes_present (d : LedDevice) (f : RamFs) : Prop :=
  let has n := ram_has f (led_mBasePath d +:+ n) in
  has kBrightnessNode /\
  (supportsMode d BREATH = true -> has (led_mBreathNode d)) /\
  (supportsMode d TIMED_UPSTREAM = true -> has kTriggerNode /\ has kDelayOffNode /\ has kDelayOnNode) /\
  (supportsMode d TIMED_QCOM = true ->
     has kBlinkNode /\ has kStartIdxNode /\ has kDutyPctsNode /\ has kPauseLoNode /\ has kPauseHiNode /\ has kRampStepMsNode).

Lemma led_nodes_present_put (d : LedDevice) (f : RamFs) (w : string * string) :
  led_nodes_present d f -> led_nodes_present d (ram_put f w).
Proof. unfold led_nodes_present. intuition auto using ram_put_has. Qed.

(** A computation that writes the listed nodes and yields [r]. *)
Definition emits {A} (d : LedDevice) (m : IO RamFs A) (r : A) (ws : list (string * string)) : Prop :=
  forall f, led_nodes_present d f -> m f = (r, ram_puts (led_mBasePath d) f ws).

Lemma ram_puts_present (d : LedDevice) (f : RamFs) (ws : list (string * string)) :
  led_nodes_present d f -> led_nodes_present d (ram_puts (led_mBasePath d) f ws).
Proof.
  unfold ram_puts. revert f. induction ws as [| w ws IH]; intros f Hf; simpl; [done |].
  by apply IH, led_nodes_present_put.
Qed.

Lemma emits_ret {A} (d : LedDevice) (x : A) : emits d (mret x) x [].
Proof. done. Qed.

Lemma emits_bind {A B} (d : LedDevice) (m : IO RamFs A) (k : A -> IO RamFs B) x y ws ws' :
  emits d m x ws -> emits d (k x) y ws' -> emits d (m ≫= k) y (ws ++ ws').
Proof.
  intros Hm Hk f Hf. unfold mbind, IO_bind. rewrite Hm by done.
  rewrite Hk by (by apply ram_puts_present). unfold ram_puts. by rewrite foldl_app.
Qed.

Lemma emits_write (d : LedDevice) (n s : string) :
  (forall f, led_nodes_present d f -> ram_has f (led_mBasePath d +:+ n)) ->
  emits d (writeToFile (led_mBasePath d +:+ n) s) true [(n, s)].
Proof. intros Hn f Hf. by rewrite ram_writeToFile by auto. Qed.

Lemma emits_and (d : LedDevice) (a b : IO RamFs bool) (y : bool) ws ws' :
  emits d a true ws -> emits d b y ws' -> emits d (a &&& b) y (ws ++ ws').
Proof. intros Ha Hb. eapply (emits_bind d a _ true); done. Qed.

Lemma emits_when (d : LedDevice) (b : bool) (m : IO RamFs unit) ws :
  (b = true -> emits d m tt ws) -> emits d (whenM b m) tt (if b then ws else []).
Proof. destruct b; simpl; [auto | intros _; apply emits_ret]. Qed.

Lemma emits_write_discard (d : LedDevice) (n s : string) :
  (forall f, led_nodes_present d f -> ram_has f (led_mBasePath d +:+ n)) ->
  emits d (writeToFile (led_mBasePath d +:+ n) s;; mret tt) tt [(n, s)].
Proof. intros Hn. apply (emits_bind d _ _ true tt [(n, s)] []); [by apply emits_write | apply emits_ret]. Qed.

Lemma disable_blinking_emits (d : LedDevice) (mode : LightMode) :
  emits d (disable_blinking d mode) tt (led_off_writes d mode).
Proof.
  unfold disable_blinking, led_off_writes.
  repeat (eapply emits_bind; [apply emits_when; intros [_ Hs]%andb_true_iff |]).
  - apply emits_write_discard. unfold led_nodes_present. naive_solver.
  - apply emits_write_discard. unfold led_nodes_present. naive_solver.
  - eapply (emits_bind d _ _ true tt [_] [_]); [apply emits_write; unfold led_nodes_present; naive_solver |].
    apply emits_write_discard. unfold led_nodes_present. naive_solver.
  - rewrite andb_true_r. apply emits_when. intros _. apply emits_write_discard. unfold led_nodes_present. naive_solver.
Qed.

(** One round is enough when the delay nodes exist. *)
Lemma write_delays_emits (d : LedDevice) (on off : Z) (n : nat) (ok : bool) :
  supportsMode d TIMED_UPSTREAM = true ->
  emits d (write_delays d on off (S n) ok) true [(kDelayOffNode, to_text off); (kDelayOnNode, to_text on)].
Proof.
  intros Hs. cbn [write_delays].
  eapply (emits_bind d _ _ true true [_] [_]); [apply emits_write; unfold led_nodes_present; naive_solver |].
  cbn [negb]. eapply (emits_bind d _ _ true true [_] []); [apply emits_write; unfold led_nodes_present; naive_solver |].
  apply emits_ret.
Qed.

(** All the writes of [LedDevice::setBrightness] in order, for an LED whose
    nodes exist. *)
Lemma setBrightness_emits (d : LedDevice) (value : Z) (mode : LightMode) (on off : Z) :
  supportsMode d mode = true ->
  emits d (LedDevice_setBrightness d value mode on off) true
    (led_off_writes d mode ++ led_on_writes d value mode on off).
Proof.
  intros Hs. unfold LedDevice_setBrightness. eapply emits_bind; [apply disable_blinking_emits |].
  destruct mode; unfold led_on_writes.
  - apply emits_write. unfold led_nodes_present. naive_solver.
  - eapply (emits_and d _ _ true [_] [_]); apply emits_write; unfold led_nodes_present; naive_solver.
  - assert (forall s, emits d (writeToFile (led_mBasePath d +:+ kTriggerNode) s) true [(kTriggerNode, s)]) as Ht
      by (intros s; apply emits_write; unfold led_nodes_present; naive_solver).
    destruct (0 <? value).
    + eapply (emits_bind d _ _ true true [_] [_; _]); [apply Ht |]. by apply write_delays_emits.
    + eapply (emits_bind d _ _ true true [_] []); [apply Ht | apply emits_ret].
  - destruct (qcom_timings on off) as [[step lo] hi].
    change [?a; ?b; ?c; ?x; ?y; ?z] with ((((([a] ++ [b]) ++ [c]) ++ [x]) ++ [y]) ++ [z]).
    repeat apply emits_and; apply emits_write; unfold led_nodes_present; naive_solver.
Qed.

(** The breath node is one of the two candidates, or empty. *)
Lemma LedDevice_new_breath {F} `{FileSystem F} (uninit : Z) (name : string) (f : F) :
  let n := led_mBreathNode (LedDevice_new uninit name f) in n = "" \/ n = "breath" \/ n = "blink".
Proof. simpl. repeat case_match; auto. Qed.

(** A device probed in a file system has its nodes there; the delay nodes
    appear with the timer trigger and are not probed. *)
Lemma LedDevice_new_present (uninit : Z) (name : string) (f : RamFs) :
  let d := LedDevice_new uninit name f in
  LedDevice_isOk d f = true ->
  (supportsMode d TIMED_UPSTREAM = true ->
     ram_has f (led_mBasePath d +:+ kDelayOffNode) /\ ram_has f (led_mBasePath d +:+ kDelayOnNode)) ->
  led_nodes_present d f.
Proof.
  intros d Hok Hdelay. unfold led_nodes_present. split_and!.
  - by apply ram_good_has.
  - unfold d; simpl. destruct (fs_good _ f) eqn:E1; [intros _; by apply ram_good_has |].
    destruct (fs_good (_ +:+ "blink") f) eqn:E2; [intros _; by apply ram_good_has | done].
  - intros Hs. split; [| by apply Hdelay]. unfold d in Hs |- *; simpl in Hs |- *. unfold ram_has.
    by destruct (ram_files f !! _).
  - unfold d; simpl. rewrite !andb_true_iff, !ram_good_has. naive_solver.
Qed.

(** Exclusive modes of an LED.  A device that was probed in the file system
    shows a value in a mode it supports: all its writes succeed, and when they
    are done every other supported mode has been left switched off (the timer
    trigger reads [none]; the blink node 0, unless it is also the node the new
    mode drives), the brightness node is 0 while the light blinks and otherwise
    holds the scaled value, and the value 0 leaves the LED dark in every mode. *)
Theorem led_modes_exclusive (uninit value on off : Z) (name : string) (mode : LightMode) (f : RamFs)
    (Hok : LedDevice_isOk (LedDevice_new uninit name f) f = true)
    (Hdelay : led_mSupportsTimedUpstream (LedDevice_new uninit name f) = true ->
       ram_has f (led_mBasePath (LedDevice_new uninit name f) +:+ kDelayOffNode) /\
       ram_has f (led_mBasePath (LedDevice_new uninit name f) +:+ kDelayOnNode))
    (Hmode : supportsMode (LedDevice_new uninit name f) mode = true) (Hv : 0 <= value) :
  let d := LedDevice_new uninit name f in
  let '(rc, f') := LedDevice_setBrightness d value mode on off f in
  let node n := ram_files f' !! (led_mBasePath d +:+ n) in
  rc = true /\
  (supportsMode d TIMED_UPSTREAM = true -> mode <> TIMED_UPSTREAM \/ value = 0 -> node kTriggerNode = Some "none") /\
  (supportsMode d TIMED_QCOM = true -> mode <> TIMED_QCOM /\ (mode = BREATH -> led_mBreathNode d <> kBlinkNode) \/ value = 0 ->
     node kBlinkNode = Some "0") /\
  (supportsMode d BREATH = true -> mode <> BREATH /\ (mode = TIMED_QCOM -> led_mBreathNode d <> kBlinkNode) \/ value = 0 ->
     node (led_mBreathNode d) = Some "0") /\
  node kBrightnessNode = Some (match mode with
    | STATIC | BREATH => to_text (scaleBrightness value (led_mMaxBrightness d))
    | TIMED_UPSTREAM | TIMED_QCOM => "0" end).
Proof.
  intros d.
  assert (led_nodes_present d f) as Hp.
  { by apply LedDevice_new_present. }
  rewrite (setBrightness_emits d value mode on off Hmode f Hp). cbv zeta. split; [done |].
  rewrite !ram_puts_content.
  pose proof (LedDevice_new_breath uninit name f) as Hb. fold d in Hb, Hmode.
  clearbody d. clear Hok Hdelay Hp. destruct d as [nm idx base mx breath up qc]; simpl in *.
  assert (0 <? value = false <-> value = 0) as Hz by (rewrite Z.ltb_ge; lia).
  destruct (qcom_timings on off) as [[step lo] hi] eqn:Eq.
  unfold led_off_writes, led_on_writes. rewrite Eq. cbn [led_mMaxBrightness led_mIdx led_mBreathNode].
  generalize (to_text (scaleBrightness value mx)), (to_text step), (to_text lo), (to_text hi), (to_text on),
    (to_text off), (getScaledDutyPercent value), (to_text (idx * kRampSteps)).
  intros t1 t2 t3 t4 t5 t6 t7 t8. clear Eq.
  destruct mode, up, qc; destruct Hb as [-> | [-> | ->]]; try discriminate Hmode;
    destruct (0 <? value) eqn:E0; vm_compute last_content;
    (split_and!; [intros; first [reflexivity | exfalso; naive_solver congruence].. | reflexivity]).
Qed.

Definition example_led_fs : RamFs :=
  ram_init [("/sys/class/leds/white/brightness", "0"); ("/sys/class/leds/white/max_brightness", "511");
            ("/sys/class/leds/white/trigger", "[none] timer heartbeat"); ("/sys/class/leds/white/breath", "1");
            ("/sys/class/leds/white/delay_on", "0"); ("/sys/class/leds/white/delay_off", "0")].

Lemma led_modes_exclusive_witness :
  let d := LedDevice_new 0 "white" example_led_fs in
  ram_files (LedDevice_setBrightness d 128 STATIC 0 0 example_led_fs).2 !! "/sys/class/leds/white/trigger" = Some "none" /\
  ram_files (LedDevice_setBrightness d 128 STATIC 0 0 example_led_fs).2 !! "/sys/class/leds/white/brightness" = Some "256".
Proof.
  intros d.
  assert (ram_has example_led_fs "/sys/class/leds/white/delay_off" /\
          ram_has example_led_fs "/sys/class/leds/white/delay_on") as Hd
    by (split; [exists "0" | exists "0"]; vm_compute; reflexivity).
  pose proof (led_modes_exclusive 0 128 0 0 "white" STATIC example_led_fs ltac:(vm_compute; reflexivity)
    (fun _ => Hd) ltac:(reflexivity) ltac:(lia)) as H. cbv zeta in H.
  destruct (LedDevice_setBrightness (LedDevice_new 0 "white" example_led_fs) 128 STATIC 0 0 example_led_fs) as [rc f'] eqn:E.
  assert (led_mMaxBrightness (LedDevice_new 0 "white" example_led_fs) = 511) as Em by (vm_compute; reflexivity).
  assert (led_mBasePath (LedDevice_new 0 "white" example_led_fs) = "/sys/class/leds/white/") as Eb by reflexivity.
  unfold d. rewrite E. rewrite Em, Eb in H. clearbody d. clear E Em Eb. destruct H as (_ & H1 & _ & _ & H2). split.
  - apply H1; [vm_compute; reflexivity | left; discriminate].
  - exact H2.
Defined.

(** A colour may count as lit and yet have brightness 0, so that a single LED
    stays dark for it. *)
Lemma lit_but_dark : Color_isLit (mkColor 0 0 8) = true /\ toBrightness (mkColor 0 0 8) = 0.
Proof. done. Qed.
