(* ===== verification/Lights.v ===== *)
(** * The light service (src/light/Devices.cpp, src/light/Lights.cpp)

    [Devices] probes the known device names once; [Lights] announces a light
    for each group of devices that was found and shows the states that
    clients set.  The five lights that share the notification LED are
    arbitrated by a fixed priority.

    Shown: after any sequence of calls the notification devices show the
    lit state of highest priority among the last ones set, and a light is
    accepted whenever it was announced; the states that reach the devices are
    exactly those of the abstract specification, one current state per light. *)

From S2P Require Import Prelude Text SysFs LightDevices.

Section lights.
Context {F : Type} `{FileSystem F}.

(** ** Devices

    [uninit] stands for the indeterminate memory that a device's maximum
    brightness occupies before it is read. *)

Context (SCAN_FOR_BACKLIGHT_DEVICES SNAP_RGB_TO_PURE : bool) (uninit : Z).

Definition kBacklightDevices : list string :=
  ["backlight"; "panel0-backlight"; "panel0-backlight-ex"; "sprd_backlight"].
Definition kLedBacklightDevices : list string := ["lcd-backlight"; "lcd-backlight-ex"; "lcd_backlight0"].
Definition kButtonLedDevices : list string := ["button-backlight"; "button-backlight1"; "button-backlight2"].
Definition kKeyboardLedDevices : list string := ["keyboard-backlight"].
Definition kRgbLedDevices : list (string * string * string * string) :=
  [("red", "green", "blue", "/sys/class/leds/rgb/rgb_blink");
   ("red:indicator", "green:indicator", "blue:indicator", "");
   ("red:status", "green:status", "blue:status", "")].
Definition kNotificationLedDevices : list string := ["charging"; "left"; "white"; "white:indicator"; "white:status"].

(** [None] is the abort of [CHECK]. *)
Definition getSubDirs (path : string) (f : F) : option (list string) :=
  entries ← fs_list path f; Some (de_name <$> List.filter de_is_dir entries).

Definition found_backlights (names : list string) (f : F) : list BacklightDevice :=
  List.filter (fun d => BacklightDevice_isOk d f) ((fun n => BacklightDevice_new uninit n f) <$> names).

Definition found_leds (names : list string) (f : F) : list LedDevice :=
  List.filter (fun d => LedDevice_isOk d f) ((fun n => LedDevice_new uninit n f) <$> names).

Definition getBacklightDevices (f : F) : option (list BacklightDevice) :=
  match found_backlights kBacklightDevices f with
  | [] => if SCAN_FOR_BACKLIGHT_DEVICES then
            names ← getSubDirs "/sys/class/backlight/" f; Some (found_backlights names f)
          else Some []
  | devices => Some devices
  end.

Definition getBacklightLedDevices (f : F) : list LedDevice := found_leds kLedBacklightDevices f.
Definition getButtonLedDevices (f : F) : list LedDevice := found_leds kButtonLedDevices f.
Definition getKeyboardLedDevices (f : F) : list LedDevice := found_leds kKeyboardLedDevices f.

Definition getNotificationRgbLedDevices (f : F) : list RgbLedDevice :=
  List.filter RgbLedDevice_isOk ((fun '(r, g, b, sync) =>
    RgbLedDevice_new (LedDevice_new uninit r f) (LedDevice_new uninit g f) (LedDevice_new uninit b f) sync f)
    <$> kRgbLedDevices).

Definition getNotificationLedDevices (f : F) : list LedDevice := found_leds kNotificationLedDevices f.

Record Devices := mkDevices {
  mBacklightDevices : list BacklightDevice;
  mBacklightLedDevices : list LedDevice;
  mButtonLedDevices : list LedDevice;
  mKeyboardLedDevices : list LedDevice;
  mNotificationRgbLedDevices : list RgbLedDevice;
  mNotificationLedDevices : list LedDevice
}.

Definition Devices_new (f : F) : option Devices :=
  backlights ← getBacklightDevices f;
  Some (mkDevices backlights (getBacklightLedDevices f) (getButtonLedDevices f) (getKeyboardLedDevices f)
    (getNotificationRgbLedDevices f) (getNotificationLedDevices f)).

Definition is_empty {A} (l : list A) : bool := match l with [] => true | _ => false end.

Definition hasBacklightDevices (d : Devices) : bool :=
  negb (is_empty (mBacklightDevices d)) || negb (is_empty (mBacklightLedDevices d)).
Definition hasButtonDevices (d : Devices) : bool := negb (is_empty (mButtonLedDevices d)).
Definition hasKeyboardDevices (d : Devices) : bool := negb (is_empty (mKeyboardLedDevices d)).
Definition hasNotificationDevices (d : Devices) : bool :=
  negb (is_empty (mNotificationRgbLedDevices d)) || negb (is_empty (mNotificationLedDevices d)).

Definition discard {A} (m : IO F A) : IO F unit := m;; mret tt.

Definition setBacklightState (d : Devices) (state : State) : IO F unit :=
  forM (mBacklightDevices d) (fun dev => discard (BacklightDevice_setState dev state));;
  forM (mBacklightLedDevices d) (fun dev => discard (LedDevice_setState dev state)).

Definition setButtonsState (d : Devices) (state : State) : IO F unit :=
  forM (mButtonLedDevices d) (fun dev => discard (LedDevice_setState dev state)).

Definition setKeyboardState (d : Devices) (state : State) : IO F unit :=
  forM (mKeyboardLedDevices d) (fun dev => discard (LedDevice_setState dev state)).

Definition setNotificationState (d : Devices) (state : State) : IO F unit :=
  forM (mNotificationRgbLedDevices d) (fun dev => discard (RgbLedDevice_setState SNAP_RGB_TO_PURE dev state));;
  forM (mNotificationLedDevices d) (fun dev => discard (LedDevice_setState dev state)).

(** ** Lights *)

(** The AIDL light types the service handles; any other number is
    [LIGHT_other]. *)
Inductive LightType :=
  | LIGHT_BACKLIGHT | LIGHT_KEYBOARD | LIGHT_BUTTONS | LIGHT_BATTERY | LIGHT_NOTIFICATIONS
  | LIGHT_ATTENTION | LIGHT_MICROPHONE | LIGHT_CAMERA | LIGHT_other (n : Z).

#[export] Instance LightType_eq_dec : EqDecision LightType.
Proof. solve_decision. Defined.

Record LightsState := mkLightsState {
  mLights : list LightType;
  mDevices : Devices;
  mLastBatteryState : State;
  mLastNotificationsState : State;
  mLastAttentionState : State;
  mLastMicrophoneState : State;
  mLastCameraState : State
}.

#[export] Instance LightsState_eta : Record_eta LightsState := fun l =>
  mkLightsState (mLights l) (mDevices l) (mLastBatteryState l) (mLastNotificationsState l)
    (mLastAttentionState l) (mLastMicrophoneState l) (mLastCameraState l).

(** The constructor; a light is announced with its type, which is its id. *)
Definition Lights_new (f : F) : option LightsState :=
  d ← Devices_new f;
  Some (mkLightsState
    ((if hasBacklightDevices d then [LIGHT_BACKLIGHT] else []) ++
     (if hasButtonDevices d then [LIGHT_BUTTONS] else []) ++
     (if hasKeyboardDevices d then [LIGHT_KEYBOARD] else []) ++
     (if hasNotificationDevices d then
        [LIGHT_BATTERY; LIGHT_NOTIFICATIONS; LIGHT_ATTENTION; LIGHT_MICROPHONE; LIGHT_CAMERA] else []))
    d State_default State_default State_default State_default State_default).

(** The state that the notification devices are to show. *)
Definition notification_state (l : LightsState) : State :=
  if State_isLit (mLastCameraState l) then mLastCameraState l
  else if State_isLit (mLastMicrophoneState l) then mLastMicrophoneState l
  else if State_isLit (mLastNotificationsState l) then mLastNotificationsState l
  else if State_isLit (mLastAttentionState l) then mLastAttentionState l
  else if State_isLit (mLastBatteryState l) then mLastBatteryState l
  else State_default.

Definition updateNotificationColor (l : LightsState) : IO F unit :=
  setNotificationState (mDevices l) (notification_state l).

Inductive LightStatus := LIGHT_OK | LIGHT_UNSUPPORTED_OPERATION.

#[export] Instance LightStatus_eq_dec : EqDecision LightStatus.
Proof. solve_decision. Defined.

(** Run [m] when the devices exist and report the missing ones otherwise. *)
Definition guarded (b : bool) (l' : LightsState) (m : IO F unit) (l : LightsState) : IO F (LightStatus * LightsState) :=
  if b then m;; mret (LIGHT_OK, l') else mret (LIGHT_UNSUPPORTED_OPERATION, l).

Definition setLightState (type : LightType) (hwLightState : HwLightState) (l : LightsState)
    : IO F (LightStatus * LightsState) :=
  let state := fromAidl hwLightState in
  let d := mDevices l in
  let update l' := updateNotificationColor l' in
  match type with
  | LIGHT_BACKLIGHT => guarded (hasBacklightDevices d) l (setBacklightState d state) l
  | LIGHT_KEYBOARD => guarded (hasKeyboardDevices d) l (setKeyboardState d state) l
  | LIGHT_BUTTONS => guarded (hasButtonDevices d) l (setButtonsState d state) l
  | LIGHT_BATTERY => let l' := l <| mLastBatteryState := state |> in guarded (hasNotificationDevices d) l' (update l') l
  | LIGHT_NOTIFICATIONS => let l' := l <| mLastNotificationsState := state |> in guarded (hasNotificationDevices d) l' (update l') l
  | LIGHT_ATTENTION => let l' := l <| mLastAttentionState := state |> in guarded (hasNotificationDevices d) l' (update l') l
  | LIGHT_MICROPHONE => let l' := l <| mLastMicrophoneState := state |> in guarded true l' (update l') l
  | LIGHT_CAMERA => let l' := l <| mLastCameraState := state |> in guarded true l' (update l') l
  | LIGHT_other _ => mret (LIGHT_UNSUPPORTED_OPERATION, l)
  end.

Definition getLights (l : LightsState) (out : list LightType) : list LightType := out ++ mLights l.

(** ** A sequence of calls *)

Definition LightCall : Type := LightType * HwLightState.

Fixpoint run_lights (calls : list LightCall) (l : LightsState) : IO F (list LightStatus * LightsState) :=
  match calls with
  | [] => mret ([], l)
  | (t, hw) :: calls =>
      '(s, l) ← setLightState t hw l;
      '(ss, l) ← run_lights calls l;
      mret (s :: ss, l)
  end.

(** ** Abstract specification

    A call is accepted or refused by its type and the devices found.  An
    accepted call makes one group of devices show one state: its own state
    for the lights that have their devices to themselves, and for the lights
    that share the notification devices the first lit one, in the order of
    priority, among the states last set.  The specification keeps no state: it
    looks at the history of accepted calls, latest first. *)

Inductive LightGroup := GROUP_BACKLIGHT | GROUP_KEYBOARD | GROUP_BUTTONS | GROUP_NOTIFICATION.

Definition spec_accepts (d : Devices) (t : LightType) : bool :=
  match t with
  | LIGHT_BACKLIGHT => hasBacklightDevices d
  | LIGHT_KEYBOARD => hasKeyboardDevices d
  | LIGHT_BUTTONS => hasButtonDevices d
  | LIGHT_BATTERY | LIGHT_NOTIFICATIONS | LIGHT_ATTENTION => hasNotificationDevices d
  | LIGHT_MICROPHONE | LIGHT_CAMERA => true
  | LIGHT_other _ => false
  end.

Definition light_priority : list LightType :=
  [LIGHT_CAMERA; LIGHT_MICROPHONE; LIGHT_NOTIFICATIONS; LIGHT_ATTENTION; LIGHT_BATTERY].

Fixpoint last_set (history : list LightCall) (t : LightType) : State :=
  match history with
  | [] => State_default
  | (t', hw) :: history => if decide (t' = t) then fromAidl hw else last_set history t
  end.

Definition spec_arbitrate (history : list LightCall) : State :=
  default State_default (head (List.filter State_isLit (last_set history <$> light_priority))).

Definition spec_event (history : list LightCall) (t : LightType) (hw : HwLightState) : LightGroup * State :=
  match t with
  | LIGHT_BACKLIGHT => (GROUP_BACKLIGHT, fromAidl hw)
  | LIGHT_KEYBOARD => (GROUP_KEYBOARD, fromAidl hw)
  | LIGHT_BUTTONS => (GROUP_BUTTONS, fromAidl hw)
  | _ => (GROUP_NOTIFICATION, spec_arbitrate history)
  end.

Fixpoint spec_events (d : Devices) (history calls : list LightCall) : list (LightGroup * State) :=
  match calls with
  | [] => []
  | (t, hw) :: calls =>
      if spec_accepts d t then spec_event ((t, hw) :: history) t hw :: spec_events d ((t, hw) :: history) calls
      else spec_events d history calls
  end.

Definition spec_status (d : Devices) (call : LightCall) : LightStatus :=
  if spec_accepts d call.1 then LIGHT_OK else LIGHT_UNSUPPORTED_OPERATION.

Definition show (d : Devices) (e : LightGroup * State) : IO F unit :=
  match e.1 with
  | GROUP_BACKLIGHT => setBacklightState d e.2
  | GROUP_KEYBOARD => setKeyboardState d e.2
  | GROUP_BUTTONS => setButtonsState d e.2
  | GROUP_NOTIFICATION => setNotificationState d e.2
  end.

(** ** Refinement *)

(** The five remembered states are those of the history. *)
Definition lights_rel (history : list LightCall) (l : LightsState) : Prop :=
  mLastCameraState l = last_set history LIGHT_CAMERA /\
  mLastMicrophoneState l = last_set history LIGHT_MICROPHONE /\
  mLastNotificationsState l = last_set history LIGHT_NOTIFICATIONS /\
  mLastAttentionState l = last_set history LIGHT_ATTENTION /\
  mLastBatteryState l = last_set history LIGHT_BATTERY.

Lemma notification_state_arbitrates (history : list LightCall) (l : LightsState) :
  lights_rel history l -> notification_state l = spec_arbitrate history.
Proof.
  intros (H1 & H2 & H3 & H4 & H5). unfold notification_state, spec_arbitrate, light_priority.
  rewrite H1, H2, H3, H4, H5. cbn [fmap list_fmap List.filter].
  repeat match goal with |- context [if State_isLit ?s then _ else _] => destruct (State_isLit s) end; done.
Qed.

Lemma setLightState_refused (t : LightType) (hw : HwLightState) (l : LightsState) (f : F) :
  spec_accepts (mDevices l) t = false -> setLightState t hw l f = ((LIGHT_UNSUPPORTED_OPERATION, l), f).
Proof. destruct t; simpl; intros E; unfold guarded; rewrite ?E; done. Qed.

(** The field an accepted call overwrites. *)
Definition remember_state (t : LightType) (s : State) (l : LightsState) : LightsState :=
  match t with
  | LIGHT_BATTERY => l <| mLastBatteryState := s |>
  | LIGHT_NOTIFICATIONS => l <| mLastNotificationsState := s |>
  | LIGHT_ATTENTION => l <| mLastAttentionState := s |>
  | LIGHT_MICROPHONE => l <| mLastMicrophoneState := s |>
  | LIGHT_CAMERA => l <| mLastCameraState := s |>
  | _ => l
  end.

Lemma remember_state_rel (history : list LightCall) (t : LightType) (hw : HwLightState) (l : LightsState) :
  lights_rel history l -> lights_rel ((t, hw) :: history) (remember_state t (fromAidl hw) l).
Proof. intros (H1 & H2 & H3 & H4 & H5). unfold lights_rel. destruct t; simpl; auto. Qed.

Lemma remember_state_devices (t : LightType) (s : State) (l : LightsState) :
  mDevices (remember_state t s l) = mDevices l /\ mLights (remember_state t s l) = mLights l.
Proof. by destruct t. Qed.

(** An accepted call overwrites one field and shows its event. *)
Lemma setLightState_accepted (history : list LightCall) (t : LightType) (hw : HwLightState) (l : LightsState) (f : F) :
  lights_rel history l -> spec_accepts (mDevices l) t = true ->
  setLightState t hw l f = ((LIGHT_OK, remember_state t (fromAidl hw) l),
    (show (mDevices l) (spec_event ((t, hw) :: history) t hw) f).2).
Proof.
  intros Hrel Ha. apply (remember_state_rel history t hw) in Hrel.
  destruct (remember_state_devices t (fromAidl hw) l) as [Hd _].
  apply notification_state_arbitrates in Hrel.
  assert (updateNotificationColor (remember_state t (fromAidl hw) l) =
    show (mDevices l) (GROUP_NOTIFICATION, spec_arbitrate ((t, hw) :: history))) as Hu
    by (unfold updateNotificationColor; by rewrite Hrel, Hd).
  destruct t; simpl in Ha; try discriminate Ha; unfold setLightState, guarded, spec_event; rewrite ?Ha;
    cbn [remember_state] in Hu |- *; rewrite ?Hu; apply IO_then_ret.
Qed.

Lemma run_lights_refines (calls : list LightCall) (history : list LightCall) (l : LightsState) (f : F) :
  lights_rel history l ->
  exists l', mDevices l' = mDevices l /\ mLights l' = mLights l /\
    run_lights calls l f = ((spec_status (mDevices l) <$> calls, l'),
      (forM (spec_events (mDevices l) history calls) (show (mDevices l)) f).2) /\
    notification_state l' =
      spec_arbitrate (rev (List.filter (fun c => spec_accepts (mDevices l) c.1) calls) ++ history).
Proof.
  revert history l f. induction calls as [| [t hw] calls IH]; intros history l f Hrel.
  { exists l. split_and!; [done | done | done |]. simpl. by apply notification_state_arbitrates. }
  cbn [run_lights spec_events]. unfold mbind, IO_bind at 1.
  destruct (spec_accepts (mDevices l) t) eqn:Ha; cbn [List.filter fst]; rewrite Ha.
  - rewrite (setLightState_accepted history) by done.
    destruct (remember_state_devices t (fromAidl hw) l) as [Hd Hl].
    destruct (IH ((t, hw) :: history) (remember_state t (fromAidl hw) l)
      (show (mDevices l) (spec_event ((t, hw) :: history) t hw) f).2) as (l' & D & L & R & N);
      [by apply remember_state_rel |].
    rewrite Hd in D, R, N. rewrite Hl in L. exists l'. split_and!; [done | done | |].
    + unfold IO_bind. rewrite R. cbn [fmap list_fmap forM]. unfold spec_status at 2. cbn [fst]. rewrite Ha.
      unfold mbind, IO_bind, mret, IO_ret. by destruct (show _ _ f).
    + rewrite N. cbn [rev]. by rewrite <- app_assoc.
  - rewrite setLightState_refused by done.
    destruct (IH history l f Hrel) as (l' & D & L & R & N). exists l'. split_and!; [done | done | | done].
    unfold IO_bind. rewrite R. cbn [fmap list_fmap]. unfold spec_status at 2. cbn [fst]. by rewrite Ha.
Qed.

Lemma Lights_new_rel (f : F) (l : LightsState) : Lights_new f = Some l -> lights_rel [] l.
Proof. unfold Lights_new. intros Hl. destruct (Devices_new f); simplify_eq/=. done. Qed.

(** C31. The light service implements its specification.  For every sequence of
    [setLightState] calls to a service that was started on some file system:
    the statuses are those of the specification; what reaches the devices is,
    call by call and in order, exactly one group showing one state per accepted
    call and nothing for a refused one, where the five lights that share the
    notification devices (camera, microphone, notifications, attention,
    battery, in this order of priority) show the first lit state among those
    last set; and every light the service announced is accepted. *)
Theorem lights_refine_history (calls : list LightCall) (f0 f : F) (l : LightsState) (H0 : Lights_new f0 = Some l) :
  let d := mDevices l in
  let '((statuses, l'), f') := run_lights calls l f in
  statuses = (spec_status d <$> calls) /\
  f' = (forM (spec_events d [] calls) (show d) f).2 /\
  mDevices l' = d /\ getLights l' [] = mLights l /\
  notification_state l' = spec_arbitrate (rev (List.filter (fun c => spec_accepts d c.1) calls)) /\
  (forall t, t ∈ mLights l -> spec_accepts d t = true).
Proof.
  intros d. destruct (run_lights_refines calls [] l f (Lights_new_rel f0 l H0)) as (l' & D & L & R & N).
  rewrite R. rewrite app_nil_r in N. split_and!; [done | done | done | by unfold getLights | done |].
  clear R N D L. unfold d. clear d. unfold Lights_new in H0.
  destruct (Devices_new f0) as [dv |]; [| discriminate H0]. injection H0 as <-. simpl. intros t.
  rewrite !elem_of_app.
  destruct (hasBacklightDevices dv) eqn:?, (hasButtonDevices dv) eqn:?, (hasKeyboardDevices dv) eqn:?,
    (hasNotificationDevices dv) eqn:?; rewrite ?elem_of_cons, ?elem_of_nil; naive_solver.
Qed.

End lights.

Arguments Lights_new {F H}.

(** ** A device with a white LED *)

Definition example_calls : list LightCall :=
  [(LIGHT_BATTERY, mkHwLightState 16711680 FLASH_NONE 0 0);
   (LIGHT_NOTIFICATIONS, mkHwLightState 65280 FLASH_TIMED 500 1000);
   (LIGHT_BACKLIGHT, mkHwLightState 16777215 FLASH_NONE 0 0);
   (LIGHT_NOTIFICATIONS, mkHwLightState 0 FLASH_NONE 0 0)].

Definition example_lights : LightsState :=
  mkLightsState [LIGHT_BATTERY; LIGHT_NOTIFICATIONS; LIGHT_ATTENTION; LIGHT_MICROPHONE; LIGHT_CAMERA]
    (mkDevices [] [] [] [] [] [mkLedDevice "white" 0 "/sys/class/leds/white/" 511 "breath" true false])
    State_default State_default State_default State_default State_default.

Lemma lights_refine_history_witness :
  (run_lights false example_calls example_lights example_led_fs).1.1 =
    [LIGHT_OK; LIGHT_OK; LIGHT_UNSUPPORTED_OPERATION; LIGHT_OK].
Proof.
  assert (Lights_new false 0 example_led_fs = Some example_lights) as H0 by (vm_compute; reflexivity).
  pose proof (lights_refine_history false false 0 example_calls example_led_fs example_led_fs example_lights H0) as H.
  cbv zeta in H.
  destruct (run_lights false example_calls example_lights example_led_fs) as [[ss l'] f'].
  destruct H as [-> _]. reflexivity.
Defined.
