(* ===== verification/Health.v ===== *)
(** * The health service: charging control and fast charge
      (src/health/aidl/default/ChargingControl.{h,cpp}, FastCharge.{h,cpp})

    The build configuration (the [HEALTH_*] macros) is a record of the model.
    The constructor waits for one node of each supported kind to become
    accessible, probing the candidates in order; the calls then read and write
    that node.

    Shown: the constructor returns if and when a candidate is accessible for
    good, with a candidate it saw accessible, and with the first one when the
    nodes do not change; a value that was set is read back, for the charging
    switch, every 64-bit deadline, every limit and every fast charge mode; the
    calls of features that are not configured are refused. *)

From S2P Require Import Prelude Text SysFs.
From Stdlib Require Import Ascii.

(** ** Waiting for a node

    The loops of the constructor, over the time of the probes: [usable t n]
    is the outcome of [access] on the node [n] at the [t]-th probe. *)

Section search.
Context {N : Type} (usable : nat -> N -> bool).

Definition OPEN_RETRY_COUNT : nat := 10.

Fixpoint probe_node (retries t : nat) (node : N) : bool * nat :=
  match retries with
  | O => (false, t)
  | S retries => if usable t node then (true, S t) else probe_node retries (S t) node
  end.

Fixpoint scan_nodes (nodes : list N) (t : nat) : option N * nat :=
  match nodes with
  | [] => (None, t)
  | node :: nodes =>
      let '(found, t) := probe_node OPEN_RETRY_COUNT t node in
      if (found : bool) then (Some node, t) else scan_nodes nodes t
  end.

(** The [while] loop runs until a node is found; [fuel] bounds the number of
    rounds, [None] is a loop still running. *)
Fixpoint search_node (fuel : nat) (nodes : list N) (t : nat) : option (N * nat) :=
  match fuel with
  | O => None
  | S fuel =>
      match scan_nodes nodes t with
      | (Some node, t) => Some (node, t)
      | (None, t) => search_node fuel nodes t
      end
  end.

Lemma probe_node_time (retries t : nat) (node : N) :
  (t <= (probe_node retries t node).2)%nat /\ ((0 < retries)%nat -> (t < (probe_node retries t node).2)%nat).
Proof.
  revert t. induction retries as [| r IH]; intros t; simpl; [lia |].
  destruct (usable t node); simpl; [lia |]. destruct (IH (S t)). lia.
Qed.

Lemma probe_node_sound (retries t : nat) (node : N) :
  (probe_node retries t node).1 = true -> exists t0, (t <= t0)%nat /\ usable t0 node = true.
Proof.
  revert t. induction retries as [| r IH]; intros t; simpl; [done |].
  destruct (usable t node) eqn:E; [eauto |]. intros (t0 & ? & ?)%IH. exists t0. split; [lia | done].
Qed.

Lemma probe_node_hit (retries t : nat) (node : N) :
  usable t node = true -> probe_node (S retries) t node = (true, S t).
Proof. intros E. simpl. by rewrite E. Qed.

Lemma scan_nodes_time (nodes : list N) (t : nat) :
  (t <= (scan_nodes nodes t).2)%nat /\ (nodes <> [] -> (t < (scan_nodes nodes t).2)%nat).
Proof.
  revert t. induction nodes as [| n nodes IH]; intros t; cbn [scan_nodes]; [simpl; split; [lia | done] |].
  destruct (probe_node_time OPEN_RETRY_COUNT t n) as [_ Hp]. specialize (Hp ltac:(unfold OPEN_RETRY_COUNT; lia)).
  destruct (probe_node OPEN_RETRY_COUNT t n) as [[] t']; simpl in Hp |- *; [lia |]. destruct (IH t'). lia.
Qed.

Lemma scan_nodes_sound (nodes : list N) (t : nat) (node : N) :
  (scan_nodes nodes t).1 = Some node -> node ∈ nodes /\ exists t0, (t <= t0)%nat /\ usable t0 node = true.
Proof.
  revert t. induction nodes as [| n nodes IH]; intros t; cbn [scan_nodes]; [done |].
  pose proof (probe_node_sound OPEN_RETRY_COUNT t n) as Hs. pose proof (probe_node_time OPEN_RETRY_COUNT t n) as [Ht _].
  destruct (probe_node OPEN_RETRY_COUNT t n) as [[] t']; simpl in Hs, Ht |- *.
  - intros [= ->]. split; [by constructor | by apply Hs].
  - intros (? & t0 & ? & ?)%IH. split; [by constructor | exists t0; split; [lia | done]].
Qed.

(** Once a candidate stays accessible, the next round finds one. *)
Lemma scan_nodes_finds (nodes : list N) (t T : nat) (node : N) :
  node ∈ nodes -> (forall t0, (T <= t0)%nat -> usable t0 node = true) -> (T <= t)%nat ->
  is_Some (scan_nodes nodes t).1.
Proof.
  intros Hn Hu. revert t. induction nodes as [| n nodes IH]; intros t Ht; [by apply elem_of_nil in Hn |].
  cbn [scan_nodes]. apply elem_of_cons in Hn as [-> | Hn].
  - unfold OPEN_RETRY_COUNT. rewrite probe_node_hit by auto. eauto.
  - pose proof (probe_node_time OPEN_RETRY_COUNT t n) as [Hp _].
    destruct (probe_node OPEN_RETRY_COUNT t n) as [[] t']; simpl in Hp |- *; [eauto |]. apply IH; [done | lia].
Qed.

Lemma search_node_sound (fuel : nat) (nodes : list N) (t t' : nat) (node : N) :
  search_node fuel nodes t = Some (node, t') -> node ∈ nodes /\ exists t0, usable t0 node = true.
Proof.
  revert t. induction fuel as [| fuel IH]; intros t; [done |]. cbn [search_node].
  destruct (scan_nodes nodes t) as [[n |] t1] eqn:E; [| apply IH]. intros [= -> ->].
  destruct (scan_nodes_sound nodes t node) as (? & t0 & _ & ?); [by rewrite E | eauto].
Qed.

Lemma search_node_live (fuel : nat) (nodes : list N) (t T : nat) (node : N) :
  node ∈ nodes -> (forall t0, (T <= t0)%nat -> usable t0 node = true) -> (T <= t + fuel)%nat ->
  is_Some (search_node (S fuel) nodes t).
Proof.
  intros Hn Hu. assert (nodes <> []) as Hne by (intros ->; by apply elem_of_nil in Hn).
  revert t. induction fuel as [| fuel IH]; intros t Ht.
  - cbn [search_node]. destruct (scan_nodes_finds nodes t T node Hn Hu ltac:(lia)) as [n E].
    destruct (scan_nodes nodes t) as [[n' |] t1]; [eauto | discriminate E].
  - remember (S fuel) as fuel' eqn:Ef. cbn [search_node].
    destruct (scan_nodes_time nodes t) as [_ Ht']. specialize (Ht' Hne).
    destruct (scan_nodes nodes t) as [[n' |] t1]; simpl in Ht'; [eauto |]. apply IH. lia.
Qed.

Lemma scan_nodes_none (nodes : list N) (t : nat) :
  (forall n t0, n ∈ nodes -> usable t0 n = false) -> (scan_nodes nodes t).1 = None.
Proof.
  intros Hu. destruct (scan_nodes nodes t) as [[n |] t'] eqn:E; [| done].
  destruct (scan_nodes_sound nodes t n) as (Hn & t0 & _ & Ht); [by rewrite E |]. by rewrite Hu in Ht.
Qed.

(** Without an accessible candidate the constructor never returns. *)
Lemma search_node_stuck (fuel : nat) (nodes : list N) (t : nat) :
  (forall n t0, n ∈ nodes -> usable t0 n = false) -> search_node fuel nodes t = None.
Proof.
  intros Hu. revert t. induction fuel as [| fuel IH]; intros t; [done |]. cbn [search_node].
  pose proof (scan_nodes_none nodes t Hu). destruct (scan_nodes nodes t) as [[n |] t']; [done | apply IH].
Qed.

(** With accessibility that does not change, the first accessible candidate is
    chosen in the first round. *)
Lemma scan_nodes_static (ok : N -> bool) (nodes : list N) (t : nat) :
  (forall n t0, usable t0 n = ok n) -> (scan_nodes nodes t).1 = List.find ok nodes.
Proof.
  intros Hu. revert t. induction nodes as [| n nodes IH]; intros t; [done |]. cbn [scan_nodes List.find].
  destruct (ok n) eqn:E.
  - unfold OPEN_RETRY_COUNT. rewrite probe_node_hit by (by rewrite Hu). done.
  - pose proof (probe_node_sound OPEN_RETRY_COUNT t n) as Hs.
    destruct (probe_node OPEN_RETRY_COUNT t n) as [[] t']; [| apply IH].
    destruct Hs as (t0 & _ & Ht); [done |]. rewrite Hu in Ht. congruence.
Qed.

End search.

(** ** Configuration *)

Definition MODE_TOGGLE : Z := 1.
Definition MODE_BYPASS : Z := 2.
Definition MODE_DEADLINE : Z := 4.
Definition MODE_LIMIT : Z := 8.

Record ChargingEnabledNode := mkChargingEnabledNode {
  en_path : string;
  value_true : string;
  value_false : string;
  supported_mode : option Z
}.

Record ChargingLimitNode := mkChargingLimitNode { min_path : string; max_path : string }.

(** The macros of the build: which features are compiled in, and the node
    paths that replace the built-in candidates. *)
Record HealthConfig := mkHealthConfig {
  SUPPORTS_TOGGLE : bool;
  SUPPORTS_BYPASS : bool;
  SUPPORTS_DEADLINE : bool;
  SUPPORTS_LIMIT : bool;
  CHARGING_PATH : option string;
  CHARGING_ENABLED : string;
  CHARGING_DISABLED : string;
  DEADLINE_PATH : option string;
  LIMIT_PATHS : option (string * string)
}.

Definition kChargingEnabledNodes (c : HealthConfig) : list ChargingEnabledNode :=
  match CHARGING_PATH c with
  | Some path => [mkChargingEnabledNode path (CHARGING_ENABLED c) (CHARGING_DISABLED c) None]
  | None =>
      [mkChargingEnabledNode "/sys/class/power_supply/battery/battery_charging_enabled" "1" "0"
         (Some (Z.lor MODE_TOGGLE MODE_BYPASS));
       mkChargingEnabledNode "/sys/class/power_supply/battery/charging_enabled" "1" "0"
         (Some (Z.lor MODE_TOGGLE MODE_BYPASS));
       mkChargingEnabledNode "/sys/class/power_supply/battery/input_suspend" "0" "1" (Some MODE_TOGGLE);
       mkChargingEnabledNode "/sys/class/qcom-battery/input_suspend" "0" "1" (Some MODE_TOGGLE)]
  end.

Definition kChargingDeadlineNodes (c : HealthConfig) : list string :=
  match DEADLINE_PATH c with
  | Some path => [path]
  | None => ["/sys/class/power_supply/battery/charge_deadline"]
  end.

Definition kChargingLimitNodes (c : HealthConfig) : list ChargingLimitNode :=
  match LIMIT_PATHS c with
  | Some (start, stop) => [mkChargingLimitNode start stop]
  | None => [mkChargingLimitNode "/sys/devices/platform/google,charger/charge_start_level"
                                 "/sys/devices/platform/google,charger/charge_stop_level"]
  end.

(** ** ChargingControl *)

Record ChargingControl := mkChargingControl {
  mChargingEnabledNode : option ChargingEnabledNode;
  mChargingDeadlineNode : option string;
  mChargingLimitNode : option ChargingLimitNode
}.

(** One kind of node in the constructor: not compiled in, a configured path
    taken without a test, or the search. *)
Definition choose_node {N} (supports configured : bool) (usable : nat -> N -> bool) (nodes : list N)
    (fuel t : nat) : option (option N * nat) :=
  if negb supports then Some (None, t)
  else if configured then Some (head nodes, t)
  else match search_node usable fuel nodes t with
       | Some (n, t) => Some (Some n, t)
       | None => None
       end.

Definition is_set {A} (o : option A) : bool := match o with Some _ => true | None => false end.

(** The constructor; [acc t p] is [access(p, R_OK | W_OK) == 0] at the time
    [t], [None] a constructor still waiting after [fuel] rounds of a loop. *)
Definition ChargingControl_new (c : HealthConfig) (acc : nat -> string -> bool) (fuel t : nat) : option ChargingControl :=
  '(en, t) ← choose_node (SUPPORTS_TOGGLE c) (is_set (CHARGING_PATH c)) (fun t n => acc t (en_path n))
    (kChargingEnabledNodes c) fuel t;
  '(dl, t) ← choose_node (SUPPORTS_DEADLINE c) (is_set (DEADLINE_PATH c)) acc (kChargingDeadlineNodes c) fuel t;
  '(li, t) ← choose_node (SUPPORTS_LIMIT c) (is_set (LIMIT_PATHS c))
    (fun t n => acc t (min_path n) && acc t (max_path n)) (kChargingLimitNodes c) fuel t;
  Some (mkChargingControl en dl li).

Section calls.
Context {F : Type} `{FileSystem F} `{AndroidTrim} (c : HealthConfig).

(** Continue with what a pointer refers to; a null pointer ends the process. *)
Definition deref {A B} (p : option A) (k : A -> IO F (HalResult B)) : IO F (HalResult B) :=
  match p with Some x => k x | None => mret HalAbort end.

Definition getChargingEnabled (cc : ChargingControl) : IO F (HalResult bool) :=
  if negb (SUPPORTS_TOGGLE c) then mret (HalErr EX_UNSUPPORTED_OPERATION)
  else deref (mChargingEnabledNode cc) (fun node =>
    content ← ReadFileToString (en_path node);
    match content with
    | None => mret (HalErr EX_UNSUPPORTED_OPERATION)
    | Some content =>
        let content := Trim content in
        if String.eqb content (value_true node) then mret (HalOk true)
        else if String.eqb content (value_false node) then mret (HalOk false)
        else mret (HalErr EX_ILLEGAL_STATE)
    end).

Definition setChargingEnabled (enabled : bool) (cc : ChargingControl) : IO F (HalResult unit) :=
  if negb (SUPPORTS_TOGGLE c) then mret (HalErr EX_UNSUPPORTED_OPERATION)
  else deref (mChargingEnabledNode cc) (fun node =>
    ok ← WriteStringToFile (if enabled then value_true node else value_false node) (en_path node);
    mret (if (ok : bool) then HalOk tt else HalErr EX_UNSUPPORTED_OPERATION)).

(** [std::stoll]; its exception ends the process. *)
Definition stoll_result (s : string) : HalResult Z :=
  match stoll s with Some z => HalOk z | None => HalAbort end.

Definition getChargingDeadline (cc : ChargingControl) : IO F (HalResult Z) :=
  if negb (SUPPORTS_DEADLINE c) then mret (HalErr EX_UNSUPPORTED_OPERATION)
  else deref (mChargingDeadlineNode cc) (fun node =>
    content ← ReadFileToString node;
    match content with
    | None => mret (HalErr EX_UNSUPPORTED_OPERATION)
    | Some content => mret (stoll_result (Trim content))
    end).

Definition setChargingDeadline (deadline : Z) (cc : ChargingControl) : IO F (HalResult unit) :=
  if negb (SUPPORTS_DEADLINE c) then mret (HalErr EX_UNSUPPORTED_OPERATION)
  else deref (mChargingDeadlineNode cc) (fun node =>
    ok ← WriteStringToFile (to_text deadline) node;
    mret (if (ok : bool) then HalOk tt else HalErr EX_ILLEGAL_STATE)).

Record ChargingLimitInfo := mkChargingLimitInfo { limit_max : Z; limit_min : Z }.

(** The numbers are stored in the [int] fields of the parcelable. *)
Definition getChargingLimit (cc : ChargingControl) : IO F (HalResult ChargingLimitInfo) :=
  if negb (SUPPORTS_LIMIT c) then mret (HalErr EX_UNSUPPORTED_OPERATION)
  else deref (mChargingLimitNode cc) (fun node =>
    content ← ReadFileToString (min_path node);
    match content with
    | None => mret (HalErr EX_UNSUPPORTED_OPERATION)
    | Some content =>
        match stoll content with
        | None => mret HalAbort
        | Some mn =>
            content ← ReadFileToString (max_path node);
            match content with
            | None => mret (HalErr EX_UNSUPPORTED_OPERATION)
            | Some content =>
                match stoll content with
                | None => mret HalAbort
                | Some mx => mret (HalOk (mkChargingLimitInfo (i32 mx) (i32 mn)))
                end
            end
        end
    end).

Definition setChargingLimit (limit : ChargingLimitInfo) (cc : ChargingControl) : IO F (HalResult unit) :=
  if negb (SUPPORTS_LIMIT c) then mret (HalErr EX_UNSUPPORTED_OPERATION)
  else deref (mChargingLimitNode cc) (fun node =>
    ok ← WriteStringToFile (to_text (limit_max limit)) (max_path node);
    if negb ok then mret (HalErr EX_UNSUPPORTED_OPERATION)
    else
      ok ← WriteStringToFile (to_text (limit_min limit)) (min_path node);
      mret (if (ok : bool) then HalOk tt else HalErr EX_UNSUPPORTED_OPERATION)).

(** The modes compiled in. *)
Definition configured_mode : Z :=
  let mode := 0 in
  let mode := if SUPPORTS_TOGGLE c then Z.lor mode MODE_TOGGLE else mode in
  let mode := if SUPPORTS_BYPASS c then Z.lor mode MODE_BYPASS else mode in
  let mode := if SUPPORTS_DEADLINE c then Z.lor mode MODE_DEADLINE else mode in
  if SUPPORTS_LIMIT c then Z.lor mode MODE_LIMIT else mode.

Definition getSupportedMode (cc : ChargingControl) : IO F (HalResult Z) :=
  if SUPPORTS_TOGGLE c then
    deref (mChargingEnabledNode cc) (fun node => mret (HalOk (default configured_mode (supported_mode node))))
  else mret (HalOk configured_mode).

End calls.

(** ** FastCharge *)

(** The AIDL modes are bits; any other number is [FAST_raw]. *)
Inductive FastChargeMode := FAST_NONE | FAST_CHARGE | SUPER_FAST_CHARGE | FAST_raw (n : Z).

#[export] Instance FastChargeMode_eq_dec : EqDecision FastChargeMode.
Proof. solve_decision. Defined.

Definition FastChargeMode_bits (m : FastChargeMode) : Z :=
  match m with FAST_NONE => 1 | FAST_CHARGE => 2 | SUPER_FAST_CHARGE => 4 | FAST_raw n => n end.

Record FastChargeConfig := mkFastChargeConfig {
  fc_node : option string;
  valueNone : option string;
  valueFastCharge : option string;
  valueSuperFastCharge : option string
}.

Definition modeToValue (fc : FastChargeConfig) (value : string) : option FastChargeMode :=
  if bool_decide (valueNone fc = Some value) then Some FAST_NONE
  else if bool_decide (valueFastCharge fc = Some value) then Some FAST_CHARGE
  else if bool_decide (valueSuperFastCharge fc = Some value) then Some SUPER_FAST_CHARGE
  else None.

Definition valueToMode (fc : FastChargeConfig) (mode : FastChargeMode) : option string :=
  match mode with
  | FAST_NONE => valueNone fc
  | FAST_CHARGE => valueFastCharge fc
  | SUPER_FAST_CHARGE => valueSuperFastCharge fc
  | FAST_raw _ => None
  end.

Definition supportedModesInternal (fc : FastChargeConfig) : Z :=
  if is_set (fc_node fc) then
    let ret := 0 in
    let ret := if is_set (valueNone fc) then Z.lor ret (FastChargeMode_bits FAST_NONE) else ret in
    let ret := if is_set (valueFastCharge fc) then Z.lor ret (FastChargeMode_bits FAST_CHARGE) else ret in
    if is_set (valueSuperFastCharge fc) then Z.lor ret (FastChargeMode_bits SUPER_FAST_CHARGE) else ret
  else 0.

Section fast_charge.
Context {F : Type} `{FileSystem F} `{AndroidTrim} (fc : FastChargeConfig).

Definition getSupportedFastChargeModes : HalResult Z := HalOk (supportedModesInternal fc).

Definition getFastChargeMode : IO F (HalResult FastChargeMode) :=
  if supportedModesInternal fc =? 0 then mret (HalErr EX_UNSUPPORTED_OPERATION)
  else deref (fc_node fc) (fun node =>
    content ← ReadFileToString node;
    match content with
    | None => mret (HalErr EX_UNSUPPORTED_OPERATION)
    | Some content =>
        match modeToValue fc (Trim content) with
        | None => mret (HalErr EX_UNSUPPORTED_OPERATION)
        | Some mode => mret (HalOk mode)
        end
    end).

Definition setFastChargeMode (in_mode : FastChargeMode) : IO F (HalResult FastChargeMode) :=
  match valueToMode fc in_mode with
  | None => mret (HalErr EX_UNSUPPORTED_OPERATION)
  | Some value => deref (fc_node fc) (fun node =>
      ok ← WriteStringToFile value node;
      if negb ok then mret (HalErr EX_UNSUPPORTED_OPERATION) else getFastChargeMode)
  end.

End fast_charge.

(** ** What the constructor leaves *)

Lemma choose_node_spec {N} (supports configured : bool) (usable : nat -> N -> bool) (nodes : list N) (fuel t t' : nat) (r : option N) :
  nodes <> [] -> choose_node supports configured usable nodes fuel t = Some (r, t') ->
  if supports then exists n, r = Some n /\ n ∈ nodes else r = None.
Proof.
  intros Hne. unfold choose_node. destruct supports; simpl; [| by intros [= <-]].
  destruct configured.
  - destruct nodes as [| n nodes]; [done |]. intros [= <- _]. exists n. split; [done | by constructor].
  - destruct (search_node usable fuel nodes t) as [[n t1] |] eqn:E; [| done]. intros [= <- _].
    exists n. split; [done |]. by apply search_node_sound in E as [? _].
Qed.

(** Exactly the supported kinds have a node, one of the candidates. *)
Lemma ChargingControl_new_nodes (c : HealthConfig) (acc : nat -> string -> bool) (fuel t : nat) (cc : ChargingControl) :
  ChargingControl_new c acc fuel t = Some cc ->
  (if SUPPORTS_TOGGLE c then exists n, mChargingEnabledNode cc = Some n /\ n ∈ kChargingEnabledNodes c
   else mChargingEnabledNode cc = None) /\
  (if SUPPORTS_DEADLINE c then exists n, mChargingDeadlineNode cc = Some n /\ n ∈ kChargingDeadlineNodes c
   else mChargingDeadlineNode cc = None) /\
  (if SUPPORTS_LIMIT c then exists n, mChargingLimitNode cc = Some n /\ n ∈ kChargingLimitNodes c
   else mChargingLimitNode cc = None).
Proof.
  unfold ChargingControl_new. intros Hc.
  destruct (choose_node (SUPPORTS_TOGGLE c) _ _ _ _ _) as [[en t1] |] eqn:E1; [| done]. simpl in Hc.
  destruct (choose_node (SUPPORTS_DEADLINE c) _ _ _ _ _) as [[dl t2] |] eqn:E2; [| done]. simpl in Hc.
  destruct (choose_node (SUPPORTS_LIMIT c) _ _ _ _ _) as [[li t3] |] eqn:E3; [| done]. simplify_eq/=.
  apply choose_node_spec in E1; [| unfold kChargingEnabledNodes; by destruct (CHARGING_PATH c)].
  apply choose_node_spec in E2; [| unfold kChargingDeadlineNodes; by destruct (DEADLINE_PATH c)].
  apply choose_node_spec in E3; [| unfold kChargingLimitNodes; by destruct (LIMIT_PATHS c) as [[] |]].
  auto.
Qed.

(** The texts of the switch are usable: trimmed and different. *)
Definition switch_values_ok `{AndroidTrim} (c : HealthConfig) : Prop :=
  Trim (CHARGING_ENABLED c) = CHARGING_ENABLED c /\ Trim (CHARGING_DISABLED c) = CHARGING_DISABLED c /\
  CHARGING_ENABLED c <> CHARGING_DISABLED c.

Lemma kChargingEnabledNodes_values `{AndroidTrim} (c : HealthConfig) (n : ChargingEnabledNode) :
  switch_values_ok c -> n ∈ kChargingEnabledNodes c ->
  Trim (value_true n) = value_true n /\ Trim (value_false n) = value_false n /\ value_true n <> value_false n.
Proof.
  intros (H1 & H2 & H3). unfold kChargingEnabledNodes. destruct (CHARGING_PATH c).
  - by intros ->%list_elem_of_singleton.
  - assert (Trim "0" = "0" /\ Trim "1" = "1") as [T0 T1] by (split; apply Trim_no_space; by repeat constructor).
    rewrite !elem_of_cons, elem_of_nil. intros Hn; destruct_or! Hn; subst; done.
Qed.

(** ** Round trips of the nodes *)

Section roundtrip.
Context {F : Type} `{FileSystem F} `{AndroidTrim} (c : HealthConfig).

Lemma charging_enabled_roundtrip (cc : ChargingControl) (n : ChargingEnabledNode) (b : bool) (f f' : F) :
  EchoNode F (en_path n) -> mChargingEnabledNode cc = Some n ->
  Trim (value_true n) = value_true n -> Trim (value_false n) = value_false n -> value_true n <> value_false n ->
  setChargingEnabled c b cc f = (HalOk tt, f') -> (getChargingEnabled c cc f').1 = HalOk b.
Proof.
  intros He Hn Ht Hf Hne. unfold setChargingEnabled, getChargingEnabled.
  destruct (SUPPORTS_TOGGLE c); [simpl | done]. rewrite Hn. unfold deref, mbind, IO_bind.
  destruct (WriteStringToFile _ _ f) as [[] g] eqn:E; [intros [= ->] | done].
  apply WriteStringToFile_true, He in E as (ws & Hw & E). unfold ReadFileToString, io_get. rewrite E.
  cbv zeta. rewrite Trim_app_space by done. destruct b.
  - by rewrite Ht, String.eqb_refl.
  - rewrite Hf, String.eqb_refl. destruct (String.eqb_spec (value_false n) (value_true n)); [congruence | done].
Qed.

Lemma charging_deadline_roundtrip (cc : ChargingControl) (p : string) (deadline : Z) (f f' : F) :
  EchoNode F p -> mChargingDeadlineNode cc = Some p -> is_i64 deadline ->
  setChargingDeadline c deadline cc f = (HalOk tt, f') -> (getChargingDeadline c cc f').1 = HalOk deadline.
Proof.
  intros He Hn Hd. unfold setChargingDeadline, getChargingDeadline.
  destruct (SUPPORTS_DEADLINE c); [simpl | done]. rewrite Hn. unfold deref, mbind, IO_bind.
  destruct (WriteStringToFile _ _ f) as [[] g] eqn:E; [intros [= ->] | done].
  apply WriteStringToFile_true, He in E as (ws & Hw & E). unfold ReadFileToString, io_get. rewrite E. simpl.
  rewrite Trim_app_space, (Trim_no_space (to_text deadline)) by auto using to_text_no_space.
  unfold stoll_result. pose proof (stoll_to_text deadline "" Hd eq_refl) as Hs.
  rewrite String_app_nil_r in Hs. by rewrite Hs.
Qed.

Lemma charging_limit_roundtrip (cc : ChargingControl) (n : ChargingLimitNode) (limit : ChargingLimitInfo) (f f' : F) :
  EchoNode F (min_path n) -> EchoNode F (max_path n) -> SeparateNodes F (min_path n) (max_path n) ->
  mChargingLimitNode cc = Some n -> is_i32 (limit_max limit) -> is_i32 (limit_min limit) ->
  setChargingLimit c limit cc f = (HalOk tt, f') -> (getChargingLimit c cc f').1 = HalOk limit.
Proof.
  intros He1 He2 Hs Hn Hmx Hmn. unfold setChargingLimit, getChargingLimit.
  destruct (SUPPORTS_LIMIT c); [simpl | done]. rewrite Hn. unfold deref, mbind, IO_bind.
  destruct (WriteStringToFile _ _ f) as [[] g] eqn:E; [simpl | done].
  destruct (WriteStringToFile _ _ g) as [[] g'] eqn:E'; [intros [= ->] | done].
  apply WriteStringToFile_true in E, E'. pose proof (Hs _ _ _ _ E') as Es.
  apply He2 in E as (ws & Hw & E). apply He1 in E' as (ws' & Hw' & E'). rewrite E in Es.
  assert (forall z, is_i32 z -> is_i64 z) as Hi by (unfold is_i32, is_i64; lia).
  unfold ReadFileToString, io_get. rewrite E', stoll_to_text by auto using starts_with_digit_space. cbv beta iota.
  rewrite Es, stoll_to_text by auto using starts_with_digit_space. cbn [fst]. rewrite !i32_id by done. by destruct limit.
Qed.

End roundtrip.

(** A charging setting that was stored is read back.  For a control object
    left by the constructor in any configuration whose switch texts are trimmed
    and different, and nodes that echo (a driver may add a newline): after a
    successful [setChargingEnabled] the switch reads back the same, after
    [setChargingDeadline] every 64-bit deadline does (printed by
    [std::to_string], parsed by [std::stoll]), and after [setChargingLimit]
    every pair of [int] limits does. *)
Theorem charging_control_roundtrip {F : Type} `{FileSystem F} `{AndroidTrim} (c : HealthConfig) (acc : nat -> string -> bool)
    (fuel t : nat) (cc : ChargingControl) (f f' : F) (b : bool) (deadline : Z) (limit : ChargingLimitInfo)
    (Hcc : ChargingControl_new c acc fuel t = Some cc) (Hc : switch_values_ok c)
    (Hecho : forall p, EchoNode F p) (Hsep : forall p q, p <> q -> SeparateNodes F p q)
    (Hpaths : forall n, n ∈ kChargingLimitNodes c -> min_path n <> max_path n)
    (Hd : is_i64 deadline) (Hmax : is_i32 (limit_max limit)) (Hmin : is_i32 (limit_min limit)) :
  (setChargingEnabled c b cc f = (HalOk tt, f') -> (getChargingEnabled c cc f').1 = HalOk b) /\
  (setChargingDeadline c deadline cc f = (HalOk tt, f') -> (getChargingDeadline c cc f').1 = HalOk deadline) /\
  (setChargingLimit c limit cc f = (HalOk tt, f') -> (getChargingLimit c cc f').1 = HalOk limit).
Proof.
  apply ChargingControl_new_nodes in Hcc as (Hen & Hdl & Hli). split_and!; intros Hset.
  - destruct (SUPPORTS_TOGGLE c) eqn:E; [| unfold setChargingEnabled in Hset; by rewrite E in Hset].
    destruct Hen as (n & Hn & Hin). apply kChargingEnabledNodes_values in Hin as (? & ? & ?); [| done].
    by eapply charging_enabled_roundtrip.
  - destruct (SUPPORTS_DEADLINE c) eqn:E; [| unfold setChargingDeadline in Hset; by rewrite E in Hset].
    destruct Hdl as (n & Hn & _). by eapply charging_deadline_roundtrip.
  - destruct (SUPPORTS_LIMIT c) eqn:E; [| unfold setChargingLimit in Hset; by rewrite E in Hset].
    destruct Hli as (n & Hn & Hin). eapply charging_limit_roundtrip; try done. by apply Hsep, Hpaths.
Qed.

Definition example_health : HealthConfig :=
  mkHealthConfig true true true true None "1" "0" None None.

(** The nodes of the example, accessible from the third probe on. *)
Definition example_health_fs : RamFs :=
  ram_init [("/sys/class/power_supply/battery/input_suspend", "0");
            ("/sys/class/power_supply/battery/charge_deadline", "-1");
            ("/sys/devices/platform/google,charger/charge_start_level", "0");
            ("/sys/devices/platform/google,charger/charge_stop_level", "100")].

Definition example_access (t : nat) (p : string) : bool := (3 <=? t)%nat && fs_good p example_health_fs.

Definition example_control : ChargingControl :=
  mkChargingControl (Some (mkChargingEnabledNode "/sys/class/power_supply/battery/input_suspend" "0" "1" (Some 1)))
    (Some "/sys/class/power_supply/battery/charge_deadline")
    (Some (mkChargingLimitNode "/sys/devices/platform/google,charger/charge_start_level"
                               "/sys/devices/platform/google,charger/charge_stop_level")).

Lemma charging_control_roundtrip_witness :
  (getChargingDeadline example_health example_control
     (setChargingDeadline example_health (-7) example_control example_health_fs).2).1 = HalOk (-7).
Proof.
  assert (ChargingControl_new example_health example_access 1 0 = Some example_control) as Hcc by (vm_compute; reflexivity).
  destruct (setChargingDeadline example_health (-7) example_control example_health_fs) as [r f'] eqn:E.
  assert (r = HalOk tt) as -> by (change r with (r, f').1; rewrite <- E; vm_compute; reflexivity).
  refine (proj1 (proj2 (charging_control_roundtrip example_health example_access 1 0 example_control
    example_health_fs f' true (-7) (mkChargingLimitInfo 80 70) Hcc _ RamFs_EchoNode RamFs_SeparateNodes _ _ _ _)) E).
  - split_and!; [reflexivity | reflexivity | discriminate].
  - intros n ->%list_elem_of_singleton. discriminate.
  - unfold is_i64; lia.
  - unfold is_i32; simpl; lia.
  - unfold is_i32; simpl; lia.
Defined.

(** ** The search *)

Lemma choose_node_live {N} (supports configured : bool) (usable : nat -> N -> bool) (nodes : list N) (fuel t T : nat) :
  (supports = true -> configured = false -> exists n, n ∈ nodes /\ forall t0, (T <= t0)%nat -> usable t0 n = true) ->
  (T <= t + fuel)%nat ->
  exists r t', choose_node supports configured usable nodes (S fuel) t = Some (r, t').
Proof.
  intros Hl Ht. unfold choose_node. destruct supports; [| by eauto]. destruct configured; [by eauto |].
  destruct Hl as (n & Hn & Hu); [done | done |].
  destruct (search_node_live usable fuel nodes t T n Hn Hu Ht) as [[n' t'] E]. cbn [negb]. rewrite E. eauto.
Qed.

Lemma choose_node_seen {N} (supports : bool) (usable : nat -> N -> bool) (nodes : list N) (fuel t t' : nat) (n : N) :
  choose_node supports false usable nodes fuel t = Some (Some n, t') -> n ∈ nodes /\ exists t0, usable t0 n = true.
Proof.
  unfold choose_node. destruct supports; [| done]. cbn [negb].
  destruct (search_node usable fuel nodes t) as [[n' t1] |] eqn:E; [| done]. intros [= -> _].
  by apply search_node_sound in E.
Qed.

(** The constructor of the charging control waits for its nodes and not
    longer.  If for each supported kind without a configured path some
    candidate is accessible from the probe [T] on, every run of the loops with
    more than [T] rounds returns; the node it selects is then a candidate that
    was seen accessible; and if no candidate of a supported kind is ever
    accessible, the constructor never returns, whatever the number of rounds. *)
Theorem charging_node_search (c : HealthConfig) (acc : nat -> string -> bool) (fuel T : nat) (Hfuel : (T <= fuel)%nat)
    (Htoggle : SUPPORTS_TOGGLE c = true -> CHARGING_PATH c = None ->
       exists n, n ∈ kChargingEnabledNodes c /\ forall t, (T <= t)%nat -> acc t (en_path n) = true)
    (Hdeadline : SUPPORTS_DEADLINE c = true -> DEADLINE_PATH c = None ->
       exists p, p ∈ kChargingDeadlineNodes c /\ forall t, (T <= t)%nat -> acc t p = true)
    (Hlimit : SUPPORTS_LIMIT c = true -> LIMIT_PATHS c = None ->
       exists n, n ∈ kChargingLimitNodes c /\ forall t, (T <= t)%nat -> acc t (min_path n) && acc t (max_path n) = true) :
  (exists cc, ChargingControl_new c acc (S fuel) 0 = Some cc /\
     (SUPPORTS_TOGGLE c = true -> CHARGING_PATH c = None ->
        exists n, mChargingEnabledNode cc = Some n /\ n ∈ kChargingEnabledNodes c /\ exists t, acc t (en_path n) = true)) /\
  (forall acc' fuel', SUPPORTS_TOGGLE c = true -> CHARGING_PATH c = None ->
     (forall n t, n ∈ kChargingEnabledNodes c -> acc' t (en_path n) = false) ->
     ChargingControl_new c acc' fuel' 0 = None).
Proof.
  split.
  - unfold ChargingControl_new.
    destruct (choose_node_live (SUPPORTS_TOGGLE c) (is_set (CHARGING_PATH c)) (fun t n => acc t (en_path n))
      (kChargingEnabledNodes c) fuel 0 T) as (en & t1 & E1); [intros ? E; apply Htoggle; [done | by destruct (CHARGING_PATH c)] | lia |].
    destruct (choose_node_live (SUPPORTS_DEADLINE c) (is_set (DEADLINE_PATH c)) acc
      (kChargingDeadlineNodes c) fuel t1 T) as (dl & t2 & E2); [intros ? E; apply Hdeadline; [done | by destruct (DEADLINE_PATH c)] | lia |].
    destruct (choose_node_live (SUPPORTS_LIMIT c) (is_set (LIMIT_PATHS c))
      (fun t n => acc t (min_path n) && acc t (max_path n))
      (kChargingLimitNodes c) fuel t2 T) as (li & t3 & E3); [intros ? E; apply Hlimit; [done | by destruct (LIMIT_PATHS c)] | lia |].
    exists (mkChargingControl en dl li). rewrite E1. simpl. rewrite E2. simpl. rewrite E3. split; [done |].
    intros Hs Hp. rewrite Hs, Hp in E1. simpl.
    assert (kChargingEnabledNodes c <> []) as Hne by (unfold kChargingEnabledNodes; by rewrite Hp).
    destruct (choose_node_spec _ _ _ _ _ _ _ _ Hne E1) as (n & -> & _).
    exists n. split; [done |]. by apply choose_node_seen in E1.
  - intros acc' fuel' Hs Hp Hno. unfold ChargingControl_new. rewrite Hs, Hp.
    assert (choose_node true (is_set (@None string)) (fun t n => acc' t (en_path n)) (kChargingEnabledNodes c) fuel' 0 = None) as ->;
      [| done]. unfold choose_node. cbn [negb is_set]. by rewrite search_node_stuck.
Qed.

Lemma charging_node_search_witness :
  exists cc, ChargingControl_new example_health example_access 4 0 = Some cc.
Proof.
  destruct (charging_node_search example_health example_access 3 3 ltac:(lia)) as [(cc & H & _) _].
  - intros _ _. exists (mkChargingEnabledNode "/sys/class/power_supply/battery/input_suspend" "0" "1" (Some 1)).
    split; [do 2 right; left |]. intros t Ht. unfold example_access. apply andb_true_iff.
    split; [by apply Nat.leb_le | vm_compute; reflexivity].
  - intros _ _. exists "/sys/class/power_supply/battery/charge_deadline". split; [left |].
    intros t Ht. unfold example_access. apply andb_true_iff. split; [by apply Nat.leb_le | vm_compute; reflexivity].
  - intros _ _. eexists. split; [left |]. intros t Ht. unfold example_access.
    apply andb_true_iff; split; (apply andb_true_iff; split; [by apply Nat.leb_le | vm_compute; reflexivity]).
  - exists cc. exact H.
Defined.

(** ** Errors of the charging control *)

Definition no_abort {A} (r : HalResult A) : Prop := r <> HalAbort.

(** After the constructor no call of the switch, no setter and not
    [getSupportedMode] dereferences a null pointer; a call of a feature that
    is not compiled in is refused and changes nothing. *)
Lemma charging_control_no_null {F : Type} `{FileSystem F} `{AndroidTrim} (c : HealthConfig) (acc : nat -> string -> bool)
    (fuel t : nat) (cc : ChargingControl) (f : F) :
  ChargingControl_new c acc fuel t = Some cc ->
  (forall b, no_abort (setChargingEnabled c b cc f).1) /\ no_abort (getChargingEnabled c cc f).1 /\
  (forall d, no_abort (setChargingDeadline c d cc f).1) /\ (forall l, no_abort (setChargingLimit c l cc f).1) /\
  no_abort (getSupportedMode c cc f).1 /\
  (SUPPORTS_TOGGLE c = false -> forall b, setChargingEnabled c b cc f = (HalErr EX_UNSUPPORTED_OPERATION, f)) /\
  (SUPPORTS_DEADLINE c = false -> forall d, setChargingDeadline c d cc f = (HalErr EX_UNSUPPORTED_OPERATION, f)) /\
  (SUPPORTS_LIMIT c = false -> forall l, setChargingLimit c l cc f = (HalErr EX_UNSUPPORTED_OPERATION, f)).
Proof.
  intros (Hen & Hdl & Hli)%ChargingControl_new_nodes. unfold no_abort.
  unfold setChargingEnabled, getChargingEnabled, setChargingDeadline, setChargingLimit, getSupportedMode.
  destruct (SUPPORTS_TOGGLE c), (SUPPORTS_DEADLINE c), (SUPPORTS_LIMIT c);
    destruct_and?; destruct_or?; repeat match goal with
    | He : exists n, ?p = Some n /\ _ |- _ => destruct He as (? & -> & _) end;
    unfold deref, mbind, IO_bind, mret, IO_ret; cbn [negb];
    split_and!; intros; try done; repeat case_match; simplify_eq/=; done.
Qed.

(** With the built-in switch nodes the modes of the node replace the compiled
    ones: a build with the limit feature does not report it. *)
Lemma getSupportedMode_drops_limit :
  (getSupportedMode example_health example_control example_health_fs).1 = HalOk MODE_TOGGLE /\
  Z.land (configured_mode example_health) MODE_LIMIT = MODE_LIMIT /\ Z.land MODE_TOGGLE MODE_LIMIT = 0.
Proof. done. Qed.

(** ** Fast charge *)

(** The texts of the modes are trimmed and pairwise different. *)
Definition fast_values_ok `{AndroidTrim} (fc : FastChargeConfig) : Prop :=
  (forall m v, valueToMode fc m = Some v -> Trim v = v) /\
  (forall m m' v, valueToMode fc m = Some v -> valueToMode fc m' = Some v -> m = m').

Lemma modeToValue_valueToMode `{AndroidTrim} (fc : FastChargeConfig) (m : FastChargeMode) (v : string) :
  fast_values_ok fc -> valueToMode fc m = Some v -> modeToValue fc v = Some m.
Proof.
  intros [_ Hinj] Hv. unfold modeToValue.
  destruct (bool_decide_reflect (valueNone fc = Some v)) as [E1 |]; [f_equal; exact (Hinj FAST_NONE m v E1 Hv) |].
  destruct (bool_decide_reflect (valueFastCharge fc = Some v)) as [E2 |]; [f_equal; exact (Hinj FAST_CHARGE m v E2 Hv) |].
  destruct (bool_decide_reflect (valueSuperFastCharge fc = Some v)) as [E3 |]; [f_equal; exact (Hinj SUPER_FAST_CHARGE m v E3 Hv) |].
  destruct m; simpl in Hv; congruence.
Qed.

Lemma supportedModes_bit (fc : FastChargeConfig) (m : FastChargeMode) (node v : string) :
  fc_node fc = Some node -> valueToMode fc m = Some v ->
  Z.land (supportedModesInternal fc) (FastChargeMode_bits m) = FastChargeMode_bits m /\ supportedModesInternal fc <> 0.
Proof.
  intros Hn Hv. unfold supportedModesInternal. rewrite Hn. cbn [is_set].
  destruct m; simpl in Hv; rewrite ?Hv; cbn [is_set]; [| | | done];
    destruct (valueNone fc), (valueFastCharge fc), (valueSuperFastCharge fc); try discriminate Hv; done.
Qed.

(** Fast charge: with a configured node and mode texts that are trimmed and
    pairwise different, setting a configured mode whose write succeeds on an
    echoing node returns that very mode and a later query returns it too, and
    the mode's bit is in the set of supported modes; setting a mode without a
    text is refused and leaves the file system unchanged. *)
Theorem fast_charge_roundtrip {F : Type} `{FileSystem F} `{AndroidTrim} (fc : FastChargeConfig) (node : string) (m : FastChargeMode) (f : F)
    (Hnode : fc_node fc = Some node) (Hok : fast_values_ok fc) (Hecho : EchoNode F node) :
  match valueToMode fc m with
  | None => setFastChargeMode fc m f = (HalErr EX_UNSUPPORTED_OPERATION, f)
  | Some v =>
      Z.land (supportedModesInternal fc) (FastChargeMode_bits m) = FastChargeMode_bits m /\
      forall f', fs_write node v f = (Written, f') ->
        setFastChargeMode fc m f = (HalOk m, f') /\ getFastChargeMode fc f' = (HalOk m, f')
  end.
Proof.
  destruct (valueToMode fc m) as [v |] eqn:Ev; [| unfold setFastChargeMode; by rewrite Ev].
  destruct (supportedModes_bit fc m node v Hnode Ev) as [Hb Hne]. split; [done |]. intros f' Hw.
  assert (getFastChargeMode fc f' = (HalOk m, f')) as Hg.
  { unfold getFastChargeMode. destruct (Z.eqb_spec (supportedModesInternal fc) 0); [done |].
    rewrite Hnode. unfold deref, mbind, IO_bind, ReadFileToString, io_get.
    destruct (Hecho v f f' Hw) as (ws & Hws & ->). rewrite Trim_app_space by done.
    destruct Hok as [Ht Hi] eqn:E. rewrite (Ht m v Ev), (modeToValue_valueToMode fc m v) by done. done. }
  split; [| done]. unfold setFastChargeMode. rewrite Ev, Hnode. unfold deref, mbind, IO_bind, WriteStringToFile.
  rewrite Hw. by rewrite bool_decide_true.
Qed.

Definition example_fast : FastChargeConfig :=
  mkFastChargeConfig (Some "/sys/fast_charge") (Some "0") (Some "1") None.

Lemma fast_charge_roundtrip_witness :
  (setFastChargeMode example_fast FAST_CHARGE (ram_init [("/sys/fast_charge", "0")])).1 = HalOk FAST_CHARGE.
Proof.
  assert (fast_values_ok example_fast) as Hok.
  { split; [intros [] v [= <-]; reflexivity | intros [] [] v; simpl; congruence]. }
  destruct (fast_charge_roundtrip example_fast "/sys/fast_charge" FAST_CHARGE (ram_init [("/sys/fast_charge", "0")])
    ltac:(reflexivity) Hok (RamFs_EchoNode _)) as [_ H].
  destruct (fs_write "/sys/fast_charge" "1" (ram_init [("/sys/fast_charge", "0")])) as [r f'] eqn:E.
  assert (r = Written) as -> by (change r with (r, f').1; rewrite <- E; vm_compute; reflexivity).
  destruct (H f' eq_refl) as [-> _]. reflexivity.
Defined.
