(* ===== verification/FingerprintSession.v ===== *)
(** * Fingerprint AIDL service: lockout, sessions, translation
      (src/biometrics/fingerprint/aidl/LockoutTracker.{h,cpp}, Session.{h,cpp},
       CancellationSignal.cpp, Fingerprint.{h,cpp}, include/Legacy2Aidl.h)

    The service wraps a vendor fingerprint device behind an AIDL session.  The
    device and the clock utilities are parameters; a handler takes the session
    and the device and returns both with the callbacks it makes, in order.

    Shown: the lockout invariant is kept by every handler of every session,
    executed as a whole, with at most one timer thread, and what goes wrong when
    the timer overtakes the handler that started it; a failed attempt is answered with exactly
    the lockout callback its number calls for; tokens survive the translation
    to the vendor format and back; a session opened later forgets the failed
    attempts of the earlier ones. *)

From S2P Require Import Prelude Text.

(** ** LockoutTracker *)

Inductive LockoutMode := kNone | kTimed | kPermanent.

#[export] Instance LockoutMode_eq_dec : EqDecision LockoutMode.
Proof. solve_decision. Defined.

Definition LOCKOUT_TIMED_THRESHOLD : Z := 5.
Definition LOCKOUT_TIMED_DURATION : Z := 10000.
Definition LOCKOUT_PERMANENT_THRESHOLD : Z := 20.

Record LockoutTracker := mkLockoutTracker {
  mFailedCount : Z;
  mLockoutTimedStart : Z;
  mCurrentMode : LockoutMode
}.

#[export] Instance LockoutTracker_eta : Record_eta LockoutTracker := fun t =>
  mkLockoutTracker (mFailedCount t) (mLockoutTimedStart t) (mCurrentMode t).

(** The constructor initialises only the counter; [start] and [mode] are the
    indeterminate values of the other members. *)
Definition LockoutTracker_new (start : Z) (mode : LockoutMode) : LockoutTracker := mkLockoutTracker 0 start mode.

(** [Util::hasElapsed(start, durationMs)] of the common biometrics library, at
    the clock reading [now]: it holds only when that many milliseconds have
    passed and whenever a full millisecond more has. *)
Class BiometricsClock := {
  hasElapsed : Z -> Z -> Z -> bool;
  hasElapsed_only now start ms : hasElapsed now start ms = true -> ms * 1000000 <= now - start;
  hasElapsed_when now start ms : (ms + 1) * 1000000 <= now - start -> hasElapsed now start ms = true
}.

Section tracker.
Context `{BiometricsClock}.

Definition tracker_reset (clearAttemptCounter : bool) (t : LockoutTracker) : LockoutTracker :=
  let t := if clearAttemptCounter then t <| mFailedCount := 0 |> else t in
  t <| mLockoutTimedStart := 0 |> <| mCurrentMode := kNone |>.

(** [now] is [Util::getSystemNanoTime()]. *)
Definition addFailedAttempt (now : Z) (t : LockoutTracker) : LockoutTracker :=
  let t := t <| mFailedCount := mFailedCount t +₃₂ 1 |> in
  if LOCKOUT_PERMANENT_THRESHOLD <=? mFailedCount t then t <| mCurrentMode := kPermanent |>
  else if LOCKOUT_TIMED_THRESHOLD <=? mFailedCount t then
    if decide (mCurrentMode t = kNone) then t <| mCurrentMode := kTimed |> <| mLockoutTimedStart := now |> else t
  else t.

Definition getMode (now : Z) (t : LockoutTracker) : LockoutMode * LockoutTracker :=
  let t :=
    if decide (mCurrentMode t = kTimed) then
      if hasElapsed now (mLockoutTimedStart t) LOCKOUT_TIMED_DURATION then
        t <| mCurrentMode := kNone |> <| mLockoutTimedStart := 0 |>
      else t
    else t in
  (mCurrentMode t, t).

Definition getLockoutTimeLeft (now : Z) (t : LockoutTracker) : Z :=
  if 0 <? mLockoutTimedStart t then
    LOCKOUT_TIMED_DURATION -₆₄ Z.quot (now -₆₄ mLockoutTimedStart t) 1000000
  else 0.

End tracker.

(** ** Token translation (include/Legacy2Aidl.h)

    [htobe32] and [htobe64] on a little-endian machine reverse the bytes. *)

Fixpoint to_le (n : nat) (z : Z) : list Z :=
  match n with O => [] | S n => z mod 256 :: to_le n (z / 256) end.

Fixpoint of_le (bytes : list Z) : Z :=
  match bytes with [] => 0 | b :: bytes => b + 256 * of_le bytes end.

Definition bswap (n : nat) (z : Z) : Z := of_le (rev (to_le n z)).
Definition htobe32 (z : Z) : Z := bswap 4 z.
Definition htobe64 (z : Z) : Z := bswap 8 z.

(** The AIDL token: signed 64-bit numbers, a 32-bit enumeration and the
    message authentication code. *)
Record HardwareAuthToken := mkHardwareAuthToken {
  at_challenge : Z;
  at_userId : Z;
  at_authenticatorId : Z;
  at_authenticatorType : Z;
  at_timestamp : Z;
  at_mac : list Z
}.

(** The packed token of the vendor library, unsigned, with a 32-byte code. *)
Record hw_auth_token := mkhw_auth_token {
  hw_challenge : Z;
  hw_user_id : Z;
  hw_authenticator_id : Z;
  hw_authenticator_type : Z;
  hw_timestamp : Z;
  hw_hmac : list Z
}.

(** [std::copy] over the start of an array: past its end the behaviour is
    undefined, here [None]. *)
Definition copy_over (src dst : list Z) : option (list Z) :=
  if (length src <=? length dst)%nat then Some (src ++ drop (length src) dst) else None.

(** Into the token [hat] that is overwritten. *)
Definition translate_to_hw (authToken : HardwareAuthToken) (hat : hw_auth_token) : option hw_auth_token :=
  hmac ← copy_over (at_mac authToken) (hw_hmac hat);
  Some (mkhw_auth_token (u64 (at_challenge authToken)) (u64 (at_userId authToken)) (u64 (at_authenticatorId authToken))
    (htobe32 (u32 (at_authenticatorType authToken))) (htobe64 (u64 (at_timestamp authToken))) hmac).

(** Into the fresh token [authToken], whose code is prepended to. *)
Definition translate_from_hw (hat : hw_auth_token) (authToken : HardwareAuthToken) : HardwareAuthToken :=
  mkHardwareAuthToken (i64 (hw_challenge hat)) (i64 (hw_user_id hat)) (i64 (hw_authenticator_id hat))
    (i32 (htobe32 (hw_authenticator_type hat))) (i64 (htobe64 (hw_timestamp hat)))
    (hw_hmac hat ++ at_mac authToken).

Definition fresh_token : HardwareAuthToken := mkHardwareAuthToken 0 0 0 0 0 [].

(** ** The vendor device

    [fingerprint_device_t], a table of functions of the vendor library. *)

Class FingerprintDevice (D : Type) := {
  dev_pre_enroll : D -> Z * D;
  dev_enroll : hw_auth_token -> Z -> Z -> D -> Z * D;
  dev_post_enroll : D -> Z * D;
  dev_get_authenticator_id : D -> Z * D;
  dev_cancel : D -> Z * D;
  dev_enumerate : D -> Z * D;
  dev_remove : Z -> Z -> D -> Z * D;
  dev_set_active_group : Z -> string -> D -> Z * D;
  dev_authenticate : Z -> Z -> D -> Z * D
}.

(** ** Messages and callbacks *)

(** AIDL [Error] and [AcquiredInfo], the values the service uses. *)
Inductive FpError :=
  | ERR_HW_UNAVAILABLE | ERR_UNABLE_TO_PROCESS | ERR_TIMEOUT | ERR_NO_SPACE | ERR_CANCELED
  | ERR_UNABLE_TO_REMOVE | ERR_VENDOR.

Inductive AcquiredInfo :=
  | ACQ_GOOD | ACQ_PARTIAL | ACQ_INSUFFICIENT | ACQ_SENSOR_DIRTY | ACQ_TOO_SLOW | ACQ_TOO_FAST | ACQ_VENDOR | ACQ_UNKNOWN.

#[export] Instance FpError_eq_dec : EqDecision FpError.
Proof. solve_decision. Defined.
#[export] Instance AcquiredInfo_eq_dec : EqDecision AcquiredInfo.
Proof. solve_decision. Defined.

Inductive FpCallback :=
  | onChallengeGenerated (challenge : Z)
  | onChallengeRevoked (challenge : Z)
  | onError (e : FpError) (vendorCode : Z)
  | onAcquired (info : AcquiredInfo) (vendorCode : Z)
  | onEnrollmentProgress (fid remaining : Z)
  | onAuthenticationSucceeded (fid : Z) (token : HardwareAuthToken)
  | onAuthenticationFailed
  | onLockoutTimed (left : Z)
  | onLockoutPermanent
  | onLockoutCleared
  | onEnrollmentsEnumerated (fids : list Z)
  | onEnrollmentsRemoved (fids : list Z)
  | onAuthenticatorIdRetrieved (id : Z)
  | onAuthenticatorIdInvalidated (id : Z)
  | onSessionClosed.

(** The numbers of the vendor interface (hardware/fingerprint.h). *)
Definition FINGERPRINT_ERROR_HW_UNAVAILABLE : Z := 1.
Definition FINGERPRINT_ERROR_UNABLE_TO_PROCESS : Z := 2.
Definition FINGERPRINT_ERROR_TIMEOUT : Z := 3.
Definition FINGERPRINT_ERROR_NO_SPACE : Z := 4.
Definition FINGERPRINT_ERROR_CANCELED : Z := 5.
Definition FINGERPRINT_ERROR_UNABLE_TO_REMOVE : Z := 6.
Definition FINGERPRINT_ERROR_LOCKOUT : Z := 7.
Definition FINGERPRINT_ERROR_VENDOR_BASE : Z := 1000.
Definition FINGERPRINT_ACQUIRED_VENDOR_BASE : Z := 1000.

Definition VendorErrorFilter (error : Z) : FpError * Z :=
  if error =? FINGERPRINT_ERROR_HW_UNAVAILABLE then (ERR_HW_UNAVAILABLE, 0)
  else if error =? FINGERPRINT_ERROR_UNABLE_TO_PROCESS then (ERR_UNABLE_TO_PROCESS, 0)
  else if error =? FINGERPRINT_ERROR_TIMEOUT then (ERR_TIMEOUT, 0)
  else if error =? FINGERPRINT_ERROR_NO_SPACE then (ERR_NO_SPACE, 0)
  else if error =? FINGERPRINT_ERROR_CANCELED then (ERR_CANCELED, 0)
  else if error =? FINGERPRINT_ERROR_UNABLE_TO_REMOVE then (ERR_UNABLE_TO_REMOVE, 0)
  else if error =? FINGERPRINT_ERROR_LOCKOUT then (ERR_VENDOR, FINGERPRINT_ERROR_LOCKOUT)
  else if FINGERPRINT_ERROR_VENDOR_BASE <=? error then (ERR_VENDOR, error - FINGERPRINT_ERROR_VENDOR_BASE)
  else (ERR_UNABLE_TO_PROCESS, 0).

(** The acquired codes are 0 to 5 in the order of the source's cases. *)
Definition VendorAcquiredFilter (info : Z) : AcquiredInfo * Z :=
  if info =? 0 then (ACQ_GOOD, 0)
  else if info =? 1 then (ACQ_PARTIAL, 0)
  else if info =? 2 then (ACQ_INSUFFICIENT, 0)
  else if info =? 3 then (ACQ_SENSOR_DIRTY, 0)
  else if info =? 4 then (ACQ_TOO_SLOW, 0)
  else if info =? 5 then (ACQ_TOO_FAST, 0)
  else if FINGERPRINT_ACQUIRED_VENDOR_BASE <=? info then (ACQ_VENDOR, info - FINGERPRINT_ACQUIRED_VENDOR_BASE)
  else (ACQ_UNKNOWN, 0).

(** [fingerprint_msg_t]; a type outside the enumeration is [MSG_other]. *)
Inductive FingerprintMsg :=
  | MSG_ERROR (error : Z)
  | MSG_ACQUIRED (acquired_info : Z)
  | MSG_TEMPLATE_ENROLLING (fid gid samples_remaining : Z)
  | MSG_TEMPLATE_REMOVED (fid gid remaining_templates : Z)
  | MSG_AUTHENTICATED (fid gid : Z) (hat : hw_auth_token)
  | MSG_TEMPLATE_ENUMERATING (fid gid remaining_templates : Z)
  | MSG_other.

(** ** Session *)

(** [s_timers] are the detached threads that sleep before calling
    [lockoutTimerExpired]; [s_recipientDeletes] counts the calls of
    [AIBinder_DeathRecipient_delete] on the session's recipient. *)
Record Session := mkSession {
  s_lockoutTracker : LockoutTracker;
  s_closed : bool;
  s_timerStarted : bool;
  s_timerAborted : bool;
  s_userId : Z;
  s_timers : list Z;
  s_recipientDeletes : nat
}.

#[export] Instance Session_eta : Record_eta Session := fun s =>
  mkSession (s_lockoutTracker s) (s_closed s) (s_timerStarted s) (s_timerAborted s) (s_userId s) (s_timers s)
    (s_recipientDeletes s).

(** The clock readings of one handler, in the order in which they are made: by
    [addFailedAttempt], by [getMode] and by [getLockoutTimeLeft]. *)
Record Clock := mkClock { at_fail : Z; at_mode : Z; at_left : Z }.

Section session.
Context `{BiometricsClock} {D : Type} `{FingerprintDevice D}.

Definition Reply : Type := Session * D * list FpCallback.

(** [std::format("/data/vendor_de/{}/fpdata/", userId)] *)
Definition group_path (userId : Z) : string := "/data/vendor_de/" +:+ to_text userId +:+ "/fpdata/".

Definition Session_new (userId : Z) (lockoutTracker : LockoutTracker) (d : D) : Session * D :=
  let '(_, d) := dev_set_active_group userId (group_path userId) d in
  (mkSession lockoutTracker false false false userId [] 0, d).

Definition generateChallenge (s : Session) (d : D) : Reply :=
  let '(challenge, d) := dev_pre_enroll d in (s, d, [onChallengeGenerated (i64 challenge)]).

Definition revokeChallenge (challenge : Z) (s : Session) (d : D) : Reply :=
  let '(_, d) := dev_post_enroll d in (s, d, [onChallengeRevoked challenge]).

Definition report_failure (error : Z) : list FpCallback :=
  if error =? 0 then [] else [onError ERR_UNABLE_TO_PROCESS error].

(** [uninit] is the content of the stack token before the translation; [None]
    is a code longer than the token's array. *)
Definition enroll (uninit : hw_auth_token) (hat : HardwareAuthToken) (s : Session) (d : D) : option Reply :=
  authToken ← translate_to_hw hat uninit;
  let '(error, d) := dev_enroll authToken (s_userId s) 60 d in
  Some (s, d, report_failure error).

(** The thread is started before the flag is set. *)
Definition startLockoutTimer_spawn (timeout : Z) (s : Session) : Session := s <| s_timers ::= fun l => l ++ [timeout] |>.
Definition startLockoutTimer_mark (s : Session) : Session := s <| s_timerStarted := true |>.

Definition startLockoutTimer (timeout : Z) (s : Session) : Session :=
  startLockoutTimer_mark (startLockoutTimer_spawn timeout s).

Definition clearLockout (clearAttemptCounter : bool) (s : Session) : Session * list FpCallback :=
  (s <| s_lockoutTracker ::= tracker_reset clearAttemptCounter |>, [onLockoutCleared]).

Definition checkSensorLockout (c : Clock) (s : Session) : bool * Session * list FpCallback :=
  let '(lockoutMode, tracker) := getMode (at_mode c) (s_lockoutTracker s) in
  let s := s <| s_lockoutTracker := tracker |> in
  match lockoutMode with
  | kPermanent => (true, s <| s_timerAborted := true |>, [onLockoutPermanent])
  | kTimed =>
      let timeLeft := getLockoutTimeLeft (at_left c) (s_lockoutTracker s) in
      let s := if s_timerStarted s then s else startLockoutTimer timeLeft s in
      (true, s, [onLockoutTimed timeLeft])
  | kNone => (false, s, [])
  end.

(** The result of [checkSensorLockout] is not used. *)
Definition authenticate (c : Clock) (operationId : Z) (s : Session) (d : D) : Reply :=
  let '(_, s, cbs) := checkSensorLockout c s in
  let '(error, d) := dev_authenticate (u64 operationId) (s_userId s) d in
  (s, d, cbs ++ report_failure error).

Definition detectInteraction (s : Session) (d : D) : Reply := (s, d, [onError ERR_UNABLE_TO_PROCESS 0]).

Definition enumerateEnrollments (s : Session) (d : D) : Reply :=
  let '(_, d) := dev_enumerate d in (s, d, []).

Fixpoint removeEnrollments (enrollmentIds : list Z) (s : Session) (d : D) : Reply :=
  match enrollmentIds with
  | [] => (s, d, [])
  | fid :: enrollmentIds =>
      let '(_, d) := dev_remove (s_userId s) fid d in removeEnrollments enrollmentIds s d
  end.

Definition getAuthenticatorId (s : Session) (d : D) : Reply :=
  let '(auth_id, d) := dev_get_authenticator_id d in (s, d, [onAuthenticatorIdRetrieved (i64 auth_id)]).

Definition invalidateAuthenticatorId (s : Session) (d : D) : Reply :=
  let '(auth_id, d) := dev_get_authenticator_id d in (s, d, [onAuthenticatorIdInvalidated (i64 auth_id)]).

Definition resetLockout (s : Session) (d : D) : Reply :=
  let '(s, cbs) := clearLockout true s in
  (if s_timerStarted s then s <| s_timerAborted := true |> else s, d, cbs).

(** [inl] is the status ok, [inr] a service specific error. *)
Definition session_cancel (s : Session) (d : D) : Reply * (unit + Z) :=
  let '(ret, d) := dev_cancel d in
  if ret =? 0 then ((s, d, [onError ERR_CANCELED 0]), inl tt) else ((s, d, []), inr ret).

Definition session_close (s : Session) (d : D) : Reply :=
  (s <| s_closed := true |> <| s_recipientDeletes ::= S |>, d, [onSessionClosed]).

(** The death of the client. *)
Definition onClientDeath (s : Session) (d : D) : Reply :=
  if s_closed s then (s, d, []) else session_close s d.

Definition lockoutTimerExpired (s : Session) : Session * list FpCallback :=
  let '(s, cbs) := if s_timerAborted s then (s, []) else clearLockout false s in
  (s <| s_timerStarted := false |> <| s_timerAborted := false |>, cbs).

(** The [i]-th sleeping thread wakes up and runs its action. *)
Definition timer_fires (i : nat) (s : Session) (d : D) : Reply :=
  match s_timers s !! i with
  | None => (s, d, [])
  | Some _ =>
      let '(s, cbs) := lockoutTimerExpired (s <| s_timers ::= delete i |>) in (s, d, cbs)
  end.

(** [Session::notify]; [enrollments] is the static vector of the enumeration. *)
Definition session_notify (c : Clock) (msg : FingerprintMsg) (enrollments : list Z) (s : Session)
    : Session * list Z * list FpCallback :=
  match msg with
  | MSG_ERROR error => let '(result, vendorCode) := VendorErrorFilter error in (s, enrollments, [onError result vendorCode])
  | MSG_ACQUIRED info =>
      let '(result, vendorCode) := VendorAcquiredFilter info in (s, enrollments, [onAcquired result vendorCode])
  | MSG_TEMPLATE_ENROLLING fid _ samples_remaining => (s, enrollments, [onEnrollmentProgress fid samples_remaining])
  | MSG_TEMPLATE_REMOVED fid _ _ => (s, enrollments, [onEnrollmentsRemoved [fid]])
  | MSG_AUTHENTICATED fid _ hat =>
      if negb (fid =? 0) then
        (s <| s_lockoutTracker ::= tracker_reset true |>, enrollments,
         [onAuthenticationSucceeded fid (translate_from_hw hat fresh_token)])
      else
        let s := s <| s_lockoutTracker ::= addFailedAttempt (at_fail c) |> in
        let '(_, s, cbs) := checkSensorLockout c s in
        (s, enrollments, onAuthenticationFailed :: cbs)
  | MSG_TEMPLATE_ENUMERATING fid _ remaining_templates =>
      let enrollments := enrollments ++ [fid] in
      if remaining_templates =? 0 then (s, [], [onEnrollmentsEnumerated enrollments]) else (s, enrollments, [])
  | MSG_other => (s, enrollments, [])
  end.

(** ** Fingerprint

    The service object: the tracker it copies into each session, the current
    session, and the static vector of the enumeration. *)

Record Fingerprint := mkFingerprint {
  fp_lockoutTracker : LockoutTracker;
  fp_session : option Session;
  fp_enrollments : list Z
}.

(** [None] is the failed [CHECK] on an open session. *)
Definition createSession (userId : Z) (fp : Fingerprint) (d : D) : option (Fingerprint * D) :=
  let open := match fp_session fp with Some s => negb (s_closed s) | None => false end in
  if open then None
  else
    let '(s, d) := Session_new userId (fp_lockoutTracker fp) d in
    Some (mkFingerprint (fp_lockoutTracker fp) (Some s) (fp_enrollments fp), d).

(** [Fingerprint::notify]: messages are dropped without an open session. *)
Definition fp_notify (c : Clock) (msg : FingerprintMsg) (fp : Fingerprint) : Fingerprint * list FpCallback :=
  match fp_session fp with
  | None => (fp, [])
  | Some s =>
      if s_closed s then (fp, [])
      else
        let '(s, enrollments, cbs) := session_notify c msg (fp_enrollments fp) s in
        (mkFingerprint (fp_lockoutTracker fp) (Some s) enrollments, cbs)
  end.

(** ** Steps of the whole service

    A client call on the current session, a message of the vendor library, a
    timer thread or the death of the client.  The source has no lock here; a
    step is a whole handler, so runs are those in which handlers do not overlap.
    [race_step] below takes the start of a timer apart. *)

Inductive SessionCall :=
  | CALL_generateChallenge
  | CALL_revokeChallenge (challenge : Z)
  | CALL_enroll (uninit : hw_auth_token) (hat : HardwareAuthToken)
  | CALL_authenticate (operationId : Z)
  | CALL_detectInteraction
  | CALL_enumerateEnrollments
  | CALL_removeEnrollments (enrollmentIds : list Z)
  | CALL_getAuthenticatorId
  | CALL_invalidateAuthenticatorId
  | CALL_resetLockout
  | CALL_cancel
  | CALL_close
  | CALL_clientDeath
  | CALL_timer (i : nat).

Definition session_call (c : Clock) (call : SessionCall) (s : Session) (d : D) : option Reply :=
  match call with
  | CALL_generateChallenge => Some (generateChallenge s d)
  | CALL_revokeChallenge challenge => Some (revokeChallenge challenge s d)
  | CALL_enroll uninit hat => enroll uninit hat s d
  | CALL_authenticate operationId => Some (authenticate c operationId s d)
  | CALL_detectInteraction => Some (detectInteraction s d)
  | CALL_enumerateEnrollments => Some (enumerateEnrollments s d)
  | CALL_removeEnrollments ids => Some (removeEnrollments ids s d)
  | CALL_getAuthenticatorId => Some (getAuthenticatorId s d)
  | CALL_invalidateAuthenticatorId => Some (invalidateAuthenticatorId s d)
  | CALL_resetLockout => Some (resetLockout s d)
  | CALL_cancel => Some (session_cancel s d).1
  | CALL_close => Some (session_close s d)
  | CALL_clientDeath => Some (onClientDeath s d)
  | CALL_timer i => Some (timer_fires i s d)
  end.

Inductive fp_step : Fingerprint * D -> Fingerprint * D -> list FpCallback -> Prop :=
  | step_create userId fp d fp' d' :
      createSession userId fp d = Some (fp', d') -> fp_step (fp, d) (fp', d') []
  | step_notify c msg fp d fp' cbs :
      fp_notify c msg fp = (fp', cbs) -> fp_step (fp, d) (fp', d) cbs
  | step_call c call fp d s s' d' cbs :
      fp_session fp = Some s -> session_call c call s d = Some (s', d', cbs) ->
      fp_step (fp, d) (mkFingerprint (fp_lockoutTracker fp) (Some s') (fp_enrollments fp), d') cbs.

(** Reachable in a number of steps. *)
Inductive fp_reachable (init : Fingerprint * D) : Z -> Fingerprint * D -> Prop :=
  | reach_init : fp_reachable init 0 init
  | reach_step n st st' cbs : fp_reachable init n st -> fp_step st st' cbs -> fp_reachable init (n + 1) st'.

(** ** Lockout: invariant

    Timed lockout is entered between the two thresholds, and the session is in
    permanent lockout exactly from the second on, during which a timer that
    still runs is aborted; the counter is bounded by the number [n] of steps; a
    session has one sleeping timer thread when its timer is started and none
    otherwise; the death recipient is deleted when the session is closed. *)

Definition tracker_inv (n : Z) (t : LockoutTracker) : Prop :=
  0 <= mFailedCount t <= n /\
  (mCurrentMode t = kPermanent <-> LOCKOUT_PERMANENT_THRESHOLD <= mFailedCount t) /\
  (mCurrentMode t = kTimed -> LOCKOUT_TIMED_THRESHOLD <= mFailedCount t).

Definition session_inv (n : Z) (s : Session) : Prop :=
  tracker_inv n (s_lockoutTracker s) /\
  (mCurrentMode (s_lockoutTracker s) = kPermanent -> s_timerStarted s = true -> s_timerAborted s = true) /\
  length (s_timers s) = (if s_timerStarted s then 1 else 0)%nat /\
  (s_closed s = true <-> (0 < s_recipientDeletes s)%nat).

Lemma tracker_inv_le (n m : Z) (t : LockoutTracker) : n <= m -> tracker_inv n t -> tracker_inv m t.
Proof. intros Hle [Ht Hm]. split; [lia | done]. Qed.

Lemma session_inv_le (n m : Z) (s : Session) : n <= m -> session_inv n s -> session_inv m s.
Proof. intros Hle (Ht & Hs). split; [by eapply tracker_inv_le | done]. Qed.

(** Forgetting the attempts clears every lockout; keeping them, only a timed
    one may be cleared. *)
Lemma tracker_reset_inv (n : Z) (b : bool) (t : LockoutTracker) :
  (b = false -> mCurrentMode t <> kPermanent) -> tracker_inv n t -> tracker_inv n (tracker_reset b t).
Proof.
  unfold LOCKOUT_PERMANENT_THRESHOLD. intros Hb (Ht & Hp & Hm). unfold tracker_inv, LOCKOUT_PERMANENT_THRESHOLD in *.
  destruct b; simpl; [split; [lia |]; split; [split; [done | lia] | done] |].
  split; [lia |]. split; [split; [done |] | done]. intros Hc. by apply Hp in Hc; destruct Hb.
Qed.

Lemma addFailedAttempt_count (n now : Z) (t : LockoutTracker) :
  tracker_inv n t -> n < 2 ^ 31 - 1 -> mFailedCount (addFailedAttempt now t) = mFailedCount t + 1.
Proof.
  intros [Ht _] Hn. unfold addFailedAttempt. destruct t as [fc st md]; simpl in *.
  rewrite i32_id by (unfold is_i32; lia). repeat case_match; done.
Qed.

Lemma addFailedAttempt_inv (n now : Z) (t : LockoutTracker) :
  tracker_inv n t -> n < 2 ^ 31 - 1 -> tracker_inv (n + 1) (addFailedAttempt now t).
Proof.
  intros Hinv Hn. pose proof (addFailedAttempt_count n now t Hinv Hn) as Hc. destruct Hinv as (Ht & Hp & Hm).
  split; [lia |]. rewrite Hc. revert Hc. unfold addFailedAttempt. destruct t as [fc st md]; simpl in *.
  rewrite i32_id by (unfold is_i32; lia). unfold LOCKOUT_PERMANENT_THRESHOLD, LOCKOUT_TIMED_THRESHOLD in *.
  destruct (Z.leb_spec 20 (fc + 1)); simpl; [done |].
  destruct (Z.leb_spec 5 (fc + 1)); simpl; (destruct md; simpl; [| | destruct Hp as [Hp _]; specialize (Hp eq_refl); lia]).
  - intros _. split; [split; [done | lia] | done].
  - intros _. split; [split; [done | lia] | done].
  - intros _. split; [split; [done | lia] | done].
  - specialize (Hm eq_refl). lia.
Qed.

(** From the fifth counted failure on, each one leaves the tracker locked. *)
Lemma addFailedAttempt_locks (n now : Z) (t : LockoutTracker) :
  tracker_inv n t -> n < 2 ^ 31 - 1 ->
  mCurrentMode (addFailedAttempt now t) <> kNone <-> LOCKOUT_TIMED_THRESHOLD <= mFailedCount t + 1.
Proof.
  intros (Ht & Hp & Hm) Hn. unfold addFailedAttempt. destruct t as [fc st md]; simpl in *.
  rewrite i32_id by (unfold is_i32; lia). unfold LOCKOUT_PERMANENT_THRESHOLD, LOCKOUT_TIMED_THRESHOLD in *.
  destruct (Z.leb_spec 20 (fc + 1)); simpl; [split; [lia | done] |].
  destruct (Z.leb_spec 5 (fc + 1)); destruct md; simpl; split; try done; try lia; intros _.
  - specialize (Hm eq_refl). lia.
  - apply proj1 in Hp. specialize (Hp eq_refl). lia.
Qed.

Lemma getMode_inv (n now : Z) (t : LockoutTracker) : tracker_inv n t -> tracker_inv n (getMode now t).2.
Proof.
  intros (Ht & Hp & Hm). unfold getMode. destruct t as [fc st md]; simpl in *.
  destruct (decide (md = kTimed)) as [-> |]; [| done]. destruct (hasElapsed _ _ _); [| done].
  split; [done |]. simpl. split; [| done]. split; [done |]. by intros Hc%Hp.
Qed.

(** Reading the mode does not end a permanent lockout. *)
Lemma getMode_permanent (now : Z) (t : LockoutTracker) :
  (getMode now t).1 = mCurrentMode (getMode now t).2 /\
  (mCurrentMode (getMode now t).2 = kPermanent <-> mCurrentMode t = kPermanent).
Proof.
  split; [done |]. unfold getMode. destruct t as [fc st md]; simpl. destruct (decide (md = kTimed)) as [-> |]; [| done].
  by destruct (hasElapsed _ _ _).
Qed.

Lemma startLockoutTimer_inv (n timeout : Z) (s : Session) :
  session_inv n s -> s_timerStarted s = false -> mCurrentMode (s_lockoutTracker s) <> kPermanent ->
  session_inv n (startLockoutTimer timeout s).
Proof.
  intros (Ht & Ha & Hl & Hc) Hs Hm. rewrite Hs in Hl. split_and!; simpl; [done | done | rewrite length_app; simpl; lia | done..].
Qed.

(** A session whose tracker has just counted a failed attempt: what the timers
    of a new permanent lockout need is established by the check that follows. *)
Lemma checkSensorLockout_inv (n : Z) (c : Clock) (s : Session) :
  tracker_inv n (s_lockoutTracker s) -> length (s_timers s) = (if s_timerStarted s then 1 else 0)%nat ->
  (s_closed s = true <-> (0 < s_recipientDeletes s)%nat) -> session_inv n (checkSensorLockout c s).1.2.
Proof.
  intros Ht Hl Hc. unfold checkSensorLockout.
  pose proof (getMode_inv n (at_mode c) _ Ht) as Hg. destruct (getMode_permanent (at_mode c) (s_lockoutTracker s)) as [Hm1 _].
  destruct (getMode (at_mode c) (s_lockoutTracker s)) as [m t']. cbn [fst snd] in *. subst m.
  destruct (mCurrentMode t') eqn:Em; simpl.
  - split_and!; simpl; try done. by rewrite Em.
  - destruct (s_timerStarted s) eqn:E; simpl; [split_and!; simpl; rewrite ?E, ?Em; done |].
    apply startLockoutTimer_inv; [| done | simpl; congruence]. split_and!; simpl; rewrite ?E, ?Em; done.
  - split_and!; simpl; done.
Qed.

Lemma resetLockout_inv (n : Z) (s : Session) (d : D) : session_inv n s -> session_inv n (resetLockout s d).1.1.
Proof.
  intros (Ht & Ha & Hl & Hc). unfold resetLockout, clearLockout. simpl.
  pose proof (tracker_reset_inv n true _ ltac:(done) Ht) as Hr. destruct (s_timerStarted s) eqn:E; split_and!; simpl; rewrite ?E; done.
Qed.

Lemma timer_fires_inv (n : Z) (i : nat) (s : Session) (d : D) :
  session_inv n s -> session_inv n (timer_fires i s d).1.1.
Proof.
  intros (Ht & Ha & Hl & Hc). unfold timer_fires. destruct (s_timers s !! i) as [x |] eqn:E; [| done].
  assert (s_timerStarted s = true) as Hs.
  { destruct (s_timerStarted s); [done |]. apply lookup_lt_Some in E. lia. }
  assert (length (delete i (s_timers s)) = 0%nat) as Hd by (rewrite length_delete, Hl, Hs by eauto; done).
  unfold lockoutTimerExpired. simpl. destruct (s_timerAborted s) eqn:Eab; simpl; split_and!; simpl; try done.
  apply tracker_reset_inv; [| done]. intros _ Hp. by specialize (Ha Hp Hs).
Qed.

Lemma removeEnrollments_session (ids : list Z) (s : Session) (d : D) : (removeEnrollments ids s d).1.1 = s.
Proof. revert d. induction ids as [| i ids IH]; intros d; simpl; [done |]. destruct (dev_remove _ _ _). apply IH. Qed.

Lemma session_close_inv (n : Z) (s : Session) (d : D) : session_inv n s -> session_inv n (session_close s d).1.1.
Proof.
  intros (Ht & Ha & Hl & Hc). split_and!; simpl; try done. split; [intros _; lia | done].
Qed.

(** Every client call, timer and death notice keeps the invariant. *)
Lemma session_call_inv (n : Z) (c : Clock) (call : SessionCall) (s s' : Session) (d d' : D) (cbs : list FpCallback) :
  session_inv n s -> session_call c call s d = Some (s', d', cbs) -> session_inv n s'.
Proof.
  intros Hinv. destruct call; cbn [session_call]; intros E;
    repeat match type of E with context [let '(_, _) := ?x in _] => destruct x eqn:? end.
  - unfold generateChallenge in E. destruct (dev_pre_enroll d). by simplify_eq.
  - unfold revokeChallenge in E. destruct (dev_post_enroll d). by simplify_eq.
  - unfold enroll in E. destruct (translate_to_hw hat uninit); [| done]. simpl in E. destruct (dev_enroll _ _ _ _). by simplify_eq.
  - unfold authenticate in E. destruct Hinv as (Ht & _ & Hl & Hcl). pose proof (checkSensorLockout_inv n c s Ht Hl Hcl) as Hc.
    destruct (checkSensorLockout c s) as [[b s1] cb1]. destruct (dev_authenticate _ _ _). by simplify_eq.
  - unfold detectInteraction in E. by simplify_eq.
  - unfold enumerateEnrollments in E. destruct (dev_enumerate d). by simplify_eq.
  - pose proof (removeEnrollments_session enrollmentIds s d) as Hr. simplify_eq. rewrite E in Hr. simpl in Hr. by subst.
  - unfold getAuthenticatorId in E. destruct (dev_get_authenticator_id d). by simplify_eq.
  - unfold invalidateAuthenticatorId in E. destruct (dev_get_authenticator_id d). by simplify_eq.
  - pose proof (resetLockout_inv n s d Hinv) as Hr. apply (inj Some) in E. by rewrite E in Hr.
  - unfold session_cancel in E. destruct (dev_cancel d) as [r d1]. destruct (r =? 0); by simplify_eq/=.
  - pose proof (session_close_inv n s d Hinv) as Hc. simpl in Hc. by simplify_eq.
  - pose proof (session_close_inv n s d Hinv) as Hc. simpl in Hc. unfold onClientDeath in E.
    destruct (s_closed s); by simplify_eq.
  - pose proof (timer_fires_inv n i s d Hinv) as Hi. simplify_eq. by rewrite E in Hi.
Qed.

Lemma session_notify_inv (n : Z) (c : Clock) (msg : FingerprintMsg) (en : list Z) (s : Session) :
  session_inv n s -> n < 2 ^ 31 - 1 -> session_inv (n + 1) (session_notify c msg en s).1.1.
Proof.
  intros Hinv Hn. assert (session_inv (n + 1) s) as Hinv' by (eapply session_inv_le; [| done]; lia).
  destruct msg; cbn [session_notify].
  - by destruct (VendorErrorFilter error).
  - by destruct (VendorAcquiredFilter acquired_info).
  - done.
  - done.
  - destruct (negb (fid =? 0)); simpl.
    + destruct Hinv' as (Ht & Ha & Hl). split; [by apply tracker_reset_inv | done].
    + destruct Hinv as (Ht & _ & Hl & Hcl).
      pose proof (checkSensorLockout_inv (n + 1) c (s <| s_lockoutTracker ::= addFailedAttempt (at_fail c) |>)
        (addFailedAttempt_inv n (at_fail c) _ Ht Hn) Hl Hcl) as Hc.
      by destruct (checkSensorLockout c _) as [[b s1] cb1].
  - by destruct (remaining_templates =? 0).
  - done.
Qed.

(** The induction behind the invariant. *)
Lemma fp_lockout_run (t0 : LockoutTracker) (en : list Z) (d0 : D) (n : Z) (st : Fingerprint * D) :
  mCurrentMode t0 = kNone -> mFailedCount t0 = 0 -> fp_reachable (mkFingerprint t0 None en, d0) n st -> n < 2 ^ 31 ->
  0 <= n /\ fp_lockoutTracker st.1 = t0 /\ (forall s, fp_session st.1 = Some s -> session_inv n s).
Proof.
  intros Hclean Hzero. induction 1 as [| m st st' cbs Hr IH Hs]; intros Hm; [done |].
  destruct IH as (Hm0 & Ht & Hi); [lia |]. split; [lia |].
  assert (tracker_inv (m + 1) t0) as Ht0.
  { unfold tracker_inv, LOCKOUT_PERMANENT_THRESHOLD. rewrite Hclean, Hzero. split; [lia |]. split; [split; [done | lia] | done]. }
  destruct Hs as [userId fp1 d1 fp2 d2 Hc | c msg fp1 d1 fp2 cbs Hc | c call fp1 d1 s s' d' cbs Hse Hc]; simpl in *.
  - unfold createSession in Hc. destruct (match fp_session fp1 with Some s => _ | None => _ end); [done |].
    unfold Session_new in Hc. destruct (dev_set_active_group _ _ _). simplify_eq/=. split; [done |].
    intros s [= <-]. split_and!; simpl; try done. split; [done | lia].
  - unfold fp_notify in Hc. destruct (fp_session fp1) as [s |] eqn:Es; [| simplify_eq; split; [done | congruence]].
    destruct (s_closed s).
    { simplify_eq. split; [done |]. intros s' Hs'. rewrite Es in Hs'. simplify_eq. eapply session_inv_le; [| by apply Hi]; lia. }
    pose proof (session_notify_inv m c msg (fp_enrollments fp1) s (Hi s eq_refl) ltac:(lia)) as Hn.
    destruct (session_notify c msg (fp_enrollments fp1) s) as [[s1 en1] cb1]. simplify_eq/=.
    split; [done |]. by intros s' [= <-].
  - split; [done |]. intros s1 [= <-]. eapply session_inv_le; [| by eapply session_call_inv; [apply Hi |]]. lia.
Qed.


(** ** Overlapping handlers

    A check that finds a timed lockout starts the timer's thread and sets the
    flag afterwards; the thread may run in between.  The number counts the
    checks between the two. *)

Inductive race_step (d : D) : Session * nat -> Session * nat -> Prop :=
  | race_check c s k t :
      getMode (at_mode c) (s_lockoutTracker s) = (kTimed, t) -> s_timerStarted s = false ->
      race_step d (s, k) (startLockoutTimer_spawn (getLockoutTimeLeft (at_left c) t) (s <| s_lockoutTracker := t |>), S k)
  | race_mark s k : race_step d (s, S k) (startLockoutTimer_mark s, k)
  | race_timer i s k : race_step d (s, k) ((timer_fires i s d).1.1, k).

(** A timer that fires at once, as it does when no time is left, leaves the
    flag set with no timer behind it; no later check starts one, so later timed
    lockouts are not announced as cleared. *)
Theorem timer_flag_race (c : Clock) (s : Session) (d : D) (t : LockoutTracker)
    (Hmode : getMode (at_mode c) (s_lockoutTracker s) = (kTimed, t))
    (Hidle : s_timerStarted s = false) (Htimers : s_timers s = []) :
  exists s', rtc (race_step d) (s, 0%nat) (s', 0%nat) /\ s_timerStarted s' = true /\ s_timers s' = [] /\
    forall c', s_timers (checkSensorLockout c' s').1.2 = [].
Proof.
  eexists. split.
  { eapply rtc_l; [by apply (race_check d c) |]. eapply rtc_l; [apply (race_timer d 0) |].
    eapply rtc_l; [apply race_mark |]. apply rtc_refl. }
  assert (forall x : Session, s_timerStarted x = true -> s_timers x = [] ->
    s_timerStarted x = true /\ s_timers x = [] /\ forall c', s_timers (checkSensorLockout c' x).1.2 = []) as Hx.
  { intros x H1 H2. split_and!; [done | done |]. intros c'. unfold checkSensorLockout.
    destruct (getMode (at_mode c') (s_lockoutTracker x)) as [[] t']; simpl; [done | | done]. by rewrite H1. }
  apply Hx; [done |]. unfold timer_fires. simpl. rewrite Htimers. simpl. unfold lockoutTimerExpired. simpl.
  by destruct (s_timerAborted s).
Qed.

(** ** What a failed attempt reports *)

Lemma getLockoutTimeLeft_range (now start fc : Z) :
  is_i64 now -> 0 < start <= now -> hasElapsed now start LOCKOUT_TIMED_DURATION = false ->
  0 <= getLockoutTimeLeft now (mkLockoutTracker fc start kTimed) <= LOCKOUT_TIMED_DURATION.
Proof.
  unfold is_i64. intros Hn Hs He. unfold getLockoutTimeLeft, LOCKOUT_TIMED_DURATION in *. simpl.
  destruct (Z.ltb_spec 0 start); [| lia].
  assert (now - start < 10001 * 1000000) as Hlt.
  { destruct (Z.le_gt_cases ((10000 + 1) * 1000000) (now - start)) as [Hle |]; [| lia].
    apply hasElapsed_when in Hle. congruence. }
  rewrite (i64_id (now - start)) by (unfold is_i64; lia). rewrite Z.quot_div_nonneg by lia.
  assert (0 <= (now - start) / 1000000 <= 10000) as Hq.
  { split; [apply Z.div_pos; lia | apply Z.lt_succ_r, Z.div_lt_upper_bound; lia]. }
  rewrite i64_id by (unfold is_i64; lia). lia.
Qed.

(** The lockout callback that the [n]-th failed attempt calls for; [expired]
    tells that an earlier timed lockout has run out unnoticed. *)
Definition lockout_callback (n left : Z) (expired : bool) : list FpCallback :=
  if LOCKOUT_PERMANENT_THRESHOLD <=? n then [onLockoutPermanent]
  else if (LOCKOUT_TIMED_THRESHOLD <=? n) && negb expired then [onLockoutTimed left]
  else [].

(** The answer to a failed attempt.  In a session that satisfies the
    invariant, with monotone clock readings, the vendor's report of a finger
    that was not recognised is answered with [onAuthenticationFailed] followed
    by exactly the lockout callback that the number of attempts since the last
    clearing calls for: none for the first four, [onLockoutTimed] with a
    remaining time between 0 and 10 seconds from the fifth to the nineteenth
    (unless a timed lockout entered earlier has meanwhile expired), and
    [onLockoutPermanent] from the twentieth on; with [onLockoutTimed] a timer
    thread is pending afterwards, and the attempt has been counted. *)
Theorem failed_attempt_reports (n gid : Z) (hat : hw_auth_token) (c : Clock) (en : list Z) (s : Session)
    (Hinv : session_inv n s) (Hn : n < 2 ^ 31 - 1)
    (Hclock : 0 < at_fail c <= at_mode c /\ at_mode c <= at_left c < 2 ^ 63)
    (Hquick : at_left c - at_fail c < LOCKOUT_TIMED_DURATION * 1000000)
    (Hstart : mCurrentMode (s_lockoutTracker s) = kTimed -> 0 < mLockoutTimedStart (s_lockoutTracker s) <= at_fail c)
    (Hsame : hasElapsed (at_left c) (mLockoutTimedStart (s_lockoutTracker s)) LOCKOUT_TIMED_DURATION =
             hasElapsed (at_mode c) (mLockoutTimedStart (s_lockoutTracker s)) LOCKOUT_TIMED_DURATION) :
  let t := s_lockoutTracker s in
  let count := mFailedCount t + 1 in
  let expired := bool_decide (mCurrentMode t = kTimed) && hasElapsed (at_mode c) (mLockoutTimedStart t) LOCKOUT_TIMED_DURATION in
  let '(s', en', cbs) := session_notify c (MSG_AUTHENTICATED 0 gid hat) en s in
  en' = en /\ mFailedCount (s_lockoutTracker s') = count /\
  exists left, 0 <= left <= LOCKOUT_TIMED_DURATION /\
    cbs = onAuthenticationFailed :: lockout_callback count left expired /\
    (onLockoutTimed left ∈ cbs -> s_timerStarted s' = true /\ length (s_timers s') = 1%nat).
Proof.
  intros t count expired. destruct Hinv as ((Ht & Hp & Hm) & _ & Hl & _). cbn [session_notify negb Z.eqb].
  assert (forall now, at_fail c <= now <= at_left c -> hasElapsed now (at_fail c) LOCKOUT_TIMED_DURATION = false) as Hfresh.
  { intros now Hnow. destruct (hasElapsed now (at_fail c) LOCKOUT_TIMED_DURATION) eqn:E; [| done].
    apply hasElapsed_only in E. lia. }
  destruct s as [[fc st md] cl ts ta u tm rd]. unfold t, count, expired. simpl in *. clear t count expired.
  unfold checkSensorLockout, addFailedAttempt, getMode, lockout_callback. simpl. rewrite i32_id by (unfold is_i32; lia).
  unfold LOCKOUT_PERMANENT_THRESHOLD, LOCKOUT_TIMED_THRESHOLD in *.
  destruct (Z.leb_spec 20 (fc + 1)); simpl.
  { split_and!; [done | done |]. exists 0. unfold LOCKOUT_TIMED_DURATION. split; [lia |]. split; [done |].
    intros Hin. apply elem_of_cons in Hin as [? | Hin]; [done |]. by apply list_elem_of_singleton in Hin. }
  destruct (Z.leb_spec 5 (fc + 1)); simpl.
  - destruct md; simpl; [| | destruct Hp as [Hp _]; specialize (Hp eq_refl); lia].
    + rewrite Hfresh by lia. simpl. split_and!; [done | by destruct ts |].
      exists (getLockoutTimeLeft (at_left c) (mkLockoutTracker (fc + 1) (at_fail c) kTimed)). split.
      { apply getLockoutTimeLeft_range; [unfold is_i64; lia | lia | apply Hfresh; lia]. }
      split; [done |]. intros _. destruct ts; simpl; [by rewrite Hl |]. by rewrite length_app, Hl.
    + specialize (Hstart eq_refl). destruct (hasElapsed (at_mode c) st LOCKOUT_TIMED_DURATION) eqn:Ee; simpl.
      * split_and!; [done | done |]. exists 0. unfold LOCKOUT_TIMED_DURATION. split; [lia |]. split; [done |].
        intros Hin. by apply list_elem_of_singleton in Hin.
      * split_and!; [done | by destruct ts |].
        exists (getLockoutTimeLeft (at_left c) (mkLockoutTracker (fc + 1) st kTimed)). split.
        { apply getLockoutTimeLeft_range; [unfold is_i64; lia | lia | by rewrite Hsame]. }
        split; [done |]. intros _. destruct ts; simpl; [by rewrite Hl |]. by rewrite length_app, Hl.
  - destruct md; simpl; [| specialize (Hm eq_refl); lia | destruct Hp as [Hp _]; specialize (Hp eq_refl); lia].
    split_and!; [done | done |]. exists 0. unfold LOCKOUT_TIMED_DURATION.
    split; [lia |]. split; [done |]. intros Hin. by apply list_elem_of_singleton in Hin.
Qed.

(** ** The lockout is reported, not enforced *)

(** What the lockout does not do.  In permanent lockout [authenticate] reports
    it and all the same starts the authentication on the vendor device, with
    the result of the device as its only other effect; and a session that is
    created after any history starts from the tracker the service was started
    with, so that the failed attempts and the lockout of the closed session are
    forgotten. *)
Theorem lockout_not_enforced (c : Clock) (operationId userId n : Z) (s : Session) (d d0 : D)
    (t0 : LockoutTracker) (en : list Z) (fp fp' : Fingerprint) (d1 d2 : D)
    (Hperm : mCurrentMode (s_lockoutTracker s) = kPermanent)
    (Hclean : mCurrentMode t0 = kNone) (Hzero : mFailedCount t0 = 0) (Hn : n < 2 ^ 31)
    (Hreach : fp_reachable (mkFingerprint t0 None en, d0) n (fp, d1))
    (Hcreate : createSession userId fp d1 = Some (fp', d2)) :
  (let '(_, d', cbs) := authenticate c operationId s d in
   let '(error, d'') := dev_authenticate (u64 operationId) (s_userId s) d in
   d' = d'' /\ cbs = onLockoutPermanent :: report_failure error) /\
  (exists s', fp_session fp' = Some s' /\ s_lockoutTracker s' = t0 /\ s_closed s' = false).
Proof.
  split.
  - unfold authenticate, checkSensorLockout, getMode. destruct s as [[fc st md] cl ts ta u tm rd]; simpl in *. subst md.
    simpl. by destruct (dev_authenticate (u64 operationId) u d).
  - destruct (fp_lockout_run t0 en d0 n (fp, d1) Hclean Hzero Hreach Hn) as (_ & Ht & _). simpl in Ht.
    unfold createSession in Hcreate.
    destruct (match fp_session fp with Some s => _ | None => _ end); [done |]. unfold Session_new in Hcreate.
    destruct (dev_set_active_group _ _ _). simplify_eq/=. eauto.
Qed.

(** ** Enumeration of the enrolled fingers *)

Fixpoint notify_all (c : Clock) (msgs : list FingerprintMsg) (fp : Fingerprint) : Fingerprint * list FpCallback :=
  match msgs with
  | [] => (fp, [])
  | m :: msgs =>
      let '(fp, cbs) := fp_notify c m fp in
      let '(fp, cbs') := notify_all c msgs fp in (fp, cbs ++ cbs')
  end.

(** The messages the vendor sends for a list of fingers. *)
Fixpoint enumeration_msgs (gid : Z) (fids : list Z) : list FingerprintMsg :=
  match fids with
  | [] => []
  | fid :: fids => MSG_TEMPLATE_ENUMERATING fid gid (Z.of_nat (length fids)) :: enumeration_msgs gid fids
  end.

Lemma enumeration_collects (c : Clock) (gid : Z) (fids : list Z) (fp : Fingerprint) (s : Session) :
  fp_session fp = Some s -> s_closed s = false -> fids <> [] ->
  notify_all c (enumeration_msgs gid fids) fp =
    (mkFingerprint (fp_lockoutTracker fp) (Some s) [], [onEnrollmentsEnumerated (fp_enrollments fp ++ fids)]).
Proof.
  destruct fp as [t se en]. simpl. intros -> Hc. revert en. induction fids as [| f fids IH]; intros en Hne; [done |].
  cbn [enumeration_msgs notify_all]. unfold fp_notify at 1. cbn [fp_session]. rewrite Hc. cbn [session_notify].
  destruct fids as [| f' fids].
  - done.
  - destruct (Z.eqb_spec (Z.of_nat (length (f' :: fids))) 0) as [E | _]; [simpl in E; lia |].
    cbn [fp_enrollments fp_lockoutTracker]. rewrite IH by done. by rewrite <- app_assoc.
Qed.

End session.

(** ** Token translation: lemmas *)

Lemma to_le_length (n : nat) (z : Z) : length (to_le n z) = n.
Proof. revert z. induction n as [| n IH]; intros z; simpl; [done | by rewrite IH]. Qed.

Lemma to_le_bytes (n : nat) (z : Z) : Forall (fun b => 0 <= b < 256) (to_le n z).
Proof. revert z. induction n as [| n IH]; intros z; simpl; constructor; [apply Z.mod_pos_bound; lia | apply IH]. Qed.

Lemma to_le_of_le (l : list Z) : Forall (fun b => 0 <= b < 256) l -> to_le (length l) (of_le l) = l.
Proof.
  induction 1 as [| b l Hb Hl IH]; [done |]. cbn [length of_le to_le]. rewrite Z.mul_comm, Z.mod_add, Z.div_add by lia.
  rewrite Z.mod_small, Z.div_small by lia. by rewrite Z.add_0_l, IH.
Qed.

Lemma of_le_to_le (n : nat) (z : Z) : 0 <= z < 256 ^ Z.of_nat n -> of_le (to_le n z) = z.
Proof.
  revert z. induction n as [| n IH]; intros z Hz; [simpl in *; lia |]. cbn [to_le of_le].
  rewrite Nat2Z.inj_succ, Z.pow_succ_r in Hz by lia.
  rewrite IH by (split; [apply Z.div_pos; lia | apply Z.div_lt_upper_bound; lia]).
  pose proof (Z.div_mod z 256). lia.
Qed.

Lemma bswap_involutive (n : nat) (z : Z) : 0 <= z < 256 ^ Z.of_nat n -> bswap n (bswap n z) = z.
Proof.
  intros Hz. unfold bswap.
  assert (to_le n (of_le (rev (to_le n z))) = rev (to_le n z)) as ->.
  { rewrite <- (to_le_length n z) at 1. rewrite <- length_rev. apply to_le_of_le, List.Forall_rev, to_le_bytes. }
  by rewrite rev_involutive, of_le_to_le.
Qed.

Lemma i64_u64 (z : Z) : is_i64 z -> i64 (u64 z) = z.
Proof. intros Hz. unfold i64, u64, wrap_s, wrap_u. rewrite Zplus_mod_idemp_l. by apply i64_id. Qed.

Definition token_ok (t : HardwareAuthToken) : Prop :=
  is_i64 (at_challenge t) /\ is_i64 (at_userId t) /\ is_i64 (at_authenticatorId t) /\
  is_i32 (at_authenticatorType t) /\ is_i64 (at_timestamp t).

(** Tokens survive the translation.  Translating an AIDL token with a code of
    exactly 32 bytes to the packed vendor format (with its two fields in network
    byte order, over any previous content of the 32-byte array) and back gives
    the same token; a longer code would be copied past the array, and the
    translation of a shorter one keeps the tail of what was there before. *)
Theorem token_translation_roundtrip (t : HardwareAuthToken) (hat : hw_auth_token)
    (Hok : token_ok t) (Harray : length (hw_hmac hat) = 32%nat) :
  match translate_to_hw t hat with
  | None => (32 < length (at_mac t))%nat
  | Some h =>
      (length (at_mac t) <= 32)%nat /\
      translate_from_hw h fresh_token = mkHardwareAuthToken (at_challenge t) (at_userId t) (at_authenticatorId t)
        (at_authenticatorType t) (at_timestamp t) (at_mac t ++ drop (length (at_mac t)) (hw_hmac hat)) /\
      (length (at_mac t) = 32%nat -> translate_from_hw h fresh_token = t)
  end.
Proof.
  destruct Hok as (H1 & H2 & H3 & H4 & H5). unfold translate_to_hw, copy_over. rewrite Harray.
  destruct (Nat.leb_spec (length (at_mac t)) 32) as [Hle | Hgt]; simpl; [| done].
  assert (translate_from_hw (mkhw_auth_token (u64 (at_challenge t)) (u64 (at_userId t)) (u64 (at_authenticatorId t))
      (htobe32 (u32 (at_authenticatorType t))) (htobe64 (u64 (at_timestamp t)))
      (at_mac t ++ drop (length (at_mac t)) (hw_hmac hat))) fresh_token =
    mkHardwareAuthToken (at_challenge t) (at_userId t) (at_authenticatorId t)
        (at_authenticatorType t) (at_timestamp t) (at_mac t ++ drop (length (at_mac t)) (hw_hmac hat))) as E.
  { unfold translate_from_hw, htobe32, htobe64. simpl.
    rewrite !bswap_involutive by (apply u32_range || apply u64_range).
    rewrite !i64_u64, i32_u32, app_nil_r by done. done. }
  split_and!; [done | exact E |]. intros Hlen. rewrite E, drop_ge, app_nil_r by lia. by destruct t.
Qed.

(** ** A concrete clock and device *)

#[export] Program Instance example_clock : BiometricsClock :=
  {| hasElapsed now start ms := ms * 1000000 <=? now - start |}.
Next Obligation. intros now start ms H%Z.leb_le. lia. Qed.
Next Obligation. intros now start ms H. apply Z.leb_le. lia. Qed.

(** A device that records the operation identifiers of the authentications it
    starts and otherwise answers 0. *)
#[export] Instance example_device : FingerprintDevice (list Z) := {
  dev_pre_enroll d := (0, d);
  dev_enroll _ _ _ d := (0, d);
  dev_post_enroll d := (0, d);
  dev_get_authenticator_id d := (0, d);
  dev_cancel d := (0, d);
  dev_enumerate d := (0, d);
  dev_remove _ _ d := (0, d);
  dev_set_active_group _ _ d := (0, d);
  dev_authenticate op _ d := (0, d ++ [op])
}.

Definition example_tracker : LockoutTracker := LockoutTracker_new 0 kNone.
Definition example_session (t : LockoutTracker) : Session := mkSession t false false false 10 [] 0.
Definition example_hat : hw_auth_token := mkhw_auth_token 1 2 3 4 5 (replicate 32 7).
Definition example_now : Clock := mkClock 1000 1100 1200.

(** Create a session, then an unrecognised finger. *)
Definition example_fp (t : LockoutTracker) : Fingerprint := mkFingerprint example_tracker (Some (example_session t)) [].

Lemma example_reach : fp_reachable (mkFingerprint example_tracker None [], []) 2
  (example_fp (mkLockoutTracker 1 0 kNone), []).
Proof.
  change 2 with (0 + 1 + 1). eapply reach_step; [eapply reach_step; [apply reach_init |] |].
  - apply (step_create 10). reflexivity.
  - apply (step_notify example_now (MSG_AUTHENTICATED 0 0 example_hat)). reflexivity.
Qed.


Lemma failed_attempt_reports_witness :
  exists left, 0 <= left <= 10000 /\
    (session_notify example_now (MSG_AUTHENTICATED 0 0 example_hat) [] (example_session (mkLockoutTracker 4 0 kNone))).2 =
      [onAuthenticationFailed; onLockoutTimed left].
Proof.
  assert (session_inv 9 (example_session (mkLockoutTracker 4 0 kNone))) as Hinv
    by (repeat split; simpl; try discriminate; unfold LOCKOUT_PERMANENT_THRESHOLD in *; simpl in *; try lia).
  pose proof (failed_attempt_reports 9 0 example_hat example_now [] (example_session (mkLockoutTracker 4 0 kNone)) Hinv
    ltac:(lia) ltac:(simpl; lia) ltac:(unfold LOCKOUT_TIMED_DURATION; simpl; lia) ltac:(discriminate) ltac:(reflexivity)) as H.
  cbv zeta in H.
  destruct (session_notify example_now (MSG_AUTHENTICATED 0 0 example_hat) [] _) as [[s' en'] cbs].
  destruct H as (_ & _ & left & Hl & Hc & _). exists left. split; [exact Hl | exact Hc].
Defined.

Lemma lockout_not_enforced_witness :
  (authenticate example_now 77 (example_session (mkLockoutTracker 20 0 kPermanent)) []).1.2 = [77].
Proof.
  assert (createSession 11 (mkFingerprint example_tracker None []) ([] : list Z) =
    Some (mkFingerprint example_tracker (Some (mkSession example_tracker false false false 11 [] 0)) [], [])) as Hc by reflexivity.
  destruct (lockout_not_enforced example_now 77 11 0 (example_session (mkLockoutTracker 20 0 kPermanent)) [] []
    example_tracker [] (mkFingerprint example_tracker None []) _ [] [] ltac:(reflexivity) ltac:(reflexivity)
    ltac:(reflexivity) ltac:(lia) (reach_init _) Hc) as [H _].
  destruct (authenticate example_now 77 (example_session (mkLockoutTracker 20 0 kPermanent)) []) as [[s' d'] cbs].
  destruct H as [-> _]. reflexivity.
Defined.

Lemma token_translation_roundtrip_witness :
  let t := mkHardwareAuthToken (-1) 2 3 1 123456789 (replicate 32 9) in
  exists h, translate_to_hw t example_hat = Some h /\ translate_from_hw h fresh_token = t.
Proof.
  intros t.
  assert (token_ok t) as Hok by (unfold token_ok, is_i64, is_i32; simpl; lia).
  pose proof (token_translation_roundtrip t example_hat Hok ltac:(reflexivity)) as H.
  destruct (translate_to_hw t example_hat) as [h |]; [| simpl in H; lia].
  exists h. split; [reflexivity |]. destruct H as (_ & _ & H). exact (H eq_refl).
Defined.
