(* ===== verification/FingerprintHal.v ===== *)
(** * Fingerprint: opening the vendor library, sensor properties, the HIDL service
      (src/biometrics/fingerprint/aidl/Fingerprint.cpp,
       src/biometrics/fingerprint/2.0/BiometricsFingerprint.cpp)

    Both services open the vendor library the same way and translate its codes;
    the HIDL one forwards each call to the device and each message to a client
    callback.  The sensor locations are parsed from a system property.

    Shown: a device is used only after every check of the opening sequence; the
    two services translate the vendor codes alike but for the two documented
    differences; the property's text is parsed back to the locations it lists;
    an enumeration within the array reports every finger with its countdown. *)

From S2P Require Import Prelude Text FingerprintSession.
From Stdlib Require Import Ascii.

(** ** Opening the vendor library

    The module as [hw_get_module] returns it: its [open] function may be
    missing; opening gives an error code and a device, and registering the
    notification function gives an error code. *)

Record HwDevice := mkHwDevice { dev_version : Z; dev_set_notify : Z }.
Record HwModule := mkHwModule { mod_open : option (Z * HwDevice) }.

(** [HARDWARE_MODULE_API_VERSION(major, minor)] *)
Definition API_VERSION (major minor : Z) : Z := Z.lor (Z.shiftl (Z.land major 255) 8) (Z.land minor 255).

Definition kVersion_aidl : Z := API_VERSION 2 1.
Definition kVersion_hidl : Z := API_VERSION 2 0.

(** [openHal]; [None] is the null pointer. *)
Definition openHal (kVersion : Z) (get_module : Z * option HwModule) : option HwDevice :=
  let '(err, hw_mdl) := get_module in
  if negb (err =? 0) then None
  else match hw_mdl with
    | None => None
    | Some m =>
        match mod_open m with
        | None => None
        | Some (err, device) =>
            if negb (err =? 0) then None
            else if negb (kVersion =? dev_version device) then None
            else if negb (dev_set_notify device =? 0) then None
            else Some device
        end
    end.

Lemma openHal_spec (kVersion : Z) (get_module : Z * option HwModule) (dev : HwDevice) :
  openHal kVersion get_module = Some dev <->
  get_module.1 = 0 /\ get_module.2 = Some (mkHwModule (Some (0, dev))) /\
  dev_version dev = kVersion /\ dev_set_notify dev = 0.
Proof.
  destruct get_module as [err [[[[e d] |]] |]]; simpl; split; try by intros (? & ? & ?).
  all: try (destruct (Z.eqb_spec err 0); simpl; done).
  - destruct (Z.eqb_spec err 0); simpl; [| done]. destruct (Z.eqb_spec e 0); simpl; [| done].
    destruct (Z.eqb_spec kVersion (dev_version d)); simpl; [| done].
    destruct (Z.eqb_spec (dev_set_notify d) 0); simpl; [| done]. intros [= <-]. by subst.
  - intros (-> & [= -> ->] & -> & Hn). simpl. by rewrite Z.eqb_refl, Hn.
Qed.

(** ** The sensor type and locations (Fingerprint.cpp) *)

Inductive SensorType := SENSOR_POWER_BUTTON | SENSOR_HOME_BUTTON | SENSOR_REAR | SENSOR_UNKNOWN.

(** The constructor's switch on the configured type; [None] is the fatal
    message of an unrecognised one. *)
Definition sensor_type (sensorTypeProp : string) : option SensorType :=
  if String.eqb sensorTypeProp "side" then Some SENSOR_POWER_BUTTON
  else if String.eqb sensorTypeProp "home" then Some SENSOR_HOME_BUTTON
  else if String.eqb sensorTypeProp "rear" then Some SENSOR_REAR
  else None.

Record SensorLocation := mkSensorLocation {
  sensorLocationX : Z;
  sensorLocationY : Z;
  sensorRadius : Z;
  display : string
}.

Section locations.
Context `{AndroidStrings}.

(** One entry: [x|y|radius] or [x|y|radius|display]; the display must not be
    empty when it is given. *)
Definition parse_location (entry : string) : option SensorLocation :=
  match Split entry "|"%char with
  | [dx; dy; dr] =>
      match ParseInt dx, ParseInt dy, ParseInt dr with
      | Some x, Some y, Some r => Some (mkSensorLocation x y r "")
      | _, _, _ => None
      end
  | [dx; dy; dr; d] =>
      match ParseInt dx, ParseInt dy, ParseInt dr with
      | Some x, Some y, Some r => if String.eqb d "" then None else Some (mkSensorLocation x y r d)
      | _, _, _ => None
      end
  | _ => None
  end.

Definition getSensorLocations (loc : string) : list SensorLocation := omap parse_location (Split loc ","%char).

(** The text of a location, without the display when it is empty. *)
Definition print_location (l : SensorLocation) : string :=
  join "|" ([to_text (sensorLocationX l); to_text (sensorLocationY l); to_text (sensorRadius l)] ++
            if String.eqb (display l) "" then [] else [display l]).

Definition location_ok (l : SensorLocation) : Prop :=
  is_i32 (sensorLocationX l) /\ is_i32 (sensorLocationY l) /\ is_i32 (sensorRadius l) /\
  free_of "," (display l) /\ free_of "|" (display l).

End locations.

(** ** The HIDL service (2.0/BiometricsFingerprint.cpp) *)

Inductive RequestStatus :=
  | SYS_OK | SYS_ENOENT | SYS_EINTR | SYS_EIO | SYS_EAGAIN | SYS_ENOMEM | SYS_EACCES | SYS_EFAULT
  | SYS_EBUSY | SYS_EINVAL | SYS_ENOSPC | SYS_ETIMEDOUT | SYS_UNKNOWN.

Definition ErrorFilter (error : Z) : RequestStatus :=
  if error =? 0 then SYS_OK
  else if error =? -2 then SYS_ENOENT
  else if error =? -4 then SYS_EINTR
  else if error =? -5 then SYS_EIO
  else if error =? -11 then SYS_EAGAIN
  else if error =? -12 then SYS_ENOMEM
  else if error =? -13 then SYS_EACCES
  else if error =? -14 then SYS_EFAULT
  else if error =? -16 then SYS_EBUSY
  else if error =? -22 then SYS_EINVAL
  else if error =? -28 then SYS_ENOSPC
  else if error =? -110 then SYS_ETIMEDOUT
  else SYS_UNKNOWN.

Inductive HidlError :=
  | HIDL_ERROR_HW_UNAVAILABLE | HIDL_ERROR_UNABLE_TO_PROCESS | HIDL_ERROR_TIMEOUT | HIDL_ERROR_NO_SPACE
  | HIDL_ERROR_CANCELED | HIDL_ERROR_UNABLE_TO_REMOVE | HIDL_ERROR_LOCKOUT | HIDL_ERROR_VENDOR.

Inductive HidlAcquired :=
  | HIDL_ACQUIRED_GOOD | HIDL_ACQUIRED_PARTIAL | HIDL_ACQUIRED_INSUFFICIENT | HIDL_ACQUIRED_IMAGER_DIRTY
  | HIDL_ACQUIRED_TOO_SLOW | HIDL_ACQUIRED_TOO_FAST | HIDL_ACQUIRED_VENDOR.

Definition hidl_VendorErrorFilter (error : Z) : HidlError * Z :=
  if error =? FINGERPRINT_ERROR_HW_UNAVAILABLE then (HIDL_ERROR_HW_UNAVAILABLE, 0)
  else if error =? FINGERPRINT_ERROR_UNABLE_TO_PROCESS then (HIDL_ERROR_UNABLE_TO_PROCESS, 0)
  else if error =? FINGERPRINT_ERROR_TIMEOUT then (HIDL_ERROR_TIMEOUT, 0)
  else if error =? FINGERPRINT_ERROR_NO_SPACE then (HIDL_ERROR_NO_SPACE, 0)
  else if error =? FINGERPRINT_ERROR_CANCELED then (HIDL_ERROR_CANCELED, 0)
  else if error =? FINGERPRINT_ERROR_UNABLE_TO_REMOVE then (HIDL_ERROR_UNABLE_TO_REMOVE, 0)
  else if error =? FINGERPRINT_ERROR_LOCKOUT then (HIDL_ERROR_LOCKOUT, 0)
  else if FINGERPRINT_ERROR_VENDOR_BASE <=? error then (HIDL_ERROR_VENDOR, error - FINGERPRINT_ERROR_VENDOR_BASE)
  else (HIDL_ERROR_UNABLE_TO_PROCESS, 0).

Definition hidl_VendorAcquiredFilter (info : Z) : HidlAcquired * Z :=
  if info =? 0 then (HIDL_ACQUIRED_GOOD, 0)
  else if info =? 1 then (HIDL_ACQUIRED_PARTIAL, 0)
  else if info =? 2 then (HIDL_ACQUIRED_INSUFFICIENT, 0)
  else if info =? 3 then (HIDL_ACQUIRED_IMAGER_DIRTY, 0)
  else if info =? 4 then (HIDL_ACQUIRED_TOO_SLOW, 0)
  else if info =? 5 then (HIDL_ACQUIRED_TOO_FAST, 0)
  else if FINGERPRINT_ACQUIRED_VENDOR_BASE <=? info then (HIDL_ACQUIRED_VENDOR, info - FINGERPRINT_ACQUIRED_VENDOR_BASE)
  else (HIDL_ACQUIRED_INSUFFICIENT, 0).

(** The calls on the client callback; all carry the device identifier. *)
Inductive HidlCallback :=
  | hidl_onError (e : HidlError) (vendorCode : Z)
  | hidl_onAcquired (info : HidlAcquired) (vendorCode : Z)
  | hidl_onEnrollResult (fid gid remaining : Z)
  | hidl_onRemoved (fid gid remaining : Z)
  | hidl_onAuthenticated (fid gid : Z) (token : option hw_auth_token)
  | hidl_onEnumerate (fid gid remaining : Z).

(** The service: whether a client callback is registered, and the device
    pointer, null when the library could not be opened. *)
Record BiometricsFingerprint := mkBiometricsFingerprint { mClientCallback : bool; mDevice : option Z }.

Definition BiometricsFingerprint_new (address : Z) (get_module : Z * option HwModule) : BiometricsFingerprint :=
  mkBiometricsFingerprint false (match openHal kVersion_hidl get_module with Some _ => Some address | None => None end).

(** The device id is the pointer. *)
Definition setNotify (callback : bool) (b : BiometricsFingerprint) : Z * BiometricsFingerprint :=
  (default 0 (mDevice b), mkBiometricsFingerprint callback (mDevice b)).

Section hidl.
Context {D : Type} `{FingerprintDevice D}.

(** A call forwarded to the device; [None] is the null device pointer. *)
Definition forward {A} (b : BiometricsFingerprint) (call : D -> A * D) (d : D) : option (A * D) :=
  match mDevice b with Some _ => Some (call d) | None => None end.

Definition filtered (call : D -> Z * D) (d : D) : RequestStatus * D := let '(e, d) := call d in (ErrorFilter e, d).

Definition hidl_preEnroll b (d : D) := forward b dev_pre_enroll d.
Definition hidl_enroll (hat : hw_auth_token) (gid timeoutSec : Z) b (d : D) :=
  forward b (filtered (dev_enroll hat gid timeoutSec)) d.
Definition hidl_postEnroll b (d : D) := forward b (filtered dev_post_enroll) d.
Definition hidl_getAuthenticatorId b (d : D) := forward b dev_get_authenticator_id d.
Definition hidl_cancel b (d : D) := forward b (filtered dev_cancel) d.
Definition hidl_remove (gid fid : Z) b (d : D) := forward b (filtered (dev_remove gid fid)) d.
Definition hidl_authenticate (operationId gid : Z) b (d : D) := forward b (filtered (dev_authenticate operationId gid)) d.

Definition PATH_MAX : Z := 4096.

(** [writable] is [access(storePath, W_OK) == 0]. *)
Definition hidl_setActiveGroup (gid : Z) (storePath : string) (writable : bool) b (d : D) : option (RequestStatus * D) :=
  let size := Z.of_nat (String.length storePath) in
  if (PATH_MAX <=? size) || (size <=? 0) then Some (SYS_EINVAL, d)
  else if negb writable then Some (SYS_EINVAL, d)
  else forward b (filtered (dev_set_active_group gid storePath)) d.

(** The enumeration of the 2.0 library fills an array of 100 entries and stores
    their number; reading past the array is [None]. *)
Definition MAX_FINGERPRINTS : nat := 100.

Fixpoint enumerate_loop (results : list (Z * Z)) (n i : Z) (fuel : nat) : option (list HidlCallback) :=
  match fuel with
  | O => Some []
  | S fuel =>
      if i <? n then
        '(fid, gid) ← results !! Z.to_nat i;
        cbs ← enumerate_loop results n (i + 1) fuel;
        Some (hidl_onEnumerate fid gid (u32 (n - i - 1)) :: cbs)
      else Some []
  end.

(** [ret], [results] and [n] are what the library's function returns. *)
Definition hidl_enumerate (ret : Z) (results : list (Z * Z)) (n : Z) (b : BiometricsFingerprint)
    : option (RequestStatus * list HidlCallback) :=
  _ ← mDevice b;
  cbs ← (if (ret =? 0) && mClientCallback b then enumerate_loop results n 0 (Z.to_nat n) else Some []);
  Some (ErrorFilter ret, cbs).

(** [BiometricsFingerprint::notify] *)
Definition hidl_notify (msg : FingerprintMsg) (b : BiometricsFingerprint) : list HidlCallback :=
  if negb (mClientCallback b) then []
  else match msg with
    | MSG_ERROR error => let '(result, vendorCode) := hidl_VendorErrorFilter error in [hidl_onError result vendorCode]
    | MSG_ACQUIRED info => let '(result, vendorCode) := hidl_VendorAcquiredFilter info in [hidl_onAcquired result vendorCode]
    | MSG_TEMPLATE_ENROLLING fid gid rem => [hidl_onEnrollResult fid gid rem]
    | MSG_TEMPLATE_REMOVED fid gid rem => [hidl_onRemoved fid gid rem]
    | MSG_AUTHENTICATED fid gid hat =>
        if negb (fid =? 0) then [hidl_onAuthenticated fid gid (Some hat)] else [hidl_onAuthenticated fid gid None]
    | MSG_TEMPLATE_ENUMERATING _ _ _ => []
    | MSG_other => []
    end.

End hidl.

(** ** Vendor codes *)

(** The HIDL names of the AIDL values. *)
Definition hidl_of_error (e : FpError) : HidlError :=
  match e with
  | ERR_HW_UNAVAILABLE => HIDL_ERROR_HW_UNAVAILABLE
  | ERR_UNABLE_TO_PROCESS => HIDL_ERROR_UNABLE_TO_PROCESS
  | ERR_TIMEOUT => HIDL_ERROR_TIMEOUT
  | ERR_NO_SPACE => HIDL_ERROR_NO_SPACE
  | ERR_CANCELED => HIDL_ERROR_CANCELED
  | ERR_UNABLE_TO_REMOVE => HIDL_ERROR_UNABLE_TO_REMOVE
  | ERR_VENDOR => HIDL_ERROR_VENDOR
  end.

Definition hidl_of_acquired (a : AcquiredInfo) : option HidlAcquired :=
  match a with
  | ACQ_GOOD => Some HIDL_ACQUIRED_GOOD
  | ACQ_PARTIAL => Some HIDL_ACQUIRED_PARTIAL
  | ACQ_INSUFFICIENT => Some HIDL_ACQUIRED_INSUFFICIENT
  | ACQ_SENSOR_DIRTY => Some HIDL_ACQUIRED_IMAGER_DIRTY
  | ACQ_TOO_SLOW => Some HIDL_ACQUIRED_TOO_SLOW
  | ACQ_TOO_FAST => Some HIDL_ACQUIRED_TOO_FAST
  | ACQ_VENDOR => Some HIDL_ACQUIRED_VENDOR
  | ACQ_UNKNOWN => None
  end.

(** The two services translate the vendor library's codes alike.  For every
    error code other than the lockout both report the same error with the same
    vendor code, and the lockout is a vendor error numbered 7 in the AIDL
    service where the HIDL service has a name for it; for every acquired code
    both report the same information, except that a code neither knows is
    unknown in the AIDL service and insufficient in the HIDL one; a code from
    1000 on is passed through as its distance from 1000 by all four filters. *)
Theorem vendor_filters_agree (code : Z) :
  (let '(e, v) := VendorErrorFilter code in let '(e', v') := hidl_VendorErrorFilter code in
   if code =? FINGERPRINT_ERROR_LOCKOUT then (e, v) = (ERR_VENDOR, 7) /\ (e', v') = (HIDL_ERROR_LOCKOUT, 0)
   else hidl_of_error e = e' /\ v = v') /\
  (let '(a, v) := VendorAcquiredFilter code in let '(a', v') := hidl_VendorAcquiredFilter code in
   v = v' /\ a' = default HIDL_ACQUIRED_INSUFFICIENT (hidl_of_acquired a) /\
   (a = ACQ_UNKNOWN <-> code < 0 \/ 6 <= code < 1000)) /\
  (1000 <= code -> VendorErrorFilter code = (ERR_VENDOR, code - 1000) /\ VendorAcquiredFilter code = (ACQ_VENDOR, code - 1000)).
Proof.
  unfold VendorErrorFilter, hidl_VendorErrorFilter, VendorAcquiredFilter, hidl_VendorAcquiredFilter,
    FINGERPRINT_ERROR_HW_UNAVAILABLE, FINGERPRINT_ERROR_UNABLE_TO_PROCESS, FINGERPRINT_ERROR_TIMEOUT,
    FINGERPRINT_ERROR_NO_SPACE, FINGERPRINT_ERROR_CANCELED, FINGERPRINT_ERROR_UNABLE_TO_REMOVE,
    FINGERPRINT_ERROR_LOCKOUT, FINGERPRINT_ERROR_VENDOR_BASE, FINGERPRINT_ACQUIRED_VENDOR_BASE.
  split_and!.
  - bool_cases; subst; try lia; done.
  - bool_cases; subst; try lia; (split; [done |]; split; [done |]; split; intros; (done || lia)).
  - intros Hc. bool_cases; try lia; done.
Qed.

(** ** Enumeration *)

Lemma enumerate_loop_spec (results : list (Z * Z)) (n i : Z) (fuel : nat) :
  0 <= i -> n = i + Z.of_nat fuel -> n <= Z.of_nat (length results) -> n < 2 ^ 32 ->
  enumerate_loop results n i fuel =
    Some (zip_with (fun '(fid, gid) rem => hidl_onEnumerate fid gid rem)
            (take fuel (drop (Z.to_nat i) results)) (reverse (seqZ 0 (Z.of_nat fuel)))).
Proof.
  revert i. induction fuel as [| fuel IH]; intros i Hi Hn Hl Hw; [done |]. cbn [enumerate_loop].
  destruct (Z.ltb_spec i n); [| lia].
  destruct (lookup_lt_is_Some_2 results (Z.to_nat i)) as [[fid gid] E]; [lia |].
  rewrite E. cbn [mbind option_bind]. rewrite IH by lia. cbn [option_bind].
  rewrite (drop_S results (fid, gid) (Z.to_nat i) E).
  replace (Z.of_nat (S fuel)) with (Z.of_nat fuel + 1) by lia. rewrite seqZ_app by lia. rewrite reverse_app.
  change (seqZ (0 + Z.of_nat fuel) 1) with [0 + Z.of_nat fuel]. simpl.
  replace (Z.to_nat (i + 1)) with (S (Z.to_nat i)) by lia. f_equal. f_equal. f_equal.
  rewrite u32_id by (unfold is_u32; lia). lia.
Qed.

(** The HIDL enumeration.  With a device and a client, when the library
    reports success and [n] fingers that lie in its array of at most 100, the
    client is told every finger once, in the order of the array, with the number
    that remain counting down to zero; when the library claims more than the
    array holds, the loop reads past its end. *)
Theorem hidl_enumerate_reports (results : list (Z * Z)) (n : Z) (b : BiometricsFingerprint) (address : Z)
    (Hdev : mDevice b = Some address) (Hcb : mClientCallback b = true)
    (Hlen : (length results <= MAX_FINGERPRINTS)%nat) (Hn : 0 <= n < 2 ^ 32) :
  (n <= Z.of_nat (length results) ->
     hidl_enumerate 0 results n b = Some (SYS_OK,
       zip_with (fun '(fid, gid) rem => hidl_onEnumerate fid gid rem) (take (Z.to_nat n) results) (reverse (seqZ 0 n)))) /\
  (Z.of_nat (length results) < n -> hidl_enumerate 0 results n b = None).
Proof.
  unfold hidl_enumerate. rewrite Hdev, Hcb. simpl. split; intros Hle.
  - rewrite (enumerate_loop_spec results n 0 (Z.to_nat n)) by lia. simpl. by rewrite drop_0, Z2Nat.id by lia.
  - assert (forall fuel i, 0 <= i <= Z.of_nat (length results) -> n = i + Z.of_nat fuel ->
      enumerate_loop results n i fuel = None) as Hnone.
    { induction fuel as [| fuel IH]; intros i Hi Hf; [lia |]. cbn [enumerate_loop].
      destruct (Z.ltb_spec i n); [| lia].
      destruct (results !! Z.to_nat i) as [[fid gid] |] eqn:E; [| done]. apply lookup_lt_Some in E.
      cbn [mbind option_bind]. by rewrite IH by lia. }
    by rewrite (Hnone (Z.to_nat n) 0) by lia.
Qed.

Lemma hidl_enumerate_reports_witness :
  hidl_enumerate 0 [(11, 0); (12, 0)] 2 (mkBiometricsFingerprint true (Some 4096)) =
    Some (SYS_OK, [hidl_onEnumerate 11 0 1; hidl_onEnumerate 12 0 0]).
Proof.
  exact (proj1 (hidl_enumerate_reports [(11, 0); (12, 0)] 2 (mkBiometricsFingerprint true (Some 4096)) 4096
    eq_refl eq_refl ltac:(unfold MAX_FINGERPRINTS; simpl; lia) ltac:(lia)) ltac:(simpl; lia)).
Defined.

(** ** The property of the sensor locations *)

Section locations_roundtrip.
Context `{AndroidStrings}.

Lemma location_parts_free (c : ascii) (l : SensorLocation) :
  location_ok l -> free_of c (display l) -> c <> "-"%char -> digit_value c = None ->
  Forall (free_of c) ([to_text (sensorLocationX l); to_text (sensorLocationY l); to_text (sensorRadius l)] ++
            if String.eqb (display l) "" then [] else [display l]).
Proof.
  intros (Hx & Hy & Hr & _) Hd Hm Hc. assert (forall z, is_i32 z -> free_of c (to_text z)) as Ht.
  { intros z Hz. apply to_text_free; [unfold is_i32, is_i64 in *; lia | done..]. }
  repeat constructor; auto. destruct (String.eqb (display l) ""); repeat constructor; auto.
Qed.

Lemma parse_print_location (l : SensorLocation) : location_ok l -> parse_location (print_location l) = Some l.
Proof.
  intros Hok. pose proof Hok as (Hx & Hy & Hr & _ & Hd). unfold parse_location, print_location.
  rewrite (Split_join "|"%char) by (done || by apply location_parts_free).
  destruct l as [x y r d]; simpl in *. rewrite !ParseInt_to_text by done.
  destruct (String.eqb_spec d ""); [by subst |].
  by destruct (String.eqb_spec d "").
Qed.

(** The sensor location property is parsed back.  Every non-empty list of
    locations with 32-bit coordinates, whose displays contain neither separator,
    written as [x|y|radius] or [x|y|radius|display] entries joined by commas, is
    read as exactly that list, in order. *)
Theorem sensor_locations_roundtrip (ls : list SensorLocation) (Hne : ls <> []) (Hok : Forall location_ok ls) :
  getSensorLocations (join "," (print_location <$> ls)) = ls.
Proof.
  unfold getSensorLocations. rewrite (Split_join ","%char).
  - clear Hne. induction Hok as [| l ls Hl Hls IH]; [done |]. cbn [fmap list_fmap omap list_omap].
    rewrite parse_print_location by done. f_equal. exact IH.
  - by destruct ls.
  - apply Forall_fmap. eapply Forall_impl; [exact Hok |]. intros l Hl. simpl. unfold print_location.
    apply free_of_join; [unfold free_of; simpl; by intros ?%list_elem_of_singleton |].
    apply location_parts_free; [done | apply Hl | done | done].
Qed.

End locations_roundtrip.

Lemma sensor_locations_roundtrip_witness :
  getSensorLocations "540|1800|90|d0,-1|2|3" = [mkSensorLocation 540 1800 90 "d0"; mkSensorLocation (-1) 2 3 ""].
Proof.
  assert (Forall location_ok [mkSensorLocation 540 1800 90 "d0"; mkSensorLocation (-1) 2 3 ""]) as Hok.
  { repeat constructor; simpl; try lia; unfold free_of; simpl; rewrite ?elem_of_cons, elem_of_nil; naive_solver. }
  exact (sensor_locations_roundtrip [mkSensorLocation 540 1800 90 "d0"; mkSensorLocation (-1) 2 3 ""]
    ltac:(discriminate) Hok).
Defined.
