(* ===== verification/FingerprintService.v ===== *)
(** * Fingerprint: the life of the services

    The rest of [src/biometrics/fingerprint/aidl/Fingerprint.cpp], of
    [Session.cpp] and of [2.0/BiometricsFingerprint.cpp]: what is called in the
    vendor library while it is opened and when a service is destroyed, the
    properties of the sensor, and the session calls that only forward.  The
    configuration ([FingerprintConfig], over a library that is not part of the
    repository) is the record of its values. *)

From S2P Require Import Prelude Text FingerprintSession FingerprintHal.

(** ** Opening and closing the library *)

Inductive LibCall := LIB_open | LIB_set_notify | LIB_close.

(** [openHal] with the calls it makes. *)
Definition openHal_calls (kVersion : Z) (get_module : Z * option HwModule) : option HwDevice * list LibCall :=
  let '(err, hw_mdl) := get_module in
  if negb (err =? 0) then (None, [])
  else match hw_mdl with
    | None => (None, [])
    | Some m =>
        match mod_open m with
        | None => (None, [])
        | Some (err, device) =>
            if negb (err =? 0) then (None, [LIB_open])
            else if negb (kVersion =? dev_version device) then (None, [LIB_open])
            else if negb (dev_set_notify device =? 0) then (None, [LIB_open; LIB_set_notify])
            else (Some device, [LIB_open; LIB_set_notify])
        end
    end.

(** The destructors of both services; [close_rc] is the answer of [close]. *)
Definition destroy_device (device : option Z) (close_rc : Z) : option Z * list LibCall :=
  match device with
  | None => (None, [])
  | Some _ => (if negb (close_rc =? 0) then device else None, [LIB_close])
  end.

(** [BiometricsFingerprint::getInstance]. *)
Definition getInstance (sInstance : option BiometricsFingerprint) (address : Z) (get_module : Z * option HwModule) : BiometricsFingerprint :=
  match sInstance with
  | None => BiometricsFingerprint_new address get_module
  | Some b => b
  end.

(** ** Properties of the sensor *)

Record FingerprintConfig := mkFingerprintConfig {
  cfg_sensor_id : Z; cfg_sensor_strength : Z; cfg_navigation_gesture : bool; cfg_detect_interaction : bool; cfg_sensor_location : string
}.

(** The values that [FingerprintConfig.cpp] gives when no property is set. *)
Definition default_config : FingerprintConfig := mkFingerprintConfig 0 2 false false "".

Record ComponentInfo := mkComponentInfo {
  componentId : string; hardwareVersion : string; firmwareVersion : string; serialNumber : string; softwareVersion : string
}.

Record SensorProps := mkSensorProps {
  sp_sensorId : Z; sp_sensorStrength : Z; sp_maxEnrollmentsPerUser : Z; sp_componentInfo : list ComponentInfo; sp_sensorType : SensorType;
  sp_sensorLocations : list SensorLocation; sp_supportsNavigationGestures : bool; sp_supportsDetectInteraction : bool;
  sp_halHandlesDisplayTouches : bool; sp_halControlsIllumination : bool; sp_touchDetectionParameters : option unit
}.

Definition MAX_ENROLLMENTS_PER_USER : Z := 5.

Definition componentInfo : list ComponentInfo :=
  [mkComponentInfo "fingerprintSensor" "vendor/model/revision" "1.01" "00000001" "";
   mkComponentInfo "matchingAlgorithm" "" "" "" "vendor/version/revision"].

Definition getSensorProps `{AndroidStrings} (config : FingerprintConfig) (mSensorType : SensorType) : list SensorProps :=
  [mkSensorProps (cfg_sensor_id config) (cfg_sensor_strength config) MAX_ENROLLMENTS_PER_USER componentInfo mSensorType
     (getSensorLocations (cfg_sensor_location config)) (cfg_navigation_gesture config) (cfg_detect_interaction config) false false None].

(** ** Calls of a session that forward *)

Section Forwarding.
Context {D : Type} `{FingerprintDevice D}.

Definition onPointerDown (s : Session) (d : D) : Reply := (s, d, []).
Definition onPointerUp (s : Session) (d : D) : Reply := (s, d, []).
Definition onUiReady (s : Session) (d : D) : Reply := (s, d, []).
Definition authenticateWithContext (c : Clock) (operationId : Z) (s : Session) (d : D) : Reply := authenticate c operationId s d.
Definition enrollWithContext (uninit : hw_auth_token) (hat : HardwareAuthToken) (s : Session) (d : D) : option Reply := enroll uninit hat s d.
Definition detectInteractionWithContext (s : Session) (d : D) : Reply := detectInteraction s d.
Definition onPointerDownWithContext (s : Session) (d : D) : Reply := onPointerDown s d.
Definition onPointerUpWithContext (s : Session) (d : D) : Reply := onPointerUp s d.
Definition onContextChanged (s : Session) (d : D) : Reply := (s, d, []).
Definition onPointerCancelWithContext (s : Session) (d : D) : Reply := (s, d, []).
Definition setIgnoreDisplayTouches (s : Session) (d : D) : Reply := (s, d, []).

End Forwarding.

(** ** The device over the life of a service *)

Lemma openHal_calls_device (kVersion : Z) (get_module : Z * option HwModule) : (openHal_calls kVersion get_module).1 = openHal kVersion get_module.
Proof. unfold openHal_calls, openHal. repeat case_match; done. Qed.

Definition opened (m : LibCall) : bool := match m with LIB_open => true | _ => false end.
Definition closed (m : LibCall) : bool := match m with LIB_close => true | _ => false end.

(** A service that got its device opens it once and closes it once when it is
    destroyed; one that did not never closes it, although the library may have
    been opened: exactly if it was opened in the wrong version, or refused the
    notification function. *)
Theorem device_life (kVersion address close_rc : Z) (get_module : Z * option HwModule) :
  let '(device, calls) := openHal_calls kVersion get_module in
  let '(_, calls') := destroy_device ((fun _ => address) <$> device) close_rc in
  match device with
  | Some _ => calls ++ calls' = [LIB_open; LIB_set_notify; LIB_close]
  | None =>
      countb closed (calls ++ calls') = 0 /\
      (forall m err dev, get_module = (0, Some m) -> mod_open m = Some (err, dev) -> err = 0 -> countb opened (calls ++ calls') = 1)
  end.
Proof.
  unfold openHal_calls, destroy_device. destruct get_module as [err [m |]]; cbn.
  - destruct (negb (err =? 0)) eqn:Eerr; [split; [done | intros; simplify_eq; done] |].
    destruct (mod_open m) as [[rc dev] |] eqn:Em; [| split; [done | intros; simplify_eq]].
    destruct (negb (rc =? 0)) eqn:Erc; [split; [done | intros; simplify_eq; done] |].
    destruct (negb (kVersion =? dev_version dev)); [by split |].
    destruct (negb (dev_set_notify dev =? 0)); [by split | done].
  - destruct (negb (err =? 0)); by split.
Qed.
