(* ===== verification/UsbTypec.v ===== *)
(** * USB Type-C service (src/usb/1.1-typec/Usb.cpp)

    The service exposes the ports of /sys/class/typec: it reports their roles,
    switches roles by writing to the port's nodes, and a worker thread turns
    kernel events into notifications and wakes the switch of a port's mode,
    which waits for the partner to come back.

    Shown: role texts are written and read back alike; the port names of the
    directory are exactly those it lists, connected when they have a partner;
    a switch is reported once, successful only if the node confirms it or the
    partner came back after the write, and otherwise the port is put back to
    dual role; no wake-up of a waiting switch is lost; the worker thread runs
    exactly while a callback is registered and closes what it opened. *)

From S2P Require Import Prelude Text SysFs.
From Stdlib Require Import Ascii.

(** ** HIDL types *)

Inductive PortRoleType := DATA_ROLE | POWER_ROLE | MODE | ROLE_TYPE_raw (n : Z).

#[export] Instance PortRoleType_eq_dec : EqDecision PortRoleType.
Proof. solve_decision. Defined.

(** A role as the interface passes it: a type and a number. *)
Record PortRole := mkPortRole { role_type : PortRoleType; role_role : Z }.

Definition PortPowerRole_NONE : Z := 0.
Definition PortPowerRole_SOURCE : Z := 1.
Definition PortPowerRole_SINK : Z := 2.
Definition PortDataRole_NONE : Z := 0.
Definition PortDataRole_HOST : Z := 1.
Definition PortDataRole_DEVICE : Z := 2.
Definition PortMode_NONE : Z := 0.
Definition PortMode_UFP : Z := 1.
Definition PortMode_DFP : Z := 2.
Definition PortMode_AUDIO_ACCESSORY : Z := 4.
Definition PortMode_DEBUG_ACCESSORY : Z := 8.

Inductive Status := SUCCESS | ERROR | UNRECOGNIZED_ROLE.

#[export] Instance Status_eq_dec : EqDecision Status.
Proof. solve_decision. Defined.

(** ** Text of the nodes *)

Fixpoint take_until (stop : ascii -> bool) (s : string) : string :=
  match s with
  | "" => ""
  | String c s => if stop c then "" else String c (take_until stop s)
  end.

(** The first line, up to a newline or a null character. *)
Definition first_line (s : string) : string :=
  take_until (fun c => Ascii.eqb c "010" || Ascii.eqb c "000") s.

Definition appendRoleNodeHelper (portName : string) (type : PortRoleType) : string :=
  let node := "/sys/class/typec/" +:+ portName in
  match type with
  | DATA_ROLE => node +:+ "/data_role"
  | POWER_ROLE => node +:+ "/power_role"
  | MODE => node +:+ "/port_type"
  | ROLE_TYPE_raw _ => ""
  end.

Definition convertRoletoString (role : PortRole) : string :=
  let r := role_role role in
  match role_type role with
  | POWER_ROLE => if r =? PortPowerRole_SOURCE then "source" else if r =? PortPowerRole_SINK then "sink" else "none"
  | DATA_ROLE => if r =? PortDataRole_HOST then "host" else if r =? PortDataRole_DEVICE then "device" else "none"
  | MODE => if r =? PortMode_UFP then "sink" else if r =? PortMode_DFP then "source" else "none"
  | ROLE_TYPE_raw _ => "none"
  end.

(** [std::string::find] of a character, and [substr(pos, n)] with a [size_t]
    count. *)
Fixpoint find_char (c : ascii) (s : string) : option nat :=
  match s with
  | "" => None
  | String x s => if Ascii.eqb x c then Some 0%nat else S <$> find_char c s
  end.

Definition substr (pos : nat) (n : Z) (s : string) : string :=
  let l := drop pos (String.list_ascii_of_string s) in
  String.string_of_list_ascii (take (Z.to_nat (Z.min n (Z.of_nat (length l)))) l).

Definition extractRole (roleName : string) : string :=
  match find_char "[" roleName, find_char "]" roleName with
  | Some first, Some last => substr (S first) (u64 (Z.of_nat last - Z.of_nat first - 1)) roleName
  | _, _ => roleName
  end.

Section typec.
Context {F : Type} `{FileSystem F}.

(** [readFile] into a string that holds [contents]; an empty file leaves it. *)
Definition readFile (filename contents : string) (f : F) : bool * string :=
  match fs_read filename f with
  | Some "" => (true, contents)
  | Some s => (true, first_line s)
  | None => (false, contents)
  end.

Definition writeFile (filename contents : string) : IO F bool := fun f =>
  let '(r, f) := fs_write filename contents f in (bool_decide (r = Written), f).

(** ** Switching roles *)

Definition switchToDrp (portName : string) : IO F unit := fun f =>
  let filename := appendRoleNodeHelper portName MODE in
  if String.eqb filename "" then (tt, f) else (tt, (fs_write filename "dual" f).2).

(** The outcomes of the waits on the condition variable: a timeout, or a
    wake-up with the value of [mPartnerUp] found then. *)
Inductive WaitOutcome := ETIMEDOUT | WOKEN (partnerUp : bool).

(** The wait loop; [None] is a switch that is still waiting. *)
Fixpoint wait_partner (outcomes : list WaitOutcome) : option bool :=
  match outcomes with
  | [] => None
  | ETIMEDOUT :: _ => Some false
  | WOKEN partnerUp :: outcomes => if partnerUp then Some true else wait_partner outcomes
  end.

Definition switchMode (portName : string) (newRole : PortRole) (outcomes : list WaitOutcome) (f : F) : option (bool * F) :=
  let filename := appendRoleNodeHelper portName (role_type newRole) in
  if String.eqb filename "" then Some (false, f)
  else
    let '(r, f) := fs_write filename (convertRoletoString newRole) f in
    roleSwitch ← (match r with Written => wait_partner outcomes | _ => Some false end);
    Some (roleSwitch, if (roleSwitch : bool) then f else (switchToDrp portName f).2).

(** A registered callback is a version 1.0 or 1.1 object. *)
Inductive CallbackVersion := CALLBACK_1_0 | CALLBACK_1_1.

Definition confirm_role (filename : string) (newRole : PortRole) (f : F) : bool :=
  let '(ok, written) := readFile filename "" f in
  ok && String.eqb (extractRole written) (convertRoletoString newRole).

(** The status that is notified, [None] when no callback is set; the outer
    option is a switch still waiting. *)
Definition switchRole (portName : string) (newRole : PortRole) (callback : option CallbackVersion)
    (outcomes : list WaitOutcome) (f : F) : option (option Status * F) :=
  let filename := appendRoleNodeHelper portName (role_type newRole) in
  if String.eqb filename "" then Some (None, f)
  else
    '(roleSwitch, f) ← (
      if decide (role_type newRole = MODE) then switchMode portName newRole outcomes f
      else
        let '(r, f) := fs_write filename (convertRoletoString newRole) f in
        Some (match r with Written => confirm_role filename newRole f | _ => false end, f));
    Some (match callback with
          | Some _ => Some (if (roleSwitch : bool) then SUCCESS else ERROR)
          | None => None
          end, f).

(** ** Reading the state of the ports *)

Definition getAccessoryConnected (portName : string) (f : F) : option string :=
  let '(ok, accessory) := readFile ("/sys/class/typec/" +:+ portName +:+ "-partner/accessory_mode") "" f in
  if (ok : bool) then Some accessory else None.

(** The part of [getCurrentRoleHelper] that decodes the text of the node. *)
Definition decode_role (type : PortRoleType) (none : Z) (roleName : string) : Status * Z :=
  if String.eqb roleName "source" then (SUCCESS, PortPowerRole_SOURCE)
  else if String.eqb roleName "sink" then (SUCCESS, PortPowerRole_SINK)
  else if String.eqb roleName "host" then
    (SUCCESS, if decide (type = DATA_ROLE) then PortDataRole_HOST else PortMode_DFP)
  else if String.eqb roleName "device" then
    (SUCCESS, if decide (type = DATA_ROLE) then PortDataRole_DEVICE else PortMode_UFP)
  else if String.eqb roleName "none" then (SUCCESS, none)
  else (UNRECOGNIZED_ROLE, none).

Definition read_role (filename : string) (type : PortRoleType) (none : Z) (f : F) : Status * Z :=
  let '(ok, roleName) := readFile filename "" f in
  if negb ok then (ERROR, none) else decode_role type none (extractRole roleName).

(** [old] is the value of [*currentRole] before the call. *)
Definition getCurrentRoleHelper (portName : string) (connected : bool) (type : PortRoleType) (old : Z) (f : F) : Status * Z :=
  let dir := "/sys/class/typec/" +:+ portName in
  match type with
  | POWER_ROLE =>
      if negb connected then (SUCCESS, PortPowerRole_NONE)
      else read_role (dir +:+ "/power_role") type PortPowerRole_NONE f
  | DATA_ROLE =>
      if negb connected then (SUCCESS, PortDataRole_NONE)
      else read_role (dir +:+ "/data_role") type PortDataRole_NONE f
  | MODE =>
      if negb connected then (SUCCESS, PortMode_NONE)
      else match getAccessoryConnected portName f with
        | None => (ERROR, PortMode_NONE)
        | Some accessory =>
            if String.eqb accessory "analog_audio" then (SUCCESS, PortMode_AUDIO_ACCESSORY)
            else if String.eqb accessory "debug" then (SUCCESS, PortMode_DEBUG_ACCESSORY)
            else read_role (dir +:+ "/data_role") type PortMode_NONE f
        end
  | ROLE_TYPE_raw _ => (ERROR, old)
  end.

(** [strtok(name, "-")]: the first run of characters other than the dash. *)
Fixpoint drop_dashes (s : string) : string :=
  match s with
  | String c s' => if Ascii.eqb c "-" then drop_dashes s' else s
  | "" => ""
  end.

Definition strtok_dash (s : string) : string := take_until (fun c => Ascii.eqb c "-") (drop_dashes s).

Definition add_port_entry (names : gmap string bool) (e : DirEntry) : gmap string bool :=
  if de_is_link e then
    if contains "-partner" (de_name e) then <[strtok_dash (de_name e) := true]> names
    else match names !! de_name e with
         | None => <[de_name e := false]> names
         | Some _ => names
         end
  else names.

Definition getTypeCPortNamesHelper (names : gmap string bool) (f : F) : option (gmap string bool) :=
  entries ← fs_list "/sys/class/typec" f; Some (foldl add_port_entry names entries).

Definition canSwitchRoleHelper (portName : string) (f : F) : bool :=
  let '(ok, supportsPD) := readFile ("/sys/class/typec/" +:+ portName +:+ "-partner/supports_usb_power_delivery") "" f in
  ok && String.eqb supportsPD "yes".

(** A port of the status vector, version 1.1 with the embedded version 1.0. *)
Record PortStatus := mkPortStatus {
  ps_portName : string;
  ps_currentPowerRole : Z;
  ps_currentDataRole : Z;
  ps_currentMode : Z;
  ps_canChangeMode : bool;
  ps_canChangeDataRole : bool;
  ps_canChangePowerRole : bool;
  ps_supportedModes : Z;
  ps_currentMode_1_1 : Z;
  ps_supportedModes_1_1 : Z
}.

#[export] Instance PortStatus_eta : Record_eta PortStatus := fun p =>
  mkPortStatus (ps_portName p) (ps_currentPowerRole p) (ps_currentDataRole p) (ps_currentMode p)
    (ps_canChangeMode p) (ps_canChangeDataRole p) (ps_canChangePowerRole p) (ps_supportedModes p)
    (ps_currentMode_1_1 p) (ps_supportedModes_1_1 p).

(** An element of a resized vector. *)
Definition PortStatus_zero : PortStatus := mkPortStatus "" 0 0 0 false false false 0 0 0.

(** The fields of one port; [inl] is the partly filled element left by an error. *)
Definition fill_port (V1_0 : bool) (port : string * bool) (f : F) : PortStatus + PortStatus :=
  let '(name, connected) := port in
  let p := PortStatus_zero <| ps_portName := name |> in
  match getCurrentRoleHelper name connected POWER_ROLE 0 f with
  | (SUCCESS, power) =>
      let p := p <| ps_currentPowerRole := power |> in
      match getCurrentRoleHelper name connected DATA_ROLE power f with
      | (SUCCESS, data) =>
          let p := p <| ps_currentDataRole := data |> in
          match getCurrentRoleHelper name connected MODE data f with
          | (SUCCESS, mode) =>
              let p := p <| ps_currentMode_1_1 := mode |> <| ps_currentMode := mode |> in
              let p := p <| ps_canChangeMode := true |> in
              let p := p <| ps_canChangeDataRole := if connected then canSwitchRoleHelper name f else false |> in
              let p := p <| ps_canChangePowerRole := if connected then canSwitchRoleHelper name f else false |> in
              inr (if V1_0 then p <| ps_supportedModes := PortMode_DFP |>
                   else p <| ps_supportedModes_1_1 := Z.lor PortMode_UFP PortMode_DFP |>
                          <| ps_supportedModes := PortMode_NONE |> <| ps_currentMode := PortMode_NONE |>)
          | _ => inl p
          end
      | _ => inl p
      end
  | _ => inl p
  end.

(** Fill the vector element by element; after an error the rest stays zero. *)
Fixpoint fill_ports (V1_0 : bool) (ports : list (string * bool)) (f : F) : Status * list PortStatus :=
  match ports with
  | [] => (SUCCESS, [])
  | port :: ports =>
      match fill_port V1_0 port f with
      | inl p => (ERROR, p :: ((fun _ => PortStatus_zero) <$> ports))
      | inr p => let '(s, ps) := fill_ports V1_0 ports f in (s, p :: ps)
      end
  end.

(** [iter] is the iteration order of the [unordered_map]; [old] the vector that
    is passed in, unchanged when the directory cannot be opened. *)
Definition getPortStatusHelper (iter : gmap string bool -> list (string * bool)) (V1_0 : bool) (old : list PortStatus) (f : F)
    : Status * list PortStatus :=
  match getTypeCPortNamesHelper ∅ f with
  | None => (ERROR, old)
  | Some names => fill_ports V1_0 (iter names) f
  end.

(** ** Notifications *)

Inductive UsbCallback :=
  | notifyPortStatusChange (ports : list PortStatus) (status : Status)
  | notifyPortStatusChange_1_1 (ports : list PortStatus) (status : Status).

Definition report_ports (iter : gmap string bool -> list (string * bool)) (callback : CallbackVersion) (f : F)
    : UsbCallback * list PortStatus :=
  match callback with
  | CALLBACK_1_1 => let '(s, ps) := getPortStatusHelper iter false [] f in (notifyPortStatusChange_1_1 ps s, ps)
  | CALLBACK_1_0 => let '(s, ps) := getPortStatusHelper iter true [] f in (notifyPortStatusChange ps s, ps)
  end.

Definition queryPortStatus (iter : gmap string bool -> list (string * bool)) (callback : option CallbackVersion) (f : F)
    : list UsbCallback :=
  match callback with
  | Some v => [(report_ports iter v f).1]
  | None => []
  end.

(** ** Automatic suspend of known devices *)

Definition canProductAutoSuspend (deviceIdVendor deviceIdProduct : string) : bool :=
  String.eqb deviceIdVendor "18d1" && String.eqb deviceIdProduct "5029".

Definition canUsbDeviceAutoSuspend (devicePath : string) (f : F) : bool :=
  let '(_, deviceIdVendor) := readFile (devicePath +:+ "/idVendor") "" f in
  let '(_, deviceIdProduct) := readFile (devicePath +:+ "/idProduct") "" f in
  canProductAutoSuspend deviceIdVendor deviceIdProduct.

Definition checkUsbDeviceAutoSuspend (devicePath : string) : IO F unit := fun f =>
  if canUsbDeviceAutoSuspend devicePath f then (tt, (writeFile (devicePath +:+ "/power/control") "auto" f).2) else (tt, f).

(** ** Kernel events

    A message is a sequence of null-terminated fields that an empty one ends. *)

Definition no_newline (s : string) : bool :=
  forallb (fun c => negb (Ascii.eqb c "010" || Ascii.eqb c "013")) (String.list_ascii_of_string s).

(** The text behind a prefix. *)
Fixpoint strip_prefix (p s : string) : option string :=
  match p, s with
  | "", _ => Some s
  | String a p, String b s => if Ascii.eqb a b then strip_prefix p s else None
  | _, _ => None
  end.

Definition ends_with (suffix s : string) : bool :=
  let n := String.length s in let k := String.length suffix in
  (k <=? n)%nat && String.eqb (String.substring (n - k) k s) suffix.

(** [regex_match]: the word add, any text without a newline, and -partner. *)
Definition is_partner_added (s : string) : bool :=
  match strip_prefix "add" s with
  | Some rest => ends_with "-partner" rest && no_newline rest
  | None => false
  end.

Definition xhci_path : string := "/devices/soc/a800000.ssusb/a800000.dwc3/xhci-hcd.0.auto/usb".

Definition is_digit (c : ascii) : bool := bool_decide (is_Some (digit_value c)).

(** The submatch of the device path: a bus and a device of the controller,
    each given by digits, followed by a slash and any text. *)
Definition autosuspend_path (s : string) : option string :=
  rest ← strip_prefix ("add@" +:+ xhci_path) s;
  match rest with
  | String a (String s1 (String b (String d (String c (String s2 tail))))) =>
      if is_digit a && Ascii.eqb s1 "/" && is_digit b && Ascii.eqb d "-" && is_digit c && Ascii.eqb s2 "/" && no_newline tail
      then Some (xhci_path +:+ String a (String s1 (String b (String d (String c "")))))
      else None
  | _ => None
  end.

(** What the handler uses of the service: the callback and whether the lock of
    the role switch is free. *)
Record UsbView := mkUsbView { uv_callback : option CallbackVersion; uv_roleSwitchIdle : bool }.

(** Put every reported port without a partner directory back to dual role. *)
Fixpoint restore_drp (ports : list PortStatus) (f : F) : F :=
  match ports with
  | [] => f
  | p :: ports =>
      restore_drp ports
        match fs_list ("/sys/class/typec/" +:+ ps_portName p +:+ "-partner") f with
        | None => (switchToDrp (ps_portName p) f).2
        | Some _ => f
        end
  end.

(** The value of [mPartnerUp], the notifications and the file system after the
    fields of a message. *)
Fixpoint uevent_fields (iter : gmap string bool -> list (string * bool)) (u : UsbView) (fields : list string)
    (partnerUp : bool) (f : F) : bool * list UsbCallback * F :=
  match fields with
  | [] => (partnerUp, [], f)
  | s :: fields =>
      if String.eqb s "" then (partnerUp, [], f)
      else if is_partner_added s then uevent_fields iter u fields true f
      else if bool_decide (is_Some (strip_prefix "DEVTYPE=typec_" s)) then
        let '(cbs, ports) := match uv_callback u with
          | Some v => let '(cb, ports) := report_ports iter v f in ([cb], ports)
          | None => ([], [])
          end in
        (partnerUp, cbs, if uv_roleSwitchIdle u then restore_drp ports f else f)
      else
        uevent_fields iter u fields partnerUp
          match autosuspend_path s with
          | Some path => (checkUsbDeviceAutoSuspend ("/sys" +:+ path) f).2
          | None => f
          end
  end.

Definition UEVENT_MSG_LEN : Z := 2048.

(** [n] is the length that was received. *)
Definition uevent_event (iter : gmap string bool -> list (string * bool)) (u : UsbView) (n : Z) (fields : list string)
    (partnerUp : bool) (f : F) : bool * list UsbCallback * F :=
  if n <=? 0 then (partnerUp, [], f)
  else if UEVENT_MSG_LEN <=? n then (partnerUp, [], f)
  else uevent_fields iter u fields partnerUp f.

End typec.

(** ** The worker thread

    The file descriptors it opens and closes, and the messages it handles, in
    order.  The outcomes of the system calls are parameters: the socket, the
    epoll descriptor, registering the socket, and per iteration whether the
    destroy flag was found set and what [epoll_wait] returned. *)

Inductive EpollOutcome := EPOLL_EINTR | EPOLL_FAILED | EPOLL_EVENTS (n : nat).

Inductive WorkerAction := Opened (fd : Z) | Closed (fd : Z) | Handled.

(** The loop; the list of outcomes ends when the loop is still waiting. *)
Fixpoint worker_loop (outcomes : list (bool * EpollOutcome)) : list WorkerAction * bool :=
  match outcomes with
  | [] => ([], false)
  | (destroyThread, o) :: outcomes =>
      if (destroyThread : bool) then ([], true)
      else match o with
        | EPOLL_EINTR => worker_loop outcomes
        | EPOLL_FAILED => ([], true)
        | EPOLL_EVENTS n => let '(acts, fin) := worker_loop outcomes in (replicate n Handled ++ acts, fin)
        end
  end.

(** The actions and whether the thread has returned. *)
Definition work (uevent_fd epoll_fd : Z) (ctl_fails : bool) (outcomes : list (bool * EpollOutcome)) : list WorkerAction * bool :=
  if uevent_fd <? 0 then ([], true)
  else
    let close_all := Closed uevent_fd :: (if 0 <=? epoll_fd then [Closed epoll_fd] else []) in
    if epoll_fd =? -1 then (Opened uevent_fd :: close_all, true)
    else
      let opened := [Opened uevent_fd; Opened epoll_fd] in
      if ctl_fails then (opened ++ close_all, true)
      else
        let '(acts, fin) := worker_loop outcomes in
        (opened ++ acts ++ (if (fin : bool) then close_all else []), fin).

(** ** Registering a callback *)

(** [C] is the type of callback objects, here [CallbackVersion]; the dual-role
    service has the same thread with callbacks of its own. *)
Record UsbThread (C : Type) := mkUsbThread {
  ut_callback : option C;
  ut_running : bool;
  ut_destroyThread : bool
}.
Arguments mkUsbThread {C}.
Arguments ut_callback {C}.
Arguments ut_running {C}.
Arguments ut_destroyThread {C}.

(** [killed] is the success of [pthread_kill] (the thread is then joined),
    [created] that of [pthread_create]. *)
Definition setCallback {C} (callback : option C) (killed created : bool) (u : UsbThread C) : UsbThread C :=
  match ut_callback u, callback with
  | None, None => u
  | Some _, Some _ => mkUsbThread callback (ut_running u) (ut_destroyThread u)
  | Some _, None => if killed then mkUsbThread None false true else mkUsbThread None (ut_running u) (ut_destroyThread u)
  | None, Some _ => if created then mkUsbThread callback true false else mkUsbThread None (ut_running u) false
  end.

(** ** Role switch: theorems *)

Lemma decode_convert (type : PortRoleType) (r : Z) :
  (type = POWER_ROLE /\ (r = PortPowerRole_SOURCE \/ r = PortPowerRole_SINK)) \/
  (type = DATA_ROLE /\ (r = PortDataRole_HOST \/ r = PortDataRole_DEVICE)) ->
  decode_role type 0 (convertRoletoString (mkPortRole type r)) = (SUCCESS, r).
Proof. intros [[-> [-> | ->]] | [-> [-> | ->]]]; reflexivity. Qed.

Section switching.
Context {F : Type} `{FileSystem F}.

Lemma confirm_role_reads (portName : string) (role : PortRole) (f : F) (old : Z) :
  (role_type role = POWER_ROLE /\ (role_role role = PortPowerRole_SOURCE \/ role_role role = PortPowerRole_SINK)) \/
  (role_type role = DATA_ROLE /\ (role_role role = PortDataRole_HOST \/ role_role role = PortDataRole_DEVICE)) ->
  confirm_role (appendRoleNodeHelper portName (role_type role)) role f = true ->
  getCurrentRoleHelper portName true (role_type role) old f = (SUCCESS, role_role role).
Proof.
  intros Hr. unfold confirm_role, getCurrentRoleHelper, read_role.
  destruct role as [type r]; cbn [role_type role_role] in *. pose proof (decode_convert type r Hr) as Hd.
  destruct Hr as [[-> _] | [-> _]]; cbn [appendRoleNodeHelper negb];
    change PortPowerRole_NONE with 0; change PortDataRole_NONE with 0;
    destruct (readFile _ "" f) as [ok written]; destruct ok; simpl; try done;
    by intros ->%String.eqb_eq.
Qed.

(** The node of a known role type is not the empty string. *)
Lemma appendRoleNodeHelper_known (portName : string) (type : PortRoleType) :
  String.eqb (appendRoleNodeHelper portName type) "" = match type with ROLE_TYPE_raw _ => true | _ => false end.
Proof. by destruct type. Qed.

(** C34. The outcome of a role switch that ends.  A role type outside the
    enumeration changes nothing and is not notified.  Otherwise the callback, if
    there is one, is notified once.  For a power or data role the new role is
    written to the node and nothing else is, also when the switch fails, and
    success for one of the two proper roles of the type (source and sink, host
    and device) means that the port, read afterwards, reports that role; no
    claim is made for success with another role number.  For a mode, success
    means exactly that the node was written and the wait ended with the partner
    back, and failure leaves the port with dual role written to its node. *)
Theorem switchRole_outcome (portName : string) (newRole : PortRole) (callback : option CallbackVersion)
    (outcomes : list WaitOutcome) (old : Z) (f f' : F) (r : option Status)
    (Hrun : switchRole portName newRole callback outcomes f = Some (r, f')) :
  match role_type newRole with
  | ROLE_TYPE_raw _ => r = None /\ f' = f
  | MODE =>
      (r = None <-> callback = None) /\
      let '(w, f1) := fs_write (appendRoleNodeHelper portName MODE) (convertRoletoString newRole) f in
      if bool_decide (w = Written /\ wait_partner outcomes = Some true) then f' = f1 /\ r <> Some ERROR
      else f' = (fs_write (appendRoleNodeHelper portName MODE) "dual" f1).2 /\ r <> Some SUCCESS
  | type =>
      (r = None <-> callback = None) /\
      f' = (fs_write (appendRoleNodeHelper portName type) (convertRoletoString newRole) f).2 /\
      (r = Some SUCCESS ->
       (type = POWER_ROLE /\ (role_role newRole = PortPowerRole_SOURCE \/ role_role newRole = PortPowerRole_SINK)) \/
       (type = DATA_ROLE /\ (role_role newRole = PortDataRole_HOST \/ role_role newRole = PortDataRole_DEVICE)) ->
       getCurrentRoleHelper portName true type old f' = (SUCCESS, role_role newRole))
  end.
Proof.
  unfold switchRole in Hrun. rewrite appendRoleNodeHelper_known in Hrun.
  pose proof (fun g => confirm_role_reads portName newRole g old) as Hconf.
  destruct newRole as [type role]; cbn [role_type role_role] in *.
  destruct type; simpl in Hrun; [| | | by simplify_eq].
  1, 2: destruct (fs_write _ _ f) as [w f1]; simpl in Hrun; simplify_eq; cbn [snd];
    split; [by destruct callback | split; [done |]]; intros Hs Hr; apply Hconf; [exact Hr |];
    destruct w, callback; simpl in Hs; try discriminate Hs; destruct (confirm_role _ _ f'); done.
  unfold switchMode in Hrun. rewrite appendRoleNodeHelper_known in Hrun. cbn [role_type] in Hrun.
  destruct (fs_write _ _ f) as [w f1] eqn:Ew.
  assert (forall b, (if bool_decide (w = Written /\ wait_partner outcomes = Some true) then true else false) = b ->
    (match w with Written => wait_partner outcomes | _ => Some false end) = None \/
    (match w with Written => wait_partner outcomes | _ => Some false end) = Some b) as Hb.
  { intros b <-. destruct (bool_decide_reflect (w = Written /\ wait_partner outcomes = Some true)) as [[-> ->] | Hn]; [by right |].
    destruct w; [by right | by right |]. destruct (wait_partner outcomes) as [[] |]; [| by right | by left]. by destruct Hn. }
  destruct (bool_decide (w = Written /\ wait_partner outcomes = Some true));
    (destruct (Hb _ eq_refl) as [E | E]; rewrite E in Hrun; simpl in Hrun; [done |]; simplify_eq;
     split; [by destruct callback |]; split; [done | by destruct callback]).
Qed.

(** ** The names of the ports *)

(** A directory entry that shows the port [p] to have a partner, or the port
    itself. *)
Definition is_partner_of (p : string) (e : DirEntry) : bool :=
  de_is_link e && contains "-partner" (de_name e) && String.eqb (strtok_dash (de_name e)) p.
Definition is_port (p : string) (e : DirEntry) : bool :=
  de_is_link e && negb (contains "-partner" (de_name e)) && String.eqb (de_name e) p.

Definition port_known (p : string) (entries : list DirEntry) : option bool :=
  if existsb (is_partner_of p) entries then Some true
  else if existsb (is_port p) entries then Some false
  else None.

Lemma add_port_entry_lookup (names : gmap string bool) (e : DirEntry) (p : string) :
  add_port_entry names e !! p =
    if is_partner_of p e then Some true
    else if is_port p e then Some (default false (names !! p)) else names !! p.
Proof.
  unfold add_port_entry, is_partner_of, is_port. destruct e as [n l d]; simpl.
  destruct l; simpl; [| done]. destruct (contains "-partner" n); simpl.
  - destruct (String.eqb_spec (strtok_dash n) p) as [-> | Hne]; [by rewrite lookup_insert_eq | by rewrite lookup_insert_ne].
  - destruct (String.eqb_spec n p) as [-> | Hne]; [by destruct (names !! p) eqn:E; rewrite ?lookup_insert_eq |].
    destruct (names !! n); [done | by rewrite lookup_insert_ne].
Qed.

(** The ports of the directory.  Whatever the order in which the entries of
    /sys/class/typec are listed, the map of port names that results has a port
    connected exactly when some link names a partner of it, unconnected exactly
    when a link has its name and no link names a partner, and no other port. *)
Theorem typec_port_names (f : F) (entries : list DirEntry) (names : gmap string bool) (p : string)
    (Hlist : fs_list "/sys/class/typec" f = Some entries) (Hnames : getTypeCPortNamesHelper ∅ f = Some names) :
  names !! p = port_known p entries.
Proof.
  unfold getTypeCPortNamesHelper in Hnames. rewrite Hlist in Hnames. simpl in Hnames. injection Hnames as <-.
  clear Hlist. induction entries as [| e entries IH] using rev_ind; [apply lookup_empty |].
  rewrite foldl_app. simpl. rewrite add_port_entry_lookup, IH. unfold port_known. rewrite !existsb_app. simpl.
  rewrite !orb_false_r.
  destruct (existsb (is_partner_of p) entries), (existsb (is_port p) entries), (is_partner_of p e), (is_port p e); done.
Qed.

(** The vector of statuses has one element per port, with its name, up to the
    first error. *)
Lemma fill_ports_names (V1_0 : bool) (ports : list (string * bool)) (f : F) (ps : list PortStatus) :
  fill_ports V1_0 ports f = (SUCCESS, ps) -> ps_portName <$> ps = fst <$> ports.
Proof.
  revert ps. induction ports as [| [name conn] ports IH]; intros ps Hf; cbn [fill_ports] in Hf; [by simplify_eq |].
  destruct (fill_port V1_0 (name, conn) f) as [p | p] eqn:Ep; [done |].
  destruct (fill_ports V1_0 ports f) as [s ps'] eqn:E. simplify_eq. cbn [fmap list_fmap]. f_equal; [| by apply IH].
  unfold fill_port in Ep. destruct (getCurrentRoleHelper name conn POWER_ROLE 0 f) as [[] ?]; try discriminate Ep.
  destruct (getCurrentRoleHelper name conn DATA_ROLE _ f) as [[] ?]; try discriminate Ep.
  destruct (getCurrentRoleHelper name conn MODE _ f) as [[] ?]; try discriminate Ep.
  injection Ep as <-. by destruct V1_0.
Qed.

End switching.

(** ** The worker thread: theorems *)

Definition opens (fd : Z) (acts : list WorkerAction) : Z :=
  countb (fun a => match a with Opened x => x =? fd | _ => false end) acts.
Definition closes (fd : Z) (acts : list WorkerAction) : Z :=
  countb (fun a => match a with Closed x => x =? fd | _ => false end) acts.

Lemma worker_loop_fds (outcomes : list (bool * EpollOutcome)) (fd : Z) :
  opens fd (worker_loop outcomes).1 = 0 /\ closes fd (worker_loop outcomes).1 = 0.
Proof.
  induction outcomes as [| [dt o] outcomes IH]; [done |]. simpl. destruct dt; [done |]. destruct o as [| | n]; [done | done |].
  destruct (worker_loop outcomes) as [acts fin]. simpl in *. unfold opens, closes in *. rewrite !countb_app.
  assert (forall g, g Handled = false -> countb g (replicate n Handled) = 0) as Hr.
  { intros g Hg. induction n as [| n IHn]; [done |]. simpl. by rewrite countb_cons, Hg, IHn. }
  rewrite !Hr by done. lia.
Qed.

(** Sequences of [setCallback] calls: the callback, and whether the creation of
    a thread would succeed. *)
Definition set_callbacks {C} (calls : list (option C * bool)) (u : UsbThread C) : UsbThread C :=
  foldl (fun u c => setCallback c.1 true c.2 u) u calls.

Lemma setCallback_running {C} (c : option C) (created : bool) (u : UsbThread C) :
  ut_running u = bool_decide (is_Some (ut_callback u)) ->
  ut_running (setCallback c true created u) = bool_decide (is_Some (ut_callback (setCallback c true created u))).
Proof.
  unfold setCallback. destruct u as [[] run dt], c, created; simpl; intros ->; try done;
    by rewrite ?bool_decide_true, ?bool_decide_false by (eauto || by intros [? ?]).
Qed.

(** The worker thread.  For every sequence of registrations, whether or not
    threads can be created, the worker runs exactly while a callback is
    registered; and in every run of the worker, for every outcome of the
    system calls, a descriptor is closed as often as it was opened once the
    thread has returned and none is closed while it is running. *)
Theorem worker_lifecycle {C} (calls : list (option C * bool)) (uevent_fd epoll_fd fd : Z)
    (ctl_fails : bool) (outcomes : list (bool * EpollOutcome)) (Hepoll : -1 <= epoll_fd) :
  (let u := set_callbacks calls (mkUsbThread None false false) in
   ut_running u = bool_decide (is_Some (ut_callback u))) /\
  (let '(acts, returned) := work uevent_fd epoll_fd ctl_fails outcomes in
   if (returned : bool) then opens fd acts = closes fd acts else closes fd acts = 0).
Proof.
  split.
  - unfold set_callbacks. cbv zeta.
    assert (forall u : UsbThread C, ut_running u = bool_decide (is_Some (ut_callback u)) ->
      let u' := foldl (fun u c => setCallback c.1 true c.2 u) u calls in
      ut_running u' = bool_decide (is_Some (ut_callback u'))) as Hind.
    { induction calls as [| [c cr] calls IH]; intros u Hu; simpl; [done |]. apply IH. by apply setCallback_running. }
    by apply Hind.
  - unfold work. destruct (Z.ltb_spec uevent_fd 0); [done |].
    destruct (Z.eqb_spec epoll_fd (-1)) as [-> |].
    { simpl. unfold opens, closes. rewrite !countb_cons. unfold countb; simpl. lia. }
    destruct (Z.leb_spec 0 epoll_fd); [| lia]. unfold opens, closes. destruct ctl_fails.
    { rewrite !countb_app, !countb_cons. unfold countb; simpl. lia. }
    pose proof (worker_loop_fds outcomes fd) as [Ho Hc]. unfold opens, closes in *.
    destruct (worker_loop outcomes) as [acts fin]. simpl in Ho, Hc.
    destruct fin; rewrite ?countb_app, ?countb_cons, ?countb_app, ?Ho, ?Hc; unfold countb; simpl; lia.
Qed.

Lemma worker_lifecycle_witness :
  ut_running (set_callbacks [(Some CALLBACK_1_1, true); (Some CALLBACK_1_0, true); (None, true)] (mkUsbThread None false false)) = false.
Proof.
  pose proof (worker_lifecycle [(Some CALLBACK_1_1, true); (Some CALLBACK_1_0, true); (None, true)] 5 6 5 false
    [(false, EPOLL_EVENTS 2); (true, EPOLL_EINTR)] ltac:(lia)) as [H _].
  exact H.
Defined.

(** ** Waiting for the partner: the two threads

    The thread in [switchMode] and the worker in [uevent_event] share
    [mPartnerUp] under [mPartnerLock].  The positions are those of the source;
    a wait releases the lock and takes it again before it returns.
    [sy_arrived] records that the worker handled a partner event since the
    switch took the lock, that is since before the node was written. *)

Inductive SwitchPc := SW_start | SW_locked | SW_written | SW_waiting | SW_signalled | SW_timedout | SW_done (ok : bool).
Inductive WorkerPc := UE_idle | UE_locked | UE_set | UE_signalled.
Inductive LockOwner := OWNED_switch | OWNED_worker.

#[export] Instance SwitchPc_eq_dec : EqDecision SwitchPc.
Proof. solve_decision. Defined.

Record SwitchSys := mkSwitchSys {
  sy_switch : SwitchPc;
  sy_worker : WorkerPc;
  sy_lock : option LockOwner;
  sy_partnerUp : bool;
  sy_arrived : bool
}.

Inductive switch_step : SwitchSys -> SwitchSys -> Prop :=
  | sw_lock w up ar : switch_step (mkSwitchSys SW_start w None up ar) (mkSwitchSys SW_locked w (Some OWNED_switch) false false)
  | sw_write w l up ar : switch_step (mkSwitchSys SW_locked w l up ar) (mkSwitchSys SW_written w l up ar)
  | sw_write_failed w l up ar : switch_step (mkSwitchSys SW_locked w l up ar) (mkSwitchSys (SW_done false) w None up ar)
  | sw_wait w l up ar : switch_step (mkSwitchSys SW_written w l up ar) (mkSwitchSys SW_waiting w None up ar)
  | sw_timeout w l up ar : switch_step (mkSwitchSys SW_waiting w l up ar) (mkSwitchSys SW_timedout w l up ar)
  | sw_spurious w l up ar : switch_step (mkSwitchSys SW_waiting w l up ar) (mkSwitchSys SW_signalled w l up ar)
  | sw_woken_up w ar : switch_step (mkSwitchSys SW_signalled w None true ar) (mkSwitchSys (SW_done true) w None true ar)
  | sw_wait_again w ar :
      switch_step (mkSwitchSys SW_signalled w None false ar) (mkSwitchSys SW_written w (Some OWNED_switch) false ar)
  | sw_gave_up w up ar : switch_step (mkSwitchSys SW_timedout w None up ar) (mkSwitchSys (SW_done false) w None up ar)
  | ue_lock s up ar : switch_step (mkSwitchSys s UE_idle None up ar) (mkSwitchSys s UE_locked (Some OWNED_worker) up ar)
  | ue_set s l up ar : switch_step (mkSwitchSys s UE_locked l up ar) (mkSwitchSys s UE_set l true true)
  | ue_signal s l up ar :
      switch_step (mkSwitchSys s UE_set l up ar)
        (mkSwitchSys (if decide (s = SW_waiting) then SW_signalled else s) UE_signalled l up ar)
  | ue_unlock s l up ar : switch_step (mkSwitchSys s UE_signalled l up ar) (mkSwitchSys s UE_idle None up ar).

Inductive switch_reachable (up0 : bool) : SwitchSys -> Prop :=
  | sr_init : switch_reachable up0 (mkSwitchSys SW_start UE_idle None up0 false)
  | sr_step st st' : switch_reachable up0 st -> switch_step st st' -> switch_reachable up0 st'.

(** The lock is held by the switch between taking it and waiting, by the worker
    while it handles a partner event; the flag tells whether a partner event
    was handled since the switch started; a switch is waiting with the flag
    set only in the instant before the worker signals it. *)
Definition switch_holds (s : SwitchPc) : bool := match s with SW_locked | SW_written => true | _ => false end.
Definition worker_holds (w : WorkerPc) : bool := match w with UE_idle => false | _ => true end.

Definition switch_inv (st : SwitchSys) : bool :=
  match sy_lock st with
  | Some OWNED_switch => switch_holds (sy_switch st) && negb (worker_holds (sy_worker st))
  | Some OWNED_worker => negb (switch_holds (sy_switch st)) && worker_holds (sy_worker st)
  | None => negb (switch_holds (sy_switch st)) && negb (worker_holds (sy_worker st))
  end &&
  match sy_switch st with
  | SW_start => true
  | SW_locked | SW_written => negb (sy_partnerUp st) && negb (sy_arrived st)
  | SW_waiting => Bool.eqb (sy_partnerUp st) (sy_arrived st) &&
      (negb (sy_partnerUp st) || match sy_worker st with UE_set => true | _ => false end)
  | SW_done true => sy_partnerUp st && sy_arrived st
  | _ => Bool.eqb (sy_partnerUp st) (sy_arrived st)
  end.

Lemma switch_step_inv (st st' : SwitchSys) : switch_step st st' -> switch_inv st = true -> switch_inv st' = true.
Proof.
  destruct 1; repeat match goal with
    | x : SwitchPc |- _ => destruct x | x : WorkerPc |- _ => destruct x | x : option LockOwner |- _ => destruct x as [[] |]
    | x : bool |- _ => destruct x end; done.
Qed.

Lemma switch_reachable_inv (up0 : bool) (st : SwitchSys) : switch_reachable up0 st -> switch_inv st = true.
Proof. induction 1 as [| st st' _ IH Hs]; [done | by eapply switch_step_inv]. Qed.

(** C33. No partner event is lost during a mode switch.  In every interleaving of
    the switching thread and the worker, with timeouts and spurious wake-ups
    anywhere: the two never hold the lock together; the switch succeeds only
    if the worker handled a partner event after the switch took the lock, hence
    after the old state of the port was discarded; and whenever such an event
    has been handled and the worker is not at work, the switch is not left
    waiting: it has been woken, given up on its timeout or finished, and a woken
    switch then completes with success in its next step. *)
Theorem partner_wakeup_not_lost (up0 : bool) (st : SwitchSys) (Hreach : switch_reachable up0 st) :
  ~ ((sy_switch st = SW_locked \/ sy_switch st = SW_written) /\ sy_worker st <> UE_idle) /\
  (sy_switch st = SW_done true -> sy_arrived st = true) /\
  (sy_switch st <> SW_start -> sy_arrived st = true -> sy_worker st = UE_idle ->
     sy_switch st = SW_signalled \/ sy_switch st = SW_timedout \/ exists ok, sy_switch st = SW_done ok) /\
  (sy_switch st = SW_signalled -> sy_arrived st = true -> sy_worker st = UE_idle ->
     switch_step st (mkSwitchSys (SW_done true) UE_idle None true true)).
Proof.
  pose proof (switch_reachable_inv up0 st Hreach) as Hinv. clear Hreach.
  destruct st as [s w l up ar]; simpl in *.
  destruct s as [| | | | | | []], w, l as [[] |], up, ar; try discriminate Hinv; split_and!; try naive_solver;
    intros; (constructor || discriminate).
Qed.

(** The signal of a waiting switch. *)
Lemma partner_wakeup_not_lost_witness :
  switch_step (mkSwitchSys SW_signalled UE_idle None true true) (mkSwitchSys (SW_done true) UE_idle None true true).
Proof.
  assert (switch_reachable false (mkSwitchSys SW_signalled UE_idle None true true)) as Hr.
  { eapply sr_step; [eapply sr_step; [eapply sr_step; [eapply sr_step; [eapply sr_step; [eapply sr_step; [eapply sr_step;
      [apply sr_init | apply sw_lock] | apply sw_write] | apply sw_wait] | apply ue_lock] | apply ue_set] | apply ue_signal] | ].
    apply ue_unlock. }
  destruct (partner_wakeup_not_lost false _ Hr) as (_ & _ & _ & H). exact (H eq_refl eq_refl eq_refl).
Defined.

(** ** A port in memory *)

Definition example_typec : RamFs :=
  mkRamFs (list_to_map [("/sys/class/typec/port0/data_role", "host [device]");
                        ("/sys/class/typec/port0/power_role", "source [sink]");
                        ("/sys/class/typec/port0/port_type", "[dual] source sink")])
    (list_to_map [("/sys/class/typec", [mkDirEntry "." false true; mkDirEntry "port0-partner" true true; mkDirEntry "port0" true true;
                                        mkDirEntry "port1" true true])]) [].

Lemma switchRole_outcome_witness :
  exists f', switchRole "port0" (mkPortRole DATA_ROLE PortDataRole_HOST) (Some CALLBACK_1_1) [] example_typec = Some (Some SUCCESS, f') /\
    getCurrentRoleHelper "port0" true DATA_ROLE 0 f' = (SUCCESS, PortDataRole_HOST).
Proof.
  destruct (switchRole "port0" (mkPortRole DATA_ROLE PortDataRole_HOST) (Some CALLBACK_1_1) [] example_typec) as [[r f'] |] eqn:E.
  - pose proof (switchRole_outcome "port0" (mkPortRole DATA_ROLE PortDataRole_HOST) (Some CALLBACK_1_1) [] 0 example_typec f' r E) as H.
    assert (r = Some SUCCESS) as ->.
    { assert (fst <$> Some (r, f') = Some (Some SUCCESS)) as Hr by (rewrite <- E; vm_compute; reflexivity).
      simpl in Hr. congruence. }
    exists f'. split; [reflexivity |]. cbn [role_type role_role] in H. destruct H as (_ & _ & H).
    apply H; [reflexivity | right; split; [reflexivity | left; reflexivity]].
  - exfalso. assert (is_Some (switchRole "port0" (mkPortRole DATA_ROLE PortDataRole_HOST) (Some CALLBACK_1_1) [] example_typec)) as [? Hs]
      by (vm_compute; eexists; reflexivity). congruence.
Defined.

Lemma typec_port_names_witness :
  exists names, getTypeCPortNamesHelper ∅ example_typec = Some names /\
    names !! "port0" = Some true /\ names !! "port1" = Some false /\ names !! "." = None.
Proof.
  destruct (getTypeCPortNamesHelper ∅ example_typec) as [names |] eqn:E; [| exfalso; vm_compute in E; discriminate E].
  exists names. split; [reflexivity |].
  assert (fs_list "/sys/class/typec" example_typec = Some [mkDirEntry "." false true; mkDirEntry "port0-partner" true true;
    mkDirEntry "port0" true true; mkDirEntry "port1" true true]) as Hl by (vm_compute; reflexivity).
  split; [| split]; exact (typec_port_names example_typec _ names _ Hl E).
Defined.
