(* ===== verification/UsbBasic.v ===== *)
(** * Basic USB services (src/usb/aidl-basic/Usb.cpp, src/usb/1.3-basic/Usb.cpp)

    Two services for devices without role switching: they report one fixed
    port and can only turn USB data off and on through a control node.

    Shown: with a callback registered every request is answered with its own
    transaction number, once and in order, and the port status always carries
    the setting last written with success; the write precedes the lock, so two
    concurrent requests can leave the node and the reported setting apart. *)

From S2P Require Import Prelude Text SysFs UsbTypec.

(** The control node and its texts, configured at build time. *)
Record UsbControl := mkUsbControl { USB_CONTROL_PATH : string; USB_CONTROL_ENABLE : string; USB_CONTROL_DISABLE : string }.

Inductive UsbStatus := USB_SUCCESS | USB_ERROR | USB_NOT_SUPPORTED.

Inductive ContaminantProtectionMode := CONTAMINANT_PROTECTION_NONE.
Inductive ContaminantProtectionStatus := CONTAMINANT_STATUS_NONE.
Inductive ContaminantDetectionStatus := CONTAMINANT_DETECTION_NOT_SUPPORTED.

(** ** The AIDL service *)

Inductive UsbDataStatus := DATA_ENABLED | DATA_DISABLED_FORCE.

Record AidlPortStatus := mkAidlPortStatus {
  ap_portName : string;
  ap_currentDataRole : Z;
  ap_currentPowerRole : Z;
  ap_currentMode : Z;
  ap_canChangeMode : bool;
  ap_canChangeDataRole : bool;
  ap_canChangePowerRole : bool;
  ap_supportedModes : list Z;
  ap_supportedContaminantProtectionModes : list ContaminantProtectionMode;
  ap_supportsEnableContaminantPresenceProtection : bool;
  ap_contaminantProtectionStatus : ContaminantProtectionStatus;
  ap_supportsEnableContaminantPresenceDetection : bool;
  ap_contaminantDetectionStatus : ContaminantDetectionStatus;
  ap_usbDataStatus : list UsbDataStatus;
  ap_powerTransferLimited : bool
}.

(** The calls on the callback; the role of [notifyRoleSwitchStatus] is always a
    power role, and the static port information a default value. *)
Inductive UsbReply :=
  | notifyRoleSwitchStatus (portName : string) (powerRole : Z) (status : UsbStatus) (transactionId : Z)
  | notifyPortStatusChange (portStatuses : list AidlPortStatus) (status : UsbStatus)
  | notifyQueryPortStatus (portName : string) (status : UsbStatus) (transactionId : Z)
  | notifyContaminantEnabledStatus (portName : string) (enable : bool) (status : UsbStatus) (transactionId : Z)
  | notifyEnableUsbDataStatus (portName : string) (enable : bool) (status : UsbStatus) (transactionId : Z)
  | notifyEnableUsbDataWhileDockedStatus (portName : string) (status : UsbStatus) (transactionId : Z)
  | notifyLimitPowerTransferStatus (portName : string) (limit : bool) (status : UsbStatus) (transactionId : Z)
  | notifyResetUsbPortStatus (portName : string) (status : UsbStatus) (transactionId : Z)
  | notifyQueryStaticPortInformation (portName : string) (status : UsbStatus) (transactionId : Z).

Record AidlUsb := mkAidlUsb { mCallback : bool; mUsbDataEnabled : bool }.

#[export] Instance AidlUsb_eta : Record_eta AidlUsb := fun u => mkAidlUsb (mCallback u) (mUsbDataEnabled u).

Definition AidlUsb_new : AidlUsb := mkAidlUsb false true.

Definition reply (u : AidlUsb) (r : UsbReply) : list UsbReply := if mCallback u then [r] else [].

Definition otg_port_status (dataEnabled : bool) : AidlPortStatus := {|
  ap_portName := "otg_default";
  ap_currentDataRole := PortDataRole_DEVICE;
  ap_currentPowerRole := PortPowerRole_SINK;
  ap_currentMode := PortMode_UFP;
  ap_canChangeMode := false;
  ap_canChangeDataRole := false;
  ap_canChangePowerRole := false;
  ap_supportedModes := [PortMode_UFP];
  ap_supportedContaminantProtectionModes := [CONTAMINANT_PROTECTION_NONE];
  ap_supportsEnableContaminantPresenceProtection := false;
  ap_contaminantProtectionStatus := CONTAMINANT_STATUS_NONE;
  ap_supportsEnableContaminantPresenceDetection := false;
  ap_contaminantDetectionStatus := CONTAMINANT_DETECTION_NOT_SUPPORTED;
  ap_usbDataStatus := [if dataEnabled then DATA_ENABLED else DATA_DISABLED_FORCE];
  ap_powerTransferLimited := false
|}.

Definition queryPortStatusHelper (u : AidlUsb) : list UsbReply :=
  reply u (notifyPortStatusChange [otg_port_status (mUsbDataEnabled u)] USB_SUCCESS).

Inductive UsbRequest :=
  | REQ_switchRole (transactionId : Z)
  | REQ_queryPortStatus (transactionId : Z)
  | REQ_enableContaminantPresenceDetection (transactionId : Z)
  | REQ_enableUsbData (portName : string) (enable : bool) (transactionId : Z)
  | REQ_enableUsbDataWhileDocked (transactionId : Z)
  | REQ_limitPowerTransfer (transactionId : Z)
  | REQ_resetUsbPort (transactionId : Z)
  | REQ_queryStaticPortInformation (transactionId : Z).

Section basic.
Context {F : Type} `{FileSystem F} (c : UsbControl).

Definition write_control (enable : bool) : IO F bool :=
  WriteStringToFile (if enable then USB_CONTROL_DISABLE c else USB_CONTROL_ENABLE c) (USB_CONTROL_PATH c).

(** The part of [enableUsbData] under the lock. *)
Definition enableUsbData_locked (portName : string) (enable success : bool) (tid : Z) (u : AidlUsb) : AidlUsb * list UsbReply :=
  let answer := reply u (notifyEnableUsbDataStatus portName enable (if success then USB_SUCCESS else USB_ERROR) tid) in
  if success then
    let u := u <| mUsbDataEnabled := enable |> in (u, answer ++ queryPortStatusHelper u)
  else (u, answer).

Definition enableUsbData (portName : string) (enable : bool) (tid : Z) (u : AidlUsb) : IO F (AidlUsb * list UsbReply) :=
  success ← write_control enable;
  mret (enableUsbData_locked portName enable success tid u).

Definition aidl_setCallback (callback : bool) (u : AidlUsb) : AidlUsb := u <| mCallback := callback |>.

Definition usb_request (q : UsbRequest) (u : AidlUsb) : IO F (AidlUsb * list UsbReply) :=
  match q with
  | REQ_switchRole tid => mret (u, reply u (notifyRoleSwitchStatus "" PortPowerRole_NONE USB_NOT_SUPPORTED tid))
  | REQ_queryPortStatus tid => mret (u, queryPortStatusHelper u ++ reply u (notifyQueryPortStatus "all" USB_SUCCESS tid))
  | REQ_enableContaminantPresenceDetection tid => mret (u, reply u (notifyContaminantEnabledStatus "" false USB_NOT_SUPPORTED tid))
  | REQ_enableUsbData portName enable tid => enableUsbData portName enable tid u
  | REQ_enableUsbDataWhileDocked tid => mret (u, reply u (notifyEnableUsbDataWhileDockedStatus "" USB_NOT_SUPPORTED tid))
  | REQ_limitPowerTransfer tid => mret (u, reply u (notifyLimitPowerTransferStatus "" false USB_NOT_SUPPORTED tid))
  | REQ_resetUsbPort tid => mret (u, reply u (notifyResetUsbPortStatus "" USB_NOT_SUPPORTED tid))
  | REQ_queryStaticPortInformation tid => mret (u, reply u (notifyQueryStaticPortInformation "" USB_NOT_SUPPORTED tid))
  end.

Fixpoint usb_requests (qs : list UsbRequest) (u : AidlUsb) : IO F (AidlUsb * list UsbReply) :=
  match qs with
  | [] => mret (u, [])
  | q :: qs =>
      '(u, rs) ← usb_request q u;
      '(u, rs') ← usb_requests qs u;
      mret (u, rs ++ rs')
  end.

(** ** The HIDL service *)

(** The versions of the callback that [setCallback] stored; a 1.2 callback is
    also a 1.1 and a 1.0 one. *)
Inductive HidlUsbCallback := HIDL_USB_1_0 | HIDL_USB_1_1 | HIDL_USB_1_2.

Record HidlPortStatus_1_2 := mkHidlPortStatus_1_2 {
  hp_status_1_1 : PortStatus;
  hp_supportedContaminantProtectionModes : ContaminantProtectionMode;
  hp_supportsEnableContaminantPresenceProtection : bool;
  hp_contaminantProtectionStatus : ContaminantProtectionStatus;
  hp_supportsEnableContaminantPresenceDetection : bool;
  hp_contaminantDetectionStatus : ContaminantDetectionStatus
}.

Inductive HidlUsbReply :=
  | notifyPortStatusChange_1_0 (portStatuses : list PortStatus)
  | notifyPortStatusChange_1_1 (portStatuses : list PortStatus)
  | notifyPortStatusChange_1_2 (portStatuses : list HidlPortStatus_1_2).

(** The status of version 1.0; the fields of version 1.1 are zero in it. *)
Definition otg_status_1_0 : PortStatus := {|
  ps_portName := "otg_default";
  ps_currentPowerRole := PortPowerRole_SINK;
  ps_currentDataRole := PortDataRole_DEVICE;
  ps_currentMode := PortMode_UFP;
  ps_canChangeMode := false;
  ps_canChangeDataRole := false;
  ps_canChangePowerRole := false;
  ps_supportedModes := PortMode_UFP;
  ps_currentMode_1_1 := 0;
  ps_supportedModes_1_1 := 0
|}.

Definition otg_status_1_1 : PortStatus :=
  otg_status_1_0 <| ps_currentMode_1_1 := PortMode_UFP |> <| ps_supportedModes_1_1 := PortMode_UFP |>.

Definition otg_status_1_2 : HidlPortStatus_1_2 :=
  mkHidlPortStatus_1_2 otg_status_1_1 CONTAMINANT_PROTECTION_NONE false CONTAMINANT_STATUS_NONE false
    CONTAMINANT_DETECTION_NOT_SUPPORTED.

(** The newest version of the callback is served, with the status of its
    version. *)
Definition hidl_queryPortStatus (callback : option HidlUsbCallback) : list HidlUsbReply :=
  match callback with
  | Some HIDL_USB_1_2 => [notifyPortStatusChange_1_2 [otg_status_1_2]]
  | Some HIDL_USB_1_1 => [notifyPortStatusChange_1_1 [otg_status_1_1]]
  | Some HIDL_USB_1_0 => [notifyPortStatusChange_1_0 [otg_status_1_0]]
  | None => []
  end.

Definition hidl_enableUsbDataSignal (enable : bool) (callback : option HidlUsbCallback) : IO F (bool * list HidlUsbReply) :=
  success ← write_control enable;
  mret (success, if (success : bool) then hidl_queryPortStatus callback else []).

(** ** Theorems *)

Definition request_tid (q : UsbRequest) : Z :=
  match q with
  | REQ_switchRole t | REQ_queryPortStatus t | REQ_enableContaminantPresenceDetection t | REQ_enableUsbData _ _ t
  | REQ_enableUsbDataWhileDocked t | REQ_limitPowerTransfer t | REQ_resetUsbPort t | REQ_queryStaticPortInformation t => t
  end.

Definition reply_tid (r : UsbReply) : option Z :=
  match r with
  | notifyPortStatusChange _ _ => None
  | notifyRoleSwitchStatus _ _ _ t | notifyQueryPortStatus _ _ t | notifyContaminantEnabledStatus _ _ _ t
  | notifyEnableUsbDataStatus _ _ _ t | notifyEnableUsbDataWhileDockedStatus _ _ t | notifyLimitPowerTransferStatus _ _ _ t
  | notifyResetUsbPortStatus _ _ t | notifyQueryStaticPortInformation _ _ t => Some t
  end.

(** The setting that a history of replies tells: the last successful change. *)
Definition told_setting (start : bool) (rs : list UsbReply) : bool :=
  foldl (fun b r => match r with notifyEnableUsbDataStatus _ e USB_SUCCESS _ => e | _ => b end) start rs.

(** Every port status among the replies agrees with the changes told before. *)
Fixpoint statuses_agree (b : bool) (rs : list UsbReply) : Prop :=
  match rs with
  | [] => True
  | notifyPortStatusChange ps _ :: rs =>
      (ap_usbDataStatus <$> ps) = [[if b then DATA_ENABLED else DATA_DISABLED_FORCE]] /\ statuses_agree b rs
  | r :: rs => statuses_agree (told_setting b [r]) rs
  end.

Lemma statuses_agree_app (b : bool) (rs rs' : list UsbReply) :
  statuses_agree b rs -> statuses_agree (told_setting b rs) rs' -> statuses_agree b (rs ++ rs').
Proof.
  revert b. induction rs as [| r rs IH]; intros b H1 H2; [done |]. simpl.
  destruct r; simpl in H1 |- *; try (destruct H1 as [H0 H1]; split; [exact H0 |]); by apply IH.
Qed.

(** One request, with a callback registered. *)
Lemma usb_request_spec (q : UsbRequest) (u : AidlUsb) (f : F) :
  mCallback u = true ->
  let '((u', rs), f') := usb_request q u f in
  mCallback u' = true /\ omap reply_tid rs = [request_tid q] /\
  mUsbDataEnabled u' = told_setting (mUsbDataEnabled u) rs /\ statuses_agree (mUsbDataEnabled u) rs.
Proof.
  intros Hc. destruct u as [cb en]; simpl in Hc; subst cb. destruct q; simpl; try done.
  unfold enableUsbData, mbind, IO_bind. destruct (write_control enable f) as [[] f']; simpl; done.
Qed.

(** The basic AIDL USB service answers every request.  For every sequence of
    requests made with a callback registered, and every outcome of the writes to
    the control node, the transaction numbers of the answers are those of the
    requests, each once and in order; every port status that is reported carries
    the setting of the last change reported as successful (initially the current
    one), and so does the service afterwards. *)
Theorem usb_basic_transactions (qs : list UsbRequest) (u : AidlUsb) (f : F) (Hc : mCallback u = true) :
  let '((u', rs), f') := usb_requests qs u f in
  omap reply_tid rs = (request_tid <$> qs) /\
  statuses_agree (mUsbDataEnabled u) rs /\ mUsbDataEnabled u' = told_setting (mUsbDataEnabled u) rs.
Proof.
  revert u f Hc. induction qs as [| q qs IH]; intros u f Hc; [done |]. cbn [usb_requests]. unfold mbind, IO_bind at 1.
  pose proof (usb_request_spec q u f Hc) as Hq. destruct (usb_request q u f) as [[u1 rs1] f1].
  destruct Hq as (Hc1 & Ht & Hs & Ha). unfold IO_bind. specialize (IH u1 f1 Hc1).
  destruct (usb_requests qs u1 f1) as [[u2 rs2] f2]. destruct IH as (It & Ia & Is). unfold mret, IO_ret. split_and!.
  - rewrite omap_app, Ht, It. done.
  - apply statuses_agree_app; [done | by rewrite <- Hs].
  - unfold told_setting in *. by rewrite foldl_app, <- Hs.
Qed.

End basic.

Definition example_control_node : UsbControl := mkUsbControl "/proc/sys/kernel/deny_new_usb" "1" "0".

Lemma usb_basic_transactions_witness :
  omap reply_tid (usb_requests example_control_node [REQ_enableUsbData "port0" false 7; REQ_queryPortStatus 8]
    (mkAidlUsb true true) (ram_init [("/proc/sys/kernel/deny_new_usb", "0")])).1.2 = [7; 8].
Proof.
  pose proof (usb_basic_transactions example_control_node [REQ_enableUsbData "port0" false 7; REQ_queryPortStatus 8]
    (mkAidlUsb true true) (ram_init [("/proc/sys/kernel/deny_new_usb", "0")]) ltac:(reflexivity)) as H.
  destruct (usb_requests _ _ _ _) as [[u' rs] f']. destruct H as [H _]. exact H.
Defined.

(** Two concurrent requests: both write, then both take the lock in the other
    order.  The node denies new devices while the service reports the data as
    enabled. *)
Lemma enableUsbData_race :
  let f0 := ram_init [("/proc/sys/kernel/deny_new_usb", "0")] in
  let '(ok1, f1) := write_control example_control_node true f0 in
  let '(ok2, f2) := write_control example_control_node false f1 in
  let '(u1, _) := enableUsbData_locked "port0" false ok2 2 (mkAidlUsb true true) in
  let '(u2, _) := enableUsbData_locked "port0" true ok1 1 u1 in
  ram_files f2 !! "/proc/sys/kernel/deny_new_usb" = Some "1" /\ mUsbDataEnabled u2 = true.
Proof. vm_compute. split; reflexivity. Qed.
