(* ===== verification/SensorsSubHal.v ===== *)
(** * Sensors sub-HAL (src/sensors/SensorsSubHal.cpp)

    The sub-HAL wraps a version 1.x sensor library: it enumerates its sensors
    once, forwards the calls of the framework and runs a thread that polls the
    library and posts the events, with a wake lock when a wake-up sensor is
    among them.  The library, its event format and the conversion functions
    are parameters.

    Shown: every poll that succeeds is posted once, in order, with all its
    events converted and the wake-up flag set exactly when one of them comes
    from a known wake-up sensor, and polls that fail are skipped; an event
    polled before the callback is set ends the process; the sensor list has
    one entry per handle, in increasing order, the first the library listed. *)

From S2P Require Import Prelude.

(** ** Status codes *)

Inductive SensorResult := RES_OK | RES_PERMISSION_DENIED | RES_NO_MEMORY | RES_BAD_VALUE | RES_INVALID_OPERATION.

#[export] Instance SensorResult_eq_dec : EqDecision SensorResult.
Proof. solve_decision. Defined.

(** The codes of utils/Errors.h: negated [errno] numbers. *)
Definition OK : Z := 0.
Definition PERMISSION_DENIED : Z := -1.
Definition NO_MEMORY : Z := -12.
Definition BAD_VALUE : Z := -22.

Definition ResultFromStatus (err : Z) : SensorResult :=
  if err =? OK then RES_OK
  else if err =? PERMISSION_DENIED then RES_PERMISSION_DENIED
  else if err =? NO_MEMORY then RES_NO_MEMORY
  else if err =? BAD_VALUE then RES_BAD_VALUE
  else RES_INVALID_OPERATION.

(** ** The sensor library

    [convertFromSensor] and [convertFromSensorEvent] are library functions;
    of an information and of an event the sub-HAL reads the handle and the
    flags. *)

Class SensorFormats (Sensor SensorInfo RawEvent Event : Type) := {
  convertFromSensor : Sensor -> SensorInfo;
  convertFromSensorEvent : RawEvent -> Event;
  convertToSensorEvent : Event -> RawEvent;
  info_handle : SensorInfo -> Z;
  info_flags : SensorInfo -> Z;
  event_handle : Event -> Z
}.

(** The device functions; each takes its state and returns a status. *)
Class SensorDevice (RawEvent D : Type) := {
  sd_activate : Z -> bool -> D -> Z * D;
  sd_batch : Z -> Z -> Z -> Z -> D -> Z * D;
  sd_flush : Z -> D -> Z * D;
  sd_inject : RawEvent -> D -> Z * D;
  sd_set_operation_mode : Z -> D -> Z * D;
  sd_register_direct_channel : option Z -> Z -> D -> Z * D;
  sd_config_direct_report : Z -> Z -> Z -> D -> Z * D
}.

(** What was opened: the version and which optional functions are present. *)
Record DeviceCaps := mkDeviceCaps {
  cap_version : Z;
  cap_inject : bool;
  cap_set_mode : bool;
  cap_register_channel : bool;
  cap_config_report : bool
}.

Section subhal.
Context {Sensor SensorInfo RawEvent Event D : Type} `{SensorFormats Sensor SensorInfo RawEvent Event} `{SensorDevice RawEvent D}.
Context (API_1_3 API_1_4 : Z).

Definition WAKE_UP : Z := 1.

Inductive OperationMode := MODE_NORMAL | MODE_DATA_INJECTION.

Definition OperationMode_code (m : OperationMode) : Z := match m with MODE_NORMAL => 0 | MODE_DATA_INJECTION => 1 end.

Record SubHal := mkSubHal {
  ss_sensors : gmap Z SensorInfo;
  ss_callback : bool;
  ss_mode : OperationMode;
  ss_device : option DeviceCaps
}.

#[export] Instance SubHal_eta : Record_eta SubHal := fun s => mkSubHal (ss_sensors s) (ss_callback s) (ss_mode s) (ss_device s).

(** [std::map::insert] keeps the entry of a handle that is there. *)
Definition enumerateSensors (l : list Sensor) (m : gmap Z SensorInfo) : gmap Z SensorInfo :=
  foldl (fun m src =>
    let dst := convertFromSensor src in
    match m !! info_handle dst with Some _ => m | None => <[info_handle dst := dst]> m end) m l.

Definition getHalDeviceVersion (s : SubHal) : Z :=
  match ss_device s with Some c => cap_version c | None => -1 end.

(** The constructor: [loaded] tells that the module was found, [opened] is the
    device when it could be opened; [None] is the failed [CHECK] on the version.
    The poll thread runs when the sensors were enumerated. *)
Definition SubHal_new (loaded : bool) (opened : option DeviceCaps) (l : list Sensor) : option (SubHal * bool) :=
  let closed := mkSubHal ∅ false MODE_NORMAL None in
  if negb loaded then Some (closed, false)
  else match opened with
    | None => Some (closed, false)
    | Some c =>
        if cap_version c <? API_1_3 then None
        else Some (mkSubHal (enumerateSensors l ∅) false MODE_NORMAL (Some c), true)
    end.

Definition isWakeUpSensor (s : SubHal) (handle : Z) : bool :=
  match ss_sensors s !! handle with
  | Some info => negb (Z.land (info_flags info) WAKE_UP =? 0)
  | None => false
  end.

Definition convertFromSensorEvents (s : SubHal) (src : list RawEvent) (wakeup : bool) : list Event * bool :=
  foldl (fun '(dst, wakeup) raw =>
    let e := convertFromSensorEvent raw in (dst ++ [e], wakeup || isWakeUpSensor s (event_handle e))) ([], wakeup) src.

(** ** The poll thread

    The outcome of a poll is an error or the events it stored; the result is
    the batches that were posted, with the flag of the wake lock, and whether
    the thread is still running ([false]: it used a callback that is not set). *)

Inductive PollOutcome := POLL_ERROR (err : Z) | POLL_EVENTS (data : list RawEvent).

Fixpoint pollForEvents (s : SubHal) (polls : list PollOutcome) : list (list Event * bool) * bool :=
  match polls with
  | [] => ([], true)
  | POLL_ERROR _ :: polls => pollForEvents s polls
  | POLL_EVENTS data :: polls =>
      let batch := convertFromSensorEvents s data false in
      if ss_callback s then
        let '(posted, alive) := pollForEvents s polls in (batch :: posted, alive)
      else ([], false)
  end.

(** ** Calls of the framework *)

(** [std::map] iterates by increasing key. *)
Definition handle_le (p q : Z * SensorInfo) : Prop := p.1 <= q.1.

#[export] Instance handle_le_dec : RelDecision handle_le.
Proof. intros p q. unfold handle_le. apply _. Defined.

Definition getSensorsList (s : SubHal) : list SensorInfo :=
  snd <$> merge_sort handle_le (map_to_list (ss_sensors s)).

(** [None] is the dereference of a missing device. *)
Definition on_device {A} (s : SubHal) (k : DeviceCaps -> A) : option A := k <$> ss_device s.

Definition set_mode_status (err : Z) (mode : OperationMode) (s : SubHal) : SensorResult * SubHal :=
  (ResultFromStatus err, if err =? OK then s <| ss_mode := mode |> else s).

Definition setOperationMode (mode : OperationMode) (s : SubHal) (d : D) : SensorResult * SubHal * D :=
  let has := match ss_device s with Some c => cap_set_mode c | None => false end in
  if (getHalDeviceVersion s <? API_1_4) || negb has then (RES_INVALID_OPERATION, s, d)
  else let '(err, d) := sd_set_operation_mode (OperationMode_code mode) d in (set_mode_status err mode s, d).

Definition activate (sensorHandle : Z) (enabled : bool) (s : SubHal) (d : D) : option (SensorResult * D) :=
  on_device s (fun _ => let '(err, d) := sd_activate sensorHandle enabled d in (ResultFromStatus err, d)).

Definition batch (sensorHandle samplingPeriodNs maxReportLatencyNs : Z) (s : SubHal) (d : D) : option (SensorResult * D) :=
  on_device s (fun _ => let '(err, d) := sd_batch sensorHandle 0 samplingPeriodNs maxReportLatencyNs d in (ResultFromStatus err, d)).

Definition flush (sensorHandle : Z) (s : SubHal) (d : D) : option (SensorResult * D) :=
  on_device s (fun _ => let '(err, d) := sd_flush sensorHandle d in (ResultFromStatus err, d)).

Definition injectSensorData (event : Event) (s : SubHal) (d : D) : SensorResult * D :=
  let has := match ss_device s with Some c => cap_inject c | None => false end in
  if (getHalDeviceVersion s <? API_1_4) || negb has then (RES_INVALID_OPERATION, d)
  else let '(err, d) := sd_inject (convertToSensorEvent event) d in (ResultFromStatus err, d).

Definition supports_direct (c : DeviceCaps) : bool := cap_register_channel c && cap_config_report c.

(** [mem] is the converted memory, [None] when the conversion refused it. *)
Definition registerDirectChannel (mem : option Z) (s : SubHal) (d : D) : option (SensorResult * Z * D) :=
  on_device s (fun c =>
    if negb (supports_direct c) then (RES_INVALID_OPERATION, -1, d)
    else match mem with
      | None => (RES_BAD_VALUE, -1, d)
      | Some m =>
          let '(err, d) := sd_register_direct_channel (Some m) (-1) d in
          if err <? 0 then (ResultFromStatus err, -1, d) else (RES_OK, err, d)
      end).

Definition unregisterDirectChannel (channelHandle : Z) (s : SubHal) (d : D) : option (SensorResult * D) :=
  on_device s (fun c =>
    if negb (supports_direct c) then (RES_INVALID_OPERATION, d)
    else (RES_OK, (sd_register_direct_channel None channelHandle d).2)).

(** [rate_level] is the converted rate, negative when it is not known; [stop]
    tells that the rate is [STOP]. *)
Definition configDirectReport (sensorHandle channelHandle rate_level : Z) (stop : bool) (s : SubHal) (d : D)
    : option (SensorResult * Z * D) :=
  on_device s (fun c =>
    if negb (supports_direct c) then (RES_INVALID_OPERATION, -1, d)
    else if rate_level <? 0 then (RES_BAD_VALUE, -1, d)
    else
      let '(err, d) := sd_config_direct_report sensorHandle channelHandle rate_level d in
      if stop then (ResultFromStatus err, -1, d)
      else (if 0 <? err then RES_OK else ResultFromStatus err, err, d)).

Definition initialize (s : SubHal) (d : D) : SensorResult * SubHal * D :=
  let '(_, s, d) := setOperationMode MODE_NORMAL (s <| ss_callback := true |>) d in (RES_OK, s, d).

(** ** Polling: theorems *)

Lemma convertFromSensorEvents_spec (s : SubHal) (src : list RawEvent) :
  convertFromSensorEvents s src false =
    (convertFromSensorEvent <$> src, existsb (fun r => isWakeUpSensor s (event_handle (convertFromSensorEvent r))) src).
Proof.
  unfold convertFromSensorEvents.
  assert (forall dst w, foldl (fun '(dst, wakeup) raw =>
      let e := convertFromSensorEvent raw in (dst ++ [e], wakeup || isWakeUpSensor s (event_handle e))) (dst, w) src =
    (dst ++ (convertFromSensorEvent <$> src), w || existsb (fun r => isWakeUpSensor s (event_handle (convertFromSensorEvent r))) src)) as Hg.
  { induction src as [| r src IH]; intros dst w; simpl; [by rewrite app_nil_r, orb_false_r |].
    rewrite IH. by rewrite <- app_assoc, orb_assoc. }
  apply Hg.
Qed.

(** The polls that succeeded. *)
Definition successful (polls : list PollOutcome) : list (list RawEvent) :=
  omap (fun p => match p with POLL_EVENTS data => Some data | POLL_ERROR _ => None end) polls.

(** The poll thread posts what it polls.  For every sequence of poll outcomes:
    with the callback set, exactly the successful polls are posted, in order,
    each with all its events converted in order and the wake lock flag set if
    and only if one of its events carries the handle of a known sensor with the
    wake-up flag; and when the callback has not been set yet, the first
    successful poll ends the process. *)
Theorem poll_posts_events (s : SubHal) (polls : list PollOutcome) :
  pollForEvents s polls =
    if ss_callback s then
      ((fun data => (convertFromSensorEvent <$> data,
          existsb (fun e => match ss_sensors s !! event_handle e with
                            | Some info => negb (Z.land (info_flags info) WAKE_UP =? 0)
                            | None => false end) (convertFromSensorEvent <$> data))) <$> successful polls, true)
    else ([], bool_decide (successful polls = [])).
Proof.
  induction polls as [| [err | data] polls IH]; cbn [pollForEvents].
  - by destruct (ss_callback s).
  - rewrite IH. done.
  - rewrite convertFromSensorEvents_spec. rewrite IH. destruct (ss_callback s); [| done].
    unfold successful; simpl. f_equal. f_equal. f_equal.
    induction data as [| r data IHd]; simpl; [done |]. by rewrite IHd.
Qed.

(** ** The sensor list: theorems *)

Lemma enumerateSensors_lookup (l : list Sensor) (m : gmap Z SensorInfo) (h : Z) :
  enumerateSensors l m !! h =
    match m !! h with
    | Some i => Some i
    | None => List.find (fun i => info_handle i =? h) (convertFromSensor <$> l)
    end.
Proof.
  revert m. induction l as [| src l IH]; intros m; simpl; [by destruct (m !! h) |].
  unfold enumerateSensors in *. simpl. rewrite IH.
  destruct (Z.eqb_spec (info_handle (convertFromSensor src)) h) as [<- | Hne].
  - destruct (m !! info_handle (convertFromSensor src)) eqn:E; [by rewrite E | by rewrite lookup_insert_eq].
  - destruct (m !! info_handle (convertFromSensor src)); [done | by rewrite lookup_insert_ne].
Qed.

Lemma merge_sort_handles_sorted (l : list (Z * SensorInfo)) : Sorted handle_le (merge_sort handle_le l).
Proof. apply Sorted_merge_sort. intros p q. unfold handle_le. lia. Qed.

Lemma enumerateSensors_keyed (l : list Sensor) (h : Z) (i : SensorInfo) :
  enumerateSensors l ∅ !! h = Some i -> info_handle i = h.
Proof.
  rewrite enumerateSensors_lookup, lookup_empty. intros E. apply List.find_some in E as [_ E]. by apply Z.eqb_eq in E.
Qed.

(** The list of a freshly opened sub-HAL: it has exactly the sensors that are
    the first of their handle in the library's list, by increasing handle. *)
Lemma getSensorsList_fresh (c : DeviceCaps) (l : list Sensor) (s : SubHal) (t : bool) (i : SensorInfo) :
  SubHal_new true (Some c) l = Some (s, t) ->
  (i ∈ getSensorsList s <-> List.find (fun j => info_handle j =? info_handle i) (convertFromSensor <$> l) = Some i) /\
  Sorted Z.le (info_handle <$> getSensorsList s).
Proof.
  unfold SubHal_new. simpl. destruct (cap_version c <? API_1_3); [done |]. intros [= <- _]. unfold getSensorsList. simpl. split.
  - rewrite list_elem_of_fmap. setoid_rewrite merge_sort_Permutation. split.
    + intros ([h i'] & -> & Hin%elem_of_map_to_list). pose proof (enumerateSensors_keyed l h i' Hin) as Hk. simpl.
      rewrite enumerateSensors_lookup, lookup_empty in Hin. by rewrite Hk.
    + intros Hf. exists (info_handle i, i). split; [done |]. apply elem_of_map_to_list.
      by rewrite enumerateSensors_lookup, lookup_empty.
  - pose proof (merge_sort_handles_sorted (map_to_list (enumerateSensors l ∅))) as Hs.
    assert (Forall (fun p => info_handle p.2 = p.1) (merge_sort handle_le (map_to_list (enumerateSensors l ∅)))) as Hk.
    { rewrite merge_sort_Permutation. apply Forall_forall. intros [h i'] Hin%elem_of_map_to_list. by apply (enumerateSensors_keyed l). }
    induction Hs as [| p l' Hl IH Hd]; simpl; [constructor |]. apply Forall_cons in Hk as [Hp Hk].
    constructor; [by apply IH |]. destruct Hd as [| q l'' Hpq]; simpl; constructor.
    apply Forall_cons in Hk as [Hq _]. rewrite Hp, Hq. exact Hpq.
Qed.

End subhal.
