(* ===== verification/SdmDisplay.v ===== *)
(** * The LiveDisplay service on the SDM library (src/livedisplay/aidl/sdm/)

    SDMController.{h,cpp} wraps the functions of a vendor display library, any
    of which may be missing; DisplayModes.cpp lists and switches the display
    modes, PictureAdjustment.cpp reads and sets hue, saturation, intensity and
    contrast, and service.cpp connects the two: a mode that was set makes the
    picture adjustment remember its current values as the default ones.

    The vendor library, which the repository does not document, is the class
    [SdmLibrary], of which nothing is assumed.

    Shown, for every library: which calls for a mode succeed and change it, and
    that the default picture adjustment is the one reported after the last
    acknowledged switch. *)

From S2P Require Import Prelude CFloat SysFs.

(** ** Data of the library (SDMController.h) *)

Record SdmFeatureVersion := mkSdmFeatureVersion { fv_x : Z; fv_y : Z; fv_z : Z }.

(** The length of the name buffer and the reserved type are constants. *)
Record SdmDispMode := mkSdmDispMode { sm_id : Z; sm_name : string }.

Definition SdmDispMode_default : SdmDispMode := mkSdmDispMode (-1) "".

Record HsicData := mkHsicData {
  hd_hue : Z;
  hd_saturation : float;
  hd_intensity : float;
  hd_contrast : float;
  hd_saturation_threshold : float
}.

Record HsicIntRange := mkHsicIntRange { ir_max : Z; ir_min : Z; ir_step : Z }.
Record HsicFloatRange := mkHsicFloatRange { fr_max : float; fr_min : float; fr_step : float }.

Record HsicRanges := mkHsicRanges {
  r_hue : HsicIntRange;
  r_saturation : HsicFloatRange;
  r_intensity : HsicFloatRange;
  r_contrast : HsicFloatRange;
  r_saturation_threshold : HsicFloatRange
}.

(** ** The library

    A function that [dlsym] does not find is [None].  A call returns the error
    code and its results. *)
Class SdmLibrary (S : Type) := {
  disp_api_init : option (S -> Z * S);
  disp_api_get_num_display_modes : option (S -> Z * Z);
  disp_api_get_display_modes : option (Z -> S -> Z * list SdmDispMode);
  disp_api_get_active_display_mode : option (S -> Z * Z);
  disp_api_set_active_display_mode : option (Z -> S -> Z * S);
  disp_api_set_default_display_mode : option (Z -> S -> Z * S);
  disp_api_get_default_display_mode : option (S -> Z * Z);
  disp_api_get_global_pa_range : option (S -> Z * HsicRanges);
  disp_api_get_global_pa_config : option (S -> Z * HsicData);
  disp_api_set_global_pa_config : option (HsicData -> S -> Z * S);
  disp_api_get_feature_version : option (Z -> S -> Z * SdmFeatureVersion)
}.

Inductive SdmStatus := SDM_OK | SDM_NO_INIT | SDM_BAD_VALUE.

#[export] Instance SdmStatus_eq_dec : EqDecision SdmStatus.
Proof. solve_decision. Defined.

(** The interface types of the service. *)
Record DisplayMode := mkDisplayMode { dm_id : Z; dm_name : string }.
Record HSIC := mkHSIC { hue : float; saturation : float; intensity : float; contrast : float; saturationThreshold : float }.
Record FloatRange := mkFloatRange { range_max : float; range_min : float; range_step : float }.

Definition zero_f32 : float := f32_of_Z 0.
Definition HSIC_zero : HSIC := mkHSIC zero_f32 zero_f32 zero_f32 zero_f32 zero_f32.

(** [x != 0.f], true of a NaN. *)
Definition f32_nonzero (x : float) : bool :=
  match x with SpecFloat.S754_zero _ => false | _ => true end.

Section sdm.
Context {S : Type} `{SdmLibrary S}.

(** ** SDMController *)

(** The macro [CONTROLLER_CHECK]; the results are returned with the status. *)
Definition CONTROLLER_CHECK {A} (fn : option (S -> Z * A)) (s : S) : SdmStatus * option A :=
  match fn with
  | None => (SDM_NO_INIT, None)
  | Some fn => let '(err, a) := fn s in if err =? 0 then (SDM_OK, Some a) else (SDM_BAD_VALUE, None)
  end.

(** For the functions that change the library. *)
Definition CONTROLLER_SET (fn : option (S -> Z * S)) (s : S) : SdmStatus * S :=
  match fn with
  | None => (SDM_NO_INIT, s)
  | Some fn => let '(err, s) := fn s in (if err =? 0 then SDM_OK else SDM_BAD_VALUE, s)
  end.

(** [None] is the end of the process. *)
Definition SDMController_new (loaded : bool) (s : S) : option S :=
  if negb loaded then None
  else let '(st, s) := CONTROLLER_SET disp_api_init s in if decide (st = SDM_OK) then Some s else None.

Definition getNumDisplayModes : S -> SdmStatus * option Z := CONTROLLER_CHECK disp_api_get_num_display_modes.
Definition sdm_getDisplayModes (mode_cnt : Z) : S -> SdmStatus * option (list SdmDispMode) :=
  CONTROLLER_CHECK ((fun fn => fn mode_cnt) <$> disp_api_get_display_modes).
Definition getActiveDisplayMode : S -> SdmStatus * option Z := CONTROLLER_CHECK disp_api_get_active_display_mode.
Definition setActiveDisplayMode (mode_id : Z) : S -> SdmStatus * S :=
  CONTROLLER_SET ((fun fn => fn mode_id) <$> disp_api_set_active_display_mode).
Definition setDefaultDisplayMode (mode_id : Z) : S -> SdmStatus * S :=
  CONTROLLER_SET ((fun fn => fn mode_id) <$> disp_api_set_default_display_mode).
Definition sdm_getDefaultDisplayMode : S -> SdmStatus * option Z := CONTROLLER_CHECK disp_api_get_default_display_mode.
Definition getGlobalPaRange : S -> SdmStatus * option HsicRanges := CONTROLLER_CHECK disp_api_get_global_pa_range.
Definition getGlobalPaConfig : S -> SdmStatus * option HsicData := CONTROLLER_CHECK disp_api_get_global_pa_config.
Definition setGlobalPaConfig (cfg : HsicData) : S -> SdmStatus * S :=
  CONTROLLER_SET ((fun fn => fn cfg) <$> disp_api_set_global_pa_config).
Definition getFeatureVersion (feature_id : Z) : S -> SdmStatus * option SdmFeatureVersion :=
  CONTROLLER_CHECK ((fun fn => fn feature_id) <$> disp_api_get_feature_version).

(** Utils.cpp; the version is unsigned, so [<= 0] is zero. *)
Definition CheckFeatureVersion (feature : Z) (s : S) : SdmStatus :=
  match getFeatureVersion feature s with
  | (SDM_OK, Some v) => if (fv_x v <=? 0) && (fv_y v <=? 0) && (fv_z v <=? 0) then SDM_BAD_VALUE else SDM_OK
  | (st, _) => st
  end.

Definition FEATURE_VER_SW_PA_API : Z := 1.
Definition FEATURE_VER_SW_SAVEMODES_API : Z := 4.

(** ** DisplayModes *)

Definition dm_isReady (s : S) : bool :=
  if decide (CheckFeatureVersion FEATURE_VER_SW_SAVEMODES_API s <> SDM_OK) then false
  else match getNumDisplayModes s with (SDM_OK, Some count) => 0 <? count | _ => false end.

(** The buffer of [count] modes after the call: what the library filled in,
    the rest as constructed. *)
Definition mode_buffer (count : Z) (l : list SdmDispMode) : list SdmDispMode :=
  take (Z.to_nat count) (l ++ replicate (Z.to_nat count) SdmDispMode_default).

(** [None] is the exception of a vector of a negative size. *)
Definition getDisplayModesInternal (s : S) : option (list DisplayMode) :=
  match getNumDisplayModes s with
  | (SDM_OK, Some count) =>
      if count =? 0 then Some []
      else if count <? 0 then None
      else match sdm_getDisplayModes count s with
        | (SDM_OK, Some l) => Some ((fun m => mkDisplayMode (sm_id m) (sm_name m)) <$> mode_buffer count l)
        | _ => Some []
        end
  | _ => Some []
  end.

Definition getDisplayModeById (id : Z) (s : S) : option (option DisplayMode) :=
  modes ← getDisplayModesInternal s; Some (List.find (fun m => dm_id m =? id) modes).

Definition mode_of (r : SdmStatus * option Z) (s : S) : option (option DisplayMode) :=
  match r with
  | (SDM_OK, Some id) => if 0 <=? id then getDisplayModeById id s else Some None
  | _ => Some None
  end.

Definition getCurrentDisplayModeInternal (s : S) : option (option DisplayMode) := mode_of (getActiveDisplayMode s) s.
Definition getDefaultDisplayModeInternal (s : S) : option (option DisplayMode) := mode_of (sdm_getDefaultDisplayMode s) s.

Definition mode_result (r : option (option DisplayMode)) : HalResult DisplayMode :=
  match r with None => HalAbort | Some None => HalErr EX_UNSUPPORTED_OPERATION | Some (Some m) => HalOk m end.

Definition getDisplayModes (s : S) : HalResult (list DisplayMode) :=
  match getDisplayModesInternal s with None => HalAbort | Some l => HalOk l end.
Definition getCurrentDisplayMode (s : S) : HalResult DisplayMode := mode_result (getCurrentDisplayModeInternal s).
Definition getDefaultDisplayMode (s : S) : HalResult DisplayMode := mode_result (getDefaultDisplayModeInternal s).

(** The result, the library and whether [on_display_mode_set_] is reached. *)
Definition setDisplayMode (modeID : Z) (makeDefault : bool) (s : S) : HalResult unit * S * bool :=
  match getCurrentDisplayModeInternal s with
  | None => (HalAbort, s, false)
  | Some current_mode =>
      if match current_mode with Some m => dm_id m =? modeID | None => false end then (HalOk tt, s, false)
      else match getDisplayModeById modeID s with
        | None => (HalAbort, s, false)
        | Some None => (HalErr EX_UNSUPPORTED_OPERATION, s, false)
        | Some (Some _) =>
            let '(st, s) := setActiveDisplayMode modeID s in
            if decide (st <> SDM_OK) then (HalErr EX_UNSUPPORTED_OPERATION, s, false)
            else if makeDefault then
              let '(st, s) := setDefaultDisplayMode modeID s in
              if decide (st <> SDM_OK) then (HalErr EX_UNSUPPORTED_OPERATION, s, false) else (HalOk tt, s, true)
            else (HalOk tt, s, true)
        end
  end.

(** The constructor, before a callback is registered. *)
Definition DisplayModes_new (s : S) : option S :=
  if negb (dm_isReady s) then None
  else match getDefaultDisplayModeInternal s with
    | None => None
    | Some None => Some s
    | Some (Some mode) =>
        let '(r, s, _) := setDisplayMode (dm_id mode) false s in
        match r with HalAbort => None | _ => Some s end
    end.

(** ** PictureAdjustment *)

Definition pa_isReady (s : S) : bool :=
  if decide (CheckFeatureVersion FEATURE_VER_SW_PA_API s <> SDM_OK) then false
  else match getGlobalPaRange s with
    | (SDM_OK, Some r) =>
        negb (ir_max (r_hue r) =? 0) && negb (ir_min (r_hue r) =? 0) &&
        f32_nonzero (fr_max (r_saturation r)) && f32_nonzero (fr_min (r_saturation r)) &&
        f32_nonzero (fr_max (r_intensity r)) && f32_nonzero (fr_min (r_intensity r)) &&
        f32_nonzero (fr_max (r_contrast r)) && f32_nonzero (fr_min (r_contrast r))
    | _ => false
    end.

Definition to_HSIC (d : HsicData) : HSIC :=
  mkHSIC (f32_of_Z (hd_hue d)) (hd_saturation d) (hd_intensity d) (hd_contrast d) (hd_saturation_threshold d).

Definition of_HSIC (h : HSIC) : HsicData :=
  mkHsicData (f32_to_i32 (hue h)) (saturation h) (intensity h) (contrast h) (saturationThreshold h).

Definition getPictureAdjustmentInternal (s : S) : option HSIC :=
  match getGlobalPaConfig s with (SDM_OK, Some d) => Some (to_HSIC d) | _ => None end.

Definition updateDefaultPictureAdjustment (s : S) (default_pa : HSIC) : HSIC :=
  match getPictureAdjustmentInternal s with Some pa => pa | None => default_pa end.

Definition pa_range (pick : HsicRanges -> FloatRange) (s : S) : HalResult FloatRange :=
  match getGlobalPaRange s with (SDM_OK, Some r) => HalOk (pick r) | _ => HalErr EX_UNSUPPORTED_OPERATION end.

Definition float_range (r : HsicFloatRange) : FloatRange := mkFloatRange (fr_max r) (fr_min r) (fr_step r).

Definition getHueRange : S -> HalResult FloatRange :=
  pa_range (fun r => mkFloatRange (f32_of_Z (ir_max (r_hue r))) (f32_of_Z (ir_min (r_hue r))) (f32_of_Z (ir_step (r_hue r)))).
Definition getSaturationRange : S -> HalResult FloatRange := pa_range (fun r => float_range (r_saturation r)).
Definition getIntensityRange : S -> HalResult FloatRange := pa_range (fun r => float_range (r_intensity r)).
Definition getContrastRange : S -> HalResult FloatRange := pa_range (fun r => float_range (r_contrast r)).
Definition getSaturationThresholdRange : S -> HalResult FloatRange := pa_range (fun r => float_range (r_saturation_threshold r)).

Definition getPictureAdjustment (s : S) : HalResult HSIC :=
  match getPictureAdjustmentInternal s with Some pa => HalOk pa | None => HalErr EX_UNSUPPORTED_OPERATION end.

Definition setPictureAdjustment (hsic : HSIC) (s : S) : HalResult unit * S :=
  let '(st, s) := setGlobalPaConfig (of_HSIC hsic) s in
  (if decide (st <> SDM_OK) then HalErr EX_UNSUPPORTED_OPERATION else HalOk tt, s).

(** ** The service

    [main] of service.cpp with both interfaces enabled: the library, the
    default adjustment and the callback from the one to the other. *)
Record SdmService := mkSdmService { sv_lib : S; sv_default_pa : HSIC }.

Definition sdm_main (loaded : bool) (s : S) : option SdmService :=
  s ← SDMController_new loaded s;
  s ← DisplayModes_new s;
  if pa_isReady s then Some (mkSdmService s HSIC_zero) else None.

Definition getDefaultPictureAdjustment (sv : SdmService) : HalResult HSIC := HalOk (sv_default_pa sv).

Inductive SdmCall :=
  | CALL_setDisplayMode (modeID : Z) (makeDefault : bool)
  | CALL_setPictureAdjustment (hsic : HSIC).

Definition sdm_call (c : SdmCall) (sv : SdmService) : HalResult unit * SdmService :=
  match c with
  | CALL_setDisplayMode id mk =>
      let '(r, s, notify) := setDisplayMode id mk (sv_lib sv) in
      (r, mkSdmService s (if (notify : bool) then updateDefaultPictureAdjustment s (sv_default_pa sv) else sv_default_pa sv))
  | CALL_setPictureAdjustment h =>
      let '(r, s) := setPictureAdjustment h (sv_lib sv) in (r, mkSdmService s (sv_default_pa sv))
  end.

Fixpoint sdm_calls (cs : list SdmCall) (sv : SdmService) : list (HalResult unit) * SdmService :=
  match cs with
  | [] => ([], sv)
  | c :: cs => let '(r, sv) := sdm_call c sv in let '(rs, sv) := sdm_calls cs sv in (r :: rs, sv)
  end.

End sdm.
Arguments SdmService : clear implicits.

(** ** What the service relies on

    Nothing is assumed of the library: any of its functions may be missing, may
    fail, and may change it in any way. *)
Section any_library.
Context {S : Type} `{SdmLibrary S}.
Implicit Types (s : S) (sv : SdmService S) (c : SdmCall) (cs : list SdmCall).

(** The library lists a mode, reports it as the active one, acknowledges it. *)
Definition listed (id : Z) (s : S) : bool :=
  match getDisplayModesInternal s with Some modes => existsb (fun m => dm_id m =? id) modes | None => false end.

Definition reports_active (id : Z) (s : S) : bool :=
  match disp_api_get_active_display_mode with
  | Some fn => ((fn s).1 =? 0) && ((fn s).2 =? id) && (0 <=? id)
  | None => false
  end.

Definition acknowledged (fn : option (Z -> S -> Z * S)) (id : Z) (s : S) : option S :=
  fn ← fn; if (fn id s).1 =? 0 then Some (fn id s).2 else None.

Definition acknowledges (id : Z) (makeDefault : bool) (s : S) : option S :=
  s ← acknowledged disp_api_set_active_display_mode id s;
  if makeDefault then acknowledged disp_api_set_default_display_mode id s else Some s.

(** The library after a call that switched the mode. *)
Definition switched (c : SdmCall) (s : S) : option S :=
  match c with
  | CALL_setDisplayMode id mk => if listed id s && negb (reports_active id s) then acknowledges id mk s else None
  | CALL_setPictureAdjustment _ => None
  end.

Lemma find_listed id s :
  match getDisplayModeById id s with
  | Some (Some m) => dm_id m = id /\ listed id s = true
  | Some None => listed id s = false /\ is_Some (getDisplayModesInternal s)
  | None => listed id s = false /\ getDisplayModesInternal s = None
  end.
Proof.
  unfold getDisplayModeById, listed. destruct (getDisplayModesInternal s) as [modes |]; cbn; [| done].
  destruct (List.find _ modes) as [m |] eqn:E.
  - apply find_some in E as [Hin Heq]. split; [by apply Z.eqb_eq |]. apply existsb_exists. eauto.
  - split; [| by eexists]. apply not_true_is_false. intros (m & Hin & Hm)%existsb_exists. by rewrite (find_none _ _ E m Hin) in Hm.
Qed.

(** The early return is taken exactly for a mode that is listed and active. *)
Lemma current_is_listed id s :
  match getCurrentDisplayModeInternal s with
  | Some cur => match cur with Some m => dm_id m =? id | None => false end = listed id s && reports_active id s
  | None => listed id s = false
  end.
Proof.
  unfold getCurrentDisplayModeInternal, mode_of, getActiveDisplayMode, CONTROLLER_CHECK, reports_active.
  destruct disp_api_get_active_display_mode as [fn |]; [| by rewrite andb_false_r]. destruct (fn s) as [err a]. cbn.
  destruct (err =? 0); cbn; [| by rewrite andb_false_r]. destruct (Z.leb_spec 0 a).
  - pose proof (find_listed a s) as Hf. destruct (getDisplayModeById a s) as [[m |] |].
    + destruct Hf as [-> Hl]. destruct (Z.eqb_spec a id) as [-> | Hne]; cbn; [| by rewrite andb_false_r]. rewrite Hl. symmetry. by apply Z.leb_le.
    + destruct Hf as [Hl _]. destruct (Z.eqb_spec a id) as [-> | Hne]; cbn; [by rewrite Hl | by rewrite andb_false_r].
    + unfold listed. by rewrite (proj2 Hf).
  - destruct (Z.eqb_spec a id) as [-> | Hne]; cbn; [| by rewrite andb_false_r]. destruct (Z.leb_spec 0 id); [lia | by rewrite andb_false_r].
Qed.

(** A function of the library that changes it. *)
Lemma CONTROLLER_SET_acknowledged (fn : option (Z -> S -> Z * S)) id s :
  match acknowledged fn id s with
  | Some s' => CONTROLLER_SET ((fun fn => fn id) <$> fn) s = (SDM_OK, s')
  | None => (CONTROLLER_SET ((fun fn => fn id) <$> fn) s).1 <> SDM_OK
  end.
Proof. unfold acknowledged, CONTROLLER_SET. destruct fn as [fn |]; cbn; [| done]. destruct (fn id s) as [err s']. cbn. by destruct (err =? 0). Qed.

(** One call for a mode. *)
Lemma setDisplayMode_listed id mk s :
  let '(r, s', notify) := setDisplayMode id mk s in
  (r = HalOk tt <-> listed id s = true /\ (reports_active id s = true \/ is_Some (acknowledges id mk s))) /\
  (listed id s = false \/ reports_active id s = true -> s' = s) /\
  match switched (CALL_setDisplayMode id mk) s with Some s1 => s' = s1 /\ notify = true | None => notify = false end.
Proof.
  unfold setDisplayMode, switched. pose proof (current_is_listed id s) as Hc. pose proof (find_listed id s) as Hf.
  destruct (getCurrentDisplayModeInternal s) as [cur |]; [rewrite Hc | rewrite Hc; refine (conj _ (conj _ _)); [split; [done | by intros [? _]] | done | done]].
  destruct (listed id s && reports_active id s) eqn:Ela.
  { apply andb_true_iff in Ela as [-> ->]. refine (conj _ (conj _ _)); [split; [by eauto | done] | done | done]. }
  destruct (getDisplayModeById id s) as [[m |] |];
    [| destruct Hf as [-> _]; refine (conj _ (conj _ _)); [split; [done | by intros [? _]] | done | done] ..].
  destruct Hf as [_ Hl]. rewrite Hl in Ela |- *. cbn in Ela |- *. rewrite Ela. cbn. unfold acknowledges.
  pose proof (CONTROLLER_SET_acknowledged disp_api_set_active_display_mode id s) as Ha. fold (setActiveDisplayMode id s) in Ha.
  destruct (acknowledged disp_api_set_active_display_mode id s) as [s1 |]; cbn.
  - rewrite Ha. destruct (decide (SDM_OK <> SDM_OK)); [done |]. destruct mk; [| refine (conj _ (conj _ _)); [split; [by eauto | done] | by intros [|] | done]].
    pose proof (CONTROLLER_SET_acknowledged disp_api_set_default_display_mode id s1) as Hd. fold (setDefaultDisplayMode id s1) in Hd.
    destruct (acknowledged disp_api_set_default_display_mode id s1) as [s2 |]; cbn.
    + rewrite Hd. destruct (decide (SDM_OK <> SDM_OK)); [done |]. refine (conj _ (conj _ _)); [split; [by eauto | done] | by intros [|] | done].
    + destruct (setDefaultDisplayMode id s1) as [st s2]. rewrite decide_True by done.
      refine (conj _ (conj _ _)); [split; [done | by intros [_ [? | [? ?]]]] | by intros [|] | done].
  - destruct (setActiveDisplayMode id s) as [st s1]. rewrite decide_True by done.
    refine (conj _ (conj _ _)); [split; [done | by intros [_ [? | [? ?]]]] | by intros [|] | done].
Qed.

(** One call and the default adjustment. *)
Lemma sdm_call_default c sv :
  sv_default_pa (sdm_call c sv).2 = default (sv_default_pa sv) (switched c (sv_lib sv) ≫= getPictureAdjustmentInternal).
Proof.
  destruct c as [id mk | h]; cbn [sdm_call].
  - pose proof (setDisplayMode_listed id mk (sv_lib sv)) as Hs. destruct (setDisplayMode id mk (sv_lib sv)) as [[r s'] notify].
    destruct Hs as (_ & _ & Hs). destruct (switched _ (sv_lib sv)) as [s1 |]; [destruct Hs as [-> ->] | by subst notify].
    cbn. unfold updateDefaultPictureAdjustment. by destruct (getPictureAdjustmentInternal s1).
  - by destruct (setPictureAdjustment h (sv_lib sv)).
Qed.

Lemma sdm_calls_snoc cs c sv : (sdm_calls (cs ++ [c]) sv).2 = (sdm_call c (sdm_calls cs sv).2).2.
Proof.
  revert sv. induction cs as [| c' cs IH]; intros sv; cbn; [by destruct (sdm_call c sv) |].
  destruct (sdm_call c' sv) as [r sv1]. specialize (IH sv1). by destruct (sdm_calls (cs ++ [c]) sv1), (sdm_calls cs sv1).
Qed.

(** The adjustments that the library reported right after each switch of the
    mode, in order. *)
Definition adjustments_at_switches (cs : list SdmCall) (sv : SdmService S) : list HSIC :=
  omap (fun k => c ← cs !! k; s ← switched c (sv_lib (sdm_calls (take k cs) sv).2); getPictureAdjustmentInternal s) (seq 0 (length cs)).

Lemma adjustments_snoc cs c sv :
  adjustments_at_switches (cs ++ [c]) sv =
    adjustments_at_switches cs sv ++ option_list (switched c (sv_lib (sdm_calls cs sv).2) ≫= getPictureAdjustmentInternal).
Proof.
  unfold adjustments_at_switches. rewrite length_app, seq_app, omap_app. f_equal.
  - apply list_omap_ext, Forall2_same_length_lookup_2; [done |]. intros i x y Hx Hy. rewrite Hx in Hy. injection Hy as ->.
    apply lookup_seq in Hx as [-> Hi]. cbn. rewrite lookup_app_l, take_app_le by lia. done.
  - cbn. rewrite lookup_app_r, Nat.sub_diag, take_app_length by lia. cbn. by destruct (switched _ _ ≫= _).
Qed.

(** C40. The LiveDisplay service on any vendor library, whatever its functions
    answer or do, over every sequence of calls that set a mode or a picture
    adjustment.  A call for a mode succeeds exactly when the library lists the
    mode and either reports it as active already, in which case nothing is
    changed, the default mode included, or acknowledges the switch and, if
    asked for, the new default; a mode that is not listed never reaches the
    library.  The default picture adjustment is the one that the library
    reported right after the last such acknowledged switch for which it
    reported one; a switch whose default was refused, and the one made before
    the service is registered, do not count. *)
Theorem sdm_mode_history (cs : list SdmCall) (sv : SdmService S) :
  (forall pre id mk post, cs = pre ++ CALL_setDisplayMode id mk :: post ->
     let sv0 := (sdm_calls pre sv).2 in let '(r, sv1) := sdm_call (CALL_setDisplayMode id mk) sv0 in
     (r = HalOk tt <-> listed id (sv_lib sv0) = true /\ (reports_active id (sv_lib sv0) = true \/ is_Some (acknowledges id mk (sv_lib sv0)))) /\
     (listed id (sv_lib sv0) = false \/ reports_active id (sv_lib sv0) = true -> sv1 = sv0)) /\
  getDefaultPictureAdjustment (sdm_calls cs sv).2 = HalOk (default (sv_default_pa sv) (last (adjustments_at_switches cs sv))).
Proof.
  split.
  - intros pre id mk post _ sv0. cbn [sdm_call]. pose proof (setDisplayMode_listed id mk (sv_lib sv0)) as Hs.
    destruct (setDisplayMode id mk (sv_lib sv0)) as [[r s'] notify]. destruct Hs as (Hr & Hsame & Hn). split; [done |].
    intros Hno. rewrite (Hsame Hno). unfold switched in Hn.
    assert (listed id (sv_lib sv0) && negb (reports_active id (sv_lib sv0)) = false) as E by (destruct Hno as [-> | ->]; [done | by rewrite andb_false_r]).
    rewrite E in Hn. subst notify. by destruct sv0.
  - unfold getDefaultPictureAdjustment. f_equal. induction cs as [| c cs IH] using rev_ind; [done |].
    rewrite sdm_calls_snoc, sdm_call_default, IH, adjustments_snoc.
    destruct (switched c _ ≫= _) as [pa |]; cbn; [by rewrite last_snoc | by rewrite app_nil_r].
Qed.

(** The start of the service: the default picture adjustment is all zero until
    the mode is switched, whatever mode the constructor sets. *)
Lemma sdm_main_default (loaded : bool) s sv : sdm_main loaded s = Some sv -> getDefaultPictureAdjustment sv = HalOk HSIC_zero.
Proof.
  unfold sdm_main. destruct (SDMController_new loaded s) as [s1 |]; cbn; [| done]. destruct (DisplayModes_new s1) as [s2 |]; cbn; [| done].
  destruct (pa_isReady s2); [by intros [= <-] | done].
Qed.

End any_library.

(** An adjustment that was set is read back with its hue cut to an integer; hues
    in whole degrees survive. *)
Lemma hue_roundtrip (n : Z) : -360 <= n <= 360 -> f32_of_Z (f32_to_i32 (f32_of_Z n)) = f32_of_Z n.
Proof.
  intros Hn. assert (forallb (fun k => bool_decide (f32_to_i32 (f32_of_Z (Z.of_nat k - 360)) = Z.of_nat k - 360)) (seq 0 721) = true) as Hall
    by (vm_compute; reflexivity).
  rewrite forallb_forall in Hall. specialize (Hall (Z.to_nat (n + 360))). rewrite bool_decide_eq_true in Hall.
  replace (Z.of_nat (Z.to_nat (n + 360)) - 360) with n in Hall by lia. rewrite Hall; [done |]. apply in_seq. lia.
Qed.

Lemma to_of_HSIC (n : Z) (sat inten con thr : float) :
  -360 <= n <= 360 -> let h := mkHSIC (f32_of_Z n) sat inten con thr in to_HSIC (of_HSIC h) = h.
Proof. intros Hn. unfold to_HSIC, of_HSIC. cbn. by rewrite hue_roundtrip. Qed.

(** ** A library for the examples: three modes, each with its own adjustment. *)

Record ExampleSdm := mkExampleSdm { ex_active : Z; ex_default : Z; ex_pa : HsicData }.

Definition example_modes : list DisplayMode := [mkDisplayMode 0 "standard"; mkDisplayMode 1 "natural"; mkDisplayMode 7 "vivid"].
Definition example_pa (mode : Z) : HsicData := mkHsicData (10 * mode) zero_f32 zero_f32 zero_f32 zero_f32.
Definition example_range : HsicRanges :=
  let r := mkHsicFloatRange (f32_of_Z 1) (f32_of_Z (-1)) (f32_of_Z 1) in mkHsicRanges (mkHsicIntRange 180 (-180) 1) r r r r.

#[export] Instance example_SdmLibrary : SdmLibrary ExampleSdm := {|
  disp_api_init := Some (fun s => (0, s));
  disp_api_get_num_display_modes := Some (fun _ => (0, 3));
  disp_api_get_display_modes := Some (fun _ _ => (0, (fun m => mkSdmDispMode (dm_id m) (dm_name m)) <$> example_modes));
  disp_api_get_active_display_mode := Some (fun s => (0, ex_active s));
  disp_api_set_active_display_mode := Some (fun id s => (0, mkExampleSdm id (ex_default s) (example_pa id)));
  disp_api_set_default_display_mode := Some (fun id s => (0, mkExampleSdm (ex_active s) id (ex_pa s)));
  disp_api_get_default_display_mode := Some (fun s => (0, ex_default s));
  disp_api_get_global_pa_range := Some (fun _ => (0, example_range));
  disp_api_get_global_pa_config := Some (fun s => (0, ex_pa s));
  disp_api_set_global_pa_config := Some (fun d s => (0, mkExampleSdm (ex_active s) (ex_default s) d));
  disp_api_get_feature_version := Some (fun _ _ => (0, mkSdmFeatureVersion 1 0 0))
|}.

(** A mode that is changed, an adjustment, and the mode again with a request to
    make it the default: the request is answered with success and ignored. *)
Lemma set_active_mode_ignores_default :
  let '(rs, sv) := sdm_calls [CALL_setDisplayMode 7 false; CALL_setPictureAdjustment HSIC_zero; CALL_setDisplayMode 7 true]
    (mkSdmService (mkExampleSdm 0 0 (example_pa 0)) HSIC_zero) in
  rs = [HalOk tt; HalOk tt; HalOk tt] /\ getDefaultDisplayMode (sv_lib sv) = HalOk (mkDisplayMode 0 "standard") /\
  getCurrentDisplayMode (sv_lib sv) = HalOk (mkDisplayMode 7 "vivid") /\
  getDefaultPictureAdjustment sv = HalOk (to_HSIC (example_pa 7)).
Proof. vm_compute. split_and!; reflexivity. Qed.

(** The service starts on this library. *)
Lemma example_sdm_starts :
  sdm_main true (mkExampleSdm 0 1 (example_pa 0)) = Some (mkSdmService (mkExampleSdm 1 1 (example_pa 1)) HSIC_zero).
Proof. vm_compute. reflexivity. Qed.

(** Of a switch, an adjustment and a call for an unknown mode, the switch counts. *)
Lemma sdm_mode_history_witness :
  getDefaultPictureAdjustment (sdm_calls [CALL_setDisplayMode 7 false; CALL_setPictureAdjustment HSIC_zero; CALL_setDisplayMode 3 true]
    (mkSdmService (mkExampleSdm 0 0 (example_pa 0)) HSIC_zero)).2 = HalOk (to_HSIC (example_pa 7)).
Proof.
  destruct (sdm_mode_history [CALL_setDisplayMode 7 false; CALL_setPictureAdjustment HSIC_zero; CALL_setDisplayMode 3 true]
    (mkSdmService (mkExampleSdm 0 0 (example_pa 0)) HSIC_zero)) as [_ ->]. vm_compute. reflexivity.
Defined.
