(* ===== verification/SysfsModes.v ===== *)
(** * Switches on sysfs nodes (src/livedisplay/aidl/sysfs/, src/powershare/aidl/default/)

    The LiveDisplay services without a vendor library (DualStateMode.h,
    SunlightEnhancement.cpp, DisplayColorCalibration.cpp) and the power share
    service (PowerShare.cpp): each picks a node when it starts, and reads and
    writes it as text.

    Shown: a service drives the first of its candidate nodes that is
    accessible and refuses to start without one, and what was stored with
    success is read back, also when the driver adds a newline. *)

From S2P Require Import Prelude Text SysFs.
From Stdlib Require Import Ascii.

(** ** The node of a service

    [access path] tells whether [access(path, R_OK | W_OK)] succeeds; [None] is
    the end of the process. *)
Definition PathManager_file (access : string -> bool) (kPaths : list string) : option string := List.find access kPaths.

Inductive DualState := AdaptiveBacklight | AutoContrast | AntiFlicker | ColorEnhancement | ReadingEnhancement.

Definition dual_kPaths (m : DualState) : list string :=
  match m with
  | AdaptiveBacklight =>
      ["/sys/class/graphics/fb0/acl"; "/sys/class/graphics/fb0/cabc";
       "/sys/devices/platform/soc/soc:qcom,dsi-display-primary/acl";
       "/sys/devices/platform/soc/soc:qcom,dsi-display-primary/cabc"]
  | AutoContrast => ["/sys/class/graphics/fb0/aco"]
  | AntiFlicker => ["/sys/devices/platform/soc/soc:qcom,dsi-display-primary/dc"]
  | ColorEnhancement => ["/sys/class/graphics/fb0/color_enhance"]
  | ReadingEnhancement => ["/sys/class/graphics/fb0/reading_mode"]
  end.

Definition DualStateMode_new (access : string -> bool) (m : DualState) : option string :=
  PathManager_file access (dual_kPaths m).

(** The paths of sunlight enhancement may be configured at build time. *)
Inductive SeMode := SE_NONE | SE_HBM | SE_SRE.

Definition SeMode_code (m : SeMode) : Z := match m with SE_NONE => 0 | SE_HBM => 1 | SE_SRE => 2 end.

Definition kHBMPaths (SE_PATH : option string) : list string :=
  match SE_PATH with
  | Some p => [p]
  | None => ["/sys/class/graphics/fb0/hbm"; "/sys/devices/platform/soc/soc:qcom,dsi-display-primary/hbm"]
  end.

Definition kSREPaths (SRE_PATH : option string) : list string :=
  match SRE_PATH with Some p => [p] | None => ["/sys/class/graphics/fb0/sre"] end.

Record SunlightEnhancement := mkSunlightEnhancement { se_file : string; enabled_mode : SeMode }.

Definition SunlightEnhancement_new (access : string -> bool) (SE_PATH SRE_PATH : option string) : option SunlightEnhancement :=
  match List.find access (kHBMPaths SE_PATH) with
  | Some path => Some (mkSunlightEnhancement path SE_HBM)
  | None =>
      match List.find access (kSREPaths SRE_PATH) with
      | Some path => Some (mkSunlightEnhancement path SE_SRE)
      | None => None
      end
  end.

Definition calibration_kPaths : list string := ["/sys/class/graphics/fb0/rgb"].

(** The power share node and its texts, configured at build time. *)
Record PowerShareConfig := mkPowerShareConfig {
  POWERSHARE_PATH : string;
  POWERSHARE_ENABLED : string;
  POWERSHARE_DISABLED : string
}.

Section modes.
Context {F : Type} `{FileSystem F} `{AndroidTrim} `{AndroidStrings}.

(** A text of the node to a flag; an exception ends the process. *)
Definition flag_of_text (s : string) : HalResult bool :=
  match stoi s with Some z => HalOk (0 <? z) | None => HalAbort end.

Definition getEnabled_node (file : string) : IO F (HalResult bool) :=
  tmp ← ReadFileToString file;
  mret (match tmp with
    | None => HalErr (EX_SERVICE_SPECIFIC 0)
    | Some tmp => flag_of_text (Trim tmp)
    end).

Definition store (content file : string) : IO F (HalResult unit) :=
  ok ← WriteStringToFile content file;
  mret (if (ok : bool) then HalOk tt else HalErr (EX_SERVICE_SPECIFIC 0)).

(** DualStateMode *)
Definition dual_getEnabled (file : string) : IO F (HalResult bool) := getEnabled_node file.
Definition dual_setEnabled (enabled : bool) (file : string) : IO F (HalResult unit) :=
  store (to_text (if enabled then 1 else 0)) file.

(** SunlightEnhancement *)
Definition se_getEnabled (se : SunlightEnhancement) : IO F (HalResult bool) := getEnabled_node (se_file se).
Definition se_setEnabled (enabled : bool) (se : SunlightEnhancement) : IO F (HalResult unit) :=
  store (if enabled then to_text (SeMode_code (enabled_mode se)) else "0") (se_file se).

(** DisplayColorCalibration *)
Definition getMaxValue : HalResult Z := HalOk 32768.
Definition getMinValue : HalResult Z := HalOk 255.

Fixpoint parse_all (parts : list string) : option (list Z) :=
  match parts with
  | [] => Some []
  | p :: parts => z ← stoi p; zs ← parse_all parts; Some (z :: zs)
  end.

Definition getCalibration (file : string) : IO F (HalResult (list Z)) :=
  tmp ← ReadFileToString file;
  mret (match tmp with
    | None => HalErr (EX_SERVICE_SPECIFIC 0)
    | Some tmp => match parse_all (Split (Trim tmp) " "%char) with Some rgb => HalOk rgb | None => HalAbort end
    end).

Definition calibration_text (r g b : Z) : string := join " " [to_text r; to_text g; to_text b].

Definition setCalibration (rgb : list Z) (file : string) : IO F (HalResult unit) :=
  match rgb with
  | [r; g; b] => store (calibration_text r g b) file
  | _ => mret (HalErr EX_ILLEGAL_ARGUMENT)
  end.

(** PowerShare *)
Definition ps_isEnabled (c : PowerShareConfig) : IO F (HalResult bool) :=
  value ← ReadFileToString (POWERSHARE_PATH c);
  mret (match value with
    | None => HalErr EX_UNSUPPORTED_OPERATION
    | Some value => HalOk (String.eqb (Trim value) (POWERSHARE_ENABLED c))
    end).

Definition ps_setEnabled (enable : bool) (c : PowerShareConfig) : IO F (HalResult unit) :=
  store (if enable then POWERSHARE_ENABLED c else POWERSHARE_DISABLED c) (POWERSHARE_PATH c).

Definition getMinBattery : HalResult Z := HalOk 0.
Definition setMinBattery (minBattery : Z) : HalResult unit := HalOk tt.

(** ** Theorems *)

(** A successful store leaves the text, followed by white space. *)
Lemma store_echo (content file : string) (f f' : F) :
  EchoNode F file -> store content file f = (HalOk tt, f') ->
  exists ws, all_space ws /\ fs_read file f' = Some (content +:+ ws).
Proof.
  intros He. unfold store, mbind, IO_bind. destruct (WriteStringToFile content file f) as [[] f1] eqn:E; [| done].
  intros [= <-]. apply WriteStringToFile_true in E. by eapply He.
Qed.

Lemma flag_roundtrip (z : Z) (file : string) (f f' : F) :
  EchoNode F file -> is_i32 z -> store (to_text z) file f = (HalOk tt, f') ->
  getEnabled_node file f' = (HalOk (0 <? z), f').
Proof.
  intros He Hz Hs. destruct (store_echo _ _ _ _ He Hs) as (ws & Hw & Hr).
  unfold getEnabled_node, ReadFileToString, io_get, mbind, IO_bind. rewrite Hr. unfold flag_of_text.
  rewrite Trim_app_space, Trim_no_space by (done || apply to_text_no_space; unfold is_i32, is_i64 in *; lia).
  by rewrite stoi_to_text.
Qed.

Lemma calibration_trimmed (r g b : Z) : is_i32 r -> is_i32 g -> is_i32 b -> trimmed (calibration_text r g b).
Proof.
  intros Hr Hg Hb. unfold trimmed, calibration_text. cbn [join]. rewrite !String_list_ascii_app.
  assert (forall z, is_i32 z -> exists c l, String.list_ascii_of_string (to_text z) = c :: l /\ is_space c = false) as Hhd.
  { intros z Hz. assert (is_i64 z) as Hz' by (unfold is_i32, is_i64 in *; lia).
    pose proof (to_text_no_space z Hz') as Hs. destruct (String.list_ascii_of_string (to_text z)) as [| c l] eqn:E; [| inversion Hs; eauto].
    exfalso. destruct (to_string_i64_digits z Hz') as (ds & Hne & _ & _ & Ed). unfold to_text in E.
    rewrite String.list_ascii_of_string_of_list_ascii, Ed in E. by destruct ds, (z <? 0). }
  split.
  - destruct (Hhd r Hr) as (c & l & -> & Hc). simpl. by rewrite Hc.
  - rewrite !rev_app_distr. destruct (Hhd b Hb) as (c & l & E & Hc).
    assert (Forall (fun c => is_space c = false) (rev (String.list_ascii_of_string (to_text b)))) as Hf.
    { apply List.Forall_rev, to_text_no_space. unfold is_i32, is_i64 in *; lia. }
    destruct (rev (String.list_ascii_of_string (to_text b))) as [| c' l'] eqn:E'.
    + rewrite E in E'. simpl in E'. by apply app_eq_nil in E' as [_ ?].
    + apply Forall_cons in Hf as [Hc' _]. simpl. by rewrite Hc'.
Qed.

Lemma calibration_roundtrip (r g b : Z) (file : string) (f f' : F) :
  EchoNode F file -> is_i32 r -> is_i32 g -> is_i32 b -> setCalibration [r; g; b] file f = (HalOk tt, f') ->
  getCalibration file f' = (HalOk [r; g; b], f').
Proof.
  intros He Hr Hg Hb Hs. destruct (store_echo _ _ _ _ He Hs) as (ws & Hw & Hrd).
  unfold getCalibration, ReadFileToString, io_get, mbind, IO_bind. rewrite Hrd.
  rewrite Trim_app_space, Trim_trimmed by (done || by apply calibration_trimmed).
  unfold calibration_text. change " " with (String " " "")%string. rewrite (Split_join " "%char).
  - cbn [parse_all]. by rewrite !stoi_to_text by done.
  - done.
  - repeat constructor; apply to_text_free; unfold is_i32, is_i64 in *; (done || lia).
Qed.

(** A sysfs switch that was stored is read back.  On an echoing node, after a
    successful call: a dual-state mode reads back the same; sunlight enhancement
    on the node its constructor chose does too, in both its kinds; power share
    does when its two texts are trimmed and different; and three calibration
    values of 32 bits are read back in order, while a vector of any other length
    is refused without touching the node. *)
Theorem sysfs_modes_roundtrip (access : string -> bool) (se : SunlightEnhancement) (SE SRE : option string) (c : PowerShareConfig)
    (file : string) (b : bool) (rgb : list Z) (f f' : F)
    (Hecho : forall p, EchoNode F p) (Hse : SunlightEnhancement_new access SE SRE = Some se)
    (Htexts : trimmed (POWERSHARE_ENABLED c) /\ trimmed (POWERSHARE_DISABLED c) /\ POWERSHARE_ENABLED c <> POWERSHARE_DISABLED c)
    (Hrgb : Forall is_i32 rgb) :
  (dual_setEnabled b file f = (HalOk tt, f') -> dual_getEnabled file f' = (HalOk b, f')) /\
  (se_setEnabled b se f = (HalOk tt, f') -> se_getEnabled se f' = (HalOk b, f')) /\
  (ps_setEnabled b c f = (HalOk tt, f') -> ps_isEnabled c f' = (HalOk b, f')) /\
  (if (length rgb =? 3)%nat then setCalibration rgb file f = (HalOk tt, f') -> getCalibration file f' = (HalOk rgb, f')
   else setCalibration rgb file f = (HalErr EX_ILLEGAL_ARGUMENT, f)).
Proof.
  split_and!.
  - intros Hs. apply flag_roundtrip in Hs; [| done | by destruct b]. by destruct b.
  - intros Hs. assert (enabled_mode se = SE_HBM \/ enabled_mode se = SE_SRE) as Hm.
    { unfold SunlightEnhancement_new in Hse. repeat case_match; simplify_eq/=; auto. }
    unfold se_setEnabled in Hs. replace (if b then to_text (SeMode_code (enabled_mode se)) else "0")
      with (to_text (if b then SeMode_code (enabled_mode se) else 0)) in Hs by (by destruct b).
    apply flag_roundtrip in Hs; [| done | destruct b; [by destruct Hm as [-> | ->] | done]]. unfold se_getEnabled. rewrite Hs.
    destruct b; [by destruct Hm as [-> | ->] | done].
  - intros Hs. destruct (store_echo _ _ _ _ (Hecho _) Hs) as (ws & Hw & Hr). destruct Htexts as (He & Hd & Hne).
    unfold ps_isEnabled, ReadFileToString, io_get, mbind, IO_bind. rewrite Hr, Trim_app_space by done.
    destruct b; rewrite Trim_trimmed by done; [by rewrite String.eqb_refl |].
    by destruct (String.eqb_spec (POWERSHARE_DISABLED c) (POWERSHARE_ENABLED c)).
  - destruct rgb as [| r [| g [| b' [|]]]]; try done. simpl.
    inversion Hrgb as [| ? ? Hr Hrest]; subst. inversion Hrest as [| ? ? Hg Hrest']; subst. inversion Hrest'; subst.
    by apply calibration_roundtrip.
Qed.

End modes.

(** The node of a dual-state mode is the first accessible candidate; without one
    the service does not start. *)
Lemma PathManager_first (access : string -> bool) (kPaths : list string) :
  match PathManager_file access kPaths with
  | Some p => access p = true /\ exists before after, kPaths = before ++ p :: after /\ Forall (fun q => access q = false) before
  | None => Forall (fun q => access q = false) kPaths
  end.
Proof.
  unfold PathManager_file. induction kPaths as [| p ps IH]; [by constructor |]. simpl.
  destruct (access p) eqn:E; [split; [done |]; exists [], ps; by split |].
  destruct (List.find access ps) as [q |]; [| by constructor].
  destruct IH as (Hq & before & after & -> & Hb). split; [done |]. exists (p :: before), after. by split; [| constructor].
Qed.

(** ** Example *)

Definition example_power_share : PowerShareConfig := mkPowerShareConfig "/sys/class/power_supply/wls/rtx" "1" "0".

Definition example_modes_fs : RamFs :=
  ram_init [("/sys/class/graphics/fb0/sre", "0"); ("/sys/class/graphics/fb0/rgb", "32768 32768 32768");
            ("/sys/class/power_supply/wls/rtx", "0")].

Lemma sysfs_modes_roundtrip_witness :
  let f' := (setCalibration [32768; 255; 1000] "/sys/class/graphics/fb0/rgb" example_modes_fs).2 in
  (getCalibration "/sys/class/graphics/fb0/rgb" f').1 = HalOk [32768; 255; 1000].
Proof.
  destruct (setCalibration [32768; 255; 1000] "/sys/class/graphics/fb0/rgb" example_modes_fs) as [r f'] eqn:E. cbn [snd].
  assert (r = HalOk tt) as -> by (apply (f_equal fst) in E; vm_compute in E; by rewrite <- E).
  destruct (sysfs_modes_roundtrip (fun p => fs_good p example_modes_fs) (mkSunlightEnhancement "/sys/class/graphics/fb0/sre" SE_SRE)
    None None example_power_share "/sys/class/graphics/fb0/rgb" true [32768; 255; 1000] example_modes_fs f'
    ltac:(intros p; apply RamFs_EchoNode) ltac:(vm_compute; reflexivity)
    ltac:(split_and!; [split; vm_compute; reflexivity | split; vm_compute; reflexivity | discriminate])
    ltac:(repeat constructor; lia)) as (_ & _ & _ & H).
  by rewrite (H E).
Defined.
