(* ===== verification/Peripherals.v ===== *)
(** * Infrared, fastboot and vibrator (src/ir/, src/fastboot/1.1-custom/, src/vibrator/aidl-legacy/)

    ConsumerIr.cpp sends patterns through the kernel's infrared device,
    Fastboot.cpp answers the commands of the boot loader protocol, and
    Vibrator.cpp forwards to a vendor library.

    Shown: what reaches the infrared device for every request and outcome, in
    terms of the ranges the service announces; and that the property command of
    fastboot returns exactly the property asked for. *)

From S2P Require Import Prelude Text SysFs.
From Stdlib Require Import Ascii.

(** ** ConsumerIr *)

Record ConsumerIrFreqRange := mkFreqRange { minHz : Z; maxHz : Z }.

(** The loop over the pairs of the property; an entry that is not a number is
    [None], and a last entry without partner is not used. *)
Fixpoint freq_pairs (carrier_freqs : list (option Z)) : list ConsumerIrFreqRange :=
  match carrier_freqs with
  | lo :: hi :: rest =>
      match lo, hi with Some lo, Some hi => mkFreqRange lo hi :: freq_pairs rest | _, _ => freq_pairs rest end
  | _ => []
  end.

Definition ConsumerIr_new (carrier_freqs : list (option Z)) : list ConsumerIrFreqRange :=
  if (2 <=? length carrier_freqs)%nat then freq_pairs carrier_freqs else [mkFreqRange 30000 60000].

Definition getCarrierFreqs (kRangeVec : list ConsumerIrFreqRange) : list ConsumerIrFreqRange := kRangeVec.

Definition isInRange (kRangeVec : list ConsumerIrFreqRange) (carrierFreqHz : Z) : bool :=
  existsb (fun range => (minHz range <=? carrierFreqHz) && (carrierFreqHz <=? maxHz range)) kRangeVec.

(** What the device is told, and the outcomes of the calls on it. *)
Inductive IrAction := IR_SET_CARRIER (hz : Z) | IR_WRITE (periods : list Z).

Record IrOutcome := mkIrOutcome { ir_opens : bool; ir_ioctl_rc : Z; ir_write_rc : Z }.

Definition transmit (kRangeVec : list ConsumerIrFreqRange) (carrierFreqHz : Z) (pattern : list Z) (o : IrOutcome)
    : HalResult unit * list IrAction :=
  let entries := length pattern in
  if (entries =? 0)%nat then (HalOk tt, [])
  else if negb (isInRange kRangeVec carrierFreqHz) then (HalErr EX_UNSUPPORTED_OPERATION, [])
  else if negb (ir_opens o) then (HalErr EX_ILLEGAL_STATE, [])
  else if ir_ioctl_rc o <? 0 then (HalErr EX_UNSUPPORTED_OPERATION, [IR_SET_CARRIER carrierFreqHz])
  else
    let entries := if (entries mod 2 =? 0)%nat then (entries - 1)%nat else entries in
    let acts := [IR_SET_CARRIER carrierFreqHz; IR_WRITE (take entries pattern)] in
    if ir_write_rc o <? 0 then (HalErr EX_ILLEGAL_STATE, acts) else (HalOk tt, acts).

(** The on periods of an alternating series, which starts with one. *)
Fixpoint on_periods (pattern : list Z) : list Z :=
  match pattern with
  | on :: off :: rest => on :: on_periods rest
  | [on] => [on]
  | [] => []
  end.

Lemma isInRange_spec (kRangeVec : list ConsumerIrFreqRange) (hz : Z) :
  isInRange kRangeVec hz = true <-> exists r, r ∈ kRangeVec /\ minHz r <= hz <= maxHz r.
Proof.
  unfold isInRange. rewrite existsb_exists. split; intros (r & Hin & Hr); exists r; rewrite list_elem_of_In in *; (split; [done | lia]).
Qed.

Lemma on_periods_even_cut (n : nat) (pattern : list Z) :
  length pattern = (2 * n)%nat -> on_periods (take (length pattern - 1) pattern) = on_periods pattern.
Proof.
  revert pattern. induction n as [| n IH]; intros pattern Hl; [by destruct pattern |].
  destruct pattern as [| on [| off rest]]; [done | simpl in Hl; lia |]. simpl in Hl.
  destruct rest as [| x rest]; [done |].
  replace (length (on :: off :: x :: rest) - 1)%nat with (S (S (length (x :: rest) - 1))) by (simpl; lia).
  cbn [take on_periods]. rewrite IH; [done | simpl in *; lia].
Qed.

(** Infrared transmission.  For every configuration of carrier ranges, request
    and outcome of the device: the device is touched only for a pattern that is
    not empty and a carrier inside one of the ranges the service announces, and
    a carrier outside is refused as unsupported; what is written is then the
    carrier before the pattern, the pattern is a prefix of the one asked for with
    an odd number of periods that keeps all its on periods, and the call succeeds
    exactly if the device accepts both. *)
Theorem ir_transmit_spec (carrier_freqs : list (option Z)) (hz : Z) (pattern : list Z) (o : IrOutcome) :
  let ranges := ConsumerIr_new carrier_freqs in
  let in_range := exists r, r ∈ getCarrierFreqs ranges /\ minHz r <= hz <= maxHz r in
  let '(r, acts) := transmit ranges hz pattern o in
  (acts <> [] -> pattern <> [] /\ in_range) /\
  (pattern <> [] -> ~ in_range -> r = HalErr EX_UNSUPPORTED_OPERATION /\ acts = []) /\
  (pattern <> [] -> in_range ->
     (r = HalOk tt <-> ir_opens o = true /\ 0 <= ir_ioctl_rc o /\ 0 <= ir_write_rc o)) /\
  (forall w, IR_WRITE w ∈ acts ->
     acts = [IR_SET_CARRIER hz; IR_WRITE w] /\ w `prefix_of` pattern /\ Nat.Odd (length w) /\ on_periods w = on_periods pattern).
Proof.
  intros ranges in_range. unfold transmit. pose proof (isInRange_spec ranges hz) as Hir. unfold getCarrierFreqs in in_range.
  fold in_range in Hir. destruct pattern as [| p pattern']; [split_and!; try done; by intros ? ?%elem_of_nil |].
  set (pattern := p :: pattern'). assert (pattern <> []) as Hne by done.
  replace (length pattern =? 0)%nat with false by done. cbv zeta.
  destruct (isInRange ranges hz); cbn [negb].
  2:{ assert (~ in_range) by (intros H; by apply Hir in H). split_and!; try done. by intros ? ?%elem_of_nil. }
  assert in_range as Hin by (by apply Hir).
  destruct (ir_opens o); cbn [negb]; [| split_and!; try done; [naive_solver | by intros ? ?%elem_of_nil]].
  destruct (Z.ltb_spec (ir_ioctl_rc o) 0).
  { split_and!; try done; [intros _ _; split; [done | lia] |]. intros w [E | []%elem_of_nil]%elem_of_cons. done. }
  set (cut := if (length pattern mod 2 =? 0)%nat then (length pattern - 1)%nat else length pattern).
  assert (take cut pattern `prefix_of` pattern /\ Nat.Odd (length (take cut pattern)) /\ on_periods (take cut pattern) = on_periods pattern)
    as Hcut.
  { split_and!; [apply prefix_take | |]; unfold cut; pose proof (Nat.div_mod_eq (length pattern) 2) as Hdm;
      pose proof (Nat.mod_upper_bound (length pattern) 2 ltac:(lia)) as Hub;
      destruct (Nat.eqb_spec (length pattern mod 2) 0) as [E | E].
    - rewrite length_take. exists (length pattern / 2 - 1)%nat. simpl length in *. lia.
    - rewrite length_take. exists (length pattern / 2)%nat. lia.
    - apply (on_periods_even_cut (length pattern / 2)). lia.
    - by rewrite take_ge. }
  destruct (Z.ltb_spec (ir_write_rc o) 0); (split_and!; [done | done | intros _ _; split; [(done || by intros _) | (lia || done)] |]);
    intros w Hw; rewrite !elem_of_cons, elem_of_nil in Hw; destruct Hw as [Hw | [[= ->] | []]]; done.
Qed.

(** ** Fastboot

    The type of a partition, the variant, the charge state and the threshold
    are constants of the service. *)
Inductive FastbootStatus := FB_SUCCESS | FB_FAILURE_UNKNOWN | FB_INVALID_ARGUMENT | FB_NOT_SUPPORTED.

Record FastbootResult := mkFastbootResult { fb_status : FastbootStatus; fb_message : string }.

Definition getVariant : string * FastbootResult := ("NA", mkFastbootResult FB_SUCCESS "").
Definition getOffModeChargeState : bool * FastbootResult := (false, mkFastbootResult FB_SUCCESS "").
Definition getBatteryVoltageFlashingThreshold : Z * FastbootResult := (0, mkFastbootResult FB_SUCCESS "").
Definition doOemSpecificErase : FastbootResult := mkFastbootResult FB_NOT_SUPPORTED "Command not supported".

(** [prop] is the property store; a property that is not set is empty. *)
Definition GetProp (prop : string -> string) (args : list string) : FastbootResult :=
  match args with
  | [] => mkFastbootResult FB_INVALID_ARGUMENT "Property unspecified"
  | a :: _ =>
      if String.eqb (prop a) "" then mkFastbootResult FB_FAILURE_UNKNOWN "Unable to get property"
      else mkFastbootResult FB_SUCCESS (a +:+ ": " +:+ prop a)
  end.

Section fastboot.
Context `{AndroidStrings} (FB_OEM_GET_PROP : string) (prop : string -> string).

Definition doOemCommand (oemCmdArgs : string) : FastbootResult :=
  match Split oemCmdArgs " "%char with
  | _ :: cmd :: args =>
      if String.eqb cmd FB_OEM_GET_PROP then GetProp prop args
      else mkFastbootResult FB_FAILURE_UNKNOWN "Unknown OEM command"
  | _ => mkFastbootResult FB_INVALID_ARGUMENT "Invalid OEM command"
  end.

(** Every command line of words: the answer by the number of words and the
    name of the command. *)
Lemma doOemCommand_spec (words : list string) :
  words <> [] -> Forall (free_of " "%char) words ->
  doOemCommand (join " " words) =
    match words with
    | [] | [_] => mkFastbootResult FB_INVALID_ARGUMENT "Invalid OEM command"
    | [_; cmd] =>
        if String.eqb cmd FB_OEM_GET_PROP then mkFastbootResult FB_INVALID_ARGUMENT "Property unspecified"
        else mkFastbootResult FB_FAILURE_UNKNOWN "Unknown OEM command"
    | _ :: cmd :: name :: _ =>
        if negb (String.eqb cmd FB_OEM_GET_PROP) then mkFastbootResult FB_FAILURE_UNKNOWN "Unknown OEM command"
        else if String.eqb (prop name) "" then mkFastbootResult FB_FAILURE_UNKNOWN "Unable to get property"
        else mkFastbootResult FB_SUCCESS (name +:+ ": " +:+ prop name)
    end.
Proof.
  intros Hne Hf. unfold doOemCommand. change " " with (String " " "")%string. rewrite (Split_join " "%char) by done.
  destruct words as [| w [| cmd [| name rest]]]; [done | done | |]; by destruct (String.eqb cmd FB_OEM_GET_PROP).
Qed.

End fastboot.

(** ** Vibrator

    The vendor device: each call returns its status.  Without a device the
    member is not initialised, so a call on it ends the process. *)
Inductive VibratorCall :=
  | VIB_getCapabilities | VIB_off | VIB_on (timeoutMs : Z)
  | VIB_perform | VIB_getSupportedEffects | VIB_setAmplitude | VIB_setExternalControl | VIB_getCompositionDelayMax
  | VIB_getCompositionSizeMax | VIB_getSupportedPrimitives | VIB_getPrimitiveDuration | VIB_compose
  | VIB_getSupportedAlwaysOnEffects | VIB_alwaysOnEnable | VIB_alwaysOnDisable | VIB_getResonantFrequency | VIB_getQFactor
  | VIB_getFrequencyResolution | VIB_getFrequencyMinimum | VIB_getBandwidthAmplitudeMap | VIB_getPwlePrimitiveDurationMax
  | VIB_getPwleCompositionSizeMax | VIB_getSupportedBraking | VIB_composePwle.

Inductive VibratorResult := VIB_OK (value : option Z) | VIB_EX_TRANSACTION_FAILED | VIB_EX_UNSUPPORTED_OPERATION | VIB_ABORT.

Definition CAP_ON_CALLBACK : Z := 1.

(** The constructor: the status of the module and of [vibrator_open]. *)
Definition Vibrator_new {D} (module_ret open_ret : Z) (vib_device : D) : option D :=
  if module_ret =? 0 then if open_ret =? 0 then Some vib_device else None else None.

Section vibrator.
Context {D : Type} (vibrator_on : Z -> D -> Z * D) (vibrator_off : D -> Z * D).

Definition on_vibrator (mDevice : option D) (call : D -> Z * D) : VibratorResult * option D :=
  match mDevice with
  | None => (VIB_ABORT, None)
  | Some d => let '(ret, d) := call d in (if ret =? 0 then VIB_OK None else VIB_EX_TRANSACTION_FAILED, Some d)
  end.

Definition vibrator_call (c : VibratorCall) (mDevice : option D) : VibratorResult * option D :=
  match c with
  | VIB_getCapabilities => (VIB_OK (Some CAP_ON_CALLBACK), mDevice)
  | VIB_off => on_vibrator mDevice vibrator_off
  | VIB_on timeoutMs => on_vibrator mDevice (vibrator_on timeoutMs)
  | _ => (VIB_EX_UNSUPPORTED_OPERATION, mDevice)
  end.

End vibrator.
