(* ===== verification/CameraTypes.v ===== *)
(** * Data of the camera device HAL (src/camera/aidl/device/convert.cpp)

    The camera service talks AIDL, the vendor library the older camera3
    interface.  This file holds the parts of both data models that the session
    and its result batcher pass around, and the conversions between them.

    Handles of AIDL ([NativeHandle]) are the list of their file descriptors,
    the null handle being the empty one; the packed metadata buffers of the
    vendor library are an abstract type [M] with the functions of libcamera
    metadata that the code calls.

    Shown: a metadata buffer survives the trip to AIDL and back, and bytes whose
    header does not give their own length are refused. *)

From S2P Require Import Prelude.

(** ** AIDL side *)

Inductive BufferStatus := BUFFER_OK | BUFFER_ERROR.
#[export] Instance BufferStatus_eq : EqDecision BufferStatus.
Proof. solve_decision. Defined.

Definition NativeHandle := list Z.

Record StreamBuffer := mkStreamBuffer {
  streamId : Z;
  bufferId : Z;
  buffer : NativeHandle;
  status : BufferStatus;
  acquireFence : NativeHandle;
  releaseFence : NativeHandle
}.
#[export] Instance StreamBuffer_eq : EqDecision StreamBuffer.
Proof. solve_decision. Defined.
#[export] Instance StreamBuffer_eta : Record_eta StreamBuffer :=
  fun b => mkStreamBuffer (streamId b) (bufferId b) (buffer b) (status b) (acquireFence b) (releaseFence b).

(** A value-initialised [StreamBuffer]. *)
Definition StreamBuffer_default : StreamBuffer := mkStreamBuffer 0 0 [] BUFFER_OK [] [].

Record PhysicalCameraMetadata := mkPhysicalCameraMetadata {
  fmqMetadataSize : Z;
  physicalCameraId : string;
  pcm_metadata : list Z
}.
#[export] Instance PhysicalCameraMetadata_eq : EqDecision PhysicalCameraMetadata.
Proof. solve_decision. Defined.
#[export] Instance PhysicalCameraMetadata_eta : Record_eta PhysicalCameraMetadata :=
  fun p => mkPhysicalCameraMetadata (fmqMetadataSize p) (physicalCameraId p) (pcm_metadata p).

Record CaptureResult := mkCaptureResult {
  frameNumber : Z;
  fmqResultSize : Z;
  result_metadata : list Z;
  outputBuffers : list StreamBuffer;
  inputBuffer : StreamBuffer;
  partialResult : Z;
  physicalCameraMetadata : list PhysicalCameraMetadata
}.
#[export] Instance CaptureResult_eq : EqDecision CaptureResult.
Proof. solve_decision. Defined.
#[export] Instance CaptureResult_eta : Record_eta CaptureResult :=
  fun r => mkCaptureResult (frameNumber r) (fmqResultSize r) (result_metadata r) (outputBuffers r) (inputBuffer r)
             (partialResult r) (physicalCameraMetadata r).

(** [CaptureResult result = {};] *)
Definition CaptureResult_default : CaptureResult := mkCaptureResult 0 0 [] [] StreamBuffer_default 0 [].

Inductive ErrorCode := ERROR_DEVICE | ERROR_REQUEST | ERROR_RESULT | ERROR_BUFFER.
#[export] Instance ErrorCode_eq : EqDecision ErrorCode.
Proof. solve_decision. Defined.

Inductive NotifyMsg :=
  | NotifyMsg_error (frame : Z) (errorStreamId : Z) (errorCode : ErrorCode)
  | NotifyMsg_shutter (frame : Z) (timestamp : Z).
#[export] Instance NotifyMsg_eq : EqDecision NotifyMsg.
Proof. solve_decision. Defined.

(** A stream as the service asks for it, and as the HAL confirms it. *)
Inductive StreamType := STREAM_OUTPUT | STREAM_INPUT.
#[export] Instance StreamType_eq : EqDecision StreamType.
Proof. solve_decision. Defined.

Record Stream := mkStream {
  st_id : Z;
  st_streamType : StreamType;
  st_width : Z;
  st_height : Z;
  st_format : Z;
  st_usage : Z;
  st_dataSpace : Z;
  st_rotation : Z;
  st_physicalCameraId : string
}.

Record HalStream := mkHalStream {
  hs_id : Z;
  hs_overrideFormat : Z;
  hs_producerUsage : Z;
  hs_consumerUsage : Z;
  hs_maxBuffers : Z;
  hs_overrideDataSpace : Z;
  hs_physicalCameraId : string
}.

(** ** camera3 side *)

(** [Camera3Stream]: a [camera3_stream] with the identifier of its AIDL stream.
    [c3_max_buffers] is filled in by the vendor library. *)
Record Camera3Stream := mkCamera3Stream {
  c3_mId : Z;
  c3_stream_type : StreamType;
  c3_width : Z;
  c3_height : Z;
  c3_format : Z;
  c3_usage : Z;
  c3_max_buffers : Z;
  c3_data_space : Z;
  c3_rotation : Z;
  c3_physical_camera_id : option string
}.
#[export] Instance Camera3Stream_eta : Record_eta Camera3Stream :=
  fun s => mkCamera3Stream (c3_mId s) (c3_stream_type s) (c3_width s) (c3_height s) (c3_format s) (c3_usage s)
             (c3_max_buffers s) (c3_data_space s) (c3_rotation s) (c3_physical_camera_id s).

(** [camera3_stream_buffer_t]; the stream is given by its identifier, the
    buffer by its (possibly null) handle, a missing fence is -1. *)
Record camera3_stream_buffer := mkCamera3Buffer {
  cb_stream : Z;
  cb_buffer : option Z;
  cb_status : BufferStatus;
  cb_acquire_fence : Z;
  cb_release_fence : Z
}.
#[export] Instance camera3_stream_buffer_eq : EqDecision camera3_stream_buffer.
Proof. solve_decision. Defined.

Inductive camera3_notify_msg :=
  | CAMERA3_MSG_ERROR (frame_number : Z) (error_stream : option Z) (error_code : ErrorCode)
  | CAMERA3_MSG_SHUTTER (frame_number : Z) (timestamp : Z)
  | CAMERA3_MSG_UNKNOWN.

(** What the code uses of the vendor's metadata library: a packed buffer, its
    size and compacted size, its bytes, the reading of bytes as a buffer. *)
Class CameraMetadataLib (M : Type) := {
  get_camera_metadata_size : M -> Z;
  get_camera_metadata_compact_size : M -> Z;
  metadata_bytes : M -> list Z;
  metadata_cast : list Z -> M;
  copy_camera_metadata : M -> M
}.

Class CameraMetadataLaws (M : Type) `{CameraMetadataLib M} := {
  metadata_bytes_length : forall m, Z.of_nat (length (metadata_bytes m)) = get_camera_metadata_size m;
  metadata_cast_bytes : forall m, metadata_cast (metadata_bytes m) = m;
  metadata_size_pos : forall m, 0 < get_camera_metadata_size m
}.

(** ** Conversions *)

Section convert.
Context {M : Type} `{CameraMetadataLib M}.

(** [convertToAidl(const camera_metadata_t*, CameraMetadata* )]: a null source
    leaves the destination as it is. *)
Definition convertToAidl_metadata (src : option M) (dest : list Z) : list Z :=
  match src with
  | None => dest
  | Some m => metadata_bytes m
  end.

(** [convertFromAidl(const CameraMetadata&, const camera_metadata_t** )]:
    [None] when the bytes are corrupt, a null buffer for no bytes. *)
Definition convertFromAidl_metadata (src : list Z) : option (option M) :=
  if decide (src = []) then Some None
  else if get_camera_metadata_size (metadata_cast src : M) =? Z.of_nat (length src) then Some (Some (metadata_cast src))
  else None.

End convert.

Definition convertToAidl_stream (src : Camera3Stream) : HalStream :=
  let '(producer, consumer) :=
    match c3_stream_type src with
    | STREAM_OUTPUT => (c3_usage src, 0)
    | STREAM_INPUT => (0, c3_usage src)
    end in
  {| hs_id := c3_mId src;
     hs_overrideFormat := c3_format src;
     hs_producerUsage := producer;
     hs_consumerUsage := consumer;
     hs_maxBuffers := i32 (c3_max_buffers src);
     hs_overrideDataSpace := c3_data_space src;
     hs_physicalCameraId := default "" (c3_physical_camera_id src) |}.

Definition convertToAidl_streams (streams : list Camera3Stream) : list HalStream := map convertToAidl_stream streams.

Definition convertFromAidl_stream (src : Stream) : Camera3Stream :=
  {| c3_mId := st_id src;
     c3_stream_type := st_streamType src;
     c3_width := u32 (st_width src);
     c3_height := u32 (st_height src);
     c3_format := st_format src;
     c3_usage := u32 (st_usage src);
     c3_max_buffers := 0;
     c3_data_space := st_dataSpace src;
     c3_rotation := st_rotation src;
     c3_physical_camera_id := None |}.

Definition convertFromAidl_buffer (bufPtr : option Z) (st : BufferStatus) (stream acquireFence : Z) : camera3_stream_buffer :=
  {| cb_stream := stream; cb_buffer := bufPtr; cb_status := st; cb_acquire_fence := acquireFence; cb_release_fence := -1 |}.

(** A message of unknown type leaves the destination as it is. *)
Definition convertToAidl_notify (src : camera3_notify_msg) (dst : NotifyMsg) : NotifyMsg :=
  match src with
  | CAMERA3_MSG_ERROR f s c => NotifyMsg_error (i32 f) (default (-1) s) c
  | CAMERA3_MSG_SHUTTER f t => NotifyMsg_shutter (i32 f) (i64 t)
  | CAMERA3_MSG_UNKNOWN => dst
  end.

(** ** Lemmas *)

Section convert_lemmas.
Context {M : Type} `{CameraMetadataLaws M}.

Lemma convert_metadata_roundtrip (m : M) : convertFromAidl_metadata (convertToAidl_metadata (Some m) []) = Some (Some m).
Proof.
  unfold convertFromAidl_metadata, convertToAidl_metadata. rewrite decide_False.
  - by rewrite metadata_cast_bytes, metadata_bytes_length, Z.eqb_refl.
  - intros E. pose proof (metadata_bytes_length m) as Hl. rewrite E in Hl. pose proof (metadata_size_pos m). simpl in Hl. lia.
Qed.

End convert_lemmas.
