(* ===== verification/CameraBatcher.v ===== *)
(** * Result batcher of the camera session (ResultBatcher of
    src/camera/aidl/device/CameraDeviceSession.{h,cpp})

    For high-speed recording the service submits requests in batches; the
    batcher holds back the shutters, metadata and video buffers of a batch and
    sends them up together when its last frame arrives, or at once when an
    error interrupts it.

    The batches are shared objects ([shared_ptr]): a heap of them that only
    grows, and the deque of the ones in flight.  A call first finds its batch
    under the batcher's lock, then works on it under the batch's own lock, so
    that a batch can be removed in between; [BatchSystem] is the step relation
    of any number of such calls.  [World] holds what is outside: the message
    queue to the service, the outcome of the successive timed locks of the
    callback, and the log of the calls made. *)

From S2P Require Import Prelude CameraTypes.

(** ** The metadata queue *)

(** What the code uses of the fast message queue: a write happens as a whole
    or not at all.  [fmq_written] is everything written so far, in order. *)
Class MessageQueue (Q : Type) := {
  availableToWrite : Q -> Z;
  fmq_write : list Z -> Q -> option Q;
  fmq_written : Q -> list Z
}.

Class MessageQueueLaws (Q : Type) `{MessageQueue Q} := {
  fmq_write_spec : forall bs q q', fmq_write bs q = Some q' -> fmq_written q' = fmq_written q ++ bs
}.

Inductive CameraEvent :=
  | EV_notify (msgs : list NotifyMsg)
  | EV_results (results : list CaptureResult)
  | EV_timeout (results : list CaptureResult)
  | EV_freeFences (fds : list Z).

Record World (Q : Type) := mkWorld { w_queue : Q; w_locks : list bool; w_events : list CameraEvent }.
Arguments mkWorld {Q} _ _ _.
Arguments w_queue {Q} _.
Arguments w_locks {Q} _.
Arguments w_events {Q} _.

(** ** Batches in flight *)

Record BufferBatch := mkBufferBatch { mDelivered : bool; mBuffers : list StreamBuffer }.
#[export] Instance BufferBatch_eta : Record_eta BufferBatch := fun b => mkBufferBatch (mDelivered b) (mBuffers b).

(** [mResultMds], a [std::map], is the list of its entries by increasing key;
    [mMds] pairs a frame number with its metadata. *)
Record InflightBatch := mkInflightBatch {
  mFirstFrame : Z;
  mLastFrame : Z;
  mBatchSize : Z;
  mShutterDelivered : bool;
  mShutterMsgs : list NotifyMsg;
  mBatchBufs : gmap Z BufferBatch;
  mNumPartialResults : Z;
  mPartialResultProgress : Z;
  mResultMds : list (Z * list (Z * list Z));
  mRemoved : bool
}.
#[export] Instance InflightBatch_eta : Record_eta InflightBatch :=
  fun b => mkInflightBatch (mFirstFrame b) (mLastFrame b) (mBatchSize b) (mShutterDelivered b) (mShutterMsgs b)
             (mBatchBufs b) (mNumPartialResults b) (mPartialResultProgress b) (mResultMds b) (mRemoved b).

Record ResultBatcher := mkResultBatcher {
  rb_heap : list InflightBatch;
  mInflightBatches : list nat;
  rb_mNumPartialResults : Z;
  mStreamsToBatch : list Z
}.
#[export] Instance ResultBatcher_eta : Record_eta ResultBatcher :=
  fun r => mkResultBatcher (rb_heap r) (mInflightBatches r) (rb_mNumPartialResults r) (mStreamsToBatch r).

Definition allDelivered (b : InflightBatch) : bool :=
  mShutterDelivered b &&
  negb (mPartialResultProgress b <? mNumPartialResults b) &&
  forallb (fun p => mDelivered p.2) (map_to_list (mBatchBufs b)).

Definition setNumPartialResults (n : Z) (r : ResultBatcher) : ResultBatcher := r <| rb_mNumPartialResults := u32 n |>.

Definition setBatchedStreams (streamsToBatch : list Z) (r : ResultBatcher) : ResultBatcher :=
  r <| mStreamsToBatch := streamsToBatch |>.

(** [emplace] keeps an entry that is already there. *)
Definition new_batch_bufs (streams : list Z) : gmap Z BufferBatch :=
  list_to_map (map (fun id => (id, mkBufferBatch false [])) streams).

Definition new_batch (frame size : Z) (r : ResultBatcher) : InflightBatch := {|
  mFirstFrame := frame;
  mLastFrame := u32 (frame + size - 1);
  mBatchSize := size;
  mShutterDelivered := false;
  mShutterMsgs := [];
  mBatchBufs := new_batch_bufs (mStreamsToBatch r);
  mNumPartialResults := rb_mNumPartialResults r;
  mPartialResultProgress := 0;
  mResultMds := [];
  mRemoved := false
|}.

Definition registerBatch (frame size : Z) (r : ResultBatcher) : ResultBatcher :=
  r <| rb_heap := rb_heap r ++ [new_batch frame size r] |>
    <| mInflightBatches := mInflightBatches r ++ [length (rb_heap r)] |>.

Definition in_batch (f : Z) (b : InflightBatch) : bool := (mFirstFrame b <=? f) && (f <=? mLastFrame b).

(** The search loop of [getBatch]: position in the deque and batch. *)
Fixpoint find_batch (f : Z) (heap : list InflightBatch) (i : nat) (ids : list nat) : option (nat * nat) :=
  match ids with
  | [] => None
  | id :: ids =>
      match heap !! id with
      | Some b => if in_batch f b then Some (i, id) else find_batch f heap (1 + i) ids
      | None => None
      end
  end.

(** [None] is [NOT_BATCHED]. *)
Definition getBatch (f : Z) (r : ResultBatcher) : option (nat * nat) :=
  match mInflightBatches r, last (mInflightBatches r) with
  | id0 :: _, Some idn =>
      match rb_heap r !! id0, rb_heap r !! idn with
      | Some b0, Some bn =>
          if (f <? mFirstFrame b0) || (mLastFrame bn <? f) then None
          else find_batch f (rb_heap r) 0 (mInflightBatches r)
      | _, _ => None
      end
  | _, _ => None
  end.

Definition checkAndRemoveFirstBatch (r : ResultBatcher) : ResultBatcher :=
  match mInflightBatches r with
  | [] => r
  | id :: ids =>
      match rb_heap r !! id with
      | Some b =>
          if allDelivered b then
            r <| rb_heap := <[id := b <| mRemoved := true |>]> (rb_heap r) |> <| mInflightBatches := ids |>
          else r
      | None => r
      end
  end.

(** ** Sending *)

(** What a [StreamBuffer] is after its contents were moved out. *)
Definition moved_from (b : StreamBuffer) : StreamBuffer :=
  b <| buffer := [] |> <| acquireFence := [] |> <| releaseFence := [] |>.

(** Both give the destination, what is left of the source, and the descriptors
    held by the handle that is overwritten: the source's release fence is set
    to an empty handle after a raw handle with its descriptor numbers was made
    of it, and the destination gets a handle made of these numbers.  What the
    interface library does to the descriptors of an overwritten handle is its
    own; the callers below follow the numbers. *)
Definition moveStreamBuffer (src : StreamBuffer) : StreamBuffer * StreamBuffer * list Z :=
  let handle := releaseFence src in
  let src := src <| releaseFence := [] |> in
  let dst := src in
  (dst <| releaseFence := handle |>, moved_from src, handle).

Definition pushStreamBuffer (src : StreamBuffer) (dst : list StreamBuffer) : list StreamBuffer * StreamBuffer * list Z :=
  let handle := releaseFence src in
  let src := src <| releaseFence := [] |> in
  (dst ++ [src <| releaseFence := handle |>], moved_from src, handle).

Lemma moveStreamBuffer_eq (src : StreamBuffer) : moveStreamBuffer src = (src, moved_from src, releaseFence src).
Proof. by destruct src. Qed.

Lemma moved_buffers (bs : list StreamBuffer) : (fun b => (moveStreamBuffer b).1.1) <$> bs = bs.
Proof. induction bs as [| b bs IH]; [done |]. rewrite fmap_cons, IH. by rewrite moveStreamBuffer_eq. Qed.

Lemma pushStreamBuffer_eq (src : StreamBuffer) (dst : list StreamBuffer) :
  pushStreamBuffer src dst = (dst ++ [src], moved_from src, releaseFence src).
Proof. by destruct src. Qed.

(** The file descriptors [freeReleaseFences] closes. *)
Definition result_fences (r : CaptureResult) : list Z :=
  releaseFence (inputBuffer r) ++ concat (map releaseFence (outputBuffers r)).

Section sending.
Context {Q : Type} `{MessageQueue Q}.

Definition emit (e : CameraEvent) (w : World Q) : World Q := mkWorld (w_queue w) (w_locks w) (w_events w ++ [e]).

Definition freeReleaseFences (results : list CaptureResult) (w : World Q) : World Q :=
  emit (EV_freeFences (concat (map result_fences results))) w.

Fixpoint write_physical (ps : list PhysicalCameraMetadata) (q : Q) : list PhysicalCameraMetadata * Q :=
  match ps with
  | [] => ([], q)
  | p :: ps =>
      let '(p, q) :=
        match fmq_write (pcm_metadata p) q with
        | Some q' => (p <| fmqMetadataSize := Z.of_nat (length (pcm_metadata p)) |> <| pcm_metadata := [] |>, q')
        | None => (p <| fmqMetadataSize := 0 |>, q)
        end in
      let '(ps, q) := write_physical ps q in (p :: ps, q)
  end.

Definition write_result (r : CaptureResult) (q : Q) : CaptureResult * Q :=
  let '(r, q) :=
    if decide (result_metadata r = []) then (r, q)
    else
      match fmq_write (result_metadata r) q with
      | Some q' => (r <| fmqResultSize := Z.of_nat (length (result_metadata r)) |> <| result_metadata := [] |>, q')
      | None => (r <| fmqResultSize := 0 |>, q)
      end in
  let '(ps, q) := write_physical (physicalCameraMetadata r) q in
  (r <| physicalCameraMetadata := ps |>, q).

Fixpoint write_results (rs : list CaptureResult) (q : Q) : list CaptureResult * Q :=
  match rs with
  | [] => ([], q)
  | r :: rs =>
      let '(r, q) := write_result r q in
      let '(rs, q) := write_results rs q in (r :: rs, q)
  end.

(** The caller's vector is changed in place.  The next element of [w_locks] is
    the outcome of [tryLock] and [timedLock] together; none left means that the
    lock is free. *)
Definition invokeProcessCaptureResultCallback (rs : list CaptureResult) (tryWriteFmq : bool) (w : World Q) :
    list CaptureResult * World Q :=
  let w' := mkWorld (w_queue w) (tail (w_locks w)) (w_events w) in
  if default true (head (w_locks w)) then
    let '(rs, q) :=
      if tryWriteFmq && (0 <? availableToWrite (w_queue w)) then write_results rs (w_queue w) else (rs, w_queue w) in
    (rs, emit (EV_results rs) (mkWorld q (w_locks w') (w_events w')))
  else (rs, emit (EV_timeout rs) w').

Definition processOneCaptureResult (r : CaptureResult) (w : World Q) : World Q :=
  let '(rs, w) := invokeProcessCaptureResultCallback [r] true w in
  freeReleaseFences rs w.

Definition sendBatchShutterCbsLocked (b : InflightBatch) (w : World Q) : InflightBatch * World Q :=
  if mShutterDelivered b then (b, w)
  else (b <| mShutterDelivered := true |> <| mShutterMsgs := [] |>, emit (EV_notify (mShutterMsgs b)) w).

(** First loop of [sendBatchBuffersLocked]: the longest buffer list not yet
    delivered; [None] when a stream is not batched. *)
Fixpoint send_batch_size (bufs : gmap Z BufferBatch) (streams : list Z) (batchSize : nat) : option nat :=
  match streams with
  | [] => Some batchSize
  | id :: streams =>
      match bufs !! id with
      | Some bb =>
          send_batch_size bufs streams
            (if mDelivered bb then batchSize
             else if (batchSize <? length (mBuffers bb))%nat then length (mBuffers bb) else batchSize)
      | None => None
      end
  end.

(** Last loop: [clear] when there were buffers to send. *)
Fixpoint mark_delivered (clear : bool) (streams : list Z) (bufs : gmap Z BufferBatch) : gmap Z BufferBatch :=
  match streams with
  | [] => bufs
  | id :: streams =>
      match bufs !! id with
      | Some bb => mark_delivered clear streams (<[id := mkBufferBatch true (if clear then [] else mBuffers bb)]> bufs)
      | None => bufs
      end
  end.

(** Inner loop: the [i]-th buffers of the streams are moved out.  The first
    loop has found every stream, see [collect_frame_total]. *)
Fixpoint collect_frame (i : nat) (streams : list Z) (outBufs : list StreamBuffer) (bufs : gmap Z BufferBatch) :
    option (list StreamBuffer * gmap Z BufferBatch) :=
  match streams with
  | [] => Some (outBufs, bufs)
  | id :: streams =>
      match bufs !! id with
      | Some bb =>
          match (if mDelivered bb then None else mBuffers bb !! i) with
          | Some sb =>
              let '(outBufs, rest, _) := pushStreamBuffer sb outBufs in
              collect_frame i streams outBufs (<[id := bb <| mBuffers := <[i := rest]> (mBuffers bb) |>]> bufs)
          | None => collect_frame i streams outBufs bufs
          end
      | None => None
      end
  end.

(** A result that carries buffers only. *)
Definition buffer_result (frame : Z) (bufs : list StreamBuffer) : CaptureResult :=
  CaptureResult_default <| frameNumber := i32 frame |>
    <| inputBuffer := StreamBuffer_default <| streamId := -1 |> |>
    <| outputBuffers := (fun b => (moveStreamBuffer b).1.1) <$> bufs |>.

Fixpoint collect_results (first : Z) (i n : nat) (streams : list Z) (bufs : gmap Z BufferBatch) :
    option (list CaptureResult * gmap Z BufferBatch) :=
  match n with
  | O => Some ([], bufs)
  | S n =>
      '(outBufs, bufs) ← collect_frame i streams [] bufs;
      '(rs, bufs) ← collect_results first (1 + i) n streams bufs;
      Some (buffer_result (first + Z.of_nat i) outBufs :: rs, bufs)
  end.

Definition sendBatchBuffersLocked (b : InflightBatch) (streams : list Z) (w : World Q) : InflightBatch * World Q :=
  match send_batch_size (mBatchBufs b) streams 0 with
  | None => (b, w)
  | Some O => (b <| mBatchBufs := mark_delivered false streams (mBatchBufs b) |>, w)
  | Some batchSize =>
      match collect_results (mFirstFrame b) 0 batchSize streams (mBatchBufs b) with
      | None => (b, w)
      | Some (rs, bufs) =>
          let '(rs, w) := invokeProcessCaptureResultCallback rs false w in
          let w := freeReleaseFences rs w in
          (b <| mBatchBufs := mark_delivered true streams bufs |>, w)
      end
  end.

Definition metadata_result (partialIdx : Z) (p : Z * list Z) : CaptureResult :=
  CaptureResult_default <| frameNumber := i32 p.1 |> <| result_metadata := p.2 |>
    <| inputBuffer := StreamBuffer_default <| streamId := -1 |> |>
    <| partialResult := i32 partialIdx |>.

Definition erase_partial (mds : list (Z * list (Z * list Z))) (idx : Z) : list (Z * list (Z * list Z)) :=
  filter (fun e => e.1 <> idx) mds.

Definition sendBatchMetadataLocked (b : InflightBatch) (lastPartialResultIdx : Z) (w : World Q) : InflightBatch * World Q :=
  if lastPartialResultIdx <=? mPartialResultProgress b then (b, w)
  else
    let due := filter (fun e => e.1 <= lastPartialResultIdx) (mResultMds b) in
    let rs := concat (map (fun e => map (metadata_result e.1) e.2) due) in
    let '(_, w) := invokeProcessCaptureResultCallback rs true w in
    (b <| mPartialResultProgress := lastPartialResultIdx |>
       <| mResultMds := fold_left erase_partial (map fst due) (mResultMds b) |>, w).

Definition notifySingleMsg (msg : NotifyMsg) (w : World Q) : World Q := emit (EV_notify [msg]) w.

(** ** Calls of the vendor library *)

Definition msg_frame (msg : NotifyMsg) : Z :=
  match msg with
  | NotifyMsg_shutter f _ => u32 f
  | NotifyMsg_error f _ _ => u32 f
  end.

Definition is_error (msg : NotifyMsg) : bool := match msg with NotifyMsg_error _ _ _ => true | _ => false end.

(** One round of the error loop: the first batch is sent up and dropped.
    [None] is the access to the front of an empty deque. *)
Definition flush_first_batch (rw : ResultBatcher * World Q) : option (ResultBatcher * World Q) :=
  let '(r, w) := rw in
  match mInflightBatches r with
  | [] => None
  | id :: ids =>
      b ← rb_heap r !! id;
      let '(b, w) := sendBatchShutterCbsLocked b w in
      let '(b, w) := sendBatchBuffersLocked b (mStreamsToBatch r) w in
      let '(b, w) := sendBatchMetadataLocked b (rb_mNumPartialResults r) w in
      Some (r <| rb_heap := <[id := b <| mRemoved := true |>]> (rb_heap r) |> <| mInflightBatches := ids |>, w)
  end.

Fixpoint flush_batches (n : nat) (rw : ResultBatcher * World Q) : option (ResultBatcher * World Q) :=
  match n with
  | O => Some rw
  | S n => rw ← flush_first_batch rw; flush_batches n rw
  end.

(** [notify] after [getBatch]: the new state and whether the front of the
    deque is to be checked afterwards. *)
Definition notify_located (loc : option (nat * nat)) (msg : NotifyMsg) (r : ResultBatcher) (w : World Q) :
    option (ResultBatcher * World Q * bool) :=
  match loc with
  | None => Some (r, notifySingleMsg msg w, false)
  | Some (batchIdx, id) =>
      if is_error msg then
        '(r, w) ← flush_batches (1 + batchIdx) (r, w);
        Some (r, notifySingleMsg msg w, false)
      else
        b ← rb_heap r !! id;
        if mRemoved b then Some (r, notifySingleMsg msg w, false)
        else
          let b := b <| mShutterMsgs := mShutterMsgs b ++ [msg] |> in
          let '(b, w) := if msg_frame msg =? mLastFrame b then sendBatchShutterCbsLocked b w else (b, w) in
          Some (r <| rb_heap := <[id := b]> (rb_heap r) |>, w, msg_frame msg =? mLastFrame b)
  end.

(** [mResultMds[partialResult].mMds.push_back(...)] *)
Fixpoint push_metadata (idx : Z) (p : Z * list Z) (mds : list (Z * list (Z * list Z))) : list (Z * list (Z * list Z)) :=
  match mds with
  | [] => [(idx, [p])]
  | (k, ps) :: mds' =>
      if idx <? k then (idx, [p]) :: mds
      else if idx =? k then (k, ps ++ [p]) :: mds'
      else (k, ps) :: push_metadata idx p mds'
  end.

(** The buffers of batched streams are queued, the others collected. *)
Fixpoint queue_buffers (bs : list StreamBuffer) (bufs : gmap Z BufferBatch) (filledStreams : list Z)
    (nonBatched : list StreamBuffer) : gmap Z BufferBatch * list Z * list StreamBuffer :=
  match bs with
  | [] => (bufs, filledStreams, nonBatched)
  | b :: bs =>
      match bufs !! streamId b with
      | Some bb =>
          queue_buffers bs (<[streamId b := bb <| mBuffers := (pushStreamBuffer b (mBuffers bb)).1.1 |>]> bufs)
            (filledStreams ++ [streamId b]) nonBatched
      | None => queue_buffers bs bufs filledStreams (pushStreamBuffer b nonBatched).1.1
      end
  end.

Definition non_batched_result (res : CaptureResult) (nonBatched : list StreamBuffer) : CaptureResult :=
  CaptureResult_default <| frameNumber := frameNumber res |>
    <| outputBuffers := (fun b => (moveStreamBuffer b).1.1) <$> nonBatched |>
    <| inputBuffer := (moveStreamBuffer (inputBuffer res)).1.1 |>.

(** The work on a live batch, under its lock. *)
Definition queue_result (res : CaptureResult) (b : InflightBatch) (w : World Q) : InflightBatch * World Q :=
  let b := if decide (result_metadata res = []) then b
           else b <| mResultMds := push_metadata (u32 (partialResult res)) (u32 (frameNumber res), result_metadata res) (mResultMds b) |> in
  let '(bufs, filledStreams, nonBatched) := queue_buffers (outputBuffers res) (mBatchBufs b) [] [] in
  let b := b <| mBatchBufs := bufs |> in
  let w :=
    if (0 <? length nonBatched)%nat || negb (streamId (inputBuffer res) =? -1)
    then processOneCaptureResult (non_batched_result res nonBatched) w else w in
  if u32 (frameNumber res) =? mLastFrame b then
    let '(b, w) := if 0 <? partialResult res then sendBatchMetadataLocked b (u32 (partialResult res)) w else (b, w) in
    if (0 <? length filledStreams)%nat then sendBatchBuffersLocked b filledStreams w else (b, w)
  else (b, w).

Definition result_located (loc : option (nat * nat)) (res : CaptureResult) (r : ResultBatcher) (w : World Q) :
    option (ResultBatcher * World Q * bool) :=
  match loc with
  | None => Some (r, processOneCaptureResult res w, false)
  | Some (_, id) =>
      b ← rb_heap r !! id;
      if mRemoved b then Some (r, processOneCaptureResult res w, false)
      else
        let '(b', w) := queue_result res b w in
        Some (r <| rb_heap := <[id := b']> (rb_heap r) |>, w, u32 (frameNumber res) =? mLastFrame b')
  end.

Definition finish_call (x : option (ResultBatcher * World Q * bool)) : option (ResultBatcher * World Q) :=
  '(r, w, check) ← x;
  Some (if (check : bool) then checkAndRemoveFirstBatch r else r, w).

Definition notify (msg : NotifyMsg) (r : ResultBatcher) (w : World Q) : option (ResultBatcher * World Q) :=
  finish_call (notify_located (getBatch (msg_frame msg) r) msg r w).

Definition processCaptureResult (res : CaptureResult) (r : ResultBatcher) (w : World Q) : option (ResultBatcher * World Q) :=
  finish_call (result_located (getBatch (u32 (frameNumber res)) r) res r w).

End sending.
