(* ===== verification/CameraDelivery.v ===== *)
(** * What the camera service receives

    The service reads the metadata of a result from the message queue when the
    result says so ([client_view]); items are what a result or a message
    carries ([Item]).  The lemmas of this file say of each sending routine of
    the batcher what it delivers; [CameraBatchSystem.v] and [CameraBatches.v]
    build on them. *)

From S2P Require Import Prelude CameraTypes CameraBatcher.

(** ** The service's side of the queue *)

(** Take [n] bytes from the queue; [None] when there are fewer. *)
Definition read_fmq (n : Z) (s : list Z) : option (list Z * list Z) :=
  if n <=? Z.of_nat (length s) then Some (take (Z.to_nat n) s, drop (Z.to_nat n) s) else None.

Fixpoint client_physical (ps : list PhysicalCameraMetadata) (s : list Z) : option (list PhysicalCameraMetadata * list Z) :=
  match ps with
  | [] => Some ([], s)
  | p :: ps =>
      '(p, s) ← (if 0 <? fmqMetadataSize p then
                   '(bs, s) ← read_fmq (fmqMetadataSize p) s;
                   Some (p <| fmqMetadataSize := 0 |> <| pcm_metadata := bs |>, s)
                 else Some (p, s));
      '(ps, s) ← client_physical ps s;
      Some (p :: ps, s)
  end.

Definition client_result (r : CaptureResult) (s : list Z) : option (CaptureResult * list Z) :=
  '(r, s) ← (if 0 <? fmqResultSize r then
               '(bs, s) ← read_fmq (fmqResultSize r) s;
               Some (r <| fmqResultSize := 0 |> <| result_metadata := bs |>, s)
             else Some (r, s));
  '(ps, s) ← client_physical (physicalCameraMetadata r) s;
  Some (r <| physicalCameraMetadata := ps |>, s).

Fixpoint client_results (rs : list CaptureResult) (s : list Z) : option (list CaptureResult * list Z) :=
  match rs with
  | [] => Some ([], s)
  | r :: rs =>
      '(r, s) ← client_result r s;
      '(rs, s) ← client_results rs s;
      Some (r :: rs, s)
  end.

Fixpoint client_view (evs : list CameraEvent) (s : list Z) : option (list CaptureResult * list Z) :=
  match evs with
  | [] => Some ([], s)
  | EV_results rs :: evs =>
      '(rs, s) ← client_results rs s;
      '(vs, s) ← client_view evs s;
      Some (rs ++ vs, s)
  | _ :: evs => client_view evs s
  end.

(** A result as the session hands it over: no metadata in the queue yet. *)
Definition result_wf (r : CaptureResult) : Prop :=
  fmqResultSize r = 0 /\ Forall (fun p => fmqMetadataSize p = 0) (physicalCameraMetadata r).

Lemma read_fmq_app (bs s : list Z) : read_fmq (Z.of_nat (length bs)) (bs ++ s) = Some (bs, s).
Proof.
  unfold read_fmq. rewrite length_app, (proj2 (Z.leb_le _ _)) by lia. rewrite Nat2Z.id.
  by rewrite take_app_length, drop_app_length.
Qed.

(** The result passed on gives back the original when the bytes it announces
    are taken from the front of the queue. *)
Section queue.
Context {Q : Type} `{MessageQueueLaws Q}.

Lemma write_physical_read (ps : list PhysicalCameraMetadata) (q : Q) :
  Forall (fun p => fmqMetadataSize p = 0) ps ->
  exists bs, fmq_written (write_physical ps q).2 = fmq_written q ++ bs /\
    forall s, client_physical (write_physical ps q).1 (bs ++ s) = Some (ps, s).
Proof.
  intros Hwf. revert q. induction Hwf as [| p ps Hp Hps IH]; intros q; simpl; [exists []; split; [by rewrite app_nil_r | done] |].
  destruct p as [n id md]; simpl in *; subst.
  destruct (fmq_write md q) as [q1 |] eqn:E; simpl.
  - destruct (IH q1) as (bs & Hbs & Hr). destruct (write_physical ps q1) as [ps' q'] eqn:E'; simpl in *.
    exists (md ++ bs). rewrite Hbs, (fmq_write_spec _ _ _ E), <- app_assoc. split; [done | intros s].
    destruct (0 <? Z.of_nat (length md)) eqn:El.
    + rewrite <- app_assoc, read_fmq_app. simpl. by rewrite Hr.
    + apply Z.ltb_ge in El. destruct md as [| b md]; [| simpl in El; lia]. simpl. by rewrite Hr.
  - destruct (IH q) as (bs & Hbs & Hr). destruct (write_physical ps q) as [ps' q'] eqn:E'; simpl in *.
    exists bs. split; [done | intros s]. by rewrite Hr.
Qed.

Lemma write_result_read (r : CaptureResult) (q : Q) :
  result_wf r ->
  exists bs, fmq_written (write_result r q).2 = fmq_written q ++ bs /\
    forall s, client_result (write_result r q).1 (bs ++ s) = Some (r, s).
Proof.
  destruct r as [f n md ob ib pr ps]. intros [Hn Hps]; simpl in *; subst. unfold write_result, client_result; simpl.
  destruct (decide (md = [])) as [-> | Hne]; simpl.
  - destruct (write_physical_read ps q Hps) as (bs & Hbs & Hr). destruct (write_physical ps q) as [ps' q']; simpl in *.
    exists bs. split; [done | intros s; by rewrite Hr].
  - destruct (fmq_write md q) as [q1 |] eqn:E; simpl.
    + destruct (write_physical_read ps q1 Hps) as (bs & Hbs & Hr). destruct (write_physical ps q1) as [ps' q']; simpl in *.
      exists (md ++ bs). rewrite Hbs, (fmq_write_spec _ _ _ E), <- app_assoc. split; [done | intros s].
      destruct md as [| b md]; [done |]. rewrite (proj2 (Z.ltb_lt 0 (Z.of_nat (length (b :: md))))) by (simpl; lia).
      rewrite <- app_assoc, read_fmq_app. cbn [mbind option_bind]. simpl. by rewrite Hr.
    + destruct (write_physical_read ps q Hps) as (bs & Hbs & Hr). destruct (write_physical ps q) as [ps' q']; simpl in *.
      exists bs. split; [done | intros s; by rewrite Hr].
Qed.

Lemma write_results_read (rs : list CaptureResult) (q : Q) :
  Forall result_wf rs ->
  exists bs, fmq_written (write_results rs q).2 = fmq_written q ++ bs /\
    forall s, client_results (write_results rs q).1 (bs ++ s) = Some (rs, s).
Proof.
  intros Hwf. revert q. induction Hwf as [| r rs Hr Hrs IH]; intros q; simpl; [exists []; split; [by rewrite app_nil_r | done] |].
  destruct (write_result_read r q Hr) as (bs1 & Hb1 & Hc1). destruct (write_result r q) as [r' q1]; simpl in *.
  destruct (IH q1) as (bs2 & Hb2 & Hc2). destruct (write_results rs q1) as [rs' q2]; simpl in *.
  exists (bs1 ++ bs2). rewrite Hb2, Hb1, <- app_assoc. split; [done | intros s].
  by rewrite <- app_assoc, Hc1; simpl; rewrite Hc2.
Qed.

Lemma client_results_direct (rs : list CaptureResult) (s : list Z) : Forall result_wf rs -> client_results rs s = Some (rs, s).
Proof.
  intros Hwf. induction Hwf as [| r rs [Hn Hps] Hrs IH]; [done |]. simpl. unfold client_result. rewrite Hn; simpl.
  assert (client_physical (physicalCameraMetadata r) s = Some (physicalCameraMetadata r, s)) as ->.
  { induction Hps as [| p ps Hp Hps IHp]; [done |]. simpl. rewrite Hp; simpl. by rewrite IHp. }
  simpl. rewrite IH. by destruct r.
Qed.

End queue.

Lemma client_view_app (evs1 evs2 : list CameraEvent) (s : list Z) :
  client_view (evs1 ++ evs2) s =
    ('(v1, s1) ← client_view evs1 s; '(v2, s2) ← client_view evs2 s1; Some (v1 ++ v2, s2)).
Proof.
  revert s. induction evs1 as [| [msgs | rs | rs | fds] evs1 IH]; intros s; simpl.
  1: by destruct (client_view evs2 s) as [[v s'] |].
  all: try apply IH.
  - destruct (client_results rs s) as [[v s'] |]; simpl; [| done]. rewrite IH.
    destruct (client_view evs1 s') as [[v1 s1] |]; simpl; [| done].
    destruct (client_view evs2 s1) as [[v2 s2] |]; simpl; [by rewrite app_assoc | done].
Qed.

(** ** Items *)

Inductive Item :=
  | IMsg (msg : NotifyMsg)
  | IBuf (b : StreamBuffer)
  | IInput (b : StreamBuffer)
  | IMeta (frame partial : Z) (bytes : list Z)
  | IPhysical (frame : Z) (p : PhysicalCameraMetadata).
#[export] Instance Item_eq : EqDecision Item.
Proof. solve_decision. Defined.

Definition result_items (r : CaptureResult) : list Item :=
  (if decide (result_metadata r = []) then [] else [IMeta (u32 (frameNumber r)) (u32 (partialResult r)) (result_metadata r)]) ++
  (IBuf <$> outputBuffers r) ++
  (if streamId (inputBuffer r) =? -1 then [] else [IInput (inputBuffer r)]) ++
  (IPhysical (u32 (frameNumber r)) <$> physicalCameraMetadata r).

Definition results_items (rs : list CaptureResult) : list Item := concat (map result_items rs).

(** What an event carries apart from delivered results: messages, and results
    given up because the callback stayed busy for a second. *)
Definition notified_by (e : CameraEvent) : list Item := match e with EV_notify msgs => IMsg <$> msgs | _ => [] end.
Definition given_up_by (e : CameraEvent) : list Item := match e with EV_timeout rs => results_items rs | _ => [] end.
Definition event_items (e : CameraEvent) : list Item := notified_by e ++ given_up_by e.

Definition events_items (evs : list CameraEvent) : list Item := concat (map event_items evs).
Definition notified (evs : list CameraEvent) : list Item := concat (map notified_by evs).
Definition given_up (evs : list CameraEvent) : list Item := concat (map given_up_by evs).

Definition is_timeout (e : CameraEvent) : bool := match e with EV_timeout _ => true | _ => false end.

Definition bufs_items (bufs : gmap Z BufferBatch) : list Item :=
  concat (map (fun p => IBuf <$> mBuffers p.2) (map_to_list bufs)).

Definition mds_items (mds : list (Z * list (Z * list Z))) : list Item :=
  concat (map (fun e => (fun p => IMeta p.1 e.1 p.2) <$> e.2) mds).

(** What a batch still holds back. *)
Definition batch_items (b : InflightBatch) : list Item :=
  (IMsg <$> mShutterMsgs b) ++ bufs_items (mBatchBufs b) ++ mds_items (mResultMds b).

Definition heap_items (heap : list InflightBatch) : list Item := concat (map batch_items heap).

Lemma results_items_app (a b : list CaptureResult) : results_items (a ++ b) = results_items a ++ results_items b.
Proof. unfold results_items. by rewrite map_app, concat_app. Qed.

Lemma events_items_app (a b : list CameraEvent) : events_items (a ++ b) = events_items a ++ events_items b.
Proof. unfold events_items. by rewrite map_app, concat_app. Qed.

Lemma events_items_split (evs : list CameraEvent) (x : Item) :
  occ x (events_items evs) = (occ x (notified evs) + occ x (given_up evs))%nat.
Proof.
  induction evs as [| e evs IH]; [done |]. unfold events_items, notified, given_up in *. cbn [map concat]. unfold event_items at 1.
  rewrite !occ_app, IH. lia.
Qed.

Lemma given_up_none (evs : list CameraEvent) : Forall (fun e => is_timeout e = false) evs -> given_up evs = [].
Proof. induction 1 as [| e evs He _ IH]; [done |]. unfold given_up in *. cbn [map concat]. rewrite IH. by destruct e. Qed.

(** ** What the sending routines deliver *)

Section world.
Context {Q : Type} `{MessageQueueLaws Q}.

Definition delivered (w : World Q) : list CaptureResult :=
  match client_view (w_events w) (fmq_written (w_queue w)) with
  | Some (rs, _) => rs
  | None => []
  end.

(** Everything that has left the batcher. *)
Definition out_items (w : World Q) : list Item := results_items (delivered w) ++ events_items (w_events w).

(** The service can read every result it was sent, and finds the queue empty
    afterwards. *)
Definition readable (w : World Q) : Prop :=
  exists rs, forall s, client_view (w_events w) (fmq_written (w_queue w) ++ s) = Some (rs, s).

(** The callback was free so far, and its lock is going to be. *)
Definition prompt (w : World Q) : Prop := Forall (fun b => b = true) (w_locks w) /\ Forall (fun e => is_timeout e = false) (w_events w).

Lemma prompt_emit (e : CameraEvent) (w : World Q) : is_timeout e = false -> prompt w -> prompt (emit e w).
Proof. intros He [Hl Hev]. split; [done |]. cbn. apply Forall_app. split; [done | by constructor]. Qed.

(** From [w] to [w'] exactly [items] is sent. *)
Record sends (w w' : World Q) (items : list Item) : Prop := {
  snd_readable : readable w';
  snd_items : forall x, occ x (out_items w') = (occ x (out_items w) + occ x items)%nat;
  snd_prompt : prompt w -> prompt w'
}.

Lemma delivered_eq (w : World Q) (rs : list CaptureResult) :
  (forall s, client_view (w_events w) (fmq_written (w_queue w) ++ s) = Some (rs, s)) -> delivered w = rs.
Proof. intros Hr. unfold delivered. specialize (Hr []). rewrite app_nil_r in Hr. by rewrite Hr. Qed.

Lemma sends_refl (w : World Q) : readable w -> sends w w [].
Proof. intros Hr. split; [done | intros x; rewrite occ_nil; lia | done]. Qed.

Lemma sends_trans (w1 w2 w3 : World Q) (a b : list Item) : sends w1 w2 a -> sends w2 w3 b -> sends w1 w3 (a ++ b).
Proof.
  intros [R1 I1 F1] [R2 I2 F2]. split; [done | | by auto].
  intros x. rewrite I2, I1, occ_app. lia.
Qed.

Lemma sends_perm (w1 w2 : World Q) (a b : list Item) : sends w1 w2 a -> (forall x, occ x a = occ x b) -> sends w1 w2 b.
Proof. intros [R I F] Hab. split; [done | | done]. intros x. by rewrite I, Hab. Qed.

(** Events that carry no results leave the service's view alone. *)
Lemma emit_plain (e : CameraEvent) (w : World Q) :
  (forall s, client_view [e] s = Some ([], s)) -> readable w ->
  readable (emit e w) /\ delivered (emit e w) = delivered w.
Proof.
  intros He [rs Hr].
  assert (forall s, client_view (w_events (emit e w)) (fmq_written (w_queue (emit e w)) ++ s) = Some (rs, s)) as Hr'.
  { intros s. cbn [emit w_events w_queue]. rewrite client_view_app, Hr. cbn [mbind option_bind]. rewrite He. simpl. by rewrite app_nil_r. }
  split; [by exists rs |]. by rewrite (delivered_eq _ _ Hr'), (delivered_eq _ _ Hr).
Qed.

Lemma notify_sends (msgs : list NotifyMsg) (w : World Q) : readable w -> sends w (emit (EV_notify msgs) w) (IMsg <$> msgs).
Proof.
  intros Hr. destruct (emit_plain (EV_notify msgs) w (fun s => eq_refl) Hr) as [Hr' Hd]. split; [done | |].
  - intros x. unfold out_items. rewrite Hd. cbn [emit w_events]. rewrite events_items_app, !occ_app.
    unfold events_items at 2, event_items. simpl. rewrite !app_nil_r. lia.
  - by apply prompt_emit.
Qed.

(** The results given to the callback and the bytes they leave in the queue. *)
Lemma callback_results (rs : list CaptureResult) (fmq : bool) (w : World Q) :
  Forall result_wf rs ->
  exists rs' q' bs,
    (if fmq && (0 <? availableToWrite (w_queue w)) then write_results rs (w_queue w) else (rs, w_queue w)) = (rs', q') /\
    fmq_written q' = fmq_written (w_queue w) ++ bs /\ (forall s, client_results rs' (bs ++ s) = Some (rs, s)) /\ (fmq = false -> rs' = rs).
Proof.
  intros Hwf. destruct (fmq && _) eqn:Ef.
  - destruct (write_results_read rs (w_queue w) Hwf) as (bs & Hb & Hc).
    destruct (write_results rs (w_queue w)) as [rs' q']. exists rs', q', bs. split_and!; [done .. |]. by intros ->.
  - exists rs, (w_queue w), []. split_and!; [done | by rewrite app_nil_r | | done].
    intros s. by apply client_results_direct.
Qed.

(** The callback on results, with or without the queue and in time or not. *)
Lemma invoke_sends (rs : list CaptureResult) (fmq : bool) (w : World Q) :
  Forall result_wf rs -> readable w -> sends w (invokeProcessCaptureResultCallback rs fmq w).2 (results_items rs).
Proof.
  intros Hwf [vs Hr]. unfold invokeProcessCaptureResultCallback.
  destruct (default true (head (w_locks w))) eqn:Efree.
  - destruct (callback_results rs fmq w Hwf) as (rs' & q' & bs & -> & Hq & Hc & _). cbn [snd].
    set (w' := emit _ _).
    assert (forall s, client_view (w_events w') (fmq_written (w_queue w') ++ s) = Some (vs ++ rs, s)) as Hr'.
    { intros s. cbn [w' emit w_events w_queue]. rewrite Hq, client_view_app, <- app_assoc, Hr. cbn [mbind option_bind client_view].
      rewrite Hc. simpl. by rewrite app_nil_r. }
    split; [by exists (vs ++ rs) | |].
    + intros x. unfold out_items. rewrite (delivered_eq _ _ Hr'), (delivered_eq _ _ Hr), results_items_app.
      cbn [w' emit w_events]. rewrite events_items_app, !occ_app. unfold events_items at 2. simpl. rewrite occ_nil. lia.
    + intros [Hl Hev]. apply prompt_emit; [done |]. split; [| done]. cbn. destruct Hl; [constructor | done].
  - cbn [snd]. set (w1 := mkWorld _ _ _). assert (readable w1) as Hr1 by (by exists vs).
    destruct (emit_plain (EV_timeout rs) w1 (fun s => eq_refl) Hr1) as [Hr' Hd]. split; [done | |].
    + intros x. unfold out_items. rewrite Hd. assert (delivered w1 = delivered w) as -> by done.
      cbn [emit w_events w1]. rewrite events_items_app, !occ_app. unfold events_items at 2, event_items. simpl. rewrite app_nil_r. lia.
    + intros [Hl _]. destruct Hl as [| b l -> _]; done.
Qed.

(** With the fences closed afterwards, as for buffers. *)
Lemma invoke_free_sends (rs : list CaptureResult) (fmq : bool) (w : World Q) :
  Forall result_wf rs -> readable w ->
  sends w (let '(rs', w') := invokeProcessCaptureResultCallback rs fmq w in freeReleaseFences rs' w') (results_items rs).
Proof.
  intros Hwf Hr. pose proof (invoke_sends rs fmq w Hwf Hr) as [R I F].
  destruct (invokeProcessCaptureResultCallback rs fmq w) as [rs' w']. cbn [snd] in *.
  unfold freeReleaseFences. destruct (emit_plain (EV_freeFences (concat (map result_fences rs'))) w' (fun s => eq_refl) R) as [R' D].
  split; [done | | intros Hp; by apply prompt_emit, F].
  intros x. rewrite <- I. unfold out_items. rewrite D. cbn [emit w_events]. rewrite events_items_app, !occ_app.
  unfold events_items at 2. simpl. rewrite occ_nil. lia.
Qed.

Lemma processOne_sends (r : CaptureResult) (w : World Q) :
  result_wf r -> readable w -> sends w (processOneCaptureResult r w) (result_items r).
Proof.
  intros Hwf Hr. eapply sends_perm; [unfold processOneCaptureResult; apply invoke_free_sends; [by constructor | done] |].
  intros x. unfold results_items. simpl. by rewrite app_nil_r.
Qed.

End world.

(** ** Buffers of a batch *)

Lemma bufs_items_insert (bufs : gmap Z BufferBatch) (id : Z) (bb bb' : BufferBatch) (x : Item) :
  bufs !! id = Some bb ->
  (occ x (bufs_items (<[id := bb']> bufs)) + occ x (IBuf <$> mBuffers bb) = occ x (bufs_items bufs) + occ x (IBuf <$> mBuffers bb'))%nat.
Proof.
  intros Hid. set (f := fun p : Z * BufferBatch => IBuf <$> mBuffers p.2).
  assert (forall c, occ x (bufs_items (<[id := c]> bufs)) = (occ x (IBuf <$> mBuffers c) + occ x (bufs_items (delete id bufs)))%nat) as Hi.
  { intros c. rewrite <- insert_delete_eq. unfold bufs_items.
    rewrite <- occ_app. apply occ_perm. rewrite map_to_list_insert by apply lookup_delete_eq. done. }
  rewrite Hi. specialize (Hi bb). rewrite insert_id in Hi by done. lia.
Qed.

Lemma mark_delivered_lookup (clear : bool) (streams : list Z) (bufs : gmap Z BufferBatch) (id : Z) :
  (forall s, s ∈ streams -> is_Some (bufs !! s)) ->
  mark_delivered clear streams bufs !! id =
    if decide (id ∈ streams) then (fun bb => mkBufferBatch true (if clear then [] else mBuffers bb)) <$> bufs !! id
    else bufs !! id.
Proof.
  revert bufs. induction streams as [| s streams IH]; intros bufs Hs; simpl.
  - destruct (decide (id ∈ [])) as [Hin | _]; [by apply not_elem_of_nil in Hin | done].
  - destruct (Hs s ltac:(by constructor)) as [bb Hbb]. rewrite Hbb, IH.
    + destruct (decide (s = id)) as [-> | Hne].
      * rewrite lookup_insert_eq, Hbb. destruct (decide (id ∈ id :: streams)) as [_ | []]; [| by constructor].
        destruct (decide (id ∈ streams)); simpl; [by destruct clear | done].
      * rewrite lookup_insert_ne by done. destruct (decide (id ∈ streams)) as [Hin | Hni].
        -- destruct (decide (id ∈ s :: streams)) as [_ | []]; [done | by constructor].
        -- destruct (decide (id ∈ s :: streams)) as [Hin | _]; [| done]. apply elem_of_cons in Hin. naive_solver.
    + intros s' Hs'. destruct (decide (s = s')) as [-> | Hne]; [rewrite lookup_insert_eq; by eexists |].
      rewrite lookup_insert_ne by done. apply Hs. by constructor.
Qed.

(** Buffers held for the streams of a list. *)
Definition held (streams : list Z) (bufs : gmap Z BufferBatch) : list StreamBuffer :=
  concat (map (fun s => match bufs !! s with Some bb => mBuffers bb | None => [] end) streams).

Lemma mark_delivered_items (streams : list Z) (bufs : gmap Z BufferBatch) (x : Item) :
  NoDup streams -> (forall s, s ∈ streams -> is_Some (bufs !! s)) ->
  (occ x (bufs_items (mark_delivered true streams bufs)) + occ x (IBuf <$> held streams bufs) = occ x (bufs_items bufs))%nat.
Proof.
  intros Hnd. revert bufs. induction Hnd as [| s streams Hni Hnd IH]; intros bufs Hs; simpl; [rewrite occ_nil; lia |].
  destruct (Hs s ltac:(by constructor)) as [bb Hbb]. rewrite Hbb.
  unfold held. simpl. rewrite Hbb, fmap_app, occ_app.
  pose proof (bufs_items_insert bufs s bb (mkBufferBatch true []) x Hbb) as Hins. simpl in Hins. rewrite occ_nil in Hins.
  rewrite <- (IH (<[s := mkBufferBatch true []]> bufs)) in Hins.
  - assert (held streams (<[s := mkBufferBatch true []]> bufs) = held streams bufs) as Heq.
    { unfold held. f_equal. apply map_ext_in. intros s' Hs'. rewrite lookup_insert_ne; [done |].
      intros ->. apply Hni. by apply list_elem_of_In. }
    rewrite Heq in Hins. unfold held in Hins. lia.
  - intros s' Hs'. rewrite lookup_insert_ne; [apply Hs; by constructor | by intros ->].
Qed.

(** The buffers of the [i]-th frame. *)
Definition frame_buf (i : nat) (bufs : gmap Z BufferBatch) (s : Z) : option StreamBuffer :=
  bb ← bufs !! s; if mDelivered bb then None else mBuffers bb !! i.

Definition frame_bufs (i : nat) (streams : list Z) (bufs : gmap Z BufferBatch) : list StreamBuffer :=
  omap (frame_buf i bufs) streams.

(** [bufs'] is [bufs] up to the buffers of the [i]-th frame of the streams. *)
Definition same_but (i : nat) (streams : list Z) (bufs bufs' : gmap Z BufferBatch) : Prop :=
  (forall s, s ∉ streams -> bufs' !! s = bufs !! s) /\
  (forall s, is_Some (bufs' !! s) <-> is_Some (bufs !! s)) /\
  (forall s j, j <> i -> frame_buf j bufs' s = frame_buf j bufs s).

Lemma collect_frame_spec (i : nat) (streams : list Z) (out : list StreamBuffer) (bufs : gmap Z BufferBatch) :
  NoDup streams -> (forall s, s ∈ streams -> is_Some (bufs !! s)) ->
  exists bufs', collect_frame i streams out bufs = Some (out ++ frame_bufs i streams bufs, bufs') /\ same_but i streams bufs bufs'.
Proof.
  intros Hnd. revert out bufs. induction Hnd as [| s streams Hni Hnd IH]; intros out bufs Hs; simpl.
  - exists bufs. rewrite app_nil_r. done.
  - destruct (Hs s ltac:(by constructor)) as [bb Hbb]. rewrite Hbb.
    assert (frame_buf i bufs s = if mDelivered bb then None else mBuffers bb !! i) as Hfb by (unfold frame_buf; by rewrite Hbb).
    unfold frame_bufs. simpl. rewrite Hfb.
    destruct (if mDelivered bb then None else mBuffers bb !! i) as [sb |] eqn:E.
    + assert (mkStreamBuffer (streamId sb) (bufferId sb) (buffer sb) (status sb) (acquireFence sb) (releaseFence sb) = sb) as -> by (by destruct sb).
      set (bufs1 := <[s := _]> bufs).
      destruct (IH (out ++ [sb]) bufs1) as (bufs' & -> & H1 & H2 & H3).
      { intros s' Hs'. unfold bufs1. rewrite lookup_insert_ne; [apply Hs; by constructor | by intros ->]. }
      exists bufs'. split.
      { f_equal. f_equal. rewrite <- app_assoc. f_equal. simpl. f_equal. unfold frame_bufs.
        apply list_omap_ext. apply Forall_Forall2_diag, Forall_forall. intros s' Hs'. unfold frame_buf, bufs1.
        rewrite lookup_insert_ne; [done | by intros ->]. }
      split_and!.
      * intros s' Hs'. rewrite not_elem_of_cons in Hs'. rewrite H1 by tauto. unfold bufs1. by rewrite lookup_insert_ne by naive_solver.
      * intros s'. rewrite H2. unfold bufs1. destruct (decide (s = s')) as [<- | Hne].
        -- rewrite lookup_insert_eq, Hbb. split; eauto.
        -- by rewrite lookup_insert_ne.
      * intros s' j Hj. rewrite H3 by done. unfold frame_buf, bufs1. destruct (decide (s = s')) as [<- | Hne].
        -- rewrite lookup_insert_eq, Hbb. simpl. by rewrite list_lookup_insert_ne by done.
        -- by rewrite lookup_insert_ne.
    + destruct (IH out bufs) as (bufs' & -> & H1 & H2 & H3); [intros s' Hs'; apply Hs; by constructor |].
      exists bufs'. split; [done |]. split_and!; [| done | done].
      intros s' Hs'. rewrite not_elem_of_cons in Hs'. apply H1. tauto.
Qed.

Lemma collect_results_spec (first : Z) (i n : nat) (streams : list Z) (bufs : gmap Z BufferBatch) :
  NoDup streams -> (forall s, s ∈ streams -> is_Some (bufs !! s)) ->
  exists bufs',
    collect_results first i n streams bufs =
      Some ((fun k => buffer_result (first + Z.of_nat k) (frame_bufs k streams bufs)) <$> seq i n, bufs') /\
    (forall s, s ∉ streams -> bufs' !! s = bufs !! s) /\ (forall s, is_Some (bufs' !! s) <-> is_Some (bufs !! s)).
Proof.
  intros Hnd. revert i bufs. induction n as [| n IH]; intros i bufs Hs; [by exists bufs |].
  destruct (collect_frame_spec i streams [] bufs Hnd Hs) as (b1 & E1 & H1 & H2 & H3).
  destruct (IH (1 + i)%nat b1) as (b2 & E2 & H4 & H5).
  { intros s Hin. apply H2. by apply Hs. }
  exists b2. cbn [collect_results seq fmap list_fmap]. rewrite E1. cbn [mbind option_bind]. rewrite E2. cbn [mbind option_bind]. split.
  - f_equal. f_equal. f_equal. apply list_fmap_ext. intros k j Hk. apply lookup_seq in Hk as [-> Hk].
    f_equal. unfold frame_bufs. apply list_omap_ext. apply Forall_Forall2_diag, Forall_forall. intros s Hin. apply H3. lia.
  - split; [intros s Hin; by rewrite H4, H1 | intros s; by rewrite H5, H2].
Qed.

Lemma send_batch_size_spec (bufs : gmap Z BufferBatch) (streams : list Z) (acc : nat) :
  (forall s, s ∈ streams -> is_Some (bufs !! s)) ->
  exists n, send_batch_size bufs streams acc = Some n /\ (acc <= n)%nat /\
    (forall s bb, s ∈ streams -> bufs !! s = Some bb -> mDelivered bb = false -> (length (mBuffers bb) <= n)%nat) /\
    (forall m, (acc <= m)%nat ->
       (forall s bb, s ∈ streams -> bufs !! s = Some bb -> mDelivered bb = false -> (length (mBuffers bb) <= m)%nat) -> (n <= m)%nat).
Proof.
  revert acc. induction streams as [| s streams IH]; intros acc Hs; simpl.
  - exists acc. split_and!; [done | lia | | done]. intros s bb Hin. by apply not_elem_of_nil in Hin.
  - destruct (Hs s ltac:(by constructor)) as [bb Hbb]. rewrite Hbb.
    destruct (IH (if mDelivered bb then acc else if (acc <? length (mBuffers bb))%nat then length (mBuffers bb) else acc)) as (n & -> & H1 & H2 & H3).
    { intros s' Hs'. apply Hs. by constructor. }
    exists n. assert (acc <= n)%nat as Hacc by (destruct (mDelivered bb); [lia |]; destruct (Nat.ltb_spec acc (length (mBuffers bb))); lia).
    split_and!; [done | lia | |].
    + intros s' bb' [-> | Hin]%elem_of_cons Hl Hd; [| by eapply H2]. simplify_eq. rewrite Hd in H1.
      destruct (Nat.ltb_spec acc (length (mBuffers bb))); lia.
    + intros m Hm Hall. apply H3; [| intros s' bb' Hin; apply Hall; by constructor].
      destruct (mDelivered bb) eqn:Hd; [lia |]. specialize (Hall s bb ltac:(by constructor) Hbb Hd).
      destruct (Nat.ltb_spec acc (length (mBuffers bb))); lia.
Qed.

(** A delivered stream holds nothing back. *)
Definition bufs_ok (bufs : gmap Z BufferBatch) : Prop :=
  forall s bb, bufs !! s = Some bb -> mDelivered bb = true -> mBuffers bb = [].

Lemma concat_lookups {A} (l : list A) (n : nat) :
  (length l <= n)%nat -> concat (map (fun k => option_list (l !! k)) (seq 0 n)) = l.
Proof.
  revert l. induction n as [| n IH]; intros l Hl; [by destruct l; simpl in *; [| lia] |].
  cbn [seq map concat]. rewrite <- seq_shift, map_map. destruct l as [| a l]; simpl.
  - apply (IH []). simpl. lia.
  - f_equal. apply IH. simpl in Hl. lia.
Qed.

Lemma occ_concat_app {A B} `{EqDecision B} (x : B) (f g : A -> list B) (l : list A) :
  occ x (concat (map (fun k => f k ++ g k) l)) = (occ x (concat (map f l)) + occ x (concat (map g l)))%nat.
Proof. induction l as [| a l IH]; simpl; [done |]. rewrite !occ_app, IH. lia. Qed.

(** Frame by frame or stream by stream, the same buffers. *)
Lemma frames_held (streams : list Z) (bufs : gmap Z BufferBatch) (n : nat) (x : StreamBuffer) :
  bufs_ok bufs -> (forall s, s ∈ streams -> is_Some (bufs !! s)) ->
  (forall s bb, s ∈ streams -> bufs !! s = Some bb -> mDelivered bb = false -> (length (mBuffers bb) <= n)%nat) ->
  occ x (concat (map (fun k => frame_bufs k streams bufs) (seq 0 n))) = occ x (held streams bufs).
Proof.
  intros Hok. induction streams as [| s streams IH]; intros Hs Hn.
  - unfold held; simpl. clear. induction (seq 0 n); simpl; [done |]. done.
  - destruct (Hs s ltac:(by constructor)) as [bb Hbb]. unfold held in *; simpl. rewrite Hbb, occ_app, <- IH.
    + rewrite (map_ext _ (fun k => option_list (frame_buf k bufs s) ++ frame_bufs k streams bufs)).
      2:{ intros k. unfold frame_bufs; simpl. by destruct (frame_buf k bufs s). }
      rewrite occ_concat_app. f_equal. unfold frame_buf. rewrite Hbb; simpl.
      destruct (mDelivered bb) eqn:Hd.
      * rewrite (Hok s bb Hbb Hd). clear. induction (seq 0 n); simpl; done.
      * rewrite concat_lookups; [done |]. eapply Hn; [by constructor | done | done].
    + intros s' Hs'. apply Hs. by constructor.
    + intros s' bb' Hs'. apply Hn. by constructor.
Qed.

Lemma occ_fmap_IBuf (x : Item) (l k : list StreamBuffer) : (forall b, occ b l = occ b k) -> occ x (IBuf <$> l) = occ x (IBuf <$> k).
Proof.
  intros Hlk. assert (forall l b, occ (IBuf b) (IBuf <$> l) = occ b l) as Hin.
  { intros l' b. induction l' as [| a l' IH]; [done |]. cbn [fmap list_fmap]. rewrite !occ_cons.
    change (list_fmap StreamBuffer Item IBuf l') with (IBuf <$> l'). rewrite IH. f_equal.
    destruct (decide (a = b)) as [-> | ?]; destruct (decide _); congruence. }
  assert (forall l, (forall b, x <> IBuf b) -> occ x (IBuf <$> l) = 0%nat) as H0.
  { intros l' Hx. apply occ_not_elem. intros (b & -> & _)%list_elem_of_fmap. by apply (Hx b). }
  destruct x as [m | b | b | f p bs | f p]; [| by rewrite !Hin | | |]; by rewrite !H0.
Qed.

Lemma buffer_result_items (f : Z) (bs : list StreamBuffer) : result_items (buffer_result f bs) = IBuf <$> bs.
Proof.
  unfold result_items, buffer_result. rewrite moved_buffers. simpl. by rewrite app_nil_r.
Qed.

Section batch_sending.
Context {Q : Type} `{MessageQueueLaws Q}.

Lemma sendBatchBuffers_spec (b : InflightBatch) (streams : list Z) (w : World Q) :
  NoDup streams -> (forall s, s ∈ streams -> is_Some (mBatchBufs b !! s)) -> bufs_ok (mBatchBufs b) -> readable w ->
  (sendBatchBuffersLocked b streams w).1 = b <| mBatchBufs := mark_delivered true streams (mBatchBufs b) |> /\
  sends w (sendBatchBuffersLocked b streams w).2 (IBuf <$> held streams (mBatchBufs b)).
Proof.
  intros Hnd Hs Hok Hr. unfold sendBatchBuffersLocked.
  destruct (send_batch_size_spec (mBatchBufs b) streams 0 Hs) as (n & -> & _ & Hn & _). destruct n as [| n].
  - assert (forall s bb, s ∈ streams -> mBatchBufs b !! s = Some bb -> mBuffers bb = []) as Hempty.
    { intros s bb Hin Hbb. destruct (mDelivered bb) eqn:Hd; [by eapply Hok |]. specialize (Hn s bb Hin Hbb Hd).
      destruct (mBuffers bb); [done | simpl in Hn; lia]. }
    simpl. split.
    + f_equal. apply map_eq. intros id. rewrite !mark_delivered_lookup by done. destruct (decide (id ∈ streams)) as [Hin | ?]; [| done].
      destruct (mBatchBufs b !! id) as [bb |] eqn:E; [| done]. simpl. by rewrite (Hempty id bb Hin E).
    + assert (held streams (mBatchBufs b) = []) as ->; [| by apply sends_refl].
      clear -Hempty. unfold held. induction streams as [| s streams IH]; [done |]. simpl.
      rewrite IH by (intros s' bb Hin; apply Hempty; by constructor).
      destruct (mBatchBufs b !! s) as [bb |] eqn:E; [| done]. by rewrite (Hempty s bb ltac:(by constructor) E).
  - destruct (collect_results_spec (mFirstFrame b) 0 (S n) streams (mBatchBufs b) Hnd Hs) as (bufs' & -> & Hout & Hdom).
    set (rs := _ <$> seq 0 (S n)).
    pose proof (invoke_free_sends rs false w) as Hsend.
    destruct (invokeProcessCaptureResultCallback rs false w) as [rs' w']. simpl. split.
    + f_equal. apply map_eq. intros id. rewrite !mark_delivered_lookup; [| exact Hs | intros s Hin; apply Hdom; by apply Hs].
      destruct (decide (id ∈ streams)) as [Hin | Hni]; [| by rewrite Hout].
      destruct (Hs id Hin) as [bb Hbb]. destruct (proj2 (Hdom id) (Hs id Hin)) as [bb' Hbb']. by rewrite Hbb, Hbb'.
    + eapply sends_perm; [apply Hsend; [| done] |].
      * apply Forall_fmap, Forall_forall. intros k _. split; [done | constructor].
      * intros x. assert (results_items rs = IBuf <$> concat (map (fun k => frame_bufs k streams (mBatchBufs b)) (seq 0 (S n)))) as ->.
        { unfold results_items, rs. clear. induction (seq 0 (S n)) as [| k ks IH]; [done |]. cbn [fmap list_fmap map concat].
          rewrite fmap_app, <- IH, buffer_result_items. done. }
        apply occ_fmap_IBuf. intros sb. by apply frames_held.
Qed.

End batch_sending.

(** ** Metadata of a batch *)

(** A frame's entry: the queues only hold metadata that is there. *)
Definition md_ok (p : Z * list Z) : Prop := is_u32 p.1 /\ p.2 <> [].

Definition partial_ok (e : Z * list (Z * list Z)) : Prop := is_u32 e.1 /\ Forall md_ok e.2.

Lemma mds_items_cons (e : Z * list (Z * list Z)) (mds : list (Z * list (Z * list Z))) :
  mds_items (e :: mds) = ((fun p => IMeta p.1 e.1 p.2) <$> e.2) ++ mds_items mds.
Proof. done. Qed.

Lemma mds_items_split (P : Z * list (Z * list Z) -> Prop) `{forall e, Decision (P e)} (mds : list (Z * list (Z * list Z))) (x : Item) :
  (occ x (mds_items (filter P mds)) + occ x (mds_items (filter (fun e => ~ P e) mds)) = occ x (mds_items mds))%nat.
Proof.
  induction mds as [| e mds IH]; [done |]. rewrite !filter_cons.
  destruct (decide (P e)), (decide (¬ P e)); try tauto; rewrite !mds_items_cons, !occ_app; lia.
Qed.

Lemma erase_partials (keys : list Z) (mds : list (Z * list (Z * list Z))) :
  fold_left erase_partial keys mds = filter (fun e => e.1 ∉ keys) mds.
Proof.
  revert mds. induction keys as [| k keys IH]; intros mds; simpl.
  - induction mds as [| e mds IHm]; [done |]. rewrite filter_cons, <- IHm. rewrite decide_True; [done | apply not_elem_of_nil].
  - rewrite IH. unfold erase_partial. rewrite list_filter_filter. apply list_filter_iff. intros e. rewrite not_elem_of_cons. tauto.
Qed.

Lemma filter_ext_elem {A} (P R : A -> Prop) `{forall a, Decision (P a)} `{forall a, Decision (R a)} (l : list A) :
  (forall a, a ∈ l -> P a <-> R a) -> filter P l = filter R l.
Proof.
  induction l as [| a l IH]; intros Hl; [done |]. rewrite !filter_cons, IH by (intros a' Ha'; apply Hl; by constructor).
  specialize (Hl a ltac:(by constructor)). destruct (decide (P a)), (decide (R a)); tauto.
Qed.

Lemma filter_all_elem {A} (P : A -> Prop) `{forall a, Decision (P a)} (l : list A) : (forall a, a ∈ l -> P a) -> filter P l = l.
Proof.
  induction l as [| a l IH]; intros Hl; [done |]. rewrite filter_cons, IH by (intros a' Ha'; apply Hl; by constructor).
  rewrite decide_True; [done |]. apply Hl. by constructor.
Qed.

Lemma filter_no_elem {A} (P : A -> Prop) `{forall a, Decision (P a)} (l : list A) : (forall a, a ∈ l -> ~ P a) -> filter P l = [].
Proof.
  induction l as [| a l IH]; intros Hl; [done |]. rewrite filter_cons, IH by (intros a' Ha'; apply Hl; by constructor).
  rewrite decide_False; [done |]. apply Hl. by constructor.
Qed.

Lemma erase_due (last : Z) (mds : list (Z * list (Z * list Z))) :
  fold_left erase_partial (map fst (filter (fun e => e.1 <= last) mds)) mds = filter (fun e => ~ e.1 <= last) mds.
Proof.
  rewrite erase_partials. apply filter_ext_elem. intros e He. split.
  - intros Hn Hle. apply Hn. apply list_elem_of_In, in_map_iff. exists e. split; [done |].
    apply list_elem_of_In, list_elem_of_filter. done.
  - intros Hn Hin. apply list_elem_of_In, in_map_iff in Hin as (e' & E & Hin). apply list_elem_of_In, list_elem_of_filter in Hin as [? _].
    rewrite E in *. done.
Qed.

Lemma push_metadata_items (idx : Z) (p : Z * list Z) (mds : list (Z * list (Z * list Z))) (x : Item) :
  occ x (mds_items (push_metadata idx p mds)) = (occ x (mds_items mds) + occ x [IMeta p.1 idx p.2])%nat.
Proof.
  induction mds as [| [k ps] mds IH]; [done |]. simpl. bool_cases; subst; rewrite ?mds_items_cons, ?occ_app; simpl.
  - rewrite !occ_cons, ?occ_nil. lia.
  - rewrite fmap_app, occ_app. simpl. lia.
  - rewrite IH. simpl. lia.
Qed.

Lemma push_metadata_Forall (P : Z * list (Z * list Z) -> Prop) (idx : Z) (p : Z * list Z) (mds : list (Z * list (Z * list Z))) :
  P (idx, [p]) -> (forall ps, P (idx, ps) -> P (idx, ps ++ [p])) -> Forall P mds -> Forall P (push_metadata idx p mds).
Proof.
  intros H1 H2 Hall. induction Hall as [| [k ps] mds Hk Hmds IH]; simpl; [by constructor |].
  bool_cases; subst; by repeat (constructor; auto).
Qed.

Lemma metadata_result_items (idx : Z) (p : Z * list Z) :
  is_u32 idx -> md_ok p -> result_items (metadata_result idx p) = [IMeta p.1 idx p.2].
Proof.
  intros Hi [Hp Hne]. unfold result_items, metadata_result; simpl. rewrite decide_False by done. simpl.
  by rewrite !u32_i32, !u32_id.
Qed.

Lemma metadata_results_items (mds : list (Z * list (Z * list Z))) :
  Forall partial_ok mds -> results_items (concat (map (fun e => map (metadata_result e.1) e.2) mds)) = mds_items mds.
Proof.
  induction 1 as [| [k ps] mds [Hk Hps] Hmds IH]; [done |]. simpl in *. rewrite results_items_app, mds_items_cons, IH. f_equal.
  clear -Hk Hps. induction Hps as [| p ps Hp Hps IH]; [done |]. unfold results_items in *. simpl in *.
  by rewrite IH, metadata_result_items.
Qed.

Section metadata_sending.
Context {Q : Type} `{MessageQueueLaws Q}.

Lemma sendBatchMetadata_spec (b : InflightBatch) (last : Z) (w : World Q) :
  Forall partial_ok (mResultMds b) -> readable w -> mPartialResultProgress b < last ->
  (sendBatchMetadataLocked b last w).1 =
    b <| mPartialResultProgress := last |> <| mResultMds := filter (fun e => ~ e.1 <= last) (mResultMds b) |> /\
  sends w (sendBatchMetadataLocked b last w).2 (mds_items (filter (fun e => e.1 <= last) (mResultMds b))).
Proof.
  intros Hok Hr Hlt. unfold sendBatchMetadataLocked. rewrite (proj2 (Z.leb_gt _ _)) by lia.
  rewrite erase_due. set (rs := concat _).
  assert (Forall partial_ok (filter (fun e => e.1 <= last) (mResultMds b))) as Hf.
  { apply Forall_forall. intros e [_ He]%list_elem_of_filter. rewrite Forall_forall in Hok. by apply Hok. }
  pose proof (invoke_sends rs true w) as Hs. rewrite (metadata_results_items _ Hf : results_items rs = _) in Hs.
  destruct (invokeProcessCaptureResultCallback rs true w) as [rs' w']. simpl in *. split; [done |]. apply Hs; [| done].
  - apply Forall_concat, Forall_map, Forall_forall. intros e _. apply Forall_map, Forall_forall. intros p _. split; [done | constructor].
Qed.

End metadata_sending.
