(* ===== verification/CameraBatchSystem.v ===== *)
(** * The result batcher in use: calls of several threads

    A call of the vendor library is two or three steps: [getBatch] under the
    batcher's lock, the work under the lock of the batch found (or of the
    batcher, for an error), and the check of the first batch.  [bs_step] lets
    the steps of any number of calls interleave with the registration of new
    batches.

    Shown: while the vendor library respects the order of results
    ([timely_msg], [timely_result]), every buffer, message and metadata entry
    it hands over is delivered, given up after a second of waiting for the
    callback, still held by a batch in flight, or in the hands of a call under
    way, exactly once; removed batches hold nothing. *)

From S2P Require Import Prelude CameraTypes CameraBatcher CameraDelivery.

(** ** Queueing buffers *)

Lemma queue_buffers_spec (bs : list StreamBuffer) (bufs : gmap Z BufferBatch) (fs : list Z) (nb : list StreamBuffer) :
  exists bufs',
    queue_buffers bs bufs fs nb =
      (bufs', fs ++ map streamId (filter (fun b => is_Some (bufs !! streamId b)) bs),
       nb ++ filter (fun b => ~ is_Some (bufs !! streamId b)) bs) /\
    (forall s, bufs' !! s = (fun bb => bb <| mBuffers := mBuffers bb ++ filter (fun b => streamId b = s) bs |>) <$> bufs !! s) /\
    (forall x, (occ x (bufs_items bufs') + occ x (IBuf <$> filter (fun b => ~ is_Some (bufs !! streamId b)) bs) =
                occ x (bufs_items bufs) + occ x (IBuf <$> bs))%nat).
Proof.
  revert bufs fs nb. induction bs as [| b bs IH]; intros bufs fs nb; cbn [queue_buffers].
  - exists bufs. rewrite !app_nil_r. split_and!; [done | | done]. intros s. destruct (bufs !! s) as [[d l] |]; simpl; [by rewrite app_nil_r | done].
  - rewrite (pushStreamBuffer_eq b nb). cbn [fst]. destruct (bufs !! streamId b) as [bb |] eqn:E.
    + rewrite pushStreamBuffer_eq. cbn [fst]. set (bufs1 := <[streamId b := _]> bufs). destruct (IH bufs1 (fs ++ [streamId b]) nb) as (bufs' & -> & Hl & Hi).
      assert (forall s, is_Some (bufs1 !! s) <-> is_Some (bufs !! s)) as Hdom.
      { intros s. unfold bufs1. destruct (decide (streamId b = s)) as [<- | Hne]; [rewrite lookup_insert_eq, E; split; eauto | by rewrite lookup_insert_ne]. }
      assert (filter (fun b => is_Some (bufs1 !! streamId b)) bs = filter (fun b => is_Some (bufs !! streamId b)) bs) as F1
        by (apply list_filter_iff; intros; apply Hdom).
      assert (filter (fun b => ~ is_Some (bufs1 !! streamId b)) bs = filter (fun b => ~ is_Some (bufs !! streamId b)) bs) as F2
        by (apply list_filter_iff; intros; by rewrite Hdom).
      rewrite F1, F2 in *. exists bufs'. rewrite !filter_cons.
      destruct (decide (is_Some (bufs !! streamId b))) as [_ | Hn]; [| rewrite E in Hn; by destruct Hn; eexists].
      destruct (decide (~ is_Some (bufs !! streamId b))) as [Hn | _]; [rewrite E in Hn; by destruct Hn; eexists |].
      split_and!.
      * by rewrite <- app_assoc.
      * intros s. rewrite Hl, filter_cons. unfold bufs1. destruct (decide (streamId b = s)) as [<- | Hne].
        -- rewrite lookup_insert_eq, E. simpl. by rewrite <- app_assoc.
        -- by rewrite lookup_insert_ne.
      * intros x. rewrite Hi. pose proof (bufs_items_insert bufs (streamId b) bb (bb <| mBuffers := mBuffers bb ++ [b] |>) x E) as Hins.
        simpl in Hins. rewrite fmap_app, occ_app in Hins. cbn [fmap list_fmap] in *. rewrite occ_cons, occ_nil in Hins. rewrite occ_cons. 
        change (list_fmap StreamBuffer Item IBuf bs) with (IBuf <$> bs). unfold bufs1. simpl. lia.
    + destruct (IH bufs fs (nb ++ [b])) as (bufs' & -> & Hl & Hi). exists bufs'. rewrite !filter_cons.
      destruct (decide (is_Some (bufs !! streamId b))) as [Hn | _]; [rewrite E in Hn; by destruct Hn |].
      destruct (decide (~ is_Some (bufs !! streamId b))) as [_ | Hn]; [| rewrite E in Hn; by destruct Hn; apply is_Some_None].
      split_and!.
      * by rewrite <- app_assoc.
      * intros s. rewrite Hl, filter_cons. destruct (decide (streamId b = s)) as [<- | Hne]; [by rewrite E | done].
      * intros x. cbn [fmap list_fmap]. rewrite !occ_cons. specialize (Hi x).
        change (list_fmap StreamBuffer Item IBuf ?l) with (IBuf <$> l). lia.
Qed.

(** ** The state of a batch in flight *)

Record batch_ok (streams : list Z) (num : Z) (b : InflightBatch) : Prop := {
  bo_shutter : mShutterDelivered b = true -> mShutterMsgs b = [];
  bo_bufs : bufs_ok (mBatchBufs b);
  bo_dom : forall s, is_Some (mBatchBufs b !! s) <-> s ∈ streams;
  bo_num : mNumPartialResults b = num;
  bo_progress : 0 <= mPartialResultProgress b;
  bo_mds : Forall (fun e => partial_ok e /\ mPartialResultProgress b < e.1 <= num) (mResultMds b)
}.

(** What the batcher relies on: the shutter of a frame comes before the
    shutters of the batch were sent, ... *)
Definition timely_msg (msg : NotifyMsg) (b : InflightBatch) : Prop :=
  mRemoved b = false -> is_error msg = false -> mShutterDelivered b = false.

(** ... a buffer before the buffers of its stream were sent, at most one of a
    stream in a result, metadata in the order of its partial results, and no
    metadata of physical cameras, which a batch does not keep (see
    [batched_physical_metadata_dropped]). *)
Record timely_result (res : CaptureResult) (b : InflightBatch) : Prop := {
  tr_bufs : forall sb bb, sb ∈ outputBuffers res -> mBatchBufs b !! streamId sb = Some bb -> mDelivered bb = false;
  tr_nodup : NoDup (map streamId (filter (fun sb => is_Some (mBatchBufs b !! streamId sb)) (outputBuffers res)));
  tr_partial : result_metadata res <> [] -> mPartialResultProgress b < partialResult res <= mNumPartialResults b;
  tr_physical : physicalCameraMetadata res = []
}.

Section handling.
Context {Q : Type} `{MessageQueueLaws Q}.

(** From [(b, w)] to [(b', w')] exactly [items] came in: they are now sent or
    held by the batch. *)
Record handled (b : InflightBatch) (w : World Q) (b' : InflightBatch) (w' : World Q) (items : list Item) : Prop := {
  hd_readable : readable w';
  hd_items : forall x, (occ x (out_items w') + occ x (batch_items b') = occ x (out_items w) + occ x (batch_items b) + occ x items)%nat;
  hd_prompt : prompt w -> prompt w'
}.

Lemma handled_trans b1 w1 b2 w2 b3 w3 i1 i2 :
  handled b1 w1 b2 w2 i1 -> handled b2 w2 b3 w3 i2 -> handled b1 w1 b3 w3 (i1 ++ i2).
Proof. intros [R1 I1 F1] [R2 I2 F2]. split; [done | | by auto]. intros x. specialize (I1 x). specialize (I2 x). rewrite occ_app. lia. Qed.

Lemma handled_sends b w b' w' sent items :
  sends w w' sent -> (forall x, (occ x (batch_items b') + occ x sent = occ x (batch_items b) + occ x items)%nat) ->
  handled b w b' w' items.
Proof. intros [R I F] Hx. split; [done | | done]. intros x. rewrite I. specialize (Hx x). lia. Qed.

Lemma batch_items_occ (b : InflightBatch) (x : Item) :
  occ x (batch_items b) = (occ x (IMsg <$> mShutterMsgs b) + occ x (bufs_items (mBatchBufs b)) + occ x (mds_items (mResultMds b)))%nat.
Proof. unfold batch_items. rewrite !occ_app. lia. Qed.

(** *** Shutters *)

Lemma send_shutter_handled (streams : list Z) (num : Z) (b : InflightBatch) (w : World Q) :
  batch_ok streams num b -> readable w ->
  let '(b', w') := sendBatchShutterCbsLocked b w in
  batch_ok streams num b' /\ handled b w b' w' [] /\ mShutterMsgs b' = [] /\
  mBatchBufs b' = mBatchBufs b /\ mResultMds b' = mResultMds b /\ mPartialResultProgress b' = mPartialResultProgress b /\
  mRemoved b' = mRemoved b.
Proof.
  intros Hok Hr. unfold sendBatchShutterCbsLocked. destruct (mShutterDelivered b) eqn:E.
  - split_and!; [done | | by apply (bo_shutter _ _ _ Hok) | done ..]. eapply handled_sends; [by apply sends_refl |]. done.
  - split_and!; [| | done ..].
    + destruct Hok. by split.
    + eapply handled_sends; [by apply notify_sends |]. intros x. rewrite !batch_items_occ. simpl. rewrite !occ_nil. lia.
Qed.

(** *** Buffers *)

Lemma mark_delivered_ok (streams : list Z) (bufs : gmap Z BufferBatch) :
  (forall s, s ∈ streams -> is_Some (bufs !! s)) -> bufs_ok bufs ->
  bufs_ok (mark_delivered true streams bufs) /\ (forall s, is_Some (mark_delivered true streams bufs !! s) <-> is_Some (bufs !! s)).
Proof.
  intros Hs Hok. split.
  - intros s bb Hl Hd. rewrite mark_delivered_lookup in Hl by done.
    destruct (decide (s ∈ streams)); [| by eapply Hok]. by destruct (bufs !! s); simplify_eq/=.
  - intros s. rewrite mark_delivered_lookup by done. destruct (decide (s ∈ streams)); [| done]. by rewrite fmap_is_Some.
Qed.

Lemma send_buffers_handled (streams : list Z) (num : Z) (which : list Z) (b : InflightBatch) (w : World Q) :
  batch_ok streams num b -> NoDup which -> (forall s, s ∈ which -> s ∈ streams) -> readable w ->
  let '(b', w') := sendBatchBuffersLocked b which w in
  batch_ok streams num b' /\ handled b w b' w' [] /\ b' = b <| mBatchBufs := mark_delivered true which (mBatchBufs b) |>.
Proof.
  intros Hok Hnd Hin Hr.
  assert (forall s, s ∈ which -> is_Some (mBatchBufs b !! s)) as Hs by (intros s Hs; by apply (bo_dom _ _ _ Hok), Hin).
  destruct (sendBatchBuffers_spec b which w Hnd Hs (bo_bufs _ _ _ Hok) Hr) as [E1 E2].
  destruct (sendBatchBuffersLocked b which w) as [b' w']. simpl in *. subst b'. split_and!; [| | done].
  - destruct (mark_delivered_ok which (mBatchBufs b) Hs (bo_bufs _ _ _ Hok)) as [H1 H2]. destruct Hok as [A B C D P E].
    split; simpl; [done | done | | done | done | done]. intros s. by rewrite H2.
  - eapply handled_sends; [done |]. intros x. rewrite !batch_items_occ. simpl.
    pose proof (mark_delivered_items which (mBatchBufs b) x Hnd Hs). rewrite occ_nil. lia.
Qed.

(** *** Metadata *)

Lemma send_metadata_handled (streams : list Z) (num last : Z) (b : InflightBatch) (w : World Q) :
  batch_ok streams num b -> readable w ->
  let '(b', w') := sendBatchMetadataLocked b last w in
  batch_ok streams num b' /\ handled b w b' w' [] /\ mBatchBufs b' = mBatchBufs b /\ mShutterMsgs b' = mShutterMsgs b /\
  Forall (fun e => ~ e.1 <= last) (mResultMds b') /\ mRemoved b' = mRemoved b /\
  mLastFrame b' = mLastFrame b.
Proof.
  intros Hok Hr. assert (Forall partial_ok (mResultMds b)) as Hp.
  { eapply Forall_impl; [exact (bo_mds _ _ _ Hok) |]. by intros e [? _]. }
  destruct (Z.le_gt_cases last (mPartialResultProgress b)) as [Hle | Hgt].
  - unfold sendBatchMetadataLocked. rewrite (proj2 (Z.leb_le _ _)) by lia. split_and!; [done | | done | done | | done | done].
    + eapply handled_sends; [by apply sends_refl |]. done.
    + eapply Forall_impl; [exact (bo_mds _ _ _ Hok) |]. intros e [_ ?]. lia.
  - destruct (sendBatchMetadata_spec b last w Hp Hr Hgt) as [E1 E2].
    destruct (sendBatchMetadataLocked b last w) as [b' w']. simpl in *. subst b'. split_and!; [| | done | done | | done | done].
    + destruct Hok as [A B C D P E]. split; simpl; [done | done | done | done | lia |]. apply Forall_forall. intros e [Hn He]%list_elem_of_filter.
      rewrite Forall_forall in E. specialize (E e He) as [? ?]. split; [done | lia].
    + eapply handled_sends; [done |]. intros x. rewrite !batch_items_occ. simpl.
      pose proof (mds_items_split (fun e => e.1 <= last) (mResultMds b) x). rewrite occ_nil. lia.
    + simpl. apply Forall_forall. by intros e [Hn He]%list_elem_of_filter.
Qed.

(** *** A result that falls in a batch *)

Lemma push_metadata_handled (streams : list Z) (num : Z) (res : CaptureResult) (b : InflightBatch) (w : World Q) :
  batch_ok streams num b -> is_u32 num -> timely_result res b -> readable w ->
  let b' := if decide (result_metadata res = []) then b
            else b <| mResultMds := push_metadata (u32 (partialResult res)) (u32 (frameNumber res), result_metadata res) (mResultMds b) |> in
  batch_ok streams num b' /\
  handled b w b' w (if decide (result_metadata res = []) then [] else [IMeta (u32 (frameNumber res)) (u32 (partialResult res)) (result_metadata res)]) /\
  timely_result res b' /\ mRemoved b' = mRemoved b.
Proof.
  intros Hok Hnum Ht Hr. pose proof (tr_partial _ _ Ht) as T. simpl. destruct (decide (result_metadata res = [])) as [E | Hne].
  - split_and!; [done | | done ..]. eapply handled_sends; [by apply sends_refl |]. done.
  - specialize (T Hne). pose proof (bo_num _ _ _ Hok). pose proof (bo_progress _ _ _ Hok). unfold is_u32 in Hnum.
    rewrite (u32_id (partialResult res)) by (unfold is_u32; lia).
    split_and!; [| | by destruct Ht | done].
    + destruct Hok as [A B C D P M]. split; simpl; [done .. |]. apply push_metadata_Forall; [| | done].
      * simpl. split; [| lia]. split; [unfold is_u32; simpl; lia |]. repeat constructor; simpl; [apply u32_range .. | done].
      * simpl. intros ps [[? ?] ?]. split; [| done]. split; [done |]. simpl. apply Forall_app. split; [done |].
        repeat constructor; simpl; [apply u32_range .. | done].
    + eapply handled_sends; [by apply sends_refl |]. intros x. rewrite !batch_items_occ. simpl.
      rewrite push_metadata_items. simpl. rewrite occ_nil. lia.
Qed.

Lemma non_batched_sends (res : CaptureResult) (nb : list StreamBuffer) (w : World Q) :
  readable w ->
  sends w (if (0 <? length nb)%nat || negb (streamId (inputBuffer res) =? -1)
           then processOneCaptureResult (non_batched_result res nb) w else w)
    ((IBuf <$> nb) ++ (if streamId (inputBuffer res) =? -1 then [] else [IInput (inputBuffer res)])).
Proof.
  intros Hr. destruct ((0 <? length nb)%nat || negb (streamId (inputBuffer res) =? -1)) eqn:E.
  - eapply sends_perm; [apply processOne_sends; [split; [done | constructor] | done] |].
    intros x. unfold result_items, non_batched_result. rewrite moved_buffers, moveStreamBuffer_eq. simpl. by rewrite app_nil_r.
  - apply orb_false_iff in E as [E1 E2]. apply negb_false_iff in E2. rewrite E2. apply Nat.ltb_ge in E1.
    destruct nb; [| simpl in E1; lia]. by apply sends_refl.
Qed.

Lemma queue_buffers_handled (streams : list Z) (num : Z) (res : CaptureResult) (b : InflightBatch) (w : World Q) :
  batch_ok streams num b -> timely_result res b -> readable w ->
  let '(bufs, filledStreams, nonBatched) := queue_buffers (outputBuffers res) (mBatchBufs b) [] [] in
  let b' := b <| mBatchBufs := bufs |> in
  let w' := if (0 <? length nonBatched)%nat || negb (streamId (inputBuffer res) =? -1)
            then processOneCaptureResult (non_batched_result res nonBatched) w else w in
  batch_ok streams num b' /\
  handled b w b' w' ((IBuf <$> outputBuffers res) ++ (if streamId (inputBuffer res) =? -1 then [] else [IInput (inputBuffer res)])) /\
  NoDup filledStreams /\ (forall s, s ∈ filledStreams -> s ∈ streams).
Proof.
  intros Hok [T1 T2 _ _] Hr. destruct (queue_buffers_spec (outputBuffers res) (mBatchBufs b) [] []) as (bufs & -> & Hl & Hi). simpl.
  assert (forall s, is_Some (bufs !! s) <-> is_Some (mBatchBufs b !! s)) as Hdom by (intros s; by rewrite Hl, fmap_is_Some).
  split_and!; [| | done |].
  - destruct Hok as [A B C D P M]. split; simpl; [done | | intros s; by rewrite Hdom | done ..].
    intros s bb Hbb Hd. rewrite Hl in Hbb. destruct (mBatchBufs b !! s) as [bb0 |] eqn:E; simplify_eq/=.
    rewrite (B s bb0 E Hd). simpl. destruct (filter (fun sb => streamId sb = s) (outputBuffers res)) as [| sb l] eqn:Ef; [done | exfalso].
    assert (sb ∈ filter (fun sb => streamId sb = s) (outputBuffers res)) as Hin by (rewrite Ef; by constructor).
    apply list_elem_of_filter in Hin as [<- Hin]. pose proof (T1 sb bb0 Hin E). congruence.
  - eapply handled_sends; [by apply non_batched_sends |]. intros x. rewrite !batch_items_occ. simpl.
    specialize (Hi x). rewrite !occ_app. lia.
  - intros s Hs. apply list_elem_of_In, in_map_iff in Hs as (sb & <- & Hs). apply list_elem_of_In, list_elem_of_filter in Hs as [Hs _].
    by apply (bo_dom _ _ _ Hok).
Qed.

(** What is sent when the last frame of the batch arrives. *)
Lemma send_last_handled (streams : list Z) (num : Z) (res : CaptureResult) (filled : list Z) (b : InflightBatch) (w : World Q) :
  batch_ok streams num b -> NoDup filled -> (forall s, s ∈ filled -> s ∈ streams) -> readable w ->
  let '(b', w') :=
    (let '(b, w) := if 0 <? partialResult res then sendBatchMetadataLocked b (u32 (partialResult res)) w else (b, w) in
     if (0 <? length filled)%nat then sendBatchBuffersLocked b filled w else (b, w)) in
  batch_ok streams num b' /\ handled b w b' w' [] /\ mRemoved b' = mRemoved b.
Proof.
  intros Hok Hnd Hin Hr.
  assert (let '(b', w') := if 0 <? partialResult res then sendBatchMetadataLocked b (u32 (partialResult res)) w else (b, w) in
    batch_ok streams num b' /\ handled b w b' w' [] /\ mRemoved b' = mRemoved b) as H1.
  { destruct (0 <? partialResult res).
    - pose proof (send_metadata_handled streams num (u32 (partialResult res)) b w Hok Hr) as H1.
      destruct (sendBatchMetadataLocked _ _ _). tauto.
    - split_and!; [done | | done]. eapply handled_sends; [by apply sends_refl | done]. }
  destruct (if 0 <? partialResult res then _ else _) as [b1 w1]. destruct H1 as (K1 & H1 & E1).
  destruct (0 <? length filled)%nat; [| done].
  pose proof (send_buffers_handled streams num filled b1 w1 K1 Hnd Hin (hd_readable _ _ _ _ _ H1)) as H2.
  destruct (sendBatchBuffersLocked b1 filled w1) as [b2 w2]. destruct H2 as (K2 & H2 & ->). split_and!; [done | | done].
  exact (handled_trans _ _ _ _ _ _ _ _ H1 H2).
Qed.

Lemma queue_result_handled (streams : list Z) (num : Z) (res : CaptureResult) (b : InflightBatch) (w : World Q) :
  batch_ok streams num b -> is_u32 num -> timely_result res b -> readable w ->
  let '(b', w') := queue_result res b w in
  batch_ok streams num b' /\ handled b w b' w' (result_items res) /\ mRemoved b' = mRemoved b.
Proof.
  intros Hok Hnum Ht Hr. unfold queue_result.
  destruct (push_metadata_handled streams num res b w Hok Hnum Ht Hr) as (K1 & H1 & Ht1 & Erm).
  set (b1 := if decide (result_metadata res = []) then b else _) in *. clearbody b1.
  pose proof (queue_buffers_handled streams num res b1 w K1 Ht1 Hr) as H2.
  destruct (queue_buffers (outputBuffers res) (mBatchBufs b1) [] []) as [[bufs filled] nb]. destruct H2 as (K2 & H2 & Hnd & Hin).
  set (b2 := b1 <| mBatchBufs := bufs |>) in *. set (w2 := if _ || _ then _ else w) in *.
  assert (handled b w b2 w2 (result_items res)) as H12.
  { unfold result_items. rewrite (tr_physical _ _ Ht). cbn [fmap list_fmap]. rewrite app_nil_r. exact (handled_trans _ _ _ _ _ _ _ _ H1 H2). }
  assert (mRemoved b2 = mRemoved b) as Er2 by (exact Erm). clearbody b2 w2.
  destruct (u32 (frameNumber res) =? mLastFrame b2); [| done].
  pose proof (send_last_handled streams num res filled b2 w2 K2 Hnd Hin (hd_readable _ _ _ _ _ H12)) as H3.
  destruct (let '(b, w) := _ in _) as [b3 w3]. destruct H3 as (K3 & H3 & E3). split_and!; [done | | congruence].
  rewrite <- (app_nil_r (result_items res)). by eapply handled_trans.
Qed.

(** *** A shutter that falls in a batch *)

Lemma queue_shutter_handled (streams : list Z) (num : Z) (msg : NotifyMsg) (last : bool) (b : InflightBatch) (w : World Q) :
  batch_ok streams num b -> mShutterDelivered b = false -> readable w ->
  let b0 := b <| mShutterMsgs := mShutterMsgs b ++ [msg] |> in
  let '(b', w') := if last then sendBatchShutterCbsLocked b0 w else (b0, w) in
  batch_ok streams num b' /\ handled b w b' w' [IMsg msg] /\ mRemoved b' = mRemoved b.
Proof.
  intros Hok Hsd Hr b0.
  assert (batch_ok streams num b0) as K0 by (destruct Hok; split; simpl; [congruence | done ..]).
  assert (handled b w b0 w [IMsg msg]) as Hq0.
  { eapply handled_sends; [by apply sends_refl |]. intros x. rewrite !batch_items_occ. simpl. rewrite fmap_app, occ_app, occ_nil. simpl. lia. }
  destruct last; [| done]. pose proof (send_shutter_handled streams num b0 w K0 Hr) as H1.
  destruct (sendBatchShutterCbsLocked b0 w) as [b1 w1]. destruct H1 as (K1 & H1 & _ & _ & _ & _ & E). split_and!; [done | | done].
  exact (handled_trans _ _ _ _ _ _ _ _ Hq0 H1).
Qed.

(** *** The end of a batch *)

Lemma bufs_items_nil (bufs : gmap Z BufferBatch) : (forall s bb, bufs !! s = Some bb -> mBuffers bb = []) -> bufs_items bufs = [].
Proof.
  intros Hb. unfold bufs_items. assert (Forall (fun p => mBuffers p.2 = []) (map_to_list bufs)) as Hf.
  { apply Forall_forall. intros [s bb] Hin%elem_of_map_to_list. by eapply Hb. }
  induction Hf as [| p l Hp Hf IH]; [done |]. simpl. by rewrite Hp, IH.
Qed.

Lemma mds_nil (streams : list Z) (num : Z) (b : InflightBatch) :
  batch_ok streams num b -> Forall (fun e => ~ e.1 <= num) (mResultMds b) -> mResultMds b = [].
Proof.
  intros Hok Hn. pose proof (bo_mds _ _ _ Hok) as Hm. destruct (mResultMds b) as [| e l]; [done |].
  apply Forall_cons in Hn as [? _]. apply Forall_cons in Hm as [[_ ?] _]. lia.
Qed.

Lemma batch_items_nil (b : InflightBatch) :
  mShutterMsgs b = [] -> bufs_items (mBatchBufs b) = [] -> mResultMds b = [] -> batch_items b = [].
Proof. intros E1 E2 E3. unfold batch_items. by rewrite E1, E2, E3. Qed.

(** A batch that is all delivered holds nothing. *)
Lemma allDelivered_items (streams : list Z) (num : Z) (b : InflightBatch) :
  batch_ok streams num b -> allDelivered b = true -> batch_items b = [].
Proof.
  intros Hok Hall. unfold allDelivered in Hall. apply andb_true_iff in Hall as [[Hs Hp]%andb_true_iff Hb].
  apply batch_items_nil.
  - by apply (bo_shutter _ _ _ Hok).
  - apply bufs_items_nil. intros s bb Hl. apply (bo_bufs _ _ _ Hok s bb Hl).
    rewrite forallb_forall in Hb. apply (Hb (s, bb)). apply list_elem_of_In. by apply elem_of_map_to_list.
  - apply (mds_nil streams num b Hok). apply negb_true_iff, Z.ltb_ge in Hp. rewrite (bo_num _ _ _ Hok) in Hp.
    eapply Forall_impl; [exact (bo_mds _ _ _ Hok) |]. intros e [_ ?]. lia.
Qed.

(** What an interrupted batch held is sent. *)
Lemma flush_batch_handled (streams : list Z) (num : Z) (b : InflightBatch) (w : World Q) :
  batch_ok streams num b -> NoDup streams -> readable w ->
  let '(b1, w1) := sendBatchShutterCbsLocked b w in
  let '(b2, w2) := sendBatchBuffersLocked b1 streams w1 in
  let '(b3, w3) := sendBatchMetadataLocked b2 num w2 in
  handled b w b3 w3 [] /\ batch_items b3 = [].
Proof.
  intros Hok Hnd Hr.
  pose proof (send_shutter_handled streams num b w Hok Hr) as H1. destruct (sendBatchShutterCbsLocked b w) as [b1 w1].
  destruct H1 as (K1 & H1 & E1 & _).
  pose proof (send_buffers_handled streams num streams b1 w1 K1 Hnd (fun _ => id) (hd_readable _ _ _ _ _ H1)) as H2.
  destruct (sendBatchBuffersLocked b1 streams w1) as [b2 w2]. destruct H2 as (K2 & H2 & E2).
  pose proof (send_metadata_handled streams num num b2 w2 K2 (hd_readable _ _ _ _ _ H2)) as H3.
  destruct (sendBatchMetadataLocked b2 num w2) as [b3 w3]. destruct H3 as (K3 & H3 & E3 & E4 & E5 & _). split.
  - exact (handled_trans _ _ _ _ _ _ _ _ H1 (handled_trans _ _ _ _ _ _ _ _ H2 H3)).
  - apply batch_items_nil; [rewrite E4, E2; exact E1 | | by apply (mds_nil streams num)].
    apply bufs_items_nil. intros s bb Hl. rewrite E3, E2 in Hl. simpl in Hl.
    rewrite mark_delivered_lookup in Hl by (intros s' Hs'; by apply (bo_dom _ _ _ K1)).
    destruct (decide (s ∈ streams)) as [_ | Hni]; [by destruct (mBatchBufs b1 !! s); simplify_eq/= |].
    exfalso. apply Hni. apply (bo_dom _ _ _ K1). by eexists.
Qed.

End handling.

(** ** The state of the batcher *)

(** Batches leave in the order they came: the first [k] of the heap are
    removed and empty, the others in the deque. *)
Definition heap_ok (r : ResultBatcher) : Prop :=
  exists k, (k <= length (rb_heap r))%nat /\
    mInflightBatches r = seq k (length (rb_heap r) - k) /\
    forall id b, rb_heap r !! id = Some b ->
      ((id < k)%nat -> mRemoved b = true /\ batch_items b = []) /\
      ((k <= id)%nat -> mRemoved b = false /\ batch_ok (mStreamsToBatch r) (rb_mNumPartialResults r) b).

Record rb_ok (r : ResultBatcher) : Prop := {
  ro_num : is_u32 (rb_mNumPartialResults r);
  ro_streams : NoDup (mStreamsToBatch r);
  ro_heap : heap_ok r
}.

Lemma heap_items_insert (heap : list InflightBatch) (id : nat) (b b' : InflightBatch) (x : Item) :
  heap !! id = Some b ->
  (occ x (heap_items (<[id := b']> heap)) + occ x (batch_items b) = occ x (heap_items heap) + occ x (batch_items b'))%nat.
Proof.
  revert id. induction heap as [| a heap IH]; intros [| id] Hl; simplify_eq/=; unfold heap_items in *; simpl; rewrite !occ_app; [lia |].
  specialize (IH id Hl). change (list_insert id b' heap) with (<[id := b']> heap). lia.
Qed.

Lemma heap_items_app (h1 h2 : list InflightBatch) : heap_items (h1 ++ h2) = heap_items h1 ++ heap_items h2.
Proof. unfold heap_items. by rewrite map_app, concat_app. Qed.

Lemma new_batch_ok (f n : Z) (r : ResultBatcher) : batch_ok (mStreamsToBatch r) (rb_mNumPartialResults r) (new_batch f n r).
Proof.
  assert (forall s bb, new_batch_bufs (mStreamsToBatch r) !! s = Some bb -> bb = mkBufferBatch false []) as Hb.
  { intros s bb Hl%elem_of_list_to_map_2. by apply list_elem_of_In, in_map_iff in Hl as (? & ? & _); simplify_eq. }
  split; simpl; [done | | | done | lia | constructor].
  - intros s bb Hl Hd. by rewrite (Hb s bb Hl).
  - intros s. rewrite <- elem_of_dom. unfold new_batch_bufs. rewrite dom_list_to_map, elem_of_list_to_set.
    rewrite <- list_fmap_compose. change (s ∈ (fun x => x) <$> mStreamsToBatch r <-> s ∈ mStreamsToBatch r). by rewrite list_fmap_id.
Qed.

Lemma new_batch_items (f n : Z) (r : ResultBatcher) : batch_items (new_batch f n r) = [].
Proof.
  apply batch_items_nil; [done | | done]. apply bufs_items_nil. intros s bb Hl%elem_of_list_to_map_2.
  by apply list_elem_of_In, in_map_iff in Hl as (? & ? & _); simplify_eq.
Qed.

Lemma registerBatch_ok (f n : Z) (r : ResultBatcher) :
  rb_ok r -> rb_ok (registerBatch f n r) /\ (forall x, occ x (heap_items (rb_heap (registerBatch f n r))) = occ x (heap_items (rb_heap r))).
Proof.
  intros [Hn Hs (k & Hk & Hd & Hh)]. split.
  - split; [done | done |]. exists k. simpl. rewrite length_app. simpl. split_and!; [lia | |].
    + rewrite Hd. replace (length (rb_heap r) + 1 - k)%nat with (length (rb_heap r) - k + 1)%nat by lia.
      rewrite seq_app. simpl. f_equal. f_equal. lia.
    + intros id b [Hl | [Hle Hl]]%lookup_app_Some; [by apply Hh |]. apply list_lookup_singleton_Some in Hl as [? <-].
      split; [intros; lia |]. intros _. split; [done | apply new_batch_ok].
  - intros x. simpl. rewrite heap_items_app, occ_app. unfold heap_items at 2. cbn [map concat]. rewrite new_batch_items. simpl. rewrite occ_nil. lia.
Qed.

Section system.
Context {Q : Type} `{MessageQueueLaws Q}.

Record rb_handled (r : ResultBatcher) (w : World Q) (r' : ResultBatcher) (w' : World Q) (items : list Item) : Prop := {
  rh_ok : rb_ok r';
  rh_length : length (rb_heap r') = length (rb_heap r);
  rh_readable : readable w';
  rh_items : forall x, (occ x (out_items w') + occ x (heap_items (rb_heap r')) = occ x (out_items w) + occ x (heap_items (rb_heap r)) + occ x items)%nat;
  rh_prompt : prompt w -> prompt w'
}.

Lemma rb_handled_trans r1 w1 r2 w2 r3 w3 i1 i2 :
  rb_handled r1 w1 r2 w2 i1 -> rb_handled r2 w2 r3 w3 i2 -> rb_handled r1 w1 r3 w3 (i1 ++ i2).
Proof.
  intros [A1 L1 R1 I1 F1] [A2 L2 R2 I2 F2]. split; [done | congruence | done | | by auto].
  intros x. specialize (I1 x). specialize (I2 x). rewrite occ_app. lia.
Qed.

Lemma rb_handled_sends r w w' items : rb_ok r -> sends w w' items -> rb_handled r w r w' items.
Proof. intros Hok [R I F]. split; [done | done | done | | done]. intros x. rewrite I. lia. Qed.

(** The work on a batch in flight leaves it in flight and in order. *)
Lemma batch_handled (r : ResultBatcher) (w w' : World Q) (id : nat) (b b' : InflightBatch) (items : list Item) :
  rb_ok r -> rb_heap r !! id = Some b -> mRemoved b = false -> mRemoved b' = false ->
  batch_ok (mStreamsToBatch r) (rb_mNumPartialResults r) b' -> handled b w b' w' items ->
  rb_handled r w (r <| rb_heap := <[id := b']> (rb_heap r) |>) w' items.
Proof.
  intros [Hn Hs (k & Hk & Hd & Hh)] Hl Hrm Hrm' Hb' [R I F].
  assert (k <= id)%nat as Hid.
  { destruct (Nat.le_gt_cases k id) as [| Hlt]; [done |]. destruct (proj1 (Hh id b Hl) Hlt). congruence. }
  split; [split; [done | done |] | | done | | done].
  - exists k. simpl. rewrite length_insert. split_and!; [done | done |]. intros id' b0 Hl'.
    destruct (decide (id = id')) as [<- | Hne].
    + rewrite list_lookup_insert_eq in Hl' by (by eapply lookup_lt_Some). simplify_eq. split; [intros; lia | done].
    + rewrite list_lookup_insert_ne in Hl' by done. by apply Hh.
  - simpl. by rewrite length_insert.
  - intros x. simpl. specialize (I x). pose proof (heap_items_insert (rb_heap r) id b b' x Hl). lia.
Qed.

(** Removing the first batch once it holds nothing. *)
Lemma remove_first_ok (r : ResultBatcher) (id : nat) (ids : list nat) (b' : InflightBatch) :
  rb_ok r -> mInflightBatches r = id :: ids -> mRemoved b' = true -> batch_items b' = [] ->
  rb_ok (r <| rb_heap := <[id := b']> (rb_heap r) |> <| mInflightBatches := ids |>).
Proof.
  intros [Hn Hs (k & Hk & Hd & Hh)] Hq Hrm Hit. rewrite Hq in Hd.
  destruct (length (rb_heap r) - k)%nat as [| m] eqn:Em; [done |]. simpl in Hd. injection Hd as -> ->.
  split; [done | done |]. exists (S k). simpl. rewrite length_insert. split_and!; [lia | f_equal; lia |].
  intros id b Hl. destruct (decide (id = k)) as [-> | Hne].
  - rewrite list_lookup_insert_eq in Hl by lia. simplify_eq. split; [done | intros; lia].
  - rewrite list_lookup_insert_ne in Hl by done. destruct (Hh id b Hl) as [H1 H2]. split; intros; [apply H1 | apply H2]; lia.
Qed.

Lemma first_batch (r : ResultBatcher) (id : nat) (ids : list nat) :
  rb_ok r -> mInflightBatches r = id :: ids ->
  exists b, rb_heap r !! id = Some b /\ mRemoved b = false /\ batch_ok (mStreamsToBatch r) (rb_mNumPartialResults r) b.
Proof.
  intros [_ _ (k & Hk & Hd & Hh)] Hq. rewrite Hq in Hd.
  destruct (length (rb_heap r) - k)%nat as [| m] eqn:Em; [done |]. simpl in Hd. injection Hd as -> ->.
  destruct (rb_heap r !! k) as [b |] eqn:El; [| apply lookup_ge_None in El; lia].
  exists b. split; [done |]. apply (Hh k b El). lia.
Qed.

Lemma check_ok (r : ResultBatcher) (w : World Q) : rb_ok r -> readable w -> rb_handled r w (checkAndRemoveFirstBatch r) w [].
Proof.
  intros Hok Hr. unfold checkAndRemoveFirstBatch. destruct (mInflightBatches r) as [| id ids] eqn:Hq; [by apply rb_handled_sends, sends_refl |].
  destruct (first_batch r id ids Hok Hq) as (b & Hl & Hrm & Hb). rewrite Hl.
  destruct (allDelivered b) eqn:Ha; [| by apply rb_handled_sends, sends_refl].
  pose proof (allDelivered_items _ _ _ Hb Ha) as Hit. split; [by apply remove_first_ok | simpl; by rewrite length_insert | done | | done].
  intros x. simpl. pose proof (heap_items_insert (rb_heap r) id b (b <| mRemoved := true |>) x Hl) as Hx.
  rewrite Hit in Hx. change (batch_items (b <| mRemoved := true |>)) with (batch_items b) in Hx. rewrite Hit, !occ_nil in Hx.
  rewrite occ_nil. simpl in Hx. lia.
Qed.

Lemma flush_first_ok (r : ResultBatcher) (w : World Q) (id : nat) (ids : list nat) :
  rb_ok r -> readable w -> mInflightBatches r = id :: ids ->
  exists r' w', flush_first_batch (r, w) = Some (r', w') /\ rb_handled r w r' w' [] /\ mInflightBatches r' = ids.
Proof.
  intros Hok Hr Hq. unfold flush_first_batch. rewrite Hq. destruct (first_batch r id ids Hok Hq) as (b & Hl & Hrm & Hb).
  rewrite Hl. cbn [mbind option_bind].
  pose proof (flush_batch_handled _ _ b w Hb (ro_streams _ Hok) Hr) as Hf.
  destruct (sendBatchShutterCbsLocked b w) as [b1 w1]. destruct (sendBatchBuffersLocked b1 _ w1) as [b2 w2].
  destruct (sendBatchMetadataLocked b2 _ w2) as [b3 w3]. destruct Hf as [[R I F] Hit].
  eexists _, _. split; [done |]. split; [| done].
  split; [by apply remove_first_ok | simpl; by rewrite length_insert | done | | done].
  intros x. simpl. specialize (I x). pose proof (heap_items_insert (rb_heap r) id b (b3 <| mRemoved := true |>) x Hl) as Hx.
  change (batch_items (b3 <| mRemoved := true |>)) with (batch_items b3) in Hx.
  rewrite Hit in I, Hx. rewrite !occ_nil in I. rewrite !occ_nil in Hx. rewrite occ_nil. simpl in Hx. lia.
Qed.

(** The error loop succeeds when there are as many batches left as it expects. *)
Lemma flush_batches_ok (n : nat) (r : ResultBatcher) (w : World Q) :
  rb_ok r -> readable w -> (n <= length (mInflightBatches r))%nat ->
  exists r' w', flush_batches n (r, w) = Some (r', w') /\ rb_handled r w r' w' [].
Proof.
  revert r w. induction n as [| n IH]; intros r w Hok Hr Hn; cbn [flush_batches].
  - exists r, w. split; [done | by apply rb_handled_sends, sends_refl].
  - destruct (mInflightBatches r) as [| id ids] eqn:Hq; [simpl in Hn; lia |].
    destruct (flush_first_ok r w id ids Hok Hr Hq) as (r1 & w1 & -> & H1 & Hq1). cbn [mbind option_bind].
    destruct (IH r1 w1 (rh_ok _ _ _ _ _ H1) (rh_readable _ _ _ _ _ H1)) as (r2 & w2 & -> & H2); [rewrite Hq1; simpl in Hn; lia |].
    exists r2, w2. split; [done |]. exact (rb_handled_trans _ _ _ _ _ _ _ _ H1 H2).
Qed.

Lemma flush_batches_handled (n : nat) (r r' : ResultBatcher) (w w' : World Q) :
  rb_ok r -> readable w -> flush_batches n (r, w) = Some (r', w') -> rb_handled r w r' w' [].
Proof.
  intros Hok Hr Hf. destruct (Nat.le_gt_cases n (length (mInflightBatches r))) as [Hle | Hgt].
  - destruct (flush_batches_ok n r w Hok Hr Hle) as (r1 & w1 & E & Hh). congruence.
  - exfalso. revert r w Hok Hr Hf Hgt. induction n as [| n IH]; intros r w Hok Hr Hf Hgt; [lia |]. cbn [flush_batches] in Hf.
    destruct (mInflightBatches r) as [| id ids] eqn:Hq.
    + unfold flush_first_batch in Hf. by rewrite Hq in Hf.
    + destruct (flush_first_ok r w id ids Hok Hr Hq) as (r1 & w1 & E & H1 & Hq1). rewrite E in Hf.
      eapply (IH r1 w1); [apply H1 | apply H1 | done | rewrite Hq1; simpl in Hgt; lia].
Qed.

(** ** Located calls *)

Definition loc_valid (loc : option (nat * nat)) (r : ResultBatcher) : Prop :=
  match loc with None => True | Some (_, id) => (id < length (rb_heap r))%nat end.

Definition loc_timely (loc : option (nat * nat)) (P : InflightBatch -> Prop) (r : ResultBatcher) : Prop :=
  match loc with
  | None => True
  | Some (_, id) => forall b, rb_heap r !! id = Some b -> mRemoved b = false -> P b
  end.

Lemma live_batch_ok (r : ResultBatcher) (id : nat) (b : InflightBatch) :
  rb_ok r -> rb_heap r !! id = Some b -> mRemoved b = false -> batch_ok (mStreamsToBatch r) (rb_mNumPartialResults r) b.
Proof.
  intros [_ _ (k & _ & _ & Hh)] Hl Hrm. destruct (Hh id b Hl) as [H1 H2].
  destruct (Nat.le_gt_cases k id) as [Hle | Hlt]; [by apply H2 |]. destruct (H1 Hlt). congruence.
Qed.

Lemma notify_located_handled (loc : option (nat * nat)) (msg : NotifyMsg) (r r' : ResultBatcher) (w w' : World Q) (check : bool) :
  rb_ok r -> readable w -> loc_timely loc (timely_msg msg) r ->
  notify_located loc msg r w = Some (r', w', check) -> rb_handled r w r' w' [IMsg msg].
Proof.
  intros Hok Hr Ht Hn. assert (forall w, readable w -> sends w (notifySingleMsg msg w) [IMsg msg]) as Hone by (intros; by apply (notify_sends [msg])).
  unfold notify_located in Hn. destruct loc as [[i id] |]; [| simplify_eq; by apply rb_handled_sends, Hone].
  destruct (is_error msg) eqn:He.
  - destruct (flush_batches (1 + i) (r, w)) as [[r1 w1] |] eqn:E1; [| done]. cbn [mbind option_bind] in Hn. simplify_eq.
    assert (rb_handled r w r' w1 []) as H1 by (by apply (flush_batches_handled (1 + i))).
    exact (rb_handled_trans _ _ _ _ _ _ [] _ H1 (rb_handled_sends _ _ _ _ (rh_ok _ _ _ _ _ H1) (Hone _ (rh_readable _ _ _ _ _ H1)))).
  - destruct (rb_heap r !! id) as [b |] eqn:El; [| done]. cbn [mbind option_bind] in Hn.
    destruct (mRemoved b) eqn:Hrm; [simplify_eq; by apply rb_handled_sends, Hone |].
    pose proof (queue_shutter_handled _ _ msg (msg_frame msg =? mLastFrame b) b w (live_batch_ok r id b Hok El Hrm)) as Hq. simpl in Hq, Hn.
    match type of Hn with (let '(_, _) := ?t in _) = _ => destruct t as [b1 w1] end.
    destruct Hq as (K & Hh & E); [by apply (Ht b El Hrm) | done |]. simplify_eq.
    apply (batch_handled r w _ id b); [done | done | done | congruence | done | done].
Qed.

Lemma result_located_handled (loc : option (nat * nat)) (res : CaptureResult) (r r' : ResultBatcher) (w w' : World Q) (check : bool) :
  rb_ok r -> readable w -> result_wf res -> loc_timely loc (timely_result res) r ->
  result_located loc res r w = Some (r', w', check) -> rb_handled r w r' w' (result_items res).
Proof.
  intros Hok Hr Hwf Ht Hn.
  destruct loc as [[i id] |]; simpl in Hn; [| simplify_eq; by apply rb_handled_sends, processOne_sends].
  destruct (rb_heap r !! id) as [b |] eqn:El; [| done]. cbn [mbind option_bind] in Hn.
  destruct (mRemoved b) eqn:Hrm; [simplify_eq; by apply rb_handled_sends, processOne_sends |].
  pose proof (queue_result_handled _ _ res b w (live_batch_ok r id b Hok El Hrm) (ro_num _ Hok) (Ht b El Hrm) Hr) as Hq.
  destruct (queue_result res b w) as [b1 w1]. destruct Hq as (K & Hh & E). simplify_eq.
  apply (batch_handled r w _ id b); [done | done | done | congruence | done | done].
Qed.

(** ** The system *)

Inductive BatchCall :=
  | CNotify (loc : option (nat * nat)) (msg : NotifyMsg)
  | CResult (loc : option (nat * nat)) (res : CaptureResult)
  | CCheck.

Definition call_items (c : BatchCall) : list Item :=
  match c with
  | CNotify _ msg => [IMsg msg]
  | CResult _ res => result_items res
  | CCheck => []
  end.

Definition calls_items (cs : list BatchCall) : list Item := concat (map call_items cs).

(** [bs_received] records everything the vendor library handed over. *)
Record BatchSystem := mkBatchSystem {
  bs_rb : ResultBatcher;
  bs_world : World Q;
  bs_calls : list BatchCall;
  bs_received : list Item
}.

Inductive bs_step : BatchSystem -> BatchSystem -> Prop :=
  | bs_register f n r w cs rc :
      bs_step (mkBatchSystem r w cs rc) (mkBatchSystem (registerBatch f n r) w cs rc)
  | bs_streams ids r w cs rc :
      mInflightBatches r = [] -> NoDup ids ->
      bs_step (mkBatchSystem r w cs rc) (mkBatchSystem (setBatchedStreams ids r) w cs rc)
  | bs_notify msg r w cs rc :
      bs_step (mkBatchSystem r w cs rc)
        (mkBatchSystem r w (CNotify (getBatch (msg_frame msg) r) msg :: cs) (IMsg msg :: rc))
  | bs_result res r w cs rc :
      result_wf res ->
      bs_step (mkBatchSystem r w cs rc)
        (mkBatchSystem r w (CResult (getBatch (u32 (frameNumber res)) r) res :: cs) (result_items res ++ rc))
  | bs_run_notify loc msg check r r' w w' cs1 cs2 rc :
      loc_timely loc (timely_msg msg) r -> notify_located loc msg r w = Some (r', w', check) ->
      bs_step (mkBatchSystem r w (cs1 ++ CNotify loc msg :: cs2) rc)
        (mkBatchSystem r' w' (cs1 ++ (if (check : bool) then [CCheck] else []) ++ cs2) rc)
  | bs_run_result loc res check r r' w w' cs1 cs2 rc :
      loc_timely loc (timely_result res) r -> result_located loc res r w = Some (r', w', check) ->
      bs_step (mkBatchSystem r w (cs1 ++ CResult loc res :: cs2) rc)
        (mkBatchSystem r' w' (cs1 ++ (if (check : bool) then [CCheck] else []) ++ cs2) rc)
  | bs_check r w cs1 cs2 rc :
      bs_step (mkBatchSystem r w (cs1 ++ CCheck :: cs2) rc)
        (mkBatchSystem (checkAndRemoveFirstBatch r) w (cs1 ++ cs2) rc).

Definition call_ok (r : ResultBatcher) (c : BatchCall) : Prop :=
  match c with
  | CNotify loc _ => loc_valid loc r
  | CResult loc res => loc_valid loc r /\ result_wf res
  | CCheck => True
  end.

(** [free] says that the lock of the callback is always obtained in time. *)
Record bs_inv (free : Prop) (s : BatchSystem) : Prop := {
  bi_rb : rb_ok (bs_rb s);
  bi_readable : readable (bs_world s);
  bi_prompt : free -> prompt (bs_world s);
  bi_calls : Forall (call_ok (bs_rb s)) (bs_calls s);
  bi_items : forall x, occ x (bs_received s) =
    (occ x (out_items (bs_world s)) + occ x (heap_items (rb_heap (bs_rb s))) + occ x (calls_items (bs_calls s)))%nat
}.

Lemma find_batch_valid (f : Z) (heap : list InflightBatch) (i j id : nat) (ids : list nat) :
  find_batch f heap i ids = Some (j, id) -> (id < length heap)%nat.
Proof.
  revert i. induction ids as [| a ids IH]; intros i Hf; simpl in Hf; [done |].
  destruct (heap !! a) as [b |] eqn:E; [| done]. destruct (in_batch f b); [simplify_eq; by eapply lookup_lt_Some | by eapply IH].
Qed.

Lemma getBatch_valid (f : Z) (r : ResultBatcher) : loc_valid (getBatch f r) r.
Proof.
  unfold getBatch. destruct (mInflightBatches r) as [| id0 ids] eqn:E; [done |].
  destruct (last (id0 :: ids)) as [idn |]; [| done]. destruct (rb_heap r !! id0) as [b0 |]; [| done].
  destruct (rb_heap r !! idn) as [bn |]; [| done]. destruct (_ || _); [done |].
  destruct (find_batch f (rb_heap r) 0 (id0 :: ids)) as [[j id] |] eqn:Ef; [| done]. by eapply find_batch_valid.
Qed.

Lemma calls_items_middle (cs1 cs2 : list BatchCall) (c : BatchCall) (x : Item) :
  occ x (calls_items (cs1 ++ c :: cs2)) = (occ x (calls_items (cs1 ++ cs2)) + occ x (call_items c))%nat.
Proof. unfold calls_items. rewrite !map_app, !concat_app, !occ_app. simpl. rewrite occ_app. lia. Qed.

Lemma calls_check (cs1 cs2 : list BatchCall) (check : bool) (x : Item) :
  occ x (calls_items (cs1 ++ (if check then [CCheck] else []) ++ cs2)) = occ x (calls_items (cs1 ++ cs2)).
Proof. destruct check; [| done]. rewrite (calls_items_middle cs1 cs2 CCheck). simpl. rewrite occ_nil. lia. Qed.

Lemma call_ok_length (r r' : ResultBatcher) (cs : list BatchCall) :
  (length (rb_heap r) <= length (rb_heap r'))%nat -> Forall (call_ok r) cs -> Forall (call_ok r') cs.
Proof.
  intros Hl Hc. eapply Forall_impl; [exact Hc |]. intros [[[? ?] |] ? | [[? ?] |] ? |]; simpl; try done; [lia | intros [? ?]; split; [lia | done]].
Qed.

(** A handled call is replaced by its check, if it asks for one. *)
Lemma bs_handled (free : Prop) (r r' : ResultBatcher) (w w' : World Q) (check : bool) (c : BatchCall) (cs1 cs2 : list BatchCall) (rc : list Item) :
  bs_inv free (mkBatchSystem r w (cs1 ++ c :: cs2) rc) -> rb_handled r w r' w' (call_items c) ->
  bs_inv free (mkBatchSystem r' w' (cs1 ++ (if check then [CCheck] else []) ++ cs2) rc).
Proof.
  intros [A B F C I] [A' L R I' F']. simpl in *. split; simpl; [done | done | by auto | |].
  - apply (call_ok_length r); [lia |]. rewrite !Forall_app, Forall_cons in *. destruct check; [| naive_solver].
    rewrite Forall_singleton. naive_solver.
  - intros x. rewrite calls_check. specialize (I x). specialize (I' x). rewrite calls_items_middle in I. lia.
Qed.

Lemma bs_step_inv (free : Prop) (s s' : BatchSystem) : bs_inv free s -> bs_step s s' -> bs_inv free s'.
Proof.
  intros Hi Hs. destruct Hs as [f n r w cs rc | ids r w cs rc Hd Hnd | msg r w cs rc | res r w cs rc Hwf
    | loc msg check r r' w w' cs1 cs2 rc Ht Hn | loc res check r r' w w' cs1 cs2 rc Ht Hn | r w cs1 cs2 rc].
  - destruct Hi as [A B F C I]; simpl in *. destruct (registerBatch_ok f n r A) as [A' I'].
    split; simpl; [done | done | done | apply (call_ok_length r); [simpl; rewrite length_app; lia | done] |].
    intros x. rewrite I. by rewrite <- I'.
  - destruct Hi as [[A1 A2 (k & Hk & Hq & Hh)] B F C I]; simpl in *. split; simpl; [| done | done | by apply (call_ok_length r) | done].
    split; simpl; [done | done |]. exists k. simpl. split_and!; [done | done |]. intros id b Hl. destruct (Hh id b Hl) as [H1 _].
    assert (id < k)%nat; [| split; [done | lia]]. rewrite Hd in Hq. destruct (length (rb_heap r) - k)%nat eqn:E; [| done].
    apply lookup_lt_Some in Hl. lia.
  - destruct Hi as [A B F C I]; simpl in *. split; simpl; [done | done | done | |].
    + constructor; [simpl; apply getBatch_valid | done].
    + intros x. specialize (I x). cbn [calls_items map concat call_items]. rewrite occ_app, !occ_cons, occ_nil. unfold calls_items in I. lia.
  - destruct Hi as [A B F C I]; simpl in *. split; simpl; [done | done | done | |].
    + constructor; [split; [apply getBatch_valid | done] | done].
    + intros x. specialize (I x). cbn [calls_items map concat call_items]. rewrite !occ_app. unfold calls_items in I. lia.
  - eapply bs_handled; [done |]. destruct Hi as [A B F C I]; simpl in *. by eapply notify_located_handled.
  - eapply bs_handled; [done |]. destruct Hi as [A B F C I]; simpl in *. eapply result_located_handled; [done | done | | done | done].
    apply Forall_app in C as [_ [[_ ?] _]%Forall_cons]. done.
  - apply (bs_handled free r _ w _ false CCheck cs1 cs2 rc Hi). destruct Hi as [A B F C I]; simpl in *. by apply check_ok.
Qed.

(** A batcher nothing was asked of yet. *)
Definition bs_start (num : Z) (ids : list Z) (q : Q) (locks : list bool) : BatchSystem :=
  mkBatchSystem (setBatchedStreams ids (setNumPartialResults num (mkResultBatcher [] [] 0 []))) (mkWorld q locks []) [] [].

Lemma bs_start_inv (num : Z) (ids : list Z) (q : Q) (locks : list bool) :
  NoDup ids -> fmq_written q = [] -> bs_inv (Forall (fun b => b = true) locks) (bs_start num ids q locks).
Proof.
  intros Hnd Hq. split; simpl; [| | by intros ? | constructor |].
  - split; simpl; [apply u32_range | done |]. exists 0%nat. simpl. split_and!; [lia | done |]. by intros id b.
  - exists []. intros s. simpl. by rewrite Hq.
  - intros x. unfold out_items, delivered. simpl. done.
Qed.

Lemma bs_reachable_inv (num : Z) (ids : list Z) (q : Q) (locks : list bool) (s : BatchSystem) :
  NoDup ids -> fmq_written q = [] -> rtc bs_step (bs_start num ids q locks) s -> bs_inv (Forall (fun b => b = true) locks) s.
Proof.
  intros Hnd Hq Hr. assert (bs_inv (Forall (fun b => b = true) locks) (bs_start num ids q locks)) as Hi by (by apply bs_start_inv).
  revert Hi. induction Hr as [s | s1 s2 s3 Hs Hr IH]; [done |]. intros Hi. apply IH. by eapply bs_step_inv.
Qed.

End system.

(** ** Theorems *)

(** C18. The batcher accounts for everything: in every interleaving of
    registrations, notifications and results in which the vendor library
    respects the order of results and gives no metadata of physical cameras
    with results of a batch, every message, buffer, input buffer, metadata
    entry and physical camera's metadata handed over has been delivered to the
    service in a result or a notification, or given up because the callback
    stayed busy for a second, or is held by a batch, or belongs to a call under
    way, exactly as often as it was handed over.  Nothing is given up if the
    lock of the callback is always obtained in time; what is held is held by
    batches in flight only; the service can read back every result from the
    queue; and every call under way can go on, an error as long as the deque
    still has the batches it counted.  Buffers are compared with the numbers of
    their descriptors; which handle owns a descriptor is not part of this. *)
Theorem batcher_conserves {Q : Type} `{MessageQueueLaws Q} (num : Z) (ids : list Z) (q : Q) (locks : list bool) (s : BatchSystem)
    (Hids : NoDup ids) (Hq : fmq_written q = []) (Hs : rtc bs_step (bs_start num ids q locks) s) :
  let evs := w_events (bs_world s) in
  (forall x, occ x (bs_received s) =
     (occ x (results_items (delivered (bs_world s))) + occ x (notified evs) + occ x (given_up evs) +
      occ x (heap_items (rb_heap (bs_rb s))) + occ x (calls_items (bs_calls s)))%nat) /\
  (Forall (fun b => b = true) locks -> given_up evs = []) /\
  (forall id b, rb_heap (bs_rb s) !! id = Some b -> id ∉ mInflightBatches (bs_rb s) -> batch_items b = []) /\
  readable (bs_world s) /\
  (forall loc res, CResult loc res ∈ bs_calls s -> is_Some (result_located loc res (bs_rb s) (bs_world s))) /\
  (forall loc msg, CNotify loc msg ∈ bs_calls s ->
     (is_error msg = true -> match loc with Some (i, _) => (i < length (mInflightBatches (bs_rb s)))%nat | None => True end) ->
     is_Some (notify_located loc msg (bs_rb s) (bs_world s))).
Proof.
  destruct (bs_reachable_inv num ids q locks s Hids Hq Hs) as [A B F C I]. intros evs. split_and!; [| | | done | |].
  - intros x. rewrite I. unfold out_items. rewrite occ_app, events_items_split. subst evs. lia.
  - intros Hfree. by apply given_up_none, F.
  - intros id b Hl Hn. destruct A as [_ _ (k & Hk & Hd & Hh)]. apply (Hh id b Hl).
    destruct (Nat.le_gt_cases k id) as [Hle | ?]; [| done]. exfalso. apply Hn. rewrite Hd. apply elem_of_seq.
    apply lookup_lt_Some in Hl. lia.
  - intros loc res Hc. rewrite Forall_forall in C. destruct (C _ Hc) as [Hv _]. unfold result_located.
    destruct loc as [[i id] |]; [| by eexists]. destruct (lookup_lt_is_Some_2 _ _ Hv) as [b ->]. cbn [mbind option_bind].
    destruct (mRemoved b); [by eexists |]. destruct (queue_result res b _). by eexists.
  - intros loc msg Hc He. rewrite Forall_forall in C. pose proof (C _ Hc) as Hv. unfold notify_located.
    destruct loc as [[i id] |]; [| by eexists]. destruct (is_error msg) eqn:Em.
    + destruct (flush_batches_ok (1 + i) (bs_rb s) (bs_world s) A B) as (r' & w' & -> & _); [by specialize (He eq_refl); simpl; lia | by eexists].
    + destruct (lookup_lt_is_Some_2 _ _ Hv) as [b ->]. cbn [mbind option_bind]. destruct (mRemoved b); [by eexists |].
      match goal with |- context [let '(_, _) := ?t in _] => destruct t end. by eexists.
Qed.

(** A queue of bounded size that is never read from: writes that do not fit
    are refused. *)
Record BoundedQueue := mkBoundedQueue { bq_capacity : Z; bq_written : list Z }.

#[export] Instance BoundedQueue_queue : MessageQueue BoundedQueue := {
  availableToWrite q := bq_capacity q - Z.of_nat (length (bq_written q));
  fmq_write bs q :=
    if Z.of_nat (length bs) <=? bq_capacity q - Z.of_nat (length (bq_written q))
    then Some (mkBoundedQueue (bq_capacity q) (bq_written q ++ bs)) else None;
  fmq_written := bq_written
}.

#[export] Instance BoundedQueue_laws : MessageQueueLaws BoundedQueue.
Proof. split. intros bs q q' Hw. simpl in *. by destruct (_ <=? _); simplify_eq/=. Qed.

Definition example_buffer (id fence : Z) : StreamBuffer := mkStreamBuffer id 0 [] BUFFER_OK [] [fence].

Definition example_result (frame : Z) (md : list Z) (bs : list StreamBuffer) : CaptureResult :=
  mkCaptureResult frame 0 md bs (StreamBuffer_default <| streamId := -1 |>) 1 [].

Example batcher_conserves_witness :
  let s := mkBatchSystem (registerBatch 10 2 (mkResultBatcher [] [] 1 [7])) (mkWorld (mkBoundedQueue 64 []) [] [])
             [CResult (Some (0, 0)%nat) (example_result 10 [5] [example_buffer 7 40])] [IMeta 10 1 [5]; IBuf (example_buffer 7 40)] in
  readable (bs_world s) /\
  is_Some (result_located (Some (0, 0)%nat) (example_result 10 [5] [example_buffer 7 40]) (bs_rb s) (bs_world s)).
Proof.
  intros s. destruct (batcher_conserves 1 [7] (mkBoundedQueue 64 []) [] s) as (_ & _ & _ & Hr & Hres & _).
  - apply NoDup_singleton.
  - done.
  - eapply rtc_l; [apply (bs_register 10 2) |]. eapply rtc_l; [| apply rtc_refl].
    apply (bs_result (example_result 10 [5] [example_buffer 7 40])). split; [done | constructor].
  - split; [exact Hr |]. apply Hres. by constructor.
Defined.
