(* ===== verification/CameraBatches.v ===== *)
(** * Complete batches, and where the batcher falls short

    Shown: a batch whose frames arrive in order is delivered in three callback
    calls, one for the shutters, one for the metadata and one for the buffers,
    with every item at its own frame, and leaves the deque.  The last section
    runs the definitions on the cases that the code does not cover. *)

From S2P Require Import Prelude CameraTypes CameraBatcher CameraDelivery CameraBatchSystem.

Section complete.
Context {Q : Type} `{MessageQueueLaws Q}.

(** With the callback free, the service's view grows by the results. *)
Lemma invoke_delivered (rs : list CaptureResult) (fmq : bool) (w : World Q) :
  Forall result_wf rs -> readable w -> w_locks w = [] ->
  let '(rs', w') := invokeProcessCaptureResultCallback rs fmq w in
  readable w' /\ w_locks w' = [] /\ w_events w' = w_events w ++ [EV_results rs'] /\ delivered w' = delivered w ++ rs /\
  (fmq = false -> rs' = rs).
Proof.
  intros Hwf [vs Hr] Hl. unfold invokeProcessCaptureResultCallback. rewrite Hl. cbn [head default tail].
  destruct (callback_results rs fmq w Hwf) as (rs' & q' & bs & -> & Hq & Hc & Hno).
  set (w' := emit _ _).
  assert (forall s, client_view (w_events w') (fmq_written (w_queue w') ++ s) = Some (vs ++ rs, s)) as Hr'.
  { intros s. cbn [w' emit w_events w_queue]. rewrite Hq, client_view_app, <- app_assoc, Hr. cbn [mbind option_bind client_view].
    rewrite Hc. simpl. by rewrite app_nil_r. }
  split_and!; [by exists (vs ++ rs) | done | done | | done].
  by rewrite (delivered_eq _ _ Hr'), (delivered_eq _ _ Hr).
Qed.

(** ** A batch whose frames arrive one after the other

    [n] frames from [f]; for each the shutter and one result, with its
    metadata and one buffer of each batched stream. *)

Context (f num : Z) (n : nat) (streams : list Z) (ts : nat -> Z) (md : nat -> list Z) (buf : Z -> nat -> StreamBuffer).

Definition frame_shutter (i : nat) : NotifyMsg := NotifyMsg_shutter (f + Z.of_nat i) (ts i).

Definition frame_result (i : nat) : CaptureResult :=
  mkCaptureResult (f + Z.of_nat i) 0 (md i) ((fun s => buf s i) <$> streams) (StreamBuffer_default <| streamId := -1 |>) num [].

Fixpoint run_frames (fs : list nat) (r : ResultBatcher) (w : World Q) : option (ResultBatcher * World Q) :=
  match fs with
  | [] => Some (r, w)
  | i :: fs =>
      '(r, w) ← notify (frame_shutter i) r w;
      '(r, w) ← processCaptureResult (frame_result i) r w;
      run_frames fs r w
  end.

Record complete_ok : Prop := {
  co_frames : 0 <= f /\ f + Z.of_nat n <= 2 ^ 31;
  co_size : (0 < n)%nat;
  co_num : 0 < num < 2 ^ 31;
  co_streams : NoDup streams;
  co_some : streams <> [];
  co_buf : forall s i, streamId (buf s i) = s;
  co_md : forall i, md i <> []
}.

(** The batch after [j] shutters and [i] results. *)
Definition held_bufs (i : nat) : gmap Z BufferBatch := list_to_map ((fun s => (s, mkBufferBatch false (buf s <$> seq 0 i))) <$> streams).

Definition frame_md (k : nat) : Z * list Z := (f + Z.of_nat k, md k).

Definition held_mds (i : nat) : list (Z * list (Z * list Z)) :=
  match i with O => [] | _ => [(num, frame_md <$> seq 0 i)] end.

Definition held_batch (sent : bool) (j i : nat) : InflightBatch := {|
  mFirstFrame := f;
  mLastFrame := f + Z.of_nat n - 1;
  mBatchSize := Z.of_nat n;
  mShutterDelivered := sent;
  mShutterMsgs := frame_shutter <$> seq 0 j;
  mBatchBufs := held_bufs i;
  mNumPartialResults := num;
  mPartialResultProgress := 0;
  mResultMds := held_mds i;
  mRemoved := false
|}.

(** A batcher whose only batch in flight is [b]. *)
Definition only_batch (r : ResultBatcher) (heap : list InflightBatch) (b : InflightBatch) : Prop :=
  rb_heap r = heap ++ [b] /\ mInflightBatches r = [length heap].

Lemma getBatch_only (r : ResultBatcher) (heap : list InflightBatch) (b : InflightBatch) (fr : Z) :
  only_batch r heap b -> mFirstFrame b <= fr <= mLastFrame b -> getBatch fr r = Some (0, length heap)%nat.
Proof.
  intros [Hh Hd] Hf. unfold getBatch. rewrite Hd, Hh. cbn [last]. rewrite lookup_app_r, Nat.sub_diag by lia. simpl.
  rewrite (proj2 (Z.ltb_ge _ _)), (proj2 (Z.ltb_ge _ _)) by lia. simpl.
  rewrite lookup_app_r, Nat.sub_diag by lia. simpl. unfold in_batch.
  by rewrite (proj2 (Z.leb_le _ _)), (proj2 (Z.leb_le _ _)) by lia.
Qed.

Lemma only_batch_lookup (r : ResultBatcher) (heap : list InflightBatch) (b : InflightBatch) :
  only_batch r heap b -> rb_heap r !! length heap = Some b.
Proof. intros [-> _]. by rewrite lookup_app_r, Nat.sub_diag by lia. Qed.

Lemma only_batch_update (r : ResultBatcher) (heap : list InflightBatch) (b b' : InflightBatch) :
  only_batch r heap b -> only_batch (r <| rb_heap := <[length heap := b']> (rb_heap r) |>) heap b'.
Proof. intros [Hh Hd]. split; [| done]. simpl. rewrite Hh, insert_app_r_alt, Nat.sub_diag by lia. done. Qed.

Section facts.
Context (Hc : complete_ok).

Lemma held_bufs_lookup (i : nat) (s : Z) :
  held_bufs i !! s = if decide (s ∈ streams) then Some (mkBufferBatch false (buf s <$> seq 0 i)) else None.
Proof.
  unfold held_bufs. destruct (decide (s ∈ streams)) as [Hin | Hni].
  - apply elem_of_list_to_map_1.
    + rewrite <- list_fmap_compose. change (NoDup ((fun s => s) <$> streams)). rewrite list_fmap_id. apply Hc.
    + apply list_elem_of_fmap. by exists s.
  - apply not_elem_of_list_to_map_1. rewrite <- list_fmap_compose. change (s ∉ ((fun s => s) <$> streams)). by rewrite list_fmap_id.
Qed.

Lemma own_buffer (s : Z) (i : nat) (l : list Z) :
  NoDup l -> s ∈ l -> filter (fun b => streamId b = s) ((fun s => buf s i) <$> l) = [buf s i].
Proof.
  intros Hnd. induction Hnd as [| a l Hni Hnd IH]; intros Hin; [by apply not_elem_of_nil in Hin |].
  cbn [fmap list_fmap]. rewrite filter_cons, (co_buf Hc). change (list_fmap Z StreamBuffer ?g l) with (g <$> l).
  apply elem_of_cons in Hin as [<- | Hin].
  - rewrite decide_True by done. f_equal. clear IH Hnd. induction l as [| c l IH]; [done |]. cbn [fmap list_fmap].
    rewrite filter_cons, (co_buf Hc). rewrite not_elem_of_cons in Hni. rewrite decide_False by naive_solver. apply IH. tauto.
  - rewrite decide_False by (intros ->; done). by apply IH.
Qed.

Lemma queue_frame (i : nat) :
  queue_buffers ((fun s => buf s i) <$> streams) (held_bufs i) [] [] = (held_bufs (S i), streams, []).
Proof.
  destruct (queue_buffers_spec ((fun s => buf s i) <$> streams) (held_bufs i) [] []) as (bufs & -> & Hl & _). simpl.
  assert (forall b, b ∈ (fun s => buf s i) <$> streams -> is_Some (held_bufs i !! streamId b)) as Hin.
  { intros b (s & -> & Hs)%list_elem_of_fmap. rewrite (co_buf Hc), held_bufs_lookup, decide_True by done. by eexists. }
  f_equal; [f_equal |].
  - apply map_eq. intros s. rewrite Hl, !held_bufs_lookup. destruct (decide (s ∈ streams)) as [Hs | Hs]; [| done].
    rewrite (seq_S i 0), fmap_app. simpl. by rewrite own_buffer by (done || apply Hc).
  - rewrite filter_all_elem by done. change (map streamId ?l) with (streamId <$> l).
    rewrite <- list_fmap_compose. rewrite <- (list_fmap_id streams) at 2. apply list_fmap_ext. intros j s _. apply (co_buf Hc).
  - apply filter_no_elem. intros b Hb Hn. by apply Hn, Hin.
Qed.

Lemma push_frame (i : nat) : push_metadata num (frame_md i) (held_mds i) = held_mds (S i).
Proof.
  destruct i as [| i]; [done |]. unfold held_mds. simpl push_metadata. rewrite (proj2 (Z.ltb_ge _ _)), Z.eqb_refl by lia.
  by rewrite (seq_S (S i) 0), fmap_app.
Qed.

Lemma frame_range (i : nat) : (i < n)%nat -> is_u32 (f + Z.of_nat i) /\ is_i32 (f + Z.of_nat i).
Proof. destruct (co_frames Hc). unfold is_u32, is_i32. lia. Qed.

(** *** Before the last frame nothing is sent *)

Lemma shutter_mid (i : nat) (heap : list InflightBatch) (r : ResultBatcher) (w : World Q) :
  (S i < n)%nat -> only_batch r heap (held_batch false i i) ->
  exists r', notify (frame_shutter i) r w = Some (r', w) /\ only_batch r' heap (held_batch false (S i) i).
Proof.
  intros Hi Ho. destruct (frame_range i ltac:(lia)) as [Hu _]. unfold notify.
  assert (msg_frame (frame_shutter i) = f + Z.of_nat i) as Hm by (simpl; by rewrite u32_id).
  rewrite Hm, (getBatch_only r heap _ _ Ho) by (simpl; lia). unfold notify_located. cbn [is_error frame_shutter].
  rewrite (only_batch_lookup _ _ _ Ho). cbn [mbind option_bind held_batch mRemoved]. rewrite Hm.
  cbv zeta. simpl (mLastFrame _). rewrite (proj2 (Z.eqb_neq _ _)) by lia. eexists. split.
  - unfold finish_call. cbn [mbind option_bind]. simpl (mLastFrame _). by rewrite (proj2 (Z.eqb_neq _ _)) by lia.
  - match goal with |- only_batch (_ <| _ := <[_ := ?b]> _ |>) _ _ => assert (b = held_batch false (S i) i) as -> end.
    { unfold held_batch. rewrite (seq_S i 0), fmap_app. done. }
    by eapply only_batch_update.
Qed.

(** What a result does to the batch before anything is sent. *)
Lemma queue_result_frame (sent : bool) (j i : nat) (w : World Q) :
  (i < n)%nat ->
  queue_result (frame_result i) (held_batch sent j i) w =
    (let b := held_batch sent j (S i) in
     if f + Z.of_nat i =? f + Z.of_nat n - 1 then
       let '(b, w) := sendBatchMetadataLocked b num w in sendBatchBuffersLocked b streams w
     else (b, w)).
Proof.
  intros Hi. destruct (frame_range i Hi) as [Hu _]. destruct (co_num Hc). unfold queue_result. cbn [result_metadata frame_result].
  rewrite decide_False by apply Hc. cbn [partialResult frame_result frameNumber outputBuffers inputBuffer].
  rewrite !u32_id by (done || (unfold is_u32; lia)).
  cbv zeta. simpl (mBatchBufs _). simpl (mResultMds _).
  rewrite queue_frame. change ((f + Z.of_nat i, md i)) with (frame_md i). rewrite push_frame.
  simpl (mLastFrame _). cbn [length]. simpl (streamId _). cbn [Nat.ltb Nat.leb orb negb Z.eqb].
  rewrite (proj2 (Z.ltb_lt 0 num)) by done.
  assert (match length streams with O => false | S _ => true end = true) as -> by (pose proof (co_some Hc); by destruct streams).
  done.
Qed.

Lemma result_mid (i : nat) (heap : list InflightBatch) (r : ResultBatcher) (w : World Q) :
  (S i < n)%nat -> only_batch r heap (held_batch false (S i) i) ->
  exists r', processCaptureResult (frame_result i) r w = Some (r', w) /\ only_batch r' heap (held_batch false (S i) (S i)).
Proof.
  intros Hi Ho. destruct (frame_range i ltac:(lia)) as [Hu _]. unfold processCaptureResult. cbn [frameNumber frame_result].
  rewrite u32_id by done. rewrite (getBatch_only r heap _ _ Ho) by (simpl; lia). unfold result_located.
  rewrite (only_batch_lookup _ _ _ Ho). cbn [mbind option_bind held_batch mRemoved].
  change (mkInflightBatch _ _ _ _ _ _ _ _ _ _) with (held_batch false (S i) i).
  rewrite queue_result_frame by lia. cbv zeta. rewrite (proj2 (Z.eqb_neq (f + Z.of_nat i) (f + Z.of_nat n - 1))) by lia.
  cbn [frameNumber frame_result]. rewrite u32_id by done. eexists. split; [| by eapply only_batch_update].
  unfold finish_call. cbn [mbind option_bind]. simpl (mLastFrame _). by rewrite (proj2 (Z.eqb_neq _ _)) by lia.
Qed.

Lemma frames_mid (m i : nat) (heap : list InflightBatch) (r : ResultBatcher) (w : World Q) :
  (i + m < n)%nat -> only_batch r heap (held_batch false i i) ->
  exists r', run_frames (seq i m) r w = Some (r', w) /\ only_batch r' heap (held_batch false (i + m) (i + m)).
Proof.
  revert i r. induction m as [| m IH]; intros i r Him Ho; [exists r; rewrite Nat.add_0_r; done |]. cbn [seq run_frames].
  destruct (shutter_mid i heap r w ltac:(lia) Ho) as (r1 & -> & Ho1). cbn [mbind option_bind].
  destruct (result_mid i heap r1 w ltac:(lia) Ho1) as (r2 & -> & Ho2). cbn [mbind option_bind].
  destruct (IH (S i) r2 ltac:(lia) Ho2) as (r3 & E & Ho3). exists r3. split; [done |]. by rewrite Nat.add_succ_comm in Ho3.
Qed.

(** *** The last frame *)

Lemma shutter_last (i : nat) (heap : list InflightBatch) (r : ResultBatcher) (w : World Q) :
  n = S i -> only_batch r heap (held_batch false i i) ->
  exists r', notify (frame_shutter i) r w = Some (r', emit (EV_notify (frame_shutter <$> seq 0 n)) w) /\
    only_batch r' heap (held_batch true 0 i).
Proof.
  intros Hi Ho. destruct (frame_range i ltac:(lia)) as [Hu _]. destruct (co_num Hc). unfold notify.
  assert (msg_frame (frame_shutter i) = f + Z.of_nat i) as Hm by (simpl; by rewrite u32_id).
  rewrite Hm, (getBatch_only r heap _ _ Ho) by (simpl; lia). unfold notify_located. cbn [is_error frame_shutter].
  rewrite (only_batch_lookup _ _ _ Ho). cbn [mbind option_bind held_batch mRemoved]. rewrite Hm.
  cbv zeta. simpl (mLastFrame _). rewrite (proj2 (Z.eqb_eq _ _)) by lia. unfold sendBatchShutterCbsLocked. simpl (mShutterDelivered _).
  cbv iota. simpl (mShutterMsgs _). rewrite (proj2 (Z.eqb_eq (f + Z.of_nat i) _)) by (simpl; lia).
  unfold finish_call. cbn [mbind option_bind].
  set (r1 := r <| rb_heap := _ |>).
  assert (only_batch r1 heap (held_batch true 0 i)) as Ho1 by (by eapply only_batch_update).
  assert (checkAndRemoveFirstBatch r1 = r1) as ->.
  { unfold checkAndRemoveFirstBatch. rewrite (proj2 Ho1), (only_batch_lookup _ _ _ Ho1). unfold allDelivered; simpl.
    by rewrite (proj2 (Z.ltb_lt _ _)) by done. }
  exists r1. split; [| done]. rewrite Hi, (seq_S i 0), fmap_app. done.
Qed.

(** The state of the batch, and the world, after both sends. *)
Definition metadata_results : list CaptureResult := metadata_result num ∘ frame_md <$> seq 0 n.

Definition buffer_results : list CaptureResult :=
  (fun k => buffer_result (f + Z.of_nat k) ((fun s => buf s k) <$> streams)) <$> seq 0 n.

Lemma metadata_last (w : World Q) :
  readable w -> w_locks w = [] ->
  exists rs w', sendBatchMetadataLocked (held_batch true 0 n) num w =
      ((held_batch true 0 n) <| mPartialResultProgress := num |> <| mResultMds := [] |>, w') /\
    readable w' /\ w_locks w' = [] /\ w_events w' = w_events w ++ [EV_results rs] /\ delivered w' = delivered w ++ metadata_results.
Proof.
  intros Hr Hl. destruct (co_num Hc). unfold sendBatchMetadataLocked. simpl (mPartialResultProgress _). rewrite (proj2 (Z.leb_gt _ _)) by lia.
  simpl (mResultMds _). rewrite erase_due. assert (held_mds n = [(num, frame_md <$> seq 0 n)]) as ->.
  { pose proof (co_size Hc). destruct n; [lia | done]. }
  rewrite !filter_cons, !filter_nil. simpl fst. rewrite decide_True by lia. rewrite decide_False by lia. simpl map. simpl concat. rewrite app_nil_r.
  change (map (metadata_result num) (frame_md <$> seq 0 n)) with (metadata_result num <$> (frame_md <$> seq 0 n)). rewrite <- list_fmap_compose.
  pose proof (invoke_delivered metadata_results true w) as Hi. fold metadata_results.
  destruct (invokeProcessCaptureResultCallback metadata_results true w) as [rs w']. destruct Hi as (R & L & E & D & _); [| done | done |].
  - apply Forall_fmap, Forall_forall. intros k _. split; [done | constructor].
  - by exists rs, w'.
Qed.

Lemma frame_bufs_held (k : nat) : (k < n)%nat -> frame_bufs k streams (held_bufs n) = (fun s => buf s k) <$> streams.
Proof.
  intros Hk. unfold frame_bufs. assert (forall l : list Z, (forall s, s ∈ l -> s ∈ streams) -> omap (frame_buf k (held_bufs n)) l = (fun s => buf s k) <$> l) as Hl; [| by apply Hl].
  induction l as [| s l IH]; intros Hin; [done |]. cbn [omap list_omap fmap list_fmap].
  assert (frame_buf k (held_bufs n) s = Some (buf s k)) as ->.
  { unfold frame_buf. rewrite held_bufs_lookup, decide_True by (apply Hin; by constructor). simpl.
    by rewrite list_lookup_fmap, lookup_seq_lt. }
  f_equal. apply IH. intros s' Hs'. apply Hin. by constructor.
Qed.

Lemma buffers_last (b : InflightBatch) (w : World Q) :
  mFirstFrame b = f -> mBatchBufs b = held_bufs n -> readable w -> w_locks w = [] ->
  exists w' fds, sendBatchBuffersLocked b streams w = (b <| mBatchBufs := mark_delivered true streams (held_bufs n) |>, w') /\
    w_events w' = w_events w ++ [EV_results buffer_results; EV_freeFences fds] /\ delivered w' = delivered w ++ buffer_results.
Proof.
  intros Hf Hb Hr Hl.
  assert (forall s, s ∈ streams -> held_bufs n !! s = Some (mkBufferBatch false (buf s <$> seq 0 n))) as Hs.
  { intros s Hin. by rewrite held_bufs_lookup, decide_True. }
  assert (forall s, s ∈ streams -> is_Some (held_bufs n !! s)) as Hs' by (intros s Hin; rewrite (Hs s Hin); by eexists).
  unfold sendBatchBuffersLocked. rewrite Hf, Hb.
  destruct (send_batch_size_spec (held_bufs n) streams 0 Hs') as (m & -> & _ & Hm1 & Hm2).
  assert (m = n) as ->.
  { apply Nat.le_antisymm.
    - apply Hm2; [lia |]. intros s bb Hin Hbb _. rewrite (Hs s Hin) in Hbb. simplify_eq/=. by rewrite length_fmap, length_seq.
    - pose proof (co_some Hc). destruct streams as [| s l] eqn:E; [done |]. rewrite <- E in *.
      assert (s ∈ streams) as Hin by (rewrite E; by constructor).
      specialize (Hm1 s _ Hin (Hs s Hin) eq_refl). simpl in Hm1. by rewrite length_fmap, length_seq in Hm1. }
  destruct (collect_results_spec f 0 n streams (held_bufs n) (co_streams Hc) Hs') as (bufs & E & Ho & Hd).
  assert ((fun k => buffer_result (f + Z.of_nat k) (frame_bufs k streams (held_bufs n))) <$> seq 0 n = buffer_results) as Ers.
  { apply list_fmap_ext. intros j k Hk. apply lookup_seq in Hk as [-> Hk]. by rewrite frame_bufs_held by lia. }
  pose proof (invoke_delivered buffer_results false w) as Hi.
  assert (mark_delivered true streams bufs = mark_delivered true streams (held_bufs n)) as Emark.
  { apply map_eq. intros s. rewrite !mark_delivered_lookup; [| done | intros s' Hin; by apply Hd, Hs'].
    destruct (decide (s ∈ streams)) as [Hin | Hni]; [| by rewrite Ho].
    rewrite (Hs s Hin). destruct (proj2 (Hd s) (Hs' s Hin)) as [bb ->]. done. }
  pose proof (co_size Hc). destruct n as [| n'] eqn:En; [lia |]. rewrite <- En in *. rewrite E, Ers.
  destruct (invokeProcessCaptureResultCallback buffer_results false w) as [rs w'].
  destruct Hi as (R & L & Ev & D & Hrs); [| done | done |].
  { apply Forall_fmap, Forall_forall. intros k _. split; [done | constructor]. }
  specialize (Hrs eq_refl). subst rs. rewrite Emark. eexists _, _. split; [done |].
  destruct (emit_plain (EV_freeFences (concat (map result_fences buffer_results))) w' (fun s => eq_refl) R) as [_ Dl].
  split; [simpl; rewrite Ev, <- app_assoc; done |]. unfold freeReleaseFences. by rewrite Dl.
Qed.

Lemma result_last (i : nat) (heap : list InflightBatch) (r : ResultBatcher) (w : World Q) :
  n = S i -> only_batch r heap (held_batch true 0 i) -> readable w -> w_locks w = [] ->
  exists r' w' rs fds, processCaptureResult (frame_result i) r w = Some (r', w') /\ mInflightBatches r' = [] /\
    w_events w' = w_events w ++ [EV_results rs; EV_results buffer_results; EV_freeFences fds] /\
    delivered w' = delivered w ++ metadata_results ++ buffer_results.
Proof.
  intros Hi Ho Hr Hl. destruct (frame_range i ltac:(lia)) as [Hu _]. unfold processCaptureResult. cbn [frameNumber frame_result].
  rewrite u32_id by done. rewrite (getBatch_only r heap _ _ Ho) by (simpl; lia). unfold result_located.
  rewrite (only_batch_lookup _ _ _ Ho). cbn [mbind option_bind held_batch mRemoved].
  change (mkInflightBatch _ _ _ _ _ _ _ _ _ _) with (held_batch true 0 i).
  rewrite queue_result_frame by lia. cbv zeta. rewrite (proj2 (Z.eqb_eq (f + Z.of_nat i) (f + Z.of_nat n - 1))) by lia.
  rewrite <- Hi. destruct (metadata_last w Hr Hl) as (rs & w1 & -> & Hr1 & Hl1 & He1 & Hd1).
  match goal with |- context [sendBatchBuffersLocked ?b0 _ _] => destruct (buffers_last b0 w1 eq_refl eq_refl Hr1 Hl1) as (w2 & fds & E2 & He2 & Hd2) end.
  rewrite E2. cbn [frameNumber frame_result]. rewrite u32_id by done. simpl (mLastFrame _). rewrite (proj2 (Z.eqb_eq (f + Z.of_nat i) _)) by lia.
  unfold finish_call. cbn [mbind option_bind].
  set (r1 := r <| rb_heap := _ |>). set (b1 := _ <| mBatchBufs := _ |>) in r1.
  assert (only_batch r1 heap b1) as Ho1 by (by eapply only_batch_update).
  assert (allDelivered b1 = true) as Hall.
  { unfold allDelivered. simpl. rewrite Z.ltb_irrefl. simpl. apply forallb_forall. intros [s bb] Hin.
    apply list_elem_of_In, elem_of_map_to_list in Hin. rewrite mark_delivered_lookup in Hin.
    - rewrite held_bufs_lookup in Hin. by destruct (decide (s ∈ streams)); simplify_eq/=.
    - intros s' Hs'. rewrite held_bufs_lookup, decide_True by done. by eexists. }
  exists (checkAndRemoveFirstBatch r1), w2, rs, fds. split_and!; [done | | |].
  - unfold checkAndRemoveFirstBatch. rewrite (proj2 Ho1), (only_batch_lookup _ _ _ Ho1), Hall. done.
  - by rewrite He2, He1, <- app_assoc.
  - by rewrite Hd2, Hd1, <- app_assoc.
Qed.

End facts.

Lemma run_frames_app (a b : list nat) (r : ResultBatcher) (w : World Q) :
  run_frames (a ++ b) r w = ('(r, w) ← run_frames a r w; run_frames b r w).
Proof.
  revert r w. induction a as [| i a IH]; intros r w; [done |]. simpl app. cbn [run_frames].
  destruct (notify (frame_shutter i) r w) as [[r1 w1] |]; [| done]. cbn [mbind option_bind].
  destruct (processCaptureResult (frame_result i) r1 w1) as [[r2 w2] |]; [| done]. apply IH.
Qed.

End complete.

(** C19. A batch is delivered as a whole and in order, in the regular case:
    a batch of [n > 0] frames is registered while no other is in flight, at
    least one stream is batched, for each frame in turn there come its shutter
    and then its one complete result, with metadata and one buffer of each
    batched stream, and the lock of the callback is free.  This leads to exactly
    one call for all shutters, one for all metadata and one for all buffers,
    followed by the closing of the release fences; the service, reading the
    queue, sees each metadata entry and each buffer at its own frame; and the
    batch leaves the deque. *)
Theorem complete_batch_delivered {Q : Type} `{MessageQueueLaws Q} (f num : Z) (n : nat) (streams : list Z) (ts : nat -> Z)
    (md : nat -> list Z) (buf : Z -> nat -> StreamBuffer) (r : ResultBatcher) (w : World Q)
    (Hc : complete_ok f num n streams md buf)
    (Hidle : mInflightBatches r = [] /\ mStreamsToBatch r = streams /\ rb_mNumPartialResults r = num)
    (Hw : readable w /\ w_locks w = []) :
  exists r' w' rs fds,
    run_frames f num streams ts md buf (seq 0 n) (registerBatch f (Z.of_nat n) r) w = Some (r', w') /\
    mInflightBatches r' = [] /\
    w_events w' = w_events w ++ [EV_notify (frame_shutter f ts <$> seq 0 n); EV_results rs;
                                 EV_results (buffer_results f n streams buf); EV_freeFences fds] /\
    delivered w' = delivered w ++ metadata_results f num n md ++ buffer_results f n streams buf.
Proof.
  destruct Hidle as (Hd & Hs & Hn). destruct Hw as [Hr Hl]. pose proof (co_size _ _ _ _ _ _ Hc) as Hsz.
  destruct n as [| i]; [lia |]. rewrite (seq_S i 0), Nat.add_0_l, run_frames_app.
  assert (only_batch (registerBatch f (Z.of_nat (S i)) r) (rb_heap r) (held_batch f num (S i) streams ts md buf false 0 0)) as Ho.
  { split; [| simpl; by rewrite Hd]. simpl. f_equal. unfold new_batch, held_batch. destruct (co_frames _ _ _ _ _ _ Hc).
    rewrite u32_id by (unfold is_u32; lia). rewrite Hn, Hs. done. }
  destruct (frames_mid f num (S i) streams ts md buf Hc i 0 (rb_heap r) _ w ltac:(lia) Ho) as (r1 & -> & Ho1). cbn [mbind option_bind run_frames].
  destruct (shutter_last f num (S i) streams ts md buf Hc i (rb_heap r) r1 w eq_refl Ho1) as (r2 & -> & Ho2). cbn [mbind option_bind].
  destruct (emit_plain (EV_notify (frame_shutter f ts <$> seq 0 (S i))) w (fun s => eq_refl) Hr) as [Hr2 Hd2].
  destruct (result_last f num (S i) streams ts md buf Hc i (rb_heap r) r2 _ eq_refl Ho2 Hr2 Hl) as (r3 & w3 & rs & fds & -> & Hq & He & Hdl).
  exists r3, w3, rs, fds. cbn [mbind option_bind]. split_and!; [done | done | | by rewrite Hdl, Hd2].
  rewrite He. rewrite (seq_S i 0). cbn [emit w_events]. by rewrite <- app_assoc.
Qed.

Lemma example_complete : complete_ok 10 1 2 [7; 8] (fun i => [Z.of_nat i]) (fun s i => example_buffer s (40 + Z.of_nat i)).
Proof. split; [lia | lia | lia | | done | done | done]. by apply (bool_decide_unpack (NoDup [7; 8])). Qed.

Example complete_batch_delivered_witness :
  exists r' w',
    run_frames 10 1 [7; 8] (fun i => 100) (fun i => [Z.of_nat i]) (fun s i => example_buffer s (40 + Z.of_nat i)) (seq 0 2)
      (registerBatch 10 (Z.of_nat 2) (mkResultBatcher [] [] 1 [7; 8])) (mkWorld (mkBoundedQueue 64 []) [] []) = Some (r', w') /\
    mInflightBatches r' = [] /\ length (w_events w') = 4%nat /\ length (delivered w') = 4%nat.
Proof.
  destruct (complete_batch_delivered 10 1 2 [7; 8] (fun i => 100) (fun i => [Z.of_nat i]) (fun s i => example_buffer s (40 + Z.of_nat i))
    (mkResultBatcher [] [] 1 [7; 8]) (mkWorld (mkBoundedQueue 64 []) [] []) example_complete) as (r' & w' & rs & fds & E & Hq & He & Hd).
  - done.
  - split; [by exists [] | done].
  - exists r', w'. rewrite He, Hd. done.
Defined.

(** ** Where the batcher falls short *)

Definition example_world : World BoundedQueue := mkWorld (mkBoundedQueue 64 []) [] [].
Definition example_batcher : ResultBatcher := mkResultBatcher [] [] 1 [7].

(** The session registers a batch after it has submitted all its requests.
    When the first result overtakes the registration it is passed on directly,
    and the buffer of the second frame is then sent as the first frame's. *)
Theorem late_registration_misattributes :
  (('(r, w) ← processCaptureResult (example_result 10 [1] [example_buffer 7 40]) example_batcher example_world;
    '(r, w) ← processCaptureResult (example_result 11 [2] [example_buffer 7 41]) (registerBatch 10 2 r) w;
    Some (map (fun x => (frameNumber x, outputBuffers x)) (delivered w))) =
   Some [(10, [example_buffer 7 40]); (11, []); (10, [example_buffer 7 41])]).
Proof. vm_compute. reflexivity. Qed.

(** The error path counts batches before it takes the lock again: when two
    errors of the same batch overlap, the second one reads the front of an
    empty deque. *)
Theorem overlapping_errors_empty_deque :
  exists s, rtc bs_step (bs_start 1 [7] (mkBoundedQueue 64 []) []) s /\
    exists loc msg, CNotify loc msg ∈ bs_calls s /\ notify_located loc msg (bs_rb s) (bs_world s) = None.
Proof.
  eexists. split.
  - eapply rtc_l; [apply (bs_register 10 1) |].
    eapply rtc_l; [apply (bs_notify (NotifyMsg_error 10 7 ERROR_BUFFER)) |].
    eapply rtc_l; [apply (bs_notify (NotifyMsg_error 10 (-1) ERROR_RESULT)) |].
    eapply rtc_l; [| apply rtc_refl].
    eapply (bs_run_notify (Some (0, 0)%nat) (NotifyMsg_error 10 (-1) ERROR_RESULT) false _ _ _ _ []); [by intros b ? ? |].
    simpl. reflexivity.
  - exists (Some (0, 0)%nat), (NotifyMsg_error 10 7 ERROR_BUFFER). split; [by constructor | done].
Qed.

(** Metadata of physical cameras is not kept with the batch. *)
Theorem batched_physical_metadata_dropped :
  (('(r, w) ← processCaptureResult
       ((example_result 10 [1] []) <| physicalCameraMetadata := [mkPhysicalCameraMetadata 0 "2" [9]] |>)
       (registerBatch 10 1 example_batcher) example_world;
    Some (map physicalCameraMetadata (delivered w))) = Some [[]]).
Proof. vm_compute. reflexivity. Qed.
