(* ===== verification/CameraSession.v ===== *)
(** * The camera device session (src/camera/aidl/device/CameraDeviceSession.cpp)

    A session stands between the camera service and the vendor's camera3
    device: it imports the graphics buffers of the service once and keeps them
    by stream and identifier, keeps a record of the buffers, settings overrides
    and boost flags in flight, and translates requests and results.

    Operations are computations over the session and its surroundings
    ([Camera]): the importer of buffers and fences, the queue of request
    settings, and the log of the calls made on the device.  [None] is the end
    of the process: an exception that nobody catches, or an access the language
    leaves undefined.  What the device answers is a parameter
    ([Camera3Device]). *)

From S2P Require Import Prelude CameraTypes CameraBatcher.

(** ** Surroundings *)

(** The metadata entries the session looks at. *)
Inductive MetadataTag := TAG_AE_PRECAPTURE_TRIGGER | TAG_AE_LOCK | TAG_POST_RAW_SENSITIVITY_BOOST.
#[export] Instance MetadataTag_eq : EqDecision MetadataTag.
Proof. solve_decision. Defined.

Definition AE_PRECAPTURE_TRIGGER_IDLE : Z := 0.
Definition AE_PRECAPTURE_TRIGGER_CANCEL : Z := 2.
Definition AE_LOCK_OFF : Z := 0.
Definition AE_LOCK_ON : Z := 1.

(** The vendor's metadata container: [md_append] is a cleared container after
    the entries of a buffer were appended, [md_find] the first value of an
    entry that has one, [md_exists] the presence of the entry. *)
Class MetadataEntries (M : Type) := {
  get_camera_metadata_entry_count : M -> Z;
  md_append : M -> M;
  md_find : MetadataTag -> M -> option Z;
  md_exists : MetadataTag -> M -> bool;
  md_update : MetadataTag -> Z -> M -> M
}.

Class MetadataEntriesLaws (M : Type) `{MetadataEntries M} := {
  md_find_append : forall t m, md_find t (md_append m) = md_find t m;
  md_exists_append : forall t m, md_exists t (md_append m) = md_exists t m;
  md_find_update : forall t v m, md_find t (md_update t v m) = Some v;
  md_find_update_ne : forall t t' v m, t <> t' -> md_find t (md_update t' v m) = md_find t m;
  md_exists_update : forall t v m, md_exists t (md_update t v m) = true
}.

(** [HandleImporter]: [None] is a null buffer or a fence that is not valid.  A
    null fence is valid and imported as -1.  [hi_imported] and [hi_fences] are
    what was imported and not yet given back. *)
Class HandleImporter (I : Type) := {
  hi_importBuffer : NativeHandle -> I -> option Z * I;
  hi_freeBuffer : Z -> I -> I;
  hi_importFence : NativeHandle -> I -> option Z * I;
  hi_closeFence : Z -> I -> I;
  hi_imported : I -> list Z;
  hi_fences : I -> list Z
}.

(** Remove one occurrence. *)
Definition remove_one (x : Z) (l : list Z) : list Z := default l (list_remove x l).

Class HandleImporterLaws (I : Type) `{HandleImporter I} := {
  hi_import_imported : forall b i, hi_imported (hi_importBuffer b i).2 = option_list (hi_importBuffer b i).1 ++ hi_imported i;
  hi_import_fences : forall b i, hi_fences (hi_importBuffer b i).2 = hi_fences i;
  hi_free_imported : forall h i, hi_imported (hi_freeBuffer h i) = remove_one h (hi_imported i);
  hi_free_fences : forall h i, hi_fences (hi_freeBuffer h i) = hi_fences i;
  hi_fence_fences : forall b i, hi_fences (hi_importFence b i).2 =
    (match (hi_importFence b i).1 with Some fd => if fd =? -1 then [] else [fd] | None => [] end) ++ hi_fences i;
  hi_fence_imported : forall b i, hi_imported (hi_importFence b i).2 = hi_imported i;
  hi_close_fences : forall fd i, hi_fences (hi_closeFence fd i) = if fd =? -1 then hi_fences i else remove_one fd (hi_fences i);
  hi_close_imported : forall fd i, hi_imported (hi_closeFence fd i) = hi_imported i
}.

(** The queue the service writes request settings to. *)
Class RequestQueue (R : Type) := { fmq_read : Z -> R -> option (list Z) * R }.

Inductive CameraStatus :=
  | CAM_OK | CAM_ILLEGAL_ARGUMENT | CAM_INTERNAL_ERROR | CAM_DISCONNECTED | CAM_OPERATION_NOT_SUPPORTED | CAM_IN_USE | CAM_MAX_CAMERAS_IN_USE.
#[export] Instance CameraStatus_eq : EqDecision CameraStatus.
Proof. solve_decision. Defined.

(** Statuses of the device. *)
Definition DEV_OK : Z := 0.
Definition DEV_EINVAL : Z := -22.

Definition CAMERA_DEVICE_API_VERSION_3_2 : Z := 0x302.
Definition CAMERA_DEVICE_API_VERSION_3_5 : Z := 0x305.

(** ** Requests *)

Record PhysicalCameraSetting := mkPhysicalCameraSetting {
  ps_fmqSettingsSize : Z;
  ps_physicalCameraId : string;
  ps_settings : list Z
}.

Record CaptureRequest := mkCaptureRequest {
  rq_frameNumber : Z;
  rq_fmqSettingsSize : Z;
  rq_settings : list Z;
  rq_inputBuffer : StreamBuffer;
  rq_outputBuffers : list StreamBuffer;
  rq_physicalCameraSettings : list PhysicalCameraSetting
}.

Record BufferCache := mkBufferCache { bc_streamId : Z; bc_bufferId : Z }.

Record StreamConfiguration := mkStreamConfiguration {
  sc_streams : list Stream;
  sc_operationMode : Z;
  sc_sessionParams : list Z;
  sc_streamConfigCounter : Z
}.

Record AETriggerCancelOverride := mkAETriggerCancelOverride {
  applyAeLock : bool;
  aeLock : Z;
  applyAePrecaptureTrigger : bool;
  aePrecaptureTrigger : Z
}.
#[export] Instance AETriggerCancelOverride_eta : Record_eta AETriggerCancelOverride :=
  fun o => mkAETriggerCancelOverride (applyAeLock o) (aeLock o) (applyAePrecaptureTrigger o) (aePrecaptureTrigger o).

Record camera3_capture_request (M : Type) := mkHalRequest {
  hr_frame_number : Z;
  hr_settings : option M;
  hr_input_buffer : option camera3_stream_buffer;
  hr_output_buffers : list camera3_stream_buffer;
  hr_physcam : list (string * option M)
}.
Arguments mkHalRequest {M} _ _ _ _ _.
Arguments hr_frame_number {M} _.
Arguments hr_settings {M} _.
Arguments hr_input_buffer {M} _.
Arguments hr_output_buffers {M} _.
Arguments hr_physcam {M} _.

(** The stream of a returned buffer is the key of its entry in [mStreamMap]. *)
Record camera3_capture_result (M : Type) := mkHalResult {
  hl_frame_number : Z;
  hl_result : option M;
  hl_output_buffers : list camera3_stream_buffer;
  hl_input_buffer : option camera3_stream_buffer;
  hl_partial_result : Z;
  hl_physcam : list (string * M)
}.
Arguments mkHalResult {M} _ _ _ _ _ _.
Arguments hl_frame_number {M} _.
Arguments hl_result {M} _.
Arguments hl_output_buffers {M} _.
Arguments hl_input_buffer {M} _.
Arguments hl_partial_result {M} _.
Arguments hl_physcam {M} _.

(** What the device answers: [configure_streams] fills in fields of the
    streams it is given. *)
Record Camera3Device (M : Type) := mkCamera3Device {
  dev_initialize : Z;
  dev_configure_streams : option M -> list Camera3Stream -> Z * list Camera3Stream;
  dev_construct_default_request_settings : Z -> option M;
  dev_process_capture_request : camera3_capture_request M -> Z;
  dev_flush : Z;
  dev_has_signal_stream_flush : bool
}.
Arguments mkCamera3Device {M} _ _ _ _ _ _.
Arguments dev_initialize {M} _.
Arguments dev_configure_streams {M} _ _ _.
Arguments dev_construct_default_request_settings {M} _ _.
Arguments dev_process_capture_request {M} _ _.
Arguments dev_flush {M} _.
Arguments dev_has_signal_stream_flush {M} _.

Inductive DeviceCall (M : Type) :=
  | DEV_close
  | DEV_flush
  | DEV_signal_stream_flush (streams : list Z)
  | DEV_configure (operation_mode : Z) (streams : list Camera3Stream)
  | DEV_request (r : camera3_capture_request M).
Arguments DEV_close {M}.
Arguments DEV_flush {M}.
Arguments DEV_signal_stream_flush {M} _.
Arguments DEV_configure {M} _ _.
Arguments DEV_request {M} _.

(** ** The session *)

Record CameraDeviceSession := mkCameraDeviceSession {
  mClosed : bool;
  mDisconnected : bool;
  mInitFail : bool;
  mFirstRequest : bool;
  mDeviceVersion : Z;
  mFreeBufEarly : bool;
  mIsAELockAvailable : bool;
  mDerivePostRawSensKey : bool;
  cs_mNumPartialResults : Z;
  mStreamMap : gmap Z Camera3Stream;
  mPhysicalCameraIdMap : gmap Z string;
  mPhysicalCameraIds : list string;
  mStreamConfigCounter : Z;
  mInflightBuffers : gmap (Z * Z) camera3_stream_buffer;
  mInflightAETriggerOverrides : gmap Z AETriggerCancelOverride;
  mInflightRawBoostPresent : gmap Z bool;
  mCirculatingBuffers : gmap Z (gmap Z Z);
  mBufferIdMaps : gmap Z (gmap Z Z);
  mVideoStreamIds : list Z;
  mResultBatcher : ResultBatcher
}.
#[export] Instance CameraDeviceSession_eta : Record_eta CameraDeviceSession :=
  fun s => mkCameraDeviceSession (mClosed s) (mDisconnected s) (mInitFail s) (mFirstRequest s) (mDeviceVersion s) (mFreeBufEarly s)
    (mIsAELockAvailable s) (mDerivePostRawSensKey s) (cs_mNumPartialResults s) (mStreamMap s) (mPhysicalCameraIdMap s)
    (mPhysicalCameraIds s) (mStreamConfigCounter s) (mInflightBuffers s) (mInflightAETriggerOverrides s) (mInflightRawBoostPresent s)
    (mCirculatingBuffers s) (mBufferIdMaps s) (mVideoStreamIds s) (mResultBatcher s).

Record Camera (M I R : Type) := mkCamera {
  cam_session : CameraDeviceSession;
  cam_importer : I;
  cam_queue : R;
  cam_device : list (DeviceCall M)
}.
Arguments mkCamera {M I R} _ _ _ _.
Arguments cam_session {M I R} _.
Arguments cam_importer {M I R} _.
Arguments cam_queue {M I R} _.
Arguments cam_device {M I R} _.
#[export] Instance Camera_eta {M I R} : Record_eta (Camera M I R) :=
  fun c => mkCamera (cam_session c) (cam_importer c) (cam_queue c) (cam_device c).

(** Computations over a camera that can end the process. *)
Definition Cam (C A : Type) : Type := C -> option (A * C).

#[export] Instance Cam_ret {C} : MRet (Cam C) := fun A x c => Some (x, c).
#[export] Instance Cam_bind {C} : MBind (Cam C) := fun A B k m c => '(x, c) ← m c; k x c.

Definition cam_get {C A} (g : C -> A) : Cam C A := fun c => Some (g c, c).
Definition cam_modify {C} (g : C -> C) : Cam C unit := fun c => Some (tt, g c).
Definition cam_abort {C A} : Cam C A := fun c => None.

Fixpoint cam_for {C A} (l : list A) (body : A -> Cam C unit) : Cam C unit :=
  match l with
  | [] => mret tt
  | x :: l => body x;; cam_for l body
  end.

Section session.
Context {M I R : Type} `{CameraMetadataLib M} `{MetadataEntries M} `{HandleImporter I} `{RequestQueue R}.

Definition sess {A} (g : CameraDeviceSession -> A) : Cam (Camera M I R) A := cam_get (fun c => g (cam_session c)).

Definition set_session (g : CameraDeviceSession -> CameraDeviceSession) : Cam (Camera M I R) unit :=
  cam_modify (fun c => c <| cam_session ::= g |>).

Definition device_call (d : DeviceCall M) : Cam (Camera M I R) unit := cam_modify (fun c => c <| cam_device ::= fun l => l ++ [d] |>).

Definition importer_do (g : I -> I) : Cam (Camera M I R) unit := cam_modify (fun c => c <| cam_importer ::= g |>).

Definition importer_ask {A} (g : I -> A * I) : Cam (Camera M I R) A :=
  fun c => let '(x, i) := g (cam_importer c) in Some (x, c <| cam_importer := i |>).

(** *** Construction *)

(** Size of a metadata queue: a vendor property, an older one, the default. *)
Definition fmq_queue_size (vendorProp prop default : Z) : Z :=
  if vendorProp <? 0 then (if prop <? 0 then default else prop) else vendorProp.

(** [initialize] gives true when it failed; the validity of the two queues is
    given. *)
Definition initialize (dev : Camera3Device M) (requestQueueValid resultQueueValid : bool) : Cam (Camera M I R) bool :=
  if negb (dev_initialize dev =? DEV_OK) then
    device_call DEV_close;; set_session (fun s => s <| mClosed := true |>);; mret true
  else mret (negb requestQueueValid || negb resultQueueValid).

(** The characteristics the constructor reads: the entries for partial results
    and exposure lock if present, the presence of the boost range, the
    physical cameras. *)
Record DeviceInfo := mkDeviceInfo {
  di_version : Z;
  di_partialResultCount : option Z;
  di_aeLockAvailable : option Z;
  di_hasBoostRange : bool;
  di_physicalIds : list string
}.

Definition CameraDeviceSession_new (dev : Camera3Device M) (info : DeviceInfo) (freeBufEarly requestQueueValid resultQueueValid : bool)
    (i : I) (q : R) : option (Camera M I R) :=
  let num := match di_partialResultCount info with Some n => u32 n | None => 1 end in
  let s := {|
    mClosed := false; mDisconnected := false; mInitFail := false; mFirstRequest := false;
    mDeviceVersion := di_version info; mFreeBufEarly := freeBufEarly;
    mIsAELockAvailable := match di_aeLockAvailable info with Some v => v =? 1 | None => false end;
    mDerivePostRawSensKey := di_hasBoostRange info;
    cs_mNumPartialResults := num;
    mStreamMap := ∅; mPhysicalCameraIdMap := ∅; mPhysicalCameraIds := di_physicalIds info; mStreamConfigCounter := 1;
    mInflightBuffers := ∅; mInflightAETriggerOverrides := ∅; mInflightRawBoostPresent := ∅;
    mCirculatingBuffers := ∅; mBufferIdMaps := ∅; mVideoStreamIds := [];
    mResultBatcher := setNumPartialResults num (mkResultBatcher [] [] 0 [])
  |} in
  '(failed, c) ← initialize dev requestQueueValid resultQueueValid (mkCamera s i q []);
  Some (c <| cam_session ::= fun s => s <| mInitFail := failed |> |>).

(** *** State of the session *)

Definition isClosed (s : CameraDeviceSession) : bool := mClosed s.

Definition initStatus (s : CameraDeviceSession) : CameraStatus :=
  if mInitFail s then CAM_INTERNAL_ERROR
  else if mDisconnected s then CAM_DISCONNECTED
  else if mClosed s then CAM_INTERNAL_ERROR
  else CAM_OK.

Definition disconnect : Cam (Camera M I R) unit :=
  set_session (fun s => s <| mDisconnected := true |>);;
  closed ← sess mClosed;
  if (closed : bool) then mret tt
  else device_call DEV_close;; set_session (fun s => s <| mClosed := true |>).

(** Handles a cache holds. *)
Definition cached (m : gmap Z Z) : list Z := (map_to_list m).*2.

Definition freeBuffers (hs : list Z) : Cam (Camera M I R) unit := cam_for hs (fun h => importer_do (hi_freeBuffer h)).

Definition close : Cam (Camera M I R) CameraStatus :=
  closed ← sess mClosed;
  if (closed : bool) then mret CAM_OK
  else
    device_call DEV_close;;
    streams ← sess (fun s => (map_to_list (mCirculatingBuffers s)).*2);
    cam_for streams (fun buffers => freeBuffers (cached buffers));;
    set_session (fun s => s <| mCirculatingBuffers := ∅ |> <| mClosed := true |>);;
    mret CAM_OK.

(** The destructor. *)
Definition destroy : Cam (Camera M I R) unit :=
  closed ← sess isClosed;
  if (closed : bool) then mret tt else close;; mret tt.

Definition flush (dev : Camera3Device M) : Cam (Camera M I R) CameraStatus :=
  st ← sess initStatus;
  if decide (st = CAM_OK) then
    device_call DEV_flush;; mret (if dev_flush dev =? DEV_OK then CAM_OK else CAM_INTERNAL_ERROR)
  else mret st.

Definition isReconfigurationRequired (oldSessionParams newSessionParams : list Z) : bool := negb (bool_decide (oldSessionParams = newSessionParams)).

(** The counter of the client is compared as an unsigned number. *)
Definition signalStreamFlush (dev : Camera3Device M) (streamIds : list Z) (streamConfigCounter : Z) : Cam (Camera M I R) CameraStatus :=
  s ← sess id;
  if negb (dev_has_signal_stream_flush dev) then mret CAM_OK
  else if u32 streamConfigCounter <? mStreamConfigCounter s then mret CAM_OK
  else if forallb (fun id => bool_decide (is_Some (mStreamMap s !! id))) streamIds then
    device_call (DEV_signal_stream_flush streamIds);; mret CAM_OK
  else mret CAM_OK.

Definition repeatingRequestEnd : CameraStatus := CAM_OK.

Definition switchToOffline : CameraStatus := CAM_OPERATION_NOT_SUPPORTED.

(** The settings of a template, with the boost entry derived if needed. *)
Definition constructDefaultRequestSettingsRaw (dev : Camera3Device M) (type : Z) (s : CameraDeviceSession) : CameraStatus * list Z :=
  let status := initStatus s in
  if decide (status = CAM_OK) then
    match dev_construct_default_request_settings dev type with
    | None => (CAM_ILLEGAL_ARGUMENT, [])
    | Some rawRequest =>
        let m := md_append rawRequest in
        let m := if mDerivePostRawSensKey s && negb (md_exists TAG_POST_RAW_SENSITIVITY_BOOST m)
                 then md_update TAG_POST_RAW_SENSITIVITY_BOOST 100 m else m in
        (CAM_OK, convertToAidl_metadata (Some m) [])
    end
  else (status, []).

(** *** Precapture cancel *)

(** Devices up to version 3.2 do not know the trigger CANCEL: [Some] gives the
    settings to use instead and what to undo in the results. *)
Definition handleAePrecaptureCancelRequestLocked (s : CameraDeviceSession) (settings : option M) : option (M * AETriggerCancelOverride) :=
  match settings with
  | None => None
  | Some m =>
      if (CAMERA_DEVICE_API_VERSION_3_2 <? mDeviceVersion s) || (get_camera_metadata_entry_count m =? 0) then None
      else
        let m := md_append m in
        if decide (md_find TAG_AE_PRECAPTURE_TRIGGER m = Some AE_PRECAPTURE_TRIGGER_CANCEL) then
          let m := md_update TAG_AE_PRECAPTURE_TRIGGER AE_PRECAPTURE_TRIGGER_IDLE m in
          let o := mkAETriggerCancelOverride false AE_LOCK_OFF true AE_PRECAPTURE_TRIGGER_CANCEL in
          if mIsAELockAvailable s && (default AE_LOCK_OFF (md_find TAG_AE_LOCK m) =? AE_LOCK_OFF) then
            Some (md_update TAG_AE_LOCK AE_LOCK_ON m, o <| applyAeLock := true |> <| aeLock := AE_LOCK_OFF |>)
          else Some (m, o)
        else None
  end.

Definition overrideResultForPrecaptureCancelLocked (o : AETriggerCancelOverride) (m : M) : M :=
  let m := if applyAeLock o then md_update TAG_AE_LOCK (aeLock o) m else m in
  if applyAePrecaptureTrigger o then md_update TAG_AE_PRECAPTURE_TRIGGER (aePrecaptureTrigger o) m else m.

(** *** Importing *)

(** [None] for the handle is the empty buffer. *)
Definition importBuffer (sid bufId : Z) (buf : NativeHandle) (allowEmptyBuf : bool) : Cam (Camera M I R) (CameraStatus * option Z) :=
  if decide (buf = [] /\ bufId = 0) then mret (if allowEmptyBuf then CAM_OK else CAM_ILLEGAL_ARGUMENT, None)
  else
    set_session (fun s => s <| mCirculatingBuffers ::= fun m => <[sid := default ∅ (m !! sid)]> m |>);;
    cbs ← sess (fun s => default ∅ (mCirculatingBuffers s !! sid));
    match cbs !! bufId with
    | Some h => mret (CAM_OK, Some h)
    | None =>
        importedBuf ← importer_ask (hi_importBuffer buf);
        match importedBuf with
        | None => mret (CAM_INTERNAL_ERROR, None)
        | Some h =>
            set_session (fun s => s <| mCirculatingBuffers ::= fun m => <[sid := <[bufId := h]> (default ∅ (m !! sid))]> m |>);;
            mret (CAM_OK, Some h)
        end
    end.

Definition closeFences (fds : list Z) : Cam (Camera M I R) unit := cam_for fds (fun fd => importer_do (hi_closeFence fd)).

Definition cleanupInflightFences (allFences : list Z) (numFences : nat) : Cam (Camera M I R) unit := closeFences (take numFences allFences).

(** The loop over all buffers, up to the first that cannot be imported. *)
Fixpoint import_buffers (bs : list (StreamBuffer * bool)) : Cam (Camera M I R) (CameraStatus * list (option Z)) :=
  match bs with
  | [] => mret (CAM_OK, [])
  | (b, allowEmptyBuf) :: bs =>
      '(st, h) ← importBuffer (streamId b) (u64 (bufferId b)) (buffer b) allowEmptyBuf;
      if decide (st = CAM_OK) then
        '(st, hs) ← import_buffers bs;
        mret (st, h :: hs)
      else mret (st, [])
  end.

(** The loop over all acquire fences: at the first that is not valid the ones
    imported are closed. *)
Fixpoint import_fences (bs : list StreamBuffer) (allFences : list Z) : Cam (Camera M I R) (option (list Z)) :=
  match bs with
  | [] => mret (Some allFences)
  | b :: bs =>
      fd ← importer_ask (hi_importFence (acquireFence b));
      match fd with
      | Some fd => import_fences bs (allFences ++ [fd])
      | None => cleanupInflightFences allFences (length allFences);; mret None
      end
  end.

Definition has_input_buf (r : CaptureRequest) : bool := negb (streamId (rq_inputBuffer r) =? -1) && negb (bufferId (rq_inputBuffer r) =? 0).

(** The output buffers, then the input buffer if there is one. *)
Definition request_buffers (r : CaptureRequest) : list StreamBuffer :=
  rq_outputBuffers r ++ (if has_input_buf r then [rq_inputBuffer r] else []).

Definition importRequestImpl (r : CaptureRequest) (allowEmptyBuf : bool) : Cam (Camera M I R) (CameraStatus * list (option Z) * list Z) :=
  '(st, hs) ← import_buffers (((fun b => (b, allowEmptyBuf)) <$> rq_outputBuffers r) ++ (if has_input_buf r then [(rq_inputBuffer r, false)] else []));
  if decide (st = CAM_OK) then
    fences ← import_fences (request_buffers r) [];
    match fences with
    | Some fds => mret (CAM_OK, hs, fds)
    | None => mret (CAM_INTERNAL_ERROR, hs, [])
    end
  else mret (st, hs, []).

Definition importRequest (r : CaptureRequest) : Cam (Camera M I R) (CameraStatus * list (option Z) * list Z) := importRequestImpl r true.

(** *** Configuration *)

(** [mCirculatingBuffers.at(id)] throws when the stream has no entry. *)
Definition cleanupBuffersLocked (id : Z) : Cam (Camera M I R) unit :=
  cbs ← sess (fun s => mCirculatingBuffers s !! id);
  match cbs with
  | None => cam_abort
  | Some bufs => freeBuffers (cached bufs);; set_session (fun s => s <| mCirculatingBuffers ::= delete id |>)
  end.

Definition updateBufferCache (cache : BufferCache) : Cam (Camera M I R) unit :=
  cbs ← sess (fun s => mCirculatingBuffers s !! bc_streamId cache);
  match cbs with
  | None => mret tt
  | Some bufs =>
      match bufs !! u64 (bc_bufferId cache) with
      | Some h =>
          importer_do (hi_freeBuffer h);;
          set_session (fun s => s <| mCirculatingBuffers ::= <[bc_streamId cache := delete (u64 (bc_bufferId cache)) bufs]> |>)
      | None => mret tt
      end
  end.

Definition updateBufferCaches (cachesToRemove : list BufferCache) : Cam (Camera M I R) unit := cam_for cachesToRemove updateBufferCache.

Definition same_stream (c : Camera3Stream) (physicalId : string) (st : Stream) : bool :=
  bool_decide (c3_stream_type c = st_streamType st) && (c3_width c =? u32 (st_width st)) && (c3_height c =? u32 (st_height st)) &&
  bool_decide (physicalId = st_physicalCameraId st).

(** One round of the loop of [preProcessConfigurationLocked]; [None] when the
    stream changed. *)
Definition configure_stream (st : Stream) (s : CameraDeviceSession) : option CameraDeviceSession :=
  let id := st_id st in
  let set_physical s :=
    s <| mStreamMap ::= alter (fun c => c <| c3_physical_camera_id := Some (default "" (mPhysicalCameraIdMap s !! id)) |>) id |> in
  match mStreamMap s !! id with
  | None =>
      Some (set_physical
        (s <| mStreamMap ::= <[id := convertFromAidl_stream st]> |>
           <| mPhysicalCameraIdMap ::= <[id := st_physicalCameraId st]> |>
           <| mCirculatingBuffers ::= fun m => match m !! id with Some _ => m | None => <[id := ∅]> m end |>))
  | Some c =>
      let s := s <| mPhysicalCameraIdMap ::= fun m => <[id := default "" (m !! id)]> m |> in
      if same_stream c (default "" (mPhysicalCameraIdMap s !! id)) st then
        Some (set_physical
          (s <| mStreamMap ::= <[id := c <| c3_format := st_format st |> <| c3_data_space := st_dataSpace st |>
                                          <| c3_rotation := st_rotation st |> <| c3_usage := u32 (st_usage st) |>]> |>))
      else None
  end.

(** The loop stops at a stream that changed, what it did before stays. *)
Fixpoint configure_streams_loop (sts : list Stream) (s : CameraDeviceSession) : bool * CameraDeviceSession :=
  match sts with
  | [] => (true, s)
  | st :: sts =>
      match configure_stream st s with
      | Some s => configure_streams_loop sts s
      | None => (false, s)
      end
  end.

Definition requested (cfg : StreamConfiguration) (id : Z) : bool := existsb (fun st => id =? st_id st) (sc_streams cfg).

(** Known streams that the configuration leaves out. *)
Definition deleted_streams (cfg : StreamConfiguration) (s : CameraDeviceSession) : list Z :=
  List.filter (fun id => negb (requested cfg id)) (map_to_list (mStreamMap s)).*1.

Definition preProcessConfigurationLocked (cfg : StreamConfiguration) : Cam (Camera M I R) bool :=
  s ← sess id;
  let '(ok, s) := configure_streams_loop (sc_streams cfg) s in
  set_session (fun _ => s);;
  if (ok : bool) then
    (if mFreeBufEarly s then cam_for (deleted_streams cfg s) cleanupBuffersLocked else mret tt);;
    mret true
  else mret false.

Definition BufferUsage_VIDEO_ENCODER : Z := 65536.

Definition is_video_stream (st : Stream) : bool :=
  bool_decide (st_streamType st = STREAM_OUTPUT) && negb (Z.land (st_usage st) BufferUsage_VIDEO_ENCODER =? 0).

Definition postProcessConfigurationLocked (cfg : StreamConfiguration) : Cam (Camera M I R) unit :=
  s ← sess id;
  cam_for (deleted_streams cfg s) (fun id =>
    (if mFreeBufEarly s then mret tt else cleanupBuffersLocked id);;
    set_session (fun s => s <| mStreamMap ::= delete id |>));;
  let video := st_id <$> List.filter is_video_stream (sc_streams cfg) in
  set_session (fun s => s <| mVideoStreamIds := video |> <| mResultBatcher ::= setBatchedStreams video |>).

Definition postProcessConfigurationFailureLocked (cfg : StreamConfiguration) : Cam (Camera M I R) unit :=
  s ← sess id;
  if mFreeBufEarly s then
    cam_for (deleted_streams cfg s) (fun id =>
      set_session (fun s => s <| mCirculatingBuffers ::= fun m => match m !! id with Some _ => m | None => <[id := ∅]> m end |>))
  else mret tt.

(** The streams of the configuration as the map holds them. *)
Definition current_streams (cfg : StreamConfiguration) (s : CameraDeviceSession) : list Camera3Stream :=
  omap (fun st => mStreamMap s !! st_id st) (sc_streams cfg).

(** What the device wrote into the streams it was given. *)
Definition store_streams (cfg : StreamConfiguration) (cs : list Camera3Stream) (s : CameraDeviceSession) : CameraDeviceSession :=
  s <| mStreamMap ::= fun m => foldl (fun m p => <[p.1 := p.2]> m) m (zip (st_id <$> sc_streams cfg) cs) |>.

Definition configureStreams (dev : Camera3Device M) (cfg : StreamConfiguration) : Cam (Camera M I R) (CameraStatus * list HalStream) :=
  s ← sess id;
  let status := initStatus s in
  if negb (bool_decide (mInflightBuffers s = ∅)) then mret (CAM_INTERNAL_ERROR, [])
  else if (0 <? size (mInflightAETriggerOverrides s))%nat then mret (CAM_INTERNAL_ERROR, [])
  else if (0 <? size (mInflightRawBoostPresent s))%nat then mret (CAM_INTERNAL_ERROR, [])
  else if negb (bool_decide (status = CAM_OK)) then mret (status, [])
  else
    let paramBuffer := if (0 <? length (sc_sessionParams cfg))%nat then default None (convertFromAidl_metadata (sc_sessionParams cfg)) else None in
    set_session (fun s => s <| mStreamConfigCounter := u32 (sc_streamConfigCounter cfg) |>);;
    ok ← preProcessConfigurationLocked cfg;
    if negb ok then mret (CAM_INTERNAL_ERROR, [])
    else
      streams ← sess (current_streams cfg);
      device_call (DEV_configure (u32 (sc_operationMode cfg)) streams);;
      let '(ret, streams) := dev_configure_streams dev paramBuffer streams in
      set_session (store_streams cfg streams);;
      if ret =? DEV_OK then
        postProcessConfigurationLocked cfg;;
        set_session (fun s => s <| mFirstRequest := true |>);;
        mret (CAM_OK, convertToAidl_streams streams)
      else
        postProcessConfigurationFailureLocked cfg;;
        mret (if ret =? DEV_EINVAL then CAM_ILLEGAL_ARGUMENT else CAM_INTERNAL_ERROR, []).

(** *** Requests *)

(** Settings come through the queue or in the request; [None] when they cannot
    be read or are corrupt. *)
Definition read_settings (fmqSettingsSize : Z) (settings : list Z) : Cam (Camera M I R) (option (option M)) :=
  if 0 <? fmqSettingsSize then
    fun c =>
      let '(bytes, q) := fmq_read fmqSettingsSize (cam_queue c) in
      Some (match bytes with Some bs => convertFromAidl_metadata bs | None => None end, c <| cam_queue := q |>)
  else mret (convertFromAidl_metadata settings).

(** A buffer goes in flight: its entry of [mInflightBuffers], and the entries
    that [mStreamMap[streamId]] and [mPhysicalCameraIdMap[streamId]] create for
    an unknown stream. *)
Definition unknown_stream : Camera3Stream := mkCamera3Stream 0 STREAM_OUTPUT 0 0 0 0 0 0 0 None.

Definition record_buffer (frame : Z) (p : StreamBuffer * option Z * Z) (s : CameraDeviceSession) : CameraDeviceSession :=
  let '(b, h, fence) := p in
  let id := streamId b in
  let physical := default "" (mPhysicalCameraIdMap s !! id) in
  s <| mInflightBuffers ::= <[(id, u32 frame) := convertFromAidl_buffer h (status b) id fence]> |>
    <| mPhysicalCameraIdMap ::= <[id := physical]> |>
    <| mStreamMap ::= fun m => <[id := (default unknown_stream (m !! id)) <| c3_physical_camera_id := Some physical |>]> m |>.

(** Input buffer first, then the output buffers. *)
Definition record_request (r : CaptureRequest) (hs : list (option Z)) (fences : list Z) (s : CameraDeviceSession) : CameraDeviceSession :=
  let ps := zip (zip (request_buffers r) hs) fences in
  let n := length (rq_outputBuffers r) in
  foldl (fun s p => record_buffer (rq_frameNumber r) p s) s (drop n ps ++ take n ps).

Definition request_keys (r : CaptureRequest) : list (Z * Z) := (fun b => (streamId b, u32 (rq_frameNumber r))) <$> request_buffers r.

(** Each individual setting; [i] is its position, [nfmq] the length of
    [physicalFmq], which only grows for settings that come through the queue.
    [None] when one is corrupt or missing in the first request. *)
Fixpoint physical_settings (first : bool) (i nfmq : nat) (ps : list PhysicalCameraSetting) (acc : list (string * option M)) :
    Cam (Camera M I R) (option (list (string * option M))) :=
  match ps with
  | [] => mret (Some acc)
  | p :: ps =>
      let viaQueue := 0 <? u64 (ps_fmqSettingsSize p) in
      if viaQueue && (nfmq <? i)%nat then cam_abort
      else
        settings ← read_settings (u64 (ps_fmqSettingsSize p)) (ps_settings p);
        match settings with
        | None => mret None
        | Some m =>
            if first && bool_decide (m = None) then mret None
            else physical_settings first (1 + i) (if viaQueue then 1 + nfmq else nfmq)%nat ps (acc ++ [(ps_physicalCameraId p, m)])
        end
  end.

(** The failure path after the device refused a request. *)
Definition cleanup_request (r : CaptureRequest) (fences : list Z) (aeCancelTriggerNeeded : bool) : Cam (Camera M I R) unit :=
  cleanupInflightFences fences (length (request_buffers r));;
  set_session (fun s =>
    (s <| mInflightBuffers ::= fun m => foldr delete m (request_keys r) |>)
       <| mInflightAETriggerOverrides ::= fun m => if aeCancelTriggerNeeded then delete (u32 (rq_frameNumber r)) m else m |>).

(** From the buffers imported to the call of the device. *)
Definition submit_request (dev : Camera3Device M) (r : CaptureRequest) (settings : option M) (hs : list (option Z)) (fences : list Z) :
    Cam (Camera M I R) CameraStatus :=
  set_session (record_request r hs fences);;
  s ← sess id;
  let cancel := handleAePrecaptureCancelRequestLocked s settings in
  set_session (fun s => match cancel with
    | Some (_, o) => s <| mInflightAETriggerOverrides ::= <[u32 (rq_frameNumber r) := o]> |>
    | None => s
    end);;
  let settings := match cancel with Some (m, _) => Some m | None => settings end in
  phys ← physical_settings (mFirstRequest s) 0 0 (rq_physicalCameraSettings r) [];
  match phys with
  | None => mret CAM_ILLEGAL_ARGUMENT
  | Some phys =>
      let frame := u32 (rq_frameNumber r) in
      let hr := mkHalRequest frame settings
        (if has_input_buf r then mInflightBuffers s !! (streamId (rq_inputBuffer r), frame) else None)
        (imap (fun i b => convertFromAidl_buffer (default None (hs !! i)) (status b) (streamId b) (default (-1) (fences !! i))) (rq_outputBuffers r))
        phys in
      device_call (DEV_request hr);;
      let ret := dev_process_capture_request dev hr in
      if ret =? DEV_OK then set_session (fun s => s <| mFirstRequest := false |>);; mret CAM_OK
      else
        cleanup_request r fences (bool_decide (is_Some cancel));;
        mret (if ret =? DEV_EINVAL then CAM_ILLEGAL_ARGUMENT else CAM_INTERNAL_ERROR)
  end.

Definition processOneCaptureRequest (dev : Camera3Device M) (r : CaptureRequest) : Cam (Camera M I R) CameraStatus :=
  st ← sess initStatus;
  if negb (bool_decide (st = CAM_OK)) then mret st
  else
    settings ← read_settings (rq_fmqSettingsSize r) (rq_settings r);
    match settings with
    | None => mret CAM_ILLEGAL_ARGUMENT
    | Some settings =>
        first ← sess mFirstRequest;
        if first && bool_decide (settings = None) then mret CAM_ILLEGAL_ARGUMENT
        else if bool_decide (rq_outputBuffers r = []) then mret CAM_ILLEGAL_ARGUMENT
        else
          '(st, hs, fences) ← importRequest r;
          if negb (bool_decide (st = CAM_OK)) then mret st
          else submit_request dev r settings hs fences
    end.

(** The number of requests accepted, up to the first that is not. *)
Fixpoint process_requests (dev : Camera3Device M) (rs : list CaptureRequest) (n : Z) : Cam (Camera M I R) (CameraStatus * Z) :=
  match rs with
  | [] => mret (CAM_OK, n)
  | r :: rs =>
      st ← processOneCaptureRequest dev r;
      if bool_decide (st = CAM_OK) then process_requests dev rs (n + 1) else mret (st, n)
  end.

Definition processCaptureRequest (dev : Camera3Device M) (rs : list CaptureRequest) (cachesToRemove : list BufferCache) :
    Cam (Camera M I R) (CameraStatus * Z) :=
  updateBufferCaches cachesToRemove;;
  '(st, n) ← process_requests dev rs 0;
  (match rs with
   | r0 :: _ :: _ =>
       if bool_decide (st = CAM_OK) then
         set_session (fun s => s <| mResultBatcher ::= registerBatch (u32 (rq_frameNumber r0)) (u32 (Z.of_nat (length rs))) |>)
       else mret tt
   | _ => mret tt
   end);;
  mret (st, n).

(** *** Results *)

Definition METADATA_SHRINK_ABS_THRESHOLD : Z := 4096.
Definition METADATA_SHRINK_REL_THRESHOLD : Z := 2.

Definition sShouldShrink (m : M) : bool :=
  (get_camera_metadata_compact_size m + METADATA_SHRINK_ABS_THRESHOLD <=? get_camera_metadata_size m) &&
  (get_camera_metadata_compact_size m * METADATA_SHRINK_REL_THRESHOLD <=? get_camera_metadata_size m).

Definition shrink (m : M) : M := if sShouldShrink m then copy_camera_metadata m else m.

(** The result with large buffers replaced by compact copies; the physical
    ones only where they are used. *)
Definition sShrinkCaptureResult (handlePhysCam : bool) (src : camera3_capture_result M) : camera3_capture_result M :=
  mkHalResult (hl_frame_number src) (shrink <$> hl_result src) (hl_output_buffers src) (hl_input_buffer src) (hl_partial_result src)
    (if handlePhysCam then (fun p => (p.1, shrink p.2)) <$> hl_physcam src else hl_physcam src).

(** [BUFFER_ID_NO_BUFFER] unless the handle was given out by the session. *)
Definition popBufferId (buf sid : Z) (s : CameraDeviceSession) : Z * CameraDeviceSession :=
  match mBufferIdMaps s !! sid with
  | None => (0, s)
  | Some bIdMap =>
      match bIdMap !! buf with
      | None => (0, s)
      | Some bufId =>
          let bIdMap := delete buf bIdMap in
          (bufId, s <| mBufferIdMaps ::= if bool_decide (bIdMap = ∅) then delete sid else <[sid := bIdMap]> |>)
      end
  end.

(** [static_cast<Camera3Stream*>(stream)->mId]; [None] through a pointer to a
    stream that was deleted. *)
Definition stream_mId (s : CameraDeviceSession) (stream : Z) : option Z := c3_mId <$> mStreamMap s !! stream.

Definition all_hal_buffers (hl : camera3_capture_result M) : list camera3_stream_buffer := option_list (hl_input_buffer hl) ++ hl_output_buffers hl.

(** The keys of the buffers returned. *)
Definition result_keys (s : CameraDeviceSession) (hl : camera3_capture_result M) : option (list (Z * Z)) :=
  mapM (fun b => id ← stream_mId s (cb_stream b); Some (id, u32 (hl_frame_number hl))) (all_hal_buffers hl).

Definition fence_handle (fd : Z) : NativeHandle := if fd =? -1 then [] else [fd].

(** The overrides of the metadata for older devices, and what is left in
    flight. *)
Definition derive_boost (hl : camera3_capture_result M) (m : M) (s : CameraDeviceSession) : option M * CameraDeviceSession :=
  let frame := u32 (hl_frame_number hl) in
  if mDerivePostRawSensKey s then
    let present := if md_exists TAG_POST_RAW_SENSITIVITY_BOOST m then true else default false (mInflightRawBoostPresent s !! frame) in
    let s := s <| mInflightRawBoostPresent ::= <[frame := present]> |> in
    if hl_partial_result hl =? cs_mNumPartialResults s then
      (if present then None else Some (md_update TAG_POST_RAW_SENSITIVITY_BOOST 100 (md_append m)),
       s <| mInflightRawBoostPresent ::= delete frame |>)
    else (None, s)
  else (None, s).

Definition override_trigger (hl : camera3_capture_result M) (m : M) (overriden : option M) (s : CameraDeviceSession) : option M * CameraDeviceSession :=
  let frame := u32 (hl_frame_number hl) in
  match mInflightAETriggerOverrides s !! frame with
  | None => (overriden, s)
  | Some o =>
      (Some (overrideResultForPrecaptureCancelLocked o (default (md_append m) overriden)),
       if hl_partial_result hl =? cs_mNumPartialResults s then s <| mInflightAETriggerOverrides ::= delete frame |> else s)
  end.

Definition result_bytes (hl : camera3_capture_result M) (s : CameraDeviceSession) : list Z * CameraDeviceSession :=
  match hl_result hl with
  | None => ([], s)
  | Some m =>
      let '(overriden, s) := derive_boost hl m s in
      let '(overriden, s) := override_trigger hl m overriden s in
      (convertToAidl_metadata (Some (default m overriden)) [], s)
  end.

Definition input_stream_buffer (s : CameraDeviceSession) (b : option camera3_stream_buffer) : option StreamBuffer :=
  match b with
  | None => Some (StreamBuffer_default <| streamId := -1 |>)
  | Some b => id ← stream_mId s (cb_stream b); Some (mkStreamBuffer id 0 [] (cb_status b) [] (fence_handle (cb_release_fence b)))
  end.

Fixpoint output_stream_buffers (bs : list camera3_stream_buffer) (s : CameraDeviceSession) : option (list StreamBuffer * CameraDeviceSession) :=
  match bs with
  | [] => Some ([], s)
  | b :: bs =>
      id ← stream_mId s (cb_stream b);
      let '(bufId, s) := match cb_buffer b with Some h => popBufferId h id s | None => (0, s) end in
      '(l, s) ← output_stream_buffers bs s;
      Some (mkStreamBuffer id (i64 bufId) [] (cb_status b) [] (fence_handle (cb_release_fence b)) :: l, s)
  end.

(** The inner [None] is the refusal of a result whose buffers are not all in
    flight. *)
Definition constructCaptureResult (hl : camera3_capture_result M) (s : CameraDeviceSession) :
    option (option CaptureResult * CameraDeviceSession) :=
  keys ← result_keys s hl;
  if forallb (fun k => bool_decide (is_Some (mInflightBuffers s !! k))) keys then
    let '(bytes, s) := result_bytes hl s in
    input ← input_stream_buffer s (hl_input_buffer hl);
    '(outputs, s) ← output_stream_buffers (hl_output_buffers hl) s;
    Some (Some (mkCaptureResult (i32 (hl_frame_number hl)) 0 bytes outputs input (i32 (hl_partial_result hl)) []),
          s <| mInflightBuffers ::= fun m => foldr delete m keys |>)
  else Some (None, s).

(** The metadata of physical cameras; [None] when one is not known. *)
Definition physical_results (s : CameraDeviceSession) (hl : camera3_capture_result M) : option (list PhysicalCameraMetadata) :=
  if (length (mPhysicalCameraIds s) <? length (hl_physcam hl))%nat then None
  else mapM (fun p => if bool_decide (p.1 ∈ mPhysicalCameraIds s)
                      then Some (mkPhysicalCameraMetadata 0 p.1 (convertToAidl_metadata (Some p.2) [])) else None) (hl_physcam hl).

(** The result for the batcher, if the vendor's is acceptable. *)
Definition prepare_result (hl : camera3_capture_result M) (s : CameraDeviceSession) : option (option CaptureResult * CameraDeviceSession) :=
  let handlePhysCam := CAMERA_DEVICE_API_VERSION_3_5 <=? mDeviceVersion s in
  let shadow := sShrinkCaptureResult handlePhysCam hl in
  '(res, s) ← constructCaptureResult shadow s;
  Some (res' ← res;
        if handlePhysCam then
          ps ← physical_results s shadow;
          Some (res' <| physicalCameraMetadata := ps |>)
        else Some res', s).

(** The callbacks of the device, with the batcher's world. *)
Definition sProcessCaptureResult {Q : Type} `{MessageQueue Q} (hl : camera3_capture_result M) (s : CameraDeviceSession) (w : World Q) :
    option (CameraDeviceSession * World Q) :=
  '(res, s) ← prepare_result hl s;
  match res with
  | None => Some (s, w)
  | Some res =>
      '(rb, w) ← processCaptureResult res (mResultBatcher s) w;
      Some (s <| mResultBatcher := rb |>, w)
  end.

Definition forget_frame (frame : Z) (s : CameraDeviceSession) : CameraDeviceSession :=
  s <| mInflightAETriggerOverrides ::= delete frame |> <| mInflightRawBoostPresent ::= delete frame |>.

(** [dflt] is the message that the generated code starts from. *)
Definition sNotify {Q : Type} `{MessageQueue Q} (dflt : NotifyMsg) (msg : camera3_notify_msg) (s : CameraDeviceSession) (w : World Q) :
    option (CameraDeviceSession * World Q) :=
  let aidlMsg := convertToAidl_notify msg dflt in
  let known := match aidlMsg with
    | NotifyMsg_error _ sid _ => (sid =? -1) || bool_decide (is_Some (mStreamMap s !! sid))
    | NotifyMsg_shutter _ _ => true
    end in
  if negb known then Some (s, w)
  else
    let s := match aidlMsg with
      | NotifyMsg_error f _ (ERROR_DEVICE | ERROR_REQUEST | ERROR_RESULT) => forget_frame (u32 f) s
      | _ => s
      end in
    '(rb, w) ← notify aidlMsg (mResultBatcher s) w;
    Some (s <| mResultBatcher := rb |>, w).

End session.
