(* ===== verification/CameraBookkeeping.v ===== *)
(** * Bookkeeping of the camera session

    Shown: the buffers a session has imported and not freed are exactly those
    it caches, whatever is called in whatever order, and closing an open
    session frees them all; a request that fails leaves nothing in flight and
    no fence open, one that succeeds puts exactly its buffers in flight, and a
    result that returns them takes exactly these out again. *)

From S2P Require Import Prelude CameraTypes CameraBatcher CameraSession.

(** ** Computations *)

Lemma Cam_bind_Some {C A B} (m : Cam C A) (k : A -> Cam C B) (c c' : C) (y : B) :
  (x ← m; k x) c = Some (y, c') -> exists x c1, m c = Some (x, c1) /\ k x c1 = Some (y, c').
Proof. unfold mbind, Cam_bind. destruct (m c) as [[x c1] |]; [| done]. simpl. intros E. by exists x, c1. Qed.

(** Split a run of a computation into its steps. *)
Ltac cam_bind H x c E := apply Cam_bind_Some in H as (x & c & E & H).
Ltac cam_unit H :=
  match type of H with
  | mret _ _ = Some _ => unfold mret, Cam_ret in H; simplify_eq
  | cam_modify _ _ = Some _ => unfold cam_modify in H; simplify_eq
  | cam_get _ _ = Some _ => unfold cam_get in H; simplify_eq
  | sess _ _ = Some _ => unfold sess, cam_get in H; simplify_eq
  | set_session _ _ = Some _ => unfold set_session, cam_modify in H; simplify_eq
  | device_call _ _ = Some _ => unfold device_call, cam_modify in H; simplify_eq
  | importer_do _ _ = Some _ => unfold importer_do, cam_modify in H; simplify_eq
  end.

Lemma cam_for_ind {C A} (P : C -> Prop) (l : list A) (body : A -> Cam C unit) (c c' : C) (u : unit) :
  (forall a c c' u, a ∈ l -> P c -> body a c = Some (u, c') -> P c') -> P c -> cam_for l body c = Some (u, c') -> P c'.
Proof.
  revert c. induction l as [| a l IH]; intros c Hb Hc Hr; [simpl in Hr; cam_unit Hr; done |]. simpl in Hr.
  cam_bind Hr u1 c1 E1. eapply (IH c1); [| | exact Hr].
  - intros a' c2 c3 u2 Ha'. apply Hb. by constructor.
  - eapply Hb; [by constructor | exact Hc | exact E1].
Qed.

(** ** Occurrences in the values of a map *)

Section map_occurrences.
Context {K A B : Type} `{Countable K} `{EqDecision B} (f : A -> list B).

Definition map_values (m : gmap K A) : list B := concat (map f (map_to_list m).*2).

Lemma map_values_empty : map_values ∅ = [].
Proof. done. Qed.

Lemma map_values_insert_new (m : gmap K A) (k : K) (a : A) (x : B) :
  m !! k = None -> occ x (map_values (<[k := a]> m)) = (occ x (f a) + occ x (map_values m))%nat.
Proof.
  intros Hk. unfold map_values. rewrite <- occ_app. apply occ_perm. by rewrite map_to_list_insert.
Qed.

Lemma map_values_delete (m : gmap K A) (k : K) (a : A) (x : B) :
  m !! k = Some a -> occ x (map_values m) = (occ x (f a) + occ x (map_values (delete k m)))%nat.
Proof.
  intros Hk. rewrite <- (insert_delete_id m k a Hk) at 1. apply map_values_insert_new. apply lookup_delete_eq.
Qed.

Lemma map_values_insert (m : gmap K A) (k : K) (a a' : A) (x : B) :
  m !! k = Some a -> (occ x (map_values (<[k := a']> m)) + occ x (f a) = occ x (map_values m) + occ x (f a'))%nat.
Proof.
  intros Hk. rewrite (map_values_delete m k a x Hk). rewrite <- insert_delete_eq.
  rewrite map_values_insert_new by apply lookup_delete_eq. lia.
Qed.

End map_occurrences.

(** The handles the session caches. *)
Definition cached_handles (m : gmap Z (gmap Z Z)) : list Z := map_values cached m.

Lemma cached_values (m : gmap Z Z) (h : Z) : occ h (cached m) = occ h (map_values (fun v => [v]) m).
Proof. unfold cached, map_values. induction (map_to_list m).*2 as [| v l IH]; [done |]. simpl. rewrite !occ_cons. lia. Qed.

Lemma cached_insert_new (m : gmap Z Z) (k v h : Z) :
  m !! k = None -> occ h (cached (<[k := v]> m)) = ((if decide (v = h) then 1 else 0) + occ h (cached m))%nat.
Proof. intros Hk. rewrite !cached_values, map_values_insert_new by done. rewrite occ_cons, occ_nil. lia. Qed.

Lemma cached_delete (m : gmap Z Z) (k v h : Z) :
  m !! k = Some v -> occ h (cached m) = ((if decide (v = h) then 1 else 0) + occ h (cached (delete k m)))%nat.
Proof. intros Hk. rewrite !cached_values, (map_values_delete _ m k v) by done. rewrite occ_cons, occ_nil. lia. Qed.

Lemma occ_remove_one (x y : Z) (l : list Z) : occ y (remove_one x l) = (occ y l - (if decide (x = y) then 1 else 0))%nat.
Proof.
  unfold remove_one. destruct (list_remove x l) as [k |] eqn:E; simpl.
  - rewrite (list_remove_occ x y l k E). lia.
  - destruct (decide (x = y)) as [<- | ?]; [rewrite (list_remove_None_occ x l E); lia | lia].
Qed.

(** ** Imported handles *)

Section handles.
Context {M I R : Type} `{CameraMetadataLib M} `{MetadataEntries M} `{HandleImporterLaws I} `{RequestQueue R}.
Implicit Types c : Camera M I R.

(** [base] was imported by other sessions. *)
Definition balanced (base : list Z) c : Prop :=
  forall h, occ h (hi_imported (cam_importer c)) = (occ h base + occ h (cached_handles (mCirculatingBuffers (cam_session c))))%nat.

Lemma freeBuffers_spec (hs : list Z) c c' u :
  freeBuffers hs c = Some (u, c') ->
  cam_session c' = cam_session c /\ cam_queue c' = cam_queue c /\ cam_device c' = cam_device c /\
  hi_fences (cam_importer c') = hi_fences (cam_importer c) /\
  (forall h, occ h (hi_imported (cam_importer c')) = (occ h (hi_imported (cam_importer c)) - occ h hs)%nat).
Proof.
  revert c. induction hs as [| a hs IH]; intros c Hr; unfold freeBuffers in *; simpl in Hr.
  - cam_unit Hr. split_and!; try done. intros h. rewrite occ_nil. lia.
  - cam_bind Hr u1 c1 E. cam_unit E. destruct (IH _ Hr) as (H1' & H2' & H3' & H4' & H5'). simpl in *.
    split_and!; try done; [by rewrite H4', hi_free_fences |].
    intros h. rewrite H5', hi_free_imported, occ_remove_one, occ_cons. lia.
Qed.

Lemma freeBuffers_total (hs : list Z) c : is_Some (freeBuffers hs c).
Proof.
  revert c. induction hs as [| a hs IH]; intros c; unfold freeBuffers in *; simpl; [by eexists |]. apply IH.
Qed.

(** A step that changes neither the importer nor the cache. *)
Lemma balanced_same (base : list Z) c c' :
  balanced base c -> cam_importer c' = cam_importer c ->
  mCirculatingBuffers (cam_session c') = mCirculatingBuffers (cam_session c) -> balanced base c'.
Proof. intros Hb Ei Es h. by rewrite Ei, Es. Qed.

Lemma cleanupBuffers_balanced (base : list Z) (id : Z) c c' u :
  balanced base c -> cleanupBuffersLocked id c = Some (u, c') -> balanced base c'.
Proof.
  intros Hb Hr. unfold cleanupBuffersLocked in Hr. cam_bind Hr cbs c1 E. cam_unit E.
  destruct (mCirculatingBuffers (cam_session c1) !! id) as [bufs |] eqn:El; [| done]. cam_bind Hr u1 c2 E2. cam_unit Hr.
  destruct (freeBuffers_spec _ _ _ _ E2) as (Es & _ & _ & _ & Ei). intros h. simpl. rewrite Ei, Hb, Es.
  unfold cached_handles. rewrite (map_values_delete cached _ id bufs h El). lia.
Qed.

Lemma updateBufferCache_balanced (base : list Z) (cache : BufferCache) c c' u :
  balanced base c -> updateBufferCache cache c = Some (u, c') -> balanced base c'.
Proof.
  intros Hb Hr. unfold updateBufferCache in Hr. cam_bind Hr cbs c1 E. cam_unit E.
  destruct (mCirculatingBuffers (cam_session c1) !! bc_streamId cache) as [bufs |] eqn:El; [| by cam_unit Hr].
  destruct (bufs !! u64 (bc_bufferId cache)) as [h |] eqn:Eb; [| by cam_unit Hr].
  cam_bind Hr u1 c2 E2. cam_unit E2. cam_unit Hr. intros h'. simpl. rewrite hi_free_imported, occ_remove_one, Hb.
  unfold cached_handles. pose proof (map_values_insert cached _ (bc_streamId cache) bufs (delete (u64 (bc_bufferId cache)) bufs) h' El) as Hi.
  rewrite (cached_delete bufs _ h h' Eb) in Hi. destruct (decide (h = h')); lia.
Qed.

Lemma importBuffer_balanced (base : list Z) (sid bufId : Z) (buf : NativeHandle) (allowEmpty : bool) c c' x :
  balanced base c -> importBuffer sid bufId buf allowEmpty c = Some (x, c') -> balanced base c'.
Proof.
  intros Hb Hr. unfold importBuffer in Hr. destruct (decide (buf = [] /\ bufId = 0)); [by cam_unit Hr |].
  cam_bind Hr u1 c1 E1. cam_unit E1. cam_bind Hr cbs c2 E2. cam_unit E2. simpl in Hr. rewrite lookup_insert_eq in Hr. simpl in Hr.
  set (m := mCirculatingBuffers (cam_session c)) in *.
  assert (forall h, occ h (cached_handles (<[sid := default ∅ (m !! sid)]> m)) = occ h (cached_handles m)) as Hsame.
  { intros h. unfold cached_handles. destruct (m !! sid) as [bufs |] eqn:E; simpl.
    - by rewrite insert_id by done.
    - rewrite map_values_insert_new by done. done. }
  destruct (default ∅ (m !! sid) !! bufId) as [h |] eqn:El.
  - cam_unit Hr. intros h'. simpl. by rewrite Hsame, Hb.
  - cam_bind Hr ib c3 E3. unfold importer_ask in E3. simpl in E3.
    pose proof (hi_import_imported buf (cam_importer c)) as Hi. destruct (hi_importBuffer buf (cam_importer c)) as [ib' i'].
    simplify_eq. simpl in Hi. destruct ib as [h |]; simpl in Hi.
    + cam_bind Hr u4 c4 E4. cam_unit E4. cam_unit Hr. intros h'. simpl. rewrite Hi, occ_cons, Hb.
      rewrite lookup_insert_eq. simpl.
      unfold cached_handles. pose proof (map_values_insert cached (<[sid := default ∅ (m !! sid)]> m) sid (default ∅ (m !! sid)) (<[bufId := h]> (default ∅ (m !! sid))) h' (lookup_insert_eq _ _ _)) as Hx.
      rewrite (cached_insert_new _ bufId h h' El) in Hx. specialize (Hsame h'). unfold cached_handles in Hsame. fold m. lia.
    + cam_unit Hr. intros h'. simpl. by rewrite Hi, Hsame, Hb.
Qed.

(** ** Every operation keeps the balance *)

Definition flags (s : CameraDeviceSession) : bool * bool * bool := (mClosed s, mDisconnected s, mInitFail s).

(** How often the device was closed. *)
Definition is_close (d : DeviceCall M) : bool := match d with DEV_close => true | _ => false end.

Definition closings c : Z := countb is_close (cam_device c).

Definition marks c : bool * bool * bool * Z := (flags (cam_session c), closings c).

(** The balance, the flags and the closings of the device survive a
    computation. *)
Definition safe {A} (m : Cam (Camera M I R) A) : Prop :=
  forall base c x c', balanced base c -> m c = Some (x, c') -> balanced base c' /\ marks c' = marks c.

Lemma closings_call (d : DeviceCall M) c :
  closings (c <| cam_device ::= fun l => l ++ [d] |>) = closings c + (if is_close d then 1 else 0).
Proof. unfold closings. simpl. rewrite countb_app, countb_cons. change (countb is_close []) with 0. lia. Qed.

Lemma safe_ret {A} (x : A) : safe (mret x).
Proof. intros base c y c' Hb Hr. by cam_unit Hr. Qed.

Lemma safe_bind {A B} (m : Cam (Camera M I R) A) (k : A -> Cam (Camera M I R) B) : safe m -> (forall x, safe (k x)) -> safe (x ← m; k x).
Proof.
  intros Hm Hk base c y c' Hb Hr. cam_bind Hr x c1 E. destruct (Hm base c x c1 Hb E) as [Hb1 E1].
  destruct (Hk x base c1 y c' Hb1 Hr) as [Hb2 E2]. split; [done | congruence].
Qed.

Lemma safe_for {A} (l : list A) (body : A -> Cam (Camera M I R) unit) : (forall a, safe (body a)) -> safe (cam_for l body).
Proof. intros Hb. induction l as [| a l IH]; [apply safe_ret |]. simpl. apply safe_bind; [apply Hb | done]. Qed.

Lemma safe_sess {A} (g : CameraDeviceSession -> A) : safe (sess g).
Proof. intros base c y c' Hb Hr. by cam_unit Hr. Qed.

Lemma safe_device (d : DeviceCall M) : is_close d = false -> safe (device_call d).
Proof.
  intros Hd base c y c' Hb Hr. cam_unit Hr. split; [done |]. unfold marks. rewrite closings_call, Hd. simpl. f_equal. lia.
Qed.

Lemma safe_set (g : CameraDeviceSession -> CameraDeviceSession) :
  (forall s h, occ h (cached_handles (mCirculatingBuffers (g s))) = occ h (cached_handles (mCirculatingBuffers s))) ->
  (forall s, flags (g s) = flags s) -> safe (set_session g).
Proof. intros Hg Hf base c y c' Hb Hr. cam_unit Hr. split; [intros h; simpl; rewrite Hg; apply Hb | unfold marks; simpl; by rewrite Hf]. Qed.

Lemma safe_abort {A} : safe (cam_abort (A := A)).
Proof. by intros base c y c' Hb Hr. Qed.

Lemma safe_cleanup (id : Z) : safe (cleanupBuffersLocked id).
Proof.
  intros base c y c' Hb Hr. split; [by eapply cleanupBuffers_balanced |]. unfold cleanupBuffersLocked in Hr.
  cam_bind Hr cbs c1 E. cam_unit E. destruct (mCirculatingBuffers (cam_session c1) !! id); [| done].
  cam_bind Hr u2 c2 E2. cam_unit Hr. destruct (freeBuffers_spec _ _ _ _ E2) as (Es & _ & Ed & _).
  unfold marks, closings. simpl. by rewrite Es, Ed.
Qed.

Lemma safe_updateCaches (cs : list BufferCache) : safe (updateBufferCaches cs).
Proof.
  apply safe_for. intros cache base c y c' Hb Hr. split; [by eapply updateBufferCache_balanced |].
  unfold updateBufferCache in Hr. cam_bind Hr cbs c1 E. cam_unit E.
  destruct (mCirculatingBuffers (cam_session c1) !! bc_streamId cache) as [bufs |]; [| by cam_unit Hr].
  destruct (bufs !! u64 (bc_bufferId cache)); [| by cam_unit Hr]. cam_bind Hr u2 c2 E2. cam_unit E2. by cam_unit Hr.
Qed.

Lemma safe_importBuffer (sid bufId : Z) (buf : NativeHandle) (allowEmpty : bool) : safe (importBuffer sid bufId buf allowEmpty).
Proof.
  intros base c x c' Hb Hr. split; [by eapply importBuffer_balanced |]. unfold importBuffer in Hr.
  destruct (decide (buf = [] /\ bufId = 0)); [by cam_unit Hr |].
  cam_bind Hr u1 c1 E1. cam_unit E1. cam_bind Hr cbs c2 E2. cam_unit E2. simpl in Hr.
  destruct (_ !! bufId); [by cam_unit Hr |]. cam_bind Hr ib c3 E3. unfold importer_ask in E3. simpl in E3.
  destruct (hi_importBuffer buf (cam_importer c)) as [ib' i']. simplify_eq.
  destruct ib; [| by cam_unit Hr]. cam_bind Hr u4 c4 E4. cam_unit E4. by cam_unit Hr.
Qed.

Lemma safe_ask_fence (b : NativeHandle) : safe (importer_ask (hi_importFence b)).
Proof.
  intros base c x c' Hb Hr. unfold importer_ask in Hr. pose proof (hi_fence_imported b (cam_importer c)) as Hi.
  destruct (hi_importFence b (cam_importer c)) as [y i']. simplify_eq. split; [| done]. intros h. simpl in *. by rewrite Hi.
Qed.

Lemma safe_closeFences (fds : list Z) : safe (closeFences fds).
Proof.
  apply safe_for. intros fd base c x c' Hb Hr. cam_unit Hr. split; [| done]. intros h. simpl. by rewrite hi_close_imported.
Qed.

Lemma safe_read_settings (n : Z) (bs : list Z) : safe (read_settings n bs).
Proof.
  unfold read_settings. destruct (0 <? n); [| apply safe_ret]. intros base c x c' Hb Hr.
  destruct (fmq_read n (cam_queue c)). by simplify_eq/=.
Qed.

End handles.

Create HintDb cam.
#[export] Hint Resolve safe_ret safe_sess safe_abort safe_cleanup safe_updateCaches safe_importBuffer safe_ask_fence
  safe_closeFences safe_read_settings : cam.

(** Follow the structure of a computation. *)
Ltac safe_step :=
  match goal with
  | |- forall _, _ => intro
  | |- safe (_ ≫= _) => apply safe_bind
  | |- safe (cam_for _ _) => apply safe_for
  | |- safe (set_session _) => apply safe_set; [done | done]
  | |- safe (device_call _) => apply safe_device; reflexivity
  | |- safe (if ?b then _ else _) => destruct b
  | |- safe (match ?x with _ => _ end) => destruct x
  | |- safe (let _ := _ in _) => cbv zeta
  | |- safe _ => solve [auto with cam]
  end.
Ltac safe_tac := repeat safe_step.

Section balance.
Context {M I R : Type} `{CameraMetadataLib M} `{MetadataEntries M} `{HandleImporterLaws I} `{RequestQueue R}.
Implicit Types c : Camera M I R.

Lemma safe_import_buffers (bs : list (StreamBuffer * bool)) : safe (M := M) (I := I) (R := R) (import_buffers bs).
Proof. induction bs as [| [b allow] bs IH]; simpl; safe_tac; apply IH. Qed.

Lemma safe_import_fences (bs : list StreamBuffer) (fds : list Z) : safe (M := M) (I := I) (R := R) (import_fences bs fds).
Proof. revert fds. induction bs as [| b bs IH]; intros fds; simpl; safe_tac; try apply IH. unfold cleanupInflightFences. auto with cam. Qed.

Lemma safe_importRequest (r : CaptureRequest) : safe (M := M) (I := I) (R := R) (importRequest r).
Proof. unfold importRequest, importRequestImpl. safe_tac; [apply safe_import_buffers | apply safe_import_fences]. Qed.

Lemma safe_physical_settings (first : bool) (i n : nat) (ps : list PhysicalCameraSetting) (acc : list (string * option M)) :
  safe (I := I) (R := R) (physical_settings first i n ps acc).
Proof.
  revert i n acc. induction ps as [| p ps IH]; intros i n acc; cbn [physical_settings]; safe_tac; apply IH.
Qed.

(** Putting buffers in flight does not touch the cache. *)
Lemma record_request_cache (r : CaptureRequest) (hs : list (option Z)) (fds : list Z) (s : CameraDeviceSession) :
  mCirculatingBuffers (record_request r hs fds s) = mCirculatingBuffers s /\ flags (record_request r hs fds s) = flags s.
Proof.
  unfold record_request. generalize (drop (length (rq_outputBuffers r)) (zip (zip (request_buffers r) hs) fds) ++
    take (length (rq_outputBuffers r)) (zip (zip (request_buffers r) hs) fds)) as ps.
  intros ps. revert s. induction ps as [| [[b h] fd] ps IH]; intros s; [done |]. cbn [foldl].
  by destruct (IH (record_buffer (rq_frameNumber r) (b, h, fd) s)) as [-> ->].
Qed.

Lemma safe_submit (dev : Camera3Device M) (r : CaptureRequest) (m : option M) (hs : list (option Z)) (fds : list Z) :
  safe (I := I) (R := R) (submit_request dev r m hs fds).
Proof.
  unfold submit_request. apply safe_bind; [apply safe_set; intros s; [intros h |]; destruct (record_request_cache r hs fds s) as [E1 E2]; by rewrite ?E1, ?E2 |].
  safe_tac; try apply safe_physical_settings; try (unfold cleanup_request, cleanupInflightFences; safe_tac).
  all: apply safe_set; intros s0; by destruct (handleAePrecaptureCancelRequestLocked _ _) as [[? ?] |].
Qed.

Lemma safe_processOne (dev : Camera3Device M) (r : CaptureRequest) : safe (I := I) (R := R) (processOneCaptureRequest dev r).
Proof. unfold processOneCaptureRequest. safe_tac; [apply safe_importRequest | apply safe_submit]. Qed.

Lemma safe_processCaptureRequest (dev : Camera3Device M) (rs : list CaptureRequest) (cs : list BufferCache) :
  safe (I := I) (R := R) (processCaptureRequest dev rs cs).
Proof.
  unfold processCaptureRequest. assert (forall rs n, safe (I := I) (R := R) (process_requests dev rs n)) as Hp.
  { intros rs0. induction rs0 as [| r rs0 IH]; intros n; simpl; safe_tac. apply safe_processOne. }
  safe_tac; apply Hp.
Qed.

(** An entry for a stream without buffers. *)
Lemma cached_handles_emplace (m : gmap Z (gmap Z Z)) (id h : Z) :
  occ h (cached_handles (match m !! id with Some _ => m | None => <[id := ∅]> m end)) = occ h (cached_handles m).
Proof.
  destruct (m !! id) eqn:E; [done |]. unfold cached_handles. by rewrite map_values_insert_new.
Qed.

Lemma configure_stream_cache (st : Stream) (s s' : CameraDeviceSession) (h : Z) :
  configure_stream st s = Some s' ->
  occ h (cached_handles (mCirculatingBuffers s')) = occ h (cached_handles (mCirculatingBuffers s)) /\ flags s' = flags s.
Proof.
  unfold configure_stream. destruct (mStreamMap s !! st_id st) as [c |].
  - destruct (same_stream _ _ _); intros E; by simplify_eq/=.
  - intros E. simplify_eq/=. by rewrite cached_handles_emplace.
Qed.

Lemma configure_loop_cache (sts : list Stream) (s : CameraDeviceSession) (h : Z) :
  let s' := (configure_streams_loop sts s).2 in
  occ h (cached_handles (mCirculatingBuffers s')) = occ h (cached_handles (mCirculatingBuffers s)) /\ flags s' = flags s.
Proof.
  revert s. induction sts as [| st sts IH]; intros s; [done |]. cbn [configure_streams_loop].
  destruct (configure_stream st s) as [s1 |] eqn:E; [| done]. destruct (configure_stream_cache st s s1 h E) as [E1 E2].
  destruct (IH s1) as [E3 E4]. split; congruence.
Qed.

Lemma safe_preProcess (cfg : StreamConfiguration) : safe (M := M) (I := I) (R := R) (preProcessConfigurationLocked cfg).
Proof.
  intros base c x c' Hb Hr. unfold preProcessConfigurationLocked in Hr. cam_bind Hr s c1 E. cam_unit E. cbn [id] in Hr.
  pose proof (fun h => configure_loop_cache (sc_streams cfg) (cam_session c1) h) as Hl.
  destruct (configure_streams_loop (sc_streams cfg) (cam_session c1)) as [ok s1]. simpl in Hl.
  cam_bind Hr u2 c2 E2. cam_unit E2. set (c2 := c1 <| cam_session ::= fun _ => s1 |>) in *.
  assert (balanced base c2) as Hb2 by (intros h; simpl; rewrite (proj1 (Hl h)); apply Hb).
  assert (marks c2 = marks c1) as Ef by (unfold marks; simpl; by rewrite (proj2 (Hl 0))). rewrite <- Ef. clearbody c2. revert Hr.
  destruct ok; [| intros Hr; by cam_unit Hr].
  assert (safe (M := M) (I := I) (R := R) ((if mFreeBufEarly s1 then cam_for (deleted_streams cfg s1) cleanupBuffersLocked else mret tt);; mret true)) as Hs by safe_tac.
  intros Hr. exact (Hs base c2 x c' Hb2 Hr).
Qed.

Lemma safe_configureStreams (dev : Camera3Device M) (cfg : StreamConfiguration) : safe (I := I) (R := R) (configureStreams dev cfg).
Proof.
  unfold configureStreams. safe_tac; try apply safe_preProcess.
  - unfold postProcessConfigurationLocked. safe_tac.
  - unfold postProcessConfigurationFailureLocked. safe_tac. apply safe_set; [| done]. intros s h. simpl. apply cached_handles_emplace.
Qed.

(** *** Closing *)

Lemma free_all_spec (ms : list (gmap Z Z)) c c' u :
  cam_for ms (fun buffers => freeBuffers (cached buffers)) c = Some (u, c') ->
  cam_session c' = cam_session c /\ cam_device c' = cam_device c /\
  (forall h, occ h (hi_imported (cam_importer c')) = (occ h (hi_imported (cam_importer c)) - occ h (concat (map cached ms)))%nat).
Proof.
  revert c. induction ms as [| m ms IH]; intros c Hr; simpl in Hr.
  - cam_unit Hr. split_and!; [done | done |]. intros h. simpl. rewrite occ_nil. lia.
  - cam_bind Hr u1 c1 E. destruct (freeBuffers_spec _ _ _ _ E) as (Es & _ & Ed & _ & Ei). destruct (IH _ Hr) as (E1 & E1' & E2).
    split_and!; [congruence | congruence |]. intros h. simpl. rewrite E2, Ei, occ_app. lia.
Qed.

(** The invariant: a session closed by its client caches nothing, and the
    device was closed once if the session is closed and not at all otherwise. *)
Record session_inv (base : list Z) c : Prop := {
  si_balanced : balanced base c;
  si_closings : closings c = if mClosed (cam_session c) then 1 else 0;
  si_closed : mClosed (cam_session c) = true -> mDisconnected (cam_session c) = false -> mCirculatingBuffers (cam_session c) = ∅
}.

Lemma close_inv (base : list Z) c c' st :
  session_inv base c -> close c = Some (st, c') ->
  session_inv base c' /\ mClosed (cam_session c') = true /\ mDisconnected (cam_session c') = mDisconnected (cam_session c).
Proof.
  intros [Hb Hd Hc] Hr. unfold close in Hr. cam_bind Hr cl c1 E1. cam_unit E1. destruct (mClosed (cam_session c1)) eqn:Ecl; [cam_unit Hr; split_and!; [split; [done | by rewrite Ecl | by intros _; apply Hc] | done | done] |].
  cam_bind Hr u2 c2 E2. cam_unit E2. cam_bind Hr ms c3 E3. cam_unit E3. simpl in Hr. cam_bind Hr u4 c4 E4.
  destruct (free_all_spec _ _ _ _ E4) as (Es & Ed & Ei). cam_bind Hr u5 c5 E5. cam_unit E5. cam_unit Hr. simpl. rewrite Es. simpl.
  split; [| done]. split; [| unfold closings; simpl; rewrite Ed; simpl; rewrite countb_app; unfold closings in Hd; rewrite Hd; reflexivity | done]. intros h. simpl. rewrite Ei. simpl. rewrite Hb. unfold cached_handles.
  change (concat (map cached (map_to_list (mCirculatingBuffers (cam_session c1))).*2)) with (map_values cached (mCirculatingBuffers (cam_session c1))).
  rewrite map_values_empty, occ_nil. lia.
Qed.

Lemma destroy_inv (base : list Z) c c' u : session_inv base c -> destroy c = Some (u, c') -> session_inv base c'.
Proof.
  intros Hi Hr. unfold destroy in Hr. cam_bind Hr cl c1 E1. cam_unit E1. unfold isClosed in Hr.
  destruct (mClosed (cam_session c1)); [by cam_unit Hr |].
  cam_bind Hr st c2 E2. cam_unit Hr. by apply (close_inv base c1 c' st).
Qed.

Lemma disconnect_inv (base : list Z) c c' u : session_inv base c -> disconnect c = Some (u, c') -> session_inv base c'.
Proof.
  intros [Hb Hd Hc] Hr. unfold disconnect in Hr. cam_bind Hr u1 c1 E1. cam_unit E1. cam_bind Hr cl c2 E2. cam_unit E2. simpl in Hr.
  destruct (mClosed (cam_session c)) eqn:Ecl; [cam_unit Hr; split; [done | done | done] |].
  cam_bind Hr u3 c3 E3. cam_unit E3. cam_unit Hr. split; [done | | done].
  unfold closings in *. simpl. rewrite countb_app. rewrite Hd; reflexivity.
Qed.

(** A safe computation that does nothing to a closed session. *)
Lemma safe_inv {A} (m : Cam (Camera M I R) A) (base : list Z) c c' (x : A) :
  safe m -> (initStatus (cam_session c) <> CAM_OK -> mCirculatingBuffers (cam_session c) = ∅ ->
             m c = Some (x, c') -> mCirculatingBuffers (cam_session c') = ∅) ->
  session_inv base c -> m c = Some (x, c') -> session_inv base c'.
Proof.
  intros Hs Hcl [Hb Hd Hc] Hr. destruct (Hs base c x c' Hb Hr) as [Hb' Ef].
  unfold marks, flags in Ef. injection Ef as Ecl Edis Einit Eclos. split; [done | by rewrite Eclos, Ecl |]. intros E1 E2. assert (mClosed (cam_session c) = true) as E1' by congruence.
  apply Hcl; [| by apply Hc; [| congruence] | done].
  unfold initStatus. rewrite E1'. destruct (mInitFail (cam_session c)); [discriminate |]. destruct (mDisconnected (cam_session c)); discriminate.
Qed.

(** *** What a session that is not in service refuses *)

Lemma processOne_refused (dev : Camera3Device M) (r : CaptureRequest) c c' st :
  initStatus (cam_session c) <> CAM_OK -> processOneCaptureRequest dev r c = Some (st, c') -> st = initStatus (cam_session c) /\ c' = c.
Proof.
  intros Hn Hr. unfold processOneCaptureRequest in Hr. cam_bind Hr s c1 E. cam_unit E. rewrite bool_decide_false in Hr by done.
  simpl in Hr. by cam_unit Hr.
Qed.

Lemma updateCaches_empty (cs : list BufferCache) c c' u :
  mCirculatingBuffers (cam_session c) = ∅ -> updateBufferCaches cs c = Some (u, c') -> c' = c.
Proof.
  intros He. revert c He. induction cs as [| cache cs IH]; intros c He Hr; unfold updateBufferCaches in *; simpl in Hr; [by cam_unit Hr |].
  cam_bind Hr u1 c1 E. unfold updateBufferCache in E. cam_bind E cbs c2 E2. cam_unit E2. rewrite He, lookup_empty in E. cam_unit E. by apply IH in Hr.
Qed.

Lemma processCaptureRequest_refused (dev : Camera3Device M) (rs : list CaptureRequest) (cs : list BufferCache) c c' x :
  initStatus (cam_session c) <> CAM_OK -> mCirculatingBuffers (cam_session c) = ∅ ->
  processCaptureRequest dev rs cs c = Some (x, c') -> mCirculatingBuffers (cam_session c') = ∅.
Proof.
  intros Hn He Hr. unfold processCaptureRequest in Hr. cam_bind Hr u1 c1 E1. apply updateCaches_empty in E1 as ->; [| done].
  cam_bind Hr y c2 E2. destruct y as [st n].
  assert (c2 = c) as ->.
  { destruct rs as [| r rs]; simpl in E2; [by cam_unit E2 |]. cam_bind E2 st' c3 E3. apply processOne_refused in E3 as [-> ->]; [| done].
    rewrite bool_decide_false in E2 by done. by cam_unit E2. }
  cam_bind Hr u3 c3 E3. cam_unit Hr. destruct rs as [| r [| r' rs]]; [by cam_unit E3 | by cam_unit E3 |].
  destruct (bool_decide (st = CAM_OK)); [by cam_unit E3 | by cam_unit E3].
Qed.

Lemma configureStreams_refused (dev : Camera3Device M) (cfg : StreamConfiguration) c c' x :
  initStatus (cam_session c) <> CAM_OK -> configureStreams dev cfg c = Some (x, c') -> c' = c.
Proof.
  intros Hn Hr. unfold configureStreams in Hr. cam_bind Hr s c1 E. cam_unit E. cbn [id] in Hr.
  destruct (negb (bool_decide (mInflightBuffers (cam_session c1) = ∅))); [by cam_unit Hr |].
  destruct (0 <? size (mInflightAETriggerOverrides (cam_session c1)))%nat; [by cam_unit Hr |].
  destruct (0 <? size (mInflightRawBoostPresent (cam_session c1)))%nat; [by cam_unit Hr |].
  rewrite bool_decide_false in Hr by done. simpl in Hr. by cam_unit Hr.
Qed.

(** *** Results and notifications do not touch the cache *)

Definition same_cache (s s' : CameraDeviceSession) : Prop := mCirculatingBuffers s' = mCirculatingBuffers s /\ flags s' = flags s.

Lemma same_cache_trans (s1 s2 s3 : CameraDeviceSession) : same_cache s1 s2 -> same_cache s2 s3 -> same_cache s1 s3.
Proof. intros [? ?] [? ?]. split; congruence. Qed.

Lemma result_bytes_cache (hl : camera3_capture_result M) (s : CameraDeviceSession) : same_cache s (result_bytes hl s).2.
Proof.
  unfold result_bytes. destruct (hl_result hl) as [m |]; [| done].
  assert (same_cache s (derive_boost hl m s).2) as H1'.
  { unfold derive_boost. destruct (mDerivePostRawSensKey s); [| done]. by destruct (_ =? _). }
  destruct (derive_boost hl m s) as [o1 s1]. simpl in H1'.
  assert (same_cache s1 (override_trigger hl m o1 s1).2) as H2'.
  { unfold override_trigger. destruct (_ !! _); [| done]. simpl. by destruct (_ =? _). }
  destruct (override_trigger hl m o1 s1) as [o2 s2]. simpl in *. by eapply same_cache_trans.
Qed.

Lemma output_buffers_cache (bs : list camera3_stream_buffer) (s s' : CameraDeviceSession) (l : list StreamBuffer) :
  output_stream_buffers bs s = Some (l, s') ->
  same_cache s s' /\ mInflightBuffers s' = mInflightBuffers s /\ mInflightAETriggerOverrides s' = mInflightAETriggerOverrides s /\
  mInflightRawBoostPresent s' = mInflightRawBoostPresent s /\ mStreamMap s' = mStreamMap s.
Proof.
  revert s l. induction bs as [| b bs IH]; intros s l Hr; simpl in Hr; [by simplify_eq |].
  destruct (stream_mId s (cb_stream b)) as [id |]; [| done]. cbn [mbind option_bind] in Hr.
  assert (exists n s1, match cb_buffer b with Some h => popBufferId h id s | None => (0, s) end = (n, s1) /\ same_cache s s1 /\
    mInflightBuffers s1 = mInflightBuffers s /\ mInflightAETriggerOverrides s1 = mInflightAETriggerOverrides s /\
    mInflightRawBoostPresent s1 = mInflightRawBoostPresent s /\ mStreamMap s1 = mStreamMap s) as (n & s1 & E & H1' & H2' & H3' & H4' & H5').
  { destruct (cb_buffer b) as [h |]; [| by exists 0, s]. unfold popBufferId. destruct (mBufferIdMaps s !! id) as [bm |]; [| by exists 0, s].
    destruct (bm !! h) as [n |]; [| by exists 0, s]. by eexists n, _. }
  rewrite E in Hr. destruct (output_stream_buffers bs s1) as [[l1 s2] |] eqn:E2; [| done]. simplify_eq/=.
  destruct (IH _ _ E2) as (K1 & K2 & K3 & K4 & K5). split_and!; [by eapply same_cache_trans | congruence ..].
Qed.

Lemma prepare_result_cache (hl : camera3_capture_result M) (s s' : CameraDeviceSession) (res : option CaptureResult) :
  prepare_result hl s = Some (res, s') -> same_cache s s'.
Proof.
  unfold prepare_result. set (shadow := sShrinkCaptureResult _ hl). clearbody shadow. intros Hr.
  destruct (constructCaptureResult shadow s) as [[res1 s1] |] eqn:E; [| done]. cbn [mbind option_bind] in Hr. simplify_eq.
  unfold constructCaptureResult in E. destruct (result_keys s shadow) as [keys |]; [| done]. cbn [mbind option_bind] in E.
  destruct (forallb _ keys); [| by simplify_eq]. pose proof (result_bytes_cache shadow s) as H1'.
  destruct (result_bytes shadow s) as [bytes s2]. simpl in H1'. destruct (input_stream_buffer s2 _) as [input |]; [| done].
  cbn [mbind option_bind] in E. destruct (output_stream_buffers _ s2) as [[outs s3] |] eqn:E3; [| done]. cbn [mbind option_bind] in E. simplify_eq.
  destruct (output_buffers_cache _ _ _ _ E3) as [H3' _]. by eapply same_cache_trans.
Qed.

(** ** The session in use *)

Inductive CameraOp :=
  | OP_configureStreams (cfg : StreamConfiguration)
  | OP_processCaptureRequest (rs : list CaptureRequest) (cachesToRemove : list BufferCache)
  | OP_flush
  | OP_signalStreamFlush (ids : list Z) (counter : Z)
  | OP_close
  | OP_disconnect
  | OP_destroy
  | OP_result (hl : camera3_capture_result M)
  | OP_notify (msg : camera3_notify_msg).

(** The answer of an operation, if it has one, is left out. *)
Definition on_camera {Q A : Type} (m : Cam (Camera M I R) A) (cw : Camera M I R * World Q) : option (Camera M I R * World Q) :=
  '(_, c) ← m cw.1; Some (c, cw.2).

Definition camera_op {Q : Type} `{MessageQueue Q} (dflt : NotifyMsg) (dev : Camera3Device M) (op : CameraOp)
    (cw : Camera M I R * World Q) : option (Camera M I R * World Q) :=
  match op with
  | OP_configureStreams cfg => on_camera (configureStreams dev cfg) cw
  | OP_processCaptureRequest rs caches => on_camera (processCaptureRequest dev rs caches) cw
  | OP_flush => on_camera (flush dev) cw
  | OP_signalStreamFlush ids counter => on_camera (signalStreamFlush dev ids counter) cw
  | OP_close => on_camera close cw
  | OP_disconnect => on_camera disconnect cw
  | OP_destroy => on_camera destroy cw
  | OP_result hl => '(s, w) ← sProcessCaptureResult hl (cam_session cw.1) cw.2; Some (cw.1 <| cam_session := s |>, w)
  | OP_notify msg => '(s, w) ← sNotify dflt msg (cam_session cw.1) cw.2; Some (cw.1 <| cam_session := s |>, w)
  end.

Fixpoint camera_ops {Q : Type} `{MessageQueue Q} (dflt : NotifyMsg) (ops : list (Camera3Device M * CameraOp))
    (cw : Camera M I R * World Q) : option (Camera M I R * World Q) :=
  match ops with
  | [] => Some cw
  | (dev, op) :: ops => cw ← camera_op dflt dev op cw; camera_ops dflt ops cw
  end.

Lemma session_inv_cache (base : list Z) c (s : CameraDeviceSession) :
  session_inv base c -> same_cache (cam_session c) s -> session_inv base (c <| cam_session := s |>).
Proof.
  intros [Hb Hd Hc] [E1 E2]. injection E2 as Ecl Edis Einit. split.
  - intros h. simpl. rewrite E1. apply Hb.
  - unfold closings in *. simpl. by rewrite Hd, Ecl.
  - simpl. intros K1 K2. rewrite E1. apply Hc; congruence.
Qed.

Lemma session_inv_batcher (base : list Z) c (s : CameraDeviceSession) (rb : ResultBatcher) :
  session_inv base c -> same_cache (cam_session c) s -> session_inv base (c <| cam_session := s <| mResultBatcher := rb |> |>).
Proof. intros Hi Hs. by apply session_inv_cache. Qed.

Lemma device_call_inv (base : list Z) c (d : DeviceCall M) :
  is_close d = false -> session_inv base c -> session_inv base (c <| cam_device ::= fun l => l ++ [d] |>).
Proof. intros Hd [Hb Hc Hn]. split; [done | rewrite closings_call, Hd, Hc; simpl; lia | done]. Qed.

Lemma camera_op_inv {Q : Type} `{MessageQueue Q} (dflt : NotifyMsg) (dev : Camera3Device M) (op : CameraOp) (base : list Z)
    (cw cw' : Camera M I R * World Q) :
  session_inv base cw.1 -> camera_op dflt dev op cw = Some cw' -> session_inv base cw'.1.
Proof.
  destruct cw as [c w], cw' as [c' w']. cbn [fst]. intros Hi Hr.
  assert (forall A (m : Cam (Camera M I R) A), on_camera m (c, w) = Some (c', w') -> exists x, m c = Some (x, c')) as Hon.
  { intros A m E. unfold on_camera in E. cbn [fst snd] in E. destruct (m c) as [[x c1] |] eqn:Em; [| done]. cbn [mbind option_bind] in E. simplify_eq. by exists x. }
  destruct op; cbn [camera_op fst snd] in Hr; try (apply Hon in Hr as [x Hr]).
  - eapply safe_inv; [apply safe_configureStreams | | exact Hi | exact Hr]. intros Hn He Hr'. by apply configureStreams_refused in Hr' as ->.
  - eapply safe_inv; [apply safe_processCaptureRequest | | exact Hi | exact Hr]. intros Hn He Hr'. by eapply processCaptureRequest_refused.
  - unfold flush in Hr. cam_bind Hr st c1 E. cam_unit E. destruct (decide _); [| by cam_unit Hr]. cam_bind Hr u c2 E2. cam_unit E2. cam_unit Hr.
    apply (device_call_inv base); done.
  - unfold signalStreamFlush in Hr. cam_bind Hr s c1 E. cam_unit E. destruct (negb _); [by cam_unit Hr |]. destruct (_ <? _); [by cam_unit Hr |].
    destruct (forallb _ _); [| by cam_unit Hr]. cam_bind Hr u c2 E2. cam_unit E2. cam_unit Hr. by apply (device_call_inv base).
  - by apply (close_inv base) in Hr as [? _].
  - by eapply disconnect_inv.
  - by eapply destroy_inv.
  - unfold sProcessCaptureResult in Hr. destruct (prepare_result hl (cam_session c)) as [[res s1] |] eqn:E; [| done]. cbn [mbind option_bind] in Hr.
    pose proof (prepare_result_cache _ _ _ _ E) as Hs. destruct res as [res |]; cbn [mbind option_bind] in Hr; [| simplify_eq/=; by apply session_inv_cache].
    destruct (processCaptureResult res _ _) as [[rb w1] |]; [| done]. cbn [mbind option_bind] in Hr. simplify_eq/=.
    exact (session_inv_batcher base c s1 rb Hi Hs).
  - unfold sNotify in Hr. destruct (negb _); [simplify_eq/=; by apply session_inv_cache |].
    set (s1 := match convertToAidl_notify msg dflt with NotifyMsg_error _ _ _ => _ | _ => _ end) in Hr.
    assert (same_cache (cam_session c) s1) as Hs by (unfold s1; by destruct (convertToAidl_notify msg dflt) as [? ? [] | ? ?]).
    destruct (notify _ _ _) as [[rb w1] |]; [| done]. cbn [mbind option_bind] in Hr. simplify_eq/=.
    exact (session_inv_batcher base c s1 rb Hi Hs).
Qed.

Lemma new_session_inv (dev : Camera3Device M) (info : DeviceInfo) (early v1 v2 : bool) (i : I) (q : R) c :
  CameraDeviceSession_new dev info early v1 v2 i q = Some c -> session_inv (hi_imported i) c.
Proof.
  unfold CameraDeviceSession_new, initialize. intros Hr.
  unfold mbind, Cam_bind, mret, Cam_ret, device_call, set_session, cam_modify in Hr.
  destruct (negb (dev_initialize dev =? DEV_OK)); simpl in Hr; simplify_eq; (split; [| reflexivity | intros; reflexivity]);
    intros h; simpl; unfold cached_handles; rewrite map_values_empty, occ_nil; lia.
Qed.

End balance.

(** C20. Imported buffers are neither leaked nor freed twice: after any sequence
    of configurations, requests, cache removals, results, notifications,
    flushes, disconnects and closes of a session, the buffers imported and not
    yet freed are those imported before it and those in its cache, each as
    often as it was imported; once a session that was not disconnected is
    closed, all it imported is freed; and the device was closed exactly once if
    the session is closed, whichever way, and not at all if it is open. *)
Theorem camera_handles_conserved {M I R Q : Type} `{CameraMetadataLib M} `{MetadataEntries M} `{HandleImporterLaws I} `{RequestQueue R}
    `{MessageQueue Q} (dflt : NotifyMsg) (dev : Camera3Device M) (info : DeviceInfo) (early v1 v2 : bool) (i : I) (q : R)
    (c0 c : Camera M I R) (w0 w : World Q) (ops : list (Camera3Device M * CameraOp))
    (Hnew : CameraDeviceSession_new dev info early v1 v2 i q = Some c0)
    (Hrun : camera_ops dflt ops (c0, w0) = Some (c, w)) :
  (forall h, occ h (hi_imported (cam_importer c)) =
     (occ h (hi_imported i) + occ h (cached_handles (mCirculatingBuffers (cam_session c))))%nat) /\
  (mClosed (cam_session c) = true -> mDisconnected (cam_session c) = false ->
   forall h, occ h (hi_imported (cam_importer c)) = occ h (hi_imported i)) /\
  closings c = (if mClosed (cam_session c) then 1 else 0).
Proof.
  pose proof (new_session_inv dev info early v1 v2 i q c0 Hnew) as Hi.
  assert (session_inv (hi_imported i) c) as [Hb Hd Hc].
  { clear Hnew. revert c0 w0 Hi Hrun. induction ops as [| [d op] ops IH]; intros c0 w0 Hi Hrun; cbn [camera_ops] in Hrun; [by simplify_eq |].
    destruct (camera_op dflt d op (c0, w0)) as [[c1 w1] |] eqn:E; [| done]. cbn [mbind option_bind] in Hrun.
    eapply (IH c1 w1); [| exact Hrun]. exact (camera_op_inv dflt d op _ (c0, w0) (c1, w1) Hi E). }
  split_and!; [done | | done]. intros K1 K2 h. rewrite Hb, (Hc K1 K2). unfold cached_handles. rewrite map_values_empty, occ_nil. lia.
Qed.
