(* ===== verification/CameraRequests.v ===== *)
(** * Requests and results of the camera session

    Shown: what a request puts in flight, that a failed one leaves nothing
    behind, and that the result that returns its buffers restores the records;
    and three cases the code does not cover. *)

From S2P Require Import Prelude CameraTypes CameraBatcher CameraBatchSystem CameraSession CameraBookkeeping.

Section requests.
Context {M I R : Type} `{CameraMetadataLib M} `{MetadataEntries M} `{HandleImporterLaws I} `{RequestQueue R}.
Implicit Types c : Camera M I R.

(** ** Importing a request changes the cache and the importer only *)

Definition imported_to c (m : gmap Z (gmap Z Z)) (i : I) : Camera M I R :=
  mkCamera ((cam_session c) <| mCirculatingBuffers := m |>) i (cam_queue c) (cam_device c).

Lemma imported_to_self c : imported_to c (mCirculatingBuffers (cam_session c)) (cam_importer c) = c.
Proof. destruct c as [[] ? ? ?]. done. Qed.

Lemma importBuffer_run (sid bufId : Z) (buf : NativeHandle) (allowEmpty : bool) c :
  exists st h m i, importBuffer sid bufId buf allowEmpty c = Some ((st, h), imported_to c m i) /\ hi_fences i = hi_fences (cam_importer c).
Proof.
  unfold importBuffer. destruct (decide (buf = [] /\ bufId = 0)).
  - eexists _, _, (mCirculatingBuffers (cam_session c)), (cam_importer c). rewrite imported_to_self. done.
  - unfold mbind, Cam_bind, set_session, cam_modify, sess, cam_get, importer_ask. simpl. rewrite lookup_insert_eq. simpl.
    destruct (default ∅ (mCirculatingBuffers (cam_session c) !! sid) !! bufId) as [h |];
      [eexists _, _, _, _; unfold imported_to; simpl; split; [reflexivity | done] |].
    simpl. pose proof (hi_import_fences buf (cam_importer c)) as Hf.
    destruct (hi_importBuffer buf (cam_importer c)) as [[h |] i']; simpl in *; eexists _, _, _, _; unfold imported_to; simpl;
      (split; [reflexivity | done]).
Qed.

Lemma import_buffers_run (bs : list (StreamBuffer * bool)) c :
  exists st hs m i, import_buffers bs c = Some ((st, hs), imported_to c m i) /\ hi_fences i = hi_fences (cam_importer c) /\
    (st = CAM_OK -> length hs = length bs).
Proof.
  revert c. induction bs as [| [b allow] bs IH]; intros c; cbn [import_buffers].
  - eexists _, _, (mCirculatingBuffers (cam_session c)), (cam_importer c). rewrite imported_to_self. done.
  - destruct (importBuffer_run (streamId b) (u64 (bufferId b)) (buffer b) allow c) as (st & h & m & i & E & Hf).
    unfold mbind, Cam_bind. rewrite E. cbn [mbind option_bind]. destruct (decide (st = CAM_OK)).
    + destruct (IH (imported_to c m i)) as (st2 & hs & m2 & i2 & E2 & Hf2 & Hl2). rewrite E2. cbn [mbind option_bind].
      eexists _, _, m2, i2. split; [done |]. split; [simpl in *; congruence |]. intros Hok. simpl. by rewrite Hl2.
    + eexists _, _, m, i. split; [done |]. split; [done |]. intros ->. done.
Qed.

(** The fences that have to be closed. *)
Definition open_fences (fds : list Z) : list Z := filter (fun fd => fd <> -1) fds.

Lemma closeFences_run (fds : list Z) c :
  exists i, closeFences fds c = Some (tt, imported_to c (mCirculatingBuffers (cam_session c)) i) /\
    (forall fd, occ fd (hi_fences i) = (occ fd (hi_fences (cam_importer c)) - occ fd (open_fences fds))%nat).
Proof.
  revert c. induction fds as [| a fds IH]; intros c; unfold closeFences in *; cbn [cam_for].
  - exists (cam_importer c). rewrite imported_to_self. split; [done |]. intros fd. change (open_fences []) with (@nil Z). rewrite occ_nil. lia.
  - unfold mbind, Cam_bind, importer_do, cam_modify. cbn [mbind option_bind].
    destruct (IH (c <| cam_importer := hi_closeFence a (cam_importer c) |>)) as (i & E & Hf). exists i. split; [exact E |].
    intros fd. rewrite Hf. simpl. rewrite hi_close_fences. unfold open_fences. rewrite filter_cons. destruct (Z.eqb_spec a (-1)) as [-> | Hne].
    + rewrite decide_False by (intros Hc; by apply Hc). done.
    + rewrite decide_True by done. rewrite occ_remove_one, occ_cons. lia.
Qed.

Lemma import_fences_run (bs : list StreamBuffer) (acc : list Z) c :
  exists x i, import_fences bs acc c = Some (x, imported_to c (mCirculatingBuffers (cam_session c)) i) /\
    match x with
    | Some fds => exists more, fds = acc ++ more /\ length more = length bs /\
        (forall fd, occ fd (hi_fences i) = (occ fd (hi_fences (cam_importer c)) + occ fd (open_fences more))%nat)
    | None => forall fd, (occ fd (open_fences acc) <= occ fd (hi_fences (cam_importer c)))%nat ->
        occ fd (hi_fences i) = (occ fd (hi_fences (cam_importer c)) - occ fd (open_fences acc))%nat
    end.
Proof.
  revert acc c. induction bs as [| b bs IH]; intros acc c; cbn [import_fences].
  - exists (Some acc), (cam_importer c). rewrite imported_to_self. split; [done |]. exists []. rewrite app_nil_r. split_and!; [done | done |].
    intros fd. change (open_fences []) with (@nil Z). rewrite occ_nil. lia.
  - unfold mbind, Cam_bind, importer_ask. pose proof (hi_fence_fences (acquireFence b) (cam_importer c)) as Hf.
    destruct (hi_importFence (acquireFence b) (cam_importer c)) as [[fd0 |] i1]; cbn [mbind option_bind fst snd] in *.
    + destruct (IH (acc ++ [fd0]) (c <| cam_importer := i1 |>)) as (x & i & E & Hx). exists x, i. split; [exact E |].
      destruct x as [fds |]; simpl in Hx.
      * destruct Hx as (more & -> & Hl & Ho). exists (fd0 :: more). rewrite <- app_assoc. split_and!; [done | simpl; lia |].
        intros fd. rewrite Ho, Hf. unfold open_fences. rewrite filter_cons, occ_app. destruct (Z.eqb_spec fd0 (-1)) as [-> | Hne].
        -- rewrite decide_False by (intros Hc; by apply Hc). rewrite occ_nil. lia.
        -- rewrite decide_True by done. rewrite !occ_cons, occ_nil. lia.
      * intros fd Hle. rewrite Hx; rewrite Hf; unfold open_fences in *; rewrite filter_app, !occ_app, filter_cons, filter_nil;
          destruct (Z.eqb_spec fd0 (-1)) as [-> | Hne]; (rewrite decide_False by (intros Hc; by apply Hc)) || (rewrite decide_True by done);
          rewrite ?occ_cons, ?occ_nil; lia.
    + simpl in Hf. unfold cleanupInflightFences. rewrite firstn_all.
      destruct (closeFences_run acc (c <| cam_importer := i1 |>)) as (i & E & Ho). rewrite E. cbn [mbind option_bind].
      exists None, i. split; [done |]. intros fd _. rewrite Ho. simpl. by rewrite Hf.
Qed.

Lemma importRequest_run (r : CaptureRequest) c :
  exists st hs fds m i, importRequest r c = Some ((st, hs, fds), imported_to c m i) /\
    (st = CAM_OK -> length hs = length (request_buffers r) /\ length fds = length (request_buffers r) /\
       forall fd, occ fd (hi_fences i) = (occ fd (hi_fences (cam_importer c)) + occ fd (open_fences fds))%nat) /\
    (st <> CAM_OK -> forall fd, occ fd (hi_fences i) = occ fd (hi_fences (cam_importer c))).
Proof.
  unfold importRequest, importRequestImpl, mbind, Cam_bind.
  match goal with |- context [import_buffers ?bs c] => destruct (import_buffers_run bs c) as (st & hs & m & i & E & Hf & Hl) end.
  rewrite E. cbn [mbind option_bind]. destruct (decide (st = CAM_OK)) as [Hok | Hno].
  - destruct (import_fences_run (request_buffers r) [] (imported_to c m i)) as (x & i2 & E2 & Hx). rewrite E2. cbn [mbind option_bind].
    destruct x as [fds |].
    + destruct Hx as (more & -> & Hm & Ho). eexists _, _, _, m, i2. split; [done |]. split; [| done]. intros _. split_and!.
      * rewrite (Hl Hok). unfold request_buffers. rewrite !length_app, length_fmap. by destruct (has_input_buf r).
      * done.
      * intros fd. simpl in *. by rewrite Ho, Hf.
    + eexists _, _, _, m, i2. split; [done |]. split; [done |]. intros _ fd. change (open_fences []) with (@nil Z) in Hx.
      simpl in Hx. rewrite Hx; rewrite ?Hf, occ_nil; lia.
  - eexists _, _, _, m, i. split; [done |]. split; [done |]. intros _ fd. by rewrite Hf.
Qed.

(** ** Buffers in flight *)

(** What putting buffers in flight leaves alone. *)
Definition same_records (s s' : CameraDeviceSession) : Prop :=
  mInflightAETriggerOverrides s' = mInflightAETriggerOverrides s /\ mInflightRawBoostPresent s' = mInflightRawBoostPresent s /\
  mFirstRequest s' = mFirstRequest s /\ mDeviceVersion s' = mDeviceVersion s /\ cs_mNumPartialResults s' = cs_mNumPartialResults s /\
  mDerivePostRawSensKey s' = mDerivePostRawSensKey s.

Lemma record_buffers_run (frame : Z) (ps : list (StreamBuffer * option Z * Z)) (s : CameraDeviceSession) :
  let s' := foldl (fun s p => record_buffer frame p s) s ps in
  let keys := (fun p => (streamId p.1.1, u32 frame)) <$> ps in
  same_records s s' /\
  (forall k, k ∈ keys -> is_Some (mInflightBuffers s' !! k)) /\
  (forall k, k ∉ keys -> mInflightBuffers s' !! k = mInflightBuffers s !! k) /\
  (forall id, is_Some (mStreamMap s !! id) -> stream_mId s' id = stream_mId s id).
Proof.
  revert s. induction ps as [| [[b h] fd] ps IH]; intros s; [split_and!; try done; intros k Hk; by apply not_elem_of_nil in Hk |].
  cbn [foldl fmap list_fmap fst]. change (list_fmap _ _ ?g ps) with (g <$> ps).
  set (s1 := record_buffer frame (b, h, fd) s). specialize (IH s1) as (A1 & A2 & A3 & A4).
  assert (mInflightBuffers s1 = <[(streamId b, u32 frame) := convertFromAidl_buffer h (status b) (streamId b) fd]> (mInflightBuffers s)) as Em by done.
  split_and!; [exact A1 | | |].
  - intros k [-> | Hk]%elem_of_cons; [| by apply A2].
    destruct (decide ((streamId b, u32 frame) ∈ (fun p : StreamBuffer * option Z * Z => (streamId p.1.1, u32 frame)) <$> ps)) as [Hin | Hni]; [by apply A2 |].
    rewrite A3, Em, lookup_insert_eq by done. by eexists.
  - intros k Hk. rewrite not_elem_of_cons in Hk. rewrite A3, Em by tauto. by rewrite lookup_insert_ne by naive_solver.
  - intros id Hid. assert (stream_mId s1 id = stream_mId s id) as E1.
    { unfold s1, record_buffer, stream_mId. simpl. destruct (decide (streamId b = id)) as [<- | Hne].
      - rewrite lookup_insert_eq. destruct Hid as [x ->]. done.
      - by rewrite lookup_insert_ne. }
    rewrite A4; [done |]. unfold stream_mId in E1. apply fmap_is_Some with (f := c3_mId). rewrite E1. by apply fmap_is_Some.
Qed.

Lemma zip_streams (bs : list StreamBuffer) (hs : list (option Z)) (fds : list Z) (frame : Z) :
  length hs = length bs -> length fds = length bs ->
  (fun p : StreamBuffer * option Z * Z => (streamId p.1.1, u32 frame)) <$> zip (zip bs hs) fds = (fun b => (streamId b, u32 frame)) <$> bs.
Proof.
  revert hs fds. induction bs as [| b bs IH]; intros [| h hs] [| fd fds] E1 E2; simplify_eq/=; [done |]. f_equal. by apply IH.
Qed.

Lemma record_request_run (r : CaptureRequest) (hs : list (option Z)) (fds : list Z) (s : CameraDeviceSession) :
  length hs = length (request_buffers r) -> length fds = length (request_buffers r) ->
  same_records s (record_request r hs fds s) /\
  (forall k, k ∈ request_keys r -> is_Some (mInflightBuffers (record_request r hs fds s) !! k)) /\
  (forall k, k ∉ request_keys r -> mInflightBuffers (record_request r hs fds s) !! k = mInflightBuffers s !! k) /\
  (forall id, is_Some (mStreamMap s !! id) -> stream_mId (record_request r hs fds s) id = stream_mId s id).
Proof.
  intros E1 E2. unfold record_request. set (ps := zip (zip (request_buffers r) hs) fds). set (n := length (rq_outputBuffers r)).
  assert (forall k, k ∈ (fun p : StreamBuffer * option Z * Z => (streamId p.1.1, u32 (rq_frameNumber r))) <$> (drop n ps ++ take n ps) <-> k ∈ request_keys r) as Hk.
  { intros k. unfold request_keys. rewrite <- (zip_streams (request_buffers r) hs fds) by done. fold ps.
    rewrite <- (take_drop n ps) at 3. rewrite !fmap_app, !elem_of_app. tauto. }
  destruct (record_buffers_run (rq_frameNumber r) (drop n ps ++ take n ps) s) as (A1 & A2 & A3 & A4). split_and!; [done | | | done].
  - intros k Hin. apply A2. by apply Hk.
  - intros k Hni. apply A3. by rewrite Hk.
Qed.

Lemma erase_keys {A} (keys : list (Z * Z)) (m : gmap (Z * Z) A) (k : Z * Z) :
  foldr delete m keys !! k = if decide (k ∈ keys) then None else m !! k.
Proof.
  induction keys as [| a keys IH]; simpl.
  - destruct (decide (k ∈ [])) as [Hin |]; [by apply not_elem_of_nil in Hin | done].
  - destruct (decide (a = k)) as [-> | Hne].
    + rewrite lookup_delete_eq. destruct (decide (k ∈ k :: keys)) as [_ | []]; [done | by constructor].
    + rewrite lookup_delete_ne, IH by done. destruct (decide (k ∈ keys)) as [Hin | Hni], (decide (k ∈ a :: keys)) as [Hin' | Hni']; try done.
      * exfalso. apply Hni'. by constructor.
      * apply elem_of_cons in Hin'. naive_solver.
Qed.

(** Erasing the keys of a request that were not in flight before. *)
Lemma erase_request {A} (keys : list (Z * Z)) (m m' : gmap (Z * Z) A) :
  (forall k, k ∈ keys -> m !! k = None) -> (forall k, k ∉ keys -> m' !! k = m !! k) -> foldr delete m' keys = m.
Proof.
  intros Hn Hs. apply map_eq. intros k. rewrite erase_keys. destruct (decide (k ∈ keys)) as [Hin | Hni]; [by rewrite Hn | by apply Hs].
Qed.

(** ** One request *)

(** What a run of one request does, in both outcomes. *)
Definition request_outcome (r : CaptureRequest) (st : CameraStatus) c c' : Prop :=
  if decide (st = CAM_OK) then
    (forall k, k ∈ request_keys r -> is_Some (mInflightBuffers (cam_session c') !! k)) /\
    (forall k, k ∉ request_keys r -> mInflightBuffers (cam_session c') !! k = mInflightBuffers (cam_session c) !! k) /\
    mFirstRequest (cam_session c') = false /\
    (forall id, is_Some (mStreamMap (cam_session c) !! id) -> stream_mId (cam_session c') id = stream_mId (cam_session c) id) /\
    exists hr, cam_device c' = cam_device c ++ [DEV_request hr] /\ hr_frame_number hr = u32 (rq_frameNumber r) /\
      map cb_stream (hr_output_buffers hr) = map streamId (rq_outputBuffers r)
  else
    mInflightBuffers (cam_session c') = mInflightBuffers (cam_session c) /\
    mInflightAETriggerOverrides (cam_session c') = mInflightAETriggerOverrides (cam_session c) /\
    mInflightRawBoostPresent (cam_session c') = mInflightRawBoostPresent (cam_session c) /\
    mFirstRequest (cam_session c') = mFirstRequest (cam_session c) /\
    (forall fd, occ fd (hi_fences (cam_importer c')) = occ fd (hi_fences (cam_importer c))).

Lemma cleanup_run (r : CaptureRequest) (fds : list Z) (cancel : bool) c :
  length fds = length (request_buffers r) ->
  exists c', cleanup_request r fds cancel c = Some (tt, c') /\
    cam_session c' = (cam_session c) <| mInflightBuffers ::= fun m => foldr delete m (request_keys r) |>
      <| mInflightAETriggerOverrides ::= fun m => if cancel then delete (u32 (rq_frameNumber r)) m else m |> /\
    cam_device c' = cam_device c /\
    (forall fd, occ fd (hi_fences (cam_importer c')) = (occ fd (hi_fences (cam_importer c)) - occ fd (open_fences fds))%nat).
Proof.
  intros Hl. unfold cleanup_request, cleanupInflightFences. rewrite <- Hl, firstn_all. unfold mbind, Cam_bind.
  destruct (closeFences_run fds c) as (i & -> & Hf). cbn [mbind option_bind]. unfold set_session, cam_modify.
  eexists. split; [reflexivity |]. by destruct c as [[] ? ? ?].
Qed.

Lemma imap_streams (g : nat -> StreamBuffer -> camera3_stream_buffer) (bs : list StreamBuffer) :
  (forall i b, cb_stream (g i b) = streamId b) -> map cb_stream (imap g bs) = map streamId bs.
Proof.
  revert g. induction bs as [| b bs IH]; intros g Hg; [done |]. simpl. rewrite Hg. f_equal. apply IH. intros i b'. apply Hg.
Qed.

(** The records an import leaves alone. *)
Definition same_view c0 c : Prop :=
  mInflightBuffers (cam_session c) = mInflightBuffers (cam_session c0) /\
  mInflightAETriggerOverrides (cam_session c) = mInflightAETriggerOverrides (cam_session c0) /\
  mInflightRawBoostPresent (cam_session c) = mInflightRawBoostPresent (cam_session c0) /\
  mFirstRequest (cam_session c) = mFirstRequest (cam_session c0) /\
  mStreamMap (cam_session c) = mStreamMap (cam_session c0) /\ cam_device c = cam_device c0.

(** The submission of an imported request: [c0] is the camera before the
    import. *)
Lemma submit_run (dev : Camera3Device M) (r : CaptureRequest) (settings : option M) (hs : list (option Z)) (fds : list Z) c0 c :
  length hs = length (request_buffers r) -> length fds = length (request_buffers r) ->
  (forall k, k ∈ request_keys r -> mInflightBuffers (cam_session c0) !! k = None) ->
  mInflightAETriggerOverrides (cam_session c0) !! u32 (rq_frameNumber r) = None ->
  rq_physicalCameraSettings r = [] -> same_view c0 c ->
  (forall fd, occ fd (hi_fences (cam_importer c)) = (occ fd (hi_fences (cam_importer c0)) + occ fd (open_fences fds))%nat) ->
  exists st c', submit_request dev r settings hs fds c = Some (st, c') /\ request_outcome r st c0 c'.
Proof.
  intros Hl1 Hl2 Hfresh Hae Hphys (V1 & V2 & V3 & V4 & V5 & V6) Hfd.
  destruct (record_request_run r hs fds (cam_session c) Hl1 Hl2) as ((R1 & R2 & R3 & _) & A2 & A3 & A4).
  rewrite V1 in A3. rewrite V2 in R1. rewrite V3 in R2. rewrite V4 in R3. unfold stream_mId in A4. rewrite V5 in A4.
  unfold submit_request, mbind, Cam_bind, set_session, cam_modify, sess, cam_get, id. cbn [mbind option_bind]. simpl (cam_session _).
  set (cancel := handleAePrecaptureCancelRequestLocked _ settings). clearbody cancel. rewrite Hphys. cbn [physical_settings].
  unfold mret, Cam_ret. cbn [mbind option_bind]. unfold device_call, cam_modify. cbn [mbind option_bind].
  set (hr := mkHalRequest _ _ _ _ _). destruct (dev_process_capture_request dev hr =? DEV_OK).
  - eexists CAM_OK, _. split; [reflexivity |]. unfold request_outcome. rewrite decide_True by done. split_and!.
    + intros k Hk. destruct cancel as [[? ?] |]; simpl; by apply A2.
    + intros k Hk. destruct cancel as [[? ?] |]; simpl; by apply A3.
    + done.
    + intros id Hid. destruct cancel as [[? ?] |]; simpl; by apply A4.
    + exists hr. simpl. rewrite V6. split_and!; [done | done |]. apply imap_streams. done.
  - match goal with |- context [cleanup_request r fds ?b ?x] => destruct (cleanup_run r fds b x Hl2) as (c' & -> & Es & Ed & Ef) end.
    cbn [mbind option_bind]. eexists _, c'. split; [reflexivity |]. unfold request_outcome. rewrite decide_False by (by destruct (_ =? _)).
    rewrite Es. split_and!.
    + destruct cancel as [[? ?] |]; simpl; by apply erase_request.
    + destruct cancel as [[? ?] |]; simpl; rewrite R1; [| done]. by rewrite delete_insert_id.
    + destruct cancel as [[? ?] |]; simpl; by rewrite R2.
    + destruct cancel as [[? ?] |]; simpl; by rewrite R3.
    + intros fd. rewrite Ef. simpl. rewrite Hfd. lia.
Qed.

(** One request from its first check to its end. *)
Lemma processOne_run (dev : Camera3Device M) (r : CaptureRequest) c :
  (forall k, k ∈ request_keys r -> mInflightBuffers (cam_session c) !! k = None) ->
  mInflightAETriggerOverrides (cam_session c) !! u32 (rq_frameNumber r) = None ->
  rq_physicalCameraSettings r = [] ->
  exists st c', processOneCaptureRequest dev r c = Some (st, c') /\ request_outcome r st c c'.
Proof.
  intros Hfresh Hae Hphys.
  unfold processOneCaptureRequest, mbind, Cam_bind, sess, cam_get. cbn [mbind option_bind].
  assert (forall st q, st <> CAM_OK -> exists st' c', Some (st, c <| cam_queue := q |>) = Some (st', c') /\ request_outcome r st' c c') as Hfail.
  { intros st q Hst. eexists _, _. split; [reflexivity |]. unfold request_outcome. by rewrite decide_False. }
  assert (c = c <| cam_queue := cam_queue c |>) as Ec by (by destruct c).
  destruct (decide (initStatus (cam_session c) = CAM_OK)) as [Hok | Hno].
  2:{ rewrite bool_decide_false by done. cbn [negb]. destruct (Hfail _ (cam_queue c) Hno) as (st & c' & E & Ho). rewrite <- Ec in E. by exists st, c'. }
  rewrite bool_decide_true by done. cbn [negb].
  assert (exists x q, read_settings (rq_fmqSettingsSize r) (rq_settings r) c = Some (x, c <| cam_queue := q |>)) as (x & q & ->).
  { unfold read_settings. destruct (0 <? rq_fmqSettingsSize r); [| exists (convertFromAidl_metadata (rq_settings r)), (cam_queue c); by rewrite <- Ec].
    destruct (fmq_read (rq_fmqSettingsSize r) (cam_queue c)) as [bs q]. by eexists _, q. }
  cbn [mbind option_bind]. destruct x as [settings |]; [| by apply Hfail]. cbn [mbind option_bind].
  destruct (_ && bool_decide (settings = None)); [by apply Hfail |].
  destruct (bool_decide (rq_outputBuffers r = [])); [by apply Hfail |]. cbn [mbind option_bind].
  destruct (importRequest_run r (c <| cam_queue := q |>)) as (st & hs & fds & m & i & -> & Hy & Hn). cbn [mbind option_bind].
  destruct (decide (st = CAM_OK)) as [-> | Hst].
  - rewrite bool_decide_true by done. cbn [negb]. destruct (Hy eq_refl) as (Hl1 & Hl2 & Hf).
    destruct (submit_run dev r settings hs fds (c <| cam_queue := q |>) (imported_to (c <| cam_queue := q |>) m i) Hl1 Hl2 Hfresh Hae Hphys) as (st & c' & -> & Ho).
    + done.
    + exact Hf.
    + exists st, c'. split; [done | exact Ho].
  - rewrite bool_decide_false by done. cbn [negb]. eexists _, _. split; [reflexivity |]. unfold request_outcome. rewrite decide_False by done.
    split_and!; try done. intros fd. by rewrite Hn.
Qed.

End requests.

(** C21. A request is recorded exactly when it is accepted: a request without
    individual settings, whose buffers and frame are not in flight yet,
    returns; if it succeeds exactly its buffers are added to those in flight
    and the device gets one request with them; if it fails, at whatever point,
    none of its buffers is left in flight, no override is recorded, and every
    fence it imported is closed.  (With individual settings that are corrupt
    this fails, see [corrupt_physical_settings_stick].) *)
Theorem request_bookkeeping {M I R : Type} `{CameraMetadataLib M} `{MetadataEntries M} `{HandleImporterLaws I} `{RequestQueue R}
    (dev : Camera3Device M) (r : CaptureRequest) (c : Camera M I R)
    (Hfresh : forall k, k ∈ request_keys r -> mInflightBuffers (cam_session c) !! k = None)
    (Hae : mInflightAETriggerOverrides (cam_session c) !! u32 (rq_frameNumber r) = None)
    (Hphys : rq_physicalCameraSettings r = []) :
  exists st c', processOneCaptureRequest dev r c = Some (st, c') /\ request_outcome r st c c'.
Proof. by apply processOne_run. Qed.

(** ** Results *)

Section results.
Context {M : Type} `{CameraMetadataLib M} `{MetadataEntries M}.
Implicit Types hl : camera3_capture_result M.

Definition returned_keys hl : list (Z * Z) := (fun b => (cb_stream b, u32 (hl_frame_number hl))) <$> all_hal_buffers hl.

(** Every buffer comes with a stream the session knows under its identifier. *)
Definition streams_known hl (s : CameraDeviceSession) : Prop :=
  forall b, b ∈ all_hal_buffers hl -> stream_mId s (cb_stream b) = Some (cb_stream b).

Lemma result_keys_known hl (s : CameraDeviceSession) : streams_known hl s -> result_keys s hl = Some (returned_keys hl).
Proof.
  unfold streams_known, result_keys, returned_keys. generalize (all_hal_buffers hl) as bs. induction bs as [| b bs IH]; intros Hs; [done |]. simpl.
  rewrite Hs by constructor. cbn [mbind option_bind]. rewrite IH by (intros b' Hb'; apply Hs; by constructor). done.
Qed.

Lemma result_bytes_records hl (s : CameraDeviceSession) :
  mInflightBuffers (result_bytes hl s).2 = mInflightBuffers s /\ mStreamMap (result_bytes hl s).2 = mStreamMap s.
Proof.
  unfold result_bytes. destruct (hl_result hl) as [m |]; [| done].
  assert (mInflightBuffers (derive_boost hl m s).2 = mInflightBuffers s /\ mStreamMap (derive_boost hl m s).2 = mStreamMap s) as [A1 A2].
  { unfold derive_boost. destruct (mDerivePostRawSensKey s); [| done]. by destruct (_ =? _). }
  destruct (derive_boost hl m s) as [o1 s1]. simpl in *.
  assert (mInflightBuffers (override_trigger hl m o1 s1).2 = mInflightBuffers s1 /\ mStreamMap (override_trigger hl m o1 s1).2 = mStreamMap s1) as [B1 B2].
  { unfold override_trigger. destruct (_ !! _); [| done]. simpl. by destruct (_ =? _). }
  destruct (override_trigger hl m o1 s1) as [o2 s2]. simpl in *. split; congruence.
Qed.

Lemma output_buffers_known (bs : list camera3_stream_buffer) (s : CameraDeviceSession) :
  (forall b, b ∈ bs -> stream_mId s (cb_stream b) = Some (cb_stream b)) ->
  exists l s', output_stream_buffers bs s = Some (l, s') /\ map streamId l = map cb_stream bs /\
    map releaseFence l = map (fun b => fence_handle (cb_release_fence b)) bs.
Proof.
  revert s. induction bs as [| b bs IH]; intros s Hs; simpl; [by exists [], s |].
  rewrite Hs by constructor. cbn [mbind option_bind].
  assert (exists n s1, match cb_buffer b with Some h => popBufferId h (cb_stream b) s | None => (0, s) end = (n, s1) /\ mStreamMap s1 = mStreamMap s)
    as (n & s1 & -> & Em).
  { destruct (cb_buffer b) as [h |]; [| by exists 0, s]. unfold popBufferId. destruct (mBufferIdMaps s !! cb_stream b) as [bm |]; [| by exists 0, s].
    destruct (bm !! h) as [n |]; [| by exists 0, s]. by eexists n, _. }
  destruct (IH s1) as (l & s2 & -> & E1 & E2).
  { intros b' Hb'. unfold stream_mId. rewrite Em. apply Hs. by constructor. }
  cbn [mbind option_bind]. eexists _, s2. split; [done |]. simpl. by rewrite E1, E2.
Qed.

Lemma constructCaptureResult_known hl (s : CameraDeviceSession) :
  streams_known hl s ->
  ((forall k, k ∈ returned_keys hl -> is_Some (mInflightBuffers s !! k)) ->
   exists res s', constructCaptureResult hl s = Some (Some res, s') /\
     mInflightBuffers s' = foldr delete (mInflightBuffers s) (returned_keys hl) /\ mStreamMap s' = mStreamMap s /\
     frameNumber res = i32 (hl_frame_number hl) /\ fmqResultSize res = 0 /\
     map streamId (outputBuffers res) = map cb_stream (hl_output_buffers hl) /\
     map releaseFence (outputBuffers res) = map (fun b => fence_handle (cb_release_fence b)) (hl_output_buffers hl)) /\
  ((exists k, k ∈ returned_keys hl /\ mInflightBuffers s !! k = None) -> constructCaptureResult hl s = Some (None, s)).
Proof.
  intros Hs. unfold constructCaptureResult. rewrite (result_keys_known hl s Hs). cbn [mbind option_bind]. split.
  - intros Hin. assert (forallb (fun k => bool_decide (is_Some (mInflightBuffers s !! k))) (returned_keys hl) = true) as ->.
    { apply forallb_forall. intros k Hk. apply bool_decide_eq_true. apply Hin. by apply list_elem_of_In. }
    destruct (result_bytes_records hl s) as [A1 A2]. destruct (result_bytes hl s) as [bytes s1]. simpl in A1, A2.
    assert (forall id, stream_mId s1 id = stream_mId s id) as Eid by (intros id; unfold stream_mId; by rewrite A2).
    assert (exists x, input_stream_buffer s1 (hl_input_buffer hl) = Some x) as [x Ex].
    { unfold input_stream_buffer. destruct (hl_input_buffer hl) as [b |] eqn:Eb; [| by eexists]. rewrite Eid, Hs; [by eexists |].
      unfold all_hal_buffers. rewrite Eb. by constructor. }
    rewrite Ex. cbn [mbind option_bind].
    destruct (output_buffers_known (hl_output_buffers hl) s1) as (l & s2 & E2 & E3 & E4).
    { intros b Hb. rewrite Eid. apply Hs. unfold all_hal_buffers. apply elem_of_app. by right. }
    destruct (output_buffers_cache _ _ _ _ E2) as (_ & K2 & _ & _ & K5). rewrite E2. cbn [mbind option_bind].
    eexists _, _. split; [reflexivity |]. simpl. rewrite K2, K5, A1, A2. done.
  - intros (k & Hk & Hn). assert (forallb (fun k => bool_decide (is_Some (mInflightBuffers s !! k))) (returned_keys hl) = false) as ->; [| done].
    apply not_true_iff_false. intros Hf. rewrite forallb_forall in Hf. specialize (Hf k). rewrite Hn in Hf.
    rewrite bool_decide_eq_true in Hf. by destruct Hf as [? ?]; [apply list_elem_of_In |].
Qed.

End results.

(** All buffers of a request are of configured streams. *)
Definition streams_configured (r : CaptureRequest) (s : CameraDeviceSession) : Prop :=
  forall b, b ∈ request_buffers r -> stream_mId s (streamId b) = Some (streamId b).

(** C22. Buffers come back exactly once: take a request without individual
    settings, on configured streams only, whose buffers and frame were not in
    flight, and which was accepted.  Then the result for its frame that returns
    buffers of exactly its streams, at least one, is accepted, carries each
    buffer of the vendor's result with its stream and release fence, and
    restores the buffers in flight to what they were before the request; the
    same result a second time is refused without effect. *)
Theorem request_result_roundtrip {M I R : Type} `{CameraMetadataLib M} `{MetadataEntries M} `{HandleImporterLaws I} `{RequestQueue R}
    (dev : Camera3Device M) (r : CaptureRequest) (hl : camera3_capture_result M) (c c' : Camera M I R)
    (Hfresh : forall k, k ∈ request_keys r -> mInflightBuffers (cam_session c) !! k = None)
    (Hae : mInflightAETriggerOverrides (cam_session c) !! u32 (rq_frameNumber r) = None)
    (Hphys : rq_physicalCameraSettings r = [])
    (Hknown : streams_configured r (cam_session c))
    (Hrun : processOneCaptureRequest dev r c = Some (CAM_OK, c'))
    (Hframe : hl_frame_number hl = u32 (rq_frameNumber r))
    (Hbufs : forall id, id ∈ map cb_stream (all_hal_buffers hl) <-> id ∈ map streamId (request_buffers r))
    (Hsome : all_hal_buffers hl <> []) :
  exists res s', constructCaptureResult hl (cam_session c') = Some (Some res, s') /\
    mInflightBuffers s' = mInflightBuffers (cam_session c) /\
    frameNumber res = i32 (hl_frame_number hl) /\
    map streamId (outputBuffers res) = map cb_stream (hl_output_buffers hl) /\
    map releaseFence (outputBuffers res) = map (fun b => fence_handle (cb_release_fence b)) (hl_output_buffers hl) /\
    constructCaptureResult hl s' = Some (None, s').
Proof.
  destruct (processOne_run dev r c Hfresh Hae Hphys) as (st & c1 & E & Ho). rewrite Hrun in E. simplify_eq.
  unfold request_outcome in Ho. rewrite decide_True in Ho by done. destruct Ho as (A1 & A2 & _ & A4 & _).
  assert (forall k, k ∈ returned_keys hl <-> k ∈ request_keys r) as Hkeys.
  { intros [id f]. unfold returned_keys, request_keys. rewrite Hframe, u32_id by apply u32_range. rewrite !list_elem_of_fmap.
    specialize (Hbufs id). change (map ?g ?l) with (g <$> l) in Hbufs. rewrite !list_elem_of_fmap in Hbufs. split.
    - intros (b & [= -> ->] & Hb). destruct (proj1 Hbufs) as (sb & E & Hsb); [by exists b |]. exists sb. by rewrite E.
    - intros (sb & [= -> ->] & Hb). destruct (proj2 Hbufs) as (b & E & Hsb); [by exists sb |]. exists b. by rewrite E. }
  assert (streams_known hl (cam_session c1)) as Hs.
  { intros b Hb. assert (cb_stream b ∈ map streamId (request_buffers r)) as Hin by (apply Hbufs; change (map ?g ?l) with (g <$> l); by apply list_elem_of_fmap_2).
    change (map ?g ?l) with (g <$> l) in Hin. apply list_elem_of_fmap in Hin as (sb & Esb & Hsb). rewrite Esb. specialize (Hknown sb Hsb).
    rewrite A4; [done |]. unfold stream_mId in Hknown. destruct (mStreamMap (cam_session c) !! streamId sb); [by eexists | done]. }
  destruct (proj1 (constructCaptureResult_known hl (cam_session c1) Hs)) as (res & s' & Er & E1 & E2 & E3 & E4 & E5 & E6).
  { intros k Hk. by apply A1, Hkeys. }
  assert (mInflightBuffers s' = mInflightBuffers (cam_session c)) as E7.
  { rewrite E1. apply erase_request; [intros k Hk; by apply Hfresh, Hkeys | intros k Hk; apply A2; by rewrite <- Hkeys]. }
  exists res, s'. split_and!; [done | done | done | done | done |].
  apply constructCaptureResult_known.
  - intros b Hb. unfold stream_mId. rewrite E2. by apply Hs.
  - destruct (all_hal_buffers hl) as [| b bs] eqn:Eb; [done |]. exists (cb_stream b, u32 (hl_frame_number hl)).
    assert ((cb_stream b, u32 (hl_frame_number hl)) ∈ returned_keys hl) as Hin by (unfold returned_keys; rewrite Eb; by constructor).
    split; [done |]. rewrite E7. by apply Hfresh, Hkeys.
Qed.

(** ** A concrete camera *)

Definition tag_code (t : MetadataTag) : Z :=
  match t with TAG_AE_PRECAPTURE_TRIGGER => 1 | TAG_AE_LOCK => 2 | TAG_POST_RAW_SENSITIVITY_BOOST => 3 end.

Definition code_tag (z : Z) : MetadataTag :=
  if z =? 1 then TAG_AE_PRECAPTURE_TRIGGER else if z =? 2 then TAG_AE_LOCK else TAG_POST_RAW_SENSITIVITY_BOOST.

Fixpoint toy_decode (l : list Z) : list (MetadataTag * Z) :=
  match l with
  | t :: v :: l => (code_tag t, v) :: toy_decode l
  | _ => []
  end.

(** A metadata buffer is its entries; its bytes are the length and the pairs. *)
Definition ToyMetadata : Type := list (MetadataTag * Z).

Definition toy_size (m : ToyMetadata) : Z := 1 + 2 * Z.of_nat (length m).

#[export] Instance ToyMetadata_lib : CameraMetadataLib ToyMetadata := {
  get_camera_metadata_size := toy_size;
  get_camera_metadata_compact_size := toy_size;
  metadata_bytes m := Z.of_nat (length m) :: concat (map (fun e => [tag_code e.1; e.2]) m);
  metadata_cast bs := match bs with n :: l => take (Z.to_nat n) (toy_decode l) | [] => [] end;
  copy_camera_metadata m := m
}.

Lemma toy_decode_encode (m : ToyMetadata) : toy_decode (concat (map (fun e => [tag_code e.1; e.2]) m)) = m.
Proof. induction m as [| [t v] m IH]; [done |]. simpl. rewrite IH. by destruct t. Qed.

#[export] Instance ToyMetadata_laws : CameraMetadataLaws ToyMetadata.
Proof.
  split.
  - intros m. simpl. unfold toy_size. induction m as [| e m IH]; [done |]. simpl in *. lia.
  - intros m. simpl. rewrite toy_decode_encode, Nat2Z.id. apply firstn_all.
  - intros m. simpl. unfold toy_size. lia.
Qed.

#[export] Instance ToyMetadata_entries : MetadataEntries ToyMetadata := {
  get_camera_metadata_entry_count m := Z.of_nat (length m);
  md_append m := m;
  md_find t m := snd <$> List.find (fun e => bool_decide (e.1 = t)) m;
  md_exists t m := existsb (fun e => bool_decide (e.1 = t)) m;
  md_update t v m := (t, v) :: List.filter (fun e => negb (bool_decide (e.1 = t))) m
}.

(** An importer that numbers the buffers it imports. *)
Record TableImporter := mkTableImporter { ti_next : Z; ti_imported : list Z; ti_fences : list Z }.

#[export] Instance TableImporter_importer : HandleImporter TableImporter := {
  hi_importBuffer b i :=
    if decide (b = []) then (None, i) else (Some (ti_next i), mkTableImporter (ti_next i + 1) (ti_next i :: ti_imported i) (ti_fences i));
  hi_freeBuffer h i := mkTableImporter (ti_next i) (remove_one h (ti_imported i)) (ti_fences i);
  hi_importFence b i :=
    match b with
    | [] => (Some (-1), i)
    | [fd] => (Some fd, mkTableImporter (ti_next i) (ti_imported i) (if fd =? -1 then ti_fences i else fd :: ti_fences i))
    | _ => (None, i)
    end;
  hi_closeFence fd i := if fd =? -1 then i else mkTableImporter (ti_next i) (ti_imported i) (remove_one fd (ti_fences i));
  hi_imported := ti_imported;
  hi_fences := ti_fences
}.

#[export] Instance TableImporter_laws : HandleImporterLaws TableImporter.
Proof.
  split; simpl.
  - intros b i. by destruct (decide (b = [])).
  - intros b i. by destruct (decide (b = [])).
  - done.
  - done.
  - intros [| fd [| ? ?]] i; simpl; [done | | done]. by destruct (fd =? -1).
  - intros [| fd [| ? ?]] i; simpl; done.
  - intros fd i. by destruct (fd =? -1).
  - intros fd i. by destruct (fd =? -1).
Qed.

#[export] Instance ListQueue : RequestQueue (list Z) := {
  fmq_read n q := if n <=? Z.of_nat (length q) then (Some (take (Z.to_nat n) q), drop (Z.to_nat n) q) else (None, q)
}.

(** A device that accepts everything. *)
Definition example_device : Camera3Device ToyMetadata := mkCamera3Device 0 (fun _ ss => (0, ss)) (fun _ => Some []) (fun _ => 0) 0 true.

Definition refusing_device : Camera3Device ToyMetadata := mkCamera3Device 0 (fun _ ss => (0, ss)) (fun _ => Some []) (fun _ => -22) 0 true.

Definition example_info : DeviceInfo := mkDeviceInfo 0x305 (Some 1) None false ["2"].

Definition example_config (ids : list Z) : StreamConfiguration :=
  mkStreamConfiguration ((fun id => mkStream id STREAM_OUTPUT 640 480 35 0 0 0 "") <$> ids) 0 [] 1.

Definition no_input : StreamBuffer := mkStreamBuffer (-1) 0 [] BUFFER_OK [] [].

Definition example_request (ps : list PhysicalCameraSetting) : CaptureRequest :=
  mkCaptureRequest 5 0 [0] no_input [mkStreamBuffer 1 11 [90] BUFFER_OK [33] []] ps.

Definition example_start : option (Camera ToyMetadata TableImporter (list Z)) :=
  CameraDeviceSession_new example_device example_info false true true (mkTableImporter 100 [] []) [].

(** A session with stream 1 configured. *)
Definition example_camera : option (Camera ToyMetadata TableImporter (list Z)) :=
  c ← example_start;
  '(_, c) ← configureStreams example_device (example_config [1]) c;
  Some c.

Definition camera_default : Camera ToyMetadata TableImporter (list Z) :=
  mkCamera (mkCameraDeviceSession false false false false 0 false false false 1 ∅ ∅ [] 0 ∅ ∅ ∅ ∅ ∅ [] (mkResultBatcher [] [] 0 []))
    (mkTableImporter 0 [] []) [] [].

Definition example_opened : Camera ToyMetadata TableImporter (list Z) := default camera_default example_start.
Definition example_configured : Camera ToyMetadata TableImporter (list Z) := default camera_default example_camera.

Definition ops_open_close : list (Camera3Device ToyMetadata * CameraOp (M := ToyMetadata)) :=
  [(example_device, OP_configureStreams (example_config [1])); (example_device, OP_processCaptureRequest [example_request []] []);
   (example_device, OP_close)].

Definition camera_world : World BoundedQueue := mkWorld (mkBoundedQueue 64 []) [] [].

Example camera_handles_conserved_witness :
  exists c w, camera_ops (NotifyMsg_shutter 0 0) ops_open_close (example_opened, camera_world) = Some (c, w) /\
    mClosed (cam_session c) = true /\ length (cam_device c) = 3%nat /\
    (forall h, occ h (hi_imported (cam_importer c)) = occ h (hi_imported (mkTableImporter 100 [] []))).
Proof.
  destruct (camera_ops (NotifyMsg_shutter 0 0) ops_open_close (example_opened, camera_world)) as [[c w] |] eqn:E.
  - exists c, w. split; [done |]. pose proof (eq_refl (camera_ops (NotifyMsg_shutter 0 0) ops_open_close (example_opened, camera_world))) as E'.
    rewrite E in E' at 1. vm_compute in E'. injection E' as Ec Ew.
    assert (mClosed (cam_session c) = true /\ mDisconnected (cam_session c) = false /\ length (cam_device c) = 3%nat) as (K1 & K2 & K3)
      by (rewrite Ec; done).
    split_and!; [done | done |].
    refine (proj1 (proj2 (camera_handles_conserved (NotifyMsg_shutter 0 0) example_device example_info false true true (mkTableImporter 100 [] []) []
      example_opened c camera_world w ops_open_close _ E)) K1 K2). vm_compute. reflexivity.
  - exfalso. vm_compute in E. discriminate E.
Defined.

Lemma example_fresh : (forall k, k ∈ request_keys (example_request []) -> mInflightBuffers (cam_session example_configured) !! k = None) /\
  mInflightAETriggerOverrides (cam_session example_configured) !! u32 (rq_frameNumber (example_request [])) = None.
Proof. split; [| vm_compute; reflexivity]. intros k Hk. apply list_elem_of_singleton in Hk as ->. vm_compute. reflexivity. Qed.

Example request_bookkeeping_witness :
  exists st c', processOneCaptureRequest refusing_device (example_request []) example_configured = Some (st, c') /\
    request_outcome (example_request []) st example_configured c'.
Proof. apply request_bookkeeping; [apply example_fresh | apply example_fresh | reflexivity]. Defined.

Definition example_hal_result : camera3_capture_result ToyMetadata :=
  mkHalResult 5 None [mkCamera3Buffer 1 None BUFFER_OK (-1) 44] None 0 [].

Definition example_submitted : Camera ToyMetadata TableImporter (list Z) :=
  match processOneCaptureRequest example_device (example_request []) example_configured with Some (_, c) => c | None => camera_default end.

Example request_result_roundtrip_witness :
  exists res s', constructCaptureResult example_hal_result (cam_session example_submitted) = Some (Some res, s') /\
    mInflightBuffers s' = mInflightBuffers (cam_session example_configured) /\ map releaseFence (outputBuffers res) = [[44]].
Proof.
  destruct (request_result_roundtrip example_device (example_request []) example_hal_result example_configured example_submitted)
    as (res & s' & E & Em & _ & _ & Ef & _).
  - apply example_fresh.
  - apply example_fresh.
  - reflexivity.
  - intros b Hb. apply list_elem_of_singleton in Hb as ->. vm_compute. reflexivity.
  - vm_compute. reflexivity.
  - reflexivity.
  - intros id. reflexivity.
  - discriminate.
  - exists res, s'. split; [exact E |]. split; [exact Em | exact Ef].
Defined.

(** ** Cases the code does not cover *)

(** Individual settings that are corrupt end the request without taking its
    buffers out of flight: its fence stays open and no configuration is
    accepted any more. *)
Theorem corrupt_physical_settings_stick :
  match processOneCaptureRequest example_device (example_request [mkPhysicalCameraSetting 0 "2" [7; 7]]) example_configured with
  | Some (st, c) =>
      st = CAM_ILLEGAL_ARGUMENT /\ hi_fences (cam_importer c) = [33] /\
      (fun x => x.1) <$> configureStreams example_device (example_config [1]) c = Some (CAM_INTERNAL_ERROR, [])
  | None => False
  end.
Proof. vm_compute. done. Qed.

(** A disconnected session is closed without freeing its buffers, and closing
    it afterwards does nothing. *)
Theorem disconnect_leaks_buffers :
  (fun cw => (mClosed (cam_session cw.1), hi_imported (cam_importer cw.1))) <$>
    camera_ops (NotifyMsg_shutter 0 0)
      [(example_device, OP_processCaptureRequest [example_request []] []); (example_device, OP_disconnect); (example_device, OP_close);
       (example_device, OP_destroy)]
      (example_configured, camera_world) = Some (true, [100]).
Proof. vm_compute. reflexivity. Qed.

(** A request with an empty buffer for a stream that is not configured creates
    the stream without a cache; even if the device refuses the request, the
    next configuration throws. *)
Theorem unknown_stream_ends_process :
  match processOneCaptureRequest refusing_device
          (mkCaptureRequest 5 0 [0] no_input [mkStreamBuffer 9 0 [] BUFFER_OK [] []] []) example_configured with
  | Some (st, c) => st = CAM_ILLEGAL_ARGUMENT /\ configureStreams example_device (example_config [1]) c = None
  | None => False
  end.
Proof. vm_compute. done. Qed.

(** Individual settings through the queue after one that came in the request
    are read into an element that does not exist. *)
Theorem mixed_physical_settings_out_of_bounds :
  processOneCaptureRequest example_device
    (example_request [mkPhysicalCameraSetting 0 "2" [0]; mkPhysicalCameraSetting 1 "2" []]) example_configured = None.
Proof. vm_compute. reflexivity. Qed.
