(* ===== verification/CameraDevice.v ===== *)
(** * The camera device (src/camera/aidl/device/CameraDevice.cpp)

    A [CameraDevice] stands for one camera of the vendor's module: it answers
    questions about the camera from the module and opens sessions, at most one
    at a time.  The module's answers at the time of a call are the record
    [CameraModule]; sessions live in [CameraHal], with a flag that says whether
    somebody still holds the session, since the device keeps only a weak
    pointer. *)

From Stdlib Require Import Ascii String.
From S2P Require Import Prelude Text CameraTypes CameraBatcher CameraDelivery CameraBatchSystem CameraSession CameraBookkeeping CameraRequests.

(** ** [strtol] and [atoi] *)

(** The value of a character as a digit of some base. *)
Definition digit_of (c : ascii) : option Z :=
  let n := Z.of_nat (nat_of_ascii c) in
  if (48 <=? n) && (n <=? 57) then Some (n - 48)
  else if (97 <=? n) && (n <=? 122) then Some (n - 87)
  else if (65 <=? n) && (n <=? 90) then Some (n - 55)
  else None.

Definition digit_in (base : Z) (c : ascii) : option Z :=
  match digit_of c with
  | Some d => if d <? base then Some d else None
  | None => None
  end.

Fixpoint scan_digits (base : Z) (s : list ascii) (acc : Z) : Z * list ascii :=
  match s with
  | [] => (acc, [])
  | c :: t => match digit_in base c with Some d => scan_digits base t (acc * base + d) | None => (acc, s) end
  end.

(** Base 0 takes the base from the prefix. *)
Definition strtol_base (base : Z) (s : list ascii) : Z * list ascii :=
  if base =? 0 then
    match s with
    | "0"%char :: x :: h :: _ =>
        if (Ascii.eqb x "x" || Ascii.eqb x "X") && bool_decide (is_Some (digit_in 16 h)) then (16, drop 2 s) else (8, s)
    | "0"%char :: _ => (8, s)
    | _ => (10, s)
    end
  else (base, s).

Definition LONG_MAX : Z := 2 ^ 63 - 1.
Definition LONG_MIN : Z := - 2 ^ 63.

(** The value, whether it was out of range, and the text at [end]; without a
    digit nothing is consumed. *)
Definition strtol (base : Z) (s : list ascii) : Z * bool * list ascii :=
  let '(neg, t) := take_sign (skip_space s) in
  let '(b, t) := strtol_base base t in
  match t with
  | c :: _ =>
      if bool_decide (is_Some (digit_in b c)) then
        let '(n, rest) := scan_digits b t 0 in
        let z := if (neg : bool) then - n else n in
        if z <? LONG_MIN then (LONG_MIN, true, rest) else if LONG_MAX <? z then (LONG_MAX, true, rest) else (z, false, rest)
      else (0, false, s)
  | [] => (0, false, s)
  end.

Definition atoi (s : string) : Z := i32 (strtol 10 (String.list_ascii_of_string s)).1.1.

(** [c_str()]: what a function on C strings sees of a string. *)
Fixpoint c_chars (s : list ascii) : list ascii :=
  match s with
  | [] => []
  | c :: t => if Ascii.eqb c zero then [] else c :: c_chars t
  end.

(** ** The module *)

Definition CAMERA_MODULE_API_VERSION_2_4 : Z := 0x204.
Definition CAMERA_MODULE_API_VERSION_2_5 : Z := 0x205.

Definition ENODEV : Z := 19.
Definition EBUSY : Z := 16.
Definition EINVAL : Z := 22.
Definition ENOSYS : Z := 38.
Definition EUSERS : Z := 87.

Record camera_info (M : Type) := mkCameraInfo {
  ci_device_version : Z;
  ci_resource_cost : Z;
  ci_conflicting_devices : list string;
  ci_static_camera_characteristics : option M;
  ci_device_info : DeviceInfo   (* what a session reads of the characteristics *)
}.
Arguments mkCameraInfo {M} _ _ _ _ _.
Arguments ci_device_version {M} _.
Arguments ci_resource_cost {M} _.
Arguments ci_conflicting_devices {M} _.
Arguments ci_static_camera_characteristics {M} _.
Arguments ci_device_info {M} _.

Record camera_stream := mkCameraStream {
  cst_stream_type : StreamType;
  cst_width : Z;
  cst_height : Z;
  cst_format : Z;
  cst_data_space : Z;
  cst_usage : Z;
  cst_physical_camera_id : string;
  cst_rotation : Z
}.

(** The answers of the module; a device that was opened comes with the version
    it reports. *)
Record CameraModule (M : Type) := mkCameraModule {
  cm_getModuleApiVersion : Z;
  cm_getDeviceVersion : Z -> Z;
  cm_getCameraInfo : Z -> Z * camera_info M;
  cm_getPhysicalCameraInfo : Z -> Z * option M;
  cm_isStreamCombinationSupported : Z -> Z -> list camera_stream -> Z;
  cm_isSetTorchModeSupported : bool;
  cm_setTorchMode : string -> bool -> Z;
  cm_open : string -> Z * (Z * Camera3Device M)
}.
Arguments mkCameraModule {M} _ _ _ _ _ _ _ _.
Arguments cm_getModuleApiVersion {M} _.
Arguments cm_getDeviceVersion {M} _ _.
Arguments cm_getCameraInfo {M} _ _.
Arguments cm_getPhysicalCameraInfo {M} _ _.
Arguments cm_isStreamCombinationSupported {M} _ _ _ _.
Arguments cm_isSetTorchModeSupported {M} _.
Arguments cm_setTorchMode {M} _ _ _.
Arguments cm_open {M} _ _.

(** ** The device *)

Record CameraDevice := mkCameraDevice {
  mCameraId : string;
  mCameraIdInt : Z;
  cd_mDeviceVersion : Z;
  cd_mInitFail : bool;
  cd_mDisconnected : bool;
  mSession : option nat;
  mCameraDeviceNames : list (string * string)
}.
#[export] Instance CameraDevice_eta : Record_eta CameraDevice :=
  fun d => mkCameraDevice (mCameraId d) (mCameraIdInt d) (cd_mDeviceVersion d) (cd_mInitFail d) (cd_mDisconnected d) (mSession d) (mCameraDeviceNames d).

Definition kDeviceVersion : string := "1.1".

(** Convert the statuses of the module. *)
Definition getAidlStatus (status : Z) : CameraStatus :=
  if status =? 0 then CAM_OK
  else if status =? - ENOSYS then CAM_OPERATION_NOT_SUPPORTED
  else if status =? - EBUSY then CAM_IN_USE
  else if status =? - EUSERS then CAM_MAX_CAMERAS_IN_USE
  else if status =? - ENODEV then CAM_INTERNAL_ERROR
  else if status =? - EINVAL then CAM_ILLEGAL_ARGUMENT
  else CAM_INTERNAL_ERROR.

Definition device_initStatus (d : CameraDevice) : CameraStatus :=
  if cd_mInitFail d then CAM_INTERNAL_ERROR else if cd_mDisconnected d then CAM_DISCONNECTED else CAM_OK.

Definition openInjectionSession : CameraStatus := CAM_OPERATION_NOT_SUPPORTED.
Definition turnOnTorchWithStrengthLevel : CameraStatus := CAM_OPERATION_NOT_SUPPORTED.
Definition getTorchStrengthLevel : CameraStatus := CAM_OPERATION_NOT_SUPPORTED.

Record CameraResourceCost := mkCameraResourceCost { resourceCost : Z; conflictingDevices : list string }.

Section device.
Context {M I R Q : Type} `{CameraMetadataLib M} `{MetadataEntries M} `{HandleImporter I} `{RequestQueue R} `{MessageQueue Q}.

Definition CameraDevice_new (m : CameraModule M) (cameraId : string) (names : list (string * string)) : CameraDevice :=
  let id := atoi cameraId in
  let version := cm_getDeviceVersion m id in
  mkCameraDevice cameraId id version ((id <? 0) || (version <? CAMERA_DEVICE_API_VERSION_3_2)) false None names.

(** *** Questions

    An out parameter is an option: [None] is a null pointer, otherwise it holds
    the old and the new contents. *)

Definition getCameraCharacteristics (m : CameraModule M) (d : CameraDevice) (ret : option (list Z)) : CameraStatus * option (list Z) :=
  match ret with
  | None => (CAM_ILLEGAL_ARGUMENT, None)
  | Some old =>
      if decide (device_initStatus d = CAM_OK) then
        let '(rc, info) := cm_getCameraInfo m (mCameraIdInt d) in
        if rc =? DEV_OK then (CAM_OK, Some (convertToAidl_metadata (ci_static_camera_characteristics info) old))
        else (CAM_INTERNAL_ERROR, Some old)
      else (device_initStatus d, Some old)
  end.

(** The check of a physical camera id: [None] when it is refused. *)
Definition parse_physical_id (physicalCameraId : string) : option Z :=
  let '(id, erange, rest) := strtol 0 (c_chars (String.list_ascii_of_string physicalCameraId)) in
  if (2 ^ 31 - 1 <? id) || (erange && (id =? LONG_MAX)) || (id <? - 2 ^ 31) || (erange && (id =? LONG_MIN)) || negb (bool_decide (rest = []))
  then None else Some id.

Definition getPhysicalCameraCharacteristics (m : CameraModule M) (d : CameraDevice) (physicalCameraId : string) (ret : option (list Z)) :
    CameraStatus * option (list Z) :=
  match ret with
  | None => (CAM_ILLEGAL_ARGUMENT, None)
  | Some old =>
      if decide (device_initStatus d = CAM_OK) then
        if cm_getModuleApiVersion m <? CAMERA_MODULE_API_VERSION_2_5 then (CAM_INTERNAL_ERROR, Some old)
        else
          match parse_physical_id physicalCameraId with
          | None => (CAM_ILLEGAL_ARGUMENT, Some old)
          | Some id =>
              let '(rc, info) := cm_getPhysicalCameraInfo m id in
              if rc =? DEV_OK then (CAM_OK, Some (convertToAidl_metadata info old))
              else if rc =? - EINVAL then (CAM_ILLEGAL_ARGUMENT, Some old)
              else (CAM_INTERNAL_ERROR, Some old)
          end
      else (device_initStatus d, Some old)
  end.

(** The names of the devices that conflict, in the order the module gives. *)
Definition conflicting_names (names : list (string * string)) (ids : list string) : list string :=
  ids ≫= fun id => (filter (fun p => id = p.1) names).*2.

Definition getResourceCost (m : CameraModule M) (d : CameraDevice) (ret : option CameraResourceCost) : CameraStatus * option CameraResourceCost :=
  match ret with
  | None => (CAM_ILLEGAL_ARGUMENT, None)
  | Some old =>
      if decide (device_initStatus d = CAM_OK) then
        if CAMERA_MODULE_API_VERSION_2_4 <=? cm_getModuleApiVersion m then
          let '(rc, info) := cm_getCameraInfo m (mCameraIdInt d) in
          if rc =? DEV_OK then
            (CAM_OK, Some (mkCameraResourceCost (ci_resource_cost info) (conflicting_names (mCameraDeviceNames d) (ci_conflicting_devices info))))
          else (CAM_INTERNAL_ERROR, Some old)
        else (CAM_OK, Some (mkCameraResourceCost 100 []))
      else (device_initStatus d, Some old)
  end.

Definition to_camera_stream (st : Stream) : camera_stream :=
  mkCameraStream (st_streamType st) (u32 (st_width st)) (u32 (st_height st)) (st_format st) (st_dataSpace st) (u32 (st_usage st))
    (st_physicalCameraId st) (st_rotation st).

(** The answer is written through the pointer before anything is checked. *)
Definition isStreamCombinationSupported (m : CameraModule M) (d : CameraDevice) (cfg : StreamConfiguration) : CameraStatus * bool :=
  if cm_getModuleApiVersion m <? CAMERA_MODULE_API_VERSION_2_5 then (CAM_INTERNAL_ERROR, false)
  else
    let res := cm_isStreamCombinationSupported m (mCameraIdInt d) (u32 (sc_operationMode cfg)) (to_camera_stream <$> sc_streams cfg) in
    if res =? 0 then (CAM_OK, true)
    else if res =? - EINVAL then (CAM_OK, false)
    else if res =? - ENOSYS then (CAM_OPERATION_NOT_SUPPORTED, false)
    else (CAM_INTERNAL_ERROR, false).

(** The module is asked to switch the torch exactly if the second component is
    true. *)
Definition setTorchMode (m : CameraModule M) (d : CameraDevice) (on : bool) : CameraStatus * bool :=
  if negb (cm_isSetTorchModeSupported m) then (CAM_OPERATION_NOT_SUPPORTED, false)
  else if decide (device_initStatus d = CAM_OK) then (getAidlStatus (cm_setTorchMode m (mCameraId d) on), true)
  else (device_initStatus d, false).

(** *** Sessions *)

(** A session, the device object that opened it, and whether it is held. *)
Record SessionEntry := mkSessionEntry {
  se_camera : Camera M I R;
  se_world : World Q;
  se_device : nat;
  se_held : bool
}.

#[export] Instance SessionEntry_eta : Record_eta SessionEntry :=
  fun e => mkSessionEntry (se_camera e) (se_world e) (se_device e) (se_held e).

(** Successful opens of the module, and closings other than by a session. *)
Inductive ModuleCall := MOD_open (cameraId : string) | MOD_close (cameraId : string).

Record CameraHal := mkCameraHal {
  hal_devices : list CameraDevice;
  hal_sessions : list SessionEntry;
  hal_log : list ModuleCall
}.

#[export] Instance CameraHal_eta : Record_eta CameraHal := fun h => mkCameraHal (hal_devices h) (hal_sessions h) (hal_log h).

(** [mSession.lock()]. *)
Definition lock_session (d : CameraDevice) (h : CameraHal) : option (nat * SessionEntry) :=
  i ← mSession d;
  e ← hal_sessions h !! i;
  if se_held e then Some (i, e) else None.

Definition in_use (d : CameraDevice) (h : CameraHal) : bool :=
  match lock_session d h with
  | Some (_, e) => negb (isClosed (cam_session (se_camera e)))
  | None => false
  end.

(** What the constructor of a session is given besides the module. *)
Record SessionEnv := mkSessionEnv {
  en_freeBufEarly : bool;
  en_requestQueueValid : bool;
  en_resultQueueValid : bool;
  en_importer : I;
  en_queue : R;
  en_world : World Q
}.

(** The session takes the version from the device it is given. *)
Definition with_version (version : Z) (i : DeviceInfo) : DeviceInfo :=
  mkDeviceInfo version (di_partialResultCount i) (di_aeLockAvailable i) (di_hasBoostRange i) (di_physicalIds i).

(** The part of [open] that holds the lock; [k] is the device object. *)
Definition open_locked (m : CameraModule M) (env : SessionEnv) (k : nat) (d : CameraDevice) (h : CameraHal) : option (CameraStatus * option nat * CameraHal) :=
  if in_use d h then Some (CAM_IN_USE, None, h)
  else
    let '(res, (version, device)) := cm_open m (mCameraId d) in
    if negb (res =? DEV_OK) then Some (getAidlStatus res, None, h)
    else
      let h := h <| hal_log ::= fun l => l ++ [MOD_open (mCameraId d)] |> in
      if version <? CAMERA_DEVICE_API_VERSION_3_2 then
        Some (CAM_ILLEGAL_ARGUMENT, None, h <| hal_log ::= fun l => l ++ [MOD_close (mCameraId d)] |>)
      else
        let '(res, info) := cm_getCameraInfo m (mCameraIdInt d) in
        if negb (res =? DEV_OK) then
          Some (CAM_ILLEGAL_ARGUMENT, None, h <| hal_log ::= fun l => l ++ [MOD_close (mCameraId d)] |>)
        else
          c ← CameraDeviceSession_new device (with_version version (ci_device_info info)) (en_freeBufEarly env) (en_requestQueueValid env) (en_resultQueueValid env)
                (en_importer env) (en_queue env);
          if mInitFail (cam_session c) then
            '(_, c) ← destroy c;
            Some (CAM_INTERNAL_ERROR, None, h <| hal_sessions ::= fun l => l ++ [mkSessionEntry c (en_world env) k false] |>)
          else
            let i := length (hal_sessions h) in
            Some (CAM_OK, Some i,
              (h <| hal_sessions ::= fun l => l ++ [mkSessionEntry c (en_world env) k true] |>)
                 <| hal_devices ::= <[k := d <| mSession := Some i |>]> |>).

Definition camera_open (m : CameraModule M) (env : SessionEnv) (k : nat) (d : CameraDevice) (callback ret : bool) (h : CameraHal) :
    option (CameraStatus * option nat * CameraHal) :=
  if negb ret then Some (CAM_ILLEGAL_ARGUMENT, None, h)
  else if negb callback then Some (CAM_ILLEGAL_ARGUMENT, None, h)
  else if decide (device_initStatus d = CAM_OK) then open_locked m env k d h
  else Some (CAM_DISCONNECTED, None, h).

Definition setConnectionStatus (connected : bool) (k : nat) (d : CameraDevice) (h : CameraHal) : option CameraHal :=
  let d := d <| cd_mDisconnected := negb connected |> in
  let h := h <| hal_devices ::= <[k := d]> |> in
  match lock_session d h with
  | None => Some h
  | Some (i, e) =>
      if connected then Some h
      else
        '(_, c) ← disconnect (se_camera e);
        Some (h <| hal_sessions ::= <[i := e <| se_camera := c |>]> |>)
  end.

(** *** The service in use *)

Inductive HalOp :=
  | HAL_new (m : CameraModule M) (cameraId : string) (names : list (string * string))
  | HAL_open (m : CameraModule M) (env : SessionEnv) (k : nat) (callback ret : bool)
  | HAL_connection (k : nat) (connected : bool)
  | HAL_session (i : nat) (dev : Camera3Device M) (op : CameraOp (M := M))
  | HAL_release (i : nat).

(** [HAL_session] is a call or callback of a session that is held;
    [HAL_release] drops the last reference to a session, which runs its
    destructor.  Operations on objects that do not exist do nothing. *)
Definition hal_op (dflt : NotifyMsg) (op : HalOp) (h : CameraHal) : option CameraHal :=
  match op with
  | HAL_new m cameraId names => Some (h <| hal_devices ::= fun l => l ++ [CameraDevice_new m cameraId names] |>)
  | HAL_open m env k callback ret =>
      match hal_devices h !! k with
      | None => Some h
      | Some d => '(_, h) ← camera_open m env k d callback ret h; Some h
      end
  | HAL_connection k connected =>
      match hal_devices h !! k with
      | None => Some h
      | Some d => setConnectionStatus connected k d h
      end
  | HAL_session i dev op =>
      match hal_sessions h !! i with
      | Some e =>
          if se_held e then
            '(c, w) ← camera_op dflt dev op (se_camera e, se_world e);
            Some (h <| hal_sessions ::= <[i := e <| se_camera := c |> <| se_world := w |>]> |>)
          else Some h
      | None => Some h
      end
  | HAL_release i =>
      match hal_sessions h !! i with
      | Some e =>
          if se_held e then
            '(_, c) ← destroy (se_camera e);
            Some (h <| hal_sessions ::= <[i := e <| se_camera := c |> <| se_held := false |>]> |>)
          else Some h
      | None => Some h
      end
  end.

Fixpoint hal_ops (dflt : NotifyMsg) (ops : list HalOp) (h : CameraHal) : option CameraHal :=
  match ops with
  | [] => Some h
  | op :: ops => h ← hal_op dflt op h; hal_ops dflt ops h
  end.

Definition hal_start : CameraHal := mkCameraHal [] [] [].

End device.
Arguments SessionEntry : clear implicits.
Arguments CameraHal : clear implicits.
Arguments SessionEnv : clear implicits.

(** ** At most one open session per device object *)

Definition is_mod_open (c : ModuleCall) : bool := match c with MOD_open _ => true | MOD_close _ => false end.
Definition is_mod_close (c : ModuleCall) : bool := negb (is_mod_open c).

Section exclusive.
Context {M I R Q : Type} `{CameraMetadataLib M} `{MetadataEntries M} `{HandleImporterLaws I} `{RequestQueue R} `{MessageQueue Q}.
Implicit Types (c : Camera M I R) (e : SessionEntry M I R Q) (h : CameraHal M I R Q).

Definition entry_open e : bool := negb (mClosed (cam_session (se_camera e))).

Lemma safe_closed {A} (m : Cam (Camera M I R) A) (base : list Z) c c' (x : A) :
  safe m -> balanced base c -> m c = Some (x, c') -> mClosed (cam_session c') = mClosed (cam_session c).
Proof. intros Hs Hb Hr. destruct (Hs base c x c' Hb Hr) as [_ E]. by injection E. Qed.

Lemma destroy_closed (base : list Z) c c' u : session_inv base c -> destroy c = Some (u, c') -> mClosed (cam_session c') = true.
Proof.
  intros Hi Hr. unfold destroy in Hr. cam_bind Hr cl c1 E1. cam_unit E1. unfold isClosed in Hr.
  destruct (mClosed (cam_session c1)) eqn:E; [by cam_unit Hr |]. cam_bind Hr st c2 E2. cam_unit Hr.
  by destruct (close_inv base c1 c' st Hi E2) as (_ & ? & _).
Qed.

(** No operation opens a closed session again. *)
Lemma camera_op_closed (dflt : NotifyMsg) (dev : Camera3Device M) (op : CameraOp) (base : list Z) c c' (w w' : World Q) :
  session_inv base c -> camera_op dflt dev op (c, w) = Some (c', w') -> mClosed (cam_session c) = true -> mClosed (cam_session c') = true.
Proof.
  intros Hi Hr Hc.
  assert (forall A (m : Cam (Camera M I R) A), on_camera m (c, w) = Some (c', w') -> exists x, m c = Some (x, c')) as Hon.
  { intros A m E. unfold on_camera in E. cbn [fst snd] in E. destruct (m c) as [[x c1] |] eqn:Em; [| done]. cbn [mbind option_bind] in E. simplify_eq. by exists x. }
  destruct op; cbn [camera_op fst snd] in Hr; try (apply Hon in Hr as [x Hr]).
  - erewrite safe_closed; [exact Hc | apply safe_configureStreams | exact (si_balanced _ _ Hi) | exact Hr].
  - erewrite safe_closed; [exact Hc | apply safe_processCaptureRequest | exact (si_balanced _ _ Hi) | exact Hr].
  - erewrite (safe_closed (flush dev)); [exact Hc | unfold flush; safe_tac | exact (si_balanced _ _ Hi) | exact Hr].
  - erewrite (safe_closed (signalStreamFlush dev ids counter)); [exact Hc | unfold signalStreamFlush; safe_tac | exact (si_balanced _ _ Hi) | exact Hr].
  - by destruct (close_inv base c c' x Hi Hr) as (_ & ? & _).
  - unfold disconnect in Hr. cam_bind Hr u1 c1 E1. cam_unit E1. cam_bind Hr cl c2 E2. cam_unit E2. simpl in Hr. rewrite Hc in Hr. by cam_unit Hr.
  - by eapply destroy_closed.
  - unfold sProcessCaptureResult in Hr. destruct (prepare_result hl (cam_session c)) as [[res s1] |] eqn:E; [| done]. cbn [mbind option_bind] in Hr.
    destruct (prepare_result_cache _ _ _ _ E) as [_ Ef]. injection Ef as Ecl _ _.
    destruct res as [res |]; cbn [mbind option_bind] in Hr; [| simplify_eq/=; congruence].
    destruct (processCaptureResult res _ _) as [[rb w1] |]; [| done]. cbn [mbind option_bind] in Hr. simplify_eq/=. congruence.
  - unfold sNotify in Hr. destruct (negb _); [by simplify_eq/= |].
    destruct (notify _ _ _) as [[rb w1] |]; [| done]. cbn [mbind option_bind] in Hr. simplify_eq/=.
    by destruct (convertToAidl_notify msg dflt) as [? ? [] | ? ?].
Qed.

(** The invariant: sessions are well-formed, one that nobody holds is closed,
    an open one is the one its device points to, and every open of the module
    that was not undone made a session. *)
Record hal_inv h : Prop := {
  hi_sessions : forall i e, hal_sessions h !! i = Some e -> exists base, session_inv base (se_camera e);
  hi_held : forall i e, hal_sessions h !! i = Some e -> se_held e = false -> entry_open e = false;
  hi_pointed : forall i e, hal_sessions h !! i = Some e -> entry_open e = true ->
    exists d, hal_devices h !! se_device e = Some d /\ mSession d = Some i;
  hi_log : countb is_mod_open (hal_log h) = countb is_mod_close (hal_log h) + Z.of_nat (length (hal_sessions h))
}.

(** A session changes in place: it may close, and an open one stays held. *)
Lemma hal_inv_update h (i : nat) e e' (base : list Z) :
  hal_inv h -> hal_sessions h !! i = Some e -> session_inv base (se_camera e') -> se_device e' = se_device e ->
  (entry_open e' = true -> entry_open e = true) -> (se_held e' = false -> entry_open e' = false) ->
  hal_inv (h <| hal_sessions ::= <[i := e']> |>).
Proof.
  intros [H1' H2' H3' H4'] Hi Hb Hd Ho Hh. split; simpl.
  - intros j e1 Hj. destruct (decide (i = j)) as [<- | Hne].
    + rewrite list_lookup_insert_eq in Hj by (by eapply lookup_lt_Some). simplify_eq. by exists base.
    + rewrite list_lookup_insert_ne in Hj by done. by eapply H1'.
  - intros j e1 Hj. destruct (decide (i = j)) as [<- | Hne].
    + rewrite list_lookup_insert_eq in Hj by (by eapply lookup_lt_Some). by simplify_eq.
    + rewrite list_lookup_insert_ne in Hj by done. by eapply H2'.
  - intros j e1 Hj Hop. destruct (decide (i = j)) as [<- | Hne].
    + rewrite list_lookup_insert_eq in Hj by (by eapply lookup_lt_Some). simplify_eq. rewrite Hd. by apply H3'; [| apply Ho].
    + rewrite list_lookup_insert_ne in Hj by done. by eapply H3'.
  - by rewrite length_insert.
Qed.

(** A session is added; if it is open, no open session of the device existed
    and the device points to it. *)
Lemma hal_inv_add h (k : nat) (d d' : CameraDevice) e (base : list Z) (id : string) :
  hal_inv h -> hal_devices h !! k = Some d -> session_inv base (se_camera e) -> se_device e = k ->
  (se_held e = false -> entry_open e = false) ->
  d' = d \/ (mSession d' = Some (length (hal_sessions h)) /\ forall i e1, hal_sessions h !! i = Some e1 -> entry_open e1 = true -> se_device e1 <> k) ->
  (entry_open e = true -> mSession d' = Some (length (hal_sessions h))) ->
  hal_inv (mkCameraHal (<[k := d']> (hal_devices h)) (hal_sessions h ++ [e]) (hal_log h ++ [MOD_open id])).
Proof.
  intros [H1' H2' H3' H4'] Hk Hb Hd Hh Hpt Hop.
  assert (forall i e1, (hal_sessions h ++ [e]) !! i = Some e1 -> hal_sessions h !! i = Some e1 \/ (i = length (hal_sessions h) /\ e1 = e)) as Hl.
  { intros i e1 Hi. apply lookup_app_Some in Hi as [Hi | [Hlt Hi]]; [by left |]. right. apply list_lookup_singleton_Some in Hi as [? ->]. split; [lia | done]. }
  split; simpl.
  - intros i e1 [Hi | [_ ->]]%Hl; [by eapply H1' | by exists base].
  - intros i e1 [Hi | [_ ->]]%Hl; [by eapply H2' | done].
  - intros i e1 [Hi | [-> ->]]%Hl Ho.
    + destruct (H3' _ _ Hi Ho) as (d1 & Hd1 & Hs1). destruct (decide (se_device e1 = k)) as [Ek | Hne].
      * destruct Hpt as [-> | [_ Hno]]; [| by destruct (Hno _ _ Hi Ho)]. rewrite Ek in Hd1 |- *. simplify_eq.
        eexists. split; [apply list_lookup_insert_eq; by eapply lookup_lt_Some | done].
      * exists d1. by rewrite list_lookup_insert_ne by congruence.
    + exists d'. rewrite Hd, list_lookup_insert_eq by (by eapply lookup_lt_Some). auto.
  - rewrite !countb_app, length_app, H4'. change (countb is_mod_open [MOD_open id]) with 1. change (countb is_mod_close [MOD_open id]) with 0. simpl. lia.
Qed.

(** Changes of a device that keep its session. *)
Lemma hal_inv_device h (k : nat) (d d' : CameraDevice) :
  hal_inv h -> hal_devices h !! k = Some d -> mSession d' = mSession d -> hal_inv (h <| hal_devices ::= <[k := d']> |>).
Proof.
  intros [H1' H2' H3' H4'] Hk Hs. split; [done | done | | done]. simpl. intros i e Hi Ho. destruct (H3' i e Hi Ho) as (d1 & Hd1 & Hs1).
  destruct (decide (se_device e = k)) as [Ek | Hne].
  - exists d'. rewrite Ek in Hd1 |- *. rewrite list_lookup_insert_eq by (by eapply lookup_lt_Some). rewrite Hk in Hd1. injection Hd1 as <-. split; [done | congruence].
  - exists d1. by rewrite list_lookup_insert_ne by congruence.
Qed.

(** Opening and closing the module again. *)
Lemma hal_inv_undo h (id : string) : hal_inv h -> hal_inv (mkCameraHal (hal_devices h) (hal_sessions h) ((hal_log h ++ [MOD_open id]) ++ [MOD_close id])).
Proof. intros [H1' H2' H3' H4']. split; [done | done | done |]. simpl. rewrite !countb_app, H4'. unfold countb. simpl. lia. Qed.

Lemma lock_session_Some (d : CameraDevice) h (i : nat) e :
  lock_session d h = Some (i, e) <-> mSession d = Some i /\ hal_sessions h !! i = Some e /\ se_held e = true.
Proof.
  unfold lock_session. destruct (mSession d) as [j |]; cbn [mbind option_bind]; [| split; [done | by intros [? _]]].
  destruct (hal_sessions h !! j) as [e1 |] eqn:E; cbn [mbind option_bind]; [| split; [done | intros (? & ? & _); congruence]].
  destruct (se_held e1) eqn:Eh; split; [by intros [= <- <-] | intros (? & ? & _); congruence | done | intros (? & ? & ?); congruence].
Qed.

(** A device that is not in use has no open session. *)
Lemma not_in_use h (k : nat) (d : CameraDevice) :
  hal_inv h -> hal_devices h !! k = Some d -> in_use d h = false ->
  forall i e, hal_sessions h !! i = Some e -> entry_open e = true -> se_device e <> k.
Proof.
  intros Hinv Hk Hu i e Hi Ho <-. destruct (hi_pointed _ Hinv i e Hi Ho) as (d1 & Hd1 & Hs1). simplify_eq.
  unfold in_use in Hu. destruct (se_held e) eqn:Eh; [| by rewrite (hi_held _ Hinv i e Hi Eh) in Ho].
  rewrite (proj2 (lock_session_Some d h i e)) in Hu by done. unfold entry_open, isClosed in *. congruence.
Qed.

Lemma camera_open_inv (m : CameraModule M) (env : SessionEnv I R Q) (k : nat) (d : CameraDevice) (callback ret : bool) h h' x :
  hal_inv h -> hal_devices h !! k = Some d -> camera_open m env k d callback ret h = Some (x, h') -> hal_inv h'.
Proof.
  intros Hinv Hk Hr. unfold camera_open in Hr. destruct (negb ret); [by simplify_eq |]. destruct (negb callback); [by simplify_eq |].
  destruct (decide _); [| by simplify_eq]. unfold open_locked in Hr. destruct (in_use d h) eqn:Hu; [by simplify_eq |].
  pose proof (not_in_use h k d Hinv Hk Hu) as Hno. destruct (cm_open m (mCameraId d)) as [res [version device]].
  destruct (negb (res =? DEV_OK)); [by simplify_eq |]. cbv zeta in Hr.
  destruct (version <? _); [simplify_eq; by apply (hal_inv_undo h) |]. destruct (cm_getCameraInfo m (mCameraIdInt d)) as [res2 info].
  destruct (negb (res2 =? DEV_OK)); [simplify_eq; by apply (hal_inv_undo h) |].
  destruct (CameraDeviceSession_new _ _ _ _ _ _ _) as [c |] eqn:En; [| done]. cbn [mbind option_bind] in Hr.
  apply new_session_inv in En. destruct (mInitFail (cam_session c)).
  - destruct (destroy c) as [[u c1] |] eqn:Ed; [| done]. cbn [mbind option_bind] in Hr. simplify_eq.
    pose proof (destroy_closed _ _ _ _ En Ed) as Hc. apply destroy_inv with (base := hi_imported (en_importer env)) in Ed; [| done].
    simpl. rewrite <- (list_insert_id (hal_devices h) k d Hk) at 1.
    eapply (hal_inv_add h k d d); [done | done | exact Ed | done | | by left |]; unfold entry_open; simpl; by rewrite Hc.
  - simplify_eq. simpl. eapply (hal_inv_add h k d); [done | done | exact En | done | done | by right | done].
Qed.

Lemma hal_op_inv (dflt : NotifyMsg) (op : HalOp) h h' : hal_inv h -> hal_op dflt op h = Some h' -> hal_inv h'.
Proof.
  intros Hinv Hr. destruct op as [m id names | m env k cb ret | k connected | i dev op | i]; cbn [hal_op] in Hr.
  - simplify_eq. destruct Hinv as [H1' H2' H3' H4']. split; [done | done | | done]. simpl. intros i e Hi Ho.
    destruct (H3' i e Hi Ho) as (d & Hd & Hs). exists d. by rewrite (lookup_app_l_Some _ _ _ _ Hd).
  - destruct (hal_devices h !! k) as [d |] eqn:Hk; [| by simplify_eq].
    destruct (camera_open m env k d cb ret h) as [[x h1] |] eqn:E; [| done]. cbn [mbind option_bind] in Hr. simplify_eq. by eapply camera_open_inv.
  - destruct (hal_devices h !! k) as [d |] eqn:Hk; [| by simplify_eq]. unfold setConnectionStatus in Hr.
    set (d1 := d <| cd_mDisconnected := negb connected |>) in *. set (h1 := h <| hal_devices ::= <[k := d1]> |>) in *.
    assert (hal_inv h1) as Hinv1 by (by eapply (hal_inv_device h k d d1)). clearbody h1. clear Hinv.
    destruct (lock_session d1 h1) as [[i e] |] eqn:El; [| by simplify_eq]. apply lock_session_Some in El as (_ & Hi & Hh).
    destruct connected; [by simplify_eq |]. destruct (disconnect (se_camera e)) as [[u c] |] eqn:Ed; [| done]. cbn [mbind option_bind] in Hr. simplify_eq.
    destruct (hi_sessions _ Hinv1 i e Hi) as [base Hb]. apply (hal_inv_update h1 i e _ base); [done | done | by eapply disconnect_inv | done | | ].
    + unfold disconnect in Ed. cam_bind Ed u1 c1 E1. cam_unit E1. cam_bind Ed cl c2 E2. cam_unit E2. simpl in Ed. unfold entry_open. simpl.
      destruct (mClosed (cam_session (se_camera e))) ; [by cam_unit Ed | done].
    + simpl. congruence.
  - destruct (hal_sessions h !! i) as [e |] eqn:Hi; [| by simplify_eq]. destruct (se_held e) eqn:Hh; [| by simplify_eq].
    destruct (camera_op dflt dev op (se_camera e, se_world e)) as [[c w] |] eqn:E; [| done]. cbn [mbind option_bind] in Hr. simplify_eq.
    destruct (hi_sessions _ Hinv i e Hi) as [base Hb]. apply (hal_inv_update h i e _ base); [done | done | | done | | ].
    + exact (camera_op_inv dflt dev op base (se_camera e, se_world e) (c, w) Hb E).
    + unfold entry_open. simpl. intros Ho. destruct (mClosed (cam_session (se_camera e))) eqn:Ec; [| done].
      by rewrite (camera_op_closed dflt dev op base _ c _ w Hb E Ec) in Ho.
    + simpl. congruence.
  - destruct (hal_sessions h !! i) as [e |] eqn:Hi; [| by simplify_eq]. destruct (se_held e) eqn:Hh; [| by simplify_eq].
    destruct (destroy (se_camera e)) as [[u c] |] eqn:Ed; [| done]. cbn [mbind option_bind] in Hr. simplify_eq.
    destruct (hi_sessions _ Hinv i e Hi) as [base Hb]. pose proof (destroy_closed base _ _ _ Hb Ed) as Hc.
    apply (hal_inv_update h i e _ base); [done | done | by eapply destroy_inv | done | |]; unfold entry_open; simpl; by rewrite Hc.
Qed.

Lemma hal_ops_inv (dflt : NotifyMsg) (ops : list HalOp) h h' : hal_inv h -> hal_ops dflt ops h = Some h' -> hal_inv h'.
Proof.
  revert h. induction ops as [| op ops IH]; intros h Hi Hr; cbn [hal_ops] in Hr; [by simplify_eq |].
  destruct (hal_op dflt op h) as [h1 |] eqn:E; [| done]. cbn [mbind option_bind] in Hr. eapply IH; [by eapply hal_op_inv | done].
Qed.

Lemma hal_start_inv : hal_inv hal_start.
Proof. by split. Qed.

(** The closings by all sessions are the number of closed sessions. *)
Lemma session_closings (es : list (SessionEntry M I R Q)) :
  (forall i e, es !! i = Some e -> exists base, session_inv base (se_camera e)) ->
  sumZ ((fun e => closings (se_camera e)) <$> es) + countb entry_open es = Z.of_nat (length es).
Proof.
  induction es as [| e es IH]; intros Hs; [done |]. rewrite fmap_cons, sumZ_cons, countb_cons. cbn [length].
  destruct (Hs 0%nat e eq_refl) as [base [_ Hc _]]. rewrite Hc. unfold entry_open at 1.
  specialize (IH (fun i e' Hi => Hs (S i) e' Hi)). destruct (mClosed (cam_session (se_camera e))); simpl; lia.
Qed.

End exclusive.

(** C23. At most one session of a device is open: after any sequence of opens,
    session calls, releases, connection changes and new device objects, two
    open sessions of the same device object are the same session; while one is
    open, opening again is refused as in use without any effect; and the
    vendor's device has been opened exactly as often as it was closed and
    sessions are open, so that no path leaks or double-closes it. *)
Theorem camera_open_exclusive {M I R Q : Type} `{CameraMetadataLib M} `{MetadataEntries M} `{HandleImporterLaws I} `{RequestQueue R} `{MessageQueue Q}
    (dflt : NotifyMsg) (ops : list (HalOp (M := M) (I := I) (R := R) (Q := Q))) (h : CameraHal M I R Q)
    (Hrun : hal_ops dflt ops hal_start = Some h) :
  (forall i j e e', hal_sessions h !! i = Some e -> hal_sessions h !! j = Some e' -> entry_open e = true -> entry_open e' = true ->
     se_device e = se_device e' -> i = j) /\
  (forall k d i e m env, hal_devices h !! k = Some d -> hal_sessions h !! i = Some e -> entry_open e = true -> se_device e = k ->
     device_initStatus d = CAM_OK -> camera_open m env k d true true h = Some (CAM_IN_USE, None, h)) /\
  countb is_mod_open (hal_log h) =
    countb is_mod_close (hal_log h) + sumZ ((fun e => closings (se_camera e)) <$> hal_sessions h) + countb entry_open (hal_sessions h).
Proof.
  pose proof (hal_ops_inv dflt ops hal_start h hal_start_inv Hrun) as Hi. split_and!.
  - intros i j e e' He He' Ho Ho' Ed. destruct (hi_pointed _ Hi i e He Ho) as (d & Hd & Hs).
    destruct (hi_pointed _ Hi j e' He' Ho') as (d' & Hd' & Hs'). congruence.
  - intros k d i e m env Hk He Ho Hdk Hst. unfold camera_open. cbn [negb]. rewrite decide_True by done. unfold open_locked.
    destruct (in_use d h) eqn:Hu; [done |]. by destruct (not_in_use h k d Hi Hk Hu i e He Ho).
  - rewrite (hi_log _ Hi), <- (session_closings (hal_sessions h) (hi_sessions _ Hi)). lia.
Qed.

(** ** Examples *)

Definition example_camera_info : camera_info ToyMetadata := mkCameraInfo 0x305 50 ["1"] (Some []) example_info.

Definition example_module : CameraModule ToyMetadata :=
  mkCameraModule 0x205 (fun _ => 0x305) (fun _ => (0, example_camera_info)) (fun _ => (0, Some [])) (fun _ _ _ => 0) true (fun _ _ => 0)
    (fun _ => (0, (0x305, example_device))).

Definition example_env : SessionEnv TableImporter (list Z) BoundedQueue :=
  mkSessionEnv false true true (mkTableImporter 100 [] []) [] camera_world.

Notation ExampleHal := (CameraHal ToyMetadata TableImporter (list Z) BoundedQueue).

Definition open_close_open : list (HalOp (M := ToyMetadata) (I := TableImporter) (R := list Z) (Q := BoundedQueue)) :=
  [HAL_new example_module "0" []; HAL_open example_module example_env 0 true true; HAL_open example_module example_env 0 true true;
   HAL_session 0 example_device OP_close; HAL_open example_module example_env 0 true true].

Definition reopened : ExampleHal := default hal_start (hal_ops (NotifyMsg_shutter 0 0) open_close_open hal_start).

Example camera_open_exclusive_witness :
  hal_ops (NotifyMsg_shutter 0 0) open_close_open hal_start = Some reopened /\ length (hal_sessions reopened) = 2%nat /\
  countb is_mod_open (hal_log reopened) = 2 /\ countb entry_open (hal_sessions reopened) = 1 /\
  (forall i j e e', hal_sessions reopened !! i = Some e -> hal_sessions reopened !! j = Some e' -> entry_open e = true -> entry_open e' = true ->
     se_device e = se_device e' -> i = j).
Proof.
  assert (hal_ops (NotifyMsg_shutter 0 0) open_close_open hal_start = Some reopened) as E by (vm_compute; reflexivity).
  split; [exact E |]. split; [vm_compute; reflexivity |]. split; [vm_compute; reflexivity |]. split; [vm_compute; reflexivity |].
  exact (proj1 (camera_open_exclusive (NotifyMsg_shutter 0 0) open_close_open reopened E)).
Defined.

(** Two device objects for the same camera do not know of each other: both
    open a session of it. *)
Theorem device_objects_share_camera : exists h : ExampleHal,
  hal_ops (NotifyMsg_shutter 0 0)
    [HAL_new example_module "0" []; HAL_new example_module "0" []; HAL_open example_module example_env 0 true true;
     HAL_open example_module example_env 1 true true] hal_start = Some h /\
  countb entry_open (hal_sessions h) = 2 /\ hal_log h = [MOD_open "0"; MOD_open "0"].
Proof. eexists. split; [vm_compute; reflexivity |]. split; vm_compute; reflexivity. Qed.

(** A disconnected session keeps its device object from opening until the
    camera is reported connected again; then it opens. *)
Example reconnect_opens : exists h : ExampleHal,
  hal_ops (NotifyMsg_shutter 0 0)
    [HAL_new example_module "0" []; HAL_open example_module example_env 0 true true; HAL_connection 0 false;
     HAL_open example_module example_env 0 true true; HAL_connection 0 true; HAL_open example_module example_env 0 true true] hal_start = Some h /\
  length (hal_sessions h) = 2%nat /\ countb entry_open (hal_sessions h) = 1.
Proof. eexists. split; [vm_compute; reflexivity |]. split; vm_compute; reflexivity. Qed.

(** ** Physical camera ids *)

Lemma dec_digits_head (fuel : nat) (z : Z) (acc : list ascii) :
  0 < z < 10 ^ Z.of_nat (S fuel) -> exists d rest, dec_digits (S fuel) z acc = digit d :: rest /\ 0 < d < 10.
Proof.
  revert z acc. induction fuel as [| fuel IH]; intros z acc Hz; cbn [dec_digits]; destruct (Z.ltb_spec z 10); try (exists z, acc; split; [done | lia]).
  - change (10 ^ Z.of_nat 1) with 10 in Hz. lia.
  - rewrite Nat2Z.inj_succ, Z.pow_succ_r in Hz by lia. apply IH. split; [apply Z.div_str_pos; lia | apply Z.div_lt_upper_bound; lia].
Qed.

Lemma digit_of_digit (base d : Z) : 0 <= d < 10 -> d < base -> digit_in base (digit d) = Some d.
Proof.
  intros Hd Hb. unfold digit_in, digit_of. rewrite digit_code by done. rewrite Z2Nat.id by lia.
  destruct (_ && _) eqn:E; [| lia]. replace (48 + d - 48) with d by lia. destruct (Z.ltb_spec d base); [done | lia].
Qed.

Lemma scan_digits_digits (ds : list Z) (acc : Z) :
  Forall (fun d => 0 <= d < 10) ds -> scan_digits 10 (map digit ds) acc = (fold_left (fun a x => 10 * a + x) ds acc, []).
Proof.
  intros Hd. revert acc. induction Hd as [| d ds Hd _ IH]; intros acc; [done |]. cbn [map scan_digits fold_left].
  rewrite digit_of_digit by lia. rewrite IH. by rewrite (Z.mul_comm acc 10).
Qed.

Lemma strtol_base_digit (base d : Z) (s : list ascii) : base = 0 \/ base = 10 -> 0 < d < 10 -> strtol_base base (digit d :: s) = (10, digit d :: s).
Proof.
  intros [-> | ->] Hd; [| done]. assert (d = 1 \/ d = 2 \/ d = 3 \/ d = 4 \/ d = 5 \/ d = 6 \/ d = 7 \/ d = 8 \/ d = 9) as Hc by lia.
  by destruct Hc as [-> | [-> | [-> | [-> | [-> | [-> | [-> | [-> | ->]]]]]]]].
Qed.

(** Reading a number that was printed, with base 10 or a base from the prefix. *)
Lemma strtol_to_text (base z : Z) : base = 0 \/ base = 10 -> is_i64 z -> strtol base (to_string_i64 z) = (z, false, []).
Proof.
  intros Hbase Hz. destruct (decide (z = 0)) as [-> | Hnz]; [by destruct Hbase as [-> | ->] |].
  destruct (to_string_i64_digits z Hz) as (ds & Hne & F & V & E).
  assert (exists d ds', ds = d :: ds' /\ 0 < d < 10) as (d & ds' & -> & Hd).
  { destruct ds as [| d ds']; [done |]. exists d, ds'. split; [done |]. apply Forall_cons in F as [Fd _]. unfold is_i64 in Hz.
    destruct (dec_digits_head 18 (Z.abs z) []) as (d0 & rest & Eh & Hd0); [simpl; lia |].
    assert (digit d0 = digit d) as Ed.
    { unfold to_string_i64 in E. destruct (Z.ltb_spec z 0).
      - rewrite Z.abs_neq in Eh by lia. rewrite Eh in E. simpl in E. congruence.
      - rewrite Z.abs_eq in Eh by lia. rewrite Eh in E. simpl in E. congruence. }
    apply (f_equal digit_value) in Ed. rewrite !digit_value_digit in Ed by lia. injection Ed as ->. lia. }
  assert (forall neg : bool, z = (if neg then - Z.abs z else Z.abs z) ->
    (match digit d :: map digit ds' with
     | c :: _ => if bool_decide (is_Some (digit_in 10 c)) then
         let '(n, rest) := scan_digits 10 (digit d :: map digit ds') 0 in
         let z := if neg then - n else n in
         if z <? LONG_MIN then (LONG_MIN, true, rest) else if LONG_MAX <? z then (LONG_MAX, true, rest) else (z, false, rest)
       else (0, false, to_string_i64 z)
     | [] => (0, false, to_string_i64 z) end) = (z, false, [])) as Hfin.
  { intros neg Ez. rewrite digit_of_digit, bool_decide_true by (eauto; lia).
    change (digit d :: map digit ds') with (map digit (d :: ds')). rewrite scan_digits_digits, V by done. cbv zeta. rewrite <- Ez.
    unfold is_i64, LONG_MIN, LONG_MAX in *. destruct (Z.ltb_spec z (- 2 ^ 63)); [lia |]. destruct (Z.ltb_spec (2 ^ 63 - 1) z); [lia | done]. }
  unfold strtol. destruct (Z.ltb_spec z 0) as [Hn | Hn].
  - assert (take_sign (skip_space (to_string_i64 z)) = (true, digit d :: map digit ds')) as -> by (by rewrite E).
    rewrite strtol_base_digit by done. apply (Hfin true). lia.
  - assert (take_sign (skip_space (to_string_i64 z)) = (false, digit d :: map digit ds')) as ->.
    { rewrite E. cbn [app map skip_space]. rewrite digit_not_space by lia. cbn [take_sign]. by rewrite digit_not_minus, digit_not_plus by lia. }
    rewrite strtol_base_digit by done. apply (Hfin false). lia.
Qed.

Lemma to_string_no_zero (z : Z) : is_i64 z -> c_chars (to_string_i64 z) = to_string_i64 z.
Proof.
  intros Hz. assert (forall s, Forall (fun c => Ascii.eqb c zero = false) s -> c_chars s = s) as Hc.
  { induction 1 as [| c s Hs _ IH]; [done |]. simpl. by rewrite Hs, IH. }
  apply Hc. destruct (to_string_i64_digits z Hz) as (ds & _ & F & _ & ->). apply Forall_app. split; [destruct (z <? 0); by repeat constructor |].
  apply Forall_forall. intros c (d & -> & Hd)%list_elem_of_fmap. eapply Forall_forall in F; [| done].
  apply Ascii.eqb_neq. intros E. apply (f_equal nat_of_ascii) in E. rewrite digit_code in E by done. change (nat_of_ascii zero) with 0%nat in E. lia.
Qed.

Lemma atoi_to_text (z : Z) : is_i32 z -> atoi (to_text z) = z.
Proof.
  intros Hz. unfold atoi, to_text. rewrite String.list_ascii_of_string_of_list_ascii, strtol_to_text by (unfold is_i32, is_i64 in *; auto; lia).
  by apply i32_id.
Qed.

(** The number of a physical camera, printed, is the one the module is asked
    for; the empty text counts as camera 0. *)
Theorem physical_id_roundtrip (z : Z) :
  is_i32 z -> parse_physical_id (to_text z) = Some z /\ parse_physical_id "" = Some 0.
Proof.
  intros Hz. split; [| done]. unfold parse_physical_id, to_text. rewrite String.list_ascii_of_string_of_list_ascii.
  assert (is_i64 z) as Hz' by (unfold is_i32, is_i64 in *; lia). rewrite to_string_no_zero, strtol_to_text by auto. cbn [andb].
  unfold is_i32 in Hz. destruct (Z.ltb_spec (2 ^ 31 - 1) z); [lia |]. destruct (Z.ltb_spec z (- 2 ^ 31)); [lia |]. done.
Qed.
