(* ===== verification/CameraProvider.v ===== *)
(** * The camera provider (src/camera/aidl/provider/CameraProvider.cpp)

    The provider loads the vendor's camera module, keeps the names of the
    cameras and their statuses, tells its client about cameras that come and
    go, and hands out device objects by name.  Built-in ("legacy") cameras are
    found when it starts; the others are external and only reported by
    callback.

    Operations are computations over the provider and the log of the calls it
    makes; [None] is the end of the process by an exception or through a null
    pointer.  What the module answers is a parameter. *)

From Stdlib Require Import Ascii String.
From S2P Require Import Prelude Text CameraTypes CameraSession CameraBookkeeping CameraRequests CameraDevice.

(** ** Sorted vectors

    [android::SortedVector]: the elements in strictly ascending order. *)

Class SortedVector (A : Type) := {
  sv : Type;
  sv_empty : sv;
  sv_add : A -> sv -> sv;
  sv_remove : A -> sv -> sv;
  sv_list : sv -> list A
}.
Arguments sv _ {_}.

Class SortedVectorLaws (A : Type) (le : relation A) `{SortedVector A} := {
  sv_list_empty : sv_list sv_empty = [];
  sv_elem_add : forall x y v, y ∈ sv_list (sv_add x v) <-> y = x \/ y ∈ sv_list v;
  sv_elem_remove : forall x y v, y ∈ sv_list (sv_remove x v) <-> y <> x /\ y ∈ sv_list v;
  sv_nodup : forall v, NoDup (sv_list v);
  sv_sorted : forall v, StronglySorted le (sv_list v)
}.

(** [indexOf(x) != NAME_NOT_FOUND]. *)
Definition sv_contains {A} `{SortedVector A, EqDecision A} (x : A) (v : sv A) : bool := bool_decide (x ∈ sv_list v).

(** The order of pairs of strings. *)
Definition pair_le (p q : string * string) : Prop := String.le p.1 q.1 /\ (p.1 = q.1 -> String.le p.2 q.2).

(** ** Data *)

Definition STATUS_NOT_PRESENT : Z := 0.
Definition STATUS_PRESENT : Z := 1.
Definition STATUS_ENUMERATING : Z := 2.

Definition NO_INIT : Z := -19.
Definition CAMERA_MODULE_API_VERSION_2_0 : Z := 0x200.
Definition CAMERA_DEVICE_API_VERSION_1_0 : Z := 0x100.
Definition CAMERA_DEVICE_API_VERSION_3_3 : Z := 0x303.
Definition CAMERA_DEVICE_API_VERSION_3_4 : Z := 0x304.
Definition CAMERA_DEVICE_API_VERSION_3_6 : Z := 0x306.

Record VendorTag := mkVendorTag { tagId : Z; tagName : string; tagType : Z }.
Record VendorTagSection := mkVendorTagSection { sectionName : string; tags : list VendorTag }.

(** A descriptor built from the module's tags: the sections, and each tag with
    the index of its section. *)
Record VendorTagDescriptor := mkVendorTagDescriptor {
  vd_sectionNames : list string;
  vd_tags : list (VendorTag * nat)
}.

(** What the module says of vendor tags: whether it defines any, whether all
    five operations are there, the outcome of reading them. *)
Record VendorTagSource := mkVendorTagSource {
  vt_defined : bool;
  vt_complete : bool;
  vt_descriptor : Z * VendorTagDescriptor
}.

(** Starting the module. *)
Record ModuleStart (M : Type) := mkModuleStart {
  ms_hw_get_module : Z;
  ms_init : Z;
  ms_setCallbacks : Z;
  ms_numberOfCameras : Z;
  ms_vendorTags : VendorTagSource;
  ms_module : CameraModule M
}.
Arguments mkModuleStart {M} _ _ _ _ _ _.
Arguments ms_hw_get_module {M} _.
Arguments ms_init {M} _.
Arguments ms_setCallbacks {M} _.
Arguments ms_numberOfCameras {M} _.
Arguments ms_vendorTags {M} _.
Arguments ms_module {M} _.

(** The names of cameras. *)
Definition getAidlDeviceName (cameraId : string) : string := "device@" +:+ kDeviceVersion +:+ "/internal/" +:+ cameraId.

Fixpoint take_digits (s : list ascii) : list ascii * list ascii :=
  match s with
  | c :: t => if bool_decide (is_Some (digit_value c)) then let '(d, r) := take_digits t in (c :: d, r) else ([], s)
  | [] => ([], [])
  end.

Fixpoint strip_prefix (p s : list ascii) : option (list ascii) :=
  match p, s with
  | [], _ => Some s
  | c :: p, d :: s => if Ascii.eqb c d then strip_prefix p s else None
  | _, [] => None
  end.

(** The characters that [.] matches in a regular expression. *)
Definition is_dot (c : ascii) : bool := negb (Ascii.eqb c "010") && negb (Ascii.eqb c "013").

(** The regular expression [device@([0-9]+\.[0-9]+)/internal/(.+)] on what the
    C string shows of the name: version and camera id. *)
Definition matchDeviceName (deviceName : string) : option (string * string) :=
  s ← strip_prefix (String.list_ascii_of_string "device@") (c_chars (String.list_ascii_of_string deviceName));
  let '(major, s) := take_digits s in
  s ← strip_prefix ["."%char] s;
  let '(minor, s) := take_digits s in
  id ← strip_prefix (String.list_ascii_of_string "/internal/") s;
  if bool_decide (major = []) || bool_decide (minor = []) || bool_decide (id = []) || negb (forallb is_dot id) then None
  else Some (String.string_of_list_ascii (major ++ "."%char :: minor), String.string_of_list_ascii id).

(** ** The provider *)

Section provider.
Context {M : Type} `{SortedVector string} `{SortedVector (string * string)} `{AndroidStrings}.

(** [mCallbacks] is the client, [mModuleSet] whether there is a module. *)
Record CameraProvider := mkCameraProvider {
  mCallbacks : option Z;
  mModuleSet : bool;
  mNumberOfLegacyCameras : Z;
  mCameraStatusMap : gmap string Z;
  mLegacyCameras : gset Z;
  mCameraIds : sv string;
  mDeviceNames : sv (string * string);
  mVendorTagSections : list VendorTagSection
}.

#[export] Instance CameraProvider_eta : Record_eta CameraProvider :=
  fun p => mkCameraProvider (mCallbacks p) (mModuleSet p) (mNumberOfLegacyCameras p) (mCameraStatusMap p) (mLegacyCameras p) (mCameraIds p)
    (mDeviceNames p) (mVendorTagSections p).

Inductive ProviderCall :=
  | CB_cameraDeviceStatusChange (client : Z) (deviceName : string) (status : Z)
  | CB_torchModeStatusChange (client : Z) (deviceName : string) (status : Z)
  | MODULE_removeCamera (id : Z)
  | MODULE_notifyDeviceStateChange (state : Z).

Record ProviderState := mkProviderState { prov : CameraProvider; prov_log : list ProviderCall }.

#[export] Instance ProviderState_eta : Record_eta ProviderState := fun s => mkProviderState (prov s) (prov_log s).

Notation P := (Cam ProviderState).

Definition pget {A} (g : CameraProvider -> A) : P A := cam_get (fun s => g (prov s)).
Definition pset (g : CameraProvider -> CameraProvider) : P unit := cam_modify (fun s => s <| prov ::= g |>).
Definition pcall (c : ProviderCall) : P unit := cam_modify (fun s => s <| prov_log ::= fun l => l ++ [c] |>).

(** A call through [mCallbacks]. *)
Definition callback (c : Z -> ProviderCall) : P unit :=
  cb ← pget mCallbacks;
  match cb with
  | Some client => pcall (c client)
  | None => cam_abort
  end.

Definition addDeviceNames (camera_id status : Z) (cam_new : bool) : P unit :=
  let cameraIdStr := to_text camera_id in
  pset (fun p => p <| mCameraIds ::= sv_add cameraIdStr |>);;
  pset (fun p => p <| mDeviceNames ::= sv_add (cameraIdStr, getAidlDeviceName cameraIdStr) |>);;
  if cam_new then callback (fun cb => CB_cameraDeviceStatusChange cb (getAidlDeviceName cameraIdStr) status) else mret tt.

Definition removeDeviceNames (camera_id : Z) : P unit :=
  let cameraIdStr := to_text camera_id in
  pset (fun p => p <| mCameraIds ::= sv_remove cameraIdStr |>);;
  pset (fun p => p <| mDeviceNames ::= sv_remove (cameraIdStr, getAidlDeviceName cameraIdStr) |>);;
  callback (fun cb => CB_cameraDeviceStatusChange cb (getAidlDeviceName cameraIdStr) STATUS_NOT_PRESENT);;
  pcall (MODULE_removeCamera camera_id).

Definition named (id : string) (p : CameraProvider) : list (string * string) := filter (fun q => id = q.1) (sv_list (mDeviceNames p)).

(** The module reports a camera. *)
Definition sCameraDeviceStatusChange (camera_id new_status : Z) : P unit :=
  let cameraIdStr := to_text camera_id in
  pset (fun p => p <| mCameraStatusMap ::= <[cameraIdStr := new_status]> |>);;
  cb ← pget mCallbacks;
  match cb with
  | None => mret tt
  | Some _ =>
      known ← pget (named cameraIdStr);
      cam_for known (fun q => callback (fun cb => CB_cameraDeviceStatusChange cb q.2 new_status));;
      let found := negb (bool_decide (known = [])) in
      if (new_status =? STATUS_PRESENT) || (new_status =? STATUS_ENUMERATING) then
        if found then mret tt else addDeviceNames camera_id new_status true
      else if new_status =? STATUS_NOT_PRESENT then
        if found then removeDeviceNames camera_id else mret tt
      else mret tt
  end.

Definition sTorchModeStatusChange (camera_id : string) (new_status : Z) : P unit :=
  cb ← pget mCallbacks;
  match cb with
  | None => mret tt
  | Some _ =>
      known ← pget (named camera_id);
      cam_for known (fun q => callback (fun cb => CB_torchModeStatusChange cb q.2 new_status))
  end.

(** *** Start *)

(** The ids of the built-in cameras: the numbers from 0, those replaced that
    the property gives in their place.  A vector of negative length throws. *)
Definition getLegacyCameraIdMap (numberOfCameras : Z) (remapProp : string) : option (list Z) :=
  if numberOfCameras <? 0 then None
  else
    let cameraIdMap := seqZ 0 numberOfCameras in
    Some (if String.eqb remapProp "" then cameraIdMap
          else imap (fun n i => default i (s ← Split remapProp " " !! n; ParseInt s)) cameraIdMap).

Definition checkCameraVersion (moduleSet : bool) (m : CameraModule M) (info : camera_info M) : Z :=
  if negb moduleSet then NO_INIT
  else
    let moduleVersion := wrap_u 16 (cm_getModuleApiVersion m) in
    if CAMERA_MODULE_API_VERSION_2_0 <=? moduleVersion then
      let v := ci_device_version info in
      if bool_decide (v ∈ [CAMERA_DEVICE_API_VERSION_1_0; CAMERA_DEVICE_API_VERSION_3_2; CAMERA_DEVICE_API_VERSION_3_3;
                           CAMERA_DEVICE_API_VERSION_3_4; CAMERA_DEVICE_API_VERSION_3_5]) then DEV_OK
      else if v =? CAMERA_DEVICE_API_VERSION_3_6 then
        if moduleVersion <? CAMERA_MODULE_API_VERSION_2_5 then NO_INIT else DEV_OK
      else NO_INIT
    else DEV_OK.

(** The tags by section; [None] when a section index is out of range. *)
Definition add_tag (acc : list (list VendorTag)) (t : VendorTag * nat) : option (list (list VendorTag)) :=
  if (t.2 <? length acc)%nat then Some (alter (fun l => l ++ [t.1]) t.2 acc) else None.

Fixpoint tags_by_section (ts : list (VendorTag * nat)) (acc : list (list VendorTag)) : option (list (list VendorTag)) :=
  match ts with
  | [] => Some acc
  | t :: ts => acc ← add_tag acc t; tags_by_section ts acc
  end.

Definition setUpVendorTags (src : VendorTagSource) : P bool :=
  if negb (vt_defined src) then mret true
  else if negb (vt_complete src) then mret false
  else
    let '(res, desc) := vt_descriptor src in
    if negb (res =? DEV_OK) then mret false
    else
      match tags_by_section (vd_tags desc) (replicate (length (vd_sectionNames desc)) []) with
      | None => cam_abort
      | Some sections => pset (fun p => p <| mVendorTagSections := zip_with mkVendorTagSection (vd_sectionNames desc) sections |>);; mret true
      end.

(** The loop over the built-in cameras; true when the start failed. *)
Fixpoint add_legacy_cameras (m : CameraModule M) (skipFailed : bool) (ids : list Z) : P bool :=
  match ids with
  | [] => mret false
  | i :: ids =>
      let '(rc, info) := cm_getCameraInfo m i in
      if negb (rc =? 0) then
        if skipFailed then add_legacy_cameras m skipFailed ids
        else pset (fun p => p <| mModuleSet := false |>);; mret true
      else
        pset (fun p => p <| mLegacyCameras ::= union {[i]} |>);;
        if negb (checkCameraVersion true m info =? DEV_OK) then
          pset (fun p => p <| mModuleSet := false |>);; mret true
        else
          pset (fun p => p <| mCameraStatusMap ::= <[to_text i := STATUS_PRESENT]> |>);;
          addDeviceNames i STATUS_PRESENT false;;
          add_legacy_cameras m skipFailed ids
  end.

(** [early] are the reports the module makes while its callbacks are set. *)
Definition CameraProvider_initialize (ms : ModuleStart M) (remapProp : string) (skipFailed : bool) (early : list (Z * Z)) : P bool :=
  if ms_hw_get_module ms <? 0 then mret true
  else
    pset (fun p => p <| mModuleSet := true |>);;
    if negb (ms_init ms =? DEV_OK) then pset (fun p => p <| mModuleSet := false |>);; mret true
    else
      setUpVendorTags (ms_vendorTags ms);;
      cam_for early (fun ev => sCameraDeviceStatusChange ev.1 ev.2);;
      if negb (ms_setCallbacks ms =? DEV_OK) then pset (fun p => p <| mModuleSet := false |>);; mret true
      else
        pset (fun p => p <| mNumberOfLegacyCameras := ms_numberOfCameras ms |>);;
        match getLegacyCameraIdMap (ms_numberOfCameras ms) remapProp with
        | None => cam_abort
        | Some cameraIdMap => add_legacy_cameras (ms_module ms) skipFailed cameraIdMap
        end.

Definition CameraProvider_empty : CameraProvider := mkCameraProvider None false 0 ∅ ∅ sv_empty sv_empty [].

(** The constructor, with [mInitFailed]. *)
Definition CameraProvider_new (ms : ModuleStart M) (remapProp : string) (skipFailed : bool) (early : list (Z * Z)) : option (bool * ProviderState) :=
  CameraProvider_initialize ms remapProp skipFailed early (mkProviderState CameraProvider_empty []).

(** *** Calls *)

(** The statuses in the order of the keys, as [std::map] iterates. *)
Definition status_pairs (p : CameraProvider) : list (string * Z) :=
  (fun k => (k, default 0 (mCameraStatusMap p !! k))) <$> merge_sort String.le (elements (dom (mCameraStatusMap p))).

Definition stoi_or_throw (s : string) : P Z :=
  match stoi s with
  | Some z => mret z
  | None => cam_abort
  end.

Definition setCallback (cb : option Z) : P CameraStatus :=
  pset (fun p => p <| mCallbacks := cb |>);;
  match cb with
  | None => mret CAM_OK
  | Some _ =>
      statuses ← pget status_pairs;
      cam_for statuses (fun q =>
        id ← stoi_or_throw q.1;
        legacy ← pget mLegacyCameras;
        if negb (bool_decide (id ∈ legacy)) && negb (q.2 =? STATUS_NOT_PRESENT) then addDeviceNames id q.2 true else mret tt);;
      mret CAM_OK
  end.

Definition getVendorTags (ret : option (list VendorTagSection)) : P (CameraStatus * option (list VendorTagSection)) :=
  match ret with
  | None => mret (CAM_ILLEGAL_ARGUMENT, None)
  | Some old => sections ← pget mVendorTagSections; mret (CAM_OK, Some (old ++ sections))
  end.

(** The loop of [getCameraIdList]; looking a status up creates it. *)
Fixpoint list_cameras (names : list (string * string)) (acc : list string) : P (list string) :=
  match names with
  | [] => mret acc
  | q :: names =>
      id ← stoi_or_throw q.1;
      legacy ← pget mLegacyCameras;
      if negb (bool_decide (id ∈ legacy)) then list_cameras names acc
      else
        pset (fun p => p <| mCameraStatusMap ::= fun m => <[q.1 := default 0 (m !! q.1)]> m |>);;
        status ← pget (fun p => default 0 (mCameraStatusMap p !! q.1));
        list_cameras names (if status =? STATUS_PRESENT then acc ++ [q.2] else acc)
  end.

Definition getCameraIdList (ret : option (list string)) : P (CameraStatus * option (list string)) :=
  match ret with
  | None => mret (CAM_ILLEGAL_ARGUMENT, None)
  | Some old =>
      names ← pget (fun p => sv_list (mDeviceNames p));
      l ← list_cameras names old;
      mret (CAM_OK, Some l)
  end.

(** A device object, if the name is that of a camera; [None] through the null
    module of a provider that failed to start. *)
Definition getCameraDeviceInterface (m : CameraModule M) (cameraDeviceName : string) (ret : bool) : P (CameraStatus * option CameraDevice) :=
  if negb ret then mret (CAM_ILLEGAL_ARGUMENT, None)
  else
    match matchDeviceName cameraDeviceName with
    | None => mret (CAM_ILLEGAL_ARGUMENT, None)
    | Some (_, cameraId) =>
        names ← pget mDeviceNames;
        ids ← pget mCameraIds;
        if negb (sv_contains (cameraId, cameraDeviceName) names) then
          mret (if sv_contains cameraId ids then CAM_OPERATION_NOT_SUPPORTED else CAM_ILLEGAL_ARGUMENT, None)
        else
          set ← pget mModuleSet;
          if negb set then cam_abort
          else
            let d := CameraDevice_new m cameraId (sv_list names) in
            if cd_mInitFail d then mret (CAM_INTERNAL_ERROR, None) else mret (CAM_OK, Some d)
    end.

Definition notifyDeviceStateChange (newState : Z) : P CameraStatus :=
  set ← pget mModuleSet;
  if negb set then cam_abort else pcall (MODULE_notifyDeviceStateChange (u64 newState));; mret CAM_OK.

Definition getConcurrentCameraIds (ret : option (list (list string))) : CameraStatus * option (list (list string)) :=
  match ret with None => (CAM_ILLEGAL_ARGUMENT, None) | Some _ => (CAM_OK, Some []) end.

Definition isConcurrentStreamCombinationSupported (ret : option bool) : CameraStatus * option bool :=
  match ret with None => (CAM_ILLEGAL_ARGUMENT, None) | Some _ => (CAM_OK, Some false) end.

End provider.

(** ** Names *)

Lemma Cam_bind_eq {C A B} (m : Cam C A) (k : A -> Cam C B) (c : C) (x : A) (c1 : C) : m c = Some (x, c1) -> (x ← m; k x) c = k x c1.
Proof. intros E. unfold mbind, Cam_bind. by rewrite E. Qed.

Lemma strip_prefix_app (p s : list ascii) : strip_prefix p (p ++ s) = Some s.
Proof. induction p as [| c p IH]; [done |]. simpl. by rewrite Ascii.eqb_refl. Qed.

Lemma c_chars_app (p s : list ascii) : Forall (fun c => Ascii.eqb c zero = false) p -> c_chars (p ++ s) = p ++ c_chars s.
Proof. induction 1 as [| c p Hc _ IH]; [done |]. simpl. by rewrite Hc, IH. Qed.

(** An id that is not empty and has neither line ends nor zero characters. *)
Definition plain_id (id : string) : Prop :=
  id <> "" /\ c_chars (String.list_ascii_of_string id) = String.list_ascii_of_string id /\ forallb is_dot (String.list_ascii_of_string id) = true.

Lemma list_ascii_nil (s : string) : String.list_ascii_of_string s = [] -> s = "".
Proof. by destruct s. Qed.

Lemma matchDeviceName_name (id : string) : plain_id id -> matchDeviceName (getAidlDeviceName id) = Some (kDeviceVersion, id).
Proof.
  intros (Hne & Hc & Hd). unfold matchDeviceName, getAidlDeviceName. rewrite !String_list_ascii_app, !c_chars_app, Hc by (by repeat constructor).
  assert (String.list_ascii_of_string id <> []) as Hne' by (intros E; by apply list_ascii_nil in E).
  assert (String.string_of_list_ascii (String.list_ascii_of_string id) = id) as Hid by apply String.string_of_list_ascii_of_string.
  revert Hne' Hd Hid. generalize (String.list_ascii_of_string id) as l. intros l Hne' Hd Hid.
  rewrite strip_prefix_app. cbn [mbind option_bind].
  assert (take_digits (String.list_ascii_of_string kDeviceVersion ++ String.list_ascii_of_string "/internal/" ++ l) =
    (["1"%char], ["."%char] ++ "1"%char :: String.list_ascii_of_string "/internal/" ++ l)) as -> by reflexivity.
  rewrite strip_prefix_app. cbn [mbind option_bind].
  assert (take_digits ("1"%char :: String.list_ascii_of_string "/internal/" ++ l) = (["1"%char], String.list_ascii_of_string "/internal/" ++ l))
    as -> by reflexivity.
  rewrite strip_prefix_app. cbn [mbind option_bind]. rewrite (bool_decide_false (l = [])), Hd, Hid by done. reflexivity.
Qed.

Lemma to_text_plain (z : Z) : is_i64 z -> plain_id (to_text z).
Proof.
  intros Hz. destruct (to_string_i64_digits z Hz) as (ds & Hne & F & _ & E). unfold plain_id, to_text.
  rewrite String.list_ascii_of_string_of_list_ascii, to_string_no_zero by done. split_and!; [| done |].
  - rewrite E. intros K. apply (f_equal String.list_ascii_of_string) in K. rewrite String.list_ascii_of_string_of_list_ascii in K.
    apply app_eq_nil in K as [_ K]. by destruct ds.
  - rewrite E, forallb_app. apply andb_true_iff. split; [by destruct (z <? 0) |]. apply forallb_forall. intros c Hc.
    apply list_elem_of_In, list_elem_of_fmap in Hc as (d & -> & Hd). eapply Forall_forall in F; [| done].
    unfold is_dot. rewrite andb_true_iff, !negb_true_iff, !Ascii.eqb_neq.
    split; intros K; apply (f_equal digit_value) in K; by rewrite digit_value_digit in K.
Qed.

Lemma to_text_inj (y z : Z) : is_i64 y -> is_i64 z -> to_text y = to_text z -> y = z.
Proof.
  intros Hy Hz E. apply (f_equal stoll) in E. rewrite <- (String_app_nil_r (to_text y)), <- (String_app_nil_r (to_text z)) in E.
  rewrite !stoll_to_text in E by done. congruence.
Qed.

Lemma name_inj (a b : string) : getAidlDeviceName a = getAidlDeviceName b -> a = b.
Proof.
  unfold getAidlDeviceName. intros E. apply (f_equal String.list_ascii_of_string) in E. rewrite !String_list_ascii_app in E.
  do 3 apply app_inv_head in E. apply (f_equal String.string_of_list_ascii) in E. by rewrite !String.string_of_list_ascii_of_string in E.
Qed.

(** ** The known cameras *)

Section known.
Context {M : Type} `{SortedVectorLaws string String.le} `{SortedVectorLaws (string * string) pair_le} `{AndroidStrings}.
Implicit Types (p : CameraProvider) (s : ProviderState).

(** Ids and names correspond, ids are printed numbers with a status. *)
Record provider_wf p : Prop := {
  wf_names : forall q, q ∈ sv_list (mDeviceNames p) <-> q.1 ∈ sv_list (mCameraIds p) /\ q.2 = getAidlDeviceName q.1;
  wf_ids : forall id, id ∈ sv_list (mCameraIds p) -> is_Some (mCameraStatusMap p !! id);
  wf_keys : forall k, is_Some (mCameraStatusMap p !! k) -> exists z, is_i32 z /\ k = to_text z
}.

Definition known p : gset string := list_to_set (sv_list (mDeviceNames p)).*2.

Lemma elem_known p (n : string) : provider_wf p -> n ∈ known p <-> exists id, id ∈ sv_list (mCameraIds p) /\ n = getAidlDeviceName id.
Proof.
  intros Hwf. unfold known. rewrite elem_of_list_to_set, list_elem_of_fmap. split.
  - intros (q & -> & Hq). apply (wf_names p Hwf) in Hq as [Hi ->]. eauto.
  - intros (id & Hi & ->). exists (id, getAidlDeviceName id). split; [done |]. by apply (wf_names p Hwf).
Qed.

Definition add_names (id : string) p : CameraProvider :=
  p <| mCameraIds ::= sv_add id |> <| mDeviceNames ::= sv_add (id, getAidlDeviceName id) |>.
Definition remove_names (id : string) p : CameraProvider :=
  p <| mCameraIds ::= sv_remove id |> <| mDeviceNames ::= sv_remove (id, getAidlDeviceName id) |>.

Lemma add_names_wf (id : string) p : provider_wf p -> is_Some (mCameraStatusMap p !! id) -> provider_wf (add_names id p).
Proof.
  intros [W1 W2 W3] Hs. split; simpl; [| | done].
  - intros q. rewrite !sv_elem_add, W1. split.
    + intros [-> | [? ?]]; simpl; auto.
    + intros [[E | E] E2]; [left; destruct q; simpl in *; by subst | by right].
  - intros k. rewrite sv_elem_add. intros [-> | Hk]; [done | auto].
Qed.

Lemma remove_names_wf (id : string) p : provider_wf p -> provider_wf (remove_names id p).
Proof.
  intros [W1 W2 W3]. split; simpl; [| | done].
  - intros q. rewrite !sv_elem_remove, W1. split.
    + intros (Hne & Hi & E). split_and!; [| done | done]. intros Eq. apply Hne. destruct q; simpl in *; by subst.
    + intros [[Hne Hi] E]. split_and!; [| done | done]. intros ->. by apply Hne.
  - intros k. rewrite sv_elem_remove. intros [_ Hk]. auto.
Qed.

Lemma known_add (id : string) p : provider_wf p -> is_Some (mCameraStatusMap p !! id) -> known (add_names id p) = {[getAidlDeviceName id]} ∪ known p.
Proof.
  intros Hwf Hs. apply set_eq. intros n. rewrite elem_of_union, elem_of_singleton, (elem_known _ _ (add_names_wf id p Hwf Hs)), (elem_known _ _ Hwf).
  simpl. split.
  - intros (i & Hi & ->). apply sv_elem_add in Hi as [-> | Hi]; [by left | right; eauto].
  - intros [-> | (i & Hi & ->)]; eexists; (split; [apply sv_elem_add; eauto | done]).
Qed.

Lemma known_remove (id : string) p : provider_wf p -> known (remove_names id p) = known p ∖ {[getAidlDeviceName id]}.
Proof.
  intros Hwf. apply set_eq. intros n. rewrite elem_of_difference, elem_of_singleton, (elem_known _ _ (remove_names_wf id p Hwf)), (elem_known _ _ Hwf).
  simpl. split.
  - intros (i & Hi & ->). apply sv_elem_remove in Hi as [Hne Hi]. split; [eauto |]. intros E. by apply name_inj in E.
  - intros [(i & Hi & ->) Hne]. exists i. split; [| done]. apply sv_elem_remove. split; [congruence | done].
Qed.

Lemma set_status_wf (id : string) (z st : Z) p : is_i32 z -> id = to_text z -> provider_wf p -> provider_wf (p <| mCameraStatusMap ::= <[id := st]> |>).
Proof.
  intros Hz -> [W1 W2 W3]. split; simpl; [done | |].
  - intros i Hi. rewrite lookup_insert_is_Some. destruct (decide (to_text z = i)); auto.
  - intros k. rewrite lookup_insert_is_Some. intros [<- | [_ Hk]]; [eauto | auto].
Qed.

(** The names of an id: at most one. *)
Lemma named_spec (id : string) p : provider_wf p ->
  named id p = if bool_decide (id ∈ sv_list (mCameraIds p)) then [(id, getAidlDeviceName id)] else [].
Proof.
  intros Hwf. unfold named. pose proof (sv_nodup (mDeviceNames p)) as Hnd.
  assert (forall q, q ∈ filter (fun q => id = q.1) (sv_list (mDeviceNames p)) <-> q = (id, getAidlDeviceName id) /\ id ∈ sv_list (mCameraIds p)) as He.
  { intros q. rewrite list_elem_of_filter, (wf_names p Hwf). split; [intros (-> & ? & E); split; [destruct q; simpl in *; by subst | done] | by intros [-> ?]]. }
  pose proof (NoDup_filter (fun q => id = q.1) _ Hnd) as Hnd'. case_bool_decide as Hin.
  - destruct (filter _ _) as [| q l] eqn:E; [by destruct (not_elem_of_nil _ (proj2 (He (id, getAidlDeviceName id)) (conj eq_refl Hin))) |].
    assert (q = (id, getAidlDeviceName id)) as -> by (apply He; by constructor). destruct l as [| q' l]; [done |].
    assert (q' = (id, getAidlDeviceName id)) as -> by (apply He; by do 2 constructor). apply NoDup_cons in Hnd' as [Hno _]. destruct Hno. by constructor.
  - destruct (filter _ _) as [| q l] eqn:E; [done |]. destruct Hin. apply (He q). by constructor.
Qed.

(** *** What a report of the module does *)

Lemma callback_run (c : Z -> ProviderCall) p (l : list ProviderCall) (cb : Z) :
  mCallbacks p = Some cb -> callback c (mkProviderState p l) = Some (tt, mkProviderState p (l ++ [c cb])).
Proof. intros E. unfold callback. rewrite (Cam_bind_eq _ _ _ (mCallbacks p) (mkProviderState p l)) by done. by rewrite E. Qed.

Definition name_of (z : Z) : string := getAidlDeviceName (to_text z).

Lemma addDeviceNames_run (z st : Z) p (l : list ProviderCall) (cb : Z) : mCallbacks p = Some cb ->
  addDeviceNames z st true (mkProviderState p l) =
    Some (tt, mkProviderState (add_names (to_text z) p) (l ++ [CB_cameraDeviceStatusChange cb (name_of z) st])).
Proof.
  intros E. unfold addDeviceNames. rewrite !(Cam_bind_eq (pset _) _ _ tt _ eq_refl).
  exact (callback_run (fun cb => CB_cameraDeviceStatusChange cb (name_of z) st) (add_names (to_text z) p) l cb E).
Qed.

Lemma removeDeviceNames_run (z : Z) p (l : list ProviderCall) (cb : Z) : mCallbacks p = Some cb ->
  removeDeviceNames z (mkProviderState p l) =
    Some (tt, mkProviderState (remove_names (to_text z) p)
      (l ++ [CB_cameraDeviceStatusChange cb (name_of z) STATUS_NOT_PRESENT; MODULE_removeCamera z])).
Proof.
  intros E. unfold removeDeviceNames. rewrite !(Cam_bind_eq (pset _) _ _ tt _ eq_refl).
  etransitivity; [apply Cam_bind_eq, (callback_run _ (remove_names (to_text z) p) _ cb E) |]. unfold pcall, cam_modify. simpl. by rewrite <- app_assoc.
Qed.

(** The messages and the new state, for a client [cb]. *)
Definition status_effect (cb z st : Z) s : ProviderState :=
  let p := (prov s) <| mCameraStatusMap ::= <[to_text z := st]> |> in
  if bool_decide (to_text z ∈ sv_list (mCameraIds (prov s))) then
    if st =? STATUS_NOT_PRESENT then
      mkProviderState (remove_names (to_text z) p)
        (prov_log s ++ [CB_cameraDeviceStatusChange cb (name_of z) st; CB_cameraDeviceStatusChange cb (name_of z) STATUS_NOT_PRESENT; MODULE_removeCamera z])
    else mkProviderState p (prov_log s ++ [CB_cameraDeviceStatusChange cb (name_of z) st])
  else if (st =? STATUS_PRESENT) || (st =? STATUS_ENUMERATING) then
    mkProviderState (add_names (to_text z) p) (prov_log s ++ [CB_cameraDeviceStatusChange cb (name_of z) st])
  else mkProviderState p (prov_log s).

Lemma status_change_run (z st : Z) s : provider_wf (prov s) ->
  sCameraDeviceStatusChange z st s = Some (tt,
    match mCallbacks (prov s) with
    | Some cb => status_effect cb z st s
    | None => s <| prov ::= fun p => p <| mCameraStatusMap ::= <[to_text z := st]> |> |>
    end).
Proof.
  intros Hwf. unfold sCameraDeviceStatusChange. destruct s as [p log]. cbn [prov] in Hwf |- *.
  set (p1 := p <| mCameraStatusMap ::= <[to_text z := st]> |>).
  rewrite (Cam_bind_eq _ _ _ tt (mkProviderState p1 log)), (Cam_bind_eq _ _ _ (mCallbacks p) (mkProviderState p1 log)) by done.
  destruct (mCallbacks p) as [cb |] eqn:Ecb; [| done].
  assert (forall c l, callback c (mkProviderState p1 l) = Some (tt, mkProviderState p1 (l ++ [c cb]))) as Hcb.
  { intros c l. apply callback_run. done. }
  rewrite (Cam_bind_eq _ _ _ (named (to_text z) p) (mkProviderState p1 log)), named_spec by done. unfold status_effect. cbn [prov prov_log]. fold p1.
  destruct (bool_decide (to_text z ∈ sv_list (mCameraIds p))); cbn [cam_for].
  - rewrite (Cam_bind_eq _ _ _ tt (mkProviderState p1 (log ++ [CB_cameraDeviceStatusChange cb (name_of z) st])))
      by (etransitivity; [apply Cam_bind_eq, Hcb | done]).
    rewrite bool_decide_false by done. cbn [negb]. unfold STATUS_PRESENT, STATUS_ENUMERATING, STATUS_NOT_PRESENT.
    destruct (Z.eqb_spec st 1) as [-> | H1']; [done |]. destruct (Z.eqb_spec st 2) as [-> | H2']; [done |]. cbn [orb].
    destruct (Z.eqb_spec st 0) as [-> | H3']; [| done]. rewrite (removeDeviceNames_run z p1 _ cb Ecb). by rewrite <- app_assoc.
  - rewrite (Cam_bind_eq _ _ _ tt (mkProviderState p1 log)) by done. rewrite bool_decide_true by done. cbn [negb].
    destruct (_ || _); [| by destruct (st =? STATUS_NOT_PRESENT)]. by rewrite (addDeviceNames_run z st p1 _ cb Ecb).
Qed.

(** *** What the client knows *)

(** The client's picture of the cameras, from the messages it gets. *)
Definition view_step (v : gset string) (c : ProviderCall) : gset string :=
  match c with
  | CB_cameraDeviceStatusChange _ n st => if st =? STATUS_NOT_PRESENT then v ∖ {[n]} else {[n]} ∪ v
  | _ => v
  end.

Definition to_client (cb : Z) (c : ProviderCall) : Prop :=
  match c with
  | CB_cameraDeviceStatusChange client _ _ | CB_torchModeStatusChange client _ _ => client = cb
  | _ => True
  end.

(** What a report means. *)
Definition apply_report (v : gset string) (ev : Z * Z) : gset string :=
  if (ev.2 =? STATUS_PRESENT) || (ev.2 =? STATUS_ENUMERATING) then {[name_of ev.1]} ∪ v
  else if ev.2 =? STATUS_NOT_PRESENT then v ∖ {[name_of ev.1]}
  else v.

(** The provider went from [s] to [s'] and its client [cb] followed. *)
Record followed (cb : Z) s s' : Prop := {
  fo_wf : provider_wf (prov s');
  fo_callbacks : mCallbacks (prov s') = Some cb;
  fo_legacy : mLegacyCameras (prov s') = mLegacyCameras (prov s);
  fo_messages : exists delta, prov_log s' = prov_log s ++ delta /\ Forall (to_client cb) delta /\
    foldl view_step (known (prov s)) delta = known (prov s')
}.

Lemma followed_refl (cb : Z) s : provider_wf (prov s) -> mCallbacks (prov s) = Some cb -> followed cb s s.
Proof. intros Hwf Hcb. split; [done | done | done |]. exists []. by rewrite app_nil_r. Qed.

Lemma followed_trans (cb : Z) s1 s2 s3 : followed cb s1 s2 -> followed cb s2 s3 -> followed cb s1 s3.
Proof.
  intros [W1 C1 L1 (d1 & E1 & F1 & V1)] [W2 C2 L2 (d2 & E2 & F2 & V2)]. split; [done | done | congruence |].
  exists (d1 ++ d2). rewrite E2, E1, <- app_assoc. split_and!; [done | by apply Forall_app | by rewrite foldl_app, V1].
Qed.

Lemma id_known (z : Z) p : provider_wf p -> to_text z ∈ sv_list (mCameraIds p) <-> name_of z ∈ known p.
Proof.
  intros Hwf. rewrite elem_known by done. split; [by eauto |]. intros (id & Hi & E). by apply name_inj in E as ->.
Qed.

Lemma status_effect_followed (cb z st : Z) s :
  is_i32 z -> provider_wf (prov s) -> mCallbacks (prov s) = Some cb ->
  followed cb s (status_effect cb z st s) /\ known (prov (status_effect cb z st s)) = apply_report (known (prov s)) (z, st).
Proof.
  intros Hz Hwf Hcb. pose proof (set_status_wf (to_text z) z st (prov s) Hz eq_refl Hwf) as Hwf1.
  unfold status_effect. set (p1 := (prov s) <| mCameraStatusMap ::= <[to_text z := st]> |>) in *.
  assert (known p1 = known (prov s)) as Ek by done. assert (is_Some (mCameraStatusMap p1 !! to_text z)) as Hs by (simpl; by rewrite lookup_insert_eq).
  pose proof (id_known z (prov s) Hwf) as Hid. unfold apply_report. cbn [fst snd].
  case_bool_decide as Hin.
  - assert (name_of z ∈ known (prov s)) as Hk by tauto. destruct (Z.eqb_spec st STATUS_NOT_PRESENT) as [-> | Hst].
    + cbn [prov]. rewrite known_remove, Ek by done. split; [| done]. split; [by apply remove_names_wf | done | done |].
      eexists. split; [done |]. split; [by repeat constructor |]. cbn [prov]. rewrite known_remove, Ek by done. simpl. unfold name_of. set_solver.
    + cbn [prov]. split.
      * split; [done | done | done |]. eexists. split; [done |]. split; [by repeat constructor |]. cbn [foldl view_step prov].
        rewrite (proj2 (Z.eqb_neq st _) Hst), Ek. set_solver.
      * rewrite Ek. destruct (_ || _); [set_solver | done].
  - assert (name_of z ∉ known (prov s)) as Hk by tauto. destruct (_ || _) eqn:Est; cbn [prov].
    + assert ((st =? STATUS_NOT_PRESENT) = false) as Hst by (unfold STATUS_NOT_PRESENT, STATUS_PRESENT, STATUS_ENUMERATING in *; lia).
      rewrite known_add, Ek by done. split; [| done]. split; [by apply add_names_wf | done | done |].
      eexists. split; [done |]. split; [by repeat constructor |]. cbn [foldl view_step prov]. by rewrite Hst, known_add, Ek.
    + split; [| rewrite Ek; destruct (st =? STATUS_NOT_PRESENT); [set_solver | done]]. split; [done | done | done |].
      exists []. split_and!; [by rewrite app_nil_r | by constructor | done].
Qed.

(** *** The other calls *)

Lemma stoi_key (k : string) p (s : ProviderState) : provider_wf p -> is_Some (mCameraStatusMap p !! k) ->
  exists z, is_i32 z /\ k = to_text z /\ stoi_or_throw k s = Some (z, s).
Proof. intros Hwf Hk. destruct (wf_keys p Hwf k Hk) as (z & Hz & ->). exists z. unfold stoi_or_throw. by rewrite stoi_to_text. Qed.

(** Cameras that [setCallback] reports. *)
Definition reported (legacy : gset Z) (l : list (string * Z)) : gset string :=
  list_to_set (omap (fun q => z ← stoi q.1; if negb (bool_decide (z ∈ legacy)) && negb (q.2 =? STATUS_NOT_PRESENT) then Some (getAidlDeviceName q.1) else None) l).

Definition report_body (q : string * Z) : Cam ProviderState unit :=
  id ← stoi_or_throw q.1;
  legacy ← pget mLegacyCameras;
  if negb (bool_decide (id ∈ legacy)) && negb (q.2 =? STATUS_NOT_PRESENT) then addDeviceNames id q.2 true else mret tt.

Lemma report_loop (cb : Z) (l : list (string * Z)) s :
  provider_wf (prov s) -> mCallbacks (prov s) = Some cb -> (forall q, q ∈ l -> is_Some (mCameraStatusMap (prov s) !! q.1)) ->
  exists s', cam_for l report_body s = Some (tt, s') /\ followed cb s s' /\ mCameraStatusMap (prov s') = mCameraStatusMap (prov s) /\
    mModuleSet (prov s') = mModuleSet (prov s) /\
    known (prov s') = known (prov s) ∪ reported (mLegacyCameras (prov s)) l.
Proof.
  revert s. induction l as [| q l IH]; intros s Hwf Hcb Hl.
  { exists s. split_and!; [done | by apply followed_refl | done | done |]. unfold reported. simpl. set_solver. }
  assert (is_Some (mCameraStatusMap (prov s) !! q.1)) as Hq by (apply Hl; by constructor).
  destruct (stoi_key q.1 (prov s) s Hwf Hq) as (z & Hz & Ez & Er).
  assert (exists s1, report_body q s = Some (tt, s1) /\ followed cb s s1 /\ mCameraStatusMap (prov s1) = mCameraStatusMap (prov s) /\
    mModuleSet (prov s1) = mModuleSet (prov s) /\
    known (prov s1) = known (prov s) ∪ reported (mLegacyCameras (prov s)) [q]) as (s1 & E1 & F1 & M1 & M1' & K1).
  { unfold report_body, reported. rewrite (Cam_bind_eq _ _ _ z s Er), (Cam_bind_eq _ _ _ (mLegacyCameras (prov s)) s) by done.
    cbn [omap list_omap]. rewrite Ez, stoi_to_text by done. cbn [mbind option_bind].
    destruct (negb _ && negb (q.2 =? STATUS_NOT_PRESENT)) eqn:Ec; [| exists s; split_and!; [done | by apply followed_refl | done | done | set_solver]].
    apply andb_true_iff in Ec as [_ Ec%negb_true_iff]. rewrite Ez in Hq. destruct s as [p log]. cbn [prov] in *.
    pose proof (known_add (to_text z) p Hwf Hq) as Ek.
    eexists. split; [by apply (addDeviceNames_run z q.2 p log cb) |]. split_and!; [| done | done | cbn [prov]; rewrite Ek; set_solver].
    split; [by apply add_names_wf | done | done |]. eexists. split; [done |]. split; [by repeat constructor |]. cbn [foldl view_step prov]. by rewrite Ec, Ek. }
  destruct (IH s1 (fo_wf _ _ _ F1) (fo_callbacks _ _ _ F1)) as (s2 & E2 & F2 & M2 & M2' & K2).
  { intros q' Hq'. rewrite M1. apply Hl. by constructor. }
  exists s2. split_and!; [| by eapply followed_trans | congruence | congruence |].
  - cbn [cam_for]. by rewrite (Cam_bind_eq _ _ _ tt s1 E1).
  - rewrite K2, K1, (fo_legacy _ _ _ F1). unfold reported. cbn [omap list_omap]. destruct (z ← stoi q.1; _); cbn [omap list_omap list_to_set]; set_solver.
Qed.

Lemma status_pairs_keys p (q : string * Z) : q ∈ status_pairs p -> is_Some (mCameraStatusMap p !! q.1).
Proof.
  unfold status_pairs. intros (k & -> & Hk)%list_elem_of_fmap. rewrite merge_sort_Permutation in Hk. by apply elem_of_elements, elem_of_dom in Hk.
Qed.

Lemma setCallback_run (cb : Z) s : provider_wf (prov s) ->
  exists s', setCallback (Some cb) s = Some (CAM_OK, s') /\ followed cb s s' /\ mModuleSet (prov s') = mModuleSet (prov s) /\
    known (prov s') = known (prov s) ∪ reported (mLegacyCameras (prov s)) (status_pairs (prov s)).
Proof.
  intros Hwf. set (s1 := s <| prov ::= fun p => p <| mCallbacks := Some cb |> |>).
  assert (provider_wf (prov s1)) as Hwf1 by (by destruct Hwf; split).
  destruct (report_loop cb (status_pairs (prov s)) s1 Hwf1 eq_refl (status_pairs_keys (prov s))) as (s2 & E & [W C L D] & M1 & M2 & K).
  exists s2. split_and!; [| by split | done | done]. unfold setCallback. rewrite (Cam_bind_eq _ _ _ tt s1) by done.
  rewrite (Cam_bind_eq _ _ _ (status_pairs (prov s)) s1) by done. by rewrite (Cam_bind_eq _ _ _ tt s2 E).
Qed.

Lemma torch_run (id : string) (st : Z) s : provider_wf (prov s) ->
  exists s', sTorchModeStatusChange id st s = Some (tt, s') /\ prov s' = prov s /\
    (forall cb, mCallbacks (prov s) = Some cb -> exists delta, prov_log s' = prov_log s ++ delta /\ Forall (to_client cb) delta /\
       foldl view_step (known (prov s)) delta = known (prov s)).
Proof.
  intros Hwf. unfold sTorchModeStatusChange. rewrite (Cam_bind_eq _ _ _ (mCallbacks (prov s)) s) by done.
  destruct (mCallbacks (prov s)) as [cb |] eqn:Ecb; [| exists s; by split_and!].
  rewrite (Cam_bind_eq _ _ _ (named id (prov s)) s), named_spec by done. destruct s as [p log]. cbn [prov] in *.
  destruct (bool_decide (id ∈ sv_list (mCameraIds p))); cbn [cam_for].
  - eexists. split; [etransitivity; [apply Cam_bind_eq, callback_run, Ecb | done] |]. split; [done |].
    intros cb' [= <-]. eexists. split; [done |]. split; [by repeat constructor | done].
  - eexists. split; [done |]. split; [done |]. intros cb' _. exists []. by rewrite app_nil_r.
Qed.

(** *** Listing *)

Definition listed p (q : string * string) : bool :=
  match stoi q.1 with
  | Some z => bool_decide (z ∈ mLegacyCameras p) && (default 0 (mCameraStatusMap p !! q.1) =? STATUS_PRESENT)
  | None => false
  end.

Lemma list_cameras_run (names : list (string * string)) (acc : list string) s :
  provider_wf (prov s) -> (forall q, q ∈ names -> is_Some (mCameraStatusMap (prov s) !! q.1)) ->
  list_cameras names acc s = Some (acc ++ (List.filter (listed (prov s)) names).*2, s).
Proof.
  intros Hwf. revert acc. induction names as [| q names IH]; intros acc Hn; [simpl; by rewrite app_nil_r |].
  destruct (Hn q (list_elem_of_here q names)) as [st Hst]. destruct (stoi_key q.1 (prov s) s Hwf) as (z & Hz & Ez & Er); [by rewrite Hst |].
  cbn [list_cameras List.filter]. rewrite (Cam_bind_eq _ _ _ z s Er), (Cam_bind_eq _ _ _ (mLegacyCameras (prov s)) s) by done.
  unfold listed at 1. rewrite Ez, stoi_to_text, <- Ez, Hst by done. cbn [from_option id]. case_bool_decide as Hle; cbn [negb andb].
  - rewrite (Cam_bind_eq _ _ _ tt s); [| unfold pset, cam_modify; destruct s as [[] log]; simpl in *; by rewrite Hst, insert_id].
    rewrite (Cam_bind_eq _ _ _ st s) by (unfold pget, cam_get; by rewrite Hst).
    rewrite IH by (intros q' Hq'; apply Hn; by constructor). destruct (st =? STATUS_PRESENT); [| done]. simpl. by rewrite <- app_assoc.
  - rewrite IH by (intros q' Hq'; apply Hn; by constructor). done.
Qed.

Lemma getCameraIdList_run (old : list string) s : provider_wf (prov s) ->
  getCameraIdList (Some old) s = Some ((CAM_OK, Some (old ++ (List.filter (listed (prov s)) (sv_list (mDeviceNames (prov s)))).*2)), s).
Proof.
  intros Hwf. unfold getCameraIdList. rewrite (Cam_bind_eq _ _ _ (sv_list (mDeviceNames (prov s))) s) by done.
  rewrite (Cam_bind_eq _ _ _ _ s (list_cameras_run _ old s Hwf ltac:(intros q [Hi _]%(wf_names _ Hwf); by apply (wf_ids _ Hwf)))). done.
Qed.

Lemma listed_nodup p : provider_wf p -> NoDup (List.filter (listed p) (sv_list (mDeviceNames p))).*2.
Proof.
  intros Hwf. apply NoDup_fmap_2_strong.
  - intros [a n] [b n'] Ha Hb E. apply list_elem_of_In, filter_In in Ha as [Ha%list_elem_of_In _]. apply list_elem_of_In, filter_In in Hb as [Hb%list_elem_of_In _].
    apply (wf_names p Hwf) in Ha as [_ Ea]. apply (wf_names p Hwf) in Hb as [_ Eb]. cbn [fst snd] in *. subst n n'. by apply name_inj in E as ->.
  - apply NoDup_ListNoDup, List.NoDup_filter, NoDup_ListNoDup, sv_nodup.
Qed.

Lemma listed_elem p (n : string) : provider_wf p ->
  n ∈ (List.filter (listed p) (sv_list (mDeviceNames p))).*2 <->
  exists z, is_i32 z /\ n = name_of z /\ n ∈ known p /\ z ∈ mLegacyCameras p /\ mCameraStatusMap p !! to_text z = Some STATUS_PRESENT.
Proof.
  intros Hwf. rewrite list_elem_of_fmap. split.
  - intros (q & -> & Hq). apply list_elem_of_In, filter_In in Hq as [Hq%list_elem_of_In Hl].
    pose proof (proj1 (wf_names p Hwf q) Hq) as [Hi En]. destruct (wf_ids p Hwf _ Hi) as [st Hst].
    destruct (wf_keys p Hwf q.1) as (z & Hz & Ez); [by rewrite Hst |]. unfold listed in Hl. rewrite Ez, stoi_to_text, <- Ez, Hst in Hl by done. simpl in Hl.
    apply andb_true_iff in Hl as [Hle%bool_decide_eq_true Hp%Z.eqb_eq]. exists z. split_and!; [done | by rewrite En, Ez | | done | by rewrite <- Ez, Hst, Hp].
    apply elem_of_list_to_set, list_elem_of_fmap. eauto.
  - intros (z & Hz & -> & Hk & Hle & Hst). exists (to_text z, name_of z). split; [done |]. apply list_elem_of_In, filter_In. rewrite <- list_elem_of_In. split.
    + apply (wf_names p Hwf). split; [by apply id_known | done].
    + unfold listed. cbn [fst]. rewrite stoi_to_text, Hst, bool_decide_true by done. done.
Qed.

(** *** Device objects *)

Lemma interface_known (m : CameraModule M) (z : Z) s : provider_wf (prov s) -> mModuleSet (prov s) = true -> is_i32 z -> name_of z ∈ known (prov s) ->
  let d := CameraDevice_new m (to_text z) (sv_list (mDeviceNames (prov s))) in
  getCameraDeviceInterface m (name_of z) true s = Some (if cd_mInitFail d then (CAM_INTERNAL_ERROR, None) else (CAM_OK, Some d), s).
Proof.
  intros Hwf Hm Hz Hk d. unfold getCameraDeviceInterface. cbn [negb]. unfold name_of at 1.
  rewrite matchDeviceName_name by (apply to_text_plain; unfold is_i32, is_i64 in *; lia).
  rewrite (Cam_bind_eq _ _ _ (mDeviceNames (prov s)) s), (Cam_bind_eq _ _ _ (mCameraIds (prov s)) s) by done.
  unfold sv_contains at 1. rewrite bool_decide_true by (apply (wf_names _ Hwf); split; [by apply id_known | done]). cbn [negb].
  rewrite (Cam_bind_eq _ _ _ true s) by (unfold pget, cam_get; by rewrite Hm). cbn [negb]. fold d. by destruct (cd_mInitFail d).
Qed.

Lemma interface_unknown (m : CameraModule M) (n : string) s : n ∉ known (prov s) ->
  exists st, getCameraDeviceInterface m n true s = Some ((st, None), s) /\ (st = CAM_ILLEGAL_ARGUMENT \/ st = CAM_OPERATION_NOT_SUPPORTED).
Proof.
  intros Hk. unfold getCameraDeviceInterface. cbn [negb]. destruct (matchDeviceName n) as [[v id] |]; [| eexists; split; [done | by left]].
  rewrite (Cam_bind_eq _ _ _ (mDeviceNames (prov s)) s), (Cam_bind_eq _ _ _ (mCameraIds (prov s)) s) by done.
  unfold sv_contains at 1. rewrite bool_decide_false; [| intros Hin; apply Hk, elem_of_list_to_set, list_elem_of_fmap; by exists (id, n)].
  cbn [negb]. eexists. split; [done |]. destruct (sv_contains _ _); auto.
Qed.

(** *** The provider in use *)

Inductive ProviderOp :=
  | PR_status (z st : Z)
  | PR_torch (id : string) (st : Z)
  | PR_setCallback (cb : option Z)
  | PR_list (ret : option (list string))
  | PR_interface (m : CameraModule M) (name : string)
  | PR_deviceState (newState : Z)
  | PR_vendorTags (ret : option (list VendorTagSection)).

Definition run_op {A} (m : Cam ProviderState A) s : option ProviderState := '(_, s) ← m s; Some s.

Definition provider_op (op : ProviderOp) : ProviderState -> option ProviderState :=
  match op with
  | PR_status z st => run_op (sCameraDeviceStatusChange z st)
  | PR_torch id st => run_op (sTorchModeStatusChange id st)
  | PR_setCallback cb => run_op (setCallback cb)
  | PR_list ret => run_op (getCameraIdList ret)
  | PR_interface m name => run_op (getCameraDeviceInterface m name true)
  | PR_deviceState st => run_op (notifyDeviceStateChange st)
  | PR_vendorTags ret => run_op (getVendorTags ret)
  end.

Fixpoint provider_ops (ops : list ProviderOp) s : option ProviderState :=
  match ops with
  | [] => Some s
  | op :: ops => s ← provider_op op s; provider_ops ops s
  end.

(** The module numbers cameras by an [int]. *)
Definition op_ok (op : ProviderOp) : Prop := match op with PR_status z _ => is_i32 z | _ => True end.

Lemma run_op_eq {A} (m : Cam ProviderState A) s x s' : m s = Some (x, s') -> run_op m s = Some s'.
Proof. intros E. unfold run_op. by rewrite E. Qed.

Definition in_service s : Prop := provider_wf (prov s) /\ mModuleSet (prov s) = true.

Lemma known_i32 (n : string) p : provider_wf p -> n ∈ known p -> exists z, is_i32 z /\ n = name_of z.
Proof.
  intros Hwf Hn. apply (elem_known p n Hwf) in Hn as (id & Hi & ->). destruct (wf_keys p Hwf id (wf_ids p Hwf id Hi)) as (z & Hz & ->). by exists z.
Qed.

Lemma provider_op_total (op : ProviderOp) s : op_ok op -> in_service s -> exists s', provider_op op s = Some s' /\ in_service s'.
Proof.
  intros Hok [Hwf Hm]. destruct op as [z st | id st | cb | ret | m name | st | ret]; cbn [provider_op op_ok] in *.
  - eexists. split; [apply run_op_eq with (x := tt), status_change_run, Hwf |]. destruct (mCallbacks (prov s)) as [cb |] eqn:Ecb.
    + destruct (status_effect_followed cb z st s Hok Hwf Ecb) as [[W _ _ _] _]. split; [done |].
      unfold status_effect. destruct (bool_decide _); [by destruct (st =? STATUS_NOT_PRESENT) | by destruct (_ || _)].
    + split; [by apply (set_status_wf _ z) | done].
  - destruct (torch_run id st s Hwf) as (s' & E & Ep & _). exists s'. split; [by eapply run_op_eq |]. split; by rewrite Ep.
  - destruct cb as [cb |].
    + destruct (setCallback_run cb s Hwf) as (s' & E & F & E2 & _). exists s'. split; [by eapply run_op_eq |]. split; [apply F | congruence].
    + eexists. split; [by apply run_op_eq with (x := CAM_OK) |]. split; [by destruct Hwf; split | done].
  - destruct ret as [old |]; [| by exists s]. exists s. split; [eapply run_op_eq, getCameraIdList_run, Hwf | done].
  - exists s. split; [| done]. destruct (decide (name ∈ known (prov s))) as [Hk | Hk].
    + destruct (known_i32 name _ Hwf Hk) as (z & Hz & ->). by eapply run_op_eq, interface_known.
    + destruct (interface_unknown m name s Hk) as (st & E & _). by eapply run_op_eq.
  - exists (s <| prov_log ::= fun l => l ++ [MODULE_notifyDeviceStateChange (u64 st)] |>). split; [| done].
    apply run_op_eq with (x := CAM_OK). unfold notifyDeviceStateChange.
    by rewrite (Cam_bind_eq _ _ _ true s) by (unfold pget, cam_get; by rewrite Hm).
  - destruct ret; by exists s.
Qed.

Lemma provider_ops_total (ops : list ProviderOp) s : Forall op_ok ops -> in_service s -> exists s', provider_ops ops s = Some s' /\ in_service s'.
Proof.
  intros Hops. revert s. induction Hops as [| op ops Hop _ IH]; intros s Hs; [by exists s |]. cbn [provider_ops].
  destruct (provider_op_total op s Hop Hs) as (s1 & -> & Hs1). by apply IH.
Qed.

(** *** Start *)

(** The built-in cameras [acc] were found. *)
Record started (acc : list Z) p : Prop := {
  sd_wf : provider_wf p;
  sd_callbacks : mCallbacks p = None;
  sd_legacy : mLegacyCameras p = list_to_set acc;
  sd_ids : forall id, id ∈ sv_list (mCameraIds p) <-> exists i, i ∈ acc /\ id = to_text i;
  sd_status : forall i, i ∈ acc -> mCameraStatusMap p !! to_text i = Some STATUS_PRESENT
}.

Lemma started_add (acc : list Z) (i : Z) p : is_i32 i -> started acc p ->
  started (acc ++ [i]) (add_names (to_text i) (p <| mLegacyCameras ::= union {[i]} |> <| mCameraStatusMap ::= <[to_text i := STATUS_PRESENT]> |>)).
Proof.
  intros Hi [W C L D S]. split.
  - apply add_names_wf; [| simpl; by rewrite lookup_insert_eq]. apply (set_status_wf _ i); [done | done |]. by destruct W; split.
  - done.
  - simpl. rewrite L, list_to_set_app_L. simpl. set_solver.
  - intros id. simpl. rewrite sv_elem_add, D. split.
    + intros [-> | (j & Hj & ->)]; [exists i | exists j]; (split; [apply elem_of_app; rewrite list_elem_of_singleton; auto | done]).
    + intros (j & [Hj | ->%list_elem_of_singleton]%elem_of_app & ->); eauto.
  - intros j [Hj | ->%list_elem_of_singleton]%elem_of_app; simpl; [| by rewrite lookup_insert_eq].
    destruct (decide (to_text i = to_text j)) as [-> | Hne]; [by rewrite lookup_insert_eq | rewrite lookup_insert_ne by done; auto].
Qed.

Definition answers (m : CameraModule M) (i : Z) : bool := (cm_getCameraInfo m i).1 =? 0.

Lemma add_legacy_started (m : CameraModule M) (skip : bool) (ids acc : list Z) s s' :
  Forall is_i32 ids -> started acc (prov s) -> add_legacy_cameras m skip ids s = Some (false, s') ->
  started (acc ++ List.filter (answers m) ids) (prov s') /\ mModuleSet (prov s') = mModuleSet (prov s).
Proof.
  intros Hids. revert acc s. induction Hids as [| i ids Hi _ IH]; intros acc s Hs Hr; cbn [add_legacy_cameras] in Hr.
  { unfold mret, Cam_ret in Hr. simplify_eq. cbn [List.filter]. by rewrite app_nil_r. }
  cbn [List.filter]. unfold answers at 1. destruct (cm_getCameraInfo m i) as [rc info]. cbn [fst]. destruct (rc =? 0); cbn [negb] in Hr.
  - destruct (negb (checkCameraVersion true m info =? DEV_OK)); [done |].
    rewrite cons_middle, app_assoc. destruct s as [p log]. exact (IH _ (mkProviderState _ log) (started_add acc i p Hi Hs) Hr).
  - destruct skip; [by apply (IH acc s) | done].
Qed.

Lemma early_started (early : list (Z * Z)) s : Forall (fun ev => is_i32 ev.1) early -> started [] (prov s) ->
  exists s', cam_for early (fun ev => sCameraDeviceStatusChange ev.1 ev.2) s = Some (tt, s') /\ started [] (prov s') /\ mModuleSet (prov s') = mModuleSet (prov s).
Proof.
  intros He. revert s. induction He as [| ev early Hev _ IH]; intros s Hs; [by exists s |]. cbn [cam_for].
  pose proof (status_change_run ev.1 ev.2 s (sd_wf _ _ Hs)) as Er. rewrite (sd_callbacks _ _ Hs) in Er.
  rewrite (Cam_bind_eq _ _ _ tt _ Er). destruct (IH (s <| prov ::= fun p => p <| mCameraStatusMap ::= <[to_text ev.1 := ev.2]> |> |>)) as (s' & E & S & M1).
  - destruct Hs as [W C L D S]. split; [by apply (set_status_wf _ ev.1) | done | done | done |]. intros i Hi. by apply elem_of_nil in Hi.
  - by exists s'.
Qed.

Lemma legacy_map_i32 (n : Z) (prop : string) (ids : list Z) : is_i32 n -> getLegacyCameraIdMap n prop = Some ids -> Forall is_i32 ids.
Proof.
  intros Hn Hr. unfold getLegacyCameraIdMap in Hr. destruct (Z.ltb_spec n 0); [done |]. simplify_eq.
  assert (Forall is_i32 (seqZ 0 n)) as Hs by (apply Forall_forall; intros i Hi%elem_of_seqZ; unfold is_i32 in *; lia).
  destruct (String.eqb prop ""); [done |]. apply Forall_lookup. intros k i Hk. rewrite list_lookup_imap in Hk.
  destruct (seqZ 0 n !! k) as [i0 |] eqn:E; [| done]. simpl in Hk. injection Hk as <-.
  assert (is_i32 i0) as Hi0 by (eapply Forall_lookup in Hs; [exact Hs | exact E]).
  destruct (Split prop " " !! k) as [t |]; cbn [mbind option_bind]; [| done]. destruct (ParseInt t) as [z |] eqn:Ep; [| done]. by eapply ParseInt_range.
Qed.

Lemma CameraProvider_new_started (ms : ModuleStart M) (prop : string) (skip : bool) (early : list (Z * Z)) s :
  is_i32 (ms_numberOfCameras ms) -> Forall (fun ev => is_i32 ev.1) early -> CameraProvider_new ms prop skip early = Some (false, s) ->
  exists ids, getLegacyCameraIdMap (ms_numberOfCameras ms) prop = Some ids /\
    started (List.filter (answers (ms_module ms)) ids) (prov s) /\ mModuleSet (prov s) = true.
Proof.
  intros Hn He Hr. unfold CameraProvider_new, CameraProvider_initialize in Hr. destruct (_ <? 0); [done |].
  set (s0 := mkProviderState (CameraProvider_empty <| mModuleSet := true |>) []).
  rewrite (Cam_bind_eq _ _ _ tt s0) in Hr by done. destruct (negb (ms_init ms =? DEV_OK)); [done |].
  assert (started [] (prov s0)) as Hs0.
  { split; [split | done | done | |]; simpl.
    - intros q. rewrite !sv_list_empty. split; [by intros ?%elem_of_nil | by intros [?%elem_of_nil _]].
    - intros id. rewrite sv_list_empty. by intros ?%elem_of_nil.
    - intros k [x Hx]. by rewrite lookup_empty in Hx.
    - intros id. rewrite sv_list_empty. split; [by intros ?%elem_of_nil | by intros (i & ?%elem_of_nil & _)].
    - intros i Hi. by apply elem_of_nil in Hi. }
  cam_bind Hr b s1 E1. assert (started [] (prov s1) /\ mModuleSet (prov s1) = true) as [Hs1 Hm1].
  { unfold setUpVendorTags in E1. destruct (negb (vt_defined _)); [by cam_unit E1 |]. destruct (negb (vt_complete _)); [by cam_unit E1 |].
    destruct (vt_descriptor _) as [res desc]. destruct (negb (res =? DEV_OK)); [by cam_unit E1 |]. destruct (tags_by_section _ _); [| done].
    cam_bind E1 u s2 E2. unfold pset in E2. cam_unit E2. cam_unit E1. split; [| done]. destruct Hs0 as [[] ? ? ? ?]; split; [by split | done ..]. }
  destruct (early_started early s1 He Hs1) as (s2 & E2 & Hs2 & Hm2). rewrite (Cam_bind_eq _ _ _ tt s2 E2) in Hr.
  destruct (negb (ms_setCallbacks ms =? DEV_OK)); [done |].
  set (s3 := s2 <| prov ::= fun p => p <| mNumberOfLegacyCameras := ms_numberOfCameras ms |> |>). rewrite (Cam_bind_eq _ _ _ tt s3) in Hr by done.
  destruct (getLegacyCameraIdMap _ _) as [ids |] eqn:Eids; [| done]. exists ids. split; [done |].
  assert (started [] (prov s3)) as Hs3 by (destruct Hs2 as [[] ? ? ? ?]; split; [by split | done ..]).
  apply add_legacy_started with (acc := []) in Hr as [Hr Hm]; [| by eapply legacy_map_i32 | done]. split; [done |]. rewrite Hm. simpl. congruence.
Qed.

End known.


(** C25. The client's picture is right: from the moment a client registers, the
    provider reports to that client exactly the changes of what it knows;
    replaying its messages over the cameras known before gives the cameras
    known after, for every sequence of reports of the module.  These are the
    cameras known before and the external ones present at the registration,
    changed by each report in turn. *)
Theorem provider_client_view {M : Type} `{SortedVectorLaws string String.le}
    `{SortedVectorLaws (string * string) pair_le} `{AndroidStrings}
    (cb : Z) (evs : list (Z * Z)) (s s' : ProviderState) (Hwf : provider_wf (prov s)) (Hevs : Forall (fun ev => is_i32 ev.1) evs)
    (Hrun : provider_ops (M := M) (PR_setCallback (Some cb) :: ((fun ev => PR_status ev.1 ev.2) <$> evs)) s = Some s') :
  known (prov s') = foldl apply_report (known (prov s) ∪ reported (mLegacyCameras (prov s)) (status_pairs (prov s))) evs /\
  exists messages, prov_log s' = prov_log s ++ messages /\ Forall (to_client cb) messages /\
    foldl view_step (known (prov s)) messages = known (prov s').
Proof.
  cbn [provider_ops provider_op] in Hrun. destruct (setCallback_run cb s Hwf) as (s1 & E & F & _ & K).
  rewrite (run_op_eq _ _ _ _ E) in Hrun. cbn [mbind option_bind] in Hrun. rewrite <- K. clear K E.
  assert (forall s1, followed cb s s1 -> provider_ops (M := M) ((fun ev => PR_status ev.1 ev.2) <$> evs) s1 = Some s' ->
    followed cb s s' /\ known (prov s') = foldl apply_report (known (prov s1)) evs) as Hind.
  { clear s1 F Hrun. induction Hevs as [| ev evs Hev _ IH]; intros s1 F Hrun; [by injection Hrun as <- |].
    cbn [fmap list_fmap provider_ops provider_op] in Hrun.
    pose proof (status_change_run ev.1 ev.2 s1 (fo_wf _ _ _ F)) as Er. rewrite (fo_callbacks _ _ _ F) in Er.
    rewrite (run_op_eq _ _ _ _ Er) in Hrun. cbn [mbind option_bind] in Hrun.
    destruct (status_effect_followed cb ev.1 ev.2 s1 Hev (fo_wf _ _ _ F) (fo_callbacks _ _ _ F)) as [F1 K1].
    destruct (IH _ (followed_trans _ _ _ _ F F1) Hrun) as [F2 K2]. split; [done |]. rewrite K2, K1. by destruct ev. }
  destruct (Hind s1 F Hrun) as [F2 K2]. split; [done |]. exact (fo_messages _ _ _ F2).
Qed.

(** ** A sorted vector as a set *)

Section sorted_set.
Context {A : Type} (le : relation A) `{Countable A, RelDecision A A le, PartialOrder A le, Total A le}.

Definition set_vector : SortedVector A :=
  {| sv := gset A; sv_empty := ∅; sv_add x v := {[x]} ∪ v; sv_remove x v := v ∖ {[x]}; sv_list v := merge_sort le (elements v) |}.

Lemma set_vector_elem (x : A) (v : gset A) : x ∈ merge_sort le (elements v) <-> x ∈ v.
Proof. by rewrite (merge_sort_Permutation le (elements v)), elem_of_elements. Qed.

Lemma set_vector_laws : @SortedVectorLaws A le set_vector.
Proof.
  split; simpl.
  - done.
  - intros x y v. rewrite !set_vector_elem. set_solver.
  - intros x y v. rewrite !set_vector_elem. set_solver.
  - intros v. rewrite merge_sort_Permutation. apply NoDup_elements.
  - intros v. apply StronglySorted_merge_sort; apply _.
Qed.

End sorted_set.

#[export] Instance pair_le_dec : RelDecision pair_le.
Proof.
  intros p q. destruct (decide (String.le p.1 q.1)) as [H1 |]; [| right; by intros [? _]].
  destruct (decide (p.1 = q.1)) as [E |]; [| left; by split].
  destruct (decide (String.le p.2 q.2)); [left; by split | right; intros [_ K]; auto].
Defined.

#[export] Instance pair_le_po : PartialOrder pair_le.
Proof.
  split; [split |].
  - intros p. by split.
  - intros p q r [H1 H2] [H3 H4]. split; [by transitivity q.1 |]. intros E.
    assert (p.1 = q.1) as E1 by (apply (anti_symm String.le); [done | by rewrite E]). transitivity q.2; [auto |]. apply H4. congruence.
  - intros [a b] [c d] [H1 H2] [H3 H4]. simpl in *. assert (a = c) as -> by (by apply (anti_symm String.le)). f_equal. apply (anti_symm String.le); auto.
Qed.

#[export] Instance pair_le_total : Total pair_le.
Proof.
  intros [a b] [c d]. unfold pair_le. simpl. destruct (total String.le a c) as [H1 | H1], (decide (a = c)) as [-> | Hne].
  - destruct (total String.le b d); [left | right]; by split.
  - left. by split.
  - destruct (total String.le b d); [left | right]; by split.
  - right. split; [done | congruence].
Qed.

#[export] Instance string_vector : SortedVector string := set_vector String.le.
#[export] Instance string_vector_laws : SortedVectorLaws string String.le := set_vector_laws String.le.
#[export] Instance name_vector : SortedVector (string * string) := set_vector pair_le.
#[export] Instance name_vector_laws : SortedVectorLaws (string * string) pair_le := set_vector_laws pair_le.

(** ** Examples *)

Definition no_tags : VendorTagSource := mkVendorTagSource false false (0, mkVendorTagDescriptor [] []).

(** Two built-in cameras, the second remapped to 3. *)
Definition example_module_start : ModuleStart ToyMetadata := mkModuleStart 0 0 0 2 no_tags example_module.

Definition provider_default : ProviderState := mkProviderState CameraProvider_empty [].

Definition started_provider : ProviderState := default provider_default (snd <$> CameraProvider_new example_module_start "0 3" false [(5, 1)]).

Definition after (ops : list (ProviderOp (M := ToyMetadata))) (s : ProviderState) : ProviderState := default provider_default (provider_ops ops s).

Lemma started_provider_eq : CameraProvider_new example_module_start "0 3" false [(5, 1)] = Some (false, started_provider).
Proof.
  assert (fst <$> CameraProvider_new example_module_start "0 3" false [(5, 1)] = Some false) as E by (vm_compute; reflexivity).
  unfold started_provider. by destruct (CameraProvider_new _ _ _ _) as [[b s] |]; simplify_eq/=.
Qed.

Lemma after_eq (ops : list (ProviderOp (M := ToyMetadata))) (s : ProviderState) :
  (if provider_ops ops s then true else false) = true -> provider_ops ops s = Some (after ops s).
Proof. unfold after. by destruct (provider_ops ops s). Qed.

Definition example_ops : list (ProviderOp (M := ToyMetadata)) :=
  [PR_setCallback (Some 7); PR_status 0 0; PR_status 6 2; PR_torch "3" 1; PR_list (Some [])].


Lemma started_provider_wf : provider_wf (prov started_provider).
Proof.
  pose proof started_provider_eq as E.
  apply CameraProvider_new_started in E as (ids & _ & Hs & _); [by eapply sd_wf | unfold is_i32; simpl; lia | repeat constructor; simpl; unfold is_i32; lia].
Qed.

Example provider_client_view_witness :
  prov_log (after [PR_setCallback (Some 7); PR_status 0 1; PR_status 5 2] started_provider) =
    [CB_cameraDeviceStatusChange 7 (name_of 5) 1; CB_cameraDeviceStatusChange 7 (name_of 0) 1; CB_cameraDeviceStatusChange 7 (name_of 5) 2] /\
  exists s', provider_ops (M := ToyMetadata) [PR_setCallback (Some 7); PR_status 0 1; PR_status 5 2] started_provider = Some s' /\
    exists messages, prov_log s' = prov_log started_provider ++ messages /\ Forall (to_client 7) messages /\
      foldl view_step (known (prov started_provider)) messages = known (prov s').
Proof.
  split; [vm_compute; reflexivity |].
  exists (after [PR_setCallback (Some 7); PR_status 0 1; PR_status 5 2] started_provider).
  assert (provider_ops (M := ToyMetadata) [PR_setCallback (Some 7); PR_status 0 1; PR_status 5 2] started_provider =
    Some (after [PR_setCallback (Some 7); PR_status 0 1; PR_status 5 2] started_provider)) as E by (apply after_eq; vm_compute; reflexivity).
  split; [exact E |].
  apply (provider_client_view (M := ToyMetadata) 7 [(0, 1); (5, 2)] started_provider _ started_provider_wf); [| exact E].
  repeat constructor; simpl; unfold is_i32; lia.
Defined.

(** A camera that goes is reported twice. *)
Theorem departure_reported_twice :
  prov_log (after [PR_setCallback (Some 7); PR_status 3 0] (after [PR_status 5 0] started_provider)) =
    [CB_cameraDeviceStatusChange 7 (name_of 3) 0; CB_cameraDeviceStatusChange 7 (name_of 3) 0; MODULE_removeCamera 3].
Proof. vm_compute. reflexivity. Qed.

(** A built-in camera that returns while no client is registered is present but
    stays unknown; an external one that goes then stays known. *)
Theorem changes_without_client_missed :
  let s1 := after [PR_setCallback (Some 7); PR_status 3 0; PR_setCallback None; PR_status 3 1; PR_setCallback (Some 8)] started_provider in
  let s2 := after [PR_setCallback (Some 7); PR_setCallback None; PR_status 5 0; PR_setCallback (Some 8)] started_provider in
  (mCameraStatusMap (prov s1) !! "3" = Some STATUS_PRESENT /\ sv_list (mCameraIds (prov s1)) = ["0"; "5"]) /\
  (mCameraStatusMap (prov s2) !! "5" = Some STATUS_NOT_PRESENT /\ sv_list (mCameraIds (prov s2)) = ["0"; "3"; "5"]).
Proof. vm_compute. repeat split; reflexivity. Qed.
