(* ===== verification/RadioTypes.v ===== *)
(** * Data of the radio interfaces

    The telephony interfaces [android.hardware.radio] 1.0 to 1.4 exchange
    structures that are declared outside the repository.  Those the wrappers
    only pass on are opaque types, one for each name of [HidlName]; those
    whose fields the wrappers read or fill are records with these fields, and
    a component [_rest] for fields that no code names.  Enumerations are the
    32-bit numbers that travel over the binder, with the named values the code
    uses in the class [RadioEnums]; the documented facts about the values are
    [RadioEnumLaws], with the published numbers as [published_enums]. *)

From Stdlib Require Import Ascii String.
From S2P Require Import Prelude Text.

(** ** Opaque structures *)

Inductive HidlName : Set :=
  | V1_0_ActivityStatsInfo | V1_0_Call | V1_0_CallForwardInfo | V1_0_CardStatus | V1_0_CdmaBroadcastSmsConfigInfo
  | V1_0_CdmaCallWaiting | V1_0_CdmaInformationRecords | V1_0_CdmaSignalInfoRecord | V1_0_CdmaSmsAck | V1_0_CdmaSmsMessage
  | V1_0_CdmaSmsWriteArgs | V1_0_Dial | V1_0_GsmBroadcastSmsConfigInfo | V1_0_GsmSmsMessage | V1_0_HardwareConfig
  | V1_0_IccIo | V1_0_IccIoResult | V1_0_ImsSmsMessage | V1_0_LastCallFailCauseInfo | V1_0_LceDataInfo
  | V1_0_LceStatusInfo | V1_0_NeighboringCell | V1_0_NvWriteItem | V1_0_OperatorInfo | V1_0_PcoDataInfo
  | V1_0_RadioCapability | V1_0_SelectUiccSub | V1_0_SendSmsResult | V1_0_SimApdu | V1_0_SimRefreshResult
  | V1_0_SmsWriteArgs | V1_0_StkCcUnsolSsResult | V1_0_SuppSvcNotification | V1_1_ImsiEncryptionInfo
  | V1_1_KeepaliveRequest | V1_1_KeepaliveStatus | V1_1_RadioAccessSpecifier | V1_2_LinkCapacityEstimate
  | V1_2_PhysicalChannelConfig | V1_4_EmergencyNumber | V1_0_GsmSignalStrength | V1_0_CdmaSignalStrength
  | V1_0_EvdoSignalStrength | V1_0_LteSignalStrength | V1_0_CellIdentityGsm | V1_0_CellIdentityCdma
  | V1_0_CellIdentityLte | V1_0_CellIdentityWcdma | V1_0_CellIdentityTdscdma | V1_0_Carrier
  | V1_2_CellIdentityOperatorNames | V1_4_CellInfoNr
  | V1_0_DataProfileInfo_rest | V1_4_DataProfileInfo_rest | V1_2_CardStatus_rest | V1_2_NetworkScanRequest_rest
  | V1_4_DataRegStateResult_rest | V1_4_PhysicalChannelConfig_rest.

(** The structures, and the value [= {}] initialises each with. *)
Class HidlData := {
  hidl : HidlName -> Type;
  hidl_zero : forall n, hidl n
}.

(** ** Enumerations *)

Inductive Version := V1_0 | V1_1 | V1_2 | V1_3 | V1_4.

Inductive RadioAccessFamily :=
  | RAF_GSM | RAF_GPRS | RAF_EDGE | RAF_IS95A | RAF_IS95B | RAF_ONE_X_RTT | RAF_EVDO_0 | RAF_EVDO_A | RAF_EVDO_B | RAF_EHRPD
  | RAF_HSUPA | RAF_HSDPA | RAF_HSPA | RAF_HSPAP | RAF_UMTS | RAF_LTE | RAF_LTE_CA | RAF_TD_SCDMA.

#[export] Instance RadioAccessFamily_eq_dec : EqDecision RadioAccessFamily.
Proof. solve_decision. Defined.

(** The values of [V1_0::PreferredNetworkType]; a value that travels over the
    binder may be none of them. *)
Inductive PreferredNetworkType :=
  | GSM_WCDMA | GSM_ONLY | WCDMA | GSM_WCDMA_AUTO | CDMA_EVDO_AUTO | CDMA_ONLY | EVDO_ONLY | GSM_WCDMA_CDMA_EVDO_AUTO
  | LTE_CDMA_EVDO | LTE_GSM_WCDMA | LTE_CMDA_EVDO_GSM_WCDMA | LTE_ONLY | LTE_WCDMA | TD_SCDMA_ONLY | TD_SCDMA_WCDMA
  | TD_SCDMA_LTE | TD_SCDMA_GSM | TD_SCDMA_GSM_LTE | TD_SCDMA_GSM_WCDMA | TD_SCDMA_WCDMA_LTE | TD_SCDMA_GSM_WCDMA_LTE
  | TD_SCDMA_GSM_WCDMA_CDMA_EVDO_AUTO | TD_SCDMA_LTE_CDMA_EVDO_GSM_WCDMA
  | PreferredNetworkType_other (z : Z).

Class RadioEnums := {
  (** the bit of a family in a bitfield *)
  raf_bit : RadioAccessFamily -> Z;
  POWER_UP_PASS_THROUGH : Z;
  IndicationFilter_ALL : Z;
  REASON_SHUTDOWN : Z;
  NO_MULTISIM_POLICY : Z;
  REG_ROAMING : Z;
  AudioQuality_UNSPECIFIED : Z;
  MvnoType_NONE : Z;
  RadioTechnology_UNKNOWN : Z;
  RadioTechnology_1_4_UNKNOWN : Z;
  PDP_UNKNOWN : Z;
  PDP_IP : Z;
  PDP_IPV6 : Z;
  PDP_IPV4V6 : Z;
  PDP_PPP : Z;
  PDP_NON_IP : Z;
  PDP_UNSTRUCTURED : Z
}.

(** What the interface documents: families have a bit each, protocol types are
    numbered from zero and the unknown type is below. *)
Class RadioEnumLaws (E : RadioEnums) := {
  raf_bit_inj : forall f g, raf_bit f = raf_bit g -> f = g;
  raf_bit_range : forall f, 0 <= raf_bit f < 31;
  pdp_numbers : [PDP_UNKNOWN; PDP_IP; PDP_IPV6; PDP_IPV4V6; PDP_PPP; PDP_NON_IP; PDP_UNSTRUCTURED] = [-1; 0; 1; 2; 3; 4; 5]
}.

(** The published numbers. *)
Definition published_enums : RadioEnums := {|
  raf_bit := fun f => match f with
    | RAF_GPRS => 1 | RAF_EDGE => 2 | RAF_UMTS => 3 | RAF_IS95A => 4 | RAF_IS95B => 5 | RAF_ONE_X_RTT => 6 | RAF_EVDO_0 => 7
    | RAF_EVDO_A => 8 | RAF_HSDPA => 9 | RAF_HSUPA => 10 | RAF_HSPA => 11 | RAF_EVDO_B => 12 | RAF_EHRPD => 13 | RAF_LTE => 14
    | RAF_HSPAP => 15 | RAF_GSM => 16 | RAF_TD_SCDMA => 17 | RAF_LTE_CA => 19 end;
  POWER_UP_PASS_THROUGH := 2; IndicationFilter_ALL := 7; REASON_SHUTDOWN := 2; NO_MULTISIM_POLICY := 0; REG_ROAMING := 5;
  AudioQuality_UNSPECIFIED := 0; MvnoType_NONE := 0; RadioTechnology_UNKNOWN := 0; RadioTechnology_1_4_UNKNOWN := 0;
  PDP_UNKNOWN := -1; PDP_IP := 0; PDP_IPV6 := 1; PDP_IPV4V6 := 2; PDP_PPP := 3; PDP_NON_IP := 4; PDP_UNSTRUCTURED := 5
|}.

#[export] Instance published_enum_laws : RadioEnumLaws published_enums.
Proof. split; [by intros [] [] | by intros [] | done]. Qed.

(** ** Structures the wrappers read or fill *)

Section Structures.
Context `{HidlData}.

Record V1_0_RadioResponseInfo := mkRadioResponseInfo { ri_type : Z; ri_serial : Z; ri_error : Z }.

(** Signal strengths. *)
Record V1_0_TdScdmaSignalStrength := mkTd0 { td0_rscp : Z }.
Record V1_2_TdscdmaSignalStrength := mkTd2 { td2_signalStrength : Z; td2_bitErrorRate : Z; td2_rscp : Z }.
Record V1_0_WcdmaSignalStrength := mkWss0 { ws0_signalStrength : Z; ws0_bitErrorRate : Z }.
Record V1_2_WcdmaSignalStrength := mkWss2 { ws2_base : V1_0_WcdmaSignalStrength; ws2_rscp : Z; ws2_ecno : Z }.
Record V1_4_NrSignalStrength := mkNr {
  nr_ssRsrp : Z; nr_ssRsrq : Z; nr_ssSinr : Z; nr_csiRsrp : Z; nr_csiRsrq : Z; nr_csiSinr : Z }.

Record V1_0_SignalStrength := mkSignal0 {
  ss0_gw : hidl V1_0_GsmSignalStrength; ss0_cdma : hidl V1_0_CdmaSignalStrength; ss0_evdo : hidl V1_0_EvdoSignalStrength;
  ss0_lte : hidl V1_0_LteSignalStrength; ss0_tdScdma : V1_0_TdScdmaSignalStrength }.
Record V1_2_SignalStrength := mkSignal2 {
  ss2_gsm : hidl V1_0_GsmSignalStrength; ss2_cdma : hidl V1_0_CdmaSignalStrength; ss2_evdo : hidl V1_0_EvdoSignalStrength;
  ss2_lte : hidl V1_0_LteSignalStrength; ss2_tdScdma : V1_0_TdScdmaSignalStrength; ss2_wcdma : V1_2_WcdmaSignalStrength }.
Record V1_4_SignalStrength := mkSignal4 {
  ss4_gsm : hidl V1_0_GsmSignalStrength; ss4_cdma : hidl V1_0_CdmaSignalStrength; ss4_evdo : hidl V1_0_EvdoSignalStrength;
  ss4_lte : hidl V1_0_LteSignalStrength; ss4_tdscdma : V1_2_TdscdmaSignalStrength; ss4_wcdma : V1_2_WcdmaSignalStrength;
  ss4_nr : V1_4_NrSignalStrength }.

(** Cells.  A structure of version 1.0 holds at most one of its vectors. *)
Record V1_2_CellIdentityGsm := mkIdGsm2 { idg2_base : hidl V1_0_CellIdentityGsm; idg2_operatorNames : hidl V1_2_CellIdentityOperatorNames }.
Record V1_2_CellIdentityCdma := mkIdCdma2 { idc2_base : hidl V1_0_CellIdentityCdma; idc2_operatorNames : hidl V1_2_CellIdentityOperatorNames }.
Record V1_2_CellIdentityLte := mkIdLte2 {
  idl2_base : hidl V1_0_CellIdentityLte; idl2_operatorNames : hidl V1_2_CellIdentityOperatorNames; idl2_bandwidth : Z }.
Record V1_2_CellIdentityWcdma := mkIdWcdma2 { idw2_base : hidl V1_0_CellIdentityWcdma; idw2_operatorNames : hidl V1_2_CellIdentityOperatorNames }.
Record V1_2_CellIdentityTdscdma := mkIdTd2 {
  idt2_base : hidl V1_0_CellIdentityTdscdma; idt2_uarfcn : Z; idt2_operatorNames : hidl V1_2_CellIdentityOperatorNames }.

Record V1_0_CellIdentity := mkIdentity0 {
  id0_cellInfoType : Z; cellIdentityGsm0 : list (hidl V1_0_CellIdentityGsm); cellIdentityWcdma0 : list (hidl V1_0_CellIdentityWcdma);
  cellIdentityCdma0 : list (hidl V1_0_CellIdentityCdma); cellIdentityLte0 : list (hidl V1_0_CellIdentityLte);
  cellIdentityTdscdma0 : list (hidl V1_0_CellIdentityTdscdma) }.
Record V1_2_CellIdentity := mkIdentity2 {
  id2_cellInfoType : Z; cellIdentityGsm2 : list V1_2_CellIdentityGsm; cellIdentityWcdma2 : list V1_2_CellIdentityWcdma;
  cellIdentityCdma2 : list V1_2_CellIdentityCdma; cellIdentityLte2 : list V1_2_CellIdentityLte;
  cellIdentityTdscdma2 : list V1_2_CellIdentityTdscdma }.
(** The value [= {}] of the last one. *)
Definition identity2_zero : V1_2_CellIdentity := mkIdentity2 0 [] [] [] [] [].

Record V1_0_CellInfoGsm := mkGsm0 { gsm0_identity : hidl V1_0_CellIdentityGsm; gsm0_signal : hidl V1_0_GsmSignalStrength }.
Record V1_0_CellInfoCdma := mkCdma0 {
  cdma0_identity : hidl V1_0_CellIdentityCdma; cdma0_signal : hidl V1_0_CdmaSignalStrength; cdma0_evdo : hidl V1_0_EvdoSignalStrength }.
Record V1_0_CellInfoLte := mkLte0 { lte0_identity : hidl V1_0_CellIdentityLte; lte0_signal : hidl V1_0_LteSignalStrength }.
Record V1_0_CellInfoWcdma := mkWcdma0 { wcdma0_identity : hidl V1_0_CellIdentityWcdma; wcdma0_signal : V1_0_WcdmaSignalStrength }.
Record V1_0_CellInfoTdscdma := mkTdscdma0 { tdscdma0_identity : hidl V1_0_CellIdentityTdscdma; tdscdma0_signal : V1_0_TdScdmaSignalStrength }.

Record V1_2_CellInfoGsm := mkGsm2 { gsm2_identity : V1_2_CellIdentityGsm; gsm2_signal : hidl V1_0_GsmSignalStrength }.
Record V1_2_CellInfoCdma := mkCdma2 {
  cdma2_identity : V1_2_CellIdentityCdma; cdma2_signal : hidl V1_0_CdmaSignalStrength; cdma2_evdo : hidl V1_0_EvdoSignalStrength }.
Record V1_2_CellInfoLte := mkLte2 { lte2_identity : V1_2_CellIdentityLte; lte2_signal : hidl V1_0_LteSignalStrength }.
Record V1_2_CellInfoWcdma := mkWcdma2 { wcdma2_identity : V1_2_CellIdentityWcdma; wcdma2_signal : V1_2_WcdmaSignalStrength }.
Record V1_2_CellInfoTdscdma := mkTdscdma2 { tdscdma2_identity : V1_2_CellIdentityTdscdma; tdscdma2_signal : V1_2_TdscdmaSignalStrength }.
Record V1_4_CellInfoLte := mkLte4 { lte4_base : V1_2_CellInfoLte; lte4_isEndcAvailable : bool }.

Record V1_0_CellInfo := mkCell0 {
  ci0_cellInfoType : Z; ci0_registered : bool; ci0_timeStampType : Z; ci0_timeStamp : Z; ci0_gsm : list V1_0_CellInfoGsm;
  ci0_cdma : list V1_0_CellInfoCdma; ci0_lte : list V1_0_CellInfoLte; ci0_wcdma : list V1_0_CellInfoWcdma;
  ci0_tdscdma : list V1_0_CellInfoTdscdma }.
Record V1_2_CellInfo := mkCell2 {
  ci2_cellInfoType : Z; ci2_registered : bool; ci2_timeStampType : Z; ci2_timeStamp : Z; ci2_gsm : list V1_2_CellInfoGsm;
  ci2_cdma : list V1_2_CellInfoCdma; ci2_lte : list V1_2_CellInfoLte; ci2_wcdma : list V1_2_CellInfoWcdma;
  ci2_tdscdma : list V1_2_CellInfoTdscdma; ci2_connectionStatus : Z }.
Inductive V1_4_CellInfo_Info :=
  | Info_gsm (i : V1_2_CellInfoGsm) | Info_cdma (i : V1_2_CellInfoCdma) | Info_wcdma (i : V1_2_CellInfoWcdma)
  | Info_tdscdma (i : V1_2_CellInfoTdscdma) | Info_lte (i : V1_4_CellInfoLte) | Info_nr (i : hidl V1_4_CellInfoNr).
(** A union starts as its first member, value-initialised. *)
Definition Info_zero : V1_4_CellInfo_Info :=
  Info_gsm (mkGsm2 (mkIdGsm2 (hidl_zero _) (hidl_zero _)) (hidl_zero _)).
Record V1_4_CellInfo := mkCell4 { ci4_isRegistered : bool; ci4_connectionStatus : Z; ci4_info : V1_4_CellInfo_Info }.

(** Registration. *)
Record V1_0_VoiceRegStateResult := mkVoice0 {
  vr0_regState : Z; vr0_rat : Z; vr0_cssSupported : bool; vr0_roamingIndicator : Z; vr0_systemIsInPrl : Z;
  vr0_defaultRoamingIndicator : Z; vr0_reasonForDenial : Z; vr0_cellIdentity : V1_0_CellIdentity }.
Record V1_2_VoiceRegStateResult := mkVoice2 {
  vr2_regState : Z; vr2_rat : Z; vr2_cssSupported : bool; vr2_roamingIndicator : Z; vr2_systemIsInPrl : Z;
  vr2_defaultRoamingIndicator : Z; vr2_reasonForDenial : Z; vr2_cellIdentity : V1_2_CellIdentity }.
Record V1_0_DataRegStateResult := mkDataReg0 {
  dr0_regState : Z; dr0_rat : Z; dr0_reasonDataDenied : Z; dr0_maxDataCalls : Z; dr0_cellIdentity : V1_0_CellIdentity }.
Record V1_2_DataRegStateResult := mkDataReg2 {
  dr2_regState : Z; dr2_rat : Z; dr2_reasonDataDenied : Z; dr2_maxDataCalls : Z; dr2_cellIdentity : V1_2_CellIdentity }.
Record V1_4_DataRegStateResult := mkDataReg4 { dr4_base : V1_2_DataRegStateResult; dr4_rest : hidl V1_4_DataRegStateResult_rest }.

(** Data calls. *)
Record V1_0_SetupDataCallResult := mkDataCall0 {
  dc0_status : Z; dc0_suggestedRetryTime : Z; dc0_cid : Z; dc0_active : Z; dc0_type : string; dc0_ifname : string;
  dc0_addresses : string; dc0_dnses : string; dc0_gateways : string; dc0_pcscf : string; dc0_mtu : Z }.
Record V1_4_SetupDataCallResult := mkDataCall4 {
  dc4_cause : Z; dc4_suggestedRetryTime : Z; dc4_cid : Z; dc4_active : Z; dc4_type : Z; dc4_ifname : string;
  dc4_addresses : list string; dc4_dnses : list string; dc4_gateways : list string; dc4_pcscf : list string; dc4_mtu : Z }.
Record V1_0_DataProfileInfo := mkProfile0 {
  dp0_profileId : Z; dp0_apn : string; dp0_protocol : string; dp0_roamingProtocol : string; dp0_authType : Z; dp0_user : string;
  dp0_password : string; dp0_type : Z; dp0_maxConnsTime : Z; dp0_maxConns : Z; dp0_waitTime : Z; dp0_enabled : bool;
  dp0_supportedApnTypesBitmap : Z; dp0_bearerBitmap : Z; dp0_mtu : Z; dp0_mvnoType : Z; dp0_rest : hidl V1_0_DataProfileInfo_rest }.
Record V1_4_DataProfileInfo := mkProfile4 {
  dp4_profileId : Z; dp4_apn : string; dp4_protocol : Z; dp4_roamingProtocol : Z; dp4_authType : Z; dp4_user : string;
  dp4_password : string; dp4_type : Z; dp4_maxConnsTime : Z; dp4_maxConns : Z; dp4_waitTime : Z; dp4_enabled : bool;
  dp4_supportedApnTypesBitmap : Z; dp4_bearerBitmap : Z; dp4_mtu : Z; dp4_persistent : bool; dp4_rest : hidl V1_4_DataProfileInfo_rest }.

(** Cards, calls, carriers, scans, channels. *)
Record V1_2_CardStatus := mkCard2 { cs2_base : hidl V1_0_CardStatus; cs2_physicalSlotId : Z; cs2_iccid : string; cs2_rest : hidl V1_2_CardStatus_rest }.
Record V1_4_CardStatus := mkCard4 { cs4_base : V1_2_CardStatus; cs4_eid : string }.
Record V1_2_Call := mkCall2 { call2_base : hidl V1_0_Call; call2_audioQuality : Z }.
Record V1_0_CarrierRestrictions := mkCarriers0 { cr0_allowedCarriers : list (hidl V1_0_Carrier); cr0_excludedCarriers : list (hidl V1_0_Carrier) }.
Record V1_4_CarrierRestrictionsWithPriority := mkCarriers4 {
  cr4_allowedCarriers : list (hidl V1_0_Carrier); cr4_excludedCarriers : list (hidl V1_0_Carrier); cr4_allowedCarriersPrioritized : bool }.
Record V1_1_NetworkScanRequest := mkScan1 { ns1_type : Z; ns1_interval : Z; ns1_specifiers : list (hidl V1_1_RadioAccessSpecifier) }.
Record V1_2_NetworkScanRequest := mkScan2 {
  ns2_type : Z; ns2_interval : Z; ns2_specifiers : list (hidl V1_1_RadioAccessSpecifier); ns2_rest : hidl V1_2_NetworkScanRequest_rest }.
Record V1_1_NetworkScanResult := mkScanResult1 { nr1_status : Z; nr1_error : Z; nr1_networkInfos : list V1_0_CellInfo }.
Record V1_2_NetworkScanResult := mkScanResult2 { nr2_status : Z; nr2_error : Z; nr2_networkInfos : list V1_2_CellInfo }.
Record V1_4_NetworkScanResult := mkScanResult4 { nr4_status : Z; nr4_error : Z; nr4_networkInfos : list V1_4_CellInfo }.
Record V1_4_PhysicalChannelConfig := mkChannel4 {
  pc4_base : hidl V1_2_PhysicalChannelConfig; pc4_rat : Z; pc4_physicalCellId : Z; pc4_rest : hidl V1_4_PhysicalChannelConfig_rest }.

End Structures.

#[export] Instance mkRadioResponseInfo_eta : Record_eta V1_0_RadioResponseInfo := fun i => mkRadioResponseInfo (ri_type i) (ri_serial i) (ri_error i).
