(* ===== verification/RadioInterface.v ===== *)
(** * Messages of the radio interfaces

    One constructor for each method of the interfaces [IRadio],
    [IRadioResponse] and [IRadioIndication] up to version 1.4, in the order in
    which [src/radio/1.4/legacy] declares them in [Radio.h], [RadioResponse.h]
    and [RadioIndication.h], with the arguments of the method.  A call of a
    method over the binder is a value of the type.  Pointers to interfaces are
    numbers, and null is [None]. *)

From S2P Require Import Prelude Text RadioTypes.

(** ** Requests *)

Module IRadio.
Section Messages.
Context `{HidlData}.

Inductive call : Type :=
  | setResponseFunctions (radioResponse radioIndication : option Z)
  | getIccCardStatus (serial : Z)
  | supplyIccPinForApp (serial : Z) (pin aid : string)
  | supplyIccPukForApp (serial : Z) (puk pin aid : string)
  | supplyIccPin2ForApp (serial : Z) (pin2 aid : string)
  | supplyIccPuk2ForApp (serial : Z) (puk2 pin2 aid : string)
  | changeIccPinForApp (serial : Z) (oldPin newPin aid : string)
  | changeIccPin2ForApp (serial : Z) (oldPin2 newPin2 aid : string)
  | supplyNetworkDepersonalization (serial : Z) (netPin : string)
  | getCurrentCalls (serial : Z)
  | dial (serial : Z) (dialInfo : hidl V1_0_Dial)
  | getImsiForApp (serial : Z) (aid : string)
  | hangup (serial gsmIndex : Z)
  | hangupWaitingOrBackground (serial : Z)
  | hangupForegroundResumeBackground (serial : Z)
  | switchWaitingOrHoldingAndActive (serial : Z)
  | conference (serial : Z)
  | rejectCall (serial : Z)
  | getLastCallFailCause (serial : Z)
  | getSignalStrength (serial : Z)
  | getVoiceRegistrationState (serial : Z)
  | getDataRegistrationState (serial : Z)
  | getOperator (serial : Z)
  | setRadioPower (serial : Z) (on : bool)
  | sendDtmf (serial : Z) (s : string)
  | sendSms (serial : Z) (message : hidl V1_0_GsmSmsMessage)
  | sendSMSExpectMore (serial : Z) (message : hidl V1_0_GsmSmsMessage)
  | setupDataCall (serial radioTechnology : Z) (dataProfileInfo : V1_0_DataProfileInfo) (modemCognitive roamingAllowed isRoaming : bool)
  | iccIOForApp (serial : Z) (iccIo : hidl V1_0_IccIo)
  | sendUssd (serial : Z) (ussd : string)
  | cancelPendingUssd (serial : Z)
  | getClir (serial : Z)
  | setClir (serial status : Z)
  | getCallForwardStatus (serial : Z) (callInfo : hidl V1_0_CallForwardInfo)
  | setCallForward (serial : Z) (callInfo : hidl V1_0_CallForwardInfo)
  | getCallWaiting (serial serviceClass : Z)
  | setCallWaiting (serial : Z) (enable : bool) (serviceClass : Z)
  | acknowledgeLastIncomingGsmSms (serial : Z) (success : bool) (cause : Z)
  | acceptCall (serial : Z)
  | deactivateDataCall (serial cid : Z) (reasonRadioShutDown : bool)
  | getFacilityLockForApp (serial : Z) (facility password : string) (serviceClass : Z) (appId : string)
  | setFacilityLockForApp (serial : Z) (facility : string) (lockState : bool) (password : string) (serviceClass : Z) (appId : string)
  | setBarringPassword (serial : Z) (facility oldPassword newPassword : string)
  | getNetworkSelectionMode (serial : Z)
  | setNetworkSelectionModeAutomatic (serial : Z)
  | setNetworkSelectionModeManual (serial : Z) (operatorNumeric : string)
  | getAvailableNetworks (serial : Z)
  | startDtmf (serial : Z) (s : string)
  | stopDtmf (serial : Z)
  | getBasebandVersion (serial : Z)
  | separateConnection (serial gsmIndex : Z)
  | setMute (serial : Z) (enable : bool)
  | getMute (serial : Z)
  | getClip (serial : Z)
  | getDataCallList (serial : Z)
  | setSuppServiceNotifications (serial : Z) (enable : bool)
  | writeSmsToSim (serial : Z) (smsWriteArgs : hidl V1_0_SmsWriteArgs)
  | deleteSmsOnSim (serial index : Z)
  | setBandMode (serial mode : Z)
  | getAvailableBandModes (serial : Z)
  | sendEnvelope (serial : Z) (command : string)
  | sendTerminalResponseToSim (serial : Z) (commandResponse : string)
  | handleStkCallSetupRequestFromSim (serial : Z) (accept : bool)
  | explicitCallTransfer (serial : Z)
  | setPreferredNetworkType (serial : Z) (nwType : PreferredNetworkType)
  | getPreferredNetworkType (serial : Z)
  | getNeighboringCids (serial : Z)
  | setLocationUpdates (serial : Z) (enable : bool)
  | setCdmaSubscriptionSource (serial cdmaSub : Z)
  | setCdmaRoamingPreference (serial type : Z)
  | getCdmaRoamingPreference (serial : Z)
  | setTTYMode (serial mode : Z)
  | getTTYMode (serial : Z)
  | setPreferredVoicePrivacy (serial : Z) (enable : bool)
  | getPreferredVoicePrivacy (serial : Z)
  | sendCDMAFeatureCode (serial : Z) (featureCode : string)
  | sendBurstDtmf (serial : Z) (dtmf : string) (on off : Z)
  | sendCdmaSms (serial : Z) (sms : hidl V1_0_CdmaSmsMessage)
  | acknowledgeLastIncomingCdmaSms (serial : Z) (smsAck : hidl V1_0_CdmaSmsAck)
  | getGsmBroadcastConfig (serial : Z)
  | setGsmBroadcastConfig (serial : Z) (configInfo : list (hidl V1_0_GsmBroadcastSmsConfigInfo))
  | setGsmBroadcastActivation (serial : Z) (activate : bool)
  | getCdmaBroadcastConfig (serial : Z)
  | setCdmaBroadcastConfig (serial : Z) (configInfo : list (hidl V1_0_CdmaBroadcastSmsConfigInfo))
  | setCdmaBroadcastActivation (serial : Z) (activate : bool)
  | getCDMASubscription (serial : Z)
  | writeSmsToRuim (serial : Z) (cdmaSms : hidl V1_0_CdmaSmsWriteArgs)
  | deleteSmsOnRuim (serial index : Z)
  | getDeviceIdentity (serial : Z)
  | exitEmergencyCallbackMode (serial : Z)
  | getSmscAddress (serial : Z)
  | setSmscAddress (serial : Z) (smsc : string)
  | reportSmsMemoryStatus (serial : Z) (available : bool)
  | reportStkServiceIsRunning (serial : Z)
  | getCdmaSubscriptionSource (serial : Z)
  | requestIsimAuthentication (serial : Z) (challenge : string)
  | acknowledgeIncomingGsmSmsWithPdu (serial : Z) (success : bool) (ackPdu : string)
  | sendEnvelopeWithStatus (serial : Z) (contents : string)
  | getVoiceRadioTechnology (serial : Z)
  | getCellInfoList (serial : Z)
  | setCellInfoListRate (serial rate : Z)
  | setInitialAttachApn (serial : Z) (dataProfileInfo : V1_0_DataProfileInfo) (modemCognitive isRoaming : bool)
  | getImsRegistrationState (serial : Z)
  | sendImsSms (serial : Z) (message : hidl V1_0_ImsSmsMessage)
  | iccTransmitApduBasicChannel (serial : Z) (message : hidl V1_0_SimApdu)
  | iccOpenLogicalChannel (serial : Z) (aid : string) (p2 : Z)
  | iccCloseLogicalChannel (serial channelId : Z)
  | iccTransmitApduLogicalChannel (serial : Z) (message : hidl V1_0_SimApdu)
  | nvReadItem (serial itemId : Z)
  | nvWriteItem (serial : Z) (item : hidl V1_0_NvWriteItem)
  | nvWriteCdmaPrl (serial : Z) (prl : list Z)
  | nvResetConfig (serial resetType : Z)
  | setUiccSubscription (serial : Z) (uiccSub : hidl V1_0_SelectUiccSub)
  | setDataAllowed (serial : Z) (allow : bool)
  | getHardwareConfig (serial : Z)
  | requestIccSimAuthentication (serial authContext : Z) (authData aid : string)
  | setDataProfile (serial : Z) (profiles : list V1_0_DataProfileInfo) (isRoaming : bool)
  | requestShutdown (serial : Z)
  | getRadioCapability (serial : Z)
  | setRadioCapability (serial : Z) (rc : hidl V1_0_RadioCapability)
  | startLceService (serial reportInterval : Z) (pullMode : bool)
  | stopLceService (serial : Z)
  | pullLceData (serial : Z)
  | getModemActivityInfo (serial : Z)
  | setAllowedCarriers (serial : Z) (allAllowed : bool) (carriers : V1_0_CarrierRestrictions)
  | getAllowedCarriers (serial : Z)
  | sendDeviceState (serial deviceStateType : Z) (state : bool)
  | setIndicationFilter (serial indicationFilter : Z)
  | setSimCardPower (serial : Z) (powerUp : bool)
  | responseAcknowledgement
  | setCarrierInfoForImsiEncryption (serial : Z) (imsiEncryptionInfo : hidl V1_1_ImsiEncryptionInfo)
  | setSimCardPower_1_1 (serial powerUp : Z)
  | startNetworkScan (serial : Z) (request : V1_1_NetworkScanRequest)
  | stopNetworkScan (serial : Z)
  | startKeepalive (serial : Z) (keepalive : hidl V1_1_KeepaliveRequest)
  | stopKeepalive (serial sessionHandle : Z)
  | startNetworkScan_1_2 (serial : Z) (request : V1_2_NetworkScanRequest)
  | setIndicationFilter_1_2 (serial indicationFilter : Z)
  | setSignalStrengthReportingCriteria (serial hysteresisMs hysteresisDb : Z) (thresholdsDbm : list Z) (accessNetwork : Z)
  | setLinkCapacityReportingCriteria (serial hysteresisMs hysteresisDlKbps hysteresisUlKbps : Z) (thresholdsDownlinkKbps thresholdsUplinkKbps : list Z) (accessNetwork : Z)
  | setupDataCall_1_2 (serial accessNetwork : Z) (dataProfileInfo : V1_0_DataProfileInfo) (modemCognitive roamingAllowed isRoaming : bool) (reason : Z) (addresses dnses : list string)
  | deactivateDataCall_1_2 (serial cid reason : Z)
  | setSystemSelectionChannels (serial : Z) (specifyChannels : bool) (specifiers : list (hidl V1_1_RadioAccessSpecifier))
  | enableModem (serial : Z) (on : bool)
  | getModemStackStatus (serial : Z)
  | setupDataCall_1_4 (serial accessNetwork : Z) (dataProfileInfo : V1_4_DataProfileInfo) (roamingAllowed : bool) (reason : Z) (addresses dnses : list string)
  | setInitialAttachApn_1_4 (serial : Z) (dataProfileInfo : V1_4_DataProfileInfo)
  | setDataProfile_1_4 (serial : Z) (profiles : list V1_4_DataProfileInfo)
  | emergencyDial (serial : Z) (dialInfo : hidl V1_0_Dial) (categories : Z) (urns : list string) (routing : Z) (hasKnownUserIntentEmergency isTesting : bool)
  | startNetworkScan_1_4 (serial : Z) (request : V1_2_NetworkScanRequest)
  | getPreferredNetworkTypeBitmap (serial : Z)
  | setPreferredNetworkTypeBitmap (serial networkTypeBitmap : Z)
  | setAllowedCarriers_1_4 (serial : Z) (carriers : V1_4_CarrierRestrictionsWithPriority) (multiSimPolicy : Z)
  | getAllowedCarriers_1_4 (serial : Z)
  | getSignalStrength_1_4 (serial : Z).

(** The serial number of a request; two methods have none. *)
Definition serial_of (c : call) : option Z :=
  match c with
  | setResponseFunctions _ _ | responseAcknowledgement => None
  | getIccCardStatus serial | supplyIccPinForApp serial _ _ | supplyIccPukForApp serial _ _ _ | supplyIccPin2ForApp serial _ _
  | supplyIccPuk2ForApp serial _ _ _ | changeIccPinForApp serial _ _ _ | changeIccPin2ForApp serial _ _ _ | supplyNetworkDepersonalization serial _
  | getCurrentCalls serial | dial serial _ | getImsiForApp serial _ | hangup serial _ | hangupWaitingOrBackground serial
  | hangupForegroundResumeBackground serial | switchWaitingOrHoldingAndActive serial | conference serial | rejectCall serial
  | getLastCallFailCause serial | getSignalStrength serial | getVoiceRegistrationState serial | getDataRegistrationState serial | getOperator serial
  | setRadioPower serial _ | sendDtmf serial _ | sendSms serial _ | sendSMSExpectMore serial _ | setupDataCall serial _ _ _ _ _ | iccIOForApp serial _
  | sendUssd serial _ | cancelPendingUssd serial | getClir serial | setClir serial _ | getCallForwardStatus serial _ | setCallForward serial _
  | getCallWaiting serial _ | setCallWaiting serial _ _ | acknowledgeLastIncomingGsmSms serial _ _ | acceptCall serial | deactivateDataCall serial _ _
  | getFacilityLockForApp serial _ _ _ _ | setFacilityLockForApp serial _ _ _ _ _ | setBarringPassword serial _ _ _ | getNetworkSelectionMode serial
  | setNetworkSelectionModeAutomatic serial | setNetworkSelectionModeManual serial _ | getAvailableNetworks serial | startDtmf serial _
  | stopDtmf serial | getBasebandVersion serial | separateConnection serial _ | setMute serial _ | getMute serial | getClip serial
  | getDataCallList serial | setSuppServiceNotifications serial _ | writeSmsToSim serial _ | deleteSmsOnSim serial _ | setBandMode serial _
  | getAvailableBandModes serial | sendEnvelope serial _ | sendTerminalResponseToSim serial _ | handleStkCallSetupRequestFromSim serial _
  | explicitCallTransfer serial | setPreferredNetworkType serial _ | getPreferredNetworkType serial | getNeighboringCids serial
  | setLocationUpdates serial _ | setCdmaSubscriptionSource serial _ | setCdmaRoamingPreference serial _ | getCdmaRoamingPreference serial
  | setTTYMode serial _ | getTTYMode serial | setPreferredVoicePrivacy serial _ | getPreferredVoicePrivacy serial | sendCDMAFeatureCode serial _
  | sendBurstDtmf serial _ _ _ | sendCdmaSms serial _ | acknowledgeLastIncomingCdmaSms serial _ | getGsmBroadcastConfig serial
  | setGsmBroadcastConfig serial _ | setGsmBroadcastActivation serial _ | getCdmaBroadcastConfig serial | setCdmaBroadcastConfig serial _
  | setCdmaBroadcastActivation serial _ | getCDMASubscription serial | writeSmsToRuim serial _ | deleteSmsOnRuim serial _ | getDeviceIdentity serial
  | exitEmergencyCallbackMode serial | getSmscAddress serial | setSmscAddress serial _ | reportSmsMemoryStatus serial _
  | reportStkServiceIsRunning serial | getCdmaSubscriptionSource serial | requestIsimAuthentication serial _
  | acknowledgeIncomingGsmSmsWithPdu serial _ _ | sendEnvelopeWithStatus serial _ | getVoiceRadioTechnology serial | getCellInfoList serial
  | setCellInfoListRate serial _ | setInitialAttachApn serial _ _ _ | getImsRegistrationState serial | sendImsSms serial _
  | iccTransmitApduBasicChannel serial _ | iccOpenLogicalChannel serial _ _ | iccCloseLogicalChannel serial _ | iccTransmitApduLogicalChannel serial _
  | nvReadItem serial _ | nvWriteItem serial _ | nvWriteCdmaPrl serial _ | nvResetConfig serial _ | setUiccSubscription serial _
  | setDataAllowed serial _ | getHardwareConfig serial | requestIccSimAuthentication serial _ _ _ | setDataProfile serial _ _ | requestShutdown serial
  | getRadioCapability serial | setRadioCapability serial _ | startLceService serial _ _ | stopLceService serial | pullLceData serial
  | getModemActivityInfo serial | setAllowedCarriers serial _ _ | getAllowedCarriers serial | sendDeviceState serial _ _
  | setIndicationFilter serial _ | setSimCardPower serial _ | setCarrierInfoForImsiEncryption serial _ | setSimCardPower_1_1 serial _
  | startNetworkScan serial _ | stopNetworkScan serial | startKeepalive serial _ | stopKeepalive serial _ | startNetworkScan_1_2 serial _
  | setIndicationFilter_1_2 serial _ | setSignalStrengthReportingCriteria serial _ _ _ _ | setLinkCapacityReportingCriteria serial _ _ _ _ _ _
  | setupDataCall_1_2 serial _ _ _ _ _ _ _ _ | deactivateDataCall_1_2 serial _ _ | setSystemSelectionChannels serial _ _ | enableModem serial _
  | getModemStackStatus serial | setupDataCall_1_4 serial _ _ _ _ _ _ | setInitialAttachApn_1_4 serial _ | setDataProfile_1_4 serial _
  | emergencyDial serial _ _ _ _ _ _ | startNetworkScan_1_4 serial _ | getPreferredNetworkTypeBitmap serial | setPreferredNetworkTypeBitmap serial _
  | setAllowedCarriers_1_4 serial _ _ | getAllowedCarriers_1_4 serial | getSignalStrength_1_4 serial => Some serial
  end.

(** The version of the interface that introduced a request. *)
Definition version_of (c : call) : Version :=
  match c with
  | setCarrierInfoForImsiEncryption _ _ | setSimCardPower_1_1 _ _ | startNetworkScan _ _ | stopNetworkScan _ | startKeepalive _ _ | stopKeepalive _ _ => V1_1
  | startNetworkScan_1_2 _ _ | setIndicationFilter_1_2 _ _ | setSignalStrengthReportingCriteria _ _ _ _ _
  | setLinkCapacityReportingCriteria _ _ _ _ _ _ _ | setupDataCall_1_2 _ _ _ _ _ _ _ _ _ | deactivateDataCall_1_2 _ _ _ => V1_2
  | setSystemSelectionChannels _ _ _ | enableModem _ _ | getModemStackStatus _ => V1_3
  | setupDataCall_1_4 _ _ _ _ _ _ _ | setInitialAttachApn_1_4 _ _ | setDataProfile_1_4 _ _ | emergencyDial _ _ _ _ _ _ _ | startNetworkScan_1_4 _ _
  | getPreferredNetworkTypeBitmap _ | setPreferredNetworkTypeBitmap _ _ | setAllowedCarriers_1_4 _ _ _ | getAllowedCarriers_1_4 _
  | getSignalStrength_1_4 _ => V1_4
  | _ => V1_0
  end.

(** The method that the documentation of the replies refers to: newer versions
    of a request are answered by versions of the same reply. *)
Definition method_of (c : call) : string :=
  match c with
  | setResponseFunctions _ _ => "setResponseFunctions"
  | getIccCardStatus _ => "getIccCardStatus"
  | supplyIccPinForApp _ _ _ => "supplyIccPinForApp"
  | supplyIccPukForApp _ _ _ _ => "supplyIccPukForApp"
  | supplyIccPin2ForApp _ _ _ => "supplyIccPin2ForApp"
  | supplyIccPuk2ForApp _ _ _ _ => "supplyIccPuk2ForApp"
  | changeIccPinForApp _ _ _ _ => "changeIccPinForApp"
  | changeIccPin2ForApp _ _ _ _ => "changeIccPin2ForApp"
  | supplyNetworkDepersonalization _ _ => "supplyNetworkDepersonalization"
  | getCurrentCalls _ => "getCurrentCalls"
  | dial _ _ => "dial"
  | getImsiForApp _ _ => "getImsiForApp"
  | hangup _ _ => "hangup"
  | hangupWaitingOrBackground _ => "hangupWaitingOrBackground"
  | hangupForegroundResumeBackground _ => "hangupForegroundResumeBackground"
  | switchWaitingOrHoldingAndActive _ => "switchWaitingOrHoldingAndActive"
  | conference _ => "conference"
  | rejectCall _ => "rejectCall"
  | getLastCallFailCause _ => "getLastCallFailCause"
  | getSignalStrength _ | getSignalStrength_1_4 _ => "getSignalStrength"
  | getVoiceRegistrationState _ => "getVoiceRegistrationState"
  | getDataRegistrationState _ => "getDataRegistrationState"
  | getOperator _ => "getOperator"
  | setRadioPower _ _ => "setRadioPower"
  | sendDtmf _ _ => "sendDtmf"
  | sendSms _ _ => "sendSms"
  | sendSMSExpectMore _ _ => "sendSMSExpectMore"
  | setupDataCall _ _ _ _ _ _ | setupDataCall_1_2 _ _ _ _ _ _ _ _ _ | setupDataCall_1_4 _ _ _ _ _ _ _ => "setupDataCall"
  | iccIOForApp _ _ => "iccIOForApp"
  | sendUssd _ _ => "sendUssd"
  | cancelPendingUssd _ => "cancelPendingUssd"
  | getClir _ => "getClir"
  | setClir _ _ => "setClir"
  | getCallForwardStatus _ _ => "getCallForwardStatus"
  | setCallForward _ _ => "setCallForward"
  | getCallWaiting _ _ => "getCallWaiting"
  | setCallWaiting _ _ _ => "setCallWaiting"
  | acknowledgeLastIncomingGsmSms _ _ _ => "acknowledgeLastIncomingGsmSms"
  | acceptCall _ => "acceptCall"
  | deactivateDataCall _ _ _ | deactivateDataCall_1_2 _ _ _ => "deactivateDataCall"
  | getFacilityLockForApp _ _ _ _ _ => "getFacilityLockForApp"
  | setFacilityLockForApp _ _ _ _ _ _ => "setFacilityLockForApp"
  | setBarringPassword _ _ _ _ => "setBarringPassword"
  | getNetworkSelectionMode _ => "getNetworkSelectionMode"
  | setNetworkSelectionModeAutomatic _ => "setNetworkSelectionModeAutomatic"
  | setNetworkSelectionModeManual _ _ => "setNetworkSelectionModeManual"
  | getAvailableNetworks _ => "getAvailableNetworks"
  | startDtmf _ _ => "startDtmf"
  | stopDtmf _ => "stopDtmf"
  | getBasebandVersion _ => "getBasebandVersion"
  | separateConnection _ _ => "separateConnection"
  | setMute _ _ => "setMute"
  | getMute _ => "getMute"
  | getClip _ => "getClip"
  | getDataCallList _ => "getDataCallList"
  | setSuppServiceNotifications _ _ => "setSuppServiceNotifications"
  | writeSmsToSim _ _ => "writeSmsToSim"
  | deleteSmsOnSim _ _ => "deleteSmsOnSim"
  | setBandMode _ _ => "setBandMode"
  | getAvailableBandModes _ => "getAvailableBandModes"
  | sendEnvelope _ _ => "sendEnvelope"
  | sendTerminalResponseToSim _ _ => "sendTerminalResponseToSim"
  | handleStkCallSetupRequestFromSim _ _ => "handleStkCallSetupRequestFromSim"
  | explicitCallTransfer _ => "explicitCallTransfer"
  | setPreferredNetworkType _ _ => "setPreferredNetworkType"
  | getPreferredNetworkType _ => "getPreferredNetworkType"
  | getNeighboringCids _ => "getNeighboringCids"
  | setLocationUpdates _ _ => "setLocationUpdates"
  | setCdmaSubscriptionSource _ _ => "setCdmaSubscriptionSource"
  | setCdmaRoamingPreference _ _ => "setCdmaRoamingPreference"
  | getCdmaRoamingPreference _ => "getCdmaRoamingPreference"
  | setTTYMode _ _ => "setTTYMode"
  | getTTYMode _ => "getTTYMode"
  | setPreferredVoicePrivacy _ _ => "setPreferredVoicePrivacy"
  | getPreferredVoicePrivacy _ => "getPreferredVoicePrivacy"
  | sendCDMAFeatureCode _ _ => "sendCDMAFeatureCode"
  | sendBurstDtmf _ _ _ _ => "sendBurstDtmf"
  | sendCdmaSms _ _ => "sendCdmaSms"
  | acknowledgeLastIncomingCdmaSms _ _ => "acknowledgeLastIncomingCdmaSms"
  | getGsmBroadcastConfig _ => "getGsmBroadcastConfig"
  | setGsmBroadcastConfig _ _ => "setGsmBroadcastConfig"
  | setGsmBroadcastActivation _ _ => "setGsmBroadcastActivation"
  | getCdmaBroadcastConfig _ => "getCdmaBroadcastConfig"
  | setCdmaBroadcastConfig _ _ => "setCdmaBroadcastConfig"
  | setCdmaBroadcastActivation _ _ => "setCdmaBroadcastActivation"
  | getCDMASubscription _ => "getCDMASubscription"
  | writeSmsToRuim _ _ => "writeSmsToRuim"
  | deleteSmsOnRuim _ _ => "deleteSmsOnRuim"
  | getDeviceIdentity _ => "getDeviceIdentity"
  | exitEmergencyCallbackMode _ => "exitEmergencyCallbackMode"
  | getSmscAddress _ => "getSmscAddress"
  | setSmscAddress _ _ => "setSmscAddress"
  | reportSmsMemoryStatus _ _ => "reportSmsMemoryStatus"
  | reportStkServiceIsRunning _ => "reportStkServiceIsRunning"
  | getCdmaSubscriptionSource _ => "getCdmaSubscriptionSource"
  | requestIsimAuthentication _ _ => "requestIsimAuthentication"
  | acknowledgeIncomingGsmSmsWithPdu _ _ _ => "acknowledgeIncomingGsmSmsWithPdu"
  | sendEnvelopeWithStatus _ _ => "sendEnvelopeWithStatus"
  | getVoiceRadioTechnology _ => "getVoiceRadioTechnology"
  | getCellInfoList _ => "getCellInfoList"
  | setCellInfoListRate _ _ => "setCellInfoListRate"
  | setInitialAttachApn _ _ _ _ | setInitialAttachApn_1_4 _ _ => "setInitialAttachApn"
  | getImsRegistrationState _ => "getImsRegistrationState"
  | sendImsSms _ _ => "sendImsSms"
  | iccTransmitApduBasicChannel _ _ => "iccTransmitApduBasicChannel"
  | iccOpenLogicalChannel _ _ _ => "iccOpenLogicalChannel"
  | iccCloseLogicalChannel _ _ => "iccCloseLogicalChannel"
  | iccTransmitApduLogicalChannel _ _ => "iccTransmitApduLogicalChannel"
  | nvReadItem _ _ => "nvReadItem"
  | nvWriteItem _ _ => "nvWriteItem"
  | nvWriteCdmaPrl _ _ => "nvWriteCdmaPrl"
  | nvResetConfig _ _ => "nvResetConfig"
  | setUiccSubscription _ _ => "setUiccSubscription"
  | setDataAllowed _ _ => "setDataAllowed"
  | getHardwareConfig _ => "getHardwareConfig"
  | requestIccSimAuthentication _ _ _ _ => "requestIccSimAuthentication"
  | setDataProfile _ _ _ | setDataProfile_1_4 _ _ => "setDataProfile"
  | requestShutdown _ => "requestShutdown"
  | getRadioCapability _ => "getRadioCapability"
  | setRadioCapability _ _ => "setRadioCapability"
  | startLceService _ _ _ => "startLceService"
  | stopLceService _ => "stopLceService"
  | pullLceData _ => "pullLceData"
  | getModemActivityInfo _ => "getModemActivityInfo"
  | setAllowedCarriers _ _ _ | setAllowedCarriers_1_4 _ _ _ => "setAllowedCarriers"
  | getAllowedCarriers _ | getAllowedCarriers_1_4 _ => "getAllowedCarriers"
  | sendDeviceState _ _ _ => "sendDeviceState"
  | setIndicationFilter _ _ | setIndicationFilter_1_2 _ _ => "setIndicationFilter"
  | setSimCardPower _ _ | setSimCardPower_1_1 _ _ => "setSimCardPower"
  | responseAcknowledgement => "responseAcknowledgement"
  | setCarrierInfoForImsiEncryption _ _ => "setCarrierInfoForImsiEncryption"
  | startNetworkScan _ _ | startNetworkScan_1_2 _ _ | startNetworkScan_1_4 _ _ => "startNetworkScan"
  | stopNetworkScan _ => "stopNetworkScan"
  | startKeepalive _ _ => "startKeepalive"
  | stopKeepalive _ _ => "stopKeepalive"
  | setSignalStrengthReportingCriteria _ _ _ _ _ => "setSignalStrengthReportingCriteria"
  | setLinkCapacityReportingCriteria _ _ _ _ _ _ _ => "setLinkCapacityReportingCriteria"
  | setSystemSelectionChannels _ _ _ => "setSystemSelectionChannels"
  | enableModem _ _ => "enableModem"
  | getModemStackStatus _ => "getModemStackStatus"
  | emergencyDial _ _ _ _ _ _ _ => "emergencyDial"
  | getPreferredNetworkTypeBitmap _ => "getPreferredNetworkTypeBitmap"
  | setPreferredNetworkTypeBitmap _ _ => "setPreferredNetworkTypeBitmap"
  end%string.

End Messages.
End IRadio.

(** ** Replies *)

Module IRadioResponse.
Section Messages.
Context `{HidlData}.

Inductive reply : Type :=
  | getIccCardStatusResponse (info : V1_0_RadioResponseInfo) (cardStatus : hidl V1_0_CardStatus)
  | supplyIccPinForAppResponse (info : V1_0_RadioResponseInfo) (remainingRetries : Z)
  | supplyIccPukForAppResponse (info : V1_0_RadioResponseInfo) (remainingRetries : Z)
  | supplyIccPin2ForAppResponse (info : V1_0_RadioResponseInfo) (remainingRetries : Z)
  | supplyIccPuk2ForAppResponse (info : V1_0_RadioResponseInfo) (remainingRetries : Z)
  | changeIccPinForAppResponse (info : V1_0_RadioResponseInfo) (remainingRetries : Z)
  | changeIccPin2ForAppResponse (info : V1_0_RadioResponseInfo) (remainingRetries : Z)
  | supplyNetworkDepersonalizationResponse (info : V1_0_RadioResponseInfo) (remainingRetries : Z)
  | getCurrentCallsResponse (info : V1_0_RadioResponseInfo) (calls : list (hidl V1_0_Call))
  | dialResponse (info : V1_0_RadioResponseInfo)
  | getIMSIForAppResponse (info : V1_0_RadioResponseInfo) (imsi : string)
  | hangupConnectionResponse (info : V1_0_RadioResponseInfo)
  | hangupWaitingOrBackgroundResponse (info : V1_0_RadioResponseInfo)
  | hangupForegroundResumeBackgroundResponse (info : V1_0_RadioResponseInfo)
  | switchWaitingOrHoldingAndActiveResponse (info : V1_0_RadioResponseInfo)
  | conferenceResponse (info : V1_0_RadioResponseInfo)
  | rejectCallResponse (info : V1_0_RadioResponseInfo)
  | getLastCallFailCauseResponse (info : V1_0_RadioResponseInfo) (failCauseinfo : hidl V1_0_LastCallFailCauseInfo)
  | getSignalStrengthResponse (info : V1_0_RadioResponseInfo) (sigStrength : V1_0_SignalStrength)
  | getVoiceRegistrationStateResponse (info : V1_0_RadioResponseInfo) (voiceRegResponse : V1_0_VoiceRegStateResult)
  | getDataRegistrationStateResponse (info : V1_0_RadioResponseInfo) (dataRegResponse : V1_0_DataRegStateResult)
  | getOperatorResponse (info : V1_0_RadioResponseInfo) (longName shortName numeric : string)
  | setRadioPowerResponse (info : V1_0_RadioResponseInfo)
  | sendDtmfResponse (info : V1_0_RadioResponseInfo)
  | sendSmsResponse (info : V1_0_RadioResponseInfo) (sms : hidl V1_0_SendSmsResult)
  | sendSMSExpectMoreResponse (info : V1_0_RadioResponseInfo) (sms : hidl V1_0_SendSmsResult)
  | setupDataCallResponse (info : V1_0_RadioResponseInfo) (dcResponse : V1_0_SetupDataCallResult)
  | iccIOForAppResponse (info : V1_0_RadioResponseInfo) (iccIo : hidl V1_0_IccIoResult)
  | sendUssdResponse (info : V1_0_RadioResponseInfo)
  | cancelPendingUssdResponse (info : V1_0_RadioResponseInfo)
  | getClirResponse (info : V1_0_RadioResponseInfo) (n m : Z)
  | setClirResponse (info : V1_0_RadioResponseInfo)
  | getCallForwardStatusResponse (info : V1_0_RadioResponseInfo) (callForwardInfos : list (hidl V1_0_CallForwardInfo))
  | setCallForwardResponse (info : V1_0_RadioResponseInfo)
  | getCallWaitingResponse (info : V1_0_RadioResponseInfo) (enable : bool) (serviceClass : Z)
  | setCallWaitingResponse (info : V1_0_RadioResponseInfo)
  | acknowledgeLastIncomingGsmSmsResponse (info : V1_0_RadioResponseInfo)
  | acceptCallResponse (info : V1_0_RadioResponseInfo)
  | deactivateDataCallResponse (info : V1_0_RadioResponseInfo)
  | getFacilityLockForAppResponse (info : V1_0_RadioResponseInfo) (response : Z)
  | setFacilityLockForAppResponse (info : V1_0_RadioResponseInfo) (retry : Z)
  | setBarringPasswordResponse (info : V1_0_RadioResponseInfo)
  | getNetworkSelectionModeResponse (info : V1_0_RadioResponseInfo) (manual : bool)
  | setNetworkSelectionModeAutomaticResponse (info : V1_0_RadioResponseInfo)
  | setNetworkSelectionModeManualResponse (info : V1_0_RadioResponseInfo)
  | getAvailableNetworksResponse (info : V1_0_RadioResponseInfo) (networkInfos : list (hidl V1_0_OperatorInfo))
  | startDtmfResponse (info : V1_0_RadioResponseInfo)
  | stopDtmfResponse (info : V1_0_RadioResponseInfo)
  | getBasebandVersionResponse (info : V1_0_RadioResponseInfo) (version : string)
  | separateConnectionResponse (info : V1_0_RadioResponseInfo)
  | setMuteResponse (info : V1_0_RadioResponseInfo)
  | getMuteResponse (info : V1_0_RadioResponseInfo) (enable : bool)
  | getClipResponse (info : V1_0_RadioResponseInfo) (status : Z)
  | getDataCallListResponse (info : V1_0_RadioResponseInfo) (dcResponse : list V1_0_SetupDataCallResult)
  | setSuppServiceNotificationsResponse (info : V1_0_RadioResponseInfo)
  | writeSmsToSimResponse (info : V1_0_RadioResponseInfo) (index : Z)
  | deleteSmsOnSimResponse (info : V1_0_RadioResponseInfo)
  | setBandModeResponse (info : V1_0_RadioResponseInfo)
  | getAvailableBandModesResponse (info : V1_0_RadioResponseInfo) (bandModes : list Z)
  | sendEnvelopeResponse (info : V1_0_RadioResponseInfo) (commandResponse : string)
  | sendTerminalResponseToSimResponse (info : V1_0_RadioResponseInfo)
  | handleStkCallSetupRequestFromSimResponse (info : V1_0_RadioResponseInfo)
  | explicitCallTransferResponse (info : V1_0_RadioResponseInfo)
  | setPreferredNetworkTypeResponse (info : V1_0_RadioResponseInfo)
  | getPreferredNetworkTypeResponse (info : V1_0_RadioResponseInfo) (nwType : PreferredNetworkType)
  | getNeighboringCidsResponse (info : V1_0_RadioResponseInfo) (cells : list (hidl V1_0_NeighboringCell))
  | setLocationUpdatesResponse (info : V1_0_RadioResponseInfo)
  | setCdmaSubscriptionSourceResponse (info : V1_0_RadioResponseInfo)
  | setCdmaRoamingPreferenceResponse (info : V1_0_RadioResponseInfo)
  | getCdmaRoamingPreferenceResponse (info : V1_0_RadioResponseInfo) (type : Z)
  | setTTYModeResponse (info : V1_0_RadioResponseInfo)
  | getTTYModeResponse (info : V1_0_RadioResponseInfo) (mode : Z)
  | setPreferredVoicePrivacyResponse (info : V1_0_RadioResponseInfo)
  | getPreferredVoicePrivacyResponse (info : V1_0_RadioResponseInfo) (enable : bool)
  | sendCDMAFeatureCodeResponse (info : V1_0_RadioResponseInfo)
  | sendBurstDtmfResponse (info : V1_0_RadioResponseInfo)
  | sendCdmaSmsResponse (info : V1_0_RadioResponseInfo) (sms : hidl V1_0_SendSmsResult)
  | acknowledgeLastIncomingCdmaSmsResponse (info : V1_0_RadioResponseInfo)
  | getGsmBroadcastConfigResponse (info : V1_0_RadioResponseInfo) (configs : list (hidl V1_0_GsmBroadcastSmsConfigInfo))
  | setGsmBroadcastConfigResponse (info : V1_0_RadioResponseInfo)
  | setGsmBroadcastActivationResponse (info : V1_0_RadioResponseInfo)
  | getCdmaBroadcastConfigResponse (info : V1_0_RadioResponseInfo) (configs : list (hidl V1_0_CdmaBroadcastSmsConfigInfo))
  | setCdmaBroadcastConfigResponse (info : V1_0_RadioResponseInfo)
  | setCdmaBroadcastActivationResponse (info : V1_0_RadioResponseInfo)
  | getCDMASubscriptionResponse (info : V1_0_RadioResponseInfo) (mdn hSid hNid min prl : string)
  | writeSmsToRuimResponse (info : V1_0_RadioResponseInfo) (index : Z)
  | deleteSmsOnRuimResponse (info : V1_0_RadioResponseInfo)
  | getDeviceIdentityResponse (info : V1_0_RadioResponseInfo) (imei imeisv esn meid : string)
  | exitEmergencyCallbackModeResponse (info : V1_0_RadioResponseInfo)
  | getSmscAddressResponse (info : V1_0_RadioResponseInfo) (smsc : string)
  | setSmscAddressResponse (info : V1_0_RadioResponseInfo)
  | reportSmsMemoryStatusResponse (info : V1_0_RadioResponseInfo)
  | reportStkServiceIsRunningResponse (info : V1_0_RadioResponseInfo)
  | getCdmaSubscriptionSourceResponse (info : V1_0_RadioResponseInfo) (source : Z)
  | requestIsimAuthenticationResponse (info : V1_0_RadioResponseInfo) (response : string)
  | acknowledgeIncomingGsmSmsWithPduResponse (info : V1_0_RadioResponseInfo)
  | sendEnvelopeWithStatusResponse (info : V1_0_RadioResponseInfo) (iccIo : hidl V1_0_IccIoResult)
  | getVoiceRadioTechnologyResponse (info : V1_0_RadioResponseInfo) (rat : Z)
  | getCellInfoListResponse (info : V1_0_RadioResponseInfo) (cellInfo : list V1_0_CellInfo)
  | setCellInfoListRateResponse (info : V1_0_RadioResponseInfo)
  | setInitialAttachApnResponse (info : V1_0_RadioResponseInfo)
  | getImsRegistrationStateResponse (info : V1_0_RadioResponseInfo) (isRegistered : bool) (ratFamily : Z)
  | sendImsSmsResponse (info : V1_0_RadioResponseInfo) (sms : hidl V1_0_SendSmsResult)
  | iccTransmitApduBasicChannelResponse (info : V1_0_RadioResponseInfo) (result : hidl V1_0_IccIoResult)
  | iccOpenLogicalChannelResponse (info : V1_0_RadioResponseInfo) (channelId : Z) (selectResponse : list Z)
  | iccCloseLogicalChannelResponse (info : V1_0_RadioResponseInfo)
  | iccTransmitApduLogicalChannelResponse (info : V1_0_RadioResponseInfo) (result : hidl V1_0_IccIoResult)
  | nvReadItemResponse (info : V1_0_RadioResponseInfo) (result : string)
  | nvWriteItemResponse (info : V1_0_RadioResponseInfo)
  | nvWriteCdmaPrlResponse (info : V1_0_RadioResponseInfo)
  | nvResetConfigResponse (info : V1_0_RadioResponseInfo)
  | setUiccSubscriptionResponse (info : V1_0_RadioResponseInfo)
  | setDataAllowedResponse (info : V1_0_RadioResponseInfo)
  | getHardwareConfigResponse (info : V1_0_RadioResponseInfo) (config : list (hidl V1_0_HardwareConfig))
  | requestIccSimAuthenticationResponse (info : V1_0_RadioResponseInfo) (result : hidl V1_0_IccIoResult)
  | setDataProfileResponse (info : V1_0_RadioResponseInfo)
  | requestShutdownResponse (info : V1_0_RadioResponseInfo)
  | getRadioCapabilityResponse (info : V1_0_RadioResponseInfo) (rc : hidl V1_0_RadioCapability)
  | setRadioCapabilityResponse (info : V1_0_RadioResponseInfo) (rc : hidl V1_0_RadioCapability)
  | startLceServiceResponse (info : V1_0_RadioResponseInfo) (statusInfo : hidl V1_0_LceStatusInfo)
  | stopLceServiceResponse (info : V1_0_RadioResponseInfo) (statusInfo : hidl V1_0_LceStatusInfo)
  | pullLceDataResponse (info : V1_0_RadioResponseInfo) (lceInfo : hidl V1_0_LceDataInfo)
  | getModemActivityInfoResponse (info : V1_0_RadioResponseInfo) (activityInfo : hidl V1_0_ActivityStatsInfo)
  | setAllowedCarriersResponse (info : V1_0_RadioResponseInfo) (numAllowed : Z)
  | getAllowedCarriersResponse (info : V1_0_RadioResponseInfo) (allAllowed : bool) (carriers : V1_0_CarrierRestrictions)
  | sendDeviceStateResponse (info : V1_0_RadioResponseInfo)
  | setIndicationFilterResponse (info : V1_0_RadioResponseInfo)
  | setSimCardPowerResponse (info : V1_0_RadioResponseInfo)
  | acknowledgeRequest (serial : Z)
  | setCarrierInfoForImsiEncryptionResponse (info : V1_0_RadioResponseInfo)
  | setSimCardPowerResponse_1_1 (info : V1_0_RadioResponseInfo)
  | startNetworkScanResponse (info : V1_0_RadioResponseInfo)
  | stopNetworkScanResponse (info : V1_0_RadioResponseInfo)
  | startKeepaliveResponse (info : V1_0_RadioResponseInfo) (status : hidl V1_1_KeepaliveStatus)
  | stopKeepaliveResponse (info : V1_0_RadioResponseInfo)
  | getCellInfoListResponse_1_2 (info : V1_0_RadioResponseInfo) (cellInfo : list V1_2_CellInfo)
  | getIccCardStatusResponse_1_2 (info : V1_0_RadioResponseInfo) (cardStatus : V1_2_CardStatus)
  | setSignalStrengthReportingCriteriaResponse (info : V1_0_RadioResponseInfo)
  | setLinkCapacityReportingCriteriaResponse (info : V1_0_RadioResponseInfo)
  | getCurrentCallsResponse_1_2 (info : V1_0_RadioResponseInfo) (calls : list V1_2_Call)
  | getSignalStrengthResponse_1_2 (info : V1_0_RadioResponseInfo) (signalStrength : V1_2_SignalStrength)
  | getVoiceRegistrationStateResponse_1_2 (info : V1_0_RadioResponseInfo) (voiceRegResponse : V1_2_VoiceRegStateResult)
  | getDataRegistrationStateResponse_1_2 (info : V1_0_RadioResponseInfo) (dataRegResponse : V1_2_DataRegStateResult)
  | setSystemSelectionChannelsResponse (info : V1_0_RadioResponseInfo)
  | enableModemResponse (info : V1_0_RadioResponseInfo)
  | getModemStackStatusResponse (info : V1_0_RadioResponseInfo) (isEnabled : bool)
  | emergencyDialResponse (info : V1_0_RadioResponseInfo)
  | startNetworkScanResponse_1_4 (info : V1_0_RadioResponseInfo)
  | getCellInfoListResponse_1_4 (info : V1_0_RadioResponseInfo) (cellInfo : list V1_4_CellInfo)
  | getDataRegistrationStateResponse_1_4 (info : V1_0_RadioResponseInfo) (dataRegResponse : V1_4_DataRegStateResult)
  | getIccCardStatusResponse_1_4 (info : V1_0_RadioResponseInfo) (cardStatus : V1_4_CardStatus)
  | getPreferredNetworkTypeBitmapResponse (info : V1_0_RadioResponseInfo) (networkTypeBitmap : Z)
  | setPreferredNetworkTypeBitmapResponse (info : V1_0_RadioResponseInfo)
  | getDataCallListResponse_1_4 (info : V1_0_RadioResponseInfo) (dcResponse : list V1_4_SetupDataCallResult)
  | setupDataCallResponse_1_4 (info : V1_0_RadioResponseInfo) (dcResponse : V1_4_SetupDataCallResult)
  | setAllowedCarriersResponse_1_4 (info : V1_0_RadioResponseInfo)
  | getAllowedCarriersResponse_1_4 (info : V1_0_RadioResponseInfo) (carriers : V1_4_CarrierRestrictionsWithPriority) (multiSimPolicy : Z)
  | getSignalStrengthResponse_1_4 (info : V1_0_RadioResponseInfo) (signalStrength : V1_4_SignalStrength).

(** The header of a reply. *)
Definition info_of (p : reply) : option V1_0_RadioResponseInfo :=
  match p with
  | acknowledgeRequest _ => None
  | getIccCardStatusResponse info _ | supplyIccPinForAppResponse info _ | supplyIccPukForAppResponse info _ | supplyIccPin2ForAppResponse info _
  | supplyIccPuk2ForAppResponse info _ | changeIccPinForAppResponse info _ | changeIccPin2ForAppResponse info _
  | supplyNetworkDepersonalizationResponse info _ | getCurrentCallsResponse info _ | dialResponse info | getIMSIForAppResponse info _
  | hangupConnectionResponse info | hangupWaitingOrBackgroundResponse info | hangupForegroundResumeBackgroundResponse info
  | switchWaitingOrHoldingAndActiveResponse info | conferenceResponse info | rejectCallResponse info | getLastCallFailCauseResponse info _
  | getSignalStrengthResponse info _ | getVoiceRegistrationStateResponse info _ | getDataRegistrationStateResponse info _
  | getOperatorResponse info _ _ _ | setRadioPowerResponse info | sendDtmfResponse info | sendSmsResponse info _ | sendSMSExpectMoreResponse info _
  | setupDataCallResponse info _ | iccIOForAppResponse info _ | sendUssdResponse info | cancelPendingUssdResponse info | getClirResponse info _ _
  | setClirResponse info | getCallForwardStatusResponse info _ | setCallForwardResponse info | getCallWaitingResponse info _ _
  | setCallWaitingResponse info | acknowledgeLastIncomingGsmSmsResponse info | acceptCallResponse info | deactivateDataCallResponse info
  | getFacilityLockForAppResponse info _ | setFacilityLockForAppResponse info _ | setBarringPasswordResponse info
  | getNetworkSelectionModeResponse info _ | setNetworkSelectionModeAutomaticResponse info | setNetworkSelectionModeManualResponse info
  | getAvailableNetworksResponse info _ | startDtmfResponse info | stopDtmfResponse info | getBasebandVersionResponse info _
  | separateConnectionResponse info | setMuteResponse info | getMuteResponse info _ | getClipResponse info _ | getDataCallListResponse info _
  | setSuppServiceNotificationsResponse info | writeSmsToSimResponse info _ | deleteSmsOnSimResponse info | setBandModeResponse info
  | getAvailableBandModesResponse info _ | sendEnvelopeResponse info _ | sendTerminalResponseToSimResponse info
  | handleStkCallSetupRequestFromSimResponse info | explicitCallTransferResponse info | setPreferredNetworkTypeResponse info
  | getPreferredNetworkTypeResponse info _ | getNeighboringCidsResponse info _ | setLocationUpdatesResponse info
  | setCdmaSubscriptionSourceResponse info | setCdmaRoamingPreferenceResponse info | getCdmaRoamingPreferenceResponse info _ | setTTYModeResponse info
  | getTTYModeResponse info _ | setPreferredVoicePrivacyResponse info | getPreferredVoicePrivacyResponse info _ | sendCDMAFeatureCodeResponse info
  | sendBurstDtmfResponse info | sendCdmaSmsResponse info _ | acknowledgeLastIncomingCdmaSmsResponse info | getGsmBroadcastConfigResponse info _
  | setGsmBroadcastConfigResponse info | setGsmBroadcastActivationResponse info | getCdmaBroadcastConfigResponse info _
  | setCdmaBroadcastConfigResponse info | setCdmaBroadcastActivationResponse info | getCDMASubscriptionResponse info _ _ _ _ _
  | writeSmsToRuimResponse info _ | deleteSmsOnRuimResponse info | getDeviceIdentityResponse info _ _ _ _ | exitEmergencyCallbackModeResponse info
  | getSmscAddressResponse info _ | setSmscAddressResponse info | reportSmsMemoryStatusResponse info | reportStkServiceIsRunningResponse info
  | getCdmaSubscriptionSourceResponse info _ | requestIsimAuthenticationResponse info _ | acknowledgeIncomingGsmSmsWithPduResponse info
  | sendEnvelopeWithStatusResponse info _ | getVoiceRadioTechnologyResponse info _ | getCellInfoListResponse info _ | setCellInfoListRateResponse info
  | setInitialAttachApnResponse info | getImsRegistrationStateResponse info _ _ | sendImsSmsResponse info _
  | iccTransmitApduBasicChannelResponse info _ | iccOpenLogicalChannelResponse info _ _ | iccCloseLogicalChannelResponse info
  | iccTransmitApduLogicalChannelResponse info _ | nvReadItemResponse info _ | nvWriteItemResponse info | nvWriteCdmaPrlResponse info
  | nvResetConfigResponse info | setUiccSubscriptionResponse info | setDataAllowedResponse info | getHardwareConfigResponse info _
  | requestIccSimAuthenticationResponse info _ | setDataProfileResponse info | requestShutdownResponse info | getRadioCapabilityResponse info _
  | setRadioCapabilityResponse info _ | startLceServiceResponse info _ | stopLceServiceResponse info _ | pullLceDataResponse info _
  | getModemActivityInfoResponse info _ | setAllowedCarriersResponse info _ | getAllowedCarriersResponse info _ _ | sendDeviceStateResponse info
  | setIndicationFilterResponse info | setSimCardPowerResponse info | setCarrierInfoForImsiEncryptionResponse info | setSimCardPowerResponse_1_1 info
  | startNetworkScanResponse info | stopNetworkScanResponse info | startKeepaliveResponse info _ | stopKeepaliveResponse info
  | getCellInfoListResponse_1_2 info _ | getIccCardStatusResponse_1_2 info _ | setSignalStrengthReportingCriteriaResponse info
  | setLinkCapacityReportingCriteriaResponse info | getCurrentCallsResponse_1_2 info _ | getSignalStrengthResponse_1_2 info _
  | getVoiceRegistrationStateResponse_1_2 info _ | getDataRegistrationStateResponse_1_2 info _ | setSystemSelectionChannelsResponse info
  | enableModemResponse info | getModemStackStatusResponse info _ | emergencyDialResponse info | startNetworkScanResponse_1_4 info
  | getCellInfoListResponse_1_4 info _ | getDataRegistrationStateResponse_1_4 info _ | getIccCardStatusResponse_1_4 info _
  | getPreferredNetworkTypeBitmapResponse info _ | setPreferredNetworkTypeBitmapResponse info | getDataCallListResponse_1_4 info _
  | setupDataCallResponse_1_4 info _ | setAllowedCarriersResponse_1_4 info | getAllowedCarriersResponse_1_4 info _ _
  | getSignalStrengthResponse_1_4 info _ => Some info
  end.

(** The request that the documentation says a reply answers. *)
Definition method_of (p : reply) : string :=
  match p with
  | getIccCardStatusResponse _ _ | getIccCardStatusResponse_1_2 _ _ | getIccCardStatusResponse_1_4 _ _ => "getIccCardStatus"
  | supplyIccPinForAppResponse _ _ => "supplyIccPinForApp"
  | supplyIccPukForAppResponse _ _ => "supplyIccPukForApp"
  | supplyIccPin2ForAppResponse _ _ => "supplyIccPin2ForApp"
  | supplyIccPuk2ForAppResponse _ _ => "supplyIccPuk2ForApp"
  | changeIccPinForAppResponse _ _ => "changeIccPinForApp"
  | changeIccPin2ForAppResponse _ _ => "changeIccPin2ForApp"
  | supplyNetworkDepersonalizationResponse _ _ => "supplyNetworkDepersonalization"
  | getCurrentCallsResponse _ _ | getCurrentCallsResponse_1_2 _ _ => "getCurrentCalls"
  | dialResponse _ => "dial"
  | getIMSIForAppResponse _ _ => "getImsiForApp"
  | hangupConnectionResponse _ => "hangup"
  | hangupWaitingOrBackgroundResponse _ => "hangupWaitingOrBackground"
  | hangupForegroundResumeBackgroundResponse _ => "hangupForegroundResumeBackground"
  | switchWaitingOrHoldingAndActiveResponse _ => "switchWaitingOrHoldingAndActive"
  | conferenceResponse _ => "conference"
  | rejectCallResponse _ => "rejectCall"
  | getLastCallFailCauseResponse _ _ => "getLastCallFailCause"
  | getSignalStrengthResponse _ _ | getSignalStrengthResponse_1_2 _ _ | getSignalStrengthResponse_1_4 _ _ => "getSignalStrength"
  | getVoiceRegistrationStateResponse _ _ | getVoiceRegistrationStateResponse_1_2 _ _ => "getVoiceRegistrationState"
  | getDataRegistrationStateResponse _ _ | getDataRegistrationStateResponse_1_2 _ _ | getDataRegistrationStateResponse_1_4 _ _ => "getDataRegistrationState"
  | getOperatorResponse _ _ _ _ => "getOperator"
  | setRadioPowerResponse _ => "setRadioPower"
  | sendDtmfResponse _ => "sendDtmf"
  | sendSmsResponse _ _ => "sendSms"
  | sendSMSExpectMoreResponse _ _ => "sendSMSExpectMore"
  | setupDataCallResponse _ _ | setupDataCallResponse_1_4 _ _ => "setupDataCall"
  | iccIOForAppResponse _ _ => "iccIOForApp"
  | sendUssdResponse _ => "sendUssd"
  | cancelPendingUssdResponse _ => "cancelPendingUssd"
  | getClirResponse _ _ _ => "getClir"
  | setClirResponse _ => "setClir"
  | getCallForwardStatusResponse _ _ => "getCallForwardStatus"
  | setCallForwardResponse _ => "setCallForward"
  | getCallWaitingResponse _ _ _ => "getCallWaiting"
  | setCallWaitingResponse _ => "setCallWaiting"
  | acknowledgeLastIncomingGsmSmsResponse _ => "acknowledgeLastIncomingGsmSms"
  | acceptCallResponse _ => "acceptCall"
  | deactivateDataCallResponse _ => "deactivateDataCall"
  | getFacilityLockForAppResponse _ _ => "getFacilityLockForApp"
  | setFacilityLockForAppResponse _ _ => "setFacilityLockForApp"
  | setBarringPasswordResponse _ => "setBarringPassword"
  | getNetworkSelectionModeResponse _ _ => "getNetworkSelectionMode"
  | setNetworkSelectionModeAutomaticResponse _ => "setNetworkSelectionModeAutomatic"
  | setNetworkSelectionModeManualResponse _ => "setNetworkSelectionModeManual"
  | getAvailableNetworksResponse _ _ => "getAvailableNetworks"
  | startDtmfResponse _ => "startDtmf"
  | stopDtmfResponse _ => "stopDtmf"
  | getBasebandVersionResponse _ _ => "getBasebandVersion"
  | separateConnectionResponse _ => "separateConnection"
  | setMuteResponse _ => "setMute"
  | getMuteResponse _ _ => "getMute"
  | getClipResponse _ _ => "getClip"
  | getDataCallListResponse _ _ | getDataCallListResponse_1_4 _ _ => "getDataCallList"
  | setSuppServiceNotificationsResponse _ => "setSuppServiceNotifications"
  | writeSmsToSimResponse _ _ => "writeSmsToSim"
  | deleteSmsOnSimResponse _ => "deleteSmsOnSim"
  | setBandModeResponse _ => "setBandMode"
  | getAvailableBandModesResponse _ _ => "getAvailableBandModes"
  | sendEnvelopeResponse _ _ => "sendEnvelope"
  | sendTerminalResponseToSimResponse _ => "sendTerminalResponseToSim"
  | handleStkCallSetupRequestFromSimResponse _ => "handleStkCallSetupRequestFromSim"
  | explicitCallTransferResponse _ => "explicitCallTransfer"
  | setPreferredNetworkTypeResponse _ => "setPreferredNetworkType"
  | getPreferredNetworkTypeResponse _ _ => "getPreferredNetworkType"
  | getNeighboringCidsResponse _ _ => "getNeighboringCids"
  | setLocationUpdatesResponse _ => "setLocationUpdates"
  | setCdmaSubscriptionSourceResponse _ => "setCdmaSubscriptionSource"
  | setCdmaRoamingPreferenceResponse _ => "setCdmaRoamingPreference"
  | getCdmaRoamingPreferenceResponse _ _ => "getCdmaRoamingPreference"
  | setTTYModeResponse _ => "setTTYMode"
  | getTTYModeResponse _ _ => "getTTYMode"
  | setPreferredVoicePrivacyResponse _ => "setPreferredVoicePrivacy"
  | getPreferredVoicePrivacyResponse _ _ => "getPreferredVoicePrivacy"
  | sendCDMAFeatureCodeResponse _ => "sendCDMAFeatureCode"
  | sendBurstDtmfResponse _ => "sendBurstDtmf"
  | sendCdmaSmsResponse _ _ => "sendCdmaSms"
  | acknowledgeLastIncomingCdmaSmsResponse _ => "acknowledgeLastIncomingCdmaSms"
  | getGsmBroadcastConfigResponse _ _ => "getGsmBroadcastConfig"
  | setGsmBroadcastConfigResponse _ => "setGsmBroadcastConfig"
  | setGsmBroadcastActivationResponse _ => "setGsmBroadcastActivation"
  | getCdmaBroadcastConfigResponse _ _ => "getCdmaBroadcastConfig"
  | setCdmaBroadcastConfigResponse _ => "setCdmaBroadcastConfig"
  | setCdmaBroadcastActivationResponse _ => "setCdmaBroadcastActivation"
  | getCDMASubscriptionResponse _ _ _ _ _ _ => "getCDMASubscription"
  | writeSmsToRuimResponse _ _ => "writeSmsToRuim"
  | deleteSmsOnRuimResponse _ => "deleteSmsOnRuim"
  | getDeviceIdentityResponse _ _ _ _ _ => "getDeviceIdentity"
  | exitEmergencyCallbackModeResponse _ => "exitEmergencyCallbackMode"
  | getSmscAddressResponse _ _ => "getSmscAddress"
  | setSmscAddressResponse _ => "setSmscAddress"
  | reportSmsMemoryStatusResponse _ => "reportSmsMemoryStatus"
  | reportStkServiceIsRunningResponse _ => "reportStkServiceIsRunning"
  | getCdmaSubscriptionSourceResponse _ _ => "getCdmaSubscriptionSource"
  | requestIsimAuthenticationResponse _ _ => "requestIsimAuthentication"
  | acknowledgeIncomingGsmSmsWithPduResponse _ => "acknowledgeIncomingGsmSmsWithPdu"
  | sendEnvelopeWithStatusResponse _ _ => "sendEnvelopeWithStatus"
  | getVoiceRadioTechnologyResponse _ _ => "getVoiceRadioTechnology"
  | getCellInfoListResponse _ _ | getCellInfoListResponse_1_2 _ _ | getCellInfoListResponse_1_4 _ _ => "getCellInfoList"
  | setCellInfoListRateResponse _ => "setCellInfoListRate"
  | setInitialAttachApnResponse _ => "setInitialAttachApn"
  | getImsRegistrationStateResponse _ _ _ => "getImsRegistrationState"
  | sendImsSmsResponse _ _ => "sendImsSms"
  | iccTransmitApduBasicChannelResponse _ _ => "iccTransmitApduBasicChannel"
  | iccOpenLogicalChannelResponse _ _ _ => "iccOpenLogicalChannel"
  | iccCloseLogicalChannelResponse _ => "iccCloseLogicalChannel"
  | iccTransmitApduLogicalChannelResponse _ _ => "iccTransmitApduLogicalChannel"
  | nvReadItemResponse _ _ => "nvReadItem"
  | nvWriteItemResponse _ => "nvWriteItem"
  | nvWriteCdmaPrlResponse _ => "nvWriteCdmaPrl"
  | nvResetConfigResponse _ => "nvResetConfig"
  | setUiccSubscriptionResponse _ => "setUiccSubscription"
  | setDataAllowedResponse _ => "setDataAllowed"
  | getHardwareConfigResponse _ _ => "getHardwareConfig"
  | requestIccSimAuthenticationResponse _ _ => "requestIccSimAuthentication"
  | setDataProfileResponse _ => "setDataProfile"
  | requestShutdownResponse _ => "requestShutdown"
  | getRadioCapabilityResponse _ _ => "getRadioCapability"
  | setRadioCapabilityResponse _ _ => "setRadioCapability"
  | startLceServiceResponse _ _ => "startLceService"
  | stopLceServiceResponse _ _ => "stopLceService"
  | pullLceDataResponse _ _ => "pullLceData"
  | getModemActivityInfoResponse _ _ => "getModemActivityInfo"
  | setAllowedCarriersResponse _ _ | setAllowedCarriersResponse_1_4 _ => "setAllowedCarriers"
  | getAllowedCarriersResponse _ _ _ | getAllowedCarriersResponse_1_4 _ _ _ => "getAllowedCarriers"
  | sendDeviceStateResponse _ => "sendDeviceState"
  | setIndicationFilterResponse _ => "setIndicationFilter"
  | setSimCardPowerResponse _ | setSimCardPowerResponse_1_1 _ => "setSimCardPower"
  | acknowledgeRequest _ => "acknowledgeRequest"
  | setCarrierInfoForImsiEncryptionResponse _ => "setCarrierInfoForImsiEncryption"
  | startNetworkScanResponse _ | startNetworkScanResponse_1_4 _ => "startNetworkScan"
  | stopNetworkScanResponse _ => "stopNetworkScan"
  | startKeepaliveResponse _ _ => "startKeepalive"
  | stopKeepaliveResponse _ => "stopKeepalive"
  | setSignalStrengthReportingCriteriaResponse _ => "setSignalStrengthReportingCriteria"
  | setLinkCapacityReportingCriteriaResponse _ => "setLinkCapacityReportingCriteria"
  | setSystemSelectionChannelsResponse _ => "setSystemSelectionChannels"
  | enableModemResponse _ => "enableModem"
  | getModemStackStatusResponse _ _ => "getModemStackStatus"
  | emergencyDialResponse _ => "emergencyDial"
  | getPreferredNetworkTypeBitmapResponse _ _ => "getPreferredNetworkTypeBitmap"
  | setPreferredNetworkTypeBitmapResponse _ => "setPreferredNetworkTypeBitmap"
  end%string.

End Messages.
End IRadioResponse.

(** ** Indications *)

Module IRadioIndication.
Section Messages.
Context `{HidlData}.

Inductive indication : Type :=
  | radioStateChanged (type radioState : Z)
  | callStateChanged (type : Z)
  | networkStateChanged (type : Z)
  | newSms (type : Z) (pdu : list Z)
  | newSmsStatusReport (type : Z) (pdu : list Z)
  | newSmsOnSim (type recordNumber : Z)
  | onUssd (type modeType : Z) (msg : string)
  | nitzTimeReceived (type : Z) (nitzTime : string) (receivedTime : Z)
  | currentSignalStrength (type : Z) (signalStrength : V1_0_SignalStrength)
  | dataCallListChanged (type : Z) (dcList : list V1_0_SetupDataCallResult)
  | suppSvcNotify (type : Z) (suppSvc : hidl V1_0_SuppSvcNotification)
  | stkSessionEnd (type : Z)
  | stkProactiveCommand (type : Z) (cmd : string)
  | stkEventNotify (type : Z) (cmd : string)
  | stkCallSetup (type timeout : Z)
  | simSmsStorageFull (type : Z)
  | simRefresh (type : Z) (refreshResult : hidl V1_0_SimRefreshResult)
  | callRing (type : Z) (isGsm : bool) (record : hidl V1_0_CdmaSignalInfoRecord)
  | simStatusChanged (type : Z)
  | cdmaNewSms (type : Z) (msg : hidl V1_0_CdmaSmsMessage)
  | newBroadcastSms (type : Z) (data : list Z)
  | cdmaRuimSmsStorageFull (type : Z)
  | restrictedStateChanged (type state : Z)
  | enterEmergencyCallbackMode (type : Z)
  | cdmaCallWaiting (type : Z) (callWaitingRecord : hidl V1_0_CdmaCallWaiting)
  | cdmaOtaProvisionStatus (type status : Z)
  | cdmaInfoRec (type : Z) (records : hidl V1_0_CdmaInformationRecords)
  | indicateRingbackTone (type : Z) (start : bool)
  | resendIncallMute (type : Z)
  | cdmaSubscriptionSourceChanged (type cdmaSource : Z)
  | cdmaPrlChanged (type version : Z)
  | exitEmergencyCallbackMode (type : Z)
  | rilConnected (type : Z)
  | voiceRadioTechChanged (type rat : Z)
  | cellInfoList (type : Z) (records : list V1_0_CellInfo)
  | imsNetworkStateChanged (type : Z)
  | subscriptionStatusChanged (type : Z) (activate : bool)
  | srvccStateNotify (type state : Z)
  | hardwareConfigChanged (type : Z) (configs : list (hidl V1_0_HardwareConfig))
  | radioCapabilityIndication (type : Z) (rc : hidl V1_0_RadioCapability)
  | onSupplementaryServiceIndication (type : Z) (ss : hidl V1_0_StkCcUnsolSsResult)
  | stkCallControlAlphaNotify (type : Z) (alpha : string)
  | lceData (type : Z) (lce : hidl V1_0_LceDataInfo)
  | pcoData (type : Z) (pco : hidl V1_0_PcoDataInfo)
  | modemReset (type : Z) (reason : string)
  | carrierInfoForImsiEncryption (info : Z)
  | networkScanResult (type : Z) (result : V1_1_NetworkScanResult)
  | keepaliveStatus (type : Z) (status : hidl V1_1_KeepaliveStatus)
  | networkScanResult_1_2 (type : Z) (result : V1_2_NetworkScanResult)
  | cellInfoList_1_2 (type : Z) (records : list V1_2_CellInfo)
  | currentLinkCapacityEstimate (type : Z) (lce : hidl V1_2_LinkCapacityEstimate)
  | currentPhysicalChannelConfigs (type : Z) (configs : list (hidl V1_2_PhysicalChannelConfig))
  | currentSignalStrength_1_2 (type : Z) (signalStrength : V1_2_SignalStrength)
  | currentEmergencyNumberList (type : Z) (emergencyNumberList : list (hidl V1_4_EmergencyNumber))
  | cellInfoList_1_4 (type : Z) (records : list V1_4_CellInfo)
  | networkScanResult_1_4 (type : Z) (result : V1_4_NetworkScanResult)
  | currentPhysicalChannelConfigs_1_4 (type : Z) (configs : list V1_4_PhysicalChannelConfig)
  | dataCallListChanged_1_4 (type : Z) (dcList : list V1_4_SetupDataCallResult)
  | currentSignalStrength_1_4 (type : Z) (signalStrength : V1_4_SignalStrength).

(** The type of an indication. *)
Definition type_of (i : indication) : Z :=
  match i with
  | radioStateChanged type _ | callStateChanged type | networkStateChanged type | newSms type _ | newSmsStatusReport type _ | newSmsOnSim type _
  | onUssd type _ _ | nitzTimeReceived type _ _ | currentSignalStrength type _ | dataCallListChanged type _ | suppSvcNotify type _
  | stkSessionEnd type | stkProactiveCommand type _ | stkEventNotify type _ | stkCallSetup type _ | simSmsStorageFull type | simRefresh type _
  | callRing type _ _ | simStatusChanged type | cdmaNewSms type _ | newBroadcastSms type _ | cdmaRuimSmsStorageFull type
  | restrictedStateChanged type _ | enterEmergencyCallbackMode type | cdmaCallWaiting type _ | cdmaOtaProvisionStatus type _ | cdmaInfoRec type _
  | indicateRingbackTone type _ | resendIncallMute type | cdmaSubscriptionSourceChanged type _ | cdmaPrlChanged type _
  | exitEmergencyCallbackMode type | rilConnected type | voiceRadioTechChanged type _ | cellInfoList type _ | imsNetworkStateChanged type
  | subscriptionStatusChanged type _ | srvccStateNotify type _ | hardwareConfigChanged type _ | radioCapabilityIndication type _
  | onSupplementaryServiceIndication type _ | stkCallControlAlphaNotify type _ | lceData type _ | pcoData type _ | modemReset type _
  | carrierInfoForImsiEncryption type | networkScanResult type _ | keepaliveStatus type _ | networkScanResult_1_2 type _ | cellInfoList_1_2 type _
  | currentLinkCapacityEstimate type _ | currentPhysicalChannelConfigs type _ | currentSignalStrength_1_2 type _ | currentEmergencyNumberList type _
  | cellInfoList_1_4 type _ | networkScanResult_1_4 type _ | currentPhysicalChannelConfigs_1_4 type _ | dataCallListChanged_1_4 type _
  | currentSignalStrength_1_4 type _ => type
  end.

End Messages.
End IRadioIndication.
