(* ===== verification/RadioResponse.v ===== *)
(** * Replies of the radio

    [src/radio/1.4/legacy/RadioResponse.cpp]: the object the real radio
    replies to.  Each method passes its reply on to the client, the ones of
    older versions converted to version 1.4.  The object keeps what the last
    registration replies said of the data connection, for the requests of
    version 1.4 that lack it.  A null pointer to the client ends the process:
    then the method has no result. *)

From S2P Require Import Prelude Text RadioTypes RadioHelpers RadioInterface.

Record RadioResponse := mkRadioResponse {
  this_response : Z;                       (* the identity of the object *)
  mRealRadioResponse : option Z;
  mRat : Z;
  mDataRoaming : bool
}.
#[export] Instance RadioResponse_eta : Record_eta RadioResponse :=
  fun r => mkRadioResponse (this_response r) (mRealRadioResponse r) (mRat r) (mDataRoaming r).

Section Replies.
Context `{HidlData} `{E : RadioEnums}.

(** The object as [Radio] creates it. *)
Definition RadioResponse_new (this : Z) : RadioResponse := mkRadioResponse this None RadioTechnology_UNKNOWN false.

(** What a method leaves: the object, and the call of a method of the client. *)
Definition Replied : Type := option (RadioResponse * (Z * IRadioResponse.reply)).

(** [mRealRadioResponse->method(...)]. *)
Definition to_client (self : RadioResponse) (p : IRadioResponse.reply) : Replied :=
  match mRealRadioResponse self with
  | Some client => Some (self, (client, p))
  | None => None
  end.

(** The fields of [newCI] that no branch assigns keep their value. *)
Definition Init1_2CellIdentity (legacyCI : V1_0_CellIdentity) (newCI : V1_2_CellIdentity) : V1_2_CellIdentity :=
  let '(mkIdentity2 t g w c l d) := newCI in
  match cellIdentityGsm0 legacyCI, cellIdentityCdma0 legacyCI, cellIdentityLte0 legacyCI, cellIdentityWcdma0 legacyCI, cellIdentityTdscdma0 legacyCI with
  | [x], _, _, _, _ => mkIdentity2 t [mkIdGsm2 x (hidl_zero _)] w c l d
  | _, [x], _, _, _ => mkIdentity2 t g w [mkIdCdma2 x (hidl_zero _)] l d
  | _, _, [x], _, _ => mkIdentity2 t g w c [mkIdLte2 x (hidl_zero _) INT_MAX] d
  | _, _, _, [x], _ => mkIdentity2 t g [mkIdWcdma2 x (hidl_zero _)] c l d
  | _, _, _, _, [x] => mkIdentity2 t g w c l [mkIdTd2 x INT_MAX (hidl_zero _)]
  | _, _, _, _, _ => newCI
  end.

(** The switch of [getPreferredNetworkTypeResponse]. *)
Definition nwTypeBitmap (nwType : PreferredNetworkType) : Z :=
  match nwType with
  | GSM_WCDMA | GSM_WCDMA_AUTO => Z.lor GSMBITS WCDMABITS
  | GSM_ONLY => GSMBITS
  | WCDMA => WCDMABITS
  | CDMA_EVDO_AUTO => Z.lor CDMABITS EVDOBITS
  | CDMA_ONLY => CDMABITS
  | EVDO_ONLY => EVDOBITS
  | GSM_WCDMA_CDMA_EVDO_AUTO => Z.lor (Z.lor (Z.lor GSMBITS WCDMABITS) CDMABITS) EVDOBITS
  | LTE_CDMA_EVDO => Z.lor (Z.lor LTEBITS CDMABITS) EVDOBITS
  | LTE_GSM_WCDMA => Z.lor (Z.lor LTEBITS GSMBITS) WCDMABITS
  | LTE_CMDA_EVDO_GSM_WCDMA => Z.lor (Z.lor (Z.lor (Z.lor LTEBITS CDMABITS) EVDOBITS) GSMBITS) WCDMABITS
  | LTE_ONLY => LTEBITS
  | LTE_WCDMA => Z.lor LTEBITS WCDMABITS
  | TD_SCDMA_ONLY => TDSCDMABIT
  | TD_SCDMA_WCDMA => Z.lor TDSCDMABIT WCDMABITS
  | TD_SCDMA_LTE => Z.lor TDSCDMABIT LTEBITS
  | TD_SCDMA_GSM => Z.lor TDSCDMABIT GSMBITS
  | TD_SCDMA_GSM_LTE => Z.lor (Z.lor TDSCDMABIT GSMBITS) LTEBITS
  | TD_SCDMA_GSM_WCDMA => Z.lor (Z.lor TDSCDMABIT GSMBITS) WCDMABITS
  | TD_SCDMA_WCDMA_LTE => Z.lor (Z.lor TDSCDMABIT WCDMABITS) LTEBITS
  | TD_SCDMA_GSM_WCDMA_LTE => Z.lor (Z.lor (Z.lor TDSCDMABIT GSMBITS) WCDMABITS) LTEBITS
  | TD_SCDMA_GSM_WCDMA_CDMA_EVDO_AUTO => Z.lor (Z.lor (Z.lor (Z.lor TDSCDMABIT GSMBITS) WCDMABITS) CDMABITS) EVDOBITS
  | TD_SCDMA_LTE_CDMA_EVDO_GSM_WCDMA => Z.lor (Z.lor (Z.lor (Z.lor (Z.lor TDSCDMABIT LTEBITS) CDMABITS) EVDOBITS) GSMBITS) WCDMABITS
  | PreferredNetworkType_other _ => 0
  end.

(** *** Methods of version 1.0 *)

Definition getIccCardStatusResponse (self : RadioResponse) (info : V1_0_RadioResponseInfo) (cardStatus : hidl V1_0_CardStatus) : Replied :=
  let newCS := mkCard4 (mkCard2 cardStatus (-1) " " (hidl_zero _)) "" in
  to_client self (IRadioResponse.getIccCardStatusResponse_1_4 info newCS).

Definition supplyIccPinForAppResponse (self : RadioResponse) (info : V1_0_RadioResponseInfo) (remainingRetries : Z) : Replied :=
  to_client self (IRadioResponse.supplyIccPinForAppResponse info remainingRetries).

Definition supplyIccPukForAppResponse (self : RadioResponse) (info : V1_0_RadioResponseInfo) (remainingRetries : Z) : Replied :=
  to_client self (IRadioResponse.supplyIccPukForAppResponse info remainingRetries).

Definition supplyIccPin2ForAppResponse (self : RadioResponse) (info : V1_0_RadioResponseInfo) (remainingRetries : Z) : Replied :=
  to_client self (IRadioResponse.supplyIccPin2ForAppResponse info remainingRetries).

Definition supplyIccPuk2ForAppResponse (self : RadioResponse) (info : V1_0_RadioResponseInfo) (remainingRetries : Z) : Replied :=
  to_client self (IRadioResponse.supplyIccPuk2ForAppResponse info remainingRetries).

Definition changeIccPinForAppResponse (self : RadioResponse) (info : V1_0_RadioResponseInfo) (remainingRetries : Z) : Replied :=
  to_client self (IRadioResponse.changeIccPinForAppResponse info remainingRetries).

Definition changeIccPin2ForAppResponse (self : RadioResponse) (info : V1_0_RadioResponseInfo) (remainingRetries : Z) : Replied :=
  to_client self (IRadioResponse.changeIccPin2ForAppResponse info remainingRetries).

Definition supplyNetworkDepersonalizationResponse (self : RadioResponse) (info : V1_0_RadioResponseInfo) (remainingRetries : Z) : Replied :=
  to_client self (IRadioResponse.supplyNetworkDepersonalizationResponse info remainingRetries).

Definition getCurrentCallsResponse (self : RadioResponse) (info : V1_0_RadioResponseInfo) (calls : list (hidl V1_0_Call)) : Replied :=
  let newCalls := (fun c => mkCall2 c AudioQuality_UNSPECIFIED) <$> calls in
  to_client self (IRadioResponse.getCurrentCallsResponse_1_2 info newCalls).

Definition dialResponse (self : RadioResponse) (info : V1_0_RadioResponseInfo) : Replied :=
  to_client self (IRadioResponse.dialResponse info).

Definition getIMSIForAppResponse (self : RadioResponse) (info : V1_0_RadioResponseInfo) (imsi : string) : Replied :=
  to_client self (IRadioResponse.getIMSIForAppResponse info imsi).

Definition hangupConnectionResponse (self : RadioResponse) (info : V1_0_RadioResponseInfo) : Replied :=
  to_client self (IRadioResponse.hangupConnectionResponse info).

Definition hangupWaitingOrBackgroundResponse (self : RadioResponse) (info : V1_0_RadioResponseInfo) : Replied :=
  to_client self (IRadioResponse.hangupWaitingOrBackgroundResponse info).

Definition hangupForegroundResumeBackgroundResponse (self : RadioResponse) (info : V1_0_RadioResponseInfo) : Replied :=
  to_client self (IRadioResponse.hangupForegroundResumeBackgroundResponse info).

Definition switchWaitingOrHoldingAndActiveResponse (self : RadioResponse) (info : V1_0_RadioResponseInfo) : Replied :=
  to_client self (IRadioResponse.switchWaitingOrHoldingAndActiveResponse info).

Definition conferenceResponse (self : RadioResponse) (info : V1_0_RadioResponseInfo) : Replied :=
  to_client self (IRadioResponse.conferenceResponse info).

Definition rejectCallResponse (self : RadioResponse) (info : V1_0_RadioResponseInfo) : Replied :=
  to_client self (IRadioResponse.rejectCallResponse info).

Definition getLastCallFailCauseResponse (self : RadioResponse) (info : V1_0_RadioResponseInfo) (failCauseinfo : hidl V1_0_LastCallFailCauseInfo) : Replied :=
  to_client self (IRadioResponse.getLastCallFailCauseResponse info failCauseinfo).

Definition getSignalStrengthResponse (self : RadioResponse) (info : V1_0_RadioResponseInfo) (sigStrength : V1_0_SignalStrength) : Replied :=
  to_client self (IRadioResponse.getSignalStrengthResponse_1_4 info (Create1_4SignalStrength sigStrength)).

Definition getVoiceRegistrationStateResponse (self : RadioResponse) (info : V1_0_RadioResponseInfo) (voiceRegResponse : V1_0_VoiceRegStateResult) : Replied :=
  let v := voiceRegResponse in
  let newVRR := mkVoice2 (vr0_regState v) (vr0_rat v) (vr0_cssSupported v) (vr0_roamingIndicator v) (vr0_systemIsInPrl v)
                  (vr0_defaultRoamingIndicator v) (vr0_reasonForDenial v) (Init1_2CellIdentity (vr0_cellIdentity v) identity2_zero) in
  to_client self (IRadioResponse.getVoiceRegistrationStateResponse_1_2 info newVRR).

Definition getDataRegistrationStateResponse (self : RadioResponse) (info : V1_0_RadioResponseInfo) (dataRegResponse : V1_0_DataRegStateResult) : Replied :=
  let d := dataRegResponse in
  let self := self <| mDataRoaming := dr0_regState d =? REG_ROAMING |> in
  let self := self <| mRat := dr0_rat d |> in
  let newDRR := mkDataReg4 (mkDataReg2 (dr0_regState d) (dr0_rat d) (dr0_reasonDataDenied d) (dr0_maxDataCalls d)
                              (Init1_2CellIdentity (dr0_cellIdentity d) identity2_zero)) (hidl_zero _) in
  to_client self (IRadioResponse.getDataRegistrationStateResponse_1_4 info newDRR).

Definition getOperatorResponse (self : RadioResponse) (info : V1_0_RadioResponseInfo) (longName shortName numeric : string) : Replied :=
  to_client self (IRadioResponse.getOperatorResponse info longName shortName numeric).

Definition setRadioPowerResponse (self : RadioResponse) (info : V1_0_RadioResponseInfo) : Replied :=
  to_client self (IRadioResponse.setRadioPowerResponse info).

Definition sendDtmfResponse (self : RadioResponse) (info : V1_0_RadioResponseInfo) : Replied :=
  to_client self (IRadioResponse.sendDtmfResponse info).

Definition sendSmsResponse (self : RadioResponse) (info : V1_0_RadioResponseInfo) (sms : hidl V1_0_SendSmsResult) : Replied :=
  to_client self (IRadioResponse.sendSmsResponse info sms).

Definition sendSMSExpectMoreResponse (self : RadioResponse) (info : V1_0_RadioResponseInfo) (sms : hidl V1_0_SendSmsResult) : Replied :=
  to_client self (IRadioResponse.sendSMSExpectMoreResponse info sms).

Definition setupDataCallResponse (self : RadioResponse) (info : V1_0_RadioResponseInfo) (dcResponse : V1_0_SetupDataCallResult) : Replied :=
  to_client self (IRadioResponse.setupDataCallResponse_1_4 info (Create1_4SetupDataCallResult dcResponse)).

Definition iccIOForAppResponse (self : RadioResponse) (info : V1_0_RadioResponseInfo) (iccIo : hidl V1_0_IccIoResult) : Replied :=
  to_client self (IRadioResponse.iccIOForAppResponse info iccIo).

Definition sendUssdResponse (self : RadioResponse) (info : V1_0_RadioResponseInfo) : Replied :=
  to_client self (IRadioResponse.sendUssdResponse info).

Definition cancelPendingUssdResponse (self : RadioResponse) (info : V1_0_RadioResponseInfo) : Replied :=
  to_client self (IRadioResponse.cancelPendingUssdResponse info).

Definition getClirResponse (self : RadioResponse) (info : V1_0_RadioResponseInfo) (n m : Z) : Replied :=
  to_client self (IRadioResponse.getClirResponse info n m).

Definition setClirResponse (self : RadioResponse) (info : V1_0_RadioResponseInfo) : Replied :=
  to_client self (IRadioResponse.setClirResponse info).

Definition getCallForwardStatusResponse (self : RadioResponse) (info : V1_0_RadioResponseInfo) (callForwardInfos : list (hidl V1_0_CallForwardInfo)) : Replied :=
  to_client self (IRadioResponse.getCallForwardStatusResponse info callForwardInfos).

Definition setCallForwardResponse (self : RadioResponse) (info : V1_0_RadioResponseInfo) : Replied :=
  to_client self (IRadioResponse.setCallForwardResponse info).

Definition getCallWaitingResponse (self : RadioResponse) (info : V1_0_RadioResponseInfo) (enable : bool) (serviceClass : Z) : Replied :=
  to_client self (IRadioResponse.getCallWaitingResponse info enable serviceClass).

Definition setCallWaitingResponse (self : RadioResponse) (info : V1_0_RadioResponseInfo) : Replied :=
  to_client self (IRadioResponse.setCallWaitingResponse info).

Definition acknowledgeLastIncomingGsmSmsResponse (self : RadioResponse) (info : V1_0_RadioResponseInfo) : Replied :=
  to_client self (IRadioResponse.acknowledgeLastIncomingGsmSmsResponse info).

Definition acceptCallResponse (self : RadioResponse) (info : V1_0_RadioResponseInfo) : Replied :=
  to_client self (IRadioResponse.acceptCallResponse info).

Definition deactivateDataCallResponse (self : RadioResponse) (info : V1_0_RadioResponseInfo) : Replied :=
  to_client self (IRadioResponse.deactivateDataCallResponse info).

Definition getFacilityLockForAppResponse (self : RadioResponse) (info : V1_0_RadioResponseInfo) (response : Z) : Replied :=
  to_client self (IRadioResponse.getFacilityLockForAppResponse info response).

Definition setFacilityLockForAppResponse (self : RadioResponse) (info : V1_0_RadioResponseInfo) (retry : Z) : Replied :=
  to_client self (IRadioResponse.setFacilityLockForAppResponse info retry).

Definition setBarringPasswordResponse (self : RadioResponse) (info : V1_0_RadioResponseInfo) : Replied :=
  to_client self (IRadioResponse.setBarringPasswordResponse info).

Definition getNetworkSelectionModeResponse (self : RadioResponse) (info : V1_0_RadioResponseInfo) (manual : bool) : Replied :=
  to_client self (IRadioResponse.getNetworkSelectionModeResponse info manual).

Definition setNetworkSelectionModeAutomaticResponse (self : RadioResponse) (info : V1_0_RadioResponseInfo) : Replied :=
  to_client self (IRadioResponse.setNetworkSelectionModeAutomaticResponse info).

Definition setNetworkSelectionModeManualResponse (self : RadioResponse) (info : V1_0_RadioResponseInfo) : Replied :=
  to_client self (IRadioResponse.setNetworkSelectionModeManualResponse info).

Definition getAvailableNetworksResponse (self : RadioResponse) (info : V1_0_RadioResponseInfo) (networkInfos : list (hidl V1_0_OperatorInfo)) : Replied :=
  to_client self (IRadioResponse.getAvailableNetworksResponse info networkInfos).

Definition startDtmfResponse (self : RadioResponse) (info : V1_0_RadioResponseInfo) : Replied :=
  to_client self (IRadioResponse.startDtmfResponse info).

Definition stopDtmfResponse (self : RadioResponse) (info : V1_0_RadioResponseInfo) : Replied :=
  to_client self (IRadioResponse.stopDtmfResponse info).

Definition getBasebandVersionResponse (self : RadioResponse) (info : V1_0_RadioResponseInfo) (version : string) : Replied :=
  to_client self (IRadioResponse.getBasebandVersionResponse info version).

Definition separateConnectionResponse (self : RadioResponse) (info : V1_0_RadioResponseInfo) : Replied :=
  to_client self (IRadioResponse.separateConnectionResponse info).

Definition setMuteResponse (self : RadioResponse) (info : V1_0_RadioResponseInfo) : Replied :=
  to_client self (IRadioResponse.setMuteResponse info).

Definition getMuteResponse (self : RadioResponse) (info : V1_0_RadioResponseInfo) (enable : bool) : Replied :=
  to_client self (IRadioResponse.getMuteResponse info enable).

Definition getClipResponse (self : RadioResponse) (info : V1_0_RadioResponseInfo) (status : Z) : Replied :=
  to_client self (IRadioResponse.getClipResponse info status).

Definition getDataCallListResponse (self : RadioResponse) (info : V1_0_RadioResponseInfo) (dcResponse : list V1_0_SetupDataCallResult) : Replied :=
  to_client self (IRadioResponse.getDataCallListResponse_1_4 info (Create1_4SetupDataCallResult <$> dcResponse)).

Definition setSuppServiceNotificationsResponse (self : RadioResponse) (info : V1_0_RadioResponseInfo) : Replied :=
  to_client self (IRadioResponse.setSuppServiceNotificationsResponse info).

Definition writeSmsToSimResponse (self : RadioResponse) (info : V1_0_RadioResponseInfo) (index : Z) : Replied :=
  to_client self (IRadioResponse.writeSmsToSimResponse info index).

Definition deleteSmsOnSimResponse (self : RadioResponse) (info : V1_0_RadioResponseInfo) : Replied :=
  to_client self (IRadioResponse.deleteSmsOnSimResponse info).

Definition setBandModeResponse (self : RadioResponse) (info : V1_0_RadioResponseInfo) : Replied :=
  to_client self (IRadioResponse.setBandModeResponse info).

Definition getAvailableBandModesResponse (self : RadioResponse) (info : V1_0_RadioResponseInfo) (bandModes : list Z) : Replied :=
  to_client self (IRadioResponse.getAvailableBandModesResponse info bandModes).

Definition sendEnvelopeResponse (self : RadioResponse) (info : V1_0_RadioResponseInfo) (commandResponse : string) : Replied :=
  to_client self (IRadioResponse.sendEnvelopeResponse info commandResponse).

Definition sendTerminalResponseToSimResponse (self : RadioResponse) (info : V1_0_RadioResponseInfo) : Replied :=
  to_client self (IRadioResponse.sendTerminalResponseToSimResponse info).

Definition handleStkCallSetupRequestFromSimResponse (self : RadioResponse) (info : V1_0_RadioResponseInfo) : Replied :=
  to_client self (IRadioResponse.handleStkCallSetupRequestFromSimResponse info).

Definition explicitCallTransferResponse (self : RadioResponse) (info : V1_0_RadioResponseInfo) : Replied :=
  to_client self (IRadioResponse.explicitCallTransferResponse info).

Definition setPreferredNetworkTypeResponse (self : RadioResponse) (info : V1_0_RadioResponseInfo) : Replied :=
  to_client self (IRadioResponse.setPreferredNetworkTypeBitmapResponse info).

Definition getPreferredNetworkTypeResponse (self : RadioResponse) (info : V1_0_RadioResponseInfo) (nwType : PreferredNetworkType) : Replied :=
  to_client self (IRadioResponse.getPreferredNetworkTypeBitmapResponse info (nwTypeBitmap nwType)).

Definition getNeighboringCidsResponse (self : RadioResponse) (info : V1_0_RadioResponseInfo) (cells : list (hidl V1_0_NeighboringCell)) : Replied :=
  to_client self (IRadioResponse.getNeighboringCidsResponse info cells).

Definition setLocationUpdatesResponse (self : RadioResponse) (info : V1_0_RadioResponseInfo) : Replied :=
  to_client self (IRadioResponse.setLocationUpdatesResponse info).

Definition setCdmaSubscriptionSourceResponse (self : RadioResponse) (info : V1_0_RadioResponseInfo) : Replied :=
  to_client self (IRadioResponse.setCdmaSubscriptionSourceResponse info).

Definition setCdmaRoamingPreferenceResponse (self : RadioResponse) (info : V1_0_RadioResponseInfo) : Replied :=
  to_client self (IRadioResponse.setCdmaRoamingPreferenceResponse info).

Definition getCdmaRoamingPreferenceResponse (self : RadioResponse) (info : V1_0_RadioResponseInfo) (type : Z) : Replied :=
  to_client self (IRadioResponse.getCdmaRoamingPreferenceResponse info type).

Definition setTTYModeResponse (self : RadioResponse) (info : V1_0_RadioResponseInfo) : Replied :=
  to_client self (IRadioResponse.setTTYModeResponse info).

Definition getTTYModeResponse (self : RadioResponse) (info : V1_0_RadioResponseInfo) (mode : Z) : Replied :=
  to_client self (IRadioResponse.getTTYModeResponse info mode).

Definition setPreferredVoicePrivacyResponse (self : RadioResponse) (info : V1_0_RadioResponseInfo) : Replied :=
  to_client self (IRadioResponse.setPreferredVoicePrivacyResponse info).

Definition getPreferredVoicePrivacyResponse (self : RadioResponse) (info : V1_0_RadioResponseInfo) (enable : bool) : Replied :=
  to_client self (IRadioResponse.getPreferredVoicePrivacyResponse info enable).

Definition sendCDMAFeatureCodeResponse (self : RadioResponse) (info : V1_0_RadioResponseInfo) : Replied :=
  to_client self (IRadioResponse.sendCDMAFeatureCodeResponse info).

Definition sendBurstDtmfResponse (self : RadioResponse) (info : V1_0_RadioResponseInfo) : Replied :=
  to_client self (IRadioResponse.sendBurstDtmfResponse info).

Definition sendCdmaSmsResponse (self : RadioResponse) (info : V1_0_RadioResponseInfo) (sms : hidl V1_0_SendSmsResult) : Replied :=
  to_client self (IRadioResponse.sendCdmaSmsResponse info sms).

Definition acknowledgeLastIncomingCdmaSmsResponse (self : RadioResponse) (info : V1_0_RadioResponseInfo) : Replied :=
  to_client self (IRadioResponse.acknowledgeLastIncomingCdmaSmsResponse info).

Definition getGsmBroadcastConfigResponse (self : RadioResponse) (info : V1_0_RadioResponseInfo) (configs : list (hidl V1_0_GsmBroadcastSmsConfigInfo)) : Replied :=
  to_client self (IRadioResponse.getGsmBroadcastConfigResponse info configs).

Definition setGsmBroadcastConfigResponse (self : RadioResponse) (info : V1_0_RadioResponseInfo) : Replied :=
  to_client self (IRadioResponse.setGsmBroadcastConfigResponse info).

Definition setGsmBroadcastActivationResponse (self : RadioResponse) (info : V1_0_RadioResponseInfo) : Replied :=
  to_client self (IRadioResponse.setGsmBroadcastActivationResponse info).

Definition getCdmaBroadcastConfigResponse (self : RadioResponse) (info : V1_0_RadioResponseInfo) (configs : list (hidl V1_0_CdmaBroadcastSmsConfigInfo)) : Replied :=
  to_client self (IRadioResponse.getCdmaBroadcastConfigResponse info configs).

Definition setCdmaBroadcastConfigResponse (self : RadioResponse) (info : V1_0_RadioResponseInfo) : Replied :=
  to_client self (IRadioResponse.setCdmaBroadcastConfigResponse info).

Definition setCdmaBroadcastActivationResponse (self : RadioResponse) (info : V1_0_RadioResponseInfo) : Replied :=
  to_client self (IRadioResponse.setCdmaBroadcastActivationResponse info).

Definition getCDMASubscriptionResponse (self : RadioResponse) (info : V1_0_RadioResponseInfo) (mdn hSid hNid min prl : string) : Replied :=
  to_client self (IRadioResponse.getCDMASubscriptionResponse info mdn hSid hNid min prl).

Definition writeSmsToRuimResponse (self : RadioResponse) (info : V1_0_RadioResponseInfo) (index : Z) : Replied :=
  to_client self (IRadioResponse.writeSmsToRuimResponse info index).

Definition deleteSmsOnRuimResponse (self : RadioResponse) (info : V1_0_RadioResponseInfo) : Replied :=
  to_client self (IRadioResponse.deleteSmsOnRuimResponse info).

Definition getDeviceIdentityResponse (self : RadioResponse) (info : V1_0_RadioResponseInfo) (imei imeisv esn meid : string) : Replied :=
  to_client self (IRadioResponse.getDeviceIdentityResponse info imei imeisv esn meid).

Definition exitEmergencyCallbackModeResponse (self : RadioResponse) (info : V1_0_RadioResponseInfo) : Replied :=
  to_client self (IRadioResponse.exitEmergencyCallbackModeResponse info).

Definition getSmscAddressResponse (self : RadioResponse) (info : V1_0_RadioResponseInfo) (smsc : string) : Replied :=
  to_client self (IRadioResponse.getSmscAddressResponse info smsc).

Definition setSmscAddressResponse (self : RadioResponse) (info : V1_0_RadioResponseInfo) : Replied :=
  to_client self (IRadioResponse.setSmscAddressResponse info).

Definition reportSmsMemoryStatusResponse (self : RadioResponse) (info : V1_0_RadioResponseInfo) : Replied :=
  to_client self (IRadioResponse.reportSmsMemoryStatusResponse info).

Definition reportStkServiceIsRunningResponse (self : RadioResponse) (info : V1_0_RadioResponseInfo) : Replied :=
  to_client self (IRadioResponse.reportStkServiceIsRunningResponse info).

Definition getCdmaSubscriptionSourceResponse (self : RadioResponse) (info : V1_0_RadioResponseInfo) (source : Z) : Replied :=
  to_client self (IRadioResponse.getCdmaSubscriptionSourceResponse info source).

Definition requestIsimAuthenticationResponse (self : RadioResponse) (info : V1_0_RadioResponseInfo) (response : string) : Replied :=
  to_client self (IRadioResponse.requestIsimAuthenticationResponse info response).

Definition acknowledgeIncomingGsmSmsWithPduResponse (self : RadioResponse) (info : V1_0_RadioResponseInfo) : Replied :=
  to_client self (IRadioResponse.acknowledgeIncomingGsmSmsWithPduResponse info).

Definition sendEnvelopeWithStatusResponse (self : RadioResponse) (info : V1_0_RadioResponseInfo) (iccIo : hidl V1_0_IccIoResult) : Replied :=
  to_client self (IRadioResponse.sendEnvelopeWithStatusResponse info iccIo).

Definition getVoiceRadioTechnologyResponse (self : RadioResponse) (info : V1_0_RadioResponseInfo) (rat : Z) : Replied :=
  to_client self (IRadioResponse.getVoiceRadioTechnologyResponse info rat).

Definition getCellInfoListResponse (self : RadioResponse) (info : V1_0_RadioResponseInfo) (cellInfo : list V1_0_CellInfo) : Replied :=
  to_client self (IRadioResponse.getCellInfoListResponse_1_4 info (Create1_4CellInfoList cellInfo)).

Definition setCellInfoListRateResponse (self : RadioResponse) (info : V1_0_RadioResponseInfo) : Replied :=
  to_client self (IRadioResponse.setCellInfoListRateResponse info).

Definition setInitialAttachApnResponse (self : RadioResponse) (info : V1_0_RadioResponseInfo) : Replied :=
  to_client self (IRadioResponse.setInitialAttachApnResponse info).

Definition getImsRegistrationStateResponse (self : RadioResponse) (info : V1_0_RadioResponseInfo) (isRegistered : bool) (ratFamily : Z) : Replied :=
  to_client self (IRadioResponse.getImsRegistrationStateResponse info isRegistered ratFamily).

Definition sendImsSmsResponse (self : RadioResponse) (info : V1_0_RadioResponseInfo) (sms : hidl V1_0_SendSmsResult) : Replied :=
  to_client self (IRadioResponse.sendImsSmsResponse info sms).

Definition iccTransmitApduBasicChannelResponse (self : RadioResponse) (info : V1_0_RadioResponseInfo) (result : hidl V1_0_IccIoResult) : Replied :=
  to_client self (IRadioResponse.iccTransmitApduBasicChannelResponse info result).

Definition iccOpenLogicalChannelResponse (self : RadioResponse) (info : V1_0_RadioResponseInfo) (channelId : Z) (selectResponse : list Z) : Replied :=
  to_client self (IRadioResponse.iccOpenLogicalChannelResponse info channelId selectResponse).

Definition iccCloseLogicalChannelResponse (self : RadioResponse) (info : V1_0_RadioResponseInfo) : Replied :=
  to_client self (IRadioResponse.iccCloseLogicalChannelResponse info).

Definition iccTransmitApduLogicalChannelResponse (self : RadioResponse) (info : V1_0_RadioResponseInfo) (result : hidl V1_0_IccIoResult) : Replied :=
  to_client self (IRadioResponse.iccTransmitApduLogicalChannelResponse info result).

Definition nvReadItemResponse (self : RadioResponse) (info : V1_0_RadioResponseInfo) (result : string) : Replied :=
  to_client self (IRadioResponse.nvReadItemResponse info result).

Definition nvWriteItemResponse (self : RadioResponse) (info : V1_0_RadioResponseInfo) : Replied :=
  to_client self (IRadioResponse.nvWriteItemResponse info).

Definition nvWriteCdmaPrlResponse (self : RadioResponse) (info : V1_0_RadioResponseInfo) : Replied :=
  to_client self (IRadioResponse.nvWriteCdmaPrlResponse info).

Definition nvResetConfigResponse (self : RadioResponse) (info : V1_0_RadioResponseInfo) : Replied :=
  to_client self (IRadioResponse.nvResetConfigResponse info).

Definition setUiccSubscriptionResponse (self : RadioResponse) (info : V1_0_RadioResponseInfo) : Replied :=
  to_client self (IRadioResponse.setUiccSubscriptionResponse info).

Definition setDataAllowedResponse (self : RadioResponse) (info : V1_0_RadioResponseInfo) : Replied :=
  to_client self (IRadioResponse.setDataAllowedResponse info).

Definition getHardwareConfigResponse (self : RadioResponse) (info : V1_0_RadioResponseInfo) (config : list (hidl V1_0_HardwareConfig)) : Replied :=
  to_client self (IRadioResponse.getHardwareConfigResponse info config).

Definition requestIccSimAuthenticationResponse (self : RadioResponse) (info : V1_0_RadioResponseInfo) (result : hidl V1_0_IccIoResult) : Replied :=
  to_client self (IRadioResponse.requestIccSimAuthenticationResponse info result).

Definition setDataProfileResponse (self : RadioResponse) (info : V1_0_RadioResponseInfo) : Replied :=
  to_client self (IRadioResponse.setDataProfileResponse info).

Definition requestShutdownResponse (self : RadioResponse) (info : V1_0_RadioResponseInfo) : Replied :=
  to_client self (IRadioResponse.requestShutdownResponse info).

Definition getRadioCapabilityResponse (self : RadioResponse) (info : V1_0_RadioResponseInfo) (rc : hidl V1_0_RadioCapability) : Replied :=
  to_client self (IRadioResponse.getRadioCapabilityResponse info rc).

Definition setRadioCapabilityResponse (self : RadioResponse) (info : V1_0_RadioResponseInfo) (rc : hidl V1_0_RadioCapability) : Replied :=
  to_client self (IRadioResponse.setRadioCapabilityResponse info rc).

Definition startLceServiceResponse (self : RadioResponse) (info : V1_0_RadioResponseInfo) (statusInfo : hidl V1_0_LceStatusInfo) : Replied :=
  to_client self (IRadioResponse.startLceServiceResponse info statusInfo).

Definition stopLceServiceResponse (self : RadioResponse) (info : V1_0_RadioResponseInfo) (statusInfo : hidl V1_0_LceStatusInfo) : Replied :=
  to_client self (IRadioResponse.stopLceServiceResponse info statusInfo).

Definition pullLceDataResponse (self : RadioResponse) (info : V1_0_RadioResponseInfo) (lceInfo : hidl V1_0_LceDataInfo) : Replied :=
  to_client self (IRadioResponse.pullLceDataResponse info lceInfo).

Definition getModemActivityInfoResponse (self : RadioResponse) (info : V1_0_RadioResponseInfo) (activityInfo : hidl V1_0_ActivityStatsInfo) : Replied :=
  to_client self (IRadioResponse.getModemActivityInfoResponse info activityInfo).

Definition setAllowedCarriersResponse (self : RadioResponse) (info : V1_0_RadioResponseInfo) (numAllowed : Z) : Replied :=
  to_client self (IRadioResponse.setAllowedCarriersResponse_1_4 info).

Definition getAllowedCarriersResponse (self : RadioResponse) (info : V1_0_RadioResponseInfo) (allAllowed : bool) (carriers : V1_0_CarrierRestrictions) : Replied :=
  if allAllowed then
    let newCarriers := mkCarriers4 [] [] false in
    to_client self (IRadioResponse.getAllowedCarriersResponse_1_4 info newCarriers NO_MULTISIM_POLICY)
  else
    let newCarriers := mkCarriers4 (cr0_allowedCarriers carriers) (cr0_excludedCarriers carriers) true in
    to_client self (IRadioResponse.getAllowedCarriersResponse_1_4 info newCarriers NO_MULTISIM_POLICY).

Definition sendDeviceStateResponse (self : RadioResponse) (info : V1_0_RadioResponseInfo) : Replied :=
  to_client self (IRadioResponse.sendDeviceStateResponse info).

Definition setIndicationFilterResponse (self : RadioResponse) (info : V1_0_RadioResponseInfo) : Replied :=
  to_client self (IRadioResponse.setIndicationFilterResponse info).

Definition setSimCardPowerResponse (self : RadioResponse) (info : V1_0_RadioResponseInfo) : Replied :=
  to_client self (IRadioResponse.setSimCardPowerResponse_1_1 info).

Definition acknowledgeRequest (self : RadioResponse) (serial : Z) : Replied :=
  to_client self (IRadioResponse.acknowledgeRequest serial).

(** *** Methods of version 1.1 *)

Definition setCarrierInfoForImsiEncryptionResponse (self : RadioResponse) (info : V1_0_RadioResponseInfo) : Replied :=
  to_client self (IRadioResponse.setCarrierInfoForImsiEncryptionResponse info).

Definition setSimCardPowerResponse_1_1 (self : RadioResponse) (info : V1_0_RadioResponseInfo) : Replied :=
  to_client self (IRadioResponse.setSimCardPowerResponse_1_1 info).

Definition startNetworkScanResponse (self : RadioResponse) (info : V1_0_RadioResponseInfo) : Replied :=
  to_client self (IRadioResponse.startNetworkScanResponse_1_4 info).

Definition stopNetworkScanResponse (self : RadioResponse) (info : V1_0_RadioResponseInfo) : Replied :=
  to_client self (IRadioResponse.stopNetworkScanResponse info).

Definition startKeepaliveResponse (self : RadioResponse) (info : V1_0_RadioResponseInfo) (status : hidl V1_1_KeepaliveStatus) : Replied :=
  to_client self (IRadioResponse.startKeepaliveResponse info status).

Definition stopKeepaliveResponse (self : RadioResponse) (info : V1_0_RadioResponseInfo) : Replied :=
  to_client self (IRadioResponse.stopKeepaliveResponse info).

(** *** Methods of version 1.2 *)

Definition getCellInfoListResponse_1_2 (self : RadioResponse) (info : V1_0_RadioResponseInfo) (cellInfo : list V1_2_CellInfo) : Replied :=
  to_client self (IRadioResponse.getCellInfoListResponse_1_4 info (Create1_4CellInfoList_2 cellInfo)).

Definition getIccCardStatusResponse_1_2 (self : RadioResponse) (info : V1_0_RadioResponseInfo) (cardStatus : V1_2_CardStatus) : Replied :=
  to_client self (IRadioResponse.getIccCardStatusResponse_1_4 info (mkCard4 cardStatus "")).

Definition setSignalStrengthReportingCriteriaResponse (self : RadioResponse) (info : V1_0_RadioResponseInfo) : Replied :=
  to_client self (IRadioResponse.setSignalStrengthReportingCriteriaResponse info).

Definition setLinkCapacityReportingCriteriaResponse (self : RadioResponse) (info : V1_0_RadioResponseInfo) : Replied :=
  to_client self (IRadioResponse.setLinkCapacityReportingCriteriaResponse info).

Definition getCurrentCallsResponse_1_2 (self : RadioResponse) (info : V1_0_RadioResponseInfo) (calls : list V1_2_Call) : Replied :=
  to_client self (IRadioResponse.getCurrentCallsResponse_1_2 info calls).

Definition getSignalStrengthResponse_1_2 (self : RadioResponse) (info : V1_0_RadioResponseInfo) (signalStrength : V1_2_SignalStrength) : Replied :=
  to_client self (IRadioResponse.getSignalStrengthResponse_1_4 info (Create1_4SignalStrength_2 signalStrength)).

Definition getVoiceRegistrationStateResponse_1_2 (self : RadioResponse) (info : V1_0_RadioResponseInfo) (voiceRegResponse : V1_2_VoiceRegStateResult) : Replied :=
  to_client self (IRadioResponse.getVoiceRegistrationStateResponse_1_2 info voiceRegResponse).

Definition getDataRegistrationStateResponse_1_2 (self : RadioResponse) (info : V1_0_RadioResponseInfo) (dataRegResponse : V1_2_DataRegStateResult) : Replied :=
  let self := self <| mDataRoaming := dr2_regState dataRegResponse =? REG_ROAMING |> in
  let newDRR := mkDataReg4 dataRegResponse (hidl_zero _) in
  to_client self (IRadioResponse.getDataRegistrationStateResponse_1_4 info newDRR).

(** *** Methods of version 1.3 *)

Definition setSystemSelectionChannelsResponse (self : RadioResponse) (info : V1_0_RadioResponseInfo) : Replied :=
  to_client self (IRadioResponse.setSystemSelectionChannelsResponse info).

Definition enableModemResponse (self : RadioResponse) (info : V1_0_RadioResponseInfo) : Replied :=
  to_client self (IRadioResponse.enableModemResponse info).

Definition getModemStackStatusResponse (self : RadioResponse) (info : V1_0_RadioResponseInfo) (isEnabled : bool) : Replied :=
  to_client self (IRadioResponse.getModemStackStatusResponse info isEnabled).

(** *** Methods of version 1.4 *)

Definition emergencyDialResponse (self : RadioResponse) (info : V1_0_RadioResponseInfo) : Replied :=
  to_client self (IRadioResponse.emergencyDialResponse info).

Definition startNetworkScanResponse_1_4 (self : RadioResponse) (info : V1_0_RadioResponseInfo) : Replied :=
  to_client self (IRadioResponse.startNetworkScanResponse_1_4 info).

Definition getCellInfoListResponse_1_4 (self : RadioResponse) (info : V1_0_RadioResponseInfo) (cellInfo : list V1_4_CellInfo) : Replied :=
  to_client self (IRadioResponse.getCellInfoListResponse_1_4 info cellInfo).

Definition getDataRegistrationStateResponse_1_4 (self : RadioResponse) (info : V1_0_RadioResponseInfo) (dataRegResponse : V1_4_DataRegStateResult) : Replied :=
  to_client self (IRadioResponse.getDataRegistrationStateResponse_1_4 info dataRegResponse).

Definition getIccCardStatusResponse_1_4 (self : RadioResponse) (info : V1_0_RadioResponseInfo) (cardStatus : V1_4_CardStatus) : Replied :=
  to_client self (IRadioResponse.getIccCardStatusResponse_1_4 info cardStatus).

Definition getPreferredNetworkTypeBitmapResponse (self : RadioResponse) (info : V1_0_RadioResponseInfo) (networkTypeBitmap : Z) : Replied :=
  to_client self (IRadioResponse.getPreferredNetworkTypeBitmapResponse info networkTypeBitmap).

Definition setPreferredNetworkTypeBitmapResponse (self : RadioResponse) (info : V1_0_RadioResponseInfo) : Replied :=
  to_client self (IRadioResponse.setPreferredNetworkTypeBitmapResponse info).

Definition getDataCallListResponse_1_4 (self : RadioResponse) (info : V1_0_RadioResponseInfo) (dcResponse : list V1_4_SetupDataCallResult) : Replied :=
  to_client self (IRadioResponse.getDataCallListResponse_1_4 info dcResponse).

Definition setupDataCallResponse_1_4 (self : RadioResponse) (info : V1_0_RadioResponseInfo) (dcResponse : V1_4_SetupDataCallResult) : Replied :=
  to_client self (IRadioResponse.setupDataCallResponse_1_4 info dcResponse).

Definition setAllowedCarriersResponse_1_4 (self : RadioResponse) (info : V1_0_RadioResponseInfo) : Replied :=
  to_client self (IRadioResponse.setAllowedCarriersResponse_1_4 info).

Definition getAllowedCarriersResponse_1_4 (self : RadioResponse) (info : V1_0_RadioResponseInfo) (carriers : V1_4_CarrierRestrictionsWithPriority) (multiSimPolicy : Z) : Replied :=
  to_client self (IRadioResponse.getAllowedCarriersResponse_1_4 info carriers multiSimPolicy).

Definition getSignalStrengthResponse_1_4 (self : RadioResponse) (info : V1_0_RadioResponseInfo) (signalStrength : V1_4_SignalStrength) : Replied :=
  to_client self (IRadioResponse.getSignalStrengthResponse_1_4 info signalStrength).

(** The virtual call of the real radio. *)
Definition receive_reply (self : RadioResponse) (p : IRadioResponse.reply) : Replied :=
  match p with
  | IRadioResponse.getIccCardStatusResponse info cardStatus => getIccCardStatusResponse self info cardStatus
  | IRadioResponse.supplyIccPinForAppResponse info remainingRetries => supplyIccPinForAppResponse self info remainingRetries
  | IRadioResponse.supplyIccPukForAppResponse info remainingRetries => supplyIccPukForAppResponse self info remainingRetries
  | IRadioResponse.supplyIccPin2ForAppResponse info remainingRetries => supplyIccPin2ForAppResponse self info remainingRetries
  | IRadioResponse.supplyIccPuk2ForAppResponse info remainingRetries => supplyIccPuk2ForAppResponse self info remainingRetries
  | IRadioResponse.changeIccPinForAppResponse info remainingRetries => changeIccPinForAppResponse self info remainingRetries
  | IRadioResponse.changeIccPin2ForAppResponse info remainingRetries => changeIccPin2ForAppResponse self info remainingRetries
  | IRadioResponse.supplyNetworkDepersonalizationResponse info remainingRetries => supplyNetworkDepersonalizationResponse self info remainingRetries
  | IRadioResponse.getCurrentCallsResponse info calls => getCurrentCallsResponse self info calls
  | IRadioResponse.dialResponse info => dialResponse self info
  | IRadioResponse.getIMSIForAppResponse info imsi => getIMSIForAppResponse self info imsi
  | IRadioResponse.hangupConnectionResponse info => hangupConnectionResponse self info
  | IRadioResponse.hangupWaitingOrBackgroundResponse info => hangupWaitingOrBackgroundResponse self info
  | IRadioResponse.hangupForegroundResumeBackgroundResponse info => hangupForegroundResumeBackgroundResponse self info
  | IRadioResponse.switchWaitingOrHoldingAndActiveResponse info => switchWaitingOrHoldingAndActiveResponse self info
  | IRadioResponse.conferenceResponse info => conferenceResponse self info
  | IRadioResponse.rejectCallResponse info => rejectCallResponse self info
  | IRadioResponse.getLastCallFailCauseResponse info failCauseinfo => getLastCallFailCauseResponse self info failCauseinfo
  | IRadioResponse.getSignalStrengthResponse info sigStrength => getSignalStrengthResponse self info sigStrength
  | IRadioResponse.getVoiceRegistrationStateResponse info voiceRegResponse => getVoiceRegistrationStateResponse self info voiceRegResponse
  | IRadioResponse.getDataRegistrationStateResponse info dataRegResponse => getDataRegistrationStateResponse self info dataRegResponse
  | IRadioResponse.getOperatorResponse info longName shortName numeric => getOperatorResponse self info longName shortName numeric
  | IRadioResponse.setRadioPowerResponse info => setRadioPowerResponse self info
  | IRadioResponse.sendDtmfResponse info => sendDtmfResponse self info
  | IRadioResponse.sendSmsResponse info sms => sendSmsResponse self info sms
  | IRadioResponse.sendSMSExpectMoreResponse info sms => sendSMSExpectMoreResponse self info sms
  | IRadioResponse.setupDataCallResponse info dcResponse => setupDataCallResponse self info dcResponse
  | IRadioResponse.iccIOForAppResponse info iccIo => iccIOForAppResponse self info iccIo
  | IRadioResponse.sendUssdResponse info => sendUssdResponse self info
  | IRadioResponse.cancelPendingUssdResponse info => cancelPendingUssdResponse self info
  | IRadioResponse.getClirResponse info n m => getClirResponse self info n m
  | IRadioResponse.setClirResponse info => setClirResponse self info
  | IRadioResponse.getCallForwardStatusResponse info callForwardInfos => getCallForwardStatusResponse self info callForwardInfos
  | IRadioResponse.setCallForwardResponse info => setCallForwardResponse self info
  | IRadioResponse.getCallWaitingResponse info enable serviceClass => getCallWaitingResponse self info enable serviceClass
  | IRadioResponse.setCallWaitingResponse info => setCallWaitingResponse self info
  | IRadioResponse.acknowledgeLastIncomingGsmSmsResponse info => acknowledgeLastIncomingGsmSmsResponse self info
  | IRadioResponse.acceptCallResponse info => acceptCallResponse self info
  | IRadioResponse.deactivateDataCallResponse info => deactivateDataCallResponse self info
  | IRadioResponse.getFacilityLockForAppResponse info response => getFacilityLockForAppResponse self info response
  | IRadioResponse.setFacilityLockForAppResponse info retry => setFacilityLockForAppResponse self info retry
  | IRadioResponse.setBarringPasswordResponse info => setBarringPasswordResponse self info
  | IRadioResponse.getNetworkSelectionModeResponse info manual => getNetworkSelectionModeResponse self info manual
  | IRadioResponse.setNetworkSelectionModeAutomaticResponse info => setNetworkSelectionModeAutomaticResponse self info
  | IRadioResponse.setNetworkSelectionModeManualResponse info => setNetworkSelectionModeManualResponse self info
  | IRadioResponse.getAvailableNetworksResponse info networkInfos => getAvailableNetworksResponse self info networkInfos
  | IRadioResponse.startDtmfResponse info => startDtmfResponse self info
  | IRadioResponse.stopDtmfResponse info => stopDtmfResponse self info
  | IRadioResponse.getBasebandVersionResponse info version => getBasebandVersionResponse self info version
  | IRadioResponse.separateConnectionResponse info => separateConnectionResponse self info
  | IRadioResponse.setMuteResponse info => setMuteResponse self info
  | IRadioResponse.getMuteResponse info enable => getMuteResponse self info enable
  | IRadioResponse.getClipResponse info status => getClipResponse self info status
  | IRadioResponse.getDataCallListResponse info dcResponse => getDataCallListResponse self info dcResponse
  | IRadioResponse.setSuppServiceNotificationsResponse info => setSuppServiceNotificationsResponse self info
  | IRadioResponse.writeSmsToSimResponse info index => writeSmsToSimResponse self info index
  | IRadioResponse.deleteSmsOnSimResponse info => deleteSmsOnSimResponse self info
  | IRadioResponse.setBandModeResponse info => setBandModeResponse self info
  | IRadioResponse.getAvailableBandModesResponse info bandModes => getAvailableBandModesResponse self info bandModes
  | IRadioResponse.sendEnvelopeResponse info commandResponse => sendEnvelopeResponse self info commandResponse
  | IRadioResponse.sendTerminalResponseToSimResponse info => sendTerminalResponseToSimResponse self info
  | IRadioResponse.handleStkCallSetupRequestFromSimResponse info => handleStkCallSetupRequestFromSimResponse self info
  | IRadioResponse.explicitCallTransferResponse info => explicitCallTransferResponse self info
  | IRadioResponse.setPreferredNetworkTypeResponse info => setPreferredNetworkTypeResponse self info
  | IRadioResponse.getPreferredNetworkTypeResponse info nwType => getPreferredNetworkTypeResponse self info nwType
  | IRadioResponse.getNeighboringCidsResponse info cells => getNeighboringCidsResponse self info cells
  | IRadioResponse.setLocationUpdatesResponse info => setLocationUpdatesResponse self info
  | IRadioResponse.setCdmaSubscriptionSourceResponse info => setCdmaSubscriptionSourceResponse self info
  | IRadioResponse.setCdmaRoamingPreferenceResponse info => setCdmaRoamingPreferenceResponse self info
  | IRadioResponse.getCdmaRoamingPreferenceResponse info type => getCdmaRoamingPreferenceResponse self info type
  | IRadioResponse.setTTYModeResponse info => setTTYModeResponse self info
  | IRadioResponse.getTTYModeResponse info mode => getTTYModeResponse self info mode
  | IRadioResponse.setPreferredVoicePrivacyResponse info => setPreferredVoicePrivacyResponse self info
  | IRadioResponse.getPreferredVoicePrivacyResponse info enable => getPreferredVoicePrivacyResponse self info enable
  | IRadioResponse.sendCDMAFeatureCodeResponse info => sendCDMAFeatureCodeResponse self info
  | IRadioResponse.sendBurstDtmfResponse info => sendBurstDtmfResponse self info
  | IRadioResponse.sendCdmaSmsResponse info sms => sendCdmaSmsResponse self info sms
  | IRadioResponse.acknowledgeLastIncomingCdmaSmsResponse info => acknowledgeLastIncomingCdmaSmsResponse self info
  | IRadioResponse.getGsmBroadcastConfigResponse info configs => getGsmBroadcastConfigResponse self info configs
  | IRadioResponse.setGsmBroadcastConfigResponse info => setGsmBroadcastConfigResponse self info
  | IRadioResponse.setGsmBroadcastActivationResponse info => setGsmBroadcastActivationResponse self info
  | IRadioResponse.getCdmaBroadcastConfigResponse info configs => getCdmaBroadcastConfigResponse self info configs
  | IRadioResponse.setCdmaBroadcastConfigResponse info => setCdmaBroadcastConfigResponse self info
  | IRadioResponse.setCdmaBroadcastActivationResponse info => setCdmaBroadcastActivationResponse self info
  | IRadioResponse.getCDMASubscriptionResponse info mdn hSid hNid min prl => getCDMASubscriptionResponse self info mdn hSid hNid min prl
  | IRadioResponse.writeSmsToRuimResponse info index => writeSmsToRuimResponse self info index
  | IRadioResponse.deleteSmsOnRuimResponse info => deleteSmsOnRuimResponse self info
  | IRadioResponse.getDeviceIdentityResponse info imei imeisv esn meid => getDeviceIdentityResponse self info imei imeisv esn meid
  | IRadioResponse.exitEmergencyCallbackModeResponse info => exitEmergencyCallbackModeResponse self info
  | IRadioResponse.getSmscAddressResponse info smsc => getSmscAddressResponse self info smsc
  | IRadioResponse.setSmscAddressResponse info => setSmscAddressResponse self info
  | IRadioResponse.reportSmsMemoryStatusResponse info => reportSmsMemoryStatusResponse self info
  | IRadioResponse.reportStkServiceIsRunningResponse info => reportStkServiceIsRunningResponse self info
  | IRadioResponse.getCdmaSubscriptionSourceResponse info source => getCdmaSubscriptionSourceResponse self info source
  | IRadioResponse.requestIsimAuthenticationResponse info response => requestIsimAuthenticationResponse self info response
  | IRadioResponse.acknowledgeIncomingGsmSmsWithPduResponse info => acknowledgeIncomingGsmSmsWithPduResponse self info
  | IRadioResponse.sendEnvelopeWithStatusResponse info iccIo => sendEnvelopeWithStatusResponse self info iccIo
  | IRadioResponse.getVoiceRadioTechnologyResponse info rat => getVoiceRadioTechnologyResponse self info rat
  | IRadioResponse.getCellInfoListResponse info cellInfo => getCellInfoListResponse self info cellInfo
  | IRadioResponse.setCellInfoListRateResponse info => setCellInfoListRateResponse self info
  | IRadioResponse.setInitialAttachApnResponse info => setInitialAttachApnResponse self info
  | IRadioResponse.getImsRegistrationStateResponse info isRegistered ratFamily => getImsRegistrationStateResponse self info isRegistered ratFamily
  | IRadioResponse.sendImsSmsResponse info sms => sendImsSmsResponse self info sms
  | IRadioResponse.iccTransmitApduBasicChannelResponse info result => iccTransmitApduBasicChannelResponse self info result
  | IRadioResponse.iccOpenLogicalChannelResponse info channelId selectResponse => iccOpenLogicalChannelResponse self info channelId selectResponse
  | IRadioResponse.iccCloseLogicalChannelResponse info => iccCloseLogicalChannelResponse self info
  | IRadioResponse.iccTransmitApduLogicalChannelResponse info result => iccTransmitApduLogicalChannelResponse self info result
  | IRadioResponse.nvReadItemResponse info result => nvReadItemResponse self info result
  | IRadioResponse.nvWriteItemResponse info => nvWriteItemResponse self info
  | IRadioResponse.nvWriteCdmaPrlResponse info => nvWriteCdmaPrlResponse self info
  | IRadioResponse.nvResetConfigResponse info => nvResetConfigResponse self info
  | IRadioResponse.setUiccSubscriptionResponse info => setUiccSubscriptionResponse self info
  | IRadioResponse.setDataAllowedResponse info => setDataAllowedResponse self info
  | IRadioResponse.getHardwareConfigResponse info config => getHardwareConfigResponse self info config
  | IRadioResponse.requestIccSimAuthenticationResponse info result => requestIccSimAuthenticationResponse self info result
  | IRadioResponse.setDataProfileResponse info => setDataProfileResponse self info
  | IRadioResponse.requestShutdownResponse info => requestShutdownResponse self info
  | IRadioResponse.getRadioCapabilityResponse info rc => getRadioCapabilityResponse self info rc
  | IRadioResponse.setRadioCapabilityResponse info rc => setRadioCapabilityResponse self info rc
  | IRadioResponse.startLceServiceResponse info statusInfo => startLceServiceResponse self info statusInfo
  | IRadioResponse.stopLceServiceResponse info statusInfo => stopLceServiceResponse self info statusInfo
  | IRadioResponse.pullLceDataResponse info lceInfo => pullLceDataResponse self info lceInfo
  | IRadioResponse.getModemActivityInfoResponse info activityInfo => getModemActivityInfoResponse self info activityInfo
  | IRadioResponse.setAllowedCarriersResponse info numAllowed => setAllowedCarriersResponse self info numAllowed
  | IRadioResponse.getAllowedCarriersResponse info allAllowed carriers => getAllowedCarriersResponse self info allAllowed carriers
  | IRadioResponse.sendDeviceStateResponse info => sendDeviceStateResponse self info
  | IRadioResponse.setIndicationFilterResponse info => setIndicationFilterResponse self info
  | IRadioResponse.setSimCardPowerResponse info => setSimCardPowerResponse self info
  | IRadioResponse.acknowledgeRequest serial => acknowledgeRequest self serial
  | IRadioResponse.setCarrierInfoForImsiEncryptionResponse info => setCarrierInfoForImsiEncryptionResponse self info
  | IRadioResponse.setSimCardPowerResponse_1_1 info => setSimCardPowerResponse_1_1 self info
  | IRadioResponse.startNetworkScanResponse info => startNetworkScanResponse self info
  | IRadioResponse.stopNetworkScanResponse info => stopNetworkScanResponse self info
  | IRadioResponse.startKeepaliveResponse info status => startKeepaliveResponse self info status
  | IRadioResponse.stopKeepaliveResponse info => stopKeepaliveResponse self info
  | IRadioResponse.getCellInfoListResponse_1_2 info cellInfo => getCellInfoListResponse_1_2 self info cellInfo
  | IRadioResponse.getIccCardStatusResponse_1_2 info cardStatus => getIccCardStatusResponse_1_2 self info cardStatus
  | IRadioResponse.setSignalStrengthReportingCriteriaResponse info => setSignalStrengthReportingCriteriaResponse self info
  | IRadioResponse.setLinkCapacityReportingCriteriaResponse info => setLinkCapacityReportingCriteriaResponse self info
  | IRadioResponse.getCurrentCallsResponse_1_2 info calls => getCurrentCallsResponse_1_2 self info calls
  | IRadioResponse.getSignalStrengthResponse_1_2 info signalStrength => getSignalStrengthResponse_1_2 self info signalStrength
  | IRadioResponse.getVoiceRegistrationStateResponse_1_2 info voiceRegResponse => getVoiceRegistrationStateResponse_1_2 self info voiceRegResponse
  | IRadioResponse.getDataRegistrationStateResponse_1_2 info dataRegResponse => getDataRegistrationStateResponse_1_2 self info dataRegResponse
  | IRadioResponse.setSystemSelectionChannelsResponse info => setSystemSelectionChannelsResponse self info
  | IRadioResponse.enableModemResponse info => enableModemResponse self info
  | IRadioResponse.getModemStackStatusResponse info isEnabled => getModemStackStatusResponse self info isEnabled
  | IRadioResponse.emergencyDialResponse info => emergencyDialResponse self info
  | IRadioResponse.startNetworkScanResponse_1_4 info => startNetworkScanResponse_1_4 self info
  | IRadioResponse.getCellInfoListResponse_1_4 info cellInfo => getCellInfoListResponse_1_4 self info cellInfo
  | IRadioResponse.getDataRegistrationStateResponse_1_4 info dataRegResponse => getDataRegistrationStateResponse_1_4 self info dataRegResponse
  | IRadioResponse.getIccCardStatusResponse_1_4 info cardStatus => getIccCardStatusResponse_1_4 self info cardStatus
  | IRadioResponse.getPreferredNetworkTypeBitmapResponse info networkTypeBitmap => getPreferredNetworkTypeBitmapResponse self info networkTypeBitmap
  | IRadioResponse.setPreferredNetworkTypeBitmapResponse info => setPreferredNetworkTypeBitmapResponse self info
  | IRadioResponse.getDataCallListResponse_1_4 info dcResponse => getDataCallListResponse_1_4 self info dcResponse
  | IRadioResponse.setupDataCallResponse_1_4 info dcResponse => setupDataCallResponse_1_4 self info dcResponse
  | IRadioResponse.setAllowedCarriersResponse_1_4 info => setAllowedCarriersResponse_1_4 self info
  | IRadioResponse.getAllowedCarriersResponse_1_4 info carriers multiSimPolicy => getAllowedCarriersResponse_1_4 self info carriers multiSimPolicy
  | IRadioResponse.getSignalStrengthResponse_1_4 info signalStrength => getSignalStrengthResponse_1_4 self info signalStrength
  end.

End Replies.
