(* ===== verification/RadioIndication.v ===== *)
(** * Indications of the radio

    [src/radio/1.4/legacy/RadioIndication.cpp]: the object the real radio
    sends its unsolicited messages to.  Each method passes its message on to
    the client, the ones of older versions converted to version 1.4. *)

From S2P Require Import Prelude Text RadioTypes RadioHelpers RadioInterface.

Record RadioIndication := mkRadioIndication {
  this_indication : Z;                     (* the identity of the object *)
  mRealRadioIndication : option Z
}.
#[export] Instance RadioIndication_eta : Record_eta RadioIndication :=
  fun r => mkRadioIndication (this_indication r) (mRealRadioIndication r).

Section Indications.
Context `{HidlData} `{E : RadioEnums}.

Definition RadioIndication_new (this : Z) : RadioIndication := mkRadioIndication this None.

(** [mRealRadioIndication->method(...)]: the call of a method of the client,
    or the end of the process. *)
Definition Indicated : Type := option (Z * IRadioIndication.indication).
Definition to_indication (self : RadioIndication) (i : IRadioIndication.indication) : Indicated :=
  (fun client => (client, i)) <$> mRealRadioIndication self.

(** *** Methods of version 1.0 *)

Definition radioStateChanged (self : RadioIndication) (type radioState : Z) : Indicated :=
  to_indication self (IRadioIndication.radioStateChanged type radioState).

Definition callStateChanged (self : RadioIndication) (type : Z) : Indicated :=
  to_indication self (IRadioIndication.callStateChanged type).

Definition networkStateChanged (self : RadioIndication) (type : Z) : Indicated :=
  to_indication self (IRadioIndication.networkStateChanged type).

Definition newSms (self : RadioIndication) (type : Z) (pdu : list Z) : Indicated :=
  to_indication self (IRadioIndication.newSms type pdu).

Definition newSmsStatusReport (self : RadioIndication) (type : Z) (pdu : list Z) : Indicated :=
  to_indication self (IRadioIndication.newSmsStatusReport type pdu).

Definition newSmsOnSim (self : RadioIndication) (type recordNumber : Z) : Indicated :=
  to_indication self (IRadioIndication.newSmsOnSim type recordNumber).

Definition onUssd (self : RadioIndication) (type modeType : Z) (msg : string) : Indicated :=
  to_indication self (IRadioIndication.onUssd type modeType msg).

Definition nitzTimeReceived (self : RadioIndication) (type : Z) (nitzTime : string) (receivedTime : Z) : Indicated :=
  to_indication self (IRadioIndication.nitzTimeReceived type nitzTime receivedTime).

Definition currentSignalStrength (self : RadioIndication) (type : Z) (signalStrength : V1_0_SignalStrength) : Indicated :=
  to_indication self (IRadioIndication.currentSignalStrength_1_4 type (Create1_4SignalStrength signalStrength)).

Definition dataCallListChanged (self : RadioIndication) (type : Z) (dcList : list V1_0_SetupDataCallResult) : Indicated :=
  to_indication self (IRadioIndication.dataCallListChanged_1_4 type (Create1_4SetupDataCallResult <$> dcList)).

Definition suppSvcNotify (self : RadioIndication) (type : Z) (suppSvc : hidl V1_0_SuppSvcNotification) : Indicated :=
  to_indication self (IRadioIndication.suppSvcNotify type suppSvc).

Definition stkSessionEnd (self : RadioIndication) (type : Z) : Indicated :=
  to_indication self (IRadioIndication.stkSessionEnd type).

Definition stkProactiveCommand (self : RadioIndication) (type : Z) (cmd : string) : Indicated :=
  to_indication self (IRadioIndication.stkProactiveCommand type cmd).

Definition stkEventNotify (self : RadioIndication) (type : Z) (cmd : string) : Indicated :=
  to_indication self (IRadioIndication.stkEventNotify type cmd).

Definition stkCallSetup (self : RadioIndication) (type timeout : Z) : Indicated :=
  to_indication self (IRadioIndication.stkCallSetup type timeout).

Definition simSmsStorageFull (self : RadioIndication) (type : Z) : Indicated :=
  to_indication self (IRadioIndication.simSmsStorageFull type).

Definition simRefresh (self : RadioIndication) (type : Z) (refreshResult : hidl V1_0_SimRefreshResult) : Indicated :=
  to_indication self (IRadioIndication.simRefresh type refreshResult).

Definition callRing (self : RadioIndication) (type : Z) (isGsm : bool) (record : hidl V1_0_CdmaSignalInfoRecord) : Indicated :=
  to_indication self (IRadioIndication.callRing type isGsm record).

Definition simStatusChanged (self : RadioIndication) (type : Z) : Indicated :=
  to_indication self (IRadioIndication.simStatusChanged type).

Definition cdmaNewSms (self : RadioIndication) (type : Z) (msg : hidl V1_0_CdmaSmsMessage) : Indicated :=
  to_indication self (IRadioIndication.cdmaNewSms type msg).

Definition newBroadcastSms (self : RadioIndication) (type : Z) (data : list Z) : Indicated :=
  to_indication self (IRadioIndication.newBroadcastSms type data).

Definition cdmaRuimSmsStorageFull (self : RadioIndication) (type : Z) : Indicated :=
  to_indication self (IRadioIndication.cdmaRuimSmsStorageFull type).

Definition restrictedStateChanged (self : RadioIndication) (type state : Z) : Indicated :=
  to_indication self (IRadioIndication.restrictedStateChanged type state).

Definition enterEmergencyCallbackMode (self : RadioIndication) (type : Z) : Indicated :=
  to_indication self (IRadioIndication.enterEmergencyCallbackMode type).

Definition cdmaCallWaiting (self : RadioIndication) (type : Z) (callWaitingRecord : hidl V1_0_CdmaCallWaiting) : Indicated :=
  to_indication self (IRadioIndication.cdmaCallWaiting type callWaitingRecord).

Definition cdmaOtaProvisionStatus (self : RadioIndication) (type status : Z) : Indicated :=
  to_indication self (IRadioIndication.cdmaOtaProvisionStatus type status).

Definition cdmaInfoRec (self : RadioIndication) (type : Z) (records : hidl V1_0_CdmaInformationRecords) : Indicated :=
  to_indication self (IRadioIndication.cdmaInfoRec type records).

Definition indicateRingbackTone (self : RadioIndication) (type : Z) (start : bool) : Indicated :=
  to_indication self (IRadioIndication.indicateRingbackTone type start).

Definition resendIncallMute (self : RadioIndication) (type : Z) : Indicated :=
  to_indication self (IRadioIndication.resendIncallMute type).

Definition cdmaSubscriptionSourceChanged (self : RadioIndication) (type cdmaSource : Z) : Indicated :=
  to_indication self (IRadioIndication.cdmaSubscriptionSourceChanged type cdmaSource).

Definition cdmaPrlChanged (self : RadioIndication) (type version : Z) : Indicated :=
  to_indication self (IRadioIndication.cdmaPrlChanged type version).

Definition exitEmergencyCallbackMode (self : RadioIndication) (type : Z) : Indicated :=
  to_indication self (IRadioIndication.exitEmergencyCallbackMode type).

Definition rilConnected (self : RadioIndication) (type : Z) : Indicated :=
  to_indication self (IRadioIndication.rilConnected type).

Definition voiceRadioTechChanged (self : RadioIndication) (type rat : Z) : Indicated :=
  to_indication self (IRadioIndication.voiceRadioTechChanged type rat).

Definition cellInfoList (self : RadioIndication) (type : Z) (records : list V1_0_CellInfo) : Indicated :=
  to_indication self (IRadioIndication.cellInfoList_1_4 type (Create1_4CellInfoList records)).

Definition imsNetworkStateChanged (self : RadioIndication) (type : Z) : Indicated :=
  to_indication self (IRadioIndication.imsNetworkStateChanged type).

Definition subscriptionStatusChanged (self : RadioIndication) (type : Z) (activate : bool) : Indicated :=
  to_indication self (IRadioIndication.subscriptionStatusChanged type activate).

Definition srvccStateNotify (self : RadioIndication) (type state : Z) : Indicated :=
  to_indication self (IRadioIndication.srvccStateNotify type state).

Definition hardwareConfigChanged (self : RadioIndication) (type : Z) (configs : list (hidl V1_0_HardwareConfig)) : Indicated :=
  to_indication self (IRadioIndication.hardwareConfigChanged type configs).

Definition radioCapabilityIndication (self : RadioIndication) (type : Z) (rc : hidl V1_0_RadioCapability) : Indicated :=
  to_indication self (IRadioIndication.radioCapabilityIndication type rc).

Definition onSupplementaryServiceIndication (self : RadioIndication) (type : Z) (ss : hidl V1_0_StkCcUnsolSsResult) : Indicated :=
  to_indication self (IRadioIndication.onSupplementaryServiceIndication type ss).

Definition stkCallControlAlphaNotify (self : RadioIndication) (type : Z) (alpha : string) : Indicated :=
  to_indication self (IRadioIndication.stkCallControlAlphaNotify type alpha).

Definition lceData (self : RadioIndication) (type : Z) (lce : hidl V1_0_LceDataInfo) : Indicated :=
  to_indication self (IRadioIndication.lceData type lce).

Definition pcoData (self : RadioIndication) (type : Z) (pco : hidl V1_0_PcoDataInfo) : Indicated :=
  to_indication self (IRadioIndication.pcoData type pco).

Definition modemReset (self : RadioIndication) (type : Z) (reason : string) : Indicated :=
  to_indication self (IRadioIndication.modemReset type reason).

(** *** Methods of version 1.1 *)

Definition carrierInfoForImsiEncryption (self : RadioIndication) (info : Z) : Indicated :=
  to_indication self (IRadioIndication.carrierInfoForImsiEncryption info).

Definition networkScanResult (self : RadioIndication) (type : Z) (result : V1_1_NetworkScanResult) : Indicated :=
  let newNSR := mkScanResult4 (nr1_status result) (nr1_error result) (Create1_4CellInfoList (nr1_networkInfos result)) in
  to_indication self (IRadioIndication.networkScanResult_1_4 type newNSR).

Definition keepaliveStatus (self : RadioIndication) (type : Z) (status : hidl V1_1_KeepaliveStatus) : Indicated :=
  to_indication self (IRadioIndication.keepaliveStatus type status).

(** *** Methods of version 1.2 *)

Definition networkScanResult_1_2 (self : RadioIndication) (type : Z) (result : V1_2_NetworkScanResult) : Indicated :=
  let newNSR := mkScanResult4 (nr2_status result) (nr2_error result) (Create1_4CellInfoList_2 (nr2_networkInfos result)) in
  to_indication self (IRadioIndication.networkScanResult_1_4 type newNSR).

Definition cellInfoList_1_2 (self : RadioIndication) (type : Z) (records : list V1_2_CellInfo) : Indicated :=
  to_indication self (IRadioIndication.cellInfoList_1_4 type (Create1_4CellInfoList_2 records)).

Definition currentLinkCapacityEstimate (self : RadioIndication) (type : Z) (lce : hidl V1_2_LinkCapacityEstimate) : Indicated :=
  to_indication self (IRadioIndication.currentLinkCapacityEstimate type lce).

Definition currentPhysicalChannelConfigs (self : RadioIndication) (type : Z) (configs : list (hidl V1_2_PhysicalChannelConfig)) : Indicated :=
  let newConfigs := (fun c => mkChannel4 c RadioTechnology_1_4_UNKNOWN (-1) (hidl_zero _)) <$> configs in
  to_indication self (IRadioIndication.currentPhysicalChannelConfigs_1_4 type newConfigs).

Definition currentSignalStrength_1_2 (self : RadioIndication) (type : Z) (signalStrength : V1_2_SignalStrength) : Indicated :=
  to_indication self (IRadioIndication.currentSignalStrength_1_4 type (Create1_4SignalStrength_2 signalStrength)).

(** *** Methods of version 1.4 *)

Definition currentEmergencyNumberList (self : RadioIndication) (type : Z) (emergencyNumberList : list (hidl V1_4_EmergencyNumber)) : Indicated :=
  to_indication self (IRadioIndication.currentEmergencyNumberList type emergencyNumberList).

Definition cellInfoList_1_4 (self : RadioIndication) (type : Z) (records : list V1_4_CellInfo) : Indicated :=
  to_indication self (IRadioIndication.cellInfoList_1_4 type records).

Definition networkScanResult_1_4 (self : RadioIndication) (type : Z) (result : V1_4_NetworkScanResult) : Indicated :=
  to_indication self (IRadioIndication.networkScanResult_1_4 type result).

Definition currentPhysicalChannelConfigs_1_4 (self : RadioIndication) (type : Z) (configs : list V1_4_PhysicalChannelConfig) : Indicated :=
  to_indication self (IRadioIndication.currentPhysicalChannelConfigs_1_4 type configs).

Definition dataCallListChanged_1_4 (self : RadioIndication) (type : Z) (dcList : list V1_4_SetupDataCallResult) : Indicated :=
  to_indication self (IRadioIndication.dataCallListChanged_1_4 type dcList).

Definition currentSignalStrength_1_4 (self : RadioIndication) (type : Z) (signalStrength : V1_4_SignalStrength) : Indicated :=
  to_indication self (IRadioIndication.currentSignalStrength_1_4 type signalStrength).

(** The virtual call of the real radio. *)
Definition receive_indication (self : RadioIndication) (i : IRadioIndication.indication) : Indicated :=
  match i with
  | IRadioIndication.radioStateChanged type radioState => radioStateChanged self type radioState
  | IRadioIndication.callStateChanged type => callStateChanged self type
  | IRadioIndication.networkStateChanged type => networkStateChanged self type
  | IRadioIndication.newSms type pdu => newSms self type pdu
  | IRadioIndication.newSmsStatusReport type pdu => newSmsStatusReport self type pdu
  | IRadioIndication.newSmsOnSim type recordNumber => newSmsOnSim self type recordNumber
  | IRadioIndication.onUssd type modeType msg => onUssd self type modeType msg
  | IRadioIndication.nitzTimeReceived type nitzTime receivedTime => nitzTimeReceived self type nitzTime receivedTime
  | IRadioIndication.currentSignalStrength type signalStrength => currentSignalStrength self type signalStrength
  | IRadioIndication.dataCallListChanged type dcList => dataCallListChanged self type dcList
  | IRadioIndication.suppSvcNotify type suppSvc => suppSvcNotify self type suppSvc
  | IRadioIndication.stkSessionEnd type => stkSessionEnd self type
  | IRadioIndication.stkProactiveCommand type cmd => stkProactiveCommand self type cmd
  | IRadioIndication.stkEventNotify type cmd => stkEventNotify self type cmd
  | IRadioIndication.stkCallSetup type timeout => stkCallSetup self type timeout
  | IRadioIndication.simSmsStorageFull type => simSmsStorageFull self type
  | IRadioIndication.simRefresh type refreshResult => simRefresh self type refreshResult
  | IRadioIndication.callRing type isGsm record => callRing self type isGsm record
  | IRadioIndication.simStatusChanged type => simStatusChanged self type
  | IRadioIndication.cdmaNewSms type msg => cdmaNewSms self type msg
  | IRadioIndication.newBroadcastSms type data => newBroadcastSms self type data
  | IRadioIndication.cdmaRuimSmsStorageFull type => cdmaRuimSmsStorageFull self type
  | IRadioIndication.restrictedStateChanged type state => restrictedStateChanged self type state
  | IRadioIndication.enterEmergencyCallbackMode type => enterEmergencyCallbackMode self type
  | IRadioIndication.cdmaCallWaiting type callWaitingRecord => cdmaCallWaiting self type callWaitingRecord
  | IRadioIndication.cdmaOtaProvisionStatus type status => cdmaOtaProvisionStatus self type status
  | IRadioIndication.cdmaInfoRec type records => cdmaInfoRec self type records
  | IRadioIndication.indicateRingbackTone type start => indicateRingbackTone self type start
  | IRadioIndication.resendIncallMute type => resendIncallMute self type
  | IRadioIndication.cdmaSubscriptionSourceChanged type cdmaSource => cdmaSubscriptionSourceChanged self type cdmaSource
  | IRadioIndication.cdmaPrlChanged type version => cdmaPrlChanged self type version
  | IRadioIndication.exitEmergencyCallbackMode type => exitEmergencyCallbackMode self type
  | IRadioIndication.rilConnected type => rilConnected self type
  | IRadioIndication.voiceRadioTechChanged type rat => voiceRadioTechChanged self type rat
  | IRadioIndication.cellInfoList type records => cellInfoList self type records
  | IRadioIndication.imsNetworkStateChanged type => imsNetworkStateChanged self type
  | IRadioIndication.subscriptionStatusChanged type activate => subscriptionStatusChanged self type activate
  | IRadioIndication.srvccStateNotify type state => srvccStateNotify self type state
  | IRadioIndication.hardwareConfigChanged type configs => hardwareConfigChanged self type configs
  | IRadioIndication.radioCapabilityIndication type rc => radioCapabilityIndication self type rc
  | IRadioIndication.onSupplementaryServiceIndication type ss => onSupplementaryServiceIndication self type ss
  | IRadioIndication.stkCallControlAlphaNotify type alpha => stkCallControlAlphaNotify self type alpha
  | IRadioIndication.lceData type lce => lceData self type lce
  | IRadioIndication.pcoData type pco => pcoData self type pco
  | IRadioIndication.modemReset type reason => modemReset self type reason
  | IRadioIndication.carrierInfoForImsiEncryption info => carrierInfoForImsiEncryption self info
  | IRadioIndication.networkScanResult type result => networkScanResult self type result
  | IRadioIndication.keepaliveStatus type status => keepaliveStatus self type status
  | IRadioIndication.networkScanResult_1_2 type result => networkScanResult_1_2 self type result
  | IRadioIndication.cellInfoList_1_2 type records => cellInfoList_1_2 self type records
  | IRadioIndication.currentLinkCapacityEstimate type lce => currentLinkCapacityEstimate self type lce
  | IRadioIndication.currentPhysicalChannelConfigs type configs => currentPhysicalChannelConfigs self type configs
  | IRadioIndication.currentSignalStrength_1_2 type signalStrength => currentSignalStrength_1_2 self type signalStrength
  | IRadioIndication.currentEmergencyNumberList type emergencyNumberList => currentEmergencyNumberList self type emergencyNumberList
  | IRadioIndication.cellInfoList_1_4 type records => cellInfoList_1_4 self type records
  | IRadioIndication.networkScanResult_1_4 type result => networkScanResult_1_4 self type result
  | IRadioIndication.currentPhysicalChannelConfigs_1_4 type configs => currentPhysicalChannelConfigs_1_4 self type configs
  | IRadioIndication.dataCallListChanged_1_4 type dcList => dataCallListChanged_1_4 self type dcList
  | IRadioIndication.currentSignalStrength_1_4 type signalStrength => currentSignalStrength_1_4 self type signalStrength
  end.

End Indications.
