(* ===== verification/Radio.v ===== *)
(** * Requests to the radio

    [src/radio/1.4/legacy/Radio.cpp] and [Radio.h]: the service of version 1.4
    that clients call, in front of a real radio of an older version.  A request
    of version 1.0 goes to the real radio as it came.  A newer one goes to the
    real radio if that implements its version, which the binder's [castFrom]
    tells; otherwise it is expressed by older requests, or dropped. *)

From S2P Require Import Prelude Text RadioTypes RadioHelpers RadioInterface RadioResponse RadioIndication.

(** [castFrom] of the binder, for the interfaces involved. *)
Class HidlBinder := {
  castFrom_IRadio : Version -> Z -> bool;
  castFrom_IRadioResponse_1_4 : Z -> bool;
  castFrom_IRadioIndication_1_4 : Z -> bool
}.

(** [castFrom] on a pointer, null included, with null as the result when the
    object does not implement the interface. *)
Definition castFrom (implements : Z -> bool) (p : option Z) : option Z :=
  match p with
  | Some x => if implements x then Some x else None
  | None => None
  end.

Record Radio := mkRadio {
  mRealRadio : option Z;
  mRadioResponse : RadioResponse;
  mRadioIndication : RadioIndication
}.
#[export] Instance Radio_eta : Record_eta Radio := fun r => mkRadio (mRealRadio r) (mRadioResponse r) (mRadioIndication r).

Section Requests.
Context `{HidlData} `{E : RadioEnums} `{HidlBinder}.

(** What a method returns: the answer of the real radio to a call of a method
    of one of its interfaces, a status, or nothing at all. *)
Inductive Return :=
  | Sent (radio : Z) (interface : Version) (c : IRadio.call)
  | EX_ILLEGAL_STATE
  | Void.

Definition Radio_new (realRadio : option Z) (this_response this_indication : Z) : Radio :=
  mkRadio realRadio (RadioResponse_new this_response) (RadioIndication_new this_indication).

Definition getRealRadio_V1_1 (r : Radio) : option Z := castFrom (castFrom_IRadio V1_1) (mRealRadio r).
Definition getRealRadio_V1_2 (r : Radio) : option Z := castFrom (castFrom_IRadio V1_2) (mRealRadio r).
Definition getRealRadio_V1_3 (r : Radio) : option Z := castFrom (castFrom_IRadio V1_3) (mRealRadio r).
Definition getRealRadio_V1_4 (r : Radio) : option Z := castFrom (castFrom_IRadio V1_4) (mRealRadio r).

Definition WRAP_V1_0_CALL (r : Radio) (c : IRadio.call) : Return :=
  match mRealRadio r with
  | Some realRadio => Sent realRadio V1_0 c
  | None => EX_ILLEGAL_STATE
  end.

(** The other macros return from the method or fall through to [rest]. *)
Definition MAYBE_WRAP_V1_1_CALL (r : Radio) (c : IRadio.call) (rest : Return) : Return :=
  match getRealRadio_V1_1 r with Some realRadio_V1_1 => Sent realRadio_V1_1 V1_1 c | None => rest end.
Definition MAYBE_WRAP_V1_2_CALL (r : Radio) (c : IRadio.call) (rest : Return) : Return :=
  match getRealRadio_V1_2 r with Some realRadio_V1_2 => Sent realRadio_V1_2 V1_2 c | None => rest end.
Definition MAYBE_WRAP_V1_3_CALL (r : Radio) (c : IRadio.call) (rest : Return) : Return :=
  match getRealRadio_V1_3 r with Some realRadio_V1_3 => Sent realRadio_V1_3 V1_3 c | None => rest end.
Definition MAYBE_WRAP_V1_4_CALL (r : Radio) (c : IRadio.call) (rest : Return) : Return :=
  match getRealRadio_V1_4 r with Some realRadio_V1_4 => Sent realRadio_V1_4 V1_4 c | None => rest end.

(** *** Conversions of the requests *)

(** The array is indexed with the number of the protocol, which is in range as
    the protocols are numbered from zero ([pdp_numbers]). *)
Definition protocolStrings : list string := ["IP"; "IPV6"; "IPV4V6"; "PPP"; "NON-IP"; "UNSTRUCTURED"]%string.
Definition getProtocolStringFromInt (protocol : Z) : string :=
  if (PDP_IP <=? protocol) && (protocol <=? PDP_UNSTRUCTURED) then default ""%string (protocolStrings !! Z.to_nat protocol) else ""%string.

Definition Get1_0DataProfileInfo (p : V1_4_DataProfileInfo) : V1_0_DataProfileInfo :=
  mkProfile0 (dp4_profileId p) (dp4_apn p) (getProtocolStringFromInt (dp4_protocol p)) (getProtocolStringFromInt (dp4_roamingProtocol p))
    (dp4_authType p) (dp4_user p) (dp4_password p) (dp4_type p) (dp4_maxConnsTime p) (dp4_maxConns p) (dp4_waitTime p) (dp4_enabled p)
    (dp4_supportedApnTypesBitmap p) (dp4_bearerBitmap p) (dp4_mtu p) MvnoType_NONE (hidl_zero _).

(** [if(networkTypeBitmap & BITS) networkTypeBitmap |= BITS], for each family. *)
Definition complete_family (bits networkTypeBitmap : Z) : Z :=
  if negb (Z.land networkTypeBitmap bits =? 0) then Z.lor networkTypeBitmap bits else networkTypeBitmap.
Definition complete_families (networkTypeBitmap : Z) : Z :=
  complete_family LTEBITS (complete_family WCDMABITS (complete_family EVDOBITS (complete_family CDMABITS
    (complete_family GSMBITS networkTypeBitmap)))).

(** The switch of [setPreferredNetworkTypeBitmap]. *)
Definition nwType_of (b : Z) : PreferredNetworkType :=
  if b =? Z.lor GSMBITS WCDMABITS then GSM_WCDMA_AUTO
  else if b =? GSMBITS then GSM_ONLY
  else if b =? WCDMABITS then WCDMA
  else if b =? Z.lor CDMABITS EVDOBITS then CDMA_EVDO_AUTO
  else if b =? CDMABITS then CDMA_ONLY
  else if b =? EVDOBITS then EVDO_ONLY
  else if b =? Z.lor (Z.lor (Z.lor GSMBITS WCDMABITS) CDMABITS) EVDOBITS then GSM_WCDMA_CDMA_EVDO_AUTO
  else if b =? Z.lor (Z.lor LTEBITS CDMABITS) EVDOBITS then LTE_CDMA_EVDO
  else if b =? Z.lor (Z.lor LTEBITS GSMBITS) WCDMABITS then LTE_GSM_WCDMA
  else if b =? Z.lor (Z.lor (Z.lor (Z.lor LTEBITS CDMABITS) EVDOBITS) GSMBITS) WCDMABITS then LTE_CMDA_EVDO_GSM_WCDMA
  else if b =? LTEBITS then LTE_ONLY
  else if b =? Z.lor LTEBITS WCDMABITS then LTE_WCDMA
  else if b =? TDSCDMABIT then TD_SCDMA_ONLY
  else if b =? Z.lor TDSCDMABIT WCDMABITS then TD_SCDMA_WCDMA
  else if b =? Z.lor TDSCDMABIT LTEBITS then TD_SCDMA_LTE
  else if b =? Z.lor TDSCDMABIT GSMBITS then TD_SCDMA_GSM
  else if b =? Z.lor (Z.lor TDSCDMABIT GSMBITS) LTEBITS then TD_SCDMA_GSM_LTE
  else if b =? Z.lor (Z.lor TDSCDMABIT GSMBITS) WCDMABITS then TD_SCDMA_GSM_WCDMA
  else if b =? Z.lor (Z.lor TDSCDMABIT WCDMABITS) LTEBITS then TD_SCDMA_WCDMA_LTE
  else if b =? Z.lor (Z.lor (Z.lor TDSCDMABIT GSMBITS) WCDMABITS) LTEBITS then TD_SCDMA_GSM_WCDMA_LTE
  else if b =? Z.lor (Z.lor (Z.lor (Z.lor TDSCDMABIT GSMBITS) WCDMABITS) CDMABITS) EVDOBITS then TD_SCDMA_GSM_WCDMA_CDMA_EVDO_AUTO
  else if b =? Z.lor (Z.lor (Z.lor (Z.lor (Z.lor TDSCDMABIT LTEBITS) CDMABITS) EVDOBITS) GSMBITS) WCDMABITS then TD_SCDMA_LTE_CDMA_EVDO_GSM_WCDMA
  else LTE_CMDA_EVDO_GSM_WCDMA.

(** *** Methods of version 1.0 *)

Definition setResponseFunctions (r : Radio) (radioResponse radioIndication : option Z) : Radio * Return :=
  let r := r <| mRadioResponse ::= fun x => x <| mRealRadioResponse := castFrom castFrom_IRadioResponse_1_4 radioResponse |> |> in
  let r := r <| mRadioIndication ::= fun x => x <| mRealRadioIndication := castFrom castFrom_IRadioIndication_1_4 radioIndication |> |> in
  (r, WRAP_V1_0_CALL r (IRadio.setResponseFunctions (Some (this_response (mRadioResponse r))) (Some (this_indication (mRadioIndication r))))).

Definition getIccCardStatus (r : Radio) (serial : Z) : Return :=
  WRAP_V1_0_CALL r (IRadio.getIccCardStatus serial).

Definition supplyIccPinForApp (r : Radio) (serial : Z) (pin aid : string) : Return :=
  WRAP_V1_0_CALL r (IRadio.supplyIccPinForApp serial pin aid).

Definition supplyIccPukForApp (r : Radio) (serial : Z) (puk pin aid : string) : Return :=
  WRAP_V1_0_CALL r (IRadio.supplyIccPukForApp serial puk pin aid).

Definition supplyIccPin2ForApp (r : Radio) (serial : Z) (pin2 aid : string) : Return :=
  WRAP_V1_0_CALL r (IRadio.supplyIccPin2ForApp serial pin2 aid).

Definition supplyIccPuk2ForApp (r : Radio) (serial : Z) (puk2 pin2 aid : string) : Return :=
  WRAP_V1_0_CALL r (IRadio.supplyIccPuk2ForApp serial puk2 pin2 aid).

Definition changeIccPinForApp (r : Radio) (serial : Z) (oldPin newPin aid : string) : Return :=
  WRAP_V1_0_CALL r (IRadio.changeIccPinForApp serial oldPin newPin aid).

Definition changeIccPin2ForApp (r : Radio) (serial : Z) (oldPin2 newPin2 aid : string) : Return :=
  WRAP_V1_0_CALL r (IRadio.changeIccPin2ForApp serial oldPin2 newPin2 aid).

Definition supplyNetworkDepersonalization (r : Radio) (serial : Z) (netPin : string) : Return :=
  WRAP_V1_0_CALL r (IRadio.supplyNetworkDepersonalization serial netPin).

Definition getCurrentCalls (r : Radio) (serial : Z) : Return :=
  WRAP_V1_0_CALL r (IRadio.getCurrentCalls serial).

Definition dial (r : Radio) (serial : Z) (dialInfo : hidl V1_0_Dial) : Return :=
  WRAP_V1_0_CALL r (IRadio.dial serial dialInfo).

Definition getImsiForApp (r : Radio) (serial : Z) (aid : string) : Return :=
  WRAP_V1_0_CALL r (IRadio.getImsiForApp serial aid).

Definition hangup (r : Radio) (serial gsmIndex : Z) : Return :=
  WRAP_V1_0_CALL r (IRadio.hangup serial gsmIndex).

Definition hangupWaitingOrBackground (r : Radio) (serial : Z) : Return :=
  WRAP_V1_0_CALL r (IRadio.hangupWaitingOrBackground serial).

Definition hangupForegroundResumeBackground (r : Radio) (serial : Z) : Return :=
  WRAP_V1_0_CALL r (IRadio.hangupForegroundResumeBackground serial).

Definition switchWaitingOrHoldingAndActive (r : Radio) (serial : Z) : Return :=
  WRAP_V1_0_CALL r (IRadio.switchWaitingOrHoldingAndActive serial).

Definition conference (r : Radio) (serial : Z) : Return :=
  WRAP_V1_0_CALL r (IRadio.conference serial).

Definition rejectCall (r : Radio) (serial : Z) : Return :=
  WRAP_V1_0_CALL r (IRadio.rejectCall serial).

Definition getLastCallFailCause (r : Radio) (serial : Z) : Return :=
  WRAP_V1_0_CALL r (IRadio.getLastCallFailCause serial).

Definition getSignalStrength (r : Radio) (serial : Z) : Return :=
  WRAP_V1_0_CALL r (IRadio.getSignalStrength serial).

Definition getVoiceRegistrationState (r : Radio) (serial : Z) : Return :=
  WRAP_V1_0_CALL r (IRadio.getVoiceRegistrationState serial).

Definition getDataRegistrationState (r : Radio) (serial : Z) : Return :=
  WRAP_V1_0_CALL r (IRadio.getDataRegistrationState serial).

Definition getOperator (r : Radio) (serial : Z) : Return :=
  WRAP_V1_0_CALL r (IRadio.getOperator serial).

Definition setRadioPower (r : Radio) (serial : Z) (on : bool) : Return :=
  WRAP_V1_0_CALL r (IRadio.setRadioPower serial on).

Definition sendDtmf (r : Radio) (serial : Z) (s : string) : Return :=
  WRAP_V1_0_CALL r (IRadio.sendDtmf serial s).

Definition sendSms (r : Radio) (serial : Z) (message : hidl V1_0_GsmSmsMessage) : Return :=
  WRAP_V1_0_CALL r (IRadio.sendSms serial message).

Definition sendSMSExpectMore (r : Radio) (serial : Z) (message : hidl V1_0_GsmSmsMessage) : Return :=
  WRAP_V1_0_CALL r (IRadio.sendSMSExpectMore serial message).

Definition setupDataCall (r : Radio) (serial radioTechnology : Z) (dataProfileInfo : V1_0_DataProfileInfo) (modemCognitive roamingAllowed isRoaming : bool) : Return :=
  WRAP_V1_0_CALL r (IRadio.setupDataCall serial radioTechnology dataProfileInfo modemCognitive roamingAllowed isRoaming).

Definition iccIOForApp (r : Radio) (serial : Z) (iccIo : hidl V1_0_IccIo) : Return :=
  WRAP_V1_0_CALL r (IRadio.iccIOForApp serial iccIo).

Definition sendUssd (r : Radio) (serial : Z) (ussd : string) : Return :=
  WRAP_V1_0_CALL r (IRadio.sendUssd serial ussd).

Definition cancelPendingUssd (r : Radio) (serial : Z) : Return :=
  WRAP_V1_0_CALL r (IRadio.cancelPendingUssd serial).

Definition getClir (r : Radio) (serial : Z) : Return :=
  WRAP_V1_0_CALL r (IRadio.getClir serial).

Definition setClir (r : Radio) (serial status : Z) : Return :=
  WRAP_V1_0_CALL r (IRadio.setClir serial status).

Definition getCallForwardStatus (r : Radio) (serial : Z) (callInfo : hidl V1_0_CallForwardInfo) : Return :=
  WRAP_V1_0_CALL r (IRadio.getCallForwardStatus serial callInfo).

Definition setCallForward (r : Radio) (serial : Z) (callInfo : hidl V1_0_CallForwardInfo) : Return :=
  WRAP_V1_0_CALL r (IRadio.setCallForward serial callInfo).

Definition getCallWaiting (r : Radio) (serial serviceClass : Z) : Return :=
  WRAP_V1_0_CALL r (IRadio.getCallWaiting serial serviceClass).

Definition setCallWaiting (r : Radio) (serial : Z) (enable : bool) (serviceClass : Z) : Return :=
  WRAP_V1_0_CALL r (IRadio.setCallWaiting serial enable serviceClass).

Definition acknowledgeLastIncomingGsmSms (r : Radio) (serial : Z) (success : bool) (cause : Z) : Return :=
  WRAP_V1_0_CALL r (IRadio.acknowledgeLastIncomingGsmSms serial success cause).

Definition acceptCall (r : Radio) (serial : Z) : Return :=
  WRAP_V1_0_CALL r (IRadio.acceptCall serial).

Definition deactivateDataCall (r : Radio) (serial cid : Z) (reasonRadioShutDown : bool) : Return :=
  WRAP_V1_0_CALL r (IRadio.deactivateDataCall serial cid reasonRadioShutDown).

Definition getFacilityLockForApp (r : Radio) (serial : Z) (facility password : string) (serviceClass : Z) (appId : string) : Return :=
  WRAP_V1_0_CALL r (IRadio.getFacilityLockForApp serial facility password serviceClass appId).

Definition setFacilityLockForApp (r : Radio) (serial : Z) (facility : string) (lockState : bool) (password : string) (serviceClass : Z) (appId : string) : Return :=
  WRAP_V1_0_CALL r (IRadio.setFacilityLockForApp serial facility lockState password serviceClass appId).

Definition setBarringPassword (r : Radio) (serial : Z) (facility oldPassword newPassword : string) : Return :=
  WRAP_V1_0_CALL r (IRadio.setBarringPassword serial facility oldPassword newPassword).

Definition getNetworkSelectionMode (r : Radio) (serial : Z) : Return :=
  WRAP_V1_0_CALL r (IRadio.getNetworkSelectionMode serial).

Definition setNetworkSelectionModeAutomatic (r : Radio) (serial : Z) : Return :=
  WRAP_V1_0_CALL r (IRadio.setNetworkSelectionModeAutomatic serial).

Definition setNetworkSelectionModeManual (r : Radio) (serial : Z) (operatorNumeric : string) : Return :=
  WRAP_V1_0_CALL r (IRadio.setNetworkSelectionModeManual serial operatorNumeric).

Definition getAvailableNetworks (r : Radio) (serial : Z) : Return :=
  WRAP_V1_0_CALL r (IRadio.getAvailableNetworks serial).

Definition startDtmf (r : Radio) (serial : Z) (s : string) : Return :=
  WRAP_V1_0_CALL r (IRadio.startDtmf serial s).

Definition stopDtmf (r : Radio) (serial : Z) : Return :=
  WRAP_V1_0_CALL r (IRadio.stopDtmf serial).

Definition getBasebandVersion (r : Radio) (serial : Z) : Return :=
  WRAP_V1_0_CALL r (IRadio.getBasebandVersion serial).

Definition separateConnection (r : Radio) (serial gsmIndex : Z) : Return :=
  WRAP_V1_0_CALL r (IRadio.separateConnection serial gsmIndex).

Definition setMute (r : Radio) (serial : Z) (enable : bool) : Return :=
  WRAP_V1_0_CALL r (IRadio.setMute serial enable).

Definition getMute (r : Radio) (serial : Z) : Return :=
  WRAP_V1_0_CALL r (IRadio.getMute serial).

Definition getClip (r : Radio) (serial : Z) : Return :=
  WRAP_V1_0_CALL r (IRadio.getClip serial).

Definition getDataCallList (r : Radio) (serial : Z) : Return :=
  WRAP_V1_0_CALL r (IRadio.getDataCallList serial).

Definition setSuppServiceNotifications (r : Radio) (serial : Z) (enable : bool) : Return :=
  WRAP_V1_0_CALL r (IRadio.setSuppServiceNotifications serial enable).

Definition writeSmsToSim (r : Radio) (serial : Z) (smsWriteArgs : hidl V1_0_SmsWriteArgs) : Return :=
  WRAP_V1_0_CALL r (IRadio.writeSmsToSim serial smsWriteArgs).

Definition deleteSmsOnSim (r : Radio) (serial index : Z) : Return :=
  WRAP_V1_0_CALL r (IRadio.deleteSmsOnSim serial index).

Definition setBandMode (r : Radio) (serial mode : Z) : Return :=
  WRAP_V1_0_CALL r (IRadio.setBandMode serial mode).

Definition getAvailableBandModes (r : Radio) (serial : Z) : Return :=
  WRAP_V1_0_CALL r (IRadio.getAvailableBandModes serial).

Definition sendEnvelope (r : Radio) (serial : Z) (command : string) : Return :=
  WRAP_V1_0_CALL r (IRadio.sendEnvelope serial command).

Definition sendTerminalResponseToSim (r : Radio) (serial : Z) (commandResponse : string) : Return :=
  WRAP_V1_0_CALL r (IRadio.sendTerminalResponseToSim serial commandResponse).

Definition handleStkCallSetupRequestFromSim (r : Radio) (serial : Z) (accept : bool) : Return :=
  WRAP_V1_0_CALL r (IRadio.handleStkCallSetupRequestFromSim serial accept).

Definition explicitCallTransfer (r : Radio) (serial : Z) : Return :=
  WRAP_V1_0_CALL r (IRadio.explicitCallTransfer serial).

Definition setPreferredNetworkType (r : Radio) (serial : Z) (nwType : PreferredNetworkType) : Return :=
  WRAP_V1_0_CALL r (IRadio.setPreferredNetworkType serial nwType).

Definition getPreferredNetworkType (r : Radio) (serial : Z) : Return :=
  WRAP_V1_0_CALL r (IRadio.getPreferredNetworkType serial).

Definition getNeighboringCids (r : Radio) (serial : Z) : Return :=
  WRAP_V1_0_CALL r (IRadio.getNeighboringCids serial).

Definition setLocationUpdates (r : Radio) (serial : Z) (enable : bool) : Return :=
  WRAP_V1_0_CALL r (IRadio.setLocationUpdates serial enable).

Definition setCdmaSubscriptionSource (r : Radio) (serial cdmaSub : Z) : Return :=
  WRAP_V1_0_CALL r (IRadio.setCdmaSubscriptionSource serial cdmaSub).

Definition setCdmaRoamingPreference (r : Radio) (serial type : Z) : Return :=
  WRAP_V1_0_CALL r (IRadio.setCdmaRoamingPreference serial type).

Definition getCdmaRoamingPreference (r : Radio) (serial : Z) : Return :=
  WRAP_V1_0_CALL r (IRadio.getCdmaRoamingPreference serial).

Definition setTTYMode (r : Radio) (serial mode : Z) : Return :=
  WRAP_V1_0_CALL r (IRadio.setTTYMode serial mode).

Definition getTTYMode (r : Radio) (serial : Z) : Return :=
  WRAP_V1_0_CALL r (IRadio.getTTYMode serial).

Definition setPreferredVoicePrivacy (r : Radio) (serial : Z) (enable : bool) : Return :=
  WRAP_V1_0_CALL r (IRadio.setPreferredVoicePrivacy serial enable).

Definition getPreferredVoicePrivacy (r : Radio) (serial : Z) : Return :=
  WRAP_V1_0_CALL r (IRadio.getPreferredVoicePrivacy serial).

Definition sendCDMAFeatureCode (r : Radio) (serial : Z) (featureCode : string) : Return :=
  WRAP_V1_0_CALL r (IRadio.sendCDMAFeatureCode serial featureCode).

Definition sendBurstDtmf (r : Radio) (serial : Z) (dtmf : string) (on off : Z) : Return :=
  WRAP_V1_0_CALL r (IRadio.sendBurstDtmf serial dtmf on off).

Definition sendCdmaSms (r : Radio) (serial : Z) (sms : hidl V1_0_CdmaSmsMessage) : Return :=
  WRAP_V1_0_CALL r (IRadio.sendCdmaSms serial sms).

Definition acknowledgeLastIncomingCdmaSms (r : Radio) (serial : Z) (smsAck : hidl V1_0_CdmaSmsAck) : Return :=
  WRAP_V1_0_CALL r (IRadio.acknowledgeLastIncomingCdmaSms serial smsAck).

Definition getGsmBroadcastConfig (r : Radio) (serial : Z) : Return :=
  WRAP_V1_0_CALL r (IRadio.getGsmBroadcastConfig serial).

Definition setGsmBroadcastConfig (r : Radio) (serial : Z) (configInfo : list (hidl V1_0_GsmBroadcastSmsConfigInfo)) : Return :=
  WRAP_V1_0_CALL r (IRadio.setGsmBroadcastConfig serial configInfo).

Definition setGsmBroadcastActivation (r : Radio) (serial : Z) (activate : bool) : Return :=
  WRAP_V1_0_CALL r (IRadio.setGsmBroadcastActivation serial activate).

Definition getCdmaBroadcastConfig (r : Radio) (serial : Z) : Return :=
  WRAP_V1_0_CALL r (IRadio.getCdmaBroadcastConfig serial).

Definition setCdmaBroadcastConfig (r : Radio) (serial : Z) (configInfo : list (hidl V1_0_CdmaBroadcastSmsConfigInfo)) : Return :=
  WRAP_V1_0_CALL r (IRadio.setCdmaBroadcastConfig serial configInfo).

Definition setCdmaBroadcastActivation (r : Radio) (serial : Z) (activate : bool) : Return :=
  WRAP_V1_0_CALL r (IRadio.setCdmaBroadcastActivation serial activate).

Definition getCDMASubscription (r : Radio) (serial : Z) : Return :=
  WRAP_V1_0_CALL r (IRadio.getCDMASubscription serial).

Definition writeSmsToRuim (r : Radio) (serial : Z) (cdmaSms : hidl V1_0_CdmaSmsWriteArgs) : Return :=
  WRAP_V1_0_CALL r (IRadio.writeSmsToRuim serial cdmaSms).

Definition deleteSmsOnRuim (r : Radio) (serial index : Z) : Return :=
  WRAP_V1_0_CALL r (IRadio.deleteSmsOnRuim serial index).

Definition getDeviceIdentity (r : Radio) (serial : Z) : Return :=
  WRAP_V1_0_CALL r (IRadio.getDeviceIdentity serial).

Definition exitEmergencyCallbackMode (r : Radio) (serial : Z) : Return :=
  WRAP_V1_0_CALL r (IRadio.exitEmergencyCallbackMode serial).

Definition getSmscAddress (r : Radio) (serial : Z) : Return :=
  WRAP_V1_0_CALL r (IRadio.getSmscAddress serial).

Definition setSmscAddress (r : Radio) (serial : Z) (smsc : string) : Return :=
  WRAP_V1_0_CALL r (IRadio.setSmscAddress serial smsc).

Definition reportSmsMemoryStatus (r : Radio) (serial : Z) (available : bool) : Return :=
  WRAP_V1_0_CALL r (IRadio.reportSmsMemoryStatus serial available).

Definition reportStkServiceIsRunning (r : Radio) (serial : Z) : Return :=
  WRAP_V1_0_CALL r (IRadio.reportStkServiceIsRunning serial).

Definition getCdmaSubscriptionSource (r : Radio) (serial : Z) : Return :=
  WRAP_V1_0_CALL r (IRadio.getCdmaSubscriptionSource serial).

Definition requestIsimAuthentication (r : Radio) (serial : Z) (challenge : string) : Return :=
  WRAP_V1_0_CALL r (IRadio.requestIsimAuthentication serial challenge).

Definition acknowledgeIncomingGsmSmsWithPdu (r : Radio) (serial : Z) (success : bool) (ackPdu : string) : Return :=
  WRAP_V1_0_CALL r (IRadio.acknowledgeIncomingGsmSmsWithPdu serial success ackPdu).

Definition sendEnvelopeWithStatus (r : Radio) (serial : Z) (contents : string) : Return :=
  WRAP_V1_0_CALL r (IRadio.sendEnvelopeWithStatus serial contents).

Definition getVoiceRadioTechnology (r : Radio) (serial : Z) : Return :=
  WRAP_V1_0_CALL r (IRadio.getVoiceRadioTechnology serial).

Definition getCellInfoList (r : Radio) (serial : Z) : Return :=
  WRAP_V1_0_CALL r (IRadio.getCellInfoList serial).

Definition setCellInfoListRate (r : Radio) (serial rate : Z) : Return :=
  WRAP_V1_0_CALL r (IRadio.setCellInfoListRate serial rate).

Definition setInitialAttachApn (r : Radio) (serial : Z) (dataProfileInfo : V1_0_DataProfileInfo) (modemCognitive isRoaming : bool) : Return :=
  WRAP_V1_0_CALL r (IRadio.setInitialAttachApn serial dataProfileInfo modemCognitive isRoaming).

Definition getImsRegistrationState (r : Radio) (serial : Z) : Return :=
  WRAP_V1_0_CALL r (IRadio.getImsRegistrationState serial).

Definition sendImsSms (r : Radio) (serial : Z) (message : hidl V1_0_ImsSmsMessage) : Return :=
  WRAP_V1_0_CALL r (IRadio.sendImsSms serial message).

Definition iccTransmitApduBasicChannel (r : Radio) (serial : Z) (message : hidl V1_0_SimApdu) : Return :=
  WRAP_V1_0_CALL r (IRadio.iccTransmitApduBasicChannel serial message).

Definition iccOpenLogicalChannel (r : Radio) (serial : Z) (aid : string) (p2 : Z) : Return :=
  WRAP_V1_0_CALL r (IRadio.iccOpenLogicalChannel serial aid p2).

Definition iccCloseLogicalChannel (r : Radio) (serial channelId : Z) : Return :=
  WRAP_V1_0_CALL r (IRadio.iccCloseLogicalChannel serial channelId).

Definition iccTransmitApduLogicalChannel (r : Radio) (serial : Z) (message : hidl V1_0_SimApdu) : Return :=
  WRAP_V1_0_CALL r (IRadio.iccTransmitApduLogicalChannel serial message).

Definition nvReadItem (r : Radio) (serial itemId : Z) : Return :=
  WRAP_V1_0_CALL r (IRadio.nvReadItem serial itemId).

Definition nvWriteItem (r : Radio) (serial : Z) (item : hidl V1_0_NvWriteItem) : Return :=
  WRAP_V1_0_CALL r (IRadio.nvWriteItem serial item).

Definition nvWriteCdmaPrl (r : Radio) (serial : Z) (prl : list Z) : Return :=
  WRAP_V1_0_CALL r (IRadio.nvWriteCdmaPrl serial prl).

Definition nvResetConfig (r : Radio) (serial resetType : Z) : Return :=
  WRAP_V1_0_CALL r (IRadio.nvResetConfig serial resetType).

Definition setUiccSubscription (r : Radio) (serial : Z) (uiccSub : hidl V1_0_SelectUiccSub) : Return :=
  WRAP_V1_0_CALL r (IRadio.setUiccSubscription serial uiccSub).

Definition setDataAllowed (r : Radio) (serial : Z) (allow : bool) : Return :=
  WRAP_V1_0_CALL r (IRadio.setDataAllowed serial allow).

Definition getHardwareConfig (r : Radio) (serial : Z) : Return :=
  WRAP_V1_0_CALL r (IRadio.getHardwareConfig serial).

Definition requestIccSimAuthentication (r : Radio) (serial authContext : Z) (authData aid : string) : Return :=
  WRAP_V1_0_CALL r (IRadio.requestIccSimAuthentication serial authContext authData aid).

Definition setDataProfile (r : Radio) (serial : Z) (profiles : list V1_0_DataProfileInfo) (isRoaming : bool) : Return :=
  WRAP_V1_0_CALL r (IRadio.setDataProfile serial profiles isRoaming).

Definition requestShutdown (r : Radio) (serial : Z) : Return :=
  WRAP_V1_0_CALL r (IRadio.requestShutdown serial).

Definition getRadioCapability (r : Radio) (serial : Z) : Return :=
  WRAP_V1_0_CALL r (IRadio.getRadioCapability serial).

Definition setRadioCapability (r : Radio) (serial : Z) (rc : hidl V1_0_RadioCapability) : Return :=
  WRAP_V1_0_CALL r (IRadio.setRadioCapability serial rc).

Definition startLceService (r : Radio) (serial reportInterval : Z) (pullMode : bool) : Return :=
  WRAP_V1_0_CALL r (IRadio.startLceService serial reportInterval pullMode).

Definition stopLceService (r : Radio) (serial : Z) : Return :=
  WRAP_V1_0_CALL r (IRadio.stopLceService serial).

Definition pullLceData (r : Radio) (serial : Z) : Return :=
  WRAP_V1_0_CALL r (IRadio.pullLceData serial).

Definition getModemActivityInfo (r : Radio) (serial : Z) : Return :=
  WRAP_V1_0_CALL r (IRadio.getModemActivityInfo serial).

Definition setAllowedCarriers (r : Radio) (serial : Z) (allAllowed : bool) (carriers : V1_0_CarrierRestrictions) : Return :=
  WRAP_V1_0_CALL r (IRadio.setAllowedCarriers serial allAllowed carriers).

Definition getAllowedCarriers (r : Radio) (serial : Z) : Return :=
  WRAP_V1_0_CALL r (IRadio.getAllowedCarriers serial).

Definition sendDeviceState (r : Radio) (serial deviceStateType : Z) (state : bool) : Return :=
  WRAP_V1_0_CALL r (IRadio.sendDeviceState serial deviceStateType state).

Definition setIndicationFilter (r : Radio) (serial indicationFilter : Z) : Return :=
  WRAP_V1_0_CALL r (IRadio.setIndicationFilter serial indicationFilter).

Definition setSimCardPower (r : Radio) (serial : Z) (powerUp : bool) : Return :=
  WRAP_V1_0_CALL r (IRadio.setSimCardPower serial powerUp).

Definition responseAcknowledgement (r : Radio) : Return :=
  WRAP_V1_0_CALL r IRadio.responseAcknowledgement.

(** *** Methods of version 1.1 *)

Definition setCarrierInfoForImsiEncryption (r : Radio) (serial : Z) (imsiEncryptionInfo : hidl V1_1_ImsiEncryptionInfo) : Return :=
  MAYBE_WRAP_V1_1_CALL r (IRadio.setCarrierInfoForImsiEncryption serial imsiEncryptionInfo) Void.

Definition setSimCardPower_1_1 (r : Radio) (serial powerUp : Z) : Return :=
  MAYBE_WRAP_V1_1_CALL r (IRadio.setSimCardPower_1_1 serial powerUp)
  (if negb (powerUp =? POWER_UP_PASS_THROUGH) then WRAP_V1_0_CALL r (IRadio.setSimCardPower serial (negb (powerUp =? 0))) else Void).

Definition startNetworkScan (r : Radio) (serial : Z) (request : V1_1_NetworkScanRequest) : Return :=
  MAYBE_WRAP_V1_1_CALL r (IRadio.startNetworkScan serial request) Void.

Definition stopNetworkScan (r : Radio) (serial : Z) : Return :=
  MAYBE_WRAP_V1_1_CALL r (IRadio.stopNetworkScan serial) Void.

Definition startKeepalive (r : Radio) (serial : Z) (keepalive : hidl V1_1_KeepaliveRequest) : Return :=
  MAYBE_WRAP_V1_1_CALL r (IRadio.startKeepalive serial keepalive) Void.

Definition stopKeepalive (r : Radio) (serial sessionHandle : Z) : Return :=
  MAYBE_WRAP_V1_1_CALL r (IRadio.stopKeepalive serial sessionHandle) Void.

(** *** Methods of version 1.2 *)

Definition startNetworkScan_1_2 (r : Radio) (serial : Z) (request : V1_2_NetworkScanRequest) : Return :=
  MAYBE_WRAP_V1_2_CALL r (IRadio.startNetworkScan_1_2 serial request) Void.

Definition setIndicationFilter_1_2 (r : Radio) (serial indicationFilter : Z) : Return :=
  MAYBE_WRAP_V1_2_CALL r (IRadio.setIndicationFilter_1_2 serial indicationFilter)
  (WRAP_V1_0_CALL r (IRadio.setIndicationFilter serial (Z.land indicationFilter IndicationFilter_ALL))).

Definition setSignalStrengthReportingCriteria (r : Radio) (serial hysteresisMs hysteresisDb : Z) (thresholdsDbm : list Z) (accessNetwork : Z) : Return :=
  MAYBE_WRAP_V1_2_CALL r (IRadio.setSignalStrengthReportingCriteria serial hysteresisMs hysteresisDb thresholdsDbm accessNetwork) Void.

Definition setLinkCapacityReportingCriteria (r : Radio) (serial hysteresisMs hysteresisDlKbps hysteresisUlKbps : Z) (thresholdsDownlinkKbps thresholdsUplinkKbps : list Z) (accessNetwork : Z) : Return :=
  MAYBE_WRAP_V1_2_CALL r (IRadio.setLinkCapacityReportingCriteria serial hysteresisMs hysteresisDlKbps hysteresisUlKbps thresholdsDownlinkKbps thresholdsUplinkKbps accessNetwork) Void.

Definition setupDataCall_1_2 (r : Radio) (serial accessNetwork : Z) (dataProfileInfo : V1_0_DataProfileInfo) (modemCognitive roamingAllowed isRoaming : bool) (reason : Z) (addresses dnses : list string) : Return :=
  MAYBE_WRAP_V1_2_CALL r (IRadio.setupDataCall_1_2 serial accessNetwork dataProfileInfo modemCognitive roamingAllowed isRoaming reason addresses dnses) Void.

Definition deactivateDataCall_1_2 (r : Radio) (serial cid reason : Z) : Return :=
  MAYBE_WRAP_V1_2_CALL r (IRadio.deactivateDataCall_1_2 serial cid reason)
  (WRAP_V1_0_CALL r (IRadio.deactivateDataCall serial cid (reason =? REASON_SHUTDOWN))).

(** *** Methods of version 1.3 *)

Definition setSystemSelectionChannels (r : Radio) (serial : Z) (specifyChannels : bool) (specifiers : list (hidl V1_1_RadioAccessSpecifier)) : Return :=
  MAYBE_WRAP_V1_3_CALL r (IRadio.setSystemSelectionChannels serial specifyChannels specifiers) Void.

Definition enableModem (r : Radio) (serial : Z) (on : bool) : Return :=
  MAYBE_WRAP_V1_3_CALL r (IRadio.enableModem serial on) Void.

Definition getModemStackStatus (r : Radio) (serial : Z) : Return :=
  MAYBE_WRAP_V1_3_CALL r (IRadio.getModemStackStatus serial) Void.

(** *** Methods of version 1.4 *)

Definition setupDataCall_1_4 (r : Radio) (serial accessNetwork : Z) (dataProfileInfo : V1_4_DataProfileInfo) (roamingAllowed : bool) (reason : Z) (addresses dnses : list string) : Return :=
  MAYBE_WRAP_V1_4_CALL r (IRadio.setupDataCall_1_4 serial accessNetwork dataProfileInfo roamingAllowed reason addresses dnses)
  (MAYBE_WRAP_V1_2_CALL r (IRadio.setupDataCall_1_2 serial accessNetwork (Get1_0DataProfileInfo dataProfileInfo) (dp4_persistent dataProfileInfo)
                             roamingAllowed (mDataRoaming (mRadioResponse r)) reason addresses dnses)
  (WRAP_V1_0_CALL r (IRadio.setupDataCall serial (mRat (mRadioResponse r)) (Get1_0DataProfileInfo dataProfileInfo)
                       (dp4_persistent dataProfileInfo) roamingAllowed (mDataRoaming (mRadioResponse r))))).

Definition setInitialAttachApn_1_4 (r : Radio) (serial : Z) (dataProfileInfo : V1_4_DataProfileInfo) : Return :=
  MAYBE_WRAP_V1_4_CALL r (IRadio.setInitialAttachApn_1_4 serial dataProfileInfo)
  (WRAP_V1_0_CALL r (IRadio.setInitialAttachApn serial (Get1_0DataProfileInfo dataProfileInfo) (dp4_persistent dataProfileInfo)
                       (mDataRoaming (mRadioResponse r)))).

Definition setDataProfile_1_4 (r : Radio) (serial : Z) (profiles : list V1_4_DataProfileInfo) : Return :=
  MAYBE_WRAP_V1_4_CALL r (IRadio.setDataProfile_1_4 serial profiles)
  (let legacyProfiles := Get1_0DataProfileInfo <$> List.filter dp4_persistent profiles in
   if negb (Nat.eqb (length legacyProfiles) 0) then
     WRAP_V1_0_CALL r (IRadio.setDataProfile serial legacyProfiles (mDataRoaming (mRadioResponse r)))
   else Void).

Definition emergencyDial (r : Radio) (serial : Z) (dialInfo : hidl V1_0_Dial) (categories : Z) (urns : list string) (routing : Z) (hasKnownUserIntentEmergency isTesting : bool) : Return :=
  MAYBE_WRAP_V1_4_CALL r (IRadio.emergencyDial serial dialInfo categories urns routing hasKnownUserIntentEmergency isTesting) Void.

Definition startNetworkScan_1_4 (r : Radio) (serial : Z) (request : V1_2_NetworkScanRequest) : Return :=
  MAYBE_WRAP_V1_4_CALL r (IRadio.startNetworkScan_1_4 serial request)
  (MAYBE_WRAP_V1_2_CALL r (IRadio.startNetworkScan_1_2 serial request)
  (let legacyRequest := mkScan1 (ns2_type request) (ns2_interval request) (ns2_specifiers request) in
   MAYBE_WRAP_V1_1_CALL r (IRadio.startNetworkScan serial legacyRequest) Void)).

Definition getPreferredNetworkTypeBitmap (r : Radio) (serial : Z) : Return :=
  MAYBE_WRAP_V1_4_CALL r (IRadio.getPreferredNetworkTypeBitmap serial)
  (WRAP_V1_0_CALL r (IRadio.getPreferredNetworkType serial)).

Definition setPreferredNetworkTypeBitmap (r : Radio) (serial networkTypeBitmap : Z) : Return :=
  MAYBE_WRAP_V1_4_CALL r (IRadio.setPreferredNetworkTypeBitmap serial networkTypeBitmap)
  (WRAP_V1_0_CALL r (IRadio.setPreferredNetworkType serial (nwType_of (complete_families networkTypeBitmap)))).

Definition setAllowedCarriers_1_4 (r : Radio) (serial : Z) (carriers : V1_4_CarrierRestrictionsWithPriority) (multiSimPolicy : Z) : Return :=
  MAYBE_WRAP_V1_4_CALL r (IRadio.setAllowedCarriers_1_4 serial carriers multiSimPolicy)
  (let isAllCarriersAllowed := Nat.eqb (length (cr4_allowedCarriers carriers)) 0 && Nat.eqb (length (cr4_excludedCarriers carriers)) 0
                               && negb (cr4_allowedCarriersPrioritized carriers) in
   let supported := (isAllCarriersAllowed || (Nat.eqb (length (cr4_excludedCarriers carriers)) 0 && cr4_allowedCarriersPrioritized carriers))
                    && (multiSimPolicy =? NO_MULTISIM_POLICY) in
   if supported then
     let legacyCarriers := mkCarriers0 (cr4_allowedCarriers carriers) [] in
     WRAP_V1_0_CALL r (IRadio.setAllowedCarriers serial isAllCarriersAllowed legacyCarriers)
   else Void).

Definition getAllowedCarriers_1_4 (r : Radio) (serial : Z) : Return :=
  MAYBE_WRAP_V1_4_CALL r (IRadio.getAllowedCarriers_1_4 serial)
  (WRAP_V1_0_CALL r (IRadio.getAllowedCarriers serial)).

Definition getSignalStrength_1_4 (r : Radio) (serial : Z) : Return :=
  MAYBE_WRAP_V1_4_CALL r (IRadio.getSignalStrength_1_4 serial)
  (WRAP_V1_0_CALL r (IRadio.getSignalStrength serial)).

(** The virtual call of a client. *)
Definition receive_call (r : Radio) (c : IRadio.call) : Radio * Return :=
  match c with
  | IRadio.setResponseFunctions radioResponse radioIndication => setResponseFunctions r radioResponse radioIndication
  | IRadio.getIccCardStatus serial => (r, getIccCardStatus r serial)
  | IRadio.supplyIccPinForApp serial pin aid => (r, supplyIccPinForApp r serial pin aid)
  | IRadio.supplyIccPukForApp serial puk pin aid => (r, supplyIccPukForApp r serial puk pin aid)
  | IRadio.supplyIccPin2ForApp serial pin2 aid => (r, supplyIccPin2ForApp r serial pin2 aid)
  | IRadio.supplyIccPuk2ForApp serial puk2 pin2 aid => (r, supplyIccPuk2ForApp r serial puk2 pin2 aid)
  | IRadio.changeIccPinForApp serial oldPin newPin aid => (r, changeIccPinForApp r serial oldPin newPin aid)
  | IRadio.changeIccPin2ForApp serial oldPin2 newPin2 aid => (r, changeIccPin2ForApp r serial oldPin2 newPin2 aid)
  | IRadio.supplyNetworkDepersonalization serial netPin => (r, supplyNetworkDepersonalization r serial netPin)
  | IRadio.getCurrentCalls serial => (r, getCurrentCalls r serial)
  | IRadio.dial serial dialInfo => (r, dial r serial dialInfo)
  | IRadio.getImsiForApp serial aid => (r, getImsiForApp r serial aid)
  | IRadio.hangup serial gsmIndex => (r, hangup r serial gsmIndex)
  | IRadio.hangupWaitingOrBackground serial => (r, hangupWaitingOrBackground r serial)
  | IRadio.hangupForegroundResumeBackground serial => (r, hangupForegroundResumeBackground r serial)
  | IRadio.switchWaitingOrHoldingAndActive serial => (r, switchWaitingOrHoldingAndActive r serial)
  | IRadio.conference serial => (r, conference r serial)
  | IRadio.rejectCall serial => (r, rejectCall r serial)
  | IRadio.getLastCallFailCause serial => (r, getLastCallFailCause r serial)
  | IRadio.getSignalStrength serial => (r, getSignalStrength r serial)
  | IRadio.getVoiceRegistrationState serial => (r, getVoiceRegistrationState r serial)
  | IRadio.getDataRegistrationState serial => (r, getDataRegistrationState r serial)
  | IRadio.getOperator serial => (r, getOperator r serial)
  | IRadio.setRadioPower serial on => (r, setRadioPower r serial on)
  | IRadio.sendDtmf serial s => (r, sendDtmf r serial s)
  | IRadio.sendSms serial message => (r, sendSms r serial message)
  | IRadio.sendSMSExpectMore serial message => (r, sendSMSExpectMore r serial message)
  | IRadio.setupDataCall serial radioTechnology dataProfileInfo modemCognitive roamingAllowed isRoaming => (r, setupDataCall r serial radioTechnology dataProfileInfo modemCognitive roamingAllowed isRoaming)
  | IRadio.iccIOForApp serial iccIo => (r, iccIOForApp r serial iccIo)
  | IRadio.sendUssd serial ussd => (r, sendUssd r serial ussd)
  | IRadio.cancelPendingUssd serial => (r, cancelPendingUssd r serial)
  | IRadio.getClir serial => (r, getClir r serial)
  | IRadio.setClir serial status => (r, setClir r serial status)
  | IRadio.getCallForwardStatus serial callInfo => (r, getCallForwardStatus r serial callInfo)
  | IRadio.setCallForward serial callInfo => (r, setCallForward r serial callInfo)
  | IRadio.getCallWaiting serial serviceClass => (r, getCallWaiting r serial serviceClass)
  | IRadio.setCallWaiting serial enable serviceClass => (r, setCallWaiting r serial enable serviceClass)
  | IRadio.acknowledgeLastIncomingGsmSms serial success cause => (r, acknowledgeLastIncomingGsmSms r serial success cause)
  | IRadio.acceptCall serial => (r, acceptCall r serial)
  | IRadio.deactivateDataCall serial cid reasonRadioShutDown => (r, deactivateDataCall r serial cid reasonRadioShutDown)
  | IRadio.getFacilityLockForApp serial facility password serviceClass appId => (r, getFacilityLockForApp r serial facility password serviceClass appId)
  | IRadio.setFacilityLockForApp serial facility lockState password serviceClass appId => (r, setFacilityLockForApp r serial facility lockState password serviceClass appId)
  | IRadio.setBarringPassword serial facility oldPassword newPassword => (r, setBarringPassword r serial facility oldPassword newPassword)
  | IRadio.getNetworkSelectionMode serial => (r, getNetworkSelectionMode r serial)
  | IRadio.setNetworkSelectionModeAutomatic serial => (r, setNetworkSelectionModeAutomatic r serial)
  | IRadio.setNetworkSelectionModeManual serial operatorNumeric => (r, setNetworkSelectionModeManual r serial operatorNumeric)
  | IRadio.getAvailableNetworks serial => (r, getAvailableNetworks r serial)
  | IRadio.startDtmf serial s => (r, startDtmf r serial s)
  | IRadio.stopDtmf serial => (r, stopDtmf r serial)
  | IRadio.getBasebandVersion serial => (r, getBasebandVersion r serial)
  | IRadio.separateConnection serial gsmIndex => (r, separateConnection r serial gsmIndex)
  | IRadio.setMute serial enable => (r, setMute r serial enable)
  | IRadio.getMute serial => (r, getMute r serial)
  | IRadio.getClip serial => (r, getClip r serial)
  | IRadio.getDataCallList serial => (r, getDataCallList r serial)
  | IRadio.setSuppServiceNotifications serial enable => (r, setSuppServiceNotifications r serial enable)
  | IRadio.writeSmsToSim serial smsWriteArgs => (r, writeSmsToSim r serial smsWriteArgs)
  | IRadio.deleteSmsOnSim serial index => (r, deleteSmsOnSim r serial index)
  | IRadio.setBandMode serial mode => (r, setBandMode r serial mode)
  | IRadio.getAvailableBandModes serial => (r, getAvailableBandModes r serial)
  | IRadio.sendEnvelope serial command => (r, sendEnvelope r serial command)
  | IRadio.sendTerminalResponseToSim serial commandResponse => (r, sendTerminalResponseToSim r serial commandResponse)
  | IRadio.handleStkCallSetupRequestFromSim serial accept => (r, handleStkCallSetupRequestFromSim r serial accept)
  | IRadio.explicitCallTransfer serial => (r, explicitCallTransfer r serial)
  | IRadio.setPreferredNetworkType serial nwType => (r, setPreferredNetworkType r serial nwType)
  | IRadio.getPreferredNetworkType serial => (r, getPreferredNetworkType r serial)
  | IRadio.getNeighboringCids serial => (r, getNeighboringCids r serial)
  | IRadio.setLocationUpdates serial enable => (r, setLocationUpdates r serial enable)
  | IRadio.setCdmaSubscriptionSource serial cdmaSub => (r, setCdmaSubscriptionSource r serial cdmaSub)
  | IRadio.setCdmaRoamingPreference serial type => (r, setCdmaRoamingPreference r serial type)
  | IRadio.getCdmaRoamingPreference serial => (r, getCdmaRoamingPreference r serial)
  | IRadio.setTTYMode serial mode => (r, setTTYMode r serial mode)
  | IRadio.getTTYMode serial => (r, getTTYMode r serial)
  | IRadio.setPreferredVoicePrivacy serial enable => (r, setPreferredVoicePrivacy r serial enable)
  | IRadio.getPreferredVoicePrivacy serial => (r, getPreferredVoicePrivacy r serial)
  | IRadio.sendCDMAFeatureCode serial featureCode => (r, sendCDMAFeatureCode r serial featureCode)
  | IRadio.sendBurstDtmf serial dtmf on off => (r, sendBurstDtmf r serial dtmf on off)
  | IRadio.sendCdmaSms serial sms => (r, sendCdmaSms r serial sms)
  | IRadio.acknowledgeLastIncomingCdmaSms serial smsAck => (r, acknowledgeLastIncomingCdmaSms r serial smsAck)
  | IRadio.getGsmBroadcastConfig serial => (r, getGsmBroadcastConfig r serial)
  | IRadio.setGsmBroadcastConfig serial configInfo => (r, setGsmBroadcastConfig r serial configInfo)
  | IRadio.setGsmBroadcastActivation serial activate => (r, setGsmBroadcastActivation r serial activate)
  | IRadio.getCdmaBroadcastConfig serial => (r, getCdmaBroadcastConfig r serial)
  | IRadio.setCdmaBroadcastConfig serial configInfo => (r, setCdmaBroadcastConfig r serial configInfo)
  | IRadio.setCdmaBroadcastActivation serial activate => (r, setCdmaBroadcastActivation r serial activate)
  | IRadio.getCDMASubscription serial => (r, getCDMASubscription r serial)
  | IRadio.writeSmsToRuim serial cdmaSms => (r, writeSmsToRuim r serial cdmaSms)
  | IRadio.deleteSmsOnRuim serial index => (r, deleteSmsOnRuim r serial index)
  | IRadio.getDeviceIdentity serial => (r, getDeviceIdentity r serial)
  | IRadio.exitEmergencyCallbackMode serial => (r, exitEmergencyCallbackMode r serial)
  | IRadio.getSmscAddress serial => (r, getSmscAddress r serial)
  | IRadio.setSmscAddress serial smsc => (r, setSmscAddress r serial smsc)
  | IRadio.reportSmsMemoryStatus serial available => (r, reportSmsMemoryStatus r serial available)
  | IRadio.reportStkServiceIsRunning serial => (r, reportStkServiceIsRunning r serial)
  | IRadio.getCdmaSubscriptionSource serial => (r, getCdmaSubscriptionSource r serial)
  | IRadio.requestIsimAuthentication serial challenge => (r, requestIsimAuthentication r serial challenge)
  | IRadio.acknowledgeIncomingGsmSmsWithPdu serial success ackPdu => (r, acknowledgeIncomingGsmSmsWithPdu r serial success ackPdu)
  | IRadio.sendEnvelopeWithStatus serial contents => (r, sendEnvelopeWithStatus r serial contents)
  | IRadio.getVoiceRadioTechnology serial => (r, getVoiceRadioTechnology r serial)
  | IRadio.getCellInfoList serial => (r, getCellInfoList r serial)
  | IRadio.setCellInfoListRate serial rate => (r, setCellInfoListRate r serial rate)
  | IRadio.setInitialAttachApn serial dataProfileInfo modemCognitive isRoaming => (r, setInitialAttachApn r serial dataProfileInfo modemCognitive isRoaming)
  | IRadio.getImsRegistrationState serial => (r, getImsRegistrationState r serial)
  | IRadio.sendImsSms serial message => (r, sendImsSms r serial message)
  | IRadio.iccTransmitApduBasicChannel serial message => (r, iccTransmitApduBasicChannel r serial message)
  | IRadio.iccOpenLogicalChannel serial aid p2 => (r, iccOpenLogicalChannel r serial aid p2)
  | IRadio.iccCloseLogicalChannel serial channelId => (r, iccCloseLogicalChannel r serial channelId)
  | IRadio.iccTransmitApduLogicalChannel serial message => (r, iccTransmitApduLogicalChannel r serial message)
  | IRadio.nvReadItem serial itemId => (r, nvReadItem r serial itemId)
  | IRadio.nvWriteItem serial item => (r, nvWriteItem r serial item)
  | IRadio.nvWriteCdmaPrl serial prl => (r, nvWriteCdmaPrl r serial prl)
  | IRadio.nvResetConfig serial resetType => (r, nvResetConfig r serial resetType)
  | IRadio.setUiccSubscription serial uiccSub => (r, setUiccSubscription r serial uiccSub)
  | IRadio.setDataAllowed serial allow => (r, setDataAllowed r serial allow)
  | IRadio.getHardwareConfig serial => (r, getHardwareConfig r serial)
  | IRadio.requestIccSimAuthentication serial authContext authData aid => (r, requestIccSimAuthentication r serial authContext authData aid)
  | IRadio.setDataProfile serial profiles isRoaming => (r, setDataProfile r serial profiles isRoaming)
  | IRadio.requestShutdown serial => (r, requestShutdown r serial)
  | IRadio.getRadioCapability serial => (r, getRadioCapability r serial)
  | IRadio.setRadioCapability serial rc => (r, setRadioCapability r serial rc)
  | IRadio.startLceService serial reportInterval pullMode => (r, startLceService r serial reportInterval pullMode)
  | IRadio.stopLceService serial => (r, stopLceService r serial)
  | IRadio.pullLceData serial => (r, pullLceData r serial)
  | IRadio.getModemActivityInfo serial => (r, getModemActivityInfo r serial)
  | IRadio.setAllowedCarriers serial allAllowed carriers => (r, setAllowedCarriers r serial allAllowed carriers)
  | IRadio.getAllowedCarriers serial => (r, getAllowedCarriers r serial)
  | IRadio.sendDeviceState serial deviceStateType state => (r, sendDeviceState r serial deviceStateType state)
  | IRadio.setIndicationFilter serial indicationFilter => (r, setIndicationFilter r serial indicationFilter)
  | IRadio.setSimCardPower serial powerUp => (r, setSimCardPower r serial powerUp)
  | IRadio.responseAcknowledgement => (r, responseAcknowledgement r)
  | IRadio.setCarrierInfoForImsiEncryption serial imsiEncryptionInfo => (r, setCarrierInfoForImsiEncryption r serial imsiEncryptionInfo)
  | IRadio.setSimCardPower_1_1 serial powerUp => (r, setSimCardPower_1_1 r serial powerUp)
  | IRadio.startNetworkScan serial request => (r, startNetworkScan r serial request)
  | IRadio.stopNetworkScan serial => (r, stopNetworkScan r serial)
  | IRadio.startKeepalive serial keepalive => (r, startKeepalive r serial keepalive)
  | IRadio.stopKeepalive serial sessionHandle => (r, stopKeepalive r serial sessionHandle)
  | IRadio.startNetworkScan_1_2 serial request => (r, startNetworkScan_1_2 r serial request)
  | IRadio.setIndicationFilter_1_2 serial indicationFilter => (r, setIndicationFilter_1_2 r serial indicationFilter)
  | IRadio.setSignalStrengthReportingCriteria serial hysteresisMs hysteresisDb thresholdsDbm accessNetwork => (r, setSignalStrengthReportingCriteria r serial hysteresisMs hysteresisDb thresholdsDbm accessNetwork)
  | IRadio.setLinkCapacityReportingCriteria serial hysteresisMs hysteresisDlKbps hysteresisUlKbps thresholdsDownlinkKbps thresholdsUplinkKbps accessNetwork => (r, setLinkCapacityReportingCriteria r serial hysteresisMs hysteresisDlKbps hysteresisUlKbps thresholdsDownlinkKbps thresholdsUplinkKbps accessNetwork)
  | IRadio.setupDataCall_1_2 serial accessNetwork dataProfileInfo modemCognitive roamingAllowed isRoaming reason addresses dnses => (r, setupDataCall_1_2 r serial accessNetwork dataProfileInfo modemCognitive roamingAllowed isRoaming reason addresses dnses)
  | IRadio.deactivateDataCall_1_2 serial cid reason => (r, deactivateDataCall_1_2 r serial cid reason)
  | IRadio.setSystemSelectionChannels serial specifyChannels specifiers => (r, setSystemSelectionChannels r serial specifyChannels specifiers)
  | IRadio.enableModem serial on => (r, enableModem r serial on)
  | IRadio.getModemStackStatus serial => (r, getModemStackStatus r serial)
  | IRadio.setupDataCall_1_4 serial accessNetwork dataProfileInfo roamingAllowed reason addresses dnses => (r, setupDataCall_1_4 r serial accessNetwork dataProfileInfo roamingAllowed reason addresses dnses)
  | IRadio.setInitialAttachApn_1_4 serial dataProfileInfo => (r, setInitialAttachApn_1_4 r serial dataProfileInfo)
  | IRadio.setDataProfile_1_4 serial profiles => (r, setDataProfile_1_4 r serial profiles)
  | IRadio.emergencyDial serial dialInfo categories urns routing hasKnownUserIntentEmergency isTesting => (r, emergencyDial r serial dialInfo categories urns routing hasKnownUserIntentEmergency isTesting)
  | IRadio.startNetworkScan_1_4 serial request => (r, startNetworkScan_1_4 r serial request)
  | IRadio.getPreferredNetworkTypeBitmap serial => (r, getPreferredNetworkTypeBitmap r serial)
  | IRadio.setPreferredNetworkTypeBitmap serial networkTypeBitmap => (r, setPreferredNetworkTypeBitmap r serial networkTypeBitmap)
  | IRadio.setAllowedCarriers_1_4 serial carriers multiSimPolicy => (r, setAllowedCarriers_1_4 r serial carriers multiSimPolicy)
  | IRadio.getAllowedCarriers_1_4 serial => (r, getAllowedCarriers_1_4 r serial)
  | IRadio.getSignalStrength_1_4 serial => (r, getSignalStrength_1_4 r serial)
  end.

End Requests.
