(* ===== verification/RadioContent.v ===== *)
(** * What the messages of the radio wrapper carry

    The wrapper of [src/radio/1.4/legacy] replaces requests by older ones, and
    replies and indications by newer ones.  The relations of this file say,
    field by field, when such a message has the content of the one it stands
    for; the lemmas show that the conversions have it.  Nothing here calls the
    methods of the wrapper. *)

From Stdlib Require Import Ascii String.
From S2P Require Import Prelude Text RadioTypes RadioHelpers RadioInterface RadioResponse RadioIndication Radio.

Section Content.
Context `{HidlData} `{E : RadioEnums} `{HidlBinder}.

(** ** Structures *)

(** A profile of version 1.4 in version 1.0, which names protocols by a text. *)
Definition same_profile (p : V1_4_DataProfileInfo) (q : V1_0_DataProfileInfo) : Prop :=
  dp0_profileId q = dp4_profileId p /\ dp0_apn q = dp4_apn p /\
  dp0_protocol q = getProtocolStringFromInt (dp4_protocol p) /\ dp0_roamingProtocol q = getProtocolStringFromInt (dp4_roamingProtocol p) /\
  dp0_authType q = dp4_authType p /\ dp0_user q = dp4_user p /\ dp0_password q = dp4_password p /\ dp0_type q = dp4_type p /\
  dp0_maxConnsTime q = dp4_maxConnsTime p /\ dp0_maxConns q = dp4_maxConns p /\ dp0_waitTime q = dp4_waitTime p /\
  dp0_enabled q = dp4_enabled p /\ dp0_supportedApnTypesBitmap q = dp4_supportedApnTypesBitmap p /\
  dp0_bearerBitmap q = dp4_bearerBitmap p /\ dp0_mtu q = dp4_mtu p /\ dp0_mvnoType q = MvnoType_NONE.

Definition same_signal (s : V1_0_SignalStrength) (t : V1_4_SignalStrength) : Prop :=
  ss4_gsm t = ss0_gw s /\ ss4_cdma t = ss0_cdma s /\ ss4_evdo t = ss0_evdo s /\ ss4_lte t = ss0_lte s /\
  (25 <= td0_rscp (ss0_tdScdma s) <= 120 -> td2_rscp (ss4_tdscdma t) = 120 - td0_rscp (ss0_tdScdma s)).

Definition same_signal_2 (s : V1_2_SignalStrength) (t : V1_4_SignalStrength) : Prop :=
  ss4_gsm t = ss2_gsm s /\ ss4_cdma t = ss2_cdma s /\ ss4_evdo t = ss2_evdo s /\ ss4_lte t = ss2_lte s /\ ss4_wcdma t = ss2_wcdma s /\
  (25 <= td0_rscp (ss2_tdScdma s) <= 120 -> td2_rscp (ss4_tdscdma t) = 120 - td0_rscp (ss2_tdScdma s)).

(** Identities and cells of one technology, as the interface has them. *)
Definition one_identity (i : V1_0_CellIdentity) : Prop :=
  (length (cellIdentityGsm0 i) + length (cellIdentityWcdma0 i) + length (cellIdentityCdma0 i) + length (cellIdentityLte0 i) +
   length (cellIdentityTdscdma0 i) = 1)%nat.

Definition same_identity (i : V1_0_CellIdentity) (j : V1_2_CellIdentity) : Prop :=
  idg2_base <$> cellIdentityGsm2 j = cellIdentityGsm0 i /\ idw2_base <$> cellIdentityWcdma2 j = cellIdentityWcdma0 i /\
  idc2_base <$> cellIdentityCdma2 j = cellIdentityCdma0 i /\ idl2_base <$> cellIdentityLte2 j = cellIdentityLte0 i /\
  idt2_base <$> cellIdentityTdscdma2 j = cellIdentityTdscdma0 i.

Definition one_cell (c : V1_0_CellInfo) : Prop :=
  (length (ci0_gsm c) + length (ci0_cdma c) + length (ci0_lte c) + length (ci0_wcdma c) + length (ci0_tdscdma c) = 1)%nat.

Definition same_cell (c : V1_0_CellInfo) (d : V1_4_CellInfo) : Prop :=
  ci4_isRegistered d = ci0_registered c /\
  (one_cell c ->
   match ci4_info d with
   | Info_gsm i => ci0_gsm c = [mkGsm0 (idg2_base (gsm2_identity i)) (gsm2_signal i)]
   | Info_cdma i => ci0_cdma c = [mkCdma0 (idc2_base (cdma2_identity i)) (cdma2_signal i) (cdma2_evdo i)]
   | Info_lte i => ci0_lte c = [mkLte0 (idl2_base (lte2_identity (lte4_base i))) (lte2_signal (lte4_base i))]
   | Info_wcdma i => ci0_wcdma c = [mkWcdma0 (idw2_base (wcdma2_identity i)) (ws2_base (wcdma2_signal i))]
   | Info_tdscdma i =>
       exists t, ci0_tdscdma c = [t] /\ idt2_base (tdscdma2_identity i) = tdscdma0_identity t /\
         (25 <= td0_rscp (tdscdma0_signal t) <= 120 -> td2_rscp (tdscdma2_signal i) = 120 - td0_rscp (tdscdma0_signal t))
   | Info_nr _ => False
   end).

Definition one_cell_2 (c : V1_2_CellInfo) : Prop :=
  (length (ci2_gsm c) + length (ci2_cdma c) + length (ci2_lte c) + length (ci2_wcdma c) + length (ci2_tdscdma c) = 1)%nat.

Definition same_cell_2 (c : V1_2_CellInfo) (d : V1_4_CellInfo) : Prop :=
  ci4_isRegistered d = ci2_registered c /\ ci4_connectionStatus d = ci2_connectionStatus c /\
  (one_cell_2 c ->
   match ci4_info d with
   | Info_gsm i => ci2_gsm c = [i]
   | Info_cdma i => ci2_cdma c = [i]
   | Info_lte i => ci2_lte c = [lte4_base i]
   | Info_wcdma i => ci2_wcdma c = [i]
   | Info_tdscdma i => ci2_tdscdma c = [i]
   | Info_nr _ => False
   end).

Definition same_data_call (d : V1_0_SetupDataCallResult) (e : V1_4_SetupDataCallResult) : Prop :=
  dc4_cause e = dc0_status d /\ dc4_suggestedRetryTime e = dc0_suggestedRetryTime d /\ dc4_cid e = dc0_cid d /\ dc4_active e = dc0_active d /\
  dc4_type e = protocol_of_text (dc0_type d) /\ dc4_ifname e = dc0_ifname d /\ dc4_addresses e = DelimitedStrToVec (dc0_addresses d) /\
  dc4_dnses e = DelimitedStrToVec (dc0_dnses d) /\ dc4_gateways e = DelimitedStrToVec (dc0_gateways d) /\
  dc4_pcscf e = DelimitedStrToVec (dc0_pcscf d) /\ dc4_mtu e = dc0_mtu d.

(** ** Requests

    [rat] and [roaming] are what is known of the data connection, which the
    newer requests lack. *)
Definition carries_request (rat : Z) (roaming : bool) (c c' : IRadio.call) : Prop :=
  c' = c \/
  match c, c' with
  | IRadio.setResponseFunctions _ _, IRadio.setResponseFunctions (Some _) (Some _) => True
  | IRadio.setSimCardPower_1_1 n state, IRadio.setSimCardPower n' up => n' = n /\ state <> POWER_UP_PASS_THROUGH /\ (up = true <-> state <> 0)
  | IRadio.setIndicationFilter_1_2 n f, IRadio.setIndicationFilter n' g =>
      n' = n /\ forall i, 0 <= i -> Z.testbit g i = Z.testbit f i && Z.testbit IndicationFilter_ALL i
  | IRadio.deactivateDataCall_1_2 n cid reason, IRadio.deactivateDataCall n' cid' shutdown =>
      n' = n /\ cid' = cid /\ (shutdown = true <-> reason = REASON_SHUTDOWN)
  | IRadio.setupDataCall_1_4 n network p allowed reason addresses dnses, IRadio.setupDataCall_1_2 n' network' q cognitive allowed' roaming' reason' addresses' dnses' =>
      n' = n /\ network' = network /\ same_profile p q /\ cognitive = dp4_persistent p /\ allowed' = allowed /\ roaming' = roaming /\
      reason' = reason /\ addresses' = addresses /\ dnses' = dnses
  | IRadio.setupDataCall_1_4 n _ p allowed _ _ _, IRadio.setupDataCall n' rat' q cognitive allowed' roaming' =>
      n' = n /\ rat' = rat /\ same_profile p q /\ cognitive = dp4_persistent p /\ allowed' = allowed /\ roaming' = roaming
  | IRadio.setInitialAttachApn_1_4 n p, IRadio.setInitialAttachApn n' q cognitive roaming' =>
      n' = n /\ same_profile p q /\ cognitive = dp4_persistent p /\ roaming' = roaming
  | IRadio.setDataProfile_1_4 n ps, IRadio.setDataProfile n' qs roaming' =>
      n' = n /\ qs <> [] /\ Forall2 same_profile (List.filter dp4_persistent ps) qs /\ roaming' = roaming
  | IRadio.startNetworkScan_1_4 n s, IRadio.startNetworkScan_1_2 n' s' => n' = n /\ s' = s
  | IRadio.startNetworkScan_1_4 n s, IRadio.startNetworkScan n' s' =>
      n' = n /\ ns1_type s' = ns2_type s /\ ns1_interval s' = ns2_interval s /\ ns1_specifiers s' = ns2_specifiers s
  | IRadio.getPreferredNetworkTypeBitmap n, IRadio.getPreferredNetworkType n' => n' = n
  | IRadio.setPreferredNetworkTypeBitmap n b, IRadio.setPreferredNetworkType n' t => n' = n /\ t = nwType_of (complete_families b)
  | IRadio.setAllowedCarriers_1_4 n l policy, IRadio.setAllowedCarriers n' all l' =>
      n' = n /\ policy = NO_MULTISIM_POLICY /\ cr4_excludedCarriers l = [] /\ cr0_excludedCarriers l' = [] /\
      cr0_allowedCarriers l' = cr4_allowedCarriers l /\ all = negb (cr4_allowedCarriersPrioritized l)
  | IRadio.getAllowedCarriers_1_4 n, IRadio.getAllowedCarriers n' => n' = n
  | IRadio.getSignalStrength_1_4 n, IRadio.getSignalStrength n' => n' = n
  | _, _ => False
  end.

(** ** Replies *)

(** Replies of which version 1.4 has a newer form. *)
Definition superseded (p : IRadioResponse.reply) : bool :=
  match p with
  | IRadioResponse.getIccCardStatusResponse _ _ | IRadioResponse.getIccCardStatusResponse_1_2 _ _ | IRadioResponse.getCurrentCallsResponse _ _
  | IRadioResponse.getSignalStrengthResponse _ _ | IRadioResponse.getSignalStrengthResponse_1_2 _ _
  | IRadioResponse.getVoiceRegistrationStateResponse _ _ | IRadioResponse.getDataRegistrationStateResponse _ _
  | IRadioResponse.getDataRegistrationStateResponse_1_2 _ _ | IRadioResponse.setupDataCallResponse _ _
  | IRadioResponse.getDataCallListResponse _ _ | IRadioResponse.getCellInfoListResponse _ _ | IRadioResponse.getCellInfoListResponse_1_2 _ _
  | IRadioResponse.setAllowedCarriersResponse _ _ | IRadioResponse.getAllowedCarriersResponse _ _ _ | IRadioResponse.setSimCardPowerResponse _
  | IRadioResponse.startNetworkScanResponse _ | IRadioResponse.getPreferredNetworkTypeResponse _ _
  | IRadioResponse.setPreferredNetworkTypeResponse _ => true
  | _ => false
  end.

(** A reply in its newest form; one that has no newer form is the same. *)
Definition carries_reply (q q' : IRadioResponse.reply) : Prop :=
  match q, q' with
  | IRadioResponse.getIccCardStatusResponse i c, IRadioResponse.getIccCardStatusResponse_1_4 i' c' => i' = i /\ cs2_base (cs4_base c') = c
  | IRadioResponse.getIccCardStatusResponse_1_2 i c, IRadioResponse.getIccCardStatusResponse_1_4 i' c' => i' = i /\ cs4_base c' = c
  | IRadioResponse.getCurrentCallsResponse i l, IRadioResponse.getCurrentCallsResponse_1_2 i' l' => i' = i /\ call2_base <$> l' = l
  | IRadioResponse.getSignalStrengthResponse i s, IRadioResponse.getSignalStrengthResponse_1_4 i' s' => i' = i /\ same_signal s s'
  | IRadioResponse.getSignalStrengthResponse_1_2 i s, IRadioResponse.getSignalStrengthResponse_1_4 i' s' => i' = i /\ same_signal_2 s s'
  | IRadioResponse.getVoiceRegistrationStateResponse i v, IRadioResponse.getVoiceRegistrationStateResponse_1_2 i' w =>
      i' = i /\ vr2_regState w = vr0_regState v /\ vr2_rat w = vr0_rat v /\ vr2_cssSupported w = vr0_cssSupported v /\
      vr2_roamingIndicator w = vr0_roamingIndicator v /\ vr2_systemIsInPrl w = vr0_systemIsInPrl v /\
      vr2_defaultRoamingIndicator w = vr0_defaultRoamingIndicator v /\ vr2_reasonForDenial w = vr0_reasonForDenial v /\
      (one_identity (vr0_cellIdentity v) -> same_identity (vr0_cellIdentity v) (vr2_cellIdentity w))
  | IRadioResponse.getDataRegistrationStateResponse i d, IRadioResponse.getDataRegistrationStateResponse_1_4 i' e =>
      i' = i /\ dr2_regState (dr4_base e) = dr0_regState d /\ dr2_rat (dr4_base e) = dr0_rat d /\
      dr2_reasonDataDenied (dr4_base e) = dr0_reasonDataDenied d /\ dr2_maxDataCalls (dr4_base e) = dr0_maxDataCalls d /\
      (one_identity (dr0_cellIdentity d) -> same_identity (dr0_cellIdentity d) (dr2_cellIdentity (dr4_base e)))
  | IRadioResponse.getDataRegistrationStateResponse_1_2 i d, IRadioResponse.getDataRegistrationStateResponse_1_4 i' e => i' = i /\ dr4_base e = d
  | IRadioResponse.setupDataCallResponse i d, IRadioResponse.setupDataCallResponse_1_4 i' e => i' = i /\ same_data_call d e
  | IRadioResponse.getDataCallListResponse i l, IRadioResponse.getDataCallListResponse_1_4 i' l' => i' = i /\ Forall2 same_data_call l l'
  | IRadioResponse.getCellInfoListResponse i l, IRadioResponse.getCellInfoListResponse_1_4 i' l' => i' = i /\ Forall2 same_cell l l'
  | IRadioResponse.getCellInfoListResponse_1_2 i l, IRadioResponse.getCellInfoListResponse_1_4 i' l' => i' = i /\ Forall2 same_cell_2 l l'
  | IRadioResponse.setAllowedCarriersResponse i _, IRadioResponse.setAllowedCarriersResponse_1_4 i' => i' = i
  | IRadioResponse.getAllowedCarriersResponse i all l, IRadioResponse.getAllowedCarriersResponse_1_4 i' l' policy =>
      i' = i /\ policy = NO_MULTISIM_POLICY /\ cr4_allowedCarriersPrioritized l' = negb all /\
      cr4_allowedCarriers l' = (if all then [] else cr0_allowedCarriers l) /\
      cr4_excludedCarriers l' = (if all then [] else cr0_excludedCarriers l)
  | IRadioResponse.setSimCardPowerResponse i, IRadioResponse.setSimCardPowerResponse_1_1 i' => i' = i
  | IRadioResponse.startNetworkScanResponse i, IRadioResponse.startNetworkScanResponse_1_4 i' => i' = i
  | IRadioResponse.getPreferredNetworkTypeResponse i t, IRadioResponse.getPreferredNetworkTypeBitmapResponse i' b => i' = i /\ b = nwTypeBitmap t
  | IRadioResponse.setPreferredNetworkTypeResponse i, IRadioResponse.setPreferredNetworkTypeBitmapResponse i' => i' = i
  | q, q' => superseded q = false /\ q' = q
  end.

(** ** Indications *)

Definition carries_indication (i i' : IRadioIndication.indication) : Prop :=
  match i, i' with
  | IRadioIndication.currentSignalStrength t s, IRadioIndication.currentSignalStrength_1_4 t' s' => t' = t /\ same_signal s s'
  | IRadioIndication.currentSignalStrength_1_2 t s, IRadioIndication.currentSignalStrength_1_4 t' s' => t' = t /\ same_signal_2 s s'
  | IRadioIndication.dataCallListChanged t l, IRadioIndication.dataCallListChanged_1_4 t' l' => t' = t /\ Forall2 same_data_call l l'
  | IRadioIndication.cellInfoList t l, IRadioIndication.cellInfoList_1_4 t' l' => t' = t /\ Forall2 same_cell l l'
  | IRadioIndication.cellInfoList_1_2 t l, IRadioIndication.cellInfoList_1_4 t' l' => t' = t /\ Forall2 same_cell_2 l l'
  | IRadioIndication.networkScanResult t n, IRadioIndication.networkScanResult_1_4 t' n' =>
      t' = t /\ nr4_status n' = nr1_status n /\ nr4_error n' = nr1_error n /\ Forall2 same_cell (nr1_networkInfos n) (nr4_networkInfos n')
  | IRadioIndication.networkScanResult_1_2 t n, IRadioIndication.networkScanResult_1_4 t' n' =>
      t' = t /\ nr4_status n' = nr2_status n /\ nr4_error n' = nr2_error n /\ Forall2 same_cell_2 (nr2_networkInfos n) (nr4_networkInfos n')
  | IRadioIndication.currentPhysicalChannelConfigs t l, IRadioIndication.currentPhysicalChannelConfigs_1_4 t' l' => t' = t /\ pc4_base <$> l' = l
  | i, i' => i' = i
  end.

(** ** The conversions *)

Lemma profile_kept (p : V1_4_DataProfileInfo) : same_profile p (Get1_0DataProfileInfo p).
Proof. by split_and!. Qed.

Lemma profiles_kept (ps : list V1_4_DataProfileInfo) : Forall2 same_profile ps (Get1_0DataProfileInfo <$> ps).
Proof. induction ps; cbn; constructor; [apply profile_kept | done]. Qed.

Lemma signal_kept (s : V1_0_SignalStrength) : same_signal s (Create1_4SignalStrength s).
Proof. split_and!; try done. intros Hr. by apply (rscp_conversion (td0_rscp (ss0_tdScdma s))). Qed.

Lemma signal_2_kept (s : V1_2_SignalStrength) : same_signal_2 s (Create1_4SignalStrength_2 s).
Proof. split_and!; try done. intros Hr. by apply (rscp_conversion (td0_rscp (ss2_tdScdma s))). Qed.

Lemma data_call_kept (d : V1_0_SetupDataCallResult) : same_data_call d (Create1_4SetupDataCallResult d).
Proof. by split_and!. Qed.

Lemma data_calls_kept (l : list V1_0_SetupDataCallResult) : Forall2 same_data_call l (Create1_4SetupDataCallResult <$> l).
Proof. induction l; cbn; constructor; [apply data_call_kept | done]. Qed.

Lemma identity_kept (i : V1_0_CellIdentity) : one_identity i -> same_identity i (Init1_2CellIdentity i identity2_zero).
Proof.
  destruct i as [t g w c l d]. unfold one_identity, same_identity, Init1_2CellIdentity. cbn. intros Hlen.
  destruct g as [| ? [|]], w as [| ? [|]], c as [| ? [|]], l as [| ? [|]], d as [| ? [|]]; cbn in Hlen; try lia; by split_and!.
Qed.

Lemma cell_kept (c : V1_0_CellInfo) : same_cell c (Create1_4CellInfo c).
Proof.
  destruct c as [ct reg tt ts g d l w t]. split; [done |]. unfold one_cell. cbn. intros Hlen.
  destruct g as [| [] [|]], d as [| [] [|]], l as [| [] [|]], w as [| [] [|]], t as [| [] [|]]; cbn in Hlen; try lia; try done.
  eexists. split_and!; [reflexivity | done |]. cbn. intros Hr. by apply rscp_conversion.
Qed.

Lemma cells_kept (l : list V1_0_CellInfo) : Forall2 same_cell l (Create1_4CellInfoList l).
Proof. induction l; cbn; constructor; [apply cell_kept | done]. Qed.

Lemma cell_2_kept (c : V1_2_CellInfo) : same_cell_2 c (Create1_4CellInfo_2 c).
Proof.
  destruct c as [ct reg tt ts g d l w t cs]. split_and!; [done | done |]. unfold one_cell_2. cbn. intros Hlen.
  destruct g as [| ? [|]], d as [| ? [|]], l as [| ? [|]], w as [| ? [|]], t as [| ? [|]]; cbn in Hlen; try lia; done.
Qed.

Lemma cells_2_kept (l : list V1_2_CellInfo) : Forall2 same_cell_2 l (Create1_4CellInfoList_2 l).
Proof. induction l; cbn; constructor; [apply cell_2_kept | done]. Qed.

Lemma bases_kept {A B : Type} (base : B -> A) (f : A -> B) (l : list A) : (forall x, base (f x) = x) -> base <$> (f <$> l) = l.
Proof. intros Hf. induction l as [| x l IH]; cbn; [done |]. by rewrite Hf, IH. Qed.

End Content.

(** The conversions, for proofs about the methods that use them. *)
Create HintDb radio.
#[export] Hint Resolve profile_kept profiles_kept signal_kept signal_2_kept data_call_kept data_calls_kept identity_kept
  cells_kept cells_2_kept : radio.
