(* ===== verification/RadioWrapper.v ===== *)
(** * The radio wrapper as a whole

    The service in front of a real radio ([src/radio/1.4/legacy]): clients call
    [Radio], the real radio answers through [RadioResponse] and reports
    through [RadioIndication].  [wrapper_run] is a history of such messages.
    The theorems show what reaches the real radio for each request, that a
    reply to the request the wrapper made of it is delivered as the reply to
    the client's own request, that nothing is lost between the real radio and
    the client, and what a preferred network type, a data profile and a list of
    carriers become. *)

From Stdlib Require Import Ascii String.
From S2P Require Import Prelude Text RadioTypes RadioHelpers RadioInterface RadioResponse RadioIndication Radio RadioContent.

(** ** Requests *)

(** The method behind a virtual call, with its macros opened. *)
Ltac head_of t := lazymatch t with ?f _ => head_of f | _ => t end.
Ltac open_method :=
  lazymatch goal with
  | |- ?m = _ => let h := head_of m in unfold h
  | |- _ _ _ ?m => let h := head_of m in unfold h
  end;
  unfold MAYBE_WRAP_V1_1_CALL, MAYBE_WRAP_V1_2_CALL, MAYBE_WRAP_V1_3_CALL, MAYBE_WRAP_V1_4_CALL, WRAP_V1_0_CALL,
    getRealRadio_V1_1, getRealRadio_V1_2, getRealRadio_V1_3, getRealRadio_V1_4.
Ltac open_method_in Hs :=
  match type of Hs with ?m = _ => let h := head_of m in unfold h in Hs end;
  unfold MAYBE_WRAP_V1_1_CALL, MAYBE_WRAP_V1_2_CALL, MAYBE_WRAP_V1_3_CALL, MAYBE_WRAP_V1_4_CALL, WRAP_V1_0_CALL, to_client, to_indication in Hs.

Section Wrapped.
Context `{HidlData} `{E : RadioEnums} `{HidlBinder}.

(** The real radio as an implementation of an interface. *)
Definition implementation (r : Radio) (v : Version) : option Z :=
  match v with
  | V1_0 => mRealRadio r
  | v => castFrom (castFrom_IRadio v) (mRealRadio r)
  end.

(** Requests the wrapper cannot express by older ones. *)
Definition inexpressible (r : Radio) (c : IRadio.call) : bool :=
  match c with
  | IRadio.setCarrierInfoForImsiEncryption _ _ | IRadio.startNetworkScan _ _ | IRadio.stopNetworkScan _ | IRadio.startKeepalive _ _
  | IRadio.stopKeepalive _ _ | IRadio.startNetworkScan_1_2 _ _ | IRadio.setSignalStrengthReportingCriteria _ _ _ _ _
  | IRadio.setLinkCapacityReportingCriteria _ _ _ _ _ _ _ | IRadio.setupDataCall_1_2 _ _ _ _ _ _ _ _ _
  | IRadio.setSystemSelectionChannels _ _ _ | IRadio.enableModem _ _ | IRadio.getModemStackStatus _ | IRadio.emergencyDial _ _ _ _ _ _ _ => true
  | IRadio.startNetworkScan_1_4 _ _ => bool_decide (implementation r V1_2 = None) && bool_decide (implementation r V1_1 = None)
  | IRadio.setSimCardPower_1_1 _ state => state =? POWER_UP_PASS_THROUGH
  | IRadio.setDataProfile_1_4 _ profiles => forallb (fun p => negb (dp4_persistent p)) profiles
  | IRadio.setAllowedCarriers_1_4 _ l policy =>
      negb (policy =? NO_MULTISIM_POLICY) || match cr4_excludedCarriers l with [] => false | _ => true end
      || (negb (cr4_allowedCarriersPrioritized l) && match cr4_allowedCarriers l with [] => false | _ => true end)
  | _ => false
  end.

(** Requests that get no answer: those of a version the real radio lacks, and
    that older requests do not express. *)
Definition dropped (r : Radio) (c : IRadio.call) : bool :=
  bool_decide (implementation r (IRadio.version_of c) = None) && inexpressible r c.

Definition registers (c : IRadio.call) : bool :=
  match c with IRadio.setResponseFunctions _ _ => true | _ => false end.

Definition version_num (v : Version) : Z := match v with V1_0 => 0 | V1_1 => 1 | V1_2 => 2 | V1_3 => 3 | V1_4 => 4 end.

Lemma filter_persistent_nil (l : list V1_4_DataProfileInfo) :
  Nat.eqb (length (Get1_0DataProfileInfo <$> List.filter dp4_persistent l)) 0 = forallb (fun p => negb (dp4_persistent p)) l.
Proof. rewrite length_fmap. induction l as [| p l IH]; [done |]. simpl. by destruct (dp4_persistent p). Qed.

(** A request of a version the real radio implements. *)
Lemma call_transparent (r : Radio) (c : IRadio.call) (p : Z) :
  registers c = false -> implementation r (IRadio.version_of c) = Some p -> receive_call r c = (r, Sent p (IRadio.version_of c) c).
Proof.
  intros Hc Hi. destruct c; try done; cbn [receive_call IRadio.version_of implementation] in Hi |- *; f_equal; open_method; by rewrite Hi.
Qed.

(** Any other request: an older one with the same serial number, to an
    interface the real radio has. *)
Definition passed_down (r : Radio) (c : IRadio.call) (x : Return) : Prop :=
  exists p c', x = Sent p (IRadio.version_of c') c' /\ implementation r (IRadio.version_of c') = Some p /\
    IRadio.serial_of c' = IRadio.serial_of c /\ version_num (IRadio.version_of c') < version_num (IRadio.version_of c).

Lemma down_intro (r : Radio) (c c' : IRadio.call) (p : Z) (v : Version) :
  IRadio.version_of c' = v -> implementation r v = Some p -> IRadio.serial_of c' = IRadio.serial_of c ->
  version_num v < version_num (IRadio.version_of c) -> passed_down r c (Sent p v c').
Proof. intros <- ? ? ?. by exists p, c'. Qed.

Ltac down :=
  eapply down_intro;
  [reflexivity | cbn [implementation]; match goal with Er : mRealRadio _ = _ |- _ => by rewrite Er end | reflexivity | done].

Lemma call_translated (r : Radio) (c : IRadio.call) :
  implementation r (IRadio.version_of c) = None -> mRealRadio r <> None -> inexpressible r c = false -> passed_down r c (receive_call r c).2.
Proof.
  intros Hi Hr Hx. destruct (mRealRadio r) as [p |] eqn:Er; [| done].
  destruct c; cbn [IRadio.version_of implementation] in Hi; try congruence; try done; cbn [receive_call snd]; cbn [inexpressible] in Hx;
    open_method; unfold implementation in Hx; rewrite ?Er in *; rewrite ?Hi; try down.
  - rewrite Hx. down.
  - destruct (castFrom (castFrom_IRadio V1_2) (Some p)) eqn:E2; down.
  - rewrite filter_persistent_nil, Hx. down.
  - destruct (castFrom (castFrom_IRadio V1_2) (Some p)) eqn:E2; [down |].
    destruct (castFrom (castFrom_IRadio V1_1) (Some p)) eqn:E1; [down |]. done.
  - destruct carriers as [[| x l] [| y k] []]; cbn in Hx |- *; destruct (multiSimPolicy =? NO_MULTISIM_POLICY); try done; down.
Qed.

(** A request that no interface of the real radio takes. *)
Lemma call_dropped (r : Radio) (c : IRadio.call) : dropped r c = true -> receive_call r c = (r, Void).
Proof.
  unfold dropped. intros [Hi%bool_decide_eq_true Hx]%andb_true_iff.
  destruct c; try done; cbn [receive_call]; f_equal; cbn [inexpressible] in Hx; cbn [IRadio.version_of implementation] in Hi;
    open_method; rewrite ?Hi; try done.
  - by rewrite Hx.
  - by rewrite filter_persistent_nil, Hx.
  - cbn [implementation] in Hx. apply andb_true_iff in Hx as [H2%bool_decide_eq_true H1%bool_decide_eq_true]. by rewrite H2, H1.
  - destruct carriers as [[| x l] [| y k] []]; cbn in Hx |- *; by destruct (multiSimPolicy =? NO_MULTISIM_POLICY).
Qed.

(** Without a real radio every request that is not dropped is refused. *)
Lemma call_refused (r : Radio) (c : IRadio.call) :
  mRealRadio r = None -> dropped r c = false -> (receive_call r c).2 = EX_ILLEGAL_STATE.
Proof.
  intros Er Hd. assert (forall v, implementation r v = None) as Hi by (intros []; cbn [implementation]; by rewrite Er).
  unfold dropped in Hd. rewrite bool_decide_true in Hd by apply Hi. simpl in Hd.
  destruct c; cbn [receive_call snd]; cbn [inexpressible] in Hd; try done; rewrite ?Hi in Hd; try done;
    open_method; cbn; rewrite ?Er; try done.
  - by rewrite Hd.
  - by rewrite filter_persistent_nil, Hd.
  - destruct carriers as [[| x l] [| y k] []]; cbn in Hd |- *; by destruct (multiSimPolicy =? NO_MULTISIM_POLICY).
Qed.

(** Only registering changes the service. *)
Lemma call_state (r : Radio) (c : IRadio.call) : registers c = false -> (receive_call r c).1 = r.
Proof. by destruct c. Qed.

Lemma implementation_real (r : Radio) v p : implementation r v = Some p -> mRealRadio r = Some p.
Proof.
  destruct v; cbn [implementation]; [done | | | |]; unfold castFrom; destruct (mRealRadio r) as [x |]; try done; case_match; naive_solver.
Qed.

(** What is sent goes to the real radio, through an interface that it has and
    that declares the request, with the serial number of the client. *)
Lemma call_sent (r : Radio) (c : IRadio.call) p v c' :
  (receive_call r c).2 = Sent p v c' ->
  mRealRadio r = Some p /\ implementation r v = Some p /\ IRadio.version_of c' = v /\ IRadio.serial_of c' = IRadio.serial_of c /\
  version_num v <= version_num (IRadio.version_of c).
Proof.
  intros Hs. destruct (registers c) eqn:Hc.
  { destruct c; try done. cbn in Hs. unfold WRAP_V1_0_CALL in Hs. simpl in Hs. destruct (mRealRadio r) as [q |] eqn:Er; [| done].
    injection Hs as <- <- <-. cbn. by split_and!. }
  destruct (implementation r (IRadio.version_of c)) as [q |] eqn:Ei.
  { rewrite (call_transparent r c q) in Hs by done. injection Hs as <- <- <-. split_and!; [by eapply implementation_real | done..]. }
  destruct (dropped r c) eqn:Ed; [by rewrite call_dropped in Hs |].
  destruct (mRealRadio r) as [q |] eqn:Er; [| by rewrite call_refused in Hs].
  unfold dropped in Ed. rewrite Ei in Ed. simpl in Ed.
  destruct (call_translated r c Ei) as (q' & d & Hd & Hi' & Hser & Hlt); [congruence | done |].
  rewrite Hs in Hd. injection Hd as -> -> ->. pose proof (implementation_real _ _ _ Hi'). split_and!; try done; [congruence | lia].
Qed.

(** The content of what is sent. *)
Lemma call_content (r : Radio) (c : IRadio.call) p v c' :
  (receive_call r c).2 = Sent p v c' -> carries_request (mRat (mRadioResponse r)) (mDataRoaming (mRadioResponse r)) c c'.
Proof.
  intros Hs. destruct (decide (registers c = true)) as [Hc | Hc%not_true_is_false].
  { destruct c; try done. cbn in Hs. unfold WRAP_V1_0_CALL in Hs. cbn in Hs. destruct (mRealRadio r); [| done]. injection Hs as _ _ <-. by right. }
  destruct (implementation r (IRadio.version_of c)) as [q |] eqn:Ei.
  { rewrite (call_transparent r c q) in Hs by done. injection Hs as _ _ <-. by left. }
  assert (is_Some (mRealRadio r)) as [q Er] by (apply call_sent in Hs as [-> _]; eauto).
  destruct c; cbn [IRadio.version_of implementation] in Ei; try congruence; cbn [receive_call snd] in Hs;
    open_method_in Hs; rewrite ?Er in *; unfold getRealRadio_V1_1, getRealRadio_V1_2, getRealRadio_V1_3, getRealRadio_V1_4 in Hs;
    rewrite ?Er in *; rewrite ?Ei in Hs; try done; right.
  - case_match eqn:Ep; [| done]. injection Hs as _ _ <-. cbn. apply negb_true_iff, Z.eqb_neq in Ep. split_and!; [done | done |]. by rewrite negb_true_iff, Z.eqb_neq.
  - injection Hs as _ _ <-. cbn. split; [done |]. intros i _. apply Z.land_spec.
  - injection Hs as _ _ <-. cbn. by rewrite Z.eqb_eq.
  - case_match; injection Hs as _ _ <-; cbn; split_and!; auto with radio.
  - injection Hs as _ _ <-. cbn. split_and!; auto with radio.
  - case_match eqn:Ep; [| done]. injection Hs as _ _ <-. cbn. split_and!; auto with radio. intros El. by rewrite El in Ep.
  - case_match; [| case_match; [| done]]; by injection Hs as _ _ <-.
  - by injection Hs as _ _ <-.
  - by injection Hs as _ _ <-.
  - destruct carriers as [[| x l] [| y k] []]; cbn in Hs; destruct (Z.eqb_spec multiSimPolicy NO_MULTISIM_POLICY); try done; by injection Hs as _ _ <-.
  - by injection Hs as _ _ <-.
  - by injection Hs as _ _ <-.
Qed.


End Wrapped.

(** ** Replies *)

Section Answered.
Context `{HidlData} `{E : RadioEnums} `{HidlBinder}.

(** The preferred network type is the one request that version 1.4 renamed. *)
Definition newest (method : string) : string :=
  (if (method =? "getPreferredNetworkType")%string then "getPreferredNetworkTypeBitmap"
   else if (method =? "setPreferredNetworkType")%string then "setPreferredNetworkTypeBitmap" else method)%string.

Lemma reply_upgraded (self self' : RadioResponse) (q q' : IRadioResponse.reply) (client : Z) :
  receive_reply self q = Some (self', (client, q')) ->
  mRealRadioResponse self = Some client /\ mRealRadioResponse self' = Some client /\ this_response self' = this_response self /\
  IRadioResponse.method_of q' = newest (IRadioResponse.method_of q) /\ IRadioResponse.info_of q' = IRadioResponse.info_of q /\
  superseded q' = false.
Proof.
  intros Hq. destruct q; cbn [receive_reply] in Hq;
    open_method_in Hq; cbn in Hq;
    repeat case_match; simplify_eq; by split_and!.
Qed.

(** The content of a reply. *)
Lemma reply_content (self self' : RadioResponse) (q q' : IRadioResponse.reply) (client : Z) :
  receive_reply self q = Some (self', (client, q')) -> carries_reply q q'.
Proof.
  intros Hq. destruct q; cbn [receive_reply] in Hq; open_method_in Hq; cbn -[Init1_2CellIdentity] in Hq;
    repeat case_match; simplify_eq; cbn -[Init1_2CellIdentity]; split_and?; auto with radio; try done; by apply bases_kept.
Qed.

(** Every reply is delivered if there is a client, and otherwise ends the process. *)
Lemma reply_outcome (self : RadioResponse) (q : IRadioResponse.reply) :
  is_Some (receive_reply self q) <-> is_Some (mRealRadioResponse self).
Proof.
  destruct q; cbn [receive_reply];
    match goal with |- is_Some ?m <-> _ => let h := head_of m in unfold h end; unfold to_client; cbn;
    repeat case_match; split; eauto; intros [? ?]; congruence.
Qed.

Lemma call_method (r : Radio) (c : IRadio.call) p v c' :
  (receive_call r c).2 = Sent p v c' -> newest (IRadio.method_of c') = newest (IRadio.method_of c).
Proof.
  intros Hs. destruct c; cbn [receive_call snd] in Hs;
    open_method_in Hs; cbn in Hs; unfold WRAP_V1_0_CALL in Hs; repeat case_match; by simplify_eq.
Qed.


End Answered.

(** ** Histories *)

Section History.
Context `{HidlData} `{E : RadioEnums} `{HidlBinder}.

Inductive RadioEvent :=
  | FromClient (c : IRadio.call)
  | FromRadio (q : IRadioResponse.reply)
  | Unsolicited (i : IRadioIndication.indication).

Inductive RadioMessage :=
  | Returned (x : Return)
  | Replied_to (client : Z) (q : IRadioResponse.reply)
  | Indicated_to (client : Z) (i : IRadioIndication.indication).

Definition wrapper_step (r : Radio) (e : RadioEvent) : option (Radio * RadioMessage) :=
  match e with
  | FromClient c => let '(r', x) := receive_call r c in Some (r', Returned x)
  | FromRadio q => '(self, (client, q')) ← receive_reply (mRadioResponse r) q; Some (r <| mRadioResponse := self |>, Replied_to client q')
  | Unsolicited i => '(client, i') ← receive_indication (mRadioIndication r) i; Some (r, Indicated_to client i')
  end.

Fixpoint wrapper_run (r : Radio) (evs : list RadioEvent) : option (Radio * list RadioMessage) :=
  match evs with
  | [] => Some (r, [])
  | e :: evs =>
      '(r', m) ← wrapper_step r e;
      '(r'', ms) ← wrapper_run r' evs;
      Some (r'', m :: ms)
  end.

(** Who should get the message of each event, for the clients registered. *)
Fixpoint recipients (response indication : option Z) (evs : list RadioEvent) : list (option Z) :=
  match evs with
  | [] => []
  | FromClient (IRadio.setResponseFunctions a b) :: evs =>
      None :: recipients (castFrom castFrom_IRadioResponse_1_4 a) (castFrom castFrom_IRadioIndication_1_4 b) evs
  | FromClient _ :: evs => None :: recipients response indication evs
  | FromRadio _ :: evs => response :: recipients response indication evs
  | Unsolicited _ :: evs => indication :: recipients response indication evs
  end.

Definition recipient (m : RadioMessage) : option Z :=
  match m with Returned _ => None | Replied_to client _ => Some client | Indicated_to client _ => Some client end.

(** The message of an event: for a request the request of the same method and
    serial number, if one is sent; for a reply and an indication the message
    with its header or type and its content. *)
Definition message_for (e : RadioEvent) (m : RadioMessage) : Prop :=
  match e, m with
  | FromClient c, Returned (Sent _ _ c') =>
      newest (IRadio.method_of c') = newest (IRadio.method_of c) /\ IRadio.serial_of c' = IRadio.serial_of c
  | FromClient _, Returned _ => True
  | FromRadio q, Replied_to _ q' =>
      IRadioResponse.method_of q' = newest (IRadioResponse.method_of q) /\ IRadioResponse.info_of q' = IRadioResponse.info_of q /\ carries_reply q q'
  | Unsolicited i, Indicated_to _ i' => IRadioIndication.type_of i' = IRadioIndication.type_of i /\ carries_indication i i'
  | _, _ => False
  end.

Lemma returned_for (r : Radio) (c : IRadio.call) : message_for (FromClient c) (Returned (receive_call r c).2).
Proof.
  cbn. destruct (receive_call r c).2 as [p v c' | |] eqn:Es; try done. split; [by eapply call_method | by apply call_sent in Es as (_ & _ & _ & ? & _)].
Qed.

(** A client that implements version 1.4, as every registration needs. *)
Definition capable (e : RadioEvent) : Prop :=
  match e with
  | FromClient (IRadio.setResponseFunctions a b) =>
      is_Some (castFrom castFrom_IRadioResponse_1_4 a) /\ is_Some (castFrom castFrom_IRadioIndication_1_4 b)
  | _ => True
  end.

(** What the registration replies said last of the data connection: roaming in
    versions 1.0 and 1.2, the technology only in version 1.0. *)
Definition roaming_reported (b : bool) (e : RadioEvent) : bool :=
  match e with
  | FromRadio (IRadioResponse.getDataRegistrationStateResponse _ d) => dr0_regState d =? REG_ROAMING
  | FromRadio (IRadioResponse.getDataRegistrationStateResponse_1_2 _ d) => dr2_regState d =? REG_ROAMING
  | _ => b
  end.
Definition rat_reported (rat : Z) (e : RadioEvent) : Z :=
  match e with
  | FromRadio (IRadioResponse.getDataRegistrationStateResponse _ d) => dr0_rat d
  | _ => rat
  end.

Lemma reply_state (self self' : RadioResponse) (q : IRadioResponse.reply) out :
  receive_reply self q = Some (self', out) ->
  mDataRoaming self' = roaming_reported (mDataRoaming self) (FromRadio q) /\ mRat self' = rat_reported (mRat self) (FromRadio q).
Proof.
  intros Hq. destruct q; cbn [receive_reply] in Hq; open_method_in Hq; cbn in Hq; repeat case_match; by simplify_eq.
Qed.

Lemma indication_upgraded (self : RadioIndication) (i : IRadioIndication.indication) :
  match mRealRadioIndication self with
  | Some client =>
      exists i', receive_indication self i = Some (client, i') /\ IRadioIndication.type_of i' = IRadioIndication.type_of i /\ carries_indication i i'
  | None => receive_indication self i = None
  end.
Proof.
  destruct self as [this [client |]]; cbn; [| by destruct i].
  destruct i; eexists; (split; [reflexivity |]); cbn; split_and?; auto with radio; try done; by apply bases_kept.
Qed.

(** A service with a client. *)
Definition has_client (r : Radio) : Prop :=
  is_Some (mRealRadioResponse (mRadioResponse r)) /\ is_Some (mRealRadioIndication (mRadioIndication r)).
Definition recipients_of (r : Radio) : list RadioEvent -> list (option Z) :=
  recipients (mRealRadioResponse (mRadioResponse r)) (mRealRadioIndication (mRadioIndication r)).

Lemma wrapper_step_spec (r : Radio) (e : RadioEvent) :
  has_client r -> capable e ->
  exists r' m, wrapper_step r e = Some (r', m) /\ message_for e m /\ has_client r' /\ mRealRadio r' = mRealRadio r /\
    (forall evs, recipients_of r (e :: evs) = recipient m :: recipients_of r' evs) /\
    mDataRoaming (mRadioResponse r') = roaming_reported (mDataRoaming (mRadioResponse r)) e /\
    mRat (mRadioResponse r') = rat_reported (mRat (mRadioResponse r)) e.
Proof.
  intros [[a Ha] [b Hb]] Hc. destruct e as [c | q | i]; cbn [wrapper_step].
  - destruct (registers c) eqn:Er.
    + destruct c; try done. cbn in Hc. eexists _, _. split; [reflexivity |]. destruct Hc as [? ?].
      split; [apply (returned_for r (IRadio.setResponseFunctions _ _)) | by split_and!].
    + pose proof (call_state r c Er) as Hs. pose proof (returned_for r c). destruct (receive_call r c) as [r' x]. simpl in Hs. subst r'.
      exists r, (Returned x). split_and!; [done | done | split; eauto | done | | done | done]. intros evs. unfold recipients_of. by destruct c.
  - destruct (proj2 (reply_outcome (mRadioResponse r) q)) as [[self [client q']] Hq]; [eauto |]. rewrite Hq. cbn.
    pose proof (reply_state _ _ _ _ Hq) as [Hroam Hrat]. pose proof (reply_content _ _ _ _ _ Hq) as Hcont.
    apply reply_upgraded in Hq as (Hc1 & Hc2 & _ & Hm & Hinfo & _).
    eexists _, _. split; [reflexivity |]. unfold recipients_of, has_client. cbn. rewrite Hc1, Hc2, Hb. by split_and!.
  - pose proof (indication_upgraded (mRadioIndication r) i) as Hi. rewrite Hb in Hi. destruct Hi as (i' & Hi & Ht & Hcont). rewrite Hi. cbn.
    eexists _, _. split; [reflexivity |]. unfold recipients_of, has_client. cbn. rewrite Ha, Hb. by split_and!.
Qed.


End History.

(** ** Examples

    A radio of version 1.0 with a client of version 1.4, all structures empty. *)

Definition example_data : HidlData := {| hidl := fun _ => unit; hidl_zero := fun _ => tt |}.
Definition old_radio_binder : HidlBinder :=
  {| castFrom_IRadio := fun _ _ => false; castFrom_IRadioResponse_1_4 := fun _ => true; castFrom_IRadioIndication_1_4 := fun _ => true |}.
Definition example_radio : Radio := mkRadio (Some 7) (mkRadioResponse 1 (Some 3) 0 false) (mkRadioIndication 2 (Some 4)).

#[local] Existing Instances example_data published_enums old_radio_binder.

Definition example_signal : V1_0_SignalStrength := @mkSignal0 example_data tt tt tt tt (mkTd0 30).



