(* ===== verification/RadioNetworks.v ===== *)
(** * Preferred networks, carriers and data profiles

    What requests of version 1.4 become on an older radio, and what a client
    reads back: the families of preferred networks, the allowed carriers, the
    protocols of data profiles. *)

From Stdlib Require Import Ascii String Btauto.
From S2P Require Import Prelude Text RadioTypes RadioHelpers RadioInterface RadioResponse RadioIndication Radio RadioWrapper.

(** ** Families as sets

    [families g c e w l t] is the bitmap of the families that are asked for,
    in the order GSM, CDMA, EVDO, WCDMA, LTE, TD-SCDMA. *)

Section Families.
Context `{E : RadioEnums} `{!RadioEnumLaws E}.

Definition families (g c e w l t : bool) : Z :=
  let on (b : bool) (x : Z) := if b then x else 0 in
  Z.lor (on g GSMBITS) (Z.lor (on c CDMABITS) (Z.lor (on e EVDOBITS) (Z.lor (on w WCDMABITS) (Z.lor (on l LTEBITS) (on t TDSCDMABIT))))).

Lemma raf_testbit f n : 0 <= n -> Z.testbit (raf f) n = (raf_bit f =? n).
Proof. intros Hn. unfold raf. rewrite Z.shiftl_1_l. apply Z.pow2_bits_eqb. destruct (raf_bit_range f). lia. Qed.

Lemma raf_testbit_bit f f' : Z.testbit (raf f) (raf_bit f') = bool_decide (f = f').
Proof.
  destruct (raf_bit_range f'). rewrite raf_testbit by lia. case_bool_decide as Ef; [subst; apply Z.eqb_refl |].
  apply Z.eqb_neq. intros Hb. by apply Ef, raf_bit_inj.
Qed.

Lemma families_testbit g c e w l t n :
  Z.testbit (families g c e w l t) n =
  (g && Z.testbit GSMBITS n) || (c && Z.testbit CDMABITS n) || (e && Z.testbit EVDOBITS n) || (w && Z.testbit WCDMABITS n)
  || (l && Z.testbit LTEBITS n) || (t && Z.testbit TDSCDMABIT n).
Proof.
  unfold families. cbv zeta. rewrite !Z.lor_spec.
  assert (forall (b : bool) x, Z.testbit (if b then x else 0) n = b && Z.testbit x n) as Hon by (intros [] x; [done | apply Z.bits_0]).
  rewrite !Hon. btauto.
Qed.

(** The bit of one technology is in the bitmap exactly if its family is. *)
Lemma families_bit g c e w l t f :
  Z.testbit (families g c e w l t) (raf_bit f) =
  match f with
  | RAF_GSM | RAF_GPRS | RAF_EDGE => g
  | RAF_IS95A | RAF_IS95B | RAF_ONE_X_RTT => c
  | RAF_EVDO_0 | RAF_EVDO_A | RAF_EVDO_B | RAF_EHRPD => e
  | RAF_HSUPA | RAF_HSDPA | RAF_HSPA | RAF_HSPAP | RAF_UMTS => w
  | RAF_LTE | RAF_LTE_CA => l
  | RAF_TD_SCDMA => t
  end.
Proof.
  rewrite families_testbit. unfold GSMBITS, CDMABITS, EVDOBITS, WCDMABITS, LTEBITS, TDSCDMABIT.
  rewrite !Z.lor_spec, !raf_testbit_bit. destruct f; vm_compute; by destruct g, c, e, w, l, t.
Qed.

Lemma families_lor g c e w l t g' c' e' w' l' t' :
  Z.lor (families g c e w l t) (families g' c' e' w' l' t') = families (g || g') (c || c') (e || e') (w || w') (l || l') (t || t').
Proof. apply Z.bits_inj'. intros n _. rewrite Z.lor_spec, !families_testbit. btauto. Qed.

Lemma families_eqb g c e w l t g' c' e' w' l' t' :
  (families g c e w l t =? families g' c' e' w' l' t') = eqb g g' && eqb c c' && eqb e e' && eqb w w' && eqb l l' && eqb t t'.
Proof.
  destruct (Z.eqb_spec (families g c e w l t) (families g' c' e' w' l' t')) as [Heq | Hne].
  - assert (forall f, Z.testbit (families g c e w l t) (raf_bit f) = Z.testbit (families g' c' e' w' l' t') (raf_bit f)) as Hb by (intros; by rewrite Heq).
    pose proof (Hb RAF_GSM) as Hg. pose proof (Hb RAF_IS95A) as Hc. pose proof (Hb RAF_EVDO_0) as He. pose proof (Hb RAF_UMTS) as Hw.
    pose proof (Hb RAF_LTE) as Hl. pose proof (Hb RAF_TD_SCDMA) as Ht. rewrite !families_bit in *. subst. by rewrite !eqb_reflx.
  - symmetry. apply not_true_is_false. rewrite !andb_true_iff, !eqb_true_iff. intros [[[[[-> ->] ->] ->] ->] ->]. done.
Qed.

(** The masks are families, so the bitmaps of the source are. *)
Lemma GSMBITS_families : GSMBITS = families true false false false false false.
Proof. symmetry. apply Z.lor_0_r. Qed.
Lemma CDMABITS_families : CDMABITS = families false true false false false false.
Proof. unfold families. cbv zeta. by rewrite !Z.lor_0_r, !Z.lor_0_l. Qed.
Lemma EVDOBITS_families : EVDOBITS = families false false true false false false.
Proof. unfold families. cbv zeta. by rewrite !Z.lor_0_r, !Z.lor_0_l. Qed.
Lemma WCDMABITS_families : WCDMABITS = families false false false true false false.
Proof. unfold families. cbv zeta. by rewrite !Z.lor_0_r, !Z.lor_0_l. Qed.
Lemma LTEBITS_families : LTEBITS = families false false false false true false.
Proof. unfold families. cbv zeta. by rewrite !Z.lor_0_r, !Z.lor_0_l. Qed.
Lemma TDSCDMABIT_families : TDSCDMABIT = families false false false false false true.
Proof. unfold families. cbv zeta. by rewrite !Z.lor_0_l. Qed.

End Families.

Create HintDb families.
#[export] Hint Rewrite @GSMBITS_families @CDMABITS_families @EVDOBITS_families @WCDMABITS_families @LTEBITS_families @TDSCDMABIT_families
  @families_lor @families_eqb using typeclasses eauto : families.

(** ** Completing families *)

Section Completion.
Context `{E : RadioEnums} `{!RadioEnumLaws E}.

Definition technologies : list RadioAccessFamily :=
  [RAF_GSM; RAF_GPRS; RAF_EDGE; RAF_IS95A; RAF_IS95B; RAF_ONE_X_RTT; RAF_EVDO_0; RAF_EVDO_A; RAF_EVDO_B; RAF_EHRPD;
   RAF_HSUPA; RAF_HSDPA; RAF_HSPA; RAF_HSPAP; RAF_UMTS; RAF_LTE; RAF_LTE_CA; RAF_TD_SCDMA].

(** A bit is that of a technology, or in no family. *)
Lemma technology_or_off n : 0 <= n ->
  (exists f, raf_bit f = n) \/ forall g c e w l t, Z.testbit (families g c e w l t) n = false.
Proof.
  intros Hn. destruct (existsb (fun f => raf_bit f =? n) technologies) eqn:Ex.
  - left. apply existsb_exists in Ex as (f & _ & Hf%Z.eqb_eq). by exists f.
  - right. intros *. assert (forall f, Z.testbit (raf f) n = false) as Hoff.
    { intros f. rewrite raf_testbit by done. apply not_true_is_false. intros Hf. apply not_true_iff_false in Ex. apply Ex, existsb_exists.
      exists f. split; [destruct f; simpl; tauto | done]. }
    rewrite families_testbit. unfold GSMBITS, CDMABITS, EVDOBITS, WCDMABITS, LTEBITS, TDSCDMABIT. rewrite !Z.lor_spec, !Hoff. btauto.
Qed.

Lemma families_land g c e w l t g' c' e' w' l' t' :
  Z.land (families g c e w l t) (families g' c' e' w' l' t') = families (g && g') (c && c') (e && e') (w && w') (l && l') (t && t').
Proof.
  apply Z.bits_inj'. intros n Hn. rewrite Z.land_spec. destruct (technology_or_off n Hn) as [[f <-] | Hoff]; [| by rewrite !Hoff].
  rewrite !families_bit. by destruct f.
Qed.

Lemma families_none : families false false false false false false = 0.
Proof. done. Qed.

(** What the bitmap of a client has of a family. *)
Definition touched (networkTypeBitmap bits : Z) : bool := negb (Z.land networkTypeBitmap bits =? 0).

Lemma complete_family_touched b bits : complete_family bits b = Z.lor b (if touched b bits then bits else 0).
Proof. unfold complete_family, touched. destruct (negb _); [done | by rewrite Z.lor_0_r]. Qed.

Lemma touched_lor b x bits : Z.land x bits = 0 -> touched (Z.lor b x) bits = touched b bits.
Proof. intros Hx. unfold touched. by rewrite Z.land_lor_distr_l, Hx, Z.lor_0_r. Qed.

(** The families touched are completed, independently of each other. *)
Lemma complete_families_spec b :
  complete_families b =
  Z.lor b (families (touched b GSMBITS) (touched b CDMABITS) (touched b EVDOBITS) (touched b WCDMABITS) (touched b LTEBITS) false).
Proof.
  unfold complete_families. rewrite !complete_family_touched.
  rewrite !(touched_lor _ _ CDMABITS), !(touched_lor _ _ EVDOBITS), !(touched_lor _ _ WCDMABITS), !(touched_lor _ _ LTEBITS);
    try (case_match; [autorewrite with families; by rewrite families_land | apply Z.land_0_l]).
  unfold families. cbv zeta. by rewrite Z.lor_0_r, <- !Z.lor_assoc.
Qed.

Lemma touched_families g c e w l t :
  let b := families g c e w l t in
  touched b GSMBITS = g /\ touched b CDMABITS = c /\ touched b EVDOBITS = e /\ touched b WCDMABITS = w /\ touched b LTEBITS = l.
Proof.
  cbv zeta. unfold touched. autorewrite with families. rewrite !families_land, <- !families_none. autorewrite with families.
  by destruct g, c, e, w, l, t.
Qed.

(** Completing is idempotent on the bitmaps of the radio. *)
Lemma complete_families_id g c e w l t : complete_families (families g c e w l t) = families g c e w l t.
Proof.
  rewrite complete_families_spec. destruct (touched_families g c e w l t) as (-> & -> & -> & -> & ->). rewrite families_lor.
  by destruct g, c, e, w, l, t.
Qed.

(** The type the client's bitmap is stored as stands for the same families. *)
Lemma nwType_of_exact (t : PreferredNetworkType) :
  nwType_of (complete_families (nwTypeBitmap t)) =
  match t with GSM_WCDMA => GSM_WCDMA_AUTO | PreferredNetworkType_other _ => LTE_CMDA_EVDO_GSM_WCDMA | t => t end.
Proof.
  destruct t; cbn [nwTypeBitmap]; rewrite <- ?families_none; autorewrite with families; rewrite complete_families_id;
    unfold nwType_of; autorewrite with families; reflexivity.
Qed.

(** Either the bitmap is exactly that of the type, or the type is the default
    one and no type has the bitmap. *)
Lemma nwType_of_cases b :
  nwTypeBitmap (nwType_of b) = b \/
  (nwType_of b = LTE_CMDA_EVDO_GSM_WCDMA /\ forall t, (forall z, t <> PreferredNetworkType_other z) -> nwTypeBitmap t <> b).
Proof.
  unfold nwType_of.
  repeat match goal with |- context [if b =? ?x then _ else _] => destruct (Z.eqb_spec b x) as [-> | ?]; [by left |] end.
  right. split; [done |]. intros t Ht. destruct t; cbn [nwTypeBitmap]; try congruence. by destruct (Ht z).
Qed.

End Completion.

(** ** What a client reads back *)

Section ReadBack.
Context `{HidlData} `{E : RadioEnums} `{!RadioEnumLaws E} `{HidlBinder}.

(** Opens a request of version 1.4 on a radio that lacks it. *)
Lemma maybe_wrap_1_4 (r : Radio) (c : IRadio.call) (rest : Return) : implementation r V1_4 = None -> MAYBE_WRAP_V1_4_CALL r c rest = rest.
Proof. intros Hi. unfold MAYBE_WRAP_V1_4_CALL, getRealRadio_V1_4. cbn [implementation] in Hi. by rewrite Hi. Qed.

Lemma wrap_1_0 (r : Radio) (c : IRadio.call) p : mRealRadio r = Some p -> WRAP_V1_0_CALL r c = Sent p V1_0 c.
Proof. intros Hr. unfold WRAP_V1_0_CALL. by rewrite Hr. Qed.

(** C29. The preferred networks on a radio of an older version: the bitmap is
    stored as one network type, and asking for it gives the client a bitmap
    again.  If some type stands for the families that the client's bitmap
    touches, this is the client's bitmap with exactly these families
    completed; if none does, it is all families but TD-SCDMA.  What is read
    back is stored as the same type again. *)
Theorem preferred_network_roundtrip (r : Radio) (p client serial b : Z) (info : V1_0_RadioResponseInfo)
    (Hreal : mRealRadio r = Some p) (Hold : implementation r V1_4 = None) (Hclient : mRealRadioResponse (mRadioResponse r) = Some client) :
  exists t b',
    receive_call r (IRadio.setPreferredNetworkTypeBitmap serial b) = (r, Sent p V1_0 (IRadio.setPreferredNetworkType serial t)) /\
    receive_reply (mRadioResponse r) (IRadioResponse.getPreferredNetworkTypeResponse info t) =
      Some (mRadioResponse r, (client, IRadioResponse.getPreferredNetworkTypeBitmapResponse info b')) /\
    (b' = Z.lor b (families (touched b GSMBITS) (touched b CDMABITS) (touched b EVDOBITS) (touched b WCDMABITS) (touched b LTEBITS) false) \/
     ((forall t', (forall z, t' <> PreferredNetworkType_other z) -> nwTypeBitmap t' <> complete_families b) /\
      b' = families true true true true true false)) /\
    receive_call r (IRadio.setPreferredNetworkTypeBitmap serial b') = (r, Sent p V1_0 (IRadio.setPreferredNetworkType serial t)).
Proof.
  assert (forall x, receive_call r (IRadio.setPreferredNetworkTypeBitmap serial x) =
                    (r, Sent p V1_0 (IRadio.setPreferredNetworkType serial (nwType_of (complete_families x))))) as Hset.
  { intros x. cbn [receive_call]. unfold setPreferredNetworkTypeBitmap. by rewrite maybe_wrap_1_4, (wrap_1_0 _ _ p). }
  exists (nwType_of (complete_families b)), (nwTypeBitmap (nwType_of (complete_families b))).
  split; [apply Hset |]. split; [cbn [receive_reply]; unfold getPreferredNetworkTypeResponse, to_client; by rewrite Hclient |].
  rewrite Hset, nwType_of_exact. destruct (nwType_of_cases (complete_families b)) as [Hex | [Hd Hno]].
  - split; [left; by rewrite Hex, complete_families_spec |]. destruct (nwType_of (complete_families b)) eqn:Et; try done;
      unfold nwType_of in Et; repeat case_match; done.
  - rewrite Hd. split; [| done]. right. split; [done |]. cbn [nwTypeBitmap]. by autorewrite with families.
Qed.

(** TD-SCDMA together with CDMA is such a case: asking for these two sets
    every family except TD-SCDMA. *)
Theorem td_scdma_lost (t : PreferredNetworkType) (Ht : t = nwType_of (complete_families (Z.lor TDSCDMABIT CDMABITS))) :
  Z.testbit (nwTypeBitmap t) (raf_bit RAF_TD_SCDMA) = false /\ Z.testbit (nwTypeBitmap t) (raf_bit RAF_UMTS) = true.
Proof.
  autorewrite with families in Ht. rewrite complete_families_id in Ht. unfold nwType_of in Ht. autorewrite with families in Ht. cbn in Ht.
  subst t. cbn [nwTypeBitmap]. autorewrite with families. by rewrite !families_bit.
Qed.

(** Allowed carriers that an older radio can express are read back as they
    were set; all others are not sent at all. *)
Theorem allowed_carriers_roundtrip (r : Radio) (p client serial policy : Z) (info : V1_0_RadioResponseInfo)
    (l : V1_4_CarrierRestrictionsWithPriority)
    (Hreal : mRealRadio r = Some p) (Hold : implementation r V1_4 = None) (Hclient : mRealRadioResponse (mRadioResponse r) = Some client) :
  if inexpressible r (IRadio.setAllowedCarriers_1_4 serial l policy)
  then receive_call r (IRadio.setAllowedCarriers_1_4 serial l policy) = (r, Void)
  else exists all k,
    receive_call r (IRadio.setAllowedCarriers_1_4 serial l policy) = (r, Sent p V1_0 (IRadio.setAllowedCarriers serial all k)) /\
    receive_reply (mRadioResponse r) (IRadioResponse.getAllowedCarriersResponse info all k) =
      Some (mRadioResponse r, (client, IRadioResponse.getAllowedCarriersResponse_1_4 info l NO_MULTISIM_POLICY)).
Proof.
  cbn [receive_call inexpressible]. unfold setAllowedCarriers_1_4. rewrite maybe_wrap_1_4 by done.
  destruct l as [[| x l] [| y k] []]; cbn; destruct (policy =? NO_MULTISIM_POLICY); cbn; try done;
    rewrite (wrap_1_0 _ _ p) by done; eexists _, _; (split; [reflexivity |]); unfold getAllowedCarriersResponse, to_client; by rewrite Hclient.
Qed.

(** The names of the protocols survive the way to an older radio and back. *)
Theorem protocol_roundtrip (z : Z) : -1 <= z <= 5 -> protocol_of_text (getProtocolStringFromInt z) = z.
Proof.
  intros Hz. pose proof pdp_numbers as Hn. injection Hn as P0 P1 P2 P3 P4 P5 P6. unfold getProtocolStringFromInt, protocol_of_text.
  rewrite P0, P1, P2, P3, P4, P5, P6.
  assert (z = -1 \/ z = 0 \/ z = 1 \/ z = 2 \/ z = 3 \/ z = 4 \/ z = 5) as Hcases by lia. by repeat destruct Hcases as [-> | Hcases]; [..| subst].
Qed.

(** The cell of a registration reply loses its type: the vectors are copied but
    the field that tells which one is meant stays zero. *)
Theorem cell_identity_type_lost (c : V1_0_CellIdentity) : id2_cellInfoType (Init1_2CellIdentity c identity2_zero) = 0.
Proof. unfold Init1_2CellIdentity. cbn. repeat case_match; done. Qed.

(** A client without the newest interface: its registration is accepted, and
    the first reply ends the process. *)
Theorem old_client_ends_process (r : Radio) (b client : Z) (q : IRadioResponse.reply) :
  castFrom_IRadioResponse_1_4 client = false ->
  wrapper_run r [FromClient (IRadio.setResponseFunctions (Some client) (Some b)); FromRadio q] = None.
Proof.
  intros Hc. cbn [wrapper_run wrapper_step receive_call]. unfold setResponseFunctions. cbn. rewrite Hc.
  destruct (receive_reply _ q) as [x |] eqn:Hq; [| done]. exfalso.
  destruct (proj1 (reply_outcome _ _) (ex_intro _ x Hq)) as [? ?]. done.
Qed.

End ReadBack.

#[local] Existing Instances example_data published_enums old_radio_binder.

(** GSM and LTE, each by one technology, are read back as complete families. *)
Lemma preferred_network_roundtrip_witness :
  exists t b', receive_call example_radio (IRadio.setPreferredNetworkTypeBitmap 5 (Z.lor (raf RAF_TD_SCDMA) (Z.lor (raf RAF_GPRS) (raf RAF_LTE)))) =
    (example_radio, Sent 7 V1_0 (IRadio.setPreferredNetworkType 5 t)) /\ t = TD_SCDMA_GSM_LTE /\
    b' = Z.lor (Z.lor TDSCDMABIT GSMBITS) LTEBITS.
Proof.
  destruct (@preferred_network_roundtrip example_data published_enums _ old_radio_binder example_radio 7 3 5 (Z.lor (raf RAF_TD_SCDMA) (Z.lor (raf RAF_GPRS) (raf RAF_LTE)))
              (mkRadioResponseInfo 0 5 0) eq_refl eq_refl eq_refl) as (t & b' & Hset & Hreply & _).
  exists t, b'. split; [done |]. vm_compute in Hset. injection Hset as <-. split; [done |]. vm_compute in Hreply. injection Hreply as <-. done.
Defined.
