(* ===== verification/RadioConfig.v ===== *)
(** * Radio configuration and the radio services

    [src/radio/config/1.1-wrapper/RadioConfig.cpp]: the configuration service
    of version 1.1 over a vendor's service of version 1.0 and perhaps 1.1, and
    what it does itself when the vendor lacks version 1.1: it chooses the modem
    for data by allowing it at the radio of its slot.  Also the start of both
    radio services, [service.cpp] in [src/radio/1.4/legacy] and in
    [src/radio/config/1.1-wrapper], with [linkDeathToDeath] of
    [hidl-utils.cpp].  A method gives what it calls, in order, its result and
    the new state, or ends the process ([Aborted]); [NoFuel] marks a loop that
    needs more rounds. *)

From Stdlib Require Import Ascii String.
From S2P Require Import Prelude Text RadioTypes.

(** ** Outcomes *)

Inductive Run (A : Type) := Ok (a : A) | Aborted | NoFuel.
Arguments Ok {A} a.
Arguments Aborted {A}.
Arguments NoFuel {A}.

#[export] Instance Run_bind : MBind Run := fun A B f x => match x with Ok a => f a | Aborted => Aborted | NoFuel => NoFuel end.

(** Values of [RadioResponseType] and [RadioError]. *)
Class ConfigEnums := {
  SOLICITED : Z;
  RadioError_NONE : Z;
  INVALID_ARGUMENTS : Z;
  REQUEST_NOT_SUPPORTED : Z
}.

(** What the service manager and the binder answer: the service of a name,
    whether linking to the death of a service succeeds, whether an object
    implements version 1.1 of the replies. *)
Class ServiceManager := {
  getService : string -> option Z;
  linkToDeath : Z -> bool;
  castFrom_ConfigResponse_1_1 : Z -> bool
}.

(** ** The configuration service *)

Section Config.
Context {ModemsConfig : Type} (ModemsConfig_zero : ModemsConfig).
Context `{ConfigEnums}.

Record PhoneCapability := mkPhoneCapability {
  maxActiveData : Z; maxActiveInternetData : Z; isInternetLingeringSupported : bool; logicalModemList : list Z
}.

Record RadioConfig := mkRadioConfig {
  mRealRadioConfig : option Z;
  mRealRadioConfigV1_1 : option Z;
  mRadioConfigResponse : option Z;
  mRadioConfigResponseV1_1 : option Z;
  mModemIdToRadioCache : gmap Z (option Z)
}.
#[export] Instance RadioConfig_eta : Record_eta RadioConfig :=
  fun c => mkRadioConfig (mRealRadioConfig c) (mRealRadioConfigV1_1 c) (mRadioConfigResponse c) (mRadioConfigResponseV1_1 c) (mModemIdToRadioCache c).

(** Requests of the interface. *)
Inductive ConfigCall :=
  | CFG_setResponseFunctions (response indication : option Z)
  | CFG_getSimSlotsStatus (serial : Z)
  | CFG_setSimSlotsMapping (serial : Z) (slotMap : list Z)
  | CFG_getPhoneCapability (serial : Z)
  | CFG_setPreferredDataModem (serial modemId : Z)
  | CFG_setModemsConfig (serial : Z) (config : ModemsConfig)
  | CFG_getModemsConfig (serial : Z).

(** Calls to other objects. *)
Inductive ConfigEffect :=
  | E_linkToDeath (hal : Z)
  | E_setDataAllowed (radio serial : Z) (allow : bool)
  | E_getPhoneCapabilityResponse (client : Z) (info : V1_0_RadioResponseInfo) (c : PhoneCapability)
  | E_setPreferredDataModemResponse (client : Z) (info : V1_0_RadioResponseInfo)
  | E_setModemsConfigResponse (client : Z) (info : V1_0_RadioResponseInfo)
  | E_getModemsConfigResponse (client : Z) (info : V1_0_RadioResponseInfo) (c : ModemsConfig).

(** The result: that of a call to the vendor's service, a status, or nothing. *)
Inductive ConfigReturn :=
  | ToConfig (service : Z) (c : ConfigCall)
  | Config_EX_ILLEGAL_STATE
  | Config_Void.

Definition RadioConfig_new (realRadioConfig realRadioConfigV1_1 : option Z) : RadioConfig :=
  mkRadioConfig realRadioConfig realRadioConfigV1_1 None None ∅.

Definition CONFIG_WRAP_V1_0_CALL (c : RadioConfig) (m : ConfigCall) : ConfigReturn :=
  match mRealRadioConfig c with Some s => ToConfig s m | None => Config_EX_ILLEGAL_STATE end.

Definition CONFIG_MAYBE_WRAP_V1_1_CALL {A} (c : RadioConfig) (m : ConfigCall) (rest : A) (wrap : ConfigReturn -> A) : A :=
  match mRealRadioConfigV1_1 c with Some s => wrap (ToConfig s m) | None => rest end.

Definition Configured : Type := Run (RadioConfig * list ConfigEffect * ConfigReturn).

Definition getUnimplementedResponseInfo (serial : Z) : V1_0_RadioResponseInfo := mkRadioResponseInfo SOLICITED serial REQUEST_NOT_SUPPORTED.

(** The end of the methods that answer the client themselves. *)
Definition respond (c : RadioConfig) (effects : list ConfigEffect) (reply : Z -> ConfigEffect) : Configured :=
  match mRadioConfigResponseV1_1 c with
  | None => Ok (c, effects, Config_EX_ILLEGAL_STATE)
  | Some client => Ok (c, effects ++ [reply client], Config_Void)
  end.

Definition getSimSlotsStatus (c : RadioConfig) (serial : Z) : Configured :=
  Ok (c, [], CONFIG_WRAP_V1_0_CALL c (CFG_getSimSlotsStatus serial)).

Definition setSimSlotsMapping (c : RadioConfig) (serial : Z) (slotMap : list Z) : Configured :=
  Ok (c, [], CONFIG_WRAP_V1_0_CALL c (CFG_setSimSlotsMapping serial slotMap)).

Definition getPhoneCapability (c : RadioConfig) (serial : Z) : Configured :=
  CONFIG_MAYBE_WRAP_V1_1_CALL c (CFG_getPhoneCapability serial)
    (let radioResponseInfo := mkRadioResponseInfo SOLICITED serial RadioError_NONE in
     let phoneCapability := mkPhoneCapability 0 0 false [] in
     respond c [] (fun client => E_getPhoneCapabilityResponse client radioResponseInfo phoneCapability))
    (fun x => Ok (c, [], x)).

Definition setModemsConfig (c : RadioConfig) (serial : Z) (config : ModemsConfig) : Configured :=
  CONFIG_MAYBE_WRAP_V1_1_CALL c (CFG_setModemsConfig serial config)
    (respond c [] (fun client => E_setModemsConfigResponse client (getUnimplementedResponseInfo serial)))
    (fun x => Ok (c, [], x)).

Definition getModemsConfig (c : RadioConfig) (serial : Z) : Configured :=
  CONFIG_MAYBE_WRAP_V1_1_CALL c (CFG_getModemsConfig serial)
    (respond c [] (fun client => E_getModemsConfigResponse client (getUnimplementedResponseInfo serial) ModemsConfig_zero))
    (fun x => Ok (c, [], x)).

Section Services.
Context `{ServiceManager}.

Definition setResponseFunctions (c : RadioConfig) (radioConfigResponse radioConfigIndication : option Z) : Configured :=
  let c := c <| mRadioConfigResponse := radioConfigResponse |> in
  let c := c <| mRadioConfigResponseV1_1 :=
                  match radioConfigResponse with Some x => if castFrom_ConfigResponse_1_1 x then Some x else None | None => None end |> in
  Ok (c, [], CONFIG_WRAP_V1_0_CALL c (CFG_setResponseFunctions radioConfigResponse radioConfigIndication)).

(** A failing link ends the process. *)
Definition linkDeathToDeath (hal : Z) : Run (list ConfigEffect) :=
  if linkToDeath hal then Ok [E_linkToDeath hal] else Aborted.

(** The name of the service of a modem; [modemId + 1] is an [int]. *)
Definition slot_name (modemId : Z) : string := ("slot" +:+ to_text (modemId + 1))%string.

Definition getRadioForModemId (c : RadioConfig) (modemId : Z) : Run (RadioConfig * list ConfigEffect * option Z) :=
  match mModemIdToRadioCache c !! modemId with
  | Some (Some radio) => Ok (c, [], Some radio)
  | _ =>
      let radio := getService (slot_name modemId) in
      let c := c <| mModemIdToRadioCache ::= <[modemId := radio]> |> in
      match radio with
      | Some hal => l ← linkDeathToDeath hal; Ok (c, l, radio)
      | None => Ok (c, [], None)
      end
  end.

(** The loop over the slots; [numSlots] is a [uint8_t]. *)
Fixpoint slots_loop (fuel : nat) (c : RadioConfig) (numSlots : Z) (radios : list Z) : Run (RadioConfig * list ConfigEffect * list Z) :=
  match fuel with
  | O => NoFuel
  | S fuel =>
      '(c, l, radio) ← getRadioForModemId c numSlots;
      match radio with
      | None => Ok (c, l, radios)
      | Some hal => '(c, l', all) ← slots_loop fuel c (u8 (numSlots + 1)) (radios ++ [hal]); Ok (c, l ++ l', all)
      end
  end.

(** The loop that denies data to the other modems; [i] is a [uint8_t]. *)
Fixpoint deny_loop (fuel : nat) (radios : list Z) (modemId i : Z) : Run (list ConfigEffect) :=
  match fuel with
  | O => NoFuel
  | S fuel =>
      if i <? Z.of_nat (length radios) then
        match radios !! Z.to_nat i with
        | Some radio =>
            l ← deny_loop fuel radios modemId (u8 (i + 1));
            Ok ((if negb (i =? modemId) then [E_setDataAllowed radio (-1) false] else []) ++ l)
        | None => Aborted
        end
      else Ok []
  end.

Definition setPreferredDataModem (fuel : nat) (c : RadioConfig) (serial modemId : Z) : Configured :=
  CONFIG_MAYBE_WRAP_V1_1_CALL c (CFG_setPreferredDataModem serial modemId)
    ('(c, l, radios) ← slots_loop fuel c 0 [];
     if bool_decide (radios = []) || (Z.of_nat (length radios) <=? modemId) then
       respond c l (fun client => E_setPreferredDataModemResponse client (mkRadioResponseInfo SOLICITED serial INVALID_ARGUMENTS))
     else
       denied ← deny_loop fuel radios modemId 0;
       match radios !! Z.to_nat modemId with
       | Some radio =>
           respond c (l ++ denied ++ [E_setDataAllowed radio (-1) true])
             (fun client => E_setPreferredDataModemResponse client (mkRadioResponseInfo SOLICITED serial RadioError_NONE))
       | None => Aborted
       end)
    (fun x => Ok (c, [], x)).

End Services.
End Config.

Arguments ConfigCall : clear implicits.
Arguments ConfigEffect : clear implicits.
Arguments ConfigReturn : clear implicits.

(** ** Choosing the modem for data *)

Section Choice.
Context {ModemsConfig : Type} (ModemsConfig_zero : ModemsConfig).
Context `{ConfigEnums} `{ServiceManager}.

(** The radio of a slot: the cached one, or the one the manager knows now. *)
Definition slot_radio (c : RadioConfig) (i : Z) : option Z :=
  match mModemIdToRadioCache c !! i with Some (Some radio) => Some radio | _ => getService (slot_name i) end.

(** Looking up radios changes nothing but the cache, and not what it gives. *)
Definition same_slots (c c' : RadioConfig) : Prop :=
  (forall i, slot_radio c' i = slot_radio c i) /\ mRadioConfigResponseV1_1 c' = mRadioConfigResponseV1_1 c /\
  mRealRadioConfig c' = mRealRadioConfig c /\ mRealRadioConfigV1_1 c' = mRealRadioConfigV1_1 c.

#[export] Instance same_slots_preorder : PreOrder same_slots.
Proof. split; [by intros c | intros c1 c2 c3 (? & ? & ? & ?) (? & ? & ? & ?); split_and!; try congruence; intros; etrans; eauto]. Qed.

Definition is_link (e : ConfigEffect ModemsConfig) : bool := match e with E_linkToDeath _ => true | _ => false end.

Lemma getRadioForModemId_spec (c : RadioConfig) (i : Z) :
  (forall radio, slot_radio c i = Some radio -> linkToDeath radio = true) ->
  exists c' l, getRadioForModemId (ModemsConfig := ModemsConfig) c i = Ok (c', l, slot_radio c i) /\ same_slots c c' /\ Forall (fun e => is_link e = true) l.
Proof.
  intros Hlink. unfold getRadioForModemId. unfold slot_radio in Hlink |- *.
  assert (mModemIdToRadioCache c !! i = None \/ mModemIdToRadioCache c !! i = Some None ->
          same_slots c (c <| mModemIdToRadioCache ::= <[i := getService (slot_name i)]> |>)) as Hsame.
  { intros Hi. split_and!; try done. intros j. unfold slot_radio. simpl. destruct (decide (i = j)) as [<- | Hne].
    - rewrite lookup_insert_eq. destruct Hi as [-> | ->]; by destruct (getService (slot_name i)).
    - by rewrite lookup_insert_ne. }
  destruct (mModemIdToRadioCache c !! i) as [[radio |] |] eqn:Ei.
  - exists c, []. by split_and!.
  - destruct (getService (slot_name i)) as [radio |] eqn:Es; [| eexists _, []; split_and!; eauto].
    unfold linkDeathToDeath. rewrite Hlink by done. simpl. eexists _, _. split_and!; [reflexivity | eauto | repeat constructor].
  - destruct (getService (slot_name i)) as [radio |] eqn:Es; [| eexists _, []; split_and!; eauto].
    unfold linkDeathToDeath. rewrite Hlink by done. simpl. eexists _, _. split_and!; [reflexivity | eauto | repeat constructor].
Qed.

(** The radios from slot [k] on, up to the first empty slot. *)
Definition radios_from (c : RadioConfig) (k : Z) (radios : list Z) : Prop :=
  (forall i radio, radios !! i = Some radio -> slot_radio c (k + Z.of_nat i) = Some radio) /\ slot_radio c (k + Z.of_nat (length radios)) = None.

Lemma radios_from_same c c' k radios : same_slots c c' -> radios_from c k radios -> radios_from c' k radios.
Proof. intros [Hs _] [H1' H2']. split; [intros i radio Hi; rewrite Hs; eauto | by rewrite Hs]. Qed.

Lemma slots_loop_spec (radios acc : list Z) (c : RadioConfig) (k : Z) (fuel : nat) :
  radios_from c k radios -> (forall i radio, slot_radio c i = Some radio -> linkToDeath radio = true) ->
  0 <= k -> k + Z.of_nat (length radios) < 256 -> (length radios < fuel)%nat ->
  exists c' l, slots_loop (ModemsConfig := ModemsConfig) fuel c k acc = Ok (c', l, acc ++ radios) /\ same_slots c c' /\ Forall (fun e => is_link e = true) l.
Proof.
  revert acc c k fuel. induction radios as [| radio radios IH]; intros acc c k fuel [Hr Hend] Hlink Hk Hlen Hfuel; destruct fuel as [| fuel]; try (simpl in Hfuel; lia).
  - simpl in Hend. rewrite Z.add_0_r in Hend. simpl.
    destruct (getRadioForModemId_spec c k) as (c' & l & -> & Hs & Hl); [eauto |]. rewrite Hend. simpl. exists c', l. by rewrite app_nil_r.
  - simpl in Hlen, Hfuel. pose proof (Hr 0%nat radio eq_refl) as Hk0. change (Z.of_nat 0) with 0 in Hk0. rewrite Z.add_0_r in Hk0. cbn [slots_loop].
    destruct (getRadioForModemId_spec c k) as (c1 & l1 & -> & Hs & Hl); [eauto |]. rewrite Hk0. cbn.
    replace (u8 (k + 1)) with (k + 1) by (unfold u8, wrap_u; rewrite Z.mod_small; lia).
    destruct (IH (acc ++ [radio]) c1 (k + 1) fuel) as (c' & l & Hrun & Hs' & Hl'); [| | lia | lia | lia |].
    + split; [| destruct Hs as [-> _]; rewrite <- Hend; f_equal; simpl; lia].
      intros i x Hi. destruct Hs as [-> _]. rewrite <- (Hr (S i) x Hi). f_equal. lia.
    + intros i x. destruct Hs as [-> _]. apply Hlink.
    + unfold Run_bind in Hrun |- *. rewrite Hrun. exists c', (l1 ++ l). split_and!; [by rewrite <- app_assoc | by etrans | by apply Forall_app].
Qed.

(** Denying data to every modem but one, from number [k] on. *)
Fixpoint denials (modemId k : Z) (radios : list Z) : list (ConfigEffect ModemsConfig) :=
  match radios with
  | [] => []
  | radio :: radios => (if k =? modemId then [] else [E_setDataAllowed radio (-1) false]) ++ denials modemId (k + 1) radios
  end.

Lemma deny_loop_spec (pre radios : list Z) (modemId : Z) (fuel : nat) :
  Z.of_nat (length (pre ++ radios)) < 256 -> (length radios < fuel)%nat ->
  deny_loop fuel (pre ++ radios) modemId (Z.of_nat (length pre)) = Ok (denials modemId (Z.of_nat (length pre)) radios).
Proof.
  revert pre fuel. induction radios as [| radio radios IH]; intros pre fuel Hlen Hfuel; destruct fuel as [| fuel]; try (simpl in Hfuel; lia); cbn [deny_loop denials].
  - rewrite app_nil_r, Z.ltb_irrefl. done.
  - rewrite length_app in Hlen |- *. simpl in Hlen, Hfuel |- *. destruct (Z.ltb_spec (Z.of_nat (length pre)) (Z.of_nat (length pre + S (length radios)))); [| lia].
    rewrite Nat2Z.id, lookup_app_r, Nat.sub_diag by lia. cbn [lookup list_lookup].
    replace (u8 (Z.of_nat (length pre) + 1)) with (Z.of_nat (length (pre ++ [radio])))
      by (rewrite length_app; unfold u8, wrap_u; rewrite Z.mod_small; simpl; lia).
    rewrite (cons_middle radio pre radios), app_assoc, IH; [| rewrite !length_app; simpl; lia | lia]. cbn.
    rewrite length_app. simpl. replace (Z.of_nat (length pre + 1)) with (Z.of_nat (length pre) + 1) by lia. by destruct (_ =? modemId).
Qed.

(** The modems that are allowed data. *)
Definition data_step (allowed : gset Z) (e : ConfigEffect ModemsConfig) : gset Z :=
  match e with
  | E_setDataAllowed radio _ allow => if allow then allowed ∪ {[radio]} else allowed ∖ {[radio]}
  | _ => allowed
  end.

Lemma denials_shrink (modemId k : Z) (radios : list Z) (allowed : gset Z) (pre post : list (ConfigEffect ModemsConfig)) :
  denials modemId k radios = pre ++ post -> foldl data_step allowed pre ⊆ allowed.
Proof.
  revert pre k allowed. induction radios as [| radio radios IH]; intros pre k allowed Hd; simpl in Hd; [by destruct pre |].
  destruct (k =? modemId); [by eapply IH |]. destruct pre as [| e pre]; [done |]. simpl in Hd. injection Hd as <- Hd. simpl.
  etrans; [by eapply IH | set_solver].
Qed.

(** After the denials only the chosen modem can be allowed. *)
Lemma denials_exclude (modemId k : Z) (radios : list Z) (allowed : gset Z) (i : nat) (radio : Z) :
  radios !! i = Some radio -> k + Z.of_nat i <> modemId -> radio ∉ foldl data_step allowed (denials modemId k radios).
Proof.
  revert k i allowed. induction radios as [| x radios IH]; intros k i allowed Hi Hne; [done |]. cbn [denials].
  rewrite foldl_app. destruct i as [| i]; simpl in Hi.
  - injection Hi as ->. destruct (Z.eqb_spec k modemId); [lia |]. simpl. intros Hin.
    apply (denials_shrink modemId (k + 1) radios _ _ [] ltac:(by rewrite app_nil_r)) in Hin. set_solver.
  - apply (IH (k + 1) i); [done | lia].
Qed.

(** What the client is told. *)
Definition modem_reply (c : RadioConfig) (serial error : Z) : list (ConfigEffect ModemsConfig) :=
  match mRadioConfigResponseV1_1 c with
  | Some client => [E_setPreferredDataModemResponse client (mkRadioResponseInfo SOLICITED serial error)]
  | None => []
  end.

(** C30. Choosing the modem for data, where the vendor has no service of
    version 1.1, fewer than 256 slots have a radio and the death of every radio
    can be watched: the method returns (257 rounds are enough), looks the
    radios up in the order of the slots, and then denies data to every other
    modem before it allows it to the chosen one, so that data is never allowed
    to a modem that did not have it except the chosen one, and in the end, of
    the modems with a slot, to the chosen one alone.  A number without a modem
    changes nothing and is answered as an invalid argument.  A client that is
    registered for version 1.1 gets exactly one answer, with its serial number;
    without one the method does the same and returns the exception for an
    illegal state. *)
Theorem preferred_data_modem (c : RadioConfig) (radios : list Z) (serial modemId : Z)
    (Hreal : mRealRadioConfigV1_1 c = None) (Hradios : radios_from c 0 radios) (Hslots : Z.of_nat (length radios) < 256)
    (Hlink : forall i radio, slot_radio c i = Some radio -> linkToDeath radio = true) (Hid : is_u8 modemId) :
  exists c' links, same_slots c c' /\ Forall (fun e => is_link e = true) links /\
    match radios !! Z.to_nat modemId with
    | Some radio =>
        exists ret, setPreferredDataModem (ModemsConfig := ModemsConfig) 257 c serial modemId =
          Ok (c', links ++ denials modemId 0 radios ++ [E_setDataAllowed radio (-1) true] ++ modem_reply c serial RadioError_NONE, ret) /\
        (ret = Config_Void <-> is_Some (mRadioConfigResponseV1_1 c)) /\
        forall allowed : gset Z,
          foldl data_step allowed (denials modemId 0 radios ++ [E_setDataAllowed radio (-1) true]) ∩ list_to_set radios = {[radio]} /\
          forall pre post, denials modemId 0 radios = pre ++ post -> foldl data_step allowed pre ⊆ allowed
    | None =>
        exists ret, setPreferredDataModem (ModemsConfig := ModemsConfig) 257 c serial modemId =
          Ok (c', links ++ modem_reply c serial INVALID_ARGUMENTS, ret) /\ (ret = Config_Void <-> is_Some (mRadioConfigResponseV1_1 c))
    end.
Proof.
  assert (256 < 257)%nat as Hfuel by lia. revert Hfuel. generalize 257%nat. intros fuel Hfuel.
  destruct (slots_loop_spec radios [] c 0 fuel) as (c' & links & Hrun & Hsame & Hl); [done | done | lia | lia | lia |].
  exists c', links. split; [done |]. split; [done |]. unfold setPreferredDataModem, CONFIG_MAYBE_WRAP_V1_1_CALL. rewrite Hreal. unfold mbind, Run_bind in *. rewrite Hrun.
  assert (mRadioConfigResponseV1_1 c' = mRadioConfigResponseV1_1 c) as Hresp by apply Hsame. unfold modem_reply, respond. rewrite !Hresp.
  destruct (radios !! Z.to_nat modemId) as [radio |] eqn:Hm; simpl.
  - assert (Z.to_nat modemId < length radios)%nat as Hlt by (by eapply lookup_lt_Some).
    rewrite bool_decide_false by (intros ->; simpl in Hlt; lia). destruct (Z.leb_spec (Z.of_nat (length radios)) modemId); [unfold is_u8 in Hid; lia |]. simpl.
    pose proof (deny_loop_spec [] radios modemId fuel) as Hdeny. change (Z.of_nat (length [])) with 0 in Hdeny. cbn [app] in Hdeny. rewrite Hdeny by lia. simpl. rewrite Hm.
    exists (match mRadioConfigResponseV1_1 c with Some _ => Config_Void | None => Config_EX_ILLEGAL_STATE end).
    split; [| split]; [destruct (mRadioConfigResponseV1_1 c); rewrite ?app_nil_r, <- ?app_assoc; reflexivity | destruct (mRadioConfigResponseV1_1 c); naive_solver |].
    intros allowed. split; [| intros pre post; apply denials_shrink].
    rewrite foldl_app. simpl. apply set_eq. intros x. rewrite elem_of_intersection, elem_of_union, elem_of_singleton, elem_of_list_to_set. split.
    + intros [[Hin | ->] Hx]; [| done]. apply list_elem_of_lookup in Hx as [i Hi]. destruct (decide (Z.of_nat i = modemId)) as [Ei | Hne].
      * rewrite <- Ei, Nat2Z.id in Hm. congruence.
      * by destruct (denials_exclude modemId 0 radios allowed i x Hi ltac:(lia)).
    + intros ->. split; [by right |]. by eapply list_elem_of_lookup_2.
  - apply lookup_ge_None in Hm. replace (bool_decide (radios = []) || _) with true
      by (symmetry; apply orb_true_iff; right; apply Z.leb_le; unfold is_u8 in Hid; lia).
    exists (match mRadioConfigResponseV1_1 c with Some _ => Config_Void | None => Config_EX_ILLEGAL_STATE end).
    split; [destruct (mRadioConfigResponseV1_1 c); rewrite ?app_nil_r; reflexivity | destruct (mRadioConfigResponseV1_1 c); naive_solver].
Qed.

(** With a radio in each of 256 slots the number wraps around and the loop
    never ends, however long it runs. *)
Theorem modem_loop_never_ends (fuel : nat) (c : RadioConfig) (k : Z) (acc : list Z) :
  (forall i, 0 <= i < 256 -> exists radio, slot_radio c i = Some radio /\ linkToDeath radio = true) -> 0 <= k < 256 ->
  slots_loop (ModemsConfig := ModemsConfig) fuel c k acc = NoFuel.
Proof.
  revert c k acc. induction fuel as [| fuel IH]; intros c k acc Hall Hk; [done |]. cbn [slots_loop].
  destruct (Hall k Hk) as (radio & Hradio & Hok).
  destruct (getRadioForModemId_spec c k) as (c1 & l & -> & [Hs _] & _); [intros x; rewrite Hradio; naive_solver |]. rewrite Hradio. cbn.
  unfold Run_bind. rewrite IH; [done | | unfold u8, wrap_u; apply Z.mod_pos_bound; lia]. intros i Hi. rewrite Hs. by apply Hall.
Qed.

End Choice.

(** ** The start of the services *)

Section Start.
Context `{ServiceManager}.
(** [registerAsService] of the service for a real service, under a name. *)
Context (registerAsService : string -> bool).

Definition MAX_SLOT_ID : Z := 4.

Inductive Started :=
  | Serving (services : list (string * Z))
  | Exit (code : Z) (services : list (string * Z)).

(** The first loop, over slots [slotId .. MAX_SLOT_ID]: the radios found, or
    the end of [main] when slot 1 has none. *)
Fixpoint find_radios (slots : nat) (slotId : Z) : Run (option (list (Z * Z))) :=
  match slots with
  | O => Ok (Some [])
  | S slots =>
      match getService ("slot" +:+ to_text slotId)%string with
      | None => if slotId =? 1 then Ok None else Ok (Some [])
      | Some realRadio =>
          if linkToDeath realRadio then
            more ← find_radios slots (slotId + 1);
            Ok (option_map (cons (slotId, realRadio)) more)
          else Aborted
      end
  end.

(** The second loop. *)
Fixpoint register_radios (radios : list (Z * Z)) (done : list (string * Z)) : Started :=
  match radios with
  | [] => Serving done
  | (slotId, radio) :: radios =>
      let name := ("slot" +:+ to_text slotId)%string in
      if registerAsService name then register_radios radios (done ++ [(name, radio)]) else Exit 1 done
  end.

Definition radio_main : Run Started :=
  radios ← find_radios (Z.to_nat MAX_SLOT_ID) 1;
  Ok (match radios with Some radios => register_radios radios [] | None => Exit 1 [] end).

Definition config_main (realRadioConfig realRadioConfigV1_1 : option Z) : Run RadioConfig :=
  match realRadioConfig with
  | None => Aborted
  | Some hal =>
      if linkToDeath hal then
        if match realRadioConfigV1_1 with None => true | Some hal' => linkToDeath hal' end then
          if registerAsService "default"%string then Ok (RadioConfig_new realRadioConfig realRadioConfigV1_1) else Aborted
        else Aborted
      else Aborted
  end.

Lemma find_radios_spec (slots : nat) (slotId : Z) (radios : list Z) :
  1 <= slotId -> (1 < slotId \/ radios <> []) ->
  (forall i radio, radios !! i = Some radio -> getService ("slot" +:+ to_text (slotId + Z.of_nat i)) = Some radio /\ linkToDeath radio = true) ->
  ((length radios < slots)%nat -> getService ("slot" +:+ to_text (slotId + Z.of_nat (length radios))) = None) -> (length radios <= slots)%nat ->
  find_radios slots slotId = Ok (Some (imap (fun i radio => (slotId + Z.of_nat i, radio)) radios)).
Proof.
  revert slotId radios. induction slots as [| slots IH]; intros slotId radios H1' Hne Hr Hend Hlen; [by destruct radios; [| simpl in Hlen; lia] |].
  cbn [find_radios]. destruct radios as [| radio radios].
  - cbn in Hend. rewrite Z.add_0_r in Hend. rewrite Hend by lia. destruct (Z.eqb_spec slotId 1); [destruct Hne; [lia | done] | done].
  - destruct (Hr 0%nat radio eq_refl) as [Hs Hl]. cbn in Hs. rewrite Z.add_0_r in Hs. rewrite Hs, Hl, (IH (slotId + 1) radios); cbn.
    + rewrite Z.add_0_r. do 3 f_equal. apply imap_ext. intros i x _. cbn. f_equal. lia.
    + lia.
    + left. lia.
    + intros i x Hi. destruct (Hr (S i) x Hi) as [Hx ?]. split; [| done].
      by replace (slotId + 1 + Z.of_nat i) with (slotId + Z.of_nat (S i)) by lia.
    + intros Hlt. replace (slotId + 1 + Z.of_nat (length radios)) with (slotId + Z.of_nat (length (radio :: radios))) by (simpl; lia).
      apply Hend. simpl. lia.
    + simpl in Hlen. lia.
Qed.

Lemma register_radios_all (radios : list (Z * Z)) done :
  (forall name, registerAsService name = true) ->
  register_radios radios done = Serving (done ++ ((fun sr => ("slot" +:+ to_text sr.1, sr.2)%string) <$> radios)).
Proof.
  intros Hreg. revert done. induction radios as [| [s x] radios IH]; intros done; cbn; [by rewrite app_nil_r |].
  rewrite Hreg, IH, <- app_assoc. done.
Qed.

(** The radio service registers a wrapper for each of the first slots that have
    a radio, at most four, under the name of the slot, and ends at once when
    slot 1 has none. *)
Theorem radio_main_registers (radios : list Z) :
  (forall name, registerAsService name = true) ->
  (forall i radio, radios !! i = Some radio -> getService ("slot" +:+ to_text (1 + Z.of_nat i)) = Some radio /\ linkToDeath radio = true) ->
  ((length radios < 4)%nat -> getService ("slot" +:+ to_text (1 + Z.of_nat (length radios))) = None) -> (length radios <= 4)%nat ->
  radio_main =
  Ok (match radios with
      | [] => Exit 1 []
      | _ => Serving (imap (fun i radio => (("slot" +:+ to_text (1 + Z.of_nat i))%string, radio)) radios)
      end).
Proof.
  intros Hreg Hr Hend Hlen. unfold radio_main. destruct radios as [| radio radios].
  - assert (getService ("slot" +:+ to_text 1) = None) as Hnone by (apply Hend; simpl; lia).
    change (Z.to_nat MAX_SLOT_ID) with 4%nat. cbn [find_radios]. by rewrite Hnone.
  - change (Z.to_nat MAX_SLOT_ID) with 4%nat. rewrite (find_radios_spec 4 1 (radio :: radios)); [| lia | by right | done | done | done].
    unfold mbind, Run_bind. f_equal. rewrite register_radios_all by done. cbn [app]. f_equal. rewrite fmap_imap. by apply imap_ext.
Qed.

End Start.

(** ** Example: two radios, the second one is chosen *)

Definition two_slots : ServiceManager :=
  {| getService := fun name => if (name =? "slot1")%string then Some 11 else if (name =? "slot2")%string then Some 12 else None;
     linkToDeath := fun _ => true; castFrom_ConfigResponse_1_1 := fun _ => true |}.
Definition config_numbers : ConfigEnums := {| SOLICITED := 0; RadioError_NONE := 0; INVALID_ARGUMENTS := 44; REQUEST_NOT_SUPPORTED := 6 |}.

Lemma two_slots_radios (c : RadioConfig) : mModemIdToRadioCache c = ∅ -> radios_from (H0 := two_slots) c 0 [11; 12].
Proof.
  intros Hc. split; [| unfold slot_radio; by rewrite Hc].
  intros [| [| i]] radio Hi; simpl in Hi; [| | done]; injection Hi as <-; unfold slot_radio; by rewrite Hc.
Qed.

#[local] Existing Instances two_slots config_numbers.

Lemma preferred_data_modem_witness :
  exists c' links ret,
    setPreferredDataModem (ModemsConfig := unit) 257 (RadioConfig_new (Some 1) None) 5 1 =
    Ok (c', links ++ [E_setDataAllowed 11 (-1) false; E_setDataAllowed 12 (-1) true], ret).
Proof.
  destruct (@preferred_data_modem unit config_numbers two_slots (RadioConfig_new (Some 1) None) [11; 12] 5 1 eq_refl
              (two_slots_radios (RadioConfig_new (Some 1) None) eq_refl) eq_refl
              (fun _ _ _ => eq_refl) ltac:(by unfold is_u8)) as (c' & links & _ & _ & Hm).
  destruct Hm as (ret & Hrun & _). exists c', links, ret. exact Hrun.
Defined.
