(* ===== verification/DisplayEvents.v ===== *)
(** * Display events

    [src/_frameworks/displayservice/DisplayEventReceiver.cpp]: a client attaches
    a callback, which then gets the vsync and hotplug events that a receiver of
    the framework library reads from its descriptor, on the thread of a looper.
    The looper and the receiver are not part of the repository: the looper is
    the class [Looper] with its documented laws, what the receiver answers
    comes with each call.  The theorems show that, while the looper accepts
    the descriptors it is given, the service implements the contract of
    [1.0/IDisplayEventReceiver.hal], and what it answers when the looper refuses
    one. *)

From S2P Require Import Prelude.

(** The receiver of the framework: its descriptor and whether it is connected. *)
Record FwkReceiver := mkFwkReceiver { fwk_fd : Z; fwk_initCheck : bool }.

Record AttachedEvent := mkAttachedEvent {
  mFwkReceiver : FwkReceiver;
  mCallback : Z;
  mLooperAttached : bool
}.

(** The looper: descriptors with the object to call.  [addFd] takes the object
    as it will be, with the answer stored in it. *)
Class Looper (L : Type) := {
  addFd : Z -> (Z -> AttachedEvent) -> L -> Z * L;
  removeFd : Z -> L -> Z * L;
  watched : Z -> L -> option AttachedEvent;
  EVENT_INPUT : Z;
  EVENT_ERROR : Z;
  EVENT_HANGUP : Z
}.

(** As documented: [addFd] returns 1 and watches the descriptor, or -1 and does
    nothing, which it does for an invalid descriptor; [removeFd] returns 1, or
    0 if the descriptor was not watched, and in both cases it is not watched
    afterwards. *)
Class LooperLaws (L : Type) `{Looper L} := {
  addFd_spec : forall fd obj l,
    ((addFd fd obj l).1 = 1 /\ 0 <= fd /\ forall fd', watched fd' (addFd fd obj l).2 = if fd' =? fd then Some (obj 1) else watched fd' l) \/
    ((addFd fd obj l).1 = -1 /\ forall fd', watched fd' (addFd fd obj l).2 = watched fd' l);
  removeFd_spec : forall fd l,
    (removeFd fd l).1 = (if watched fd l then 1 else 0) /\
    forall fd', watched fd' (removeFd fd l).2 = if fd' =? fd then None else watched fd' l
}.

Inductive DisplayStatus := DISPLAY_SUCCESS | DISPLAY_BAD_VALUE | DISPLAY_UNKNOWN.

(** Events of the receiver; the callback's answer to an event comes with it. *)
Inductive DisplayEvent :=
  | EVENT_VSYNC (timestamp count : Z)
  | EVENT_HOTPLUG (timestamp : Z) (connected : bool)
  | EVENT_other (type : Z).

Inductive DisplayEffect :=
  | CB_onVsync (callback timestamp count : Z)
  | CB_onHotplug (callback timestamp : Z) (connected : bool)
  | FWK_setVsyncRate (fd count : Z)
  | FWK_requestNextVsync (fd : Z).

Section Receiver.
Context {L : Type} `{Looper L}.

(** The service with the looper it shares. *)
Record DisplayEventReceiver := mkDisplayEventReceiver {
  mAttached : option AttachedEvent;
  looper : L
}.

(** The answer of [addFd], an [int], is stored in a [bool]. *)
Definition attached_object (r : FwkReceiver) (callback answer : Z) : AttachedEvent := mkAttachedEvent r callback (negb (answer =? 0)).

Definition AttachedEvent_new (r : FwkReceiver) (callback : Z) (l : L) : AttachedEvent * L :=
  let '(answer, l) := addFd (fwk_fd r) (attached_object r callback) l in (attached_object r callback answer, l).

Definition valid (a : AttachedEvent) : bool := fwk_initCheck (mFwkReceiver a) && mLooperAttached a.

Definition detach (a : AttachedEvent) (l : L) : bool * L :=
  if negb (valid a) then (true, l)
  else let '(answer, l) := removeFd (fwk_fd (mFwkReceiver a)) l in (negb (answer =? 0), l).

(** The destructor, with what it logs. *)
Definition AttachedEvent_destroy (a : AttachedEvent) (l : L) : bool * L := detach a l.

(** The loop of [handleEvent] over the events read: the calls of the callback,
    and whether the looper keeps the descriptor. *)
Fixpoint handle_events (callback : Z) (evs : list (DisplayEvent * bool)) : list DisplayEffect * bool :=
  match evs with
  | [] => ([], true)
  | (EVENT_VSYNC timestamp count, isOk) :: evs =>
      if isOk then let '(out, keep) := handle_events callback evs in (CB_onVsync callback timestamp count :: out, keep)
      else ([CB_onVsync callback timestamp count], false)
  | (EVENT_HOTPLUG timestamp connected, isOk) :: evs =>
      if isOk then let '(out, keep) := handle_events callback evs in (CB_onHotplug callback timestamp connected :: out, keep)
      else ([CB_onHotplug callback timestamp connected], false)
  | (EVENT_other _, _) :: evs => handle_events callback evs
  end.

Definition AttachedEvent_handleEvent (a : AttachedEvent) (events : Z) (evs : list (DisplayEvent * bool)) : list DisplayEffect * bool :=
  if negb (Z.land events (Z.lor EVENT_ERROR EVENT_HANGUP) =? 0) then ([], false)
  else if Z.land events EVENT_INPUT =? 0 then ([], true)
  else handle_events (mCallback a) evs.

(** Calls of the client. *)
Definition init (s : DisplayEventReceiver) (callback : option Z) (r : FwkReceiver) : DisplayEventReceiver * DisplayStatus :=
  match mAttached s, callback with
  | None, Some cb =>
      let '(a, l) := AttachedEvent_new r cb (looper s) in
      (mkDisplayEventReceiver (Some a) l, if valid a then DISPLAY_SUCCESS else DISPLAY_UNKNOWN)
  | _, _ => (s, DISPLAY_BAD_VALUE)
  end.

(** [ok] is the answer of the framework. *)
Definition setVsyncRate (s : DisplayEventReceiver) (count : Z) (ok : bool) : DisplayStatus * list DisplayEffect :=
  match mAttached s with
  | Some a =>
      if count <? 0 then (DISPLAY_BAD_VALUE, [])
      else (if ok then DISPLAY_SUCCESS else DISPLAY_UNKNOWN, [FWK_setVsyncRate (fwk_fd (mFwkReceiver a)) count])
  | None => (DISPLAY_BAD_VALUE, [])
  end.

Definition requestNextVsync (s : DisplayEventReceiver) (ok : bool) : DisplayStatus * list DisplayEffect :=
  match mAttached s with
  | Some a => (if ok then DISPLAY_SUCCESS else DISPLAY_UNKNOWN, [FWK_requestNextVsync (fwk_fd (mFwkReceiver a))])
  | None => (DISPLAY_BAD_VALUE, [])
  end.

(** Dropping the last pointer destroys the object. *)
Definition close_receiver (s : DisplayEventReceiver) : DisplayEventReceiver * DisplayStatus :=
  match mAttached s with
  | Some a =>
      let '(success, l) := detach a (looper s) in
      let '(_, l) := AttachedEvent_destroy a l in
      (mkDisplayEventReceiver None l, if success then DISPLAY_SUCCESS else DISPLAY_UNKNOWN)
  | None => (s, DISPLAY_BAD_VALUE)
  end.

(** ** Histories *)

Inductive DisplayOp :=
  | D_init (callback : option Z) (r : FwkReceiver)
  | D_setVsyncRate (count : Z) (ok : bool)
  | D_requestNextVsync (ok : bool)
  | D_close
  | D_event (fd events : Z) (evs : list (DisplayEvent * bool)).   (* the looper finds events on a descriptor *)

(** The looper calls the object of a descriptor it watches, and stops watching
    it when the object asks for that. *)
Definition display_op (s : DisplayEventReceiver) (op : DisplayOp) : DisplayEventReceiver * option DisplayStatus * list DisplayEffect :=
  match op with
  | D_init callback r => let '(s, st) := init s callback r in (s, Some st, [])
  | D_setVsyncRate count ok => let '(st, out) := setVsyncRate s count ok in (s, Some st, out)
  | D_requestNextVsync ok => let '(st, out) := requestNextVsync s ok in (s, Some st, out)
  | D_close => let '(s, st) := close_receiver s in (s, Some st, [])
  | D_event fd events evs =>
      match watched fd (looper s) with
      | Some a =>
          let '(out, keep) := AttachedEvent_handleEvent a events evs in
          ((if keep then s else mkDisplayEventReceiver (mAttached s) (removeFd fd (looper s)).2), None, out)
      | None => (s, None, [])
      end
  end.

Fixpoint display_run (s : DisplayEventReceiver) (ops : list DisplayOp) : DisplayEventReceiver * list (option DisplayStatus * list DisplayEffect) :=
  match ops with
  | [] => (s, [])
  | op :: ops => let '(s, st, out) := display_op s op in let '(s, outs) := display_run s ops in (s, (st, out) :: outs)
  end.

(** ** The contract

    To a client the service is idle, or has a callback that is connected or not
    and that is live until the callback fails or the descriptor breaks. *)

Record Attachment := mkAttachment { at_receiver : FwkReceiver; at_callback : Z; at_live : bool }.

(** What a client is told of an event; events of other types are not reported. *)
Definition told (callback : Z) (ev : DisplayEvent) : option DisplayEffect :=
  match ev with
  | EVENT_VSYNC timestamp count => Some (CB_onVsync callback timestamp count)
  | EVENT_HOTPLUG timestamp connected => Some (CB_onHotplug callback timestamp connected)
  | EVENT_other _ => None
  end.

(** The callback was called and failed. *)
Definition call_fails (callback : Z) (e : DisplayEvent * bool) : bool := match told callback e.1 with Some _ => negb e.2 | None => false end.

(** The events up to the first whose callback fails, that one included. *)
Definition until_failure (callback : Z) (evs : list (DisplayEvent * bool)) : list (DisplayEvent * bool) :=
  match list_find (fun e => call_fails callback e = true) evs with Some (i, _) => take (S i) evs | None => evs end.

Definition contract_op (c : option Attachment) (op : DisplayOp) : option Attachment * option DisplayStatus * list DisplayEffect :=
  match op, c with
  | D_init (Some cb) r, None =>
      (Some (mkAttachment r cb (fwk_initCheck r)), Some (if fwk_initCheck r then DISPLAY_SUCCESS else DISPLAY_UNKNOWN), [])
  | D_init _ _, _ => (c, Some DISPLAY_BAD_VALUE, [])
  | D_event fd events evs, Some a =>
      let heard := at_live a && (fd =? fwk_fd (at_receiver a)) in
      let broken := negb (Z.land events EVENT_ERROR =? 0) || negb (Z.land events EVENT_HANGUP =? 0) in
      let read := if heard && negb broken && negb (Z.land events EVENT_INPUT =? 0) then evs else [] in
      (Some (mkAttachment (at_receiver a) (at_callback a) (at_live a && negb (heard && broken) && forallb (fun e => negb (call_fails (at_callback a) e)) read)),
       None, omap (told (at_callback a)) (until_failure (at_callback a) read).*1)
  | D_event _ _ _, None => (c, None, [])
  | _, None => (c, Some DISPLAY_BAD_VALUE, [])
  | D_setVsyncRate count ok, Some a =>
      (c, Some (if count <? 0 then DISPLAY_BAD_VALUE else if ok then DISPLAY_SUCCESS else DISPLAY_UNKNOWN),
       if count <? 0 then [] else [FWK_setVsyncRate (fwk_fd (at_receiver a)) count])
  | D_requestNextVsync ok, Some a => (c, Some (if ok then DISPLAY_SUCCESS else DISPLAY_UNKNOWN), [FWK_requestNextVsync (fwk_fd (at_receiver a))])
  | D_close, Some a => (None, Some (if at_live a || negb (fwk_initCheck (at_receiver a)) then DISPLAY_SUCCESS else DISPLAY_UNKNOWN), [])
  end.

Fixpoint contract_run (c : option Attachment) (ops : list DisplayOp) : option Attachment * list (option DisplayStatus * list DisplayEffect) :=
  match ops with
  | [] => (c, [])
  | op :: ops => let '(c, st, out) := contract_op c op in let '(c, outs) := contract_run c ops in (c, (st, out) :: outs)
  end.

(** The service as the client sees it: the looper calls the attached object and
    no other, as long as the attachment is live. *)
Definition attached_as (s : DisplayEventReceiver) (c : option Attachment) : Prop :=
  match mAttached s, c with
  | None, None => forall fd, watched fd (looper s) = None
  | Some a, Some c =>
      mFwkReceiver a = at_receiver c /\ mCallback a = at_callback c /\ mLooperAttached a = true /\
      (at_live c = true -> fwk_initCheck (at_receiver c) = true) /\
      forall fd, watched fd (looper s) = if at_live c && (fd =? fwk_fd (at_receiver c)) then Some a else None
  | _, _ => False
  end.

(** A receiver has a descriptor when it is connected, and an error in its place
    when it is not. *)
Definition display_op_ok (op : DisplayOp) : Prop :=
  match op with D_init _ r => fwk_initCheck r = (0 <=? fwk_fd r) | _ => True end.

(** The looper accepts every valid descriptor. *)
Definition accepting : Prop := forall fd obj (l : L), 0 <= fd -> (addFd fd obj l).1 = 1.

(** The loop tells the client what the contract says. *)
Lemma handle_events_told callback evs :
  handle_events callback evs = (omap (told callback) (until_failure callback evs).*1, forallb (fun e => negb (call_fails callback e)) evs).
Proof.
  unfold until_failure. induction evs as [| [ev ok] evs IH]; [done |].
  assert (forall b, call_fails callback (ev, ok) = false -> handle_events callback ((ev, ok) :: evs) =
            (match told callback ev with Some x => [x] | None => [] end ++ (handle_events callback evs).1, b) ->
            b = (handle_events callback evs).2 -> handle_events callback ((ev, ok) :: evs) =
            (omap (told callback) (match list_find (fun e => call_fails callback e = true) ((ev, ok) :: evs) with
                                   | Some (i, _) => take (S i) ((ev, ok) :: evs) | None => (ev, ok) :: evs end).*1,
             forallb (fun e => negb (call_fails callback e)) ((ev, ok) :: evs))) as Hpass.
  { intros b Hf Heq Hb. rewrite Heq, Hb, IH. cbn [list_find forallb fst snd]. rewrite decide_False by (by rewrite Hf). rewrite Hf. cbn [negb andb].
    f_equal. destruct (list_find _ evs) as [[i e] |]; cbn; by destruct (told callback ev). }
  destruct ev as [timestamp count | timestamp connected | type]; [destruct ok | destruct ok |];
    [ eapply Hpass; [done | | reflexivity]; cbn; by destruct (handle_events callback evs) | done
    | eapply Hpass; [done | | reflexivity]; cbn; by destruct (handle_events callback evs) | done
    | eapply Hpass; [done | | reflexivity]; cbn; by destruct (handle_events callback evs) ].
Qed.

Lemma handleEvent_told a events evs :
  AttachedEvent_handleEvent a events evs =
    let broken := negb (Z.land events EVENT_ERROR =? 0) || negb (Z.land events EVENT_HANGUP =? 0) in
    let read := if negb broken && negb (Z.land events EVENT_INPUT =? 0) then evs else [] in
    (omap (told (mCallback a)) (until_failure (mCallback a) read).*1, negb broken && forallb (fun e => negb (call_fails (mCallback a) e)) read).
Proof.
  unfold AttachedEvent_handleEvent. cbv zeta. rewrite Z.land_lor_distr_r.
  assert (Z.lor (Z.land events EVENT_ERROR) (Z.land events EVENT_HANGUP) =? 0 = (Z.land events EVENT_ERROR =? 0) && (Z.land events EVENT_HANGUP =? 0)) as ->.
  { apply eq_true_iff_eq. rewrite andb_true_iff, !Z.eqb_eq. apply Z.lor_eq_0_iff. }
  destruct (Z.land events EVENT_ERROR =? 0), (Z.land events EVENT_HANGUP =? 0), (Z.land events EVENT_INPUT =? 0); try done.
  cbn. apply handle_events_told.
Qed.

Context `{!LooperLaws L}.

Lemma detach_attached s a c :
  mAttached s = Some a -> attached_as s (Some c) ->
  (detach a (looper s)).1 = (at_live c || negb (fwk_initCheck (at_receiver c))) /\ forall fd, watched fd (detach a (looper s)).2 = None.
Proof.
  intros Ha. unfold attached_as. rewrite Ha. intros (Hr & Hcb & Hl & Hv & Hw). unfold detach, valid. rewrite Hl, andb_true_r, Hr.
  destruct (fwk_initCheck (at_receiver c)) eqn:Hi; simpl.
  - destruct (removeFd_spec (fwk_fd (at_receiver c)) (looper s)) as [Hans Hrm].
    destruct (removeFd (fwk_fd (at_receiver c)) (looper s)) as [ans l]. simpl in *. rewrite Hans, Hw, Z.eqb_refl, andb_true_r. split.
    + by destruct (at_live c).
    + intros fd. rewrite Hrm, Hw. destruct (fd =? _); [done |]. by rewrite andb_false_r.
  - assert (at_live c = false) as Hlive by (destruct (at_live c); [by discriminate Hv | done]). split; [by rewrite Hlive |]. intros fd. by rewrite Hw, Hlive.
Qed.

Lemma detach_unwatched a l : (forall fd, watched fd l = None) -> forall fd, watched fd (detach a l).2 = None.
Proof.
  intros Hl fd. unfold detach. destruct (valid a); simpl; [| done].
  destruct (removeFd_spec (fwk_fd (mFwkReceiver a)) l) as [_ Hrm]. destruct (removeFd _ l) as [ans l']. simpl in *. rewrite Hrm, Hl. by destruct (fd =? _).
Qed.

(** An event, on the attached object. *)
Lemma display_event_refines s a c fd events evs :
  mAttached s = Some a -> attached_as s (Some c) ->
  let op := D_event fd events evs in
  attached_as (display_op s op).1.1 (contract_op (Some c) op).1.1 /\ (display_op s op).1.2 = (contract_op (Some c) op).1.2 /\
  (display_op s op).2 = (contract_op (Some c) op).2.
Proof.
  intros Ha Hs op. unfold attached_as in Hs. rewrite Ha in Hs. destruct Hs as (Hr & Hcb & Hl & Hv & Hw). cbn. rewrite Hw.
  destruct (at_live c && (fd =? fwk_fd (at_receiver c))) eqn:Elive; cbn.
  - rewrite handleEvent_told, Hcb. cbv zeta. apply andb_true_iff in Elive as [Elive Efd%Z.eqb_eq]. rewrite Elive.
    set (broken := negb _ || negb _). set (read := if _ && _ then evs else []).
    destruct (negb broken && forallb _ read) eqn:Ekeep; cbn; (split; [| done]); unfold attached_as; cbn; rewrite Ha, Ekeep; split_and!; try done.
    + intros _. by apply Hv.
    + intros fd'. by rewrite Hw, Elive.
    + intros fd'. destruct (removeFd_spec fd (looper s)) as [_ Hrm]. rewrite Hrm, Hw, Efd. destruct (fd' =? _); [done | by rewrite andb_false_r].
  - split; [| done]. unfold attached_as. cbn. rewrite Ha, !andb_true_r. split_and!; try done.
Qed.

(** A call of the client, on an attached object and on none. *)
Lemma display_op_refines s c op :
  accepting -> attached_as s c -> display_op_ok op ->
  attached_as (display_op s op).1.1 (contract_op c op).1.1 /\ (display_op s op).1.2 = (contract_op c op).1.2 /\ (display_op s op).2 = (contract_op c op).2.
Proof.
  intros Hacc Hs Hok. pose proof Hs as Hs'. unfold attached_as in Hs'.
  destruct (mAttached s) as [a |] eqn:Ha, c as [c |]; try done.
  - destruct op as [callback r | count ok | ok | | fd events evs]; [| | | | by apply (display_event_refines s a)]; cbn.
    + unfold init. rewrite Ha. by destruct callback.
    + unfold setVsyncRate. rewrite Ha, (proj1 Hs'). by destruct (count <? 0).
    + unfold requestNextVsync. by rewrite Ha, (proj1 Hs').
    + unfold close_receiver, AttachedEvent_destroy. rewrite Ha. destruct (detach_attached s a c Ha Hs) as [Hans Hnone].
      destruct (detach a (looper s)) as [success l]. simpl in *. pose proof (detach_unwatched a l Hnone) as Hnone'.
      destruct (detach a l) as [x l']. simpl in *. by rewrite Hans.
  - destruct op as [callback r | count ok | ok | | fd events evs]; cbn.
    + unfold init. rewrite Ha. destruct callback as [cb |]; cbn; [| done]. cbn in Hok. unfold AttachedEvent_new.
      destruct (addFd_spec (fwk_fd r) (attached_object r cb) (looper s)) as [(Hans & Hfd & Hadd) | (Hans & Hadd)].
      * rewrite Hok, (proj2 (Z.leb_le _ _) Hfd) in *. destruct (addFd _ _ (looper s)) as [ans l]. simpl in *. subst ans.
        unfold attached_as, valid, attached_object. cbn. rewrite Hok. split_and!; try done. intros fd. by rewrite Hadd, Hs'.
      * destruct (Z.leb_spec 0 (fwk_fd r)) as [Hfd | Hfd]; [specialize (Hacc (fwk_fd r) (attached_object r cb) (looper s) Hfd); lia |].
        destruct (addFd _ _ (looper s)) as [ans l]. simpl in *. subst ans. unfold attached_as, valid, attached_object. cbn. rewrite Hok.
        split_and!; try done. intros fd. by rewrite Hadd, Hs'.
    + unfold setVsyncRate. by rewrite Ha.
    + unfold requestNextVsync. by rewrite Ha.
    + unfold close_receiver. by rewrite Ha.
    + by rewrite Hs'.
Qed.

(** C32. The display service implements the contract of its interface, when
    the looper accepts every valid descriptor: for every sequence of calls and
    of events on any descriptor, taken one after the other, the statuses are
    those of the contract and so are the callbacks, written without reference
    to the event loop of the service: the vsync and hotplug events read reach
    the attached callback, in order, until a call of it fails, the descriptor
    breaks or the client closes, and none after that.  A refused descriptor,
    for which the interface promises UNKNOWN, is the subject of
    [refused_descriptor_reported]. *)
Theorem display_refines_contract (s : DisplayEventReceiver) (ops : list DisplayOp)
    (Haccepting : accepting)
    (Hidle : mAttached s = None) (Hunwatched : forall fd, watched fd (looper s) = None) (Hops : Forall display_op_ok ops) :
  attached_as (display_run s ops).1 (contract_run None ops).1 /\ (display_run s ops).2 = (contract_run None ops).2.
Proof.
  assert (attached_as s None) as Hs by (unfold attached_as; by rewrite Hidle). clear Hidle Hunwatched. revert s Hs. generalize (@None Attachment).
  induction Hops as [| op ops Hop Hops IH]; intros c s Hs; [done |]. cbn [display_run contract_run].
  destruct (display_op_refines s c op Haccepting Hs Hop) as (Hs1 & Hst & Hout). destruct (display_op s op) as [[s1 st] out].
  destruct (contract_op c op) as [[c1 st'] out']. simpl in *. subst st' out'. specialize (IH c1 s1 Hs1).
  destruct (display_run s1 ops), (contract_run c1 ops). simpl in *. destruct IH as [? ->]. done.
Qed.

End Receiver.
Arguments DisplayEventReceiver : clear implicits.

(** A looper that refuses a descriptor is not noticed, since its answer -1 is
    taken for success: the client is told that the callback is attached, no
    event ever reaches it, and closing fails. *)
Theorem refused_descriptor_reported {L : Type} `{LooperLaws L} (s : DisplayEventReceiver L) (cb : Z) (r : FwkReceiver) :
  attached_as s None -> fwk_initCheck r = true -> (addFd (fwk_fd r) (attached_object r cb) (looper s)).1 = -1 ->
  let s1 := (display_op s (D_init (Some cb) r)).1.1 in
  (display_op s (D_init (Some cb) r)).1.2 = Some DISPLAY_SUCCESS /\ (forall fd events evs, (display_op s1 (D_event fd events evs)).2 = []) /\
  (display_op s1 D_close).1.2 = Some DISPLAY_UNKNOWN.
Proof.
  intros Hs Hi Hans s1. unfold attached_as in Hs. destruct (mAttached s) as [|] eqn:Ha; [done |].
  destruct (addFd_spec (fwk_fd r) (attached_object r cb) (looper s)) as [(Hans' & _) | (_ & Hadd)]; [lia |].
  assert (display_op s (D_init (Some cb) r) =
            (mkDisplayEventReceiver (Some (attached_object r cb (-1))) (addFd (fwk_fd r) (attached_object r cb) (looper s)).2, Some DISPLAY_SUCCESS, [])) as E.
  { cbn. unfold init, AttachedEvent_new. rewrite Ha. destruct (addFd _ _ _) as [ans l]. cbn in Hans. subst ans. unfold valid. cbn. by rewrite Hi. }
  subst s1. rewrite E. cbn [fst snd]. split; [done |]. split.
  - intros fd events evs. cbn. by rewrite Hadd, Hs.
  - cbn. unfold close_receiver, AttachedEvent_destroy, detach, valid. cbn. rewrite Hi. cbn. destruct (removeFd_spec (fwk_fd r) (addFd (fwk_fd r) (attached_object r cb) (looper s)).2) as [Hrm _].
    rewrite Hadd, Hs in Hrm. destruct (removeFd _ _) as [ans l]. cbn in Hrm. subst ans. by destruct (removeFd (fwk_fd r) l).
Qed.

(** ** Example: a looper with a map *)

Definition map_looper : Looper (gmap Z AttachedEvent) := {|
  addFd := fun fd obj l => if 0 <=? fd then (1, <[fd := obj 1]> l) else (-1, l);
  removeFd := fun fd l => ((if l !! fd then 1 else 0), delete fd l);
  watched := fun fd l => l !! fd;
  EVENT_INPUT := 1; EVENT_ERROR := 4; EVENT_HANGUP := 8
|}.
#[local] Existing Instance map_looper.

#[export] Instance map_looper_laws : LooperLaws (gmap Z AttachedEvent).
Proof.
  split.
  - intros fd obj l. cbn. destruct (Z.leb_spec 0 fd); [left | right]; cbn; split_and!; try done.
    intros fd'. destruct (Z.eqb_spec fd' fd) as [-> | Hne]; [by rewrite lookup_insert_eq | by rewrite lookup_insert_ne].
  - intros fd l. cbn. split; [done |]. intros fd'. destruct (Z.eqb_spec fd' fd) as [-> | Hne]; [by rewrite lookup_delete_eq | by rewrite lookup_delete_ne].
Qed.

(** A vsync and a hotplug event are delivered up to the failing call, none after it. *)
Lemma display_refines_contract_witness :
  let vsync t := D_event 3 1 [(EVENT_VSYNC t 1, true); (EVENT_HOTPLUG t true, false); (EVENT_VSYNC t 2, true)] in
  let ops := [D_init (Some 5) (mkFwkReceiver 3 true); vsync 10; vsync 20; D_close] in
  (display_run (mkDisplayEventReceiver None (∅ : gmap Z AttachedEvent)) ops).2 =
  [(Some DISPLAY_SUCCESS, []); (None, [CB_onVsync 5 10 1; CB_onHotplug 5 10 true]); (None, []); (Some DISPLAY_UNKNOWN, [])].
Proof.
  intros vsync ops.
  destruct (@display_refines_contract _ map_looper map_looper_laws (mkDisplayEventReceiver None ∅) ops) as [_ ->];
    [intros fd obj l Hfd; cbn; by rewrite (proj2 (Z.leb_le _ _) Hfd) | done | done | by repeat constructor | done].
Defined.
