(* ===== verification/ThermalListener.v ===== *)
(** * The thermal listener

    [src/power-libperfmgr/aidl/utils/ThermalStateListener.cpp]: the power HAL's
    client of the thermal HAL, which keeps the severity of skin throttling that
    the session manager stores with its metrics.  The thermal service is not
    part of the repository: what it answers comes with each call. *)

From S2P Require Import Prelude SessionMetrics.

Section Thermal.
(** [ThrottlingSeverity::NONE] and [TemperatureType::SKIN]. *)
Context (NONE : ThrottlingSeverity) (SKIN : Z).

Record Temperature := mkTemperature { temp_type : Z; throttlingStatus : ThrottlingSeverity }.

Record ThermalStateListener := mkThermalStateListener {
  mThermalAIDL : bool;         (* connected *)
  mThermalCallback : bool;     (* created *)
  mThermalThrotSev : ThrottlingSeverity
}.
#[export] Instance ThermalStateListener_eta : Record_eta ThermalStateListener :=
  fun t => mkThermalStateListener (mThermalAIDL t) (mThermalCallback t) (mThermalThrotSev t).

Definition ThermalStateListener_new : ThermalStateListener := mkThermalStateListener false false NONE.

(** What the thermal service and the service manager answer. *)
Record ThermalAnswers := mkThermalAnswers {
  isDeclared : bool; waitForService : bool; fromBinder : bool; registerThermalChangedCallback : bool
}.

Definition connectThermalHal (e : ThermalAnswers) (t : ThermalStateListener) : bool * ThermalStateListener :=
  if negb (isDeclared e) then (false, t)
  else if negb (waitForService e) then (false, t)
  else
    let t := t <| mThermalAIDL := fromBinder e |> in
    (mThermalAIDL t, t).

Definition thermalCallback (temp : Temperature) (t : ThermalStateListener) : ThermalStateListener :=
  if temp_type temp =? SKIN then t <| mThermalThrotSev := throttlingStatus temp |> else t.

Definition registerCallback (e : ThermalAnswers) (t : ThermalStateListener) : bool * ThermalStateListener :=
  if negb (mThermalAIDL t) then (false, t)
  else
    let t := if negb (mThermalCallback t) then t <| mThermalCallback := true |> else t in
    (registerThermalChangedCallback e, t).

Definition thermal_init (e : ThermalAnswers) (t : ThermalStateListener) : bool * ThermalStateListener :=
  let '(connected, t) := connectThermalHal e t in
  if connected then registerCallback e t else (false, t).

Definition getThermalThrotSev (t : ThermalStateListener) : ThrottlingSeverity := mThermalThrotSev t.

(** Starts, and notifications through the callback object. *)
Inductive ThermalOp := T_init (e : ThermalAnswers) | T_notify (temp : Temperature).

Definition thermal_op (t : ThermalStateListener) (op : ThermalOp) : ThermalStateListener :=
  match op with
  | T_init e => (thermal_init e t).2
  | T_notify temp => if mThermalCallback t then thermalCallback temp t else t
  end.

(** The severity of the last notification of the skin that could arrive. *)
Definition skin_severity (sev : ThrottlingSeverity) (op : ThermalOp) : ThrottlingSeverity :=
  match op with T_notify temp => if temp_type temp =? SKIN then throttlingStatus temp else sev | T_init _ => sev end.

Lemma thermal_init_result e t : (thermal_init e t).1 = isDeclared e && waitForService e && fromBinder e && registerThermalChangedCallback e.
Proof. unfold thermal_init, connectThermalHal, registerCallback. by destruct (isDeclared e), (waitForService e), (fromBinder e). Qed.

Lemma thermal_init_callback e t :
  mThermalCallback (thermal_init e t).2 = (mThermalCallback t || (isDeclared e && waitForService e && fromBinder e)) /\
  mThermalThrotSev (thermal_init e t).2 = mThermalThrotSev t.
Proof.
  unfold thermal_init, connectThermalHal, registerCallback.
  destruct (isDeclared e), (waitForService e), (fromBinder e), t as [a [] s]; cbn; done.
Qed.

(** The start succeeds exactly if every step does; once it did, the severity
    read is that of the last notification about the skin, whatever other
    temperatures are reported in between and however often it is started again. *)
Theorem thermal_severity (e : ThermalAnswers) (ops : list ThermalOp) :
  (thermal_init e ThermalStateListener_new).1 = true ->
  getThermalThrotSev (foldl thermal_op (thermal_init e ThermalStateListener_new).2 ops) = foldl skin_severity NONE ops.
Proof.
  rewrite thermal_init_result. intros [[[H1 H2]%andb_true_iff H3]%andb_true_iff _]%andb_true_iff.
  destruct (thermal_init_callback e ThermalStateListener_new) as [Hcb Hsev]. rewrite H1, H2, H3 in Hcb. simpl in Hcb, Hsev. revert Hcb Hsev.
  generalize (thermal_init e ThermalStateListener_new).2, NONE. induction ops as [| op ops IH]; intros t sev Hcb Hsev; [done |]. cbn [foldl].
  apply IH; destruct op as [e' | temp]; cbn.
  - destruct (thermal_init_callback e' t) as [-> _]. by rewrite Hcb.
  - rewrite Hcb. unfold thermalCallback. by destruct (temp_type temp =? SKIN).
  - by destruct (thermal_init_callback e' t) as [_ ->].
  - rewrite Hcb. unfold thermalCallback. by destruct (temp_type temp =? SKIN).
Qed.

End Thermal.
