(* ===== verification/PowerStart.v ===== *)
(** * Start of the power service, and the names of its trace counters
      (src/power-libperfmgr/aidl/service.cpp, AppDescriptorTrace.h)

    [main] builds the service and its extension, attaches and registers them,
    and leaves the start of the hint manager's looper and of the thermal
    listener to a thread that waits for a property.

    Every session has a set of trace counters, named after its id string when
    the session is made.  Counters are global to the system's tracing service,
    which identifies them by name: shown here is that the names of a session
    differ from each other and from those of every other session. *)

From Stdlib Require Import Ascii.
From S2P Require Import Prelude Text AdpfTypes GpuNode PowerSessionManager PowerHintSession InteractionHandler PowerService PowerSystem ThermalListener.

(** ** Trace names *)

Record AppDescriptorTrace := mkAppDescriptorTrace {
  trace_pid_err : string;
  trace_pid_integral : string;
  trace_pid_derivative : string;
  trace_pid_pOut : string;
  trace_pid_iOut : string;
  trace_pid_dOut : string;
  trace_pid_output : string;
  trace_target : string;
  trace_active : string;
  trace_add_threads : string;
  trace_actl_last : string;
  trace_min : string;
  trace_batch_size : string;
  trace_hint_count : string;
  trace_hint_overtime : string;
  trace_is_first_frame : string;
  trace_avg_duration : string;
  trace_hboost_janky_level : string;
  trace_hboost_pid_pu : string;
  trace_low_frame_rate : string;
  trace_max_duration : string;
  trace_missed_cycles : string;
  trace_rampup_boost_active : string;
  trace_uclamp_min_ceiling : string;
  trace_uclamp_min_floor : string;
  trace_modes : list string;
  trace_votes : list string;
  trace_cpu_duration : string;
  trace_gpu_duration : string;
  trace_gpu_capacity : string;
  trace_game_mode_fps : string;
  trace_game_mode_fps_jitters : string
}.

(** [StringPrintf("adpf.%s-%s", idString, name)] *)
Definition trace_name (idString name : string) : string := "adpf." +:+ idString +:+ "-" +:+ name.

(** [static_cast<AdpfVoteType>(i)] for the indices of the array. *)
Definition vote_types : list AdpfVoteType :=
  [CPU_VOTE_DEFAULT; CPU_LOAD_UP; CPU_LOAD_RESET; CPU_LOAD_RESUME; VOTE_POWER_EFFICIENCY; GPU_LOAD_UP; GPU_LOAD_DOWN;
   GPU_LOAD_RESET; GPU_CAPACITY].

Section traces.
(** [toString(static_cast<SessionMode>(i))] and [enum_size<SessionMode>()],
    which the interface definition generates. *)
Context (mode_toString : nat -> string) (mode_count : nat).

Definition new_AppDescriptorTrace (idString : string) : AppDescriptorTrace :=
  {| trace_pid_err := trace_name idString "pid.err";
     trace_pid_integral := trace_name idString "pid.integral";
     trace_pid_derivative := trace_name idString "pid.derivative";
     trace_pid_pOut := trace_name idString "pid.pOut";
     trace_pid_iOut := trace_name idString "pid.iOut";
     trace_pid_dOut := trace_name idString "pid.dOut";
     trace_pid_output := trace_name idString "pid.output";
     trace_target := trace_name idString "target";
     trace_active := trace_name idString "active";
     trace_add_threads := trace_name idString "add_threads";
     trace_actl_last := trace_name idString "act_last";
     trace_min := trace_name idString "min";
     trace_batch_size := trace_name idString "batch_size";
     trace_hint_count := trace_name idString "hint_count";
     trace_hint_overtime := trace_name idString "hint_overtime";
     trace_is_first_frame := trace_name idString "is_first_frame";
     trace_avg_duration := trace_name idString "hboost.avgDuration";
     trace_hboost_janky_level := trace_name idString "hboost.jankyLevel";
     trace_low_frame_rate := trace_name idString "hboost.isLowFrameRate";
     trace_max_duration := trace_name idString "hboost.maxDuration";
     trace_missed_cycles := trace_name idString "hboost.numOfMissedCycles";
     trace_uclamp_min_ceiling := trace_name idString "hboost.uclampMinCeiling";
     trace_uclamp_min_floor := trace_name idString "hboost.uclampMinFloor";
     trace_hboost_pid_pu := trace_name idString "hboost.uclampPidPu";
     trace_rampup_boost_active := trace_name idString "hboost.rampupBoostActive";
     trace_modes := (fun i => "adpf." +:+ idString +:+ "-" +:+ mode_toString i +:+ "_mode") <$> seq 0 mode_count;
     trace_votes := (fun v => "adpf." +:+ idString +:+ "-vote." +:+ AdpfVoteTypeToStr v) <$> vote_types;
     trace_cpu_duration := trace_name idString "cpu_duration";
     trace_gpu_duration := trace_name idString "gpu_duration";
     trace_gpu_capacity := trace_name idString "gpu_capacity";
     trace_game_mode_fps := "adpf.sf.gameModeFPS";
     trace_game_mode_fps_jitters := "adpf.sf.gameModeFPSJitters" |}.

(** The counters of one session; the last two counters are shared by all. *)
Definition session_counters (t : AppDescriptorTrace) : list string :=
  trace_modes t ++
  [trace_pid_err t; trace_pid_integral t; trace_pid_derivative t; trace_pid_pOut t; trace_pid_iOut t; trace_pid_dOut t;
   trace_pid_output t; trace_target t; trace_active t; trace_add_threads t; trace_actl_last t; trace_min t;
   trace_batch_size t; trace_hint_count t; trace_hint_overtime t; trace_is_first_frame t; trace_avg_duration t;
   trace_hboost_janky_level t; trace_hboost_pid_pu t; trace_low_frame_rate t; trace_max_duration t; trace_missed_cycles t;
   trace_rampup_boost_active t; trace_uclamp_min_ceiling t; trace_uclamp_min_floor t; trace_cpu_duration t;
   trace_gpu_duration t; trace_gpu_capacity t] ++ trace_votes t.

Definition shared_counters (t : AppDescriptorTrace) : list string := [trace_game_mode_fps t; trace_game_mode_fps_jitters t].

(** *** The parts of a name *)

Definition fixed_suffixes : list string :=
  ["pid.err"; "pid.integral"; "pid.derivative"; "pid.pOut"; "pid.iOut"; "pid.dOut"; "pid.output"; "target"; "active";
   "add_threads"; "act_last"; "min"; "batch_size"; "hint_count"; "hint_overtime"; "is_first_frame"; "hboost.avgDuration";
   "hboost.jankyLevel"; "hboost.uclampPidPu"; "hboost.isLowFrameRate"; "hboost.maxDuration"; "hboost.numOfMissedCycles";
   "hboost.rampupBoostActive"; "hboost.uclampMinCeiling"; "hboost.uclampMinFloor"; "cpu_duration"; "gpu_duration";
   "gpu_capacity"] ++ ((fun v => "vote." +:+ AdpfVoteTypeToStr v) <$> vote_types).

Definition suffixes : list string := ((fun i => mode_toString i +:+ "_mode") <$> seq 0 mode_count) ++ fixed_suffixes.

Lemma session_counters_suffixes (idString : string) :
  session_counters (new_AppDescriptorTrace idString) = trace_name idString <$> suffixes.
Proof.
  unfold session_counters, suffixes. rewrite fmap_app, <- list_fmap_compose. f_equal.
Qed.

End traces.

(** ** Names as joined parts *)

Lemma string_list_ascii_inj (s t : string) : String.list_ascii_of_string s = String.list_ascii_of_string t -> s = t.
Proof.
  intros E. by rewrite <- (String.string_of_list_ascii_of_string s), <- (String.string_of_list_ascii_of_string t), E.
Qed.

Lemma join_snoc (sep : string) (ps : list string) (x : string) :
  ps <> [] -> join sep (ps ++ [x]) = join sep ps +:+ sep +:+ x.
Proof.
  intros Hne. apply string_list_ascii_inj. induction ps as [| p ps IH]; [done |]. destruct ps as [| q ps].
  - done.
  - change (join sep ((p :: q :: ps) ++ [x])) with (p +:+ sep +:+ join sep ((q :: ps) ++ [x])).
    change (join sep (p :: q :: ps)) with (p +:+ sep +:+ join sep (q :: ps)).
    rewrite !String_list_ascii_app, IH by done. by rewrite !String_list_ascii_app, <- !app_assoc.
Qed.

Lemma digits_free (fuel : nat) (z : Z) : 0 <= z < 10 ^ Z.of_nat (S fuel) -> free_of "-" (String.string_of_list_ascii (dec_digits (S fuel) z [])).
Proof.
  intros Hz. destruct (dec_digits_spec fuel z [] Hz) as (d & ds & -> & F & _).
  unfold free_of. rewrite String.list_ascii_of_string_of_list_ascii, app_nil_r.
  intros (x & E & Hx)%list_elem_of_fmap. rewrite Forall_forall in F. pose proof (digit_not_minus x (F x Hx)) as Hm.
  by rewrite <- E in Hm.
Qed.

Lemma num_free (z : Z) : 0 <= z < 2 ^ 31 -> free_of "-" (String.string_of_list_ascii (std_to_string z)).
Proof. intros Hz. unfold std_to_string. destruct (Z.ltb_spec z 0); [lia |]. apply (digits_free 9). simpl. lia. Qed.

Lemma num64_free (z : Z) : 0 <= z < 2 ^ 63 -> free_of "-" (String.string_of_list_ascii (to_string_i64 z)).
Proof. intros Hz. unfold to_string_i64. destruct (Z.ltb_spec z 0); [lia |]. apply (digits_free 18). simpl. lia. Qed.

Lemma num64_inj (a b : Z) : 0 <= a < 2 ^ 63 -> 0 <= b < 2 ^ 63 ->
  String.string_of_list_ascii (to_string_i64 a) = String.string_of_list_ascii (to_string_i64 b) -> a = b.
Proof.
  intros Ha Hb E. apply (f_equal stoll) in E. change (stoll (to_text a) = stoll (to_text b)) in E.
  rewrite <- (String_app_nil_r (to_text a)), <- (String_app_nil_r (to_text b)), !stoll_to_text in E;
    [congruence | unfold is_i64; lia | done | unfold is_i64; lia | done].
Qed.

(** The text of the parts of an id string. *)
Definition id_parts (tgid uid sid : Z) (tag : SessionTag) (pt : ProcessTag) : list string :=
  let num z := String.string_of_list_ascii (std_to_string z) in
  [num tgid; num uid; String.string_of_list_ascii (to_string_i64 sid); SessionTag_toString tag;
   num match pt with PROC_DEFAULT => 0 | PROC_SYSTEM_UI => 1 | PROC_CHROME => 2 end].

Definition valid_ids (tgid uid sid : Z) : Prop := 0 <= tgid < 2 ^ 31 /\ 0 <= uid < 2 ^ 31 /\ 0 <= sid < 2 ^ 63.

Lemma id_string_join (tgid uid sid : Z) (tag : SessionTag) (pt : ProcessTag) :
  id_string tgid uid sid tag pt = join "-" (id_parts tgid uid sid tag pt).
Proof. reflexivity. Qed.

Lemma id_parts_free (tgid uid sid : Z) (tag : SessionTag) (pt : ProcessTag) :
  valid_ids tgid uid sid -> Forall (free_of "-") (id_parts tgid uid sid tag pt).
Proof.
  intros (Ht & Hu & Hs). repeat constructor; auto using num_free, num64_free.
  - destruct tag; apply (bool_decide_unpack _); vm_compute; exact I.
  - destruct pt; apply num_free; lia.
Qed.

(** A name tells its session and its counter. *)
Lemma trace_name_inj (t u s t' u' s' : Z) (tag tag' : SessionTag) (pt pt' : ProcessTag) (x x' : string) :
  valid_ids t u s -> valid_ids t' u' s' -> free_of "-" x -> free_of "-" x' ->
  trace_name (id_string t u s tag pt) x = trace_name (id_string t' u' s' tag' pt') x' -> s = s' /\ x = x'.
Proof.
  intros Hv Hv' Hx Hx' E. unfold trace_name in E. rewrite !id_string_join, <- !join_snoc in E by done.
  apply (f_equal String.list_ascii_of_string) in E. rewrite !String_list_ascii_app in E. apply app_inv_head in E.
  apply (f_equal (split_acc "-" [])) in E. rewrite !split_acc_join in E;
    [| done | apply Forall_app; split; [by apply id_parts_free | by constructor] | done
     | apply Forall_app; split; [by apply id_parts_free | by constructor]].
  apply app_inj_2 in E as [E1 E2]; [| done]. unfold id_parts in E1. injection E1 as _ _ E3 _ _. injection E2 as ->.
  split; [| done]. destruct Hv as (_ & _ & Hs), Hv' as (_ & _ & Hs'). by apply num64_inj.
Qed.

Section counters.
Context (mode_toString : nat -> string) (mode_count : nat).
Hypothesis mode_free : forall i, (i < mode_count)%nat -> free_of "-" (mode_toString i).
Hypothesis mode_inj : forall i j, (i < mode_count)%nat -> (j < mode_count)%nat -> mode_toString i = mode_toString j -> i = j.

(** The last five characters. *)
Definition last5 (s : string) : list ascii := take 5 (rev (String.list_ascii_of_string s)).

Lemma last5_mode (s : string) : last5 (s +:+ "_mode") = last5 "_mode".
Proof. unfold last5. rewrite String_list_ascii_app, rev_app_distr. reflexivity. Qed.

Lemma suffixes_free : Forall (free_of "-") (suffixes mode_toString mode_count).
Proof.
  apply Forall_app. split; [| apply (bool_decide_unpack _); vm_compute; exact I].
  apply Forall_fmap, Forall_forall. intros i Hi. apply elem_of_seq in Hi. apply free_of_app; [apply mode_free; lia |].
  apply (bool_decide_unpack _); vm_compute; exact I.
Qed.

Lemma suffixes_distinct : NoDup (suffixes mode_toString mode_count).
Proof.
  apply NoDup_app. split_and!.
  - apply NoDup_fmap_2_strong; [| apply NoDup_seq]. intros i j Hi Hj E. apply elem_of_seq in Hi, Hj.
    apply mode_inj; [lia | lia |]. apply (f_equal String.list_ascii_of_string) in E.
    rewrite !String_list_ascii_app in E. apply app_inv_tail in E. by apply string_list_ascii_inj.
  - intros x (i & -> & _)%list_elem_of_fmap Hx.
    assert (Forall (fun s => last5 s <> last5 "_mode") fixed_suffixes) as Hf by (apply (bool_decide_unpack _); vm_compute; exact I).
    rewrite Forall_forall in Hf. by apply (Hf _ Hx), last5_mode.
  - apply (bool_decide_unpack _); vm_compute; exact I.
Qed.

Lemma trace_name_dashed (t u s : Z) (tag : SessionTag) (pt : ProcessTag) (x : string) :
  "-"%char ∈ String.list_ascii_of_string (trace_name (id_string t u s tag pt) x).
Proof.
  unfold trace_name. rewrite !String_list_ascii_app. apply elem_of_app. right. apply elem_of_app. right.
  apply elem_of_app. left. by constructor.
Qed.

End counters.

(** Trace counters are never mixed up: all counters a session reports under
    have different names, and no counter of a session has the name of a counter
    of a session with another id, whatever client, tag or process either has.
    The names of the session modes come from the interface definition: they
    are distinct identifiers. *)
Theorem trace_counters_unique (mode_toString : nat -> string) (mode_count : nat)
    (mode_free : forall i, (i < mode_count)%nat -> free_of "-" (mode_toString i))
    (mode_inj : forall i j, (i < mode_count)%nat -> (j < mode_count)%nat -> mode_toString i = mode_toString j -> i = j)
    (t u s t' u' s' : Z) (tag tag' : SessionTag) (pt pt' : ProcessTag)
    (Hv : valid_ids t u s) (Hv' : valid_ids t' u' s') :
  let tr := new_AppDescriptorTrace mode_toString mode_count (id_string t u s tag pt) in
  let tr' := new_AppDescriptorTrace mode_toString mode_count (id_string t' u' s' tag' pt') in
  NoDup (session_counters tr ++ shared_counters tr) /\
  (s <> s' -> forall x, x ∈ session_counters tr -> x ∉ session_counters tr').
Proof.
  intros tr tr'. pose proof (suffixes_free mode_toString mode_count mode_free) as Hf. rewrite Forall_forall in Hf.
  unfold tr, tr'. rewrite !session_counters_suffixes. split.
  - apply NoDup_app. split_and!.
    + apply NoDup_fmap_2_strong; [| by apply suffixes_distinct]. intros x y Hx Hy E.
      by apply (trace_name_inj t u s t u s tag tag pt pt x y Hv Hv (Hf x Hx) (Hf y Hy)) in E as [_ ->].
    + intros x (y & -> & _)%list_elem_of_fmap Hx. pose proof (trace_name_dashed t u s tag pt y) as Hd. unfold shared_counters in Hx.
      rewrite !elem_of_cons in Hx. destruct Hx as [E | [E | Hx]]; [| | by apply not_elem_of_nil in Hx];
        rewrite E in Hd; revert Hd; apply (bool_decide_unpack _); vm_compute; exact I.
    + apply (bool_decide_unpack _); vm_compute; exact I.
  - intros Hne x (y & -> & Hy)%list_elem_of_fmap (z & E & Hz)%list_elem_of_fmap. apply Hne.
    by apply (trace_name_inj t u s t' u' s' tag tag' pt pt' y z Hv Hv' (Hf y Hy) (Hf z Hz)).
Qed.

Definition example_mode_name (i : nat) : string :=
  match i with 0%nat => "POWER_EFFICIENCY" | 1%nat => "GRAPHICS_PIPELINE" | _ => "AUTO_CPU" end.

Lemma trace_counters_unique_witness :
  trace_target (new_AppDescriptorTrace example_mode_name 3 (id_string 1000 10100 7 TAG_APP PROC_DEFAULT)) = "adpf.1000-10100-7-APP-0-target" /\
  "adpf.1000-10100-7-APP-0-target" ∉
    session_counters (new_AppDescriptorTrace example_mode_name 3 (id_string 1000 10100 8 TAG_APP PROC_DEFAULT)).
Proof.
  split; [reflexivity |].
  refine (proj2 (trace_counters_unique example_mode_name 3 _ _ 1000 10100 7 1000 10100 8 TAG_APP TAG_APP PROC_DEFAULT PROC_DEFAULT _ _) _ _ _).
  - intros i Hi. do 3 (destruct i as [| i]; [apply (bool_decide_unpack _); vm_compute; exact I |]). lia.
  - intros i j Hi Hj. do 3 (destruct i as [| i]; [do 3 (destruct j as [| j]; [(reflexivity || discriminate) |]); lia |]). lia.
  - unfold valid_ids. lia.
  - unfold valid_ids. lia.
  - discriminate.
  - apply (bool_decide_unpack _); vm_compute; exact I.
Defined.

(** ** [main] *)

(** What the hint manager, the task profiles and the binder library answer. *)
Record MainAnswers := mkMainAnswers {
  hm_GetInstance : bool;          (** not null *)
  SetTaskProfiles : bool;
  AIBinder_setExtension : bool;   (** [STATUS_OK] *)
  AServiceManager_addService : bool
}.

Inductive MainEffect :=
| Main_SetTaskProfiles (profiles : list string)
| Main_setThreadPoolMaxThreadCount (n : Z)
| Main_setMinSchedulerPolicy (nice : Z)
| Main_setExtension
| Main_addService (instance : string)
| Main_initThread
| Main_joinThreadPool.

Definition kPowerHalInitProp : string := "vendor.powerhal.init".

Section main.
Context {W : Type} (descriptor : string) (a : MainAnswers).

(** What [main] does, in order, and the service it leaves running; [None] when
    a check aborts the process.  [hal] is what the constructors build. *)
Definition power_main (hal : PowerHal W) : list MainEffect * option (PowerHal W) :=
  if negb (hm_GetInstance a) then ([], None)
  else
    let log := [Main_SetTaskProfiles ["PreferIdleSet"]; Main_setThreadPoolMaxThreadCount 0;
                Main_setMinSchedulerPolicy (-20); Main_setMinSchedulerPolicy (-20); Main_setExtension] in
    if negb (AIBinder_setExtension a) then (log, None)
    else
      let log := log ++ [Main_addService (descriptor +:+ "/default")] in
      if negb (AServiceManager_addService a) then (log, None)
      else (log ++ [Main_initThread; Main_joinThreadPool], Some hal).

End main.

(** The thread that [main] detaches: [None] while it waits for the property;
    then it starts the looper of the hint manager and connects the thermal
    listener. *)
Definition init_thread (property : string -> string) (e : ThermalAnswers) (t : ThermalStateListener)
    : option (bool * ThermalStateListener) :=
  if String.eqb (property kPowerHalInitProp) "1" then Some (true, (thermal_init e t).2) else None.

(** The process serves exactly when no check failed, with the extension
    attached before the service is published and the initialisation started
    after; a process that aborts has published nothing, unless the publication
    itself was what failed. *)
Lemma power_main_order {W : Type} (descriptor : string) (a : MainAnswers) (hal : PowerHal W) :
  let '(log, r) := power_main descriptor a hal in
  let published := Main_addService (descriptor +:+ "/default") in
  (r = Some hal <-> hm_GetInstance a = true /\ AIBinder_setExtension a = true /\ AServiceManager_addService a = true) /\
  (forall i, log !! i = Some published -> log !! pred i = Some Main_setExtension /\ AIBinder_setExtension a = true) /\
  (Main_initThread ∈ log -> r = Some hal /\ published ∈ log).
Proof.
  unfold power_main. destruct (hm_GetInstance a), (AIBinder_setExtension a), (AServiceManager_addService a); cbn [negb];
    (split_and!; [naive_solver | |]).
  all: try (intros Hin; rewrite ?elem_of_app in Hin; set_solver).
  all: intros i Hi; do 9 (destruct i as [| i]; [by cbn in Hi; simplify_eq |]); by cbn in Hi.
Qed.
